(* ===== verification/_CoqProject ===== *)
-Q . S2P
Prelude.v
RustStr.v
Domain.v
Authn.v
Oidc.v
Http.v
Codec.v
Store.v
OAuthStore.v
ClientStore.v
SessionStore.v
Directory.v
Lifecycle.v
AccountStore.v
AuditStore.v
MfaStore.v
OutboxStore.v
Handler.v
KeyStore.v
RateLimit.v
ConsentStore.v
OAuthPolicy.v
IpAddr.v
RequestContext.v
BrowserSession.v
Mfa.v
AuthorizeRequest.v
Authorize.v
Login.v
Delivery.v
AccountRoutes.v
Listing.v
ScimProtocol.v
ScimQuery.v
ScimInput.v
Config.v
ScimWellFormed.v
ScimFilters.v
ScimProjections.v
Frames.v
StatementFrames.v
AdminRoutes.v
SessionRoutes.v
Logout.v
AdminClients.v
Administration.v
ScimRoutes.v
ScimListings.v
ScimBulk.v
ScimJobs.v
Provisioning.v
MfaRaces.v
MfaRoutes.v
TokenEndpoint.v
TokenStatus.v
Concurrency.v
CutOff.v
Metadata.v
KeyRotation.v
Operator.v
AuditOperations.v
EvidenceRedaction.v
EvidenceFields.v
FileSystem.v
Evidence.v
EvidenceRegistry.v
EvidenceReport.v
EvidencePlan.v
Mcp.v
Samples.v
Races.v
Witnesses.v
LoginWitnesses.v
MailWitnesses.v
SessionWitnesses.v
OperatorWitnesses.v
EvidenceWitnesses.v
ReportWitnesses.v
AdminWitnesses.v
ScimWitnesses.v
