(* ===== verification/Prelude.v ===== *)
(** * Cairn Identity: a verification library

    This library models the core of Cairn Identity, an OpenID Connect and
    account service written in Rust, and proves that it keeps the promises an
    identity provider makes: a credential is redeemed once, a locked-out user
    stays out, a token is what its grant says, the last administrator cannot
    be removed, inputs
    are parsed one way only, and the evidence a release is judged by is what
    the service printed.

    ** The program and the files

    The service is a set of crates under [src/crates] and the HTTP service
    [src/apps/api].  A request is parsed ([apps/api/src/http]), checked
    against the rules of [crates/oidc], [crates/authn] and [crates/domain],
    and run as a sequence of SQL statements of [crates/database] against one
    PostgreSQL database.  The operator's commands of [crates/operations] run
    against the same database, and check the receipts of drills and releases.
    The files follow that order; a comment
    [(* path:lines symbol *)] before a definition names the code it
    translates, relative to [src/].

    - [Prelude]: fallible code as [result] with its notations, tactics, hint
      databases, lists, tables as finite maps ([update_where], [select_where],
      [update_row]), [ORDER BY].
    - [RustStr]: the [str] and [String] methods the program uses, on byte
      strings: trimming, splitting, ASCII case, UTF-8, integers as text.
    - [Domain]: [crates/domain]'s records, enumerations and validators.
    - [Authn]: [crates/authn]'s PKCE, token hashes, constant-time comparison.
    - [Oidc]: [crates/oidc]'s authorization request validation, scopes,
      prompts, claims documents, redirects, error texts, ID tokens, userinfo.
    - [Http]: [apps/api/src/http]'s urlencoded codec, OAuth forms, media
      types, client authentication, bearer tokens, [ApiError].
    - [Codec], [Store]: the rows of [crates/database], the tables of
      infra/migrations as one [Database] record, the statement monad [DB],
      transactions and the schema's constraints.
    - [OAuthStore], [ClientStore], [SessionStore], [Directory], [Lifecycle],
      [AccountStore], [AuditStore], [MfaStore], [OutboxStore], [KeyStore],
      [RateLimit], [ConsentStore]: one file per group of operations of [crates/database]:
      codes and tokens; clients; sessions; users, groups and memberships; user
      lifecycle, SCIM provisioning and bootstrap; account tokens, password
      change and recovery; the audit log; second factors and WebAuthn
      challenges; the e-mail outbox; signing keys; rate limit buckets; consent grants.  One
      definition per operation, every statement and early return included.
    - [Handler]: a request handler as a program [Prog] whose statements stay
      visible, run alone ([run]) or interleaved with others in a pool whose
      statements may fail before or after taking effect ([pool_step]).
    - [OAuthPolicy], [TokenEndpoint], [TokenStatus]: the checks of the OAuth
      endpoints and the endpoints: /token with its three grants,
      introspection, revocation, userinfo.
    - [IpAddr]: addresses as text and the networks of trusted proxies.
    - [RequestContext], [BrowserSession]: what a page knows of its request
      (client address, rate limit keys, audit context, notification e-mails),
      the session cookie, CSRF, and the guards of the pages.
    - [AuthorizeRequest], [Authorize]: the authorization endpoint and giving
      and revoking a consent.
    - [Mfa], [Login], [MfaRoutes]: checking a second factor; login,
      reauthentication, password change and bootstrap; the pages that enroll,
      list and revoke factors.
    - [Delivery]: the e-mail worker: rendering a message with its link, the
      provider, the rounds that claim, send and mark.
    - [AccountRoutes]: invitations, e-mail verification, password recovery:
      queueing a link and the pages behind it.
    - [Listing]: the query strings of the listings, cursors and pages.
    - [SessionRoutes], [Logout]: the pages on one's own sessions; signing out
      from the page and through the ID token hint of a client.
    - [Config]: the environment the service starts from and its validation.
    - [Metadata]: the discovery document, the published keys and the
      middleware that sets the security headers.
    - [AdminRoutes], [AdminClients]: the pages of the administration: users,
      groups, memberships, the audit log; clients, secrets, policies and
      consents.  [Frames] and [StatementFrames] say what a handler and a
      statement leave alone (the audit log, the rows of other organizations),
      [Administration] takes the pages together.
    - [ScimProtocol], [ScimQuery], [ScimInput], [ScimRoutes], [ScimBulk]: the
      provisioning interface: errors, replies and the bearer token; filters,
      listing parameters and projections; resources and patches as they come
      in; operations and pages; bulk requests.  [ScimWellFormed],
      [ScimFilters], [ScimProjections], [ScimListings] and [ScimJobs] hold the
      theorems of each, [Provisioning] those on the pages together.
    - [KeyRotation], [Operator], [AuditOperations]: [crates/operations]: moving
      signing keys and links to a new key encryption key; break-glass, startup
      checks; purging and exporting the audit log.
    - [FileSystem]: paths, and a disk with directories, files and links.
    - [EvidenceRedaction], [EvidenceFields], [Evidence], [EvidenceRegistry],
      [EvidenceReport], [EvidencePlan]: the search for credentials in a file,
      the checks on fields, the validators of artifacts and of the receipts the
      commands print, what a release asks for, the directory that holds it, and
      the plan of what an environment still needs to capture it.
    - [Mcp]: [apps/mcp]: the server for tools that inspect the evidence below
      the directory it was started with.
    - [Concurrency], [CutOff], [Races], [MfaRaces]: requests together.
    - [Samples], [Witnesses], [LoginWitnesses], [MailWitnesses],
      [SessionWitnesses], [OperatorWitnesses], [EvidenceWitnesses],
      [ReportWitnesses], [AdminWitnesses], [ScimWitnesses]: a sample database and sample crates, and each theorem with hypotheses applied to them.

    ** The theorems

    - End to end.  However OAuth requests are interleaved and fail, one
      authorization code and one refresh token yield tokens at most once
      ([Concurrency], through the generic [Handler.one_winner]); a user who
      was suspended, locked or whose password was recovered gets nothing from
      any sequence of OAuth requests ([CutOff]); a concrete interleaving shows
      that an exchange already under way is not stopped by a password recovery
      ([Races]); however logins are interleaved, a recovery code and a passkey
      challenge each confirm one of them at most ([MfaRaces]).
    - Browser.  A code is issued only to a standing session, for a registered
      redirect URI, with a consent that covers its scopes; every redirect goes
      to a registered URI or to the web application; agreeing on the consent
      page leads to a code; the URL the browser returns to reads back as the
      request ([Authorize]).  A login opens a session only for the right
      password of an active user and a second factor when the user has one;
      five wrong logins within a window block their source ([Login]); factors change only in a
      recent session that has shown one, an enrolled authenticator accepts
      exactly its codes, a revoked factor is gone and takes the recovery codes
      with it when it was the last ([MfaRoutes]).
    - Sessions.  Signing out ends the session of the request, and a client's
      logout sends the browser only to an address registered for the client
      the ID token was issued to; an ID token once issued is good for a logout,
      however long expired ([Logout]); one's own pages show only one's own
      ([SessionRoutes]).
    - Configuration and documents.  What the service starts with is within
      its bounds, and a forwarding header counts only from a trusted proxy
      ([Config]); the endpoints, grants and parameters that discovery announces
      are those of the router and of the endpoints, and what the service
      signs stays verifiable through the changes of its keys ([Metadata]).
    - Operations.  Rotating the key encryption key is all or nothing and keeps
      every signing key and link readable, but strands the authenticators,
      which it does not re-encrypt ([KeyRotation]); break-glass restores an
      active owner and is recorded, and a service that starts has an
      organization ([Operator]); purging removes no audit event younger than
      the retention and reports what it removed, and exports one after the other make up the listing
      ([AuditOperations]).
    - Evidence.  The receipts of the operator's commands are accepted by the
      validators of the release; an artifact that passes is a fresh regular
      file without anything shaped like a credential ([Evidence]); a directory
      is ready exactly when it is complete, current and holds nothing else, and
      one just laid out passes the check of its scaffold ([EvidenceReport]); the
      plan names what the environment lacks ([EvidencePlan]); whatever a tool
      is asked, it looks only below its root, reads one directory without links
      and answers in fixed words and counts ([Mcp]); what is
      reported of a failure does not depend on the credential in it
      ([EvidenceRedaction]).
    - E-mail and accounts.  Any number of interleaved and failing workers
      refine an abstract mail queue, database by database: a message is claimed
      only when due, again only after the sending timeout or a retry, and never
      after it was sent or given up; and rounds that are spaced far
      enough drain the outbox whatever the provider answers ([Delivery]); the
      link in a message reads back as the secret it was drawn for, and a
      recovery changes a password only for a live token ([AccountRoutes]).
    - Listings.  Following the cursors of a listing yields exactly the rows of
      the one statement without a limit ([Listing]).
    - Administration.  A page that changes something does so only for an owner
      of the administrators group with a recent second factor and the CSRF
      token; it leaves exactly one audit event in their name when it succeeds
      and none when it fails, though a failure of the event itself leaves the
      change behind; it touches no row of another organization
      ([Administration]); the secret of a new client authenticates it until
      it is rotated, and then only the new one does ([AdminClients]).
    - Provisioning.  A page answers only to the bearer of a configured token;
      however many requests run at once and fail, no row of another
      organization is touched, and the administrators group, its members and
      its last active owner are out of reach ([Provisioning]); what a request
      is turned into is well formed, whatever came in, and a patch treats the
      members of a group as a set ([ScimWellFormed]); a filter is read back
      condition by condition, whatever its texts ([ScimFilters]); a reply shows what was asked for
      ([ScimProjections]) within bounds ([ScimListings]); a bulk job ends with
      one response per operation, and no operation succeeds on a reference
      that was not created ([ScimJobs]).
    - Endpoints.  Each grant, introspection, revocation and userinfo succeeds
      exactly under the stated conditions, with the exact database and reply;
      refused calls change nothing, except that reuse of a refresh token
      revokes its family; every token in a reply is backed by stored rows;
      a refresh never widens scopes.
    - Store.  Redemption and rotation are atomic compare-and-set operations;
      family revocation, client disabling and redirect or scope changes,
      session rotation, password change and recovery, suspension and SCIM
      updates have exactly the stated effects and touch nothing else; account
      tokens are single-use; the protected group never loses its last active
      owner; at most one signing key is active; rows decode exactly when
      their enumerations are known; the rate limiter blocks after exactly the
      configured number of failures.
    - Protocol and parsing.  Validation of authorization requests, PKCE,
      scopes and prompts; the urlencoded codec round trip; one client
      authentication method per request; one bearer token transport; error
      texts and redirect parameters cannot break out of their syntax; e-mail
      normalization; private keys survive encryption and rotation.

    ** What is a parameter

    Code that is not under [src/] is a parameter: [CryptoCrates] (SHA-256,
    base64, Argon2 verification), [Argon2Hash], [Base64Decode], [SerdeJson],
    [TokenCrates] (JWT encoding, UUID text), [UuidCrate], [HttpCrates] (header
    maps), [UrlCrate], [UrlParts], [AesGcm], [TotpCrate], [WebAuthnCrate],
    [TimeFormat], [TimeNanos], [Rfc3339Parse], and the mail command
    ([Delivery.MailCommand]), and, of the provisioning interface, serde's
    decoding of documents ([ScimInput.ScimSerde] for values, functions of the
    pages for bodies), [HeaderValue::from_str], the order in which a set of
    indices iterates, and, of the rest, [HeaderValues], [JwtDecode],
    [UrlHostText], [KeyBytes] and [RsaKeys], the disk ([Disk]), the calendar
    ([Calendar]) and the text of a manifest ([ManifestText]); the
    validators of the kinds of evidence that are left out are arguments of
    [Evidence.check_artifact].  The only laws assumed of any of them are that
    AES-GCM decrypts what it encrypted ([KeyStore.aes_round_trip]), that
    base64 decodes what it encoded ([MfaRoutes.base64_round_trip]), what
    [Listing.cursor_crates] says of the text of a cursor, that a token decodes
    to the claims it was encoded from ([jwt_round_trip]), that UUIDs,
    instants and manifests read back as they were printed (in [Evidence] and
    [EvidenceReport]), and that iterating
    over a set meets each element once (the hypothesis of [ScimJobs]), and only where a
    theorem says so; hash functions are not assumed injective, so the theorems on credentials speak
    of hashes.  [Samples] gives an instance of every class.

    ** Modelling decisions and bounds

    - Instants are exact integers of nanoseconds and do not overflow; UUIDs
      are natural numbers; the clock and the random generator are arguments
      ([TokenEndpoint.CallEnv]), so no theorem depends on freshness: where a
      fresh value is needed the theorem asks that the new rows are acceptable
      to the schema ([OAuthStore.insertable]) and an unacceptable row is an
      error of the call.
    - A transaction runs atomically and a single statement too; the gap
      between two statements of a handler is where other requests run.  The
      anomalies of PostgreSQL's READ COMMITTED inside one transaction are not
      modelled.
    - SQL constraints are checked where a statement can violate them; a
      connection failure is the [Fault] of a pool step.
    - Recursion is structural except where noted.  The loops of the code over
      rows are total functions on lists.  The reader of a listing
      ([Listing.walk_pages]) counts its requests, and its theorem shows that
      more requests than rows are enough; the rounds of a bulk job
      ([ScimBulk.run_rounds]) are as many as it has operations, which is
      enough because every round answers one or is the last ([ScimJobs]).
    - [HashMap] iteration order is observed only by a bulk job that gives up
      on operations, where it is a parameter; JSON objects are lists of
      entries in the order the code inserts them, and those of a request in
      the order of their keys, as [serde_json::Map] keeps them.
    - A handler of the provisioning interface has errors of its own:
      [HandlerOf] is a handler over any error type, [FromDatabaseError] what
      becomes of a failed statement.

    ** Not modelled, and what comes next

    The process of the mail provider, the smoke tests, the preflight tools,
    the command line and the TypeScript web application are
    I/O around the core.  Of the server for tools, serving and the schemas of
    the tools are left out, and so are Windows paths; the disk does not change
    while one request is answered.  Of the evidence, the validators of release assets,
    OIDC conformance runs, provisioning and e-mail are tables of field names
    over the checks that [EvidenceFields] models; they come next.  What a command prints is its result here, not an effect.

    Each endpoint and page also has its own specification among the lemmas of
    its file ([token_form_spec], [middleware_spec], [projection_spec],
    [accepted_configuration]), which the theorems above do not repeat. *)

From stdpp Require Export prelude gmap strings list fin_maps fin_sets.
From Stdlib Require Export ZArith Lia.

#[export] Set Default Goal Selector "!".

(** ** Fallible code: Rust's [Result] *)

Inductive result (E A : Type) : Type :=
| Ok (a : A)
| Err (e : E).
Arguments Ok {E A} a.
Arguments Err {E A} e.

#[export] Instance result_ret E : MRet (result E) := fun A a => Ok a.
#[export] Instance result_bind E : MBind (result E) := fun A B k r =>
  match r with Ok a => k a | Err e => Err e end.
#[export] Instance result_fmap E : FMap (result E) := fun A B f r =>
  match r with Ok a => Ok (f a) | Err e => Err e end.

#[export] Instance result_eq_dec E A `{EqDecision E, EqDecision A} : EqDecision (result E A).
Proof. solve_decision. Defined.

(** [Result::map_err], [Option::ok_or] and [Result::is_ok]. *)
Definition map_err {E F A} (f : E -> F) (r : result E A) : result F A :=
  match r with Ok a => Ok a | Err e => Err (f e) end.
Definition ok_or {E A} (o : option A) (e : E) : result E A :=
  match o with Some a => Ok a | None => Err e end.
Definition is_ok {E A} (r : result E A) : bool :=
  match r with Ok _ => true | Err _ => false end.

Declare Scope cairn_scope.
Delimit Scope cairn_scope with cairn.
Notation "'let?' x ':=' c 'in' k" := (mbind (M := result _) (fun x => k) c)
  (at level 10, x pattern, k at level 200) : cairn_scope.
(** [require c e in k]: the early return [if !c { return Err(e) }]. *)
Notation "'require' c 'else' e 'in' k" := (if c then k else Err e)
  (at level 10, c at level 100, e at level 100, k at level 200) : cairn_scope.
#[global] Open Scope cairn_scope.

Lemma map_err_Ok {E F A} (f : E -> F) (r : result E A) a : map_err f r = Ok a <-> r = Ok a.
Proof. destruct r; simpl; split; congruence. Qed.

Lemma ok_or_Ok {E A} (o : option A) (e : E) a : ok_or o e = Ok a <-> o = Some a.
Proof. destruct o; simpl; split; congruence. Qed.

Lemma ok_or_Err {E A} (o : option A) (e e' : E) : ok_or o e = Err e' <-> o = None /\ e = e'.
Proof. destruct o; simpl; split; intuition congruence. Qed.

Lemma result_bind_Ok {E A B} (k : A -> result E B) r b :
  mbind k r = Ok b <-> exists a, r = Ok a /\ k a = Ok b.
Proof.
  destruct r as [a|e]; simpl; split; try (intros [? [? ?]]); try congruence; eauto.
  all: naive_solver.
Qed.

(** [collect::<Result<Vec<_>, _>>()]: the first error, or all the values. *)
Fixpoint collect_results {E A B} (f : A -> result E B) (l : list A) : result E (list B) :=
  match l with
  | [] => Ok []
  | a :: rest => let? b := f a in let? bs := collect_results f rest in Ok (b :: bs)
  end.
Lemma collect_results_Ok {E A B} (f : A -> result E B) l bs :
  collect_results f l = Ok bs <-> Forall2 (fun a b => f a = Ok b) l bs.
Proof.
  revert bs. induction l as [|a l IH]; intros bs; simpl.
  - split; [intros [= <-]; constructor|by inversion 1].
  - rewrite result_bind_Ok. setoid_rewrite result_bind_Ok. setoid_rewrite IH. split.
    + intros (b & Hb & bs' & Hbs & [= <-]). by constructor.
    + inversion 1; subst. eauto 10.
Qed.
(** The elements with their positions, as the calls of a random generator
    number them. *)
Lemma collect_indexed_Ok {E A B} (f : nat * A -> result E B) l bs :
  collect_results f (imap pair l) = Ok bs -> Forall2 (fun a b => exists i, f (i, a) = Ok b) l bs.
Proof.
  rewrite collect_results_Ok. intros H. apply Forall2_same_length_lookup_2.
  - apply Forall2_length in H. by rewrite length_imap in H.
  - intros i a b Ha Hb. exists i. apply (Forall2_lookup_lr _ _ _ i _ _ H); [|done].
    by rewrite list_lookup_imap, Ha.
Qed.
Lemma collect_results_ok {E A B} (f : A -> result E B) l :
  (forall a, a ∈ l -> exists b, f a = Ok b) -> exists bs, collect_results f l = Ok bs.
Proof.
  induction l as [|a l IH]; intros Hall; simpl; [by eexists|].
  destruct (Hall a) as [b ->]; [left|]. simpl.
  destruct IH as [bs ->]; [intros x Hx; apply Hall; by right|]. by eexists.
Qed.

Lemma is_ok_true {E A} (r : result E A) : is_ok r = true <-> exists a, r = Ok a.
Proof. destruct r; naive_solver. Qed.

(** ** Tactics *)

(** Destructs the scrutinee of the outermost [match] or [if] of a hypothesis. *)
Ltac break_match_in H :=
  match type of H with
  | context [match ?x with _ => _ end] =>
      lazymatch x with
      | context [match _ with _ => _ end] => fail
      | _ => let E := fresh "E" in destruct x eqn:E
      end
  end.
Ltac break_goal :=
  match goal with
  | |- context [match ?x with _ => _ end] =>
      lazymatch x with
      | context [match _ with _ => _ end] => fail
      | _ => let E := fresh "E" in destruct x eqn:E
      end
  end.
Ltac inv_ok H := simplify_eq/=; repeat (break_match_in H; simplify_eq/=).
Ltac bool_prop :=
  repeat match goal with
  | H : _ && _ = true |- _ => apply andb_true_iff in H as [? ?]
  | H : _ || _ = false |- _ => apply orb_false_iff in H as [? ?]
  | H : negb _ = true |- _ => apply negb_true_iff in H
  | H : negb _ = false |- _ => apply negb_false_iff in H
  | H : bool_decide _ = true |- _ => apply bool_decide_eq_true in H
  | H : bool_decide _ = false |- _ => apply bool_decide_eq_false in H
  | H : (_ <? _)%Z = true |- _ => apply Z.ltb_lt in H
  | H : (_ <? _)%Z = false |- _ => apply Z.ltb_ge in H
  | H : (_ <=? _)%Z = true |- _ => apply Z.leb_le in H
  | H : (_ <=? _)%Z = false |- _ => apply Z.leb_gt in H
  | H : (_ <? _)%nat = true |- _ => apply Nat.ltb_lt in H
  | H : (_ <? _)%nat = false |- _ => apply Nat.ltb_ge in H
  | H : (_ <=? _)%nat = true |- _ => apply Nat.leb_le in H
  | H : (_ <=? _)%nat = false |- _ => apply Nat.leb_gt in H
  end.

Create HintDb cairn.
Create Rewrite HintDb cairn.

(** ** Lists *)

(** [iter().any(|x| x == a)] *)
Definition contains {A} `{EqDecision A} (l : list A) (a : A) : bool := bool_decide (a ∈ l).

Lemma contains_true {A} `{EqDecision A} (l : list A) a : contains l a = true <-> a ∈ l.
Proof. apply bool_decide_eq_true. Qed.
Lemma contains_false {A} `{EqDecision A} (l : list A) a : contains l a = false <-> a ∉ l.
Proof. apply bool_decide_eq_false. Qed.

Lemma forallb_elem {A} (f : A -> bool) l : forallb f l = true <-> (forall x, x ∈ l -> f x = true).
Proof. rewrite forallb_forall. setoid_rewrite list_elem_of_In. done. Qed.
Lemma existsb_elem {A} (f : A -> bool) l : existsb f l = true <-> (exists x, x ∈ l /\ f x = true).
Proof. rewrite existsb_exists. setoid_rewrite list_elem_of_In. done. Qed.
Lemma existsb_elem_false {A} (f : A -> bool) l :
  existsb f l = false <-> (forall x, x ∈ l -> f x = false).
Proof.
  rewrite <- not_true_iff_false, existsb_elem. split.
  - intros H x Hx. apply not_true_iff_false. naive_solver.
  - intros H (x & Hx & Hf). rewrite H in Hf; done.
Qed.
#[export] Hint Rewrite @contains_true @contains_false @forallb_elem @existsb_elem
  @existsb_elem_false : cairn.

(** [for x in l { if !acc.contains(x) { acc.push(x) } }]: the values in order
    of first occurrence. *)
Definition push_unique {A} `{EqDecision A} (acc : list A) (x : A) : list A :=
  if contains acc x then acc else acc ++ [x].

Lemma push_unique_NoDup {A} `{EqDecision A} (acc : list A) x :
  NoDup acc -> NoDup (push_unique acc x).
Proof.
  unfold push_unique. destruct (contains acc x) eqn:E; [done|]. intros Hd.
  apply contains_false in E. apply NoDup_app. split_and!; [done| |apply NoDup_singleton].
  intros y Hy ->%list_elem_of_singleton. done.
Qed.
Lemma push_unique_elem {A} `{EqDecision A} (acc : list A) x y :
  y ∈ push_unique acc x <-> y ∈ acc \/ y = x.
Proof.
  unfold push_unique. destruct (contains acc x) eqn:E.
  - apply contains_true in E. naive_solver.
  - rewrite elem_of_app, list_elem_of_singleton. done.
Qed.
Lemma push_unique_fresh {A} `{EqDecision A} (acc : list A) x :
  x ∉ acc -> push_unique acc x = acc ++ [x].
Proof. intros H. unfold push_unique. apply contains_false in H. by rewrite H. Qed.
#[export] Hint Resolve push_unique_NoDup : cairn.

Lemma fold_push_unique_NoDup {A} `{EqDecision A} (l acc : list A) :
  NoDup acc -> NoDup (fold_left push_unique l acc).
Proof. revert acc. induction l; cbn; auto with cairn. Qed.
Lemma fold_push_unique_elem {A} `{EqDecision A} (l acc : list A) y :
  y ∈ fold_left push_unique l acc <-> y ∈ acc \/ y ∈ l.
Proof.
  revert acc. induction l as [|x l IH]; intros acc; cbn.
  - rewrite elem_of_nil. tauto.
  - rewrite IH, push_unique_elem, elem_of_cons. tauto.
Qed.
Lemma fold_push_unique_id {A} `{EqDecision A} (l acc : list A) :
  NoDup (acc ++ l) -> fold_left push_unique l acc = acc ++ l.
Proof.
  revert acc. induction l as [|x l IH]; intros acc Hd; cbn; [by rewrite app_nil_r|].
  rewrite push_unique_fresh.
  - rewrite IH; rewrite <- app_assoc; done.
  - apply NoDup_app in Hd as (_ & Hx & _). intros Hin. apply (Hx x Hin). left.
Qed.
#[export] Hint Resolve fold_push_unique_NoDup : cairn.

(** A list has as many members as entries exactly when it has no duplicates. *)
Lemma size_list_to_set_NoDup {A} `{Countable A} (l : list A) :
  size (list_to_set l : gset A) = length l <-> NoDup l.
Proof.
  split; [|apply size_list_to_set].
  assert (Hle : forall l' : list A, size (list_to_set l' : gset A) <= length l').
  { intros l'. induction l' as [|y l' IH]; cbn; [done|].
    rewrite size_union_alt, size_singleton.
    pose proof (subseteq_size (list_to_set l' ∖ {[y]}) (list_to_set l' : gset A)
      ltac:(set_solver)). lia. }
  induction l as [|x l IH]; cbn; intros Hsz; [constructor|].
  destruct (decide (x ∈ l)) as [Hin|Hin].
  - rewrite subseteq_union_1_L in Hsz by (set_solver).
    specialize (Hle l). lia.
  - rewrite size_union, size_singleton in Hsz by set_solver. constructor; [done|]. apply IH. lia.
Qed.

(** Each one related to the one before it, from [x] on, and where it ends. *)
Fixpoint chained {A} (R : A -> A -> Prop) (x : A) (l : list A) : Prop :=
  match l with [] => True | y :: l => R x y /\ chained R y l end.
Lemma default_last_cons {A} (x y : A) l : default x (last (y :: l)) = default y (last l).
Proof. rewrite last_cons. by destruct (last l). Qed.

(** ** SQL tables

    A table is a finite map from its primary key to its rows.  [update_where]
    is [UPDATE t SET f WHERE P], [count_where] the number of rows a [WHERE]
    clause selects (so [rows_affected] of the update), [select_where] the
    rows of a [SELECT ... WHERE P] in key order. *)

Section tables.
Context {K V : Type} `{Countable K}.
Implicit Types (m : gmap K V) (P : V -> bool) (f : V -> V).

Definition update_where P f m : gmap K V :=
  (fun v => if P v then f v else v) <$> m.

Definition select_where P m : list V :=
  List.filter P (map_to_list m).*2.

Definition count_where P m : nat := length (select_where P m).

Lemma lookup_update_where P f m k :
  update_where P f m !! k = (fun v => if P v then f v else v) <$> m !! k.
Proof. apply lookup_fmap. Qed.

Lemma lookup_update_where_Some P f m k v' :
  update_where P f m !! k = Some v' <->
  exists v, m !! k = Some v /\ v' = if P v then f v else v.
Proof. rewrite lookup_update_where, fmap_Some. done. Qed.

Lemma update_where_None P f m k : update_where P f m !! k = None <-> m !! k = None.
Proof. rewrite lookup_update_where. by rewrite fmap_None. Qed.

Lemma elem_of_select_where P m v :
  v ∈ select_where P m <-> exists k, m !! k = Some v /\ P v = true.
Proof.
  unfold select_where. rewrite list_elem_of_In, filter_In, <- list_elem_of_In.
  rewrite list_elem_of_fmap. split.
  - intros [([k w] & -> & Hin) HP]. apply elem_of_map_to_list in Hin. eauto.
  - intros (k & Hk & HP). split; [|done]. exists (k, v). split; [done|].
    by apply elem_of_map_to_list.
Qed.

(** The rows of a table that is keyed by [id] have different [id]s. *)
Lemma select_where_NoDup (id : V -> K) P m :
  map_Forall (fun k v => id v = k) m -> NoDup (id <$> select_where P m).
Proof.
  intros Hm. unfold select_where.
  assert (Hk : id <$> (map_to_list m).*2 = (map_to_list m).*1).
  { rewrite <- list_fmap_compose. apply list_fmap_ext. intros i [k v] Hi.
    apply list_elem_of_lookup_2, elem_of_map_to_list in Hi. by apply Hm. }
  pose proof (NoDup_fst_map_to_list m) as Hnd. rewrite <- Hk in Hnd. clear Hk.
  induction (map_to_list m).*2 as [|v vs IH]; [done|]. cbn in *.
  apply NoDup_cons in Hnd as [Hv Hnd]. specialize (IH Hnd). destruct (P v); [|done]. cbn.
  apply NoDup_cons. split; [|done]. intros Hin. apply Hv.
  apply list_elem_of_fmap in Hin as (w & Hw & Hin). apply list_elem_of_fmap. exists w. split; [done|].
  apply list_elem_of_In, filter_In in Hin as [Hin _]. by apply list_elem_of_In.
Qed.

Lemma count_where_zero P m :
  count_where P m = 0 <-> (forall k v, m !! k = Some v -> P v = false).
Proof.
  unfold count_where. rewrite length_zero_iff_nil. split.
  - intros Hn k v Hk. apply not_true_iff_false. intros HP.
    assert (Hin : v ∈ select_where P m) by (apply elem_of_select_where; eauto).
    rewrite Hn in Hin. by apply not_elem_of_nil in Hin.
  - intros Hall. destruct (select_where P m) as [|v l] eqn:E; [done|].
    assert (Hin : v ∈ select_where P m) by (rewrite E; left).
    apply elem_of_select_where in Hin as (k & Hk & HP).
    rewrite (Hall k v Hk) in HP. done.
Qed.

Lemma count_where_pos P m :
  0 < count_where P m <-> exists k v, m !! k = Some v /\ P v = true.
Proof.
  split.
  - unfold count_where. destruct (select_where P m) as [|v l] eqn:E; simpl; [lia|].
    intros _. assert (Hin : v ∈ select_where P m) by (rewrite E; left).
    apply elem_of_select_where in Hin as (k & Hk & HP). eauto.
  - intros (k & v & Hk & HP).
    destruct (decide (count_where P m = 0)) as [Hz|Hz]; [|lia].
    rewrite count_where_zero in Hz. rewrite (Hz k v Hk) in HP. done.
Qed.

(** A [WHERE] clause on one row. *)
Lemma update_where_id P f m :
  (forall k v, m !! k = Some v -> P v = true -> f v = v) -> update_where P f m = m.
Proof.
  intros Hid. apply map_eq. intros k. rewrite lookup_update_where.
  destruct (m !! k) as [v|] eqn:E; simpl; [|done].
  destruct (P v) eqn:EP; [|done]. by rewrite (Hid k v).
Qed.

(** The update an operation makes to the single row with key [k] when the
    row satisfies the rest of its [WHERE] clause; the flag is
    [rows_affected() == 1]. *)
Definition update_row (k : K) P f m : bool * gmap K V :=
  match m !! k with
  | Some v => if P v then (true, <[k := f v]> m) else (false, m)
  | None => (false, m)
  end.

Lemma update_row_true k P f m m' :
  update_row k P f m = (true, m') <->
  exists v, m !! k = Some v /\ P v = true /\ m' = <[k := f v]> m.
Proof.
  unfold update_row. split.
  - intros Hx. break_match_in Hx; [|done]. break_match_in Hx; [|done].
    injection Hx as <-. eauto.
  - intros (v & -> & -> & ->). done.
Qed.
Lemma update_row_false k P f m m' :
  update_row k P f m = (false, m') <->
  m' = m /\ (forall v, m !! k = Some v -> P v = false).
Proof.
  unfold update_row. split.
  - intros Hx. break_match_in Hx; [break_match_in Hx; [done|]|]; injection Hx as <-;
      split; congruence.
  - intros [-> Hv]. destruct (m !! k) as [v|]; [|done]. by rewrite Hv.
Qed.

(** [DELETE FROM t WHERE P] *)
Definition delete_where P m : gmap K V := filter (fun kv => P kv.2 = false) m.

Lemma lookup_delete_where P m k v :
  delete_where P m !! k = Some v <-> m !! k = Some v /\ P v = false.
Proof. unfold delete_where. by rewrite map_lookup_filter_Some. Qed.

(** A query whose [WHERE] clause selects at most one row ([fetch_optional]). *)
Definition find_row P m : option V := head (select_where P m).

Lemma find_row_Some P m v : find_row P m = Some v -> exists k, m !! k = Some v /\ P v = true.
Proof.
  unfold find_row. intros Hh. apply elem_of_select_where. by apply head_Some_elem_of.
Qed.
Lemma find_row_None P m :
  find_row P m = None <-> (forall k v, m !! k = Some v -> P v = false).
Proof.
  rewrite <- count_where_zero. unfold find_row, count_where. by destruct (select_where P m).
Qed.
Lemma find_row_exists P m k v :
  m !! k = Some v -> P v = true -> is_Some (find_row P m).
Proof.
  intros Hk HP. destruct (find_row P m) eqn:E; [by eexists|].
  rewrite find_row_None in E. specialize (E k v Hk). congruence.
Qed.
(** With at most one candidate, the query finds that row. *)
Lemma find_row_unique P m k v :
  m !! k = Some v -> P v = true ->
  (forall k' v', m !! k' = Some v' -> P v' = true -> v' = v) ->
  find_row P m = Some v.
Proof.
  intros Hk HP Hu. destruct (find_row_exists P m k v Hk HP) as [v' Hv']. rewrite Hv'.
  apply find_row_Some in Hv' as (k' & Hk' & HP'). f_equal. by eapply Hu.
Qed.
End tables.

(** ** [ORDER BY] *)

Section order_by.
Context {A : Type} (le : A -> A -> bool).

Fixpoint insert_by (x : A) (l : list A) : list A :=
  match l with
  | [] => [x]
  | y :: l' => if le x y then x :: l else y :: insert_by x l'
  end.
Fixpoint order_by (l : list A) : list A :=
  match l with [] => [] | x :: l' => insert_by x (order_by l') end.

Lemma insert_by_perm x l : insert_by x l ≡ₚ x :: l.
Proof.
  induction l as [|y l IH]; cbn; [done|]. destruct (le x y); [done|].
  rewrite IH. apply Permutation_swap.
Qed.
Lemma order_by_perm l : order_by l ≡ₚ l.
Proof. induction l as [|x l IH]; cbn; [done|]. by rewrite insert_by_perm, IH. Qed.
Lemma elem_of_order_by x l : x ∈ order_by l <-> x ∈ l.
Proof. by rewrite order_by_perm. Qed.
End order_by.

