(* ===== verification/RustStr.v ===== *)
(** * Rust strings

    [String] and [&str] are modelled as the byte sequence of their UTF-8
    encoding, a Rocq [string]; [str::len], [str::bytes] and comparison are
    those of the byte sequence.  This file has the functions of [core::str]
    that the program calls: trimming and splitting on Unicode White_Space,
    splitting on an ASCII character, ASCII case folding, UTF-8 validation and
    decimal [i64] parsing.  The multi-byte White_Space characters are matched
    as byte sequences, which on a valid UTF-8 string matches whole characters,
    since a lead byte never occurs inside another character. *)

From S2P Require Import Prelude.
From stdpp Require Export pretty.
From Stdlib Require Import Ascii.
#[local] Open Scope N_scope.

(** ** Bytes *)

Definition byte (c : ascii) : N := N_of_ascii c.
Definition in_range (lo hi : N) (c : ascii) : bool := (lo <=? byte c) && (byte c <=? hi).

Lemma byte_bound c : byte c < 256.
Proof. apply N_ascii_bounded. Qed.

Definition is_ascii_upper (c : ascii) : bool := in_range 65 90 c.
Definition is_ascii_lower (c : ascii) : bool := in_range 97 122 c.
Definition is_ascii_digit (c : ascii) : bool := in_range 48 57 c.
Definition is_ascii_byte (c : ascii) : bool := byte c <? 128.
Definition is_ascii_control (c : ascii) : bool := in_range 0 31 c || (byte c =? 127).

(** [u8::to_ascii_lowercase] *)
Definition lower_byte (c : ascii) : ascii :=
  if is_ascii_upper c then ascii_of_N (byte c + 32) else c.

(** ** Strings as byte sequences *)

Fixpoint all_bytes (p : ascii -> bool) (s : string) : bool :=
  match s with EmptyString => true | String c s' => p c && all_bytes p s' end.
Definition any_byte (p : ascii -> bool) (s : string) : bool :=
  negb (all_bytes (fun c => negb (p c)) s).

Fixpoint map_bytes (f : ascii -> ascii) (s : string) : string :=
  match s with EmptyString => EmptyString | String c s' => String (f c) (map_bytes f s') end.

(** [bytes().flat_map(f).collect()] *)
Fixpoint flat_map_bytes (f : ascii -> string) (s : string) : string :=
  match s with EmptyString => EmptyString | String c s' => f c +:+ flat_map_bytes f s' end.

Definition is_empty (s : string) : bool :=
  match s with EmptyString => true | _ => false end.

(** [str::to_ascii_lowercase], [str::eq_ignore_ascii_case], [str::is_ascii] *)
Definition to_ascii_lowercase (s : string) : string := map_bytes lower_byte s.
Definition eq_ignore_ascii_case (a b : string) : bool :=
  bool_decide (to_ascii_lowercase a = to_ascii_lowercase b).
Definition is_ascii (s : string) : bool := all_bytes is_ascii_byte s.

(** [str::contains(char)] for an ASCII character *)
Definition contains_char (c : ascii) (s : string) : bool := any_byte (Ascii.eqb c) s.

(** [u8::to_ascii_uppercase], [str::to_ascii_uppercase] *)
Definition upper_byte (c : ascii) : ascii :=
  if is_ascii_lower c then ascii_of_N (byte c - 32) else c.
Definition to_ascii_uppercase (s : string) : string := map_bytes upper_byte s.
(** [char::is_ascii_alphanumeric] *)
Definition is_ascii_alphanumeric (c : ascii) : bool :=
  is_ascii_digit c || is_ascii_lower c || is_ascii_upper c.

(** [str::matches(char).count()] *)
Fixpoint count_char (c : ascii) (s : string) : nat :=
  match s with
  | EmptyString => 0
  | String d s' => (if Ascii.eqb d c then 1 else 0) + count_char c s'
  end%nat.

(** [str::split(char)]: the pieces between the occurrences, at least one. *)
Fixpoint split_char (c : ascii) (s : string) : list string :=
  match s with
  | EmptyString => [EmptyString]
  | String d s' =>
      if Ascii.eqb d c then EmptyString :: split_char c s'
      else match split_char c s' with
           | p :: ps => String d p :: ps
           | [] => [String d EmptyString]
           end
  end.

(** [str::split_once(char)] *)
Fixpoint split_once (c : ascii) (s : string) : option (string * string) :=
  match s with
  | EmptyString => None
  | String d s' =>
      if Ascii.eqb d c then Some (EmptyString, s')
      else match split_once c s' with
           | Some (l, r) => Some (String d l, r)
           | None => None
           end
  end.

(** [[String]::join(sep)] *)
Fixpoint join (sep : string) (l : list string) : string :=
  match l with
  | [] => EmptyString
  | [x] => x
  | x :: l' => x +:+ sep +:+ join sep l'
  end.

Fixpoint strip_prefix (p s : string) : option string :=
  match p, s with
  | EmptyString, _ => Some s
  | String a p', String b s' => if Ascii.eqb a b then strip_prefix p' s' else None
  | String _ _, EmptyString => None
  end.
Definition starts_with (p s : string) : bool := bool_decide (is_Some (strip_prefix p s)).
Definition ends_with (p s : string) : bool := starts_with (String.rev p) (String.rev s).

(** [str::trim_end_matches(char)] *)
Fixpoint trim_start_matches (c : ascii) (s : string) : string :=
  match s with
  | String d s' => if Ascii.eqb d c then trim_start_matches c s' else s
  | EmptyString => EmptyString
  end.
Definition trim_end_matches (c : ascii) (s : string) : string :=
  String.rev (trim_start_matches c (String.rev s)).

(** [str::trim_matches(char)] *)
Definition trim_matches (c : ascii) (s : string) : string :=
  trim_end_matches c (trim_start_matches c s).

(** ** White_Space *)

(** One, two and three byte encodings of the White_Space characters: U+0009 to
    U+000D, U+0020; U+0085, U+00A0; U+1680, U+2000 to U+200A, U+2028, U+2029,
    U+202F, U+205F, U+3000. *)
Definition ws1 (a : ascii) : bool := in_range 9 13 a || (byte a =? 32).
Definition ws2 (a b : ascii) : bool :=
  (byte a =? 0xC2) && ((byte b =? 0x85) || (byte b =? 0xA0)).
Definition ws3 (a b c : ascii) : bool :=
  ((byte a =? 0xE1) && (byte b =? 0x9A) && (byte c =? 0x80))
  || ((byte a =? 0xE2) && (byte b =? 0x80)
      && (in_range 0x80 0x8A c || in_range 0xA8 0xA9 c || (byte c =? 0xAF)))
  || ((byte a =? 0xE2) && (byte b =? 0x81) && (byte c =? 0x9F))
  || ((byte a =? 0xE3) && (byte b =? 0x80) && (byte c =? 0x80)).

(** [u8::is_ascii_whitespace] does not include U+000B. *)
Definition is_ascii_whitespace (a : ascii) : bool :=
  (byte a =? 9) || (byte a =? 10) || (byte a =? 12) || (byte a =? 13) || (byte a =? 32).

(** The rest of the string after one leading White_Space character. *)
Definition strip_ws (s : string) : option string :=
  match s with
  | String a s1 =>
      if ws1 a then Some s1
      else match s1 with
           | String b s2 =>
               if ws2 a b then Some s2
               else match s2 with
                    | String c s3 => if ws3 a b c then Some s3 else None
                    | EmptyString => None
                    end
           | EmptyString => None
           end
  | EmptyString => None
  end.
(** The same on the reversed byte sequence. *)
Definition strip_ws_rev (s : string) : option string :=
  match s with
  | String c s1 =>
      if ws1 c then Some s1
      else match s1 with
           | String b s2 =>
               if ws2 b c then Some s2
               else match s2 with
                    | String a s3 => if ws3 a b c then Some s3 else None
                    | EmptyString => None
                    end
           | EmptyString => None
           end
  | EmptyString => None
  end.

Fixpoint strip_all (strip : string -> option string) (fuel : nat) (s : string) : string :=
  match fuel with
  | O => s
  | S fuel' => match strip s with Some s' => strip_all strip fuel' s' | None => s end
  end.
(** [str::trim_start], [str::trim_end], [str::trim]; every step shortens the
    string, so its length is enough fuel. *)
Definition trim_start (s : string) : string := strip_all strip_ws (String.length s) s.
Definition trim_end (s : string) : string :=
  String.rev (strip_all strip_ws_rev (String.length s) (String.rev s)).
Definition trim (s : string) : string := trim_end (trim_start s).

(** [str::find(char::is_whitespace)]: the string before and from the first
    White_Space character. *)
Fixpoint split_at_whitespace (s : string) : option (string * string) :=
  match strip_ws s with
  | Some _ => Some (EmptyString, s)
  | None =>
      match s with
      | EmptyString => None
      | String c rest =>
          match split_at_whitespace rest with
          | Some (before, from) => Some (String c before, from)
          | None => None
          end
      end
  end.

(** [str::split_whitespace]: the maximal runs of non-White_Space characters.
    [cur] is the current run, reversed. *)
Fixpoint words_fuel (fuel : nat) (cur s : string) : list string :=
  match fuel with
  | O => []
  | S fuel' =>
      match s with
      | EmptyString => if is_empty cur then [] else [String.rev cur]
      | String a s' =>
          match strip_ws s with
          | Some s1 =>
              if is_empty cur then words_fuel fuel' EmptyString s1
              else String.rev cur :: words_fuel fuel' EmptyString s1
          | None => words_fuel fuel' (String a cur) s'
          end
      end
  end.
Definition split_whitespace (s : string) : list string :=
  words_fuel (S (String.length s)) EmptyString s.

(** [str::split_ascii_whitespace] *)
Fixpoint split_ascii_ws (cur s : string) : list string :=
  match s with
  | EmptyString => if is_empty cur then [] else [String.rev cur]
  | String a s' =>
      if is_ascii_whitespace a
      then if is_empty cur then split_ascii_ws EmptyString s'
           else String.rev cur :: split_ascii_ws EmptyString s'
      else split_ascii_ws (String a cur) s'
  end.
Definition split_ascii_whitespace (s : string) : list string := split_ascii_ws EmptyString s.

(** ** UTF-8 validation: [str::from_utf8] *)

Definition cont (c : ascii) : bool := in_range 0x80 0xBF c.
Definition utf8_2 (a b : ascii) : bool := in_range 0xC2 0xDF a && cont b.
Definition utf8_3 (a b c : ascii) : bool :=
  (((byte a =? 0xE0) && in_range 0xA0 0xBF b)
   || (in_range 0xE1 0xEC a && cont b)
   || ((byte a =? 0xED) && in_range 0x80 0x9F b)
   || (in_range 0xEE 0xEF a && cont b)) && cont c.
Definition utf8_4 (a b c d : ascii) : bool :=
  (((byte a =? 0xF0) && in_range 0x90 0xBF b)
   || (in_range 0xF1 0xF3 a && cont b)
   || ((byte a =? 0xF4) && in_range 0x80 0x8F b)) && cont c && cont d.

Fixpoint utf8_valid (s : string) : bool :=
  match s with
  | EmptyString => true
  | String a s1 =>
      if is_ascii_byte a then utf8_valid s1
      else match s1 with
      | EmptyString => false
      | String b s2 =>
          if utf8_2 a b then utf8_valid s2
          else match s2 with
          | EmptyString => false
          | String c s3 =>
              if utf8_3 a b c then utf8_valid s3
              else match s3 with
              | EmptyString => false
              | String d s4 => utf8_4 a b c d && utf8_valid s4
              end
          end
      end
  end.

(** [str::chars().count()]: the bytes that do not continue a character. *)
Fixpoint chars_count (s : string) : nat :=
  match s with
  | EmptyString => O
  | String c rest => if cont c then chars_count rest else S (chars_count rest)
  end.
(** [str::get(..n)] with what follows: only at the end of a character. *)
Fixpoint split_at_byte (n : nat) (s : string) : option (string * string) :=
  match n, s with
  | O, EmptyString => Some (EmptyString, EmptyString)
  | O, String c _ => if cont c then None else Some (EmptyString, s)
  | S _, EmptyString => None
  | S m, String c rest =>
      match split_at_byte m rest with
      | Some (before, from) => Some (String c before, from)
      | None => None
      end
  end.

(** ** Decimal numbers: [str::parse::<i64>] and [i64::to_string] *)

Definition i64_min : Z := - 2 ^ 63.
Definition i64_max : Z := 2 ^ 63 - 1.
Definition i64_range (z : Z) : bool := (i64_min <=? z)%Z && (z <=? i64_max)%Z.

Fixpoint parse_digits (acc : Z) (s : string) : option Z :=
  match s with
  | EmptyString => Some acc
  | String c s' =>
      if is_ascii_digit c then parse_digits (acc * 10 + (Z.of_N (byte c) - 48))%Z s' else None
  end.
Definition parse_nat_str (s : string) : option Z :=
  if is_empty s then None else parse_digits 0 s.
Definition parse_signed (s : string) : option Z :=
  match s with
  | String "+"%char s' => parse_nat_str s'
  | String "-"%char s' => option_map Z.opp (parse_nat_str s')
  | _ => parse_nat_str s
  end.
Definition parse_i64 (s : string) : option Z :=
  match parse_signed s with Some z => if i64_range z then Some z else None | None => None end.
(** [str::parse::<i128>] *)
Definition i128_range (z : Z) : bool := (- 2 ^ 127 <=? z)%Z && (z <? 2 ^ 127)%Z.
Definition parse_i128 (s : string) : option Z :=
  match parse_signed s with Some z => if i128_range z then Some z else None | None => None end.

Definition i64_to_string (z : Z) : string := pretty z.

(** ** Lemmas *)

Lemma string_app_cons c a b : String c a +:+ b = String c (a +:+ b).
Proof. done. Qed.
Lemma is_empty_true s : is_empty s = true <-> s = "".
Proof. by destruct s. Qed.
Lemma string_app_nil_l a : "" +:+ a = a.
Proof. done. Qed.
Lemma string_app_nil_r s : s +:+ "" = s.
Proof. induction s as [|c s IH]; [done|]. by rewrite string_app_cons, IH. Qed.
Lemma string_app_assoc a b c : a +:+ (b +:+ c) = (a +:+ b) +:+ c.
Proof. induction a as [|x a IH]; [done|]. by rewrite !string_app_cons, IH. Qed.
Lemma string_length_app a b : String.length (a +:+ b) = (String.length a + String.length b)%nat.
Proof. induction a as [|x a IH]; [done|]. rewrite string_app_cons. cbn. by rewrite IH. Qed.
#[export] Hint Rewrite string_app_nil_r string_length_app : cairn.

Lemma string_len_ind (P : string -> Prop) :
  (forall s, (forall t, (String.length t < String.length s)%nat -> P t) -> P s) -> forall s, P s.
Proof.
  intros Hs s. remember (String.length s) as n eqn:Hn. revert s Hn.
  induction (lt_wf n) as [n _ IH]. intros s ->. apply Hs. eauto.
Qed.

Lemma rev_app_app a b : String.rev_app a b = String.rev a +:+ b.
Proof.
  unfold String.rev. revert b. induction a as [|c a IH]; intros b; [done|].
  cbn [String.rev_app]. rewrite IH, (IH (String c "")), <- string_app_assoc. done.
Qed.
Lemma rev_cons c a : String.rev (String c a) = String.rev a +:+ String c "".
Proof. unfold String.rev at 1. cbn [String.rev_app]. apply rev_app_app. Qed.
Lemma rev_app a b : String.rev (a +:+ b) = String.rev b +:+ String.rev a.
Proof.
  induction a as [|c a IH].
  - by rewrite string_app_nil_l, string_app_nil_r.
  - rewrite string_app_cons, !rev_cons, IH. by rewrite string_app_assoc.
Qed.
Lemma rev_rev a : String.rev (String.rev a) = a.
Proof. induction a as [|c a IH]; [done|]. by rewrite rev_cons, rev_app, IH. Qed.
Lemma rev_length a : String.length (String.rev a) = String.length a.
Proof.
  induction a as [|c a IH]; [done|].
  rewrite rev_cons, string_length_app, IH. cbn. lia.
Qed.
Lemma rev_inj a b : String.rev a = String.rev b -> a = b.
Proof. intros Hr. rewrite <- (rev_rev a), Hr. apply rev_rev. Qed.

(** *** Byte predicates *)

Lemma all_bytes_app p a b : all_bytes p (a +:+ b) = all_bytes p a && all_bytes p b.
Proof.
  induction a as [|c a IH]; [done|]. rewrite string_app_cons. cbn. by rewrite IH, andb_assoc.
Qed.
Lemma all_bytes_rev p s : all_bytes p (String.rev s) = all_bytes p s.
Proof.
  induction s as [|c s IH]; [done|]. rewrite rev_cons, all_bytes_app, IH. cbn.
  by rewrite andb_true_r, andb_comm.
Qed.
Lemma all_bytes_impl (p q : ascii -> bool) s :
  (forall c, p c = true -> q c = true) -> all_bytes p s = true -> all_bytes q s = true.
Proof.
  intros Hpq. induction s as [|c s IH]; cbn; [done|].
  intros [Hc Hs]%andb_true_iff. rewrite Hpq, IH; done.
Qed.
Lemma all_bytes_flat_map p f s :
  (forall c, all_bytes p (f c) = true) -> all_bytes p (flat_map_bytes f s) = true.
Proof.
  intros Hf. induction s as [|c s IH]; cbn; [done|]. by rewrite all_bytes_app, Hf, IH.
Qed.
Lemma all_bytes_map p f s :
  (forall c, p (f c) = true) -> all_bytes p (map_bytes f s) = true.
Proof. intros Hf. induction s as [|c s IH]; cbn; [done|]. by rewrite Hf, IH. Qed.
Lemma map_bytes_id f s :
  (forall c, f (f c) = f c) -> map_bytes f (map_bytes f s) = map_bytes f s.
Proof. intros Hf. induction s as [|c s IH]; cbn; [done|]. by rewrite Hf, IH. Qed.
Lemma map_bytes_length f s : String.length (map_bytes f s) = String.length s.
Proof. induction s as [|c s IH]; cbn; [done|]. by rewrite IH. Qed.
Lemma map_bytes_app f a b : map_bytes f (a +:+ b) = map_bytes f a +:+ map_bytes f b.
Proof.
  induction a as [|c a IH]; [done|]. rewrite !string_app_cons. cbn.
  by rewrite string_app_cons, IH.
Qed.
Lemma map_bytes_fix f s :
  all_bytes (fun c => Ascii.eqb (f c) c) s = true -> map_bytes f s = s.
Proof.
  induction s as [|c s IH]; cbn; [done|].
  intros [Hc%Ascii.eqb_eq Hs]%andb_true_iff. by rewrite Hc, IH.
Qed.
Lemma contains_char_false c s :
  contains_char c s = false <-> all_bytes (fun d => negb (Ascii.eqb c d)) s = true.
Proof. unfold contains_char, any_byte. by rewrite negb_false_iff. Qed.

(** A predicate on bytes, checked on all 256 of them. *)
Lemma all_ascii (p : ascii -> bool) :
  forallb p (map ascii_of_nat (seq 0 256)) = true -> forall c, p c = true.
Proof.
  intros Hall c. rewrite forallb_forall in Hall. apply Hall, in_map_iff.
  exists (nat_of_ascii c). split; [apply ascii_nat_embedding|].
  apply in_seq. pose proof (nat_ascii_bounded c). lia.
Qed.
Lemma lower_byte_idem c : lower_byte (lower_byte c) = lower_byte c.
Proof.
  apply Ascii.eqb_eq. revert c.
  apply (all_ascii (fun c => Ascii.eqb (lower_byte (lower_byte c)) (lower_byte c))).
  vm_compute. done.
Qed.
Lemma to_ascii_lowercase_idem s :
  to_ascii_lowercase (to_ascii_lowercase s) = to_ascii_lowercase s.
Proof. apply map_bytes_id, lower_byte_idem. Qed.

(** *** Splitting *)

Lemma split_char_nonempty c s : split_char c s <> [].
Proof.
  destruct s as [|d s]; cbn; [done|]. destruct (Ascii.eqb d c); [done|].
  by destruct (split_char c s).
Qed.

Lemma split_char_pieces c s p : p ∈ split_char c s -> contains_char c p = false.
Proof.
  revert p. induction s as [|d s IH]; intros p; cbn.
  - by intros ->%list_elem_of_singleton.
  - destruct (Ascii.eqb d c) eqn:E.
    + intros [->|Hp]%elem_of_cons; [done|]. by apply IH.
    + destruct (split_char c s) as [|q qs] eqn:Es; [by destruct (split_char_nonempty c s)|].
      intros [->|Hp]%elem_of_cons; [|apply IH; by right].
      specialize (IH q ltac:(left)). rewrite contains_char_false in IH |- *. cbn.
      rewrite Ascii.eqb_sym, E, IH. done.
Qed.

Lemma join_cons sep x l : l <> [] -> join sep (x :: l) = x +:+ sep +:+ join sep l.
Proof. by destruct l. Qed.

Lemma join_split_char c s : join (String c "") (split_char c s) = s.
Proof.
  induction s as [|d s IH]; [done|]. cbn [split_char].
  pose proof (split_char_nonempty c s) as Hne.
  destruct (Ascii.eqb_spec d c) as [->|_].
  - rewrite join_cons, IH by done. done.
  - destruct (split_char c s) as [|p ps]; [done|].
    destruct ps as [|q ps]; [by rewrite <- IH|].
    rewrite join_cons in IH |- * by done. by rewrite <- IH.
Qed.

Lemma split_char_none c s : contains_char c s = false -> split_char c s = [s].
Proof.
  rewrite contains_char_false. induction s as [|d s IH]; [done|]. cbn.
  rewrite Ascii.eqb_sym. destruct (Ascii.eqb d c); [done|]. cbn. intros Hs. by rewrite IH.
Qed.

Lemma split_char_app c a s :
  contains_char c a = false -> split_char c (a +:+ String c s) = a :: split_char c s.
Proof.
  rewrite contains_char_false. induction a as [|d a IH].
  - rewrite string_app_nil_l. cbn. by rewrite Ascii.eqb_refl.
  - rewrite string_app_cons. cbn. rewrite (Ascii.eqb_sym c d).
    destruct (Ascii.eqb d c); [done|]. cbn. intros Ha. by rewrite IH.
Qed.

Lemma split_char_join c l :
  l <> [] -> Forall (fun p => contains_char c p = false) l ->
  split_char c (join (String c "") l) = l.
Proof.
  intros Hne Hl. induction Hl as [|p l Hp Hl IH]; [done|].
  destruct l as [|q l].
  - cbn. by apply split_char_none.
  - rewrite join_cons, string_app_cons, string_app_nil_l, split_char_app by done. by rewrite IH.
Qed.

Lemma split_once_app c a s :
  contains_char c a = false -> split_once c (a +:+ String c s) = Some (a, s).
Proof.
  rewrite contains_char_false. induction a as [|d a IH].
  - rewrite string_app_nil_l. cbn. by rewrite Ascii.eqb_refl.
  - rewrite string_app_cons. cbn. rewrite (Ascii.eqb_sym c d).
    destruct (Ascii.eqb d c); [done|]. cbn. intros Ha. by rewrite IH.
Qed.

(** *** Trimming *)

Lemma strip_ws_shorter s s' : strip_ws s = Some s' -> (String.length s' < String.length s)%nat.
Proof.
  destruct s as [|a [|b [|c s]]]; cbn; intros H; inv_ok H; cbn; lia.
Qed.
Lemma strip_ws_rev_shorter s s' :
  strip_ws_rev s = Some s' -> (String.length s' < String.length s)%nat.
Proof.
  destruct s as [|a [|b [|c s]]]; cbn; intros H; inv_ok H; cbn; lia.
Qed.

Section strip_all.
Context (strip : string -> option string)
  (shorter : forall s s', strip s = Some s' -> (String.length s' < String.length s)%nat).

Lemma strip_all_done fuel s :
  (String.length s <= fuel)%nat -> strip (strip_all strip fuel s) = None.
Proof using shorter.
  revert s. induction fuel as [|n IH]; intros s Hs; cbn.
  - destruct (strip s) as [s'|] eqn:E; [|done]. apply shorter in E. lia.
  - destruct (strip s) as [s'|] eqn:E; [|done]. apply IH. apply shorter in E. lia.
Qed.
Lemma strip_all_id fuel s : strip s = None -> strip_all strip fuel s = s.
Proof. intros H. destruct fuel; cbn; [done|]. by rewrite H. Qed.
Lemma strip_all_length fuel s : (String.length (strip_all strip fuel s) <= String.length s)%nat.
Proof using shorter.
  revert s. induction fuel as [|n IH]; intros s; cbn; [lia|].
  destruct (strip s) as [s'|] eqn:E; [|lia]. apply shorter in E. specialize (IH s'). lia.
Qed.
Context (suffix : forall s s', strip s = Some s' -> exists p, s = p +:+ s').
Lemma strip_all_suffix fuel s : exists p, s = p +:+ strip_all strip fuel s.
Proof using suffix.
  revert s. induction fuel as [|n IH]; intros s; cbn; [by exists ""|].
  destruct (strip s) as [s'|] eqn:E; [|by exists ""].
  apply suffix in E as [p ->]. destruct (IH s') as [q Hq].
  exists (p +:+ q). rewrite <- string_app_assoc. by rewrite <- Hq.
Qed.
End strip_all.

Lemma strip_ws_suffix s s' : strip_ws s = Some s' -> exists p, s = p +:+ s'.
Proof.
  destruct s as [|a [|b [|c s]]]; cbn; intros H; inv_ok H;
    first [ by exists (String a "") | by exists (String a (String b ""))
          | by exists (String a (String b (String c ""))) ].
Qed.
Lemma strip_ws_rev_suffix s s' : strip_ws_rev s = Some s' -> exists p, s = p +:+ s'.
Proof.
  destruct s as [|a [|b [|c s]]]; cbn; intros H; inv_ok H;
    first [ by exists (String a "") | by exists (String a (String b ""))
          | by exists (String a (String b (String c ""))) ].
Qed.

(** A string without leading White_Space has none in any of its prefixes. *)
Lemma strip_ws_prefix a b : strip_ws (a +:+ b) = None -> strip_ws a = None.
Proof.
  destruct a as [|x [|y [|z a]]]; rewrite ?string_app_cons, ?string_app_nil_l; [done|..];
    cbn; intros H; inv_ok H; done.
Qed.

Lemma trim_start_strip s : strip_ws (trim_start s) = None.
Proof. apply strip_all_done; [apply strip_ws_shorter|lia]. Qed.
Lemma trim_end_strip s : strip_ws_rev (String.rev (trim_end s)) = None.
Proof.
  unfold trim_end. rewrite rev_rev.
  apply strip_all_done; [apply strip_ws_rev_shorter|]. rewrite rev_length. lia.
Qed.
Lemma trim_end_prefix s : exists p, s = trim_end s +:+ p.
Proof.
  unfold trim_end.
  destruct (strip_all_suffix strip_ws_rev strip_ws_rev_suffix (String.length s) (String.rev s))
    as [p Hp].
  exists (String.rev p). rewrite <- rev_app. apply rev_inj. rewrite rev_rev. done.
Qed.
Lemma trim_start_fix s : strip_ws s = None -> trim_start s = s.
Proof. apply strip_all_id. Qed.
Lemma trim_end_fix s : strip_ws_rev (String.rev s) = None -> trim_end s = s.
Proof. intros H. unfold trim_end. rewrite strip_all_id by done. apply rev_rev. Qed.

Lemma trim_no_ws s : strip_ws (trim s) = None /\ strip_ws_rev (String.rev (trim s)) = None.
Proof.
  split; [|apply trim_end_strip].
  destruct (trim_end_prefix (trim_start s)) as [p Hp].
  apply (strip_ws_prefix (trim s) p). unfold trim. rewrite <- Hp. apply trim_start_strip.
Qed.
Lemma trim_fix s :
  strip_ws s = None -> strip_ws_rev (String.rev s) = None -> trim s = s.
Proof. intros H1 H2. unfold trim. rewrite trim_start_fix, trim_end_fix; done. Qed.
Lemma trim_idem s : trim (trim s) = trim s.
Proof. destruct (trim_no_ws s). by apply trim_fix. Qed.

Lemma trim_length s : (String.length (trim s) <= String.length s)%nat.
Proof.
  unfold trim, trim_end. rewrite rev_length.
  etrans; [apply strip_all_length, strip_ws_rev_shorter|]. rewrite rev_length.
  apply strip_all_length, strip_ws_shorter.
Qed.
#[export] Hint Rewrite trim_idem to_ascii_lowercase_idem : cairn.

(** Case folding leaves White_Space alone. *)
Lemma lower_byte_high c :
  (byte c <? 65) = true \/ (128 <=? byte c) = true -> lower_byte c = c.
Proof.
  intros H. apply Ascii.eqb_eq.
  assert (Hc : implb ((byte c <? 65) || (128 <=? byte c)) (Ascii.eqb (lower_byte c) c) = true).
  { clear H. revert c. apply (all_ascii (fun c =>
      implb ((byte c <? 65) || (128 <=? byte c)) (Ascii.eqb (lower_byte c) c))).
    vm_compute. done. }
  destruct H as [H|H]; rewrite H in Hc; rewrite ?orb_true_r in Hc; done.
Qed.

(** *** UTF-8 *)

Lemma utf8_valid_app a b : utf8_valid a = true -> utf8_valid (a +:+ b) = utf8_valid b.
Proof.
  induction a as [a IH] using string_len_ind.
  destruct a as [|x a1]; [done|]. rewrite string_app_cons. cbn [utf8_valid].
  destruct (is_ascii_byte x); [apply IH; cbn; lia|].
  destruct a1 as [|y a2]; [done|]. rewrite string_app_cons.
  destruct (utf8_2 x y); [apply IH; cbn; lia|].
  destruct a2 as [|z a3]; [done|]. rewrite string_app_cons.
  destruct (utf8_3 x y z); [apply IH; cbn; lia|].
  destruct a3 as [|w a4]; [done|]. rewrite string_app_cons.
  destruct (utf8_4 x y z w); [|done]. apply IH; cbn; lia.
Qed.

Lemma ascii_utf8_valid s : is_ascii s = true -> utf8_valid s = true.
Proof.
  unfold is_ascii. induction s as [|c s IH]; cbn; [done|].
  intros [Hc Hs]%andb_true_iff. rewrite Hc. by apply IH.
Qed.

(** *** Decimal round trip *)

Lemma parse_digits_char n s acc :
  (n < 10)%N ->
  parse_digits acc (String (pretty_N_char n) s) = parse_digits (acc * 10 + Z.of_N n) s.
Proof.
  intros Hn. assert (Hb : byte (pretty_N_char n) = 48 + n).
  { assert (Hall : forall k, (k < 10)%nat ->
      byte (pretty_N_char (N.of_nat k)) = 48 + N.of_nat k) by (intros k Hk; by do 10 (destruct k; [done|]); lia).
    rewrite <- (N2Nat.id n). apply Hall. lia. }
  cbn [parse_digits]. unfold is_ascii_digit, in_range. rewrite Hb.
  rewrite (proj2 (N.leb_le 48 (48 + n))), (proj2 (N.leb_le (48 + n) 57)) by lia.
  cbn [andb]. f_equal. lia.
Qed.

Lemma parse_digits_pretty n s :
  (0 < n)%N -> parse_digits 0 (pretty_N_go n s) = parse_digits (Z.of_N n) s.
Proof.
  revert s. induction (N.lt_wf_0 n) as [n _ IH]. intros s Hn.
  rewrite pretty_N_go_step by done.
  pose proof (N.mod_lt n 10 ltac:(done)) as Hm.
  pose proof (N.div_mod n 10 ltac:(done)) as Hd.
  set (q := n / 10) in *. set (r := n mod 10) in *. clearbody q r.
  destruct (N.eq_dec q 0) as [->|E].
  - rewrite pretty_N_go_0, parse_digits_char by done. f_equal. lia.
  - rewrite IH by lia. rewrite parse_digits_char by done. f_equal. lia.
Qed.

Lemma parse_digits_N (n : N) : parse_nat_str (pretty n) = Some (Z.of_N n).
Proof.
  unfold pretty, pretty_N. destruct (decide (n = 0)) as [->|Hn]; [done|].
  unfold parse_nat_str. destruct (is_empty (pretty_N_go n "")) eqn:E.
  - destruct (pretty_N_go n "") eqn:E2; [|done].
    pose proof (parse_digits_pretty n "" ltac:(lia)) as H. rewrite E2 in H. cbn in H.
    assert (Z.of_N n = 0%Z) by congruence. lia.
  - by rewrite parse_digits_pretty by lia.
Qed.

Lemma pretty_N_first (n : N) :
  match pretty n with String c _ => is_ascii_digit c = true | EmptyString => False end.
Proof.
  pose proof (parse_digits_N n) as H. unfold parse_nat_str in H.
  destruct (pretty n) as [|c s]; cbn in H; [done|]. by destruct (is_ascii_digit c).
Qed.

Lemma parse_signed_pretty z : parse_signed (i64_to_string z) = Some z.
Proof.
  unfold parse_signed.
  unfold i64_to_string, pretty, pretty_Z.
  assert (Hpos : forall n : N, match pretty n with
              | String "+"%char s' => parse_nat_str s'
              | String "-"%char s' => option_map Z.opp (parse_nat_str s')
              | _ => parse_nat_str (pretty n) end = Some (Z.of_N n)).
  { intros n. rewrite <- (parse_digits_N n). pose proof (pretty_N_first n) as Hf.
    destruct (pretty n) as [|c s]; [done|].
    by destruct c as [[] [] [] [] [] [] [] []]. }
  destruct z as [|p|p].
  - done.
  - apply (Hpos (Npos p)).
  - change (option_map Z.opp (parse_nat_str (pretty (Npos p))) = Some (Z.neg p)).
    by rewrite parse_digits_N.
Qed.
Lemma parse_i64_pretty z : i64_range z = true -> parse_i64 (i64_to_string z) = Some z.
Proof. intros Hz. unfold parse_i64. by rewrite parse_signed_pretty, Hz. Qed.
Lemma parse_i128_pretty z : i128_range z = true -> parse_i128 (i64_to_string z) = Some z.
Proof. intros Hz. unfold parse_i128. by rewrite parse_signed_pretty, Hz. Qed.

(** *** Trimming keeps a byte property *)

Lemma trim_infix s : exists a b, s = a +:+ trim s +:+ b.
Proof.
  destruct (strip_all_suffix strip_ws strip_ws_suffix (String.length s) s) as [a Ha].
  fold (trim_start s) in Ha. destruct (trim_end_prefix (trim_start s)) as [b Hb].
  exists a, b. rewrite Ha at 1. f_equal. exact Hb.
Qed.
Lemma trim_all_bytes p s : all_bytes p s = true -> all_bytes p (trim s) = true.
Proof.
  destruct (trim_infix s) as (a & b & Hs). rewrite Hs at 1. rewrite !all_bytes_app.
  intros H. by bool_prop.
Qed.
Lemma to_ascii_lowercase_fixed s :
  all_bytes (fun c => Ascii.eqb (lower_byte c) c) (to_ascii_lowercase s) = true.
Proof. apply all_bytes_map. intros c. rewrite lower_byte_idem. apply Ascii.eqb_refl. Qed.
Lemma contains_char_app c a b :
  contains_char c (a +:+ b) = contains_char c a || contains_char c b.
Proof. unfold contains_char, any_byte. rewrite all_bytes_app. by rewrite negb_andb. Qed.

(** *** Trimming keeps UTF-8 valid *)

Lemma in_range_true lo hi c : in_range lo hi c = true <-> lo <= byte c <= hi.
Proof. unfold in_range. by rewrite andb_true_iff, !N.leb_le. Qed.

Lemma ws1_utf8 a : ws1 a = true -> utf8_valid (String a "") = true.
Proof.
  intros H. cbn. enough (is_ascii_byte a = true) as -> by done. unfold is_ascii_byte.
  unfold ws1 in H. rewrite orb_true_iff, in_range_true, N.eqb_eq in H. apply N.ltb_lt. lia.
Qed.
Lemma ws2_utf8 a b : ws2 a b = true -> utf8_valid (String a (String b "")) = true.
Proof.
  unfold ws2. rewrite andb_true_iff, orb_true_iff, !N.eqb_eq. intros [Ha Hb]. cbn.
  unfold is_ascii_byte, utf8_2, cont, in_range. by rewrite Ha; destruct Hb as [-> | ->].
Qed.
Lemma ws3_utf8 a b c : ws3 a b c = true -> utf8_valid (String a (String b (String c ""))) = true.
Proof.
  unfold ws3. rewrite !orb_true_iff, !andb_true_iff, !orb_true_iff, !in_range_true, !N.eqb_eq.
  intros H. cbn. unfold is_ascii_byte, utf8_2, utf8_3, cont, in_range.
  destruct H as [[[[[-> ->] ->]|[[-> ->] H]]|[[-> ->] ->]]|[[-> ->] ->]]; try done.
  assert (0x80 <= byte c <= 0xBF) as [H1 H2] by lia.
  apply N.leb_le in H1, H2. by rewrite H1, H2.
Qed.

(** A White_Space character is a valid piece. *)
Lemma strip_ws_piece s s' :
  strip_ws s = Some s' -> exists p, s = p +:+ s' /\ utf8_valid p = true.
Proof.
  destruct s as [|a [|b [|c s]]]; cbn [strip_ws]; intros H;
    repeat match type of H with context [if ?x then _ else _] => destruct x eqn:? end; simplify_eq;
    first [ by exists (String a ""); split; [|apply ws1_utf8]
          | by exists (String a (String b "")); split; [|apply ws2_utf8]
          | by exists (String a (String b (String c ""))); split; [|apply ws3_utf8] ].
Qed.
Lemma trim_start_utf8 s : utf8_valid s = true -> utf8_valid (trim_start s) = true.
Proof.
  unfold trim_start. generalize (String.length s) as fuel. intros fuel. revert s.
  induction fuel as [|fuel IH]; intros s Hs; cbn; [done|].
  destruct (strip_ws s) as [s'|] eqn:E; [|done]. apply IH.
  apply strip_ws_piece in E as (p & -> & Hp). by rewrite utf8_valid_app in Hs.
Qed.

Lemma utf8_2_cont a b : utf8_2 a b = true -> cont b = true.
Proof. unfold utf8_2. intros [_ ?]%andb_true_iff. done. Qed.
Lemma utf8_3_cont a b c : utf8_3 a b c = true -> cont b = true /\ cont c = true.
Proof.
  unfold utf8_3, cont. rewrite !andb_true_iff, !orb_true_iff, !andb_true_iff, !in_range_true.
  intros [H ?]. split; [|done]. destruct_or! H; destruct H; lia.
Qed.
Lemma utf8_4_cont a b c d :
  utf8_4 a b c d = true -> cont b = true /\ cont c = true /\ cont d = true.
Proof.
  unfold utf8_4, cont. rewrite !andb_true_iff, !orb_true_iff, !andb_true_iff, !in_range_true.
  intros [[H ?] ?]. split; [|done]. destruct_or! H; destruct H; lia.
Qed.

(** Cutting before a byte that starts a character. *)
Lemma utf8_valid_cut a x b :
  utf8_valid (a +:+ String x b) = true -> cont x = false -> utf8_valid a = true.
Proof.
  intros H Hx. induction a as [a IH] using string_len_ind.
  destruct a as [|x1 a]; [done|]. rewrite string_app_cons in H. cbn [utf8_valid] in *.
  destruct (is_ascii_byte x1); [apply IH; [cbn; lia|done]|].
  destruct a as [|x2 a]; [rewrite string_app_nil_l in H|rewrite string_app_cons in H].
  { destruct (utf8_2 x1 x) eqn:E2; [apply utf8_2_cont in E2; congruence|].
    destruct b as [|y b]; [done|].
    destruct (utf8_3 x1 x y) eqn:E3; [apply utf8_3_cont in E3 as [? _]; congruence|].
    destruct b as [|z b]; [done|]. apply andb_true_iff in H as [H _].
    apply utf8_4_cont in H as [? _]. congruence. }
  destruct (utf8_2 x1 x2); [apply IH; [cbn; lia|done]|].
  destruct a as [|x3 a]; [rewrite string_app_nil_l in H|rewrite string_app_cons in H].
  { destruct (utf8_3 x1 x2 x) eqn:E3; [apply utf8_3_cont in E3 as [_ ?]; congruence|].
    destruct b as [|z b]; [done|]. apply andb_true_iff in H as [H _].
    apply utf8_4_cont in H as (_ & ? & _). congruence. }
  destruct (utf8_3 x1 x2 x3); [apply IH; [cbn; lia|done]|].
  destruct a as [|x4 a]; [rewrite string_app_nil_l in H|rewrite string_app_cons in H].
  { apply andb_true_iff in H as [H _]. apply utf8_4_cont in H as (_ & _ & ?). congruence. }
  apply andb_true_iff in H as [-> H]. apply IH; [cbn; lia|done].
Qed.

(** The same from the end, where a White_Space character starts with a byte
    that is not a continuation. *)
Lemma ws_head_not_cont a :
  ws1 a = true \/ (exists b, ws2 a b = true) \/ (exists b c, ws3 a b c = true) -> cont a = false.
Proof.
  intros H. apply not_true_iff_false. unfold cont. rewrite in_range_true. intros Hc.
  destruct H as [H|[(b & H)|(b & c & H)]].
  - unfold ws1 in H. rewrite orb_true_iff, in_range_true, N.eqb_eq in H. lia.
  - unfold ws2 in H. rewrite andb_true_iff, N.eqb_eq in H. lia.
  - unfold ws3 in H. rewrite !orb_true_iff, !andb_true_iff, !N.eqb_eq in H.
    destruct_or! H; destruct_and! H; lia.
Qed.
Lemma strip_ws_rev_piece s s' :
  strip_ws_rev s = Some s' ->
  exists x b, String.rev s = String.rev s' +:+ String x b /\ cont x = false.
Proof.
  destruct s as [|c [|b [|a s]]]; cbn [strip_ws_rev]; intros H;
    repeat match type of H with context [if ?x then _ else _] => destruct x eqn:? end;
    simplify_eq;
    first [ exists c, ""; split; [rewrite ?rev_cons, <- ?string_app_assoc; done|apply ws_head_not_cont; auto; fail]
          | exists b, (String c ""); split; [rewrite ?rev_cons, <- ?string_app_assoc; done|apply ws_head_not_cont; eauto; fail]
          | exists a, (String b (String c "")); split; [rewrite ?rev_cons, <- ?string_app_assoc; done|apply ws_head_not_cont; eauto; fail] ].
Qed.
Lemma trim_end_utf8 s : utf8_valid s = true -> utf8_valid (trim_end s) = true.
Proof.
  unfold trim_end. generalize (String.length s) as fuel. intros fuel Hs.
  rewrite <- (rev_rev s) in Hs. revert Hs. generalize (String.rev s) as t. clear s.
  induction fuel as [|fuel IH]; intros t Ht; cbn [strip_all]; [done|].
  destruct (strip_ws_rev t) as [t'|] eqn:E; [|done]. apply IH.
  apply strip_ws_rev_piece in E as (x & b & E & Hx). rewrite E in Ht. by eapply utf8_valid_cut.
Qed.
Lemma trim_utf8 s : utf8_valid s = true -> utf8_valid (trim s) = true.
Proof. intros Hs. by apply trim_end_utf8, trim_start_utf8. Qed.

(** ** [str::contains(&str)] and [str::replace], for a pattern that is not empty *)

Fixpoint str_contains (pattern s : string) : bool :=
  starts_with pattern s
  || match s with EmptyString => false | String _ s' => str_contains pattern s' end.
(** [skip] counts the bytes of an occurrence still to be dropped. *)
Fixpoint str_replace_from (skip : nat) (pattern to s : string) : string :=
  match s with
  | EmptyString => EmptyString
  | String c s' =>
      match skip with
      | S skip => str_replace_from skip pattern to s'
      | O =>
          if starts_with pattern s
          then to +:+ str_replace_from (pred (String.length pattern)) pattern to s'
          else String c (str_replace_from O pattern to s')
      end
  end.
Definition str_replace (pattern to s : string) : string := str_replace_from O pattern to s.
