(* ===== verification/Domain.v ===== *)
(** * The domain crate

    The data of [crates/domain]: users, groups, OIDC clients, sessions,
    consents, authorization codes and refresh tokens as records with the
    source's fields, and its two string validators.  A comment of the form
    [(* path:lines symbol *)] before a definition names the Rust code it
    translates, relative to the repository.

    A [Uuid] is a 128-bit number, kept as an [N]; an [OffsetDateTime] is an
    instant in nanoseconds, a [Z].  The [url] crate is not under src/: the
    record type and accessors it offers are the class [UrlCrate]. *)

From S2P Require Import Prelude RustStr.
From Stdlib Require Import Ascii.

Abbreviation Uuid := N (only parsing).
Abbreviation OffsetDateTime := Z (only parsing).

(** [time::Duration] values in nanoseconds and [unix_timestamp], which is
    [floor] of the instant in seconds. *)
Definition duration_seconds (n : Z) : Z := n * 1000000000.
Definition duration_minutes (n : Z) : Z := duration_seconds (n * 60).
Definition duration_hours (n : Z) : Z := duration_minutes (n * 60).
Definition duration_days (n : Z) : Z := duration_minutes (n * 1440).
Definition unix_timestamp (t : OffsetDateTime) : Z := t / 1000000000.

(** ** Errors and validation *)

(* crates/domain/src/error.rs:2-13 DomainError *)
Inductive DomainError :=
| EmptyField (field : string)
| FieldTooLong (field : string) (max : nat)
| InvalidEmail
| InsecureRedirectUri
| UnregisteredRedirectUri.
#[export] Instance DomainError_eq_dec : EqDecision DomainError.
Proof. solve_decision. Defined.

(** [DomainError]'s [Display]. *)
(* crates/domain/src/error.rs:2-13 DomainError::to_string *)
Definition domain_error_text (e : DomainError) : string :=
  match e with
  | EmptyField field => "field `" +:+ field +:+ "` cannot be empty"
  | FieldTooLong field max =>
      "field `" +:+ field +:+ "` is too long; maximum length is " +:+ i64_to_string (Z.of_nat max)
  | InvalidEmail => "invalid email address"
  | InsecureRedirectUri => "redirect URI must use https, except localhost development URLs"
  | UnregisteredRedirectUri => "redirect URI is not registered for this client"
  end.

(* crates/domain/src/validation.rs:20-33 checked_string *)
Definition checked_string (field value : string) (max : nat) : result DomainError string :=
  let value := trim value in
  if is_empty value then Err (EmptyField field)
  else if (max <? String.length value)%nat then Err (FieldTooLong field max)
  else Ok value.

(* crates/domain/src/validation.rs:5-18 normalize_email *)
Definition normalize_email (email : string) : result DomainError string :=
  let? email := checked_string "email" (to_ascii_lowercase (trim email)) 320 in
  let has_single_at := Nat.eqb (count_char "@" email) 1 in
  let has_domain_dot :=
    match nth_error (split_char "@" email) 1 with
    | Some domain => contains_char "." domain
    | None => false
    end in
  if has_single_at && has_domain_dot then Ok email else Err InvalidEmail.

(** The accessors of [url::Url] the program uses. *)
Inductive Host := Host_Domain (name : string) | Host_Ipv4 (address : N) | Host_Ipv6 (address : N).
Definition Ipv4Addr_LOCALHOST : N := 0x7F000001.
Definition Ipv6Addr_LOCALHOST : N := 1.

Class UrlCrate := {
  Url : Type;
  Url_parse : string -> option Url;
  url_scheme : Url -> string;
  url_host : Url -> option Host;
  url_username : Url -> string;
  url_password : Url -> option string;
  url_fragment : Url -> option string;
  url_port : Url -> option N;
  url_cannot_be_a_base : Url -> bool;
}.

Definition is_none {A} (o : option A) : bool := match o with None => true | Some _ => false end.
Definition is_some {A} (o : option A) : bool := negb (is_none o).

Section redirect_uris.
  Context {UC : UrlCrate}.

(* crates/domain/src/validation.rs:66-68 has_authority_without_credentials *)
Definition has_authority_without_credentials (url : Url) : bool :=
  is_some (url_host url) && is_empty (url_username url) && is_none (url_password url).

(* crates/domain/src/validation.rs:35-44 is_https_url *)
Definition is_https_url (value : string) : bool :=
  match Url_parse value with
  | None => false
  | Some url =>
      bool_decide (url_scheme url = "https")
      && has_authority_without_credentials url
      && is_none (url_fragment url)
      && negb (url_cannot_be_a_base url)
  end.

(* crates/domain/src/validation.rs:46-64 is_localhost_http_url *)
Definition is_localhost_http_url (value : string) : bool :=
  match Url_parse value with
  | None => false
  | Some url =>
      let is_loopback_host :=
        match url_host url with
        | Some (Host_Domain name) => bool_decide (name = "localhost")
        | Some (Host_Ipv4 address) => N.eqb address Ipv4Addr_LOCALHOST
        | Some (Host_Ipv6 address) => N.eqb address Ipv6Addr_LOCALHOST
        | None => false
        end in
      bool_decide (url_scheme url = "http")
      && has_authority_without_credentials url
      && is_none (url_fragment url)
      && negb (url_cannot_be_a_base url)
      && is_some (url_port url)
      && is_loopback_host
  end.

(* crates/domain/src/oidc.rs:58-67 RedirectUri::parse *)
Definition RedirectUri_parse (value : string) : result DomainError string :=
  let? value := checked_string "redirect_uri" value 2048 in
  if is_https_url value || is_localhost_http_url value then Ok value
  else Err InsecureRedirectUri.
End redirect_uris.

(* crates/domain/src/organization.rs:8-11 Environment *)
Inductive Environment := Development | Production.
#[export] Instance Environment_eq_dec : EqDecision Environment.
Proof. solve_decision. Defined.

(** ** Users and groups *)

(* crates/domain/src/users.rs:8-12 UserStatus *)
Inductive UserStatus := UserStatus_Active | UserStatus_Suspended | UserStatus_Locked.
#[export] Instance UserStatus_eq_dec : EqDecision UserStatus.
Proof. solve_decision. Defined.

(* crates/domain/src/users.rs:15-30 User *)
Record User := mk_User {
  user_id : Uuid;
  user_organization_id : Uuid;
  user_email : string;
  user_scim_external_id : option string;
  user_email_verified : bool;
  user_display_name : string;
  user_status : UserStatus;
  user_created_at : OffsetDateTime;
  user_updated_at : OffsetDateTime;
  user_last_login_at : option OffsetDateTime;
}.

(** [id] is the [Uuid::new_v4()] and [now] the [OffsetDateTime::now_utc()] of the call. *)
(* crates/domain/src/users.rs:33-54 User::new *)
Definition User_new (id : Uuid) (now : OffsetDateTime)
    (organization_id : Uuid) (email display_name : string) : result DomainError User :=
  let? email := normalize_email email in
  let? display_name := checked_string "display_name" display_name 160 in
  Ok (mk_User id organization_id email None false display_name UserStatus_Active now now None).

(* crates/domain/src/organization.rs:14-20 Organization *)
Record Organization := mk_Organization {
  organization_id : Uuid;
  organization_slug : string;
  organization_display_name : string;
  organization_created_at : OffsetDateTime;
}.

(* crates/domain/src/organization.rs:23-36 Organization::new *)
Definition Organization_new (id : Uuid) (now : OffsetDateTime) (slug display_name : string)
    : result DomainError Organization :=
  let? slug := checked_string "slug" slug 80 in
  let? display_name := checked_string "display_name" display_name 160 in
  Ok (mk_Organization id slug display_name now).

(* crates/domain/src/groups.rs:6-15 Group *)
Record Group := mk_Group {
  group_id : Uuid;
  group_organization_id : Uuid;
  group_slug : string;
  group_scim_external_id : option string;
  group_display_name : string;
  group_created_at : OffsetDateTime;
}.

(* crates/domain/src/groups.rs:19-22 MembershipRole *)
Inductive MembershipRole := MembershipRole_Member | MembershipRole_Owner.
#[export] Instance MembershipRole_eq_dec : EqDecision MembershipRole.
Proof. solve_decision. Defined.

(* crates/domain/src/groups.rs:25-32 Membership *)
Record Membership := mk_Membership {
  membership_organization_id : Uuid;
  membership_user_id : Uuid;
  membership_group_id : Uuid;
  membership_role : MembershipRole;
  membership_created_at : OffsetDateTime;
}.

(** ** OIDC data *)

(* crates/domain/src/oidc.rs:11-15 OidcGrantType *)
Inductive OidcGrantType := AuthorizationCodeGrant | RefreshTokenGrant | ClientCredentialsGrant.
#[export] Instance OidcGrantType_eq_dec : EqDecision OidcGrantType.
Proof. solve_decision. Defined.

(* crates/domain/src/oidc.rs:18-24 OidcGrantType::as_protocol_value *)
Definition as_protocol_value (g : OidcGrantType) : string :=
  match g with
  | AuthorizationCodeGrant => "authorization_code"
  | RefreshTokenGrant => "refresh_token"
  | ClientCredentialsGrant => "client_credentials"
  end.

(* crates/domain/src/oidc.rs:29-32 OidcClientStatus *)
Inductive OidcClientStatus := ClientStatus_Active | ClientStatus_Disabled.
#[export] Instance OidcClientStatus_eq_dec : EqDecision OidcClientStatus.
Proof. solve_decision. Defined.

(* crates/domain/src/oidc.rs:36-39 ConsentGrantMode *)
Inductive ConsentGrantMode := RequiredOnce | AlwaysRequired.
#[export] Instance ConsentGrantMode_eq_dec : EqDecision ConsentGrantMode.
Proof. solve_decision. Defined.

(* crates/domain/src/oidc.rs:42-50 ConsentPolicyTemplate *)
Record ConsentPolicyTemplate := mk_ConsentPolicyTemplate {
  policy_id : Uuid;
  policy_organization_id : Uuid;
  policy_slug : string;
  policy_name : string;
  policy_grant_mode : ConsentGrantMode;
  policy_created_at : OffsetDateTime;
}.

(** A [RedirectUri] is its [value]. *)
(* crates/domain/src/oidc.rs:71-87 OidcClient *)
Record OidcClient := mk_OidcClient {
  client_uuid : Uuid;
  client_organization_id : Uuid;
  client_client_id : string;
  client_secret_hash : option string;
  client_consent_policy_template_id : option Uuid;
  client_name : string;
  client_redirect_uris : list string;
  client_post_logout_redirect_uris : list string;
  client_allowed_scopes : list string;
  client_grant_types : list OidcGrantType;
  client_public_client : bool;
  client_require_pkce : bool;
  client_status : OidcClientStatus;
  client_created_at : OffsetDateTime;
}.

(* crates/domain/src/oidc.rs:90-92 OidcClient::allows_redirect_uri *)
Definition allows_redirect_uri (c : OidcClient) (candidate : string) : bool :=
  existsb (fun uri => bool_decide (uri = candidate)) (client_redirect_uris c).

(* crates/domain/src/oidc.rs:94-98 OidcClient::allows_post_logout_redirect_uri *)
Definition allows_post_logout_redirect_uri (c : OidcClient) (candidate : string) : bool :=
  existsb (fun uri => bool_decide (uri = candidate)) (client_post_logout_redirect_uris c).

(* crates/domain/src/oidc.rs:100-102 OidcClient::allows_grant *)
Definition allows_grant (c : OidcClient) (grant_type : OidcGrantType) : bool :=
  contains (client_grant_types c) grant_type.

(* crates/domain/src/oidc.rs:106-118 AuthSession *)
Record AuthSession := mk_AuthSession {
  session_id : Uuid;
  session_organization_id : Uuid;
  session_user_id : Uuid;
  session_acr : string;
  session_amr : list string;
  session_created_at : OffsetDateTime;
  session_expires_at : OffsetDateTime;
  session_revoked_at : option OffsetDateTime;
}.

(* crates/domain/src/oidc.rs:121-131 ConsentGrant *)
Record ConsentGrant := mk_ConsentGrant {
  grant_id : Uuid;
  grant_organization_id : Uuid;
  grant_user_id : Uuid;
  grant_client_id : Uuid;
  grant_scopes : list string;
  grant_created_at : OffsetDateTime;
  grant_revoked_at : option OffsetDateTime;
}.

(* crates/domain/src/oidc.rs:134-148 ConsentAuthorization *)
Record ConsentAuthorization := mk_ConsentAuthorization {
  consent_id : Uuid;
  consent_organization_id : Uuid;
  consent_user_id : Uuid;
  consent_session_id : Uuid;
  consent_client_id : Uuid;
  consent_authorization_request_hash : string;
  consent_scopes : list string;
  consent_created_at : OffsetDateTime;
  consent_expires_at : OffsetDateTime;
  consent_consumed_at : option OffsetDateTime;
}.

(* crates/domain/src/oidc.rs:152-154 PkceMethod *)
Inductive PkceMethod := S256.

(* crates/domain/src/oidc.rs:157-174 AuthorizationCode *)
Record AuthorizationCode := mk_AuthorizationCode {
  code_code_hash : string;
  code_organization_id : Uuid;
  code_user_id : Uuid;
  code_session_id : Uuid;
  code_client_id : Uuid;
  code_redirect_uri : string;
  code_scopes : list string;
  code_nonce : option string;
  code_code_challenge : string;
  code_code_challenge_method : PkceMethod;
  code_created_at : OffsetDateTime;
  code_expires_at : OffsetDateTime;
  code_used_at : option OffsetDateTime;
}.

(* crates/domain/src/oidc.rs:177-193 RefreshToken *)
Record RefreshToken := mk_RefreshToken {
  refresh_id : Uuid;
  refresh_token_hash : string;
  refresh_family_id : Uuid;
  refresh_organization_id : Uuid;
  refresh_user_id : option Uuid;
  refresh_client_id : Uuid;
  refresh_scopes : list string;
  refresh_created_at : OffsetDateTime;
  refresh_expires_at : OffsetDateTime;
  refresh_rotated_at : option OffsetDateTime;
  refresh_revoked_at : option OffsetDateTime;
}.

(** ** Account tokens *)

(* crates/domain/src/accounts.rs:8-12 AccountTokenKind *)
Inductive AccountTokenKind := EmailVerification | PasswordRecovery | Invitation.
#[export] Instance AccountTokenKind_eq_dec : EqDecision AccountTokenKind.
Proof. solve_decision. Defined.

(** [serde_json::Value]: an object is its list of entries, one per key. *)
Inductive Value :=
| Null
| Bool (b : bool)
| Number (n : Z)
| String_ (s : string)
| Array (l : list Value)
| Object (entries : list (string * Value)).

(* crates/domain/src/accounts.rs:15-30 AccountToken *)
Record AccountToken := mk_AccountToken {
  account_token_id : Uuid;
  account_token_organization_id : Uuid;
  account_token_kind : AccountTokenKind;
  account_token_user_id : option Uuid;
  account_token_email : string;
  account_token_token_hash : string;
  account_token_created_by_user_id : option Uuid;
  account_token_created_at : OffsetDateTime;
  account_token_expires_at : OffsetDateTime;
  account_token_consumed_at : option OffsetDateTime;
  account_token_metadata : Value;
}.

(* crates/domain/src/email.rs:7-30 EmailOutboxMessage *)
Record EmailOutboxMessage := mk_EmailOutboxMessage {
  email_id : Uuid;
  email_organization_id : Uuid;
  email_recipient_email : string;
  email_subject : string;
  email_body_text : string;
  email_template : string;
  email_action_path : option string;
  email_delivery_token_ciphertext : option string;
  email_delivery_token_nonce : option string;
  email_status : string;
  email_attempts : Z;
  email_last_error : option string;
  email_provider_message_id : option string;
  email_metadata : Value;
  email_created_at : OffsetDateTime;
  email_updated_at : OffsetDateTime;
  email_next_attempt_at : option OffsetDateTime;
  email_sent_at : option OffsetDateTime;
}.

(* crates/domain/src/mfa.rs:8-12 MfaKind *)
Inductive MfaKind := MfaKind_Totp | MfaKind_WebAuthn | MfaKind_RecoveryCode.
#[export] Instance MfaKind_eq_dec : EqDecision MfaKind.
Proof. solve_decision. Defined.

(* crates/domain/src/audit.rs:9-13 AuditActorKind *)
Inductive AuditActorKind := ActorKind_User | ActorKind_Client | ActorKind_System.
#[export] Instance AuditActorKind_eq_dec : EqDecision AuditActorKind.
Proof. solve_decision. Defined.

(* crates/domain/src/mfa.rs:30-33 WebAuthnChallengeKind *)
Inductive WebAuthnChallengeKind := Registration | Authentication.
#[export] Instance WebAuthnChallengeKind_eq_dec : EqDecision WebAuthnChallengeKind.
Proof. solve_decision. Defined.

(* crates/domain/src/mfa.rs:36-48 WebAuthnChallenge *)
Record WebAuthnChallenge := mk_WebAuthnChallenge {
  challenge_id : Uuid;
  challenge_organization_id : Uuid;
  challenge_user_id : Uuid;
  challenge_kind : WebAuthnChallengeKind;
  challenge_state : Value;
  challenge_created_at : OffsetDateTime;
  challenge_expires_at : OffsetDateTime;
  challenge_consumed_at : option OffsetDateTime;
}.

(* crates/domain/src/mfa.rs:15-26 MfaCredential *)
Record MfaCredential := mk_MfaCredential {
  mfa_id : Uuid;
  mfa_organization_id : Uuid;
  mfa_user_id : Uuid;
  mfa_kind : MfaKind;
  mfa_label : string;
  mfa_secret_metadata : Value;
  mfa_created_at : OffsetDateTime;
  mfa_last_used_at : option OffsetDateTime;
}.

(* crates/domain/src/audit.rs:16-28 AuditEvent *)
Record AuditEvent := mk_AuditEvent {
  audit_id : Uuid;
  audit_organization_id : Uuid;
  audit_actor_kind : AuditActorKind;
  audit_actor_id : option Uuid;
  audit_action : string;
  audit_target : string;
  audit_ip_address : option string;
  audit_user_agent : option string;
  audit_metadata : Value;
  audit_created_at : OffsetDateTime;
}.

(* crates/domain/src/signing.rs:18-29 SigningKeyMaterial *)
Record SigningKeyMaterial := mk_SigningKeyMaterial {
  key_kid : string;
  key_algorithm : string;
  key_public_jwk : Value;
  key_private_key_ciphertext : string;
  key_private_key_nonce : string;
  key_signing_active : bool;
  key_created_at : OffsetDateTime;
  key_retired_at : option OffsetDateTime;
}.

(** ** Properties *)

Lemma checked_string_ok field value max v :
  checked_string field value max = Ok v <->
  v = trim value /\ v <> "" /\ (String.length v <= max)%nat.
Proof.
  unfold checked_string. split.
  - intros H. inv_ok H. bool_prop. split_and!; [done| |lia]. by destruct (trim value).
  - intros (-> & Hne & Hlen). destruct (is_empty (trim value)) eqn:E.
    + by destruct (trim value).
    + by rewrite (proj2 (Nat.ltb_ge _ _) Hlen).
Qed.

(** The shape of a normalised address. *)
Definition normal_email (e : string) : Prop :=
  trim e = e /\ to_ascii_lowercase e = e /\ (String.length e <= 320)%nat
  /\ exists mailbox host, e = mailbox +:+ String "@" host
     /\ contains_char "@" mailbox = false /\ contains_char "@" host = false
     /\ contains_char "." host = true.

Lemma count_char_zero c s : count_char c s = 0%nat <-> contains_char c s = false.
Proof.
  rewrite contains_char_false. induction s as [|d s IH]; cbn; [done|].
  rewrite Ascii.eqb_sym. destruct (Ascii.eqb c d) eqn:E; cbn; [|done]. split; [lia|done].
Qed.
Lemma count_char_one c s :
  count_char c s = 1%nat ->
  exists a b, s = a +:+ String c b /\ contains_char c a = false /\ contains_char c b = false.
Proof.
  induction s as [|d s IH]; cbn; [done|]. destruct (Ascii.eqb d c) eqn:E.
  - apply Ascii.eqb_eq in E as ->. intros [= Hs]. exists "", s.
    split_and!; [done..|]. by apply count_char_zero.
  - intros (a & b & -> & Ha & Hb)%IH. exists (String d a), b. split_and!; [done| |done].
    rewrite contains_char_false in Ha |- *. cbn. by rewrite Ascii.eqb_sym, E.
Qed.
Lemma count_char_app c a b : count_char c (a +:+ b) = (count_char c a + count_char c b)%nat.
Proof.
  induction a as [|d a IH]; [done|]. rewrite string_app_cons. cbn. rewrite IH. lia.
Qed.

Lemma normalize_email_normal email e : normalize_email email = Ok e -> normal_email e.
Proof.
  unfold normalize_email. rewrite result_bind_Ok.
  intros (e' & (He & _ & Hl)%checked_string_ok & H).
  cbv zeta in H. destruct (_ && _) eqn:E in H; [injection H as ->|done]. bool_prop.
  match goal with H : Nat.eqb _ _ = true |- _ =>
    apply Nat.eqb_eq, count_char_one in H as (a & b & -> & Ha & Hb) end.
  unfold normal_email. split_and!.
  - rewrite He. apply trim_idem.
  - rewrite He. apply map_bytes_fix, trim_all_bytes, to_ascii_lowercase_fixed.
  - done.
  - exists a, b. split_and!; [done..|].
    match goal with H : match _ with _ => _ end = true |- _ =>
      rewrite split_char_app, (split_char_none "@" b) in H by done; exact H end.
Qed.

Lemma normal_email_fixed e : normal_email e -> normalize_email e = Ok e.
Proof.
  intros (Ht & Hlow & Hlen & a & b & Hab & Ha & Hb & Hdot). unfold normalize_email.
  assert (checked_string "email" (to_ascii_lowercase (trim e)) 320 = Ok e) as ->.
  { apply checked_string_ok. rewrite Ht, Hlow, Ht. split_and!; [done| |done].
    rewrite Hab. by destruct a. }
  simpl. rewrite Hab, count_char_app, split_char_app, (split_char_none "@" b) by done. cbn.
  rewrite (proj2 (count_char_zero "@" a) Ha), (proj2 (count_char_zero "@" b) Hb). cbn.
  by rewrite Hdot.
Qed.

(** [normalize_email] returns exactly normal addresses (trimmed, in lower
    case, at most 320 bytes, one [@], a dot in the host part) and leaves a
    normal address as it is: normalisation is idempotent and two spellings of
    an address are stored under the same key. *)
Theorem normalize_email_spec e :
  ((exists email, normalize_email email = Ok e) <-> normal_email e)
  /\ (normal_email e -> normalize_email e = Ok e).
Proof.
  split; [split|]; [intros [email He]; by eapply normalize_email_normal | |
    apply normal_email_fixed].
  intros Hn. exists e. by apply normal_email_fixed.
Qed.

Example normalize_email_example :
  normalize_email "  Ada@Example.COM " = Ok "ada@example.com".
Proof. vm_compute. reflexivity. Qed.
