(* ===== verification/Authn.v ===== *)
(** * The authentication primitives of [crates/authn]

    PKCE verification, token hashing and the constant-time comparison.  The
    [sha2], [base64] and [argon2] crates are not under src/: [CryptoCrates]
    names the functions the program calls, and no law is assumed of them
    unless a theorem says so. *)

From S2P Require Import Prelude RustStr Domain.
From Stdlib Require Import Ascii.

Class CryptoCrates := {
  (** [Sha256::digest] and [URL_SAFE_NO_PAD.encode]. *)
  sha256_digest : string -> string;
  base64url_encode : string -> string;
  (** [PasswordHash::new] and [Argon2::verify_password]: [None] when the
      stored hash does not parse. *)
  argon2_verify : string -> string -> option bool;
}.

(* crates/authn/src/error.rs:2-17 AuthnError *)
Inductive AuthnError :=
| PasswordHash_ | PasswordHashParse | InvalidCredential | InvalidPkce | InvalidPkceSyntax
| Totp (message : string) | WebAuthn (message : string).
#[export] Instance AuthnError_eq_dec : EqDecision AuthnError.
Proof. solve_decision. Defined.

(* crates/authn/src/pkce.rs:32-37 is_pkce_unreserved *)
Definition is_pkce_unreserved (b : ascii) : bool :=
  in_range 65 90 b || in_range 97 122 b || in_range 48 57 b
  || Ascii.eqb b "-" || Ascii.eqb b "." || Ascii.eqb b "_" || Ascii.eqb b "~".

(* crates/authn/src/pkce.rs:24-30 validate_pkce_unreserved *)
Definition validate_pkce_unreserved (value : string) : result AuthnError unit :=
  let len := String.length value in
  if negb ((43 <=? len)%nat && (len <=? 128)%nat) || negb (all_bytes is_pkce_unreserved value)
  then Err InvalidPkceSyntax
  else Ok tt.

(* crates/authn/src/pkce.rs:16-18 validate_pkce_code_verifier *)
Definition validate_pkce_code_verifier (verifier : string) : result AuthnError unit :=
  validate_pkce_unreserved verifier.
(* crates/authn/src/pkce.rs:20-22 validate_pkce_code_challenge *)
Definition validate_pkce_code_challenge (challenge : string) : result AuthnError unit :=
  validate_pkce_unreserved challenge.

(** The comparison loop of [constant_time_eq] over the indices
    [0..max(len, len)], missing bytes read as 0; [usize] lengths and the
    accumulator are [N]. *)
Definition byte_at (s : string) (index : nat) : N :=
  match String.get index s with Some c => byte c | None => 0%N end.

(* crates/authn/src/secrets.rs:45-53 constant_time_eq *)
Definition constant_time_eq (left right : string) : bool :=
  let diff := N.lxor (N.of_nat (String.length left)) (N.of_nat (String.length right)) in
  let indices := seq 0 (Nat.max (String.length left) (String.length right)) in
  let diff :=
    fold_left (fun diff index => N.lor diff (N.lxor (byte_at left index) (byte_at right index)))
      indices diff in
  (diff =? 0)%N.

Section crypto.
  Context {CC : CryptoCrates}.

(* crates/authn/src/pkce.rs:7-14 pkce_challenge *)
Definition pkce_challenge (verifier : string) (method : PkceMethod) : string :=
  match method with S256 => base64url_encode (sha256_digest verifier) end.

(* crates/authn/src/pkce.rs:39-51 verify_pkce *)
Definition verify_pkce (verifier expected_challenge : string) (method : PkceMethod)
    : result AuthnError unit :=
  let? _ := validate_pkce_code_verifier verifier in
  let? _ := validate_pkce_code_challenge expected_challenge in
  if bool_decide (pkce_challenge verifier method = expected_challenge) then Ok tt
  else Err InvalidPkce.

(* crates/authn/src/secrets.rs:32-35 hash_token *)
Definition hash_token (token : string) : string := base64url_encode (sha256_digest token).

(* crates/authn/src/secrets.rs:37-39 verify_token_hash *)
Definition verify_token_hash (token expected_hash : string) : bool :=
  constant_time_eq (hash_token token) expected_hash.

(* crates/authn/src/password.rs:17-22 verify_password *)
Definition verify_password (password password_hash : string) : result AuthnError unit :=
  match argon2_verify password password_hash with
  | None => Err PasswordHashParse
  | Some true => Ok tt
  | Some false => Err InvalidCredential
  end.
End crypto.

(** [GeneratedSecret]: the random [id] and [value] are inputs of the
    operations that generate one. *)
(* crates/authn/src/secrets.rs:9-13 GeneratedSecret *)
Record GeneratedSecret := mk_GeneratedSecret {
  generated_id : Uuid;
  generated_value : string;
  generated_hash : string;
}.
(* crates/authn/src/secrets.rs:22-30 generate_hashed_secret *)
Definition generate_hashed_secret `{CryptoCrates} (id : Uuid) (value : string)
    : GeneratedSecret :=
  mk_GeneratedSecret id value (hash_token value).

(** ** Properties *)

Definition pkce_value (v : string) : Prop :=
  (43 <= String.length v <= 128)%nat /\ all_bytes is_pkce_unreserved v = true.

Lemma validate_pkce_unreserved_ok v u :
  validate_pkce_unreserved v = Ok u <-> pkce_value v.
Proof.
  unfold validate_pkce_unreserved, pkce_value. destruct u. split.
  - intros H. destruct (_ || _) eqn:E in H; [done|]. bool_prop. done.
  - intros [Hl Hb]. rewrite Hb.
    rewrite (proj2 (Nat.leb_le 43 _)), (proj2 (Nat.leb_le _ 128)) by lia. done.
Qed.

Section crypto_properties.
  Context {CC : CryptoCrates}.

Lemma verify_pkce_Ok verifier challenge m u :
  verify_pkce verifier challenge m = Ok u <->
  pkce_value verifier /\ pkce_value challenge
  /\ challenge = base64url_encode (sha256_digest verifier).
Proof.
  unfold verify_pkce, validate_pkce_code_verifier, validate_pkce_code_challenge.
  rewrite result_bind_Ok. setoid_rewrite result_bind_Ok. setoid_rewrite validate_pkce_unreserved_ok.
  destruct m, u. simpl. split.
  - intros (_ & Hv & _ & Hc & H). destruct (bool_decide _) eqn:E in H; bool_prop; [by split_and!|done].
  - intros (Hv & Hc & ->). exists tt. split; [done|]. exists tt. split; [done|].
    by rewrite bool_decide_true.
Qed.

(** PKCE: [verify_pkce] succeeds exactly when both values are 43 to 128
    unreserved characters and the challenge is the base64url encoding of the
    SHA-256 digest of the verifier; every failure is [InvalidPkceSyntax] or
    [InvalidPkce]. *)
Theorem verify_pkce_spec verifier challenge :
  (verify_pkce verifier challenge S256 = Ok tt <->
   pkce_value verifier /\ pkce_value challenge
   /\ challenge = base64url_encode (sha256_digest verifier))
  /\ (verify_pkce verifier challenge S256 = Err InvalidPkce <->
      pkce_value verifier /\ pkce_value challenge
      /\ challenge <> base64url_encode (sha256_digest verifier))
  /\ (verify_pkce verifier challenge S256 = Err InvalidPkceSyntax <->
      ~ pkce_value verifier \/ ~ pkce_value challenge).
Proof.
  unfold verify_pkce, validate_pkce_code_verifier, validate_pkce_code_challenge, pkce_challenge.
  pose proof (validate_pkce_unreserved_ok verifier tt) as Hv.
  pose proof (validate_pkce_unreserved_ok challenge tt) as Hc.
  assert (Herr : forall v e, validate_pkce_unreserved v = Err e -> e = InvalidPkceSyntax).
  { intros v e. unfold validate_pkce_unreserved. destruct (_ || _); congruence. }
  destruct (validate_pkce_unreserved verifier) as [[]|e] eqn:Ev;
    [|apply Herr in Ev as ->; simpl; split_and!; split; intros; intuition congruence].
  destruct (validate_pkce_unreserved challenge) as [[]|e] eqn:Ec;
    [|apply Herr in Ec as ->; simpl; split_and!; split; intros; intuition congruence].
  simpl. destruct (bool_decide _) eqn:Eb; bool_prop;
    split_and!; split; intros; intuition congruence.
Qed.
End crypto_properties.

(** *** Constant-time comparison *)

Lemma fold_lor_zero {A} (f : A -> N) l d :
  fold_left (fun d x => N.lor d (f x)) l d = 0%N <-> d = 0%N /\ Forall (fun x => f x = 0%N) l.
Proof.
  revert d. induction l as [|x l IH]; intros d; cbn.
  - split; [intros ->; done|intros [-> _]; done].
  - rewrite IH, N.lor_eq_0_iff, Forall_cons. tauto.
Qed.

Lemma byte_inj a b : byte a = byte b -> a = b.
Proof. intros Hab. rewrite <- (ascii_N_embedding a), <- (ascii_N_embedding b). by f_equal. Qed.

Lemma byte_at_eq l r :
  String.length l = String.length r ->
  (forall i, (i < String.length l)%nat -> byte_at l i = byte_at r i) -> l = r.
Proof.
  unfold byte_at. revert r.
  induction l as [|a l IH]; intros [|b r]; cbn; try done. intros Hlen Hb. f_equal.
  - apply byte_inj, (Hb 0%nat). lia.
  - apply IH; [lia|]. intros i Hi. apply (Hb (S i)). lia.
Qed.

Lemma constant_time_eq_iff l r : constant_time_eq l r = true <-> l = r.
Proof.
  unfold constant_time_eq. rewrite N.eqb_eq, fold_lor_zero, N.lxor_eq_0_iff, Forall_forall.
  split.
  - intros [Hlen Hb]. apply Nat2N.inj in Hlen. apply byte_at_eq; [done|].
    intros i Hi. apply N.lxor_eq, Hb, elem_of_seq. lia.
  - intros ->. split; [done|]. intros i _. apply N.lxor_nilpotent.
Qed.

(** [constant_time_eq], whose loop reads both byte strings in full whatever
    they hold and reads missing bytes as 0, decides equality of the two,
    lengths included; so [verify_token_hash] accepts exactly the hash of the
    presented token. *)
Theorem verify_token_hash_spec `{CryptoCrates} token expected l r :
  (verify_token_hash token expected = true <-> expected = hash_token token)
  /\ (constant_time_eq l r = true <-> l = r).
Proof.
  unfold verify_token_hash. rewrite !constant_time_eq_iff. naive_solver.
Qed.
