(* ===== verification/Oidc.v ===== *)
(** * The OIDC protocol crate: authorization requests

    [crates/oidc]: scope and prompt parsing, validation of an authorization
    request against a registered client, PKCE verification at the token
    endpoint, the authorization response URLs and the text of OAuth errors.
    JSON parsing is [serde_json]'s: the class [SerdeJson] names it. *)

From S2P Require Import Prelude RustStr Domain Authn.
From Stdlib Require Import Ascii.

Class SerdeJson := { serde_json_from_str : string -> option Value }.

(* crates/oidc/src/error.rs:2-53 OidcError *)
Inductive OidcError :=
| MissingResponseType | UnsupportedResponseType | UnsupportedGrantType | InvalidRedirectUri
| InvalidScope | InvalidMaxAge | InvalidPrompt | InvalidDisplay | UnsupportedResponseMode
| UnsupportedClaimsParameter | UnsupportedRequestParameter | UnsupportedRequestUriParameter
| InvalidIdTokenHint | PkceRequired | InvalidPkceChallenge | PkceVerificationFailed
| SigningKeyMissing | InvalidKeyEncryptionKey | SigningKeyGeneration | SigningKeyEncryption
| SecretEncryption | SecretDecryption | SigningKeyDecryption | InvalidSigningKey | TokenSigning.
#[export] Instance OidcError_eq_dec : EqDecision OidcError.
Proof. solve_decision. Defined.

(** ** Data *)

(* crates/oidc/src/authorization/types.rs:5-41 AuthorizationRequest *)
Record AuthorizationRequest := mk_AuthorizationRequest {
  req_response_type : string;
  req_client_id : string;
  req_redirect_uri : string;
  req_scope : string;
  req_state : option string;
  req_nonce : option string;
  req_max_age : option Z;
  req_response_mode : option string;
  req_prompt : option string;
  req_display : option string;
  req_acr_values : option string;
  req_ui_locales : option string;
  req_claims_locales : option string;
  req_login_hint : option string;
  req_claims : option string;
  req_request : option string;
  req_request_uri : option string;
  req_code_challenge : option string;
  req_code_challenge_method : option string;
}.

(* crates/oidc/src/authorization/types.rs:63-69 AuthorizationPrompt *)
Inductive AuthorizationPrompt :=
| Prompt_Default | Prompt_None | Prompt_Login | Prompt_Consent | Prompt_LoginConsent.
#[export] Instance AuthorizationPrompt_eq_dec : EqDecision AuthorizationPrompt.
Proof. solve_decision. Defined.

(* crates/oidc/src/authorization/types.rs:72-74 AuthorizationPrompt::is_none *)
Definition prompt_is_none (p : AuthorizationPrompt) : bool :=
  match p with Prompt_None => true | _ => false end.
(* crates/oidc/src/authorization/types.rs:76-78 AuthorizationPrompt::requires_login *)
Definition requires_login (p : AuthorizationPrompt) : bool :=
  match p with Prompt_Login | Prompt_LoginConsent => true | _ => false end.
(* crates/oidc/src/authorization/types.rs:80-82 AuthorizationPrompt::requires_consent *)
Definition requires_consent (p : AuthorizationPrompt) : bool :=
  match p with Prompt_Consent | Prompt_LoginConsent => true | _ => false end.

(* crates/oidc/src/authorization/types.rs:86-88 AuthorizationResponseMode *)
Inductive AuthorizationResponseMode := Mode_Query.
(* crates/oidc/src/authorization/types.rs:91-97 AuthorizationDisplay *)
Inductive AuthorizationDisplay :=
| Display_Default | Display_Page | Display_Popup | Display_Touch | Display_Wap.

(* crates/oidc/src/authorization/types.rs:44-60 ValidatedAuthorizationRequest *)
Record ValidatedAuthorizationRequest := mk_ValidatedAuthorizationRequest {
  val_client_id : string;
  val_redirect_uri : string;
  val_scopes : list string;
  val_state : option string;
  val_nonce : option string;
  val_max_age : option Z;
  val_response_mode : AuthorizationResponseMode;
  val_prompt : AuthorizationPrompt;
  val_display : AuthorizationDisplay;
  val_acr_values : list string;
  val_ui_locales : list string;
  val_claims_locales : list string;
  val_login_hint : option string;
  val_code_challenge : string;
  val_code_challenge_method : PkceMethod;
}.

(** ** Parsing *)

(* crates/oidc/src/authorization/scopes.rs:16-21 scope_token_is_valid *)
Definition scope_token_is_valid (scope : string) : bool :=
  negb (is_empty scope)
  && all_bytes (fun b => N.eqb (byte b) 0x21 || in_range 0x23 0x5B b || in_range 0x5D 0x7E b) scope.

Fixpoint parse_scopes_loop (scopes tokens : list string) : result OidcError (list string) :=
  match tokens with
  | [] => Ok scopes
  | scope :: rest =>
      if negb (scope_token_is_valid scope) then Err InvalidScope
      else parse_scopes_loop (push_unique scopes scope) rest
  end.
(* crates/oidc/src/authorization/scopes.rs:3-14 parse_scopes *)
Definition parse_scopes (scope : string) : result OidcError (list string) :=
  parse_scopes_loop [] (split_char " " scope).

(** [value.map(str::trim).filter(|v| !v.is_empty())] *)
Definition trimmed_nonempty (value : option string) : option string :=
  match value with
  | Some v => let v := trim v in if is_empty v then None else Some v
  | None => None
  end.

(* crates/oidc/src/authorization/parsing.rs:5-10 optional_parameter_is_present *)
Definition optional_parameter_is_present (value : option string) : bool :=
  is_some (trimmed_nonempty value).

(* crates/oidc/src/authorization/parsing.rs:12-19 parse_response_mode *)
Definition parse_response_mode (response_mode : option string)
    : result OidcError AuthorizationResponseMode :=
  match trimmed_nonempty response_mode with
  | None => Ok Mode_Query
  | Some mode => if bool_decide (mode = "query") then Ok Mode_Query else Err UnsupportedResponseMode
  end.

(* crates/oidc/src/authorization/parsing.rs:21-30 parse_display *)
Definition parse_display (display : option string) : result OidcError AuthorizationDisplay :=
  match trimmed_nonempty display with
  | None => Ok Display_Default
  | Some "page" => Ok Display_Page
  | Some "popup" => Ok Display_Popup
  | Some "touch" => Ok Display_Touch
  | Some "wap" => Ok Display_Wap
  | Some _ => Err InvalidDisplay
  end%string.

(* crates/oidc/src/authorization/parsing.rs:32-44 parse_space_delimited_unique *)
Definition parse_space_delimited_unique (value : option string) : list string :=
  fold_left push_unique
    (List.filter (fun v => negb (is_empty v)) (split_whitespace (default "" value))) [].

(* crates/oidc/src/authorization/parsing.rs:46-79 parse_prompt *)
Definition parse_prompt (prompt : option string) : result OidcError AuthorizationPrompt :=
  match trimmed_nonempty prompt with
  | None => Ok Prompt_Default
  | Some prompt =>
      let values := split_whitespace prompt in
      if contains values "none" && (1 <? length values)%nat then Err InvalidPrompt
      else if negb (Nat.eqb (length values) (size (list_to_set values : gset string)))
      then Err InvalidPrompt
      else if existsb (fun v => negb (bool_decide (v = "none") || bool_decide (v = "login")
                                      || bool_decide (v = "consent"))) values
      then Err InvalidPrompt
      else
        let has_login := contains values "login" in
        let has_consent := contains values "consent" in
        if bool_decide (values = ["none"]) then Ok Prompt_None
        else match has_login, has_consent with
             | true, true => Ok Prompt_LoginConsent
             | true, false => Ok Prompt_Login
             | false, true => Ok Prompt_Consent
             | false, false => Err InvalidPrompt
             end
  end.

(** [Map::get] and [Value::as_object]. *)
Definition object_get (entries : list (string * Value)) (k : string) : option Value :=
  option_map snd (List.find (fun e => bool_decide (e.1 = k)) entries).
Definition as_object (v : Value) : option (list (string * Value)) :=
  match v with Object entries => Some entries | _ => None end.
Definition as_bool (v : Value) : option bool := match v with Bool b => Some b | _ => None end.
Definition as_str (v : Value) : option string := match v with String_ s => Some s | _ => None end.

Section validation.
  Context {CC : CryptoCrates} {SJ : SerdeJson}.

(* crates/oidc/src/authorization/request.rs:98-130 additional_scopes_for_supported_claims *)
Definition additional_scopes_for_supported_claims (claims : option string)
    : result OidcError (list string) :=
  match trimmed_nonempty claims with
  | None => Ok []
  | Some claims =>
      let? claims := ok_or (serde_json_from_str claims) UnsupportedClaimsParameter in
      let? claims := ok_or (as_object claims) UnsupportedClaimsParameter in
      require Nat.eqb (length claims) 1 else UnsupportedClaimsParameter in
      let? userinfo := ok_or (object_get claims "userinfo" ≫= as_object) UnsupportedClaimsParameter in
      require Nat.eqb (length userinfo) 1 else UnsupportedClaimsParameter in
      let? name := ok_or (object_get userinfo "name" ≫= as_object) UnsupportedClaimsParameter in
      if Nat.eqb (length name) 1
         && bool_decide (object_get name "essential" ≫= as_bool = Some true)
      then Ok ["profile"]
      else Err UnsupportedClaimsParameter
  end.

(* crates/oidc/src/authorization/request.rs:17-95 AuthorizationRequest::validate *)
Definition validate (self : AuthorizationRequest) (client : OidcClient)
    : result OidcError ValidatedAuthorizationRequest :=
  require negb (is_empty (req_response_type self)) else MissingResponseType in
  require bool_decide (req_response_type self = "code") else UnsupportedResponseType in
  require allows_grant client AuthorizationCodeGrant else UnsupportedGrantType in
  require allows_redirect_uri client (req_redirect_uri self) else InvalidRedirectUri in
  let? scopes := parse_scopes (req_scope self) in
  require negb (optional_parameter_is_present (req_request self)) else UnsupportedRequestParameter in
  require negb (optional_parameter_is_present (req_request_uri self))
    else UnsupportedRequestUriParameter in
  let? additional := additional_scopes_for_supported_claims (req_claims self) in
  let scopes := fold_left push_unique additional scopes in
  require contains scopes "openid" else InvalidScope in
  require negb (existsb (fun scope => negb (contains (client_allowed_scopes client) scope)) scopes)
    else InvalidScope in
  require negb (contains scopes "offline_access" && negb (allows_grant client RefreshTokenGrant))
    else InvalidScope in
  require negb (match req_max_age self with Some max_age => (max_age <? 0)%Z | None => false end)
    else InvalidMaxAge in
  let? response_mode := parse_response_mode (req_response_mode self) in
  let? prompt := parse_prompt (req_prompt self) in
  let? display := parse_display (req_display self) in
  let acr_values := parse_space_delimited_unique (req_acr_values self) in
  let ui_locales := parse_space_delimited_unique (req_ui_locales self) in
  let claims_locales := parse_space_delimited_unique (req_claims_locales self) in
  let? code_challenge := ok_or (req_code_challenge self) PkceRequired in
  let? _ := map_err (fun _ => InvalidPkceChallenge) (validate_pkce_code_challenge code_challenge) in
  require bool_decide (req_code_challenge_method self = Some "S256") else PkceRequired in
  Ok (mk_ValidatedAuthorizationRequest
        (req_client_id self) (req_redirect_uri self) scopes (req_state self) (req_nonce self)
        (req_max_age self) response_mode prompt display acr_values ui_locales claims_locales
        (req_login_hint self) code_challenge S256).

(* crates/oidc/src/authorization/pkce.rs:6-12 verify_authorization_code_pkce *)
Definition verify_authorization_code_pkce (verifier expected_challenge : string)
    (method : PkceMethod) : result OidcError unit :=
  map_err (fun _ => PkceVerificationFailed) (verify_pkce verifier expected_challenge method).
End validation.

(** ** OAuth messages *)

(* crates/oidc/src/oauth_types.rs:4-20 TokenRequest *)
Record TokenRequest := mk_TokenRequest {
  token_grant_type : string;
  token_code : option string;
  token_redirect_uri : option string;
  token_client_id : option string;
  token_client_secret : option string;
  token_code_verifier : option string;
  token_refresh_token : option string;
  token_scope : option string;
}.

(* crates/oidc/src/oauth_types.rs:39-49 TokenResponse *)
Record TokenResponse := mk_TokenResponse {
  response_access_token : string;
  response_token_type : string;
  response_expires_in : Z;
  response_refresh_token : option string;
  response_id_token : option string;
  response_scope : option string;
}.

(* crates/oidc/src/oauth_types.rs:52-56 OAuthErrorBody *)
Record OAuthErrorBody := mk_OAuthErrorBody {
  oauth_error : string;
  oauth_error_description_ : option string;
}.

(** One byte of [is_oauth_error_text_character]: the accepted characters are
    ASCII, one byte each. *)
(* crates/oidc/src/oauth_types.rs:116-118 is_oauth_error_text_character *)
Definition is_oauth_error_text_character (b : ascii) : bool :=
  in_range 0x20 0x21 b || in_range 0x23 0x5B b || in_range 0x5D 0x7E b.

(** [chars().map(..)]: a character outside the set becomes one space; of a
    multi-byte character the lead byte becomes the space and its continuation
    bytes go. *)
(* crates/oidc/src/oauth_types.rs:102-114 oauth_error_description *)
Definition oauth_error_description (description : string) : string :=
  flat_map_bytes (fun b =>
    if is_oauth_error_text_character b then String b ""
    else if in_range 0x80 0xBF b then "" else " ") description.

(* crates/oidc/src/oauth_types.rs:59-64 OAuthErrorBody::invalid_request *)
Definition invalid_request (description : string) : OAuthErrorBody :=
  mk_OAuthErrorBody "invalid_request" (Some (oauth_error_description description)).
(* crates/oidc/src/oauth_types.rs:66-71 OAuthErrorBody::invalid_grant *)
Definition invalid_grant (description : string) : OAuthErrorBody :=
  mk_OAuthErrorBody "invalid_grant" (Some (oauth_error_description description)).
(* crates/oidc/src/oauth_types.rs:73-78 OAuthErrorBody::invalid_scope *)
Definition invalid_scope (description : string) : OAuthErrorBody :=
  mk_OAuthErrorBody "invalid_scope" (Some (oauth_error_description description)).
(* crates/oidc/src/oauth_types.rs:80-85 OAuthErrorBody::invalid_client *)
Definition invalid_client : OAuthErrorBody :=
  mk_OAuthErrorBody "invalid_client" (Some "client authentication failed").
(* crates/oidc/src/oauth_types.rs:87-92 OAuthErrorBody::unauthorized_client *)
Definition unauthorized_client (description : string) : OAuthErrorBody :=
  mk_OAuthErrorBody "unauthorized_client" (Some (oauth_error_description description)).
(* crates/oidc/src/oauth_types.rs:94-99 OAuthErrorBody::unsupported_grant_type *)
Definition unsupported_grant_type : OAuthErrorBody :=
  mk_OAuthErrorBody "unsupported_grant_type" None.

(** ** Redirects *)

(** [format!("%{byte:02X}")] *)
Definition hex_upper (n : N) : ascii :=
  if (n <? 10)%N then ascii_of_N (48 + n) else ascii_of_N (55 + n).
Definition percent_hex (b : ascii) : string :=
  String "%" (String (hex_upper (byte b / 16)) (String (hex_upper (byte b mod 16)) "")).

Definition is_unreserved (b : ascii) : bool :=
  in_range 65 90 b || in_range 97 122 b || in_range 48 57 b
  || Ascii.eqb b "-" || Ascii.eqb b "." || Ascii.eqb b "_" || Ascii.eqb b "~".

(* crates/oidc/src/redirects.rs:65-75 percent_encode_minimal *)
Definition percent_encode_minimal (value : string) : string :=
  flat_map_bytes (fun b => if is_unreserved b then String b "" else percent_hex b) value.

Definition query_separator (uri : string) : string := if contains_char "?" uri then "&" else "?".

Definition push_parameter (name : string) (value : option string) : string :=
  match value with
  | Some v => "&" +:+ name +:+ "=" +:+ percent_encode_minimal v
  | None => ""
  end.

(* crates/oidc/src/redirects.rs:3-19 append_authorization_response_params *)
Definition append_authorization_response_params
    (redirect_uri code : string) (state : option string) (issuer : string) : string :=
  redirect_uri +:+ query_separator redirect_uri +:+ "code=" +:+ code +:+ "&iss="
  +:+ percent_encode_minimal issuer +:+ push_parameter "state" state.

(* crates/oidc/src/redirects.rs:21-45 append_authorization_error_response_params *)
Definition append_authorization_error_response_params
    (redirect_uri error : string) (error_description state : option string) (issuer : string)
    : string :=
  redirect_uri +:+ query_separator redirect_uri +:+ "error=" +:+ percent_encode_minimal error
  +:+ "&iss=" +:+ percent_encode_minimal issuer
  +:+ push_parameter "error_description" (option_map oauth_error_description error_description)
  +:+ push_parameter "state" state.

(* crates/oidc/src/redirects.rs:47-63 append_post_logout_redirect_params *)
Definition append_post_logout_redirect_params
    (post_logout_redirect_uri : string) (state : option string) : string :=
  match state with
  | None => post_logout_redirect_uri
  | Some state =>
      post_logout_redirect_uri +:+ query_separator post_logout_redirect_uri +:+ "state="
      +:+ percent_encode_minimal state
  end.

(** ** ID tokens and userinfo *)

(* crates/oidc/src/claims.rs:12-34 IdTokenClaims *)
Record IdTokenClaims := mk_IdTokenClaims {
  iss : string;
  sub : string;
  aud : string;
  exp : Z;
  iat : Z;
  auth_time : option Z;
  nonce : option string;
  email : option string;
  email_verified : option bool;
  name : option string;
  amr : option (list string);
  acr : option string;
  groups : option (list string);
}.

(** A decrypted signing key, and the [jsonwebtoken] and [uuid] functions:
    [jwt_encode kid pem claims] is [encode] with an RS256 header,
    [None] when the key or the claims do not encode. *)
(* crates/oidc/src/signing/material.rs:7-11 SigningMaterial *)
Record SigningMaterial := mk_SigningMaterial {
  signing_key_id : string;
  signing_private_key_pem : string;
  signing_public_jwk : Value;
}.
Class TokenCrates := {
  jwt_encode : string -> string -> IdTokenClaims -> option string;
  uuid_to_string : Uuid -> string;
}.

(* crates/oidc/src/claims.rs:82-84 scope_requested *)
Definition scope_requested (scopes : list string) (expected : string) : bool :=
  contains scopes expected.

Section claims.
  Context {TC : TokenCrates}.

(* crates/oidc/src/claims.rs:36-47 IdTokenIssueRequest *)
Record IdTokenIssueRequest := mk_IdTokenIssueRequest {
  issue_issuer : string;
  issue_client : OidcClient;
  issue_user : User;
  issue_scopes : list string;
  issue_nonce : option string;
  issue_auth_time : option OffsetDateTime;
  issue_amr : list string;
  issue_acr : string;
  issue_groups : option (list string);
  issue_signing : SigningMaterial;
}.

Definition id_token_claims (now : OffsetDateTime) (request : IdTokenIssueRequest)
    : IdTokenClaims :=
  let email_scope := scope_requested (issue_scopes request) "email" in
  let user := issue_user request in
  {| iss := trim_end_matches "/" (issue_issuer request);
     sub := uuid_to_string (user_id user);
     aud := client_client_id (issue_client request);
     exp := unix_timestamp (now + duration_minutes 10);
     iat := unix_timestamp now;
     auth_time := option_map unix_timestamp (issue_auth_time request);
     nonce := issue_nonce request;
     email := if email_scope then Some (user_email user) else None;
     email_verified := if email_scope then Some (user_email_verified user) else None;
     name := if scope_requested (issue_scopes request) "profile"
             then Some (user_display_name user) else None;
     amr := Some (issue_amr request);
     acr := Some (issue_acr request);
     groups := issue_groups request |}.

(* crates/oidc/src/claims.rs:49-80 issue_id_token *)
Definition issue_id_token (now : OffsetDateTime) (request : IdTokenIssueRequest)
    : result OidcError string :=
  ok_or (jwt_encode (signing_key_id (issue_signing request))
           (signing_private_key_pem (issue_signing request)) (id_token_claims now request))
    TokenSigning.

(* crates/oidc/src/claims.rs:136-153 userinfo *)
Definition userinfo (user : User) (scopes : list string) (groups : option (list string))
    : Value :=
  Object (
    [("sub", String_ (uuid_to_string (user_id user)))]
    ++ (if scope_requested scopes "email"
        then [("email", String_ (user_email user)); ("email_verified", Bool (user_email_verified user))]
        else [])
    ++ (if scope_requested scopes "profile" then [("name", String_ (user_display_name user))] else [])
    ++ match groups with
       | Some groups => [("groups", Array (String_ <$> groups))]
       | None => []
       end).
End claims.

(** ** Properties of scope lists *)

Lemma parse_scopes_loop_ok acc l r :
  parse_scopes_loop acc l = Ok r <->
  Forall (fun s => scope_token_is_valid s = true) l /\ r = fold_left push_unique l acc.
Proof.
  revert acc. induction l as [|s l IH]; intros acc; cbn.
  - naive_solver.
  - rewrite Forall_cons. destruct (scope_token_is_valid s); simpl; [|naive_solver].
    rewrite IH. naive_solver.
Qed.
Lemma parse_scopes_loop_err acc l e : parse_scopes_loop acc l = Err e -> e = InvalidScope.
Proof.
  revert acc. induction l as [|s l IH]; intros acc; cbn; [done|].
  destruct (scope_token_is_valid s); cbn; [apply IH|congruence].
Qed.

Lemma parse_scopes_ok scope scopes :
  parse_scopes scope = Ok scopes <->
  Forall (fun s => scope_token_is_valid s = true) (split_char " " scope)
  /\ scopes = fold_left push_unique (split_char " " scope) [].
Proof. apply parse_scopes_loop_ok. Qed.

Lemma scope_token_no_space s : scope_token_is_valid s = true -> contains_char " " s = false.
Proof.
  unfold scope_token_is_valid. intros H. bool_prop. apply contains_char_false.
  eapply all_bytes_impl; [|done].
  intros c. apply implb_true_iff. revert c. apply all_ascii. vm_compute. reflexivity.
Qed.

(** What a granted scope list looks like wherever it is stored. *)
Definition scope_list (scopes : list string) : Prop :=
  NoDup scopes /\ Forall (fun s => scope_token_is_valid s = true) scopes.

Lemma parse_scopes_scope_list scope scopes :
  parse_scopes scope = Ok scopes -> scope_list scopes /\ scopes <> [].
Proof.
  intros [Hv ->]%parse_scopes_ok. split_and!.
  - split; [apply fold_push_unique_NoDup; constructor|].
    rewrite Forall_forall in Hv |- *. intros s [Hs|Hs]%fold_push_unique_elem; [|by apply Hv].
    by apply elem_of_nil in Hs.
  - pose proof (split_char_nonempty " " scope) as Hne. destruct (split_char " " scope) as [|s l]; [done|].
    intros Hnil. assert (Hin : s ∈ fold_left push_unique (s :: l) []).
    { apply fold_push_unique_elem. right. left. }
    rewrite Hnil in Hin. by apply elem_of_nil in Hin.
Qed.

(** [parse_scopes] accepts a [scope] parameter exactly when every
    space-separated token is non-empty and of RFC 6749's scope-token
    characters, returns the tokens without duplicates in order of first
    occurrence, rejects everything else with [InvalidScope], and inverts
    joining a duplicate-free list of valid tokens with spaces. *)
Theorem parse_scopes_spec scope :
  (forall scopes, parse_scopes scope = Ok scopes ->
     NoDup scopes /\ Forall (fun s => scope_token_is_valid s = true) scopes
     /\ (forall s, s ∈ scopes <-> s ∈ split_char " " scope))
  /\ ((exists scopes, parse_scopes scope = Ok scopes) <->
      Forall (fun s => scope_token_is_valid s = true) (split_char " " scope))
  /\ (forall e, parse_scopes scope = Err e -> e = InvalidScope)
  /\ (forall scopes, scope_list scopes -> scopes <> [] -> parse_scopes (join " " scopes) = Ok scopes).
Proof.
  split_and!.
  - intros scopes Hp. destruct (parse_scopes_scope_list _ _ Hp) as [[Hd Hv] _].
    apply parse_scopes_ok in Hp as [_ ->]. split_and!; [done..|].
    intros s. rewrite fold_push_unique_elem, elem_of_nil. tauto.
  - setoid_rewrite parse_scopes_ok. naive_solver.
  - intros e. apply parse_scopes_loop_err.
  - intros scopes [Hd Hv] Hne. apply parse_scopes_ok.
    rewrite split_char_join; [|done|].
    + split; [done|]. by rewrite fold_push_unique_id.
    + eapply Forall_impl; [done|]. apply scope_token_no_space.
Qed.

(** ** Prompt *)

(** The words of the parameter, none when it is absent or blank. *)
Definition prompt_words (prompt : option string) : list string :=
  match trimmed_nonempty prompt with Some p => split_whitespace p | None => [] end.

(** The prompt a word list asks for. *)
Inductive prompt_of : list string -> AuthorizationPrompt -> Prop :=
| of_none : prompt_of ["none"] Prompt_None
| of_login : prompt_of ["login"] Prompt_Login
| of_consent : prompt_of ["consent"] Prompt_Consent
| of_login_consent : prompt_of ["login"; "consent"] Prompt_LoginConsent
| of_consent_login : prompt_of ["consent"; "login"] Prompt_LoginConsent.

Definition prompt_result (values : list string) : result OidcError AuthorizationPrompt :=
  if contains values "none" && (1 <? length values)%nat then Err InvalidPrompt
  else if negb (Nat.eqb (length values) (size (list_to_set values : gset string)))
  then Err InvalidPrompt
  else if existsb (fun v => negb (bool_decide (v = "none") || bool_decide (v = "login")
                                  || bool_decide (v = "consent"))) values
  then Err InvalidPrompt
  else if bool_decide (values = ["none"]) then Ok Prompt_None
  else match contains values "login", contains values "consent" with
       | true, true => Ok Prompt_LoginConsent
       | true, false => Ok Prompt_Login
       | false, true => Ok Prompt_Consent
       | false, false => Err InvalidPrompt
       end.

(** Duplicate-free lists over the three keywords, without [none] next to
    another word, have at most two entries. *)
Lemma prompt_values_cases values :
  NoDup values -> Forall (fun v => v = "none" \/ v = "login" \/ v = "consent") values ->
  ~ ("none" ∈ values /\ (1 < length values)%nat) -> values <> [] ->
  exists p, prompt_of values p.
Proof.
  intros Hd Hf Hn Hne.
  destruct values as [|a [|b [|c values]]]; [done|..].
  - apply Forall_cons in Hf as [Ha _]. destruct_or! Ha; subst; eexists; constructor.
  - rewrite !Forall_cons in Hf. destruct Hf as (Ha & Hb & _).
    rewrite !NoDup_cons, list_elem_of_singleton in Hd. destruct Hd as (Hab & _).
    assert (Hn1 : "none" ∉ [a; b]) by (cbn in Hn; intuition lia).
    rewrite !elem_of_cons in Hn1.
    destruct_or! Ha; destruct_or! Hb; subst; try (exfalso; tauto); eexists; constructor.
  - exfalso. rewrite !Forall_cons in Hf. destruct Hf as (Ha & Hb & Hc & _).
    rewrite !NoDup_cons, !elem_of_cons in Hd. destruct Hd as (Hab & Hbc & _).
    assert (Hn1 : "none" ∉ a :: b :: c :: values) by (cbn in Hn; intuition lia).
    rewrite !elem_of_cons in Hn1.
    destruct_or! Ha; destruct_or! Hb; destruct_or! Hc; subst; intuition congruence.
Qed.

Lemma prompt_result_of values p : prompt_of values p -> prompt_result values = Ok p.
Proof. intros []; vm_compute; reflexivity. Qed.

Lemma prompt_result_ok values p : prompt_result values = Ok p <-> prompt_of values p.
Proof.
  split; [|apply prompt_result_of]. intros H.
  cut (exists q, prompt_of values q).
  { intros [q Hq]. pose proof (prompt_result_of _ _ Hq). congruence. }
  unfold prompt_result in H.
  destruct (_ && _) eqn:E1 in H; [done|].
  destruct (negb _) eqn:E2 in H; [done|].
  destruct (existsb _ _) eqn:E3 in H; [done|].
  apply prompt_values_cases.
  - apply negb_false_iff, Nat.eqb_eq in E2. by apply size_list_to_set_NoDup.
  - rewrite existsb_elem_false in E3. apply Forall_forall. intros v Hv.
    specialize (E3 v Hv). apply negb_false_iff in E3. rewrite !orb_true_iff in E3.
    rewrite !bool_decide_eq_true in E3. tauto.
  - intros [Hin Hlen]. apply contains_true in Hin. apply Nat.ltb_lt in Hlen.
    by rewrite Hin, Hlen in E1.
  - intros ->. by vm_compute in H.
Qed.

Lemma parse_prompt_result prompt :
  parse_prompt prompt =
  match trimmed_nonempty prompt with
  | None => Ok Prompt_Default | Some p => prompt_result (split_whitespace p) end.
Proof. done. Qed.

(** [parse_prompt] returns the default for an absent or blank parameter,
    and otherwise accepts exactly [none], [login], [consent] and [login] with
    [consent] in either order: no duplicate, no unknown word, nothing next to
    [none].  The accepted prompt requires a login or a consent exactly when
    the word is there; the only error is [InvalidPrompt]. *)
Theorem parse_prompt_spec prompt :
  (parse_prompt prompt = Ok Prompt_Default <-> trimmed_nonempty prompt = None)
  /\ (forall p, p <> Prompt_Default ->
        parse_prompt prompt = Ok p <-> prompt_of (prompt_words prompt) p)
  /\ (forall p, parse_prompt prompt = Ok p ->
        (requires_login p = true <-> "login" ∈ prompt_words prompt)
        /\ (requires_consent p = true <-> "consent" ∈ prompt_words prompt)
        /\ (prompt_is_none p = true <-> prompt_words prompt = ["none"]))
  /\ (forall e, parse_prompt prompt = Err e -> e = InvalidPrompt).
Proof.
  rewrite parse_prompt_result. unfold prompt_words.
  destruct (trimmed_nonempty prompt) as [w|]; split_and!.
  - rewrite prompt_result_ok. split; [intros H; inversion H|done].
  - intros p _. apply prompt_result_ok.
  - intros p Hp%prompt_result_ok.
    destruct Hp; cbn; rewrite ?elem_of_cons, ?elem_of_nil; naive_solver.
  - intros e He. unfold prompt_result in He.
    repeat case_match; congruence.
  - done.
  - intros p Hne. split; [congruence|intros H; inversion H].
  - intros p [= <-]. cbn. rewrite !elem_of_nil. by split_and!.
  - done.
Qed.

(** ** Validation of a request *)

Section validation_spec.
  Context {CC : CryptoCrates} {SJ : SerdeJson}.

(** The one [claims] document that is accepted:
    [{"userinfo": {"name": {"essential": true}}}]. *)
Definition essential_name_claims : Value :=
  Object [("userinfo", Object [("name", Object [("essential", Bool true)])])].

Lemma object_get_singleton (l : list (string * Value)) k v :
  length l = 1%nat -> object_get l k = Some v -> l = [(k, v)].
Proof.
  destruct l as [|[k' v'] [|]]; [done| |done]. intros _. unfold object_get. cbn.
  destruct (bool_decide (k' = k)) eqn:E; bool_prop; cbn; [|done]. by intros [= ->]; subst.
Qed.
Lemma as_object_Some v l : as_object v = Some l <-> v = Object l.
Proof. destruct v; cbn; split; congruence. Qed.

Lemma additional_scopes_ok claims extra :
  additional_scopes_for_supported_claims claims = Ok extra <->
  (trimmed_nonempty claims = None /\ extra = [])
  \/ (exists c, trimmed_nonempty claims = Some c
        /\ serde_json_from_str c = Some essential_name_claims /\ extra = ["profile"]).
Proof.
  unfold additional_scopes_for_supported_claims.
  destruct (trimmed_nonempty claims) as [c|]; [|naive_solver].
  rewrite result_bind_Ok. setoid_rewrite ok_or_Ok. setoid_rewrite result_bind_Ok.
  setoid_rewrite ok_or_Ok. split.
  - intros (v & Hv & l & Hl%as_object_Some & Hr). subst v. right. exists c.
    destruct (Nat.eqb (length l) 1) eqn:E1; [|done]. apply Nat.eqb_eq in E1.
    apply result_bind_Ok in Hr as (u & (uo & Hu & Huo%as_object_Some)%ok_or_Ok%bind_Some & Hr).
    destruct (Nat.eqb (length u) 1) eqn:E2; [|done]. apply Nat.eqb_eq in E2.
    apply result_bind_Ok in Hr as (n & (no & Hno & Hn%as_object_Some)%ok_or_Ok%bind_Some & Hr).
    destruct (_ && _) eqn:E3 in Hr; [|done]. bool_prop.
    match goal with H : Nat.eqb _ _ = true |- _ => apply Nat.eqb_eq in H end.
    match goal with H : _ ≫= as_bool = _ |- _ => apply bind_Some in H as (b & Hb & Hbb) end.
    destruct b; simplify_eq/=.
    repeat match goal with
    | H : length ?l = 1%nat, H2 : object_get ?l _ = Some _ |- _ =>
        apply object_get_singleton in H2; [subst l|done]
    end. split; done.
  - intros [[? _]|(c' & [= <-] & Hp & ->)]; [done|].
    exists essential_name_claims. split; [done|]. eexists. split; [reflexivity|]. reflexivity.
Qed.

(** The requests a client may make. *)
Record acceptable (r : AuthorizationRequest) (c : OidcClient) : Prop := {
  acc_response_type : req_response_type r = "code";
  acc_grant : AuthorizationCodeGrant ∈ client_grant_types c;
  acc_redirect_uri : req_redirect_uri r ∈ client_redirect_uris c;
  acc_scope_tokens : Forall (fun s => scope_token_is_valid s = true) (split_char " " (req_scope r));
  acc_openid : "openid" ∈ split_char " " (req_scope r);
  acc_allowed : forall s, s ∈ split_char " " (req_scope r) -> s ∈ client_allowed_scopes c;
  acc_offline : "offline_access" ∈ split_char " " (req_scope r) ->
                RefreshTokenGrant ∈ client_grant_types c;
  acc_no_request : trimmed_nonempty (req_request r) = None
                   /\ trimmed_nonempty (req_request_uri r) = None;
  acc_claims : trimmed_nonempty (req_claims r) = None
    \/ (exists d, trimmed_nonempty (req_claims r) = Some d
          /\ serde_json_from_str d = Some essential_name_claims
          /\ "profile" ∈ client_allowed_scopes c);
  acc_max_age : forall a, req_max_age r = Some a -> (0 <= a)%Z;
  acc_response_mode : trimmed_nonempty (req_response_mode r) = None
                      \/ trimmed_nonempty (req_response_mode r) = Some "query";
  acc_prompt : is_ok (parse_prompt (req_prompt r)) = true;
  acc_display : is_ok (parse_display (req_display r)) = true;
  acc_pkce : exists ch, req_code_challenge r = Some ch /\ pkce_value ch
                        /\ req_code_challenge_method r = Some "S256";
}.

(** The scopes a request asks for: its tokens, and [profile] when it asks for
    the essential [name] claim. *)
Definition requested_scopes (r : AuthorizationRequest) : list string :=
  fold_left push_unique
    (split_char " " (req_scope r)
     ++ if is_some (trimmed_nonempty (req_claims r)) then ["profile"] else []) [].

Lemma requested_scopes_elem r s :
  s ∈ requested_scopes r <->
  s ∈ split_char " " (req_scope r)
  \/ (s = "profile" /\ trimmed_nonempty (req_claims r) <> None).
Proof.
  unfold requested_scopes. rewrite fold_push_unique_elem, elem_of_nil, elem_of_app.
  destruct (trimmed_nonempty (req_claims r)); cbn;
    rewrite ?list_elem_of_singleton, ?elem_of_nil; naive_solver.
Qed.

Lemma allows_grant_true c g : allows_grant c g = true <-> g ∈ client_grant_types c.
Proof. apply contains_true. Qed.
Lemma allows_redirect_uri_true c u : allows_redirect_uri c u = true <-> u ∈ client_redirect_uris c.
Proof.
  unfold allows_redirect_uri. rewrite existsb_elem. setoid_rewrite bool_decide_eq_true. naive_solver.
Qed.
Lemma parse_response_mode_ok m mode :
  parse_response_mode m = Ok mode <->
  trimmed_nonempty m = None \/ trimmed_nonempty m = Some "query".
Proof.
  unfold parse_response_mode. destruct mode, (trimmed_nonempty m) as [w|]; [|naive_solver].
  destruct (bool_decide (w = "query")) eqn:E; bool_prop; naive_solver.
Qed.
Lemma not_present v : optional_parameter_is_present v = false <-> trimmed_nonempty v = None.
Proof. unfold optional_parameter_is_present. by destruct (trimmed_nonempty v). Qed.

(** What the checks of [validate] between the scopes and [max_age] say. *)
Lemma scopes_allowed r extra scopes :
  parse_scopes (req_scope r) = Ok scopes ->
  additional_scopes_for_supported_claims (req_claims r) = Ok extra ->
  fold_left push_unique extra scopes = requested_scopes r.
Proof.
  intros [_ ->]%parse_scopes_ok Hx. unfold requested_scopes. rewrite fold_left_app.
  apply additional_scopes_ok in Hx as [[Hn ->]|(d & Hd & _ & ->)]; [by rewrite Hn|by rewrite Hd].
Qed.

Lemma validate_ok r c v :
  validate r c = Ok v ->
  acceptable r c
  /\ v = mk_ValidatedAuthorizationRequest (req_client_id r) (req_redirect_uri r)
           (requested_scopes r) (req_state r) (req_nonce r) (req_max_age r) Mode_Query
           (val_prompt v) (val_display v)
           (parse_space_delimited_unique (req_acr_values r))
           (parse_space_delimited_unique (req_ui_locales r))
           (parse_space_delimited_unique (req_claims_locales r))
           (req_login_hint r) (default "" (req_code_challenge r)) S256
  /\ parse_prompt (req_prompt r) = Ok (val_prompt v)
  /\ parse_display (req_display r) = Ok (val_display v).
Proof.
  unfold validate. intros H.
  destruct (negb (is_empty _)) eqn:Hrt0 in H; [|done].
  destruct (bool_decide (req_response_type r = "code")) eqn:Hrt in H; [|done].
  destruct (allows_grant c AuthorizationCodeGrant) eqn:Hg in H; [|done].
  destruct (allows_redirect_uri c _) eqn:Hu in H; [|done].
  apply result_bind_Ok in H as (scopes & Hs & H).
  destruct (negb (optional_parameter_is_present (req_request r))) eqn:Hr1 in H; [|done].
  destruct (negb (optional_parameter_is_present (req_request_uri r))) eqn:Hr2 in H; [|done].
  apply result_bind_Ok in H as (extra & Hx & H).
  rewrite (scopes_allowed r extra scopes Hs Hx) in H. cbv zeta in H.
  destruct (contains (requested_scopes r) "openid") eqn:Ho in H; [|done].
  destruct (negb (existsb _ _)) eqn:Ha in H; [|done].
  destruct (negb (contains _ "offline_access" && _)) eqn:Hf in H; [|done].
  destruct (negb (match req_max_age r with _ => _ end)) eqn:Hm in H; [|done].
  apply result_bind_Ok in H as (mode & Hmode & H).
  apply result_bind_Ok in H as (prompt & Hp & H).
  apply result_bind_Ok in H as (display & Hd & H).
  apply result_bind_Ok in H as (ch & Hch & H).
  apply result_bind_Ok in H as (u & Hpk & H).
  destruct (bool_decide (req_code_challenge_method r = Some "S256")) eqn:Hmeth in H; [|done].
  injection H as <-. bool_prop. apply ok_or_Ok in Hch.
  apply map_err_Ok, validate_pkce_unreserved_ok in Hpk.
  apply contains_true, requested_scopes_elem in Ho. rewrite existsb_elem_false in Ha.
  apply parse_scopes_ok in Hs as [Hv _]. apply additional_scopes_ok in Hx.
  assert (Hall : forall s, s ∈ requested_scopes r -> s ∈ client_allowed_scopes c).
  { intros s Hs. specialize (Ha s Hs). bool_prop. by apply contains_true. }
  split_and!; [|rewrite Hch; by destruct mode|done|done].
  apply parse_response_mode_ok in Hmode. constructor; try done.
  - by apply allows_grant_true.
  - by apply allows_redirect_uri_true.
  - destruct Ho as [Ho|[[=] _]]. done.
  - intros s Hs. apply Hall, requested_scopes_elem. by left.
  - intros Hoff. apply allows_grant_true. apply andb_false_iff in Hf as [Hf|Hf]; bool_prop; [|done].
    apply contains_false in Hf. exfalso. apply Hf, requested_scopes_elem. by left.
  - split; by apply not_present.
  - destruct Hx as [[Hn _]|(d & Hd' & Hj & _)]; [by left|]. right. exists d. split_and!; [done..|].
    apply Hall, requested_scopes_elem. right. split; [done|congruence].
  - intros a Hma. rewrite Hma in Hm. bool_prop. done.
  - rewrite Hp. done.
  - rewrite Hd. done.
  - exists ch. done.
Qed.
End validation_spec.

Section validation_theorems.
  Context {CC : CryptoCrates} {SJ : SerdeJson}.

Lemma acceptable_validates r c : acceptable r c -> exists v, validate r c = Ok v.
Proof.
  intros [Hrt Hg Hu Htok Hopen Hall Hoff [Hr1 Hr2] Hcl Hage Hmode Hp Hd (ch & Hch & Hpk & Hmeth)].
  apply is_ok_true in Hp as [p Hp]. apply is_ok_true in Hd as [d Hd].
  assert (Hs : parse_scopes (req_scope r) = Ok (fold_left push_unique (split_char " " (req_scope r)) []))
    by by apply parse_scopes_ok.
  assert (Hx : exists extra, additional_scopes_for_supported_claims (req_claims r) = Ok extra).
  { destruct Hcl as [Hn|(j & Hj & Hjs & _)]; eexists; apply additional_scopes_ok; [by left|].
    right. eauto. }
  destruct Hx as [extra Hx].
  assert (Hprof : forall s, s ∈ requested_scopes r -> s ∈ client_allowed_scopes c).
  { intros s [Hs'|[-> Hne]]%requested_scopes_elem; [by apply Hall|].
    by destruct Hcl as [|(j & _ & _ & ?)]. }
  unfold validate. rewrite Hrt. cbn [is_empty negb]. rewrite bool_decide_true by done.
  rewrite (proj2 (allows_grant_true _ _) Hg), (proj2 (allows_redirect_uri_true _ _) Hu), Hs. simpl.
  rewrite (proj2 (not_present _) Hr1), (proj2 (not_present _) Hr2). simpl.
  rewrite Hx. simpl. rewrite (scopes_allowed r extra _ Hs Hx).
  rewrite (proj2 (contains_true _ _)) by (apply requested_scopes_elem; by left).
  rewrite (proj2 (existsb_elem_false _ _)); [|intros s Hin; by rewrite (proj2 (contains_true _ _)) by auto].
  simpl.
  assert (negb (contains (requested_scopes r) "offline_access"
                && negb (allows_grant c RefreshTokenGrant)) = true) as ->.
  { destruct (contains (requested_scopes r) "offline_access") eqn:Eoff; [|done].
    apply contains_true, requested_scopes_elem in Eoff as [Eoff|[[=] _]].
    by rewrite (proj2 (allows_grant_true _ _) (Hoff Eoff)). }
  assert (negb (match req_max_age r with Some a => (a <? 0)%Z | None => false end) = true) as ->.
  { destruct (req_max_age r) as [a|]; [|done]. apply negb_true_iff, Z.ltb_ge. by apply Hage. }
  rewrite (proj2 (parse_response_mode_ok _ Mode_Query) Hmode), Hp, Hd, Hch. simpl.
  unfold validate_pkce_code_challenge. rewrite (proj2 (validate_pkce_unreserved_ok ch tt) Hpk).
  simpl. rewrite bool_decide_true by done. eauto.
Qed.

(** [AuthorizationRequest::validate] accepts exactly the acceptable
    requests: [response_type=code], a client registered for the grant, an
    exactly matching redirect URI, well-formed scopes that contain [openid]
    and that the client is allowed, [offline_access] only with the refresh
    grant, no [request] or [request_uri] object, no [claims] but the one
    supported document, a non-negative [max_age], and an S256 PKCE challenge.
    The validated request has the requested scopes without duplicates, all
    allowed to the client, and the caller's redirect URI and challenge. *)
Theorem validate_spec r c :
  ((exists v, validate r c = Ok v) <-> acceptable r c)
  /\ (forall v, validate r c = Ok v ->
        NoDup (val_scopes v)
        /\ (forall s, s ∈ val_scopes v <->
              s ∈ split_char " " (req_scope r)
              \/ (s = "profile" /\ trimmed_nonempty (req_claims r) <> None))
        /\ (forall s, s ∈ val_scopes v -> s ∈ client_allowed_scopes c)
        /\ val_redirect_uri v ∈ client_redirect_uris c
        /\ req_code_challenge r = Some (val_code_challenge v)
        /\ pkce_value (val_code_challenge v)
        /\ val_nonce v = req_nonce r /\ val_state v = req_state r).
Proof.
  split; [split|].
  - intros [v Hv]. by apply validate_ok in Hv as [? _].
  - apply acceptable_validates.
  - intros v (Hacc & Hv & _)%validate_ok. rewrite Hv. cbn.
    destruct (acc_pkce _ _ Hacc) as (ch & Hch & Hpk & _). rewrite Hch. cbn.
    split_and!; try done.
    + apply fold_push_unique_NoDup. constructor.
    + apply requested_scopes_elem.
    + intros s [Hs|[-> Hne]]%requested_scopes_elem; [by apply (acc_allowed _ _ Hacc)|].
      by destruct (acc_claims _ _ Hacc) as [|(j & _ & _ & ?)].
    + apply (acc_redirect_uri _ _ Hacc).
Qed.
End validation_theorems.

(** ** Error text and redirects *)

Definition error_text (s : string) : Prop := all_bytes is_oauth_error_text_character s = true.

Lemma oauth_error_description_text d : error_text (oauth_error_description d).
Proof.
  apply all_bytes_flat_map. intros c. cbv beta.
  destruct (is_oauth_error_text_character c) eqn:E; [by cbn; rewrite E|].
  by destruct (in_range 0x80 0xBF c).
Qed.
Lemma oauth_error_description_id d : error_text d -> oauth_error_description d = d.
Proof.
  unfold error_text, oauth_error_description.
  induction d as [|c d IH]; cbn; [done|]. intros [Hc Hd]%andb_true_iff. rewrite Hc, IH; done.
Qed.

(** A byte that percent encoding leaves in a query component. *)
Definition query_byte (b : ascii) : bool := is_unreserved b || Ascii.eqb b "%".
Lemma percent_encode_query_bytes v : all_bytes query_byte (percent_encode_minimal v) = true.
Proof.
  apply all_bytes_flat_map. apply all_ascii. vm_compute. reflexivity.
Qed.

(** OAuth error bodies and redirects cannot be broken out of: an error
    description only has RFC 6749 error-text characters (no quote, backslash,
    control or non-ASCII byte) and is left alone when it already is such; and
    every parameter value the redirect URLs carry besides the code is made of
    unreserved characters and percent escapes, so it holds no separator,
    fragment or line break. *)
Theorem error_text_and_parameters_safe d v :
  error_text (oauth_error_description d)
  /\ (error_text d -> oauth_error_description d = d)
  /\ all_bytes query_byte (percent_encode_minimal v) = true
  /\ contains_char "&" (percent_encode_minimal v) = false
  /\ contains_char "#" (percent_encode_minimal v) = false.
Proof.
  split_and!.
  - apply oauth_error_description_text.
  - apply oauth_error_description_id.
  - apply percent_encode_query_bytes.
  - apply contains_char_false. eapply all_bytes_impl; [|apply percent_encode_query_bytes].
    intros c. apply implb_true_iff. revert c. apply all_ascii. vm_compute. reflexivity.
  - apply contains_char_false. eapply all_bytes_impl; [|apply percent_encode_query_bytes].
    intros c. apply implb_true_iff. revert c. apply all_ascii. vm_compute. reflexivity.
Qed.

