(* ===== verification/Http.v ===== *)
(** * HTTP input of the API: forms, media types, client credentials, bearer tokens

    [apps/api/src/http]: the urlencoded codec, the OAuth form parsers, client
    authentication from a request, bearer token extraction and the API's error
    type.  The [http] and [base64] crates are not under src/: [HttpCrates]
    names the header accessors and the decoder the program calls. *)

From S2P Require Import Prelude RustStr Domain Authn Oidc.
From Stdlib Require Import Ascii.

Class HttpCrates := {
  HeaderMap : Type;
  (** [HeaderMap::get_all(name)], raw values in order, and [HeaderMap::get]. *)
  headers_get_all : HeaderMap -> string -> list string;
  headers_get : HeaderMap -> string -> option string;
  (** [HeaderValue::to_str] *)
  header_to_str : string -> option string;
  (** [BASE64_STANDARD.decode] *)
  base64_standard_decode : string -> option string;
}.

Abbreviation StatusCode := N (only parsing).

(** ** Errors *)

(* apps/api/src/http/api_response.rs:42-52 ApiError *)
Inductive ApiError :=
| ApiError_Status (status : StatusCode) (message : string) (headers : list (string * string))
| ApiError_OAuth (status : StatusCode) (body : OAuthErrorBody).

(* apps/api/src/http/api_response.rs:55-61 ApiError::status *)
Definition api_status (status : StatusCode) (message : string) : ApiError :=
  ApiError_Status status message [].
(* apps/api/src/http/api_response.rs:63-65 ApiError::bad_request *)
Definition api_bad_request (message : string) : ApiError := api_status 400 message.
(* apps/api/src/http/api_response.rs:82-91 ApiError::rate_limited *)
Definition api_rate_limited (retry_after_seconds : Z) : ApiError :=
  ApiError_Status 429 "too many attempts; try again later"
    [("retry-after", i64_to_string (Z.max retry_after_seconds 1))].
(* apps/api/src/http/api_response.rs:93-95 ApiError::oauth *)
Definition api_oauth (status : StatusCode) (body : OAuthErrorBody) : ApiError :=
  ApiError_OAuth status body.
(* apps/api/src/http/api_response.rs:117-122 From<DatabaseError> for ApiError *)
Definition api_database_error : ApiError := api_status 500 "database error".
(* apps/api/src/http/api_response.rs:124-128 From<DomainError> for ApiError *)
Definition api_domain_error (e : DomainError) : ApiError := api_bad_request (domain_error_text e).
(* apps/api/src/http/api_response.rs:130-135 From<AuthnError> for ApiError *)
Definition api_authn_error : ApiError := api_status 400 "authentication error".
(* apps/api/src/http/api_response.rs:137-142 From<OidcError> for ApiError *)
Definition api_oidc_error : ApiError := api_status 500 "OIDC operation failed".

(** A response, as its status and the headers the handlers set, with the cache
    headers every OAuth response carries. *)
Record Response := mk_Response {
  response_status : StatusCode;
  response_headers : list (string * string);
}.
(* apps/api/src/http/oauth_http/response.rs:47-50 add_no_store_cache_headers *)
Definition no_store_headers : list (string * string) :=
  [("cache-control", "no-store"); ("pragma", "no-cache")].
Definition dquote : ascii := ascii_of_N 34.
Definition quoted (s : string) : string := String dquote (s +:+ String dquote "").
(* apps/api/src/http/oauth_http/response.rs:18-29 oauth_error_response *)
Definition oauth_error_response (status : StatusCode) (body : OAuthErrorBody) : Response :=
  let include_client_auth_challenge :=
    N.eqb status 401 && bool_decide (oauth_error body = "invalid_client") in
  mk_Response status
    (no_store_headers
     ++ if include_client_auth_challenge
        then [("www-authenticate", "Basic realm=" +:+ quoted "cairn")]
        else []).
(* apps/api/src/http/api_response.rs:98-115 IntoResponse for ApiError *)
Definition api_error_into_response (e : ApiError) : Response :=
  match e with
  | ApiError_Status status _ headers => mk_Response status headers
  | ApiError_OAuth status body => oauth_error_response status body
  end.

(** ** The urlencoded codec *)

Inductive UrlEncodedParseError := mk_UrlEncodedParseError.

(* apps/api/src/http/urlencoded.rs:62-69 hex_nibble *)
Definition hex_nibble (b : ascii) : option N :=
  if in_range 48 57 b then Some (byte b - 48)%N
  else if in_range 97 102 b then Some (byte b - 97 + 10)%N
  else if in_range 65 70 b then Some (byte b - 65 + 10)%N
  else None.

(** The loop of [decode_component]: [index + 2 >= len] says that fewer than
    two bytes follow the percent sign. *)
Fixpoint decode_bytes (value : string) : option string :=
  match value with
  | EmptyString => Some EmptyString
  | String b rest =>
      if Ascii.eqb b "+" then option_map (String " ") (decode_bytes rest)
      else if Ascii.eqb b "%" then
        match rest with
        | String h (String l rest') =>
            match hex_nibble h, hex_nibble l with
            | Some high, Some low =>
                option_map (String (ascii_of_N (N.lor (N.shiftl high 4) low))) (decode_bytes rest')
            | _, _ => None
            end
        | _ => None
        end
      else option_map (String b) (decode_bytes rest)
  end.

(* apps/api/src/http/urlencoded.rs:32-60 decode_component *)
Definition decode_component (value : string) : result UrlEncodedParseError string :=
  match decode_bytes value with
  | Some decoded => if utf8_valid decoded then Ok decoded else Err mk_UrlEncodedParseError
  | None => Err mk_UrlEncodedParseError
  end.

Definition decode_pair (pair : string) : result UrlEncodedParseError (string * string) :=
  let '(name, value) := default (pair, "") (split_once "=" pair) in
  let? name := decode_component name in
  let? value := decode_component value in
  Ok (name, value).

(** [iter.map(f).collect::<Result<Vec<_>, _>>()] *)
Fixpoint collect {E A B} (f : A -> result E B) (l : list A) : result E (list B) :=
  match l with
  | [] => Ok []
  | x :: l => let? y := f x in let? ys := collect f l in Ok (y :: ys)
  end.

(* apps/api/src/http/urlencoded.rs:4-18 parse_url_encoded_pairs *)
Definition parse_url_encoded_pairs (input : string)
    : result UrlEncodedParseError (list (string * string)) :=
  if is_empty input then Ok [] else collect decode_pair (split_char "&" input).

(** The encoder of [urlencoded.rs] is the one of [redirects.rs]. *)
(* apps/api/src/http/urlencoded.rs:20-30 percent_encode_minimal *)
Definition percent_encode (value : string) : string :=
  flat_map_bytes (fun b => if is_unreserved b then String b "" else percent_hex b) value.

(** ** Forms *)

Definition OAUTH_QUERY_MAX_BYTES : N := 8 * 1024.
Definition OAUTH_FORM_BODY_MAX_BYTES : N := 16 * 1024.

(** [str::len] as a binary number. *)
Definition len (s : string) : N := N.of_nat (String.length s).

(* apps/api/src/http/oauth_http/form.rs:11-16 IntrospectionRequest *)
Record IntrospectionRequest := mk_IntrospectionRequest {
  introspect_token : string;
  introspect_token_type_hint : option string;
  introspect_client_id : option string;
  introspect_client_secret : option string;
}.
(* apps/api/src/http/oauth_http/form.rs:19-24 RevocationRequest *)
Record RevocationRequest := mk_RevocationRequest {
  revoke_token : string;
  revoke_token_type_hint : option string;
  revoke_client_id : option string;
  revoke_client_secret : option string;
}.

(* apps/api/src/http/oauth_http/form.rs:174-179 invalid_oauth_form_request *)
Definition invalid_oauth_form_request : ApiError :=
  api_oauth 400 (invalid_request "invalid form request").
(* apps/api/src/http/oauth_http/form.rs:191-196 invalid_oauth_form_content_type *)
Definition invalid_oauth_form_content_type : ApiError :=
  api_oauth 400 (invalid_request "content type must be application/x-www-form-urlencoded").

Fixpoint duplicate_loop (seen : list string) (pairs : list (string * string)) : bool :=
  match pairs with
  | [] => false
  | (name, _) :: rest => if contains seen name then true else duplicate_loop (seen ++ [name]) rest
  end.
(* apps/api/src/http/oauth_http/form.rs:163-172 contains_duplicate_oauth_form_parameter *)
Definition contains_duplicate_oauth_form_parameter (pairs : list (string * string)) : bool :=
  duplicate_loop [] pairs.
(* apps/api/src/http/oauth_http/form.rs:152-161 reject_duplicate_oauth_form_parameters *)
Definition reject_duplicate_oauth_form_parameters (pairs : list (string * string))
    : result ApiError unit :=
  if contains_duplicate_oauth_form_parameter pairs
  then Err (api_oauth 400 (invalid_request "duplicate form parameter"))
  else Ok tt.

(* apps/api/src/http/oauth_http/form.rs:198-210 required_oauth_form_parameter *)
Definition required_oauth_form_parameter (value : option string) (parameter : string)
    : result ApiError string :=
  match value with
  | Some v =>
      if is_empty (trim v) then Err (api_oauth 400 (invalid_request ("missing " +:+ parameter)))
      else Ok v
  | None => Err (api_oauth 400 (invalid_request ("missing " +:+ parameter)))
  end.

(* apps/api/src/http/oauth_http/form.rs:121-130 parse_oauth_form_body *)
Definition parse_oauth_form_body (body : string) : result ApiError (list (string * string)) :=
  require (len body <=? OAUTH_FORM_BODY_MAX_BYTES)%N
    else api_oauth 400 (invalid_request "form body too large") in
  require utf8_valid body else invalid_oauth_form_request in
  map_err (fun _ => invalid_oauth_form_request) (parse_url_encoded_pairs body).

(** One step of the loop that fills a [TokenRequest]. *)
Definition token_request_set (r : TokenRequest) (pair : string * string) : TokenRequest :=
  let '(mk_TokenRequest g c u i s v t o) := r in
  let '(name, value) := pair in
  if bool_decide (name = "grant_type") then mk_TokenRequest value c u i s v t o
  else if bool_decide (name = "code") then mk_TokenRequest g (Some value) u i s v t o
  else if bool_decide (name = "redirect_uri") then mk_TokenRequest g c (Some value) i s v t o
  else if bool_decide (name = "client_id") then mk_TokenRequest g c u (Some value) s v t o
  else if bool_decide (name = "client_secret") then mk_TokenRequest g c u i (Some value) v t o
  else if bool_decide (name = "code_verifier") then mk_TokenRequest g c u i s (Some value) t o
  else if bool_decide (name = "refresh_token") then mk_TokenRequest g c u i s v (Some value) o
  else if bool_decide (name = "scope") then mk_TokenRequest g c u i s v t (Some value)
  else r.
Definition empty_token_request : TokenRequest :=
  mk_TokenRequest "" None None None None None None None.

Definition introspection_set (r : IntrospectionRequest) (pair : string * string)
    : IntrospectionRequest :=
  let '(mk_IntrospectionRequest t h i s) := r in
  let '(name, value) := pair in
  if bool_decide (name = "token") then mk_IntrospectionRequest value h i s
  else if bool_decide (name = "token_type_hint") then mk_IntrospectionRequest t (Some value) i s
  else if bool_decide (name = "client_id") then mk_IntrospectionRequest t h (Some value) s
  else if bool_decide (name = "client_secret") then mk_IntrospectionRequest t h i (Some value)
  else r.
Definition revocation_set (r : RevocationRequest) (pair : string * string) : RevocationRequest :=
  let '(mk_RevocationRequest t h i s) := r in
  let '(name, value) := pair in
  if bool_decide (name = "token") then mk_RevocationRequest value h i s
  else if bool_decide (name = "token_type_hint") then mk_RevocationRequest t (Some value) i s
  else if bool_decide (name = "client_id") then mk_RevocationRequest t h (Some value) s
  else if bool_decide (name = "client_secret") then mk_RevocationRequest t h i (Some value)
  else r.

Section requests.
  Context {HC : HttpCrates}.

Definition OAUTH_FORM_CONTENT_TYPE : string := "application/x-www-form-urlencoded".
Definition SCIM_CONTENT_TYPE : string := "application/scim+json".

(* apps/api/src/http/content_type.rs:22-30 request_media_type *)
Definition request_media_type (headers : HeaderMap) : option string :=
  raw ← headers_get headers "content-type";
  content_type ← header_to_str raw;
  Some (trim (match split_once ";" content_type with
              | Some (media_type, _) => media_type | None => content_type end)).

(* apps/api/src/http/content_type.rs:6-9 request_has_urlencoded_content_type *)
Definition request_has_urlencoded_content_type (headers : HeaderMap) : bool :=
  match request_media_type headers with
  | Some media_type => eq_ignore_ascii_case media_type OAUTH_FORM_CONTENT_TYPE
  | None => false
  end.
(* apps/api/src/http/content_type.rs:11-16 request_has_scim_content_type *)
Definition request_has_scim_content_type (headers : HeaderMap) : bool :=
  match request_media_type headers with
  | Some media_type => eq_ignore_ascii_case media_type SCIM_CONTENT_TYPE
                       || eq_ignore_ascii_case media_type "application/json"
  | None => false
  end.
(* apps/api/src/http/content_type.rs:32-41 is_json_media_type *)
Definition is_json_media_type (media_type : string) : bool :=
  if eq_ignore_ascii_case media_type "application/json" then true
  else match strip_prefix "application/" (to_ascii_lowercase media_type) with
       | Some subtype => ends_with "+json" subtype
       | None => false
       end.
(* apps/api/src/http/content_type.rs:18-20 request_has_json_content_type *)
Definition request_has_json_content_type (headers : HeaderMap) : bool :=
  match request_media_type headers with Some m => is_json_media_type m | None => false end.

(* apps/api/src/http/oauth_http/form.rs:181-189 require_oauth_form_content_type *)
Definition require_oauth_form_content_type (headers : HeaderMap) : result ApiError unit :=
  if request_has_urlencoded_content_type headers then Ok tt
  else Err invalid_oauth_form_content_type.

(* apps/api/src/http/oauth_http/form.rs:116-119 oauth_form_pairs *)
Definition oauth_form_pairs (headers : HeaderMap) (body : string)
    : result ApiError (list (string * string)) :=
  let? _ := require_oauth_form_content_type headers in
  parse_oauth_form_body body.

(* apps/api/src/http/oauth_http/form.rs:31-62 token_request_from_oauth_form *)
Definition token_request_from_oauth_form (headers : HeaderMap) (body : string)
    : result ApiError TokenRequest :=
  let? pairs := oauth_form_pairs headers body in
  let? _ := reject_duplicate_oauth_form_parameters pairs in
  Ok (fold_left token_request_set pairs empty_token_request).

(* apps/api/src/http/oauth_http/form.rs:64-88 introspection_request_from_oauth_form *)
Definition introspection_request_from_oauth_form (headers : HeaderMap) (body : string)
    : result ApiError IntrospectionRequest :=
  let? pairs := oauth_form_pairs headers body in
  let? _ := reject_duplicate_oauth_form_parameters pairs in
  let request := fold_left introspection_set pairs (mk_IntrospectionRequest "" None None None) in
  let? _ := required_oauth_form_parameter (Some (introspect_token request)) "token" in
  Ok request.

(* apps/api/src/http/oauth_http/form.rs:90-114 revocation_request_from_oauth_form *)
Definition revocation_request_from_oauth_form (headers : HeaderMap) (body : string)
    : result ApiError RevocationRequest :=
  let? pairs := oauth_form_pairs headers body in
  let? _ := reject_duplicate_oauth_form_parameters pairs in
  let request := fold_left revocation_set pairs (mk_RevocationRequest "" None None None) in
  let? _ := required_oauth_form_parameter (Some (revoke_token request)) "token" in
  Ok request.

(** ** Client credentials *)

(* apps/api/src/http/oauth_http/client_auth.rs:8-11 OAuthClientAuth *)
Record OAuthClientAuth := mk_OAuthClientAuth {
  auth_client_id : option string;
  auth_client_secret : option string;
}.

Definition client_auth_error (description : string) : ApiError :=
  api_oauth 400 (invalid_request description).
(* apps/api/src/http/oauth_http/client_auth.rs:127-132 invalid_client_auth_encoding *)
Definition invalid_client_auth_encoding : ApiError :=
  client_auth_error "invalid client authentication encoding".

(** The decoding loop of [form_url_decode_component] is the one of
    [decode_component]. *)
(* apps/api/src/http/oauth_http/client_auth.rs:88-116 form_url_decode_component *)
Definition form_url_decode_component (value : string) : result ApiError string :=
  match decode_bytes value with
  | Some decoded => if utf8_valid decoded then Ok decoded else Err invalid_client_auth_encoding
  | None => Err invalid_client_auth_encoding
  end.

(* apps/api/src/http/oauth_http/client_auth.rs:34-86 oauth_basic_client_auth *)
Definition oauth_basic_client_auth (headers : HeaderMap)
    : result ApiError (option OAuthClientAuth) :=
  match headers_get_all headers "authorization" with
  | [] => Ok None
  | _ :: _ :: _ => Err (client_auth_error "invalid Authorization header")
  | [raw_header] =>
      let? raw_header :=
        ok_or (header_to_str raw_header) (client_auth_error "invalid Authorization header") in
      let? (scheme, encoded) :=
        ok_or (split_once " " raw_header) (client_auth_error "invalid Authorization header") in
      require eq_ignore_ascii_case scheme "Basic"
        else client_auth_error "unsupported client authentication scheme" in
      let? decoded := ok_or (base64_standard_decode (trim encoded)) invalid_client_auth_encoding in
      require utf8_valid decoded else invalid_client_auth_encoding in
      let? (client_id, client_secret) :=
        ok_or (split_once ":" decoded)
          (client_auth_error "invalid client authentication payload") in
      let? client_id := form_url_decode_component client_id in
      let? client_secret := form_url_decode_component client_secret in
      Ok (Some (mk_OAuthClientAuth (Some client_id) (Some client_secret)))
  end.

(* apps/api/src/http/oauth_http/client_auth.rs:13-32 oauth_client_auth_from_request *)
Definition oauth_client_auth_from_request (headers : HeaderMap)
    (body_client_id body_client_secret : option string) : result ApiError OAuthClientAuth :=
  let? basic_auth := oauth_basic_client_auth headers in
  match basic_auth with
  | Some basic_auth =>
      if is_some body_client_id || is_some body_client_secret
      then Err (client_auth_error "multiple client authentication methods")
      else Ok basic_auth
  | None => Ok (mk_OAuthClientAuth body_client_id body_client_secret)
  end.

(** ** Bearer tokens *)

(* apps/api/src/http/oauth_http/bearer.rs:11-16 BearerTokenError *)
Inductive BearerTokenError :=
| Bearer_Missing | Bearer_UnsupportedScheme | Bearer_MultipleMethods | Bearer_InvalidRequest.

Definition is_bearer_byte (b : ascii) : bool :=
  in_range 65 90 b || in_range 97 122 b || in_range 48 57 b
  || Ascii.eqb b "-" || Ascii.eqb b "." || Ascii.eqb b "_" || Ascii.eqb b "~"
  || Ascii.eqb b "+" || Ascii.eqb b "/" || Ascii.eqb b "=".
(* apps/api/src/http/oauth_http/bearer.rs:83-100 is_bearer_token_value *)
Definition is_bearer_token_value (token : string) : bool :=
  negb (is_empty token) && all_bytes is_bearer_byte token.

(* apps/api/src/http/oauth_http/bearer.rs:18-44 bearer_token *)
Definition bearer_token (headers : HeaderMap) : result BearerTokenError string :=
  match headers_get_all headers "authorization" with
  | [] => Err Bearer_Missing
  | _ :: _ :: _ => Err Bearer_InvalidRequest
  | [raw_header] =>
      let? raw_header := ok_or (header_to_str raw_header) Bearer_InvalidRequest in
      match split_ascii_whitespace raw_header with
      | [] => Err Bearer_Missing
      | scheme :: parts =>
          require eq_ignore_ascii_case scheme "Bearer" else Bearer_UnsupportedScheme in
          match parts with
          | [] => Err Bearer_InvalidRequest
          | token :: parts =>
              if negb (bool_decide (parts = [])) || negb (is_bearer_token_value token)
              then Err Bearer_InvalidRequest
              else Ok token
          end
      end
  end.

(* apps/api/src/http/oauth_http/bearer.rs:72-81 query_contains_bearer_token *)
Definition query_contains_bearer_token (raw_query : option string) : result BearerTokenError bool :=
  match raw_query with
  | None => Ok false
  | Some query =>
      require (len query <=? OAUTH_QUERY_MAX_BYTES)%N else Bearer_InvalidRequest in
      let? pairs := map_err (fun _ => Bearer_InvalidRequest) (parse_url_encoded_pairs query) in
      Ok (existsb (fun pair => bool_decide (pair.1 = "access_token")) pairs)
  end.

(* apps/api/src/http/oauth_http/bearer.rs:46-70 bearer_token_from_sources *)
Definition bearer_token_from_sources (headers : HeaderMap) (form_access_token : option string)
    (raw_query : option string) : result BearerTokenError string :=
  let? in_query := query_contains_bearer_token raw_query in
  require negb in_query else Bearer_InvalidRequest in
  let form_access_token :=
    match form_access_token with
    | Some token => if is_empty token then None else Some token
    | None => None
    end in
  match bearer_token headers, form_access_token with
  | Ok _, Some _ => Err Bearer_MultipleMethods
  | Ok token, None => Ok token
  | Err Bearer_Missing, Some token =>
      if is_bearer_token_value token then Ok token else Err Bearer_InvalidRequest
  | Err Bearer_Missing, None => Err Bearer_Missing
  | Err error, _ => Err error
  end.

(* apps/api/src/http/oauth_http/form.rs:132-150 userinfo_request_from_form_body *)
Definition userinfo_request_from_form_body (body : string)
    : result BearerTokenError (option string) :=
  require (len body <=? OAUTH_FORM_BODY_MAX_BYTES)%N else Bearer_InvalidRequest in
  require utf8_valid body else Bearer_InvalidRequest in
  let? pairs := map_err (fun _ => Bearer_InvalidRequest) (parse_url_encoded_pairs body) in
  require negb (contains_duplicate_oauth_form_parameter pairs) else Bearer_InvalidRequest in
  Ok (fold_left
        (fun access_token pair =>
           if bool_decide (pair.1 = "access_token") then Some pair.2 else access_token)
        pairs None).

(* apps/api/src/http/oauth_http/bearer.rs:176-178 is_bearer_challenge_param_character *)
Definition is_bearer_challenge_param_character (b : ascii) : bool :=
  in_range 0x20 0x21 b || in_range 0x23 0x5B b || in_range 0x5D 0x7E b.
(* apps/api/src/http/oauth_http/bearer.rs:163-174 bearer_challenge_param_value *)
Definition bearer_challenge_param_value (value : string) : string :=
  flat_map_bytes (fun b =>
    if is_bearer_challenge_param_character b then String b ""
    else if in_range 0x80 0xBF b then "" else " ") value.
Definition challenge_parameter (name : string) (value : option string) : string :=
  match value with
  | Some v => ", " +:+ name +:+ "=" +:+ quoted (bearer_challenge_param_value v)
  | None => ""
  end.
(* apps/api/src/http/oauth_http/bearer.rs:139-161 bearer_challenge_value *)
Definition bearer_challenge_value (error error_description scope : option string) : string :=
  "Bearer realm=" +:+ quoted "cairn" +:+ challenge_parameter "error" error
  +:+ challenge_parameter "error_description" error_description
  +:+ challenge_parameter "scope" scope.
(* apps/api/src/http/oauth_http/bearer.rs:102-117 bearer_challenge_response *)
Definition bearer_challenge_response (status : StatusCode)
    (error error_description scope : option string) : Response :=
  mk_Response status
    (no_store_headers
     ++ [("www-authenticate", bearer_challenge_value error error_description scope)]).
(* apps/api/src/http/oauth_http/bearer.rs:119-137 bearer_token_error_response *)
Definition bearer_token_error_response (error : BearerTokenError) : Response :=
  match error with
  | Bearer_Missing | Bearer_UnsupportedScheme => bearer_challenge_response 401 None None None
  | Bearer_MultipleMethods =>
      bearer_challenge_response 400 (Some "invalid_request")
        (Some "multiple bearer token transport methods") None
  | Bearer_InvalidRequest =>
      bearer_challenge_response 400 (Some "invalid_request")
        (Some "invalid bearer token request") None
  end.
End requests.

(** ** Properties of the codec *)

Lemma hex_round_trip c :
  match hex_nibble (hex_upper (byte c / 16)), hex_nibble (hex_upper (byte c mod 16)) with
  | Some high, Some low => Ascii.eqb (ascii_of_N (N.lor (N.shiftl high 4) low)) c
  | _, _ => false
  end = true.
Proof. revert c. apply all_ascii. vm_compute. reflexivity. Qed.

Lemma percent_encode_cons c v :
  percent_encode (String c v)
  = (if is_unreserved c then String c "" else percent_hex c) +:+ percent_encode v.
Proof. done. Qed.

Lemma decode_encode_app v rest :
  decode_bytes (percent_encode v +:+ rest) = option_map (fun r => v +:+ r) (decode_bytes rest).
Proof.
  induction v as [|c v IH].
  - cbn. rewrite string_app_nil_l. by destruct (decode_bytes rest).
  - rewrite percent_encode_cons, <- string_app_assoc. destruct (is_unreserved c) eqn:Ec.
    + rewrite string_app_cons, string_app_nil_l. cbn [decode_bytes].
      assert (Ascii.eqb c "+" = false /\ Ascii.eqb c "%" = false) as [-> ->].
      { split; apply not_true_iff_false; intros ->%Ascii.eqb_eq; done. }
      rewrite IH. by destruct (decode_bytes rest).
    + unfold percent_hex. rewrite !string_app_cons, string_app_nil_l. cbn [decode_bytes].
      pose proof (hex_round_trip c) as Hh.
      destruct (hex_nibble (hex_upper (byte c / 16))) as [hi|]; [|done].
      destruct (hex_nibble (hex_upper (byte c mod 16))) as [lo|]; [|done].
      apply Ascii.eqb_eq in Hh. rewrite Hh. cbn. rewrite IH. by destruct (decode_bytes rest).
Qed.

Lemma decode_encode v : utf8_valid v = true -> decode_component (percent_encode v) = Ok v.
Proof.
  intros Hv. unfold decode_component. rewrite <- (string_app_nil_r (percent_encode v)).
  rewrite decode_encode_app. cbn. by rewrite string_app_nil_r, Hv.
Qed.

Lemma percent_encode_no_byte c v :
  query_byte c = false -> contains_char c (percent_encode v) = false.
Proof.
  intros Hc. apply contains_char_false. eapply all_bytes_impl; [|apply percent_encode_query_bytes].
  intros d Hd. apply negb_true_iff, not_true_iff_false. intros <-%Ascii.eqb_eq. congruence.
Qed.

Definition encode_pair (pair : string * string) : string :=
  percent_encode pair.1 +:+ "=" +:+ percent_encode pair.2.

Lemma decode_encode_pair pair :
  utf8_valid pair.1 = true -> utf8_valid pair.2 = true ->
  decode_pair (encode_pair pair) = Ok pair.
Proof.
  intros H1 H2. destruct pair as [n v]. unfold decode_pair, encode_pair in *. simpl in *.
  rewrite string_app_cons, string_app_nil_l, split_once_app by by apply percent_encode_no_byte.
  simpl. by rewrite decode_encode, decode_encode by done.
Qed.

Lemma collect_map_Ok {E A B} (f : A -> result E B) (g : B -> A) l :
  Forall (fun b => f (g b) = Ok b) l -> collect f (g <$> l) = Ok l.
Proof.
  induction 1 as [|b l Hb _ IH]; [done|]. rewrite fmap_cons.
  change (collect f (g b :: (g <$> l)))
    with (let? y := f (g b) in let? ys := collect f (g <$> l) in Ok (y :: ys)).
  by rewrite Hb, IH.
Qed.

Lemma collect_Ok {E A B} (f : A -> result E B) l r :
  collect f l = Ok r <-> Forall2 (fun a b => f a = Ok b) l r.
Proof.
  revert r. induction l as [|a l IH]; intros r; cbn [collect].
  - split; [intros [= <-]; constructor|intros Hf; by inversion Hf].
  - rewrite result_bind_Ok. setoid_rewrite result_bind_Ok. setoid_rewrite IH. split.
    + intros (b & Hb & bs & Hbs & [= <-]). by constructor.
    + intros Hf. inversion Hf; subst. eauto 10.
Qed.

Lemma encode_pair_no_amp pair : contains_char "&" (encode_pair pair) = false.
Proof.
  unfold encode_pair. rewrite !contains_char_app.
  by rewrite !percent_encode_no_byte by done.
Qed.

Lemma parse_encoded_pairs pairs :
  Forall (fun p => utf8_valid p.1 = true /\ utf8_valid p.2 = true) pairs ->
  parse_url_encoded_pairs (join "&" (encode_pair <$> pairs)) = Ok pairs.
Proof.
  intros Hf. unfold parse_url_encoded_pairs. destruct pairs as [|p pairs]; [done|].
  destruct (is_empty (join "&" (encode_pair <$> p :: pairs))) eqn:Ee.
  - exfalso. destruct (join "&" (encode_pair <$> p :: pairs)) eqn:Ej; [|done].
    assert (Hl : String.length (join "&" (encode_pair <$> p :: pairs)) = 0%nat) by by rewrite Ej.
    destruct pairs; cbn in Hl; unfold encode_pair in Hl; rewrite !string_length_app in Hl;
      cbn in Hl; lia.
  - rewrite split_char_join; [|done|].
    + apply collect_map_Ok. eapply Forall_impl; [done|]. intros q [? ?]. by apply decode_encode_pair.
    + apply Forall_fmap, Forall_true. intros q. apply encode_pair_no_amp.
Qed.

Lemma parsed_pairs_utf8 input parsed :
  parse_url_encoded_pairs input = Ok parsed ->
  Forall (fun p => utf8_valid p.1 = true /\ utf8_valid p.2 = true) parsed.
Proof.
  unfold parse_url_encoded_pairs.
  destruct (is_empty input); [intros [= <-]; constructor|].
  intros Hc%collect_Ok. induction Hc as [|a b l r Hab _ IH]; constructor; [|done].
  unfold decode_pair in Hab. destruct (default _ _) as [n v].
  apply result_bind_Ok in Hab as (n' & Hn & Hab). apply result_bind_Ok in Hab as (v' & Hv & [= <-]).
  unfold decode_component in *. simpl.
  destruct (decode_bytes n) as [dn|]; [|done]. destruct (utf8_valid dn) eqn:?; [|done].
  destruct (decode_bytes v) as [dv|]; [|done]. destruct (utf8_valid dv) eqn:?; [|done].
  by simplify_eq.
Qed.

(** The urlencoded codec: for UTF-8 strings, decoding inverts
    [percent_encode_minimal], and parsing the [&]-joined encoding of a list
    of name/value pairs returns the pairs in order; every pair the parser
    returns is valid UTF-8, so a decoded name or value is a well-formed
    string. *)
Theorem urlencoded_round_trip pairs input parsed :
  (Forall (fun p => utf8_valid p.1 = true /\ utf8_valid p.2 = true) pairs ->
   parse_url_encoded_pairs (join "&" (encode_pair <$> pairs)) = Ok pairs)
  /\ (parse_url_encoded_pairs input = Ok parsed ->
      Forall (fun p => utf8_valid p.1 = true /\ utf8_valid p.2 = true) parsed).
Proof.
  split; [apply parse_encoded_pairs|apply parsed_pairs_utf8].
Qed.

(** ** Properties of the form parsers *)

Lemma duplicate_loop_spec seen pairs :
  NoDup seen -> duplicate_loop seen pairs = false <-> NoDup (seen ++ pairs.*1).
Proof.
  revert seen. induction pairs as [|[n v] pairs IH]; intros seen Hs; cbn.
  - by rewrite app_nil_r.
  - destruct (contains seen n) eqn:E.
    + apply contains_true in E. split; [done|]. rewrite NoDup_app. intros (_ & Hx & _).
      exfalso. apply (Hx n E). left.
    + apply contains_false in E. rewrite IH, <- app_assoc; [done|].
      apply NoDup_app. split_and!; [done| |apply NoDup_singleton].
      by intros x Hx ->%list_elem_of_singleton.
Qed.
Lemma no_duplicates pairs :
  contains_duplicate_oauth_form_parameter pairs = false <-> NoDup pairs.*1.
Proof. apply (duplicate_loop_spec []). constructor. Qed.

(** The parameter [n] of a parsed form. *)
Definition param (pairs : list (string * string)) (n : string) : option string :=
  (list_to_map pairs : gmap string string) !! n.

Section fold_fields.
Context {R : Type} (set : R -> string * string -> R) (get : R -> option string) (n : string).
Context (get_set : forall r v, get (set r (n, v)) = Some v)
        (get_other : forall r m v, m <> n -> get (set r (m, v)) = get r).

Lemma fold_field pairs r :
  NoDup pairs.*1 ->
  get (fold_left set pairs r) = match param pairs n with Some v => Some v | None => get r end.
Proof.
  revert r. induction pairs as [|[m v] pairs IH]; intros r; cbn [fold_left fmap list_fmap].
  - done.
  - intros [Hm Hd]%NoDup_cons. rewrite IH by done. unfold param in *. cbn [list_to_map foldr].
    destruct (decide (m = n)) as [->|Hne].
    + rewrite lookup_insert_eq, get_set.
      by rewrite (not_elem_of_list_to_map_1 (M := gmap string)).
    + rewrite lookup_insert_ne by done. by rewrite get_other.
Qed.
End fold_fields.

Lemma reject_duplicates_ok pairs u :
  reject_duplicate_oauth_form_parameters pairs = Ok u <-> NoDup pairs.*1.
Proof.
  rewrite <- no_duplicates. unfold reject_duplicate_oauth_form_parameters. destruct u.
  by destruct (contains_duplicate_oauth_form_parameter pairs).
Qed.
Lemma parse_form_ok body pairs :
  parse_oauth_form_body body = Ok pairs <->
  (len body <= OAUTH_FORM_BODY_MAX_BYTES)%N /\ utf8_valid body = true
  /\ parse_url_encoded_pairs body = Ok pairs.
Proof.
  unfold parse_oauth_form_body. rewrite <- N.leb_le.
  destruct (len body <=? _)%N; [|naive_solver]. destruct (utf8_valid body); [|naive_solver].
  rewrite map_err_Ok. naive_solver.
Qed.

(** Setting a parameter reads back, and leaves the other fields alone. *)
Ltac field_set := intros [] ?; reflexivity.
Ltac field_other :=
  intros [] ? ? ?; unfold token_request_set;
  repeat (case_bool_decide; [first [reflexivity | congruence]|]); reflexivity.

(** The token endpoint's form parser accepts a body exactly when the media
    type is the urlencoded one, the body is within the 16 KiB limit, is UTF-8,
    parses, and names no parameter twice; each field of the request is then
    the one parameter of that name, absent when the form lacks it. *)
Theorem token_form_spec {HC : HttpCrates} headers body :
  (forall r, token_request_from_oauth_form headers body = Ok r ->
     exists pairs, parse_url_encoded_pairs body = Ok pairs /\ NoDup pairs.*1
       /\ token_grant_type r = default "" (param pairs "grant_type")
       /\ token_code r = param pairs "code"
       /\ token_redirect_uri r = param pairs "redirect_uri"
       /\ token_client_id r = param pairs "client_id"
       /\ token_client_secret r = param pairs "client_secret"
       /\ token_code_verifier r = param pairs "code_verifier"
       /\ token_refresh_token r = param pairs "refresh_token"
       /\ token_scope r = param pairs "scope")
  /\ ((exists r, token_request_from_oauth_form headers body = Ok r) <->
      request_has_urlencoded_content_type headers = true
      /\ (len body <= OAUTH_FORM_BODY_MAX_BYTES)%N /\ utf8_valid body = true
      /\ exists pairs, parse_url_encoded_pairs body = Ok pairs /\ NoDup pairs.*1).
Proof.
  assert (Hf : forall get n pairs, NoDup pairs.*1 ->
    (forall r v, get (token_request_set r (n, v)) = Some v) ->
    (forall r m v, m <> n -> get (token_request_set r (m, v)) = get r) ->
    get empty_token_request = None ->
    get (fold_left token_request_set pairs empty_token_request) = param pairs n).
  { intros get n pairs Hd H1 H2 H3. rewrite (fold_field token_request_set get n H1 H2) by done.
    rewrite H3. by destruct (param pairs n). }
  unfold token_request_from_oauth_form, oauth_form_pairs, require_oauth_form_content_type.
  destruct (request_has_urlencoded_content_type headers); simpl; [|naive_solver].
  split.
  - intros r (pairs & (Hl & Hu & Hp)%parse_form_ok & Hr)%result_bind_Ok.
    apply result_bind_Ok in Hr as (u & Hd%reject_duplicates_ok & [= <-]).
    exists pairs. split_and!; [done|done| |apply Hf; [done|field_set|field_other|done]..].
    assert (Hg := fold_field token_request_set (fun r => Some (token_grant_type r)) "grant_type").
    specialize (Hg ltac:(field_set) ltac:(field_other) pairs empty_token_request Hd).
    destruct (param pairs "grant_type"); simplify_eq/=; done.
  - setoid_rewrite result_bind_Ok. setoid_rewrite parse_form_ok. setoid_rewrite result_bind_Ok.
    setoid_rewrite reject_duplicates_ok. naive_solver.
Qed.

(** ** Properties of credential extraction *)

Section credentials.
  Context {HC : HttpCrates}.

Definition query_clean (q : option string) : Prop :=
  match q with
  | None => True
  | Some q => (len q <= OAUTH_QUERY_MAX_BYTES)%N
      /\ exists pairs, parse_url_encoded_pairs q = Ok pairs /\ "access_token" ∉ pairs.*1
  end.

Lemma query_clean_iff q :
  query_contains_bearer_token q = Ok false <-> query_clean q.
Proof.
  unfold query_contains_bearer_token, query_clean. destruct q as [q|]; [|done].
  rewrite <- N.leb_le. destruct (len q <=? _)%N; [|naive_solver].
  destruct (parse_url_encoded_pairs q) as [pairs|e]; simpl; [|naive_solver].
  assert (Hx : existsb (fun pair => bool_decide (pair.1 = "access_token")) pairs = false
               <-> "access_token" ∉ pairs.*1).
  { rewrite existsb_elem_false. setoid_rewrite bool_decide_eq_false. rewrite list_elem_of_fmap.
    naive_solver. }
  split; [intros [= Hq%Hx]; eauto|intros (_ & p' & [= <-] & Hq%Hx); by rewrite Hq].
Qed.

(** The [Authorization] header carries the token [t]. *)
Definition bearer_header (headers : HeaderMap) (t : string) : Prop :=
  exists raw s scheme, headers_get_all headers "authorization" = [raw]
    /\ header_to_str raw = Some s /\ split_ascii_whitespace s = [scheme; t]
    /\ eq_ignore_ascii_case scheme "Bearer" = true /\ is_bearer_token_value t = true.

Ltac no_header := split; [done|intros (? & ? & ? & ? & ? & ? & ? & ?); congruence].

Lemma bearer_token_ok headers t : bearer_token headers = Ok t <-> bearer_header headers t.
Proof.
  unfold bearer_token, bearer_header.
  destruct (headers_get_all headers "authorization") as [|raw [|]]; [no_header| |no_header].
  destruct (header_to_str raw) as [s|] eqn:Es; simpl; [|no_header].
  destruct (split_ascii_whitespace s) as [|scheme [|tok rest]] eqn:Ew; [no_header|..].
  - destruct (eq_ignore_ascii_case scheme "Bearer"); no_header.
  - destruct (eq_ignore_ascii_case scheme "Bearer") eqn:Eb; [|no_header].
    destruct (negb _ || negb _) eqn:E.
    + split; [done|]. intros (? & s' & ? & [= <-] & Hs' & Hs & _ & Hv).
      assert (s' = s) as -> by congruence. rewrite Ew in Hs. injection Hs as <- <- ->.
      rewrite Hv in E. done.
    + bool_prop. subst rest. split.
      * intros [= <-]. exists raw, s, scheme. split_and!; done.
      * intros (? & s' & ? & [= <-] & Hs' & Hs & _ & Hv). congruence.
Qed.

Ltac sources :=
  split; [split; [intros; simplify_eq|intros (? & ? & [[? ?]|[? ?]])]; simplify_eq/=; try congruence; auto 6
         |intros; simplify_eq/=; try done].

(** A protected endpoint takes a bearer token from exactly one place, the
    [Authorization] header or the form, never from the query string, and only
    a non-empty token of RFC 6750 characters: [bearer_token_from_sources]
    succeeds with [t] in exactly these cases, and presenting a token in both
    places is [MultipleMethods]. *)
Theorem bearer_token_from_sources_spec headers form query t :
  (bearer_token_from_sources headers form query = Ok t <->
   query_clean query /\ is_bearer_token_value t = true
   /\ ((bearer_header headers t /\ default "" form = "")
       \/ (bearer_token headers = Err Bearer_Missing /\ form = Some t)))
  /\ (forall u v, query_clean query -> bearer_header headers u -> form = Some v -> v <> "" ->
        bearer_token_from_sources headers form query = Err Bearer_MultipleMethods).
Proof.
  unfold bearer_token_from_sources. setoid_rewrite <- query_clean_iff.
  setoid_rewrite <- bearer_token_ok.
  assert (Hval : forall t, bearer_token headers = Ok t -> is_bearer_token_value t = true).
  { intros u Hu%bearer_token_ok. by destruct Hu as (? & ? & ? & ? & ? & ? & ? & ?). }
  assert (Hne : is_bearer_token_value "" = false) by done.
  destruct (query_contains_bearer_token query) as [[]|]; simpl; [sources| |sources].
  destruct form as [[|c f]|]; cbn [is_empty];
    destruct (bearer_token headers) as [u|[]] eqn:Eh; try (specialize (Hval u eq_refl)); try by sources.
  destruct (is_bearer_token_value (String c f)) eqn:Ev; sources.
Qed.

(** A client authenticates by one method only: without an [Authorization]
    header the credentials are the form's, and with one they are those of a
    single well-formed Basic header, which is refused when the form also
    carries a [client_id] or a [client_secret]. *)
Theorem oauth_client_auth_single_method headers id secret auth :
  oauth_client_auth_from_request headers id secret = Ok auth ->
  (headers_get_all headers "authorization" = [] /\ auth = mk_OAuthClientAuth id secret)
  \/ (id = None /\ secret = None
      /\ exists raw s scheme encoded decoded i p i' p',
           headers_get_all headers "authorization" = [raw] /\ header_to_str raw = Some s
           /\ split_once " " s = Some (scheme, encoded)
           /\ eq_ignore_ascii_case scheme "Basic" = true
           /\ base64_standard_decode (trim encoded) = Some decoded
           /\ split_once ":" decoded = Some (i, p)
           /\ form_url_decode_component i = Ok i' /\ form_url_decode_component p = Ok p'
           /\ auth = mk_OAuthClientAuth (Some i') (Some p')).
Proof.
  unfold oauth_client_auth_from_request. intros (basic & Hb & H)%result_bind_Ok.
  unfold oauth_basic_client_auth in Hb.
  destruct (headers_get_all headers "authorization") as [|raw [|]]; [|right|done].
  { left. by simplify_eq. }
  apply result_bind_Ok in Hb as (s & Hs%ok_or_Ok & Hb).
  apply result_bind_Ok in Hb as ([scheme encoded] & Hsp%ok_or_Ok & Hb).
  destruct (eq_ignore_ascii_case scheme "Basic") eqn:Hsch; [|done].
  apply result_bind_Ok in Hb as (decoded & Hdec%ok_or_Ok & Hb).
  destruct (utf8_valid decoded); [|done].
  apply result_bind_Ok in Hb as ([i p] & Hip%ok_or_Ok & Hb).
  apply result_bind_Ok in Hb as (i' & Hi & Hb). apply result_bind_Ok in Hb as (p' & Hp & [= <-]).
  destruct (is_some id || is_some secret) eqn:E; [done|]. injection H as <-.
  destruct id, secret; try done. split_and!; [done..|]. naive_solver.
Qed.
End credentials.
