(* ===== verification/Codec.v ===== *)
(** * The database codec

    [crates/database]'s codec.rs and rows/: enumerations are stored as text,
    and a row whose text is not one of the written values is the error
    [InvalidEnum].  Every enum has a [_to_str]/[_from_str] pair; the class
    [TextEnum] states what the pair promises, and the rows with an enum column
    are decoded through it.  The tables of [Store] hold decoded rows, which
    these round trips justify: what the program writes it reads back. *)

From S2P Require Import Prelude RustStr Domain.

(** [sqlx::Error], as far as the program tells its causes apart. *)
Inductive SqlxError :=
| UniqueViolation
| ForeignKeyViolation
| CardinalityViolation
| RowNotFound
| IntegerOutOfRange
| ConnectionFailed.

(* crates/database/src/lib.rs:41-50 DatabaseError *)
Inductive DatabaseError :=
| Sqlx (error : SqlxError)
| Migration
| NotFound
| InvalidEnum (value : string).
#[export] Instance SqlxError_eq_dec : EqDecision SqlxError.
Proof. solve_decision. Defined.
#[export] Instance DatabaseError_eq_dec : EqDecision DatabaseError.
Proof. solve_decision. Defined.

(** ** Enumerations as text *)

(* crates/database/src/codec.rs:7-13 user_status_to_str *)
Definition user_status_to_str (status : UserStatus) : string :=
  match status with
  | UserStatus_Active => "active"
  | UserStatus_Suspended => "suspended"
  | UserStatus_Locked => "locked"
  end.
(* crates/database/src/codec.rs:15-22 user_status_from_str *)
Definition user_status_from_str (value : string) : result DatabaseError UserStatus :=
  if bool_decide (value = "active") then Ok UserStatus_Active
  else if bool_decide (value = "suspended") then Ok UserStatus_Suspended
  else if bool_decide (value = "locked") then Ok UserStatus_Locked
  else Err (InvalidEnum value).

(* crates/database/src/codec.rs:24-29 oidc_client_status_to_str *)
Definition oidc_client_status_to_str (status : OidcClientStatus) : string :=
  match status with ClientStatus_Active => "active" | ClientStatus_Disabled => "disabled" end.
(* crates/database/src/codec.rs:31-37 oidc_client_status_from_str *)
Definition oidc_client_status_from_str (value : string) : result DatabaseError OidcClientStatus :=
  if bool_decide (value = "active") then Ok ClientStatus_Active
  else if bool_decide (value = "disabled") then Ok ClientStatus_Disabled
  else Err (InvalidEnum value).

(* crates/database/src/codec.rs:39-45 account_token_kind_to_str *)
Definition account_token_kind_to_str (kind : AccountTokenKind) : string :=
  match kind with
  | EmailVerification => "email_verification"
  | PasswordRecovery => "password_recovery"
  | Invitation => "invitation"
  end.
(* crates/database/src/codec.rs:47-54 account_token_kind_from_str *)
Definition account_token_kind_from_str (value : string) : result DatabaseError AccountTokenKind :=
  if bool_decide (value = "email_verification") then Ok EmailVerification
  else if bool_decide (value = "password_recovery") then Ok PasswordRecovery
  else if bool_decide (value = "invitation") then Ok Invitation
  else Err (InvalidEnum value).

(* crates/database/src/codec.rs:56-60 pkce_method_to_str *)
Definition pkce_method_to_str (method : PkceMethod) : string := match method with S256 => "S256" end.
(* crates/database/src/codec.rs:62-67 pkce_method_from_str *)
Definition pkce_method_from_str (value : string) : result DatabaseError PkceMethod :=
  if bool_decide (value = "S256") then Ok S256 else Err (InvalidEnum value).

(* crates/database/src/codec.rs:73-78 consent_grant_mode_to_str *)
Definition consent_grant_mode_to_str (mode : ConsentGrantMode) : string :=
  match mode with RequiredOnce => "required_once" | AlwaysRequired => "always_required" end.
(* crates/database/src/codec.rs:80-86 consent_grant_mode_from_str *)
Definition consent_grant_mode_from_str (value : string) : result DatabaseError ConsentGrantMode :=
  if bool_decide (value = "required_once") then Ok RequiredOnce
  else if bool_decide (value = "always_required") then Ok AlwaysRequired
  else Err (InvalidEnum value).

(* crates/database/src/codec.rs:88-94 audit_actor_kind_to_str *)
Definition audit_actor_kind_to_str (kind : AuditActorKind) : string :=
  match kind with
  | ActorKind_User => "user" | ActorKind_Client => "client" | ActorKind_System => "system"
  end.
(* crates/database/src/codec.rs:96-103 audit_actor_kind_from_str *)
Definition audit_actor_kind_from_str (value : string) : result DatabaseError AuditActorKind :=
  if bool_decide (value = "user") then Ok ActorKind_User
  else if bool_decide (value = "client") then Ok ActorKind_Client
  else if bool_decide (value = "system") then Ok ActorKind_System
  else Err (InvalidEnum value).

(* crates/database/src/codec.rs:105-110 membership_role_to_str *)
Definition membership_role_to_str (role : MembershipRole) : string :=
  match role with MembershipRole_Member => "member" | MembershipRole_Owner => "owner" end.
(* crates/database/src/codec.rs:112-118 membership_role_from_str *)
Definition membership_role_from_str (value : string) : result DatabaseError MembershipRole :=
  if bool_decide (value = "member") then Ok MembershipRole_Member
  else if bool_decide (value = "owner") then Ok MembershipRole_Owner
  else Err (InvalidEnum value).

(* crates/database/src/codec.rs:120-126 mfa_kind_to_str *)
Definition mfa_kind_to_str (kind : MfaKind) : string :=
  match kind with
  | MfaKind_Totp => "totp"
  | MfaKind_WebAuthn => "web_authn"
  | MfaKind_RecoveryCode => "recovery_code"
  end.
(* crates/database/src/codec.rs:128-135 mfa_kind_from_str *)
Definition mfa_kind_from_str (value : string) : result DatabaseError MfaKind :=
  if bool_decide (value = "totp") then Ok MfaKind_Totp
  else if bool_decide (value = "web_authn") then Ok MfaKind_WebAuthn
  else if bool_decide (value = "recovery_code") then Ok MfaKind_RecoveryCode
  else Err (InvalidEnum value).

(* crates/database/src/codec.rs:137-142 webauthn_challenge_kind_to_str *)
Definition webauthn_challenge_kind_to_str (kind : WebAuthnChallengeKind) : string :=
  match kind with Registration => "registration" | Authentication => "authentication" end.
(* crates/database/src/codec.rs:144-152 webauthn_challenge_kind_from_str *)
Definition webauthn_challenge_kind_from_str (value : string)
    : result DatabaseError WebAuthnChallengeKind :=
  if bool_decide (value = "registration") then Ok Registration
  else if bool_decide (value = "authentication") then Ok Authentication
  else Err (InvalidEnum value).

(** What a text column promises: the written text reads back, nothing else
    reads as a value, and a rejected text is reported as it is. *)
Class TextEnum (A : Type) := {
  to_str : A -> string;
  from_str : string -> result DatabaseError A;
  from_to_str : forall a, from_str (to_str a) = Ok a;
  from_str_Ok : forall s a, from_str s = Ok a -> s = to_str a;
  from_str_Err : forall s e, from_str s = Err e -> e = InvalidEnum s;
}.

Ltac text_cases :=
  let H := fresh "H" in
  intros H; repeat (case_bool_decide; [by simplify_eq/=|]); by simplify_eq/=.

#[export] Program Instance user_status_text : TextEnum UserStatus :=
  {| to_str := user_status_to_str; from_str := user_status_from_str |}.
Next Obligation. by intros []. Qed.
Next Obligation. intros s a. unfold user_status_from_str. text_cases. Qed.
Next Obligation. intros s e. unfold user_status_from_str. text_cases. Qed.

#[export] Program Instance oidc_client_status_text : TextEnum OidcClientStatus :=
  {| to_str := oidc_client_status_to_str; from_str := oidc_client_status_from_str |}.
Next Obligation. by intros []. Qed.
Next Obligation. intros s a. unfold oidc_client_status_from_str. text_cases. Qed.
Next Obligation. intros s e. unfold oidc_client_status_from_str. text_cases. Qed.
#[export] Program Instance account_token_kind_text : TextEnum AccountTokenKind :=
  {| to_str := account_token_kind_to_str; from_str := account_token_kind_from_str |}.
Next Obligation. by intros []. Qed.
Next Obligation. intros s a. unfold account_token_kind_from_str. text_cases. Qed.
Next Obligation. intros s e. unfold account_token_kind_from_str. text_cases. Qed.
#[export] Program Instance pkce_method_text : TextEnum PkceMethod :=
  {| to_str := pkce_method_to_str; from_str := pkce_method_from_str |}.
Next Obligation. by intros []. Qed.
Next Obligation. intros s []. unfold pkce_method_from_str. text_cases. Qed.
Next Obligation. intros s e. unfold pkce_method_from_str. text_cases. Qed.
#[export] Program Instance consent_grant_mode_text : TextEnum ConsentGrantMode :=
  {| to_str := consent_grant_mode_to_str; from_str := consent_grant_mode_from_str |}.
Next Obligation. by intros []. Qed.
Next Obligation. intros s a. unfold consent_grant_mode_from_str. text_cases. Qed.
Next Obligation. intros s e. unfold consent_grant_mode_from_str. text_cases. Qed.
#[export] Program Instance audit_actor_kind_text : TextEnum AuditActorKind :=
  {| to_str := audit_actor_kind_to_str; from_str := audit_actor_kind_from_str |}.
Next Obligation. by intros []. Qed.
Next Obligation. intros s a. unfold audit_actor_kind_from_str. text_cases. Qed.
Next Obligation. intros s e. unfold audit_actor_kind_from_str. text_cases. Qed.
#[export] Program Instance membership_role_text : TextEnum MembershipRole :=
  {| to_str := membership_role_to_str; from_str := membership_role_from_str |}.
Next Obligation. by intros []. Qed.
Next Obligation. intros s a. unfold membership_role_from_str. text_cases. Qed.
Next Obligation. intros s e. unfold membership_role_from_str. text_cases. Qed.
#[export] Program Instance mfa_kind_text : TextEnum MfaKind :=
  {| to_str := mfa_kind_to_str; from_str := mfa_kind_from_str |}.
Next Obligation. by intros []. Qed.
Next Obligation. intros s a. unfold mfa_kind_from_str. text_cases. Qed.
Next Obligation. intros s e. unfold mfa_kind_from_str. text_cases. Qed.
#[export] Program Instance webauthn_challenge_kind_text : TextEnum WebAuthnChallengeKind :=
  {| to_str := webauthn_challenge_kind_to_str; from_str := webauthn_challenge_kind_from_str |}.
Next Obligation. by intros []. Qed.
Next Obligation. intros s a. unfold webauthn_challenge_kind_from_str. text_cases. Qed.
Next Obligation. intros s e. unfold webauthn_challenge_kind_from_str. text_cases. Qed.

(** ** Rows *)

(* crates/database/src/rows/users.rs:7-10 UserWithPassword *)
Record UserWithPassword := mk_UserWithPassword {
  uwp_user : User;
  uwp_password_hash : option string;
}.
(* crates/database/src/rows/users.rs:22-34 UserRow *)
Record UserRow := mk_UserRow {
  user_row_id : Uuid;
  user_row_organization_id : Uuid;
  user_row_email : string;
  user_row_scim_external_id : option string;
  user_row_email_verified : bool;
  user_row_display_name : string;
  user_row_password_hash : option string;
  user_row_status : string;
  user_row_created_at : OffsetDateTime;
  user_row_updated_at : OffsetDateTime;
  user_row_last_login_at : option OffsetDateTime;
}.
(* crates/database/src/rows/users.rs:37-50 UserRow::try_into_user *)
Definition try_into_user (self : UserRow) : result DatabaseError User :=
  let? status := user_status_from_str (user_row_status self) in
  Ok (mk_User (user_row_id self) (user_row_organization_id self) (user_row_email self)
        (user_row_scim_external_id self) (user_row_email_verified self)
        (user_row_display_name self) status (user_row_created_at self)
        (user_row_updated_at self) (user_row_last_login_at self)).
(* crates/database/src/rows/users.rs:13-18 UserWithPassword::try_from_row *)
Definition try_from_row (row : UserRow) : result DatabaseError UserWithPassword :=
  let? user := try_into_user row in
  Ok (mk_UserWithPassword user (user_row_password_hash row)).
(** The row the user's statements bind. *)
Definition user_to_row (u : UserWithPassword) : UserRow :=
  let user := uwp_user u in
  mk_UserRow (user_id user) (user_organization_id user) (user_email user)
    (user_scim_external_id user) (user_email_verified user) (user_display_name user)
    (uwp_password_hash u) (user_status_to_str (user_status user)) (user_created_at user)
    (user_updated_at user) (user_last_login_at user).

(* crates/database/src/rows/groups.rs:30-36 MembershipRow *)
Record MembershipRow := mk_MembershipRow {
  membership_row_organization_id : Uuid;
  membership_row_user_id : Uuid;
  membership_row_group_id : Uuid;
  membership_row_role : string;
  membership_row_created_at : OffsetDateTime;
}.
(* crates/database/src/rows/groups.rs:39-47 MembershipRow::try_into_membership *)
Definition try_into_membership (self : MembershipRow) : result DatabaseError Membership :=
  let? role := membership_role_from_str (membership_row_role self) in
  Ok (mk_Membership (membership_row_organization_id self) (membership_row_user_id self)
        (membership_row_group_id self) role (membership_row_created_at self)).
Definition membership_to_row (m : Membership) : MembershipRow :=
  mk_MembershipRow (membership_organization_id m) (membership_user_id m) (membership_group_id m)
    (membership_role_to_str (membership_role m)) (membership_created_at m).

(* crates/database/src/rows/oauth.rs:21-35 AuthorizationCodeRow *)
Record AuthorizationCodeRow := mk_AuthorizationCodeRow {
  code_row_code_hash : string;
  code_row_organization_id : Uuid;
  code_row_user_id : Uuid;
  code_row_session_id : Uuid;
  code_row_client_id : Uuid;
  code_row_redirect_uri : string;
  code_row_scopes : list string;
  code_row_nonce : option string;
  code_row_code_challenge : string;
  code_row_code_challenge_method : string;
  code_row_created_at : OffsetDateTime;
  code_row_expires_at : OffsetDateTime;
  code_row_used_at : option OffsetDateTime;
}.
(* crates/database/src/rows/oauth.rs:38-54 AuthorizationCodeRow::try_into_code *)
Definition try_into_code (self : AuthorizationCodeRow) : result DatabaseError AuthorizationCode :=
  let? method := pkce_method_from_str (code_row_code_challenge_method self) in
  Ok (mk_AuthorizationCode (code_row_code_hash self) (code_row_organization_id self)
        (code_row_user_id self) (code_row_session_id self) (code_row_client_id self)
        (code_row_redirect_uri self) (code_row_scopes self) (code_row_nonce self)
        (code_row_code_challenge self) method (code_row_created_at self)
        (code_row_expires_at self) (code_row_used_at self)).
Definition code_to_row (c : AuthorizationCode) : AuthorizationCodeRow :=
  mk_AuthorizationCodeRow (code_code_hash c) (code_organization_id c) (code_user_id c)
    (code_session_id c) (code_client_id c) (code_redirect_uri c) (code_scopes c) (code_nonce c)
    (code_code_challenge c) (pkce_method_to_str (code_code_challenge_method c))
    (code_created_at c) (code_expires_at c) (code_used_at c).

(* crates/database/src/rows/account.rs:9-21 AccountTokenRow *)
Record AccountTokenRow := mk_AccountTokenRow {
  account_row_id : Uuid;
  account_row_organization_id : Uuid;
  account_row_kind : string;
  account_row_user_id : option Uuid;
  account_row_email : string;
  account_row_token_hash : string;
  account_row_created_by_user_id : option Uuid;
  account_row_created_at : OffsetDateTime;
  account_row_expires_at : OffsetDateTime;
  account_row_consumed_at : option OffsetDateTime;
  account_row_metadata : Value;
}.
(* crates/database/src/rows/account.rs:24-38 AccountTokenRow::try_into_token *)
Definition try_into_token (self : AccountTokenRow) : result DatabaseError AccountToken :=
  let? kind := account_token_kind_from_str (account_row_kind self) in
  Ok (mk_AccountToken (account_row_id self) (account_row_organization_id self) kind
        (account_row_user_id self) (account_row_email self) (account_row_token_hash self)
        (account_row_created_by_user_id self) (account_row_created_at self)
        (account_row_expires_at self) (account_row_consumed_at self) (account_row_metadata self)).
Definition account_token_to_row (t : AccountToken) : AccountTokenRow :=
  mk_AccountTokenRow (account_token_id t) (account_token_organization_id t)
    (account_token_kind_to_str (account_token_kind t)) (account_token_user_id t)
    (account_token_email t) (account_token_token_hash t) (account_token_created_by_user_id t)
    (account_token_created_at t) (account_token_expires_at t) (account_token_consumed_at t)
    (account_token_metadata t).

(* crates/database/src/rows/oidc.rs:11-26 OidcClientRow *)
Record OidcClientRow := mk_OidcClientRow {
  client_row_id : Uuid;
  client_row_organization_id : Uuid;
  client_row_client_id : string;
  client_row_client_secret_hash : option string;
  client_row_consent_policy_template_id : option Uuid;
  client_row_name : string;
  client_row_redirect_uris : list string;
  client_row_post_logout_redirect_uris : list string;
  client_row_allowed_scopes : list string;
  client_row_grant_types : list OidcGrantType;
  client_row_public_client : bool;
  client_row_require_pkce : bool;
  client_row_status : string;
  client_row_created_at : OffsetDateTime;
}.
(* crates/database/src/rows/oidc.rs:29-46 OidcClientRow::try_into_client *)
Definition try_into_client (self : OidcClientRow) : result DatabaseError OidcClient :=
  let? status := oidc_client_status_from_str (client_row_status self) in
  Ok (mk_OidcClient (client_row_id self) (client_row_organization_id self)
        (client_row_client_id self) (client_row_client_secret_hash self)
        (client_row_consent_policy_template_id self) (client_row_name self)
        (client_row_redirect_uris self) (client_row_post_logout_redirect_uris self)
        (client_row_allowed_scopes self) (client_row_grant_types self)
        (client_row_public_client self) (client_row_require_pkce self) status
        (client_row_created_at self)).
Definition client_to_row (c : OidcClient) : OidcClientRow :=
  mk_OidcClientRow (client_uuid c) (client_organization_id c) (client_client_id c)
    (client_secret_hash c) (client_consent_policy_template_id c) (client_name c)
    (client_redirect_uris c) (client_post_logout_redirect_uris c) (client_allowed_scopes c)
    (client_grant_types c) (client_public_client c) (client_require_pkce c)
    (oidc_client_status_to_str (client_status c)) (client_created_at c).

(* crates/database/src/rows/oauth.rs:8-18 AccessTokenRecord *)
Record AccessTokenRecord := mk_AccessTokenRecord {
  access_token_hash : string;
  access_organization_id : Uuid;
  access_user_id : option Uuid;
  access_client_id : Uuid;
  access_scopes : list string;
  access_refresh_family_id : option Uuid;
  access_created_at : OffsetDateTime;
  access_expires_at : OffsetDateTime;
  access_revoked_at : option OffsetDateTime;
}.

(* crates/database/src/rows/core.rs:6-13 RateLimitBucket *)
Record RateLimitBucket := mk_RateLimitBucket {
  bucket_key : string;
  bucket_purpose : string;
  bucket_attempts : Z;
  bucket_window_start : OffsetDateTime;
  bucket_blocked_until : option OffsetDateTime;
  bucket_updated_at : OffsetDateTime;
}.
(* crates/database/src/rows/core.rs:16-19 RateLimitBucket::is_blocked *)
Definition is_blocked (self : RateLimitBucket) (now : OffsetDateTime) : bool :=
  match bucket_blocked_until self with
  | Some blocked_until => (now <? blocked_until)%Z
  | None => false
  end.

(* crates/database/src/rows/signing.rs:31-40 SigningKeyMaterialRow *)
Record SigningKeyMaterialRow := mk_SigningKeyMaterialRow {
  key_row_kid : string;
  key_row_algorithm : string;
  key_row_public_jwk : Value;
  key_row_private_key_ciphertext : option string;
  key_row_private_key_nonce : option string;
  key_row_signing_active : bool;
  key_row_created_at : OffsetDateTime;
  key_row_retired_at : option OffsetDateTime;
}.
(* crates/database/src/rows/signing.rs:43-54 SigningKeyMaterialRow::try_into_material *)
Definition try_into_material (self : SigningKeyMaterialRow)
    : result DatabaseError SigningKeyMaterial :=
  let? ciphertext := ok_or (key_row_private_key_ciphertext self) NotFound in
  let? nonce := ok_or (key_row_private_key_nonce self) NotFound in
  Ok (mk_SigningKeyMaterial (key_row_kid self) (key_row_algorithm self)
        (key_row_public_jwk self) ciphertext nonce (key_row_signing_active self)
        (key_row_created_at self) (key_row_retired_at self)).

(** ** Properties *)

(** Decoding an enum column through [TextEnum]. *)
Lemma from_str_iff {A} `{TextEnum A} s (a : A) : from_str s = Ok a <-> s = to_str a.
Proof. split; [apply from_str_Ok|intros ->; apply from_to_str]. Qed.

(** A row decoder reads its enum column and builds the value; [encode] is its
    inverse when it writes the same column and keeps the others. *)
Lemma decode_row_iff {A R V} `{TextEnum A} (text : string) (build : A -> V)
    (encode : V -> R) (column : V -> A) (r : R) (v : V) :
  (forall a, text = to_str a -> encode (build a) = r) ->
  (r = encode v -> text = to_str (column v) /\ build (column v) = v) ->
  (let? a := from_str text in Ok (build a)) = Ok v <-> r = encode v.
Proof.
  intros Henc Hdec. rewrite result_bind_Ok. split.
  - intros (a & Ha%from_str_iff & [= <-]). symmetry. by apply Henc.
  - intros Hr. destruct (Hdec Hr) as [-> Hb]. exists (column v). rewrite Hb.
    split; [apply from_to_str|done].
Qed.

(** Both conditions hold by computation, column by column. *)
Ltac decode_row inst col :=
  refine (decode_row_iff (H := inst) _ _ _ col _ _ _ _);
  [ intros ? ?; match goal with |- _ = ?r => destruct r; simpl in *; by subst end
  | intros ->; match goal with |- context [col ?v] => destruct v; by split end ].

(** The rows of the database decode exactly to the values they encode: for
    users, memberships, clients, authorization codes and account tokens a row
    decodes to a value if and only if it is the row the program writes for
    that value.  So reading back what was written gives it unchanged, two
    values never share a row, and a row with any other enum text is refused. *)
Theorem rows_decode_iff :
  (forall r u, try_from_row r = Ok u <-> r = user_to_row u)
  /\ (forall r m, try_into_membership r = Ok m <-> r = membership_to_row m)
  /\ (forall r c, try_into_client r = Ok c <-> r = client_to_row c)
  /\ (forall r k, try_into_code r = Ok k <-> r = code_to_row k)
  /\ (forall r t, try_into_token r = Ok t <-> r = account_token_to_row t)
  /\ (forall r e, try_into_client r = Err e -> e = InvalidEnum (client_row_status r)).
Proof.
  split_and!.
  - intros r u. unfold try_from_row, try_into_user.
    destruct (user_status_from_str (user_row_status r)) as [st|e] eqn:E; simpl.
    + pose proof (from_str_Ok (A := UserStatus) (TextEnum := user_status_text) _ _ E) as Es. split.
      * intros [= <-]. destruct r; simpl in *; by subst.
      * intros ->. destruct u as [[] ?]. simpl in *.
        pose proof (from_to_str (TextEnum := user_status_text) user_status) as Eu.
        simpl in Eu. congruence.
    + split; [done|]. intros ->.
      pose proof (from_to_str (TextEnum := user_status_text) (user_status (uwp_user u))) as Eu.
      simpl in *. congruence.
  - intros r m. unfold try_into_membership. decode_row membership_role_text membership_role.
  - intros r m. unfold try_into_client. decode_row oidc_client_status_text client_status.
  - intros r m. unfold try_into_code. decode_row pkce_method_text code_code_challenge_method.
  - intros r m. unfold try_into_token. decode_row account_token_kind_text account_token_kind.
  - intros r e. unfold try_into_client.
    destruct (oidc_client_status_from_str _) eqn:E; simpl; [done|]. intros [= <-].
    exact (from_str_Err (TextEnum := oidc_client_status_text) _ _ E).
Qed.
