(* ===== verification/Store.v ===== *)
(** * The relational store

    The tables of infra/migrations as finite maps from primary keys to decoded
    rows, the state-and-error monad in which the statements of
    [crates/database] run, transactions, and the constraints the schema checks
    on insertion.

    [refresh_tokens] is kept by its unique [token_hash] (its primary key [id]
    is checked on insertion); every other table by its primary key.  A
    transaction runs atomically: it commits all of its statements or none.
    Instants are exact; PostgreSQL keeps microseconds. *)

From S2P Require Import Prelude RustStr Domain Codec.

(** ** Tables *)

(** The [auth_sessions] columns beyond the session. *)
Record SessionRow := mk_SessionRow {
  row_session : AuthSession;
  row_created_ip_address : option string;
  row_created_user_agent : option string;
}.

Record Database := mk_Database {
  t_organizations : gmap N Organization;
  t_users : gmap N UserWithPassword;
  t_groups : gmap N Group;
  t_memberships : gmap (N * N) Membership;
  t_oidc_clients : gmap N OidcClient;
  t_auth_sessions : gmap N SessionRow;
  t_consent_policy_templates : gmap N ConsentPolicyTemplate;
  t_consent_grants : gmap N ConsentGrant;
  t_consent_authorizations : gmap N ConsentAuthorization;
  t_authorization_codes : gmap string AuthorizationCode;
  t_access_tokens : gmap string AccessTokenRecord;
  t_refresh_tokens : gmap string RefreshToken;
  t_account_tokens : gmap N AccountToken;
  t_email_outbox : gmap N EmailOutboxMessage;
  t_rate_limit_buckets : gmap string RateLimitBucket;
  t_signing_keys : gmap string SigningKeyMaterialRow;
  t_webauthn_challenges : gmap N WebAuthnChallenge;
  t_mfa_credentials : gmap N MfaCredential;
  t_audit_events : gmap N AuditEvent;
}.

Definition on_organizations (f : gmap N Organization -> gmap N Organization)
    (db : Database) : Database :=
  mk_Database
    (f (t_organizations db)) (t_users db) (t_groups db) (t_memberships db) (t_oidc_clients db)
    (t_auth_sessions db) (t_consent_policy_templates db) (t_consent_grants db)
    (t_consent_authorizations db) (t_authorization_codes db) (t_access_tokens db)
    (t_refresh_tokens db) (t_account_tokens db) (t_email_outbox db) (t_rate_limit_buckets db)
    (t_signing_keys db) (t_webauthn_challenges db) (t_mfa_credentials db)
    (t_audit_events db).
Definition on_users (f : gmap N UserWithPassword -> gmap N UserWithPassword)
    (db : Database) : Database :=
  mk_Database
    (t_organizations db) (f (t_users db)) (t_groups db) (t_memberships db) (t_oidc_clients db)
    (t_auth_sessions db) (t_consent_policy_templates db) (t_consent_grants db)
    (t_consent_authorizations db) (t_authorization_codes db) (t_access_tokens db)
    (t_refresh_tokens db) (t_account_tokens db) (t_email_outbox db) (t_rate_limit_buckets db)
    (t_signing_keys db) (t_webauthn_challenges db) (t_mfa_credentials db)
    (t_audit_events db).
Definition on_groups (f : gmap N Group -> gmap N Group) (db : Database) : Database :=
  mk_Database
    (t_organizations db) (t_users db) (f (t_groups db)) (t_memberships db) (t_oidc_clients db)
    (t_auth_sessions db) (t_consent_policy_templates db) (t_consent_grants db)
    (t_consent_authorizations db) (t_authorization_codes db) (t_access_tokens db)
    (t_refresh_tokens db) (t_account_tokens db) (t_email_outbox db) (t_rate_limit_buckets db)
    (t_signing_keys db) (t_webauthn_challenges db) (t_mfa_credentials db)
    (t_audit_events db).
Definition on_memberships (f : gmap (N * N) Membership -> gmap (N * N) Membership)
    (db : Database) : Database :=
  mk_Database
    (t_organizations db) (t_users db) (t_groups db) (f (t_memberships db)) (t_oidc_clients db)
    (t_auth_sessions db) (t_consent_policy_templates db) (t_consent_grants db)
    (t_consent_authorizations db) (t_authorization_codes db) (t_access_tokens db)
    (t_refresh_tokens db) (t_account_tokens db) (t_email_outbox db) (t_rate_limit_buckets db)
    (t_signing_keys db) (t_webauthn_challenges db) (t_mfa_credentials db)
    (t_audit_events db).
Definition on_oidc_clients (f : gmap N OidcClient -> gmap N OidcClient)
    (db : Database) : Database :=
  mk_Database
    (t_organizations db) (t_users db) (t_groups db) (t_memberships db) (f (t_oidc_clients db))
    (t_auth_sessions db) (t_consent_policy_templates db) (t_consent_grants db)
    (t_consent_authorizations db) (t_authorization_codes db) (t_access_tokens db)
    (t_refresh_tokens db) (t_account_tokens db) (t_email_outbox db) (t_rate_limit_buckets db)
    (t_signing_keys db) (t_webauthn_challenges db) (t_mfa_credentials db)
    (t_audit_events db).
Definition on_auth_sessions (f : gmap N SessionRow -> gmap N SessionRow)
    (db : Database) : Database :=
  mk_Database
    (t_organizations db) (t_users db) (t_groups db) (t_memberships db) (t_oidc_clients db)
    (f (t_auth_sessions db)) (t_consent_policy_templates db) (t_consent_grants db)
    (t_consent_authorizations db) (t_authorization_codes db) (t_access_tokens db)
    (t_refresh_tokens db) (t_account_tokens db) (t_email_outbox db) (t_rate_limit_buckets db)
    (t_signing_keys db) (t_webauthn_challenges db) (t_mfa_credentials db)
    (t_audit_events db).
Definition on_consent_policy_templates (f : gmap N ConsentPolicyTemplate -> gmap N ConsentPolicyTemplate)
    (db : Database) : Database :=
  mk_Database
    (t_organizations db) (t_users db) (t_groups db) (t_memberships db) (t_oidc_clients db)
    (t_auth_sessions db) (f (t_consent_policy_templates db)) (t_consent_grants db)
    (t_consent_authorizations db) (t_authorization_codes db) (t_access_tokens db)
    (t_refresh_tokens db) (t_account_tokens db) (t_email_outbox db) (t_rate_limit_buckets db)
    (t_signing_keys db) (t_webauthn_challenges db) (t_mfa_credentials db)
    (t_audit_events db).
Definition on_consent_grants (f : gmap N ConsentGrant -> gmap N ConsentGrant)
    (db : Database) : Database :=
  mk_Database
    (t_organizations db) (t_users db) (t_groups db) (t_memberships db) (t_oidc_clients db)
    (t_auth_sessions db) (t_consent_policy_templates db) (f (t_consent_grants db))
    (t_consent_authorizations db) (t_authorization_codes db) (t_access_tokens db)
    (t_refresh_tokens db) (t_account_tokens db) (t_email_outbox db) (t_rate_limit_buckets db)
    (t_signing_keys db) (t_webauthn_challenges db) (t_mfa_credentials db)
    (t_audit_events db).
Definition on_consent_authorizations (f : gmap N ConsentAuthorization -> gmap N ConsentAuthorization)
    (db : Database) : Database :=
  mk_Database
    (t_organizations db) (t_users db) (t_groups db) (t_memberships db) (t_oidc_clients db)
    (t_auth_sessions db) (t_consent_policy_templates db) (t_consent_grants db)
    (f (t_consent_authorizations db)) (t_authorization_codes db) (t_access_tokens db)
    (t_refresh_tokens db) (t_account_tokens db) (t_email_outbox db) (t_rate_limit_buckets db)
    (t_signing_keys db) (t_webauthn_challenges db) (t_mfa_credentials db)
    (t_audit_events db).
Definition on_authorization_codes (f : gmap string AuthorizationCode -> gmap string AuthorizationCode)
    (db : Database) : Database :=
  mk_Database
    (t_organizations db) (t_users db) (t_groups db) (t_memberships db) (t_oidc_clients db)
    (t_auth_sessions db) (t_consent_policy_templates db) (t_consent_grants db)
    (t_consent_authorizations db) (f (t_authorization_codes db)) (t_access_tokens db)
    (t_refresh_tokens db) (t_account_tokens db) (t_email_outbox db) (t_rate_limit_buckets db)
    (t_signing_keys db) (t_webauthn_challenges db) (t_mfa_credentials db)
    (t_audit_events db).
Definition on_access_tokens (f : gmap string AccessTokenRecord -> gmap string AccessTokenRecord)
    (db : Database) : Database :=
  mk_Database
    (t_organizations db) (t_users db) (t_groups db) (t_memberships db) (t_oidc_clients db)
    (t_auth_sessions db) (t_consent_policy_templates db) (t_consent_grants db)
    (t_consent_authorizations db) (t_authorization_codes db) (f (t_access_tokens db))
    (t_refresh_tokens db) (t_account_tokens db) (t_email_outbox db) (t_rate_limit_buckets db)
    (t_signing_keys db) (t_webauthn_challenges db) (t_mfa_credentials db)
    (t_audit_events db).
Definition on_refresh_tokens (f : gmap string RefreshToken -> gmap string RefreshToken)
    (db : Database) : Database :=
  mk_Database
    (t_organizations db) (t_users db) (t_groups db) (t_memberships db) (t_oidc_clients db)
    (t_auth_sessions db) (t_consent_policy_templates db) (t_consent_grants db)
    (t_consent_authorizations db) (t_authorization_codes db) (t_access_tokens db)
    (f (t_refresh_tokens db)) (t_account_tokens db) (t_email_outbox db)
    (t_rate_limit_buckets db) (t_signing_keys db) (t_webauthn_challenges db) (t_mfa_credentials db)
    (t_audit_events db).
Definition on_account_tokens (f : gmap N AccountToken -> gmap N AccountToken)
    (db : Database) : Database :=
  mk_Database
    (t_organizations db) (t_users db) (t_groups db) (t_memberships db) (t_oidc_clients db)
    (t_auth_sessions db) (t_consent_policy_templates db) (t_consent_grants db)
    (t_consent_authorizations db) (t_authorization_codes db) (t_access_tokens db)
    (t_refresh_tokens db) (f (t_account_tokens db)) (t_email_outbox db)
    (t_rate_limit_buckets db) (t_signing_keys db) (t_webauthn_challenges db) (t_mfa_credentials db)
    (t_audit_events db).
Definition on_email_outbox (f : gmap N EmailOutboxMessage -> gmap N EmailOutboxMessage)
    (db : Database) : Database :=
  mk_Database
    (t_organizations db) (t_users db) (t_groups db) (t_memberships db) (t_oidc_clients db)
    (t_auth_sessions db) (t_consent_policy_templates db) (t_consent_grants db)
    (t_consent_authorizations db) (t_authorization_codes db) (t_access_tokens db)
    (t_refresh_tokens db) (t_account_tokens db) (f (t_email_outbox db))
    (t_rate_limit_buckets db) (t_signing_keys db) (t_webauthn_challenges db) (t_mfa_credentials db)
    (t_audit_events db).
Definition on_rate_limit_buckets (f : gmap string RateLimitBucket -> gmap string RateLimitBucket)
    (db : Database) : Database :=
  mk_Database
    (t_organizations db) (t_users db) (t_groups db) (t_memberships db) (t_oidc_clients db)
    (t_auth_sessions db) (t_consent_policy_templates db) (t_consent_grants db)
    (t_consent_authorizations db) (t_authorization_codes db) (t_access_tokens db)
    (t_refresh_tokens db) (t_account_tokens db) (t_email_outbox db)
    (f (t_rate_limit_buckets db)) (t_signing_keys db) (t_webauthn_challenges db) (t_mfa_credentials db)
    (t_audit_events db).
Definition on_signing_keys (f : gmap string SigningKeyMaterialRow -> gmap string SigningKeyMaterialRow)
    (db : Database) : Database :=
  mk_Database
    (t_organizations db) (t_users db) (t_groups db) (t_memberships db) (t_oidc_clients db)
    (t_auth_sessions db) (t_consent_policy_templates db) (t_consent_grants db)
    (t_consent_authorizations db) (t_authorization_codes db) (t_access_tokens db)
    (t_refresh_tokens db) (t_account_tokens db) (t_email_outbox db) (t_rate_limit_buckets db)
    (f (t_signing_keys db)) (t_webauthn_challenges db) (t_mfa_credentials db)
    (t_audit_events db).
Definition on_webauthn_challenges (f : gmap N WebAuthnChallenge -> gmap N WebAuthnChallenge)
    (db : Database) : Database :=
  mk_Database
    (t_organizations db) (t_users db) (t_groups db) (t_memberships db) (t_oidc_clients db)
    (t_auth_sessions db) (t_consent_policy_templates db) (t_consent_grants db)
    (t_consent_authorizations db) (t_authorization_codes db) (t_access_tokens db)
    (t_refresh_tokens db) (t_account_tokens db) (t_email_outbox db) (t_rate_limit_buckets db)
    (t_signing_keys db) (f (t_webauthn_challenges db)) (t_mfa_credentials db)
    (t_audit_events db).

Definition on_mfa_credentials (f : gmap N MfaCredential -> gmap N MfaCredential)
    (db : Database) : Database :=
  mk_Database
    (t_organizations db) (t_users db) (t_groups db) (t_memberships db) (t_oidc_clients db)
    (t_auth_sessions db) (t_consent_policy_templates db) (t_consent_grants db)
    (t_consent_authorizations db) (t_authorization_codes db) (t_access_tokens db)
    (t_refresh_tokens db) (t_account_tokens db) (t_email_outbox db) (t_rate_limit_buckets db)
    (t_signing_keys db) (t_webauthn_challenges db) (f (t_mfa_credentials db))
    (t_audit_events db).
Definition on_audit_events (f : gmap N AuditEvent -> gmap N AuditEvent)
    (db : Database) : Database :=
  mk_Database
    (t_organizations db) (t_users db) (t_groups db) (t_memberships db) (t_oidc_clients db)
    (t_auth_sessions db) (t_consent_policy_templates db) (t_consent_grants db)
    (t_consent_authorizations db) (t_authorization_codes db) (t_access_tokens db)
    (t_refresh_tokens db) (t_account_tokens db) (t_email_outbox db) (t_rate_limit_buckets db)
    (t_signing_keys db) (t_webauthn_challenges db) (t_mfa_credentials db)
    (f (t_audit_events db)).

Definition empty_database : Database :=
  mk_Database ∅ ∅ ∅ ∅ ∅ ∅ ∅ ∅ ∅ ∅ ∅ ∅ ∅ ∅ ∅ ∅ ∅ ∅ ∅.

(** ** Statements *)

(** A statement reads and changes the database or fails; the failure of a
    single statement leaves the database as it was. *)
Definition DB (A : Type) : Type := Database -> result DatabaseError A * Database.

Definition db_ret {A} (a : A) : DB A := fun db => (Ok a, db).
Definition db_err {A} (e : DatabaseError) : DB A := fun db => (Err e, db).
Definition db_bind {A B} (c : DB A) (k : A -> DB B) : DB B := fun db =>
  match c db with
  | (Ok a, db') => k a db'
  | (Err e, db') => (Err e, db')
  end.
Notation "'let!' x ':=' c 'in' k" := (db_bind c (fun x => k))
  (at level 10, x pattern, k at level 200) : cairn_scope.

(** Reading: [SELECT]. *)
Definition db_gets {A} (f : Database -> A) : DB A := fun db => (Ok (f db), db).
(** [fetch_one] of a query that may find nothing. *)
Definition fetch_one {A} (o : option A) : DB A :=
  match o with Some a => db_ret a | None => db_err (Sqlx RowNotFound) end.
(** A change that cannot fail, with its result. *)
Definition db_apply {A} (f : Database -> A * Database) : DB A := fun db =>
  let '(a, db') := f db in (Ok a, db').
(** [execute] of an [INSERT], [UPDATE] or [DELETE] whose count is ignored. *)
Definition db_modify (f : Database -> Database) : DB unit := fun db => (Ok tt, f db).
(** A constraint of the schema. *)
Definition db_check (c : Database -> bool) (e : SqlxError) : DB unit := fun db =>
  if c db then (Ok tt, db) else (Err (Sqlx e), db).

(** [let mut tx = pool.begin()]: the body says whether [tx.commit()] ran
    before it returned; a transaction dropped without it rolls back. *)
Inductive TxEnd A := Commit (a : A) | Rollback (a : A).
Arguments Commit {A} a.
Arguments Rollback {A} a.
Definition transaction {A} (body : DB (TxEnd A)) : DB A := fun db =>
  match body db with
  | (Ok (Commit a), db') => (Ok a, db')
  | (Ok (Rollback a), _) => (Ok a, db)
  | (Err e, _) => (Err e, db)
  end.
Definition commit {A} (a : A) : DB (TxEnd A) := db_ret (Commit a).
Definition rollback {A} (a : A) : DB (TxEnd A) := db_ret (Rollback a).

(** ** Timestamps *)

(** [COALESCE(column, at)] *)
Definition coalesce (column : option OffsetDateTime) (at_ : OffsetDateTime)
    : option OffsetDateTime :=
  match column with Some t => Some t | None => Some at_ end.

Lemma coalesce_some c at_ : is_Some (coalesce c at_).
Proof. destruct c; simpl; eauto. Qed.

(** ** Column updates *)

Definition code_set_used_at (v : option OffsetDateTime) (c : AuthorizationCode) : AuthorizationCode :=
  mk_AuthorizationCode (code_code_hash c) (code_organization_id c) (code_user_id c)
    (code_session_id c) (code_client_id c) (code_redirect_uri c) (code_scopes c) (code_nonce c)
    (code_code_challenge c) (code_code_challenge_method c) (code_created_at c)
    (code_expires_at c) v.
Definition access_set_revoked_at (v : option OffsetDateTime) (t : AccessTokenRecord)
    : AccessTokenRecord :=
  mk_AccessTokenRecord (access_token_hash t) (access_organization_id t) (access_user_id t)
    (access_client_id t) (access_scopes t) (access_refresh_family_id t) (access_created_at t)
    (access_expires_at t) v.
Definition refresh_set_rotated_at (v : option OffsetDateTime) (t : RefreshToken) : RefreshToken :=
  mk_RefreshToken (refresh_id t) (refresh_token_hash t) (refresh_family_id t)
    (refresh_organization_id t) (refresh_user_id t) (refresh_client_id t) (refresh_scopes t)
    (refresh_created_at t) (refresh_expires_at t) v (refresh_revoked_at t).
Definition refresh_set_revoked_at (v : option OffsetDateTime) (t : RefreshToken) : RefreshToken :=
  mk_RefreshToken (refresh_id t) (refresh_token_hash t) (refresh_family_id t)
    (refresh_organization_id t) (refresh_user_id t) (refresh_client_id t) (refresh_scopes t)
    (refresh_created_at t) (refresh_expires_at t) (refresh_rotated_at t) v.
Definition session_set_revoked_at (v : option OffsetDateTime) (r : SessionRow) : SessionRow :=
  let s := row_session r in
  mk_SessionRow
    (mk_AuthSession (session_id s) (session_organization_id s) (session_user_id s) (session_acr s)
       (session_amr s) (session_created_at s) (session_expires_at s) v)
    (row_created_ip_address r) (row_created_user_agent r).
Definition account_token_set_consumed_at (v : option OffsetDateTime) (t : AccountToken)
    : AccountToken :=
  mk_AccountToken (account_token_id t) (account_token_organization_id t) (account_token_kind t)
    (account_token_user_id t) (account_token_email t) (account_token_token_hash t)
    (account_token_created_by_user_id t) (account_token_created_at t) (account_token_expires_at t)
    v (account_token_metadata t).

(** ** JSON columns *)

(** [value.get("key")] *)
Definition value_get (v : Value) (key : string) : option Value :=
  match v with
  | Object entries => snd <$> List.find (fun e => bool_decide (fst e = key)) entries
  | _ => None
  end.
Definition as_str (v : Value) : option string :=
  match v with String_ s => Some s | _ => None end.
(** [value->>'key']: the text of a scalar; the text of an array or object is
    never compared with by the statements here. *)
Definition json_text (v : Value) (key : string) : option string :=
  match value_get v key with
  | Some (String_ s) => Some s
  | Some (Number n) => Some (i64_to_string n)
  | Some (Bool b) => Some (if b then "true" else "false")
  | _ => None
  end.
(** [Map::insert]: the value of a key that is there is replaced. *)
Fixpoint object_insert (key : string) (value : Value) (entries : list (string * Value))
    : list (string * Value) :=
  match entries with
  | [] => [(key, value)]
  | (k, v) :: rest =>
      if bool_decide (k = key) then (key, value) :: rest
      else (k, v) :: object_insert key value rest
  end.
Lemma value_get_insert key v entries k :
  value_get (Object (object_insert key v entries)) k
  = if bool_decide (k = key) then Some v else value_get (Object entries) k.
Proof.
  cbn. induction entries as [|[k1 v1] entries IH]; cbn.
  - destruct (decide (key = k)) as [->|H]; [by rewrite !bool_decide_true|].
    by rewrite !bool_decide_false by congruence.
  - destruct (decide (k1 = key)) as [->|H1].
    + rewrite (bool_decide_true (key = key)) by done. cbn.
      destruct (decide (key = k)) as [->|H]; [by rewrite !bool_decide_true|].
      by rewrite !bool_decide_false by congruence.
    + rewrite (bool_decide_false (k1 = key)) by done. cbn.
      destruct (decide (k1 = k)) as [->|H].
      * by rewrite (bool_decide_true (k = k)), (bool_decide_false (k = key)).
      * rewrite (bool_decide_false (k1 = k)) by done. exact IH.
Qed.

(** ** Foreign keys *)

(** [REFERENCES users(id, organization_id)] and its siblings; a null column
    is not checked. *)
Definition fk_organization (db : Database) (id : Uuid) : bool :=
  bool_decide (is_Some (t_organizations db !! id)).
Definition fk_user (db : Database) (id organization_id : Uuid) : bool :=
  match t_users db !! id with
  | Some u => N.eqb (user_organization_id (uwp_user u)) organization_id
  | None => false
  end.
Definition fk_user_opt (db : Database) (id : option Uuid) (organization_id : Uuid) : bool :=
  match id with Some id => fk_user db id organization_id | None => true end.
Definition fk_group (db : Database) (id organization_id : Uuid) : bool :=
  match t_groups db !! id with
  | Some g => N.eqb (group_organization_id g) organization_id
  | None => false
  end.
Definition fk_client (db : Database) (id organization_id : Uuid) : bool :=
  match t_oidc_clients db !! id with
  | Some c => N.eqb (client_organization_id c) organization_id
  | None => false
  end.
Definition fk_session (db : Database) (id user_id organization_id : Uuid) : bool :=
  match t_auth_sessions db !! id with
  | Some r => N.eqb (session_user_id (row_session r)) user_id
              && N.eqb (session_organization_id (row_session r)) organization_id
  | None => false
  end.
Definition absent {K V} `{Countable K} (m : gmap K V) (k : K) : bool :=
  bool_decide (m !! k = None).

(** ** The two shapes of [UPDATE] *)

(** [UPDATE t SET f WHERE key = k AND P]; the result says whether the row was
    updated, [rows_affected() == 1]. *)
Definition update_key {K V} `{Countable K} (get : Database -> gmap K V)
    (on : (gmap K V -> gmap K V) -> Database -> Database)
    (k : K) (P : V -> bool) (f : V -> V) : DB bool :=
  db_apply (fun db =>
    let '(updated, rows) := update_row k P f (get db) in (updated, on (fun _ => rows) db)).
(** [UPDATE t SET f WHERE P]; the result is [rows_affected()]. *)
Definition update_rows {K V} `{Countable K} (get : Database -> gmap K V)
    (on : (gmap K V -> gmap K V) -> Database -> Database)
    (P : V -> bool) (f : V -> V) : DB nat :=
  db_apply (fun db => (count_where P (get db), on (update_where P f) db)).

(** ** Reasoning about statements *)

Lemma transaction_Ok {A} (body : DB (TxEnd A)) db a db' :
  transaction body db = (Ok a, db') <->
  body db = (Ok (Commit a), db') \/ (exists db1, body db = (Ok (Rollback a), db1) /\ db' = db).
Proof.
  unfold transaction. destruct (body db) as [[[a'|a']|e] db1]; split; intros H.
  - left. congruence.
  - destruct H as [H|(? & H & _)]; congruence.
  - right. exists db1. split; congruence.
  - destruct H as [H|(? & H & ->)]; congruence.
  - congruence.
  - destruct H as [H|(? & H & _)]; congruence.
Qed.
Lemma transaction_Err {A} (body : DB (TxEnd A)) db e db' :
  transaction body db = (Err e, db') -> db' = db.
Proof. unfold transaction. destruct (body db) as [[[a'|a']|e'] db1]; congruence. Qed.

(** A transaction leaves the database alone or ends as its body did when the
    body committed. *)
Lemma transaction_cases {A} (body : DB (TxEnd A)) db r db' :
  transaction body db = (r, db') ->
  db' = db \/ exists a, body db = (Ok (Commit a), db') /\ r = Ok a.
Proof.
  destruct r as [a|e].
  - intros [H|(db1 & _ & ->)]%transaction_Ok; eauto.
  - intros ->%transaction_Err. by left.
Qed.

Lemma db_bind_Ok {A B} (c : DB A) (k : A -> DB B) db b db' :
  db_bind c k db = (Ok b, db') <-> exists a db1, c db = (Ok a, db1) /\ k a db1 = (Ok b, db').
Proof.
  unfold db_bind. destruct (c db) as [[a|e] db1]; split.
  - eauto.
  - intros (? & ? & [= -> ->] & H). done.
  - congruence.
  - intros (? & ? & [=] & _).
Qed.
Lemma db_check_Ok c e db u db' :
  db_check c e db = (Ok u, db') <-> c db = true /\ db' = db.
Proof. unfold db_check. destruct u, (c db); split; intuition congruence. Qed.
Lemma db_modify_Ok f db u db' : db_modify f db = (Ok u, db') <-> db' = f db.
Proof. unfold db_modify. destruct u. split; intuition congruence. Qed.
Lemma commit_Ok {A} (a : A) db x db' : commit a db = (Ok x, db') <-> x = Commit a /\ db' = db.
Proof. unfold commit, db_ret. split; intuition congruence. Qed.
Lemma rollback_Ok {A} (a : A) db x db' :
  rollback a db = (Ok x, db') <-> x = Rollback a /\ db' = db.
Proof. unfold rollback, db_ret. split; intuition congruence. Qed.
Lemma update_key_Ok {K V} `{Countable K} (get : Database -> gmap K V) on k P f db b db' :
  update_key get on k P f db = (Ok b, db') <->
  exists rows, update_row k P f (get db) = (b, rows) /\ db' = on (fun _ => rows) db.
Proof.
  unfold update_key, db_apply. destruct (update_row k P f (get db)) as [b' rows].
  split; [intros [= <- <-]; eauto|intros (? & [= <- <-] & ->); done].
Qed.
Lemma update_rows_Ok {K V} `{Countable K} (get : Database -> gmap K V) on P f db n db' :
  update_rows get on P f db = (Ok n, db') <->
  n = count_where P (get db) /\ db' = on (update_where P f) db.
Proof. unfold update_rows, db_apply. split; intuition congruence. Qed.

#[export] Hint Rewrite @transaction_Ok @db_bind_Ok db_check_Ok db_modify_Ok @commit_Ok
  @rollback_Ok @update_key_Ok @update_rows_Ok : db.

(** Takes a successful statement apart into the values and databases between
    its parts. *)
Ltac db_step :=
  match goal with
  | H : db_bind _ _ _ = (Ok _, _) |- _ =>
      apply db_bind_Ok in H;
      let a := fresh "a" in let db := fresh "db" in let H1 := fresh "H" in
      destruct H as (a & db & H1 & H)
  | H : db_check _ _ _ = (Ok _, _) |- _ => apply db_check_Ok in H as [? ->]
  | H : db_modify _ _ = (Ok _, _) |- _ => apply db_modify_Ok in H as ->
  | H : commit _ _ = (Ok (Commit _), _) |- _ => apply commit_Ok in H as [H ->]; first [injection H as -> | clear H]
  | H : commit _ _ = (Ok (Rollback _), _) |- _ => apply commit_Ok in H as [[=] _]
  | H : rollback _ _ = (Ok (Rollback _), _) |- _ => apply rollback_Ok in H as [H ->]; first [injection H as -> | clear H]
  | H : rollback _ _ = (Ok (Commit _), _) |- _ => apply rollback_Ok in H as [[=] _]
  | H : update_rows _ _ _ _ _ = (Ok _, _) |- _ => apply update_rows_Ok in H as [-> ->]
  | H : update_key _ _ _ _ _ _ = (Ok _, _) |- _ =>
      apply update_key_Ok in H;
      let rows := fresh "rows" in let H1 := fresh "H" in
      destruct H as (rows & H1 & ->)
  | H : db_ret _ _ = (Ok _, _) |- _ => unfold db_ret in H; injection H as <- <-
  | H : db_gets _ _ = (Ok _, _) |- _ => unfold db_gets in H; injection H as <- <-
  | H : db_err _ _ = (Ok _, _) |- _ => discriminate H
  | H : (Ok _, _) = (Ok _, _) |- _ => injection H as <- <-
  | H : (Err _, _) = (Ok _, _) |- _ => discriminate H
  end.
Ltac db_steps := repeat db_step.
