(* ===== verification/OAuthStore.v ===== *)
(** * OAuth token persistence

    [crates/database]'s oauth_tokens: authorization codes, access tokens and
    refresh tokens, with the two transactions that redeem a credential and
    insert its successors, and the revocation of a refresh token family. *)

From S2P Require Import Prelude RustStr Domain Codec Store.

Section oauth_store.

(** The foreign keys of the three tables. *)
Definition access_fk (db : Database) (t : AccessTokenRecord) : bool :=
  fk_organization db (access_organization_id t)
  && fk_user_opt db (access_user_id t) (access_organization_id t)
  && fk_client db (access_client_id t) (access_organization_id t).
Definition refresh_fk (db : Database) (t : RefreshToken) : bool :=
  fk_organization db (refresh_organization_id t)
  && fk_user_opt db (refresh_user_id t) (refresh_organization_id t)
  && fk_client db (refresh_client_id t) (refresh_organization_id t).
Definition code_fk (db : Database) (c : AuthorizationCode) : bool :=
  fk_organization db (code_organization_id c)
  && fk_user db (code_user_id c) (code_organization_id c)
  && fk_session db (code_session_id c) (code_user_id c) (code_organization_id c)
  && fk_client db (code_client_id c) (code_organization_id c).

(* crates/database/src/oauth_tokens.rs:9-37 insert_access_token_record *)
Definition insert_access_token_record (token : AccessTokenRecord) : DB unit :=
  let! _ := db_check (fun db => absent (t_access_tokens db) (access_token_hash token))
              UniqueViolation in
  let! _ := db_check (fun db => access_fk db token) ForeignKeyViolation in
  db_modify (on_access_tokens (<[access_token_hash token := token]>)).

(** [id] is the primary key and [token_hash] is unique. *)
Definition refresh_id_absent (db : Database) (id : Uuid) : bool :=
  bool_decide (map_Forall (fun _ t => refresh_id t <> id) (t_refresh_tokens db)).

(* crates/database/src/oauth_tokens.rs:39-69 insert_refresh_token_record *)
Definition insert_refresh_token_record (token : RefreshToken) : DB unit :=
  let! _ := db_check (fun db => absent (t_refresh_tokens db) (refresh_token_hash token)
                                && refresh_id_absent db (refresh_id token)) UniqueViolation in
  let! _ := db_check (fun db => refresh_fk db token) ForeignKeyViolation in
  db_modify (on_refresh_tokens (<[refresh_token_hash token := token]>)).

(** ** Access tokens *)

(* crates/database/src/oauth_tokens/access_tokens.rs:7-12 insert_access_token *)
Definition insert_access_token (token : AccessTokenRecord) : DB unit :=
  insert_access_token_record token.
(* crates/database/src/oauth_tokens/access_tokens.rs:14-31 get_access_token *)
Definition get_access_token (token_hash : string) : DB (option AccessTokenRecord) :=
  db_gets (fun db => t_access_tokens db !! token_hash).
(* crates/database/src/oauth_tokens/access_tokens.rs:33-44 revoke_access_token *)
Definition revoke_access_token (token_hash : string) (at_ : OffsetDateTime) : DB bool :=
  update_key t_access_tokens on_access_tokens token_hash (fun _ => true)
    (access_set_revoked_at (Some at_)).

(** ** Authorization codes *)

(* crates/database/src/oauth_tokens/authorization_codes.rs:10-40 insert_authorization_code *)
Definition insert_authorization_code (code : AuthorizationCode) : DB unit :=
  let! _ := db_check (fun db => absent (t_authorization_codes db) (code_code_hash code))
              UniqueViolation in
  let! _ := db_check (fun db => code_fk db code) ForeignKeyViolation in
  db_modify (on_authorization_codes (<[code_code_hash code := code]>)).
(* crates/database/src/oauth_tokens/authorization_codes.rs:42-60 get_authorization_code *)
Definition get_authorization_code (code_hash : string) : DB (option AuthorizationCode) :=
  db_gets (fun db => t_authorization_codes db !! code_hash).
(* crates/database/src/oauth_tokens/authorization_codes.rs:62-73 mark_authorization_code_used *)
Definition mark_authorization_code_used (code_hash : string) (at_ : OffsetDateTime) : DB bool :=
  update_key t_authorization_codes on_authorization_codes code_hash (fun _ => true)
    (code_set_used_at (Some at_)).

(** [used_at IS NULL AND expires_at > at] *)
Definition code_redeemable (at_ : OffsetDateTime) (c : AuthorizationCode) : bool :=
  is_none (code_used_at c) && (at_ <? code_expires_at c)%Z.

Definition insert_optional_refresh_token (refresh_token : option RefreshToken) : DB unit :=
  match refresh_token with
  | Some refresh_token => insert_refresh_token_record refresh_token
  | None => db_ret tt
  end.

(* crates/database/src/oauth_tokens/authorization_codes.rs:75-108 consume_authorization_code_and_insert_tokens *)
Definition consume_authorization_code_and_insert_tokens (code_hash : string)
    (access_token : AccessTokenRecord) (refresh_token : option RefreshToken)
    (at_ : OffsetDateTime) : DB bool :=
  transaction (
    let! consumed :=
      update_key t_authorization_codes on_authorization_codes code_hash (code_redeemable at_)
        (code_set_used_at (Some at_)) in
    if negb consumed then rollback false
    else
      let! _ := insert_access_token_record access_token in
      let! _ := insert_optional_refresh_token refresh_token in
      commit true).

(** ** Refresh tokens *)

(* crates/database/src/oauth_tokens/refresh_tokens.rs:9-11 insert_refresh_token *)
Definition insert_refresh_token (token : RefreshToken) : DB unit :=
  insert_refresh_token_record token.
(* crates/database/src/oauth_tokens/refresh_tokens.rs:13-30 get_refresh_token *)
Definition get_refresh_token (token_hash : string) : DB (option RefreshToken) :=
  db_gets (fun db => t_refresh_tokens db !! token_hash).
(* crates/database/src/oauth_tokens/refresh_tokens.rs:32-43 mark_refresh_token_rotated *)
Definition mark_refresh_token_rotated (token_hash : string) (at_ : OffsetDateTime) : DB bool :=
  update_key t_refresh_tokens on_refresh_tokens token_hash (fun _ => true)
    (refresh_set_rotated_at (Some at_)).

(** [rotated_at IS NULL AND revoked_at IS NULL] *)
Definition refresh_live (t : RefreshToken) : bool :=
  is_none (refresh_rotated_at t) && is_none (refresh_revoked_at t).
Definition refresh_rotatable (at_ : OffsetDateTime) (t : RefreshToken) : bool :=
  refresh_live t && (at_ <? refresh_expires_at t)%Z.

(* crates/database/src/oauth_tokens/refresh_tokens.rs:45-79 rotate_refresh_token_and_insert_tokens *)
Definition rotate_refresh_token_and_insert_tokens (token_hash : string)
    (access_token : AccessTokenRecord) (refresh_token : option RefreshToken)
    (at_ : OffsetDateTime) : DB bool :=
  transaction (
    let! rotated :=
      update_key t_refresh_tokens on_refresh_tokens token_hash (refresh_rotatable at_)
        (refresh_set_rotated_at (Some at_)) in
    if negb rotated then rollback false
    else
      let! _ := insert_access_token_record access_token in
      let! _ := insert_optional_refresh_token refresh_token in
      commit true).

Definition in_family (family_id : Uuid) (t : RefreshToken) : bool :=
  N.eqb (refresh_family_id t) family_id.
Definition access_in_family (family_id : Uuid) (t : AccessTokenRecord) : bool :=
  bool_decide (access_refresh_family_id t = Some family_id).
Definition refresh_revoke (at_ : OffsetDateTime) (t : RefreshToken) : RefreshToken :=
  refresh_set_revoked_at (coalesce (refresh_revoked_at t) at_) t.
Definition access_revoke (at_ : OffsetDateTime) (t : AccessTokenRecord) : AccessTokenRecord :=
  access_set_revoked_at (coalesce (access_revoked_at t) at_) t.

(* crates/database/src/oauth_tokens/refresh_tokens.rs:81-107 revoke_refresh_token_family_and_access_tokens *)
Definition revoke_refresh_token_family_and_access_tokens (family_id : Uuid)
    (at_ : OffsetDateTime) : DB unit :=
  transaction (
    let! _ := update_rows t_refresh_tokens on_refresh_tokens (in_family family_id)
                (refresh_revoke at_) in
    let! _ := update_rows t_access_tokens on_access_tokens (access_in_family family_id)
                (access_revoke at_) in
    commit tt).
End oauth_store.

(** ** Effects *)

(** What a successful insertion adds. *)
Definition add_access (t : AccessTokenRecord) (db : Database) : Database :=
  on_access_tokens (<[access_token_hash t := t]>) db.
Definition add_refresh (t : RefreshToken) (db : Database) : Database :=
  on_refresh_tokens (<[refresh_token_hash t := t]>) db.
Definition add_optional_refresh (t : option RefreshToken) (db : Database) : Database :=
  match t with Some t => add_refresh t db | None => db end.

(** The schema accepts the two new rows. *)
Definition insertable (db : Database) (a : AccessTokenRecord) (r : option RefreshToken) : Prop :=
  t_access_tokens db !! access_token_hash a = None /\ access_fk db a = true
  /\ forall t, r = Some t ->
       t_refresh_tokens db !! refresh_token_hash t = None
       /\ map_Forall (fun _ t' => refresh_id t' <> refresh_id t) (t_refresh_tokens db)
       /\ refresh_fk db t = true.

Lemma absent_true {K V} `{Countable K} (m : gmap K V) k : absent m k = true <-> m !! k = None.
Proof. apply bool_decide_eq_true. Qed.

Lemma insert_access_Ok t db u db' :
  insert_access_token_record t db = (Ok u, db') <->
  t_access_tokens db !! access_token_hash t = None /\ access_fk db t = true
  /\ db' = add_access t db.
Proof.
  unfold insert_access_token_record. split.
  - intros H. db_steps. rewrite absent_true in *. done.
  - intros (Ha & Hf & ->). unfold db_bind, db_check. rewrite (proj2 (absent_true _ _) Ha).
    rewrite Hf. by destruct u.
Qed.
Lemma insert_refresh_Ok t db u db' :
  insert_refresh_token_record t db = (Ok u, db') <->
  t_refresh_tokens db !! refresh_token_hash t = None
  /\ map_Forall (fun _ t' => refresh_id t' <> refresh_id t) (t_refresh_tokens db)
  /\ refresh_fk db t = true /\ db' = add_refresh t db.
Proof.
  unfold insert_refresh_token_record. split.
  - intros H. db_steps. bool_prop. rewrite absent_true in *. unfold refresh_id_absent in *.
    bool_prop. done.
  - intros (Ha & Hi & Hf & ->). unfold db_bind, db_check. rewrite (proj2 (absent_true _ _) Ha).
    unfold refresh_id_absent. rewrite bool_decide_true by done.
    simpl. rewrite Hf. by destruct u.
Qed.
Lemma insert_optional_refresh_Ok r db u db' :
  insert_optional_refresh_token r db = (Ok u, db') <->
  (forall t, r = Some t ->
     t_refresh_tokens db !! refresh_token_hash t = None
     /\ map_Forall (fun _ t' => refresh_id t' <> refresh_id t) (t_refresh_tokens db)
     /\ refresh_fk db t = true)
  /\ db' = add_optional_refresh r db.
Proof.
  destruct r as [t|]; simpl.
  - rewrite insert_refresh_Ok. naive_solver.
  - unfold db_ret. destruct u. naive_solver.
Qed.

(** The tail of both redeeming transactions. *)
Definition insert_successors (a : AccessTokenRecord) (r : option RefreshToken) : DB (TxEnd bool) :=
  let! _ := insert_access_token_record a in
  let! _ := insert_optional_refresh_token r in
  commit true.
Lemma insert_successors_Ok a r db x db' :
  insert_successors a r db = (Ok x, db') <->
  x = Commit true /\ insertable db a r /\ db' = add_optional_refresh r (add_access a db).
Proof.
  unfold insert_successors. split.
  - intros H. db_steps. apply commit_Ok in H as [-> ->].
    apply insert_access_Ok in H0 as (Ha & Hf & ->).
    apply insert_optional_refresh_Ok in H1 as (Hr & ->). done.
  - intros (-> & (Ha & Hf & Hr) & ->). apply db_bind_Ok. exists tt, (add_access a db).
    split; [by apply insert_access_Ok|]. apply db_bind_Ok.
    exists tt, (add_optional_refresh r (add_access a db)).
    split; [by apply insert_optional_refresh_Ok|]. done.
Qed.

(** A transaction that redeems one row and then inserts the successors. *)
Lemma redeem_Ok {V} (get : Database -> gmap string V)
    (on : (gmap string V -> gmap string V) -> Database -> Database) k P f a r db b db' :
  transaction (let! done := update_key get on k P f in
               if negb done then rollback false else insert_successors a r) db = (Ok b, db') <->
  (b = false /\ db' = db /\ (forall v, get db !! k = Some v -> P v = false))
  \/ (b = true /\ exists v, get db !! k = Some v /\ P v = true
      /\ let db1 := on (fun _ => <[k := f v]> (get db)) db in
         insertable db1 a r /\ db' = add_optional_refresh r (add_access a db1)).
Proof.
  rewrite transaction_Ok. split.
  - intros [H|(db1 & H & ->)]; db_steps.
    + destruct a0; simpl in H; [|db_steps]. apply insert_successors_Ok in H as ([= ->] & Hins & ->).
      apply update_row_true in H1 as (v & Hv & HP & ->). right. eauto 10.
    + destruct a0; simpl in H; [by apply insert_successors_Ok in H as ([=] & _)|].
      db_steps. apply update_row_false in H1 as [_ Hv]. left. done.
  - intros [(-> & -> & Hv)|(-> & v & Hv & HP & Hins & ->)].
    + right. exists (on (fun _ => get db) db). split; [|done]. apply db_bind_Ok.
      exists false, (on (fun _ => get db) db). split; [|done]. apply update_key_Ok.
      exists (get db). split; [|done]. by apply update_row_false.
    + left. apply db_bind_Ok. exists true, (on (fun _ => <[k := f v]> (get db)) db). split.
      * apply update_key_Ok. exists (<[k := f v]> (get db)). split; [|done].
        apply update_row_true. eauto.
      * simpl. by apply insert_successors_Ok.
Qed.

Lemma consume_Ok h a r at_ db b db' :
  consume_authorization_code_and_insert_tokens h a r at_ db = (Ok b, db') <->
  (b = false /\ db' = db
   /\ (forall c, t_authorization_codes db !! h = Some c -> code_redeemable at_ c = false))
  \/ (b = true /\ exists c, t_authorization_codes db !! h = Some c /\ code_redeemable at_ c = true
      /\ let db1 := on_authorization_codes
                      (fun _ => <[h := code_set_used_at (Some at_) c]> (t_authorization_codes db)) db in
         insertable db1 a r /\ db' = add_optional_refresh r (add_access a db1)).
Proof. apply redeem_Ok. Qed.

Lemma rotate_Ok h a r at_ db b db' :
  rotate_refresh_token_and_insert_tokens h a r at_ db = (Ok b, db') <->
  (b = false /\ db' = db
   /\ (forall t, t_refresh_tokens db !! h = Some t -> refresh_rotatable at_ t = false))
  \/ (b = true /\ exists t, t_refresh_tokens db !! h = Some t /\ refresh_rotatable at_ t = true
      /\ let db1 := on_refresh_tokens
                      (fun _ => <[h := refresh_set_rotated_at (Some at_) t]> (t_refresh_tokens db)) db in
         insertable db1 a r /\ db' = add_optional_refresh r (add_access a db1)).
Proof. apply redeem_Ok. Qed.

Lemma consume_Err h a r at_ db e db' :
  consume_authorization_code_and_insert_tokens h a r at_ db = (Err e, db') -> db' = db.
Proof. apply transaction_Err. Qed.
Lemma rotate_Err h a r at_ db e db' :
  rotate_refresh_token_and_insert_tokens h a r at_ db = (Err e, db') -> db' = db.
Proof. apply transaction_Err. Qed.

Lemma code_redeemable_true at_ c :
  code_redeemable at_ c = true <-> code_used_at c = None /\ (at_ < code_expires_at c)%Z.
Proof.
  unfold code_redeemable. rewrite andb_true_iff, Z.ltb_lt. destruct (code_used_at c); naive_solver.
Qed.
Lemma refresh_live_true t :
  refresh_live t = true <-> refresh_rotated_at t = None /\ refresh_revoked_at t = None.
Proof.
  unfold refresh_live. rewrite andb_true_iff.
  destruct (refresh_rotated_at t), (refresh_revoked_at t); naive_solver.
Qed.
Lemma refresh_rotatable_true at_ t :
  refresh_rotatable at_ t = true <->
  refresh_rotated_at t = None /\ refresh_revoked_at t = None /\ (at_ < refresh_expires_at t)%Z.
Proof. unfold refresh_rotatable. rewrite andb_true_iff, Z.ltb_lt, refresh_live_true. tauto. Qed.

(** Redeeming an authorization code is one atomic compare-and-set: the
    transaction answers [true] exactly when the code exists, is unused and
    unexpired and the token rows are acceptable to the schema; it then marks
    the code used, inserts the access token and the optional refresh token
    and changes nothing else.  On [false] and on every error the database is
    what it was. *)
Theorem consume_authorization_code_spec h a r at_ db :
  (forall db', consume_authorization_code_and_insert_tokens h a r at_ db = (Ok true, db') <->
     exists c, t_authorization_codes db !! h = Some c
       /\ code_used_at c = None /\ (at_ < code_expires_at c)%Z
       /\ let db1 := on_authorization_codes (<[h := code_set_used_at (Some at_) c]>) db in
          insertable db1 a r /\ db' = add_optional_refresh r (add_access a db1))
  /\ (forall db', consume_authorization_code_and_insert_tokens h a r at_ db = (Ok false, db') <->
     db' = db /\ forall c, t_authorization_codes db !! h = Some c ->
       is_Some (code_used_at c) \/ (code_expires_at c <= at_)%Z)
  /\ (forall e db', consume_authorization_code_and_insert_tokens h a r at_ db = (Err e, db') ->
     db' = db).
Proof.
  split_and!; [intros db'|intros db'|intros e db'; apply consume_Err].
  - rewrite consume_Ok. setoid_rewrite code_redeemable_true. naive_solver.
  - rewrite consume_Ok. split.
    + intros [(_ & -> & Hc)|([=] & _)]. split; [done|]. intros c Hk%Hc.
      apply not_true_iff_false in Hk. rewrite code_redeemable_true in Hk.
      destruct (code_used_at c); [eauto|]. right. apply Z.nlt_ge. naive_solver.
    + intros [-> Hc]. left. split_and!; [done..|]. intros c Hk%Hc.
      apply not_true_iff_false. rewrite code_redeemable_true. intros [Hn Hlt].
      destruct Hk as [[? Hs]|Hle]; [congruence|lia].
Qed.

(** Rotating a refresh token is one atomic compare-and-set: the
    transaction answers [true] exactly when the token exists, is neither
    rotated nor revoked nor expired and the new rows are acceptable; it marks
    the token rotated and inserts the successors, nothing else.  On [false]
    and on every error the database is what it was. *)
Theorem rotate_refresh_token_spec h a r at_ db :
  (forall db', rotate_refresh_token_and_insert_tokens h a r at_ db = (Ok true, db') <->
     exists t, t_refresh_tokens db !! h = Some t
       /\ refresh_rotated_at t = None /\ refresh_revoked_at t = None
       /\ (at_ < refresh_expires_at t)%Z
       /\ let db1 := on_refresh_tokens (<[h := refresh_set_rotated_at (Some at_) t]>) db in
          insertable db1 a r /\ db' = add_optional_refresh r (add_access a db1))
  /\ (forall db', rotate_refresh_token_and_insert_tokens h a r at_ db = (Ok false, db') <->
     db' = db /\ forall t, t_refresh_tokens db !! h = Some t ->
       is_Some (refresh_rotated_at t) \/ is_Some (refresh_revoked_at t)
       \/ (refresh_expires_at t <= at_)%Z)
  /\ (forall e db', rotate_refresh_token_and_insert_tokens h a r at_ db = (Err e, db') ->
     db' = db).
Proof.
  split_and!; [intros db'|intros db'|intros e db'; apply rotate_Err].
  - rewrite rotate_Ok. setoid_rewrite refresh_rotatable_true. naive_solver.
  - rewrite rotate_Ok. split.
    + intros [(_ & -> & Hc)|([=] & _)]. split; [done|]. intros t Hk%Hc.
      apply not_true_iff_false in Hk. rewrite refresh_rotatable_true in Hk.
      destruct (refresh_rotated_at t); [eauto|]. destruct (refresh_revoked_at t); [eauto|].
      right. right. apply Z.nlt_ge. naive_solver.
    + intros [-> Hc]. left. split_and!; [done..|]. intros t Hk%Hc.
      apply not_true_iff_false. rewrite refresh_rotatable_true. intros (Hn & Hv & Hlt).
      destruct Hk as [[? Hs]|[[? Hs]|Hle]]; [congruence..|lia].
Qed.

(** ** Revoking a family *)

Lemma revoke_family_Ok f at_ db u db' :
  revoke_refresh_token_family_and_access_tokens f at_ db = (Ok u, db') <->
  db' = on_access_tokens (update_where (access_in_family f) (access_revoke at_))
          (on_refresh_tokens (update_where (in_family f) (refresh_revoke at_)) db).
Proof.
  unfold revoke_refresh_token_family_and_access_tokens. destruct u. split.
  - rewrite transaction_Ok. intros [H|(db1 & H & ->)]; db_steps. done.
  - intros ->. done.
Qed.
Lemma revoke_family_total f at_ db :
  exists db', revoke_refresh_token_family_and_access_tokens f at_ db = (Ok tt, db').
Proof. eexists. by apply revoke_family_Ok. Qed.

(** Revoking a refresh token family always succeeds, revokes every refresh
    token and every access token of the family (an earlier revocation time is
    kept), touches no row of another family, and after it no token of the
    family can be rotated at any time. *)
Theorem revoke_family_spec f at_ db :
  exists db', revoke_refresh_token_family_and_access_tokens f at_ db = (Ok tt, db')
  /\ (forall h t, t_refresh_tokens db !! h = Some t -> refresh_family_id t = f ->
        exists t', t_refresh_tokens db' !! h = Some t'
          /\ refresh_revoked_at t' = Some (default at_ (refresh_revoked_at t)))
  /\ (forall h t, t_access_tokens db !! h = Some t -> access_refresh_family_id t = Some f ->
        exists t', t_access_tokens db' !! h = Some t'
          /\ access_revoked_at t' = Some (default at_ (access_revoked_at t)))
  /\ (forall h t, t_refresh_tokens db !! h = Some t -> refresh_family_id t <> f ->
        t_refresh_tokens db' !! h = Some t)
  /\ (forall h t, t_access_tokens db !! h = Some t -> access_refresh_family_id t <> Some f ->
        t_access_tokens db' !! h = Some t)
  /\ (forall h t a r now db'', t_refresh_tokens db !! h = Some t -> refresh_family_id t = f ->
        rotate_refresh_token_and_insert_tokens h a r now db' <> (Ok true, db'')).
Proof.
  destruct (revoke_family_total f at_ db) as [db' Hdb']. exists db'. split; [done|].
  apply revoke_family_Ok in Hdb' as ->.
  assert (Hin : forall h t, t_refresh_tokens db !! h = Some t -> refresh_family_id t = f ->
    update_where (in_family f) (refresh_revoke at_) (t_refresh_tokens db) !! h
    = Some (refresh_revoke at_ t)).
  { intros h t Ht Hf. rewrite lookup_update_where, Ht. simpl. unfold in_family.
    by rewrite (proj2 (N.eqb_eq _ _) Hf). }
  split_and!; simpl.
  - intros h t Ht Hf. exists (refresh_revoke at_ t). split; [by apply Hin|].
    simpl. by destruct (refresh_revoked_at t).
  - intros h t Ht Hf. exists (access_revoke at_ t). rewrite lookup_update_where, Ht. simpl.
    unfold access_in_family. rewrite bool_decide_true by done. split; [done|].
    simpl. by destruct (access_revoked_at t).
  - intros h t Ht Hf. rewrite lookup_update_where, Ht. simpl. unfold in_family.
    by rewrite (proj2 (N.eqb_neq _ _) Hf).
  - intros h t Ht Hf. rewrite lookup_update_where, Ht. simpl. unfold access_in_family.
    by rewrite bool_decide_false by done.
  - intros h t a r now db'' Ht Hf [([=] & _)|(_ & t' & Ht' & Hrot & _)]%rotate_Ok. simpl in Ht'.
    rewrite (Hin h t Ht Hf) in Ht'. injection Ht' as <-.
    apply refresh_rotatable_true in Hrot as (_ & Hv & _). simpl in Hv.
    by destruct (refresh_revoked_at t).
Qed.
