(* ===== verification/ClientStore.v ===== *)
(** * OIDC client persistence

    [crates/database]'s oidc_clients: lookups, the status and detail updates
    with the credentials they invalidate, secret rotation, and the consent
    policy a client refers to. *)

From S2P Require Import Prelude RustStr Domain Codec Store OAuthStore.

Definition client_set_status (v : OidcClientStatus) (c : OidcClient) : OidcClient :=
  mk_OidcClient (client_uuid c) (client_organization_id c) (client_client_id c)
    (client_secret_hash c) (client_consent_policy_template_id c) (client_name c)
    (client_redirect_uris c) (client_post_logout_redirect_uris c) (client_allowed_scopes c)
    (client_grant_types c) (client_public_client c) (client_require_pkce c) v
    (client_created_at c).
Definition client_set_secret_hash (v : option string) (c : OidcClient) : OidcClient :=
  mk_OidcClient (client_uuid c) (client_organization_id c) (client_client_id c)
    v (client_consent_policy_template_id c) (client_name c)
    (client_redirect_uris c) (client_post_logout_redirect_uris c) (client_allowed_scopes c)
    (client_grant_types c) (client_public_client c) (client_require_pkce c) (client_status c)
    (client_created_at c).

(* crates/database/src/types/oidc.rs:18-24 OidcClientDetailsUpdate *)
Record OidcClientDetailsUpdate := mk_OidcClientDetailsUpdate {
  details_name : string;
  details_redirect_uris : list string;
  details_post_logout_redirect_uris : list string;
  details_allowed_scopes : list string;
  details_consent_policy_template_id : option Uuid;
}.
Definition client_set_details (u : OidcClientDetailsUpdate) (c : OidcClient) : OidcClient :=
  mk_OidcClient (client_uuid c) (client_organization_id c) (client_client_id c)
    (client_secret_hash c) (details_consent_policy_template_id u) (details_name u)
    (details_redirect_uris u) (details_post_logout_redirect_uris u) (details_allowed_scopes u)
    (client_grant_types c) (client_public_client c) (client_require_pkce c) (client_status c)
    (client_created_at c).

(** ** Lookups *)

(** [client_id TEXT NOT NULL UNIQUE] and the policy's composite key. *)
Definition client_public_id_absent (db : Database) (client_id : string) : bool :=
  bool_decide (map_Forall (fun _ c => client_client_id c <> client_id) (t_oidc_clients db)).
Definition fk_policy_opt (db : Database) (id : option Uuid) (organization_id : Uuid) : bool :=
  match id with
  | None => true
  | Some id =>
      match t_consent_policy_templates db !! id with
      | Some p => N.eqb (policy_organization_id p) organization_id
      | None => false
      end
  end.

(* crates/database/src/oidc_clients/clients.rs:16-44 create_oidc_client *)
Definition create_oidc_client (client : OidcClient) : DB unit :=
  let! _ := db_check (fun db => absent (t_oidc_clients db) (client_uuid client)
                                && client_public_id_absent db (client_client_id client))
              UniqueViolation in
  let! _ := db_check (fun db => fk_organization db (client_organization_id client)
                                && fk_policy_opt db (client_consent_policy_template_id client)
                                     (client_organization_id client))
              ForeignKeyViolation in
  db_modify (on_oidc_clients (<[client_uuid client := client]>)).
(* crates/database/src/oidc_clients/clients.rs:46-64 get_oidc_client_by_public_id *)
Definition get_oidc_client_by_public_id (client_id : string) : DB (option OidcClient) :=
  db_gets (fun db =>
    find_row (fun c => bool_decide (client_client_id c = client_id)) (t_oidc_clients db)).
(* crates/database/src/oidc_clients/clients.rs:66-81 get_oidc_client *)
Definition get_oidc_client (id : Uuid) : DB (option OidcClient) :=
  db_gets (fun db => t_oidc_clients db !! id).
Definition in_organization (organization_id : Uuid) (c : OidcClient) : bool :=
  N.eqb (client_organization_id c) organization_id.
(* crates/database/src/oidc_clients/clients.rs:83-103 get_oidc_client_in_organization *)
Definition get_oidc_client_in_organization (organization_id id : Uuid) : DB (option OidcClient) :=
  db_gets (fun db =>
    match t_oidc_clients db !! id with
    | Some c => if in_organization organization_id c then Some c else None
    | None => None
    end).

(* crates/database/src/oidc_clients/consent_policies.rs:7-28 create_consent_policy_template *)
Definition create_consent_policy_template (template : ConsentPolicyTemplate) : DB unit :=
  let! _ := db_check (fun db =>
              absent (t_consent_policy_templates db) (policy_id template)
              && bool_decide (map_Forall (fun _ p =>
                   ~ (policy_organization_id p = policy_organization_id template
                      /\ policy_slug p = policy_slug template)) (t_consent_policy_templates db)))
              UniqueViolation in
  let! _ := db_check (fun db => fk_organization db (policy_organization_id template))
              ForeignKeyViolation in
  db_modify (on_consent_policy_templates (<[policy_id template := template]>)).
(* crates/database/src/oidc_clients/consent_policies.rs:30-49 get_consent_policy_template *)
Definition get_consent_policy_template (organization_id id : Uuid)
    : DB (option ConsentPolicyTemplate) :=
  db_gets (fun db =>
    match t_consent_policy_templates db !! id with
    | Some p => if N.eqb (policy_organization_id p) organization_id then Some p else None
    | None => None
    end).

(** ** Invalidation of a client's credentials *)

Definition client_code_pending (organization_id client_id : Uuid) (at_ : OffsetDateTime)
    (c : AuthorizationCode) : bool :=
  N.eqb (code_organization_id c) organization_id && N.eqb (code_client_id c) client_id
  && is_none (code_used_at c) && (at_ <? code_expires_at c)%Z.
Definition code_mark_used (at_ : OffsetDateTime) (c : AuthorizationCode) : AuthorizationCode :=
  code_set_used_at (coalesce (code_used_at c) at_) c.
Definition client_access_live (organization_id client_id : Uuid) (t : AccessTokenRecord) : bool :=
  N.eqb (access_organization_id t) organization_id && N.eqb (access_client_id t) client_id
  && is_none (access_revoked_at t).
Definition client_refresh_live (organization_id client_id : Uuid) (t : RefreshToken) : bool :=
  N.eqb (refresh_organization_id t) organization_id && N.eqb (refresh_client_id t) client_id
  && is_none (refresh_revoked_at t).

(* crates/database/src/oidc_clients/runtime_credentials.rs:13-35 invalidate_pending_authorization_codes *)
Definition invalidate_pending_authorization_codes (organization_id client_id : Uuid)
    (at_ : OffsetDateTime) : DB nat :=
  update_rows t_authorization_codes on_authorization_codes
    (client_code_pending organization_id client_id at_) (code_mark_used at_).
(* crates/database/src/oidc_clients/runtime_credentials.rs:37-76 revoke_active_tokens *)
Definition revoke_active_tokens (organization_id client_id : Uuid) (at_ : OffsetDateTime)
    : DB (nat * nat) :=
  let! access_tokens_revoked :=
    update_rows t_access_tokens on_access_tokens (client_access_live organization_id client_id)
      (access_revoke at_) in
  let! refresh_tokens_revoked :=
    update_rows t_refresh_tokens on_refresh_tokens (client_refresh_live organization_id client_id)
      (refresh_revoke at_) in
  db_ret (access_tokens_revoked, refresh_tokens_revoked).

(* crates/database/src/oidc_clients/runtime_credentials.rs:7-11 ClientRuntimeCredentialMutation *)
Record ClientRuntimeCredentialMutation := mk_ClientRuntimeCredentialMutation {
  authorization_codes_invalidated : nat;
  access_tokens_revoked : nat;
  refresh_tokens_revoked : nat;
}.
(* crates/database/src/oidc_clients/runtime_credentials.rs:78-94 revoke_client_runtime_credentials *)
Definition revoke_client_runtime_credentials (organization_id client_id : Uuid)
    (at_ : OffsetDateTime) : DB ClientRuntimeCredentialMutation :=
  let! codes := invalidate_pending_authorization_codes organization_id client_id at_ in
  let! tokens := revoke_active_tokens organization_id client_id at_ in
  db_ret (mk_ClientRuntimeCredentialMutation codes tokens.1 tokens.2).

(** ** Updates *)

(** [Some] is [Applied], [None] is [NotFound]. *)
(* crates/database/src/oidc_clients/status.rs:10-73 update_oidc_client_status *)
Definition update_oidc_client_status (organization_id client_id : Uuid)
    (status : OidcClientStatus) (at_ : OffsetDateTime)
    : DB (option (OidcClient * ClientRuntimeCredentialMutation)) :=
  transaction (
    let! locked := get_oidc_client_in_organization organization_id client_id in
    match locked with
    | None => commit None
    | Some _ =>
        let! _ := update_key t_oidc_clients on_oidc_clients client_id
                    (in_organization organization_id) (client_set_status status) in
        let! updated := get_oidc_client_in_organization organization_id client_id in
        let! client := fetch_one updated in
        let! mutation :=
          if bool_decide (status = ClientStatus_Disabled)
          then revoke_client_runtime_credentials organization_id client_id at_
          else db_ret (mk_ClientRuntimeCredentialMutation 0 0 0) in
        commit (Some (client, mutation))
    end).

(* crates/database/src/oidc_clients/clients.rs:207-209 redirect_uri_set *)
Definition redirect_uri_set (uris : list string) : gset string := list_to_set uris.
(* crates/database/src/oidc_clients/clients.rs:211-213 string_set *)
Definition string_set (values : list string) : gset string := list_to_set values.

(** The push of one name to [changed_fields]. *)
Definition changed (differs : bool) (field : string) : list string :=
  if differs then [field] else [].
Definition changed_fields (existing : OidcClient) (update : OidcClientDetailsUpdate)
    : list string :=
  changed (negb (bool_decide (client_name existing = details_name update))) "name"
  ++ changed (negb (bool_decide (client_redirect_uris existing = details_redirect_uris update)))
       "redirect_uris"
  ++ changed (negb (bool_decide (client_post_logout_redirect_uris existing
                                 = details_post_logout_redirect_uris update)))
       "post_logout_redirect_uris"
  ++ changed (negb (bool_decide (client_allowed_scopes existing = details_allowed_scopes update)))
       "allowed_scopes"
  ++ changed (negb (bool_decide (client_consent_policy_template_id existing
                                 = details_consent_policy_template_id update)))
       "consent_policy_template_id".

(* crates/database/src/oidc_clients/clients.rs:105-204 update_oidc_client_details *)
Definition update_oidc_client_details (organization_id client_id : Uuid)
    (update : OidcClientDetailsUpdate) (at_ : OffsetDateTime)
    : DB (option (OidcClient * list string * ClientRuntimeCredentialMutation)) :=
  transaction (
    let! locked := get_oidc_client_in_organization organization_id client_id in
    match locked with
    | None => commit None
    | Some existing =>
        let redirect_uris_security_changed :=
          negb (bool_decide (redirect_uri_set (client_redirect_uris existing)
                             = redirect_uri_set (details_redirect_uris update))) in
        let allowed_scopes_security_changed :=
          negb (bool_decide (string_set (client_allowed_scopes existing)
                             = string_set (details_allowed_scopes update))) in
        let! _ := db_check (fun db =>
                    fk_policy_opt db (details_consent_policy_template_id update) organization_id)
                    ForeignKeyViolation in
        let! _ := update_key t_oidc_clients on_oidc_clients client_id
                    (in_organization organization_id) (client_set_details update) in
        let! updated := get_oidc_client_in_organization organization_id client_id in
        let! client := fetch_one updated in
        let! codes :=
          if redirect_uris_security_changed || allowed_scopes_security_changed
          then invalidate_pending_authorization_codes organization_id client_id at_
          else db_ret 0 in
        let! tokens :=
          if allowed_scopes_security_changed
          then revoke_active_tokens organization_id client_id at_
          else db_ret (0, 0) in
        commit (Some (client, changed_fields existing update,
                      mk_ClientRuntimeCredentialMutation codes tokens.1 tokens.2))
    end).

(* crates/database/src/oidc_clients/secrets.rs:5-26 rotate_oidc_client_secret *)
Definition rotate_oidc_client_secret (organization_id client_id : Uuid)
    (client_secret_hash : string) : DB bool :=
  update_key t_oidc_clients on_oidc_clients client_id
    (fun c => in_organization organization_id c && negb (client_public_client c))
    (client_set_secret_hash (Some client_secret_hash)).

(** ** Properties *)

(** No outstanding credential of a client: every code is used or expired by
    [at_], every token is revoked. *)
Definition codes_dead (organization_id client_id : Uuid) (at_ : OffsetDateTime) (db : Database)
    : Prop :=
  forall h c, t_authorization_codes db !! h = Some c ->
    code_organization_id c = organization_id -> code_client_id c = client_id ->
    is_Some (code_used_at c) \/ (code_expires_at c <= at_)%Z.
Definition tokens_dead (organization_id client_id : Uuid) (db : Database) : Prop :=
  (forall h t, t_access_tokens db !! h = Some t ->
     access_organization_id t = organization_id -> access_client_id t = client_id ->
     is_Some (access_revoked_at t))
  /\ (forall h t, t_refresh_tokens db !! h = Some t ->
     refresh_organization_id t = organization_id -> refresh_client_id t = client_id ->
     is_Some (refresh_revoked_at t)).

(** What the credential statements leave alone. *)
Definition other_credentials_kept (organization_id client_id : Uuid) (db db' : Database) : Prop :=
  (forall h c, t_authorization_codes db !! h = Some c ->
     ~ (code_organization_id c = organization_id /\ code_client_id c = client_id) ->
     t_authorization_codes db' !! h = Some c)
  /\ (forall h t, t_access_tokens db !! h = Some t ->
     ~ (access_organization_id t = organization_id /\ access_client_id t = client_id) ->
     t_access_tokens db' !! h = Some t)
  /\ (forall h t, t_refresh_tokens db !! h = Some t ->
     ~ (refresh_organization_id t = organization_id /\ refresh_client_id t = client_id) ->
     t_refresh_tokens db' !! h = Some t).

Section credentials.
Context (o c : Uuid) (at_ : OffsetDateTime).

Lemma invalidate_codes_dead (codes : gmap string AuthorizationCode) :
  forall h k, update_where (client_code_pending o c at_) (code_mark_used at_) codes !! h = Some k ->
    code_organization_id k = o -> code_client_id k = c ->
    is_Some (code_used_at k) \/ (code_expires_at k <= at_)%Z.
Proof.
  intros h k (k0 & _ & ->)%lookup_update_where_Some. unfold client_code_pending.
  destruct (_ && _) eqn:E.
  - intros _ _. left. apply coalesce_some.
  - intros Ho Hc. rewrite Ho, Hc, !N.eqb_refl in E. simpl in E. apply andb_false_iff in E as [E|E].
    + left. destruct (code_used_at k0); [eauto|done].
    + right. by apply Z.ltb_ge.
Qed.
Lemma revoke_access_dead (tokens : gmap string AccessTokenRecord) :
  forall h t, update_where (client_access_live o c) (access_revoke at_) tokens !! h = Some t ->
    access_organization_id t = o -> access_client_id t = c -> is_Some (access_revoked_at t).
Proof.
  intros h t (t0 & _ & ->)%lookup_update_where_Some. unfold client_access_live.
  destruct (_ && _) eqn:E; [intros; apply coalesce_some|].
  intros Ho Hc. rewrite Ho, Hc, !N.eqb_refl in E. simpl in E. destruct (access_revoked_at t0); [eauto|done].
Qed.
Lemma revoke_refresh_dead (tokens : gmap string RefreshToken) :
  forall h t, update_where (client_refresh_live o c) (refresh_revoke at_) tokens !! h = Some t ->
    refresh_organization_id t = o -> refresh_client_id t = c -> is_Some (refresh_revoked_at t).
Proof.
  intros h t (t0 & _ & ->)%lookup_update_where_Some. unfold client_refresh_live.
  destruct (_ && _) eqn:E; [intros; apply coalesce_some|].
  intros Ho Hc. rewrite Ho, Hc, !N.eqb_refl in E. simpl in E. destruct (refresh_revoked_at t0); [eauto|done].
Qed.
End credentials.

(** A row outside the [WHERE] clause is kept. *)
Lemma update_where_kept {K V} `{Countable K} (P : V -> bool) (f : V -> V) (m : gmap K V) k v :
  m !! k = Some v -> P v = false -> update_where P f m !! k = Some v.
Proof. intros Hk HP. rewrite lookup_update_where, Hk. simpl. by rewrite HP. Qed.

Ltac other_row :=
  intros ? ? ? ?; apply update_where_kept; [assumption|];
  unfold client_code_pending, client_access_live, client_refresh_live;
  apply not_true_iff_false; intros ?; bool_prop;
  repeat match goal with H : N.eqb _ _ = true |- _ => apply N.eqb_eq in H end; tauto.

Definition with_codes_invalidated (o c : Uuid) (at_ : OffsetDateTime) (db : Database) : Database :=
  on_authorization_codes (update_where (client_code_pending o c at_) (code_mark_used at_)) db.
Definition with_tokens_revoked (o c : Uuid) (at_ : OffsetDateTime) (db : Database) : Database :=
  on_refresh_tokens (update_where (client_refresh_live o c) (refresh_revoke at_))
    (on_access_tokens (update_where (client_access_live o c) (access_revoke at_)) db).

Lemma revoke_active_tokens_Ok o c at_ db n db' :
  revoke_active_tokens o c at_ db = (Ok n, db') -> db' = with_tokens_revoked o c at_ db.
Proof. unfold revoke_active_tokens. intros H. db_steps. done. Qed.
Lemma invalidate_codes_Ok o c at_ db n db' :
  invalidate_pending_authorization_codes o c at_ db = (Ok n, db') ->
  db' = with_codes_invalidated o c at_ db.
Proof. unfold invalidate_pending_authorization_codes. intros H. db_steps. done. Qed.

Lemma get_in_organization_Ok o id db r db' :
  get_oidc_client_in_organization o id db = (Ok r, db') <->
  db' = db /\ (match r with
               | Some c => t_oidc_clients db !! id = Some c /\ client_organization_id c = o
               | None => forall c, t_oidc_clients db !! id = Some c -> client_organization_id c <> o
               end).
Proof.
  unfold get_oidc_client_in_organization, db_gets, in_organization.
  destruct (t_oidc_clients db !! id) as [c|] eqn:E.
  - destruct (N.eqb_spec (client_organization_id c) o); destruct r; split;
      try (intros [= <- <-]); try (intros [-> Hr]); naive_solver.
  - destruct r; split; try (intros [= <- <-]); try (intros [-> Hr]); naive_solver.
Qed.
Lemma update_client_Ok o id (f : OidcClient -> OidcClient) db b db' :
  update_key t_oidc_clients on_oidc_clients id (in_organization o) f db = (Ok b, db') ->
  forall c, t_oidc_clients db !! id = Some c -> client_organization_id c = o ->
  db' = on_oidc_clients (fun _ => <[id := f c]> (t_oidc_clients db)) db.
Proof.
  intros (rows & Hrows & ->)%update_key_Ok c Hc Ho.
  unfold update_row, in_organization in Hrows. rewrite Hc, (proj2 (N.eqb_eq _ _) Ho) in Hrows.
  by injection Hrows as <- <-.
Qed.

(** *** Status *)

Lemma update_status_Ok o id status at_ db r db' :
  update_oidc_client_status o id status at_ db = (Ok r, db') ->
  (r = None /\ db' = db
   /\ forall c, t_oidc_clients db !! id = Some c -> client_organization_id c <> o)
  \/ (exists c m, t_oidc_clients db !! id = Some c /\ client_organization_id c = o
      /\ r = Some (client_set_status status c, m)
      /\ let db1 := on_oidc_clients (fun _ => <[id := client_set_status status c]> (t_oidc_clients db)) db in
         db' = if bool_decide (status = ClientStatus_Disabled)
               then with_tokens_revoked o id at_ (with_codes_invalidated o id at_ db1) else db1).
Proof.
  unfold update_oidc_client_status. intros [H|(db1 & H & ->)]%transaction_Ok.
  - apply db_bind_Ok in H as (locked & db1 & Hl & H).
    apply get_in_organization_Ok in Hl as [-> Hl]. destruct locked as [c|].
    + destruct Hl as [Hc Ho]. right.
      apply db_bind_Ok in H as (b & db2 & Hu & H).
      eapply update_client_Ok in Hu; [|done..]. subst db2.
      apply db_bind_Ok in H as (c2 & db3 & Hg & H).
      apply get_in_organization_Ok in Hg as [-> Hg].
      apply db_bind_Ok in H as (c3 & db4 & Hf & H).
      destruct c2 as [c2|]; [|done]. injection Hf as <- <-. destruct Hg as [Hg _].
      cbn in Hg. rewrite lookup_insert_eq in Hg. injection Hg as <-.
      apply db_bind_Ok in H as (m & db5 & Hm & H). apply commit_Ok in H as [[= ->] ->].
      exists c, m. split_and!; [done..|].
      destruct (bool_decide _); [|by injection Hm as <- <-].
      unfold revoke_client_runtime_credentials in Hm.
      apply db_bind_Ok in Hm as (n & db6 & Hn & Hm). apply invalidate_codes_Ok in Hn as ->.
      apply db_bind_Ok in Hm as (n2 & db7 & Hn2 & Hm). apply revoke_active_tokens_Ok in Hn2 as ->.
      by injection Hm as <- <-.
    + left. apply commit_Ok in H as [[= ->] ->]. done.
  - exfalso. apply db_bind_Ok in H as (locked & db2 & Hl & H).
    destruct locked; [|by apply commit_Ok in H as [[=] _]].
    db_steps.
Qed.

(** Disabling a client is immediate and complete: the update finds the
    client only in its own organization and otherwise changes nothing; on
    success the client is stored as disabled with its other fields
    unchanged, every authorization code of it is used or expired, all of its
    access and refresh tokens are revoked, no code or refresh token of it can
    be redeemed at [at] or later, and the credentials of other clients are
    untouched. *)
Theorem disable_client_revokes o id at_ db r db' :
  update_oidc_client_status o id ClientStatus_Disabled at_ db = (Ok r, db') ->
  (r = None -> db' = db)
  /\ (forall c m, r = Some (c, m) ->
      client_status c = ClientStatus_Disabled /\ t_oidc_clients db' !! id = Some c
      /\ (exists c0, t_oidc_clients db !! id = Some c0 /\ client_organization_id c0 = o
                     /\ c = client_set_status ClientStatus_Disabled c0)
      /\ (forall id', id' <> id -> t_oidc_clients db' !! id' = t_oidc_clients db !! id')
      /\ codes_dead o id at_ db' /\ tokens_dead o id db'
      /\ other_credentials_kept o id db db').
Proof.
  intros [(-> & -> & _)|(c & m & Hc & Ho & -> & Hdb')]%update_status_Ok; [done|].
  split; [done|]. intros c' m' [= <- <-]. simpl in Hdb'. subst db'. cbn.
  split_and!.
  - done.
  - by rewrite lookup_insert_eq.
  - eauto.
  - intros id' Hne. by rewrite lookup_insert_ne.
  - intros h k. apply invalidate_codes_dead.
  - split; intros h t; [apply revoke_access_dead|apply revoke_refresh_dead].
  - unfold other_credentials_kept. cbn. split_and!; other_row.
Qed.

(** *** Details *)

Definition redirects_changed (c : OidcClient) (u : OidcClientDetailsUpdate) : bool :=
  negb (bool_decide (redirect_uri_set (client_redirect_uris c)
                     = redirect_uri_set (details_redirect_uris u))).
Definition scopes_changed (c : OidcClient) (u : OidcClientDetailsUpdate) : bool :=
  negb (bool_decide (string_set (client_allowed_scopes c)
                     = string_set (details_allowed_scopes u))).

Lemma update_details_Ok o id u at_ db r db' :
  update_oidc_client_details o id u at_ db = (Ok r, db') ->
  (r = None /\ db' = db)
  \/ (exists c m, t_oidc_clients db !! id = Some c /\ client_organization_id c = o
      /\ r = Some (client_set_details u c, changed_fields c u, m)
      /\ let db1 := on_oidc_clients (fun _ => <[id := client_set_details u c]> (t_oidc_clients db)) db in
         let db2 := if redirects_changed c u || scopes_changed c u
                    then with_codes_invalidated o id at_ db1 else db1 in
         db' = if scopes_changed c u then with_tokens_revoked o id at_ db2 else db2).
Proof.
  unfold update_oidc_client_details. intros [H|(db1 & H & ->)]%transaction_Ok.
  - apply db_bind_Ok in H as (locked & db1 & Hl & H).
    apply get_in_organization_Ok in Hl as [-> Hl]. destruct locked as [c|].
    + destruct Hl as [Hc Ho]. right. cbv zeta in H. fold (redirects_changed c u) in H.
      fold (scopes_changed c u) in H.
      apply db_bind_Ok in H as (? & db2 & [_ ->]%db_check_Ok & H).
      apply db_bind_Ok in H as (b & db2 & Hu & H).
      eapply update_client_Ok in Hu; [|done..]. subst db2.
      apply db_bind_Ok in H as (c2 & db3 & Hg & H).
      apply get_in_organization_Ok in Hg as [-> Hg].
      apply db_bind_Ok in H as (c3 & db4 & Hf & H).
      destruct c2 as [c2|]; [|done]. injection Hf as <- <-. destruct Hg as [Hg _].
      cbn in Hg. rewrite lookup_insert_eq in Hg. injection Hg as <-.
      apply db_bind_Ok in H as (n & db5 & Hn & H).
      apply db_bind_Ok in H as (ts & db6 & Ht & H). apply commit_Ok in H as [[= ->] ->].
      eexists c, _. split_and!; [done..|]. cbv zeta.
      assert (db5 = if redirects_changed c u || scopes_changed c u then _ else _) as <-.
      { destruct (_ || _); [by apply invalidate_codes_Ok in Hn|by injection Hn as <- <-]. }
      destruct (scopes_changed c u); [by apply revoke_active_tokens_Ok in Ht|by injection Ht as <- <-].
    + left. apply commit_Ok in H as [[= ->] ->]. done.
  - exfalso. apply db_bind_Ok in H as (locked & db2 & Hl & H).
    destruct locked; [|by apply commit_Ok in H as [[=] _]].
    db_steps.
Qed.

(** Editing a client invalidates exactly what the edit makes stale: when
    the set of redirect URIs or of allowed scopes changes (reordering and
    repetition do not count), every pending authorization code of the client
    is spent, and when the set of scopes changes all of its tokens are
    revoked; without such a change no code and no token is touched.  The
    client's secret, status, identity and grants never change, and the
    credentials of other clients are kept in every case. *)
Theorem update_client_details_invalidates o id u at_ db c l m db' :
  update_oidc_client_details o id u at_ db = (Ok (Some (c, l, m)), db') ->
  exists c0, t_oidc_clients db !! id = Some c0 /\ client_organization_id c0 = o
  /\ c = client_set_details u c0 /\ t_oidc_clients db' = <[id := c]> (t_oidc_clients db)
  /\ (l = [] -> c = c0)
  /\ ((forall x, x ∈ client_redirect_uris c0 <-> x ∈ details_redirect_uris u) /\
      (forall x, x ∈ client_allowed_scopes c0 <-> x ∈ details_allowed_scopes u) ->
      t_authorization_codes db' = t_authorization_codes db
      /\ t_access_tokens db' = t_access_tokens db /\ t_refresh_tokens db' = t_refresh_tokens db)
  /\ (~ ((forall x, x ∈ client_redirect_uris c0 <-> x ∈ details_redirect_uris u) /\
         (forall x, x ∈ client_allowed_scopes c0 <-> x ∈ details_allowed_scopes u)) ->
      codes_dead o id at_ db')
  /\ (~ (forall x, x ∈ client_allowed_scopes c0 <-> x ∈ details_allowed_scopes u) ->
      tokens_dead o id db')
  /\ other_credentials_kept o id db db'.
Proof.
  intros [(? & _)|(c0 & m0 & Hc & Ho & [= -> -> ->] & Hdb')]%update_details_Ok; [done|].
  assert (Hset : forall l1 l2 : list string,
    (list_to_set l1 : gset string) = list_to_set l2 <-> (forall x, x ∈ l1 <-> x ∈ l2)).
  { intros l1 l2. rewrite set_eq. by setoid_rewrite elem_of_list_to_set. }
  assert (Hr : redirects_changed c0 u = false <->
    (forall x, x ∈ client_redirect_uris c0 <-> x ∈ details_redirect_uris u)).
  { unfold redirects_changed, redirect_uri_set. by rewrite negb_false_iff, bool_decide_eq_true, Hset. }
  assert (Hs : scopes_changed c0 u = false <->
    (forall x, x ∈ client_allowed_scopes c0 <-> x ∈ details_allowed_scopes u)).
  { unfold scopes_changed, string_set. by rewrite negb_false_iff, bool_decide_eq_true, Hset. }
  exists c0. cbv zeta in Hdb'.
  split_and!; try done.
  - subst db'. by destruct (scopes_changed c0 u), (redirects_changed c0 u).
  - unfold changed_fields, changed. intros Hl.
    repeat (destruct (negb (bool_decide _)) eqn:? in Hl; [done|]; simpl in Hl). bool_prop.
    destruct c0, u; simpl in *; by subst.
  - intros [H1%Hr H2%Hs]. rewrite H1, H2 in Hdb'. by subst db'.
  - intros Hn h k Hk. assert (redirects_changed c0 u || scopes_changed c0 u = true) as Hb.
    { rewrite <- Hr, <- Hs in Hn. destruct (redirects_changed c0 u), (scopes_changed c0 u); tauto. }
    rewrite Hb in Hdb'. apply (invalidate_codes_dead o id at_ (t_authorization_codes db) h).
    subst db'. by destruct (scopes_changed c0 u).
  - rewrite <- Hs. intros Hn. destruct (scopes_changed c0 u); [|tauto]. subst db'. split.
    + intros h t Ht. apply (revoke_access_dead o id at_ (t_access_tokens db) h).
      by destruct (_ || _).
    + intros h t Ht. apply (revoke_refresh_dead o id at_ (t_refresh_tokens db) h).
      by destruct (_ || _).
  - unfold other_credentials_kept. subst db'.
    destruct (scopes_changed c0 u), (redirects_changed c0 u); cbn; split_and!;
      first [by intros | other_row].
Qed.
