(* ===== verification/SessionStore.v ===== *)
(** * Sessions and the email outbox

    [crates/database]'s auth_sessions and the insertion of outbox messages:
    session creation with the new-device notification, revocation, listing,
    and the rotation that replaces one session by another. *)

From S2P Require Import Prelude RustStr Domain Codec Store.

(* crates/database/src/types/sessions.rs:18-21 SessionRequestContext *)
Record SessionRequestContext := mk_SessionRequestContext {
  context_ip_address : option string;
  context_user_agent : option string;
}.
Definition default_request_context : SessionRequestContext := mk_SessionRequestContext None None.
(* crates/database/src/types/sessions.rs:31-33 has_identifying_context *)
Definition has_identifying_context (c : SessionRequestContext) : bool :=
  is_some (context_ip_address c) || is_some (context_user_agent c).

(* crates/database/src/email_outbox.rs:24-63 insert_email_outbox_message_record *)
Definition insert_email_outbox_message (message : EmailOutboxMessage) : DB unit :=
  let! _ := db_check (fun db => absent (t_email_outbox db) (email_id message)) UniqueViolation in
  let! _ := db_check (fun db => fk_organization db (email_organization_id message))
              ForeignKeyViolation in
  db_modify (on_email_outbox (<[email_id message := message]>)).

(** ** Sessions *)

Definition session_fk (db : Database) (s : AuthSession) : bool :=
  fk_organization db (session_organization_id s)
  && fk_user db (session_user_id s) (session_organization_id s).

(* crates/database/src/auth_sessions.rs:103-133 insert_auth_session *)
Definition insert_auth_session (session : AuthSession) (request_context : SessionRequestContext)
    : DB unit :=
  let! _ := db_check (fun db => absent (t_auth_sessions db) (session_id session))
              UniqueViolation in
  let! _ := db_check (fun db => session_fk db session) ForeignKeyViolation in
  db_modify (on_auth_sessions
    (<[session_id session := mk_SessionRow session (context_ip_address request_context)
                               (context_user_agent request_context)]>)).

(* crates/database/src/auth_sessions.rs:17-23 create_auth_session_with_context *)
Definition create_auth_session_with_context (session : AuthSession)
    (request_context : SessionRequestContext) : DB unit :=
  insert_auth_session session request_context.
(* crates/database/src/auth_sessions.rs:12-15 create_auth_session *)
Definition create_auth_session (session : AuthSession) : DB unit :=
  create_auth_session_with_context session default_request_context.

(* crates/database/src/auth_sessions.rs:25-36 revoke_auth_session *)
Definition revoke_auth_session (id : Uuid) (at_ : OffsetDateTime) : DB bool :=
  update_key t_auth_sessions on_auth_sessions id (fun _ => true) (session_set_revoked_at (Some at_)).

(* crates/database/src/auth_sessions.rs:135-148 get_auth_session *)
Definition get_auth_session (id : Uuid) : DB (option AuthSession) :=
  db_gets (fun db => row_session <$> t_auth_sessions db !! id).

Definition session_of_user (organization_id user_id : Uuid) (r : SessionRow) : bool :=
  N.eqb (session_organization_id (row_session r)) organization_id
  && N.eqb (session_user_id (row_session r)) user_id.

(** [IS NOT DISTINCT FROM] on both context columns. *)
Definition known_context (organization_id user_id : Uuid) (c : SessionRequestContext)
    (r : SessionRow) : bool :=
  session_of_user organization_id user_id r
  && bool_decide (row_created_ip_address r = context_ip_address c)
  && bool_decide (row_created_user_agent r = context_user_agent c).

(* crates/database/src/types/sessions.rs:37-41 AuthSessionCreationInput *)
Record AuthSessionCreationInput := mk_AuthSessionCreationInput {
  creation_session : AuthSession;
  creation_request_context : SessionRequestContext;
  creation_new_context_notification : option EmailOutboxMessage;
}.

(* crates/database/src/auth_sessions.rs:38-101 create_auth_session_with_new_context_notification *)
Definition create_auth_session_with_new_context_notification (input : AuthSessionCreationInput)
    : DB (option Uuid) :=
  let session := creation_session input in
  let request_context := creation_request_context input in
  let new_context_notification := creation_new_context_notification input in
  let should_check_context :=
    has_identifying_context request_context && is_some new_context_notification in
  transaction (
    let! known :=
      if should_check_context
      then db_gets (fun db => is_some (find_row
             (known_context (session_organization_id session) (session_user_id session)
                request_context) (t_auth_sessions db)))
      else db_ret true in
    let! _ := insert_auth_session session request_context in
    let! notification_email_outbox_id :=
      if (known : bool) then db_ret None
      else match new_context_notification with
           | Some message =>
               let! _ := insert_email_outbox_message message in
               db_ret (Some (email_id message))
           | None => db_ret None
           end in
    commit notification_email_outbox_id).

(* crates/database/src/auth_sessions.rs:150-173 set_auth_session_request_context *)
Definition set_auth_session_request_context (organization_id user_id session_id : Uuid)
    (ip_address user_agent : option string) : DB bool :=
  update_key t_auth_sessions on_auth_sessions session_id (session_of_user organization_id user_id)
    (fun r => mk_SessionRow (row_session r) ip_address user_agent).

Definition session_revoke (at_ : OffsetDateTime) (r : SessionRow) : SessionRow :=
  session_set_revoked_at (coalesce (session_revoked_at (row_session r)) at_) r.
(* crates/database/src/auth_sessions.rs:175-192 revoke_user_sessions *)
Definition revoke_user_sessions (user_id : Uuid) (at_ : OffsetDateTime) : DB nat :=
  update_rows t_auth_sessions on_auth_sessions
    (fun r => N.eqb (session_user_id (row_session r)) user_id) (session_revoke at_).

(** [revoked_at IS NULL AND expires_at > at] *)
Definition session_active (at_ : OffsetDateTime) (r : SessionRow) : bool :=
  is_none (session_revoked_at (row_session r)) && (at_ <? session_expires_at (row_session r))%Z.

(** [ORDER BY created_at DESC, id DESC] *)
Definition created_desc {A} (created_at : A -> OffsetDateTime) (id : A -> Uuid) (a b : A) : bool :=
  (created_at b <? created_at a)%Z
  || ((created_at a =? created_at b)%Z && (id b <=? id a)%N).

(* crates/database/src/auth_sessions/browser_sessions.rs:7-35 list_active_browser_sessions_for_user *)
Definition list_active_browser_sessions_for_user (organization_id user_id : Uuid)
    (at_ : OffsetDateTime) (limit : nat) : DB (list SessionRow) :=
  db_gets (fun db =>
    take limit (order_by (created_desc (fun r => session_created_at (row_session r))
                                       (fun r => session_id (row_session r)))
      (select_where (fun r => session_of_user organization_id user_id r && session_active at_ r)
         (t_auth_sessions db)))).

(** The [RETURNING] row of the update. *)
(* crates/database/src/auth_sessions/browser_sessions.rs:37-64 revoke_user_browser_session *)
Definition revoke_user_browser_session (organization_id user_id session_id : Uuid)
    (at_ : OffsetDateTime) : DB (option AuthSession) :=
  let! revoked :=
    update_key t_auth_sessions on_auth_sessions session_id
      (fun r => session_of_user organization_id user_id r && session_active at_ r)
      (session_set_revoked_at (Some at_)) in
  if (revoked : bool) then get_auth_session session_id else db_ret None.

(* crates/database/src/auth_sessions/rotation.rs:22-58 rotate_auth_session_with_context *)
Definition rotate_auth_session_with_context (old_session_id : Uuid) (new_session : AuthSession)
    (at_ : OffsetDateTime) (request_context : SessionRequestContext) : DB unit :=
  transaction (
    let! revoked :=
      update_key t_auth_sessions on_auth_sessions old_session_id
        (fun r => session_of_user (session_organization_id new_session)
                    (session_user_id new_session) r && session_active at_ r)
        (session_set_revoked_at (Some at_)) in
    if negb revoked then db_err NotFound
    else
      let! _ := insert_auth_session new_session request_context in
      commit tt).
(* crates/database/src/auth_sessions/rotation.rs:7-20 rotate_auth_session *)
Definition rotate_auth_session (old_session_id : Uuid) (new_session : AuthSession)
    (at_ : OffsetDateTime) : DB unit :=
  rotate_auth_session_with_context old_session_id new_session at_ default_request_context.

(** ** Properties *)

Lemma insert_auth_session_Ok s c db u db' :
  insert_auth_session s c db = (Ok u, db') <->
  t_auth_sessions db !! session_id s = None /\ session_fk db s = true
  /\ db' = on_auth_sessions
             (<[session_id s := mk_SessionRow s (context_ip_address c) (context_user_agent c)]>) db.
Proof.
  unfold insert_auth_session. split.
  - intros H. db_steps. unfold absent in *. bool_prop. done.
  - intros (Ha & Hf & ->). unfold db_bind, db_check, absent.
    rewrite bool_decide_true by done. rewrite Hf. by destruct u.
Qed.

Lemma session_of_user_true o u r :
  session_of_user o u r = true <->
  session_organization_id (row_session r) = o /\ session_user_id (row_session r) = u.
Proof. unfold session_of_user. by rewrite andb_true_iff, !N.eqb_eq. Qed.
Lemma session_active_true at_ r :
  session_active at_ r = true <->
  session_revoked_at (row_session r) = None /\ (at_ < session_expires_at (row_session r))%Z.
Proof.
  unfold session_active. rewrite andb_true_iff, Z.ltb_lt.
  destruct (session_revoked_at (row_session r)); naive_solver.
Qed.

(** Rotating a session replaces it: success means the old session was an
    active one of the same user and organization, is now revoked at [at], the
    new session is stored, and no other session changed; an old session that
    is missing, expired, revoked or another user's gives [NotFound], and on
    every error nothing changed at all, so a user never ends with both
    sessions or with neither. *)
Theorem rotate_auth_session_spec old new_session at_ c db r db' :
  rotate_auth_session_with_context old new_session at_ c db = (r, db') ->
  (forall e, r = Err e -> db' = db)
  /\ (r = Ok tt ->
      exists row, t_auth_sessions db !! old = Some row
        /\ session_organization_id (row_session row) = session_organization_id new_session
        /\ session_user_id (row_session row) = session_user_id new_session
        /\ session_revoked_at (row_session row) = None
        /\ (at_ < session_expires_at (row_session row))%Z
        /\ session_id new_session <> old
        /\ t_auth_sessions db' !! old = Some (session_set_revoked_at (Some at_) row)
        /\ t_auth_sessions db' !! session_id new_session
           = Some (mk_SessionRow new_session (context_ip_address c) (context_user_agent c))
        /\ forall k, k <> old -> k <> session_id new_session ->
             t_auth_sessions db' !! k = t_auth_sessions db !! k)
  /\ ((forall row, t_auth_sessions db !! old = Some row ->
         session_of_user (session_organization_id new_session) (session_user_id new_session) row
         && session_active at_ row = false) -> r = Err NotFound).
Proof.
  unfold rotate_auth_session_with_context. intros H. split_and!.
  - intros e ->. by apply transaction_Err in H.
  - intros ->. apply transaction_Ok in H as [H|(db1 & H & _)].
    + apply db_bind_Ok in H as (b & db1 & Hu & H).
      apply update_key_Ok in Hu as (rows & Hu & ->). destruct b; simpl in H; [|done].
      apply update_row_true in Hu as (row & Hrow & HP & ->). bool_prop.
      apply db_bind_Ok in H as (? & db2 & (Ha & _ & ->)%insert_auth_session_Ok & H).
      apply commit_Ok in H as [_ ->]. simpl in *.
      apply session_of_user_true in H0 as [Ho Hus]. apply session_active_true in H1 as [Hr He].
      assert (Hne : session_id new_session <> old).
      { intros Heq. rewrite Heq, lookup_insert_eq in Ha. done. }
      exists row. split_and!; try done.
      * by rewrite lookup_insert_ne, lookup_insert_eq by done.
      * by rewrite lookup_insert_eq.
      * intros k Hk1 Hk2. by rewrite !lookup_insert_ne by done.
    + apply db_bind_Ok in H as (b & db2 & _ & H). destruct b; simpl in H; [|done].
      apply db_bind_Ok in H as (? & db3 & _ & H). by apply commit_Ok in H as [[=] _].
  - intros Hno. unfold transaction, db_bind, update_key, db_apply in H.
    unfold update_row in H. destruct (t_auth_sessions db !! old) as [row|] eqn:E.
    + rewrite (Hno row eq_refl) in H. simpl in H. congruence.
    + simpl in H. congruence.
Qed.
