(* ===== verification/Directory.v ===== *)
(** * Users, groups and memberships

    [crates/database]'s users.rs, users/queries.rs, groups.rs and
    groups/memberships, groups/scim, users/bootstrap.rs, with the helpers of
    repository_helpers.rs: every statement and transaction on the directory.
    A [FOR UPDATE] lock is a read, transactions being atomic; the decoded
    [role] column stands for its text, which [Codec] shows to be the same. *)

From S2P Require Import Prelude RustStr Domain Codec Store SessionStore.

(** ** Users *)

Definition user_in (organization_id : Uuid) (u : UserWithPassword) : bool :=
  N.eqb (user_organization_id (uwp_user u)) organization_id.
Definition on_user (f : User -> User) (u : UserWithPassword) : UserWithPassword :=
  mk_UserWithPassword (f (uwp_user u)) (uwp_password_hash u).
Definition user_set_last_login (at_ : OffsetDateTime) (u : User) : User :=
  mk_User (user_id u) (user_organization_id u) (user_email u) (user_scim_external_id u)
    (user_email_verified u) (user_display_name u) (user_status u) (user_created_at u)
    at_ (Some at_).
Definition user_set_email_verified (v : bool) (at_ : OffsetDateTime) (u : User) : User :=
  mk_User (user_id u) (user_organization_id u) (user_email u) (user_scim_external_id u)
    v (user_display_name u) (user_status u) (user_created_at u) at_ (user_last_login_at u).
Definition user_set_updated_at (at_ : OffsetDateTime) (u : User) : User :=
  user_set_email_verified (user_email_verified u) at_ u.
Definition user_set_status (v : UserStatus) (at_ : OffsetDateTime) (u : User) : User :=
  mk_User (user_id u) (user_organization_id u) (user_email u) (user_scim_external_id u)
    (user_email_verified u) (user_display_name u) v (user_created_at u) at_
    (user_last_login_at u).

(** [UNIQUE (organization_id, email)] and the partial index on the external
    id, for a row written under the key [id]. *)
Definition user_unique (db : Database) (id organization_id : Uuid) (email : string)
    (external_id : option string) : bool :=
  bool_decide (map_Forall (fun k u =>
    k <> id -> user_organization_id (uwp_user u) = organization_id ->
    user_email (uwp_user u) <> email
    /\ (is_some external_id = true -> user_scim_external_id (uwp_user u) <> external_id))
    (t_users db)).

(* crates/database/src/users.rs:11-39 create_user *)
Definition create_user (user : User) (password_hash : option string) : DB unit :=
  let! _ := db_check (fun db => absent (t_users db) (user_id user)
              && user_unique db (user_id user) (user_organization_id user) (user_email user)
                   (user_scim_external_id user)) UniqueViolation in
  let! _ := db_check (fun db => fk_organization db (user_organization_id user))
              ForeignKeyViolation in
  db_modify (on_users (<[user_id user := mk_UserWithPassword user password_hash]>)).

(** [UPDATE users SET f WHERE id = $1] *)
Definition update_user (id : Uuid) (f : UserWithPassword -> UserWithPassword) : DB unit :=
  let! _ := update_key t_users on_users id (fun _ => true) f in db_ret tt.

(* crates/database/src/users.rs:41-52 set_user_last_login *)
Definition set_user_last_login (id : Uuid) (at_ : OffsetDateTime) : DB unit :=
  update_user id (on_user (user_set_last_login at_)).
(* crates/database/src/users.rs:54-75 set_user_password_and_email_verified *)
Definition set_user_password_and_email_verified (id : Uuid) (password_hash : string)
    (email_verified : bool) (at_ : OffsetDateTime) : DB unit :=
  update_user id (fun u =>
    mk_UserWithPassword (user_set_email_verified email_verified at_ (uwp_user u))
      (Some password_hash)).
(* crates/database/src/users.rs:77-90 set_user_email_verified *)
Definition set_user_email_verified (id : Uuid) (email_verified : bool) (at_ : OffsetDateTime)
    : DB unit :=
  update_user id (on_user (user_set_email_verified email_verified at_)).

(** ** User queries *)

(* crates/database/src/users/queries.rs:10-27 active_user_count *)
Definition active_user_count (organization_id : Uuid) : DB nat :=
  db_gets (fun db => count_where (fun u =>
    user_in organization_id u && bool_decide (user_status (uwp_user u) = UserStatus_Active))
    (t_users db)).
(* crates/database/src/users/queries.rs:29-42 count_users *)
Definition count_users (organization_id : Uuid) : DB nat :=
  db_gets (fun db => count_where (user_in organization_id) (t_users db)).

(* crates/database/src/types/filters.rs:6-9 ListCursor *)
Record ListCursor := mk_ListCursor {
  cursor_created_at : OffsetDateTime;
  cursor_tie_breaker_id : Uuid;
}.
(** The keyset condition of every paged listing. *)
Definition after_cursor {A} (created_at : A -> OffsetDateTime) (id : A -> Uuid)
    (after : option ListCursor) (a : A) : bool :=
  match after with
  | None => true
  | Some c => (created_at a <? cursor_created_at c)%Z
              || ((created_at a =? cursor_created_at c)%Z && (id a <? cursor_tie_breaker_id c)%N)
  end.

(* crates/database/src/repository_helpers.rs:7-12 prefix_search_pattern *)
Definition prefix_search_pattern (value : option string) : option string :=
  match value with
  | Some value =>
      let value := trim value in
      if is_empty value then None else Some (to_ascii_lowercase value +:+ "%")
  | None => None
  end.

(* crates/database/src/types/filters.rs:21-24 UserListFilter *)
Record UserListFilter := mk_UserListFilter {
  filter_search_prefix : option string;
  filter_status : option UserStatus;
}.
Definition default_user_list_filter : UserListFilter := mk_UserListFilter None None.

(** [like] is [lower(column) LIKE pattern], PostgreSQL's. *)
(* crates/database/src/users/queries.rs:62-102 list_users_page_filtered *)
Definition list_users_page_filtered (like : string -> string -> bool) (organization_id : Uuid)
    (filter : UserListFilter) (after : option ListCursor) (limit : nat) : DB (list User) :=
  let search_pattern := prefix_search_pattern (filter_search_prefix filter) in
  let matches (u : User) :=
    match search_pattern with
    | Some p => like (user_email u) p || like (user_display_name u) p
    | None => true
    end
    && match filter_status filter with
       | Some s => bool_decide (user_status u = s)
       | None => true
       end in
  db_gets (fun db =>
    take limit (order_by (created_desc user_created_at user_id)
      (List.map uwp_user (select_where (fun u =>
         user_in organization_id u && after_cursor user_created_at user_id after (uwp_user u)
         && matches (uwp_user u)) (t_users db))))).
(* crates/database/src/users/queries.rs:52-60 list_users_page *)
Definition list_users_page (like : string -> string -> bool) (organization_id : Uuid)
    (after : option ListCursor) (limit : nat) : DB (list User) :=
  list_users_page_filtered like organization_id default_user_list_filter after limit.
(* crates/database/src/users/queries.rs:44-50 list_users *)
Definition list_users (like : string -> string -> bool) (organization_id : Uuid) (limit : nat)
    : DB (list User) :=
  list_users_page like organization_id None limit.

(* crates/database/src/users/queries.rs:104-123 find_user_by_email *)
Definition find_user_by_email (organization_id : Uuid) (email : string)
    : DB (option UserWithPassword) :=
  db_gets (fun db => find_row (fun u =>
    user_in organization_id u && bool_decide (user_email (uwp_user u) = email)) (t_users db)).
(* crates/database/src/users/queries.rs:125-144 find_user_by_scim_external_id *)
Definition find_user_by_scim_external_id (organization_id : Uuid) (external_id : string)
    : DB (option User) :=
  db_gets (fun db => uwp_user <$> find_row (fun u =>
    user_in organization_id u
    && bool_decide (user_scim_external_id (uwp_user u) = Some external_id)) (t_users db)).

(* crates/database/src/types/filters.rs:27-31 ScimUserListFilter *)
Record ScimUserListFilter := mk_ScimUserListFilter {
  filter_user_name_eq : option string;
  filter_external_id_eq : option string;
  filter_active_eq : option bool;
}.
(** The [WHERE] clause the count and the page share. *)
Definition scim_user_matches (organization_id : Uuid) (filter : ScimUserListFilter)
    (u : UserWithPassword) : bool :=
  user_in organization_id u
  && match filter_user_name_eq filter with
     | Some e => bool_decide (user_email (uwp_user u) = e)
     | None => true
     end
  && match filter_external_id_eq filter with
     | Some e => bool_decide (user_scim_external_id (uwp_user u) = Some e)
     | None => true
     end
  && match filter_active_eq filter with
     | Some true => bool_decide (user_status (uwp_user u) = UserStatus_Active)
     | Some false => negb (bool_decide (user_status (uwp_user u) = UserStatus_Active))
     | None => true
     end.
(** [start_index.saturating_sub(1)]: at least 0 for the positive indices the
    callers pass. *)
(* crates/database/src/users/queries.rs:146-211 list_scim_users_page_filtered *)
Definition list_scim_users_page_filtered (organization_id : Uuid) (filter : ScimUserListFilter)
    (start_index count : nat) : DB (nat * list User) :=
  let offset := start_index - 1 in
  db_gets (fun db =>
    (count_where (scim_user_matches organization_id filter) (t_users db),
     take count (drop offset (order_by (created_desc user_created_at user_id)
       (List.map uwp_user
          (select_where (scim_user_matches organization_id filter) (t_users db))))))).

(* crates/database/src/users/queries.rs:213-232 get_user_with_password *)
Definition get_user_with_password (organization_id user_id : Uuid)
    : DB (option UserWithPassword) :=
  db_gets (fun db =>
    match t_users db !! user_id with
    | Some u => if user_in organization_id u then Some u else None
    | None => None
    end).
(* crates/database/src/users/queries.rs:234-248 get_user *)
Definition get_user (id : Uuid) : DB (option User) :=
  db_gets (fun db => uwp_user <$> t_users db !! id).

(** ** Groups *)

Definition group_in (organization_id : Uuid) (g : Group) : bool :=
  N.eqb (group_organization_id g) organization_id.
(** [UNIQUE (organization_id, slug)] and the partial index on the external
    id, for a row written under the key [id]. *)
Definition group_unique (db : Database) (id organization_id : Uuid) (slug : string)
    (external_id : option string) : bool :=
  bool_decide (map_Forall (fun k g =>
    k <> id -> group_organization_id g = organization_id ->
    group_slug g <> slug
    /\ (is_some external_id = true -> group_scim_external_id g <> external_id)) (t_groups db)).

(* crates/database/src/groups.rs:10-26 create_group *)
Definition create_group (group : Group) : DB unit :=
  let! _ := db_check (fun db => absent (t_groups db) (group_id group)
              && group_unique db (group_id group) (group_organization_id group)
                   (group_slug group) (group_scim_external_id group)) UniqueViolation in
  let! _ := db_check (fun db => fk_organization db (group_organization_id group))
              ForeignKeyViolation in
  db_modify (on_groups (<[group_id group := group]>)).
(* crates/database/src/groups.rs:28-46 get_group_by_slug *)
Definition get_group_by_slug (organization_id : Uuid) (slug : string) : DB (option Group) :=
  db_gets (fun db => find_row (fun g =>
    group_in organization_id g && bool_decide (group_slug g = slug)) (t_groups db)).
(* crates/database/src/groups.rs:48-66 get_group *)
Definition get_group (organization_id group_id : Uuid) : DB (option Group) :=
  db_gets (fun db =>
    match t_groups db !! group_id with
    | Some g => if group_in organization_id g then Some g else None
    | None => None
    end).
(* crates/database/src/groups.rs:68-86 find_group_by_scim_external_id *)
Definition find_group_by_scim_external_id (organization_id : Uuid) (external_id : string)
    : DB (option Group) :=
  db_gets (fun db => find_row (fun g =>
    group_in organization_id g && bool_decide (group_scim_external_id g = Some external_id))
    (t_groups db)).
(* crates/database/src/groups.rs:96-124 list_groups_page *)
Definition list_groups_page (organization_id : Uuid) (after : option ListCursor) (limit : nat)
    : DB (list Group) :=
  db_gets (fun db =>
    take limit (order_by (created_desc group_created_at group_id)
      (select_where (fun g => group_in organization_id g
                              && after_cursor group_created_at group_id after g)
         (t_groups db)))).
(* crates/database/src/groups.rs:88-94 list_groups *)
Definition list_groups (organization_id : Uuid) (limit : nat) : DB (list Group) :=
  list_groups_page organization_id None limit.

(** ** Memberships *)

Definition membership_set_role (r : MembershipRole) (m : Membership) : Membership :=
  mk_Membership (membership_organization_id m) (membership_user_id m) (membership_group_id m)
    r (membership_created_at m).
Definition membership_fk (db : Database) (m : Membership) : bool :=
  fk_organization db (membership_organization_id m)
  && fk_user db (membership_user_id m) (membership_organization_id m)
  && fk_group db (membership_group_id m) (membership_organization_id m).
Definition membership_key (m : Membership) : Uuid * Uuid :=
  (membership_user_id m, membership_group_id m).

(* crates/database/src/groups/memberships/mutations.rs:9-24 create_membership *)
Definition create_membership (membership : Membership) : DB unit :=
  let! _ := db_check (fun db => absent (t_memberships db) (membership_key membership))
              UniqueViolation in
  let! _ := db_check (fun db => membership_fk db membership) ForeignKeyViolation in
  db_modify (on_memberships (<[membership_key membership := membership]>)).

(** [INSERT ... ON CONFLICT (user_id, group_id) DO UPDATE SET role = EXCLUDED.role] *)
Definition write_membership (m : Membership) : DB unit := fun db =>
  match t_memberships db !! membership_key m with
  | Some existing =>
      db_modify (on_memberships
        (<[membership_key m := membership_set_role (membership_role m) existing]>)) db
  | None => create_membership m db
  end.

(* crates/database/src/groups/memberships/mutations.rs:137-156 locked_group_in_transaction *)
Definition locked_group_in_transaction (organization_id group_id : Uuid) : DB (option Group) :=
  get_group organization_id group_id.
(* crates/database/src/groups/memberships/mutations.rs:158-178 user_exists_in_transaction *)
Definition user_exists_in_transaction (organization_id user_id : Uuid) : DB bool :=
  db_gets (fun db => fk_user db user_id organization_id).
(* crates/database/src/groups/memberships/mutations.rs:180-201 locked_membership_role_in_transaction *)
Definition locked_membership_role_in_transaction (organization_id group_id user_id : Uuid)
    : DB (option MembershipRole) :=
  db_gets (fun db =>
    match t_memberships db !! (user_id, group_id) with
    | Some m => if N.eqb (membership_organization_id m) organization_id
                then Some (membership_role m) else None
    | None => None
    end).

(** The join of a membership with its user, restricted to active owners. *)
Definition active_owner (db : Database) (organization_id group_id : Uuid) (m : Membership) : bool :=
  N.eqb (membership_organization_id m) organization_id
  && N.eqb (membership_group_id m) group_id
  && bool_decide (membership_role m = MembershipRole_Owner)
  && match t_users db !! membership_user_id m with
     | Some u => user_in (membership_organization_id m) u
                 && bool_decide (user_status (uwp_user u) = UserStatus_Active)
     | None => false
     end.
(* crates/database/src/repository_helpers.rs:70-99 active_group_owner_count_excluding_user_in_transaction *)
Definition active_group_owner_count_excluding_user_in_transaction
    (organization_id group_id excluded_user_id : Uuid) : DB nat :=
  db_gets (fun db => count_where (fun m =>
    active_owner db organization_id group_id m
    && negb (N.eqb (membership_user_id m) excluded_user_id)) (t_memberships db)).
(* crates/database/src/groups/memberships/mutations.rs:203-242 would_remove_last_active_owner_in_transaction *)
Definition would_remove_last_active_owner_in_transaction
    (organization_id group_id user_id : Uuid) : DB bool :=
  let! target_is_active_owner :=
    db_gets (fun db => (0 <? count_where (fun m =>
      active_owner db organization_id group_id m && N.eqb (membership_user_id m) user_id)
      (t_memberships db))%nat) in
  let! other_active_owner_count :=
    active_group_owner_count_excluding_user_in_transaction organization_id group_id user_id in
  db_ret (target_is_active_owner && Nat.eqb other_active_owner_count 0).

(* crates/database/src/types/groups.rs:5-9 MembershipMutationOutcome *)
Inductive MembershipMutationOutcome :=
| MembershipApplied
| MembershipNotFound
| WouldRemoveLastOwner.

(* crates/database/src/groups/memberships/mutations.rs:26-85 upsert_group_membership *)
Definition upsert_group_membership (membership : Membership) (protected_owner_group_slug : string)
    : DB MembershipMutationOutcome :=
  let organization_id := membership_organization_id membership in
  let group_id := membership_group_id membership in
  let user_id := membership_user_id membership in
  transaction (
    let! group := locked_group_in_transaction organization_id group_id in
    match group with
    | None => rollback MembershipNotFound
    | Some group =>
        let! exists_ := user_exists_in_transaction organization_id user_id in
        if negb exists_ then rollback MembershipNotFound
        else
          let! existing_role :=
            locked_membership_role_in_transaction organization_id group_id user_id in
          let! last_owner :=
            if bool_decide (group_slug group = protected_owner_group_slug)
               && negb (bool_decide (membership_role membership = MembershipRole_Owner))
               && bool_decide (existing_role = Some MembershipRole_Owner)
            then would_remove_last_active_owner_in_transaction organization_id group_id user_id
            else db_ret false in
          if (last_owner : bool) then rollback WouldRemoveLastOwner
          else
            let! _ := write_membership membership in
            commit MembershipApplied
    end).

(* crates/database/src/groups/memberships/mutations.rs:87-134 delete_group_membership *)
Definition delete_group_membership (organization_id group_id user_id : Uuid)
    (protected_owner_group_slug : string) : DB MembershipMutationOutcome :=
  transaction (
    let! group := locked_group_in_transaction organization_id group_id in
    match group with
    | None => rollback MembershipNotFound
    | Some group =>
        let! existing_role :=
          locked_membership_role_in_transaction organization_id group_id user_id in
        match existing_role with
        | None => rollback MembershipNotFound
        | Some existing_role =>
            let! last_owner :=
              if bool_decide (group_slug group = protected_owner_group_slug)
                 && bool_decide (existing_role = MembershipRole_Owner)
              then would_remove_last_active_owner_in_transaction organization_id group_id user_id
              else db_ret false in
            if (last_owner : bool) then rollback WouldRemoveLastOwner
            else
              let! _ := db_modify (on_memberships (delete_where (fun m =>
                N.eqb (membership_organization_id m) organization_id
                && N.eqb (membership_group_id m) group_id
                && N.eqb (membership_user_id m) user_id))) in
              commit MembershipApplied
        end
    end).

(** ** Membership queries *)

(* crates/database/src/groups/memberships/queries.rs:16-48 list_group_memberships_page *)
Definition list_group_memberships_page (organization_id group_id : Uuid)
    (after : option ListCursor) (limit : nat) : DB (list Membership) :=
  db_gets (fun db =>
    take limit (order_by (created_desc membership_created_at membership_user_id)
      (select_where (fun m =>
         N.eqb (membership_organization_id m) organization_id
         && N.eqb (membership_group_id m) group_id
         && after_cursor membership_created_at membership_user_id after m) (t_memberships db)))).
(* crates/database/src/groups/memberships/queries.rs:50-70 get_group_membership *)
Definition get_group_membership (organization_id group_id user_id : Uuid)
    : DB (option Membership) :=
  db_gets (fun db =>
    match t_memberships db !! (user_id, group_id) with
    | Some m => if N.eqb (membership_organization_id m) organization_id then Some m else None
    | None => None
    end).

(** The group of a membership in the join with [groups]. *)
Definition membership_group (db : Database) (m : Membership) : option Group :=
  match t_groups db !! membership_group_id m with
  | Some g => if group_in (membership_organization_id m) g then Some g else None
  | None => None
  end.
Definition membership_of_user (organization_id user_id : Uuid) (m : Membership) : bool :=
  N.eqb (membership_organization_id m) organization_id && N.eqb (membership_user_id m) user_id.
(** [ORDER BY groups.slug] in byte order. *)
(* crates/database/src/groups/memberships/queries.rs:72-95 list_user_group_slugs *)
Definition list_user_group_slugs (organization_id user_id : Uuid) : DB (list string) :=
  db_gets (fun db =>
    order_by String.leb (List.map group_slug (omap (membership_group db)
      (select_where (membership_of_user organization_id user_id) (t_memberships db))))).

(* crates/database/src/groups/memberships/roles.rs:6-44 user_has_group_role *)
Definition user_has_group_role (organization_id user_id : Uuid) (group_slug_ : string)
    (roles : list MembershipRole) : DB bool :=
  match roles with
  | [] => db_ret false
  | _ =>
      db_gets (fun db => (0 <? count_where (fun m =>
        membership_of_user organization_id user_id m
        && match membership_group db m with
           | Some g => bool_decide (group_slug g = group_slug_)
           | None => false
           end
        && contains roles (membership_role m)) (t_memberships db))%nat)
  end.
