(* ===== verification/Lifecycle.v ===== *)
(** * The directory's transactions

    [crates/database]'s users/lifecycle, users/bootstrap.rs and groups/scim:
    status changes and SCIM updates of users with the credentials they revoke,
    SCIM provisioning of groups, the bootstrap of the first administrator; and
    the invariant all operations on the directory keep: the protected group
    never loses its last active owner. *)

From S2P Require Import Prelude RustStr Domain Codec Store OAuthStore ClientStore SessionStore.
From S2P Require Import Directory.

(** ** Credentials of a user *)

Definition access_of_user (organization_id user_id : Uuid) (t : AccessTokenRecord) : bool :=
  N.eqb (access_organization_id t) organization_id
  && bool_decide (access_user_id t = Some user_id).
Definition refresh_of_user (organization_id user_id : Uuid) (t : RefreshToken) : bool :=
  N.eqb (refresh_organization_id t) organization_id
  && bool_decide (refresh_user_id t = Some user_id).

(* crates/database/src/users/lifecycle/credentials.rs:6-52 revoke_user_runtime_credentials *)
Definition revoke_user_runtime_credentials (organization_id user_id : Uuid) (at_ : OffsetDateTime)
    : DB unit :=
  let! _ := update_rows t_auth_sessions on_auth_sessions
              (session_of_user organization_id user_id) (session_revoke at_) in
  let! _ := update_rows t_access_tokens on_access_tokens
              (access_of_user organization_id user_id) (access_revoke at_) in
  let! _ := update_rows t_refresh_tokens on_refresh_tokens
              (refresh_of_user organization_id user_id) (refresh_revoke at_) in
  db_ret tt.

(** ** Ownership *)

(* crates/database/src/users/lifecycle/ownership.rs:41-60 protected_owner_group_id_for_update *)
Definition protected_owner_group_id_for_update (organization_id : Uuid)
    (protected_owner_group_slug : string) : DB (option Uuid) :=
  db_gets (fun db => group_id <$> find_row (fun g =>
    group_in organization_id g && bool_decide (group_slug g = protected_owner_group_slug))
    (t_groups db)).
(* crates/database/src/users/lifecycle/ownership.rs:62-88 user_is_group_owner *)
Definition user_is_group_owner (organization_id group_id user_id : Uuid) : DB bool :=
  db_gets (fun db =>
    match t_memberships db !! (user_id, group_id) with
    | Some m => N.eqb (membership_organization_id m) organization_id
                && bool_decide (membership_role m = MembershipRole_Owner)
    | None => false
    end).
(* crates/database/src/users/lifecycle/ownership.rs:8-39 deactivation_would_remove_last_owner *)
Definition deactivation_would_remove_last_owner (organization_id user_id : Uuid)
    (current_status next_status : UserStatus) (protected_owner_group_slug : string) : DB bool :=
  if negb (bool_decide (current_status = UserStatus_Active))
     || bool_decide (next_status = UserStatus_Active)
  then db_ret false
  else
    let! group_id :=
      protected_owner_group_id_for_update organization_id protected_owner_group_slug in
    match group_id with
    | None => db_ret false
    | Some group_id =>
        let! is_owner := user_is_group_owner organization_id group_id user_id in
        if negb is_owner then db_ret false
        else
          let! count := active_group_owner_count_excluding_user_in_transaction
                          organization_id group_id user_id in
          db_ret (Nat.eqb count 0)
    end.

(** ** Users *)

(* crates/database/src/users/lifecycle/records.rs:6-26 locked_user_for_update *)
Definition locked_user_for_update (organization_id user_id : Uuid) : DB (option User) :=
  let! user := get_user_with_password organization_id user_id in
  db_ret (uwp_user <$> user).
(* crates/database/src/users/lifecycle/records.rs:28-48 user_email_is_taken *)
Definition user_email_is_taken (organization_id user_id_ : Uuid) (email : string) : DB bool :=
  db_gets (fun db => is_some (find_row (fun u =>
    user_in organization_id u && bool_decide (user_email (uwp_user u) = email)
    && negb (N.eqb (user_id (uwp_user u)) user_id_)) (t_users db))).
(* crates/database/src/users/lifecycle/records.rs:50-70 user_scim_external_id_is_taken *)
Definition user_scim_external_id_is_taken (organization_id user_id_ : Uuid) (external_id : string)
    : DB bool :=
  db_gets (fun db => is_some (find_row (fun u =>
    user_in organization_id u
    && bool_decide (user_scim_external_id (uwp_user u) = Some external_id)
    && negb (N.eqb (user_id (uwp_user u)) user_id_)) (t_users db))).

(** [UPDATE users SET f ... RETURNING], decoded. *)
Definition update_returning (organization_id user_id : Uuid) (f : User -> User) : DB User :=
  let! _ := update_key t_users on_users user_id (user_in organization_id) (on_user f) in
  let! updated_row := get_user_with_password organization_id user_id in
  let! u := fetch_one updated_row in
  db_ret (uwp_user u).

(* crates/database/src/types/users.rs:5-9 UserStatusMutationOutcome *)
Inductive UserStatusMutationOutcome :=
| UserStatusApplied (u : User)
| UserStatusNotFound
| UserStatusWouldDeactivateLastOwner.

(* crates/database/src/users/lifecycle/status.rs:14-65 update_user_status *)
Definition update_user_status (organization_id user_id : Uuid) (status : UserStatus)
    (protected_owner_group_slug : string) (at_ : OffsetDateTime) : DB UserStatusMutationOutcome :=
  transaction (
    let! existing_user := locked_user_for_update organization_id user_id in
    match existing_user with
    | None => rollback UserStatusNotFound
    | Some existing_user =>
        let! last_owner := deactivation_would_remove_last_owner organization_id user_id
                             (user_status existing_user) status protected_owner_group_slug in
        if (last_owner : bool) then rollback UserStatusWouldDeactivateLastOwner
        else
          let! updated := update_returning organization_id user_id (user_set_status status at_) in
          let! _ := if negb (bool_decide (status = UserStatus_Active))
                    then revoke_user_runtime_credentials organization_id user_id at_
                    else db_ret tt in
          commit (UserStatusApplied updated)
    end).

(* crates/database/src/types/users.rs:12-18 ScimUserUpdateOutcome *)
Inductive ScimUserUpdateOutcome :=
| ScimUserApplied (u : User)
| ScimUserNotFound
| ScimUserWouldDeactivateLastOwner
| EmailAlreadyExists
| ScimUserExternalIdAlreadyExists.
(* crates/database/src/types/users.rs:21-31 ScimUserUpdateInput *)
Record ScimUserUpdateInput := mk_ScimUserUpdateInput {
  scim_user_organization_id : Uuid;
  scim_user_user_id : Uuid;
  scim_user_email : string;
  scim_user_scim_external_id : option string;
  scim_user_email_verified : bool;
  scim_user_display_name : string;
  scim_user_status : UserStatus;
  scim_user_protected_owner_group_slug : string;
  scim_user_at : OffsetDateTime;
}.

Definition user_set_scim (i : ScimUserUpdateInput) (email_verified : bool) (u : User) : User :=
  mk_User (user_id u) (user_organization_id u) (scim_user_email i) (scim_user_scim_external_id i)
    email_verified (scim_user_display_name i) (scim_user_status i) (user_created_at u)
    (scim_user_at i) (user_last_login_at u).
Definition account_token_consume (at_ : OffsetDateTime) (t : AccountToken) : AccountToken :=
  account_token_set_consumed_at (coalesce (account_token_consumed_at t) at_) t.
(** A live token of the user: [consumed_at IS NULL AND expires_at > at]. *)
Definition account_token_of_user (organization_id user_id : Uuid) (t : AccountToken) : bool :=
  N.eqb (account_token_organization_id t) organization_id
  && bool_decide (account_token_user_id t = Some user_id).
Definition account_token_live (at_ : OffsetDateTime) (t : AccountToken) : bool :=
  is_none (account_token_consumed_at t) && (at_ <? account_token_expires_at t)%Z.

(* crates/database/src/users/lifecycle/scim.rs:14-112 update_user_from_scim *)
Definition update_user_from_scim (input : ScimUserUpdateInput) : DB ScimUserUpdateOutcome :=
  let organization_id := scim_user_organization_id input in
  let user_id := scim_user_user_id input in
  let email := scim_user_email input in
  let status := scim_user_status input in
  let at_ := scim_user_at input in
  transaction (
    let! existing_user := locked_user_for_update organization_id user_id in
    match existing_user with
    | None => rollback ScimUserNotFound
    | Some existing_user =>
        let! email_taken := user_email_is_taken organization_id user_id email in
        if (email_taken : bool) then rollback EmailAlreadyExists
        else
        let! external_id_taken :=
          match scim_user_scim_external_id input with
          | Some external_id =>
              user_scim_external_id_is_taken organization_id user_id external_id
          | None => db_ret false
          end in
        if (external_id_taken : bool) then rollback ScimUserExternalIdAlreadyExists
        else
        let! last_owner := deactivation_would_remove_last_owner organization_id user_id
                             (user_status existing_user) status
                             (scim_user_protected_owner_group_slug input) in
        if (last_owner : bool) then rollback ScimUserWouldDeactivateLastOwner
        else
        let email_changed := negb (bool_decide (user_email existing_user = email)) in
        let effective_email_verified :=
          negb email_changed && user_email_verified existing_user in
        let! _ := db_check (fun db => user_unique db user_id organization_id email
                              (scim_user_scim_external_id input)) UniqueViolation in
        let! updated := update_returning organization_id user_id
                          (user_set_scim input effective_email_verified) in
        let! _ :=
          if email_changed
          then update_rows t_account_tokens on_account_tokens (fun t =>
                 account_token_of_user organization_id user_id t && account_token_live at_ t)
                 (account_token_consume at_)
          else db_ret 0 in
        let! _ := if negb (bool_decide (status = UserStatus_Active))
                  then revoke_user_runtime_credentials organization_id user_id at_
                  else db_ret tt in
        commit (ScimUserApplied updated)
    end).

(** ** Groups provisioned by SCIM *)

(* crates/database/src/repository_helpers.rs:14-37 all_users_exist_in_transaction *)
Definition all_users_exist_in_transaction (organization_id : Uuid) (user_ids : list Uuid)
    : DB bool :=
  match user_ids with
  | [] => db_ret true
  | _ =>
      db_gets (fun db =>
        Nat.eqb (size (list_to_set (List.filter (fun id => fk_user db id organization_id) user_ids)
                       : gset N)) (length user_ids))
  end.

Fixpoint write_members (organization_id group_id : Uuid) (user_ids : list Uuid)
    (created_at : OffsetDateTime) : DB unit :=
  match user_ids with
  | [] => db_ret tt
  | id :: rest =>
      let! _ := write_membership
                  (mk_Membership organization_id id group_id MembershipRole_Member created_at) in
      write_members organization_id group_id rest created_at
  end.
(** One [INSERT ... ON CONFLICT DO UPDATE] cannot affect a row twice. *)
(* crates/database/src/repository_helpers.rs:39-68 insert_scim_group_member_ids_in_transaction *)
Definition insert_scim_group_member_ids_in_transaction (organization_id group_id : Uuid)
    (user_ids : list Uuid) (created_at : OffsetDateTime) : DB unit :=
  let! _ := db_check (fun _ => bool_decide (NoDup user_ids)) CardinalityViolation in
  write_members organization_id group_id user_ids created_at.

(* crates/database/src/types/groups.rs:12-19 ScimGroupMutationOutcome *)
Inductive ScimGroupMutationOutcome :=
| ScimGroupApplied (g : Group)
| ScimGroupNotFound
| SlugAlreadyExists
| ScimGroupExternalIdAlreadyExists
| MemberNotFound
| WouldModifyProtectedGroup.

(* crates/database/src/groups/scim/mutations.rs:172-192 group_slug_exists_in_transaction *)
Definition group_slug_exists_in_transaction (organization_id : Uuid) (slug : string) : DB bool :=
  let! g := get_group_by_slug organization_id slug in db_ret (is_some g).
(* crates/database/src/groups/scim/mutations.rs:194-218 group_external_id_exists_in_transaction *)
Definition group_external_id_exists_in_transaction (organization_id : Uuid) (external_id : string)
    (excluded_group_id : option Uuid) : DB bool :=
  db_gets (fun db => is_some (find_row (fun g =>
    group_in organization_id g && bool_decide (group_scim_external_id g = Some external_id)
    && match excluded_group_id with
       | None => true
       | Some id => negb (N.eqb (group_id g) id)
       end) (t_groups db))).
Definition optional_external_id_exists (organization_id : Uuid) (external_id : option string)
    (excluded_group_id : option Uuid) : DB bool :=
  match external_id with
  | Some external_id =>
      group_external_id_exists_in_transaction organization_id external_id excluded_group_id
  | None => db_ret false
  end.

(* crates/database/src/groups/scim/mutations.rs:10-62 create_scim_group *)
Definition create_scim_group (group : Group) (member_user_ids : list Uuid)
    : DB ScimGroupMutationOutcome :=
  let organization_id := group_organization_id group in
  transaction (
    let! slug_exists := group_slug_exists_in_transaction organization_id (group_slug group) in
    if (slug_exists : bool) then rollback SlugAlreadyExists
    else
    let! external_exists :=
      optional_external_id_exists organization_id (group_scim_external_id group) None in
    if (external_exists : bool) then rollback ScimGroupExternalIdAlreadyExists
    else
    let! all_exist := all_users_exist_in_transaction organization_id member_user_ids in
    if negb all_exist then rollback MemberNotFound
    else
    let! _ := create_group group in
    let! _ := insert_scim_group_member_ids_in_transaction organization_id (group_id group)
                member_user_ids (group_created_at group) in
    commit (ScimGroupApplied group)).

(* crates/database/src/types/groups.rs:22-30 ScimGroupReplaceInput *)
Record ScimGroupReplaceInput := mk_ScimGroupReplaceInput {
  replace_organization_id : Uuid;
  replace_group_id : Uuid;
  replace_display_name : string;
  replace_scim_external_id : option string;
  replace_member_user_ids : list Uuid;
  replace_protected_group_slug : string;
  replace_at : OffsetDateTime;
}.
Definition group_set_scim (display_name : string) (external_id : option string) (g : Group) : Group :=
  mk_Group (group_id g) (group_organization_id g) (group_slug g) external_id display_name
    (group_created_at g).

(* crates/database/src/groups/scim/mutations.rs:64-138 replace_scim_group *)
Definition replace_scim_group (input : ScimGroupReplaceInput) : DB ScimGroupMutationOutcome :=
  let organization_id := replace_organization_id input in
  let group_id := replace_group_id input in
  let member_user_ids := replace_member_user_ids input in
  transaction (
    let! existing_group := locked_group_in_transaction organization_id group_id in
    match existing_group with
    | None => rollback ScimGroupNotFound
    | Some existing_group =>
        if bool_decide (group_slug existing_group = replace_protected_group_slug input)
        then rollback WouldModifyProtectedGroup
        else
        let! external_exists :=
          optional_external_id_exists organization_id (replace_scim_external_id input)
            (Some group_id) in
        if (external_exists : bool) then rollback ScimGroupExternalIdAlreadyExists
        else
        let! all_exist := all_users_exist_in_transaction organization_id member_user_ids in
        if negb all_exist then rollback MemberNotFound
        else
        let! _ := db_check (fun db => group_unique db group_id organization_id
                              (group_slug existing_group) (replace_scim_external_id input))
                    UniqueViolation in
        let! _ := update_key t_groups on_groups group_id (group_in organization_id)
                    (group_set_scim (replace_display_name input)
                       (replace_scim_external_id input)) in
        let! updated_row := get_group organization_id group_id in
        let! updated_group := fetch_one updated_row in
        let! _ := db_modify (on_memberships (delete_where (fun m =>
                    N.eqb (membership_organization_id m) organization_id
                    && N.eqb (membership_group_id m) group_id
                    && negb (contains member_user_ids (membership_user_id m))))) in
        let! _ := insert_scim_group_member_ids_in_transaction organization_id group_id
                    member_user_ids (replace_at input) in
        commit (ScimGroupApplied updated_group)
    end).

(** Deleting a group deletes its memberships ([ON DELETE CASCADE]). *)
(* crates/database/src/groups/scim/mutations.rs:140-169 delete_scim_group *)
Definition delete_scim_group (organization_id group_id : Uuid) (protected_group_slug : string)
    : DB ScimGroupMutationOutcome :=
  transaction (
    let! group := locked_group_in_transaction organization_id group_id in
    match group with
    | None => rollback ScimGroupNotFound
    | Some group =>
        if bool_decide (group_slug group = protected_group_slug)
        then rollback WouldModifyProtectedGroup
        else
        let! _ := db_modify (fun db =>
                    on_memberships (delete_where (fun m =>
                        N.eqb (membership_organization_id m) organization_id
                        && N.eqb (membership_group_id m) group_id))
                      (on_groups (delete group_id) db)) in
        commit (ScimGroupApplied group)
    end).

(* crates/database/src/types/filters.rs:34-37 ScimGroupListFilter *)
Record ScimGroupListFilter := mk_ScimGroupListFilter {
  filter_display_name_eq : option string;
  filter_group_external_id_eq : option string;
}.
Definition scim_group_matches (organization_id : Uuid) (filter : ScimGroupListFilter) (g : Group)
    : bool :=
  group_in organization_id g
  && match filter_display_name_eq filter with
     | Some name => bool_decide (group_display_name g = name)
     | None => true
     end
  && match filter_group_external_id_eq filter with
     | Some id => bool_decide (group_scim_external_id g = Some id)
     | None => true
     end.
(* crates/database/src/groups/scim/queries.rs:6-50 list_scim_groups_page_filtered *)
Definition list_scim_groups_page_filtered (organization_id : Uuid) (filter : ScimGroupListFilter)
    (start_index count : nat) : DB (nat * list Group) :=
  let offset := start_index - 1 in
  db_gets (fun db =>
    (count_where (scim_group_matches organization_id filter) (t_groups db),
     take count (drop offset (order_by (created_desc group_created_at group_id)
       (select_where (scim_group_matches organization_id filter) (t_groups db)))))).

(* crates/database/src/types/groups.rs:33-40 ScimGroupMember *)
Record ScimGroupMember := mk_ScimGroupMember {
  member_group_id : Uuid;
  member_user_id : Uuid;
  member_email : string;
  member_display_name : string;
  member_role : MembershipRole;
  member_created_at : OffsetDateTime;
}.
(** The inner join with [users]. *)
Definition scim_group_member (db : Database) (m : Membership) : option ScimGroupMember :=
  match t_users db !! membership_user_id m with
  | Some u =>
      if N.eqb (user_organization_id (uwp_user u)) (membership_organization_id m)
      then Some (mk_ScimGroupMember (membership_group_id m) (membership_user_id m)
                   (user_email (uwp_user u)) (user_display_name (uwp_user u)) (membership_role m)
                   (membership_created_at m))
      else None
  | None => None
  end.
(** By group, e-mail (as bytes) and user. *)
Definition member_asc (a b : ScimGroupMember) : bool :=
  if negb (N.eqb (member_group_id a) (member_group_id b))
  then (member_group_id a <? member_group_id b)%N
  else if negb (bool_decide (member_email a = member_email b))
  then String.leb (member_email a) (member_email b)
  else (member_user_id a <=? member_user_id b)%N.
(* crates/database/src/groups/scim/queries.rs:52-87 list_scim_group_members_for_groups *)
Definition list_scim_group_members_for_groups (organization_id : Uuid) (group_ids : list Uuid)
    : DB (list ScimGroupMember) :=
  match group_ids with
  | [] => db_ret []
  | _ =>
      db_gets (fun db => order_by member_asc (omap (scim_group_member db)
        (select_where (fun m => N.eqb (membership_organization_id m) organization_id
                                && bool_decide (membership_group_id m ∈ group_ids))
           (t_memberships db))))
  end.

(** ** Bootstrap *)

(* crates/database/src/users/bootstrap.rs:7-94 create_bootstrap_admin *)
Definition create_bootstrap_admin (user : User) (password_hash : string) (admin_group : Group)
    (admin_membership : Membership) : DB bool :=
  transaction (
    let! organization_exists := db_gets (fun db => fk_organization db (user_organization_id user)) in
    if negb organization_exists then db_err NotFound
    else
    let! existing_users := count_users (user_organization_id user) in
    if (0 <? existing_users)%nat then rollback false
    else
    let! _ := create_user user (Some password_hash) in
    let! _ := create_group admin_group in
    let! _ := create_membership admin_membership in
    commit true).

(** ** Properties *)

(** The keys of the directory: rows are stored under their primary keys and a
    slug names at most one group of an organization. *)
Record directory_wf (db : Database) : Prop := {
  wf_users : forall k u, t_users db !! k = Some u -> user_id (uwp_user u) = k;
  wf_groups : forall k g, t_groups db !! k = Some g -> group_id g = k;
  wf_memberships : forall k m, t_memberships db !! k = Some m -> membership_key m = k;
  wf_slugs : forall k1 k2 g1 g2, t_groups db !! k1 = Some g1 -> t_groups db !! k2 = Some g2 ->
    group_organization_id g1 = group_organization_id g2 -> group_slug g1 = group_slug g2 -> k1 = k2;
}.

(** [uid] is an owner of the group [gid] of [o] and can log in. *)
Definition owner_of (db : Database) (o gid uid : Uuid) : Prop :=
  (exists m, t_memberships db !! (uid, gid) = Some m /\ membership_organization_id m = o
             /\ membership_role m = MembershipRole_Owner)
  /\ (exists u, t_users db !! uid = Some u /\ user_organization_id (uwp_user u) = o
                /\ user_status (uwp_user u) = UserStatus_Active).
Definition has_active_owner (o : Uuid) (slug : string) (db : Database) : Prop :=
  exists gid g uid, t_groups db !! gid = Some g /\ group_organization_id g = o
    /\ group_slug g = slug /\ owner_of db o gid uid.
Definition directory_ok (o : Uuid) (slug : string) (db : Database) : Prop :=
  directory_wf db /\ has_active_owner o slug db.

(** The operations on the directory, with the protected slug the application
    passes to all of them. *)
Inductive directory_op (slug : string) : forall A, DB A -> Prop :=
| op_create_user u p : directory_op slug _ (create_user u p)
| op_last_login id t : directory_op slug _ (set_user_last_login id t)
| op_password id h v t : directory_op slug _ (set_user_password_and_email_verified id h v t)
| op_verified id v t : directory_op slug _ (set_user_email_verified id v t)
| op_status o id s t : directory_op slug _ (update_user_status o id s slug t)
| op_scim_user i : scim_user_protected_owner_group_slug i = slug ->
    directory_op slug _ (update_user_from_scim i)
| op_create_group g : directory_op slug _ (create_group g)
| op_create_membership m : directory_op slug _ (create_membership m)
| op_upsert m : directory_op slug _ (upsert_group_membership m slug)
| op_delete o g u : directory_op slug _ (delete_group_membership o g u slug)
| op_create_scim_group g l : directory_op slug _ (create_scim_group g l)
| op_replace_scim_group i : replace_protected_group_slug i = slug ->
    directory_op slug _ (replace_scim_group i)
| op_delete_scim_group o g : directory_op slug _ (delete_scim_group o g slug)
| op_bootstrap u h g m : directory_op slug _ (create_bootstrap_admin u h g m).
(** One operation, whatever its answer. *)
Definition directory_step (slug : string) (db db' : Database) : Prop :=
  exists A (c : DB A) r, directory_op slug A c /\ c db = (r, db').

(** *** What one statement does to the directory *)

Definition same_directory (db db' : Database) : Prop :=
  t_users db' = t_users db /\ t_groups db' = t_groups db /\ t_memberships db' = t_memberships db.
Lemma same_directory_ok o slug db db' :
  same_directory db db' -> directory_ok o slug db -> directory_ok o slug db'.
Proof.
  intros (Hu & Hg & Hm) [[H1 H2 H3 H4] (gid & g & uid & Hs)]. split.
  - split; rewrite ?Hu, ?Hg, ?Hm; done.
  - exists gid, g, uid. unfold owner_of in *. by rewrite Hu, Hg, Hm.
Qed.

Section statements.
Context (o : Uuid) (slug : string).

Lemma owner_users_kept db f gid uid :
  (forall u, t_users db !! uid = Some u -> exists u', f (t_users db) !! uid = Some u'
     /\ user_organization_id (uwp_user u') = user_organization_id (uwp_user u)
     /\ user_status (uwp_user u') = user_status (uwp_user u)) ->
  owner_of db o gid uid -> owner_of (on_users f db) o gid uid.
Proof.
  intros Hf [Hm (u & Hu & Ho & Hst)]. split; [done|].
  destruct (Hf u Hu) as (u' & Hu' & Ho' & Hst'). exists u'. cbn. split_and!; congruence.
Qed.

Lemma create_user_keeps u p db x db' :
  create_user u p db = (Ok x, db') -> directory_ok o slug db -> directory_ok o slug db'.
Proof.
  unfold create_user, absent. intros H [[H1 H2 H3 H4] (gid & g & uid & Hg & Ho & Hs & How)].
  db_steps. bool_prop. split.
  - split; cbn; try done. intros k v [[<- <-]|[? ?]]%lookup_insert_Some; eauto.
  - exists gid, g, uid. split_and!; try done. apply owner_users_kept; [|done].
    intros v Hv. exists v. split; [|done]. rewrite lookup_insert_ne by congruence. done.
Qed.

(** Updating a row of [users] without its key columns: the other owners are
    kept, and this one if it stays active. *)
Lemma update_users_wf id u (f : UserWithPassword -> UserWithPassword) db :
  (forall u, user_id (uwp_user (f u)) = user_id (uwp_user u)) ->
  t_users db !! id = Some u -> directory_wf db ->
  directory_wf (on_users (fun _ => <[id := f u]> (t_users db)) db).
Proof.
  intros Hf Hu [H1 H2 H3 H4]. split; cbn; try done.
  intros k v [[<- <-]|[? ?]]%lookup_insert_Some; [rewrite Hf|]; eauto.
Qed.
Lemma update_users_owner id u (f : UserWithPassword -> UserWithPassword) db gid uid :
  (forall u, user_organization_id (uwp_user (f u)) = user_organization_id (uwp_user u)) ->
  t_users db !! id = Some u ->
  uid <> id \/ user_status (uwp_user (f u)) = user_status (uwp_user u) ->
  owner_of db o gid uid -> owner_of (on_users (fun _ => <[id := f u]> (t_users db)) db) o gid uid.
Proof.
  intros Hf Hu Hid. apply owner_users_kept. intros v Hv. destruct (decide (uid = id)) as [->|Hne].
  - assert (v = u) as -> by congruence. exists (f u). rewrite lookup_insert_eq.
    split_and!; [done|apply Hf|]. by destruct Hid.
  - exists v. by rewrite lookup_insert_ne.
Qed.

Lemma update_user_keeps id f db r db' :
  (forall u, user_id (uwp_user (f u)) = user_id (uwp_user u)
             /\ user_organization_id (uwp_user (f u)) = user_organization_id (uwp_user u)
             /\ user_status (uwp_user (f u)) = user_status (uwp_user u)) ->
  update_user id f db = (r, db') -> directory_ok o slug db -> directory_ok o slug db'.
Proof.
  intros Hf H Hok. unfold update_user, db_bind, update_key, db_apply, update_row in H.
  destruct (t_users db !! id) as [u|] eqn:Hu; injection H as _ <-.
  - destruct Hok as [Hwf (gid & g & uid & Hs)]. split.
    + apply update_users_wf; [apply Hf|done..].
    + exists gid, g, uid. destruct Hs as (? & ? & ? & Hown). split_and!; try done.
      apply update_users_owner; [apply Hf|done| |done]. right. apply Hf.
  - apply (same_directory_ok o slug db); [done|]. done.
Qed.

Lemma create_group_keeps g db x db' :
  create_group g db = (Ok x, db') -> directory_ok o slug db ->
  directory_ok o slug db' /\ t_groups db !! group_id g = None
  /\ db' = on_groups (<[group_id g := g]>) db.
Proof.
  unfold create_group, absent, group_unique.
  intros H [[H1 H2 H3 H4] (gid & g0 & uid & Hg & Ho & Hs & How)].
  db_steps. bool_prop.
  match goal with H : map_Forall _ _ |- _ => rename H into Hun end.
  assert (Hnew : forall k g', t_groups db !! k = Some g' ->
    group_organization_id g' = group_organization_id g -> group_slug g' <> group_slug g).
  { intros k g' Hk Horg. refine (proj1 (Hun k g' Hk _ Horg)). congruence. }
  split_and!; [|done..]. split.
  - split; cbn; try done.
    + intros k v [[<- <-]|[? ?]]%lookup_insert_Some; eauto.
    + intros k1 k2 g1 g2 [[<- <-]|[? Hk1]]%lookup_insert_Some
        [[<- <-]|[? Hk2]]%lookup_insert_Some Horg Hsl; eauto; exfalso; naive_solver.
  - exists gid, g0, uid. split_and!; try done. cbn. rewrite lookup_insert_ne by congruence. done.
Qed.

(** A membership written over another owner's, or as an owner, or in
    another group, keeps [uid] an owner. *)
Lemma owner_memberships_kept db f gid uid :
  f (t_memberships db) !! (uid, gid) = t_memberships db !! (uid, gid) ->
  owner_of db o gid uid -> owner_of (on_memberships f db) o gid uid.
Proof. intros Hf [(m & Hm & ?) Hu]. split; [|done]. exists m. cbn. by rewrite Hf. Qed.

Lemma write_membership_wf m db x db' :
  write_membership m db = (Ok x, db') -> directory_wf db -> directory_wf db'.
Proof.
  unfold write_membership. intros H [H1 H2 H3 H4].
  destruct (t_memberships db !! membership_key m) as [e|] eqn:E.
  - db_steps. split; cbn; try done.
    intros k v [[<- <-]|[? ?]]%lookup_insert_Some; [|eauto].
    change (membership_key e = membership_key m). eauto.
  - unfold create_membership in H. db_steps. split; cbn; try done.
    intros k v [[<- <-]|[? ?]]%lookup_insert_Some; eauto.
Qed.
Lemma write_membership_owner m db x db' gid uid :
  write_membership m db = (Ok x, db') ->
  membership_key m <> (uid, gid) \/ membership_role m = MembershipRole_Owner ->
  owner_of db o gid uid -> owner_of db' o gid uid.
Proof.
  unfold write_membership. intros H Hm [(m0 & Hm0 & Ho & Hr) Hu].
  destruct (t_memberships db !! membership_key m) as [e|] eqn:E.
  - db_steps. split; [|done]. cbn. destruct (decide (membership_key m = (uid, gid))) as [Heq|Hne].
    + rewrite Heq in E |- *. rewrite lookup_insert_eq. eexists. split; [done|].
      assert (e = m0) as -> by congruence. destruct Hm; [done|]. done.
    + exists m0. by rewrite lookup_insert_ne.
  - unfold create_membership in H. db_steps. split; [|done]. cbn.
    exists m0. rewrite lookup_insert_ne by congruence. done.
Qed.
Lemma write_membership_groups m db x db' :
  write_membership m db = (Ok x, db') -> t_groups db' = t_groups db.
Proof.
  unfold write_membership, create_membership. intros H.
  destruct (t_memberships db !! membership_key m); db_steps; done.
Qed.

Lemma write_members_keeps org g ids t db x db' :
  write_members org g ids t db = (Ok x, db') -> directory_wf db ->
  directory_wf db' /\ t_groups db' = t_groups db
  /\ forall gid uid, gid <> g -> owner_of db o gid uid -> owner_of db' o gid uid.
Proof.
  revert db. induction ids as [|id ids IH]; simpl; intros db H Hwf.
  - db_steps. done.
  - db_steps. destruct (IH _ H) as (Hwf' & Hg & Hown); [by eapply write_membership_wf|].
    split_and!; [done| |].
    + rewrite Hg. by eapply write_membership_groups.
    + intros gid uid Hne Ho. apply Hown; [done|]. eapply write_membership_owner; [done| |done].
      left. unfold membership_key. simpl. congruence.
Qed.

Lemma delete_memberships_wf P db :
  directory_wf db -> directory_wf (on_memberships (delete_where P) db).
Proof.
  intros [H1 H2 H3 H4]. split; cbn; try done. intros k m [Hm _]%lookup_delete_where. eauto.
Qed.
Lemma delete_memberships_owner P db gid uid :
  (forall m, t_memberships db !! (uid, gid) = Some m -> P m = false) ->
  owner_of db o gid uid -> owner_of (on_memberships (delete_where P) db) o gid uid.
Proof.
  intros HP [(m & Hm & Hrest) Hu]. split; [|done]. exists m. split; [|done].
  cbn. apply lookup_delete_where. auto.
Qed.
End statements.

(** *** The guards *)

Section guards.
Context (o : Uuid) (slug : string).

Lemma active_owner_of db gid k m :
  directory_wf db -> t_memberships db !! k = Some m ->
  active_owner db o gid m = true <-> k = (membership_user_id m, gid)
    /\ owner_of db o gid (membership_user_id m).
Proof.
  intros Hwf Hm. pose proof (wf_memberships _ Hwf k m Hm) as Hk. unfold active_owner, user_in.
  unfold membership_key in Hk. subst k. rewrite !andb_true_iff, !N.eqb_eq, bool_decide_eq_true.
  split.
  - intros (((Ho & Hg) & Hr) & Hu). split; [congruence|]. split.
    + exists m. rewrite <- Hg. done.
    + destruct (t_users db !! _) as [u|]; [|done]. bool_prop. exists u.
      apply N.eqb_eq in H. subst o. done.
  - intros ([= Hg] & (m' & Hm' & Ho & Hr) & u & Hu & Huo & Hst).
    rewrite Hg in Hm. assert (m' = m) as -> by congruence. split_and!; try done.
    rewrite Hu. apply andb_true_iff. split; [apply N.eqb_eq; congruence|].
    by apply bool_decide_eq_true.
Qed.

Lemma owner_count_pos db gid excluded :
  directory_wf db ->
  0 < count_where (fun m => active_owner db o gid m && negb (N.eqb (membership_user_id m) excluded))
    (t_memberships db) <-> (exists uid, uid <> excluded /\ owner_of db o gid uid).
Proof.
  intros Hwf. rewrite count_where_pos. split.
  - intros (k & m & Hm & Ht). bool_prop.
    match goal with H : active_owner _ _ _ _ = true |- _ =>
      apply (active_owner_of _ _ _ _ Hwf Hm) in H as [_ Hown] end.
    exists (membership_user_id m). split; [|done]. by apply N.eqb_neq.
  - intros (uid & Hne & Hown). pose proof Hown as [(m & Hm & _) _]. exists (uid, gid), m.
    pose proof (wf_memberships _ Hwf _ _ Hm) as [= Hu Hg].
    split; [done|]. apply andb_true_iff. split.
    + apply (active_owner_of _ _ _ _ Hwf Hm). by rewrite Hu.
    + rewrite Hu. by apply negb_true_iff, N.eqb_neq.
Qed.

Lemma protected_group_unique db gid g :
  directory_wf db -> t_groups db !! gid = Some g -> group_organization_id g = o ->
  group_slug g = slug ->
  find_row (fun g => group_in o g && bool_decide (group_slug g = slug)) (t_groups db) = Some g.
Proof.
  intros Hwf Hg Ho Hs. unfold group_in. eapply find_row_unique; [done| |].
  - apply andb_true_iff. split; [by apply N.eqb_eq|by apply bool_decide_eq_true].
  - intros k' g' Hk' HP. bool_prop. apply N.eqb_eq in H.
    assert (k' = gid) as -> by (eapply (wf_slugs _ Hwf); [done|done|congruence..]). congruence.
Qed.

Lemma is_group_owner db gid uid :
  owner_of db o gid uid -> user_is_group_owner o gid uid db = (Ok true, db).
Proof.
  intros [(m & Hm & Ho & Hr) _]. unfold user_is_group_owner, db_gets. rewrite Hm.
  rewrite (proj2 (N.eqb_eq _ _) Ho). by rewrite bool_decide_true.
Qed.

Lemma deactivation_reads org uid cur next db r db1 :
  deactivation_would_remove_last_owner org uid cur next slug db = (r, db1) ->
  db1 = db /\ exists b, r = Ok b.
Proof.
  unfold deactivation_would_remove_last_owner. intros H.
  destruct (negb _ || _); [injection H as <- <-; eauto|].
  unfold protected_owner_group_id_for_update, user_is_group_owner,
    active_group_owner_count_excluding_user_in_transaction, db_bind, db_gets, db_ret in H.
  destruct (group_id <$> _); [|injection H as <- <-; eauto].
  destruct (negb _); injection H as <- <-; eauto.
Qed.

(** The deactivation guard lets a change pass only when the group keeps an
    active owner other than the user. *)
Lemma deactivation_guard uid cur next db gid g ow :
  deactivation_would_remove_last_owner o uid cur next slug db = (Ok false, db) ->
  directory_wf db -> t_groups db !! gid = Some g -> group_organization_id g = o ->
  group_slug g = slug -> owner_of db o gid ow ->
  cur = UserStatus_Active -> next <> UserStatus_Active ->
  exists ow', ow' <> uid /\ owner_of db o gid ow'.
Proof.
  intros H Hwf Hg Ho Hs How -> Hn. destruct (decide (ow = uid)) as [->|]; [|eauto].
  unfold deactivation_would_remove_last_owner in H.
  rewrite (bool_decide_true (UserStatus_Active = _)), (bool_decide_false (next = _)) in H by done.
  simpl in H. unfold protected_owner_group_id_for_update in H. unfold db_bind at 1, db_gets in H.
  rewrite (protected_group_unique _ _ _ Hwf Hg Ho Hs) in H. simpl in H.
  rewrite (wf_groups _ Hwf _ _ Hg) in H. unfold db_bind at 1 in H.
  rewrite is_group_owner in H by done. simpl in H.
  unfold active_group_owner_count_excluding_user_in_transaction, db_bind, db_gets, db_ret in H.
  injection H as Hz. apply Nat.eqb_neq in Hz. apply owner_count_pos; [done|]. lia.
Qed.

Lemma last_owner_guard db gid uid g ow :
  would_remove_last_active_owner_in_transaction o gid uid db = (Ok false, db) ->
  directory_wf db -> t_groups db !! gid = Some g -> owner_of db o gid ow ->
  exists ow', ow' <> uid /\ owner_of db o gid ow'.
Proof.
  intros H Hwf Hg How. destruct (decide (ow = uid)) as [->|]; [|eauto].
  unfold would_remove_last_active_owner_in_transaction,
    active_group_owner_count_excluding_user_in_transaction, db_bind, db_gets, db_ret in H.
  injection H as H. apply andb_false_iff in H as [H|H].
  - exfalso. apply Nat.ltb_ge in H. pose proof How as [(m & Hm & _) _].
    pose proof (wf_memberships _ Hwf _ _ Hm) as [= Hu _].
    assert (Hz : count_where (fun m => active_owner db o gid m && N.eqb (membership_user_id m) uid)
      (t_memberships db) = 0) by lia.
    rewrite count_where_zero in Hz. specialize (Hz _ _ Hm). rewrite Hu, N.eqb_refl, andb_true_r in Hz.
    apply not_true_iff_false in Hz. apply Hz. apply (active_owner_of _ _ _ _ Hwf Hm). by rewrite Hu.
  - apply Nat.eqb_neq in H. apply owner_count_pos; [done|]. lia.
Qed.
End guards.

(** *** What the transactions do *)

Definition with_user_revoked (o id : Uuid) (at_ : OffsetDateTime) (db : Database) : Database :=
  on_refresh_tokens (update_where (refresh_of_user o id) (refresh_revoke at_))
    (on_access_tokens (update_where (access_of_user o id) (access_revoke at_))
      (on_auth_sessions (update_where (session_of_user o id) (session_revoke at_)) db)).
Definition with_user (id : Uuid) (u : UserWithPassword) (db : Database) : Database :=
  on_users (fun _ => <[id := u]> (t_users db)) db.

Lemma revoke_user_credentials_run o id at_ db :
  revoke_user_runtime_credentials o id at_ db = (Ok tt, with_user_revoked o id at_ db).
Proof. done. Qed.

Lemma get_user_with_password_Ok o id db r db' :
  get_user_with_password o id db = (Ok r, db') <->
  db' = db /\ match r with
              | Some u => t_users db !! id = Some u /\ user_organization_id (uwp_user u) = o
              | None => forall u, t_users db !! id = Some u -> user_organization_id (uwp_user u) <> o
              end.
Proof.
  unfold get_user_with_password, db_gets, user_in. destruct (t_users db !! id) as [u|].
  - destruct (N.eqb_spec (user_organization_id (uwp_user u)) o); destruct r; split;
      try (intros [= <- <-]); try (intros [-> Hr]); naive_solver.
  - destruct r; split; try (intros [= <- <-]); try (intros [-> Hr]); naive_solver.
Qed.
Lemma locked_user_Ok o id db r db' :
  locked_user_for_update o id db = (Ok r, db') ->
  db' = db /\ match r with
              | Some u => exists p, t_users db !! id = Some (mk_UserWithPassword u p)
                                    /\ user_organization_id u = o
              | None => forall u, t_users db !! id = Some u -> user_organization_id (uwp_user u) <> o
              end.
Proof.
  unfold locked_user_for_update. intros (x & db1 & [-> Hx]%get_user_with_password_Ok & H)%db_bind_Ok.
  injection H as <- <-. split; [done|]. destruct x as [[u p]|]; simpl in *; naive_solver.
Qed.

Lemma update_returning_run o id f u db :
  (forall u, user_organization_id (f u) = user_organization_id u) ->
  t_users db !! id = Some u -> user_organization_id (uwp_user u) = o ->
  update_returning o id f db = (Ok (f (uwp_user u)), with_user id (on_user f u) db).
Proof.
  intros Hf Hu Ho. unfold update_returning, update_key, db_apply, update_row, db_bind.
  rewrite Hu. unfold user_in at 1. rewrite (proj2 (N.eqb_eq _ _) Ho).
  unfold get_user_with_password, db_gets. cbn. rewrite lookup_insert_eq.
  unfold user_in, on_user. cbn. by rewrite Hf, (proj2 (N.eqb_eq _ _) Ho).
Qed.

Lemma update_user_status_cases o id s slug at_ db r db' :
  update_user_status o id s slug at_ db = (r, db') ->
  (db' = db /\ (r = Ok UserStatusNotFound
                /\ (forall u, t_users db !! id = Some u -> user_organization_id (uwp_user u) <> o)
                \/ exists u, t_users db !! id = Some u /\ user_organization_id (uwp_user u) = o
                     /\ r = Ok UserStatusWouldDeactivateLastOwner
                     /\ deactivation_would_remove_last_owner o id (user_status (uwp_user u)) s slug db
                        = (Ok true, db)))
  \/ exists u, t_users db !! id = Some u /\ user_organization_id (uwp_user u) = o
       /\ deactivation_would_remove_last_owner o id (user_status (uwp_user u)) s slug db
          = (Ok false, db)
       /\ r = Ok (UserStatusApplied (user_set_status s at_ (uwp_user u)))
       /\ let db1 := with_user id (on_user (user_set_status s at_) u) db in
          db' = if decide (s = UserStatus_Active) then db1 else with_user_revoked o id at_ db1.
Proof.
  unfold update_user_status, transaction. intros H. unfold db_bind at 1 in H.
  destruct (locked_user_for_update o id db) as [[x|e] db1] eqn:E1; [|by unfold locked_user_for_update,
    get_user_with_password, db_bind, db_gets, db_ret in E1].
  apply locked_user_Ok in E1 as [-> Hx]. destruct x as [u|].
  - destruct Hx as (p & Hu & Ho). unfold db_bind at 1 in H.
    destruct (deactivation_would_remove_last_owner _ _ _ _ _ db) as [d db1] eqn:E2.
    pose proof (deactivation_reads _ _ _ _ _ _ _ _ E2) as (-> & b & ->). destruct b.
    + injection H as <- <-. left. split; [done|]. right. eexists. split_and!; [done..|exact E2].
    + right. eexists. split_and!; [done|done|exact E2| |]; unfold db_bind at 1 in H;
        rewrite (update_returning_run o id (user_set_status s at_) _ db) in H by done;
        destruct (bool_decide (s = UserStatus_Active)) eqn:Es; injection H as <- <-; bool_prop;
        simpl; try done; by destruct (decide _).
  - injection H as <- <-. left. split; [done|]. by left.
Qed.

Definition with_account_tokens_spent (o id : Uuid) (at_ : OffsetDateTime) (db : Database) : Database :=
  on_account_tokens (update_where
    (fun t => account_token_of_user o id t && account_token_live at_ t)
    (account_token_consume at_)) db.
(** Another user of the organization has the address or the external id. *)
Definition email_taken (db : Database) (o id : Uuid) (email : string) : Prop :=
  exists k u, k <> id /\ t_users db !! k = Some u /\ user_organization_id (uwp_user u) = o
    /\ user_email (uwp_user u) = email.
Definition external_id_taken (db : Database) (o id : Uuid) (external_id : option string) : Prop :=
  exists k u e, external_id = Some e /\ k <> id /\ t_users db !! k = Some u
    /\ user_organization_id (uwp_user u) = o /\ user_scim_external_id (uwp_user u) = Some e.

Lemma is_some_true {A} (x : option A) : is_some x = true <-> is_Some x.
Proof. by destruct x. Qed.

Lemma other_user_found (db : Database) o id (P : User -> Prop) `{forall u, Decision (P u)} :
  directory_wf db ->
  is_some (find_row (fun u => user_in o u && bool_decide (P (uwp_user u))
                              && negb (N.eqb (user_id (uwp_user u)) id)) (t_users db)) = true <->
  exists k u, k <> id /\ t_users db !! k = Some u /\ user_organization_id (uwp_user u) = o
    /\ P (uwp_user u).
Proof.
  intros Hwf. unfold user_in. rewrite is_some_true. split.
  - intros [u (k & Hk & HP)%find_row_Some]. exists k, u. bool_prop.
    pose proof (wf_users _ Hwf _ _ Hk) as Hid. split_and!; [|done|by apply N.eqb_eq|done].
    rewrite <- Hid. by apply N.eqb_neq.
  - intros (k & u & Hne & Hk & Ho & HP). eapply find_row_exists; [done|].
    rewrite (wf_users _ Hwf _ _ Hk), (proj2 (N.eqb_eq _ _) Ho), (proj2 (N.eqb_neq _ _) Hne).
    by rewrite bool_decide_true.
Qed.
Lemma user_email_is_taken_run o id email db :
  directory_wf db -> exists b, user_email_is_taken o id email db = (Ok b, db)
    /\ (b = true <-> email_taken db o id email).
Proof.
  intros Hwf. eexists. split; [done|].
  exact (other_user_found db o id (fun u => user_email u = email) Hwf).
Qed.
Lemma external_id_is_taken_run o id external_id db :
  directory_wf db -> exists b, match external_id with
    | Some e => user_scim_external_id_is_taken o id e
    | None => db_ret false end db = (Ok b, db)
    /\ (b = true <-> external_id_taken db o id external_id).
Proof.
  intros Hwf. destruct external_id as [e|].
  - eexists. split; [done|]. unfold external_id_taken.
    refine (iff_trans (other_user_found db o id (fun u => user_scim_external_id u = Some e) Hwf) _).
    naive_solver.
  - exists false. split; [done|]. unfold external_id_taken. naive_solver.
Qed.
Lemma user_unique_run db o id email external_id :
  ~ email_taken db o id email -> ~ external_id_taken db o id external_id ->
  user_unique db id o email external_id = true.
Proof.
  intros He Hx. apply bool_decide_eq_true. intros k u Hk Hne Ho. split.
  - intros Heq. apply He. by exists k, u.
  - intros Hs Heq. destruct external_id as [e|]; [|done]. apply Hx. by exists k, u, e.
Qed.

(** The address and its verification after a SCIM update. *)
Definition scim_user_result (i : ScimUserUpdateInput) (u : User) : User :=
  user_set_scim i (bool_decide (user_email u = scim_user_email i) && user_email_verified u) u.
Definition scim_update_db (i : ScimUserUpdateInput) (u : UserWithPassword) (db : Database) : Database :=
  let o := scim_user_organization_id i in
  let id := scim_user_user_id i in
  let at_ := scim_user_at i in
  let db1 := with_user id (mk_UserWithPassword (scim_user_result i (uwp_user u)) (uwp_password_hash u)) db in
  let db2 := if decide (user_email (uwp_user u) = scim_user_email i) then db1
             else with_account_tokens_spent o id at_ db1 in
  if decide (scim_user_status i = UserStatus_Active) then db2 else with_user_revoked o id at_ db2.

Lemma scim_update_run i db : directory_wf db ->
  let o := scim_user_organization_id i in
  let id := scim_user_user_id i in
  exists r, update_user_from_scim i db = (Ok r,
      match r with
      | ScimUserApplied _ =>
          match t_users db !! id with Some u => scim_update_db i u db | None => db end
      | _ => db
      end)
  /\ match r with
     | ScimUserNotFound =>
         forall u, t_users db !! id = Some u -> user_organization_id (uwp_user u) <> o
     | _ => exists u, t_users db !! id = Some u /\ user_organization_id (uwp_user u) = o
         /\ match r with
            | EmailAlreadyExists => email_taken db o id (scim_user_email i)
            | ScimUserExternalIdAlreadyExists =>
                ~ email_taken db o id (scim_user_email i)
                /\ external_id_taken db o id (scim_user_scim_external_id i)
            | ScimUserWouldDeactivateLastOwner =>
                deactivation_would_remove_last_owner o id (user_status (uwp_user u))
                  (scim_user_status i) (scim_user_protected_owner_group_slug i) db = (Ok true, db)
            | ScimUserApplied u' => u' = scim_user_result i (uwp_user u)
                /\ ~ email_taken db o id (scim_user_email i)
                /\ ~ external_id_taken db o id (scim_user_scim_external_id i)
                /\ deactivation_would_remove_last_owner o id (user_status (uwp_user u))
                     (scim_user_status i) (scim_user_protected_owner_group_slug i) db = (Ok false, db)
            | ScimUserNotFound => False
            end
     end.
Proof.
  intros Hwf o id. unfold update_user_from_scim, transaction. fold o id. unfold db_bind at 1.
  destruct (locked_user_for_update o id db) as [[x|e] db1] eqn:E1; [|done].
  apply locked_user_Ok in E1 as [-> Hx]. destruct x as [u|]; [|by exists ScimUserNotFound].
  destruct Hx as (p & Hu & Ho). unfold db_bind at 1.
  destruct (user_email_is_taken_run o id (scim_user_email i) db Hwf) as (be & -> & Hbe).
  destruct be; [exists EmailAlreadyExists; split; [done|]; eexists; split_and!; [done..|by apply Hbe]|].
  assert (~ email_taken db o id (scim_user_email i)) as He by (rewrite <- Hbe; done).
  unfold db_bind at 1.
  destruct (external_id_is_taken_run o id (scim_user_scim_external_id i) db Hwf) as (bx & -> & Hbx).
  destruct bx; [exists ScimUserExternalIdAlreadyExists; split; [done|]; eexists; split_and!;
    [done..|by apply Hbx]|].
  assert (~ external_id_taken db o id (scim_user_scim_external_id i)) as Hx
    by (rewrite <- Hbx; done).
  unfold db_bind at 1.
  destruct (deactivation_would_remove_last_owner _ _ _ _ _ db) as [d db1] eqn:E2.
  pose proof (deactivation_reads _ _ _ _ _ _ _ _ E2) as (-> & b & ->). destruct b.
  { exists ScimUserWouldDeactivateLastOwner. split; [done|]. eexists. by split_and!. }
  exists (ScimUserApplied (scim_user_result i u)). rewrite Hu. split.
  - unfold db_bind at 1, db_check. rewrite user_unique_run by done. unfold db_bind at 1.
    rewrite (update_returning_run o id _ (mk_UserWithPassword u p) db) by done.
    unfold scim_update_db, scim_user_result. cbn [uwp_user uwp_password_hash]. fold o id.
    rewrite negb_involutive.
    case_decide as Hd1; [rewrite (bool_decide_true _ Hd1)|rewrite (bool_decide_false _ Hd1)];
      (case_decide as Hd2; [rewrite (bool_decide_true _ Hd2)|rewrite (bool_decide_false _ Hd2)]);
      done.
  - eexists. by split_and!.
Qed.

(** *** Every operation keeps the owners *)

Section keeps.
Context (o : Uuid) (slug : string).

Lemma status_change_keeps org id u (f : User -> User) cur next db :
  (forall u, user_id (f u) = user_id u /\ user_organization_id (f u) = user_organization_id u
             /\ user_status (f u) = next) ->
  t_users db !! id = Some u -> user_organization_id (uwp_user u) = org ->
  cur = user_status (uwp_user u) ->
  deactivation_would_remove_last_owner org id cur next slug db = (Ok false, db) ->
  directory_ok o slug db -> directory_ok o slug (with_user id (on_user f u) db).
Proof.
  intros Hf Hu Ho Hcur Hg [Hwf (gid & g & ow & Hgr & Hgo & Hgs & How)].
  assert (exists ow', owner_of db o gid ow'
    /\ (ow' <> id \/ user_status (f (uwp_user u)) = user_status (uwp_user u)))
    as (ow' & How' & Hne).
  { destruct (decide (ow = id)) as [->|]; [|eauto].
    destruct (proj2 How) as (u' & Hu' & Huo & Hst). assert (u' = u) as -> by congruence.
    destruct (decide (next = UserStatus_Active)) as [->|Hn].
    - exists id. split; [done|]. right. rewrite (proj2 (proj2 (Hf _))). done.
    - assert (org = o) as -> by congruence.
      destruct (deactivation_guard _ _ _ _ _ _ _ _ _ Hg Hwf Hgr Hgo Hgs How
        ltac:(congruence) Hn) as (ow' & ? & ?). eauto. }
  split; [apply (update_users_wf id u (on_user f)); [intros ?; apply Hf|done..]|].
  exists gid, g, ow'. split_and!; [done..|].
  apply (update_users_owner o id u (on_user f)); [intros ?; apply Hf|done..].
Qed.
Lemma revoked_keeps org id t db :
  directory_ok o slug db -> directory_ok o slug (with_user_revoked org id t db).
Proof. by apply same_directory_ok. Qed.

Lemma update_status_keeps org id s t db r db' :
  update_user_status org id s slug t db = (r, db') ->
  directory_ok o slug db -> directory_ok o slug db'.
Proof.
  intros [[-> _]|(u & Hu & Ho & Hg & _ & ->)]%update_user_status_cases Hok; [done|]. cbv zeta.
  assert (directory_ok o slug (with_user id (on_user (user_set_status s t) u) db)).
  { eapply (status_change_keeps org id u (user_set_status s t) _ s);
      [done|exact Hu|exact Ho|reflexivity|exact Hg|exact Hok]. }
  case_decide; [done|]. by apply revoked_keeps.
Qed.
Lemma scim_update_keeps i db r db' :
  scim_user_protected_owner_group_slug i = slug ->
  update_user_from_scim i db = (r, db') -> directory_ok o slug db -> directory_ok o slug db'.
Proof.
  intros Hs H Hok. destruct (scim_update_run i db (proj1 Hok)) as (r0 & Hr0 & Hspec).
  rewrite H in Hr0. injection Hr0 as _ ->. destruct r0; try done.
  destruct Hspec as (u0 & Hu & Ho & _ & _ & _ & Hg). rewrite Hu, Hs in *.
  unfold scim_update_db.
  assert (directory_ok o slug (with_user (scim_user_user_id i)
    (mk_UserWithPassword (scim_user_result i (uwp_user u0)) (uwp_password_hash u0)) db)) as Hok1.
  { eapply (status_change_keeps _ _ u0 (fun u => user_set_scim i
      (bool_decide (user_email (uwp_user u0) = scim_user_email i)
       && user_email_verified (uwp_user u0)) u) _ (scim_user_status i));
      [done|exact Hu|exact Ho|reflexivity|exact Hg|exact Hok]. }
  do 2 case_decide; try apply revoked_keeps; try done; (eapply same_directory_ok; [|exact Hok1]; done).
Qed.

Lemma would_remove_reads org gid uid db r db1 :
  would_remove_last_active_owner_in_transaction org gid uid db = (r, db1) -> db1 = db.
Proof. by intros [= _ <-]. Qed.

Lemma locked_group_Ok org gid db r db' :
  locked_group_in_transaction org gid db = (Ok r, db') ->
  db' = db /\ forall g, r = Some g -> t_groups db !! gid = Some g /\ group_organization_id g = org.
Proof.
  unfold locked_group_in_transaction, get_group, db_gets. intros [= <- <-]. split; [done|].
  intros g. destruct (t_groups db !! gid) as [g0|]; [|done]. unfold group_in.
  destruct (N.eqb_spec (group_organization_id g0) org); [|done]. intros [= ->]. done.
Qed.
Lemma owner_role_found db gid uid :
  owner_of db o gid uid ->
  locked_membership_role_in_transaction o gid uid db = (Ok (Some MembershipRole_Owner), db).
Proof.
  intros [(m & Hm & Ho & <-) _]. unfold locked_membership_role_in_transaction, db_gets.
  by rewrite Hm, (proj2 (N.eqb_eq _ _) Ho).
Qed.

(** A guarded change to one membership, of [uid] in [gid], leaves an owner. *)
Lemma guarded_owner db gid uid g ow gid' g' (c : bool) :
  directory_wf db -> t_groups db !! gid' = Some g' -> group_slug g' = slug ->
  group_organization_id g' = o -> owner_of db o gid' ow ->
  (if c then would_remove_last_active_owner_in_transaction o gid uid else db_ret false) db
    = (Ok false, db) ->
  (gid = gid' -> uid = ow -> g = g' -> c = true) -> t_groups db !! gid = Some g ->
  exists ow', owner_of db o gid' ow' /\ (uid, gid) <> (ow', gid').
Proof.
  intros Hwf Hg' Hs Ho How Hg Hc Hgid. destruct (decide (gid = gid')) as [->|]; [|exists ow; naive_solver].
  destruct (decide (uid = ow)) as [->|]; [|exists ow; naive_solver].
  assert (g = g') as -> by congruence. rewrite Hc in Hg by done.
  destruct (last_owner_guard _ _ _ _ _ _ Hg Hwf Hg' How) as (ow' & ? & ?). exists ow'. naive_solver.
Qed.
Lemma guard_reads (c : bool) org gid uid db r db1 :
  (if c then would_remove_last_active_owner_in_transaction org gid uid else db_ret false) db
    = (r, db1) -> db1 = db.
Proof. destruct c; [apply would_remove_reads|by intros [= _ <-]]. Qed.

Lemma upsert_keeps m db r db' :
  upsert_group_membership m slug db = (r, db') -> directory_ok o slug db -> directory_ok o slug db'.
Proof.
  intros [->|(x & H & _)]%transaction_cases; [done|].
  intros [Hwf (gid & g & ow & Hgr & Hgo & Hgs & How)].
  apply db_bind_Ok in H as (r0 & db1 & [-> Hg0]%locked_group_Ok & H).
  destruct r0 as [g0|]; [|db_steps]. destruct (Hg0 _ eq_refl) as [Eg Ego].
  unfold user_exists_in_transaction in H. do 2 db_step.
  destruct (fk_user _ _ _); simpl in H; [|db_steps].
  apply db_bind_Ok in H as (role & db1 & Hrole & H). pose proof Hrole as [= _ <-].
  apply db_bind_Ok in H as (a & db1 & H0 & H). pose proof H0 as Hdb. apply guard_reads in Hdb as ->.
  destruct a; [db_steps|]. db_steps.
  split; [by eapply write_membership_wf|].
  assert (exists ow', owner_of db o gid ow'
    /\ (membership_key m <> (ow', gid) \/ membership_role m = MembershipRole_Owner)) as (ow' & ? & ?).
  { destruct (decide (membership_role m = MembershipRole_Owner)); [by eauto|].
    destruct (decide (membership_organization_id m = o)) as [Heq|Hne].
    - rewrite Heq in *.
      destruct (guarded_owner db _ _ g0 ow gid g _ Hwf Hgr Hgs Hgo How H0) as (ow' & ? & ?);
        [|exact Eg|eauto].
      intros Hg1 Hu1 ->. rewrite Hu1, Hg1, owner_role_found in Hrole by done.
      injection Hrole as <-. rewrite !bool_decide_true by done. by rewrite bool_decide_false.
    - exists ow. split; [done|]. left. unfold membership_key. congruence. }
  exists gid, g, ow'. erewrite write_membership_groups by done. split_and!; try done.
  by eapply write_membership_owner.
Qed.

Lemma delete_keeps org g u db r db' :
  delete_group_membership org g u slug db = (r, db') ->
  directory_ok o slug db -> directory_ok o slug db'.
Proof.
  intros [->|(x & H & _)]%transaction_cases; [done|].
  intros [Hwf (gid & gr & ow & Hgr & Hgo & Hgs & How)].
  apply db_bind_Ok in H as (r0 & db1 & [-> Hg0]%locked_group_Ok & H).
  destruct r0 as [g0|]; [|db_steps]. destruct (Hg0 _ eq_refl) as [Eg Ego].
  apply db_bind_Ok in H as (r1 & db1 & Er & H). pose proof Er as [= _ <-].
  destruct r1 as [role|]; [|db_steps].
  apply db_bind_Ok in H as (a & db1 & H0 & H). pose proof H0 as Hdb. apply guard_reads in Hdb as ->.
  destruct a; [db_steps|]. db_steps. split; [by apply delete_memberships_wf|].
  assert (exists ow', owner_of db o gid ow' /\ (org = o -> (u, g) <> (ow', gid)))
    as (ow' & Hw & Hne).
  { destruct (decide (org = o)) as [->|Hne]; [|by exists ow].
    destruct (guarded_owner db _ _ g0 ow gid gr _ Hwf Hgr Hgs Hgo How H0) as (ow' & ? & ?);
      [|exact Eg|eauto].
    intros -> -> ->. rewrite owner_role_found in Er by done. injection Er as <-.
    by rewrite !bool_decide_true. }
  exists gid, gr, ow'. split_and!; try done. apply delete_memberships_owner; [|done].
  intros m Hm. pose proof (wf_memberships _ Hwf _ _ Hm) as [= Hu Hg].
  apply not_true_iff_false. intros Ht. bool_prop.
  repeat match goal with H : N.eqb _ _ = true |- _ => apply N.eqb_eq in H end.
  destruct (proj1 Hw) as (m' & Hm' & Ho' & _). naive_solver congruence.
Qed.
End keeps.

Section group_keeps.
Context (o : Uuid) (slug : string).

Lemma get_by_slug_reads org s db r db' : group_slug_exists_in_transaction org s db = (r, db') -> db' = db.
Proof. by intros [= _ <-]. Qed.
Lemma external_id_reads org e x db r db' :
  optional_external_id_exists org e x db = (r, db') -> db' = db.
Proof. by destruct e; intros [= _ <-]. Qed.
Lemma all_users_reads org l db r db' :
  all_users_exist_in_transaction org l db = (r, db') -> db' = db.
Proof. by destruct l; intros [= _ <-]. Qed.
Lemma insert_members_keeps org g ids t db x db' gid gr uid :
  insert_scim_group_member_ids_in_transaction org g ids t db = (Ok x, db') ->
  directory_wf db -> t_groups db !! gid = Some gr -> group_organization_id gr = o ->
  group_slug gr = slug -> gid <> g -> owner_of db o gid uid -> directory_ok o slug db'.
Proof.
  unfold insert_scim_group_member_ids_in_transaction. intros H Hwf Hg Ho Hs Hne How. db_steps.
  destruct (write_members_keeps o _ _ _ _ _ _ _ H Hwf) as (Hwf' & Hgr & Hown). split; [done|].
  exists gid, gr, uid. rewrite Hgr. eauto.
Qed.

Lemma create_scim_group_keeps g l db r db' :
  create_scim_group g l db = (r, db') -> directory_ok o slug db -> directory_ok o slug db'.
Proof.
  intros [->|(x & H & _)]%transaction_cases Hok; [done|].
  apply db_bind_Ok in H as (b1 & db1 & ->%get_by_slug_reads & H). destruct b1; [db_steps|].
  apply db_bind_Ok in H as (b1 & db1 & ->%external_id_reads & H). destruct b1; [db_steps|].
  apply db_bind_Ok in H as (b1 & db1 & ->%all_users_reads & H). destruct b1; simpl in H; [|db_steps].
  apply db_bind_Ok in H as (? & db1 & Hc & H).
  destruct (create_group_keeps o slug _ _ _ _ Hc Hok) as (Hok1 & Hnone & ->).
  destruct Hok as [_ (gid & g0 & uid & Hg & Ho & Hs & How)]. db_steps.
  eapply insert_members_keeps; [done|apply Hok1| |done|done| |exact How].
  - cbn. rewrite lookup_insert_ne by congruence. done.
  - congruence.
Qed.

(** Changing a group's display name and external id. *)
Lemma update_group_keeps org gid f db b db' :
  (forall g, group_id (f g) = group_id g /\ group_organization_id (f g) = group_organization_id g
             /\ group_slug (f g) = group_slug g) ->
  update_key t_groups on_groups gid (group_in org) f db = (Ok b, db') ->
  directory_ok o slug db -> directory_ok o slug db'.
Proof.
  intros Hf H [[H1 H2 H3 H4] (gid0 & g0 & uid & Hg & Ho & Hs & How)].
  assert (Hrow : forall k g', t_groups db' !! k = Some g' -> exists g, t_groups db !! k = Some g
    /\ group_id g' = group_id g /\ group_organization_id g' = group_organization_id g
    /\ group_slug g' = group_slug g).
  { intros k g'. db_steps. cbn. destruct b.
    - apply update_row_true in H0 as (g & Hg' & _ & ->).
      intros [[<- <-]|[? ?]]%lookup_insert_Some; [exists g|exists g']; split; done || apply Hf.
    - apply update_row_false in H0 as [-> _]. by exists g'. }
  assert (Hback : exists g', t_groups db' !! gid0 = Some g').
  { db_steps. cbn. destruct b.
    - apply update_row_true in H0 as (g & Hg' & _ & ->). destruct (decide (gid0 = gid)) as [->|].
      + rewrite lookup_insert_eq. eauto.
      + rewrite lookup_insert_ne; eauto.
    - apply update_row_false in H0 as [-> _]. eauto. }
  assert (Hrest : t_users db' = t_users db /\ t_memberships db' = t_memberships db)
    by (db_steps; done).
  destruct Hrest as [Hu Hm]. split.
  - split; rewrite ?Hu, ?Hm; try done.
    + intros k g' (g & Hk & -> & _)%Hrow. eauto.
    + intros k1 k2 g1 g2 (h1 & Hk1 & _ & -> & ->)%Hrow (h2 & Hk2 & _ & -> & ->)%Hrow. eauto.
  - destruct Hback as [g' Hg']. exists gid0, g', uid.
    destruct (Hrow _ _ Hg') as (g1 & Hg1 & _ & Ho1 & Hs1).
    assert (g1 = g0) as -> by congruence. split_and!; [done|congruence..|].
    unfold owner_of in *. by rewrite Hu, Hm.
Qed.

Lemma other_group db gid g g0 gid0 :
  t_groups db !! gid = Some g -> group_slug g <> slug ->
  t_groups db !! gid0 = Some g0 -> group_slug g0 = slug -> gid0 <> gid.
Proof. congruence. Qed.

Lemma replace_scim_group_keeps i db r db' :
  replace_protected_group_slug i = slug -> replace_scim_group i db = (r, db') ->
  directory_ok o slug db -> directory_ok o slug db'.
Proof.
  intros Hslug [->|(x & H & _)]%transaction_cases Hok; [done|].
  apply db_bind_Ok in H as (r0 & db1 & [-> Hg0]%locked_group_Ok & H).
  destruct r0 as [g0|]; [|db_steps]. destruct (Hg0 _ eq_refl) as [Eg Ego].
  destruct (bool_decide _) eqn:Ep; [db_steps|]. bool_prop. rewrite Hslug in Ep.
  apply db_bind_Ok in H as (b1 & db1 & ->%external_id_reads & H). destruct b1; [db_steps|].
  apply db_bind_Ok in H as (b1 & db1 & ->%all_users_reads & H). destruct b1; simpl in H; [|db_steps].
  apply db_bind_Ok in H as (? & dbc & [_ ->]%db_check_Ok & H).
  apply db_bind_Ok in H as (b & dbu & Hu & H).
  assert (Hown : exists gid g uid, gid <> replace_group_id i /\ t_groups dbu !! gid = Some g
    /\ group_organization_id g = o /\ group_slug g = slug /\ owner_of dbu o gid uid /\ directory_wf dbu).
  { destruct (update_group_keeps (replace_organization_id i) (replace_group_id i)
      (group_set_scim (replace_display_name i) (replace_scim_external_id i)) db b dbu
      ltac:(done) Hu Hok) as [Hwf (gid & g & uid & Hg & Ho & Hs & How)].
    exists gid, g, uid. split_and!; try done. intros ->.
    apply update_key_Ok in Hu as (rows & Hu & ->). cbn in Hg. destruct b.
    - apply update_row_true in Hu as (g1 & Hg1 & _ & ->). rewrite lookup_insert_eq in Hg.
      injection Hg as <-. apply Ep. simpl in Hs. congruence.
    - apply update_row_false in Hu as [-> _]. congruence. }
  destruct Hown as (gid & g & uid & Hne & Hg & Ho & Hs & How & Hwf).
  unfold get_group in H. apply db_bind_Ok in H as (r1 & dbv & [= _ <-] & H).
  apply db_bind_Ok in H as (r2 & dbw & Hf & H). destruct r1; [|done]. injection Hf as _ <-.
  apply db_bind_Ok in H as (? & dbm & ->%db_modify_Ok & H).
  apply db_bind_Ok in H as (? & dbx & Hi & H). db_steps.
  eapply insert_members_keeps; [exact Hi|by apply delete_memberships_wf|exact Hg|done|done|done|].
  apply delete_memberships_owner; [|done]. intros m Hm.
  pose proof (wf_memberships _ Hwf _ _ Hm) as [= _ Hgm].
  rewrite Hgm, (proj2 (N.eqb_neq _ _) Hne). by rewrite andb_false_r.
Qed.

Lemma delete_scim_group_keeps org gid db r db' :
  delete_scim_group org gid slug db = (r, db') ->
  directory_ok o slug db -> directory_ok o slug db'.
Proof.
  intros [->|(x & H & _)]%transaction_cases Hok; [done|].
  apply db_bind_Ok in H as (r0 & db1 & [-> Hg0]%locked_group_Ok & H).
  destruct r0 as [g0|]; [|db_steps]. destruct (Hg0 _ eq_refl) as [Eg Ego].
  destruct (bool_decide _) eqn:Ep; [db_steps|]. bool_prop. db_steps.
  destruct Hok as [[H1 H2 H3 H4] (gid0 & g1 & uid & Hg & Ho & Hs & How)].
  assert (gid0 <> gid) as Hne by congruence.
  split.
  - apply delete_memberships_wf. split; cbn; try done.
    + intros k g [_ ?]%lookup_delete_Some. eauto.
    + intros k1 k2 ga gb [_ ?]%lookup_delete_Some [_ ?]%lookup_delete_Some. eauto.
  - exists gid0, g1, uid. split_and!; try done.
    + cbn. by rewrite lookup_delete_ne.
    + apply delete_memberships_owner; [|done]. cbn. intros m Hm.
      pose proof (H3 _ _ Hm) as [= _ Hgm]. rewrite Hgm, (proj2 (N.eqb_neq _ _) Hne).
      by rewrite andb_false_r.
Qed.

(** Errors of the single statements leave the database as it was. *)
Lemma create_user_Err u p db e db' : create_user u p db = (Err e, db') -> db' = db.
Proof. unfold create_user, db_bind, db_check. intros H. by repeat (case_match; simplify_eq). Qed.
Lemma create_group_Err g db e db' : create_group g db = (Err e, db') -> db' = db.
Proof. unfold create_group, db_bind, db_check. intros H. by repeat (case_match; simplify_eq). Qed.
Lemma create_membership_Err m db e db' : create_membership m db = (Err e, db') -> db' = db.
Proof. unfold create_membership, db_bind, db_check. intros H. by repeat (case_match; simplify_eq). Qed.
Lemma create_membership_keeps m db x db' :
  create_membership m db = (Ok x, db') -> directory_ok o slug db -> directory_ok o slug db'.
Proof.
  intros H [Hwf (gid & g & uid & Hg & Ho & Hs & How)].
  assert (Hn : t_memberships db !! membership_key m = None).
  { unfold create_membership, absent in H. db_steps. by bool_prop. }
  assert (Hw : write_membership m db = (Ok x, db')) by (unfold write_membership; by rewrite Hn).
  split; [by eapply write_membership_wf|]. exists gid, g, uid.
  erewrite write_membership_groups by done. split_and!; try done.
  eapply write_membership_owner; [done| |done]. left. intros Heq. rewrite Heq in Hn.
  destruct How as [(? & ? & _) _]. congruence.
Qed.
Lemma bootstrap_keeps u h g m db r db' :
  create_bootstrap_admin u h g m db = (r, db') -> directory_ok o slug db -> directory_ok o slug db'.
Proof.
  intros [->|(x & H & _)]%transaction_cases Hok; [done|].
  do 2 db_step. destruct (fk_organization _ _); simpl in H; [|done].
  unfold count_users in H. do 2 db_step. destruct (0 <? _); [db_steps|].
  apply db_bind_Ok in H as (? & db1 & H1 & H). apply (create_user_keeps o slug) in H1; [|done].
  apply db_bind_Ok in H as (? & db2 & H2 & H). apply (create_group_keeps o slug) in H2; [|done].
  apply db_bind_Ok in H as (? & db3 & H3 & H). apply create_membership_keeps in H3; [|tauto].
  by db_steps.
Qed.
End group_keeps.

Lemma directory_step_keeps o slug db db' :
  directory_step slug db db' -> directory_ok o slug db -> directory_ok o slug db'.
Proof.
  intros (A & c & r & Hop & Hc) Hok. destruct Hop.
  1, 7, 8: destruct r as [x|e]; [eauto using create_user_keeps, create_membership_keeps|].
  all: try by (apply create_user_Err in Hc as -> || apply create_group_Err in Hc as ->
               || apply create_membership_Err in Hc as ->).
  all: eauto using update_user_keeps, update_status_keeps, scim_update_keeps, upsert_keeps,
    delete_keeps, create_scim_group_keeps, replace_scim_group_keeps, delete_scim_group_keeps,
    bootstrap_keeps.
  all: try by (eapply update_user_keeps; [|exact Hc|exact Hok]).
  by destruct (create_group_keeps o slug _ _ _ _ Hc Hok).
Qed.

(** C29. The protected group never loses its last active owner: whatever
    sequence of the directory's operations runs, and whatever each of them
    answers, an organization whose protected group has an owner with an
    active account still has one (and slugs stay unique and rows stay under
    their keys).  The guards of the status change, the SCIM user update, the
    membership upsert and the membership deletion are what makes it hold, and
    SCIM's group operations cannot touch the protected group. *)
Theorem last_active_owner_is_kept o slug db db' :
  rtc (directory_step slug) db db' ->
  directory_wf db -> has_active_owner o slug db ->
  directory_wf db' /\ has_active_owner o slug db'.
Proof.
  intros Hsteps Hwf Ho. assert (directory_ok o slug db) as Hok by done. clear Hwf Ho.
  induction Hsteps as [|db1 db2 db3 Hs _ IH]; [done|].
  apply IH. by eapply directory_step_keeps.
Qed.

(** *** What deactivation revokes *)

(** No session and no token of the user is live. *)
Definition user_credentials_dead (o id : Uuid) (db : Database) : Prop :=
  (forall k r, t_auth_sessions db !! k = Some r ->
     session_organization_id (row_session r) = o -> session_user_id (row_session r) = id ->
     is_Some (session_revoked_at (row_session r)))
  /\ (forall h t, t_access_tokens db !! h = Some t ->
     access_organization_id t = o -> access_user_id t = Some id -> is_Some (access_revoked_at t))
  /\ (forall h t, t_refresh_tokens db !! h = Some t ->
     refresh_organization_id t = o -> refresh_user_id t = Some id -> is_Some (refresh_revoked_at t)).
(** The sessions and tokens of every other user are the same rows. *)
Definition other_users_credentials_kept (o id : Uuid) (db db' : Database) : Prop :=
  (forall k r, t_auth_sessions db !! k = Some r -> session_of_user o id r = false ->
     t_auth_sessions db' !! k = Some r)
  /\ (forall h t, t_access_tokens db !! h = Some t -> access_of_user o id t = false ->
     t_access_tokens db' !! h = Some t)
  /\ (forall h t, t_refresh_tokens db !! h = Some t -> refresh_of_user o id t = false ->
     t_refresh_tokens db' !! h = Some t).

Lemma with_user_revoked_dead o id at_ db : user_credentials_dead o id (with_user_revoked o id at_ db).
Proof.
  unfold user_credentials_dead. cbn. split_and!.
  - intros k r (r0 & _ & ->)%lookup_update_where_Some. destruct (session_of_user o id r0) eqn:E.
    + intros _ _. apply coalesce_some.
    + intros Ho Hu. apply not_true_iff_false in E. destruct E. by apply session_of_user_true.
  - intros h t (t0 & _ & ->)%lookup_update_where_Some. unfold access_of_user.
    destruct (_ && _) eqn:E; [intros; apply coalesce_some|]. intros Ho Hu.
    by rewrite Ho, Hu, N.eqb_refl, bool_decide_true in E.
  - intros h t (t0 & _ & ->)%lookup_update_where_Some. unfold refresh_of_user.
    destruct (_ && _) eqn:E; [intros; apply coalesce_some|]. intros Ho Hu.
    by rewrite Ho, Hu, N.eqb_refl, bool_decide_true in E.
Qed.
Lemma with_user_revoked_others o id at_ db :
  other_users_credentials_kept o id db (with_user_revoked o id at_ db).
Proof. split_and!; intros ? ? ? ?; by apply update_where_kept. Qed.

(** The user is the only owner of the protected group who can log in. *)
Definition only_active_owner (db : Database) (o id : Uuid) (slug : string) : Prop :=
  exists gid g, t_groups db !! gid = Some g /\ group_organization_id g = o /\ group_slug g = slug
    /\ owner_of db o gid id /\ forall uid, owner_of db o gid uid -> uid = id.

Lemma deactivation_blocked o id u s slug db :
  directory_wf db -> t_users db !! id = Some u -> user_organization_id (uwp_user u) = o ->
  deactivation_would_remove_last_owner o id (user_status (uwp_user u)) s slug db = (Ok true, db) ->
  user_status (uwp_user u) = UserStatus_Active /\ s <> UserStatus_Active
  /\ only_active_owner db o id slug.
Proof.
  intros Hwf Hu Ho H. unfold deactivation_would_remove_last_owner in H.
  destruct (negb _ || _) eqn:E; [done|]. apply orb_false_iff in E as [E1 E2]. bool_prop.
  unfold protected_owner_group_id_for_update in H. unfold db_bind at 1, db_gets in H.
  destruct (find_row _ _) as [g|] eqn:Hf; simpl in H; [|done].
  apply find_row_Some in Hf as (gid & Hg & HP). bool_prop. unfold group_in in *.
  rewrite (wf_groups _ Hwf _ _ Hg) in H. unfold db_bind at 1 in H.
  destruct (user_is_group_owner o gid id db) as [[b|] db1] eqn:Eo; [|done].
  unfold user_is_group_owner, db_gets in Eo. injection Eo as Eo <-. destruct b; simpl in H; [|done].
  unfold active_group_owner_count_excluding_user_in_transaction, db_bind, db_gets, db_ret in H.
  injection H as H. apply Nat.eqb_eq in H. split_and!; [done..|].
  exists gid, g. split_and!; [done|by apply N.eqb_eq|done| |].
  - destruct (t_memberships db !! (id, gid)) as [m|] eqn:Em; [|done].
    apply andb_true_iff in Eo as [Eo1 Eo2]. bool_prop. apply N.eqb_eq in Eo1.
    split; [by exists m|by exists u].
  - intros uid How. destruct (decide (uid = id)) as [|Hne]; [done|]. exfalso.
    assert (Hpos := proj2 (owner_count_pos o db gid id Hwf) (ex_intro _ uid (conj Hne How))). lia.
Qed.

Lemma update_user_status_dead o id s slug at_ db u db' :
  update_user_status o id s slug at_ db = (Ok (UserStatusApplied u), db') ->
  s <> UserStatus_Active -> user_credentials_dead o id db'.
Proof.
  intros [[-> [[[=] _]|(u0 & _ & _ & [=] & _)]]|(u0 & Hu & Ho & Hg & _ & ->)]%update_user_status_cases Hs.
  case_decide; [done|]. apply with_user_revoked_dead.
Qed.
(** Suspending, locking or reactivating a user: the transaction never
    fails on the schema; it answers [NotFound] exactly for a user that is not
    the organization's and [WouldDeactivateLastOwner] only when the user is
    the one active owner of the protected group, in both cases changing
    nothing; otherwise it stores exactly the new status, and for a status
    other than active leaves no live session, access token or refresh token
    of the user, while every other user's are untouched.  Reactivation
    restores none of them, and authorization codes are never touched. *)
Theorem update_user_status_spec o id s slug at_ db r db' :
  directory_wf db -> update_user_status o id s slug at_ db = (r, db') ->
  match r with
  | Ok UserStatusNotFound => db' = db
      /\ forall u, t_users db !! id = Some u -> user_organization_id (uwp_user u) <> o
  | Ok UserStatusWouldDeactivateLastOwner => db' = db
      /\ s <> UserStatus_Active /\ only_active_owner db o id slug
  | Ok (UserStatusApplied u') =>
      exists u, t_users db !! id = Some u /\ user_organization_id (uwp_user u) = o
      /\ u' = user_set_status s at_ (uwp_user u)
      /\ t_users db' = <[id := mk_UserWithPassword u' (uwp_password_hash u)]> (t_users db)
      /\ (s <> UserStatus_Active -> user_credentials_dead o id db')
      /\ (s = UserStatus_Active -> t_auth_sessions db' = t_auth_sessions db
            /\ t_access_tokens db' = t_access_tokens db
            /\ t_refresh_tokens db' = t_refresh_tokens db)
      /\ other_users_credentials_kept o id db db'
      /\ t_authorization_codes db' = t_authorization_codes db
  | Err _ => False
  end.
Proof.
  intros Hwf [[-> [[-> Hu]|(u & Hu & Ho & -> & Hg)]]|(u & Hu & Ho & Hg & -> & ->)]%update_user_status_cases.
  - done.
  - split; [done|]. by apply deactivation_blocked in Hg as (_ & ? & ?).
  - exists u. split_and!; try done; case_decide; try done.
    + intros _. apply with_user_revoked_dead.
    + exact (with_user_revoked_others o id at_ (with_user id (on_user (user_set_status s at_) u) db)).
Qed.

(** A SCIM update of a user never fails on the schema and never trusts
    the client about verification: an address or external id another user of
    the organization has is refused, as is deactivating the last active
    owner, and nothing changes; on success exactly the SCIM attributes are
    stored, the password and the login history are kept, [email_verified] is
    true only if it was and the address is the same, a changed address spends
    every live account token of the user, and a status other than active
    revokes all of the user's sessions and tokens. *)
Theorem update_user_from_scim_spec i db :
  directory_wf db ->
  let o := scim_user_organization_id i in
  let id := scim_user_user_id i in
  exists r db', update_user_from_scim i db = (Ok r, db') /\
  match r with
  | ScimUserNotFound => db' = db
      /\ forall u, t_users db !! id = Some u -> user_organization_id (uwp_user u) <> o
  | EmailAlreadyExists => db' = db /\ email_taken db o id (scim_user_email i)
  | ScimUserExternalIdAlreadyExists => db' = db
      /\ external_id_taken db o id (scim_user_scim_external_id i)
  | ScimUserWouldDeactivateLastOwner => db' = db /\ scim_user_status i <> UserStatus_Active
      /\ only_active_owner db o id (scim_user_protected_owner_group_slug i)
  | ScimUserApplied u' =>
      ~ email_taken db o id (scim_user_email i)
      /\ ~ external_id_taken db o id (scim_user_scim_external_id i)
      /\ exists u, t_users db !! id = Some u /\ user_organization_id (uwp_user u) = o
      /\ t_users db' = <[id := mk_UserWithPassword u' (uwp_password_hash u)]> (t_users db)
      /\ user_email u' = scim_user_email i /\ user_status u' = scim_user_status i
      /\ user_last_login_at u' = user_last_login_at (uwp_user u)
      /\ (user_email_verified u' = true <->
            user_email_verified (uwp_user u) = true /\ user_email (uwp_user u) = scim_user_email i)
      /\ (user_email (uwp_user u) <> scim_user_email i ->
            forall k t, t_account_tokens db' !! k = Some t ->
              account_token_organization_id t = o -> account_token_user_id t = Some id ->
              account_token_live (scim_user_at i) t = false)
      /\ (scim_user_status i <> UserStatus_Active -> user_credentials_dead o id db')
  end.
Proof.
  intros Hwf o id. destruct (scim_update_run i db Hwf) as (r & Hr & Hspec). fold o id in Hr, Hspec.
  eexists r, _. split; [exact Hr|]. destruct r; try (by split); destruct Hspec as (u0 & Hu & Ho & Hspec).
  - destruct Hspec as (-> & He & Hx & _). rewrite Hu. split_and!; [done..|]. exists u0.
    unfold scim_update_db. fold o id. split_and!; try done.
    + by do 2 case_decide.
    + simpl. rewrite andb_true_iff, bool_decide_eq_true. tauto.
    + intros Hne k t. rewrite (decide_False (P := user_email _ = _)) by done.
      assert (Heq : forall db, t_account_tokens (with_user_revoked o id (scim_user_at i) db)
        = t_account_tokens db) by done.
      case_decide; rewrite ?Heq; cbn; intros (t0 & _ & ->)%lookup_update_where_Some;
        destruct (account_token_of_user o id t0 && _) eqn:E;
        try (unfold account_token_live; simpl; destruct (account_token_consumed_at t0); done);
        intros Hto Htu; unfold account_token_of_user in E;
        rewrite Hto, Htu, N.eqb_refl, bool_decide_true in E by done; exact E.
    + intros Hs. rewrite (decide_False (P := scim_user_status i = _)) by done.
      apply with_user_revoked_dead.
  - by destruct (deactivation_blocked _ _ _ _ _ _ Hwf Hu Ho Hspec) as (_ & ? & ?).
  - done.
  - tauto.
Qed.
