(* ===== verification/AccountStore.v ===== *)
(** * Account tokens and passwords

    [crates/database]'s account_tokens: the one-use tokens of email
    verification, invitation and password recovery, and the two transactions
    that replace a password and revoke what the old one gave access to.
    [debug_assert_eq!] checks nothing in a release build. *)

From S2P Require Import Prelude RustStr Domain Codec Store OAuthStore ClientStore SessionStore.
From S2P Require Import Directory Lifecycle.

(** ** Tokens *)

Definition account_token_unique (db : Database) (t : AccountToken) : bool :=
  absent (t_account_tokens db) (account_token_id t)
  && bool_decide (map_Forall (fun _ t' => account_token_token_hash t' <> account_token_token_hash t)
                    (t_account_tokens db)).
Definition account_token_fk (db : Database) (t : AccountToken) : bool :=
  fk_organization db (account_token_organization_id t)
  && fk_user_opt db (account_token_user_id t) (account_token_organization_id t)
  && fk_user_opt db (account_token_created_by_user_id t) (account_token_organization_id t).

(* crates/database/src/account_tokens.rs:217-247 insert_account_token_record *)
Definition insert_account_token_record (token : AccountToken) : DB unit :=
  let! _ := db_check (fun db => account_token_unique db token) UniqueViolation in
  let! _ := db_check (fun db => account_token_fk db token) ForeignKeyViolation in
  db_modify (on_account_tokens (<[account_token_id token := token]>)).
(* crates/database/src/account_tokens.rs:14-16 insert_account_token *)
Definition insert_account_token (token : AccountToken) : DB unit :=
  insert_account_token_record token.
(* crates/database/src/account_tokens.rs:18-37 get_account_token_by_hash *)
Definition get_account_token_by_hash (token_hash : string) (kind : AccountTokenKind)
    : DB (option AccountToken) :=
  db_gets (fun db => find_row (fun t =>
    bool_decide (account_token_token_hash t = token_hash)
    && bool_decide (account_token_kind t = kind)) (t_account_tokens db)).
(* crates/database/src/account_tokens/delivery.rs:6-18 insert_account_token_and_email_outbox_message *)
Definition insert_account_token_and_email_outbox_message (token : AccountToken)
    (message : EmailOutboxMessage) : DB unit :=
  transaction (
    let! _ := insert_account_token_record token in
    let! _ := insert_email_outbox_message message in
    commit tt).

Definition account_token_spend (at_ : OffsetDateTime) (t : AccountToken) : AccountToken :=
  account_token_set_consumed_at (Some at_) t.
(* crates/database/src/account_tokens.rs:39-59 consume_account_token *)
Definition consume_account_token (id : Uuid) (at_ : OffsetDateTime) : DB bool :=
  update_key t_account_tokens on_account_tokens id (account_token_live at_)
    (account_token_spend at_).

(** The user a token is for is still the one it was sent to. *)
Definition token_user_matches (db : Database) (user_id : Uuid) (password : option string -> bool)
    (t : AccountToken) : bool :=
  match t_users db !! user_id with
  | Some u => user_in (account_token_organization_id t) u
              && bool_decide (user_email (uwp_user u) = account_token_email t)
              && bool_decide (user_status (uwp_user u) = UserStatus_Active)
              && password (uwp_password_hash u)
  | None => false
  end.
(** The [WHERE] clause of the consuming updates. *)
Definition account_token_consumable (db : Database) (user_id : Uuid) (kind : AccountTokenKind)
    (password : option string -> bool) (at_ : OffsetDateTime) (t : AccountToken) : bool :=
  bool_decide (account_token_user_id t = Some user_id)
  && bool_decide (account_token_kind t = kind)
  && account_token_live at_ t
  && token_user_matches db user_id password t.
Definition consume_for_user (token_id user_id : Uuid) (kind : AccountTokenKind)
    (in_organization : AccountToken -> bool) (password : option string -> bool)
    (at_ : OffsetDateTime) : DB bool := fun db =>
  update_key t_account_tokens on_account_tokens token_id
    (fun t => in_organization t && account_token_consumable db user_id kind password at_ t)
    (account_token_spend at_) db.
(** [status = 'active' AND email = (SELECT email FROM account_tokens WHERE id = token_id)] *)
Definition still_addressed (db : Database) (token_id : Uuid) (u : UserWithPassword) : bool :=
  bool_decide (user_status (uwp_user u) = UserStatus_Active)
  && bool_decide (Some (user_email (uwp_user u))
                  = account_token_email <$> (t_account_tokens db !! token_id)).
Definition any_password (_ : option string) : bool := true.

(* crates/database/src/account_tokens.rs:61-127 consume_account_token_and_set_user_email_verified *)
Definition consume_account_token_and_set_user_email_verified (token_id user_id : Uuid)
    (at_ : OffsetDateTime) : DB bool :=
  transaction (
    let! consumed :=
      consume_for_user token_id user_id EmailVerification (fun _ => true) any_password at_ in
    if negb consumed then rollback false
    else
      let! updated := fun db =>
        update_key t_users on_users user_id (still_addressed db token_id)
          (on_user (user_set_email_verified true at_)) db in
      if negb updated then rollback false else commit true).

(* crates/database/src/account_tokens.rs:129-214 consume_account_token_and_set_user_password *)
Definition consume_account_token_and_set_user_password (token_id user_id : Uuid)
    (password_hash : string) (email_verified revoke_sessions : bool) (at_ : OffsetDateTime)
    : DB bool :=
  transaction (
    let! consumed :=
      consume_for_user token_id user_id Invitation (fun _ => true) is_none at_ in
    if negb consumed then rollback false
    else
      let! updated := fun db =>
        update_key t_users on_users user_id
          (fun u => still_addressed db token_id u && is_none (uwp_password_hash u))
          (fun u => mk_UserWithPassword
                      (user_set_email_verified email_verified at_ (uwp_user u))
                      (Some password_hash)) db in
      if negb updated then rollback false
      else
        let! _ := if revoke_sessions then revoke_user_sessions user_id at_ else db_ret 0 in
        commit true).

(** ** Passwords *)

(* crates/database/src/types/passwords.rs:24-31 PasswordChangeMutation *)
Record PasswordChangeMutation := mk_PasswordChangeMutation {
  change_session : AuthSession;
  change_sessions_revoked : nat;
  change_access_tokens_revoked : nat;
  change_refresh_tokens_revoked : nat;
  change_account_tokens_consumed : nat;
  change_notification_email_outbox_id : option Uuid;
}.
(** [Some] is [Applied], [None] is [NotFound]. *)
(* crates/database/src/types/passwords.rs:13-21 PasswordChangeInput *)
Record PasswordChangeInput := mk_PasswordChangeInput {
  change_organization_id : Uuid;
  change_user_id : Uuid;
  change_password_hash : string;
  change_new_session : AuthSession;
  change_request_context : SessionRequestContext;
  change_notification : option EmailOutboxMessage;
  change_at : OffsetDateTime;
}.

(** Each [UPDATE ... SET revoked_at = COALESCE(revoked_at, at) ... AND
    revoked_at IS NULL]. *)
Definition revoke_live_sessions (o id : Uuid) (at_ : OffsetDateTime) : DB nat :=
  update_rows t_auth_sessions on_auth_sessions
    (fun r => session_of_user o id r && is_none (session_revoked_at (row_session r)))
    (session_revoke at_).
Definition revoke_live_access_tokens (o id : Uuid) (at_ : OffsetDateTime) : DB nat :=
  update_rows t_access_tokens on_access_tokens
    (fun t => access_of_user o id t && is_none (access_revoked_at t)) (access_revoke at_).
Definition revoke_live_refresh_tokens (o id : Uuid) (at_ : OffsetDateTime) : DB nat :=
  update_rows t_refresh_tokens on_refresh_tokens
    (fun t => refresh_of_user o id t && is_none (refresh_revoked_at t)) (refresh_revoke at_).
(** A live recovery token of the user. *)
Definition recovery_token_live (o id : Uuid) (at_ : OffsetDateTime) (t : AccountToken) : bool :=
  account_token_of_user o id t && bool_decide (account_token_kind t = PasswordRecovery)
  && account_token_live at_ t.
Definition user_set_password (password_hash : string) (f : User -> User) (u : UserWithPassword)
    : UserWithPassword := mk_UserWithPassword (f (uwp_user u)) (Some password_hash).
Definition insert_optional_message (message : option EmailOutboxMessage) : DB unit :=
  match message with
  | Some message => insert_email_outbox_message message
  | None => db_ret tt
  end.

(* crates/database/src/account_tokens/password_change.rs:10-165 change_user_password_and_rotate_session *)
Definition change_user_password_and_rotate_session (input : PasswordChangeInput)
    : DB (option PasswordChangeMutation) :=
  let organization_id := change_organization_id input in
  let user_id := change_user_id input in
  let at_ := change_at input in
  let new_session := change_new_session input in
  transaction (
    let! user := get_user_with_password organization_id user_id in
    match user with
    | None => commit None
    | Some _ =>
        let! _ := update_key t_users on_users user_id (user_in organization_id)
                    (user_set_password (change_password_hash input) (user_set_updated_at at_)) in
        let! sessions_revoked := revoke_live_sessions organization_id user_id at_ in
        let! _ := insert_auth_session new_session (change_request_context input) in
        let! access_tokens_revoked := revoke_live_access_tokens organization_id user_id at_ in
        let! refresh_tokens_revoked := revoke_live_refresh_tokens organization_id user_id at_ in
        let! account_tokens_consumed :=
          update_rows t_account_tokens on_account_tokens
            (recovery_token_live organization_id user_id at_) (account_token_consume at_) in
        let! _ := insert_optional_message (change_notification input) in
        commit (Some (mk_PasswordChangeMutation new_session sessions_revoked access_tokens_revoked
                        refresh_tokens_revoked account_tokens_consumed
                        (email_id <$> change_notification input)))
    end).

(* crates/database/src/types/passwords.rs:40-47 PasswordRecoveryInput *)
Record PasswordRecoveryInput := mk_PasswordRecoveryInput {
  recovery_organization_id : Uuid;
  recovery_user_id : Uuid;
  recovery_token_id : Uuid;
  recovery_password_hash : string;
  recovery_notification : option EmailOutboxMessage;
  recovery_at : OffsetDateTime;
}.
(* crates/database/src/types/passwords.rs:50-56 PasswordRecoveryMutation *)
Record PasswordRecoveryMutation := mk_PasswordRecoveryMutation {
  recovery_sessions_revoked : nat;
  recovery_access_tokens_revoked : nat;
  recovery_refresh_tokens_revoked : nat;
  recovery_account_tokens_consumed : nat;
  recovery_notification_email_outbox_id : option Uuid;
}.

(* crates/database/src/account_tokens/password_recovery.rs:9-172 consume_password_recovery_token_and_reset_user_password *)
Definition consume_password_recovery_token_and_reset_user_password (input : PasswordRecoveryInput)
    : DB (option PasswordRecoveryMutation) :=
  let organization_id := recovery_organization_id input in
  let user_id := recovery_user_id input in
  let token_id := recovery_token_id input in
  let at_ := recovery_at input in
  transaction (
    let! consumed :=
      consume_for_user token_id user_id PasswordRecovery
        (fun t => N.eqb (account_token_organization_id t) organization_id) is_some at_ in
    if negb consumed then rollback None
    else
      let! updated := fun db =>
        update_key t_users on_users user_id
          (fun u => user_in organization_id u && still_addressed db token_id u
                    && is_some (uwp_password_hash u))
          (user_set_password (recovery_password_hash input) (user_set_email_verified true at_)) db in
      if negb updated then rollback None
      else
        let! other_account_tokens_consumed :=
          update_rows t_account_tokens on_account_tokens
            (fun t => recovery_token_live organization_id user_id at_ t
                      && negb (N.eqb (account_token_id t) token_id)) (account_token_spend at_) in
        let! sessions_revoked := revoke_live_sessions organization_id user_id at_ in
        let! access_tokens_revoked := revoke_live_access_tokens organization_id user_id at_ in
        let! refresh_tokens_revoked := revoke_live_refresh_tokens organization_id user_id at_ in
        let! _ := insert_optional_message (recovery_notification input) in
        commit (Some (mk_PasswordRecoveryMutation sessions_revoked access_tokens_revoked
                        refresh_tokens_revoked (1 + other_account_tokens_consumed)
                        (email_id <$> recovery_notification input)))).

(** ** Properties *)

Lemma account_token_live_true at_ t :
  account_token_live at_ t = true <->
  account_token_consumed_at t = None /\ (at_ < account_token_expires_at t)%Z.
Proof.
  unfold account_token_live. rewrite andb_true_iff, Z.ltb_lt.
  destruct (account_token_consumed_at t); naive_solver.
Qed.
Lemma account_token_spent_dead at_ t : is_Some (account_token_consumed_at t) ->
  account_token_live at_ t = false.
Proof. intros [x Hx]. unfold account_token_live. by rewrite Hx. Qed.

(** *** Consuming statements *)

Definition with_token (id : Uuid) (t : AccountToken) (db : Database) : Database :=
  on_account_tokens (fun _ => <[id := t]> (t_account_tokens db)) db.

Lemma consume_for_user_cases id uid kind org password at_ db r db' :
  consume_for_user id uid kind org password at_ db = (r, db') ->
  (r = Ok false /\ db' = db /\ (forall t, t_account_tokens db !! id = Some t ->
     org t && account_token_consumable db uid kind password at_ t = false))
  \/ (r = Ok true /\ exists t, t_account_tokens db !! id = Some t /\ org t = true
      /\ account_token_consumable db uid kind password at_ t = true
      /\ db' = with_token id (account_token_spend at_ t) db).
Proof.
  unfold consume_for_user, update_key, db_apply, update_row.
  destruct (t_account_tokens db !! id) as [t|] eqn:Et.
  - destruct (org t && _) eqn:E; intros [= <- <-].
    + right. apply andb_true_iff in E as [? ?]. split; [done|]. by exists t.
    + left. split_and!; [done|by destruct db|]. by intros t' [= <-].
  - intros [= <- <-]. left. split_and!; [done|by destruct db|done].
Qed.

Lemma consumable_true db uid kind password at_ t :
  account_token_consumable db uid kind password at_ t = true <->
  account_token_user_id t = Some uid /\ account_token_kind t = kind
  /\ account_token_consumed_at t = None /\ (at_ < account_token_expires_at t)%Z
  /\ exists u, t_users db !! uid = Some u
     /\ user_organization_id (uwp_user u) = account_token_organization_id t
     /\ user_email (uwp_user u) = account_token_email t
     /\ user_status (uwp_user u) = UserStatus_Active /\ password (uwp_password_hash u) = true.
Proof.
  unfold account_token_consumable, token_user_matches, user_in.
  rewrite !andb_true_iff, account_token_live_true, !bool_decide_eq_true.
  destruct (t_users db !! uid) as [u|].
  - rewrite !andb_true_iff, N.eqb_eq, !bool_decide_eq_true. naive_solver.
  - naive_solver.
Qed.

(** The user the consumed token was for passes the second update, so that one
    never rolls the transaction back. *)
Lemma still_addressed_after id t at_ db u :
  user_status (uwp_user u) = UserStatus_Active -> user_email (uwp_user u) = account_token_email t ->
  still_addressed (with_token id (account_token_spend at_ t) db) id u = true.
Proof.
  intros Hs He. unfold still_addressed. cbn. rewrite lookup_insert_eq. cbn.
  by rewrite Hs, He, !bool_decide_true.
Qed.

(** The four ways to redeem a token, each answering whether it did. *)
Inductive token_redemption (id : Uuid) (at_ : OffsetDateTime) : DB bool -> Prop :=
| redeem_alone : token_redemption id at_ (consume_account_token id at_)
| redeem_verification uid :
    token_redemption id at_ (consume_account_token_and_set_user_email_verified id uid at_)
| redeem_invitation uid h v b :
    token_redemption id at_ (consume_account_token_and_set_user_password id uid h v b at_)
| redeem_recovery i : recovery_token_id i = id -> recovery_at i = at_ ->
    token_redemption id at_
      (let! r := consume_password_recovery_token_and_reset_user_password i in db_ret (is_some r)).

Lemma verification_cases id uid at_ db r db' :
  consume_account_token_and_set_user_email_verified id uid at_ db = (r, db') ->
  (r = Ok false /\ db' = db /\ (forall t, t_account_tokens db !! id = Some t ->
     account_token_consumable db uid EmailVerification any_password at_ t = false))
  \/ (r = Ok true /\ exists t u, t_account_tokens db !! id = Some t
      /\ account_token_consumable db uid EmailVerification any_password at_ t = true
      /\ t_users db !! uid = Some u
      /\ db' = with_user uid (on_user (user_set_email_verified true at_) u)
                 (with_token id (account_token_spend at_ t) db)).
Proof.
  unfold consume_account_token_and_set_user_email_verified, transaction, db_bind.
  destruct (consume_for_user _ _ _ _ _ _ db) as [r1 db1] eqn:E1.
  apply consume_for_user_cases in E1 as [(-> & -> & Hn)|(-> & t & Ht & _ & Hc & ->)].
  - intros [= <- <-]. left. split_and!; [done..|]. intros t Ht. exact (Hn t Ht).
  - pose proof Hc as (_ & _ & _ & _ & u & Hu & _ & He & Hs & _)%consumable_true.
    unfold update_key, db_apply, update_row. cbn [negb]. cbn [t_users with_token on_account_tokens].
    rewrite Hu, still_addressed_after by done. intros [= <- <-]. right. split; [done|]. by exists t, u.
Qed.
Lemma invitation_cases id uid h v b at_ db r db' :
  consume_account_token_and_set_user_password id uid h v b at_ db = (r, db') ->
  (r = Ok false /\ db' = db /\ (forall t, t_account_tokens db !! id = Some t ->
     account_token_consumable db uid Invitation is_none at_ t = false))
  \/ (r = Ok true /\ exists t u, t_account_tokens db !! id = Some t
      /\ account_token_consumable db uid Invitation is_none at_ t = true
      /\ t_users db !! uid = Some u
      /\ let db1 := with_user uid (user_set_password h (user_set_email_verified v at_) u)
                      (with_token id (account_token_spend at_ t) db) in
         db' = if b then on_auth_sessions (update_where
                 (fun r => N.eqb (session_user_id (row_session r)) uid) (session_revoke at_)) db1
               else db1).
Proof.
  unfold consume_account_token_and_set_user_password, transaction, db_bind.
  destruct (consume_for_user _ _ _ _ _ _ db) as [r1 db1] eqn:E1.
  apply consume_for_user_cases in E1 as [(-> & -> & Hn)|(-> & t & Ht & _ & Hc & ->)].
  - intros [= <- <-]. left. split_and!; [done..|]. intros t Ht. exact (Hn t Ht).
  - pose proof Hc as (_ & _ & _ & _ & u & Hu & _ & He & Hs & Hp)%consumable_true.
    unfold update_key, db_apply, update_row. cbn [negb]. cbn [t_users with_token on_account_tokens].
    rewrite Hu, still_addressed_after, Hp by done. simpl.
    destruct b; intros [= <- <-]; right; (split; [done|]); by exists t, u.
Qed.

(** *** Recovery and change *)

(** What both password transactions do to the user's credentials. *)
Definition with_live_revoked (o id : Uuid) (at_ : OffsetDateTime) (db : Database) : Database :=
  on_refresh_tokens (update_where (fun t => refresh_of_user o id t && is_none (refresh_revoked_at t))
      (refresh_revoke at_))
    (on_access_tokens (update_where (fun t => access_of_user o id t && is_none (access_revoked_at t))
        (access_revoke at_))
      (on_auth_sessions (update_where
          (fun r => session_of_user o id r && is_none (session_revoked_at (row_session r)))
          (session_revoke at_)) db)).
Lemma coalesce_is_some c at_ : is_none c = false -> coalesce c at_ = c.
Proof. by destruct c. Qed.
(** Restricting an update to the rows it changes makes no difference. *)
Lemma update_where_restrict {K V} `{Countable K} (P Q : V -> bool) f (m : gmap K V) :
  (forall v, Q v = false -> f v = v) ->
  update_where (fun v => P v && Q v) f m = update_where P f m.
Proof.
  intros Hf. apply map_eq. intros k. rewrite !lookup_update_where. destruct (m !! k) as [v|]; [|done].
  cbn. destruct (P v), (Q v) eqn:E; try done. cbn. by rewrite Hf.
Qed.
Lemma with_live_revoked_eq o id at_ db :
  with_live_revoked o id at_ db = with_user_revoked o id at_ db.
Proof.
  unfold with_live_revoked, with_user_revoked, on_refresh_tokens, on_access_tokens, on_auth_sessions.
  cbn. f_equal; apply update_where_restrict; intros v Hv.
  - destruct v as [[] ? ?]. cbn in *. unfold session_revoke, session_set_revoked_at. cbn.
    by rewrite coalesce_is_some.
  - destruct v. cbn in *. unfold access_revoke, access_set_revoked_at. cbn. by rewrite coalesce_is_some.
  - destruct v. cbn in *. unfold refresh_revoke, refresh_set_revoked_at. cbn. by rewrite coalesce_is_some.
Qed.

Lemma insert_optional_message_Ok m db u db' :
  insert_optional_message m db = (Ok u, db') ->
  db' = match m with Some m => on_email_outbox (<[email_id m := m]>) db | None => db end.
Proof.
  destruct m; simpl; intros H; [unfold insert_email_outbox_message in H; by db_steps|by db_steps].
Qed.
Lemma optional_message_tables m db :
  let db' := match m with Some m => on_email_outbox (<[email_id m := m]>) db | None => db end in
  t_users db' = t_users db /\ t_auth_sessions db' = t_auth_sessions db
  /\ t_access_tokens db' = t_access_tokens db /\ t_refresh_tokens db' = t_refresh_tokens db
  /\ t_account_tokens db' = t_account_tokens db /\ t_authorization_codes db' = t_authorization_codes db
  /\ (forall m', m = Some m' -> t_email_outbox db' = <[email_id m' := m']> (t_email_outbox db)).
Proof. destruct m; split_and!; try done. by intros m' [= <-]. Qed.

(** The database after a recovery of [u]'s password with the token [t]. *)
Definition recovered (i : PasswordRecoveryInput) (t : AccountToken) (u : UserWithPassword)
    (db : Database) : Database :=
  let o := recovery_organization_id i in
  let uid := recovery_user_id i in
  let at_ := recovery_at i in
  with_live_revoked o uid at_
    (on_account_tokens (update_where
        (fun t => recovery_token_live o uid at_ t && negb (N.eqb (account_token_id t) (recovery_token_id i)))
        (account_token_spend at_))
      (with_user uid (user_set_password (recovery_password_hash i) (user_set_email_verified true at_) u)
        (with_token (recovery_token_id i) (account_token_spend at_ t) db))).

Definition recoverable (i : PasswordRecoveryInput) (t : AccountToken) (u : UserWithPassword)
    (db : Database) : Prop :=
  t_account_tokens db !! recovery_token_id i = Some t /\ t_users db !! recovery_user_id i = Some u
  /\ account_token_organization_id t = recovery_organization_id i
  /\ account_token_user_id t = Some (recovery_user_id i)
  /\ account_token_kind t = PasswordRecovery
  /\ account_token_consumed_at t = None /\ (recovery_at i < account_token_expires_at t)%Z
  /\ user_organization_id (uwp_user u) = recovery_organization_id i
  /\ user_email (uwp_user u) = account_token_email t
  /\ user_status (uwp_user u) = UserStatus_Active /\ is_Some (uwp_password_hash u).

Lemma recovery_cases i db r db' :
  consume_password_recovery_token_and_reset_user_password i db = (r, db') ->
  (r = Ok None /\ db' = db /\ forall t u, ~ recoverable i t u db)
  \/ exists t u, recoverable i t u db
     /\ ((exists e, r = Err e) /\ db' = db
         \/ exists m, r = Ok (Some m)
            /\ insert_optional_message (recovery_notification i) (recovered i t u db) = (Ok tt, db')).
Proof.
  unfold consume_password_recovery_token_and_reset_user_password. intros H.
  unfold transaction in H. unfold db_bind at 1 in H.
  destruct (consume_for_user _ _ _ _ _ _ db) as [r1 db1] eqn:E1.
  apply consume_for_user_cases in E1 as [(-> & -> & Hn)|(-> & t & Ht & Ho & Hc & ->)]; cbn [negb] in H.
  - injection H as <- <-. left. split_and!; [done..|]. intros t u (Ht & Hu & Hr). specialize (Hn _ Ht).
    apply not_true_iff_false in Hn. apply Hn. apply andb_true_iff. split; [apply N.eqb_eq; tauto|].
    apply consumable_true. destruct_and! Hr. split_and!; try done. exists u. split_and!; try done; [congruence|].
    by apply is_some_true.
  - apply N.eqb_eq in Ho. pose proof Hc as (Htu & Hk & Hnc & Hex & u & Hu & Huo & He & Hs & Hp)%consumable_true.
    right. exists t, u. split.
    { split_and!; try done; [congruence|]. by apply is_some_true. }
    unfold db_bind at 1, update_key at 1, db_apply at 1, update_row at 1 in H.
    cbn [t_users with_token on_account_tokens] in H. rewrite Hu, still_addressed_after, Hp in H by done.
    unfold user_in in H. rewrite (proj2 (N.eqb_eq _ _) (eq_trans Huo Ho)) in H. cbn [negb andb] in H.
    match type of H with (match ?b ?d with _ => _ end) = _ =>
      destruct (b d) as [[[x|x]|e] db2] eqn:Eb end.
    + injection H as <- <-. right. db_steps. eexists. split; [done|].
      unfold revoke_live_sessions, revoke_live_access_tokens, revoke_live_refresh_tokens in *.
      db_steps. match goal with H : insert_optional_message _ _ = (Ok ?a, _) |- _ => by destruct a end.
    + db_steps.
    + injection H as <- <-. left. eauto.
Qed.

(** Tokens are stored under their primary keys. *)
Definition account_tokens_keyed (db : Database) : Prop :=
  forall k t, t_account_tokens db !! k = Some t -> account_token_id t = k.
Definition no_live_recovery_token (o id : Uuid) (at_ : OffsetDateTime) (db : Database) : Prop :=
  forall k t, t_account_tokens db !! k = Some t -> recovery_token_live o id at_ t = false.

Lemma spent_not_live o id at_ t :
  is_Some (account_token_consumed_at t) -> recovery_token_live o id at_ t = false.
Proof.
  intros Hs. unfold recovery_token_live. rewrite account_token_spent_dead by done. apply andb_false_r.
Qed.
Lemma recovery_dead i db m db' :
  consume_password_recovery_token_and_reset_user_password i db = (Ok (Some m), db') ->
  user_credentials_dead (recovery_organization_id i) (recovery_user_id i) db'.
Proof.
  intros [([=] & _)|(t & u & Hr & Hres)]%recovery_cases.
  destruct Hres as [[[e [=]] _]|(m' & _ & Hm)]. apply insert_optional_message_Ok in Hm.
  destruct (optional_message_tables (recovery_notification i) (recovered i t u db))
    as (_ & Es & Ea & Er & _). rewrite <- Hm in Es, Ea, Er.
  unfold user_credentials_dead. rewrite Es, Ea, Er. unfold recovered. rewrite with_live_revoked_eq.
  apply (with_user_revoked_dead _ _ (recovery_at i)).
Qed.
(** Password recovery takes effect as a whole or not at all.  It succeeds
    only with a live recovery token that was issued to this user of this
    organization and sent to the address the account still has, and only for
    an active account that already has a password; otherwise, and on every
    error, the database is unchanged.  On success the account has exactly the
    new password and a verified address, the token and every other recovery
    token of the user are spent, no session, access token or refresh token of
    the user is live, other users' credentials are untouched, and the
    notification is queued in the same transaction. *)
Theorem recover_password_spec i db r db' :
  account_tokens_keyed db ->
  consume_password_recovery_token_and_reset_user_password i db = (r, db') ->
  let o := recovery_organization_id i in
  let uid := recovery_user_id i in
  (forall e, r = Err e -> db' = db)
  /\ (r = Ok None -> db' = db /\ forall t u, ~ recoverable i t u db)
  /\ (forall m, r = Ok (Some m) -> exists t u, recoverable i t u db
      /\ t_users db' = <[uid := user_set_password (recovery_password_hash i)
                                  (user_set_email_verified true (recovery_at i)) u]> (t_users db)
      /\ t_account_tokens db' !! recovery_token_id i = Some (account_token_spend (recovery_at i) t)
      /\ no_live_recovery_token o uid (recovery_at i) db'
      /\ user_credentials_dead o uid db' /\ other_users_credentials_kept o uid db db'
      /\ (forall n, recovery_notification i = Some n -> t_email_outbox db' !! email_id n = Some n)).
Proof.
  intros Hkeyed H o uid. apply recovery_cases in H as [(-> & -> & Hn)|(t & u & Hr & Hres)].
  { split_and!; [done|done|by intros m [=]]. }
  destruct Hres as [[[e ->] ->]|(m & -> & Hm)]; [by split_and!|]. split_and!; [done..|].
  intros m' [= <-]. exists t, u. split; [done|].
  apply insert_optional_message_Ok in Hm. subst db'.
  destruct (optional_message_tables (recovery_notification i) (recovered i t u db))
    as (Eu & Es & Ea & Er & Et & _ & Eo).
  set (db' := match recovery_notification i with Some _ => _ | None => _ end) in *. clearbody db'.
  split_and!.
  - done.
  - rewrite Et. apply update_where_kept; [cbn; by rewrite lookup_insert_eq|].
    by rewrite spent_not_live by (simpl; eauto).
  - intros k t'. rewrite Et. unfold recovered. cbn. intros (t0 & Ht0 & ->)%lookup_update_where_Some.
    fold o uid. apply lookup_insert_Some in Ht0 as [[<- <-]|[Hne Ht0]].
    + rewrite (spent_not_live o uid (recovery_at i) (account_token_spend _ t)) by (simpl; eauto).
      apply spent_not_live. simpl. eauto.
    + destruct (recovery_token_live o uid (recovery_at i) t0) eqn:E; [|exact E].
      rewrite (Hkeyed _ _ Ht0), (proj2 (N.eqb_neq _ _)) by congruence.
      apply spent_not_live. simpl. eauto.
  - unfold user_credentials_dead. rewrite Es, Ea, Er. unfold recovered. rewrite with_live_revoked_eq.
    apply (with_user_revoked_dead _ _ (recovery_at i)).
  - unfold other_users_credentials_kept. rewrite Es, Ea, Er. unfold recovered.
    rewrite with_live_revoked_eq. exact (with_user_revoked_others o uid (recovery_at i) db).
  - intros n Hn. rewrite (Eo n Hn). by rewrite lookup_insert_eq.
Qed.

Definition changed_password (i : PasswordChangeInput) (u : UserWithPassword) (db : Database) : Database :=
  let o := change_organization_id i in
  let uid := change_user_id i in
  let at_ := change_at i in
  let s := change_new_session i in
  let c := change_request_context i in
  on_account_tokens (update_where (recovery_token_live o uid at_) (account_token_consume at_))
    (on_refresh_tokens (update_where (fun t => refresh_of_user o uid t && is_none (refresh_revoked_at t))
        (refresh_revoke at_))
      (on_access_tokens (update_where (fun t => access_of_user o uid t && is_none (access_revoked_at t))
          (access_revoke at_))
        (on_auth_sessions (<[session_id s := mk_SessionRow s (context_ip_address c) (context_user_agent c)]>)
          (on_auth_sessions (update_where
              (fun r => session_of_user o uid r && is_none (session_revoked_at (row_session r)))
              (session_revoke at_))
            (with_user uid (user_set_password (change_password_hash i) (user_set_updated_at at_) u) db))))).

Lemma password_change_cases i db m db' :
  change_user_password_and_rotate_session i db = (Ok m, db') ->
  (m = None /\ db' = db /\ forall u, t_users db !! change_user_id i = Some u ->
     user_organization_id (uwp_user u) <> change_organization_id i)
  \/ exists u m', m = Some m' /\ t_users db !! change_user_id i = Some u
     /\ user_organization_id (uwp_user u) = change_organization_id i
     /\ t_auth_sessions db !! session_id (change_new_session i) = None
     /\ insert_optional_message (change_notification i) (changed_password i u db) = (Ok tt, db').
Proof.
  unfold change_user_password_and_rotate_session. intros [H|(db1 & H & ->)]%transaction_Ok.
  - apply db_bind_Ok in H as (r0 & db1 & [-> Hu]%get_user_with_password_Ok & H).
    destruct r0 as [u|]; [|apply commit_Ok in H as [[= ->] ->]; by left]. destruct Hu as [Hu Ho].
    right. exists u. apply db_bind_Ok in H as (b & db1 & Hup & H).
    apply update_key_Ok in Hup as (rows & Hup & ->). unfold update_row, user_in in Hup.
    rewrite Hu, (proj2 (N.eqb_eq _ _) Ho) in Hup. injection Hup as <- <-.
    apply db_bind_Ok in H as (? & db1 & Hs & H). apply update_rows_Ok in Hs as [-> ->].
    apply db_bind_Ok in H as (? & db1 & (Ha & _ & ->)%insert_auth_session_Ok & H).
    apply db_bind_Ok in H as (? & db1 & Hs & H). apply update_rows_Ok in Hs as [-> ->].
    apply db_bind_Ok in H as (? & db1 & Hs & H). apply update_rows_Ok in Hs as [-> ->].
    apply db_bind_Ok in H as (? & db1 & Hs & H). apply update_rows_Ok in Hs as [-> ->].
    apply db_bind_Ok in H as (v & db1 & Hm & H). apply commit_Ok in H as [[= ->] ->].
    eexists. split_and!; [done..| |by destruct v].
    cbn in Ha. by apply update_where_None in Ha.
  - exfalso. apply db_bind_Ok in H as (r0 & db2 & _ & H). destruct r0; db_steps.
Qed.

(** Changing a password signs the user out everywhere else in the same
    transaction: on success the account has the new password, the new session
    is stored with its context and every other session of the user is
    revoked, as are all of the user's access and refresh tokens, no live
    recovery token of the user is left, and other users' credentials are
    untouched.  The answer is [NotFound] only for a user that is not the
    organization's, and then, as on every error, nothing changed. *)
Theorem change_password_spec i db r db' :
  change_user_password_and_rotate_session i db = (r, db') ->
  let o := change_organization_id i in
  let uid := change_user_id i in
  let s := change_new_session i in
  (forall e, r = Err e -> db' = db)
  /\ (r = Ok None -> db' = db /\ forall u, t_users db !! uid = Some u ->
        user_organization_id (uwp_user u) <> o)
  /\ (forall m, r = Ok (Some m) -> exists u, t_users db !! uid = Some u
      /\ t_users db' = <[uid := user_set_password (change_password_hash i)
                                  (user_set_updated_at (change_at i)) u]> (t_users db)
      /\ t_auth_sessions db' !! session_id s
         = Some (mk_SessionRow s (context_ip_address (change_request_context i))
                   (context_user_agent (change_request_context i)))
      /\ (forall k row, k <> session_id s -> t_auth_sessions db' !! k = Some row ->
            session_of_user o uid row = true -> is_Some (session_revoked_at (row_session row)))
      /\ (forall h t, t_access_tokens db' !! h = Some t -> access_of_user o uid t = true ->
            is_Some (access_revoked_at t))
      /\ (forall h t, t_refresh_tokens db' !! h = Some t -> refresh_of_user o uid t = true ->
            is_Some (refresh_revoked_at t))
      /\ no_live_recovery_token o uid (change_at i) db'
      /\ other_users_credentials_kept o uid db db').
Proof.
  intros H o uid s. split_and!.
  { intros e ->. by apply transaction_Err in H. }
  { intros ->. by apply password_change_cases in H as [(_ & -> & Hu)|(? & ? & [=] & _)]. }
  intros m ->. apply password_change_cases in H as [([=] & _)|(u & m' & _ & Hu & Ho & Hs & Hm)].
  exists u. split; [done|]. apply insert_optional_message_Ok in Hm. subst db'.
  destruct (optional_message_tables (change_notification i) (changed_password i u db))
    as (Eu & Es & Ea & Er & Et & _ & _).
  set (db' := match change_notification i with Some _ => _ | None => _ end) in *. clearbody db'.
  pose proof (with_user_revoked_dead o uid (change_at i) db) as (Hd1 & Hd2 & Hd3).
  rewrite <- with_live_revoked_eq in Hd1, Hd2, Hd3.
  pose proof (with_user_revoked_others o uid (change_at i) db) as (Hk1 & Hk2 & Hk3).
  rewrite <- with_live_revoked_eq in Hk1, Hk2, Hk3.
  unfold other_users_credentials_kept, no_live_recovery_token. rewrite Eu, Es, Ea, Er, Et.
  split_and!.
  - done.
  - cbn. by rewrite lookup_insert_eq.
  - intros k row Hne. cbn. rewrite lookup_insert_ne by done. intros Hk [? ?]%session_of_user_true.
    by apply (Hd1 k row).
  - intros h t Ht Hof. unfold access_of_user in Hof. bool_prop.
    apply (Hd2 h t); [exact Ht| |done]. by apply N.eqb_eq.
  - intros h t Ht Hof. unfold refresh_of_user in Hof. bool_prop.
    apply (Hd3 h t); [exact Ht| |done]. by apply N.eqb_eq.
  - intros k t (t0 & _ & ->)%lookup_update_where_Some. fold o uid.
    destruct (recovery_token_live o uid (change_at i) t0) eqn:E; [|done].
    apply spent_not_live. apply coalesce_some.
  - intros k row Hk Hof. cbn. rewrite lookup_insert_ne by congruence. by apply Hk1.
  - exact Hk2.
  - exact Hk3.
Qed.

(** An account token is spent once.  Whichever operation redeems it (on
    its own, verifying an address, accepting an invitation, recovering a
    password), success means the token existed, was neither consumed nor
    expired, and is consumed now; with a token that is missing, consumed or
    expired every one of these operations answers false; and an operation
    that does not succeed changes nothing. *)
Theorem account_token_single_use id at_ (op : DB bool) db r db' :
  token_redemption id at_ op -> op db = (r, db') ->
  (r = Ok true -> exists t, t_account_tokens db !! id = Some t
     /\ account_token_consumed_at t = None /\ (at_ < account_token_expires_at t)%Z
     /\ t_account_tokens db' !! id = Some (account_token_spend at_ t))
  /\ (r <> Ok true -> db' = db)
  /\ ((forall t, t_account_tokens db !! id = Some t -> account_token_live at_ t = false) ->
      r = Ok false).
Proof.
  intros Hop H.
  assert ((r <> Ok true /\ db' = db /\ ((forall t, t_account_tokens db !! id = Some t ->
      account_token_live at_ t = false) -> r = Ok false))
    \/ exists t, r = Ok true /\ t_account_tokens db !! id = Some t
       /\ account_token_live at_ t = true
       /\ t_account_tokens db' !! id = Some (account_token_spend at_ t)) as Hcases.
  { destruct Hop.
    - unfold consume_account_token, update_key, db_apply, update_row in H.
      destruct (t_account_tokens db !! id) as [t|] eqn:Et; [destruct (account_token_live at_ t) eqn:El|];
        injection H as <- <-.
      + right. exists t. split_and!; [done..|]. cbn. by rewrite lookup_insert_eq.
      + left. split_and!; [done|by destruct db|done].
      + left. split_and!; [done|by destruct db|done].
    - apply verification_cases in H as [(-> & -> & _)|(-> & t & u & Ht & Hc & _ & ->)]; [by left|].
      right. exists t. apply consumable_true in Hc. split_and!; [done..| |].
      + apply account_token_live_true. tauto.
      + cbn. by rewrite lookup_insert_eq.
    - apply invitation_cases in H as [(-> & -> & _)|(-> & t & u & Ht & Hc & _ & ->)]; [by left|].
      right. exists t. apply consumable_true in Hc. split_and!; [done..| |].
      + apply account_token_live_true. tauto.
      + destruct b; cbn; by rewrite lookup_insert_eq.
    - subst. unfold db_bind in H.
      destruct (consume_password_recovery_token_and_reset_user_password i db) as [r1 db1] eqn:E.
      apply recovery_cases in E as [(-> & -> & _)|(t & u & Hr & [[[e ->] ->]|(m & -> & Hm)])].
      + injection H as <- <-. by left.
      + injection H as <- <-. left. split_and!; [done..|]. intros Hn.
        destruct Hr as (Ht & _ & _ & _ & _ & Hnc & Hex & _). specialize (Hn _ Ht).
        apply not_true_iff_false in Hn. rewrite account_token_live_true in Hn. tauto.
      + injection H as <- <-. right. exists t. destruct Hr as (Ht & _ & _ & _ & _ & Hnc & Hex & _).
        split_and!; [done..|by apply account_token_live_true|].
        apply insert_optional_message_Ok in Hm. subst db1.
        destruct (optional_message_tables (recovery_notification i) (recovered i t u db))
          as (_ & _ & _ & _ & Et & _). rewrite Et. apply update_where_kept; [cbn; by rewrite lookup_insert_eq|].
        by rewrite spent_not_live by (simpl; eauto). }
  destruct Hcases as [(Hne & -> & Hn)|(t & -> & Ht & Hl & Ht')].
  - by split_and!.
  - split_and!.
    + intros _. exists t. apply account_token_live_true in Hl. tauto.
    + done.
    + intros Hn. specialize (Hn _ Ht). congruence.
Qed.
