(* ===== verification/AuditStore.v ===== *)
(** * The audit log

    [crates/audit]'s event builder and the redaction of metadata, and
    [crates/database]'s audit.rs: insertion, the filtered pages, the events of
    one user and the purge. *)

From S2P Require Import Prelude RustStr Domain Codec Store SessionStore Directory.
From Stdlib Require Import Ascii.

(** ** Redaction *)

(** The loop over the characters; every byte of a character outside ASCII is
    a separator too, and a run of separators gives one underscore. *)
Fixpoint normalize_loop (previous_was_separator : bool) (key : string) : string :=
  match key with
  | EmptyString => EmptyString
  | String c key =>
      if is_ascii_alphanumeric c then String (lower_byte c) (normalize_loop false key)
      else if previous_was_separator then normalize_loop true key
      else String "_" (normalize_loop true key)
  end.
(* crates/audit/src/redaction.rs:96-111 normalize_metadata_key *)
Definition normalize_metadata_key (key : string) : string :=
  trim_end_matches "_" (trim_start_matches "_" (normalize_loop false key)).

(** [str::replace('_', ...)] with nothing. *)
Definition without_underscores (s : string) : string :=
  flat_map_bytes (fun c => if Ascii.eqb c "_" then EmptyString else String c EmptyString) s.
Definition sensitive_names : list string :=
  ["password"; "secret"; "client_secret"; "token"; "access_token"; "refresh_token"; "id_token";
   "authorization_code"; "code"; "code_verifier"; "mfa_code"; "totp_code"; "otp_code";
   "recovery_code"; "recovery_codes"; "csrf_token"; "private_key"; "private_key_pem";
   "signing_private_key"; "signing_private_key_pem"; "key_encryption_key"; "kek"; "preview_url";
   "action_url"; "magic_link"; "verification_link"; "recovery_link"; "invitation_link";
   "client_data_json"; "attestation_object"; "authenticator_data"; "signature"].
Definition sensitive_compact_names : list string :=
  ["idtoken"; "authorizationcode"; "codeverifier"; "mfacode"; "totpcode"; "otpcode";
   "recoverycode"; "recoverycodes"; "csrftoken"; "privatekey"; "privatekeypem";
   "signingprivatekey"; "signingprivatekeypem"; "keyencryptionkey"; "previewurl"; "actionurl";
   "magiclink"; "verificationlink"; "recoverylink"; "invitationlink"; "clientdatajson";
   "attestationobject"; "authenticatordata"].
(* crates/audit/src/redaction.rs:23-94 is_sensitive_metadata_key *)
Definition is_sensitive_metadata_key (key : string) : bool :=
  let normalized := normalize_metadata_key key in
  let compact := without_underscores normalized in
  contains sensitive_names normalized
  || contains sensitive_compact_names compact
  || ends_with "_password" normalized
  || ends_with "_secret" normalized
  || ends_with "_token" normalized
  || ends_with "_private_key" normalized
  || ends_with "_private_key_pem" normalized
  || str_contains "keyencryptionkey" compact
  || str_contains "recovery_code" normalized
  || str_contains "recoverycode" compact.

(* crates/audit/src/redaction.rs:3-21 redact_sensitive_metadata *)
Fixpoint redact_sensitive_metadata (value : Value) : Value :=
  match value with
  | Object map =>
      Object (List.map (fun '(key, value) =>
        if is_sensitive_metadata_key key then (key, String_ "[redacted]")
        else (key, redact_sensitive_metadata value)) map)
  | Array values => Array (List.map redact_sensitive_metadata values)
  | other => other
  end.

(** ** Events *)

(** A builder is the event it has so far: [id] and [created_at] are drawn by
    [build]. *)
(* crates/audit/src/builder.rs:9-18 AuditEventBuilder *)
Record AuditEventBuilder := mk_AuditEventBuilder {
  builder_organization_id : Uuid;
  builder_actor_kind : AuditActorKind;
  builder_actor_id : option Uuid;
  builder_action : string;
  builder_target : string;
  builder_ip_address : option string;
  builder_user_agent : option string;
  builder_metadata : Value;
}.
(* crates/audit/src/builder.rs:21-36 AuditEventBuilder::system *)
Definition audit_system (organization_id : Uuid) (action target : string) : AuditEventBuilder :=
  mk_AuditEventBuilder organization_id ActorKind_System None action target None None (Object []).
(* crates/audit/src/builder.rs:38-54 AuditEventBuilder::user *)
Definition audit_user (organization_id actor_id : Uuid) (action target : string)
    : AuditEventBuilder :=
  mk_AuditEventBuilder organization_id ActorKind_User (Some actor_id) action target None None
    (Object []).
(* crates/audit/src/builder.rs:56-72 AuditEventBuilder::client *)
Definition audit_client (organization_id actor_id : Uuid) (action target : string)
    : AuditEventBuilder :=
  mk_AuditEventBuilder organization_id ActorKind_Client (Some actor_id) action target None None
    (Object []).
(* crates/audit/src/builder.rs:74-82 AuditEventBuilder::request_context *)
Definition audit_request_context (ip_address user_agent : option string) (b : AuditEventBuilder)
    : AuditEventBuilder :=
  mk_AuditEventBuilder (builder_organization_id b) (builder_actor_kind b) (builder_actor_id b)
    (builder_action b) (builder_target b) ip_address user_agent (builder_metadata b).
(* crates/audit/src/builder.rs:84-87 AuditEventBuilder::metadata *)
Definition audit_with_metadata (metadata : Value) (b : AuditEventBuilder) : AuditEventBuilder :=
  mk_AuditEventBuilder (builder_organization_id b) (builder_actor_kind b) (builder_actor_id b)
    (builder_action b) (builder_target b) (builder_ip_address b) (builder_user_agent b)
    (redact_sensitive_metadata metadata).
(* crates/audit/src/builder.rs:89-102 AuditEventBuilder::build *)
Definition audit_build (id : Uuid) (now : OffsetDateTime) (b : AuditEventBuilder) : AuditEvent :=
  mk_AuditEvent id (builder_organization_id b) (builder_actor_kind b) (builder_actor_id b)
    (builder_action b) (builder_target b) (builder_ip_address b) (builder_user_agent b)
    (builder_metadata b) now.

(** ** The table *)

(* crates/database/src/audit.rs:10-33 insert_audit_event *)
Definition insert_audit_event (event : AuditEvent) : DB unit :=
  let! _ := db_check (fun db => absent (t_audit_events db) (audit_id event)) UniqueViolation in
  let! _ := db_check (fun db => fk_organization db (audit_organization_id event))
              ForeignKeyViolation in
  db_modify (on_audit_events (<[audit_id event := event]>)).

(* crates/database/src/types/filters.rs:54-61 AuditEventListFilter *)
Record AuditEventListFilter := mk_AuditEventListFilter {
  filter_action_prefix : option string;
  filter_target_prefix : option string;
  filter_actor_kind : option AuditActorKind;
  filter_actor_id : option Uuid;
  filter_created_from : option OffsetDateTime;
  filter_created_to : option OffsetDateTime;
}.
Definition default_audit_filter : AuditEventListFilter :=
  mk_AuditEventListFilter None None None None None None.
(** A parameter that is [NULL] filters nothing. *)
Definition filtered {A} (o : option A) (p : A -> bool) : bool :=
  match o with Some a => p a | None => true end.

Section listings.
(** [lower(column) LIKE pattern], PostgreSQL's. *)
Context (like : string -> string -> bool).

Definition audit_matches (filter : AuditEventListFilter) (e : AuditEvent) : bool :=
  filtered (prefix_search_pattern (filter_action_prefix filter)) (like (audit_action e))
  && filtered (prefix_search_pattern (filter_target_prefix filter)) (like (audit_target e))
  && filtered (filter_actor_kind filter) (fun k => bool_decide (audit_actor_kind e = k))
  && filtered (filter_actor_id filter) (fun id => bool_decide (audit_actor_id e = Some id))
  && filtered (filter_created_from filter) (fun t => (t <=? audit_created_at e)%Z)
  && filtered (filter_created_to filter) (fun t => (audit_created_at e <? t)%Z).
(* crates/database/src/audit.rs:59-106 list_audit_events_page_filtered *)
Definition list_audit_events_page_filtered (organization_id : Uuid)
    (filter : AuditEventListFilter) (after : option ListCursor) (limit : nat)
    : DB (list AuditEvent) :=
  db_gets (fun db =>
    take limit (order_by (created_desc audit_created_at audit_id)
      (select_where (fun e =>
         N.eqb (audit_organization_id e) organization_id
         && after_cursor audit_created_at audit_id after e && audit_matches filter e)
         (t_audit_events db)))).
(* crates/database/src/audit.rs:44-57 list_audit_events_page *)
Definition list_audit_events_page (organization_id : Uuid) (after : option ListCursor)
    (limit : nat) : DB (list AuditEvent) :=
  list_audit_events_page_filtered organization_id default_audit_filter after limit.
(* crates/database/src/audit.rs:35-42 list_audit_events *)
Definition list_audit_events (organization_id : Uuid) (limit : nat) : DB (list AuditEvent) :=
  list_audit_events_page organization_id None limit.
End listings.

(** The [n] oldest events. *)
Definition created_asc (a b : AuditEvent) : bool :=
  (audit_created_at a <? audit_created_at b)%Z
  || ((audit_created_at a =? audit_created_at b)%Z && (audit_id a <=? audit_id b)%N).
Definition expired_events (organization_id : Uuid) (before : OffsetDateTime) (limit : nat)
    (db : Database) : list AuditEvent :=
  take limit (order_by created_asc (select_where (fun e =>
    N.eqb (audit_organization_id e) organization_id && (audit_created_at e <? before)%Z)
    (t_audit_events db))).
(* crates/database/src/audit.rs:151-182 delete_audit_events_before *)
Definition delete_audit_events_before (organization_id : Uuid) (before : OffsetDateTime)
    (limit : Z) : DB nat :=
  if (limit <=? 0)%Z then db_ret 0
  else db_apply (fun db =>
    let ids := audit_id <$> expired_events organization_id before (Z.to_nat limit) db in
    let expired (e : AuditEvent) := contains ids (audit_id e) in
    (count_where expired (t_audit_events db), on_audit_events (delete_where expired) db)).

Definition is_event_of_user (user_id : Uuid) (user_id_text : string) (e : AuditEvent) : bool :=
  bool_decide (audit_target e = user_id_text)
  || (bool_decide (audit_actor_kind e = ActorKind_User)
      && bool_decide (audit_actor_id e = Some user_id))
  || bool_decide (json_text (audit_metadata e) "subject_user_id" = Some user_id_text)
  || bool_decide (json_text (audit_metadata e) "user_id" = Some user_id_text).
(** [uuid_text] is [Uuid::to_string]. *)
(* crates/database/src/audit.rs:108-149 list_user_security_events_page *)
Definition list_user_security_events_page (uuid_text : Uuid -> string)
    (organization_id user_id : Uuid) (after : option ListCursor) (limit : nat)
    : DB (list AuditEvent) :=
  db_gets (fun db =>
    take limit (order_by (created_desc audit_created_at audit_id)
      (select_where (fun e =>
         N.eqb (audit_organization_id e) organization_id
         && after_cursor audit_created_at audit_id after e
         && is_event_of_user user_id (uuid_text user_id) e) (t_audit_events db)))).
