(* ===== verification/MfaStore.v ===== *)
(** * Second factors in the database

    [crates/database]'s mfa: the credentials of a user (TOTP secrets, passkeys
    and recovery codes, with their state in a JSON column) and the pending
    WebAuthn challenges. *)

From S2P Require Import Prelude RustStr Domain Codec Store.

(** ** Columns *)

Definition mfa_set_last_used (at_ : OffsetDateTime) (c : MfaCredential) : MfaCredential :=
  mk_MfaCredential (mfa_id c) (mfa_organization_id c) (mfa_user_id c) (mfa_kind c) (mfa_label c)
    (mfa_secret_metadata c) (mfa_created_at c) (Some at_).
Definition mfa_set_metadata (metadata : Value) (last_used_at : option OffsetDateTime)
    (c : MfaCredential) : MfaCredential :=
  mk_MfaCredential (mfa_id c) (mfa_organization_id c) (mfa_user_id c) (mfa_kind c) (mfa_label c)
    metadata (mfa_created_at c) last_used_at.
Definition challenge_consume (at_ : OffsetDateTime) (c : WebAuthnChallenge) : WebAuthnChallenge :=
  mk_WebAuthnChallenge (challenge_id c) (challenge_organization_id c) (challenge_user_id c)
    (challenge_kind c) (challenge_state c) (challenge_created_at c) (challenge_expires_at c)
    (Some at_).

(** On an object, [jsonb_set(metadata, '{status}', status, true)] as well. *)
(* crates/database/src/mfa/metadata.rs:3-11 metadata_with_status *)
Definition metadata_with_status (metadata : Value) (status : string) : Value :=
  match metadata with
  | Object entries => Object (object_insert "status" (String_ status) entries)
  | _ => Object [("status", String_ status)]
  end.

(** ** Constraints *)

Definition mfa_fk (db : Database) (c : MfaCredential) : bool :=
  fk_organization db (mfa_organization_id c) && fk_user db (mfa_user_id c) (mfa_organization_id c).
(** The entry of a row in the partial unique index of infra/migrations'
    0007_webauthn_challenges.sql. *)
Definition active_credential_id (c : MfaCredential) : option (Uuid * string) :=
  if bool_decide (mfa_kind c = MfaKind_WebAuthn)
     && bool_decide (json_text (mfa_secret_metadata c) "status" = Some "active")
  then (fun id => (mfa_organization_id c, id)) <$> json_text (mfa_secret_metadata c) "credential_id"
  else None.
Definition credential_id_free (db : Database) (c : MfaCredential) : bool :=
  match active_credential_id c with
  | None => true
  | Some entry =>
      is_none (find_row (fun row => negb (N.eqb (mfa_id row) (mfa_id c))
                           && bool_decide (active_credential_id row = Some entry))
                 (t_mfa_credentials db))
  end.

(** ** Credentials *)

(* crates/database/src/mfa/credentials.rs:10-33 create_mfa_credential *)
Definition create_mfa_credential (credential : MfaCredential) : DB unit :=
  let! _ := db_check (fun db => absent (t_mfa_credentials db) (mfa_id credential)) UniqueViolation in
  let! _ := db_check (fun db => credential_id_free db credential) UniqueViolation in
  let! _ := db_check (fun db => mfa_fk db credential) ForeignKeyViolation in
  db_modify (on_mfa_credentials (<[mfa_id credential := credential]>)).

Definition mfa_of_user (organization_id user_id : Uuid) (c : MfaCredential) : bool :=
  N.eqb (mfa_organization_id c) organization_id && N.eqb (mfa_user_id c) user_id.
Definition mfa_newest_first (a b : MfaCredential) : bool := (mfa_created_at b <=? mfa_created_at a)%Z.
(* crates/database/src/mfa/credentials.rs:35-58 list_mfa_credentials *)
Definition list_mfa_credentials (organization_id user_id : Uuid) (kind : MfaKind)
    : DB (list MfaCredential) :=
  db_gets (fun db => order_by mfa_newest_first
    (select_where (fun c => mfa_of_user organization_id user_id c && bool_decide (mfa_kind c = kind))
       (t_mfa_credentials db))).

(* crates/database/src/mfa/credentials.rs:60-71 mark_mfa_credential_used *)
Definition mark_mfa_credential_used (id : Uuid) (at_ : OffsetDateTime) : DB unit :=
  let! _ := update_key t_mfa_credentials on_mfa_credentials id (fun _ => true)
              (mfa_set_last_used at_) in
  db_ret tt.

(* crates/database/src/mfa/credentials.rs:73-92 update_mfa_credential_metadata *)
Definition update_mfa_credential_metadata (id : Uuid) (secret_metadata : Value)
    (last_used_at : option OffsetDateTime) : DB unit :=
  let! _ := db_check (fun db =>
    match t_mfa_credentials db !! id with
    | Some c => credential_id_free db (mfa_set_metadata secret_metadata last_used_at c)
    | None => true
    end) UniqueViolation in
  let! _ := update_key t_mfa_credentials on_mfa_credentials id (fun _ => true)
              (mfa_set_metadata secret_metadata last_used_at) in
  db_ret tt.

Definition mfa_status_is (status : string) (c : MfaCredential) : bool :=
  bool_decide (json_text (mfa_secret_metadata c) "status" = Some status).
Definition mfa_close (status : string) (at_ : OffsetDateTime) (c : MfaCredential) : MfaCredential :=
  mfa_set_metadata (metadata_with_status (mfa_secret_metadata c) status) (Some at_) c.
Definition active_recovery_code (organization_id user_id : Uuid) (code_hash : string)
    (c : MfaCredential) : bool :=
  mfa_of_user organization_id user_id c && bool_decide (mfa_kind c = MfaKind_RecoveryCode)
  && mfa_status_is "active" c
  && bool_decide (json_text (mfa_secret_metadata c) "code_hash" = Some code_hash).
(* crates/database/src/mfa/credentials.rs:94-122 consume_active_recovery_code *)
Definition consume_active_recovery_code (organization_id user_id : Uuid) (code_hash : string)
    (at_ : OffsetDateTime) : DB bool :=
  let! n := update_rows t_mfa_credentials on_mfa_credentials
              (active_recovery_code organization_id user_id code_hash)
              (mfa_close "consumed" at_) in
  db_ret (0 <? n)%nat.

Definition revocable (organization_id user_id : Uuid) (c : MfaCredential) : bool :=
  mfa_of_user organization_id user_id c
  && (bool_decide (mfa_kind c = MfaKind_Totp) || bool_decide (mfa_kind c = MfaKind_WebAuthn)).
(* crates/database/src/mfa/credentials.rs:124-173 revoke_mfa_credential *)
Definition revoke_mfa_credential (organization_id user_id credential_id : Uuid)
    (at_ : OffsetDateTime) : DB (option MfaCredential) :=
  transaction (
    let! row := db_gets (fun db =>
      match t_mfa_credentials db !! credential_id with
      | Some c => if revocable organization_id user_id c then Some c else None
      | None => None
      end) in
    match row with
    | None => commit None
    | Some row =>
        let credential := mfa_close "revoked" at_ row in
        let! _ := update_key t_mfa_credentials on_mfa_credentials (mfa_id credential)
                    (fun _ => true)
                    (mfa_set_metadata (mfa_secret_metadata credential)
                       (mfa_last_used_at credential)) in
        commit (Some credential)
    end).

(* crates/database/src/mfa/credentials.rs:175-201 revoke_active_mfa_credentials_by_kind *)
Definition revoke_active_mfa_credentials_by_kind (organization_id user_id : Uuid) (kind : MfaKind)
    (at_ : OffsetDateTime) : DB nat :=
  update_rows t_mfa_credentials on_mfa_credentials
    (fun c => mfa_of_user organization_id user_id c && bool_decide (mfa_kind c = kind)
              && mfa_status_is "active" c)
    (mfa_close "revoked" at_).

(* crates/database/src/mfa/credentials.rs:203-225 find_active_webauthn_credential_by_credential_id *)
Definition find_active_webauthn_credential_by_credential_id (organization_id : Uuid)
    (credential_id : string) : DB (option MfaCredential) :=
  db_gets (fun db => find_row (fun c =>
    N.eqb (mfa_organization_id c) organization_id && bool_decide (mfa_kind c = MfaKind_WebAuthn)
    && mfa_status_is "active" c
    && bool_decide (json_text (mfa_secret_metadata c) "credential_id" = Some credential_id))
    (t_mfa_credentials db)).

(** ** Challenges *)

(* crates/database/src/mfa/webauthn_challenges.rs:10-33 insert_webauthn_challenge *)
Definition insert_webauthn_challenge (challenge : WebAuthnChallenge) : DB unit :=
  let! _ := db_check (fun db => absent (t_webauthn_challenges db) (challenge_id challenge))
              UniqueViolation in
  let! _ := db_check (fun db => fk_user db (challenge_user_id challenge)
                                  (challenge_organization_id challenge)) ForeignKeyViolation in
  db_modify (on_webauthn_challenges (<[challenge_id challenge := challenge]>)).

Definition challenge_pending (organization_id user_id : Uuid) (kind : WebAuthnChallengeKind)
    (at_ : OffsetDateTime) (c : WebAuthnChallenge) : bool :=
  N.eqb (challenge_organization_id c) organization_id && N.eqb (challenge_user_id c) user_id
  && bool_decide (challenge_kind c = kind) && is_none (challenge_consumed_at c)
  && (at_ <? challenge_expires_at c)%Z.
(** The challenge is returned as it was read. *)
(* crates/database/src/mfa/webauthn_challenges.rs:35-78 consume_webauthn_challenge *)
Definition consume_webauthn_challenge (id organization_id user_id : Uuid)
    (kind : WebAuthnChallengeKind) (at_ : OffsetDateTime) : DB (option WebAuthnChallenge) :=
  transaction (
    let! row := db_gets (fun db =>
      match t_webauthn_challenges db !! id with
      | Some c => if challenge_pending organization_id user_id kind at_ c then Some c else None
      | None => None
      end) in
    match row with
    | None => commit None
    | Some row =>
        let! _ := update_key t_webauthn_challenges on_webauthn_challenges id (fun _ => true)
                    (challenge_consume at_) in
        commit (Some row)
    end).

(** ** Properties *)

(** Closing a credential takes it out of its state for good: the status of
    its metadata is the new one and the rest of the metadata stays. *)
Lemma json_text_with_status metadata status key :
  json_text (metadata_with_status metadata status) key
  = if bool_decide (key = "status") then Some status
    else match metadata with Object _ => json_text metadata key | _ => None end.
Proof.
  unfold metadata_with_status, json_text. destruct metadata; rewrite ?value_get_insert;
    try by destruct (decide (key = "status")) as [->|Hne];
      [by rewrite !bool_decide_true|rewrite !bool_decide_false by done;
       cbn; rewrite bool_decide_false by congruence].
  destruct (decide (key = "status")) as [->|Hne]; [by rewrite !bool_decide_true|].
  by rewrite !bool_decide_false.
Qed.
Lemma mfa_close_status s status at_ c : mfa_status_is s (mfa_close status at_ c) = bool_decide (status = s).
Proof.
  unfold mfa_status_is, mfa_close. cbn [mfa_set_metadata mfa_secret_metadata].
  rewrite json_text_with_status, (bool_decide_true (_ = _ :> string)) by done.
  apply bool_decide_ext. split; [by intros [= ->]|by intros ->].
Qed.
Lemma closed_not_active status at_ c : status <> "active" -> mfa_status_is "active" (mfa_close status at_ c) = false.
Proof. intros H. rewrite mfa_close_status. by apply bool_decide_eq_false. Qed.

(** A recovery code of a user that still works. *)
Definition recovery_code_live (o u : Uuid) (h : string) (c : MfaCredential) : Prop :=
  mfa_organization_id c = o /\ mfa_user_id c = u /\ mfa_kind c = MfaKind_RecoveryCode
  /\ json_text (mfa_secret_metadata c) "status" = Some "active"
  /\ json_text (mfa_secret_metadata c) "code_hash" = Some h.
Lemma active_recovery_code_true o u h c :
  active_recovery_code o u h c = true <-> recovery_code_live o u h c.
Proof.
  unfold active_recovery_code, mfa_of_user, mfa_status_is, recovery_code_live.
  rewrite !andb_true_iff, !N.eqb_eq, !bool_decide_eq_true. tauto.
Qed.

Lemma on_mfa_credentials_id db : on_mfa_credentials (fun _ => t_mfa_credentials db) db = db.
Proof. by destruct db. Qed.
Lemma update_where_unused {K V} `{Countable K} (P : V -> bool) f (m : gmap K V) :
  count_where P m = 0 -> update_where P f m = m.
Proof.
  rewrite count_where_zero. intros H0. apply map_eq. intros k. rewrite lookup_update_where.
  destruct (m !! k) as [v|] eqn:E; [|done]. cbn. by rewrite (H0 _ _ E).
Qed.

Lemma consume_recovery_run o u h at_ db used db' :
  consume_active_recovery_code o u h at_ db = (Ok used, db') <->
  used = (0 <? count_where (active_recovery_code o u h) (t_mfa_credentials db))%nat
  /\ db' = on_mfa_credentials
             (update_where (active_recovery_code o u h) (mfa_close "consumed" at_)) db.
Proof.
  unfold consume_active_recovery_code, update_rows, db_apply, db_bind, db_ret. split.
  - intros [= <- <-]. done.
  - by intros [-> ->].
Qed.
Lemma consumed_codes_dead o u h at_ (m : gmap N MfaCredential) k c :
  update_where (active_recovery_code o u h) (mfa_close "consumed" at_) m !! k = Some c ->
  ~ recovery_code_live o u h c.
Proof.
  rewrite lookup_update_where_Some, <- active_recovery_code_true. intros (c0 & _ & ->) Hl.
  destruct (active_recovery_code o u h c0) eqn:E; [|congruence].
  apply active_recovery_code_true in Hl as (_ & _ & _ & Hs & _).
  pose proof (closed_not_active "consumed" at_ c0 ltac:(done)) as Hn. unfold mfa_status_is in Hn.
  by rewrite bool_decide_eq_false in Hn.
Qed.

(** A recovery code works once.  Consuming the hash of a code answers [true]
    exactly when the user has an active recovery code with that hash; it marks
    the matching codes consumed, leaving their hash and everything else of the
    database as it was, so no live code with that hash is left and consuming
    it again, at whatever time, answers [false]; without a matching code
    nothing changes. *)
Theorem recovery_code_single_use o u h at_ db used db' :
  consume_active_recovery_code o u h at_ db = (Ok used, db') ->
  (used = true <-> exists k c, t_mfa_credentials db !! k = Some c /\ recovery_code_live o u h c)
  /\ (used = false -> db' = db)
  /\ (forall k c, t_mfa_credentials db' !! k = Some c -> ~ recovery_code_live o u h c)
  /\ (forall k c, t_mfa_credentials db !! k = Some c ->
        exists c', t_mfa_credentials db' !! k = Some c'
          /\ json_text (mfa_secret_metadata c') "code_hash" = json_text (mfa_secret_metadata c) "code_hash"
          /\ (~ recovery_code_live o u h c -> c' = c))
  /\ db' = on_mfa_credentials (fun _ => t_mfa_credentials db') db
  /\ (forall later, (consume_active_recovery_code o u h later db').1 = Ok false).
Proof.
  intros [-> ->]%consume_recovery_run.
  assert (Hdead := consumed_codes_dead o u h at_ (t_mfa_credentials db)). split_and!.
  - rewrite Nat.ltb_lt, count_where_pos. by setoid_rewrite active_recovery_code_true.
  - rewrite Nat.ltb_ge. intros H. assert (count_where (active_recovery_code o u h) (t_mfa_credentials db) = 0) as H0 by lia.
    unfold on_mfa_credentials. rewrite (update_where_unused _ _ _ H0). apply on_mfa_credentials_id.
  - exact Hdead.
  - intros k c Hc. cbn. eexists. rewrite lookup_update_where, Hc. cbn. split; [done|].
    destruct (active_recovery_code o u h c) eqn:E.
    + apply active_recovery_code_true in E. split; [|done].
      unfold mfa_close, mfa_set_metadata. cbn [mfa_secret_metadata]. rewrite json_text_with_status. simpl.
      destruct E as (_ & _ & _ & Hs & _). by destruct (mfa_secret_metadata c).
    + done.
  - done.
  - intros later.
    set (db' := on_mfa_credentials _ db).
    destruct (consume_active_recovery_code o u h later db') as [r d] eqn:E. cbn.
    unfold consume_active_recovery_code, update_rows, db_apply, db_bind, db_ret in E.
    injection E as <- _. f_equal. apply Nat.ltb_ge, Nat.le_0_r, count_where_zero.
    intros k c Hk. apply not_true_iff_false. rewrite active_recovery_code_true.
    by eapply Hdead.
Qed.

(** *** Challenges *)

Lemma is_none_true {A} (o : option A) : is_none o = true <-> o = None.
Proof. by destruct o. Qed.
Definition challenge_open (o u : Uuid) (kind : WebAuthnChallengeKind) (at_ : OffsetDateTime)
    (c : WebAuthnChallenge) : Prop :=
  challenge_organization_id c = o /\ challenge_user_id c = u /\ challenge_kind c = kind
  /\ challenge_consumed_at c = None /\ (at_ < challenge_expires_at c)%Z.
Lemma challenge_pending_true o u kind at_ c :
  challenge_pending o u kind at_ c = true <-> challenge_open o u kind at_ c.
Proof.
  unfold challenge_pending, challenge_open.
  rewrite !andb_true_iff, !N.eqb_eq, bool_decide_eq_true, is_none_true, Z.ltb_lt. tauto.
Qed.
Lemma consume_challenge_run id o u kind at_ db :
  exists r, consume_webauthn_challenge id o u kind at_ db
      = (Ok r, match r with
               | Some c => on_webauthn_challenges (<[id := challenge_consume at_ c]>) db
               | None => db
               end)
    /\ forall c, r = Some c <-> t_webauthn_challenges db !! id = Some c /\ challenge_open o u kind at_ c.
Proof.
  unfold consume_webauthn_challenge, transaction, db_bind, db_gets.
  destruct (t_webauthn_challenges db !! id) as [c|] eqn:E.
  - destruct (challenge_pending o u kind at_ c) eqn:Ep.
    + exists (Some c). unfold update_key, db_apply, update_row. rewrite E. split; [done|].
      apply challenge_pending_true in Ep. intros c'. split; [by intros [= <-]|by intros [[= <-] _]].
    + exists None. split; [done|]. intros c'. split; [done|]. intros [[= <-] H%challenge_pending_true].
      congruence.
  - exists None. split; [done|]. intros c'. split; [done|]. by intros [? _].
Qed.

(** A passkey challenge answers once.  Consuming a challenge returns it
    exactly when it was issued to this user of this organization for this
    purpose, has not been consumed and has not expired; it is then marked
    consumed, nothing else changes, and every later attempt with it, by
    anyone and for any purpose, gets nothing. *)
Theorem webauthn_challenge_single_use id o u kind at_ db :
  exists r db', consume_webauthn_challenge id o u kind at_ db = (Ok r, db')
    /\ (forall c, r = Some c <-> t_webauthn_challenges db !! id = Some c
          /\ challenge_organization_id c = o /\ challenge_user_id c = u /\ challenge_kind c = kind
          /\ challenge_consumed_at c = None /\ (at_ < challenge_expires_at c)%Z)
    /\ (r = None -> db' = db)
    /\ (forall c, r = Some c ->
          db' = on_webauthn_challenges (<[id := challenge_consume at_ c]>) db
          /\ forall o' u' kind' later,
               consume_webauthn_challenge id o' u' kind' later db' = (Ok None, db')).
Proof.
  destruct (consume_challenge_run id o u kind at_ db) as (r & Hrun & Hr).
  eexists r, _. split; [exact Hrun|]. split; [exact Hr|]. split; [by intros ->|].
  intros c ->. split; [done|]. intros o' u' kind' later.
  set (db' := on_webauthn_challenges _ db).
  destruct (consume_challenge_run id o' u' kind' later db') as (r' & -> & Hr').
  destruct r' as [c'|]; [|done]. exfalso. destruct (proj1 (Hr' c') eq_refl) as [Hc (_ & _ & _ & Hn & _)].
  subst db'. cbn in Hc. rewrite lookup_insert_eq in Hc. injection Hc as <-. done.
Qed.

(** *** Writing one credential *)

Lemma update_row_alter {K V} `{Countable K} (k : K) (f : V -> V) (m : gmap K V) :
  (update_row k (fun _ => true) f m).2 = alter f k m.
Proof.
  unfold update_row. destruct (m !! k) as [v|] eqn:E; cbn; apply map_eq; intros k'.
  - destruct (decide (k = k')) as [->|Hne].
    + by rewrite lookup_insert_eq, lookup_alter_eq, E.
    + by rewrite lookup_insert_ne, lookup_alter_ne.
  - destruct (decide (k = k')) as [->|Hne]; [by rewrite lookup_alter_eq, E|by rewrite lookup_alter_ne].
Qed.
Definition with_mfa (id : Uuid) (f : MfaCredential -> MfaCredential) (db : Database) : Database :=
  on_mfa_credentials (alter f id) db.
Lemma update_mfa_key_run id f db :
  exists b, update_key t_mfa_credentials on_mfa_credentials id (fun _ => true) f db
            = (Ok b, with_mfa id f db).
Proof.
  unfold update_key, db_apply. destruct (update_row _ _ _ _) as [b rows] eqn:E. exists b.
  apply (f_equal snd) in E. cbn in E. rewrite update_row_alter in E. by rewrite <- E.
Qed.
Lemma mark_used_run id at_ db :
  mark_mfa_credential_used id at_ db = (Ok tt, with_mfa id (mfa_set_last_used at_) db).
Proof.
  unfold mark_mfa_credential_used, db_bind.
  by destruct (update_mfa_key_run id (mfa_set_last_used at_) db) as [b ->].
Qed.
Lemma update_metadata_Ok id metadata used db u db' :
  update_mfa_credential_metadata id metadata used db = (Ok u, db') ->
  db' = with_mfa id (mfa_set_metadata metadata used) db.
Proof.
  unfold update_mfa_credential_metadata. intros (u1 & d1 & [_ ->]%db_check_Ok & H)%db_bind_Ok.
  destruct (update_mfa_key_run id (mfa_set_metadata metadata used) db) as [b Hb].
  apply db_bind_Ok in H as (b' & d & Hd & H). rewrite Hb in Hd. injection Hd as _ <-.
  unfold db_ret in H. by injection H as _ <-.
Qed.
