(* ===== verification/OutboxStore.v ===== *)
(** * The outbox of e-mails

    [crates/database]'s email_outbox: workers claim messages that are due,
    and mark each of them sent, to be tried again, or failed.  A message is
    described by an abstract mail queue ([mail_next]), which the statements
    refine. *)

From S2P Require Import Prelude RustStr Domain Codec Store.

(** ** Columns *)

Definition email_set_delivery (status : string) (attempts : Z) (last_error provider_message_id : option string)
    (updated_at : OffsetDateTime) (next_attempt_at sent_at : option OffsetDateTime)
    (m : EmailOutboxMessage) : EmailOutboxMessage :=
  mk_EmailOutboxMessage (email_id m) (email_organization_id m) (email_recipient_email m)
    (email_subject m) (email_body_text m) (email_template m) (email_action_path m)
    (email_delivery_token_ciphertext m) (email_delivery_token_nonce m) status attempts last_error
    provider_message_id (email_metadata m) (email_created_at m) updated_at next_attempt_at sent_at.
Definition email_status_is (status : string) (m : EmailOutboxMessage) : bool :=
  String.eqb (email_status m) status.

(** ** Claiming *)

Definition retry_due (at_ : OffsetDateTime) (m : EmailOutboxMessage) : bool :=
  match email_next_attempt_at m with None => true | Some due => (due <=? at_)%Z end.
Definition claimable (at_ stale_sending_before : OffsetDateTime) (m : EmailOutboxMessage) : bool :=
  ((email_status_is "queued" m || email_status_is "retry" m) && retry_due at_ m)
  || (email_status_is "sending" m && (email_updated_at m <=? stale_sending_before)%Z).
Definition email_claim (at_ : OffsetDateTime) (m : EmailOutboxMessage) : EmailOutboxMessage :=
  email_set_delivery "sending" (email_attempts m + 1) None (email_provider_message_id m) at_
    (email_next_attempt_at m) (email_sent_at m) m.
Definition email_oldest_first (a b : EmailOutboxMessage) : bool :=
  (email_created_at a <=? email_created_at b)%Z.
(** The rows the common table expression selects and locks. *)
Definition claim_selected (limit : Z) (at_ stale_sending_before : OffsetDateTime)
    (outbox : gmap N EmailOutboxMessage) : list EmailOutboxMessage :=
  take (Z.to_nat limit)
    (order_by email_oldest_first (select_where (claimable at_ stale_sending_before) outbox)).
Definition selected_row (selected : list EmailOutboxMessage) (m : EmailOutboxMessage) : bool :=
  existsb (fun s => N.eqb (email_id s) (email_id m)) selected.
Definition i32_max : Z := 2147483647.
(** The column [attempts] is an INTEGER.  The rows are returned in the order
    they were selected; PostgreSQL promises none. *)
(* crates/database/src/email_outbox/delivery.rs:7-53 claim_email_outbox_messages *)
Definition claim_email_outbox_messages (limit : Z) (at_ stale_sending_before : OffsetDateTime)
    : DB (list EmailOutboxMessage) :=
  let! _ := db_check (fun db =>
    forallb (fun m => (email_attempts m <? i32_max)%Z)
      (claim_selected limit at_ stale_sending_before (t_email_outbox db))) IntegerOutOfRange in
  db_apply (fun db =>
    let selected := claim_selected limit at_ stale_sending_before (t_email_outbox db) in
    (email_claim at_ <$> selected,
     on_email_outbox (update_where (selected_row selected) (email_claim at_)) db)).

(** ** Marking *)

(* crates/database/src/email_outbox/delivery.rs:55-80 mark_email_outbox_sent *)
Definition mark_email_outbox_sent (id : Uuid) (provider_message_id : option string)
    (at_ : OffsetDateTime) : DB bool :=
  update_key t_email_outbox on_email_outbox id (email_status_is "sending")
    (fun m => email_set_delivery "sent" (email_attempts m) None provider_message_id at_ None
                (Some at_) m).
(* crates/database/src/email_outbox/delivery.rs:82-107 mark_email_outbox_retry *)
Definition mark_email_outbox_retry (id : Uuid) (last_error : string)
    (next_attempt_at at_ : OffsetDateTime) : DB bool :=
  update_key t_email_outbox on_email_outbox id (email_status_is "sending")
    (fun m => email_set_delivery "retry" (email_attempts m) (Some last_error)
                (email_provider_message_id m) at_ (Some next_attempt_at) (email_sent_at m) m).
(* crates/database/src/email_outbox/delivery.rs:109-132 mark_email_outbox_failed *)
Definition mark_email_outbox_failed (id : Uuid) (last_error : string) (at_ : OffsetDateTime)
    : DB bool :=
  update_key t_email_outbox on_email_outbox id (email_status_is "sending")
    (fun m => email_set_delivery "failed" (email_attempts m) (Some last_error)
                (email_provider_message_id m) at_ None (email_sent_at m) m).

(** ** The state of the queue *)

(* crates/database/src/types/email.rs:4-15 EmailOutboxQueueSummary *)
Record EmailOutboxQueueSummary := mk_EmailOutboxQueueSummary {
  summary_queued : nat;
  summary_retry : nat;
  summary_retry_due : nat;
  summary_sending : nat;
  summary_stale_sending : nat;
  summary_failed : nat;
  summary_sent : nat;
  summary_unfinished : nat;
  summary_oldest_unfinished_at : option OffsetDateTime;
  summary_next_retry_at : option OffsetDateTime;
}.
Definition email_unfinished (m : EmailOutboxMessage) : bool :=
  email_status_is "queued" m || email_status_is "retry" m || email_status_is "sending" m
  || email_status_is "failed" m.
Definition min_time (l : list OffsetDateTime) : option OffsetDateTime :=
  match l with [] => None | t :: l => Some (fold_left Z.min l t) end.
(* crates/database/src/email_outbox/evidence.rs:6-44 email_outbox_queue_summary *)
Definition email_outbox_queue_summary (at_ stale_sending_before : OffsetDateTime)
    : DB EmailOutboxQueueSummary :=
  db_gets (fun db =>
    let outbox := t_email_outbox db in
    mk_EmailOutboxQueueSummary
      (count_where (email_status_is "queued") outbox)
      (count_where (email_status_is "retry") outbox)
      (count_where (fun m => email_status_is "retry" m && retry_due at_ m) outbox)
      (count_where (email_status_is "sending") outbox)
      (count_where (fun m => email_status_is "sending" m
                             && (email_updated_at m <=? stale_sending_before)%Z) outbox)
      (count_where (email_status_is "failed") outbox)
      (count_where (email_status_is "sent") outbox)
      (count_where email_unfinished outbox)
      (min_time (email_created_at <$> select_where email_unfinished outbox))
      (min_time (omap email_next_attempt_at
         (select_where (fun m => email_status_is "retry" m && negb (retry_due at_ m)) outbox)))).

(** ** The abstract mail queue *)

(** What happens to one message: it is waiting (until an instant, after so
    many attempts), in the hands of a worker (since an instant, in so many
    attempts), or done with. *)
Inductive MailState :=
| Mail_Waiting (attempts : Z) (due : option OffsetDateTime)
| Mail_Sending (attempts : Z) (since : OffsetDateTime)
| Mail_Sent (at_ : OffsetDateTime)
| Mail_Failed.
Inductive MailEvent :=
| Ev_Claimed (at_ : OffsetDateTime)
| Ev_Sent (at_ : OffsetDateTime)
| Ev_Retry (due : OffsetDateTime)
| Ev_Failed.
(** The state after an event, where the queue allows the event.  A message in
    the hands of a worker may be taken over after [timeout]. *)
Definition mail_next (timeout : Z) (s : MailState) (e : MailEvent) : option MailState :=
  match s, e with
  | Mail_Waiting n due, Ev_Claimed at_ =>
      if match due with None => true | Some due => (due <=? at_)%Z end
      then Some (Mail_Sending (n + 1) at_) else None
  | Mail_Sending n since, Ev_Claimed at_ =>
      if (since <=? at_ - timeout)%Z then Some (Mail_Sending (n + 1) at_) else None
  | Mail_Sending n _, Ev_Sent at_ => Some (Mail_Sent at_)
  | Mail_Sending n _, Ev_Retry due => Some (Mail_Waiting n (Some due))
  | Mail_Sending _ _, Ev_Failed => Some Mail_Failed
  | _, _ => None
  end.
Fixpoint mail_run (timeout : Z) (s : MailState) (trace : list MailEvent) : option MailState :=
  match trace with
  | [] => Some s
  | e :: trace => s ← mail_next timeout s e; mail_run timeout s trace
  end.
(** The state a row stands for. *)
Definition mail_state (m : EmailOutboxMessage) : option MailState :=
  if email_status_is "queued" m || email_status_is "retry" m
  then Some (Mail_Waiting (email_attempts m) (email_next_attempt_at m))
  else if email_status_is "sending" m then Some (Mail_Sending (email_attempts m) (email_updated_at m))
  else if email_status_is "sent" m then Mail_Sent <$> email_sent_at m
  else if email_status_is "failed" m then Some Mail_Failed
  else None.
#[export] Instance MailState_eq_dec : EqDecision MailState.
Proof. solve_decision. Defined.
(** What happened to a message between two of its rows: nothing where they
    stand for the same state, and else the event that leads to the new one. *)
Definition mail_arrival (s : MailState) : option MailEvent :=
  match s with
  | Mail_Sending _ since => Some (Ev_Claimed since)
  | Mail_Waiting _ due => Ev_Retry <$> due
  | Mail_Sent at_ => Some (Ev_Sent at_)
  | Mail_Failed => Some Ev_Failed
  end.
Definition mail_event (m m' : EmailOutboxMessage) : option MailEvent :=
  if decide (mail_state m' = mail_state m) then None else mail_state m' ≫= mail_arrival.
(** What happened to the message [id] from database to database. *)
Fixpoint mail_trace (id : Uuid) (db : Database) (dbs : list Database) : list MailEvent :=
  match dbs with
  | [] => []
  | db' :: dbs =>
      match t_email_outbox db !! id, t_email_outbox db' !! id with
      | Some m, Some m' => option_list (mail_event m m')
      | _, _ => []
      end ++ mail_trace id db' dbs
  end.
(** What the recipient gets, and what is kept for the record. *)
Definition mail_content (m : EmailOutboxMessage) :=
  (email_id m, email_organization_id m, email_recipient_email m, email_subject m, email_body_text m,
   email_template m, email_action_path m, email_delivery_token_ciphertext m,
   email_delivery_token_nonce m, email_metadata m, email_created_at m).

(** ** Properties *)

(** *** The abstract queue *)

Lemma mail_run_app timeout s t1 t2 :
  mail_run timeout s (t1 ++ t2) = (s' ← mail_run timeout s t1; mail_run timeout s' t2).
Proof.
  revert s. induction t1 as [|e t1 IH]; intros s; simpl; [done|].
  destruct (mail_next timeout s e); simpl; [apply IH|done].
Qed.
(** The attempts of a message are the times it was claimed, ... *)
Definition mail_attempts (s : MailState) : option Z :=
  match s with Mail_Waiting n _ | Mail_Sending n _ => Some n | _ => None end.
Definition is_claim (e : MailEvent) : bool := match e with Ev_Claimed _ => true | _ => false end.
Lemma mail_run_attempts timeout s trace s' n n' :
  mail_run timeout s trace = Some s' -> mail_attempts s = Some n -> mail_attempts s' = Some n' ->
  n' = (n + Z.of_nat (length (List.filter is_claim trace)))%Z.
Proof.
  revert s n. induction trace as [|e trace IH]; intros s n; simpl.
  - intros [= ->] -> [= ->]. lia.
  - intros (s1 & Hs1 & Hr)%bind_Some Hn Hn'.
    destruct s, e; simpl in *; try discriminate Hs1; repeat case_match; simplify_eq;
      try (erewrite (IH _ _ Hr) by done; simpl; lia);
      destruct trace as [|[]]; simpl in Hr; by simplify_eq.
Qed.
(** ... and two claims of a message less than the timeout apart have the
    message given back between them. *)
Lemma mail_run_claims_apart timeout s at1 trace at2 s' :
  mail_run timeout s (Ev_Claimed at1 :: trace ++ [Ev_Claimed at2]) = Some s' ->
  (at2 < at1 + timeout)%Z -> (forall e, e ∈ trace -> is_claim e = false) ->
  exists due, Ev_Retry due ∈ trace.
Proof.
  intros H Hlt Hno. assert (exists n, mail_run timeout (Mail_Sending n at1) (trace ++ [Ev_Claimed at2]) = Some s')
    as [n Hn] by (destruct s; simpl in H; repeat case_match; simpl in H; try discriminate H; eauto).
  destruct trace as [|e trace].
  - simpl in Hn. destruct (at1 <=? at2 - timeout)%Z eqn:E; [|done]. bool_prop. lia.
  - destruct e.
    + by specialize (Hno (Ev_Claimed at_) ltac:(left)).
    + by destruct trace as [|[] ?].
    + exists due. left.
    + by destruct trace as [|[] ?].
Qed.
(** Done is done. *)
Lemma mail_run_final timeout s trace s' :
  mail_attempts s = None -> mail_run timeout s trace = Some s' -> s' = s.
Proof. destruct trace as [|e trace]; simpl; [congruence|]. by destruct s, e. Qed.

(** *** The statements refine it *)

(** From one database to the next every message keeps its content and goes
    through the event that is seen, if any, as the mail queue does; no other
    table changes. *)
Definition message_evolves (timeout : Z) (m m' : EmailOutboxMessage) : Prop :=
  mail_content m' = mail_content m
  /\ forall s, mail_state m = Some s ->
       exists s', mail_run timeout s (option_list (mail_event m m')) = Some s' /\ mail_state m' = Some s'.
Definition mail_evolves (timeout : Z) (db db' : Database) : Prop :=
  (forall id m, t_email_outbox db !! id = Some m ->
     exists m', t_email_outbox db' !! id = Some m' /\ message_evolves timeout m m')
  /\ (forall id, t_email_outbox db !! id = None -> t_email_outbox db' !! id = None)
  /\ db' = on_email_outbox (fun _ => t_email_outbox db') db.

Lemma message_evolves_refl timeout m : message_evolves timeout m m.
Proof. split; [done|]. intros s Hs. exists s. unfold mail_event. by rewrite decide_True. Qed.
Lemma mail_evolves_refl timeout db : mail_evolves timeout db db.
Proof.
  split_and!; [|done|by destruct db]. intros id m Hm. exists m. split; [done|apply message_evolves_refl].
Qed.
(** A history of such databases is a run of the queue for every message. *)
Lemma history_runs timeout db dbs :
  chained (mail_evolves timeout) db dbs ->
  let db' := default db (last dbs) in
  db' = on_email_outbox (fun _ => t_email_outbox db') db
  /\ (forall id, t_email_outbox db !! id = None -> t_email_outbox db' !! id = None)
  /\ forall id m, t_email_outbox db !! id = Some m ->
       exists m', t_email_outbox db' !! id = Some m' /\ mail_content m' = mail_content m
       /\ forall s, mail_state m = Some s ->
            exists s', mail_run timeout s (mail_trace id db dbs) = Some s' /\ mail_state m' = Some s'.
Proof.
  revert db. induction dbs as [|db1 dbs IH]; intros db; cbn [chained].
  - intros _. split; [by destruct db|]. split; [done|]. intros id m Hm. exists m. split_and!; [done..|].
    intros s Hs. by exists s.
  - intros ((Hm1 & Hn1 & E1) & Hc). destruct (IH _ Hc) as (E & Hn & Hm).
    rewrite default_last_cons.
    cbv zeta. split; [rewrite E, E1 at 1; done|]. split; [auto|]. intros id m Hid.
    destruct (Hm1 _ _ Hid) as (m1 & Hid1 & Hc1 & Hs1). destruct (Hm _ _ Hid1) as (m' & Hid' & Hc' & Hs').
    exists m'. split_and!; [done|congruence|]. intros s Hs. destruct (Hs1 _ Hs) as (s1 & Hr1 & Hst1).
    destruct (Hs' _ Hst1) as (s' & Hr' & Hst'). exists s'. split; [|done].
    cbn [mail_trace]. by rewrite Hid, Hid1, mail_run_app, Hr1.
Qed.

(** An event changes the state, and the state it leads to tells it. *)
Lemma mail_next_arrives timeout s e s' :
  mail_next timeout s e = Some s' -> s' <> s /\ mail_arrival s' = Some e.
Proof.
  intros H. destruct s, e; simpl in H; repeat case_match; simplify_eq; (split; [|done]); try done.
  intros [= H]. lia.
Qed.
(** One event. *)
Lemma message_event timeout m m' e :
  mail_content m' = mail_content m ->
  (forall s, mail_state m = Some s -> mail_next timeout s e = mail_state m' /\ is_Some (mail_state m')) ->
  message_evolves timeout m m'.
Proof.
  intros Hc He. split; [done|]. intros s Hs. destruct (He s Hs) as [Hn [s' Hs']].
  exists s'. split; [|done]. rewrite Hs' in Hn. destruct (mail_next_arrives _ _ _ _ Hn) as [Hne Ha].
  unfold mail_event. rewrite decide_False by congruence. rewrite Hs'. cbn. rewrite Ha. cbn. by rewrite Hn.
Qed.
Ltac status_cases :=
  unfold mail_state, claimable, email_status_is in *; simpl in *;
  repeat match goal with
  | |- context [String.eqb ?a ?b] => destruct (String.eqb_spec a b)
  | H : context [String.eqb ?a ?b] |- _ => destruct (String.eqb_spec a b)
  end; simplify_eq/=; try congruence.
Lemma claim_evolves timeout at_ m :
  claimable at_ (at_ - timeout)%Z m = true -> message_evolves timeout m (email_claim at_ m).
Proof.
  intros Hcl. apply (message_event _ _ _ (Ev_Claimed at_)); [done|]. intros s Hs.
  unfold claimable, retry_due in Hcl. unfold mail_state in *. unfold email_claim at 1.
  cbn [email_set_delivery email_status_is email_status] in *. split; [|eauto].
  unfold email_status_is in *. simpl in *.
  destruct (String.eqb (email_status m) "queued" || String.eqb (email_status m) "retry") eqn:Ew.
  - injection Hs as <-. simpl. destruct (email_next_attempt_at m) as [due|]; [|done].
    destruct (due <=? at_)%Z; [done|]. simpl in Hcl.
    apply orb_true_iff in Ew as [E|E]; apply String.eqb_eq in E; by rewrite E in Hcl.
  - destruct (String.eqb (email_status m) "sending"); [|done].
    injection Hs as <-. simpl in *. by rewrite Hcl.
Qed.

Lemma selected_claimable limit at_ stale outbox m :
  m ∈ claim_selected limit at_ stale outbox ->
  claimable at_ stale m = true /\ exists k, outbox !! k = Some m.
Proof.
  intros Hm. assert (m ∈ order_by email_oldest_first (select_where (claimable at_ stale) outbox)) as Hin.
  { unfold claim_selected in Hm. rewrite <- (take_drop (Z.to_nat limit) (order_by _ _)).
    apply elem_of_app. by left. }
  apply elem_of_order_by, elem_of_select_where in Hin as (k & Hk & Hc). eauto.
Qed.

Definition outbox_keyed (db : Database) : Prop :=
  forall k m, t_email_outbox db !! k = Some m -> email_id m = k.
Lemma evolves_keyed timeout db db' : mail_evolves timeout db db' -> outbox_keyed db -> outbox_keyed db'.
Proof.
  intros (Hm & Hn & _) Hk k m' Hm'. destruct (t_email_outbox db !! k) as [m|] eqn:E.
  - destruct (Hm _ _ E) as (m2 & E2 & Hc & _). pose proof (Hk _ _ E).
    unfold mail_content in Hc. congruence.
  - by rewrite (Hn _ E) in Hm'.
Qed.
Lemma selected_row_true limit at_ stale db k m :
  outbox_keyed db -> t_email_outbox db !! k = Some m ->
  selected_row (claim_selected limit at_ stale (t_email_outbox db)) m = true
  <-> m ∈ claim_selected limit at_ stale (t_email_outbox db).
Proof.
  intros Hkeyed Hm. unfold selected_row. rewrite existsb_elem. setoid_rewrite N.eqb_eq. split.
  - intros (s & Hs & He). pose proof (selected_claimable _ _ _ _ _ Hs) as [_ [k' Hk']].
    pose proof (Hkeyed _ _ Hm). pose proof (Hkeyed _ _ Hk'). congruence.
  - intros Hs. by exists m.
Qed.

(** A change of the outbox row by row. *)
Lemma rows_evolve timeout db outbox' :
  (forall id m, t_email_outbox db !! id = Some m ->
     exists m', outbox' !! id = Some m' /\ message_evolves timeout m m') ->
  (forall id, t_email_outbox db !! id = None -> outbox' !! id = None) ->
  mail_evolves timeout db (on_email_outbox (fun _ => outbox') db).
Proof. intros Hs Hn. by split_and!. Qed.

Lemma claim_run limit at_ stale db :
  claim_email_outbox_messages limit at_ stale db
  = if forallb (fun m => (email_attempts m <? i32_max)%Z) (claim_selected limit at_ stale (t_email_outbox db))
    then (Ok (email_claim at_ <$> claim_selected limit at_ stale (t_email_outbox db)),
          on_email_outbox (update_where (selected_row (claim_selected limit at_ stale (t_email_outbox db)))
                             (email_claim at_)) db)
    else (Err (Sqlx IntegerOutOfRange), db).
Proof. unfold claim_email_outbox_messages, db_bind, db_check. by destruct (forallb _ _). Qed.
Lemma claim_statement_evolves timeout limit at_ db :
  outbox_keyed db -> mail_evolves timeout db (claim_email_outbox_messages limit at_ (at_ - timeout)%Z db).2.
Proof.
  intros Hk. rewrite claim_run. destruct (forallb _ _); [|apply mail_evolves_refl]. cbn [snd].
  apply (rows_evolve timeout db (update_where _ _ (t_email_outbox db))).
  - intros id m Hm. rewrite lookup_update_where, Hm. simpl. eexists. split; [done|].
    destruct (selected_row _ m) eqn:E; [|apply message_evolves_refl].
    apply (selected_row_true _ _ _ _ id) in E; [|done..].
    apply selected_claimable in E as [Hc _]. by apply claim_evolves.
  - intros id Hn. by rewrite lookup_update_where, Hn.
Qed.
(** What a claim returns is what it claimed. *)
Lemma claimed_event limit at_ stale db messages db' m :
  outbox_keyed db -> claim_email_outbox_messages limit at_ stale db = (Ok messages, db') -> m ∈ messages ->
  t_email_outbox db' !! email_id m = Some m
  /\ exists m0, t_email_outbox db !! email_id m = Some m0 /\ claimable at_ stale m0 = true
       /\ mail_event m0 m = Some (Ev_Claimed at_).
Proof.
  intros Hk. rewrite claim_run. destruct (forallb _ _); [|done]. intros [= <- <-].
  intros (m0 & -> & Hsel)%list_elem_of_fmap. change (email_id (email_claim at_ m0)) with (email_id m0).
  pose proof (selected_claimable _ _ _ _ _ Hsel) as [Hc [k Hm0]]. rewrite <- (Hk _ _ Hm0) in Hm0.
  assert (Hrow : selected_row (claim_selected limit at_ stale (t_email_outbox db)) m0 = true)
    by by eapply selected_row_true.
  split; [cbn; by rewrite lookup_update_where, Hm0; cbn; rewrite Hrow|]. exists m0. split_and!; [done..|].
  unfold mail_event. rewrite decide_False; [done|]. intros Heq. unfold mail_state in Heq. cbn in Heq.
  repeat case_match; try discriminate Heq; [injection Heq as Heq _; lia|].
  destruct (email_sent_at m0); discriminate Heq.
Qed.
Lemma mark_evolves timeout id f db :
  (forall m, email_status m = "sending" -> message_evolves timeout m (f m)) ->
  mail_evolves timeout db
    (update_key t_email_outbox on_email_outbox id (email_status_is "sending") f db).2.
Proof.
  intros Hf. unfold update_key, db_apply. destruct (update_row id _ f (t_email_outbox db)) as [[] rows] eqn:E; simpl.
  - apply update_row_true in E as (m0 & Hm0 & Hs & ->). unfold email_status_is in Hs.
    apply String.eqb_eq in Hs. apply rows_evolve.
    + intros k m Hm. destruct (decide (k = id)) as [->|Hne].
      * rewrite lookup_insert_eq. exists (f m0). split; [done|]. simplify_eq. by apply Hf.
      * rewrite lookup_insert_ne by done. exists m. split; [done|apply message_evolves_refl].
    + intros k Hn. rewrite lookup_insert_ne; [done|congruence].
  - apply update_row_false in E as [-> _]. apply rows_evolve; [|done].
    intros k m Hm. exists m. split; [done|apply message_evolves_refl].
Qed.
(** The statements of a worker. *)
Inductive worker_statement (timeout : Z) : forall X, DB X -> Prop :=
| ws_claim limit at_ : worker_statement timeout _ (claim_email_outbox_messages limit at_ (at_ - timeout)%Z)
| ws_sent id provider at_ : worker_statement timeout _ (mark_email_outbox_sent id provider at_)
| ws_retry id e due at_ : worker_statement timeout _ (mark_email_outbox_retry id e due at_)
| ws_failed id e at_ : worker_statement timeout _ (mark_email_outbox_failed id e at_).
Lemma worker_statement_evolves timeout X (op : DB X) db :
  worker_statement timeout X op -> outbox_keyed db -> mail_evolves timeout db (op db).2.
Proof.
  intros Hop Hk. destruct Hop.
  - by apply claim_statement_evolves.
  - apply mark_evolves. intros m Hs. apply (message_event _ _ _ (Ev_Sent at_)); [done|].
    intros s. unfold mail_state, email_status_is. rewrite Hs. cbn. intros [= <-]. eauto.
  - apply mark_evolves. intros m Hs. apply (message_event _ _ _ (Ev_Retry due)); [done|].
    intros s. unfold mail_state, email_status_is. rewrite Hs. cbn. intros [= <-]. eauto.
  - apply mark_evolves. intros m Hs. apply (message_event _ _ _ Ev_Failed); [done|].
    intros s. unfold mail_state, email_status_is. rewrite Hs. cbn. intros [= <-]. eauto.
Qed.

(** What the trace of a message says of it. *)
Lemma trace_claims_apart timeout s trace s' t1 at1 t2 at2 t3 :
  mail_run timeout s trace = Some s' -> trace = t1 ++ Ev_Claimed at1 :: t2 ++ Ev_Claimed at2 :: t3 ->
  (forall e, e ∈ t2 -> is_claim e = false) -> (at2 < at1 + timeout)%Z ->
  exists due, Ev_Retry due ∈ t2.
Proof.
  intros Hr -> Hno Hlt. rewrite mail_run_app in Hr. apply bind_Some in Hr as (s1 & _ & Hr).
  replace (Ev_Claimed at1 :: t2 ++ Ev_Claimed at2 :: t3)
    with ((Ev_Claimed at1 :: t2 ++ [Ev_Claimed at2]) ++ t3) in Hr by (simpl; by rewrite <- app_assoc).
  rewrite mail_run_app in Hr. apply bind_Some in Hr as (s2 & Hr & _).
  by eapply mail_run_claims_apart.
Qed.
