(* ===== verification/Handler.v ===== *)
(** * Request handlers

    A handler of [apps/api] is a program that issues statements to the
    database one at a time and computes in between: [Prog] keeps the sequence
    of its statements visible, so that a handler can be run on its own
    ([run]) or interleaved with others, statement by statement, with
    statements that fail ([pool_step]).  An [async fn] returning
    [Result<A, E>] is a [HandlerOf E A], a [Handler A] when its error is
    [ApiError]; [?] on a database call is [query], which makes an [E] of the
    failure as the code's [From<DatabaseError>] does. *)

From S2P Require Import Prelude RustStr Domain Oidc Http Codec Store.

(** ** Programs *)

Inductive Prog (A : Type) : Type :=
| Ret (a : A)
| Step (X : Type) (op : DB X) (k : result DatabaseError X -> Prog A).
Arguments Ret {A} a.
Arguments Step {A X} op k.

Definition HandlerOf (E A : Type) : Type := Prog (result E A).
Definition Handler (A : Type) : Type := HandlerOf ApiError A.
(** [From<DatabaseError>] of an error type. *)
Class FromDatabaseError (E : Type) := from_database_error : DatabaseError -> E.
#[export] Instance api_from_database_error : FromDatabaseError ApiError := fun _ => api_database_error.

Fixpoint prog_bind {A B} (p : Prog A) (f : A -> Prog B) : Prog B :=
  match p with
  | Ret a => f a
  | Step op k => Step op (fun r => prog_bind (k r) f)
  end.
(** [?] inside a handler. *)
Definition handler_bind {E A B} (h : HandlerOf E A) (f : A -> HandlerOf E B) : HandlerOf E B :=
  prog_bind h (fun r => match r with Ok a => f a | Err e => Ret (Err e) end).
Notation "'do!' x ':=' c 'in' k" := (handler_bind c (fun x => k))
  (at level 10, x pattern, k at level 200) : cairn_scope.

Definition succeed {E A} (a : A) : HandlerOf E A := Ret (Ok a).
Definition fail {E A} (e : E) : HandlerOf E A := Ret (Err e).
Definition lift {E A} (r : result E A) : HandlerOf E A := Ret r.
(** [state.database.op().await?] *)
Definition query {E} `{FromDatabaseError E} {X} (op : DB X) : HandlerOf E X :=
  Step op (fun r => Ret (map_err from_database_error r)).
(** [guard c e]: [if c { return Err(e) }]. *)
Definition reject_if {E} (c : bool) (e : E) : HandlerOf E unit :=
  if c then fail e else succeed tt.
Definition some_or {E A} (o : option A) (e : E) : HandlerOf E A := lift (ok_or o e).

(** ** Replies *)

Inductive ReplyBody :=
| Body_Token (response : TokenResponse)
| Body_Error (error : OAuthErrorBody)
| Body_Value (value : Value)
| Body_Empty.
Record Reply := mk_Reply { reply_response : Response; reply_body : ReplyBody }.
(* apps/api/src/http/oauth_http/response.rs:9-16 oauth_json_response *)
Definition oauth_json_response (status : StatusCode) (body : ReplyBody) : Reply :=
  mk_Reply (mk_Response status no_store_headers) body.
(* apps/api/src/http/oauth_http/response.rs:31-35 oauth_empty_response *)
Definition oauth_empty_response (status : StatusCode) : Reply :=
  mk_Reply (mk_Response status no_store_headers) Body_Empty.

(** ** Running a program on its own *)

Fixpoint run {A} (p : Prog A) (db : Database) : A * Database :=
  match p with
  | Ret a => (a, db)
  | Step op k => let '(r, db') := op db in run (k r) db'
  end.

(** ** Interleaving

    A pool is one program per request.  A step runs the next statement of one
    of them: it takes effect and answers ([Answered]), takes no effect and
    fails ([Failed]), or takes effect and fails to answer ([Lost]). *)

Inductive Fault := Answered | Failed | Lost.

Definition attempt {X} (f : Fault) (op : DB X) (db : Database)
    : result DatabaseError X * Database :=
  match f with
  | Answered => op db
  | Failed => (Err (Sqlx ConnectionFailed), db)
  | Lost => (Err (Sqlx ConnectionFailed), (op db).2)
  end.

Inductive pool_step {A} : list (Prog A) * Database -> list (Prog A) * Database -> Prop :=
| pool_step_at (f : Fault) (before after : list (Prog A)) X (op : DB X) k db r db' :
    attempt f op db = (r, db') ->
    pool_step (before ++ Step op k :: after, db) (before ++ k r :: after, db').

(** The same steps, with the databases they leave one after the other. *)
Inductive pool_history {A} : list (Prog A) * Database -> list Database -> list (Prog A) * Database -> Prop :=
| pool_history_nil s : pool_history s [] s
| pool_history_cons s1 s2 dbs s3 :
    pool_step s1 s2 -> pool_history s2 dbs s3 -> pool_history s1 (s2.2 :: dbs) s3.

(** A schedule: which request runs its next statement, and how it goes. *)
Definition step_at {A} (choice : nat * Fault) (s : list (Prog A) * Database)
    : list (Prog A) * Database :=
  match s.1 !! choice.1 with
  | Some (Step op k) =>
      let '(r, db') := attempt choice.2 op s.2 in (<[choice.1 := k r]> s.1, db')
  | _ => s
  end.
Definition run_schedule {A} (schedule : list (nat * Fault)) (s : list (Prog A) * Database)
    : list (Prog A) * Database := fold_left (fun s choice => step_at choice s) schedule s.
(** The databases of a schedule; a choice that does nothing leaves none. *)
Fixpoint schedule_history {A} (schedule : list (nat * Fault)) (s : list (Prog A) * Database) : list Database :=
  match schedule with
  | [] => []
  | choice :: schedule =>
      let s' := step_at choice s in
      match s.1 !! choice.1 with
      | Some (Step op k) => s'.2 :: schedule_history schedule s'
      | _ => schedule_history schedule s'
      end
  end.

(** ** Properties *)

Lemma step_at_step {A} choice (s : list (Prog A) * Database) X (op : DB X) k :
  s.1 !! choice.1 = Some (Step op k) -> pool_step s (step_at choice s).
Proof.
  destruct s as [ps db]. destruct choice as [i f]. unfold step_at. simpl. intros E. rewrite E.
  destruct (attempt f op db) as [r db'] eqn:Ea.
  rewrite (insert_take_drop ps i) by (apply lookup_lt_is_Some; eauto).
  rewrite <- (take_drop_middle ps i (Step op k)) at 1 by done. by eapply pool_step_at.
Qed.
Lemma step_at_steps {A} choice (s : list (Prog A) * Database) : rtc pool_step s (step_at choice s).
Proof.
  destruct (s.1 !! choice.1) as [[a|X op k]|] eqn:E; [| by eapply rtc_once, step_at_step |];
    unfold step_at; by rewrite E.
Qed.
Lemma run_schedule_history {A} schedule (s : list (Prog A) * Database) :
  pool_history s (schedule_history schedule s) (run_schedule schedule s).
Proof.
  revert s. induction schedule as [|c schedule IH]; intros s; [constructor|]. simpl.
  destruct (s.1 !! c.1) as [[a|X op k]|] eqn:E.
  - replace (step_at c s) with s by (unfold step_at; by rewrite E). apply IH.
  - econstructor; [by eapply step_at_step|apply IH].
  - replace (step_at c s) with s by (unfold step_at; by rewrite E). apply IH.
Qed.
Lemma run_schedule_steps {A} schedule (s : list (Prog A) * Database) :
  rtc pool_step s (run_schedule schedule s).
Proof.
  revert s. induction schedule as [|c schedule IH]; intros s; [done|].
  etrans; [apply step_at_steps|apply IH].
Qed.

Lemma run_bind {A B} (p : Prog A) (f : A -> Prog B) db :
  run (prog_bind p f) db = let '(a, db') := run p db in run (f a) db'.
Proof.
  revert db. induction p as [a|X op k IH]; intros db; simpl; [done|].
  destruct (op db) as [r db']. apply IH.
Qed.
Lemma run_handler_Ok {E A B} (h : HandlerOf E A) (f : A -> HandlerOf E B) db b db' :
  run (handler_bind h f) db = (Ok b, db') <->
  exists a db1, run h db = (Ok a, db1) /\ run (f a) db1 = (Ok b, db').
Proof.
  unfold handler_bind. rewrite run_bind. destruct (run h db) as [[a|e] db1]; simpl; split.
  - eauto.
  - intros (? & ? & [= -> ->] & H). done.
  - intros [=].
  - intros (? & ? & [=] & _).
Qed.
Lemma run_query_Ok {E} `{FromDatabaseError E} {X} (op : DB X) db x db' :
  run (query (E := E) op) db = (Ok x, db') <-> op db = (Ok x, db').
Proof. simpl. destruct (op db) as [[?|?] ?]; simpl; split; congruence. Qed.
Lemma run_lift_Ok {E A} (r : result E A) db a db' :
  run (lift r) db = (Ok a, db') <-> r = Ok a /\ db' = db.
Proof. simpl. split; [intros [= -> ->]; done|intros [-> ->]; done]. Qed.
Lemma run_some_or_Ok {E A} (o : option A) (e : E) db a db' :
  run (some_or o e) db = (Ok a, db') <-> o = Some a /\ db' = db.
Proof. unfold some_or. by rewrite run_lift_Ok, ok_or_Ok. Qed.
Lemma run_reject_Ok {E} c (e : E) db u db' :
  run (reject_if c e) db = (Ok u, db') <-> c = false /\ db' = db.
Proof.
  destruct c, u; simpl; split.
  - intros [=].
  - intros [[=] _].
  - by intros [= ->].
  - by intros [_ ->].
Qed.

Lemma lift_Ok_bind {E A B} (x : A) (f : A -> HandlerOf E B) : handler_bind (lift (Ok x)) f = f x.
Proof. done. Qed.
(** Takes the success of a handler apart, as [db_steps] does for statements. *)
Ltac run_step :=
  match goal with
  | H : run (handler_bind _ _) _ = (Ok _, _) |- _ =>
      apply run_handler_Ok in H;
      let a := fresh "a" in let db := fresh "dbx" in let H1 := fresh "H" in
      destruct H as (a & db & H1 & H)
  | H : run (query _) _ = (Ok _, _) |- _ => apply run_query_Ok in H
  | H : run (lift _) _ = (Ok _, _) |- _ => apply run_lift_Ok in H as [H ->]
  | H : run (some_or _ _) _ = (Ok _, _) |- _ => apply run_some_or_Ok in H as [H ->]
  | H : run (reject_if _ _) _ = (Ok _, _) |- _ => apply run_reject_Ok in H as [H ->]
  | H : run (succeed _) _ = (Ok _, _) |- _ => simpl in H; injection H as <- <-
  | H : run (fail _) _ = (Ok _, _) |- _ => discriminate H
  | H : run (Ret (Ok _)) _ = (Ok _, _) |- _ => simpl in H; injection H as <- <-
  | H : run (Ret (Err _)) _ = (Ok _, _) |- _ => discriminate H
  end.
Ltac run_steps := repeat run_step.

(** The same steps as equivalences, with what follows kept together. *)
Section steps.
Context {E A : Type} {FE : FromDatabaseError E}.
Implicit Types (db : Database) (a : A).

Lemma lift_then_Ok {X} (r : result E X) (k : X -> HandlerOf E A) db a db' :
  run (handler_bind (lift r) k) db = (Ok a, db') <->
  exists x, r = Ok x /\ run (k x) db = (Ok a, db').
Proof. rewrite run_handler_Ok. setoid_rewrite run_lift_Ok. naive_solver. Qed.
Lemma reject_then_Ok c (e : E) (k : unit -> HandlerOf E A) db a db' :
  run (handler_bind (reject_if c e) k) db = (Ok a, db') <->
  c = false /\ run (k tt) db = (Ok a, db').
Proof.
  rewrite run_handler_Ok. setoid_rewrite run_reject_Ok. split.
  - by intros ([] & ? & [? ->] & ?).
  - intros [? ?]. by exists tt, db.
Qed.
Lemma fetch_then_Ok {X} (f : Database -> option X) (e : E) (k : X -> HandlerOf E A) db a db' :
  run (do! o := query (db_gets f) in do! x := some_or o e in k x) db = (Ok a, db') <->
  exists x, f db = Some x /\ run (k x) db = (Ok a, db').
Proof.
  simpl. destruct (f db) as [x|]; simpl; [naive_solver|]. split; [done|]. by intros (? & ? & _).
Qed.
Lemma query_then_Ok {X} (op : DB X) (k : X -> HandlerOf E A) db a db' :
  run (handler_bind (query op) k) db = (Ok a, db') <->
  exists x db1, op db = (Ok x, db1) /\ run (k x) db1 = (Ok a, db').
Proof. rewrite run_handler_Ok. by setoid_rewrite run_query_Ok. Qed.
(** A part with a known answer. *)
Lemma run_known_at {X} (h : HandlerOf E X) (f : X -> HandlerOf E A) db x db1 :
  run h db = (Ok x, db1) -> run (handler_bind h f) db = run (f x) db1.
Proof. intros H. unfold handler_bind. by rewrite run_bind, H. Qed.
Lemma run_known {X} (h : HandlerOf E X) (f : X -> HandlerOf E A) db x :
  run h db = (Ok x, db) -> run (handler_bind h f) db = run (f x) db.
Proof. intros H. unfold handler_bind. by rewrite run_bind, H. Qed.
Lemma reads_then_Ok {X} (h : HandlerOf E X) (k : X -> HandlerOf E A) db a db' :
  (exists r, run h db = (r, db)) ->
  run (handler_bind h k) db = (Ok a, db') <->
  exists x, run h db = (Ok x, db) /\ run (k x) db = (Ok a, db').
Proof.
  intros [r Hr]. rewrite run_handler_Ok. split.
  - intros (x & db1 & Hx & Hk). rewrite Hr in Hx. injection Hx as -> <-. eauto.
  - intros (x & Hx & Hk). eauto.
Qed.
End steps.

(** *** Programs whose statements all satisfy a condition *)

(** Every statement of [p], whatever its answers, satisfies [P]. *)
Fixpoint each_op {A} (P : forall X, DB X -> Prop) (p : Prog A) : Prop :=
  match p with
  | Ret _ => True
  | Step op k => P _ op /\ forall r, each_op P (k r)
  end.
Lemma each_op_bind {A B} P (p : Prog A) (f : A -> Prog B) :
  each_op P p -> (forall a, each_op P (f a)) -> each_op P (prog_bind p f).
Proof. intros Hp Hf. induction p as [a|X op k IH]; simpl in *; [done|]. naive_solver. Qed.
Lemma each_op_handler {E A B} P (h : HandlerOf E A) (f : A -> HandlerOf E B) :
  each_op P h -> (forall a, each_op P (f a)) -> each_op P (handler_bind h f).
Proof. intros Hh Hf. apply each_op_bind; [done|]. by intros [a|e]. Qed.
Lemma each_op_lift_then {E X A} (P : forall X, DB X -> Prop) (r : result E X) (f : X -> HandlerOf E A) :
  (forall x, r = Ok x -> each_op P (f x)) -> each_op P (handler_bind (lift r) f).
Proof. destruct r as [x|e]; [|done]. intros H. exact (H x eq_refl). Qed.
Lemma each_op_query {E} `{FromDatabaseError E} {X} (P : forall X, DB X -> Prop) (op : DB X) :
  P _ op -> each_op P (query (E := E) op).
Proof. simpl. auto. Qed.

Lemma each_op_impl {A} (P Q : forall X, DB X -> Prop) (p : Prog A) :
  (forall X op, P X op -> Q X op) -> each_op P p -> each_op Q p.
Proof. intros HPQ. induction p as [a|X op k IH]; simpl; [done|]. naive_solver. Qed.

(** Goes through the statements of a handler. *)
Ltac each_op_step :=
  match goal with
  | |- each_op _ (handler_bind _ _) => apply each_op_handler; [|intros ?]
  | |- each_op _ (query _) => apply each_op_query
  | |- each_op _ (Ret _) => exact I
  | |- each_op _ (succeed _) => exact I
  | |- each_op _ (fail _) => exact I
  | |- each_op _ (lift _) => exact I
  | |- each_op _ (some_or _ _) => exact I
  | |- each_op _ (reject_if ?c _) => destruct c; exact I
  | |- each_op _ (match ?x with _ => _ end) => destruct x
  end.
Ltac each_op_steps := repeat each_op_step.

(** A statement that does not change the database. *)
Definition reads {X} (op : DB X) : Prop := forall db, (op db).2 = db.
(** A handler of reading statements leaves the database alone. *)
Lemma each_reads_run {A} (p : Prog A) db : each_op (fun X op => reads op) p -> (run p db).2 = db.
Proof.
  revert db. induction p as [a|X op k IH]; intros db; simpl; [done|]. intros [Hop Hk].
  specialize (Hop db). destruct (op db) as [r db']. simpl in Hop. subst db'. by apply IH.
Qed.

(** Statements that keep to a preorder make interleavings that keep to it. *)
Lemma pool_evolves {A} (P : forall X, DB X -> Prop) (inv : Database -> Prop)
    (R : Database -> Database -> Prop) `{!PreOrder R} (s s' : list (Prog A) * Database) :
  (forall X op db, P X op -> inv db -> R db (op db).2) ->
  (forall db db', R db db' -> inv db -> inv db') ->
  rtc pool_step s s' -> Forall (each_op P) s.1 -> inv s.2 -> R s.2 s'.2.
Proof.
  intros HP Hinv Hs. induction Hs as [s|s1 s2 s3 Hst _ IH]; [done|]. intros Hall Hi.
  destruct Hst as [f before after X op k db r db' Ha]. simpl in *.
  apply Forall_app in Hall as [H1 H2]. apply Forall_cons in H2 as [[Hop Hk] H2].
  assert (HR : R db db').
  { specialize (HP _ _ _ Hop Hi). destruct f; simpl in Ha.
    - by rewrite Ha in HP.
    - by injection Ha as _ <-.
    - by injection Ha as _ <-. }
  etrans; [exact HR|]. apply IH; [|by eapply Hinv].
  apply Forall_app. split; [done|]. by constructor.
Qed.

(** The same, one database of a history after the other. *)
Lemma history_end {A} (s : list (Prog A) * Database) dbs s' :
  pool_history s dbs s' -> s'.2 = default s.2 (last dbs).
Proof.
  induction 1 as [s|s1 s2 dbs s3 _ _ IH]; [done|]. by rewrite IH, default_last_cons.
Qed.
Lemma history_chained {A} (P : forall X, DB X -> Prop) (inv : Database -> Prop)
    (R : Database -> Database -> Prop) (s s' : list (Prog A) * Database) dbs :
  (forall X op db, P X op -> inv db -> R db (op db).2) -> (forall db, R db db) ->
  (forall db db', R db db' -> inv db -> inv db') ->
  pool_history s dbs s' -> Forall (each_op P) s.1 -> inv s.2 -> chained R s.2 dbs.
Proof.
  intros HP Hrefl Hinv Hs. induction Hs as [s|s1 s2 dbs s3 Hst _ IH]; [done|]. intros Hall Hi.
  destruct Hst as [f before after X op k db r db' Ha]. simpl in *.
  apply Forall_app in Hall as [H1 H2]. apply Forall_cons in H2 as [[Hop Hk] H2].
  assert (HR : R db db').
  { specialize (HP _ _ _ Hop Hi). destruct f; simpl in Ha.
    - by rewrite Ha in HP.
    - by injection Ha as _ <-.
    - by injection Ha as _ <-. }
  split; [done|]. apply IH; [|by eapply Hinv].
  apply Forall_app. split; [done|]. by constructor.
Qed.

(** *** What a program can answer

    Every outcome of [p], whatever its statements answer, satisfies [P]; so
    does the outcome of every run and of every interleaving. *)
Fixpoint each_ret {A} (P : A -> Prop) (p : Prog A) : Prop :=
  match p with
  | Ret a => P a
  | Step op k => forall r, each_ret P (k r)
  end.
Lemma each_ret_run {A} (P : A -> Prop) (p : Prog A) db : each_ret P p -> P (run p db).1.
Proof.
  revert db. induction p as [a|X op k IH]; intros db; simpl; [done|]. intros Hp.
  destruct (op db) as [r db']. by apply IH.
Qed.
Lemma each_ret_bind {A B} (P : B -> Prop) (p : Prog A) (f : A -> Prog B) :
  (forall a, each_ret P (f a)) -> each_ret P (prog_bind p f).
Proof. intros Hf. induction p as [a|X op k IH]; simpl; auto. Qed.
Lemma each_ret_handler {E A B} (P : result E B -> Prop) (h : HandlerOf E A) (f : A -> HandlerOf E B) :
  (forall e, P (Err e)) -> (forall a, each_ret P (f a)) -> each_ret P (handler_bind h f).
Proof. intros He Hf. apply each_ret_bind. intros [a|e]; [apply Hf|apply He]. Qed.
(** Goes to the answers of a handler whose failures all satisfy [P]. *)
Ltac each_ret_step :=
  match goal with
  | |- each_ret _ (handler_bind (lift ?r) _) =>
      let E := fresh "E" in destruct r eqn:E; [rewrite lift_Ok_bind|done]
  | |- each_ret _ (handler_bind (reject_if ?c _) _) =>
      let E := fresh "E" in destruct c eqn:E; [done|]
  | |- each_ret _ (handler_bind _ _) => apply each_ret_handler; [done|intros ?]
  | |- each_ret _ (if ?c then _ else _) => let E := fresh "E" in destruct c eqn:E
  end.

(** *** Handlers that change nothing when they fail *)

Definition keeps_on_error {E A} (h : HandlerOf E A) : Prop :=
  forall db e db', run h db = (Err e, db') -> db' = db.
Lemma keeps_on_error_bind {E A B} (h : HandlerOf E A) (f : A -> HandlerOf E B) :
  each_op (fun X op => reads op) h -> (forall a, keeps_on_error (f a)) ->
  keeps_on_error (handler_bind h f).
Proof.
  intros Hh Hf db e db'. unfold handler_bind. rewrite run_bind.
  pose proof (each_reads_run h db Hh) as Hdb. destruct (run h db) as [[a|e'] db1]; simpl in Hdb; subst.
  - apply Hf.
  - by intros [= _ <-].
Qed.
Lemma keeps_on_error_lift {E A} (r : result E A) : keeps_on_error (lift r).
Proof. by intros db e db' [= _ <-]. Qed.
(** The last change of a handler, when it changes nothing unless it succeeds
    with a value the rest accepts. *)
Lemma keeps_on_error_last {E} `{FromDatabaseError E} {X A} (op : DB X) (c : X -> bool) (e : E) (a : X -> A) :
  (forall db e db', op db = (Err e, db') -> db' = db) ->
  (forall db x db', op db = (Ok x, db') -> c x = true -> db' = db) ->
  keeps_on_error (do! x := query op in do! _ := reject_if (c x) e in succeed (a x)).
Proof.
  intros He Hf db e' db'. simpl. destruct (op db) as [[x|e''] db1] eqn:Eo; simpl.
  - destruct (c x) eqn:Ec; intros [= _ <-]. eauto.
  - intros [= _ <-]. eauto.
Qed.

(** Where a handler failed. *)
Lemma reads_then_Err {E A B} (h : HandlerOf E A) (f : A -> HandlerOf E B) db e db' :
  each_op (fun X op => reads op) h -> run (handler_bind h f) db = (Err e, db') ->
  db' = db \/ exists a, run h db = (Ok a, db) /\ run (f a) db = (Err e, db').
Proof.
  intros Hh. unfold handler_bind. rewrite run_bind. pose proof (each_reads_run h db Hh) as Hdb.
  destruct (run h db) as [[a|e'] db1]; simpl in Hdb; subst; [eauto|]. intros [= _ <-]. by left.
Qed.

Create HintDb reads.
Ltac keeps_step :=
  match goal with
  | |- keeps_on_error (handler_bind (lift _) _) => apply keeps_on_error_bind; [exact I|intros ?]
  | |- keeps_on_error (handler_bind (some_or _ _) _) => apply keeps_on_error_bind; [exact I|intros ?]
  | |- keeps_on_error (handler_bind (reject_if ?c _) _) =>
      apply keeps_on_error_bind; [by destruct c|intros ?]
  | |- keeps_on_error (handler_bind (query _) _) =>
      apply keeps_on_error_bind; [apply each_op_query; done|intros ?]
  | |- keeps_on_error (handler_bind _ _) =>
      apply keeps_on_error_bind; [solve [auto with reads]|intros ?]
  | |- keeps_on_error (succeed _) => apply keeps_on_error_lift
  | |- keeps_on_error (fail _) => apply keeps_on_error_lift
  end.

(** *** At most one winner

    [flag] is raised by a claiming statement that answers "claimed" and no
    statement of the pool lowers it; a claim cannot succeed once it is up.  A
    program is [guarded] when it cannot end in success without such an
    answer. *)
Section claims.
  Context (flag : Database -> Prop) (claims : forall X, DB X -> (X -> Prop) -> Prop).
  Context (claim_raises : forall X (op : DB X) won db x db',
    claims X op won -> op db = (Ok x, db') -> won x -> ~ flag db /\ flag db').

Definition keeps_flag X (op : DB X) : Prop := forall db, flag db -> flag (op db).2.

Fixpoint guarded {A} (success : A -> Prop) (p : Prog A) : Prop :=
  match p with
  | Ret a => ~ success a
  | Step op k => keeps_flag _ op
      /\ ((forall r, guarded success (k r))
          \/ exists won, claims _ op won /\ (forall x, won x \/ ~ won x)
             /\ (forall r, (forall x, r = Ok x -> ~ won x) -> guarded success (k r))
             /\ forall r, each_op keeps_flag (k r))
  end.

Lemma keeps_attempt X (op : DB X) f db r db' :
  keeps_flag X op -> attempt f op db = (r, db') -> flag db -> flag db'.
Proof.
  intros Hk Ha Hf. specialize (Hk db Hf).
  destruct f; simpl in Ha; [rewrite Ha in Hk|injection Ha as _ <-|injection Ha as _ <-]; done.
Qed.

(** The pool is guarded except for at most one program, and one only if the
    flag is up. *)
Definition at_most_one {A} (success : A -> Prop) (s : list (Prog A) * Database) : Prop :=
  Forall (guarded success) s.1
  \/ flag s.2 /\ exists before p after, s.1 = before ++ p :: after
     /\ each_op keeps_flag p /\ Forall (guarded success) (before ++ after).

Lemma guarded_after {A} (success : A -> Prop) X (op : DB X) k f db r db' :
  guarded success (Step op k) -> attempt f op db = (r, db') ->
  (flag db -> flag db')
  /\ (guarded success (k r) \/ ~ flag db /\ flag db' /\ each_op keeps_flag (k r)).
Proof.
  intros [Hk [Hr|(won & Hc & Hdec & Hr & He)]] Ha.
  - split; [by eapply keeps_attempt|]. by left.
  - split; [by eapply keeps_attempt|]. destruct r as [x|e]; [|left; apply Hr; congruence].
    destruct (Hdec x) as [Hw|Hw]; [|left; apply Hr; intros ? [= <-]; done].
    right. destruct f; [|done|done]. simpl in Ha.
    destruct (claim_raises _ _ _ _ _ _ Hc Ha Hw). split_and!; [done|done|]. apply He.
Qed.

Lemma app_cons_split {B} (b1 a1 b2 a2 : list B) x y :
  b1 ++ x :: a1 = b2 ++ y :: a2 ->
  (b1 = b2 /\ x = y /\ a1 = a2)
  \/ (exists l, b2 = b1 ++ x :: l /\ a1 = l ++ y :: a2)
  \/ (exists l, b1 = b2 ++ y :: l /\ a2 = l ++ x :: a1).
Proof.
  revert b2. induction b1 as [|q b1 IH]; intros [|q' b2] Heq; simpl in *; simplify_eq.
  - by left.
  - right. left. by exists b2.
  - right. right. by exists b1.
  - destruct (IH b2) as [(-> & ? & ?)|[(l & -> & ?)|(l & -> & ?)]]; subst; eauto 6.
Qed.

Lemma at_most_one_step {A} (success : A -> Prop) s s' :
  pool_step s s' -> at_most_one success s -> at_most_one success s'.
Proof.
  intros [f before after X op k db r db' Ha]. unfold at_most_one. simpl. intros [Hall|(Hf & b & p & a & Heq & Hp & Hall)].
  - apply Forall_app in Hall as [H1 H2]. apply Forall_cons in H2 as [Hg H2].
    destruct (guarded_after _ _ _ _ _ _ _ _ Hg Ha) as [_ [Hk|(_ & Hf & He)]].
    + left. apply Forall_app. split; [done|]. by constructor.
    + right. split; [done|]. exists before, (k r), after. split_and!; [done|done|].
      apply Forall_app. done.
  - assert (Hsplit : (before = b /\ Step op k = p /\ after = a)
      \/ (exists l, b = before ++ Step op k :: l /\ after = l ++ p :: a)
      \/ (exists l, before = b ++ p :: l /\ a = l ++ Step op k :: after)).
    { by apply app_cons_split. }
    destruct Hsplit as [(-> & <- & ->)|[(l & -> & ->)|(l & -> & ->)]].
    + right. simpl in Hp. destruct Hp as [Hk Hp]. split; [by eapply keeps_attempt|].
      exists b, (k r), a. done.
    + rewrite <- app_assoc in Hall. apply Forall_app in Hall as [H1 H2]. apply Forall_cons in H2 as [Hg H2].
      destruct (guarded_after _ _ _ _ _ _ _ _ Hg Ha) as [Hkf [Hk|(Hn & _)]]; [|done].
      right. split; [auto|]. exists (before ++ k r :: l), p, a. rewrite <- app_assoc.
      split_and!; [done|done|]. rewrite <- app_assoc. apply Forall_app. split; [done|]. by constructor.
    + rewrite app_assoc in Hall. apply Forall_app in Hall as [H1 H2]. apply Forall_cons in H2 as [Hg H2].
      destruct (guarded_after _ _ _ _ _ _ _ _ Hg Ha) as [Hkf [Hk|(Hn & _)]]; [|done].
      right. split; [auto|]. exists b, p, (l ++ k r :: after). rewrite <- app_assoc.
      split_and!; [done|done|]. rewrite app_assoc. apply Forall_app. split; [done|]. by constructor.
Qed.

(** Of a pool of guarded programs at most one ever ends in success. *)
Lemma one_winner {A} (success : A -> Prop) ps db ps' db' :
  rtc pool_step (ps, db) (ps', db') -> Forall (guarded success) ps ->
  forall i j a b, ps' !! i = Some (Ret a) -> ps' !! j = Some (Ret b) ->
    success a -> success b -> i = j.
Proof.
  intros Hs Hg i j a b Hi Hj Ha Hb.
  assert (at_most_one success (ps', db')) as Hinv.
  { assert (at_most_one success (ps, db)) as H0 by (by left).
    remember (ps, db) as s eqn:E1. remember (ps', db') as s' eqn:E2. clear E1 E2 Hg Hi Hj.
    induction Hs as [|s1 s2 s3 Hst _ IH]; [done|]. apply IH. by eapply at_most_one_step. }
  destruct Hinv as [Hall|(_ & bef & p & aft & Heq & _ & Hall)]; simpl in *.
  - by destruct (Forall_lookup_1 _ _ _ _ Hall Hi Ha).
  - assert (Hpos : forall i a, ps' !! i = Some (Ret a) -> success a -> i = length bef).
    { intros n c Hn Hc. rewrite Heq in Hn. apply Forall_app in Hall as [H1 H2].
      destruct (decide (n = length bef)) as [|Hne]; [done|exfalso].
      apply lookup_app_Some in Hn as [Hn|[Hle Hn]].
      - exact (Forall_lookup_1 _ _ _ _ H1 Hn Hc).
      - destruct (n - length bef) as [|m] eqn:E; [lia|]. simpl in Hn.
        exact (Forall_lookup_1 _ _ _ _ H2 Hn Hc). }
    rewrite (Hpos i a), (Hpos j b); done.
Qed.

(** **** Building guarded programs *)

Lemma reads_keeps_flag X (op : DB X) : reads op -> keeps_flag X op.
Proof. intros Hr db Hf. by rewrite Hr. Qed.
Lemma each_op_guarded {A} (success : A -> Prop) (p : Prog A) :
  (forall a, ~ success a) -> each_op keeps_flag p -> guarded success p.
Proof. intros Hn. induction p as [a|X op k IH]; simpl; [auto|]. intros [Hk He]. split; [done|]. left. auto. Qed.
Lemma guarded_impl {A} (s1 s2 : A -> Prop) (p : Prog A) :
  (forall a, s2 a -> s1 a) -> guarded s1 p -> guarded s2 p.
Proof.
  intros Hs. induction p as [a|X op k IH]; simpl; [auto|].
  intros [Hk [Hr|(won & Hc & Hd & Hr & He)]]; split; try done; [left; auto|right].
  exists won. split_and!; auto.
Qed.
(** Relabelling the outcome. *)
Lemma guarded_relabel {A B} (s : A -> Prop) (success : B -> Prop) (p : Prog A) (f : A -> Prog B) :
  (forall a, exists b, f a = Ret b /\ (success b -> s a)) ->
  guarded s p -> guarded success (prog_bind p f).
Proof.
  intros Hf. assert (Hret : forall P a, each_op P (f a)).
  { intros P a. by destruct (Hf a) as (b & -> & _). }
  induction p as [a|X op k IH]; simpl.
  - destruct (Hf a) as (b & -> & Hb). simpl. auto.
  - intros [Hk [Hr|(won & Hc & Hd & Hr & He)]]; split; try done; [left; auto|right].
    exists won. split_and!; auto. intros r. by apply each_op_bind.
Qed.
Lemma guarded_map {A B} (success : B -> Prop) (p : Prog A) (g : A -> B) :
  guarded (fun a => success (g a)) p -> guarded success (prog_bind p (fun a => Ret (g a))).
Proof. apply guarded_relabel. eauto. Qed.
Lemma guarded_bind {A B} (success : result ApiError B -> Prop) (h : Handler A) (f : A -> Handler B) :
  (forall e, ~ success (Err e)) -> each_op keeps_flag h -> (forall a, guarded success (f a)) ->
  guarded success (handler_bind h f).
Proof.
  intros Hn Hh Hf. unfold handler_bind. induction h as [r|X op k IH]; simpl in *.
  - destruct r; [auto|by apply Hn].
  - destruct Hh as [Hk He]. split; [done|]. left. auto.
Qed.
Lemma guarded_claim {X B} (success : result ApiError B -> Prop) (op : DB X) won (f : X -> Handler B) :
  (forall e, ~ success (Err e)) -> keeps_flag X op -> claims X op won ->
  (forall x, won x \/ ~ won x) -> (forall x, ~ won x -> guarded success (f x)) ->
  (forall x, each_op keeps_flag (f x)) -> guarded success (handler_bind (query op) f).
Proof.
  intros Hn Hk Hc Hd Hf He. simpl. split; [done|]. right. exists won. split_and!; [done|done| |].
  - intros [x|e] Hx; simpl; [by apply Hf, Hx|by apply Hn].
  - by intros [x|e]; simpl.
Qed.
End claims.

(** Goes through the parts of a handler before its claim. *)
Ltac guarded_step :=
  match goal with
  | |- guarded _ _ _ (handler_bind (query _) _) => fail 1
  | |- guarded _ _ _ (handler_bind _ _) => apply guarded_bind; [by intros ? []| |intros ?]
  end.
