(* ===== verification/KeyStore.v ===== *)
(** * Signing keys

    [crates/database]'s signing_keys.rs and [crates/oidc]'s signing/keys.rs:
    the key table with its single active key, encryption of the private key
    under the key encryption key, and its rotation.  AES-GCM is not under
    src/: [AesGcm] names [encrypt] and [decrypt] over a key, a nonce and
    additional data. *)

From S2P Require Import Prelude RustStr Domain Oidc Codec Store SessionStore.

Class AesGcm := {
  KeyEncryptionKey : Type;
  aes_encrypt : KeyEncryptionKey -> string -> string -> string -> option string;
  aes_decrypt : KeyEncryptionKey -> string -> string -> string -> option string;
}.

Definition key_set_active (v : bool) (k : SigningKeyMaterialRow) : SigningKeyMaterialRow :=
  mk_SigningKeyMaterialRow (key_row_kid k) (key_row_algorithm k) (key_row_public_jwk k)
    (key_row_private_key_ciphertext k) (key_row_private_key_nonce k) v (key_row_created_at k)
    (key_row_retired_at k).
Definition key_set_secret (ciphertext nonce : string) (k : SigningKeyMaterialRow)
    : SigningKeyMaterialRow :=
  mk_SigningKeyMaterialRow (key_row_kid k) (key_row_algorithm k) (key_row_public_jwk k)
    (Some ciphertext) (Some nonce) (key_row_signing_active k) (key_row_created_at k)
    (key_row_retired_at k).
Definition key_retire (at_ : OffsetDateTime) (k : SigningKeyMaterialRow) : SigningKeyMaterialRow :=
  mk_SigningKeyMaterialRow (key_row_kid k) (key_row_algorithm k) (key_row_public_jwk k)
    (key_row_private_key_ciphertext k) (key_row_private_key_nonce k) false (key_row_created_at k)
    (Some at_).
Definition key_row_of (k : SigningKeyMaterial) : SigningKeyMaterialRow :=
  mk_SigningKeyMaterialRow (key_kid k) (key_algorithm k) (key_public_jwk k)
    (Some (key_private_key_ciphertext k)) (Some (key_private_key_nonce k)) (key_signing_active k)
    (key_created_at k) (key_retired_at k).

(** ** The table *)

(* crates/domain/src/signing.rs:6-15 SigningKey *)
Record SigningKey := mk_SigningKey {
  signing_kid : string;
  signing_algorithm : string;
  signing_public_jwk_ : Value;
  signing_signing_active : bool;
  signing_created_at : OffsetDateTime;
  signing_retired_at : option OffsetDateTime;
}.
(* crates/database/src/rows/signing.rs:18-29 From<SigningKeyRow> for SigningKey *)
Definition signing_key_of_row (row : SigningKeyMaterialRow) : SigningKey :=
  mk_SigningKey (key_row_kid row) (key_row_algorithm row) (key_row_public_jwk row)
    (key_row_signing_active row) (key_row_created_at row) (key_row_retired_at row).

(** [ORDER BY signing_active DESC, created_at DESC] and [ORDER BY created_at DESC]. *)
Definition newest_first (a b : SigningKeyMaterialRow) : bool :=
  (key_row_created_at b <=? key_row_created_at a)%Z.
Definition active_then_newest (a b : SigningKeyMaterialRow) : bool :=
  match key_row_signing_active a, key_row_signing_active b with
  | true, false => true
  | false, true => false
  | _, _ => newest_first a b
  end.
Definition has_secret (k : SigningKeyMaterialRow) : bool :=
  is_some (key_row_private_key_ciphertext k) && is_some (key_row_private_key_nonce k).
Definition usable (k : SigningKeyMaterialRow) : bool :=
  key_row_signing_active k && is_none (key_row_retired_at k) && has_secret k.

(* crates/database/src/signing_keys.rs:11-24 active_jwks *)
Definition active_jwks : DB (list SigningKey) :=
  db_gets (fun db => signing_key_of_row <$>
    order_by active_then_newest
      (select_where (fun k => is_none (key_row_retired_at k)) (t_signing_keys db))).
(* crates/database/src/signing_keys.rs:26-38 list_signing_keys *)
Definition list_signing_keys : DB (list SigningKey) :=
  db_gets (fun db => signing_key_of_row <$>
    order_by newest_first (select_where (fun _ => true) (t_signing_keys db))).

(** The result of decoding a row ends the statement. *)
Definition db_result {A} (r : result DatabaseError A) : DB A := fun db => (r, db).
(* crates/database/src/signing_keys.rs:80-99 active_signing_key *)
Definition active_signing_key : DB (option SigningKeyMaterial) := fun db =>
  match order_by newest_first (select_where usable (t_signing_keys db)) with
  | [] => (Ok None, db)
  | row :: _ => db_result (Some <$> try_into_material row) db
  end.
(* crates/database/src/signing_keys.rs:101-120 list_encrypted_signing_key_materials *)
Definition list_encrypted_signing_key_materials : DB (list SigningKeyMaterial) := fun db =>
  db_result (collect_results try_into_material
    (order_by newest_first (select_where has_secret (t_signing_keys db)))) db.

(* crates/database/src/rows/email.rs:17-21 ReencryptedEmailOutboxDeliveryToken *)
Record ReencryptedEmailOutboxDeliveryToken := mk_ReencryptedEmailOutboxDeliveryToken {
  reencrypted_id : Uuid;
  reencrypted_delivery_token_ciphertext : string;
  reencrypted_delivery_token_nonce : string;
}.
Definition email_set_delivery_token (ciphertext nonce : string) (now : OffsetDateTime)
    (m : EmailOutboxMessage) : EmailOutboxMessage :=
  mk_EmailOutboxMessage (email_id m) (email_organization_id m) (email_recipient_email m)
    (email_subject m) (email_body_text m) (email_template m) (email_action_path m)
    (Some ciphertext) (Some nonce) (email_status m) (email_attempts m) (email_last_error m)
    (email_provider_message_id m) (email_metadata m) (email_created_at m) now
    (email_next_attempt_at m) (email_sent_at m).

Fixpoint rotate_keys (keys : list SigningKeyMaterial) : DB unit :=
  match keys with
  | [] => db_ret tt
  | k :: rest =>
      let! _ := update_key t_signing_keys on_signing_keys (key_kid k) (fun _ => true)
                  (key_set_secret (key_private_key_ciphertext k) (key_private_key_nonce k)) in
      rotate_keys rest
  end.
Fixpoint rotate_tokens (now : OffsetDateTime) (tokens : list ReencryptedEmailOutboxDeliveryToken)
    : DB unit :=
  match tokens with
  | [] => db_ret tt
  | t :: rest =>
      let! _ := update_key t_email_outbox on_email_outbox (reencrypted_id t) (fun _ => true)
                  (email_set_delivery_token (reencrypted_delivery_token_ciphertext t)
                     (reencrypted_delivery_token_nonce t) now) in
      rotate_tokens now rest
  end.
(** [now] is the database's [NOW()]. *)
(* crates/database/src/signing_keys.rs:142-184 apply_key_encryption_rotation *)
Definition apply_key_encryption_rotation (now : OffsetDateTime)
    (signing_keys : list SigningKeyMaterial)
    (email_delivery_tokens : list ReencryptedEmailOutboxDeliveryToken) : DB unit :=
  transaction (
    let! _ := rotate_keys signing_keys in
    let! _ := rotate_tokens now email_delivery_tokens in
    commit tt).

(** The partial unique index on [signing_active]. *)
Definition no_other_active (db : Database) (kid : string) : bool :=
  bool_decide (map_Forall (fun k row => k <> kid -> key_row_signing_active row = false)
                 (t_signing_keys db)).
(* crates/database/src/signing_keys.rs:186-229 upsert_signing_key_material *)
Definition upsert_signing_key_material (key : SigningKeyMaterial) : DB unit :=
  transaction (
    let! _ := if key_signing_active key
              then update_rows t_signing_keys on_signing_keys key_row_signing_active
                     (key_set_active false)
              else db_ret 0 in
    let! _ := db_check (fun db => negb (key_signing_active key) || no_other_active db (key_kid key))
                UniqueViolation in
    let! _ := db_modify (on_signing_keys (<[key_kid key := key_row_of key]>)) in
    commit tt).
(* crates/database/src/signing_keys.rs:231-249 retire_signing_key *)
Definition retire_signing_key (kid : string) (retired_at : OffsetDateTime) : DB bool :=
  update_key t_signing_keys on_signing_keys kid (fun k => is_none (key_row_retired_at k))
    (key_retire retired_at).

(** ** Private keys *)

Section encryption.
Context {AG : AesGcm}.

(* crates/oidc/src/signing/keys.rs:146-148 signing_key_aad *)
Definition signing_key_aad (key_id : string) : string :=
  "cairnid:oidc-signing-key:" +:+ key_id +:+ ":RS256".

(* crates/oidc/src/signing/keys.rs:117-144 decrypt_signing_private_key_pem *)
Definition decrypt_signing_private_key_pem (stored : SigningKeyMaterial) (key : KeyEncryptionKey)
    : result OidcError string :=
  if negb (Nat.eqb (String.length (key_private_key_nonce stored)) 12) then Err InvalidSigningKey
  else
    let? plaintext :=
      ok_or (aes_decrypt key (key_private_key_nonce stored) (signing_key_aad (key_kid stored))
               (key_private_key_ciphertext stored)) SigningKeyDecryption in
    if utf8_valid plaintext then Ok plaintext else Err InvalidSigningKey.

(** [nonce] is the one [generate_nonce] returns. *)
(* crates/oidc/src/signing/keys.rs:37-64 encrypt_signing_material *)
Definition encrypt_signing_material (nonce : string) (now : OffsetDateTime)
    (signing : SigningMaterial) (key : KeyEncryptionKey) : result OidcError SigningKeyMaterial :=
  let aad := signing_key_aad (signing_key_id signing) in
  let? ciphertext :=
    ok_or (aes_encrypt key nonce aad (signing_private_key_pem signing)) SigningKeyEncryption in
  Ok (mk_SigningKeyMaterial (signing_key_id signing) "RS256" (signing_public_jwk signing)
        ciphertext nonce true now None).

(* crates/oidc/src/signing/keys.rs:66-80 decrypt_signing_material *)
Definition decrypt_signing_material (stored : SigningKeyMaterial) (key : KeyEncryptionKey)
    : result OidcError SigningMaterial :=
  if negb (bool_decide (key_algorithm stored = "RS256")) || is_some (key_retired_at stored)
  then Err InvalidSigningKey
  else
    let? private_key_pem := decrypt_signing_private_key_pem stored key in
    Ok (mk_SigningMaterial (key_kid stored) private_key_pem (key_public_jwk stored)).

(* crates/oidc/src/signing/keys.rs:82-115 reencrypt_signing_key_material *)
Definition reencrypt_signing_key_material (nonce : string) (stored : SigningKeyMaterial)
    (old_key new_key : KeyEncryptionKey) : result OidcError SigningKeyMaterial :=
  if negb (bool_decide (key_algorithm stored = "RS256")) then Err InvalidSigningKey
  else
    let? private_key_pem := decrypt_signing_private_key_pem stored old_key in
    let? ciphertext :=
      ok_or (aes_encrypt new_key nonce (signing_key_aad (key_kid stored)) private_key_pem)
        SigningKeyEncryption in
    Ok (mk_SigningKeyMaterial (key_kid stored) (key_algorithm stored) (key_public_jwk stored)
          ciphertext nonce (key_signing_active stored) (key_created_at stored)
          (key_retired_at stored)).

(* crates/oidc/src/signing/encryption.rs:16-19 EncryptedSecret *)
Record EncryptedSecret := mk_EncryptedSecret {
  encrypted_ciphertext : string;
  encrypted_nonce : string;
}.
(* crates/oidc/src/signing/encryption.rs:53-74 encrypt_secret *)
Definition encrypt_secret (nonce secret : string) (key : KeyEncryptionKey) (aad : string)
    : result OidcError EncryptedSecret :=
  let? ciphertext := ok_or (aes_encrypt key nonce aad secret) SecretEncryption in
  Ok (mk_EncryptedSecret ciphertext nonce).
(* crates/oidc/src/signing/encryption.rs:76-103 decrypt_secret *)
Definition decrypt_secret (encrypted : EncryptedSecret) (key : KeyEncryptionKey) (aad : string)
    : result OidcError string :=
  if negb (Nat.eqb (String.length (encrypted_nonce encrypted)) 12) then Err SecretDecryption
  else
    let? plaintext :=
      ok_or (aes_decrypt key (encrypted_nonce encrypted) aad (encrypted_ciphertext encrypted))
        SecretDecryption in
    if utf8_valid plaintext then Ok plaintext else Err SecretDecryption.
End encryption.

(** ** Properties *)

(** The rows of [signing_keys] are under their key ids. *)
Definition signing_keys_keyed (db : Database) : Prop :=
  map_Forall (fun kid row => key_row_kid row = kid) (t_signing_keys db).
(** At most one key signs. *)
Definition single_active (db : Database) : Prop :=
  forall k1 k2 r1 r2, t_signing_keys db !! k1 = Some r1 -> t_signing_keys db !! k2 = Some r2 ->
    key_row_signing_active r1 = true -> key_row_signing_active r2 = true -> k1 = k2.

Inductive key_op : forall A, DB A -> Prop :=
| op_upsert_key k : key_op _ (upsert_signing_key_material k)
| op_retire_key kid at_ : key_op _ (retire_signing_key kid at_)
| op_rotate_keys now ks ts : key_op _ (apply_key_encryption_rotation now ks ts).

(** The active flags after a statement are among those before. *)
Definition activates_nothing (db db' : Database) : Prop :=
  forall k r, t_signing_keys db' !! k = Some r -> key_row_signing_active r = true ->
    exists r0, t_signing_keys db !! k = Some r0 /\ key_row_signing_active r0 = true.
Lemma activates_nothing_single db db' :
  activates_nothing db db' -> single_active db -> single_active db'.
Proof.
  intros Ha Hs k1 k2 r1 r2 H1 H2 A1 A2. destruct (Ha _ _ H1 A1) as (s1 & ? & ?).
  destruct (Ha _ _ H2 A2) as (s2 & ? & ?). eauto.
Qed.
Lemma update_key_activates_nothing kid P f db r db' :
  (forall k, key_row_signing_active (f k) = true -> key_row_signing_active k = true) ->
  update_key t_signing_keys on_signing_keys kid P f db = (r, db') -> activates_nothing db db'.
Proof.
  intros Hf. unfold update_key, db_apply. destruct (update_row _ _ _ _) as [b rows] eqn:E.
  intros [= _ <-] k row. cbn. destruct b.
  - apply update_row_true in E as (v & Hv & _ & ->).
    intros [[<- <-]|[_ Hk]]%lookup_insert_Some Hact; eauto.
  - apply update_row_false in E as [-> _]. eauto.
Qed.
Lemma rotate_keys_activates_nothing ks db r db' :
  rotate_keys ks db = (r, db') -> activates_nothing db db'.
Proof.
  revert db. induction ks as [|k ks IH]; simpl; intros db H.
  - injection H as _ <-. intros ? ?. eauto.
  - unfold db_bind in H. destruct (update_key _ _ _ _ _ db) as [[b|e] db1] eqn:E;
      [|unfold update_key, db_apply in E; by destruct (update_row _ _ _ _)].
    apply update_key_activates_nothing in E; [|done]. intros k' r' Hk' Ha.
    destruct (IH _ H _ _ Hk' Ha) as (r1 & Hr1 & Ha1). eauto.
Qed.
Lemma update_key_total {K V} `{Countable K} (get : Database -> gmap K V) on k P f db :
  exists b db', update_key get on k P f db = (Ok b, db').
Proof. unfold update_key, db_apply. destruct (update_row _ _ _ _). eauto. Qed.
Lemma rotate_keys_total ks db : exists db', rotate_keys ks db = (Ok tt, db').
Proof.
  revert db. induction ks as [|k ks IH]; simpl; intros db; [by eexists|]. unfold db_bind.
  destruct (update_key_total t_signing_keys on_signing_keys (key_kid k) (fun _ => true)
    (key_set_secret (key_private_key_ciphertext k) (key_private_key_nonce k)) db) as (b & db1 & ->). eauto.
Qed.
Lemma rotate_tokens_total now ts db : exists db', rotate_tokens now ts db = (Ok tt, db').
Proof.
  revert db. induction ts as [|t ts IH]; simpl; intros db; [by eexists|]. unfold db_bind.
  destruct (update_key_total t_email_outbox on_email_outbox (reencrypted_id t) (fun _ => true)
    (email_set_delivery_token (reencrypted_delivery_token_ciphertext t)
       (reencrypted_delivery_token_nonce t) now) db) as (b & db1 & ->). eauto.
Qed.
Lemma rotate_tokens_keys now ts db r db' :
  rotate_tokens now ts db = (r, db') -> t_signing_keys db' = t_signing_keys db.
Proof.
  revert db. induction ts as [|t ts IH]; simpl; intros db H.
  - by injection H as _ <-.
  - unfold db_bind, update_key, db_apply in H. destruct (update_row _ _ _ _) in H.
    by rewrite (IH _ H).
Qed.

(** What [active_signing_key] answers. *)
Lemma active_signing_key_spec db :
  exists o, active_signing_key db = (Ok o, db)
  /\ (o = None -> forall k row, t_signing_keys db !! k = Some row -> usable row = false)
  /\ forall m, o = Some m -> exists k row, t_signing_keys db !! k = Some row
       /\ key_row_signing_active row = true /\ key_row_retired_at row = None
       /\ try_into_material row = Ok m.
Proof.
  unfold active_signing_key, db_result.
  destruct (order_by newest_first (select_where usable (t_signing_keys db))) as [|row l] eqn:E.
  - exists None. split_and!; [done| |done]. intros _ k row Hk. apply not_true_iff_false. intros Hu.
    assert (row ∈ order_by newest_first (select_where usable (t_signing_keys db))) as Hin.
    { apply elem_of_order_by, elem_of_select_where. eauto. }
    rewrite E in Hin. by apply not_elem_of_nil in Hin.
  - assert (row ∈ select_where usable (t_signing_keys db)) as (k & Hk & Hu)%elem_of_select_where.
    { rewrite <- (elem_of_order_by newest_first), E. left. }
    unfold usable, has_secret in Hu. bool_prop.
    destruct row as [kid alg jwk [c|] [n|] act cr ret]; simpl in *; try done.
    destruct ret; [done|]. eexists. split_and!; [done|done|]. intros m [= <-].
    eexists _, _. split_and!; [exact Hk|done..].
Qed.

Lemma upsert_single_active k db :
  single_active db -> exists db', upsert_signing_key_material k db = (Ok tt, db') /\ single_active db'.
Proof.
  intros Hs. unfold upsert_signing_key_material, transaction, db_bind, update_rows, db_apply, db_check,
    db_ret, db_modify, commit.
  destruct (key_signing_active k) eqn:Ek; simpl.
  - assert (Hoff : forall kid row, update_where key_row_signing_active (key_set_active false)
      (t_signing_keys db) !! kid = Some row -> key_row_signing_active row = false).
    { intros kid row (v & _ & ->)%lookup_update_where_Some.
      destruct (key_row_signing_active v) eqn:E; done. }
    unfold no_other_active. rewrite bool_decide_true by (intros kid row Hrow _; by eapply Hoff).
    eexists. split; [done|]. intros k1 k2 r1 r2 H1 H2 A1 A2. cbn in H1, H2.
    apply lookup_insert_Some in H1 as [[<- _]|[_ H1%Hoff]]; [|congruence].
    apply lookup_insert_Some in H2 as [[<- _]|[_ H2%Hoff]]; [done|congruence].
  - eexists. split; [done|]. eapply activates_nothing_single; [|done].
    intros kid row. cbn. intros [[<- <-]|[_ Hk]]%lookup_insert_Some Hact; [|eauto].
    simpl in Hact. congruence.
Qed.
Lemma rotation_single_active now ks ts db :
  single_active db ->
  exists db', apply_key_encryption_rotation now ks ts db = (Ok tt, db') /\ single_active db'.
Proof.
  intros Hs. unfold apply_key_encryption_rotation, transaction, db_bind.
  destruct (rotate_keys_total ks db) as [db1 E1]. rewrite E1.
  destruct (rotate_tokens_total now ts db1) as [db2 E2]. rewrite E2.
  eexists. split; [done|]. eapply activates_nothing_single; [|done]. intros kid row Hk Ha.
  rewrite (rotate_tokens_keys _ _ _ _ _ E2) in Hk.
  exact (rotate_keys_activates_nothing _ _ _ _ E1 kid row Hk Ha).
Qed.

(** At most one signing key is ever active: every operation on the key
    table keeps it so and none of them ever fails, the unique index that says
    so included.  The key the service signs with is that one: it is active,
    not retired, and its encrypted private key is there, and there is none
    only if no such key exists. *)
Theorem single_active_signing_key A (c : DB A) db r db' :
  key_op A c -> single_active db -> c db = (r, db') ->
  single_active db' /\ (exists a, r = Ok a)
  /\ exists o, active_signing_key db' = (Ok o, db')
     /\ (o = None -> forall k row, t_signing_keys db' !! k = Some row -> usable row = false)
     /\ forall m, o = Some m -> exists k row, t_signing_keys db' !! k = Some row
          /\ key_row_signing_active row = true /\ key_row_retired_at row = None
          /\ try_into_material row = Ok m.
Proof.
  intros Hop Hs H.
  cut (single_active db' /\ exists a, r = Ok a).
  { intros [H1 H2]. split_and!; [done|done|]. apply active_signing_key_spec. }
  destruct Hop.
  - destruct (upsert_single_active k db Hs) as (db1 & E & H1). rewrite E in H. injection H as <- <-. eauto.
  - split; [|destruct (update_key_total t_signing_keys on_signing_keys kid
      (fun k => is_none (key_row_retired_at k)) (key_retire at_) db) as (b & db1 & E);
      unfold retire_signing_key in H; rewrite E in H; injection H as <- _; eauto].
    eapply activates_nothing_single; [|done].
    eapply update_key_activates_nothing; [|exact H]. done.
  - destruct (rotation_single_active now ks ts db Hs) as (db1 & E & H1). rewrite E in H.
    injection H as <- <-. eauto.
Qed.

(** The contract of AES-GCM the program relies on: what was encrypted under a
    key, nonce and additional data decrypts under the same. *)
Definition aes_round_trip (AG : AesGcm) : Prop :=
  forall k n a m c, aes_encrypt k n a m = Some c -> aes_decrypt k n a c = Some m.

Lemma encrypt_decrypt {AG : AesGcm} nonce secret key aad encrypted :
  aes_round_trip AG -> String.length nonce = 12%nat -> utf8_valid secret = true ->
  encrypt_secret nonce secret key aad = Ok encrypted -> decrypt_secret encrypted key aad = Ok secret.
Proof.
  intros Haes Hn Hutf H. apply result_bind_Ok in H as (c & Hc%ok_or_Ok & [= <-]).
  unfold decrypt_secret. simpl. rewrite Hn, (Haes _ _ _ _ _ Hc). simpl. by rewrite Hutf.
Qed.

(** Encrypted signing keys survive storage and rotation: a key encrypted
    with a 12-byte nonce decrypts to the same material; re-encrypting an
    unretired key under a new key encryption key keeps its id, its public key,
    its activity and its dates, and what the new key decrypts is exactly what
    the old one did.  Retired keys and keys of another algorithm never
    decrypt, whatever the key. *)
Theorem signing_key_rotation_round_trip (AG : AesGcm) nonce now signing k1 k2 stored stored' :
  aes_round_trip AG -> String.length nonce = 12%nat ->
  (utf8_valid (signing_private_key_pem signing) = true ->
   encrypt_signing_material nonce now signing k1 = Ok stored ->
   decrypt_signing_material stored k1 = Ok signing /\ key_signing_active stored = true)
  /\ (reencrypt_signing_key_material nonce stored k1 k2 = Ok stored' ->
      decrypt_signing_material stored' k2 = decrypt_signing_material stored k1
      /\ key_kid stored' = key_kid stored /\ key_public_jwk stored' = key_public_jwk stored
      /\ key_signing_active stored' = key_signing_active stored
      /\ key_created_at stored' = key_created_at stored
      /\ key_retired_at stored' = key_retired_at stored)
  /\ (key_retired_at stored <> None \/ key_algorithm stored <> "RS256" ->
      decrypt_signing_material stored k1 = Err InvalidSigningKey).
Proof.
  intros Haes Hn. split_and!.
  - intros Hutf. unfold encrypt_signing_material.
    rewrite result_bind_Ok. intros (c & Hc%ok_or_Ok & [= <-]).
    unfold decrypt_signing_material, decrypt_signing_private_key_pem. simpl.
    rewrite Hn, (Haes _ _ _ _ _ Hc). simpl. rewrite Hutf. simpl. by destruct signing.
  - unfold reencrypt_signing_key_material. destruct (bool_decide _) eqn:Ealg; [|done]. simpl.
    rewrite result_bind_Ok. intros (pem & Hpem & H).
    rewrite result_bind_Ok in H. destruct H as (c & Hc%ok_or_Ok & [= <-]).
    split_and!; try done. unfold decrypt_signing_material. simpl. rewrite Hpem, Ealg. simpl.
    destruct (is_some (key_retired_at stored)); [done|].
    unfold decrypt_signing_private_key_pem at 1. simpl. rewrite Hn, (Haes _ _ _ _ _ Hc). simpl.
    unfold decrypt_signing_private_key_pem in Hpem. destruct (negb _) in Hpem; [done|].
    apply result_bind_Ok in Hpem as (p & _ & Hp). destruct (utf8_valid p) eqn:Eu; [|done].
    injection Hp as ->. by rewrite Eu.
  - intros [Hr|Ha]; unfold decrypt_signing_material.
    + destruct (key_retired_at stored); [|done]. by rewrite orb_true_r.
    + by rewrite bool_decide_false.
Qed.
