(* ===== verification/RateLimit.v ===== *)
(** * Rate limiting

    [crates/database]'s rate_limit.rs and [apps/api]'s
    request_context/rate_limit.rs: failure buckets with a window, a threshold
    and a block, and the check that precedes an attempt.  [window] and
    [block_for] are [Duration]s in nanoseconds; instants do not overflow. *)

From S2P Require Import Prelude RustStr Domain Oidc Http Codec Store Handler.

(** ** Buckets *)

(* crates/database/src/rate_limit.rs:6-22 get_rate_limit_bucket *)
Definition get_rate_limit_bucket (key : string) : DB (option RateLimitBucket) :=
  db_gets (fun db => t_rate_limit_buckets db !! key).

Definition fresh_bucket (key purpose : string) (now : OffsetDateTime) : RateLimitBucket :=
  mk_RateLimitBucket key purpose 1 now None now.
Definition bucket_hit (now : OffsetDateTime) (b : RateLimitBucket) : RateLimitBucket :=
  mk_RateLimitBucket (bucket_key b) (bucket_purpose b) (bucket_attempts b + 1)
    (bucket_window_start b) (bucket_blocked_until b) now.
Definition bucket_block (until : OffsetDateTime) (b : RateLimitBucket) : RateLimitBucket :=
  mk_RateLimitBucket (bucket_key b) (bucket_purpose b) (bucket_attempts b)
    (bucket_window_start b) (Some until) (bucket_updated_at b).

(** The bucket a failure leaves. *)
Definition next_bucket (key purpose : string) (now : OffsetDateTime) (window : Z)
    (max_attempts : Z) (block_for : Z) (existing : option RateLimitBucket) : RateLimitBucket :=
  let bucket :=
    match existing with
    | Some bucket =>
        if (now <? bucket_window_start bucket + window)%Z then bucket_hit now bucket
        else fresh_bucket key purpose now
    | None => fresh_bucket key purpose now
    end in
  if (max_attempts <=? bucket_attempts bucket)%Z then bucket_block (now + block_for)%Z bucket
  else bucket.

(* crates/database/src/rate_limit.rs:24-92 record_rate_limit_failure *)
Definition record_rate_limit_failure (key purpose : string) (now : OffsetDateTime) (window : Z)
    (max_attempts : Z) (block_for : Z) : DB RateLimitBucket :=
  transaction (
    let! existing := get_rate_limit_bucket key in
    let bucket := next_bucket key purpose now window max_attempts block_for existing in
    let! _ := db_modify (on_rate_limit_buckets (<[bucket_key bucket := bucket]>)) in
    commit bucket).

(* crates/database/src/rate_limit.rs:94-100 clear_rate_limit_bucket *)
Definition clear_rate_limit_bucket (key : string) : DB unit :=
  db_modify (on_rate_limit_buckets (delete key)).

(** ** The API *)

(* apps/api/src/http/request_context/rate_limit.rs:9-12 RateLimitKey *)
Record RateLimitKey := mk_RateLimitKey { limit_key : string; limit_purpose : string }.

(** [whole_seconds] truncates towards zero. *)
(* apps/api/src/http/request_context/rate_limit.rs:40-42 retry_after_seconds *)
Definition retry_after_seconds (blocked_until now : OffsetDateTime) : Z :=
  Z.max ((blocked_until - now) ÷ 1000000000) 1.

(* apps/api/src/http/request_context/rate_limit.rs:20-38 enforce_rate_limit *)
Fixpoint enforce_rate_limit (now : OffsetDateTime) (keys : list RateLimitKey) : Handler unit :=
  match keys with
  | [] => succeed tt
  | key :: rest =>
      do! bucket := query (get_rate_limit_bucket (limit_key key)) in
      match bucket with
      | Some bucket =>
          if is_blocked bucket now then
            let blocked_until := default (now + duration_seconds 1)%Z (bucket_blocked_until bucket) in
            fail (api_rate_limited (retry_after_seconds blocked_until now))
          else enforce_rate_limit now rest
      | None => enforce_rate_limit now rest
      end
  end.

(* apps/api/src/http/request_context/rate_limit.rs:44-60 record_rate_limit_failure *)
Fixpoint record_rate_limit_failures (now : OffsetDateTime) (keys : list RateLimitKey)
    (window max_attempts block_for : Z) : Handler unit :=
  match keys with
  | [] => succeed tt
  | key :: rest =>
      do! _ := query (record_rate_limit_failure (limit_key key) (limit_purpose key) now window
                        max_attempts block_for) in
      record_rate_limit_failures now rest window max_attempts block_for
  end.

(** ** Properties *)

Lemma record_failure_run key purpose now window max block db :
  let b := next_bucket key purpose now window max block (t_rate_limit_buckets db !! key) in
  record_rate_limit_failure key purpose now window max block db
  = (Ok b, on_rate_limit_buckets (<[bucket_key b := b]>) db).
Proof. done. Qed.

Lemma next_bucket_key key purpose now window max block o :
  (forall b, o = Some b -> bucket_key b = key) ->
  bucket_key (next_bucket key purpose now window max block o) = key.
Proof.
  intros Ho. unfold next_bucket. destruct o as [b|]; [destruct (_ <? _)%Z|];
    destruct (_ <=? _)%Z; simpl; auto.
Qed.

Section lockout.
Context (key purpose : string) (window max_attempts block_for : Z).

(** A run of failures of one key, in order. *)
Fixpoint fail_at (times : list OffsetDateTime) (db : Database) : Database :=
  match times with
  | [] => db
  | t :: rest =>
      fail_at rest (record_rate_limit_failure key purpose t window max_attempts block_for db).2
  end.

(** The bucket counts the failures of its window that started at [start]. *)
Definition counting (start : OffsetDateTime) (n : Z) (db : Database) : Prop :=
  exists b, t_rate_limit_buckets db !! key = Some b /\ bucket_key b = key
    /\ bucket_window_start b = start /\ bucket_attempts b = n
    /\ ((n < max_attempts)%Z -> bucket_blocked_until b = None).

Lemma counting_step start n t db :
  counting start n db -> (t < start + window)%Z ->
  counting start (n + 1) (record_rate_limit_failure key purpose t window max_attempts block_for db).2
  /\ ((max_attempts <= n + 1)%Z -> exists b,
       t_rate_limit_buckets
         (record_rate_limit_failure key purpose t window max_attempts block_for db).2 !! key = Some b
       /\ bucket_blocked_until b = Some (t + block_for)%Z).
Proof.
  intros (b & Hb & Hk & Hs & Hn & Hnb) Ht. rewrite record_failure_run. rewrite Hb.
  assert (Hnk := next_bucket_key key purpose t window max_attempts block_for (Some b)
    ltac:(by intros ? [= <-])). cbn. rewrite Hnk. unfold counting. cbn. rewrite lookup_insert_eq.
  unfold next_bucket. rewrite Hs, (proj2 (Z.ltb_lt _ _) Ht).
  destruct (Z.leb_spec max_attempts (bucket_attempts (bucket_hit t b))) as [Hle|Hlt]; simpl in *; split.
  - eexists. split_and!; [done|done|done|simpl; lia|]. simpl. lia.
  - intros _. eexists. split; done.
  - eexists. split_and!; [done|done|done|simpl; lia|]. intros _. apply Hnb. lia.
  - lia.
Qed.

Lemma counting_run start n times db :
  counting start n db -> Forall (fun t => (t < start + window)%Z) times ->
  counting start (n + Z.of_nat (length times)) (fail_at times db).
Proof.
  revert n db. induction times as [|t times IH]; simpl; intros n db Hc Hts.
  - by rewrite Z.add_0_r.
  - apply Forall_cons in Hts as [Ht Hts]. destruct (counting_step _ _ _ _ Hc Ht) as [Hc' _].
    replace (n + Z.of_nat (S (length times)))%Z with (n + 1 + Z.of_nat (length times))%Z by lia.
    by apply IH.
Qed.

Lemma fail_at_app l1 l2 db : fail_at (l1 ++ l2) db = fail_at l2 (fail_at l1 db).
Proof. revert db. induction l1 as [|t l1 IH]; intros db; [done|]. apply IH. Qed.
End lockout.

(** What the check answers for one key. *)
Lemma enforce_one key now db :
  run (enforce_rate_limit now [key]) db
  = (match t_rate_limit_buckets db !! limit_key key with
     | Some b => if is_blocked b now
                 then Err (api_rate_limited (retry_after_seconds
                             (default (now + duration_seconds 1)%Z (bucket_blocked_until b)) now))
                 else Ok tt
     | None => Ok tt
     end, db).
Proof.
  simpl. destruct (t_rate_limit_buckets db !! limit_key key) as [b|]; [|done].
  simpl. by destruct (is_blocked b now).
Qed.

(** The limiter blocks after exactly [max_attempts] failures.  With no
    open bucket for the key, a run of failures inside one window leaves the
    attempt allowed as long as there are fewer than [max_attempts] of them;
    from the [max_attempts]-th on every attempt before the end of the block
    (counted from the last failure) is refused with status 429 and a
    [Retry-After] between one second and the block, whatever other keys say;
    after the block, and after the key is cleared, it is allowed again. *)
Theorem rate_limit_lockout key purpose window max_attempts block_for t0 times last now db :
  (1 < max_attempts)%Z -> t_rate_limit_buckets db !! key = None ->
  Forall (fun t => (t < t0 + window)%Z) (times ++ [last]) ->
  let db' := fail_at key purpose window max_attempts block_for (t0 :: times ++ [last]) db in
  let n := (2 + Z.of_nat (length times))%Z in
  let k := mk_RateLimitKey key purpose in
  ((n < max_attempts)%Z -> run (enforce_rate_limit now [k]) db' = (Ok tt, db'))
  /\ ((max_attempts <= n)%Z -> (now < last + block_for)%Z ->
      exists s, run (enforce_rate_limit now [k]) db' = (Err (api_rate_limited s), db')
        /\ (1 <= s <= Z.max 1 ((last + block_for - now) ÷ 1000000000))%Z)
  /\ ((last + block_for <= now)%Z -> run (enforce_rate_limit now [k]) db' = (Ok tt, db'))
  /\ (let db'' := (clear_rate_limit_bucket key db').2 in
      run (enforce_rate_limit now [k]) db'' = (Ok tt, db'')).
Proof.
  intros Hmax Hnone Hall db' n k.
  apply Forall_app in Hall as [Hts Hlast]. apply Forall_cons in Hlast as [Hlast _].
  set (db0 := (record_rate_limit_failure key purpose t0 window max_attempts block_for db).2).
  assert (Hc0 : counting key max_attempts t0 1 db0).
  { unfold db0. rewrite record_failure_run, Hnone. unfold next_bucket. simpl.
    rewrite (proj2 (Z.leb_gt _ _)) by (simpl; lia). exists (fresh_bucket key purpose t0). cbn.
    rewrite lookup_insert_eq. done. }
  assert (Hsplit : db' = (record_rate_limit_failure key purpose last window max_attempts block_for
    (fail_at key purpose window max_attempts block_for times db0)).2).
  { exact (fail_at_app key purpose window max_attempts block_for times [last] db0). }
  pose proof (counting_run key purpose window max_attempts block_for _ _ _ _ Hc0 Hts) as Hc1.
  destruct (counting_step key purpose window max_attempts block_for _ _ _ _ Hc1 Hlast) as [Hc2 Hb].
  rewrite <- Hsplit in Hc2, Hb. clear Hc1.
  destruct Hc2 as (b & Hlk & _ & _ & Hn & Hnb). rewrite !enforce_one. simpl. rewrite Hlk.
  assert (Hblk : (max_attempts <= n)%Z -> bucket_blocked_until b = Some (last + block_for)%Z).
  { intros Hle. destruct Hb as (b' & Hb' & Hu); [unfold n in Hle; lia|]. congruence. }
  unfold is_blocked. split_and!.
  - intros Hlt. rewrite Hnb by (unfold n in Hlt; lia). done.
  - intros Hle Hnow. rewrite (Hblk Hle), (proj2 (Z.ltb_lt _ _) Hnow). eexists. split; [reflexivity|].
    unfold retry_after_seconds. simpl. lia.
  - intros Hnow. destruct (Z.le_gt_cases max_attempts n) as [Hle|Hlt].
    + by rewrite (Hblk Hle), (proj2 (Z.ltb_ge _ _) Hnow).
    + by rewrite Hnb by (unfold n in Hlt; lia).
  - by rewrite lookup_delete_eq.
Qed.
