(* ===== verification/ConsentStore.v ===== *)
(** * Consent grants and authorizations

    [crates/database]'s consent_grants: a grant records that a user allowed a
    client some scopes, an authorization is the single-use permission of one
    authorization request under a policy that always asks.  Consuming an
    authorization is several statements outside a transaction, so it is a
    handler. *)

From S2P Require Import Prelude RustStr Domain Authn Oidc Http Codec Store.
From S2P Require Import OAuthStore.
From S2P Require Import ClientStore SessionStore Directory Handler.

(* crates/database/src/types/consent.rs:5-15 ConsentGrantSummary *)
Record ConsentGrantSummary := mk_ConsentGrantSummary {
  summary_grant : ConsentGrant;
  summary_user_email : string;
  summary_user_display_name : string;
}.
(* crates/database/src/types/consent.rs:18-28 UserConsentGrantSummary *)
Record UserConsentGrantSummary := mk_UserConsentGrantSummary {
  user_summary_grant : ConsentGrant;
  user_summary_client_public_id : string;
  user_summary_client_name : string;
}.
(* crates/database/src/types/consent.rs:31-37 ConsentGrantRevocation *)
Record ConsentGrantRevocation := mk_ConsentGrantRevocation {
  revocation_grant : ConsentGrantSummary;
  revocation_consent_grants_revoked : nat;
  revocation_authorization_codes_invalidated : nat;
  revocation_access_tokens_revoked : nat;
  revocation_refresh_tokens_revoked : nat;
}.
(* crates/database/src/types/consent.rs:40-48 ConsentAuthorizationConsumption *)
Record ConsentAuthorizationConsumption := mk_ConsentAuthorizationConsumption {
  consumption_organization_id : Uuid;
  consumption_user_id : Uuid;
  consumption_session_id : Uuid;
  consumption_client_id : Uuid;
  consumption_authorization_request_hash : string;
  consumption_scopes : list string;
  consumption_at : OffsetDateTime;
}.

Definition grant_set_revoked_at (v : option OffsetDateTime) (g : ConsentGrant) : ConsentGrant :=
  mk_ConsentGrant (grant_id g) (grant_organization_id g) (grant_user_id g) (grant_client_id g)
    (grant_scopes g) (grant_created_at g) v.
Definition consent_set_consumed_at (v : option OffsetDateTime) (c : ConsentAuthorization)
    : ConsentAuthorization :=
  mk_ConsentAuthorization (consent_id c) (consent_organization_id c) (consent_user_id c)
    (consent_session_id c) (consent_client_id c) (consent_authorization_request_hash c)
    (consent_scopes c) (consent_created_at c) (consent_expires_at c) v.

(** [requested.iter().all(|scope| granted.iter().any(..))] *)
Definition scopes_covered (requested granted : list string) : bool :=
  forallb (fun scope => existsb (fun candidate => bool_decide (candidate = scope)) granted) requested.

(** ** Grants *)

Definition grant_fk (db : Database) (g : ConsentGrant) : bool :=
  fk_organization db (grant_organization_id g)
  && fk_user db (grant_user_id g) (grant_organization_id g)
  && fk_client db (grant_client_id g) (grant_organization_id g).
(* crates/database/src/consent_grants.rs:10-29 create_consent_grant *)
Definition create_consent_grant (grant : ConsentGrant) : DB unit :=
  let! _ := db_check (fun db => absent (t_consent_grants db) (grant_id grant)) UniqueViolation in
  let! _ := db_check (fun db => grant_fk db grant) ForeignKeyViolation in
  db_modify (on_consent_grants (<[grant_id grant := grant]>)).

Definition grant_live_of (organization_id user_id client_id : Uuid) (g : ConsentGrant) : bool :=
  N.eqb (grant_organization_id g) organization_id && N.eqb (grant_user_id g) user_id
  && N.eqb (grant_client_id g) client_id && is_none (grant_revoked_at g).
(* crates/database/src/consent_grants/authorizations.rs:94-120 has_active_consent_grant *)
Definition has_active_consent_grant (organization_id user_id client_id : Uuid)
    (scopes : list string) : DB bool :=
  db_gets (fun db =>
    existsb (fun g => scopes_covered scopes (grant_scopes g))
      (select_where (grant_live_of organization_id user_id client_id) (t_consent_grants db))).

(** ** Authorizations *)

(* crates/database/src/consent_grants/authorizations.rs:8-34 create_consent_authorization *)
Definition create_consent_authorization (authorization : ConsentAuthorization) : DB unit :=
  let! _ := db_check (fun db => absent (t_consent_authorizations db) (consent_id authorization))
              UniqueViolation in
  let! _ := db_check (fun db =>
                fk_session db (consent_session_id authorization) (consent_user_id authorization)
                  (consent_organization_id authorization)
                && fk_client db (consent_client_id authorization)
                     (consent_organization_id authorization)) ForeignKeyViolation in
  db_modify (on_consent_authorizations (<[consent_id authorization := authorization]>)).

Definition authorization_pending (request : ConsentAuthorizationConsumption)
    (c : ConsentAuthorization) : bool :=
  N.eqb (consent_organization_id c) (consumption_organization_id request)
  && N.eqb (consent_user_id c) (consumption_user_id request)
  && N.eqb (consent_session_id c) (consumption_session_id request)
  && N.eqb (consent_client_id c) (consumption_client_id request)
  && bool_decide (consent_authorization_request_hash c
                  = consumption_authorization_request_hash request)
  && is_none (consent_consumed_at c)
  && (consumption_at request <? consent_expires_at c)%Z.
(** [UPDATE .. SET consumed_at WHERE id AND consumed_at IS NULL] *)
Definition consume_row (id : Uuid) (at_ : OffsetDateTime) : DB bool :=
  update_key t_consent_authorizations on_consent_authorizations id
    (fun c => is_none (consent_consumed_at c)) (consent_set_consumed_at (Some at_)).
Fixpoint consume_rows (request : ConsentAuthorizationConsumption) (rows : list ConsentAuthorization)
    : Handler bool :=
  match rows with
  | [] => succeed false
  | row :: rest =>
      if negb (scopes_covered (consumption_scopes request) (consent_scopes row))
      then consume_rows request rest
      else
        do! updated := query (consume_row (consent_id row) (consumption_at request)) in
        if (updated : bool) then succeed true else consume_rows request rest
  end.
(* crates/database/src/consent_grants/authorizations.rs:36-92 consume_consent_authorization *)
Definition consume_consent_authorization (request : ConsentAuthorizationConsumption)
    : Handler bool :=
  do! rows := query (db_gets (fun db =>
    order_by (created_desc consent_created_at consent_id)
      (select_where (authorization_pending request) (t_consent_authorizations db)))) in
  consume_rows request rows.

(** ** Revocation *)

(** The row of a grant joined with its user, [None] when the join is empty. *)
Definition grant_summary (db : Database) (g : ConsentGrant) : option ConsentGrantSummary :=
  match t_users db !! grant_user_id g with
  | Some u => if N.eqb (user_organization_id (uwp_user u)) (grant_organization_id g)
              then Some (mk_ConsentGrantSummary g (user_email (uwp_user u))
                           (user_display_name (uwp_user u)))
              else None
  | None => None
  end.
Definition optional_id (expected : option Uuid) (id : Uuid) : bool :=
  match expected with Some e => N.eqb id e | None => true end.
Definition select_grant (organization_id : Uuid) (client_id user_id : option Uuid) (id : Uuid)
    (db : Database) : option ConsentGrantSummary :=
  g ← t_consent_grants db !! id;
  if N.eqb (grant_organization_id g) organization_id && optional_id client_id (grant_client_id g)
     && optional_id user_id (grant_user_id g)
  then grant_summary db g else None.

Definition grant_revoke (at_ : OffsetDateTime) (g : ConsentGrant) : ConsentGrant :=
  grant_set_revoked_at (coalesce (grant_revoked_at g) at_) g.
Definition user_code_pending (u : Uuid) (organization_id client_id : Uuid) (at_ : OffsetDateTime)
    (c : AuthorizationCode) : bool :=
  N.eqb (code_user_id c) u && client_code_pending organization_id client_id at_ c.
Definition user_access_live (u organization_id client_id : Uuid) (t : AccessTokenRecord) : bool :=
  bool_decide (access_user_id t = Some u) && client_access_live organization_id client_id t.
Definition user_refresh_live (u organization_id client_id : Uuid) (t : RefreshToken) : bool :=
  bool_decide (refresh_user_id t = Some u) && client_refresh_live organization_id client_id t.

(* crates/database/src/consent_grants/revocation.rs:29-154 revoke_consent_grant_and_tokens *)
Definition revoke_consent_grant_and_tokens (organization_id : Uuid)
    (client_id user_id : option Uuid) (id : Uuid) (at_ : OffsetDateTime)
    : DB (option ConsentGrantRevocation) :=
  transaction (
    let! row := db_gets (select_grant organization_id client_id user_id id) in
    match row with
    | None => commit None
    | Some grant =>
        let u := grant_user_id (summary_grant grant) in
        let c := grant_client_id (summary_grant grant) in
        let! consent_grants_revoked :=
          update_rows t_consent_grants on_consent_grants (grant_live_of organization_id u c)
            (grant_revoke at_) in
        let! authorization_codes_invalidated :=
          update_rows t_authorization_codes on_authorization_codes
            (user_code_pending u organization_id c at_) (code_mark_used at_) in
        let! access_tokens_revoked :=
          update_rows t_access_tokens on_access_tokens (user_access_live u organization_id c)
            (access_revoke at_) in
        let! refresh_tokens_revoked :=
          update_rows t_refresh_tokens on_refresh_tokens (user_refresh_live u organization_id c)
            (refresh_revoke at_) in
        commit (Some (mk_ConsentGrantRevocation
          (mk_ConsentGrantSummary (grant_revoke at_ (summary_grant grant))
             (summary_user_email grant) (summary_user_display_name grant))
          consent_grants_revoked authorization_codes_invalidated
          access_tokens_revoked refresh_tokens_revoked))
    end).
(* crates/database/src/consent_grants/revocation.rs:7-16 revoke_user_client_consent_and_tokens *)
Definition revoke_user_client_consent_and_tokens (organization_id client_id id : Uuid)
    (at_ : OffsetDateTime) : DB (option ConsentGrantRevocation) :=
  revoke_consent_grant_and_tokens organization_id (Some client_id) None id at_.
(* crates/database/src/consent_grants/revocation.rs:18-27 revoke_current_user_consent_and_tokens *)
Definition revoke_current_user_consent_and_tokens (organization_id user_id id : Uuid)
    (at_ : OffsetDateTime) : DB (option ConsentGrantRevocation) :=
  revoke_consent_grant_and_tokens organization_id None (Some user_id) id at_.

(** ** Listings *)

Definition revoked_filter (revoked : option bool) (g : ConsentGrant) : bool :=
  match revoked with Some b => Bool.eqb (is_some (grant_revoked_at g)) b | None => true end.
(* crates/database/src/consent_grants/listings.rs:28-73 list_consent_grants_for_client_page_filtered *)
Definition list_consent_grants_for_client_page_filtered (organization_id client_id : Uuid)
    (revoked : option bool) (after : option ListCursor) (limit : nat)
    : DB (list ConsentGrantSummary) :=
  db_gets (fun db =>
    take limit (order_by (created_desc (fun s => grant_created_at (summary_grant s))
                                       (fun s => grant_id (summary_grant s)))
      (omap (grant_summary db) (select_where (fun g =>
         N.eqb (grant_organization_id g) organization_id && N.eqb (grant_client_id g) client_id
         && after_cursor grant_created_at grant_id after g && revoked_filter revoked g)
         (t_consent_grants db))))).
(* crates/database/src/consent_grants/listings.rs:9-26 list_active_consent_grants_for_client_page *)
Definition list_active_consent_grants_for_client_page (organization_id client_id : Uuid)
    (after : option ListCursor) (limit : nat) : DB (list ConsentGrantSummary) :=
  list_consent_grants_for_client_page_filtered organization_id client_id (Some false) after limit.
(** Joined with the client. *)
Definition user_grant_summary (db : Database) (g : ConsentGrant) : option UserConsentGrantSummary :=
  match t_oidc_clients db !! grant_client_id g with
  | Some c => if N.eqb (client_organization_id c) (grant_organization_id g)
              then Some (mk_UserConsentGrantSummary g (client_client_id c) (client_name c))
              else None
  | None => None
  end.
(* crates/database/src/consent_grants/listings.rs:75-120 list_consent_grants_for_user_page_filtered *)
Definition list_consent_grants_for_user_page_filtered (organization_id user_id : Uuid)
    (revoked : option bool) (after : option ListCursor) (limit : nat)
    : DB (list UserConsentGrantSummary) :=
  db_gets (fun db =>
    take limit (order_by (created_desc (fun s => grant_created_at (user_summary_grant s))
                                       (fun s => grant_id (user_summary_grant s)))
      (omap (user_grant_summary db) (select_where (fun g =>
         N.eqb (grant_organization_id g) organization_id && N.eqb (grant_user_id g) user_id
         && after_cursor grant_created_at grant_id after g && revoked_filter revoked g)
         (t_consent_grants db))))).

(** ** Properties *)

Lemma scopes_covered_iff requested granted :
  scopes_covered requested granted = true <-> requested ⊆ granted.
Proof.
  unfold scopes_covered. rewrite forallb_elem. setoid_rewrite existsb_elem.
  setoid_rewrite bool_decide_eq_true. split.
  - intros H s Hs. destruct (H s Hs) as (? & ? & ->). done.
  - intros H s Hs. exists s. auto.
Qed.

(** *** Grants *)

Definition consent_given (db : Database) (organization_id user_id client_id : Uuid)
    (scopes : list string) : Prop :=
  exists k g, t_consent_grants db !! k = Some g /\ grant_organization_id g = organization_id
    /\ grant_user_id g = user_id /\ grant_client_id g = client_id
    /\ grant_revoked_at g = None /\ scopes ⊆ grant_scopes g.
Lemma grant_live_of_true o u c g :
  grant_live_of o u c g = true <->
  grant_organization_id g = o /\ grant_user_id g = u /\ grant_client_id g = c
  /\ grant_revoked_at g = None.
Proof.
  unfold grant_live_of. rewrite !andb_true_iff, !N.eqb_eq. destruct (grant_revoked_at g); naive_solver.
Qed.
Lemma has_active_consent_grant_Ok o u c scopes db b db' :
  has_active_consent_grant o u c scopes db = (Ok b, db') <->
  db' = db /\ (b = true <-> consent_given db o u c scopes).
Proof.
  assert (existsb (fun g => scopes_covered scopes (grant_scopes g))
            (select_where (grant_live_of o u c) (t_consent_grants db)) = true
          <-> consent_given db o u c scopes) as H.
  { rewrite existsb_elem. setoid_rewrite elem_of_select_where. setoid_rewrite scopes_covered_iff.
    setoid_rewrite grant_live_of_true. unfold consent_given. naive_solver. }
  unfold has_active_consent_grant, db_gets. rewrite <- H. split.
  - by intros [= <- <-].
  - intros [-> Hb]. f_equal. f_equal. apply eq_true_iff_eq. tauto.
Qed.

(** *** Consuming an authorization *)

(** Every row is stored under its identifier. *)
Definition authorizations_keyed (db : Database) : Prop :=
  forall k c, t_consent_authorizations db !! k = Some c -> consent_id c = k.
Lemma create_consent_authorization_keyed a db u db' :
  create_consent_authorization a db = (Ok u, db') -> authorizations_keyed db ->
  authorizations_keyed db'.
Proof.
  unfold create_consent_authorization. intros H Hk. db_steps. intros k c. cbn.
  rewrite lookup_insert_Some. intros [[<- <-]|[_ Hc]]; [done|by apply Hk].
Qed.

(** An unused, unexpired authorization of exactly this request that covers its
    scopes. *)
Definition consumable (request : ConsentAuthorizationConsumption) (c : ConsentAuthorization) : Prop :=
  authorization_pending request c = true /\ consumption_scopes request ⊆ consent_scopes c.
Definition with_consumed (id : Uuid) (at_ : OffsetDateTime) (c : ConsentAuthorization)
    (db : Database) : Database :=
  on_consent_authorizations (<[id := consent_set_consumed_at (Some at_) c]>) db.

Lemma authorization_pending_true request c :
  authorization_pending request c = true <->
  consent_organization_id c = consumption_organization_id request
  /\ consent_user_id c = consumption_user_id request
  /\ consent_session_id c = consumption_session_id request
  /\ consent_client_id c = consumption_client_id request
  /\ consent_authorization_request_hash c = consumption_authorization_request_hash request
  /\ consent_consumed_at c = None /\ (consumption_at request < consent_expires_at c)%Z.
Proof.
  unfold authorization_pending. rewrite !andb_true_iff, !N.eqb_eq, bool_decide_eq_true, Z.ltb_lt.
  destruct (consent_consumed_at c); naive_solver.
Qed.

Lemma consume_row_fresh id at_ c db :
  t_consent_authorizations db !! id = Some c -> consent_consumed_at c = None ->
  consume_row id at_ db = (Ok true, with_consumed id at_ c db).
Proof.
  intros Hc Hn. unfold consume_row, update_key, db_apply, update_row. by rewrite Hc, Hn.
Qed.
Lemma consume_rows_run request rows db :
  (forall c, c ∈ rows -> t_consent_authorizations db !! consent_id c = Some c
                          /\ authorization_pending request c = true) ->
  match List.find (fun c => scopes_covered (consumption_scopes request) (consent_scopes c)) rows with
  | Some c => run (consume_rows request rows) db
              = (Ok true, with_consumed (consent_id c) (consumption_at request) c db)
  | None => run (consume_rows request rows) db = (Ok false, db)
  end.
Proof.
  induction rows as [|c rows IH]; intros Hrows; cbn [List.find consume_rows]; [done|].
  destruct (scopes_covered _ _); cbn [negb].
  - destruct (Hrows c) as [Hc Hp]; [left|]. apply authorization_pending_true in Hp.
    simpl. rewrite (consume_row_fresh _ _ c) by tauto. done.
  - apply IH. intros c' Hc'. apply Hrows. by right.
Qed.

Lemma consume_run request db :
  authorizations_keyed db ->
  exists used db', run (consume_consent_authorization request) db = (Ok used, db')
    /\ (used = true <->
        exists id c, t_consent_authorizations db !! id = Some c /\ consumable request c)
    /\ (used = false -> db' = db)
    /\ (used = true -> exists id c, t_consent_authorizations db !! id = Some c
          /\ consumable request c /\ db' = with_consumed id (consumption_at request) c db).
Proof.
  intros Hkeyed. unfold consume_consent_authorization. simpl. set (rows := order_by _ _).
  assert (Hin : forall c, c ∈ rows <-> exists k, t_consent_authorizations db !! k = Some c
                                       /\ authorization_pending request c = true).
  { intros c. unfold rows. by rewrite elem_of_order_by, elem_of_select_where. }
  pose proof (consume_rows_run request rows db) as Hrun.
  destruct (List.find _ rows) as [c|] eqn:Ef.
  - apply find_some in Ef as [Hc Hs]. apply list_elem_of_In, Hin in Hc as (k & Hk & Hp).
    apply scopes_covered_iff in Hs. rewrite Hrun.
    2: { intros c' (k' & Hk' & Hp')%Hin. by rewrite (Hkeyed k' c'). }
    exists true, (with_consumed (consent_id c) (consumption_at request) c db).
    rewrite (Hkeyed k c Hk). split_and!; [done| |done|].
    + split; [|done]. intros _. exists k, c. done.
    + intros _. exists k, c. done.
  - rewrite Hrun; [|intros c' (k' & Hk' & Hp')%Hin; by rewrite (Hkeyed k' c')].
    exists false, db. split_and!; [done| |done|done]. split; [done|].
    intros (id & c & Hc & Hp & Hs). exfalso.
    apply scopes_covered_iff in Hs. eapply find_none in Ef; [|apply list_elem_of_In, Hin; eauto].
    congruence.
Qed.

(** Consuming a consent authorization succeeds exactly when the user gave
    one for this very session, client and request, still unused, unexpired and
    covering the requested scopes; it then marks one such row consumed at [at]
    and changes nothing else, and otherwise it changes nothing at all, so the
    same permission cannot be used again. *)
Theorem consume_consent_authorization_spec request db :
  authorizations_keyed db ->
  exists used db', run (consume_consent_authorization request) db = (Ok used, db')
    /\ (used = true <-> exists id c, t_consent_authorizations db !! id = Some c
          /\ consent_organization_id c = consumption_organization_id request
          /\ consent_user_id c = consumption_user_id request
          /\ consent_session_id c = consumption_session_id request
          /\ consent_client_id c = consumption_client_id request
          /\ consent_authorization_request_hash c = consumption_authorization_request_hash request
          /\ consent_consumed_at c = None /\ (consumption_at request < consent_expires_at c)%Z
          /\ consumption_scopes request ⊆ consent_scopes c)
    /\ (used = false -> db' = db)
    /\ (used = true -> exists id c, t_consent_authorizations db !! id = Some c
          /\ consumable request c /\ db' = with_consumed id (consumption_at request) c db
          /\ forall c', t_consent_authorizations db' !! id = Some c' -> ~ consumable request c').
Proof.
  intros Hkeyed. destruct (consume_run request db Hkeyed) as (used & db' & Hr & Hu & Hf & Ht).
  exists used, db'. split_and!; [done| |done|].
  - rewrite Hu. unfold consumable. setoid_rewrite authorization_pending_true.
    split; intros (id & c & H); exists id, c; tauto.
  - intros Hused. destruct (Ht Hused) as (id & c & Hc & Hco & ->). exists id, c.
    split_and!; [done..|]. intros c'. cbn. rewrite lookup_insert_eq. intros [= <-] [Hp _].
    apply authorization_pending_true in Hp. cbn in Hp. destruct_and! Hp. done.
Qed.

(** *** Revocation *)

Definition with_consent_revoked (o u c : Uuid) (at_ : OffsetDateTime) (db : Database) : Database :=
  on_refresh_tokens (update_where (user_refresh_live u o c) (refresh_revoke at_))
    (on_access_tokens (update_where (user_access_live u o c) (access_revoke at_))
      (on_authorization_codes (update_where (user_code_pending u o c at_) (code_mark_used at_))
        (on_consent_grants (update_where (grant_live_of o u c) (grant_revoke at_)) db))).

(** What a client holds for a user. *)
Definition user_client_cut_off (o u c : Uuid) (at_ : OffsetDateTime) (db : Database) : Prop :=
  (forall scopes, ~ consent_given db o u c scopes)
  /\ (forall h k, t_authorization_codes db !! h = Some k -> code_organization_id k = o ->
        code_user_id k = u -> code_client_id k = c ->
        is_Some (code_used_at k) \/ (code_expires_at k <= at_)%Z)
  /\ (forall h t, t_access_tokens db !! h = Some t -> access_organization_id t = o ->
        access_user_id t = Some u -> access_client_id t = c -> is_Some (access_revoked_at t))
  /\ (forall h t, t_refresh_tokens db !! h = Some t -> refresh_organization_id t = o ->
        refresh_user_id t = Some u -> refresh_client_id t = c -> is_Some (refresh_revoked_at t)).

(** Rows of another user, client or organization. *)
Definition other_user_clients_kept (o u c : Uuid) (db db' : Database) : Prop :=
  (forall k g, t_consent_grants db !! k = Some g ->
     ~ (grant_organization_id g = o /\ grant_user_id g = u /\ grant_client_id g = c) ->
     t_consent_grants db' !! k = Some g)
  /\ (forall h k, t_authorization_codes db !! h = Some k ->
     ~ (code_organization_id k = o /\ code_user_id k = u /\ code_client_id k = c) ->
     t_authorization_codes db' !! h = Some k)
  /\ (forall h t, t_access_tokens db !! h = Some t ->
     ~ (access_organization_id t = o /\ access_user_id t = Some u /\ access_client_id t = c) ->
     t_access_tokens db' !! h = Some t)
  /\ (forall h t, t_refresh_tokens db !! h = Some t ->
     ~ (refresh_organization_id t = o /\ refresh_user_id t = Some u /\ refresh_client_id t = c) ->
     t_refresh_tokens db' !! h = Some t).

Section revocation.
Context (o u c : Uuid) (at_ : OffsetDateTime).

Lemma user_code_pending_true k :
  user_code_pending u o c at_ k = true <->
  code_user_id k = u /\ code_organization_id k = o /\ code_client_id k = c
  /\ code_used_at k = None /\ (at_ < code_expires_at k)%Z.
Proof.
  unfold user_code_pending, client_code_pending. rewrite !andb_true_iff, !N.eqb_eq, Z.ltb_lt.
  destruct (code_used_at k); naive_solver.
Qed.
Lemma user_access_live_true t :
  user_access_live u o c t = true <->
  access_user_id t = Some u /\ access_organization_id t = o /\ access_client_id t = c
  /\ access_revoked_at t = None.
Proof.
  unfold user_access_live, client_access_live. rewrite !andb_true_iff, !N.eqb_eq, bool_decide_eq_true.
  destruct (access_revoked_at t); naive_solver.
Qed.
Lemma user_refresh_live_true t :
  user_refresh_live u o c t = true <->
  refresh_user_id t = Some u /\ refresh_organization_id t = o /\ refresh_client_id t = c
  /\ refresh_revoked_at t = None.
Proof.
  unfold user_refresh_live, client_refresh_live.
  rewrite !andb_true_iff, !N.eqb_eq, bool_decide_eq_true.
  destruct (refresh_revoked_at t); naive_solver.
Qed.

(** An updated row no longer satisfies the clause it was updated for. *)
Lemma update_where_done {V K} `{Countable K} (P : V -> bool) f (m : gmap K V) k v :
  (forall w, P w = true -> P (f w) = false) -> update_where P f m !! k = Some v -> P v = false.
Proof.
  intros Hf (w & _ & ->)%lookup_update_where_Some. destruct (P w) eqn:E; [by apply Hf|done].
Qed.

Lemma revoked_cut_off db : user_client_cut_off o u c at_ (with_consent_revoked o u c at_ db).
Proof.
  unfold user_client_cut_off, consent_given. cbn. split_and!.
  - intros scopes (k & g & Hg & Ho & Hu & Hc & Hn & _).
    apply update_where_done in Hg; [|intros w Hw; apply not_true_iff_false;
      rewrite grant_live_of_true in *; cbn; intros (_ & _ & _ & Hr);
      destruct (coalesce_some (grant_revoked_at w) at_) as [x Hx]; congruence].
    rewrite (proj2 (grant_live_of_true o u c g)) in Hg; done.
  - intros h k Hk Ho Hu Hc.
    apply update_where_done in Hk; [|intros w Hw; apply not_true_iff_false;
      rewrite user_code_pending_true in *; cbn; intros (_ & _ & _ & Hr & _);
      destruct (coalesce_some (code_used_at w) at_) as [x Hx]; congruence].
    destruct (code_used_at k) eqn:E; [eauto|right]. apply Z.le_ngt. intros Hlt.
    rewrite (proj2 (user_code_pending_true k)) in Hk; done.
  - intros h t Ht Ho Hu Hc.
    apply update_where_done in Ht; [|intros w Hw; apply not_true_iff_false;
      rewrite user_access_live_true in *; cbn; intros (_ & _ & _ & Hr);
      destruct (coalesce_some (access_revoked_at w) at_) as [x Hx]; congruence].
    destruct (access_revoked_at t) eqn:E; [eauto|].
    rewrite (proj2 (user_access_live_true t)) in Ht; done.
  - intros h t Ht Ho Hu Hc.
    apply update_where_done in Ht; [|intros w Hw; apply not_true_iff_false;
      rewrite user_refresh_live_true in *; cbn; intros (_ & _ & _ & Hr);
      destruct (coalesce_some (refresh_revoked_at w) at_) as [x Hx]; congruence].
    destruct (refresh_revoked_at t) eqn:E; [eauto|].
    rewrite (proj2 (user_refresh_live_true t)) in Ht; done.
Qed.
Lemma revoked_others_kept db : other_user_clients_kept o u c db (with_consent_revoked o u c at_ db).
Proof.
  unfold other_user_clients_kept. cbn. split_and!; intros k v Hv Hne;
    (apply update_where_kept; [done|]); apply not_true_iff_false; intros HP; apply Hne.
  - apply grant_live_of_true in HP. tauto.
  - apply user_code_pending_true in HP. tauto.
  - apply user_access_live_true in HP. tauto.
  - apply user_refresh_live_true in HP. tauto.
Qed.
End revocation.

(** Revoking a consent is complete and exact: a grant outside the
    organization, or of another client or user than the caller may touch, is
    not found and nothing changes; otherwise, in one transaction, the user has
    no consent left for the client, no authorization code that could still be
    redeemed at [at] or later and no live token, so the next authorization has
    to ask again, while every row of another user or client is untouched; the
    reply names the grant as revoked. *)
Theorem revoke_consent_spec o client_id user_id id at_ db :
  exists r db', revoke_consent_grant_and_tokens o client_id user_id id at_ db = (Ok r, db')
    /\ (r = None -> db' = db /\ select_grant o client_id user_id id db = None)
    /\ (forall rev, r = Some rev ->
        exists g, t_consent_grants db !! id = Some g /\ grant_organization_id g = o
          /\ (forall c, client_id = Some c -> grant_client_id g = c)
          /\ (forall u, user_id = Some u -> grant_user_id g = u)
          /\ summary_grant (revocation_grant rev) = grant_revoke at_ g
          /\ db' = with_consent_revoked o (grant_user_id g) (grant_client_id g) at_ db
          /\ user_client_cut_off o (grant_user_id g) (grant_client_id g) at_ db'
          /\ other_user_clients_kept o (grant_user_id g) (grant_client_id g) db db').
Proof.
  unfold revoke_consent_grant_and_tokens.
  destruct (select_grant o client_id user_id id db) as [s|] eqn:Es.
  - eexists (Some _), _. split_and!.
    + unfold transaction, db_bind, db_gets. rewrite Es. unfold update_rows, db_apply. reflexivity.
    + done.
    + intros rev [= <-]. cbn. unfold select_grant in Es.
      destruct (t_consent_grants db !! id) as [g|] eqn:Eg; [|done]. cbn in Es.
      destruct (_ && _) eqn:Ec in Es; [|done]. bool_prop.
      assert (summary_grant s = g) as Hsg.
      { unfold grant_summary in Es. destruct (t_users db !! grant_user_id g); [|done].
        case_match; [|done]. injection Es as Es. by rewrite <- Es. }
      exists g. rewrite Hsg. split_and!; try done.
      * by apply N.eqb_eq.
      * intros c ->. by apply N.eqb_eq.
      * intros u ->. by apply N.eqb_eq.
      * apply revoked_cut_off.
      * apply revoked_others_kept.
  - exists None, db. split_and!; [|done|done]. unfold transaction, db_bind, db_gets. by rewrite Es.
Qed.
