(* ===== verification/OAuthPolicy.v ===== *)
(** * What the OAuth endpoints check

    [apps/api/src/http]'s oauth_client (authentication, binding to a stored
    grant, policy), oauth_token (parameters, scopes, token type hints,
    introspection documents), the session and user checks of session_auth.rs
    and the choice of the signing key. *)

From S2P Require Import Prelude RustStr Domain Authn Oidc Http Codec Store.
From S2P Require Import Directory ClientStore.
From S2P Require Import Handler KeyStore.
From Stdlib Require Import Ascii.

(** [OidcError]'s [Display]. *)
(* crates/oidc/src/error.rs:2-53 OidcError::to_string *)
Definition oidc_error_text (e : OidcError) : string :=
  match e with
  | MissingResponseType => "missing response type"
  | UnsupportedResponseType => "unsupported response type"
  | UnsupportedGrantType => "unsupported grant type"
  | InvalidRedirectUri => "invalid redirect URI"
  | InvalidScope => "invalid scope"
  | InvalidMaxAge => "invalid max_age"
  | InvalidPrompt => "invalid prompt"
  | InvalidDisplay => "invalid display"
  | UnsupportedResponseMode => "unsupported response mode"
  | UnsupportedClaimsParameter => "unsupported claims parameter"
  | UnsupportedRequestParameter => "unsupported request parameter"
  | UnsupportedRequestUriParameter => "unsupported request_uri parameter"
  | InvalidIdTokenHint => "invalid id_token_hint"
  | PkceRequired => "PKCE is required"
  | InvalidPkceChallenge => "invalid PKCE code challenge"
  | PkceVerificationFailed => "PKCE verification failed"
  | SigningKeyMissing => "signing key is not configured"
  | InvalidKeyEncryptionKey => "invalid key encryption key"
  | SigningKeyGeneration => "signing key generation failed"
  | SigningKeyEncryption => "signing key encryption failed"
  | SecretEncryption => "secret encryption failed"
  | SecretDecryption => "secret decryption failed"
  | SigningKeyDecryption => "signing key decryption failed"
  | InvalidSigningKey => "stored signing key is invalid"
  | TokenSigning => "token signing failed"
  end.

(** ** The request body *)

(** A body is the bytes the connection delivers, [None] when it breaks off;
    [to_bytes] fails past its limit. *)
Definition to_bytes (body : option string) (limit : N) : option string :=
  match body with
  | Some bytes => if (len bytes <=? limit)%N then Some bytes else None
  | None => None
  end.
Definition USIZE_MAX : N := 18446744073709551615.
(* apps/api/src/http/request_body.rs:11-23 bounded_request_body *)
Definition bounded_request_body (request : option string) (max_bytes : N) : option string :=
  if (max_bytes =? USIZE_MAX)%N then None
  else
    match to_bytes request (max_bytes + 1) with
    | Some body => if (max_bytes <? len body)%N then None else Some body
    | None => None
    end.

(** ** Clients *)

(* apps/api/src/http/oauth_client/authentication.rs:57-59 invalid_client *)
Definition client_rejected : ApiError := api_oauth 401 invalid_client.

Section policy.
Context {CC : CryptoCrates}.

(* apps/api/src/http/oauth_client/authentication.rs:29-55 authenticate_oauth_client *)
Definition authenticate_oauth_client (client : OidcClient) (client_auth : OAuthClientAuth)
    : result ApiError unit :=
  if negb (bool_decide (auth_client_id client_auth = Some (client_client_id client)))
  then Err client_rejected
  else if client_public_client client then
    if is_some (auth_client_secret client_auth) then Err client_rejected else Ok tt
  else
    match client_secret_hash client with
    | None => Err client_rejected
    | Some expected_hash =>
        match auth_client_secret client_auth with
        | None => Err client_rejected
        | Some secret =>
            if verify_token_hash secret expected_hash then Ok tt else Err client_rejected
        end
    end.

(* apps/api/src/http/oauth_client/policy.rs:7-9 oidc_client_is_active *)
Definition oidc_client_is_active (client : OidcClient) : bool :=
  bool_decide (client_status client = ClientStatus_Active).
(* apps/api/src/http/oauth_client/policy.rs:11-20 require_oauth_client_active *)
Definition require_oauth_client_active (client : OidcClient) : result ApiError unit :=
  if oidc_client_is_active client then Ok tt else Err (api_oauth 401 invalid_client).
(* apps/api/src/http/oauth_client/policy.rs:22-37 require_token_endpoint_grant *)
Definition require_token_endpoint_grant (client : OidcClient) (grant_type : OidcGrantType)
    : result ApiError unit :=
  if allows_grant client grant_type then Ok tt
  else Err (api_oauth 400 (unauthorized_client
         ("client is not authorized to use " +:+ as_protocol_value grant_type))).
(* apps/api/src/http/oauth_client/policy.rs:39-50 require_confidential_client_credentials_client *)
Definition require_confidential_client_credentials_client (client : OidcClient)
    : result ApiError unit :=
  if client_public_client client || is_none (client_secret_hash client)
  then Err (api_oauth 401 invalid_client) else Ok tt.

(* apps/api/src/http/oauth_client/binding.rs:8-21 require_client_bound_to_stored_grant *)
Definition require_client_bound_to_stored_grant (client : OidcClient)
    (organization_id client_id : Uuid) : result ApiError unit :=
  if negb (N.eqb (client_organization_id client) organization_id)
     || negb (N.eqb (client_uuid client) client_id)
  then Err (api_oauth 400 (invalid_grant "client does not match token grant")) else Ok tt.
(* apps/api/src/http/oauth_client/binding.rs:23-35 require_oauth_client_organization *)
Definition require_oauth_client_organization (client : OidcClient) (organization_id : Uuid)
    : result ApiError unit :=
  if negb (N.eqb (client_organization_id client) organization_id)
  then Err (api_oauth 401 invalid_client) else Ok tt.
(* apps/api/src/http/oauth_client/binding.rs:37-49 require_stored_token_organization *)
Definition require_stored_token_organization (token_organization_id organization_id : Uuid)
    : result ApiError unit :=
  if negb (N.eqb token_organization_id organization_id)
  then Err (api_oauth 400 (invalid_grant "token does not belong to this issuer")) else Ok tt.
(* apps/api/src/http/oauth_client/binding.rs:51-56 bearer_token_matches_organization *)
Definition bearer_token_matches_organization (token_organization_id organization_id : Uuid) : bool :=
  N.eqb token_organization_id organization_id.

(** ** Parameters of a token request *)

(* apps/api/src/http/oauth_token/authorization_code.rs:6-18 validate_authorization_code_redirect_uri *)
Definition validate_authorization_code_redirect_uri (request_redirect_uri : option string)
    (stored_redirect_uri : string) : result ApiError unit :=
  let? request_redirect_uri := required_oauth_form_parameter request_redirect_uri "redirect_uri" in
  if negb (bool_decide (request_redirect_uri = stored_redirect_uri))
  then Err (api_oauth 400 (invalid_grant "redirect_uri mismatch")) else Ok tt.
(* apps/api/src/http/oauth_token/authorization_code.rs:20-24 required_authorization_code_verifier *)
Definition required_authorization_code_verifier (code_verifier : option string)
    : result ApiError string := required_oauth_form_parameter code_verifier "code_verifier".
(* apps/api/src/http/oauth_token/refresh.rs:3-7 required_refresh_token *)
Definition required_refresh_token (refresh_token : option string) : result ApiError string :=
  required_oauth_form_parameter refresh_token "refresh_token".

(* apps/api/src/http/oauth_token/grant.rs:7-15 is_oauth_grant_name *)
Definition is_oauth_grant_name (value : string) : bool :=
  negb (is_empty value)
  && all_bytes (fun b => in_range 65 90 b || in_range 97 122 b || in_range 48 57 b
       || Ascii.eqb b "-" || Ascii.eqb b "." || Ascii.eqb b "_") value.

(* apps/api/src/http/oauth_token/scopes.rs:7-10 should_issue_refresh_token *)
Definition should_issue_refresh_token (scopes : list string) (client : OidcClient) : bool :=
  allows_grant client RefreshTokenGrant
  && existsb (fun scope => bool_decide (scope = "offline_access")) scopes.
(* apps/api/src/http/oauth_token/scopes.rs:12-14 token_response_scope *)
Definition token_response_scope (scopes : list string) : option string :=
  match scopes with [] => None | _ => Some (join " " scopes) end.
(* apps/api/src/http/oauth_token/scopes.rs:16-28 token_request_scopes *)
Definition token_request_scopes (scope : option string) : result ApiError (option (list string)) :=
  match scope with
  | None => Ok None
  | Some scope =>
      map_err (fun _ => api_oauth 400 (invalid_scope "invalid scope")) (Some <$> parse_scopes scope)
  end.
(* apps/api/src/http/oauth_token/scopes.rs:30-47 refresh_token_granted_scopes *)
Definition refresh_token_granted_scopes (requested_scope : option string)
    (original_scopes : list string) : result ApiError (list string) :=
  let? requested := token_request_scopes requested_scope in
  match requested with
  | None => Ok original_scopes
  | Some requested_scopes =>
      if existsb (fun scope => negb (existsb (fun granted => bool_decide (granted = scope))
                                       original_scopes)) requested_scopes
      then Err (api_oauth 400 (invalid_scope "requested scope exceeds original grant"))
      else Ok requested_scopes
  end.

(** ** Introspection *)

(* apps/api/src/http/oauth_token/introspection/hints.rs:2-5 TokenTypeHint *)
Inductive TokenTypeHint := Hint_AccessToken | Hint_RefreshToken.
(* apps/api/src/http/oauth_token/introspection/hints.rs:8-14 TokenTypeHint::parse *)
Definition TokenTypeHint_parse (token_type_hint : option string) : option TokenTypeHint :=
  match token_type_hint with
  | Some hint =>
      if bool_decide (hint = "access_token") then Some Hint_AccessToken
      else if bool_decide (hint = "refresh_token") then Some Hint_RefreshToken
      else None
  | None => None
  end.
(* apps/api/src/http/oauth_token/introspection/hints.rs:17-28 token_type_hint_lookup_order *)
Definition token_type_hint_lookup_order (token_type_hint : option string) : list TokenTypeHint :=
  match TokenTypeHint_parse token_type_hint with
  | Some Hint_RefreshToken => [Hint_RefreshToken; Hint_AccessToken]
  | Some Hint_AccessToken | None => [Hint_AccessToken; Hint_RefreshToken]
  end.

(* apps/api/src/http/oauth_token/introspection/state.rs:5-14 access_token_active_for_client *)
Definition access_token_active_for_client (token : AccessTokenRecord) (client : OidcClient)
    (now : OffsetDateTime) : bool :=
  N.eqb (access_organization_id token) (client_organization_id client)
  && N.eqb (access_client_id token) (client_uuid client)
  && is_none (access_revoked_at token)
  && (now <? access_expires_at token)%Z.
(* apps/api/src/http/oauth_token/introspection/state.rs:16-26 refresh_token_active_for_client *)
Definition refresh_token_active_for_client (token : RefreshToken) (client : OidcClient)
    (now : OffsetDateTime) : bool :=
  N.eqb (refresh_organization_id token) (client_organization_id client)
  && N.eqb (refresh_client_id token) (client_uuid client)
  && is_none (refresh_rotated_at token)
  && is_none (refresh_revoked_at token)
  && (now <? refresh_expires_at token)%Z.

(* apps/api/src/http/oauth_token/introspection/response.rs:34-36 inactive_introspection_response *)
Definition inactive_introspection_response : Value := Object [("active", Bool false)].

(** ** Users *)

(* apps/api/src/http/session_auth.rs:154-156 user_allows_runtime_access *)
Definition user_allows_runtime_access (user : User) (organization_id : Uuid) : bool :=
  N.eqb (user_organization_id user) organization_id
  && bool_decide (user_status user = UserStatus_Active).
(* apps/api/src/http/session_auth.rs:97-113 groups_claim_for_user *)
Definition groups_claim_for_user (organization_id user_id : Uuid) (scopes : list string)
    : Handler (option (list string)) :=
  if existsb (fun scope => bool_decide (scope = "groups")) scopes then
    do! slugs := query (list_user_group_slugs organization_id user_id) in
    succeed (Some slugs)
  else succeed None.
(* apps/api/src/http/oauth_routes/token_status.rs:160-172 token_subject_is_active *)
Definition token_subject_is_active (organization_id : Uuid) (user_id : option Uuid)
    : Handler bool :=
  match user_id with
  | None => succeed true
  | Some user_id =>
      do! user := query (get_user user_id) in
      match user with
      | None => succeed false
      | Some user => succeed (user_allows_runtime_access user organization_id)
      end
  end.
End policy.

Section grants.
Context {UC : UrlCrate}.
(* apps/api/src/http/oauth_token/grant.rs:17-23 is_absolute_uri_reference *)
Definition is_absolute_uri_reference (value : string) : bool :=
  is_ascii value
  && all_bytes (fun b => negb (is_ascii_control b || Ascii.eqb b " ")) value
  && is_some (Url_parse value).
(* apps/api/src/http/oauth_token/grant.rs:3-5 grant_type_is_valid *)
Definition grant_type_is_valid (grant_type : string) : bool :=
  is_oauth_grant_name grant_type || is_absolute_uri_reference grant_type.
End grants.

Section introspection.
Context {TC : TokenCrates}.
(* apps/api/src/http/oauth_token/introspection/response.rs:5-32 active_introspection_response *)
Definition active_introspection_response (issuer : string) (client : OidcClient)
    (scopes : list string) (user_id : option Uuid) (token_type : option string)
    (created_at expires_at : OffsetDateTime) : Value :=
  Object (
    [("active", Bool true);
     ("client_id", String_ (client_client_id client));
     ("iss", String_ (trim_end_matches "/" issuer));
     ("iat", Number (unix_timestamp created_at));
     ("exp", Number (unix_timestamp expires_at))]
    ++ (match scopes with [] => [] | _ => [("scope", String_ (join " " scopes))] end)
    ++ (match user_id with Some id => [("sub", String_ (uuid_to_string id))] | None => [] end)
    ++ (match token_type with Some t => [("token_type", String_ t)] | None => [] end)).
End introspection.

(** ** The service's state *)

Section state.
Context {CC : CryptoCrates} {AG : AesGcm}.

(** What the handlers read of [AppState] and its configuration. *)
(* apps/api/src/http/mod.rs:83-87 AppState *)
Record AppState := mk_AppState {
  state_organization_id : Uuid;
  config_issuer : string;
  config_key_encryption_key : option KeyEncryptionKey;
  config_signing : option SigningMaterial;
  config_public_web_origin : string;
  config_environment : Environment;
  config_bootstrap_setup_secret_hash : option string;
  config_scim_bearer_token_sha256_hashes : list string;
}.
(* apps/api/src/config.rs:149-151 secure_cookies *)
Definition secure_cookies (state : AppState) : bool :=
  bool_decide (config_environment state = Production).

(* apps/api/src/http/app_settings.rs:37-57 resolve_signing_material *)
Definition resolve_signing_material (state : AppState) : Handler SigningMaterial :=
  let configured :=
    some_or (config_signing state)
      (api_oauth 500 (invalid_request "RS256 signing key is not configured")) in
  match config_key_encryption_key state with
  | Some key_encryption_key =>
      do! stored := query active_signing_key in
      match stored with
      | Some stored =>
          lift (map_err (fun err => api_oauth 500 (invalid_request (oidc_error_text err)))
                  (decrypt_signing_material stored key_encryption_key))
      | None => configured
      end
  | None => configured
  end.

(* apps/api/src/http/oauth_client/authentication.rs:9-27 authenticated_client_from_request *)
Definition authenticated_client_from_request (state : AppState) (client_auth : OAuthClientAuth)
    : Handler OidcClient :=
  do! client_id := some_or (auth_client_id client_auth) (api_oauth 401 invalid_client) in
  do! client := query (get_oidc_client_by_public_id client_id) in
  do! client := some_or client (api_oauth 401 invalid_client) in
  do! _ := lift (require_oauth_client_organization client (state_organization_id state)) in
  do! _ := lift (require_oauth_client_active client) in
  do! _ := lift (authenticate_oauth_client client client_auth) in
  succeed client.
End state.

(** [oauth_form_body_from_request] *)
(* apps/api/src/http/oauth_routes.rs:21-34 oauth_form_body_from_request *)
Definition oauth_form_body_from_request {HC : HttpCrates} (headers : HeaderMap)
    (request : option string) : result ApiError string :=
  let? _ := require_oauth_form_content_type headers in
  ok_or (bounded_request_body request OAUTH_FORM_BODY_MAX_BYTES)
    (api_oauth 400 (invalid_request "form body too large")).

(** ** Properties *)

Lemma required_parameter_Ok value p v :
  required_oauth_form_parameter value p = Ok v <-> value = Some v /\ is_empty (trim v) = false.
Proof.
  unfold required_oauth_form_parameter. destruct value as [w|]; [|split; [done|by intros [[=] _]]].
  destruct (is_empty (trim w)) eqn:E; split; try done; [|by intros [= ->]|by intros [[= ->] _]].
  intros [[= ->] H]. congruence.
Qed.

Section policy_properties.
Context {CC : CryptoCrates} {AG : AesGcm}.

(** The credentials a client has to present: a public client its identifier
    and no secret, a confidential one the secret of the stored hash. *)
Definition client_proven (client : OidcClient) (auth : OAuthClientAuth) : Prop :=
  auth_client_id auth = Some (client_client_id client)
  /\ if client_public_client client then auth_client_secret auth = None
     else exists secret, auth_client_secret auth = Some secret
          /\ client_secret_hash client = Some (hash_token secret).

Lemma authenticate_Ok client auth u :
  authenticate_oauth_client client auth = Ok u <-> client_proven client auth.
Proof.
  unfold authenticate_oauth_client, client_proven. destruct u.
  destruct (bool_decide _) eqn:Eid; bool_prop; simpl; [|naive_solver].
  destruct (client_public_client client).
  - destruct (auth_client_secret auth); simpl; naive_solver.
  - destruct (client_secret_hash client) as [h|]; [|naive_solver].
    destruct (auth_client_secret auth) as [s|]; [|naive_solver].
    destruct (verify_token_hash s h) eqn:Ev.
    + unfold verify_token_hash in Ev. apply constant_time_eq_iff in Ev as <-. naive_solver.
    + split; [done|]. intros (_ & s' & [= <-] & [= ->]).
      rewrite <- not_true_iff_false in Ev. destruct Ev. by apply constant_time_eq_iff.
Qed.

Lemma require_active_Ok c u :
  require_oauth_client_active c = Ok u <-> client_status c = ClientStatus_Active.
Proof.
  unfold require_oauth_client_active, oidc_client_is_active. destruct u.
  destruct (bool_decide _) eqn:E; bool_prop; naive_solver.
Qed.
Lemma require_grant_Ok c g u : require_token_endpoint_grant c g = Ok u <-> g ∈ client_grant_types c.
Proof.
  unfold require_token_endpoint_grant, allows_grant. destruct u.
  destruct (contains _ _) eqn:E; [apply contains_true in E|apply contains_false in E]; naive_solver.
Qed.
Lemma require_organization_Ok c o u :
  require_oauth_client_organization c o = Ok u <-> client_organization_id c = o.
Proof.
  unfold require_oauth_client_organization. destruct u.
  destruct (N.eqb_spec (client_organization_id c) o); naive_solver.
Qed.
Lemma require_stored_organization_Ok t o u :
  require_stored_token_organization t o = Ok u <-> t = o.
Proof.
  unfold require_stored_token_organization. destruct u. destruct (N.eqb_spec t o); naive_solver.
Qed.
Lemma require_bound_Ok c o i u :
  require_client_bound_to_stored_grant c o i = Ok u
  <-> client_organization_id c = o /\ client_uuid c = i.
Proof.
  unfold require_client_bound_to_stored_grant. destruct u.
  destruct (N.eqb_spec (client_organization_id c) o), (N.eqb_spec (client_uuid c) i); naive_solver.
Qed.
Lemma require_confidential_Ok c u :
  require_confidential_client_credentials_client c = Ok u
  <-> client_public_client c = false /\ is_Some (client_secret_hash c).
Proof.
  unfold require_confidential_client_credentials_client. destruct u.
  destruct (client_public_client c), (client_secret_hash c); simpl; unfold is_Some; naive_solver.
Qed.
Lemma validate_redirect_Ok r s u :
  validate_authorization_code_redirect_uri r s = Ok u
  <-> r = Some s /\ is_empty (trim s) = false.
Proof.
  unfold validate_authorization_code_redirect_uri. destruct u. rewrite result_bind_Ok.
  setoid_rewrite required_parameter_Ok. split.
  - intros (v & [-> He] & H). destruct (bool_decide (v = s)) eqn:E; bool_prop; [subst|done]. done.
  - intros [-> He]. exists s. by rewrite bool_decide_true.
Qed.

Lemma authenticated_client_Ok state auth db c db' :
  run (authenticated_client_from_request state auth) db = (Ok c, db') <->
  db' = db
  /\ find_row (fun c' => bool_decide (client_client_id c' = client_client_id c)) (t_oidc_clients db)
     = Some c
  /\ client_organization_id c = state_organization_id state
  /\ client_status c = ClientStatus_Active /\ client_proven c auth.
Proof.
  unfold authenticated_client_from_request. split.
  - intros H. run_steps. unfold db_gets, get_oidc_client_by_public_id in *.
    match goal with Hq : db_gets _ _ = _ |- _ => injection Hq as <- <- end.
    apply require_organization_Ok in H3. apply require_active_Ok in H4. apply authenticate_Ok in H5.
    assert (Hid := proj1 H5). rewrite Hid in H0. injection H0 as <-. done.
  - intros (-> & Hf & Ho & Ha & Hp).
    rewrite (run_known _ _ _ (client_client_id c)) by (by rewrite run_some_or_Ok, (proj1 Hp)).
    rewrite (run_known _ _ _ (Some c)) by (by apply run_query_Ok; unfold get_oidc_client_by_public_id, db_gets; rewrite Hf).
    rewrite (run_known _ _ _ c) by done.
    do 3 (rewrite (run_known _ _ _ tt) by
      (by rewrite run_lift_Ok, ?require_organization_Ok, ?require_active_Ok, ?authenticate_Ok)).
    done.
Qed.

(** *** Scopes *)

Lemma token_request_scopes_Ok scope o :
  token_request_scopes scope = Ok o <->
  (scope = None /\ o = None) \/ exists s l, scope = Some s /\ parse_scopes s = Ok l /\ o = Some l.
Proof.
  unfold token_request_scopes. destruct scope as [s|].
  - destruct (parse_scopes s) as [l|e] eqn:E; cbn; split.
    + intros [= <-]. eauto 6.
    + intros [[[=] _]|(s' & l' & [= <-] & Hl & ->)]. congruence.
    + done.
    + intros [[[=] _]|(s' & l' & [= <-] & Hl & ->)]. congruence.
  - split; [intros [= <-]; by left|]. by intros [[_ ->]|(s' & l' & [=] & _)].
Qed.
Lemma exceeds_false (requested granted : list string) :
  existsb (fun scope => negb (existsb (fun g => bool_decide (g = scope)) granted)) requested = false
  <-> requested ⊆ granted.
Proof.
  rewrite existsb_elem_false. unfold subseteq, list_subseteq. apply forall_proper. intros x.
  rewrite negb_false_iff, existsb_elem. setoid_rewrite bool_decide_eq_true. naive_solver.
Qed.

(** A refresh never widens a grant: the scopes it grants are those of the
    stored token when the request names none, and otherwise the requested
    ones, in order of first occurrence, exactly when they are well-formed and
    every one of them was granted before; a malformed and an excessive
    request are both refused with [invalid_scope]. *)
Theorem refresh_scopes_never_widen requested original :
  (forall granted, refresh_token_granted_scopes requested original = Ok granted <->
     (requested = None /\ granted = original)
     \/ exists s, requested = Some s /\ parse_scopes s = Ok granted /\ granted ⊆ original)
  /\ (forall granted, refresh_token_granted_scopes requested original = Ok granted ->
     granted ⊆ original /\ (scope_list original -> scope_list granted))
  /\ (forall e, refresh_token_granted_scopes requested original = Err e ->
     exists d, e = api_oauth 400 (invalid_scope d)
       /\ forall s, requested = Some s ->
            (d = "invalid scope" /\ parse_scopes s = Err InvalidScope)
            \/ (d = "requested scope exceeds original grant"
                /\ exists l x, parse_scopes s = Ok l /\ x ∈ l /\ x ∉ original)).
Proof.
  assert (Hiff : forall granted, refresh_token_granted_scopes requested original = Ok granted <->
     (requested = None /\ granted = original)
     \/ exists s, requested = Some s /\ parse_scopes s = Ok granted /\ granted ⊆ original).
  { intros granted. unfold refresh_token_granted_scopes. rewrite result_bind_Ok.
    setoid_rewrite token_request_scopes_Ok. split.
    - intros (o & [[-> ->]|(s & l & -> & Hl & ->)] & H); [left; by injection H as <-|].
      destruct (existsb _ l) eqn:E; [done|]. apply exceeds_false in E. injection H as <-. eauto.
    - intros [[-> ->]|(s & -> & Hl & Hs)]; [exists None; eauto|].
      exists (Some granted). split; [eauto 6|]. by rewrite (proj2 (exceeds_false _ _) Hs). }
  split_and!; [exact Hiff| |].
  - intros granted [[_ ->]|(s & _ & Hl & Hs)]%Hiff; [done|]. split; [done|]. intros _.
    by apply (parse_scopes_scope_list s).
  - unfold refresh_token_granted_scopes, token_request_scopes. intros e H.
    destruct requested as [s|]; [|done]. destruct (parse_scopes s) as [l|e'] eqn:El; simpl in H.
    + destruct (existsb _ l) eqn:E; [|done]. injection H as <-. eexists. split; [done|].
      intros ? [= <-]. right. split; [done|]. apply existsb_elem in E as (x & Hx & E).
      exists l, x. split_and!; [done..|]. intros Hin. apply negb_true_iff, existsb_elem_false with (x:=x) in E; [|done].
      by rewrite bool_decide_true in E.
    + injection H as <-. eexists. split; [done|]. intros ? [= <-]. left.
      pose proof (parse_scopes_loop_err _ _ _ El) as ->. done.
Qed.

(** *** Users *)

(** The answer of [token_subject_is_active]. *)
Definition subject_active (db : Database) (organization_id : Uuid) (user_id : option Uuid) : bool :=
  match user_id with
  | None => true
  | Some id =>
      match t_users db !! id with
      | Some u => user_allows_runtime_access (uwp_user u) organization_id
      | None => false
      end
  end.
Lemma token_subject_run o u db : run (token_subject_is_active o u) db = (Ok (subject_active db o u), db).
Proof. destruct u as [id|]; [|done]. simpl. by destruct (t_users db !! id). Qed.

Lemma runtime_access_true u o :
  user_allows_runtime_access u o = true <->
  user_organization_id u = o /\ user_status u = UserStatus_Active.
Proof.
  unfold user_allows_runtime_access. by rewrite andb_true_iff, N.eqb_eq, bool_decide_eq_true.
Qed.

(** The answer of [groups_claim_for_user]. *)
Definition groups_claim (db : Database) (organization_id user_id : Uuid) (scopes : list string)
    : option (list string) :=
  if existsb (fun scope => bool_decide (scope = "groups")) scopes
  then match (list_user_group_slugs organization_id user_id db).1 with
       | Ok slugs => Some slugs | Err _ => None end
  else None.
Lemma groups_claim_run o u scopes db :
  run (groups_claim_for_user o u scopes) db = (Ok (groups_claim db o u scopes), db).
Proof. unfold groups_claim_for_user, groups_claim. by destruct (existsb _ scopes). Qed.

(** *** Reading handlers *)

Lemma db_gets_reads {X} (f : Database -> X) : reads (db_gets f).
Proof. done. Qed.
Lemma active_signing_key_reads : reads active_signing_key.
Proof. intros db. destruct (active_signing_key_spec db) as (o & H & _). by rewrite H. Qed.
Lemma resolve_signing_reads state : each_op (fun X op => reads op) (resolve_signing_material state).
Proof. unfold resolve_signing_material. each_op_steps. apply active_signing_key_reads. Qed.
Lemma resolve_signing_run state db :
  exists r, run (resolve_signing_material state) db = (r, db).
Proof.
  pose proof (each_reads_run _ db (resolve_signing_reads state)) as H.
  destruct (run (resolve_signing_material state) db) as [r db']. simpl in H. subst. eauto.
Qed.
Lemma authenticated_client_reads state auth :
  each_op (fun X op => reads op) (authenticated_client_from_request state auth).
Proof. unfold authenticated_client_from_request. by each_op_steps. Qed.
Lemma groups_claim_reads o u scopes :
  each_op (fun X op => reads op) (groups_claim_for_user o u scopes).
Proof. unfold groups_claim_for_user. by each_op_steps. Qed.
Lemma token_subject_reads o u : each_op (fun X op => reads op) (token_subject_is_active o u).
Proof. unfold token_subject_is_active. by each_op_steps. Qed.
End policy_properties.
#[export] Hint Resolve resolve_signing_reads authenticated_client_reads groups_claim_reads
  token_subject_reads : reads.
