(* ===== verification/IpAddr.v ===== *)
(** * Network addresses

    [std::net::IpAddr] as the program uses it: its [FromStr], which reads the
    dotted and the colon form as the standard library's parser does, and its
    [Display], which compresses the longest run of zero groups of an IPv6
    address. *)

From S2P Require Import Prelude RustStr.
From Stdlib Require Import Ascii.

(** An IPv6 address is its eight 16-bit groups. *)
Inductive IpAddr :=
| V4 (a b c d : N)
| V6 (groups : list N).
#[export] Instance IpAddr_eq_dec : EqDecision IpAddr.
Proof. solve_decision. Defined.

(** ** Reading *)

(** A reader answers what it read and what is left; [None] is a reader that
    gives up and leaves the text where it was. *)
Definition Reader (A : Type) : Type := string -> option (A * string).

Definition to_digit (radix : N) (c : ascii) : option N :=
  let d := if is_ascii_digit c then Some (byte c - 48)%N
           else if in_range 97 102 c then Some (byte c - 87)%N
           else if in_range 65 70 c then Some (byte c - 55)%N
           else None in
  match d with Some d => if (d <? radix)%N then Some d else None | None => None end.
Fixpoint read_digits (radix : N) (max_digits : nat) (result : N) (digit_count : nat) (s : string)
    : option (N * nat * string) :=
  match s with
  | String c rest =>
      match to_digit radix c with
      | Some digit =>
          if (max_digits <? S digit_count)%nat then None
          else read_digits radix max_digits (result * radix + digit) (S digit_count) rest
      | None => Some (result, digit_count, s)
      end
  | EmptyString => Some (result, digit_count, s)
  end.
(** [limit] is the bound of the type the number is read into. *)
Definition read_number (radix : N) (max_digits : nat) (allow_zero_prefix : bool) (limit : N)
    : Reader N := fun s =>
  match read_digits radix max_digits 0 0 s with
  | Some (result, digit_count, rest) =>
      if (digit_count =? 0)%nat then None
      else if negb allow_zero_prefix && starts_with "0" s && (1 <? digit_count)%nat then None
      else if (result <? limit)%N then Some (result, rest) else None
  | None => None
  end.
Definition read_given_char (c : ascii) : Reader unit := fun s =>
  match s with String c' rest => if Ascii.eqb c' c then Some (tt, rest) else None | _ => None end.
Definition read_separator {A} (sep : ascii) (index : nat) (inner : Reader A) : Reader A := fun s =>
  match index with
  | O => inner s
  | S _ => match read_given_char sep s with Some (_, rest) => inner rest | None => None end
  end.
Definition read_octet (index : nat) : Reader N :=
  read_separator "." index (read_number 10 3 false 256).
Definition read_ipv4_addr : Reader (N * N * N * N) := fun s =>
  '(a, s) ← read_octet 0 s;
  '(b, s) ← read_octet 1 s;
  '(c, s) ← read_octet 2 s;
  '(d, s) ← read_octet 3 s;
  Some ((a, b, c, d), s).

(** The groups from [i] on while [room] of them may follow, the text after
    them and whether they end in an embedded IPv4 address. *)
Fixpoint read_groups (i room : nat) (s : string) : list N * bool * string :=
  match room with
  | O => ([], false, s)
  | S room =>
      let group_of := fun s =>
        match read_separator ":" i (read_number 16 4 true 65536) s with
        | Some (g, rest) =>
            let '(groups, ipv4, rest) := read_groups (S i) room rest in (g :: groups, ipv4, rest)
        | None => ([], false, s)
        end in
      match room with
      | O => group_of s
      | S _ =>
          match read_separator ":" i read_ipv4_addr s with
          | Some ((a, b, c, d), rest) => ([a * 256 + b; c * 256 + d]%N, true, rest)
          | None => group_of s
          end
      end
  end.
Definition read_ipv6_addr : Reader (list N) := fun s =>
  let '(head, head_ipv4, s) := read_groups 0 8 s in
  if (length head =? 8)%nat then Some (head, s)
  else if head_ipv4 then None
  else
    '(_, s) ← read_given_char ":" s;
    '(_, s) ← read_given_char ":" s;
    let '(tail, _, s) := read_groups 0 (8 - (length head + 1)) s in
    Some (head ++ replicate (8 - length head - length tail) 0%N ++ tail, s).

(** [str::parse::<IpAddr>]: the whole text is read. *)
Definition parse_ip_addr (s : string) : option IpAddr :=
  '(ip, rest) ← match read_ipv4_addr s with
                | Some ((a, b, c, d), rest) => Some (V4 a b c d, rest)
                | None => '(groups, rest) ← read_ipv6_addr s; Some (V6 groups, rest)
                end;
  if is_empty rest then Some ip else None.

(** ** Writing *)

Definition hex_digit (n : N) : ascii :=
  if (n <? 10)%N then ascii_of_N (48 + n) else ascii_of_N (87 + n).
(** [{:x}] of a 16-bit number. *)
Definition hex_group (n : N) : string :=
  let digits := [n / 4096; n / 256 mod 16; n / 16 mod 16; n mod 16]%N in
  let fix skip (l : list N) : string :=
    match l with
    | [] => ""
    | [d] => String (hex_digit d) ""
    | d :: l => if (d =? 0)%N then skip l
                else fold_right (fun d s => String (hex_digit d) s) "" (d :: l)
    end in
  skip digits.
Definition decimal (n : N) : string := pretty n.
Definition ipv4_to_string (a b c d : N) : string := join "." (decimal <$> [a; b; c; d]).
(** The longest run of zeros, the first one of that length: start and length. *)
Fixpoint longest_zeros (i : nat) (current longest : nat * nat) (groups : list N) : nat * nat :=
  match groups with
  | [] => longest
  | g :: groups =>
      if (g =? 0)%N then
        let start := if (current.2 =? 0)%nat then i else current.1 in
        let current := (start, S current.2) in
        longest_zeros (S i) current (if (longest.2 <? current.2)%nat then current else longest) groups
      else longest_zeros (S i) (0, 0)%nat longest groups
  end.
Definition ipv6_to_string (groups : list N) : string :=
  match groups with
  | [0; 0; 0; 0; 0; 65535; ab; cd]%N =>
      "::ffff:" +:+ ipv4_to_string (ab / 256) (ab mod 256) (cd / 256) (cd mod 256)
  | _ =>
      let '(start, run) := longest_zeros 0 (0, 0)%nat (0, 0)%nat groups in
      let slice l := join ":" (hex_group <$> l) in
      if (1 <? run)%nat then slice (take start groups) +:+ "::" +:+ slice (drop (start + run) groups)
      else slice groups
  end.
Definition ip_to_string (ip : IpAddr) : string :=
  match ip with V4 a b c d => ipv4_to_string a b c d | V6 groups => ipv6_to_string groups end.

(** ** Examples *)

Example parse_ip_examples :
  parse_ip_addr "203.0.113.10" = Some (V4 203 0 113 10)
  /\ parse_ip_addr "203.0.113.010" = None /\ parse_ip_addr "203.0.113.256" = None
  /\ parse_ip_addr "203.0.113" = None /\ parse_ip_addr "203.0.113.1 " = None
  /\ parse_ip_addr "::1" = Some (V6 [0; 0; 0; 0; 0; 0; 0; 1])%N
  /\ parse_ip_addr "2001:DB8::1:0:0:1" = Some (V6 [8193; 3512; 0; 0; 1; 0; 0; 1])%N
  /\ parse_ip_addr "::ffff:192.0.2.1" = Some (V6 [0; 0; 0; 0; 0; 65535; 49152; 513])%N
  /\ parse_ip_addr "1:2:3:4:5:6:7:8:9" = None /\ parse_ip_addr "1::2::3" = None
  /\ parse_ip_addr "1:2:3:4:5:6:7::" = Some (V6 [1; 2; 3; 4; 5; 6; 7; 0])%N
  /\ parse_ip_addr "1.2.3.4::" = None /\ parse_ip_addr "" = None.
Proof. vm_compute. repeat split. Qed.
Example ip_to_string_examples :
  ip_to_string (V6 [8193; 3512; 0; 0; 1; 0; 0; 1])%N = "2001:db8::1:0:0:1"
  /\ ip_to_string (V6 [0; 0; 0; 0; 0; 65535; 49152; 513])%N = "::ffff:192.0.2.1"
  /\ ip_to_string (V6 [0; 0; 0; 0; 0; 0; 0; 0])%N = "::"
  /\ ip_to_string (V6 [1; 0; 2; 3; 4; 5; 6; 7])%N = "1:0:2:3:4:5:6:7"
  /\ ip_to_string (V4 192 0 2 1) = "192.0.2.1".
Proof. vm_compute. repeat split. Qed.

(** ** Properties *)

Definition octet (n : N) : Prop := (n < 256)%N.
Definition separated (rest : string) : Prop := rest = "" \/ exists r, rest = String "." r.
Lemma read_digits_app s rest result count x k :
  separated rest -> read_digits 10 3 result count s = Some (x, k, "") ->
  read_digits 10 3 result count (s +:+ rest) = Some (x, k, rest).
Proof.
  intros Hr. revert result count. induction s as [|c s IH]; intros result count; cbn [read_digits].
  - intros [= <- <-]. by destruct Hr as [->|[r ->]].
  - rewrite string_app_cons. cbn [read_digits]. destruct (to_digit 10 c); [|intros [= _ _ [=]]].
    destruct (3 <? S count)%nat; [done|]. apply IH.
Qed.
(** One to three digits, without a leading zero. *)
Definition decimal_reads (n : N) : bool :=
  match decimal n with
  | String c s =>
      bool_decide (read_digits 10 3 0 0 (String c s) = Some (n, S (String.length s), ""))
      && (negb (Ascii.eqb c "0") || is_empty s)
  | EmptyString => false
  end.
Lemma octet_reads n : octet n -> decimal_reads n = true.
Proof.
  intros Hn. assert (forallb decimal_reads (N.of_nat <$> seq 0 256) = true) as Hall by (vm_compute; done).
  rewrite forallb_forall in Hall. apply Hall, list_elem_of_In, list_elem_of_fmap. exists (N.to_nat n).
  split; [by rewrite N2Nat.id|]. apply elem_of_seq. unfold octet in Hn. lia.
Qed.
Lemma read_decimal n rest :
  octet n -> separated rest -> read_number 10 3 false 256 (decimal n +:+ rest) = Some (n, rest).
Proof.
  intros Hn Hr. pose proof (octet_reads n Hn) as H. unfold decimal_reads in H.
  destruct (decimal n) as [|c s]; [done|]. apply andb_true_iff in H as [H%bool_decide_eq_true Hz].
  unfold read_number. rewrite (read_digits_app _ rest _ _ _ _ Hr H). cbn [Nat.eqb].
  assert ((negb false && starts_with "0" (String c s +:+ rest) && (1 <? S (String.length s))%nat) = false) as ->.
  { rewrite string_app_cons. unfold starts_with. cbn [strip_prefix].
    destruct (Ascii.eqb c "0") eqn:E; [destruct s; [by rewrite andb_false_r|done]|].
    rewrite Ascii.eqb_sym, E. rewrite bool_decide_false; [done|]. by intros [? ?]. }
  apply N.ltb_lt in Hn. by rewrite Hn.
Qed.
Lemma read_first_octet n rest :
  octet n -> separated rest -> read_octet 0 (decimal n +:+ rest) = Some (n, rest).
Proof. apply read_decimal. Qed.
Lemma read_next_octet i n rest :
  octet n -> separated rest -> read_octet (S i) ("." +:+ decimal n +:+ rest) = Some (n, rest).
Proof. apply read_decimal. Qed.
Lemma dot_separated s : separated ("." +:+ s).
Proof. right. by exists s. Qed.
(** The text of an IPv4 address is read back as that address. *)
Lemma ipv4_round_trip a b c d :
  octet a -> octet b -> octet c -> octet d ->
  parse_ip_addr (ip_to_string (V4 a b c d)) = Some (V4 a b c d).
Proof.
  intros Ha Hb Hc Hd. pose proof dot_separated as Hdot. assert (separated "") as Hnil by by left.
  assert (read_ipv4_addr (ip_to_string (V4 a b c d)) = Some ((a, b, c, d), "")) as Hread.
  { unfold read_ipv4_addr, ip_to_string, ipv4_to_string. cbn [fmap list_fmap join].
    rewrite read_first_octet by done. cbn [mbind option_bind].
    rewrite read_next_octet by done. cbn [mbind option_bind].
    rewrite read_next_octet by done. cbn [mbind option_bind].
    rewrite <- (string_app_nil_r (decimal d)). by rewrite read_next_octet. }
  unfold parse_ip_addr. by rewrite Hread.
Qed.
