(* ===== verification/RequestContext.v ===== *)
(** * The context of a request and the account mail

    [apps/api/src/http]'s request_context (the source of a request, what the
    audit log keeps of it, the keys of the rate limiter) and account_lifecycle
    (the messages a change of the account sends, password policy, account
    tokens).  The address of the peer is what axum's connection information
    gives; [Rfc3339] formatting is the [time] crate's. *)

From S2P Require Import Prelude RustStr IpAddr Domain Authn Oidc Http Codec.
From S2P Require Import Store.
From S2P Require Import SessionStore AccountStore Handler KeyStore RateLimit OAuthPolicy.
From Stdlib Require Import Ascii.

(** ** Where a request comes from *)

(* apps/api/src/http/request_context/network.rs:15-17 RequestIdentity *)
Record RequestIdentity := mk_RequestIdentity { identity_source_ip : option IpAddr }.
Definition UNKNOWN_NETWORK_IDENTIFIER : string := "unknown".
(* apps/api/src/http/request_context/network.rs:20-24 network_identifier *)
Definition network_identifier (identity : RequestIdentity) : string :=
  default UNKNOWN_NETWORK_IDENTIFIER (ip_to_string <$> identity_source_ip identity).
(* apps/api/src/http/request_context/network.rs:26-28 audit_ip_address *)
Definition identity_audit_ip_address (identity : RequestIdentity) : option string :=
  ip_to_string <$> identity_source_ip identity.
(* apps/api/src/http/request_context/network.rs:40-42 without_peer *)
Definition without_peer : RequestIdentity := mk_RequestIdentity None.

(** [chars().take(n)]: a byte that does not continue a character starts one. *)
Fixpoint take_chars (n : nat) (s : string) : string :=
  match s with
  | EmptyString => EmptyString
  | String c rest =>
      if in_range 128 191 c then String c (take_chars n rest)
      else match n with O => EmptyString | S n => String c (take_chars n rest) end
  end.
Definition AUDIT_REQUEST_CONTEXT_MAX_LEN : nat := 512.
(* apps/api/src/http/request_context/audit.rs:31-33 truncate_audit_request_context_value *)
Definition truncate_audit_request_context_value (value : string) : string :=
  take_chars AUDIT_REQUEST_CONTEXT_MAX_LEN value.

Section context.
Context {HC : HttpCrates}.

(* apps/api/src/http/request_context/network.rs:65-70 header_first_value *)
Definition header_first_value (headers : HeaderMap) (name : string) : option string :=
  headers_get headers name ≫= header_to_str.
(* apps/api/src/http/request_context/network.rs:95-97 parse_ip *)
Definition parse_ip (value : string) : option IpAddr := parse_ip_addr (trim value).
(* apps/api/src/http/request_context/network.rs:91-93 first_forwarded_for_ip *)
Definition first_forwarded_for_ip (value : string) : option IpAddr :=
  head (split_char "," value) ≫= parse_ip.
(* apps/api/src/http/request_context/network.rs:85-89 forwarded_ip *)
Definition forwarded_ip (headers : HeaderMap) : option IpAddr :=
  match header_first_value headers "x-forwarded-for" ≫= first_forwarded_for_ip with
  | Some ip => Some ip
  | None => header_first_value headers "x-real-ip" ≫= parse_ip
  end.
(** [trusted_proxy_ips] is the only field of the [RequestIdentityConfig]; the
    peer is the address of the connection, without its port. *)
(* apps/api/src/http/request_context/network.rs:72-83 source_ip *)
Definition source_ip (trusted_proxy_ips : list IpAddr) (headers : HeaderMap)
    (peer_ip : option IpAddr) : option IpAddr :=
  peer_ip ← peer_ip;
  if contains trusted_proxy_ips peer_ip
  then Some (default peer_ip (forwarded_ip headers))
  else Some peer_ip.
(* apps/api/src/http/request_context/network.rs:30-38 from_parts *)
Definition request_identity_from_parts (trusted_proxy_ips : list IpAddr) (headers : HeaderMap)
    (peer_ip : option IpAddr) : RequestIdentity :=
  mk_RequestIdentity (source_ip trusted_proxy_ips headers peer_ip).
(* apps/api/src/http/request_context/audit.rs:13-29 audit_request_context_for_identity *)
Definition audit_request_context_for_identity (identity : RequestIdentity) (headers : HeaderMap)
    : option string * option string :=
  (truncate_audit_request_context_value <$> identity_audit_ip_address identity,
   truncate_audit_request_context_value <$> header_first_value headers "user-agent").
End context.

(** ** Keys of the rate limiter *)

Definition LOGIN_RATE_LIMIT_MAX_ATTEMPTS : Z := 5.
Definition LOGIN_RATE_LIMIT_WINDOW : Z := duration_minutes 15.
Definition LOGIN_RATE_LIMIT_BLOCK : Z := duration_minutes 15.
Definition REAUTHENTICATION_RATE_LIMIT_MAX_ATTEMPTS : Z := 5.
Definition REAUTHENTICATION_RATE_LIMIT_WINDOW : Z := duration_minutes 15.
Definition REAUTHENTICATION_RATE_LIMIT_BLOCK : Z := duration_minutes 15.
Definition BOOTSTRAP_RATE_LIMIT_MAX_ATTEMPTS : Z := 5.
Definition BOOTSTRAP_RATE_LIMIT_WINDOW : Z := duration_minutes 60.
Definition BOOTSTRAP_RATE_LIMIT_BLOCK : Z := duration_minutes 30.
Definition ACCOUNT_RECOVERY_RATE_LIMIT_MAX_ATTEMPTS : Z := 3.
Definition ACCOUNT_RECOVERY_RATE_LIMIT_WINDOW : Z := duration_minutes 60.
Definition ACCOUNT_RECOVERY_RATE_LIMIT_BLOCK : Z := duration_minutes 60.

Section keys.
Context {CC : CryptoCrates} {TC : TokenCrates}.

(* apps/api/src/http/request_context/rate_limit.rs:138-151 source_rate_limit_key *)
Definition source_rate_limit_key (prefix : string) (organization_id : Uuid)
    (identity : RequestIdentity) (purpose : string) : RateLimitKey :=
  mk_RateLimitKey (prefix +:+ ":ip:" +:+ uuid_to_string organization_id +:+ ":"
                   +:+ hash_token (network_identifier identity)) purpose.
(* apps/api/src/http/request_context/rate_limit.rs:62-72 login_pre_credential_rate_limit_keys *)
Definition login_pre_credential_rate_limit_keys (organization_id : Uuid)
    (identity : RequestIdentity) : list RateLimitKey :=
  [source_rate_limit_key "login" organization_id identity "session.login.ip"].
(* apps/api/src/http/request_context/rate_limit.rs:74-89 login_verified_user_rate_limit_keys *)
Definition login_verified_user_rate_limit_keys (organization_id user_id : Uuid)
    (identity : RequestIdentity) : list RateLimitKey :=
  [mk_RateLimitKey ("login:user:" +:+ uuid_to_string organization_id +:+ ":"
                    +:+ hash_token (uuid_to_string user_id)) "session.login.user";
   source_rate_limit_key "login" organization_id identity "session.login.ip"].
(* apps/api/src/http/request_context/rate_limit.rs:91-112 reauthentication_rate_limit_keys_for_identity *)
Definition reauthentication_rate_limit_keys_for_identity (organization_id user_id : Uuid)
    (identity : RequestIdentity) : list RateLimitKey :=
  [mk_RateLimitKey ("reauth:user:" +:+ uuid_to_string organization_id +:+ ":"
                    +:+ hash_token (uuid_to_string user_id)) "session.reauthenticate.user";
   mk_RateLimitKey ("reauth:ip:" +:+ uuid_to_string organization_id +:+ ":"
                    +:+ hash_token (network_identifier identity)) "session.reauthenticate.ip"].
(* apps/api/src/http/request_context/rate_limit.rs:114-124 bootstrap_rate_limit_keys *)
Definition bootstrap_rate_limit_keys (organization_id : Uuid) (identity : RequestIdentity)
    : list RateLimitKey :=
  [source_rate_limit_key "bootstrap" organization_id identity "bootstrap.ip"].
(* apps/api/src/http/request_context/rate_limit.rs:126-136 account_recovery_rate_limit_keys *)
Definition account_recovery_rate_limit_keys (organization_id : Uuid) (identity : RequestIdentity)
    : list RateLimitKey :=
  [source_rate_limit_key "account-recovery" organization_id identity "account.recovery.ip"].
End keys.

(** ** Notifications *)

Class TimeFormat := { rfc3339_format : OffsetDateTime -> option string }.

Definition newline : string := String (ascii_of_N 10) "".
Definition opt_string (o : option string) : Value :=
  match o with Some s => String_ s | None => Null end.

Section notifications.
Context {CC : CryptoCrates} {TC : TokenCrates} {AG : AesGcm} {TF : TimeFormat}.

(* apps/api/src/http/account_lifecycle/notifications.rs:142-146 format_rfc3339 *)
Definition format_rfc3339 (timestamp : OffsetDateTime) : string :=
  default "unknown" (rfc3339_format timestamp).
(** A message queued at [at_] with nothing to deliver but its text. *)
Definition queued_message (id organization_id : Uuid) (recipient_email subject body_text template : string)
    (metadata : Value) (at_ : OffsetDateTime) : EmailOutboxMessage :=
  mk_EmailOutboxMessage id organization_id recipient_email subject body_text template None None None
    "queued" 0 None None metadata at_ at_ None None.
Definition notification_body (intro : string) (at_text : string) (ip_address user_agent : option string)
    (outro : string) : string :=
  intro +:+ newline +:+ newline +:+ "Time: " +:+ at_text
  +:+ newline +:+ "IP address: " +:+ default "Unknown" ip_address
  +:+ newline +:+ "Browser: " +:+ default "Unknown" user_agent
  +:+ newline +:+ newline +:+ outro.

(* apps/api/src/http/account_lifecycle/notifications.rs:8-51 password_change_notification_email *)
Definition password_change_notification_email (state : AppState) (id : Uuid) (user : User)
    (session : AuthSession) (ip_address user_agent : option string) (at_ : OffsetDateTime)
    : EmailOutboxMessage :=
  let changed_at := format_rfc3339 at_ in
  queued_message id (state_organization_id state) (user_email user)
    "Your Cairn Identity password was changed"
    (notification_body "Your Cairn Identity password was changed." changed_at ip_address user_agent
       "If this was you, no action is needed. If this was not you, reset your password immediately and contact your administrator.")
    "password_changed_notification"
    (Object [("kind", String_ "password_changed_notification");
             ("user_id", String_ (uuid_to_string (user_id user)));
             ("session_id", String_ (uuid_to_string (session_id session)));
             ("ip_address", opt_string ip_address); ("user_agent", opt_string user_agent);
             ("changed_at", String_ changed_at)]) at_.
(* apps/api/src/http/account_lifecycle/notifications.rs:53-95 password_recovery_completed_notification_email *)
Definition password_recovery_completed_notification_email (state : AppState) (id : Uuid)
    (token : AccountToken) (user_id : Uuid) (ip_address user_agent : option string)
    (at_ : OffsetDateTime) : EmailOutboxMessage :=
  let recovered_at := format_rfc3339 at_ in
  queued_message id (state_organization_id state) (account_token_email token)
    "Your Cairn Identity password was reset"
    (notification_body "Your Cairn Identity password was reset using account recovery." recovered_at
       ip_address user_agent
       "If this was you, no action is needed. If this was not you, contact your administrator immediately.")
    "password_recovered_notification"
    (Object [("kind", String_ "password_recovered_notification");
             ("account_token_id", String_ (uuid_to_string (account_token_id token)));
             ("user_id", String_ (uuid_to_string user_id));
             ("ip_address", opt_string ip_address); ("user_agent", opt_string user_agent);
             ("recovered_at", String_ recovered_at)]) at_.
(* apps/api/src/http/account_lifecycle/notifications.rs:97-140 new_login_notification_email *)
Definition new_login_notification_email (state : AppState) (id : Uuid) (user : User)
    (session : AuthSession) (ip_address user_agent : option string) (at_ : OffsetDateTime)
    : EmailOutboxMessage :=
  let logged_in_at := format_rfc3339 at_ in
  queued_message id (state_organization_id state) (user_email user) "New Cairn Identity sign-in"
    (notification_body "A new Cairn Identity sign-in was detected." logged_in_at ip_address user_agent
       "If this was you, no action is needed. If this was not you, change your password immediately and contact your administrator.")
    "new_login_notification"
    (Object [("kind", String_ "new_login_notification");
             ("user_id", String_ (uuid_to_string (user_id user)));
             ("session_id", String_ (uuid_to_string (session_id session)));
             ("ip_address", opt_string ip_address); ("user_agent", opt_string user_agent);
             ("logged_in_at", String_ logged_in_at)]) at_.
End notifications.

(** ** Passwords and account tokens *)

(* apps/api/src/http/account_lifecycle/password.rs:13-21 valid_new_password *)
Definition valid_new_password (password : string) : result ApiError string :=
  if (String.length password <? 12)%nat
  then Err (api_bad_request "password must be at least 12 characters") else Ok password.
