(* ===== verification/BrowserSession.v ===== *)
(** * Browser sessions: cookies, CSRF and fresh authentication

    [apps/api/src/http]'s cookies.rs, session_auth.rs and mfa/session.rs: the
    session a request carries in its cookie, the double-submitted CSRF token,
    and the guards of the administration and account pages.  [Uuid::parse_str]
    is the [uuid] crate's. *)

From S2P Require Import Prelude RustStr Domain Authn Oidc Http Codec Store.
From S2P Require Import SessionStore Directory Handler KeyStore OAuthPolicy.
From Stdlib Require Import Ascii.

Class UuidCrate := { Uuid_parse_str : string -> option Uuid }.

(** ** Cookies *)

Definition SESSION_COOKIE : string := "cairn_session".
Definition CSRF_COOKIE : string := "cairn_csrf".
Definition CSRF_HEADER : string := "x-cairn-csrf".
Definition CSRF_TOKEN_MIN_LEN : nat := 32.
Definition CSRF_TOKEN_MAX_LEN : nat := 128.

Definition forbidden (message : string) : ApiError := api_status 403 message.

Section cookies.
Context {HC : HttpCrates}.

(** [filter_map(..split_once..).find_map(..)] over the parts of the header. *)
(* apps/api/src/http/cookies.rs:14-22 cookie_value *)
Definition cookie_value (headers : HeaderMap) (name : string) : option string :=
  value ← headers_get headers "cookie";
  text ← header_to_str value;
  snd <$> List.find (fun part => bool_decide (fst part = name))
            (omap (fun part => split_once "=" (trim part)) (split_char ";" text)).

(* apps/api/src/http/cookies.rs:58-63 is_csrf_token_value *)
Definition is_csrf_token_value (token : string) : bool :=
  (CSRF_TOKEN_MIN_LEN <=? String.length token)%nat
  && (String.length token <=? CSRF_TOKEN_MAX_LEN)%nat
  && all_bytes (fun b => in_range 65 90 b || in_range 97 122 b || in_range 48 57 b
       || Ascii.eqb b "-" || Ascii.eqb b "_") token.

Fixpoint string_bytes (s : string) : list N :=
  match s with EmptyString => [] | String c s => byte c :: string_bytes s end.
(** The accumulator is a [u8]: an or of xors of bytes needs no wrap-around. *)
(* apps/api/src/http/cookies.rs:65-74 constant_time_eq *)
Definition csrf_constant_time_eq (left right : string) : bool :=
  if negb (String.length left =? String.length right)%nat then false
  else (fold_left (fun acc pair => N.lor acc (N.lxor (fst pair) (snd pair)))
          (combine (string_bytes left) (string_bytes right)) 0 =? 0)%N.

(* apps/api/src/http/cookies.rs:24-56 require_csrf *)
Definition require_csrf (headers : HeaderMap) : result ApiError unit :=
  match cookie_value headers CSRF_COOKIE with
  | None => Err (forbidden "missing CSRF cookie")
  | Some cookie_token =>
  match headers_get headers CSRF_HEADER ≫= header_to_str with
  | None => Err (forbidden "missing CSRF header")
  | Some header_token =>
      if negb (is_csrf_token_value cookie_token) || negb (is_csrf_token_value header_token)
      then Err (forbidden "invalid CSRF token")
      else if csrf_constant_time_eq cookie_token header_token then Ok tt
      else Err (forbidden "invalid CSRF token")
  end end.
End cookies.

(** ** Authentication context *)

Definition MFA_DESTRUCTIVE_ACTION_MAX_AGE : Z := duration_minutes 15.

(* apps/api/src/http/mfa/session.rs:9-13 MfaVerificationMethod *)
Inductive MfaVerificationMethod := Method_Totp | Method_RecoveryCode | Method_WebAuthn.
(* apps/api/src/http/mfa/session.rs:16-22 MfaVerificationMethod::acr *)
Definition method_acr (m : MfaVerificationMethod) : string :=
  match m with
  | Method_Totp => "urn:cairn:acr:password+totp"
  | Method_RecoveryCode => "urn:cairn:acr:password+recovery_code"
  | Method_WebAuthn => "urn:cairn:acr:password+webauthn"
  end.
(* apps/api/src/http/mfa/session.rs:24-30 MfaVerificationMethod::amr *)
Definition method_amr (m : MfaVerificationMethod) : list string :=
  match m with
  | Method_Totp => ["pwd"; "otp"]
  | Method_RecoveryCode => ["pwd"; "recovery"]
  | Method_WebAuthn => ["pwd"; "mfa"; "user"]
  end.

(* apps/api/src/http/mfa/session.rs:33-43 session_has_mfa_proof *)
Definition session_has_mfa_proof (session : AuthSession) : bool :=
  contains ["urn:cairn:acr:password+totp"; "urn:cairn:acr:password+recovery_code";
            "urn:cairn:acr:password+webauthn"] (session_acr session)
  || existsb (contains ["otp"; "recovery"; "mfa"]) (session_amr session).

(* apps/api/src/http/mfa/session.rs:45-58 require_recent_mfa_proof *)
Definition require_recent_mfa_proof (session : AuthSession) (now : OffsetDateTime)
    : result ApiError unit :=
  if negb (session_has_mfa_proof session)
     || (session_created_at session + MFA_DESTRUCTIVE_ACTION_MAX_AGE <? now)%Z
  then Err (forbidden "fresh MFA verification required") else Ok tt.
(* apps/api/src/http/mfa/session.rs:60-72 require_recent_authentication *)
Definition require_recent_authentication (session : AuthSession) (now : OffsetDateTime)
    : result ApiError unit :=
  if (session_created_at session + MFA_DESTRUCTIVE_ACTION_MAX_AGE <? now)%Z
  then Err (forbidden "fresh authentication required") else Ok tt.

(** The random [id] is an argument. *)
(* apps/api/src/http/mfa/session.rs:74-95 authenticated_session *)
Definition authenticated_session (id organization_id user_id : Uuid)
    (mfa_method : option MfaVerificationMethod) (now : OffsetDateTime) : AuthSession :=
  mk_AuthSession id organization_id user_id
    (default "urn:cairn:acr:password" (method_acr <$> mfa_method))
    (default ["pwd"] (method_amr <$> mfa_method))
    now (now + duration_hours 12)%Z None.
(* apps/api/src/http/mfa/session.rs:97-111 rotated_session_preserving_auth_context *)
Definition rotated_session_preserving_auth_context (id : Uuid) (session : AuthSession)
    (now : OffsetDateTime) : AuthSession :=
  mk_AuthSession id (session_organization_id session) (session_user_id session)
    (session_acr session) (session_amr session) (session_created_at session)
    (now + duration_hours 12)%Z None.

(** [i64::saturating_sub] *)
Definition i64_saturating_sub (a b : Z) : Z := Z.max i64_min (Z.min i64_max (a - b)).
(* apps/api/src/http/session_auth.rs:23-36 session_exceeds_max_age *)
Definition session_exceeds_max_age (session : AuthSession) (max_age : option Z)
    (now : OffsetDateTime) : bool :=
  match max_age with
  | None => false
  | Some max_age =>
      (max_age <? i64_saturating_sub (unix_timestamp now)
                    (unix_timestamp (session_created_at session)))%Z
  end.

(* apps/api/src/http/session_auth.rs:115-124 require_client_in_session_organization *)
Definition require_client_in_session_organization (client : OidcClient) (session : AuthSession)
    : result ApiError unit :=
  if negb (N.eqb (client_organization_id client) (session_organization_id session))
  then Err (api_bad_request "unknown client") else Ok tt.

(** ** Sessions of requests *)

Definition ADMINISTRATORS_GROUP_SLUG : string := "administrators".
Definition ADMINISTRATORS_GROUP_DISPLAY_NAME : string := "Administrators".
(* apps/api/src/http/session_auth.rs:72-84 bootstrap_admin_group *)
Definition bootstrap_admin_group (id organization_id : Uuid) (created_at : OffsetDateTime) : Group :=
  mk_Group id organization_id ADMINISTRATORS_GROUP_SLUG None ADMINISTRATORS_GROUP_DISPLAY_NAME
    created_at.

Section sessions.
Context {AG : AesGcm} {HC : HttpCrates} {UU : UuidCrate}.

(* apps/api/src/http/session_auth.rs:126-152 session_from_cookie *)
Definition session_from_cookie (state : AppState) (now : OffsetDateTime) (headers : HeaderMap)
    : Handler (option AuthSession) :=
  match cookie_value headers SESSION_COOKIE with
  | None => succeed None
  | Some raw =>
  match Uuid_parse_str raw with
  | None => succeed None
  | Some session_id =>
  do! session := query (get_auth_session session_id) in
  match session with
  | None => succeed None
  | Some session =>
  if negb (N.eqb (session_organization_id session) (state_organization_id state))
  then succeed None
  else if is_some (session_revoked_at session) || (session_expires_at session <=? now)%Z
  then succeed None
  else
  do! user := query (get_user (session_user_id session)) in
  match user with
  | None => succeed None
  | Some user =>
  if negb (user_allows_runtime_access user (session_organization_id session))
  then succeed None
  else succeed (Some session)
  end end end end.

(* apps/api/src/http/session_auth.rs:14-21 require_session *)
Definition require_session (state : AppState) (now : OffsetDateTime) (headers : HeaderMap)
    : Handler AuthSession :=
  do! session := session_from_cookie state now headers in
  some_or session (api_status 401 "missing session").
(* apps/api/src/http/session_auth.rs:38-61 require_admin_session *)
Definition require_admin_session (state : AppState) (now : OffsetDateTime) (headers : HeaderMap)
    : Handler AuthSession :=
  do! session := require_session state now headers in
  do! is_admin := query (user_has_group_role (session_organization_id session)
                           (session_user_id session) ADMINISTRATORS_GROUP_SLUG
                           [MembershipRole_Owner]) in
  do! _ := reject_if (negb is_admin) (forbidden "admin privileges required") in
  succeed session.
(** The session check and the freshness check each read the clock. *)
(* apps/api/src/http/session_auth.rs:63-70 require_recent_admin_session *)
Definition require_recent_admin_session (state : AppState) (session_now now : OffsetDateTime)
    (headers : HeaderMap) : Handler AuthSession :=
  do! session := require_admin_session state session_now headers in
  do! _ := lift (require_recent_mfa_proof session now) in
  succeed session.
(* apps/api/src/http/session_auth.rs:86-95 require_group_in_organization *)
Definition require_group_in_organization (state : AppState) (group_id : Uuid) : Handler Group :=
  do! group := query (get_group (state_organization_id state) group_id) in
  some_or group (api_status 404 "group not found").
End sessions.

(** ** Properties *)

Lemma fold_left_combine l r acc :
  String.length l = String.length r ->
  fold_left (fun acc pair => N.lor acc (N.lxor (fst pair) (snd pair)))
    (combine (string_bytes l) (string_bytes r)) acc = 0%N <-> acc = 0%N /\ l = r.
Proof.
  intros Hlen. rewrite (fold_lor_zero (fun pair => N.lxor (fst pair) (snd pair))).
  apply and_iff_compat_l. revert r Hlen. induction l as [|a l IH]; intros [|b r] Hlen; cbn in *; [done..|]. injection Hlen as Hlen. rewrite Forall_cons, (IH r Hlen). simpl. rewrite N.lxor_eq_0_iff. split.
  - intros [Hab ->]. f_equal. by apply byte_inj.
  - by intros [= -> ->].
Qed.
Lemma csrf_constant_time_eq_iff l r : csrf_constant_time_eq l r = true <-> l = r.
Proof.
  unfold csrf_constant_time_eq. destruct (String.length l =? String.length r)%nat eqn:E; simpl.
  - apply Nat.eqb_eq in E. rewrite N.eqb_eq, fold_left_combine by done. naive_solver.
  - apply Nat.eqb_neq in E. naive_solver.
Qed.

Section session_properties.
Context {AG : AesGcm} {HC : HttpCrates} {UU : UuidCrate}.

Definition csrf_token (t : string) : Prop := is_csrf_token_value t = true.
(** The CSRF check passes exactly when the token of the cookie and the token
    of the header are one and the same string, 32 to 128 bytes of the base64url
    alphabet; every other request gets 403. *)
Theorem require_csrf_spec headers :
  (require_csrf headers = Ok tt <->
   exists t, cookie_value headers CSRF_COOKIE = Some t
     /\ headers_get headers CSRF_HEADER ≫= header_to_str = Some t
     /\ is_csrf_token_value t = true)
  /\ (forall e, require_csrf headers = Err e -> response_status (api_error_into_response e) = 403%N).
Proof.
  unfold require_csrf.
  destruct (cookie_value headers CSRF_COOKIE) as [c|]; [|split; [naive_solver|by intros e [= <-]]].
  destruct (headers_get headers CSRF_HEADER ≫= header_to_str) as [h|];
    [|split; [naive_solver|by intros e [= <-]]].
  destruct (is_csrf_token_value c) eqn:Ec, (is_csrf_token_value h) eqn:Eh; simpl;
    try (split; [split; [done|intros (? & [= <-] & [= Hh] & Ht); congruence]|by intros e [= <-]]).
  destruct (csrf_constant_time_eq c h) eqn:E.
  - apply csrf_constant_time_eq_iff in E as ->. split; [naive_solver|done].
  - assert (c <> h) as Hne by (intros Hch; apply csrf_constant_time_eq_iff in Hch; congruence).
    split; [split; [done|intros (? & [= <-] & [= Hh] & _); congruence]|by intros e [= <-]].
Qed.

(** A session of the database that still stands at [now]. *)
Definition usable_session (db : Database) (organization_id : Uuid) (now : OffsetDateTime)
    (id : Uuid) (s : AuthSession) : Prop :=
  row_session <$> t_auth_sessions db !! id = Some s
  /\ session_organization_id s = organization_id
  /\ session_revoked_at s = None /\ (now < session_expires_at s)%Z
  /\ exists u, t_users db !! session_user_id s = Some u
       /\ user_organization_id (uwp_user u) = organization_id
       /\ user_status (uwp_user u) = UserStatus_Active.
(** The session the cookie of a request names. *)
Definition carries_session (db : Database) (state : AppState) (now : OffsetDateTime)
    (headers : HeaderMap) (s : AuthSession) : Prop :=
  exists raw id, cookie_value headers SESSION_COOKIE = Some raw /\ Uuid_parse_str raw = Some id
    /\ usable_session db (state_organization_id state) now id s.

Lemma session_from_cookie_reads state now headers :
  each_op (fun X op => reads op) (session_from_cookie state now headers).
Proof. unfold session_from_cookie. each_op_steps; done. Qed.
#[local] Hint Resolve session_from_cookie_reads : reads.

Lemma session_from_cookie_run state now headers db :
  exists o, run (session_from_cookie state now headers) db = (Ok o, db)
    /\ forall s, o = Some s <-> carries_session db state now headers s.
Proof.
  unfold session_from_cookie, carries_session, usable_session.
  destruct (cookie_value headers SESSION_COOKIE) as [raw|];
    [|exists None; split; [done|]; split; [done|]; by intros (? & ? & [=] & _)].
  destruct (Uuid_parse_str raw) as [id|] eqn:Eid;
    [|exists None; split; [done|]; split; [done|]; intros (? & ? & [= <-] & H & _); congruence].
  simpl. destruct (t_auth_sessions db !! id) as [row|] eqn:Erow; simpl;
    [|exists None; split; [done|]; split; [done|]; intros (? & ? & [= <-] & ? & H & _);
      rewrite Eid in *; simplify_eq; rewrite Erow in H; done].
  assert (Hno : forall P : AuthSession -> Prop,
    ~ P (row_session row) -> forall s, None = Some s <->
      exists raw0 id0, Some raw = Some raw0 /\ Uuid_parse_str raw0 = Some id0
        /\ row_session <$> t_auth_sessions db !! id0 = Some s /\ P s).
  { intros P HP s. split; [done|]. intros (? & ? & [= <-] & Hid & H & Hs). rewrite Eid in Hid.
    injection Hid as <-. rewrite Erow in H. injection H as <-. done. }
  destruct (N.eqb_spec (session_organization_id (row_session row)) (state_organization_id state))
    as [Ho|Ho]; cbn [negb]; [|exists None; split; [done|]; apply Hno; tauto].
  destruct (session_revoked_at (row_session row)) as [t|] eqn:Er; cbn [is_some orb];
    [exists None; split; [done|]; apply Hno; intros (_ & H & _); congruence|].
  destruct (session_expires_at (row_session row) <=? now)%Z eqn:Et; bool_prop;
    [exists None; split; [done|]; apply Hno; intros (_ & _ & H & _); lia|].
  simpl. destruct (t_users db !! session_user_id (row_session row)) as [u|] eqn:Eu; simpl;
    [|exists None; split; [done|]; apply Hno; rewrite Eu; by intros (_ & _ & _ & ? & [=] & _)].
  destruct (user_allows_runtime_access (uwp_user u) _) eqn:Ea; simpl.
  - apply runtime_access_true in Ea. exists (Some (row_session row)). split; [done|]. intros s. split.
    + intros [= <-]. exists raw, id. rewrite Erow, Eu. rewrite Ho in Ea.
      split_and!; try done. exists u. done.
    + intros (? & ? & [= <-] & Hid & H & _). rewrite Eid in Hid. injection Hid as <-.
      by rewrite Erow in H.
  - exists None. split; [done|]. apply Hno. rewrite Eu. intros (_ & _ & _ & v & [= <-] & Hv).
    rewrite Ho in Ea. apply runtime_access_true in Hv. congruence.
Qed.

Lemma session_from_cookie_Ok state now headers db s db' :
  run (session_from_cookie state now headers) db = (Ok (Some s), db') <->
  db' = db /\ carries_session db state now headers s.
Proof.
  destruct (session_from_cookie_run state now headers db) as (o & -> & Ho). rewrite <- Ho.
  split; [by intros [= -> <-]|by intros [-> ->]].
Qed.
Lemma require_session_Ok state now headers db s db' :
  run (require_session state now headers) db = (Ok s, db') <->
  db' = db /\ carries_session db state now headers s.
Proof.
  unfold require_session. destruct (session_from_cookie_run state now headers db) as (o & Hr & Ho).
  rewrite (run_known _ _ _ _ Hr), run_some_or_Ok, Ho. tauto.
Qed.
Lemma carries_session_unique db state now headers s1 s2 :
  carries_session db state now headers s1 -> carries_session db state now headers s2 -> s1 = s2.
Proof.
  intros (r1 & i1 & Hr1 & Hi1 & Hs1 & _) (r2 & i2 & Hr2 & Hi2 & Hs2 & _).
  rewrite Hr1 in Hr2. injection Hr2 as <-. rewrite Hi1 in Hi2. injection Hi2 as <-. congruence.
Qed.

(** The session of a request: the handler never fails and never changes
    anything, and it answers a session exactly when the cookie of the request
    names a stored one of this organization that is neither revoked nor expired
    and whose user is active in it; every other request has none. *)
Theorem session_from_cookie_spec state now headers db :
  exists o, run (session_from_cookie state now headers) db = (Ok o, db)
    /\ forall s, o = Some s <->
         exists raw id u, cookie_value headers SESSION_COOKIE = Some raw
           /\ Uuid_parse_str raw = Some id
           /\ row_session <$> t_auth_sessions db !! id = Some s
           /\ session_organization_id s = state_organization_id state
           /\ session_revoked_at s = None /\ (now < session_expires_at s)%Z
           /\ t_users db !! session_user_id s = Some u
           /\ user_organization_id (uwp_user u) = state_organization_id state
           /\ user_status (uwp_user u) = UserStatus_Active.
Proof.
  destruct (session_from_cookie_run state now headers db) as (o & Hr & Ho). exists o.
  split; [done|]. intros s. rewrite Ho. unfold carries_session, usable_session. split.
  - intros (raw & id & ? & ? & ? & ? & ? & ? & u & ? & ? & ?). by exists raw, id, u.
  - intros (raw & id & u & ?). exists raw, id. split_and!; try tauto. exists u. tauto.
Qed.

(** An owner of the administrators group. *)
Definition is_administrator (db : Database) (organization_id user_id : Uuid) : Prop :=
  exists k m g, t_memberships db !! k = Some m /\ membership_organization_id m = organization_id
    /\ membership_user_id m = user_id /\ membership_role m = MembershipRole_Owner
    /\ membership_group db m = Some g /\ group_slug g = ADMINISTRATORS_GROUP_SLUG.
Lemma is_administrator_query db o u b db' :
  user_has_group_role o u ADMINISTRATORS_GROUP_SLUG [MembershipRole_Owner] db = (Ok b, db') <->
  db' = db /\ (b = true <-> is_administrator db o u).
Proof.
  unfold user_has_group_role, db_gets, is_administrator. set (P := fun m => _ && _).
  assert (((0 <? count_where P (t_memberships db))%nat = true) <->
          exists k m g, t_memberships db !! k = Some m /\ membership_organization_id m = o
            /\ membership_user_id m = u /\ membership_role m = MembershipRole_Owner
            /\ membership_group db m = Some g /\ group_slug g = ADMINISTRATORS_GROUP_SLUG) as HP.
  { rewrite Nat.ltb_lt, count_where_pos. split.
    - intros (k & m & Hm & HPm). unfold P, membership_of_user in HPm.
      rewrite !andb_true_iff, !N.eqb_eq, contains_true, list_elem_of_singleton in HPm.
      destruct HPm as [[[Ho Hu] Hg] Hr]. destruct (membership_group db m) as [g|] eqn:Eg; [|done].
      bool_prop. exists k, m, g. done.
    - intros (k & m & g & Hm & Ho & Hu & Hr & Hg & Hs). exists k, m. split; [done|].
      unfold P, membership_of_user. rewrite Hg.
      rewrite !andb_true_iff, !N.eqb_eq, contains_true, list_elem_of_singleton,
        bool_decide_eq_true. done. }
  rewrite <- HP. split.
  - by intros [= <- <-].
  - intros [-> Hb]. f_equal. f_equal. apply eq_true_iff_eq. tauto.
Qed.

Definition recent (at_ now : OffsetDateTime) : Prop := (now <= at_ + duration_minutes 15)%Z.
Definition mfa_proof (s : AuthSession) : Prop :=
  (exists m, session_acr s = method_acr m)
  \/ exists word, word ∈ session_amr s /\ word ∈ ["otp"; "recovery"; "mfa"].
Lemma session_has_mfa_proof_iff s : session_has_mfa_proof s = true <-> mfa_proof s.
Proof.
  unfold session_has_mfa_proof, mfa_proof. rewrite orb_true_iff, contains_true, existsb_exists.
  setoid_rewrite contains_true. setoid_rewrite <- list_elem_of_In. apply or_iff_compat_r.
  rewrite !elem_of_cons, elem_of_nil. split.
  - intros [H|[H|[H|[]]]]; [by exists Method_Totp|by exists Method_RecoveryCode|by exists Method_WebAuthn].
  - intros [[] ->]; simpl; tauto.
Qed.
Lemma require_recent_mfa_proof_Ok s now u :
  require_recent_mfa_proof s now = Ok u <-> mfa_proof s /\ recent (session_created_at s) now.
Proof.
  unfold require_recent_mfa_proof, recent, MFA_DESTRUCTIVE_ACTION_MAX_AGE.
  rewrite <- session_has_mfa_proof_iff. destruct u.
  destruct (session_has_mfa_proof s); simpl; [|by split; [|intros [[=] _]]].
  destruct (_ <? now)%Z eqn:E; bool_prop; split; try done; intros [_ H]; lia.
Qed.

(** The guard of the destructive administration pages lets exactly those
    requests through whose session stands, belongs to an owner of the
    administrators group, shows an MFA proof and authenticated at most 15
    minutes ago; and it changes nothing, whatever it answers. *)
Theorem require_recent_admin_session_spec state session_now now headers db :
  (run (require_recent_admin_session state session_now now headers) db).2 = db
  /\ forall s, (run (require_recent_admin_session state session_now now headers) db).1 = Ok s <->
       carries_session db state session_now headers s
       /\ is_administrator db (session_organization_id s) (session_user_id s)
       /\ mfa_proof s /\ (now <= session_created_at s + duration_minutes 15)%Z.
Proof.
  assert (Hdb : (run (require_recent_admin_session state session_now now headers) db).2 = db).
  { apply each_reads_run. unfold require_recent_admin_session, require_admin_session, require_session.
    each_op_steps; try apply session_from_cookie_reads. by intros db0. }
  split; [done|]. intros s.
  assert (Hpair : (run (require_recent_admin_session state session_now now headers) db).1 = Ok s <->
    run (require_recent_admin_session state session_now now headers) db = (Ok s, db)).
  { destruct (run _ db) as [r db']. simpl in *. subst db'. split; [by intros ->|by intros [= ->]]. }
  rewrite Hpair. clear Hdb Hpair. unfold require_recent_admin_session, require_admin_session. split.
  - intros H. run_steps. bool_prop. subst.
    match goal with H : run (require_session _ _ _) _ = _ |- _ =>
      apply require_session_Ok in H as [-> Hs] end.
    match goal with H : user_has_group_role _ _ _ _ _ = _ |- _ =>
      apply is_administrator_query in H as [_ Hadmin]; specialize (proj1 Hadmin eq_refl) as Hadm end.
    match goal with H : require_recent_mfa_proof _ _ = _ |- _ =>
      apply require_recent_mfa_proof_Ok in H as [Hm Hr] end. tauto.
  - intros (Hs & Hadmin & Hmfa & Hrecent).
    rewrite run_handler_Ok. exists s, db. split.
    + rewrite run_handler_Ok. exists s, db. split; [by apply require_session_Ok|].
      rewrite run_handler_Ok. exists true, db. rewrite run_query_Ok, is_administrator_query.
      split; [tauto|done].
    + rewrite run_handler_Ok. exists tt, db.
      rewrite run_lift_Ok, require_recent_mfa_proof_Ok. done.
Qed.

(** What a login and a rotation write into a session: a login proves MFA
    exactly when it used a second factor, is fresh for 15 minutes and lasts 12
    hours; a rotation keeps the user and the authentication context, so it
    changes neither whether MFA was proven nor how long the session counts as
    freshly authenticated. *)
Theorem session_context_spec id organization_id user_id method session now later :
  let fresh := authenticated_session id organization_id user_id method now in
  let rotated := rotated_session_preserving_auth_context id session now in
  (session_has_mfa_proof fresh = true <-> is_Some method)
  /\ (require_recent_authentication fresh later = Ok tt <-> (later <= now + duration_minutes 15)%Z)
  /\ (require_recent_mfa_proof fresh later = Ok tt <->
      is_Some method /\ (later <= now + duration_minutes 15)%Z)
  /\ (session_active later (mk_SessionRow fresh None None) = true <->
      (later < now + duration_hours 12)%Z)
  /\ require_recent_mfa_proof rotated later = require_recent_mfa_proof session later
  /\ require_recent_authentication rotated later = require_recent_authentication session later
  /\ (forall max_age, session_exceeds_max_age rotated max_age later
        = session_exceeds_max_age session max_age later)
  /\ session_organization_id rotated = session_organization_id session
  /\ session_user_id rotated = session_user_id session.
Proof.
  simpl. assert (session_has_mfa_proof (authenticated_session id organization_id user_id method now)
                 = true <-> is_Some method) as Hm.
  { destruct method as [[]|]; split; intros H; try done; by destruct H. }
  split; [exact Hm|]. split_and!; try done.
  - unfold require_recent_authentication, MFA_DESTRUCTIVE_ACTION_MAX_AGE. simpl.
    destruct (_ <? later)%Z eqn:E; bool_prop; split; intros H; try done; lia.
  - by rewrite require_recent_mfa_proof_Ok, <- session_has_mfa_proof_iff, Hm.
  - rewrite session_active_true. simpl. tauto.
Qed.
End session_properties.
