(* ===== verification/Mfa.v ===== *)
(** * Second factors

    [apps/api/src/http]'s mfa (the active factors of a user, TOTP codes,
    recovery codes, passkey assertions) and [crates/authn]'s totp.rs and
    webauthn_config.rs.  The [totp_rs] and [webauthn_rs] crates, their
    serialization and base64 decoding are parameters; every value they draw at
    random is an argument. *)

From S2P Require Import Prelude RustStr Domain Authn Oidc Http Codec Store.
From S2P Require Import MfaStore.
From S2P Require Import SessionStore Directory Handler KeyStore OAuthPolicy BrowserSession.

(** ** Crates *)

(** [totp_rs::TOTP::new] of a secret, an issuer and an account name, and
    [check_current] with the clock as an argument. *)
Class TotpCrate := {
  TOTP : Type;
  TOTP_new : string -> string -> string -> option TOTP;
  totp_check : TOTP -> OffsetDateTime -> string -> option bool;
  totp_get_url : TOTP -> string;
  totp_get_secret_base32 : TOTP -> string;
}.
(** [webauthn_rs]: the relying party is built from its id and origin. *)
Class WebAuthnCrate `{UrlCrate} := {
  url_host_str : Url -> option string;
  Webauthn : Type;
  Passkey : Type;
  PasskeyAuthentication : Type;
  PasskeyRegistration : Type;
  PublicKeyCredential : Type;
  RegisterPublicKeyCredential : Type;
  AuthenticationResult : Type;
  webauthn_builder : string -> Url -> option Webauthn;
  start_passkey_authentication : N -> Webauthn -> list Passkey -> option (Value * PasskeyAuthentication);
  finish_passkey_authentication :
    Webauthn -> PublicKeyCredential -> PasskeyAuthentication -> option AuthenticationResult;
  start_passkey_registration :
    N -> Webauthn -> Uuid -> string -> string -> list string -> option (Value * PasskeyRegistration);
  finish_passkey_registration :
    Webauthn -> RegisterPublicKeyCredential -> PasskeyRegistration -> option Passkey;
  update_credential : Passkey -> AuthenticationResult -> option (bool * Passkey);
  cred_id : Passkey -> string;
  passkey_to_value : Passkey -> option Value;
  passkey_from_value : Value -> option Passkey;
  authentication_to_value : PasskeyAuthentication -> option Value;
  authentication_from_value : Value -> option PasskeyAuthentication;
  registration_to_value : PasskeyRegistration -> option Value;
  registration_from_value : Value -> option PasskeyRegistration;
}.
(** [URL_SAFE_NO_PAD.decode] *)
Class Base64Decode := { base64url_decode : string -> option string }.

Definition RECOVERY_CODE_COUNT : nat := 10.
Definition WEBAUTHN_CHALLENGE_TTL : Z := duration_minutes 5.
Definition TOTP_ENROLLMENT_TTL : Z := duration_minutes 10.

(** ** Metadata *)

(* apps/api/src/http/mfa.rs:58-64 mfa_metadata_status *)
Definition mfa_metadata_status (credential : MfaCredential) : string :=
  default "" (value_get (mfa_secret_metadata credential) "status" ≫= as_str).
(* apps/api/src/http/mfa.rs:66-68 invalid_mfa_metadata *)
Definition invalid_mfa_metadata : ApiError := api_status 500 "invalid MFA metadata".
(* apps/api/src/http/mfa.rs:70-72 internal_error *)
Definition internal_error (message : string) : ApiError := api_status 500 message.
(** [.get(key).and_then(Value::as_str).ok_or_else(invalid_mfa_metadata)] *)
Definition metadata_str (credential : MfaCredential) (key : string) : result ApiError string :=
  ok_or (value_get (mfa_secret_metadata credential) key ≫= as_str) invalid_mfa_metadata.

Section factors.
Context {CC : CryptoCrates} {TC : TokenCrates} {AG : AesGcm} {TR : TotpCrate} {BD : Base64Decode}.
Context {UC : UrlCrate} {WA : WebAuthnCrate}.

(* apps/api/src/http/mfa.rs:33-42 require_key_encryption_key *)
Definition require_key_encryption_key (state : AppState) : result ApiError KeyEncryptionKey :=
  ok_or (config_key_encryption_key state)
    (api_status 428 "CAIRN_KEY_ENCRYPTION_KEY is required for MFA").

(** [active_*_credentials_for_user] *)
Definition active_credentials (kind : MfaKind) (organization_id user_id : Uuid)
    : Handler (list MfaCredential) :=
  do! credentials := query (list_mfa_credentials organization_id user_id kind) in
  succeed (List.filter (fun c => bool_decide (mfa_metadata_status c = "active")) credentials).
(* apps/api/src/http/mfa/totp.rs:13-25 active_totp_credentials_for_user *)
Definition active_totp_credentials_for_user (organization_id user_id : Uuid)
    : Handler (list MfaCredential) := active_credentials MfaKind_Totp organization_id user_id.
(* apps/api/src/http/mfa/factors.rs:15-27 active_recovery_code_credentials_for_user *)
Definition active_recovery_code_credentials_for_user (organization_id user_id : Uuid)
    : Handler (list MfaCredential) := active_credentials MfaKind_RecoveryCode organization_id user_id.
(* apps/api/src/http/mfa/factors.rs:29-41 active_webauthn_credentials_for_user *)
Definition active_webauthn_credentials_for_user (organization_id user_id : Uuid)
    : Handler (list MfaCredential) := active_credentials MfaKind_WebAuthn organization_id user_id.

(* apps/api/src/http/mfa/factors.rs:43-47 ActiveMfaCredentials *)
Record ActiveMfaCredentials := mk_ActiveMfaCredentials {
  active_totp : list MfaCredential;
  active_recovery_codes : list MfaCredential;
  active_webauthn : list MfaCredential;
}.
(* apps/api/src/http/mfa/factors.rs:50-52 requires_mfa *)
Definition requires_mfa (active : ActiveMfaCredentials) : bool :=
  match active_totp active, active_webauthn active with [], [] => false | _, _ => true end.
(* apps/api/src/http/mfa/factors.rs:55-66 active_mfa_credentials_for_user *)
Definition active_mfa_credentials_for_user (organization_id user_id : Uuid)
    : Handler ActiveMfaCredentials :=
  do! totp := active_totp_credentials_for_user organization_id user_id in
  do! recovery_codes := active_recovery_code_credentials_for_user organization_id user_id in
  do! webauthn := active_webauthn_credentials_for_user organization_id user_id in
  succeed (mk_ActiveMfaCredentials totp recovery_codes webauthn).
(* apps/api/src/http/mfa/factors.rs:68-86 visible_mfa_credentials_for_user *)
Definition visible_mfa_credentials_for_user (organization_id user_id : Uuid)
    : Handler (list MfaCredential) :=
  do! totp := query (list_mfa_credentials organization_id user_id MfaKind_Totp) in
  do! webauthn := query (list_mfa_credentials organization_id user_id MfaKind_WebAuthn) in
  succeed (order_by mfa_newest_first
    (List.filter (fun c => negb (bool_decide (mfa_metadata_status c = "revoked")))
       (totp ++ webauthn))).
(* apps/api/src/http/mfa/factors.rs:88-101 active_second_factor_count *)
Definition active_second_factor_count (organization_id user_id : Uuid) : Handler nat :=
  do! totp := active_totp_credentials_for_user organization_id user_id in
  do! webauthn := active_webauthn_credentials_for_user organization_id user_id in
  succeed (length totp + length webauthn)%nat.
(* apps/api/src/http/mfa.rs:44-56 require_recent_enrollment_authentication *)
Definition require_recent_enrollment_authentication (session : AuthSession) (now : OffsetDateTime)
    : Handler unit :=
  do! count := active_second_factor_count (session_organization_id session)
                 (session_user_id session) in
  if (0 <? count)%nat then lift (require_recent_mfa_proof session now)
  else lift (require_recent_authentication session now).

(** ** TOTP *)

(* crates/authn/src/totp.rs:7-11 TotpProfile *)
Record TotpProfile := mk_TotpProfile {
  totp_issuer : string;
  totp_account_name : string;
  totp_secret : string;
}.
(* crates/authn/src/totp.rs:26-41 TotpProfile::build *)
Definition totp_build (profile : TotpProfile) : option TOTP :=
  TOTP_new (totp_secret profile) (totp_issuer profile) (totp_account_name profile).
(* crates/authn/src/totp.rs:43-47 TotpProfile::verify_current *)
Definition verify_current (profile : TotpProfile) (now : OffsetDateTime) (code : string)
    : option bool := totp ← totp_build profile; totp_check totp now code.

(* apps/api/src/http/mfa/totp.rs:86-88 totp_credential_aad *)
Definition totp_credential_aad (organization_id user_id : Uuid) : string :=
  "cairnid:mfa:totp:" +:+ uuid_to_string organization_id +:+ ":" +:+ uuid_to_string user_id.
(* apps/api/src/http/mfa/totp.rs:48-60 totp_metadata_json *)
Definition totp_metadata_json (status : string) (encrypted_secret : EncryptedSecret) : Value :=
  Object [("status", String_ status); ("algorithm", String_ "SHA1"); ("digits", Number 6);
          ("period", Number 30);
          ("secret_ciphertext", String_ (base64url_encode (encrypted_ciphertext encrypted_secret)));
          ("secret_nonce", String_ (base64url_encode (encrypted_nonce encrypted_secret)))].
(* apps/api/src/http/mfa/totp.rs:62-84 encrypted_secret_from_totp_metadata *)
Definition encrypted_secret_from_totp_metadata (credential : MfaCredential)
    : result ApiError EncryptedSecret :=
  let? ciphertext := metadata_str credential "secret_ciphertext" in
  let? nonce := metadata_str credential "secret_nonce" in
  let? ciphertext := ok_or (base64url_decode ciphertext) invalid_mfa_metadata in
  let? nonce := ok_or (base64url_decode nonce) invalid_mfa_metadata in
  Ok (mk_EncryptedSecret ciphertext nonce).

(* apps/api/src/http/mfa/totp.rs:27-46 verify_totp_code *)
Definition verify_totp_code (state : AppState) (credential : MfaCredential) (now : OffsetDateTime)
    (code : string) : result ApiError bool :=
  let? encrypted_secret := encrypted_secret_from_totp_metadata credential in
  let? key := require_key_encryption_key state in
  let? decrypted_secret :=
    map_err (fun _ => api_status 500 "MFA decryption failed")
      (decrypt_secret encrypted_secret key
         (totp_credential_aad (mfa_organization_id credential) (mfa_user_id credential))) in
  let profile :=
    mk_TotpProfile "Cairn Identity" (uuid_to_string (mfa_user_id credential)) decrypted_secret in
  ok_or (verify_current profile now code) api_authn_error.

(** ** Recovery codes *)

(* apps/api/src/http/mfa/recovery_codes.rs:87-92 recovery_code_metadata_json *)
Definition recovery_code_metadata_json (status code_hash : string) : Value :=
  Object [("status", String_ status); ("code_hash", String_ code_hash)].
(* apps/api/src/http/mfa/recovery_codes.rs:94-101 recovery_code_hash *)
Definition recovery_code_hash (credential : MfaCredential) : result ApiError string :=
  metadata_str credential "code_hash".

Fixpoint consume_recovery_code_loop (now : OffsetDateTime) (code_hash : string)
    (credentials : list MfaCredential) : Handler bool :=
  match credentials with
  | [] => succeed false
  | credential :: rest =>
      do! stored := lift (recovery_code_hash credential) in
      if bool_decide (stored = code_hash)
      then query (consume_active_recovery_code (mfa_organization_id credential)
                    (mfa_user_id credential) code_hash now)
      else consume_recovery_code_loop now code_hash rest
  end.
(* apps/api/src/http/mfa/recovery_codes.rs:11-33 consume_recovery_code *)
Definition consume_recovery_code (now : OffsetDateTime) (credentials : list MfaCredential)
    (code : string) : Handler bool := consume_recovery_code_loop now (hash_token code) credentials.

(** The codes and the ids of their rows are drawn at random. *)
Fixpoint store_recovery_codes_loop (session : AuthSession) (codes : list (Uuid * string))
    (at_ : OffsetDateTime) : Handler unit :=
  match codes with
  | [] => succeed tt
  | (id, code) :: rest =>
      do! _ := query (create_mfa_credential
        (mk_MfaCredential id (session_organization_id session) (session_user_id session)
           MfaKind_RecoveryCode "Recovery code"
           (recovery_code_metadata_json "active" (hash_token code)) at_ None)) in
      store_recovery_codes_loop session rest at_
  end.
(* apps/api/src/http/mfa/recovery_codes.rs:64-85 store_recovery_codes *)
Definition store_recovery_codes (session : AuthSession) (recovery_codes : list (Uuid * string))
    (at_ : OffsetDateTime) : Handler unit := store_recovery_codes_loop session recovery_codes at_.
(** [generate_recovery_codes] takes [RECOVERY_CODE_COUNT] values; the generated
    ones are the argument. *)
(* apps/api/src/http/mfa/recovery_codes.rs:45-62 replace_recovery_codes_for_session *)
Definition replace_recovery_codes_for_session (session : AuthSession)
    (generated : list (Uuid * string)) (at_ : OffsetDateTime) : Handler (list string * nat) :=
  let recovery_codes := take RECOVERY_CODE_COUNT generated in
  do! recovery_codes_revoked :=
    query (revoke_active_mfa_credentials_by_kind (session_organization_id session)
             (session_user_id session) MfaKind_RecoveryCode at_) in
  do! _ := store_recovery_codes session recovery_codes at_ in
  succeed (snd <$> recovery_codes, recovery_codes_revoked).

(** ** Codes against the factors *)

(** [clock n] is what the clock shows at its [n]-th reading. *)
Fixpoint verify_totp_credentials (state : AppState) (clock : nat -> OffsetDateTime)
    (totp_credentials : list MfaCredential) (code : string) : Handler bool :=
  match totp_credentials with
  | [] => succeed false
  | credential :: rest =>
      do! matches := lift (verify_totp_code state credential (clock 0) code) in
      if (matches : bool) then
        do! _ := query (mark_mfa_credential_used (mfa_id credential) (clock 1)) in succeed true
      else verify_totp_credentials state (fun n => clock (S n)) rest code
  end.
(* apps/api/src/http/mfa/factors.rs:160-181 verify_mfa_code_against_credentials *)
Definition verify_mfa_code_against_credentials (state : AppState) (clock : nat -> OffsetDateTime)
    (totp_credentials recovery_code_credentials : list MfaCredential) (code : string)
    : Handler (option MfaVerificationMethod) :=
  do! by_totp := verify_totp_credentials state clock totp_credentials code in
  if (by_totp : bool) then succeed (Some Method_Totp)
  else
    do! by_recovery_code :=
      consume_recovery_code (clock (length totp_credentials)) recovery_code_credentials code in
    succeed (if (by_recovery_code : bool) then Some Method_RecoveryCode else None).
End factors.

(** ** Passkeys *)

Section webauthn.
Context {CC : CryptoCrates} {TC : TokenCrates} {AG : AesGcm}.
Context {UC : UrlCrate} {WA : WebAuthnCrate}.

(* crates/authn/src/webauthn_config.rs:8-11 WebAuthnConfig *)
Record WebAuthnConfig := mk_WebAuthnConfig {
  relying_party_id : string;
  relying_party_origin : string;
}.
(** The [AuthnError] is not kept: every one becomes the same [ApiError]. *)
(* crates/authn/src/webauthn_config.rs:14-27 from_origin *)
Definition WebAuthnConfig_from_origin (origin : string) : option WebAuthnConfig :=
  parsed ← Url_parse origin;
  relying_party_id ← url_host_str parsed;
  Some (mk_WebAuthnConfig relying_party_id origin).
(* crates/authn/src/webauthn_config.rs:29-37 build *)
Definition WebAuthnConfig_build (config : WebAuthnConfig) : option Webauthn :=
  origin ← Url_parse (relying_party_origin config);
  webauthn_builder (relying_party_id config) origin.
(* crates/authn/src/webauthn_config.rs:40-42 passkey_credential_id *)
Definition passkey_credential_id (passkey : Passkey) : string := base64url_encode (cred_id passkey).
(* apps/api/src/http/mfa/webauthn.rs:112-116 webauthn *)
Definition webauthn (state : AppState) : result ApiError Webauthn :=
  ok_or (config ← WebAuthnConfig_from_origin (config_public_web_origin state);
         WebAuthnConfig_build config) api_authn_error.

(* apps/api/src/http/mfa/webauthn.rs:124-133 passkey_from_credential *)
Definition passkey_from_credential (credential : MfaCredential) : result ApiError Passkey :=
  let? value := ok_or (value_get (mfa_secret_metadata credential) "passkey") invalid_mfa_metadata in
  ok_or (passkey_from_value value) invalid_mfa_metadata.
(** [collect] stops at the first error. *)
(* apps/api/src/http/mfa/webauthn.rs:118-122 passkeys_from_credentials *)
Fixpoint passkeys_from_credentials (credentials : list MfaCredential)
    : result ApiError (list Passkey) :=
  match credentials with
  | [] => Ok []
  | credential :: rest =>
      let? passkey := passkey_from_credential credential in
      let? passkeys := passkeys_from_credentials rest in
      Ok (passkey :: passkeys)
  end.
(* apps/api/src/http/mfa/webauthn.rs:135-146 webauthn_passkey_metadata_json *)
Definition webauthn_passkey_metadata_json (status credential_id : string) (passkey : Passkey)
    : result ApiError Value :=
  let? value := ok_or (passkey_to_value passkey) (internal_error "passkey serialization failed") in
  Ok (Object [("status", String_ status); ("credential_id", String_ credential_id);
              ("passkey", value)]).
(* apps/api/src/http/mfa/webauthn.rs:148-150 default_passkey_label *)
Definition default_passkey_label : string := "Passkey".

(** What starting a challenge draws. *)
Record ChallengeEnv := mk_ChallengeEnv {
  challenge_env_entropy : N;
  challenge_env_now : OffsetDateTime;
  challenge_env_id : Uuid;
}.
(* apps/api/src/http/mfa/webauthn.rs:14-45 start_webauthn_authentication_challenge *)
Definition start_webauthn_authentication_challenge (state : AppState) (env : ChallengeEnv)
    (organization_id user_id : Uuid) (active_webauthn_credentials : list MfaCredential)
    : Handler Value :=
  do! passkeys := lift (passkeys_from_credentials active_webauthn_credentials) in
  do! relying_party := lift (webauthn state) in
  do! started := some_or (start_passkey_authentication (challenge_env_entropy env) relying_party
                            passkeys)
                   (api_bad_request "passkey authentication could not start") in
  let '(options, authentication_state) := started in
  let now := challenge_env_now env in
  do! state_value := some_or (authentication_to_value authentication_state)
                       (internal_error "passkey state serialization failed") in
  do! _ := query (insert_webauthn_challenge
    (mk_WebAuthnChallenge (challenge_env_id env) organization_id user_id Authentication state_value
       now (now + WEBAUTHN_CHALLENGE_TTL)%Z None)) in
  succeed (Object [("challenge_id", String_ (uuid_to_string (challenge_env_id env)));
                   ("options", options)]).

Definition invalid_assertion : ApiError := api_status 401 "invalid passkey assertion".
Definition unknown_passkey : ApiError := api_status 401 "unknown passkey credential".
Fixpoint record_assertion (now : OffsetDateTime) (result : AuthenticationResult)
    (credentials : list MfaCredential) : Handler MfaVerificationMethod :=
  match credentials with
  | [] => fail unknown_passkey
  | credential :: rest =>
      do! passkey := lift (passkey_from_credential credential) in
      match update_credential passkey result with
      | None => record_assertion now result rest
      | Some (changed, passkey) =>
          do! _ :=
            if (changed : bool) then
              do! metadata := lift (webauthn_passkey_metadata_json "active"
                                      (passkey_credential_id passkey) passkey) in
              query (update_mfa_credential_metadata (mfa_id credential) metadata (Some now))
            else query (mark_mfa_credential_used (mfa_id credential) now) in
          succeed Method_WebAuthn
      end
  end.
(* apps/api/src/http/mfa/webauthn.rs:47-110 verify_webauthn_assertion *)
Definition verify_webauthn_assertion (state : AppState) (now : OffsetDateTime)
    (organization_id user_id : Uuid) (active_webauthn_credentials : list MfaCredential)
    (challenge_id : Uuid) (assertion : PublicKeyCredential) : Handler MfaVerificationMethod :=
  match active_webauthn_credentials with
  | [] => fail (api_status 401 "passkey is not enabled")
  | _ =>
  do! challenge := query (consume_webauthn_challenge challenge_id organization_id user_id
                            Authentication now) in
  do! challenge := some_or challenge (api_bad_request "invalid or expired passkey challenge") in
  do! authentication_state := some_or (authentication_from_value (challenge_state challenge))
                                (internal_error "passkey authentication state is invalid") in
  do! relying_party := lift (webauthn state) in
  do! result := some_or (finish_passkey_authentication relying_party assertion authentication_state)
                  invalid_assertion in
  record_assertion now result active_webauthn_credentials
  end.

(** The response to a login that still needs a second factor. *)
(* apps/api/src/http/mfa/factors.rs:103-158 mfa_required_response *)
Definition mfa_required_response (state : AppState) (env : ChallengeEnv)
    (organization_id user_id : Uuid) (active : ActiveMfaCredentials) : Handler Value :=
  let has {A} (l : list A) := match l with [] => false | _ => true end in
  let methods :=
    (if has (active_webauthn active) then ["webauthn"] else [])
    ++ (if has (active_totp active) then ["totp"] else [])
    ++ (if has (active_recovery_codes active) then ["recovery_code"] else []) in
  do! webauthn :=
    match active_webauthn active with
    | [] => succeed Null
    | credentials => start_webauthn_authentication_challenge state env organization_id user_id
                       credentials
    end in
  succeed (Object [("status", String_ "mfa_required"); ("methods", Array (String_ <$> methods));
                   ("webauthn", webauthn)]).
End webauthn.

(** ** Properties *)

Section properties.
Context {CC : CryptoCrates} {TC : TokenCrates} {AG : AesGcm} {TR : TotpCrate} {BD : Base64Decode}.
Context {UC : UrlCrate} {WA : WebAuthnCrate}.

(** An active factor of a user, of one kind. *)
Definition active_factor (db : Database) (o u : Uuid) (kind : MfaKind) (c : MfaCredential) : Prop :=
  (exists k, t_mfa_credentials db !! k = Some c)
  /\ mfa_organization_id c = o /\ mfa_user_id c = u /\ mfa_kind c = kind
  /\ json_text (mfa_secret_metadata c) "status" = Some "active".
(** A TOTP secret or a passkey that a login has to be confirmed with. *)
Definition second_factor (db : Database) (o u : Uuid) : Prop :=
  exists c, active_factor db o u MfaKind_Totp c \/ active_factor db o u MfaKind_WebAuthn c.

Lemma metadata_status_active c :
  mfa_metadata_status c = "active" <-> json_text (mfa_secret_metadata c) "status" = Some "active".
Proof.
  unfold mfa_metadata_status, json_text.
  destruct (value_get (mfa_secret_metadata c) "status") as [[|[]|n|s|l|es]|]; simpl;
    try (split; intros H; discriminate H).
  - split; [done|]. intros [= H]. exfalso. destruct n as [|p|p]; [done| |done].
    pose proof (parse_digits_N (N.pos p)) as Hp. change (pretty (N.pos p)) with (i64_to_string (Z.pos p)) in Hp.
    rewrite H in Hp. discriminate Hp.
  - split; congruence.
Qed.

Lemma active_credentials_run kind o u db :
  exists l, run (active_credentials kind o u) db = (Ok l, db)
    /\ forall c, c ∈ l <-> active_factor db o u kind c.
Proof.
  eexists. split; [reflexivity|]. intros c. rewrite list_elem_of_In, filter_In, <- list_elem_of_In.
  rewrite elem_of_order_by, elem_of_select_where, bool_decide_eq_true, metadata_status_active.
  unfold mfa_of_user, active_factor. setoid_rewrite andb_true_iff. setoid_rewrite andb_true_iff.
  setoid_rewrite N.eqb_eq. setoid_rewrite bool_decide_eq_true. split.
  - intros ((k & Hk & (Ho & Hu) & Hkind) & Hs). eauto 10.
  - intros ((k & Hk) & Ho & Hu & Hkind & Hs). eauto 10.
Qed.
Lemma active_mfa_run o u db :
  exists a, run (active_mfa_credentials_for_user o u) db = (Ok a, db)
    /\ (forall c, c ∈ active_totp a <-> active_factor db o u MfaKind_Totp c)
    /\ (forall c, c ∈ active_recovery_codes a <-> active_factor db o u MfaKind_RecoveryCode c)
    /\ (forall c, c ∈ active_webauthn a <-> active_factor db o u MfaKind_WebAuthn c).
Proof.
  unfold active_mfa_credentials_for_user, active_totp_credentials_for_user,
    active_recovery_code_credentials_for_user, active_webauthn_credentials_for_user.
  destruct (active_credentials_run MfaKind_Totp o u db) as (t & Ht & Et).
  destruct (active_credentials_run MfaKind_RecoveryCode o u db) as (r & Hr & Er).
  destruct (active_credentials_run MfaKind_WebAuthn o u db) as (w & Hw & Ew).
  eexists. rewrite (run_known _ _ _ _ Ht), (run_known _ _ _ _ Hr), (run_known _ _ _ _ Hw).
  split; [reflexivity|]. done.
Qed.
Lemma requires_mfa_iff a db o u :
  (forall c, c ∈ active_totp a <-> active_factor db o u MfaKind_Totp c) ->
  (forall c, c ∈ active_webauthn a <-> active_factor db o u MfaKind_WebAuthn c) ->
  requires_mfa a = true <-> second_factor db o u.
Proof.
  intros Ht Hw. unfold requires_mfa, second_factor. split.
  - destruct (active_totp a) as [|c l].
    + destruct (active_webauthn a) as [|c l]; [done|]. intros _. exists c. right. apply Hw. left.
    + intros _. exists c. left. apply Ht. left.
  - intros [c [Hc|Hc]]; [apply Ht in Hc|apply Hw in Hc];
      destruct (active_totp a), (active_webauthn a); try done; by apply elem_of_nil in Hc.
Qed.

(** A code that one of the user's authenticators shows. *)
Lemma verify_totp_credentials_Ok state clock l code db db' :
  run (verify_totp_credentials state clock l code) db = (Ok true, db') ->
  exists c n, c ∈ l /\ verify_totp_code state c (clock n) code = Ok true
    /\ db' = with_mfa (mfa_id c) (mfa_set_last_used (clock (S n))) db.
Proof.
  revert clock. induction l as [|c l IH]; intros clock; [done|]. cbn [verify_totp_credentials].
  intros ([] & Hv & H)%lift_then_Ok.
  - exists c, 0%nat. split; [left|]. split; [done|].
    apply query_then_Ok in H as (u & d & Hu & H). rewrite mark_used_run in Hu. injection Hu as _ <-.
    simpl in H. by injection H as <-.
  - destruct (IH _ H) as (c' & n & Hc & Hv' & ->). exists c', (S n). split; [by right|]. done.
Qed.
Lemma verify_totp_credentials_not state clock l code db db' :
  run (verify_totp_credentials state clock l code) db = (Ok false, db') -> db' = db.
Proof.
  revert clock. induction l as [|c l IH]; intros clock; cbn [verify_totp_credentials].
  - by intros [= <-].
  - intros ([] & Hv & H)%lift_then_Ok; [by run_steps|eauto].
Qed.

Lemma consume_recovery_loop_Ok now h l db db' used :
  run (consume_recovery_code_loop now h l) db = (Ok used, db') ->
  (used = false /\ db' = db)
  \/ exists c, c ∈ l
     /\ consume_active_recovery_code (mfa_organization_id c) (mfa_user_id c) h now db = (Ok used, db').
Proof.
  induction l as [|c l IH]; cbn [consume_recovery_code_loop].
  - intros [= <- <-]. by left.
  - intros (stored & Hs & H)%lift_then_Ok. destruct (bool_decide (stored = h)) eqn:E.
    + apply run_query_Ok in H. right. exists c. split; [left|done].
    + destruct (IH H) as [?|(c' & Hc & ?)]; [by left|]. right. exists c'. split; [by right|done].
Qed.

Lemma record_assertion_Ok now result l db m db' :
  run (record_assertion now result l) db = (Ok m, db') ->
  m = Method_WebAuthn
  /\ exists c passkey f, c ∈ l /\ passkey_from_credential c = Ok passkey
       /\ is_Some (update_credential passkey result) /\ db' = with_mfa (mfa_id c) f db.
Proof.
  induction l as [|c l IH]; cbn [record_assertion]; [done|].
  intros (passkey & Hp & H)%lift_then_Ok.
  destruct (update_credential passkey result) as [[changed passkey']|] eqn:Eu.
  - rewrite run_handler_Ok in H. destruct H as (u & d & Hu & H). simpl in H. injection H as <- <-.
    split; [done|]. destruct changed.
    + apply lift_then_Ok in Hu as (metadata & _ & Hu). apply run_query_Ok in Hu.
      apply update_metadata_Ok in Hu as ->. eexists c, passkey, _.
      split; [left|]. split; [done|]. split; [by rewrite Eu|reflexivity].
    + apply run_query_Ok in Hu. rewrite mark_used_run in Hu. injection Hu as _ <-.
      eexists c, passkey, _. split; [left|]. split; [done|]. split; [by rewrite Eu|reflexivity].
  - destruct (IH H) as (-> & c' & p' & f & Hc & ?). split; [done|]. exists c', p', f. split; [by right|done].
Qed.

(** What a verified assertion rests on: an open challenge of this user, which
    it uses up, the answer of the passkey to it, and an active credential. *)
Definition assertion_verified (state : AppState) (db : Database) (now : OffsetDateTime) (o u : Uuid)
    (challenge_id : Uuid) (assertion : PublicKeyCredential) (c : MfaCredential) (db' : Database)
    : Prop :=
  exists ch authentication relying_party result passkey f,
    t_webauthn_challenges db !! challenge_id = Some ch
    /\ challenge_open o u Authentication now ch
    /\ authentication_from_value (challenge_state ch) = Some authentication
    /\ webauthn state = Ok relying_party
    /\ finish_passkey_authentication relying_party assertion authentication = Some result
    /\ passkey_from_credential c = Ok passkey
    /\ is_Some (update_credential passkey result)
    /\ db' = with_mfa (mfa_id c) f
               (on_webauthn_challenges (<[challenge_id := challenge_consume now ch]>) db).
Lemma verify_assertion_Ok state now o u l challenge_id assertion db m db' :
  run (verify_webauthn_assertion state now o u l challenge_id assertion) db = (Ok m, db') ->
  m = Method_WebAuthn
  /\ exists c, c ∈ l /\ assertion_verified state db now o u challenge_id assertion c db'.
Proof.
  unfold verify_webauthn_assertion. destruct l as [|c0 l0]; [done|]. set (l := c0 :: l0).
  intros (r & d & Hr & H)%query_then_Ok.
  destruct (consume_challenge_run challenge_id o u Authentication now db) as (r' & Hrun & Hspec).
  rewrite Hrun in Hr. injection Hr as <- <-.
  apply run_handler_Ok in H as (ch & d & [-> ->]%run_some_or_Ok & H).
  apply run_handler_Ok in H as (st & d & [Hst ->]%run_some_or_Ok & H).
  apply lift_then_Ok in H as (rp & Hrp & H).
  apply run_handler_Ok in H as (result & d & [Hres ->]%run_some_or_Ok & H).
  apply record_assertion_Ok in H as (-> & c & passkey & f & Hc & Hp & Hu & ->). split; [done|].
  exists c. split; [done|]. destruct (proj1 (Hspec ch) eq_refl) as [Hch Hopen].
  exists ch, st, rp, result, passkey, f. done.
Qed.

(** A TOTP code is checked against the secret alone: that it was used before
    makes no difference. *)
Lemma totp_check_ignores_use state c used now code :
  verify_totp_code state (mfa_set_last_used used c) now code = verify_totp_code state c now code.
Proof. done. Qed.
End properties.
