(* ===== verification/AuthorizeRequest.v ===== *)
(** * Authorization requests over the wire

    [apps/api/src/http/authorization]: how /oauth2/authorize reads its request
    from query or form pairs, the redirects that report an error to the client,
    the URL a browser is sent back to after a login or a consent, and the check
    of that URL when the consent is given. *)

From S2P Require Import Prelude RustStr Domain Authn Oidc Http Codec Store.
From S2P Require Import Handler KeyStore OAuthPolicy.
From Stdlib Require Import Ascii.

(** ** Reading a request *)

(** [&'static str] names are the names themselves. *)
Definition authorization_request_parameters : list string :=
  ["response_type"; "client_id"; "redirect_uri"; "scope"; "state"; "nonce"; "max_age";
   "response_mode"; "prompt"; "display"; "acr_values"; "ui_locales"; "claims_locales";
   "login_hint"; "claims"; "request"; "request_uri"; "code_challenge"; "code_challenge_method"].
(* apps/api/src/http/authorization/request.rs:91-114 authorization_request_parameter_name *)
Definition authorization_request_parameter_name (name : string) : option string :=
  if contains authorization_request_parameters name then Some name else None.

(* apps/api/src/http/authorization/request.rs:5-14 authorization_query_pairs *)
Definition authorization_query_pairs (raw_query : option string)
    : result ApiError (list (string * string)) :=
  let query := default "" raw_query in
  if (OAUTH_QUERY_MAX_BYTES <? len query)%N
  then Err (api_bad_request "authorization request too large")
  else map_err (fun _ => api_bad_request "invalid authorization request")
         (parse_url_encoded_pairs query).

(** The loop over the pairs, for the names [parameter_name] knows. *)
Fixpoint duplicate_parameter_loop (parameter_name : string -> option string) (seen : list string)
    (pairs : list (string * string)) : option string :=
  match pairs with
  | [] => None
  | (name, _) :: rest =>
      match parameter_name name with
      | None => duplicate_parameter_loop parameter_name seen rest
      | Some parameter =>
          if existsb (fun existing => bool_decide (existing = parameter)) seen
          then Some parameter
          else duplicate_parameter_loop parameter_name (seen ++ [parameter]) rest
      end
  end.
(* apps/api/src/http/authorization/request.rs:16-30 duplicate_authorization_request_parameter *)
Definition duplicate_authorization_request_parameter (pairs : list (string * string))
    : option string := duplicate_parameter_loop authorization_request_parameter_name [] pairs.

Definition empty_authorization_request : AuthorizationRequest :=
  mk_AuthorizationRequest "" "" "" "" None None None None None None None None None None None None
    None None None.
(** The [max_age] arm: a value that does not parse leaves the field and is the
    parse error unless there is one. *)
Definition set_max_age (value : string) (old : option Z) : option Z :=
  match parse_i64 value with Some max_age => Some max_age | None => old end.
Definition set_parse_error (value : string) (old : option OidcError) : option OidcError :=
  match parse_i64 value with
  | Some _ => old
  | None => match old with Some e => Some e | None => Some InvalidMaxAge end
  end.
(** The [match] of the loop, one field per name. *)
Definition authorization_request_set (r : AuthorizationRequest) (name value : string)
    : AuthorizationRequest :=
  let set (n : string) := bool_decide (name = n) in
  let req (n old : string) := if set n then value else old in
  let opt (n : string) (old : option string) := if set n then Some value else old in
  mk_AuthorizationRequest
    (req "response_type" (req_response_type r))
    (req "client_id" (req_client_id r))
    (req "redirect_uri" (req_redirect_uri r))
    (req "scope" (req_scope r))
    (opt "state" (req_state r))
    (opt "nonce" (req_nonce r))
    (if set "max_age" then set_max_age value (req_max_age r) else req_max_age r)
    (opt "response_mode" (req_response_mode r))
    (opt "prompt" (req_prompt r))
    (opt "display" (req_display r))
    (opt "acr_values" (req_acr_values r))
    (opt "ui_locales" (req_ui_locales r))
    (opt "claims_locales" (req_claims_locales r))
    (opt "login_hint" (req_login_hint r))
    (opt "claims" (req_claims r))
    (opt "request" (req_request r))
    (opt "request_uri" (req_request_uri r))
    (opt "code_challenge" (req_code_challenge r))
    (opt "code_challenge_method" (req_code_challenge_method r)).
Definition authorization_request_step (s : AuthorizationRequest * option OidcError)
    (pair : string * string) : AuthorizationRequest * option OidcError :=
  let '(r, parse_error) := s in
  let '(name, value) := pair in
  (authorization_request_set r name value,
   if bool_decide (name = "max_age") then set_parse_error value parse_error else parse_error).
(* apps/api/src/http/authorization/request.rs:32-89 authorization_request_from_query_pairs *)
Definition authorization_request_from_query_pairs (pairs : list (string * string))
    : AuthorizationRequest * option OidcError :=
  fold_left authorization_request_step pairs (empty_authorization_request, None).

(** ** Errors reported to the client *)

(* apps/api/src/http/authorization/redirect/errors.rs:27-57 authorization_error_parts *)
Definition authorization_error_parts (error : OidcError) : string * string :=
  match error with
  | MissingResponseType => ("invalid_request", "missing response_type")
  | UnsupportedResponseType => ("unsupported_response_type", "unsupported response type")
  | UnsupportedGrantType =>
      ("unauthorized_client", "client is not allowed to use authorization code flow")
  | InvalidScope => ("invalid_scope", "invalid scope")
  | InvalidMaxAge => ("invalid_request", "invalid max_age")
  | InvalidPrompt => ("invalid_request", "invalid prompt")
  | InvalidDisplay => ("invalid_request", "invalid display")
  | UnsupportedResponseMode => ("invalid_request", "unsupported response mode")
  | UnsupportedClaimsParameter => ("invalid_request", "unsupported claims parameter")
  | UnsupportedRequestParameter => ("request_not_supported", "unsupported request parameter")
  | UnsupportedRequestUriParameter =>
      ("request_uri_not_supported", "unsupported request_uri parameter")
  | PkceRequired => ("invalid_request", "PKCE S256 is required")
  | InvalidPkceChallenge => ("invalid_request", "invalid PKCE code_challenge")
  | InvalidRedirectUri => ("invalid_request", "invalid redirect URI")
  | _ => ("invalid_request", "invalid authorization request")
  end.
(* apps/api/src/http/authorization/redirect/errors.rs:12-25 authorization_error_redirect_with_code *)
Definition authorization_error_redirect_with_code (request : AuthorizationRequest)
    (issuer error_code : string) (error_description : option string) : string :=
  append_authorization_error_response_params (req_redirect_uri request) error_code
    error_description (req_state request) issuer.
(* apps/api/src/http/authorization/redirect/errors.rs:3-10 authorization_error_redirect *)
Definition authorization_error_redirect (request : AuthorizationRequest) (issuer : string)
    (error : OidcError) : string :=
  let '(error_code, error_description) := authorization_error_parts error in
  authorization_error_redirect_with_code request issuer error_code (Some error_description).

(** ** The way back *)

(* apps/api/src/http/authorization/redirect/url.rs:7-11 AuthorizeUrlPromptMode *)
Inductive AuthorizeUrlPromptMode := Mode_Preserve | Mode_RemoveLogin | Mode_RemoveConsent.

Definition mode_keeps (mode : AuthorizeUrlPromptMode) (value : string) : bool :=
  negb match mode with
       | Mode_RemoveLogin => bool_decide (value = "login")
       | Mode_RemoveConsent => bool_decide (value = "consent")
       | Mode_Preserve => false
       end.
(* apps/api/src/http/authorization/redirect/url.rs:91-116 authorize_url_prompt *)
Definition authorize_url_prompt (prompt : option string) (prompt_mode : AuthorizeUrlPromptMode)
    : option string :=
  match trimmed_nonempty prompt with
  | None => None
  | Some prompt =>
      match prompt_mode with
      | Mode_Preserve => Some prompt
      | _ =>
          match List.filter (mode_keeps prompt_mode) (split_whitespace prompt) with
          | [] => None
          | values => Some (join " " values)
          end
      end
  end.

Definition optional_param (name : string) (value : option string) : list (string * string) :=
  match value with Some v => [(name, v)] | None => [] end.
(** The [params] of [current_authorize_url]. *)
Definition authorize_url_params (request : AuthorizationRequest)
    (prompt_mode : AuthorizeUrlPromptMode) : list (string * string) :=
  [("response_type", req_response_type request);
   ("client_id", req_client_id request);
   ("redirect_uri", req_redirect_uri request);
   ("scope", req_scope request)]
  ++ optional_param "state" (req_state request)
  ++ optional_param "nonce" (req_nonce request)
  ++ optional_param "display" (req_display request)
  ++ optional_param "acr_values" (req_acr_values request)
  ++ optional_param "ui_locales" (req_ui_locales request)
  ++ optional_param "claims_locales" (req_claims_locales request)
  ++ optional_param "max_age" (i64_to_string <$> req_max_age request)
  ++ optional_param "response_mode" (req_response_mode request)
  ++ optional_param "prompt" (authorize_url_prompt (req_prompt request) prompt_mode)
  ++ optional_param "login_hint" (req_login_hint request)
  ++ optional_param "claims" (req_claims request)
  ++ optional_param "code_challenge" (req_code_challenge request)
  ++ optional_param "code_challenge_method" (req_code_challenge_method request).
Definition authorize_url_query (request : AuthorizationRequest)
    (prompt_mode : AuthorizeUrlPromptMode) : string :=
  join "&" (encode_pair <$> authorize_url_params request prompt_mode).
(* apps/api/src/http/authorization/redirect/url.rs:13-78 current_authorize_url *)
Definition current_authorize_url (issuer : string) (request : AuthorizationRequest)
    (prompt_mode : AuthorizeUrlPromptMode) : string :=
  trim_end_matches "/" issuer +:+ "/oauth2/authorize?" +:+ authorize_url_query request prompt_mode.

(* apps/api/src/http/authorization/redirect/url.rs:80-89 authorization_request_hash *)
Definition authorization_request_hash `{CryptoCrates} (issuer : string)
    (request : AuthorizationRequest) : string :=
  hash_token (current_authorize_url issuer request Mode_Preserve).

(* apps/api/src/http/authorization.rs:61-66 same_scope_set *)
Definition same_scope_set (left right : list string) : bool :=
  (length left =? length right)%nat
  && forallb (fun scope => existsb (fun candidate => bool_decide (candidate = scope)) right) left.

(** The accessors of [url::Url] this check uses besides those of [UrlCrate]:
    [origin().ascii_serialization()], [path()], [query()]. *)
Class UrlParts `{UrlCrate} := {
  url_origin : Url -> string;
  url_path : Url -> string;
  url_query : Url -> option string;
}.

Section return_to.
Context {CC : CryptoCrates} {SJ : SerdeJson} {UC : UrlCrate} {UP : UrlParts}.

(* apps/api/src/http/authorization.rs:19-59 validate_consent_return_to *)
Definition validate_consent_return_to (issuer return_to : string) (client : OidcClient)
    (scopes : list string) : result ApiError string :=
  let invalid := api_bad_request "invalid consent return_to" in
  let? parsed_return_to := ok_or (Url_parse return_to) invalid in
  let? issuer_url := ok_or (Url_parse issuer) (api_status 500 "invalid issuer") in
  if negb (bool_decide (url_origin parsed_return_to = url_origin issuer_url))
     || negb (bool_decide (url_path parsed_return_to = "/oauth2/authorize"))
     || negb (is_empty (url_username parsed_return_to))
     || is_some (url_password parsed_return_to)
     || is_some (url_fragment parsed_return_to)
  then Err invalid
  else
  let? query_pairs := authorization_query_pairs (url_query parsed_return_to) in
  if is_some (duplicate_authorization_request_parameter query_pairs) then Err invalid
  else
  let '(request, parse_error) := authorization_request_from_query_pairs query_pairs in
  if is_some parse_error then Err invalid
  else
  let? validated := map_err (fun _ => invalid) (validate request client) in
  if prompt_is_none (val_prompt validated) || requires_consent (val_prompt validated)
  then Err invalid
  else if negb (same_scope_set (val_scopes validated) scopes)
  then Err (api_bad_request "invalid consent scope")
  else Ok (authorization_request_hash issuer request).
End return_to.

(** ** Properties *)

(** *** Reading the pairs field by field *)

Section fields.
Context {X : Type} (get : AuthorizationRequest * option OidcError -> X) (n : string)
  (f : string -> X -> X).
Context (get_step : forall s m v,
  get (authorization_request_step s (m, v)) = if bool_decide (m = n) then f v (get s) else get s).

Definition read_param (acc : X) (pair : string * string) : X :=
  if bool_decide (fst pair = n) then f (snd pair) acc else acc.
Lemma get_fold pairs s :
  get (fold_left authorization_request_step pairs s) = fold_left read_param pairs (get s).
Proof.
  revert s. induction pairs as [|[m v] pairs IH]; intros s; cbn [fold_left]; [done|].
  rewrite IH, get_step. done.
Qed.
Lemma read_optional acc m v :
  fold_left read_param (optional_param m v) acc
  = if bool_decide (m = n) then match v with Some x => f x acc | None => acc end else acc.
Proof. destruct v as [x|]; cbn; [done|]. by destruct (bool_decide (m = n)). Qed.
Lemma read_named acc m v :
  read_param acc (m, v) = if bool_decide (m = n) then f v acc else acc.
Proof. done. Qed.
End fields.

Lemma option_eta {A} (o : option A) : match o with Some x => Some x | None => None end = o.
Proof. by destruct o. Qed.
Ltac step_field :=
  intros [? ?] ? ?; unfold authorization_request_step, authorization_request_set;
  cbn [fst snd req_response_type req_client_id req_redirect_uri req_scope req_state req_nonce
       req_max_age req_response_mode req_prompt req_display req_acr_values req_ui_locales
       req_claims_locales req_login_hint req_claims req_request req_request_uri
       req_code_challenge req_code_challenge_method];
  reflexivity.
(** One field of the request that [Es] reads from the parameters [Eps]. *)
Ltac decide_names H :=
  repeat match type of H with
  | context [bool_decide (?a = ?b :> string)] =>
      let v := eval vm_compute in (bool_decide (a = b)) in
      change (bool_decide (a = b)) with v in H
  end.
Ltac read_field get n f Eps Es :=
  let H := fresh "Hget" in
  match type of Es with
  | _ = fold_left _ ?ps ?s0 =>
      pose proof (get_fold get n f ltac:(step_field) ps s0) as H;
      rewrite <- Es, Eps in H; unfold authorize_url_params in H;
      rewrite !fold_left_app in H; cbn [fold_left] in H;
      repeat (first [rewrite read_optional in H | rewrite read_named in H];
              decide_names H; cbv beta iota in H);
      cbn in H
  end.
Ltac read_required get n Eps Es :=
  read_field (fun s : AuthorizationRequest * option OidcError => get s.1) n
    (fun v _ : string => v) Eps Es.
Ltac read_optional_field get n Eps Es :=
  read_field (fun s : AuthorizationRequest * option OidcError => get s.1) n
    (fun (v : string) (_ : option string) => Some v) Eps Es.

(** What comes back of a request: the parameters of the URL. *)
Definition returned (r : AuthorizationRequest) (mode : AuthorizeUrlPromptMode)
    : AuthorizationRequest :=
  mk_AuthorizationRequest (req_response_type r) (req_client_id r) (req_redirect_uri r)
    (req_scope r) (req_state r) (req_nonce r) (req_max_age r) (req_response_mode r)
    (authorize_url_prompt (req_prompt r) mode) (req_display r) (req_acr_values r)
    (req_ui_locales r) (req_claims_locales r) (req_login_hint r) (req_claims r) None None
    (req_code_challenge r) (req_code_challenge_method r).

Definition max_age_in_range (r : AuthorizationRequest) : Prop :=
  forall a, req_max_age r = Some a -> i64_range a = true.

Lemma params_read_back r mode :
  max_age_in_range r ->
  authorization_request_from_query_pairs (authorize_url_params r mode) = (returned r mode, None).
Proof.
  intros Hage. unfold authorization_request_from_query_pairs.
  remember (authorize_url_params r mode) as ps eqn:Eps.
  remember (fold_left authorization_request_step ps _) as s eqn:Es.
  read_required req_response_type "response_type" Eps Es.
  read_required req_client_id "client_id" Eps Es.
  read_required req_redirect_uri "redirect_uri" Eps Es.
  read_required req_scope "scope" Eps Es.
  read_optional_field req_state "state" Eps Es.
  read_optional_field req_nonce "nonce" Eps Es.
  read_optional_field req_response_mode "response_mode" Eps Es.
  read_optional_field req_prompt "prompt" Eps Es.
  read_optional_field req_display "display" Eps Es.
  read_optional_field req_acr_values "acr_values" Eps Es.
  read_optional_field req_ui_locales "ui_locales" Eps Es.
  read_optional_field req_claims_locales "claims_locales" Eps Es.
  read_optional_field req_login_hint "login_hint" Eps Es.
  read_optional_field req_claims "claims" Eps Es.
  read_optional_field req_request "request" Eps Es.
  read_optional_field req_request_uri "request_uri" Eps Es.
  read_optional_field req_code_challenge "code_challenge" Eps Es.
  read_optional_field req_code_challenge_method "code_challenge_method" Eps Es.
  read_field (fun s : AuthorizationRequest * option OidcError => req_max_age s.1) "max_age"
    set_max_age Eps Es.
  read_field (fun s : AuthorizationRequest * option OidcError => s.2) "max_age"
    set_parse_error Eps Es.
  clear Es Eps. destruct s as [[] e]. unfold returned. cbn in *. rewrite option_eta in *. subst.
  destruct (Oidc.req_max_age r) as [a|] eqn:Ea; cbn; [|done].
  unfold set_max_age, set_parse_error. rewrite parse_i64_pretty by by apply Hage. done.
Qed.

(** *** No parameter is named twice *)

Lemma duplicate_parameter_none seen pairs :
  NoDup (seen ++ pairs.*1) ->
  duplicate_parameter_loop authorization_request_parameter_name seen pairs = None.
Proof.
  revert seen. induction pairs as [|[m v] pairs IH]; intros seen Hd; cbn; [done|].
  unfold authorization_request_parameter_name.
  assert (m ∉ seen /\ NoDup (seen ++ pairs.*1) /\ m ∉ pairs.*1) as (Hm & Hrest & Hm').
  { cbn in Hd. apply NoDup_app in Hd as (Hs & Hx & Hd). apply NoDup_cons in Hd as [Hm' Hd].
    split; [|split; [|done]].
    - intros Hin. apply (Hx m Hin). left.
    - apply NoDup_app. split_and!; [done| |done]. intros x Hx' Hin. apply (Hx x Hx'). by right. }
  destruct (contains _ m); [|by apply IH].
  destruct (existsb _ seen) eqn:E.
  - apply existsb_elem in E as (x & Hx & ->%bool_decide_eq_true). done.
  - apply IH. rewrite <- app_assoc. cbn in Hd |- *. exact Hd.
Qed.

Definition authorize_url_names : list string :=
  ["response_type"; "client_id"; "redirect_uri"; "scope"; "state"; "nonce"; "display";
   "acr_values"; "ui_locales"; "claims_locales"; "max_age"; "response_mode"; "prompt";
   "login_hint"; "claims"; "code_challenge"; "code_challenge_method"].
Lemma optional_param_names m v : (optional_param m v).*1 = if is_some v then [m] else [].
Proof. by destruct v. Qed.
(** Dropping entries keeps a list free of duplicates. *)
Lemma keep_sublist (b : bool) (m : string) l l' :
  sublist l l' -> sublist ((if b then [m] else []) ++ l) (m :: l').
Proof. destruct b; cbn; [apply sublist_skip|apply sublist_cons]. Qed.
Lemma params_no_duplicate r mode :
  duplicate_authorization_request_parameter (authorize_url_params r mode) = None.
Proof.
  apply duplicate_parameter_none. cbn [app].
  apply (sublist_NoDup _ authorize_url_names);
    [apply (bool_decide_unpack _); vm_compute; exact I|].
  unfold authorize_url_params, authorize_url_names. rewrite !fmap_app, !optional_param_names.
  cbn [fmap list_fmap app fst]. do 4 apply sublist_skip. do 12 apply keep_sublist.
  destruct (is_some _); [done|apply sublist_nil_l].
Qed.

(** *** The prompt that comes back *)

Definition returned_prompt (p : AuthorizationPrompt) (mode : AuthorizeUrlPromptMode)
    : AuthorizationPrompt :=
  match mode, p with
  | Mode_RemoveLogin, Prompt_Login => Prompt_Default
  | Mode_RemoveLogin, Prompt_LoginConsent => Prompt_Consent
  | Mode_RemoveConsent, Prompt_Consent => Prompt_Default
  | Mode_RemoveConsent, Prompt_LoginConsent => Prompt_Login
  | _, _ => p
  end.

Lemma trimmed_nonempty_fixed o w : trimmed_nonempty o = Some w -> trimmed_nonempty (Some w) = Some w.
Proof.
  unfold trimmed_nonempty. destruct o as [v|]; [|done].
  destruct (is_empty (trim v)) eqn:E; [done|]. intros [= <-]. by rewrite trim_idem, E.
Qed.
Lemma parse_returned_prompt prompt p mode :
  parse_prompt prompt = Ok p ->
  parse_prompt (authorize_url_prompt prompt mode) = Ok (returned_prompt p mode).
Proof.
  rewrite !parse_prompt_result. unfold authorize_url_prompt.
  destruct (trimmed_nonempty prompt) as [w|] eqn:Ew.
  - intros Hp%prompt_result_ok. destruct mode.
    + rewrite (trimmed_nonempty_fixed _ _ Ew). rewrite (prompt_result_of _ _ Hp). by destruct p.
    + destruct Hp; vm_compute; reflexivity.
    + destruct Hp; vm_compute; reflexivity.
  - intros [= <-]. by destruct mode.
Qed.

(** *** Requests read from a query are UTF-8 *)

Definition request_fields (r : AuthorizationRequest) : list (option string) :=
  [Some (req_response_type r); Some (req_client_id r); Some (req_redirect_uri r);
   Some (req_scope r); req_state r; req_nonce r; req_response_mode r; req_prompt r; req_display r;
   req_acr_values r; req_ui_locales r; req_claims_locales r; req_login_hint r; req_claims r;
   req_request r; req_request_uri r; req_code_challenge r; req_code_challenge_method r].
Definition opt_utf8 (o : option string) : Prop := forall s, o = Some s -> utf8_valid s = true.
Definition request_utf8 (r : AuthorizationRequest) : Prop := Forall opt_utf8 (request_fields r).

Lemma opt_utf8_if (b : bool) (v : string) o :
  utf8_valid v = true -> opt_utf8 o -> opt_utf8 (if b then Some v else o).
Proof. intros Hv Ho. destruct b; [|done]. by intros s [= <-]. Qed.
Lemma opt_utf8_req (b : bool) (v w : string) :
  utf8_valid v = true -> opt_utf8 (Some w) -> opt_utf8 (Some (if b then v else w)).
Proof. intros Hv Hw. destruct b; [|done]. by intros s [= <-]. Qed.
Lemma step_utf8 s m v :
  utf8_valid v = true -> request_utf8 s.1 -> request_utf8 (authorization_request_step s (m, v)).1.
Proof.
  destruct s as [r e]. unfold request_utf8, request_fields. rewrite !Forall_cons, Forall_nil.
  intros Hv H. destruct_and! H. unfold authorization_request_step, authorization_request_set.
  cbn [fst snd req_response_type req_client_id req_redirect_uri req_scope req_state req_nonce
       req_max_age req_response_mode req_prompt req_display req_acr_values req_ui_locales
       req_claims_locales req_login_hint req_claims req_request req_request_uri
       req_code_challenge req_code_challenge_method] in *.
  repeat apply conj; first [apply opt_utf8_if; assumption | apply opt_utf8_req; assumption | exact I].
Qed.
Lemma step_max_age s p :
  max_age_in_range s.1 -> max_age_in_range (authorization_request_step s p).1.
Proof.
  destruct s as [r e], p as [m v]. unfold authorization_request_step, max_age_in_range. cbn.
  intros Hr a. destruct (bool_decide _); [|apply Hr]. unfold set_max_age.
  destruct (parse_i64 v) as [z|] eqn:E; [|apply Hr]. intros [= <-].
  unfold parse_i64 in E. case_match; [|done]. case_match; by simplify_eq.
Qed.
Lemma read_request_ok pairs r e :
  Forall (fun p => utf8_valid p.1 = true /\ utf8_valid p.2 = true) pairs ->
  authorization_request_from_query_pairs pairs = (r, e) -> request_utf8 r /\ max_age_in_range r.
Proof.
  intros Hp Hr. unfold authorization_request_from_query_pairs in Hr.
  assert (request_utf8 (empty_authorization_request, @None OidcError).1
          /\ max_age_in_range (empty_authorization_request, @None OidcError).1) as H0.
  { split; [|done]. repeat constructor; by intros s [= <-]. }
  revert H0 Hr. generalize (empty_authorization_request, @None OidcError) as s.
  induction Hp as [|[m v] pairs [_ Hv] _ IH]; cbn [fold_left]; intros s [H1 H2].
  - intros ->. done.
  - apply IH. split; [by apply step_utf8|by apply step_max_age].
Qed.

(** *** What the URL holds is UTF-8 *)

Lemma parse_digits_ascii acc s z : parse_digits acc s = Some z -> is_ascii s = true.
Proof.
  unfold is_ascii. revert acc. induction s as [|c s IH]; intros acc; cbn; [done|].
  destruct (is_ascii_digit c) eqn:Ec; [|done]. intros Hs. rewrite (IH _ Hs), andb_true_r.
  unfold is_ascii_digit in Ec. apply in_range_true in Ec. apply N.ltb_lt. lia.
Qed.
Lemma parse_nat_str_ascii s z : parse_nat_str s = Some z -> is_ascii s = true.
Proof. unfold parse_nat_str. destruct (is_empty s); [done|]. apply parse_digits_ascii. Qed.
Lemma parse_i64_ascii s z : parse_i64 s = Some z -> is_ascii s = true.
Proof.
  unfold parse_i64, parse_signed. set (o := match s with EmptyString => _ | String _ _ => _ end).
  enough (forall y, o = Some y -> is_ascii s = true) as H by (destruct o; [intros _; eauto|done]).
  intros y. subst o. destruct s as [|c s]; [done|].
  intros H. repeat case_match; simplify_eq;
    first [ exact (parse_nat_str_ascii _ _ H)
          | change (is_ascii s = true); exact (parse_nat_str_ascii _ _ H)
          | change (is_ascii s = true); destruct (parse_nat_str s) eqn:E; [|done];
            exact (parse_nat_str_ascii _ _ E) ].
Qed.
Lemma i64_to_string_utf8 z : i64_range z = true -> utf8_valid (i64_to_string z) = true.
Proof. intros Hz. by eapply ascii_utf8_valid, parse_i64_ascii, parse_i64_pretty. Qed.

Lemma returned_prompt_utf8 prompt p mode :
  parse_prompt prompt = Ok p -> opt_utf8 prompt -> opt_utf8 (authorize_url_prompt prompt mode).
Proof.
  rewrite parse_prompt_result. unfold authorize_url_prompt.
  destruct (trimmed_nonempty prompt) as [w|] eqn:Ew; [|done].
  intros Hp%prompt_result_ok Hu. destruct mode.
  - intros s [= <-]. unfold trimmed_nonempty in Ew. destruct prompt as [v|]; [|done].
    destruct (is_empty (trim v)); [done|]. injection Ew as <-. by apply trim_utf8, Hu.
  - destruct Hp; intros s Hs; vm_compute in Hs; inversion Hs; reflexivity.
  - destruct Hp; intros s Hs; vm_compute in Hs; inversion Hs; reflexivity.
Qed.

Definition pair_utf8 (p : string * string) : Prop := utf8_valid p.1 = true /\ utf8_valid p.2 = true.
Lemma optional_param_utf8 m o :
  utf8_valid m = true -> opt_utf8 o -> Forall pair_utf8 (optional_param m o).
Proof. intros Hm Ho. destruct o; repeat constructor; cbn; auto. Qed.
Lemma params_utf8 r mode p :
  request_utf8 r -> max_age_in_range r -> parse_prompt (req_prompt r) = Ok p ->
  Forall pair_utf8 (authorize_url_params r mode).
Proof.
  intros Hr Hage Hp. unfold request_utf8, request_fields in Hr.
  rewrite !Forall_cons, Forall_nil in Hr. destruct_and! Hr. unfold authorize_url_params.
  rewrite !Forall_app, !Forall_cons, Forall_nil. repeat apply conj;
    try (apply optional_param_utf8; [done|]); try assumption; try done; auto.
  - destruct (req_max_age r) as [a|] eqn:Ea; [|done]. intros s [= <-]. by apply i64_to_string_utf8, Hage.
  - by eapply returned_prompt_utf8.
Qed.

(** *** The round trip *)

Section round_trip.
Context {CC : CryptoCrates} {SJ : SerdeJson}.

Definition val_with_prompt (p : AuthorizationPrompt) (v : ValidatedAuthorizationRequest)
    : ValidatedAuthorizationRequest :=
  mk_ValidatedAuthorizationRequest (val_client_id v) (val_redirect_uri v) (val_scopes v)
    (val_state v) (val_nonce v) (val_max_age v) (val_response_mode v) p (val_display v)
    (val_acr_values v) (val_ui_locales v) (val_claims_locales v) (val_login_hint v)
    (val_code_challenge v) (val_code_challenge_method v).

Lemma returned_acceptable r c mode : acceptable r c -> acceptable (returned r mode) c.
Proof.
  intros [Hrt Hg Hu Htok Hopen Hall Hoff _ Hcl Hage Hmode Hp Hd Hpk].
  constructor; cbn; try done.
  apply is_ok_true in Hp as [p Hp]. by rewrite (parse_returned_prompt _ p).
Qed.
Lemma returned_validates r c mode v :
  validate r c = Ok v ->
  validate (returned r mode) c = Ok (val_with_prompt (returned_prompt (val_prompt v) mode) v).
Proof.
  intros (Hacc & Hv & Hp & Hd)%validate_ok.
  destruct (acceptable_validates (returned r mode) c) as [v' Hv'];
    [by apply returned_acceptable|].
  pose proof Hv' as (_ & Heq & Hp' & Hd')%validate_ok. rewrite Hv'. f_equal.
  cbn in Hp', Hd'. rewrite (parse_returned_prompt _ _ _ Hp) in Hp'. injection Hp' as Hp'.
  rewrite Hd in Hd'. injection Hd' as Hd'.
  rewrite Heq. rewrite Hv at 2. unfold val_with_prompt. cbn. rewrite <- Hp', <- Hd'. cbn.
  rewrite Hv at 1. done.
Qed.

Lemma read_back r mode p :
  request_utf8 r -> max_age_in_range r -> parse_prompt (req_prompt r) = Ok p ->
  (len (authorize_url_query r mode) <= OAUTH_QUERY_MAX_BYTES)%N ->
  authorization_query_pairs (Some (authorize_url_query r mode)) = Ok (authorize_url_params r mode).
Proof.
  intros Hu Ha Hp Hlen. unfold authorization_query_pairs. cbn [default from_option id].
  rewrite (proj2 (N.ltb_ge _ _)) by done. unfold authorize_url_query.
  rewrite parse_encoded_pairs; [done|]. by eapply params_utf8.
Qed.

(** The way back keeps the request.  A browser that was sent to the login or
    consent page returns to the URL of [current_authorize_url]; for every
    request that was read from a query and validates, that URL, if it is
    within the query limit, reads back without an error or a duplicate
    parameter as the same request with only the prompt changed, and validates
    to the same scopes, redirect URI, state, nonce, challenge and the rest,
    without the login (or consent) prompt that was just satisfied, so the
    user is not asked again. *)
Theorem return_url_round_trip input pairs r e c v mode :
  parse_url_encoded_pairs input = Ok pairs ->
  authorization_request_from_query_pairs pairs = (r, e) ->
  validate r c = Ok v ->
  (len (authorize_url_query r mode) <= OAUTH_QUERY_MAX_BYTES)%N ->
  exists back r',
    authorization_query_pairs (Some (authorize_url_query r mode)) = Ok back
    /\ duplicate_authorization_request_parameter back = None
    /\ authorization_request_from_query_pairs back = (r', None)
    /\ validate r' c = Ok (val_with_prompt (returned_prompt (val_prompt v) mode) v)
    /\ (mode = Mode_RemoveLogin -> requires_login (returned_prompt (val_prompt v) mode) = false)
    /\ (mode = Mode_RemoveConsent ->
        requires_consent (returned_prompt (val_prompt v) mode) = false)
    /\ (mode = Mode_Preserve -> returned_prompt (val_prompt v) mode = val_prompt v).
Proof.
  intros Hpairs%parsed_pairs_utf8 Hr Hv Hlen.
  apply read_request_ok in Hr as [Hu Ha]; [|done].
  pose proof Hv as (_ & _ & Hp & _)%validate_ok.
  exists (authorize_url_params r mode), (returned r mode). split_and!.
  - by eapply read_back.
  - apply params_no_duplicate.
  - by apply params_read_back.
  - by apply returned_validates.
  - intros ->. by destruct (val_prompt v).
  - intros ->. by destruct (val_prompt v).
  - intros ->. by destruct (val_prompt v).
Qed.
End round_trip.

(** A request that fits the query limit may not fit it on the way back, where
    every reserved byte takes three: after the login it is refused as too
    large. *)
Fixpoint repeat_char (c : ascii) (n : nat) : string :=
  match n with O => "" | S n => String c (repeat_char c n) end.
Definition long_state_query : string :=
  "response_type=code&client_id=app&redirect_uri=https://app.example/cb&scope=openid"
  +:+ "&code_challenge=E9Melhoa2OwvFrEMTJguCHaoeK1t8URWbuGJSstw-cM&code_challenge_method=S256"
  +:+ "&state=" +:+ repeat_char ":" 4000.
Definition small_client : OidcClient :=
  mk_OidcClient 5 1 "app" None None "App" ["https://app.example/cb"] [] ["openid"]
    [AuthorizationCodeGrant] true true ClientStatus_Active 0.
Lemma return_url_may_not_fit `{CryptoCrates, SerdeJson} :
  exists pairs r v,
    authorization_query_pairs (Some long_state_query) = Ok pairs
    /\ authorization_request_from_query_pairs pairs = (r, None)
    /\ validate r small_client = Ok v
    /\ authorization_query_pairs (Some (authorize_url_query r Mode_Preserve))
       = Err (api_bad_request "authorization request too large").
Proof.
  eexists _, _, _. split; [vm_compute; reflexivity|]. split; [vm_compute; reflexivity|].
  split; vm_compute; reflexivity.
Qed.
