(* ===== verification/Authorize.v ===== *)
(** * The authorization endpoint and consent

    [apps/api/src/http]'s oidc_browser_routes/authorize_route.rs, the consent
    policy of client_policy.rs and the consent routes of
    session_routes/consent.rs: who gets an authorization code, who is sent to
    the login or consent page, and what is reported to the client instead. *)

From S2P Require Import Prelude RustStr Domain Authn Oidc Http Codec Store.
From S2P Require Import OAuthStore.
From S2P Require Import ClientStore SessionStore Directory AuditStore Handler KeyStore ConsentStore.
From S2P Require Import OAuthPolicy BrowserSession AuthorizeRequest.

(** ** Replies *)

(** axum's [Redirect::temporary] is 307 with the target as [location]. *)
(* apps/api/src/http/oauth_http/response.rs:37-41 oauth_redirect_response *)
Definition oauth_redirect_response (target : string) : Reply :=
  mk_Reply (mk_Response 307 (("location", target) :: no_store_headers)) Body_Empty.
Definition redirect (target : string) : Handler Reply := succeed (oauth_redirect_response target).

(** What the handler draws: the instant the session is checked, its own [now],
    the random value of the code and its identifier. *)
Record AuthorizeEnv := mk_AuthorizeEnv {
  auth_session_now : OffsetDateTime;
  auth_now : OffsetDateTime;
  auth_code_id : Uuid;
  auth_code_value : string;
}.

(* apps/api/src/http/oidc_browser_routes/authorize_route.rs:290-295 session_satisfies_requested_acr *)
Definition session_satisfies_requested_acr (session_acr : string)
    (requested_acr_values : list string) : bool :=
  match requested_acr_values with
  | [] => true
  | _ => existsb (fun requested => bool_decide (requested = session_acr)) requested_acr_values
  end.

(* apps/api/src/http/client_policy.rs:13-19 consent_scopes_allowed *)
Definition consent_scopes_allowed (scopes : list string) (client : OidcClient) : bool :=
  forallb (fun scope => existsb (fun allowed => bool_decide (allowed = scope))
                          (client_allowed_scopes client)) scopes
  && (negb (existsb (fun scope => bool_decide (scope = "offline_access")) scopes)
      || allows_grant client RefreshTokenGrant).

(* apps/api/src/http/client_policy.rs:117-134 client_consent_policy_requires_prompt *)
Definition client_consent_policy_requires_prompt (organization_id : Uuid) (client : OidcClient)
    : Handler bool :=
  match client_consent_policy_template_id client with
  | None => succeed false
  | Some template_id =>
      do! template := query (get_consent_policy_template organization_id template_id) in
      match template with
      | None => succeed true
      | Some template => succeed (bool_decide (policy_grant_mode template = AlwaysRequired))
      end
  end.

Section authorize.
Context {CC : CryptoCrates} {SJ : SerdeJson} {AG : AesGcm} {HC : HttpCrates} {UU : UuidCrate}.

Definition error_redirect (state : AppState) (request : AuthorizationRequest)
    (code description : string) : Handler Reply :=
  redirect (authorization_error_redirect_with_code request (config_issuer state) code
              (Some description)).
Definition login_url (state : AppState) (request : AuthorizationRequest)
    (mode : AuthorizeUrlPromptMode) : string :=
  config_public_web_origin state +:+ "/login?return_to="
  +:+ percent_encode (current_authorize_url (config_issuer state) request mode).
Definition login_redirect (state : AppState) (request : AuthorizationRequest)
    (mode : AuthorizeUrlPromptMode) : Handler Reply := redirect (login_url state request mode).
Definition consent_url (state : AppState) (request : AuthorizationRequest) (client : OidcClient)
    (scopes : list string) : string :=
  config_public_web_origin state +:+ "/consent?return_to="
  +:+ percent_encode (current_authorize_url (config_issuer state) request Mode_RemoveConsent)
  +:+ "&client_id=" +:+ percent_encode (client_client_id client)
  +:+ "&client_name=" +:+ percent_encode (client_name client)
  +:+ "&scopes=" +:+ percent_encode (join " " scopes).

(* apps/api/src/http/oidc_browser_routes/authorize_route.rs:242-257 authorize_with_pairs *)
Definition authorization_code_row (env : AuthorizeEnv) (session : AuthSession)
    (client : OidcClient) (validated : ValidatedAuthorizationRequest) : AuthorizationCode :=
  mk_AuthorizationCode
    (generated_hash (generate_hashed_secret (auth_code_id env) (auth_code_value env)))
    (session_organization_id session) (session_user_id session) (session_id session)
    (client_uuid client) (val_redirect_uri validated) (val_scopes validated)
    (val_nonce validated) (val_code_challenge validated) (val_code_challenge_method validated)
    (auth_now env) (auth_now env + duration_minutes 5)%Z None.
Definition code_redirect_target (state : AppState) (env : AuthorizeEnv)
    (validated : ValidatedAuthorizationRequest) : string :=
  append_authorization_response_params (val_redirect_uri validated) (auth_code_value env)
    (val_state validated) (config_issuer state).

Definition consumption (state : AppState) (env : AuthorizeEnv) (session : AuthSession)
    (client : OidcClient) (request : AuthorizationRequest)
    (validated : ValidatedAuthorizationRequest) : ConsentAuthorizationConsumption :=
  mk_ConsentAuthorizationConsumption (session_organization_id session)
    (session_user_id session) (session_id session) (client_uuid client)
    (authorization_request_hash (config_issuer state) request) (val_scopes validated)
    (auth_now env).

(** From the check of the consent on. *)
(* apps/api/src/http/oidc_browser_routes/authorize_route.rs:178-269 authorize_with_pairs *)
Definition authorize_consented (state : AppState) (env : AuthorizeEnv) (session : AuthSession)
    (client : OidcClient) (request : AuthorizationRequest)
    (validated : ValidatedAuthorizationRequest) : Handler Reply :=
  let prompt := val_prompt validated in
  do! has_consent := query (has_active_consent_grant (session_organization_id session)
                       (session_user_id session) (client_uuid client) (val_scopes validated)) in
  do! policy_requires_consent :=
    client_consent_policy_requires_prompt (session_organization_id session) client in
  do! policy_consent_satisfied :=
    if policy_requires_consent && negb (requires_consent prompt) && negb (prompt_is_none prompt)
    then consume_consent_authorization (consumption state env session client request validated)
    else succeed false in
  if negb has_consent || requires_consent prompt
     || (policy_requires_consent && negb policy_consent_satisfied)
  then
    if prompt_is_none prompt
    then error_redirect state request "consent_required" "consent required"
    else redirect (consent_url state request client (val_scopes validated))
  else
    do! _ := query (insert_authorization_code
                      (authorization_code_row env session client validated)) in
    redirect (code_redirect_target state env validated).

(** With the session of the browser. *)
(* apps/api/src/http/oidc_browser_routes/authorize_route.rs:102-176 authorize_with_pairs *)
Definition authorize_validated (state : AppState) (env : AuthorizeEnv) (headers : HeaderMap)
    (client : OidcClient) (request : AuthorizationRequest)
    (validated : ValidatedAuthorizationRequest) : Handler Reply :=
  let prompt := val_prompt validated in
  do! session := session_from_cookie state (auth_session_now env) headers in
  match session with
  | None =>
      if prompt_is_none prompt
      then error_redirect state request "login_required" "login required"
      else login_redirect state request
             (if requires_login prompt then Mode_RemoveLogin else Mode_Preserve)
  | Some session =>
  do! _ := lift (require_client_in_session_organization client session) in
  if requires_login prompt then login_redirect state request Mode_RemoveLogin
  else if session_exceeds_max_age session (val_max_age validated) (auth_now env)
  then
    if prompt_is_none prompt
    then error_redirect state request "login_required" "login required"
    else login_redirect state request Mode_Preserve
  else if negb (session_satisfies_requested_acr (session_acr session) (val_acr_values validated))
  then
    if prompt_is_none prompt
    then error_redirect state request "login_required"
           "requested acr_values require reauthentication"
    else login_redirect state request Mode_Preserve
  else authorize_consented state env session client request validated
  end.

(* apps/api/src/http/oidc_browser_routes/authorize_route.rs:49-270 authorize_with_pairs *)
Definition authorize_with_pairs (state : AppState) (env : AuthorizeEnv) (headers : HeaderMap)
    (query_pairs : list (string * string)) : Handler Reply :=
  let duplicate_parameter := duplicate_authorization_request_parameter query_pairs in
  do! _ := reject_if (bool_decide (duplicate_parameter = Some "client_id")
                      || bool_decide (duplicate_parameter = Some "redirect_uri"))
             (api_bad_request "duplicate authorization request parameter") in
  let '(request, parse_error) := authorization_request_from_query_pairs query_pairs in
  do! client := query (get_oidc_client_by_public_id (req_client_id request)) in
  do! client := some_or client (api_bad_request "unknown client") in
  do! _ := reject_if (negb (allows_redirect_uri client (req_redirect_uri request)))
             (api_bad_request "invalid redirect URI") in
  if negb (oidc_client_is_active client)
  then error_redirect state request "unauthorized_client" "client is disabled"
  else if is_some duplicate_parameter
  then error_redirect state request "invalid_request" "duplicate authorization request parameter"
  else
  match parse_error with
  | Some error => redirect (authorization_error_redirect request (config_issuer state) error)
  | None =>
  match validate request client with
  | Err InvalidRedirectUri => fail (api_bad_request "invalid redirect URI")
  | Err error => redirect (authorization_error_redirect request (config_issuer state) error)
  | Ok validated => authorize_validated state env headers client request validated
  end end.

(* apps/api/src/http/oidc_browser_routes/authorize_route.rs:272-288 authorization_form_pairs *)
Definition authorization_form_pairs (headers : HeaderMap) (request : option string)
    : result ApiError (list (string * string)) :=
  if negb (request_has_urlencoded_content_type headers)
  then Err (api_bad_request "content type must be application/x-www-form-urlencoded")
  else
  let? body := ok_or (bounded_request_body request OAUTH_FORM_BODY_MAX_BYTES)
                 (api_bad_request "authorization request too large") in
  if negb (utf8_valid body) then Err (api_bad_request "invalid authorization request")
  else map_err (fun _ => api_bad_request "invalid authorization request")
         (parse_url_encoded_pairs body).

(** [post] says whether the method is POST. *)
(* apps/api/src/http/oidc_browser_routes/authorize_route.rs:33-47 authorize *)
Definition authorize (state : AppState) (env : AuthorizeEnv) (post : bool) (headers : HeaderMap)
    (raw_query request : option string) : Handler Reply :=
  do! query_pairs := lift (if post then authorization_form_pairs headers request
                           else authorization_query_pairs raw_query) in
  authorize_with_pairs state env headers query_pairs.

(** ** Consent *)

(* apps/api/src/http/session_routes/consent.rs:205-209 CreateConsentRequest *)
Record CreateConsentRequest := mk_CreateConsentRequest {
  create_client_id : string;
  create_return_to : string;
  create_scopes : list string;
}.
(** The instants and random identifiers of one call. *)
Record ConsentEnv := mk_ConsentEnv {
  consent_session_now : OffsetDateTime;
  consent_now : OffsetDateTime;
  consent_grant_id : Uuid;
  consent_authorization_id : Uuid;
  consent_event_id : Uuid;
  consent_event_now : OffsetDateTime;
}.
Definition CONSENT_AUTHORIZATION_TTL : Z := duration_minutes 5.

Context {TC : TokenCrates} {UC : UrlCrate} {UP : UrlParts}.

Definition new_consent_grant (env : ConsentEnv) (session : AuthSession) (client : OidcClient)
    (payload : CreateConsentRequest) : ConsentGrant :=
  mk_ConsentGrant (consent_grant_id env) (session_organization_id session)
    (session_user_id session) (client_uuid client) (create_scopes payload) (consent_now env) None.
Definition new_consent_authorization (env : ConsentEnv) (session : AuthSession)
    (client : OidcClient) (payload : CreateConsentRequest) (hash : string)
    : ConsentAuthorization :=
  mk_ConsentAuthorization (consent_authorization_id env) (session_organization_id session)
    (session_user_id session) (session_id session) (client_uuid client) hash
    (create_scopes payload) (consent_now env) (consent_now env + CONSENT_AUTHORIZATION_TTL)%Z None.

(** The reply's body is the grant. *)
(* apps/api/src/http/session_routes/consent.rs:27-94 create_consent *)
Definition create_consent (state : AppState) (env : ConsentEnv) (headers : HeaderMap)
    (payload : CreateConsentRequest) : Handler ConsentGrant :=
  do! session := require_session state (consent_session_now env) headers in
  do! _ := lift (require_csrf headers) in
  do! client := query (get_oidc_client_by_public_id (create_client_id payload)) in
  do! client := some_or client (api_bad_request "unknown client") in
  do! _ := lift (require_client_in_session_organization client session) in
  do! _ := reject_if (negb (oidc_client_is_active client)) (api_bad_request "client disabled") in
  do! _ := reject_if (negb (consent_scopes_allowed (create_scopes payload) client))
             (api_bad_request "invalid consent scope") in
  do! hash := lift (validate_consent_return_to (config_issuer state) (create_return_to payload)
                      client (create_scopes payload)) in
  let grant := new_consent_grant env session client payload in
  do! _ := query (create_consent_grant grant) in
  do! _ := query (create_consent_authorization
                    (new_consent_authorization env session client payload hash)) in
  do! _ := query (insert_audit_event
    (audit_build (consent_event_id env) (consent_event_now env)
      (audit_with_metadata (Object [("client_id", String_ (client_client_id client));
                                    ("scopes", Array (String_ <$> grant_scopes grant))])
        (audit_user (state_organization_id state) (session_user_id session)
           "oauth.consent_granted" (uuid_to_string (client_uuid client)))))) in
  succeed grant.

(* apps/api/src/http/session_routes/consent.rs:126-171 revoke_session_consent_grant *)
Definition revoke_session_consent_grant (state : AppState) (env : ConsentEnv)
    (headers : HeaderMap) (grant_id : Uuid) : Handler ConsentGrantRevocation :=
  do! session := require_session state (consent_session_now env) headers in
  do! _ := lift (require_csrf headers) in
  do! revocation := query (revoke_current_user_consent_and_tokens (session_organization_id session)
                             (session_user_id session) grant_id (consent_now env)) in
  do! revocation := some_or revocation (api_status 404 "consent grant not found") in
  let count (n : nat) := Number (Z.of_nat n) in
  let grant := summary_grant (revocation_grant revocation) in
  do! _ := query (insert_audit_event
    (audit_build (consent_event_id env) (consent_event_now env)
      (audit_with_metadata
        (Object [("client_id", String_ (uuid_to_string (grant_client_id grant)));
                 ("scopes", Array (String_ <$> grant_scopes grant));
                 ("consent_grants_revoked", count (revocation_consent_grants_revoked revocation));
                 ("authorization_codes_invalidated",
                   count (revocation_authorization_codes_invalidated revocation));
                 ("access_tokens_revoked", count (revocation_access_tokens_revoked revocation));
                 ("refresh_tokens_revoked", count (revocation_refresh_tokens_revoked revocation))])
        (audit_user (session_organization_id session) (session_user_id session)
           "user.consent_revoked" (uuid_to_string grant_id))))) in
  succeed revocation.
End authorize.

(** ** Properties *)

(** *** Where the browser is sent *)

Definition is_redirect (reply : Reply) (target : string) : Prop :=
  reply = oauth_redirect_response target.

Section targets.
Context {CC : CryptoCrates} {SJ : SerdeJson} {AG : AesGcm} {HC : HttpCrates} {UU : UuidCrate}.

(** The places one request of one client can lead to: back to its redirect
    URI with an error, back to it with a code, or, when the prompt allows the
    user to be asked, to the login and consent pages of the service. *)
Inductive authorize_target (state : AppState) (client : OidcClient)
    (request : AuthorizationRequest) : string -> Prop :=
| target_error (code description : string) :
    authorize_target state client request
      (append_authorization_error_response_params (req_redirect_uri request) code
         (Some description) (req_state request) (config_issuer state))
| target_code (value : string) (validated : ValidatedAuthorizationRequest) :
    validate request client = Ok validated ->
    authorize_target state client request
      (append_authorization_response_params (req_redirect_uri request) value
         (req_state request) (config_issuer state))
| target_login (mode : AuthorizeUrlPromptMode) (validated : ValidatedAuthorizationRequest) :
    validate request client = Ok validated -> val_prompt validated <> Prompt_None ->
    authorize_target state client request (login_url state request mode)
| target_consent (scopes : list string) (validated : ValidatedAuthorizationRequest) :
    validate request client = Ok validated -> val_prompt validated <> Prompt_None ->
    authorize_target state client request (consent_url state request client scopes).

Definition answer_allowed (state : AppState) (client : OidcClient)
    (request : AuthorizationRequest) (r : result ApiError Reply) : Prop :=
  match r with
  | Ok reply => exists target, is_redirect reply target
                  /\ authorize_target state client request target
  | Err _ => True
  end.
Lemma redirect_allowed state client request target :
  authorize_target state client request target ->
  each_ret (answer_allowed state client request) (redirect target).
Proof. intros H. exists target. done. Qed.
Lemma error_redirect_allowed state client request code description :
  each_ret (answer_allowed state client request) (error_redirect state request code description).
Proof. apply redirect_allowed, target_error. Qed.
Lemma not_none p : prompt_is_none p = false -> p <> Prompt_None.
Proof. by intros H ->. Qed.
Lemma login_not_none p : requires_login p = true -> p <> Prompt_None.
Proof. by intros H ->. Qed.
Lemma login_redirect_allowed state client request validated mode :
  validate request client = Ok validated -> val_prompt validated <> Prompt_None ->
  each_ret (answer_allowed state client request) (login_redirect state request mode).
Proof. intros Hv Hp. apply redirect_allowed. by eapply target_login. Qed.
#[local] Hint Resolve redirect_allowed error_redirect_allowed login_redirect_allowed
  login_not_none target_login target_consent
  target_code not_none : core.

Lemma val_same request client validated :
  validate request client = Ok validated ->
  val_redirect_uri validated = req_redirect_uri request
  /\ val_state validated = req_state request.
Proof. intros (_ & -> & _)%validate_ok. done. Qed.

Lemma authorize_consented_allowed state env session client request validated :
  validate request client = Ok validated ->
  each_ret (answer_allowed state client request)
    (authorize_consented state env session client request validated).
Proof.
  intros Hv. pose proof (val_same _ _ _ Hv) as [Hu Hs]. unfold authorize_consented.
  repeat each_ret_step; eauto.
  unfold code_redirect_target. rewrite Hu, Hs. eauto.
Qed.
Lemma authorize_validated_allowed state env headers client request validated :
  validate request client = Ok validated ->
  each_ret (answer_allowed state client request)
    (authorize_validated state env headers client request validated).
Proof.
  intros Hv. unfold authorize_validated. each_ret_step. destruct a as [session|].
  - repeat each_ret_step; eauto using authorize_consented_allowed.
  - each_ret_step; eauto.
Qed.

(** C25. No open redirect.  Whatever the parameters of an authorization request,
    a reply of the endpoint is an error page or a redirect, and a redirect
    leads either to a URI registered for the very client the request names,
    followed by a query, or to the login or consent page of the service; and
    with [prompt=none] the user is never asked: a redirect then leads back to
    the client. *)
Theorem authorize_redirects_are_safe state env headers pairs db reply db' :
  run (authorize_with_pairs state env headers pairs) db = (Ok reply, db') ->
  exists client target,
    find_row (fun c => bool_decide (client_client_id c
       = req_client_id (authorization_request_from_query_pairs pairs).1)) (t_oidc_clients db)
      = Some client
    /\ reply = oauth_redirect_response target
    /\ ((exists uri query, uri ∈ client_redirect_uris client
           /\ target = uri +:+ query_separator uri +:+ query)
        \/ (exists rest, target = config_public_web_origin state +:+ "/login?return_to=" +:+ rest)
        \/ (exists rest, target = config_public_web_origin state +:+ "/consent?return_to=" +:+ rest))
    /\ (forall v, validate (authorization_request_from_query_pairs pairs).1 client = Ok v ->
          val_prompt v = Prompt_None ->
          exists uri query, uri ∈ client_redirect_uris client
            /\ target = uri +:+ query_separator uri +:+ query).
Proof.
  unfold authorize_with_pairs. intros H. apply reject_then_Ok in H as [_ H].
  destruct (authorization_request_from_query_pairs pairs) as [request e] eqn:Er. cbn [fst].
  apply fetch_then_Ok in H as (client & Hclient & H). apply reject_then_Ok in H as [Huri H].
  apply negb_false_iff, allows_redirect_uri_true in Huri.
  match type of H with run ?p _ = _ =>
    assert (each_ret (answer_allowed state client request) p) as Hall end.
  { assert (forall error, each_ret (answer_allowed state client request)
       (redirect (authorization_error_redirect request (config_issuer state) error))) as Herr.
    { intros error. unfold authorization_error_redirect. destruct (authorization_error_parts error).
      apply error_redirect_allowed. }
    repeat each_ret_step; auto. destruct e; [auto|].
    destruct (validate request client) as [v|err] eqn:Ev; [by apply authorize_validated_allowed|].
    destruct err; auto. done. }
  apply (each_ret_run _ _ db) in Hall. rewrite H in Hall. destruct Hall as (target & -> & Ht).
  exists client, target. split; [done|]. split; [done|].
  assert (forall suffix, exists uri query, uri ∈ client_redirect_uris client
    /\ req_redirect_uri request +:+ query_separator (req_redirect_uri request) +:+ suffix
       = uri +:+ query_separator uri +:+ query) as Hback by eauto.
  destruct Ht as [code description|value v Hv|mode v Hv Hp|scopes v Hv Hp].
  - split; [left; apply Hback|]. intros _ _ _. apply Hback.
  - split; [left; apply Hback|]. intros _ _ _. apply Hback.
  - split; [right; left; eexists; reflexivity|]. intros v' Hv' Hn. congruence.
  - split; [right; right; eexists; reflexivity|]. intros v' Hv' Hn. congruence.
Qed.
End targets.

(** *** When a code is issued *)

Section issuing.
Context {CC : CryptoCrates} {SJ : SerdeJson} {AG : AesGcm} {HC : HttpCrates} {UU : UuidCrate}.

(** Whether the consent policy of the client asks every time. *)
Definition policy_requires (db : Database) (organization_id : Uuid) (client : OidcClient) : bool :=
  match client_consent_policy_template_id client with
  | None => false
  | Some id =>
      match t_consent_policy_templates db !! id with
      | Some p => if N.eqb (policy_organization_id p) organization_id
                  then bool_decide (policy_grant_mode p = AlwaysRequired) else true
      | None => true
      end
  end.
Lemma client_policy_run o client db :
  run (client_consent_policy_requires_prompt o client) db
  = (Ok (policy_requires db o client), db).
Proof.
  unfold client_consent_policy_requires_prompt, policy_requires.
  destruct (client_consent_policy_template_id client) as [id|]; [|done]. simpl.
  destruct (t_consent_policy_templates db !! id) as [p|]; [|done].
  by destruct (N.eqb (policy_organization_id p) o).
Qed.

(** What the user has agreed to: a standing grant for the scopes, no consent
    prompt in the request, and, under a policy that always asks, an unused
    permission of this very request. *)
Definition consented (db : Database) (state : AppState) (env : AuthorizeEnv)
    (session : AuthSession) (client : OidcClient) (request : AuthorizationRequest)
    (validated : ValidatedAuthorizationRequest) : Prop :=
  consent_given db (session_organization_id session) (session_user_id session)
    (client_uuid client) (val_scopes validated)
  /\ requires_consent (val_prompt validated) = false
  /\ (policy_requires db (session_organization_id session) client = true ->
      val_prompt validated <> Prompt_None
      /\ exists id c, t_consent_authorizations db !! id = Some c
           /\ consumable (consumption state env session client request validated) c).

Definition code_acceptable (db : Database) (c : AuthorizationCode) : Prop :=
  t_authorization_codes db !! code_code_hash c = None /\ code_fk db c = true.
Definition with_code (c : AuthorizationCode) (db : Database) : Database :=
  on_authorization_codes (<[code_code_hash c := c]>) db.
Lemma insert_code_run c db :
  code_acceptable db c -> insert_authorization_code c db = (Ok tt, with_code c db).
Proof.
  intros [Hn Hf]. unfold insert_authorization_code, db_bind, db_check, absent.
  rewrite bool_decide_true by done. by rewrite Hf.
Qed.
Lemma insert_code_codes c db r db' :
  insert_authorization_code c db = (r, db') ->
  (r = Ok tt /\ db' = with_code c db) \/ (exists e, r = Err e) /\ db' = db.
Proof.
  unfold insert_authorization_code, db_bind, db_check. destruct (absent _ _); [|intros [= <- <-]; eauto].
  destruct (code_fk db c); intros [= <- <-]; eauto.
Qed.

(** A database after the permission was used, when one was needed. *)
Inductive permission_used (state : AppState) (env : AuthorizeEnv) (session : AuthSession)
    (client : OidcClient) (request : AuthorizationRequest)
    (validated : ValidatedAuthorizationRequest) (db : Database) : Database -> Prop :=
| permission_not_needed :
    policy_requires db (session_organization_id session) client = false ->
    permission_used state env session client request validated db db
| permission_consumed id c :
    policy_requires db (session_organization_id session) client = true ->
    t_consent_authorizations db !! id = Some c ->
    consumable (consumption state env session client request validated) c ->
    permission_used state env session client request validated db
      (with_consumed id (auth_now env) c db).

(** The part of the handler from the consent on, as three outcomes. *)
Lemma authorize_consented_run state env session client request validated db :
  authorizations_keyed db ->
  let row := authorization_code_row env session client validated in
  (consented db state env session client request validated
   /\ exists db1, permission_used state env session client request validated db db1
        /\ run (authorize_consented state env session client request validated) db
           = run (do! _ := query (insert_authorization_code row) in
                  redirect (code_redirect_target state env validated)) db1)
  \/ (~ consented db state env session client request validated
      /\ exists reply db1, run (authorize_consented state env session client request validated) db
           = (Ok reply, db1) /\ t_authorization_codes db1 = t_authorization_codes db).
Proof.
  intros Hkeyed row. unfold authorize_consented, consented.
  destruct (has_active_consent_grant (session_organization_id session) (session_user_id session)
              (client_uuid client) (val_scopes validated) db) as [[b|e] db1] eqn:Eg;
    [|discriminate Eg].
  pose proof Eg as [-> Hb]%has_active_consent_grant_Ok.
  rewrite (run_known (query _) _ db b) by (apply run_query_Ok; exact Eg).
  rewrite (run_known _ _ _ _ (client_policy_run _ client db)).
  set (policy := policy_requires db (session_organization_id session) client).
  set (prompt := val_prompt validated).
  destruct (policy && negb (requires_consent prompt) && negb (prompt_is_none prompt)) eqn:Eask.
  - apply andb_true_iff in Eask as [[Hpol Hnc]%andb_true_iff Hnn]. bool_prop.
    destruct (consume_run (consumption state env session client request validated) db Hkeyed)
      as (used & db' & Hrun & Hused & Hno & Hyes).
    rewrite (run_known_at _ _ _ _ _ Hrun), Hpol, Hnc. rewrite orb_false_r, andb_true_l.
    destruct used; cbn [negb]; rewrite ?orb_false_r, ?orb_true_r.
    + destruct (Hyes eq_refl) as (id & c & Hc & Hco & ->). destruct b; cbn [negb].
      * left. split; [split; [tauto|split; [done|intros _; split; [by apply not_none|eauto]]]|].
        eexists. split; [by eapply (permission_consumed _ _ _ _ _ _ _ id c)|done].
      * right. split; [intros (Hg & _); by apply Hb in Hg|]. rewrite Hnn.
        eexists _, _. split; [reflexivity|done].
    + right. split.
      * intros (_ & _ & Hp). destruct (Hp eq_refl) as [_ Hex]. apply Hused in Hex. done.
      * rewrite Hnn. eexists _, _. split; [reflexivity|]. by rewrite Hno.
  - rewrite (run_known (succeed false) _ db false) by done. cbn [negb]. rewrite andb_true_r.
    destruct b, (requires_consent prompt) eqn:Enc, policy eqn:Epol; cbn [negb orb];
      try (right; split; [intros (Hg & Hn & Hp)
        |destruct (prompt_is_none prompt); (eexists _, _; split; [reflexivity|done])]);
      try done; try (by apply Hb in Hg).
    + cbn in Eask. apply negb_false_iff in Eask. destruct (Hp eq_refl) as [Hpn _].
      fold prompt in Hpn. by destruct prompt.
    + left. split; [split; [tauto|split; [done|done]]|]. exists db.
      split; [by apply permission_not_needed|done].
Qed.
(** The conditions under which a request of a browser gets a code. *)
Record may_issue (db : Database) (state : AppState) (env : AuthorizeEnv) (headers : HeaderMap)
    (pairs : list (string * string)) (client : OidcClient) (request : AuthorizationRequest)
    (validated : ValidatedAuthorizationRequest) (session : AuthSession) : Prop := {
  issue_request : authorization_request_from_query_pairs pairs = (request, None);
  issue_once : duplicate_authorization_request_parameter pairs = None;
  issue_client_known : find_row (fun c => bool_decide (client_client_id c = req_client_id request))
                         (t_oidc_clients db) = Some client;
  issue_uri : req_redirect_uri request ∈ client_redirect_uris client;
  issue_active : client_status client = ClientStatus_Active;
  issue_validated : validate request client = Ok validated;
  issue_session : carries_session db state (auth_session_now env) headers session;
  issue_organization : client_organization_id client = session_organization_id session;
  issue_no_login : requires_login (val_prompt validated) = false;
  issue_recent : session_exceeds_max_age session (val_max_age validated) (auth_now env) = false;
  issue_requested_acr : session_satisfies_requested_acr (session_acr session)
                          (val_acr_values validated) = true;
  issue_consented : consented db state env session client request validated;
}.

Lemma session_reads_codes state env headers client request validated db r db' :
  run (authorize_validated state env headers client request validated) db = (r, db') ->
  t_authorization_codes db' <> t_authorization_codes db ->
  exists session, carries_session db state (auth_session_now env) headers session
    /\ client_organization_id client = session_organization_id session
    /\ requires_login (val_prompt validated) = false
    /\ session_exceeds_max_age session (val_max_age validated) (auth_now env) = false
    /\ session_satisfies_requested_acr (session_acr session) (val_acr_values validated) = true
    /\ run (authorize_consented state env session client request validated) db = (r, db').
Proof.
  unfold authorize_validated. intros H Hne.
  destruct (session_from_cookie_run state (auth_session_now env) headers db) as (o & Ho & Hs).
  rewrite (run_known _ _ _ _ Ho) in H. destruct o as [session|].
  - exists session. split; [by apply Hs|].
    unfold require_client_in_session_organization in H.
    destruct (N.eqb_spec (client_organization_id client) (session_organization_id session)) as [Hg|];
      cbn [negb] in H; [rewrite lift_Ok_bind in H|by simplify_eq/=].
    split; [done|].
    repeat match type of H with
    | run (if ?c then _ else _) _ = _ =>
        let E := fresh "E" in destruct c eqn:E;
          [try (repeat case_match; by simplify_eq/=)|]
    end.
    by rewrite negb_false_iff in *.
  - repeat case_match; by simplify_eq/=.
Qed.

Lemma authorize_with_pairs_codes state env headers pairs db r db' :
  run (authorize_with_pairs state env headers pairs) db = (r, db') ->
  t_authorization_codes db' <> t_authorization_codes db ->
  exists client request validated,
    authorization_request_from_query_pairs pairs = (request, None)
    /\ duplicate_authorization_request_parameter pairs = None
    /\ find_row (fun c => bool_decide (client_client_id c = req_client_id request))
         (t_oidc_clients db) = Some client
    /\ req_redirect_uri request ∈ client_redirect_uris client
    /\ client_status client = ClientStatus_Active
    /\ validate request client = Ok validated
    /\ run (authorize_validated state env headers client request validated) db = (r, db').
Proof.
  unfold authorize_with_pairs. intros H Hne.
  destruct (_ || _) in H; [by simplify_eq/=|]. change (handler_bind (reject_if false _) ?f) with (f tt) in H.
  destruct (authorization_request_from_query_pairs pairs) as [request e] eqn:Er. cbv beta in H.
  rewrite (run_known (query (get_oidc_client_by_public_id (req_client_id request))) _ db
    (find_row (fun c => bool_decide (client_client_id c = req_client_id request)) (t_oidc_clients db)))
    in H by done.
  destruct (find_row _ _) as [client|] eqn:Ec; [|by simplify_eq/=].
  change (handler_bind (some_or (Some client) _) ?f) with (f client) in H. cbv beta in H.
  destruct (negb (allows_redirect_uri client (req_redirect_uri request))) eqn:Eu; [by simplify_eq/=|].
  change (handler_bind (reject_if false _) ?f) with (f tt) in H. cbv beta in H.
  destruct (negb (oidc_client_is_active client)) eqn:Ea; [by simplify_eq/=|].
  destruct (duplicate_authorization_request_parameter pairs) eqn:Ed; cbn [is_some is_none negb] in H;
    [by simplify_eq/=|].
  destruct e as [e|].
  { unfold authorization_error_redirect in H. by simplify_eq/=. }
  destruct (validate request client) as [v|err] eqn:Ev; [|destruct err; by simplify_eq/=].
  exists client, request, v. apply negb_false_iff in Eu, Ea.
  apply allows_redirect_uri_true in Eu. apply bool_decide_eq_true in Ea. done.
Qed.

Lemma permission_used_codes state env session client request validated db db1 :
  permission_used state env session client request validated db db1 ->
  t_authorization_codes db1 = t_authorization_codes db
  /\ forall c, code_acceptable db1 c <-> code_acceptable db c.
Proof. by intros [|]. Qed.

Lemma may_issue_run state env headers pairs client request validated session db :
  may_issue db state env headers pairs client request validated session ->
  run (authorize_with_pairs state env headers pairs) db
  = run (authorize_consented state env session client request validated) db.
Proof.
  intros [Hr Hd Hc Hu Ha Hv Hs Ho Hl Hm Hacr _]. unfold authorize_with_pairs.
  rewrite Hd. change (handler_bind (reject_if _ _) ?f) with (f tt). cbv beta. rewrite Hr.
  rewrite (run_known (query (get_oidc_client_by_public_id (req_client_id request))) _ db
    (find_row (fun c => bool_decide (client_client_id c = req_client_id request)) (t_oidc_clients db)))
    by done. rewrite Hc.
  change (handler_bind (some_or (Some client) _) ?f) with (f client). cbv beta.
  rewrite (proj2 (allows_redirect_uri_true _ _) Hu). cbn [negb].
  change (handler_bind (reject_if false _) ?f) with (f tt). cbv beta.
  unfold oidc_client_is_active. rewrite bool_decide_true by done. cbn [negb is_some is_none].
  rewrite Hv. unfold authorize_validated.
  destruct (session_from_cookie_run state (auth_session_now env) headers db) as (o & Hrun & Hcar).
  apply Hcar in Hs. subst o. rewrite (run_known _ _ _ _ Hrun).
  unfold require_client_in_session_organization. rewrite Ho, N.eqb_refl. cbn [negb].
  rewrite lift_Ok_bind, Hl, Hm, Hacr. done.
Qed.

(** When a code is issued.  The endpoint stores an authorization code only
    for a request that names each parameter once, validates for an active
    client of the session's organization, comes with a standing session that
    is recent and strong enough, asks for no login, and to which the user has
    consented (under a policy that always asks: with an unused permission of
    this very request, which is used up); the stored code is then exactly the
    one the reply carries, bound to that session, client, scopes and
    challenge, for five minutes.  And every such request gets its code. *)
Theorem authorize_code_spec state env headers pairs db r db' :
  authorizations_keyed db ->
  run (authorize_with_pairs state env headers pairs) db = (r, db') ->
  (t_authorization_codes db' <> t_authorization_codes db ->
   exists client request validated session db1,
     may_issue db state env headers pairs client request validated session
     /\ permission_used state env session client request validated db db1
     /\ r = Ok (oauth_redirect_response (code_redirect_target state env validated))
     /\ db' = with_code (authorization_code_row env session client validated) db1)
  /\ (forall client request validated session,
       may_issue db state env headers pairs client request validated session ->
       code_acceptable db (authorization_code_row env session client validated) ->
       exists db1, permission_used state env session client request validated db db1
         /\ r = Ok (oauth_redirect_response (code_redirect_target state env validated))
         /\ db' = with_code (authorization_code_row env session client validated) db1).
Proof.
  intros Hkeyed H. split.
  - intros Hne.
    destruct (authorize_with_pairs_codes _ _ _ _ _ _ _ H Hne)
      as (client & request & v & Hr & Hd & Hc & Hu & Ha & Hv & Hrun).
    destruct (session_reads_codes _ _ _ _ _ _ _ _ _ Hrun Hne)
      as (session & Hs & Ho & Hl & Hm & Hacr & Hrun').
    exists client, request, v, session.
    destruct (authorize_consented_run state env session client request v db Hkeyed)
      as [(Hcons & db1 & Hp & Heq)|(_ & reply & db1 & Heq & Hcodes)].
    + rewrite Heq in Hrun'. apply permission_used_codes in Hp as Hcodes. destruct Hcodes as [Hcodes _].
      simpl in Hrun'.
      destruct (insert_authorization_code _ db1) as [ri dbi] eqn:Ei.
      apply insert_code_codes in Ei as [[-> ->]|[[e ->] ->]]; simpl in Hrun'; simplify_eq.
      exists db1. by split.
    + rewrite Heq in Hrun'. by simplify_eq.
  - intros client request v session Hmay Hacc. rewrite (may_issue_run _ _ _ _ _ _ _ _ _ Hmay) in H.
    destruct (authorize_consented_run state env session client request v db Hkeyed)
      as [(Hcons & db1 & Hp & Heq)|(Hn & _)]; [|by destruct Hn; apply Hmay].
    exists db1. rewrite Heq in H. apply permission_used_codes in Hp as Hpc. destruct Hpc as [_ Hpc].
    apply Hpc, insert_code_run in Hacc. simpl in H. rewrite Hacc in H. by simplify_eq/=.
Qed.
End issuing.

(** *** Consent and authorization together *)

Section consent_flow.
Context {CC : CryptoCrates} {SJ : SerdeJson} {AG : AesGcm} {HC : HttpCrates} {UU : UuidCrate}.
Context {TC : TokenCrates} {UC : UrlCrate} {UP : UrlParts}.

Lemma same_scope_set_subset left right : same_scope_set left right = true -> left ⊆ right.
Proof. unfold same_scope_set. intros [_ H]%andb_true_iff. by apply scopes_covered_iff. Qed.

(** What passes the check of the URL to return to. *)
Lemma validate_return_to_Ok issuer return_to client scopes hash :
  validate_consent_return_to issuer return_to client scopes = Ok hash ->
  exists u pairs request validated,
    Url_parse return_to = Some u
    /\ authorization_query_pairs (url_query u) = Ok pairs
    /\ duplicate_authorization_request_parameter pairs = None
    /\ authorization_request_from_query_pairs pairs = (request, None)
    /\ validate request client = Ok validated
    /\ val_prompt validated <> Prompt_None /\ requires_consent (val_prompt validated) = false
    /\ val_scopes validated ⊆ scopes
    /\ hash = authorization_request_hash issuer request.
Proof.
  unfold validate_consent_return_to. intros H.
  apply result_bind_Ok in H as (u & Hu & H). apply ok_or_Ok in Hu.
  apply result_bind_Ok in H as (i & _ & H). case_match; [done|].
  apply result_bind_Ok in H as (pairs & Hp & H).
  destruct (duplicate_authorization_request_parameter pairs) eqn:Ed; [done|].
  cbn [is_some is_none negb] in H.
  destruct (authorization_request_from_query_pairs pairs) as [request e] eqn:Er.
  destruct e as [e|]; [done|]. cbn [is_some is_none negb] in H.
  apply result_bind_Ok in H as (v & Hv & H). apply map_err_Ok in Hv.
  destruct (prompt_is_none (val_prompt v) || _) eqn:Ep; [done|]. bool_prop.
  destruct (same_scope_set _ scopes) eqn:Es; [|done]. cbn [negb] in H. injection H as <-.
  exists u, pairs, request, v. split_and!; try done; [by apply not_none|by apply same_scope_set_subset].
Qed.

(** What giving a consent stores. *)
Definition with_consent (grant : ConsentGrant) (authorization : ConsentAuthorization)
    (event : AuditEvent) (db : Database) : Database :=
  on_audit_events (<[audit_id event := event]>)
    (on_consent_authorizations (<[consent_id authorization := authorization]>)
      (on_consent_grants (<[grant_id grant := grant]>) db)).
Lemma create_consent_Ok state env headers payload db grant db1 :
  run (create_consent state env headers payload) db = (Ok grant, db1) ->
  exists session client hash event,
    carries_session db state (consent_session_now env) headers session
    /\ require_csrf headers = Ok tt
    /\ find_row (fun c => bool_decide (client_client_id c = create_client_id payload))
         (t_oidc_clients db) = Some client
    /\ client_organization_id client = session_organization_id session
    /\ client_status client = ClientStatus_Active
    /\ consent_scopes_allowed (create_scopes payload) client = true
    /\ validate_consent_return_to (config_issuer state) (create_return_to payload) client
         (create_scopes payload) = Ok hash
    /\ grant = new_consent_grant env session client payload
    /\ db1 = with_consent grant (new_consent_authorization env session client payload hash)
               event db.
Proof.
  unfold create_consent. intros H. rewrite run_handler_Ok in H.
  destruct H as (session & dbs & [-> Hs]%require_session_Ok & H).
  apply lift_then_Ok in H as ([] & Hcsrf & H).
  apply fetch_then_Ok in H as (client & Hc & H). apply lift_then_Ok in H as (u & Ho & H).
  apply reject_then_Ok in H as [Ha H]. apply reject_then_Ok in H as [Hsc H].
  apply lift_then_Ok in H as (hash & Hhash & H).
  apply query_then_Ok in H as (u1 & d1 & H1 & H). apply query_then_Ok in H as (u2 & d2 & H2 & H).
  apply query_then_Ok in H as (u3 & d3 & H3 & H). run_steps.
  unfold create_consent_grant, create_consent_authorization, insert_audit_event in *. db_steps.
  eexists session, client, hash, _. split_and!; try done.
  - unfold require_client_in_session_organization in Ho.
    destruct (N.eqb_spec (client_organization_id client) (session_organization_id session)); done.
  - by apply negb_false_iff, bool_decide_eq_true in Ha.
  - by apply negb_false_iff in Hsc.
Qed.

(** C24. Consent leads to a code.  When the consent page has recorded the user's
    consent for an authorization request of the consented client, the request
    the browser is sent back to, made with the same cookie within five minutes,
    is answered with an authorization code for exactly the consented client and
    the scopes of the request, even under a policy that asks every time, and the
    user is not asked for consent again.  This holds for a request that does not
    ask for a new login (no prompt login), whose max_age the session has not
    exceeded by then and whose acr values, if any, the session satisfies, and
    for a code that was drawn fresh. *)
Theorem consent_leads_to_code state cenv env headers payload db grant db1 u pairs request validated
    client session :
  authorizations_keyed db ->
  run (create_consent state cenv headers payload) db = (Ok grant, db1) ->
  Url_parse (create_return_to payload) = Some u ->
  authorization_query_pairs (url_query u) = Ok pairs ->
  (authorization_request_from_query_pairs pairs).1 = request ->
  find_row (fun c => bool_decide (client_client_id c = create_client_id payload))
    (t_oidc_clients db) = Some client ->
  req_client_id request = create_client_id payload ->
  validate request client = Ok validated ->
  requires_login (val_prompt validated) = false ->
  carries_session db state (auth_session_now env) headers session ->
  session_exceeds_max_age session (val_max_age validated) (auth_now env) = false ->
  session_satisfies_requested_acr (session_acr session) (val_acr_values validated) = true ->
  (auth_now env < consent_now cenv + duration_minutes 5)%Z ->
  code_acceptable db (authorization_code_row env session client validated) ->
  exists db2,
    run (authorize state env false headers (url_query u) None) db1
      = (Ok (oauth_redirect_response (code_redirect_target state env validated)), db2)
    /\ grant_client_id grant = client_uuid client
    /\ t_authorization_codes db2
       = <[hash_token (auth_code_value env)
           := authorization_code_row env session client validated]> (t_authorization_codes db).
Proof.
  intros Hkeyed Hcreate Hu Hpairs Hreq Hclient Hid Hv Hlogin Hsess Hage Hacr Hnow Hcode.
  apply create_consent_Ok in Hcreate as (s & c & hash & event & Hs & _ & Hc & Ho & Ha & _ & Hret & -> & ->).
  rewrite Hclient in Hc. injection Hc as <-.
  assert (s = session) as ->.
  { destruct Hs as (r1 & i1 & E1 & E2 & E3 & _), Hsess as (r2 & i2 & F1 & F2 & F3 & _). congruence. }
  apply validate_return_to_Ok in Hret
    as (u' & pairs' & request' & v' & Hu' & Hpairs' & Hdup & Hreq' & Hv' & Hpn & Hpc & Hscopes & ->).
  rewrite Hu in Hu'. injection Hu' as <-. rewrite Hpairs in Hpairs'. injection Hpairs' as <-.
  rewrite Hreq' in Hreq. cbn [fst] in Hreq. subst request'.
  rewrite Hv in Hv'. injection Hv' as <-.
  set (grant := new_consent_grant cenv session client payload).
  set (auth := new_consent_authorization cenv session client payload
                 (authorization_request_hash (config_issuer state) request)).
  set (db1 := with_consent grant auth event db).
  assert (Hmay : may_issue db1 state env headers pairs client request validated session).
  { constructor; try done.
    - by rewrite Hid.
    - apply (acc_redirect_uri _ _ (proj1 (validate_ok _ _ _ Hv))).
    - split_and!; [|done|].
      + exists (grant_id grant), grant. cbn. rewrite lookup_insert_eq. done.
      + intros _. split; [done|]. exists (consent_id auth), auth. split.
        * cbn. by rewrite lookup_insert_eq.
        * split; [|done]. apply authorization_pending_true. cbn. done. }
  assert (Hkeyed1 : authorizations_keyed db1).
  { intros k a. cbn. rewrite lookup_insert_Some. intros [[<- <-]|[_ Hk]]; [done|by apply Hkeyed]. }
  destruct (authorize_consented_run state env session client request validated db1 Hkeyed1)
    as [(_ & db2 & Hp & Heq)|(Hn & _)]; [|by destruct Hn; apply Hmay].
  apply permission_used_codes in Hp as [Hcodes Hacc].
  assert (code_acceptable db1 (authorization_code_row env session client validated)) as Hcode1 by done.
  apply Hacc, insert_code_run in Hcode1.
  exists (with_code (authorization_code_row env session client validated) db2). split_and!; [|done|].
  - unfold authorize. rewrite Hpairs, lift_Ok_bind, (may_issue_run _ _ _ _ _ _ _ _ _ Hmay), Heq.
    simpl. by rewrite Hcode1.
  - cbn. by rewrite Hcodes.
Qed.
End consent_flow.
