(* ===== verification/Login.v ===== *)
(** * Login, reauthentication and the first user

    [apps/api/src/http]'s auth_routes: the login and reauthentication
    handlers with their rate limits and second factors, the change of one's
    password, and the bootstrap of the first administrator. *)

From S2P Require Import Prelude RustStr Domain Authn Oidc Http Codec Store.
From S2P Require Import MfaStore.
From S2P Require Import SessionStore Directory Lifecycle AccountStore AuditStore Handler KeyStore.
From S2P Require Import RateLimit OAuthPolicy RequestContext BrowserSession Mfa.

(** ** Requests *)

(** [Argon2::hash_password] with the salt as an argument. *)
Class Argon2Hash := { argon2_hash : string -> string -> option string }.
(* crates/authn/src/password.rs:9-15 hash_password *)
Definition hash_password `{Argon2Hash} (salt password : string) : result AuthnError string :=
  ok_or (argon2_hash salt password) PasswordHash_.

Section requests.
Context {UC : UrlCrate} {WA : WebAuthnCrate}.

(* apps/api/src/http/auth_routes/requests.rs:15-28 LoginRequest *)
Record LoginRequest := mk_LoginRequest {
  login_email : string;
  login_password : string;
  login_totp_code : option string;
  login_recovery_code : option string;
  login_mfa_code : option string;
  login_webauthn_challenge_id : option Uuid;
  login_webauthn_credential : option PublicKeyCredential;
}.
(* apps/api/src/http/auth_routes/requests.rs:41-53 ReauthenticateRequest *)
Record ReauthenticateRequest := mk_ReauthenticateRequest {
  reauth_password : string;
  reauth_totp_code : option string;
  reauth_recovery_code : option string;
  reauth_mfa_code : option string;
  reauth_webauthn_challenge_id : option Uuid;
  reauth_webauthn_credential : option PublicKeyCredential;
}.
(** [a.or(b).or(c).filter(|code| !code.trim().is_empty())] *)
Definition submitted_code (mfa_code totp_code recovery_code : option string) : option string :=
  match (match mfa_code with
         | Some c => Some c
         | None => match totp_code with Some c => Some c | None => recovery_code end
         end) with
  | Some code => if is_empty (trim code) then None else Some code
  | None => None
  end.
(* apps/api/src/http/auth_routes/requests.rs:31-37 LoginRequest::mfa_code *)
Definition login_submitted_code (payload : LoginRequest) : option string :=
  submitted_code (login_mfa_code payload) (login_totp_code payload) (login_recovery_code payload).
(* apps/api/src/http/auth_routes/requests.rs:56-62 ReauthenticateRequest::mfa_code *)
Definition reauth_submitted_code (payload : ReauthenticateRequest) : option string :=
  submitted_code (reauth_mfa_code payload) (reauth_totp_code payload) (reauth_recovery_code payload).
(* apps/api/src/http/auth_routes/requests.rs:66-69 ChangePasswordRequest *)
Record ChangePasswordRequest := mk_ChangePasswordRequest {
  current_password : string;
  new_password : string;
}.
(* apps/api/src/http/auth_routes/login/mfa.rs:19-23 SubmittedMfa *)
Record SubmittedMfa := mk_SubmittedMfa {
  submitted_code_ : option string;
  submitted_challenge_id : option Uuid;
  submitted_credential : option PublicKeyCredential;
}.
End requests.

(* apps/api/src/http/auth_routes/login/mfa.rs:25-30 MfaFailurePolicy *)
Record MfaFailurePolicy := mk_MfaFailurePolicy {
  policy_rate_limit_keys : list RateLimitKey;
  policy_window : Z;
  policy_max_attempts : Z;
  policy_block_for : Z;
}.
(* apps/api/src/http/auth_routes/login/mfa.rs:32-35 MfaVerification *)
Inductive MfaVerification :=
| Mfa_Verified (method : option MfaVerificationMethod)
| Mfa_Required (response : Value).

(** What the verification of a second factor draws: the clock of the code
    checks, the instant of the assertion, the challenge it may start, and the
    instant a failure is recorded. *)
Record MfaEnv := mk_MfaEnv {
  mfa_clock : nat -> OffsetDateTime;
  mfa_now : OffsetDateTime;
  mfa_challenge : ChallengeEnv;
  mfa_failure_now : OffsetDateTime;
}.

Section mfa.
Context {CC : CryptoCrates} {TC : TokenCrates} {AG : AesGcm} {TR : TotpCrate} {BD : Base64Decode}.
Context {UC : UrlCrate} {WA : WebAuthnCrate}.

(* apps/api/src/http/auth_routes/login/mfa.rs:97-109 record_mfa_rate_limit_failure *)
Definition record_mfa_rate_limit_failure (now : OffsetDateTime) (policy : MfaFailurePolicy)
    : Handler unit :=
  record_rate_limit_failures now (policy_rate_limit_keys policy) (policy_window policy)
    (policy_max_attempts policy) (policy_block_for policy).
Definition invalid_mfa_credential : ApiError := api_status 401 "invalid MFA credential".
(** [match h.await { Ok(a) => f(a), Err(e) => g(e) }] *)
Definition handle_result {A B} (h : Handler A) (f : A -> Handler B) (g : ApiError -> Handler B)
    : Handler B := prog_bind h (fun r => match r with Ok a => f a | Err e => g e end).

(* apps/api/src/http/auth_routes/login/mfa.rs:37-95 verify_submitted_mfa *)
Definition verify_submitted_mfa (state : AppState) (env : MfaEnv) (organization_id user_id : Uuid)
    (submitted : SubmittedMfa) (failure_policy : MfaFailurePolicy) : Handler MfaVerification :=
  do! active_mfa := active_mfa_credentials_for_user organization_id user_id in
  if negb (requires_mfa active_mfa) then succeed (Mfa_Verified None)
  else
  let finish (mfa_method : option MfaVerificationMethod) : Handler MfaVerification :=
    match mfa_method with
    | None =>
        do! _ := record_mfa_rate_limit_failure (mfa_failure_now env) failure_policy in
        fail invalid_mfa_credential
    | Some method => succeed (Mfa_Verified (Some method))
    end in
  match submitted_challenge_id submitted, submitted_credential submitted with
  | Some challenge_id, Some assertion =>
      handle_result
        (verify_webauthn_assertion state (mfa_now env) organization_id user_id
           (active_webauthn active_mfa) challenge_id assertion)
        (fun method => finish (Some method))
        (fun error =>
           do! _ := record_mfa_rate_limit_failure (mfa_failure_now env) failure_policy in
           fail error)
  | _, _ =>
      match submitted_code_ submitted with
      | None =>
          do! response := mfa_required_response state (mfa_challenge env) organization_id user_id
                            active_mfa in
          succeed (Mfa_Required response)
      | Some code =>
          do! mfa_method := verify_mfa_code_against_credentials state (mfa_clock env)
                              (active_totp active_mfa) (active_recovery_codes active_mfa) code in
          finish mfa_method
      end
  end.
End mfa.

(** ** Login *)

(** The cookie a successful login sets. *)
(* apps/api/src/http/cookies.rs:76-90 set_session_cookie *)
Definition session_cookie_value `{TokenCrates, AesGcm} (state : AppState) (session_id : Uuid)
    : string :=
  SESSION_COOKIE +:+ "=" +:+ uuid_to_string session_id
  +:+ "; Path=/; HttpOnly; SameSite=Lax; Max-Age=43200"
  +:+ (if secure_cookies state then "; Secure" else "").
(** A reply to a login: the user with the cookie of the new session, or the
    demand for a second factor. *)
Inductive LoginReply :=
| Login_MfaRequired (response : Value)
| Login_Session (user : User) (cookie : string).

(** What one login draws. *)
Record LoginEnv := mk_LoginEnv {
  login_enforce_now : OffsetDateTime;
  login_failure_now : OffsetDateTime;
  login_verified_now : OffsetDateTime;
  login_mfa : MfaEnv;
  login_now : OffsetDateTime;
  login_session_id : Uuid;
  login_message_id : Uuid;
  login_event_id : Uuid;
  login_event_now : OffsetDateTime;
}.

Section login.
Context {CC : CryptoCrates} {TC : TokenCrates} {AG : AesGcm} {TR : TotpCrate} {BD : Base64Decode}.
Context {UC : UrlCrate} {WA : WebAuthnCrate} {HC : HttpCrates} {TF : TimeFormat}.

Definition invalid_credentials : ApiError := api_status 401 "invalid credentials".
Definition user_not_active : ApiError := api_status 403 "user is not active".
(** [record_rate_limit_failure(..).await?; return Err(error)] of a login. *)
Definition failed_login {A} (now : OffsetDateTime) (keys : list RateLimitKey) (error : ApiError)
    : Handler A :=
  do! _ := record_rate_limit_failures now keys LOGIN_RATE_LIMIT_WINDOW
             LOGIN_RATE_LIMIT_MAX_ATTEMPTS LOGIN_RATE_LIMIT_BLOCK in
  fail error.

(** From the check of the email and password. *)
(* apps/api/src/http/auth_routes/login.rs:49-113 login *)
Definition login_user (state : AppState) (env : LoginEnv) (keys : list RateLimitKey)
    (email password : string) : Handler UserWithPassword :=
  let rejected {A} := failed_login (A := A) (login_failure_now env) keys in
  do! user_with_password := query (find_user_by_email (state_organization_id state) email) in
  match user_with_password with
  | None => rejected invalid_credentials
  | Some user_with_password =>
  match uwp_password_hash user_with_password with
  | None => rejected invalid_credentials
  | Some password_hash =>
  if negb (bool_decide (user_status (uwp_user user_with_password) = UserStatus_Active))
  then rejected user_not_active
  else
  match verify_password password password_hash with
  | Err _ => rejected invalid_credentials
  | Ok _ => succeed user_with_password
  end end end.

(** [iter().next()] of keys that are never empty. *)
Definition first_key (keys : list RateLimitKey) : string :=
  match keys with key :: _ => limit_key key | [] => "" end.

(** From the verified factors to the reply. *)
(* apps/api/src/http/auth_routes/login.rs:141-202 login *)
Definition open_session (state : AppState) (env : LoginEnv) (identity : RequestIdentity)
    (headers : HeaderMap) (keys : list RateLimitKey) (user : User)
    (mfa_method : option MfaVerificationMethod) : Handler LoginReply :=
  let now := login_now env in
  let session := authenticated_session (login_session_id env) (user_organization_id user)
                   (user_id user) mfa_method now in
  let '(ip_address, user_agent) := audit_request_context_for_identity identity headers in
  let context := mk_SessionRequestContext ip_address user_agent in
  let new_context_notification :=
    if has_identifying_context context
    then Some (new_login_notification_email state (login_message_id env) user session ip_address
                 user_agent now)
    else None in
  do! message := query (create_auth_session_with_new_context_notification
                   (mk_AuthSessionCreationInput session context new_context_notification)) in
  do! _ := query (set_user_last_login (session_user_id session) now) in
  do! _ := query (clear_rate_limit_bucket (first_key keys)) in
  do! _ := query (insert_audit_event
    (audit_build (login_event_id env) (login_event_now env)
      (audit_with_metadata
        (Object [("acr", String_ (session_acr session));
                 ("amr", Array (String_ <$> session_amr session));
                 ("new_context_notification_email_outbox_id",
                   opt_string (uuid_to_string <$> message))])
        (audit_request_context ip_address user_agent
          (audit_user (session_organization_id session) (session_user_id session)
             "session.logged_in" (uuid_to_string (session_id session))))))) in
  succeed (Login_Session user (session_cookie_value state (session_id session))).

(* apps/api/src/http/auth_routes/login.rs:35-203 login *)
Definition login (state : AppState) (env : LoginEnv) (identity : RequestIdentity)
    (headers : HeaderMap) (payload : LoginRequest) : Handler LoginReply :=
  do! _ := lift (require_csrf headers) in
  do! email := lift (map_err api_domain_error (normalize_email (login_email payload))) in
  let pre_credential_keys :=
    login_pre_credential_rate_limit_keys (state_organization_id state) identity in
  do! _ := enforce_rate_limit (login_enforce_now env) pre_credential_keys in
  do! user_with_password :=
    login_user state env pre_credential_keys email (login_password payload) in
  let user := uwp_user user_with_password in
  let keys := login_verified_user_rate_limit_keys (state_organization_id state) (user_id user)
                identity in
  do! _ := enforce_rate_limit (login_verified_now env) keys in
  do! mfa := verify_submitted_mfa state (login_mfa env) (user_organization_id user) (user_id user)
               (mk_SubmittedMfa (login_submitted_code payload) (login_webauthn_challenge_id payload)
                  (login_webauthn_credential payload))
               (mk_MfaFailurePolicy keys LOGIN_RATE_LIMIT_WINDOW LOGIN_RATE_LIMIT_MAX_ATTEMPTS
                  LOGIN_RATE_LIMIT_BLOCK) in
  match mfa with
  | Mfa_Required response => succeed (Login_MfaRequired response)
  | Mfa_Verified method => open_session state env identity headers keys user method
  end.
End login.

(** ** Reauthentication *)

Definition password_unavailable : ApiError := api_status 403 "password authentication unavailable".
Definition user_missing : ApiError := api_status 401 "user missing".

Section account.
Context {CC : CryptoCrates} {TC : TokenCrates} {AG : AesGcm} {TR : TotpCrate} {BD : Base64Decode}.
Context {UC : UrlCrate} {WA : WebAuthnCrate} {HC : HttpCrates} {TF : TimeFormat} {UU : UuidCrate}.
Context {AH : Argon2Hash}.

(** The checks the account pages make of the user behind a session. *)
(* apps/api/src/http/auth_routes/login/reauthenticate.rs:49-84 reauthenticate *)
Definition reauthenticated_user (now : OffsetDateTime) (keys : list RateLimitKey)
    (session : AuthSession) (password : string) : Handler (UserWithPassword * string) :=
  do! user := query (get_user_with_password (session_organization_id session)
                       (session_user_id session)) in
  do! user := some_or user user_missing in
  do! password_hash := some_or (uwp_password_hash user) password_unavailable in
  do! _ := reject_if (negb (bool_decide (user_status (uwp_user user) = UserStatus_Active)))
             user_not_active in
  match verify_password password password_hash with
  | Err _ =>
      do! _ := record_rate_limit_failures now keys REAUTHENTICATION_RATE_LIMIT_WINDOW
                 REAUTHENTICATION_RATE_LIMIT_MAX_ATTEMPTS REAUTHENTICATION_RATE_LIMIT_BLOCK in
      fail invalid_credentials
  | Ok _ => succeed (user, password_hash)
  end.

(** A reply to a reauthentication: the authentication context and the cookie
    of the new session, or the demand for a second factor. *)
Inductive ReauthenticateReply :=
| Reauth_MfaRequired (response : Value)
| Reauth_Session (acr : string) (amr : list string) (cookie : string).

(** [login_message_id] is not used. *)
(* apps/api/src/http/auth_routes/login/reauthenticate.rs:30-155 reauthenticate *)
Definition reauthenticate (state : AppState) (session_now : OffsetDateTime) (env : LoginEnv)
    (identity : RequestIdentity) (headers : HeaderMap) (payload : ReauthenticateRequest)
    : Handler ReauthenticateReply :=
  do! current_session := require_session state session_now headers in
  do! _ := lift (require_csrf headers) in
  let organization_id := session_organization_id current_session in
  let user_id := session_user_id current_session in
  let keys := reauthentication_rate_limit_keys_for_identity organization_id user_id identity in
  do! _ := enforce_rate_limit (login_enforce_now env) keys in
  do! _ := reauthenticated_user (login_failure_now env) keys current_session
             (reauth_password payload) in
  do! mfa := verify_submitted_mfa state (login_mfa env) organization_id user_id
               (mk_SubmittedMfa (reauth_submitted_code payload)
                  (reauth_webauthn_challenge_id payload) (reauth_webauthn_credential payload))
               (mk_MfaFailurePolicy keys REAUTHENTICATION_RATE_LIMIT_WINDOW
                  REAUTHENTICATION_RATE_LIMIT_MAX_ATTEMPTS REAUTHENTICATION_RATE_LIMIT_BLOCK) in
  match mfa with
  | Mfa_Required response => succeed (Reauth_MfaRequired response)
  | Mfa_Verified method =>
      let now := login_now env in
      let new_session :=
        authenticated_session (login_session_id env) organization_id user_id method now in
      let '(ip_address, user_agent) := audit_request_context_for_identity identity headers in
      do! _ := query (rotate_auth_session_with_context (session_id current_session) new_session now
                        (mk_SessionRequestContext ip_address user_agent)) in
      do! _ := query (set_user_last_login (session_user_id new_session) now) in
      do! _ := query (clear_rate_limit_bucket (first_key keys)) in
      do! _ := query (insert_audit_event
        (audit_build (login_event_id env) (login_event_now env)
          (audit_with_metadata
            (Object [("previous_session_id", String_ (uuid_to_string (session_id current_session)));
                     ("acr", String_ (session_acr new_session));
                     ("amr", Array (String_ <$> session_amr new_session))])
            (audit_request_context ip_address user_agent
              (audit_user (session_organization_id new_session) (session_user_id new_session)
                 "session.reauthenticated" (uuid_to_string (session_id new_session))))))) in
      succeed (Reauth_Session (session_acr new_session) (session_amr new_session)
                 (session_cookie_value state (session_id new_session)))
  end.

(** ** Change of the password *)

(** The session that replaces the current one: its authentication context is
    kept when the user has a second factor. *)
(* apps/api/src/http/auth_routes/password.rs:114-123 change_password *)
Definition session_after_password_change (id : Uuid) (has_second_factor : bool)
    (session : AuthSession) (now : OffsetDateTime) : AuthSession :=
  if has_second_factor then rotated_session_preserving_auth_context id session now
  else authenticated_session id (session_organization_id session) (session_user_id session) None now.

(** The reply's body is the mutation. *)
(* apps/api/src/http/auth_routes/password.rs:34-190 change_password *)
Definition change_password (state : AppState) (session_now : OffsetDateTime) (salt : string)
    (env : LoginEnv) (identity : RequestIdentity) (headers : HeaderMap)
    (payload : ChangePasswordRequest) : Handler (PasswordChangeMutation * string) :=
  do! current_session := require_session state session_now headers in
  do! _ := lift (require_csrf headers) in
  let organization_id := session_organization_id current_session in
  let user_id := session_user_id current_session in
  let keys := reauthentication_rate_limit_keys_for_identity organization_id user_id identity in
  do! _ := enforce_rate_limit (login_enforce_now env) keys in
  do! verified := reauthenticated_user (login_failure_now env) keys current_session
                    (current_password payload) in
  let '(user_with_password, current_password_hash) := verified in
  let now := login_now env in
  do! count := active_second_factor_count organization_id user_id in
  let has_active_second_factor := (0 <? count)%nat in
  do! _ := lift (if has_active_second_factor then require_recent_mfa_proof current_session now
                 else Ok tt) in
  do! new_password := lift (valid_new_password (new_password payload)) in
  do! _ := reject_if (is_ok (verify_password new_password current_password_hash))
             (api_bad_request "new password must differ from current password") in
  do! new_password_hash := lift (map_err (fun _ => api_authn_error) (hash_password salt new_password)) in
  let new_session :=
    session_after_password_change (login_session_id env) has_active_second_factor current_session
      now in
  let '(ip_address, user_agent) := audit_request_context_for_identity identity headers in
  let notification :=
    password_change_notification_email state (login_message_id env) (uwp_user user_with_password)
      new_session ip_address user_agent now in
  do! mutation := query (change_user_password_and_rotate_session
    (mk_PasswordChangeInput organization_id user_id new_password_hash new_session
       (mk_SessionRequestContext ip_address user_agent) (Some notification) now)) in
  do! mutation := some_or mutation user_missing in
  do! _ := query (clear_rate_limit_bucket (first_key keys)) in
  let session := change_session mutation in
  let count (n : nat) := Number (Z.of_nat n) in
  do! _ := query (insert_audit_event
    (audit_build (login_event_id env) (login_event_now env)
      (audit_with_metadata
        (Object [("previous_session_id", String_ (uuid_to_string (session_id current_session)));
                 ("new_session_id", String_ (uuid_to_string (session_id session)));
                 ("sessions_revoked", count (change_sessions_revoked mutation));
                 ("access_tokens_revoked", count (change_access_tokens_revoked mutation));
                 ("refresh_tokens_revoked", count (change_refresh_tokens_revoked mutation));
                 ("account_tokens_consumed", count (change_account_tokens_consumed mutation));
                 ("notification_email_outbox_id",
                   opt_string (uuid_to_string <$> change_notification_email_outbox_id mutation))])
        (audit_request_context ip_address user_agent
          (audit_user (session_organization_id session) (session_user_id session)
             "account.password_changed" (uuid_to_string (session_user_id session))))))) in
  succeed (mutation, session_cookie_value state (session_id session)).

(** ** The first administrator *)

(* apps/api/src/http/auth_routes/requests.rs:6-12 BootstrapRequest *)
Record BootstrapRequest := mk_BootstrapRequest {
  bootstrap_email : string;
  bootstrap_display_name : string;
  bootstrap_password : string;
  bootstrap_setup_secret : option string;
}.
(* apps/api/src/http/auth_routes/bootstrap.rs:110-125 valid_bootstrap_setup_secret *)
Definition valid_bootstrap_setup_secret (expected_hash submitted_secret : option string) : bool :=
  match expected_hash with
  | None => true
  | Some expected_hash =>
      match trim <$> submitted_secret with
      | Some secret => if is_empty secret then false else verify_token_hash secret expected_hash
      | None => false
      end
  end.
Definition bootstrap_failure (now : OffsetDateTime) (keys : list RateLimitKey) : Handler unit :=
  record_rate_limit_failures now keys BOOTSTRAP_RATE_LIMIT_WINDOW
    BOOTSTRAP_RATE_LIMIT_MAX_ATTEMPTS BOOTSTRAP_RATE_LIMIT_BLOCK.
(** [login_session_id] is the new group's id, [login_message_id] the user's
    and [login_verified_now] the instant the user is created. *)
(* apps/api/src/http/auth_routes/bootstrap.rs:27-108 bootstrap *)
Definition bootstrap (state : AppState) (salt : string) (env : LoginEnv)
    (identity : RequestIdentity) (headers : HeaderMap) (payload : BootstrapRequest)
    : Handler User :=
  do! _ := lift (require_csrf headers) in
  let keys := bootstrap_rate_limit_keys (state_organization_id state) identity in
  do! _ := enforce_rate_limit (login_enforce_now env) keys in
  if negb (valid_bootstrap_setup_secret (config_bootstrap_setup_secret_hash state)
             (bootstrap_setup_secret payload))
  then
    do! _ := bootstrap_failure (login_failure_now env) keys in
    fail (api_status 401 "invalid setup secret")
  else
  do! user := lift (map_err api_domain_error
                      (User_new (login_message_id env) (login_verified_now env)
                         (state_organization_id state) (bootstrap_email payload)
                         (bootstrap_display_name payload))) in
  let user := mk_User (user_id user) (user_organization_id user) (user_email user)
                (user_scim_external_id user) true (user_display_name user) (user_status user)
                (user_created_at user) (user_updated_at user) (user_last_login_at user) in
  do! password := lift (valid_new_password (bootstrap_password payload)) in
  do! hash := lift (map_err (fun _ => api_authn_error) (hash_password salt password)) in
  let now := login_now env in
  let admin_group := bootstrap_admin_group (login_session_id env) (state_organization_id state) now in
  let admin_membership :=
    mk_Membership (state_organization_id state) (user_id user) (group_id admin_group)
      MembershipRole_Owner now in
  handle_result (query (create_bootstrap_admin user hash admin_group admin_membership))
    (fun created =>
       do! _ := reject_if (negb created) (api_status 409 "bootstrap is already complete") in
       do! _ := query (insert_audit_event
         (audit_build (login_event_id env) (login_event_now env)
           (audit_with_metadata
             (Object [("admin_group_id", String_ (uuid_to_string (group_id admin_group)))])
             (audit_system (state_organization_id state) "bootstrap.user_created"
                (uuid_to_string (user_id user)))))) in
       succeed user)
    (fun error =>
       do! _ := bootstrap_failure (login_failure_now env) keys in
       fail error).
End account.

(** ** Properties *)

(** *** The second factor *)

Section factor_properties.
Context {CC : CryptoCrates} {TC : TokenCrates} {AG : AesGcm} {TR : TotpCrate} {BD : Base64Decode}.
Context {UC : UrlCrate} {WA : WebAuthnCrate}.

(** A second factor of the user that the request has shown, with what showing
    it changes: a TOTP credential is marked used, a recovery code is consumed,
    a challenge is consumed and the passkey updated. *)
Inductive factor_shown (state : AppState) (env : MfaEnv) (o u : Uuid) (submitted : SubmittedMfa)
    (db : Database) : MfaVerificationMethod -> Database -> Prop :=
| shown_totp code c n :
    submitted_code_ submitted = Some code ->
    active_factor db o u MfaKind_Totp c ->
    verify_totp_code state c (mfa_clock env n) code = Ok true ->
    factor_shown state env o u submitted db Method_Totp
      (with_mfa (mfa_id c) (mfa_set_last_used (mfa_clock env (S n))) db)
| shown_recovery_code code k c at_ :
    submitted_code_ submitted = Some code ->
    t_mfa_credentials db !! k = Some c -> recovery_code_live o u (hash_token code) c ->
    factor_shown state env o u submitted db Method_RecoveryCode
      (on_mfa_credentials (update_where (active_recovery_code o u (hash_token code))
                             (mfa_close "consumed" at_)) db)
| shown_passkey challenge_id assertion c db' :
    submitted_challenge_id submitted = Some challenge_id ->
    submitted_credential submitted = Some assertion ->
    active_factor db o u MfaKind_WebAuthn c ->
    assertion_verified state db (mfa_now env) o u challenge_id assertion c db' ->
    factor_shown state env o u submitted db Method_WebAuthn db'.

Lemma run_handle_result {A B} (h : Handler A) (f : A -> Handler B) g db :
  run (handle_result h f g) db
  = match run h db with
    | (Ok a, db') => run (f a) db'
    | (Err e, db') => run (g e) db'
    end.
Proof. unfold handle_result. rewrite run_bind. by destruct (run h db) as [[a|e] db']. Qed.

Lemma verify_code_Ok state env o u submitted code a db m db' :
  submitted_code_ submitted = Some code ->
  (forall c, c ∈ active_totp a <-> active_factor db o u MfaKind_Totp c) ->
  (forall c, c ∈ active_recovery_codes a <-> active_factor db o u MfaKind_RecoveryCode c) ->
  run (verify_mfa_code_against_credentials state (mfa_clock env) (active_totp a)
         (active_recovery_codes a) code) db = (Ok (Some m), db') ->
  factor_shown state env o u submitted db m db'.
Proof.
  intros Hcode Ht Hr H. unfold verify_mfa_code_against_credentials in H.
  apply run_handler_Ok in H as ([] & d & Hv & H).
  - simpl in H. injection H as <- <-. apply verify_totp_credentials_Ok in Hv as (c & n & Hc & Hv & ->).
    apply Ht in Hc. by eapply shown_totp.
  - apply verify_totp_credentials_not in Hv as ->. apply run_handler_Ok in H as (used & d & Hc & H).
    simpl in H. destruct used; [|discriminate H]. injection H as <- <-.
    apply consume_recovery_loop_Ok in Hc as [[? _]|(c & Hin & Hc)]; [done|].
    apply Hr in Hin as ((k & Hk) & Ho & Hu & _). rewrite Ho, Hu in Hc.
    apply consume_recovery_run in Hc as [Hn ->].
    symmetry in Hn. apply Nat.ltb_lt, count_where_pos in Hn as (k' & c' & Hk' & Hl%active_recovery_code_true).
    by eapply shown_recovery_code.
Qed.
Lemma verify_submitted_Ok state env o u submitted policy db m db' :
  run (verify_submitted_mfa state env o u submitted policy) db = (Ok (Mfa_Verified m), db') ->
  (m = None /\ ~ second_factor db o u /\ db' = db)
  \/ exists method, m = Some method /\ second_factor db o u
       /\ factor_shown state env o u submitted db method db'.
Proof.
  unfold verify_submitted_mfa. destruct (active_mfa_run o u db) as (a & Ha & Et & Er & Ew).
  rewrite (run_known _ _ _ _ Ha). pose proof (requires_mfa_iff a db o u Et Ew) as Hreq.
  destruct (requires_mfa a); cbn [negb].
  2:{ intros H. simpl in H. injection H as <- <-. left. split; [done|]. split; [|done].
      intros Hs. by apply Hreq in Hs. }
  intros H. right. specialize (proj1 Hreq eq_refl) as Hs.
  assert (Hcode : match submitted_code_ submitted with
    | None => True
    | Some code => forall db1, run (do! mfa_method := verify_mfa_code_against_credentials state (mfa_clock env)
                              (active_totp a) (active_recovery_codes a) code in
            match mfa_method with
            | Some method => succeed (Mfa_Verified (Some method))
            | None => do! _ := record_mfa_rate_limit_failure (mfa_failure_now env) policy in
                      fail invalid_mfa_credential
            end) db = (Ok (Mfa_Verified m), db1) ->
        exists method, m = Some method /\ factor_shown state env o u submitted db method db1
    end).
  { destruct (submitted_code_ submitted) as [code|] eqn:Ecode; [|done]. intros db1 H1.
    apply run_handler_Ok in H1 as ([method|] & d & Hv & H1).
    - simpl in H1. injection H1 as <- <-. exists method. split; [done|]. by eapply verify_code_Ok.
    - by apply run_handler_Ok in H1 as (? & ? & _ & ?). }
  destruct (submitted_challenge_id submitted) as [challenge_id|] eqn:Ech.
  - destruct (submitted_credential submitted) as [assertion|] eqn:Eas.
    + rewrite run_handle_result in H.
      destruct (run (verify_webauthn_assertion _ _ _ _ _ _ _) db) as [[method|e] d] eqn:Ev.
      * simpl in H. injection H as <- <-. exists method. split; [done|]. split; [done|].
        apply verify_assertion_Ok in Ev as (-> & c & Hc & Hv). apply Ew in Hc.
        by eapply shown_passkey.
      * by apply run_handler_Ok in H as (? & ? & _ & ?).
    + destruct (submitted_code_ submitted); [destruct (Hcode _ H) as (method & ? & ?); eauto|].
      by apply run_handler_Ok in H as (? & ? & _ & ?).
  - destruct (submitted_code_ submitted); [destruct (Hcode _ H) as (method & ? & ?); eauto|].
    by apply run_handler_Ok in H as (? & ? & _ & ?).
Qed.
End factor_properties.

(** *** Login *)

Section login_properties.
Context {CC : CryptoCrates} {TC : TokenCrates} {AG : AesGcm} {TR : TotpCrate} {BD : Base64Decode}.
Context {UC : UrlCrate} {WA : WebAuthnCrate} {HC : HttpCrates} {TF : TimeFormat}.

Definition not_blocked (db : Database) (now : OffsetDateTime) (keys : list RateLimitKey) : Prop :=
  forall key b, key ∈ keys -> t_rate_limit_buckets db !! limit_key key = Some b ->
    is_blocked b now = false.
Lemma enforce_rate_limit_Ok now keys db u db' :
  run (enforce_rate_limit now keys) db = (Ok u, db') <-> db' = db /\ not_blocked db now keys.
Proof.
  unfold not_blocked. destruct u. induction keys as [|key keys IH].
  - simpl. split; [intros [= <-]; split; [done|]; by intros ? ? []%elem_of_nil|by intros [-> _]].
  - cbn [enforce_rate_limit]. unfold handler_bind, query. simpl.
    destruct (t_rate_limit_buckets db !! limit_key key) as [b|] eqn:E; [destruct (is_blocked b now) eqn:Eb|].
    + split; [done|]. intros [_ H]. specialize (H key b ltac:(left) E). congruence.
    + rewrite IH. split; intros [-> H]; (split; [done|]); intros key' b'.
      * intros [->|Hin]%elem_of_cons; [congruence|eauto].
      * intros Hin. apply H. by right.
    + rewrite IH. split; intros [-> H]; (split; [done|]); intros key' b'.
      * intros [->|Hin]%elem_of_cons; [congruence|eauto].
      * intros Hin. apply H. by right.
Qed.

Definition user_by_email (o : Uuid) (email : string) (db : Database) : option UserWithPassword :=
  find_row (fun u => user_in o u && bool_decide (user_email (uwp_user u) = email)) (t_users db).
(** The password opens the account. *)
Definition password_accepted (o : Uuid) (email password : string) (db : Database)
    (u : UserWithPassword) : Prop :=
  user_by_email o email db = Some u /\ user_status (uwp_user u) = UserStatus_Active
  /\ exists hash, uwp_password_hash u = Some hash /\ verify_password password hash = Ok tt.
Lemma failed_login_not_Ok {A} now keys e db (a : A) db' :
  run (failed_login now keys e) db <> (Ok a, db').
Proof. intros H. unfold failed_login in H. by apply run_handler_Ok in H as (? & ? & _ & ?). Qed.
Lemma login_user_Ok state env keys email password db u db' :
  run (login_user state env keys email password) db = (Ok u, db') <->
  db' = db /\ password_accepted (state_organization_id state) email password db u.
Proof.
  unfold login_user, password_accepted.
  rewrite (run_known (query (find_user_by_email _ email)) _ db
             (user_by_email (state_organization_id state) email db)) by done.
  destruct (user_by_email _ email db) as [v|]; [|split; [by intros ?%failed_login_not_Ok|by intros (_ & ? & _)]].
  destruct (uwp_password_hash v) as [hash|] eqn:Eh;
    [|split; [by intros ?%failed_login_not_Ok|by intros (_ & [= <-] & _ & ? & ? & _); congruence]].
  destruct (decide (user_status (uwp_user v) = UserStatus_Active)) as [Ea|Ea];
    [rewrite bool_decide_true by done|rewrite bool_decide_false by done]; cbn [negb];
    [|split; [by intros ?%failed_login_not_Ok|by intros (_ & [= <-] & ? & _)]].
  destruct (verify_password password hash) as [[]|e] eqn:Ev.
  - split; [intros [= <- <-]; split_and!; eauto|by intros (-> & [= <-] & _)].
  - split; [by intros ?%failed_login_not_Ok|]. intros (_ & [= <-] & _ & h & Hh & Hv). congruence.
Qed.

Lemma creation_Ok input db m db' :
  create_auth_session_with_new_context_notification input db = (Ok m, db') ->
  let s := creation_session input in
  let c := creation_request_context input in
  t_auth_sessions db !! session_id s = None
  /\ t_auth_sessions db' = <[session_id s := mk_SessionRow s (context_ip_address c)
                                            (context_user_agent c)]> (t_auth_sessions db)
  /\ t_mfa_credentials db' = t_mfa_credentials db.
Proof.
  unfold create_auth_session_with_new_context_notification. intros H.
  apply transaction_Ok in H as [H|(d & H & _)].
  2:{ repeat (apply db_bind_Ok in H as (? & ? & ? & H)). by apply commit_Ok in H as [? _]. }
  apply db_bind_Ok in H as (known & d1 & H1 & H).
  assert (d1 = db) as -> by (destruct (_ && _) in H1; unfold db_gets, db_ret in H1; by simplify_eq).
  apply db_bind_Ok in H as (u & d2 & (Hfresh & _ & ->)%insert_auth_session_Ok & H).
  split; [done|]. apply db_bind_Ok in H as (m' & d3 & H3 & [_ ->]%commit_Ok).
  destruct known; [unfold db_ret in H3; by simplify_eq|].
  destruct (creation_new_context_notification input); [|unfold db_ret in H3; by simplify_eq].
  unfold insert_email_outbox_message in H3. db_steps. done.
Qed.

(** What the second factor of a login changes leaves the sessions alone. *)
Lemma factor_shown_tables state env o u submitted db m db1 :
  factor_shown state env o u submitted db m db1 ->
  t_auth_sessions db1 = t_auth_sessions db /\ t_users db1 = t_users db
  /\ t_rate_limit_buckets db1 = t_rate_limit_buckets db.
Proof.
  intros []; try done.
  match goal with H : assertion_verified _ _ _ _ _ _ _ _ _ |- _ =>
    destruct H as (? & ? & ? & ? & ? & ? & H); decompose [and] H; by subst end.
Qed.

Definition login_session (env : LoginEnv) (user : User) (method : option MfaVerificationMethod)
    : AuthSession :=
  authenticated_session (login_session_id env) (user_organization_id user) (user_id user) method
    (login_now env).
Lemma open_session_Ok state env identity headers keys user method db reply db' :
  run (open_session state env identity headers keys user method) db = (Ok reply, db') ->
  reply = Login_Session user (session_cookie_value state (login_session_id env))
  /\ t_auth_sessions db !! login_session_id env = None
  /\ exists row, row_session row = login_session env user method
       /\ t_auth_sessions db' = <[login_session_id env := row]> (t_auth_sessions db).
Proof.
  unfold open_session. destruct (audit_request_context_for_identity identity headers) as [ip ua].
  intros H. cbv beta zeta in H.
  apply query_then_Ok in H as (m & d1 & H1 & H). apply query_then_Ok in H as (u2 & d2 & H2 & H).
  apply query_then_Ok in H as (u3 & d3 & H3 & H). apply query_then_Ok in H as (u4 & d4 & H4 & H).
  apply creation_Ok in H1 as (Hfresh & Hs & _). cbn in Hfresh, Hs.
  unfold set_user_last_login, update_user, clear_rate_limit_bucket, insert_audit_event in *. db_steps.
  simpl in H. injection H as <- <-. split; [done|]. split; [done|].
  eexists. split; [|cbn; rewrite Hs; reflexivity]. done.
Qed.

(** C4. Who gets in.  A login opens a session only for a request with a valid
    CSRF token, from a source and for a user that are not blocked, whose email
    names an active user of the organization whose stored password hash
    accepts the password; and when that user has an active authenticator or
    passkey, only after the request has shown a second factor of this very
    user, in the way the session then records.  It opens exactly one session,
    for that user, with twelve hours to live, under the identifier in the
    cookie; no other session changes. *)
Theorem login_spec state env identity headers payload db user cookie db' :
  run (login state env identity headers payload) db = (Ok (Login_Session user cookie), db') ->
  require_csrf headers = Ok tt
  /\ (exists email u, normalize_email (login_email payload) = Ok email
        /\ password_accepted (state_organization_id state) email (login_password payload) db u
        /\ user = uwp_user u)
  /\ not_blocked db (login_verified_now env)
       (login_verified_user_rate_limit_keys (state_organization_id state) (user_id user) identity)
  /\ exists method,
       ((method = None /\ ~ second_factor db (user_organization_id user) (user_id user))
        \/ exists m db1, method = Some m
             /\ factor_shown state (login_mfa env) (user_organization_id user) (user_id user)
                  (mk_SubmittedMfa (login_submitted_code payload)
                     (login_webauthn_challenge_id payload) (login_webauthn_credential payload))
                  db m db1)
       /\ t_auth_sessions db !! login_session_id env = None
       /\ (exists row, t_auth_sessions db' = <[login_session_id env := row]> (t_auth_sessions db)
             /\ row_session row = login_session env user method)
       /\ cookie = session_cookie_value state (login_session_id env).
Proof.
  unfold login. intros H.
  apply lift_then_Ok in H as ([] & Hcsrf & H). apply lift_then_Ok in H as (email & He & H).
  apply map_err_Ok in He. apply run_handler_Ok in H as (u0 & d & [-> Hb]%enforce_rate_limit_Ok & H).
  apply run_handler_Ok in H as (u & d & [-> Hu]%login_user_Ok & H).
  apply run_handler_Ok in H as (u1 & d & [-> Hb2]%enforce_rate_limit_Ok & H).
  apply run_handler_Ok in H as (mfa & d & Hm & H).
  destruct mfa as [method|response]; [|simpl in H; by simplify_eq].
  apply open_session_Ok in H as (Hreply & Hfresh & row & Hrow & Hsess). injection Hreply as -> ->.
  split; [done|]. split; [by exists email, u|]. split; [done|]. exists method.
  apply verify_submitted_Ok in Hm as [(-> & Hn & ->)|(m & -> & _ & Hs)].
  - split; [by left|]. split; [done|]. split; [by exists row|done].
  - apply factor_shown_tables in Hs as Ht. destruct Ht as [Ht _]. rewrite Ht in Hfresh, Hsess.
    split; [right; by exists m, d|]. split; [done|]. split; [by exists row|done].
Qed.

(** *** Failed logins *)

Definition source_key (state : AppState) (identity : RequestIdentity) : RateLimitKey :=
  source_rate_limit_key "login" (state_organization_id state) identity "session.login.ip".
Definition count_login_failure (key : RateLimitKey) (now : OffsetDateTime) (db : Database) : Database :=
  (record_rate_limit_failure (limit_key key) (limit_purpose key) now LOGIN_RATE_LIMIT_WINDOW
     LOGIN_RATE_LIMIT_MAX_ATTEMPTS LOGIN_RATE_LIMIT_BLOCK db).2.
Lemma failed_login_run {A} now key e db :
  run (failed_login (A := A) now [key] e) db = (Err e, count_login_failure key now db).
Proof. done. Qed.
Lemma login_user_Err state env key email password db e db' :
  run (login_user state env [key] email password) db = (Err e, db') ->
  db' = count_login_failure key (login_failure_now env) db.
Proof.
  unfold login_user.
  rewrite (run_known (query (find_user_by_email _ email)) _ db
             (user_by_email (state_organization_id state) email db)) by done.
  destruct (user_by_email _ email db) as [v|]; [|rewrite failed_login_run; by intros [= _ <-]].
  destruct (uwp_password_hash v) as [hash|]; [|rewrite failed_login_run; by intros [= _ <-]].
  destruct (negb _); [rewrite failed_login_run; by intros [= _ <-]|].
  destruct (verify_password password hash) as [u|err]; [by intros [=]|].
  rewrite failed_login_run. by intros [= _ <-].
Qed.

(** One login of the source: what it draws, its headers and its payload. *)
Definition LoginAttempt : Type := LoginEnv * HeaderMap * LoginRequest.
Definition serve_login (state : AppState) (identity : RequestIdentity) (db : Database)
    (a : LoginAttempt) : Database :=
  let '(env, headers, payload) := a in (run (login state env identity headers payload) db).2.
Definition attempt_failure_now (a : LoginAttempt) : OffsetDateTime := login_failure_now a.1.1.
(** A well-formed login that does not know the password. *)
Definition wrong_login (state : AppState) (users : gmap N UserWithPassword) (a : LoginAttempt) : Prop :=
  let '(env, headers, payload) := a in
  require_csrf headers = Ok tt
  /\ exists email, normalize_email (login_email payload) = Ok email
       /\ forall db u, t_users db = users ->
            ~ password_accepted (state_organization_id state) email (login_password payload) db u.

Lemma wrong_login_counts state identity db env headers payload :
  wrong_login state (t_users db) (env, headers, payload) ->
  not_blocked db (login_enforce_now env) [source_key state identity] ->
  (run (login state env identity headers payload) db).2
  = count_login_failure (source_key state identity) (login_failure_now env) db.
Proof.
  intros (Hcsrf & email & He & Hwrong) Hb. unfold login. rewrite Hcsrf, lift_Ok_bind, He.
  cbn [map_err]. rewrite lift_Ok_bind. unfold login_pre_credential_rate_limit_keys.
  fold (source_key state identity).
  rewrite (run_known (enforce_rate_limit _ _) _ db tt) by (apply enforce_rate_limit_Ok; done).
  unfold handler_bind at 1. rewrite run_bind.
  destruct (run (login_user _ _ _ _ _) db) as [[u|e] d] eqn:E.
  - apply login_user_Ok in E as [_ Hu]. by apply Hwrong in Hu.
  - apply login_user_Err in E as ->. done.
Qed.
Lemma count_failure_users key now db : t_users (count_login_failure key now db) = t_users db.
Proof. unfold count_login_failure. by rewrite record_failure_run. Qed.
Definition login_counting (key : RateLimitKey) (start : OffsetDateTime) (n : Z) (db : Database) : Prop :=
  counting (limit_key key) LOGIN_RATE_LIMIT_MAX_ATTEMPTS start n db.
Lemma counting_not_blocked key start n now db :
  login_counting key start n db -> (n < LOGIN_RATE_LIMIT_MAX_ATTEMPTS)%Z -> not_blocked db now [key].
Proof.
  intros (b & Hb & _ & _ & _ & Hnb) Hn key' b' ->%list_elem_of_singleton Hb'.
  assert (b' = b) as -> by congruence. unfold is_blocked. by rewrite Hnb.
Qed.
Lemma login_counting_step key start n t db :
  login_counting key start n db -> (t < start + LOGIN_RATE_LIMIT_WINDOW)%Z ->
  login_counting key start (n + 1) (count_login_failure key t db)
  /\ ((LOGIN_RATE_LIMIT_MAX_ATTEMPTS <= n + 1)%Z -> exists b,
        t_rate_limit_buckets (count_login_failure key t db) !! limit_key key = Some b
        /\ bucket_blocked_until b = Some (t + LOGIN_RATE_LIMIT_BLOCK)%Z).
Proof. apply counting_step. Qed.
(** No failure that was counted before still counts at [now], and no block is
    on at [check]: the next failure opens a window of its own. *)
Definition window_over (key : RateLimitKey) (check now : OffsetDateTime) (db : Database) : Prop :=
  forall b, t_rate_limit_buckets db !! limit_key key = Some b ->
  is_blocked b check = false /\ (bucket_window_start b + LOGIN_RATE_LIMIT_WINDOW <= now)%Z.
Lemma first_failure_counts key check t db :
  window_over key check t db -> login_counting key t 1 (count_login_failure key t db).
Proof.
  intros Hover. unfold count_login_failure. rewrite record_failure_run.
  exists (fresh_bucket (limit_key key) (limit_purpose key) t). unfold next_bucket.
  destruct (t_rate_limit_buckets db !! limit_key key) as [b|] eqn:Hb; cbn; [|by rewrite lookup_insert_eq].
  destruct (Hover _ Hb) as [_ Ho]. rewrite (proj2 (Z.ltb_ge _ _) Ho). cbn. by rewrite lookup_insert_eq.
Qed.
(** A run of wrong logins below the limit counts each of them. *)
Lemma wrong_logins_count state identity start attempts n db :
  login_counting (source_key state identity) start n db ->
  (n + Z.of_nat (length attempts) < LOGIN_RATE_LIMIT_MAX_ATTEMPTS)%Z ->
  Forall (wrong_login state (t_users db)) attempts ->
  Forall (fun a => attempt_failure_now a < start + LOGIN_RATE_LIMIT_WINDOW)%Z attempts ->
  let db' := fold_left (serve_login state identity) attempts db in
  login_counting (source_key state identity) start (n + Z.of_nat (length attempts)) db'
  /\ t_users db' = t_users db.
Proof.
  revert n db. induction attempts as [|[[env headers] payload] attempts IH]; intros n db Hc Hlen Hw Ht.
  - simpl. by rewrite Z.add_0_r.
  - apply Forall_cons in Hw as [Hw Hws]. apply Forall_cons in Ht as [Ht Hts]. cbn [fold_left].
    simpl length in *. unfold serve_login at 2. unfold serve_login at 3.
    rewrite (wrong_login_counts _ identity _ _ _ _ Hw) by (eapply counting_not_blocked; [done|lia]).
    destruct (login_counting_step _ _ _ _ _ Hc Ht) as [Hc' _].
    replace (n + Z.of_nat (S (length attempts)))%Z with (n + 1 + Z.of_nat (length attempts))%Z by lia.
    rewrite <- (count_failure_users (source_key state identity) (login_failure_now env) db) in Hws |- *.
    apply IH; [done|lia|done|done].
Qed.

(** C6. Guessing is cut off.  The first wrong login of a source opens a window of
    fifteen minutes, when no failure of the source is counted any more and no
    block is on.  Five wrong logins in that window, each with a CSRF token and a
    well-formed e-mail address but whatever users they name, block the source:
    until fifteen minutes after the last of them every login from it is refused
    and changes nothing, the one with the right password as well.  The refusal
    is 429 with a [Retry-After] for every login that has a CSRF token and a
    well-formed e-mail address; the others are refused before the limit is
    looked at. *)
Theorem login_lockout state identity db (first : LoginAttempt) (middle : list LoginAttempt) (final : LoginAttempt)
    env headers payload :
  window_over (source_key state identity) (login_enforce_now first.1.1) (attempt_failure_now first) db ->
  length middle = 3 ->
  Forall (wrong_login state (t_users db)) (first :: middle ++ [final]) ->
  Forall (fun a => attempt_failure_now a < attempt_failure_now first + duration_minutes 15)%Z
    (middle ++ [final]) ->
  (login_enforce_now env < attempt_failure_now final + duration_minutes 15)%Z ->
  let db5 := fold_left (serve_login state identity) (first :: middle ++ [final]) db in
  exists error, run (login state env identity headers payload) db5 = (Err error, db5)
    /\ (require_csrf headers = Ok tt -> is_ok (normalize_email (login_email payload)) = true ->
        exists seconds, error = api_rate_limited seconds
        /\ (1 <= seconds <= Z.max 1 ((attempt_failure_now final + duration_minutes 15
                                       - login_enforce_now env) ÷ 1000000000))%Z).
Proof.
  intros Hover Hlen Hw Ht Hnow db5. set (key := source_key state identity).
  apply Forall_cons in Hw as [Hw1 Hw]. apply Forall_app in Hw as [Hwm Hwf].
  apply Forall_app in Ht as [Htm Htf]. apply Forall_cons in Hwf as [Hwf _]. apply Forall_cons in Htf as [Htf _].
  destruct first as [[env1 headers1] payload1]. destruct final as [[envf headersf] payloadf].
  set (db1 := count_login_failure key (login_failure_now env1) db).
  assert (Hu1 : t_users db1 = t_users db) by apply count_failure_users.
  assert (H1 : serve_login state identity db (env1, headers1, payload1) = db1).
  { apply wrong_login_counts; [done|]. intros k b ->%list_elem_of_singleton Hb.
    by destruct (Hover _ Hb). }
  pose proof (first_failure_counts key _ (login_failure_now env1) db Hover) as Hc1. fold db1 in Hc1.
  rewrite <- Hu1 in Hwm, Hwf.
  destruct (wrong_logins_count state identity _ middle 1 db1 Hc1) as [Hc4 Hu4];
    [rewrite Hlen; done|done|done|].
  set (db4 := fold_left (serve_login state identity) middle db1) in *.
  rewrite <- Hu4 in Hwf.
  assert (H5 : db5 = count_login_failure key (login_failure_now envf) db4).
  { unfold db5. cbn [fold_left]. rewrite fold_left_app. cbn [fold_left]. rewrite H1. fold db4.
    apply wrong_login_counts; [done|]. eapply counting_not_blocked; [exact Hc4|]. by rewrite Hlen. }
  change (login_failure_now envf < login_failure_now env1 + LOGIN_RATE_LIMIT_WINDOW)%Z in Htf.
  destruct (login_counting_step _ _ _ _ _ Hc4 Htf) as [_ Hblk]. rewrite Hlen in Hblk.
  destruct (Hblk ltac:(done)) as (b & Hb & Hu). fold key in Hb. rewrite <- H5 in Hb.
  unfold login. destruct (require_csrf headers) as [[]|e] eqn:Hcsrf; [|by exists e].
  rewrite lift_Ok_bind. destruct (normalize_email (login_email payload)) as [email|e]; [|by eexists].
  cbn [map_err]. rewrite lift_Ok_bind.
  unfold login_pre_credential_rate_limit_keys. fold (source_key state identity). fold key.
  unfold handler_bind at 1. rewrite run_bind, enforce_one, Hb. unfold is_blocked.
  unfold attempt_failure_now in Hnow. cbn in Hnow. rewrite Hu.
  unfold LOGIN_RATE_LIMIT_BLOCK. rewrite (proj2 (Z.ltb_lt _ _)) by (cbn; lia). simpl.
  eexists. split; [reflexivity|]. intros _ _. eexists. split; [reflexivity|].
  unfold retry_after_seconds, attempt_failure_now. cbn. lia.
Qed.
End login_properties.
