(* ===== verification/Delivery.v ===== *)
(** * Delivering e-mails

    [apps/api]'s email worker: it renders the messages it claims, with the
    account token decrypted into the link of the message, hands them to the
    provider and marks what came of it. *)

From S2P Require Import Prelude RustStr Domain Authn Oidc Http Codec Store.
From S2P Require Import OutboxStore.
From S2P Require Import Handler KeyStore OAuthPolicy RequestContext.
From Stdlib Require Import Ascii.

(* apps/api/src/email.rs:13-34 EmailDeliveryError *)
Inductive EmailDeliveryError :=
| Delivery_Disabled
| Delivery_MissingKeyEncryptionKey
| Delivery_MissingMessageField (id : Uuid) (field : string)
| Delivery_InvalidMetadata (id : Uuid) (field : string)
| Delivery_TokenDecryption (error : OidcError)
| Delivery_ProviderCommand (message : string)
| Delivery_ProviderCommandJoin
| Delivery_PayloadSerialization
| Delivery_InvalidSmokeRecipient
| Delivery_Database (error : DatabaseError).
(* apps/api/src/email.rs:37-46 is_permanent *)
Definition is_permanent (error : EmailDeliveryError) : bool :=
  match error with
  | Delivery_MissingKeyEncryptionKey | Delivery_MissingMessageField _ _
  | Delivery_InvalidMetadata _ _ | Delivery_TokenDecryption _ | Delivery_PayloadSerialization => true
  | _ => false
  end.
(** The [#[error]] texts. *)
Definition delivery_error_text `{TokenCrates} (error : EmailDeliveryError) : string :=
  match error with
  | Delivery_Disabled => "email delivery is disabled"
  | Delivery_MissingKeyEncryptionKey =>
      "CAIRN_KEY_ENCRYPTION_KEY is required to render lifecycle email action URLs"
  | Delivery_MissingMessageField id field =>
      "email outbox message " +:+ uuid_to_string id +:+ " is missing " +:+ field
  | Delivery_InvalidMetadata id field =>
      "email outbox message " +:+ uuid_to_string id +:+ " has invalid metadata field " +:+ field
  | Delivery_TokenDecryption _ => "email outbox token decryption failed"
  | Delivery_ProviderCommand message => "email provider command failed: " +:+ message
  | Delivery_ProviderCommandJoin => "email provider command task failed"
  | Delivery_PayloadSerialization => "email provider payload serialization failed"
  | Delivery_InvalidSmokeRecipient => "smoke recipient email must be non-empty and contain @"
  | Delivery_Database _ => "database operation failed"
  end.
(* apps/api/src/email.rs:49-52 truncate_error *)
Definition truncate_error (error : string) : string := take_chars 500 error.

(* apps/api/src/config.rs:66-70 EmailProviderConfig *)
Inductive EmailProviderConfig :=
| EmailProvider_Disabled
| EmailProvider_Stdout
| EmailProvider_Command (path : string).
(* apps/api/src/config.rs:52-58 EmailDeliveryConfig *)
Record EmailDeliveryConfig := mk_EmailDeliveryConfig {
  delivery_provider : EmailProviderConfig;
  delivery_batch_size : Z;
  delivery_max_attempts : Z;
  delivery_retry_seconds : Z;
  delivery_sending_timeout_seconds : Z;
}.

(** ** Rendering *)

(* apps/api/src/email/rendering.rs:10-17 EmailCommandPayload *)
Record EmailCommandPayload := mk_EmailCommandPayload {
  payload_id : Uuid;
  payload_to : string;
  payload_subject : string;
  payload_text : string;
  payload_template : string;
  payload_metadata : Value;
}.
Definition action_url_mark : string := "{{action_url}}".

(* apps/api/src/email/rendering.rs:94-107 metadata_str *)
Definition email_metadata_str (message : EmailOutboxMessage) (field : string)
    : result EmailDeliveryError string :=
  ok_or (match value_get (email_metadata message) field ≫= as_str with
         | Some value => if is_empty value then None else Some value
         | None => None
         end) (Delivery_InvalidMetadata (email_id message) field).

Section rendering.
Context {TC : TokenCrates} {AG : AesGcm}.

(** The worker's [percent_encode_minimal] is that of [crates/oidc]. *)
(* apps/api/src/email/rendering.rs:47-92 action_url *)
Definition action_url (message : EmailOutboxMessage) (config : AppState)
    : result EmailDeliveryError string :=
  let? key := ok_or (config_key_encryption_key config) Delivery_MissingKeyEncryptionKey in
  let missing field := Delivery_MissingMessageField (email_id message) field in
  let? action_path := ok_or (email_action_path message) (missing "action_path") in
  let? ciphertext :=
    ok_or (email_delivery_token_ciphertext message) (missing "delivery_token_ciphertext") in
  let? nonce := ok_or (email_delivery_token_nonce message) (missing "delivery_token_nonce") in
  let? account_token_id := email_metadata_str message "account_token_id" in
  let? kind := email_metadata_str message "kind" in
  let? token := map_err Delivery_TokenDecryption
    (decrypt_secret (mk_EncryptedSecret ciphertext nonce) key
       ("cairnid:account-token-delivery:" +:+ kind +:+ ":" +:+ account_token_id)) in
  Ok (trim_end_matches "/"%char (config_public_web_origin config) +:+ action_path +:+ "?token="
      +:+ percent_encode_minimal token).
(* apps/api/src/email/rendering.rs:24-45 render_email *)
Definition render_email (message : EmailOutboxMessage) (config : AppState)
    : result EmailDeliveryError EmailCommandPayload :=
  let? text :=
    if str_contains action_url_mark (email_body_text message)
    then let? url := action_url message config in
         Ok (str_replace action_url_mark url (email_body_text message))
    else Ok (email_body_text message) in
  Ok (mk_EmailCommandPayload (email_id message) (email_recipient_email message)
        (email_subject message) text (email_template message) (email_metadata message)).
End rendering.

(** ** Sending *)

(** What the command answers to a payload: the outcome of the process, as
    [run_command] reports it. *)
Definition MailCommand : Type := EmailCommandPayload -> result EmailDeliveryError (option string).
(* apps/api/src/email/provider.rs:78-95 send_email *)
Definition send_email `{AesGcm} (command : MailCommand) (rendered : EmailCommandPayload)
    (config : AppState) (delivery : EmailDeliveryConfig) : result EmailDeliveryError (option string) :=
  match delivery_provider delivery with
  | EmailProvider_Disabled => Err Delivery_Disabled
  | EmailProvider_Stdout =>
      if bool_decide (config_environment config = Production)
      then Err (Delivery_ProviderCommand "stdout provider is development-only")
      else Ok None
  | EmailProvider_Command _ => command rendered
  end.

(** ** The worker *)

Definition Worker (A : Type) : Type := Prog (result EmailDeliveryError A).
Definition worker_bind {A B} (w : Worker A) (f : A -> Worker B) : Worker B :=
  prog_bind w (fun r => match r with Ok a => f a | Err e => Ret (Err e) end).
Definition worker_query {X} (op : DB X) : Worker X :=
  Step op (fun r => Ret (map_err Delivery_Database r)).

(* apps/api/src/email/delivery.rs:9-14 EmailDeliveryReport *)
Record EmailDeliveryReport := mk_EmailDeliveryReport {
  report_claimed : nat;
  report_sent : nat;
  report_retried : nat;
  report_failed : nat;
}.
(** What a round draws: its clock, the answers of the provider and the clock
    after each of them. *)
Record DeliveryEnv := mk_DeliveryEnv {
  delivery_now : OffsetDateTime;
  delivery_command : nat -> MailCommand;
  delivery_clock : nat -> OffsetDateTime;
}.

Section worker.
Context {TC : TokenCrates} {AG : AesGcm}.

(** The [n]-th message of a round. *)
Definition deliver_message (config : AppState) (delivery : EmailDeliveryConfig) (env : DeliveryEnv)
    (n : nat) (message : EmailOutboxMessage) : result EmailDeliveryError (option string) :=
  let? rendered := render_email message config in
  send_email (delivery_command env n) rendered config delivery.
Fixpoint deliver_loop (config : AppState) (delivery : EmailDeliveryConfig) (env : DeliveryEnv)
    (n : nat) (messages : list EmailOutboxMessage) (report : EmailDeliveryReport)
    : Worker EmailDeliveryReport :=
  match messages with
  | [] => Ret (Ok report)
  | message :: rest =>
      let '(mk_EmailDeliveryReport claimed sent retried failed) := report in
      let at_ := delivery_clock env n in
      match deliver_message config delivery env n message with
      | Ok provider_message_id =>
          worker_bind (worker_query (mark_email_outbox_sent (email_id message) provider_message_id at_))
            (fun _ => deliver_loop config delivery env (S n) rest
                        (mk_EmailDeliveryReport claimed (S sent) retried failed))
      | Err error =>
          let last_error := truncate_error (delivery_error_text error) in
          if is_permanent error || (delivery_max_attempts delivery <=? email_attempts message)%Z
          then worker_bind (worker_query (mark_email_outbox_failed (email_id message) last_error at_))
                 (fun _ => deliver_loop config delivery env (S n) rest
                             (mk_EmailDeliveryReport claimed sent retried (S failed)))
          else worker_bind (worker_query (mark_email_outbox_retry (email_id message) last_error
                                            (at_ + duration_seconds (delivery_retry_seconds delivery)) at_))
                 (fun _ => deliver_loop config delivery env (S n) rest
                             (mk_EmailDeliveryReport claimed sent (S retried) failed))
      end
  end.
Definition sending_timeout (delivery : EmailDeliveryConfig) : Z :=
  duration_seconds (delivery_sending_timeout_seconds delivery).
(* apps/api/src/email/delivery.rs:16-88 deliver_once *)
Definition deliver_once (config : AppState) (delivery : EmailDeliveryConfig) (env : DeliveryEnv)
    : Worker EmailDeliveryReport :=
  match delivery_provider delivery with
  | EmailProvider_Disabled => Ret (Err Delivery_Disabled)
  | _ =>
  if bool_decide (config_environment config = Production)
     && negb (is_some (config_key_encryption_key config))
  then Ret (Err Delivery_MissingKeyEncryptionKey)
  else
  let now := delivery_now env in
  worker_bind (worker_query (claim_email_outbox_messages (delivery_batch_size delivery) now
                               (now - sending_timeout delivery)%Z))
    (fun messages => deliver_loop config delivery env 0 messages
                       (mk_EmailDeliveryReport (length messages) 0 0 0))
  end.
End worker.

(** ** Properties *)

Section worker_properties.
Context {TC : TokenCrates} {AG : AesGcm}.

(** *** Workers next to each other *)

Lemma worker_query_op {X} (P : forall X, DB X -> Prop) (op : DB X) {B} (f : X -> Worker B) :
  P _ op -> (forall x, each_op P (f x)) -> each_op P (worker_bind (worker_query op) f).
Proof. intros Hop Hf. apply each_op_bind; [by split|]. by intros [x|e]. Qed.
Lemma deliver_loop_statements timeout config delivery env n messages report :
  each_op (worker_statement timeout) (deliver_loop config delivery env n messages report).
Proof.
  revert n report. induction messages as [|m messages IH]; intros n [c s r f]; cbn [deliver_loop]; [exact I|].
  destruct (deliver_message _ _ _ _ _) as [p|e].
  - apply worker_query_op; [constructor|auto].
  - destruct (is_permanent e || _); (apply worker_query_op; [constructor|auto]).
Qed.
Lemma deliver_once_statements config delivery env :
  each_op (worker_statement (sending_timeout delivery)) (deliver_once config delivery env).
Proof.
  unfold deliver_once. destruct (delivery_provider delivery); [exact I| |];
    (destruct (_ && _); [exact I|apply worker_query_op; [constructor|intros; apply deliver_loop_statements]]).
Qed.

(** C7. The outbox is a mail queue.  However many workers run next to each
    other, and whichever of their statements fail or get lost, each message
    keeps its recipient and content, no other table changes, and what is seen
    to happen to the message, from each database of the history to the next, is
    a run of the abstract queue that ends in the message's state: it is claimed
    only when it is due, and each claim counts as an attempt; claimed twice
    less than the sending timeout apart only if it was put back to be tried
    again in between; and once sent or failed it is never touched again.  What
    a claim hands to its worker are the messages it was seen to claim. *)
Theorem outbox_refines_mail_queue config delivery envs db dbs ps db' :
  outbox_keyed db ->
  pool_history (deliver_once config delivery <$> envs, db) dbs (ps, db') ->
  db' = on_email_outbox (fun _ => t_email_outbox db') db
  /\ dom (t_email_outbox db') = dom (t_email_outbox db)
  /\ (forall id m s, t_email_outbox db !! id = Some m -> mail_state m = Some s ->
       exists m' s', let trace := mail_trace id db dbs in
         t_email_outbox db' !! id = Some m' /\ mail_content m' = mail_content m
         /\ mail_state m' = Some s' /\ mail_run (sending_timeout delivery) s trace = Some s'
         /\ (forall n n', mail_attempts s = Some n -> mail_attempts s' = Some n' ->
               n' = (n + Z.of_nat (length (List.filter is_claim trace)))%Z)
         /\ (mail_attempts s = None -> s' = s)
         /\ (forall t1 at1 t2 at2 t3, trace = t1 ++ Ev_Claimed at1 :: t2 ++ Ev_Claimed at2 :: t3 ->
               (forall e, e ∈ t2 -> is_claim e = false) -> (at2 < at1 + sending_timeout delivery)%Z ->
               exists due, Ev_Retry due ∈ t2))
  /\ forall limit at_ stale db0 messages db1 m, outbox_keyed db0 ->
       claim_email_outbox_messages limit at_ stale db0 = (Ok messages, db1) -> m ∈ messages ->
       t_email_outbox db1 !! email_id m = Some m
       /\ exists m0, t_email_outbox db0 !! email_id m = Some m0 /\ mail_event m0 m = Some (Ev_Claimed at_).
Proof.
  intros Hk Hs. pose proof (history_end _ _ _ Hs) as Hend. cbn [snd] in Hend.
  apply (history_chained (worker_statement (sending_timeout delivery)) outbox_keyed
    (mail_evolves (sending_timeout delivery))) in Hs.
  2: intros X op d; apply worker_statement_evolves.
  2: apply mail_evolves_refl.
  2: intros d d'; apply evolves_keyed.
  2: cbn; apply Forall_fmap, Forall_true; intros env; apply deliver_once_statements.
  2: done.
  apply history_runs in Hs as (Hdb & Hn & Hm). cbn [snd] in *. rewrite <- Hend in *. split; [done|]. split.
  { apply set_eq. intros id. rewrite !elem_of_dom. split.
    + intros Hd. destruct (t_email_outbox db !! id) eqn:E; [by eexists|].
      rewrite (Hn _ E) in Hd. by apply is_Some_None in Hd.
    + intros [m E]. destruct (Hm _ _ E) as (m' & E' & _). by eexists. }
  split.
  - intros id m s Hid Hst. destruct (Hm _ _ Hid) as (m' & Hm' & Hc & Ht).
    destruct (Ht _ Hst) as (s' & Hrun & Hs'). exists m', s'. split_and!; try done.
    + intros n n'. by apply mail_run_attempts with (timeout := sending_timeout delivery).
    + intros Hf. by eapply mail_run_final.
    + intros t1 at1 t2 at2 t3. by eapply trace_claims_apart.
  - intros limit at_ stale db0 messages db1 m Hk0 Hc Hin.
    destruct (claimed_event _ _ _ _ _ _ _ Hk0 Hc Hin) as (H1 & m0 & H2 & _ & H3). split; [done|]. by exists m0.
Qed.

(** *** Rounds of one worker *)

Definition email_final (m : EmailOutboxMessage) : bool :=
  email_status_is "sent" m || email_status_is "failed" m.
(** What a round makes of a message it has claimed. *)
Definition settled (delivery : EmailDeliveryConfig) (env : DeliveryEnv) (m m' : EmailOutboxMessage) : Prop :=
  email_final m' = true
  \/ email_status m' = "retry" /\ email_attempts m' = email_attempts m
     /\ (email_attempts m < delivery_max_attempts delivery)%Z
     /\ exists i, email_next_attempt_at m'
          = Some (delivery_clock env i + duration_seconds (delivery_retry_seconds delivery))%Z.

Lemma mark_run {A} id f (k : bool -> Worker A) db m :
  t_email_outbox db !! id = Some m -> email_status m = "sending" ->
  run (worker_bind (worker_query (update_key t_email_outbox on_email_outbox id
         (email_status_is "sending") f)) k) db
  = run (k true) (on_email_outbox (fun _ => <[id := f m]> (t_email_outbox db)) db).
Proof.
  intros Hm Hs. unfold worker_bind, worker_query. simpl. unfold update_key, db_apply, update_row. rewrite Hm.
  unfold email_status_is. by rewrite Hs.
Qed.
Lemma deliver_loop_step config delivery env n m messages report db :
  t_email_outbox db !! email_id m = Some m -> email_status m = "sending" ->
  exists m' report', email_id m' = email_id m /\ settled delivery env m m'
    /\ run (deliver_loop config delivery env n (m :: messages) report) db
       = run (deliver_loop config delivery env (S n) messages report')
           (on_email_outbox (fun _ => <[email_id m := m']> (t_email_outbox db)) db).
Proof.
  intros Hm Hs. destruct report as [c s r f]. cbn [deliver_loop].
  unfold mark_email_outbox_sent, mark_email_outbox_failed, mark_email_outbox_retry.
  destruct (deliver_message _ _ _ _ _) as [p|e].
  - eexists _, _. split; [|split]; [| |by rewrite (mark_run _ _ _ _ _ Hm Hs)]; [done|by left].
  - destruct (is_permanent e || _) eqn:E.
    + eexists _, _. split; [|split]; [| |by rewrite (mark_run _ _ _ _ _ Hm Hs)]; [done|by left].
    + eexists _, _. split; [|split]; [| |by rewrite (mark_run _ _ _ _ _ Hm Hs)]; [done|]. right.
      bool_prop. split_and!; try done. by exists n.
Qed.
Lemma deliver_loop_run config delivery env n messages report db :
  NoDup (email_id <$> messages) ->
  (forall m, m ∈ messages -> t_email_outbox db !! email_id m = Some m /\ email_status m = "sending") ->
  exists report' db', run (deliver_loop config delivery env n messages report) db = (Ok report', db')
    /\ (forall m, m ∈ messages -> exists m', t_email_outbox db' !! email_id m = Some m'
          /\ email_id m' = email_id m /\ settled delivery env m m')
    /\ (forall id, id ∉ email_id <$> messages -> t_email_outbox db' !! id = t_email_outbox db !! id).
Proof.
  revert n report db. induction messages as [|m messages IH]; intros n report db Hnd Hrows.
  - exists report, db. split_and!; [done| |done]. by intros m ?%elem_of_nil.
  - cbn [fmap list_fmap] in Hnd. apply NoDup_cons in Hnd as [Hni Hnd].
    destruct (Hrows m ltac:(left)) as [Hm Hst].
    destruct (deliver_loop_step config delivery env n m messages report db Hm Hst)
      as (m' & report1 & Hid & Hset & Hrun). rewrite Hrun.
    destruct (IH (S n) report1 (on_email_outbox (fun _ => <[email_id m := m']> (t_email_outbox db)) db))
      as (report' & db' & Hr & Hin & Hout); [done| |].
    { intros x Hx. destruct (Hrows x ltac:(by right)) as [Hx1 Hx2]. split; [|done]. cbn.
      rewrite lookup_insert_ne; [done|]. intros E. apply Hni. rewrite E. by apply list_elem_of_fmap_2. }
    exists report', db'. split; [done|]. split.
    + intros x [->|Hx]%elem_of_cons; [|by apply Hin]. exists m'. split; [|done].
      rewrite Hout by done. cbn. by rewrite lookup_insert_eq.
    + intros id Hid'. cbn [fmap list_fmap] in Hid'. apply not_elem_of_cons in Hid' as [Hne Hni'].
      rewrite Hout by done. cbn. by rewrite lookup_insert_ne.
Qed.

Lemma selected_ids_NoDup limit at_ stale db :
  outbox_keyed db -> NoDup (email_id <$> claim_selected limit at_ stale (t_email_outbox db)).
Proof.
  intros Hk. unfold claim_selected.
  assert (Hsub : forall l : list EmailOutboxMessage, NoDup (email_id <$> l) ->
    NoDup (email_id <$> take (Z.to_nat limit) l)).
  { intros l Hl. rewrite fmap_take. by apply sublist_NoDup with (l2 := email_id <$> l), sublist_take. }
  apply Hsub. rewrite (order_by_perm email_oldest_first). unfold select_where.
  assert (Hids : (email_id <$> (map_to_list (t_email_outbox db)).*2) = (map_to_list (t_email_outbox db)).*1).
  { rewrite <- list_fmap_compose. apply list_fmap_ext. intros i [k m] Hi. cbn.
    apply Hk, elem_of_map_to_list. by apply list_elem_of_lookup_2 in Hi. }
  assert (Hf : forall l : list EmailOutboxMessage, NoDup (email_id <$> l) ->
    NoDup (email_id <$> List.filter (claimable at_ stale) l)).
  { induction l as [|m l IH]; cbn; [done|]. intros [Hn Hd]%NoDup_cons. destruct (claimable at_ stale m); [|auto].
    cbn. apply NoDup_cons. split; [|auto]. intros (x & Hx & Hin)%list_elem_of_fmap. apply Hn.
    apply list_elem_of_In, filter_In in Hin as [Hin _]. rewrite Hx. apply list_elem_of_fmap_2.
    by apply list_elem_of_In. }
  apply Hf. rewrite Hids. apply NoDup_fst_map_to_list.
Qed.

(** A delivery that can run, and messages a worker can take. *)
Definition delivers (config : AppState) (delivery : EmailDeliveryConfig) : Prop :=
  delivery_provider delivery <> EmailProvider_Disabled
  /\ (config_environment config = Production -> is_Some (config_key_encryption_key config))
  /\ (1 <= delivery_batch_size delivery)%Z /\ (delivery_max_attempts delivery <= i32_max)%Z.
Definition ready (delivery : EmailDeliveryConfig) (at_ : OffsetDateTime) (db : Database) : Prop :=
  outbox_keyed db
  /\ forall id m, t_email_outbox db !! id = Some m ->
       email_final m = true
       \/ claimable at_ (at_ - sending_timeout delivery)%Z m = true /\ (email_attempts m < i32_max)%Z.

Lemma claimable_not_final at_ stale m : claimable at_ stale m = true -> email_final m = false.
Proof.
  unfold claimable, email_final, email_status_is.
  destruct (String.eqb_spec (email_status m) "sent") as [->|]; [done|].
  by destruct (String.eqb_spec (email_status m) "failed") as [->|].
Qed.
Lemma round_run config delivery env db :
  delivers config delivery -> ready delivery (delivery_now env) db ->
  let selected := claim_selected (delivery_batch_size delivery) (delivery_now env)
    (delivery_now env - sending_timeout delivery)%Z (t_email_outbox db) in
  exists report db', run (deliver_once config delivery env) db = (Ok report, db')
    /\ outbox_keyed db'
    /\ forall id, match t_email_outbox db !! id with
       | None => t_email_outbox db' !! id = None
       | Some m => exists m', t_email_outbox db' !! id = Some m'
           /\ if selected_row selected m
              then settled delivery env (email_claim (delivery_now env) m) m' else m' = m
       end.
Proof.
  intros (Hp & Hkey & _ & _) [Hk Hready] selected. unfold deliver_once.
  assert (Hg : bool_decide (config_environment config = Production)
    && negb (is_some (config_key_encryption_key config)) = false).
  { destruct (bool_decide _) eqn:E; [|done]. apply bool_decide_eq_true in E.
    by destruct (Hkey E) as [k ->]. }
  rewrite Hg.
  assert (Hsel : forall m, m ∈ selected -> t_email_outbox db !! email_id m = Some m
    /\ claimable (delivery_now env) (delivery_now env - sending_timeout delivery)%Z m = true).
  { intros m Hm. apply selected_claimable in Hm as [Hc [k Hm]]. by rewrite (Hk _ _ Hm). }
  assert (Hall : forallb (fun m => (email_attempts m <? i32_max)%Z) selected = true).
  { apply forallb_elem. intros m [Hm Hc]%Hsel. apply Z.ltb_lt.
    destruct (Hready _ _ Hm) as [Hf|[_ Ha]]; [|done]. by rewrite (claimable_not_final _ _ _ Hc) in Hf. }
  set (claimed := email_claim (delivery_now env) <$> selected).
  set (db1 := on_email_outbox (update_where (selected_row selected) (email_claim (delivery_now env))) db).
  assert (Hids : email_id <$> claimed = email_id <$> selected).
  { unfold claimed. by rewrite <- list_fmap_compose. }
  assert (Hrow : forall id m, t_email_outbox db !! id = Some m ->
    t_email_outbox db1 !! id = Some (if selected_row selected m then email_claim (delivery_now env) m else m)).
  { intros id m Hm. cbn. by rewrite lookup_update_where, Hm. }
  assert (Hmem : forall id m, t_email_outbox db !! id = Some m -> selected_row selected m = true <-> m ∈ selected)
    by (intros id m; by apply selected_row_true).
  destruct (deliver_loop_run config delivery env 0 claimed
    (mk_EmailDeliveryReport (length claimed) 0 0 0) db1) as (report & db' & Hrun & Hin & Hout).
  { rewrite Hids. by apply selected_ids_NoDup. }
  { intros m (m0 & -> & Hm0)%list_elem_of_fmap. split; [|done]. destruct (Hsel _ Hm0) as [Hm _].
    change (email_id (email_claim _ m0)) with (email_id m0).
    by rewrite (Hrow _ _ Hm), (proj2 (Hmem _ _ Hm) Hm0). }
  exists report, db'. split.
  { destruct (delivery_provider delivery); [done| |];
      (unfold worker_bind, worker_query; cbn [prog_bind run]; rewrite claim_run; fold selected;
       rewrite Hall; exact Hrun). }
  assert (Hrows : forall id, match t_email_outbox db !! id with
    | None => t_email_outbox db' !! id = None
    | Some m => exists m', t_email_outbox db' !! id = Some m' /\ email_id m' = email_id m
        /\ if selected_row selected m
           then settled delivery env (email_claim (delivery_now env) m) m' else m' = m end).
  { intros id. destruct (t_email_outbox db !! id) as [m|] eqn:Hm.
    - pose proof (Hk _ _ Hm) as Hid. destruct (selected_row selected m) eqn:Hs.
      + apply (Hmem _ _ Hm) in Hs. destruct (Hin (email_claim (delivery_now env) m)) as (m' & Hm' & He & Hset);
          [by apply list_elem_of_fmap_2|]. cbn in Hm', He. rewrite Hid in Hm'. eauto.
      + exists m. rewrite Hout; [by rewrite (Hrow _ _ Hm), Hs|].
        rewrite Hids. intros (x & Hx & Hin')%list_elem_of_fmap. apply not_true_iff_false in Hs.
        apply Hs, (Hmem _ _ Hm).
        destruct (Hsel _ Hin') as [Hx' _]. rewrite <- Hx, Hm in Hx'. by injection Hx' as ->.
    - rewrite Hout; [cbn; by rewrite lookup_update_where, Hm|].
      rewrite Hids. intros (x & Hx & Hin')%list_elem_of_fmap.
      destruct (Hsel _ Hin') as [Hx' _]. congruence. }
  split.
  - intros k m' Hm'. specialize (Hrows k). destruct (t_email_outbox db !! k) as [m|] eqn:Hm; [|congruence].
    destruct Hrows as (m2 & Hm2 & He & _). rewrite Hm' in Hm2. injection Hm2 as <-.
    rewrite He. by apply Hk.
  - intros id. specialize (Hrows id). destruct (t_email_outbox db !! id); [|done].
    destruct Hrows as (m' & ? & _ & ?). eauto.
Qed.

(** How many more attempts a message can cost, at most, and all of them. *)
Definition attempts_left (delivery : EmailDeliveryConfig) (m : EmailOutboxMessage) : nat :=
  if email_final m then 0 else S (Z.to_nat (delivery_max_attempts delivery - email_attempts m)).
Definition remaining (delivery : EmailDeliveryConfig) (db : Database) : nat :=
  sum_list_with (fun id => from_option (attempts_left delivery) 0 (t_email_outbox db !! id))
    (elements (dom (t_email_outbox db))).
Lemma sum_list_with_decreases {B} (f g : B -> nat) l :
  (forall x, x ∈ l -> f x <= g x) -> sum_list_with f l <= sum_list_with g l
  /\ ((exists x, x ∈ l /\ f x < g x) -> sum_list_with f l < sum_list_with g l).
Proof.
  induction l as [|y l IH]; intros H; cbn.
  - split; [done|]. by intros (x & Hx%elem_of_nil & _).
  - destruct IH as [IH1 IH2]; [intros x Hx; apply H; by right|].
    pose proof (H y ltac:(left)). split; [lia|].
    intros (x & [->|Hx]%elem_of_cons & Hlt); [lia|]. assert (sum_list_with f l < sum_list_with g l) by eauto. lia.
Qed.
Lemma settled_costs delivery env at_ m m' :
  email_final m = false -> settled delivery env (email_claim at_ m) m' ->
  attempts_left delivery m' < attempts_left delivery m.
Proof.
  intros Hf [Hs|(Hs & Ha & Hlt & _)]; unfold attempts_left; rewrite Hf.
  - rewrite Hs. lia.
  - assert (email_final m' = false) as -> by (unfold email_final, email_status_is; by rewrite Hs).
    cbn in Ha, Hlt. rewrite Ha. lia.
Qed.

(** The rounds of a worker follow each other late enough for what was put off. *)
Fixpoint spaced (delivery : EmailDeliveryConfig) (env : DeliveryEnv) (rest : list DeliveryEnv) : Prop :=
  match rest with
  | [] => True
  | next :: rest =>
      (delivery_now env <= delivery_now next)%Z
      /\ (forall i, delivery_clock env i + duration_seconds (delivery_retry_seconds delivery)
                    <= delivery_now next)%Z
      /\ spaced delivery next rest
  end.
Definition deliver_rounds (config : AppState) (delivery : EmailDeliveryConfig) (db : Database)
    (envs : list DeliveryEnv) : Database :=
  fold_left (fun db env => (run (deliver_once config delivery env) db).2) envs db.

Lemma claimable_later at1 at2 timeout m :
  (at1 <= at2)%Z -> claimable at1 (at1 - timeout)%Z m = true -> claimable at2 (at2 - timeout)%Z m = true.
Proof.
  intros Hle. unfold claimable, retry_due. rewrite !orb_true_iff, !andb_true_iff, !Z.leb_le.
  intros [[Hs Hd]|[Hs Hd]]; [left|right; split; [done|lia]]. split; [done|].
  destruct (email_next_attempt_at m); [|done]. apply Z.leb_le. apply Z.leb_le in Hd. lia.
Qed.
Lemma settled_ready delivery env next m m' :
  (forall i, delivery_clock env i + duration_seconds (delivery_retry_seconds delivery)
             <= delivery_now next)%Z ->
  (delivery_max_attempts delivery <= i32_max)%Z -> settled delivery env m m' ->
  email_final m' = true
  \/ claimable (delivery_now next) (delivery_now next - sending_timeout delivery)%Z m' = true
     /\ (email_attempts m' < i32_max)%Z.
Proof.
  intros Hclock Hmax [Hs|(Hs & Ha & Hlt & i & Hi)]; [by left|]. right. split; [|lia].
  unfold claimable, retry_due, email_status_is. rewrite Hs, Hi. simpl. rewrite orb_false_r.
  apply Z.leb_le, Hclock.
Qed.

Lemma remaining_zero delivery db :
  remaining delivery db = 0 <-> forall id m, t_email_outbox db !! id = Some m -> email_final m = true.
Proof.
  unfold remaining. split.
  2:{ intros Hall. induction (elements _) as [|k l IH]; cbn; [done|]. rewrite IH, Nat.add_0_r.
      destruct (t_email_outbox db !! k) as [m|] eqn:Hm; [|done]. cbn. unfold attempts_left.
      by rewrite (Hall _ _ Hm). }
  intros H0 id m Hm. assert (Hid : id ∈ elements (dom (t_email_outbox db))) by (apply elem_of_elements, elem_of_dom; by eexists).
  revert H0 Hid. induction (elements _) as [|k l IH]; cbn; [by intros _ ?%elem_of_nil|].
  intros H0 [<-|Hid]%elem_of_cons; [|apply IH; [lia|done]].
  rewrite Hm in H0. cbn in H0. unfold attempts_left in H0. destruct (email_final m); [done|lia].
Qed.
(** One round: a smaller rest, ready for the next round. *)
Lemma round_progress config delivery env db :
  delivers config delivery -> ready delivery (delivery_now env) db ->
  let db' := (run (deliver_once config delivery env) db).2 in
  (forall id m, t_email_outbox db !! id = Some m -> email_final m = true ->
     t_email_outbox db' !! id = Some m)
  /\ remaining delivery db' <= remaining delivery db
  /\ (remaining delivery db' < remaining delivery db
      \/ forall id m, t_email_outbox db !! id = Some m -> email_final m = true)
  /\ dom (t_email_outbox db') = dom (t_email_outbox db)
  /\ forall next, (delivery_now env <= delivery_now next)%Z ->
       (forall i, delivery_clock env i + duration_seconds (delivery_retry_seconds delivery)
                  <= delivery_now next)%Z ->
       ready delivery (delivery_now next) db'.
Proof.
  intros Hd Hr. destruct (round_run config delivery env db Hd Hr) as (report & db' & -> & Hk' & Hrows).
  destruct Hd as (_ & _ & Hbatch & Hmax). destruct Hr as [Hk Hready]. cbn [snd].
  set (selected := claim_selected _ _ _ _) in Hrows.
  assert (Hsel : forall id m, t_email_outbox db !! id = Some m -> selected_row selected m = true ->
    email_final m = false).
  { intros id m Hm Hs. apply (selected_row_true _ _ _ _ _ _ Hk Hm), selected_claimable in Hs as [Hc _].
    by apply claimable_not_final in Hc. }
  assert (Hdom : dom (t_email_outbox db') = dom (t_email_outbox db)).
  { apply set_eq. intros id. rewrite !elem_of_dom. specialize (Hrows id).
    destruct (t_email_outbox db !! id); [|by rewrite Hrows].
    destruct Hrows as (m' & -> & _). split; intros _; by eexists. }
  assert (Hle : forall id, from_option (attempts_left delivery) 0 (t_email_outbox db' !! id)
    <= from_option (attempts_left delivery) 0 (t_email_outbox db !! id)).
  { intros id. specialize (Hrows id). destruct (t_email_outbox db !! id) as [m|] eqn:Hm; [|by rewrite Hrows].
    destruct Hrows as (m' & -> & Hset). cbn. destruct (selected_row selected m) eqn:Hs; [|by subst].
    apply Nat.lt_le_incl. by eapply settled_costs; [eapply Hsel|]. }
  split_and!; [| | |done|].
  - intros id m Hm Hf. specialize (Hrows id). rewrite Hm in Hrows. destruct Hrows as (m' & Hm' & Hset).
    destruct (selected_row selected m) eqn:Hs; [|by subst]. by rewrite (Hsel _ _ Hm Hs) in Hf.
  - unfold remaining. rewrite Hdom. by apply sum_list_with_decreases.
  - assert (selected = [] \/ exists m0, m0 ∈ selected) as [Esel|[m0 Hm0]]
      by (destruct selected as [|m0 l]; [by left|right; exists m0; left]).
    + right. intros id m Hm. destruct (Hready _ _ Hm) as [Hf|[Hc _]]; [done|]. exfalso.
      assert (m ∈ order_by email_oldest_first (select_where
        (claimable (delivery_now env) (delivery_now env - sending_timeout delivery)%Z) (t_email_outbox db)))
        as Hin by (apply elem_of_order_by, elem_of_select_where; eauto).
      unfold selected, claim_selected in Esel. destruct (order_by _ _) as [|x l]; [by apply elem_of_nil in Hin|].
      destruct (Z.to_nat (delivery_batch_size delivery)) eqn:En; [lia|done].
    + left. unfold remaining. rewrite Hdom. apply sum_list_with_decreases; [auto|].
      pose proof (selected_claimable _ _ _ _ _ Hm0) as [_ [k Hm]].
      exists k. split; [apply elem_of_elements, elem_of_dom; by eexists|].
      pose proof (Hrows k) as Hrow. rewrite Hm in Hrow. rewrite Hm. destruct Hrow as (m' & -> & Hset).
      assert (Hs0 : selected_row selected m0 = true) by by apply (selected_row_true _ _ _ _ _ _ Hk Hm).
      rewrite Hs0 in Hset. cbn. eapply settled_costs; [by eapply Hsel|exact Hset].
  - intros next Hnow Hclock. split; [done|]. intros id m' Hm'. specialize (Hrows id).
    destruct (t_email_outbox db !! id) as [m|] eqn:Hm; [|congruence].
    destruct Hrows as (m2 & Hm2 & Hset). rewrite Hm' in Hm2. injection Hm2 as <-.
    destruct (selected_row selected m); [by eapply settled_ready|subst m'].
    destruct (Hready _ _ Hm) as [Hf|[Hc Ha]]; [by left|right]. split; [by eapply claimable_later|done].
Qed.

(** C14. The outbox drains.  With a provider configured and every unfinished
    message due, a worker that runs again and again, each round late enough for
    what the last one put off, finishes: after as many rounds as attempts can
    be left, whatever the provider answers, every message has been sent or has
    failed for good, no round stops on an error, and those that were done
    before are as they were. *)
Theorem outbox_drains config delivery first rest db :
  delivers config delivery -> ready delivery (delivery_now first) db ->
  spaced delivery first rest -> remaining delivery db <= length (first :: rest) ->
  let db' := deliver_rounds config delivery db (first :: rest) in
  dom (t_email_outbox db') = dom (t_email_outbox db)
  /\ (forall id m', t_email_outbox db' !! id = Some m' -> email_final m' = true)
  /\ (forall id m, t_email_outbox db !! id = Some m -> email_final m = true ->
       t_email_outbox db' !! id = Some m)
  /\ (forall before env after, first :: rest = before ++ env :: after ->
       exists report, (run (deliver_once config delivery env) (deliver_rounds config delivery db before)).1
         = Ok report).
Proof.
  intros Hd. revert first db. induction rest as [|next rest IH]; intros first db Hr Hsp Hlen db';
    destruct (round_progress config delivery first db Hd Hr) as (Hfin & Hle & Hlt & Hdom & Hnext);
    set (db1 := (run (deliver_once config delivery first) db).2) in *.
  - change db' with db1. split_and!; [done| |done|].
    + intros id m' Hm'. destruct Hlt as [Hlt|Hall].
      * simpl in Hlen. assert (remaining delivery db1 = 0) as H0 by lia.
        by apply (proj1 (remaining_zero delivery db1) H0 id).
      * assert (is_Some (t_email_outbox db !! id)) as [m Hm].
        { apply elem_of_dom. rewrite <- Hdom. apply elem_of_dom. by eexists. }
        rewrite (Hfin _ _ Hm (Hall _ _ Hm)) in Hm'. injection Hm' as <-. by eapply Hall.
    + intros [|x before] env after Heq; [|by destruct before]. injection Heq as <- <-.
      destruct (round_run config delivery first db Hd Hr) as (report & db2 & Hrun & _).
      exists report. simpl. by rewrite Hrun.
  - destruct Hsp as (Hnow & Hclock & Hsp).
    assert (Hlen1 : remaining delivery db1 <= length (next :: rest)).
    { simpl in *. destruct Hlt as [Hlt|Hall]; [lia|]. apply (remaining_zero delivery) in Hall. lia. }
    destruct (IH next db1 (Hnext next Hnow Hclock) Hsp Hlen1) as (Hdom' & Hall & Hkept & Hoks).
    change db' with (deliver_rounds config delivery db1 (next :: rest)). split_and!; [congruence|done| |].
    + intros id m Hm Hf. apply Hkept; [by apply Hfin|done].
    + intros [|e before] env after Heq.
      * injection Heq as <- <-. destruct (round_run config delivery first db Hd Hr) as (report & db2 & Hrun & _).
        exists report. simpl. by rewrite Hrun.
      * injection Heq as <- Heq. exact (Hoks before env after Heq).
Qed.
End worker_properties.
