(* ===== verification/AccountRoutes.v ===== *)
(** * Account lifecycle

    [apps/api/src/http]'s account_lifecycle and account_routes: invitations,
    e-mail verification and password recovery.  A page draws a secret, stores
    its hash as an account token and queues a message with the secret
    encrypted; the worker sends the link; the page behind the link hashes the
    secret again. *)

From S2P Require Import Prelude RustStr Domain Authn Oidc Http Codec Store.
From S2P Require Import SessionStore Directory Lifecycle AccountStore AuditStore OutboxStore.
From S2P Require Import Handler KeyStore RateLimit OAuthPolicy RequestContext BrowserSession Login Delivery.
From Stdlib Require Import Ascii.

(** What a page draws: clocks, random values and identifiers. *)
Record AccountEnv := mk_AccountEnv {
  account_session_now : OffsetDateTime;
  account_enforce_now : OffsetDateTime;
  account_failure_now : OffsetDateTime;
  account_check_now : OffsetDateTime;
  account_now : OffsetDateTime;
  account_new_user_id : Uuid;
  account_new_user_now : OffsetDateTime;
  account_secret_id : Uuid;
  account_secret : string;
  account_nonce : string;
  account_queue_now : OffsetDateTime;
  account_message_id : Uuid;
  account_salt : string;
  account_event_id : Uuid;
  account_event_now : OffsetDateTime;
}.

(** ** Queueing a link *)

(* apps/api/src/http/account_lifecycle/delivery.rs:12-23 AccountLifecycleEmail *)
Record AccountLifecycleEmail := mk_AccountLifecycleEmail {
  lifecycle_kind : AccountTokenKind;
  lifecycle_user_id : option Uuid;
  lifecycle_email : string;
  lifecycle_created_by_user_id : option Uuid;
  lifecycle_ttl : Z;
  lifecycle_template : string;
  lifecycle_subject : string;
  lifecycle_action_path : string;
  lifecycle_body_intro : string;
  lifecycle_metadata : Value;
}.
(* apps/api/src/http/account_lifecycle/delivery.rs:104-115 queued_delivery_response *)
Record QueuedDelivery := mk_QueuedDelivery {
  queued_email_outbox_id : Uuid;
  queued_recipient_email : string;
  queued_expires_at : OffsetDateTime;
}.
(* apps/api/src/http/account_lifecycle/delivery.rs:124-130 account_token_kind_label *)
Definition account_token_kind_label (kind : AccountTokenKind) : string :=
  match kind with
  | EmailVerification => "email_verification"
  | PasswordRecovery => "password_recovery"
  | Invitation => "invitation"
  end.
Definition lifecycle_body (intro : string) : string :=
  intro +:+ newline +:+ newline +:+ "Open this link to continue: {{action_url}}" +:+ newline +:+ newline
  +:+ "If you did not request this email, ignore it.".

Section lifecycle.
Context {CC : CryptoCrates} {TC : TokenCrates} {AG : AesGcm}.

(* apps/api/src/http/account_lifecycle/delivery.rs:117-122 account_token_aad *)
Definition account_token_aad (kind : AccountTokenKind) (token_id : Uuid) : string :=
  "cairnid:account-token-delivery:" +:+ account_token_kind_label kind +:+ ":" +:+ uuid_to_string token_id.
Definition lifecycle_token (state : AppState) (env : AccountEnv) (request : AccountLifecycleEmail)
    : AccountToken :=
  mk_AccountToken (account_secret_id env) (state_organization_id state) (lifecycle_kind request)
    (lifecycle_user_id request) (lifecycle_email request) (hash_token (account_secret env))
    (lifecycle_created_by_user_id request) (account_queue_now env)
    (account_queue_now env + lifecycle_ttl request)%Z None (lifecycle_metadata request).
Definition lifecycle_message (state : AppState) (env : AccountEnv) (request : AccountLifecycleEmail)
    (encrypted_delivery : option EncryptedSecret) : EmailOutboxMessage :=
  mk_EmailOutboxMessage (account_message_id env) (state_organization_id state) (lifecycle_email request)
    (lifecycle_subject request) (lifecycle_body (lifecycle_body_intro request))
    (lifecycle_template request) (Some (lifecycle_action_path request))
    (encrypted_ciphertext <$> encrypted_delivery) (encrypted_nonce <$> encrypted_delivery)
    "queued" 0 None None
    (Object [("account_token_id", String_ (uuid_to_string (account_secret_id env)));
             ("kind", String_ (account_token_kind_label (lifecycle_kind request)));
             ("encrypted_delivery_token", Bool (is_some encrypted_delivery))])
    (account_queue_now env) (account_queue_now env) None None.
(** [encrypt_secret] where there is a key, nothing in development, an error
    without a key in production. *)
Definition encrypted_delivery (state : AppState) (env : AccountEnv) (kind : AccountTokenKind)
    : result ApiError (option EncryptedSecret) :=
  match config_key_encryption_key state with
  | Some key =>
      Some <$> map_err (fun _ => api_oidc_error)
        (encrypt_secret (account_nonce env) (account_secret env) key
           (account_token_aad kind (account_secret_id env)))
  | None =>
      if bool_decide (config_environment state = Development) then Ok None
      else Err (api_status 500
             "CAIRN_KEY_ENCRYPTION_KEY is required for account lifecycle email delivery")
  end.
(* apps/api/src/http/account_lifecycle/delivery.rs:25-102 queue_account_lifecycle_email *)
Definition queue_account_lifecycle_email (state : AppState) (env : AccountEnv)
    (request : AccountLifecycleEmail) : Handler QueuedDelivery :=
  let token := lifecycle_token state env request in
  do! encrypted := lift (encrypted_delivery state env (lifecycle_kind request)) in
  let message := lifecycle_message state env request encrypted in
  do! _ := query (insert_account_token_and_email_outbox_message token message) in
  succeed (mk_QueuedDelivery (email_id message) (email_recipient_email message)
             (account_token_expires_at token)).

(* apps/api/src/http/account_lifecycle/token.rs:6-27 valid_account_token *)
Definition valid_account_token (state : AppState) (now : OffsetDateTime) (token_hash : string)
    (kind : AccountTokenKind) : Handler AccountToken :=
  do! token := query (get_account_token_by_hash token_hash kind) in
  do! token := some_or token (api_bad_request "invalid account token") in
  do! _ := reject_if
    (negb (N.eqb (account_token_organization_id token) (state_organization_id state))
     || is_some (account_token_consumed_at token) || (account_token_expires_at token <=? now)%Z)
    (api_bad_request "account token expired or already used") in
  succeed token.
End lifecycle.

(** ** The pages *)

(* apps/api/src/http/account_routes/invitation.rs:136-139 CreateInvitationRequest *)
Record CreateInvitationRequest := mk_CreateInvitationRequest {
  invitation_email : string;
  invitation_display_name : string;
}.

Section routes.
Context {CC : CryptoCrates} {TC : TokenCrates} {AG : AesGcm} {HC : HttpCrates} {UU : UuidCrate}.
Context {TF : TimeFormat} {AH : Argon2Hash}.

Definition account_audit (env : AccountEnv) (event : AuditEventBuilder) : Handler unit :=
  query (insert_audit_event (audit_build (account_event_id env) (account_event_now env) event)).
Definition email_metadata_of (email : string) : Value := Object [("email", String_ email)].

(** [None] is the reply [already_verified]. *)
(* apps/api/src/http/account_routes/email_verification.rs:24-71 request_email_verification *)
Definition request_email_verification (state : AppState) (env : AccountEnv) (headers : HeaderMap)
    : Handler (option QueuedDelivery) :=
  do! session := require_session state (account_session_now env) headers in
  do! _ := lift (require_csrf headers) in
  do! user := query (get_user (session_user_id session)) in
  do! user := some_or user user_missing in
  if user_email_verified user then succeed None
  else
  do! delivery := queue_account_lifecycle_email state env
    (mk_AccountLifecycleEmail EmailVerification (Some (user_id user)) (user_email user)
       (Some (user_id user)) (duration_hours 24) "email_verification"
       "Verify your Cairn Identity email" "/verify-email"
       "Verify this email address for Cairn Identity." (Object [])) in
  do! _ := account_audit env
    (audit_user (state_organization_id state) (user_id user) "account.email_verification_requested"
       (uuid_to_string (user_id user))) in
  succeed (Some delivery).

(* apps/api/src/http/account_routes/email_verification.rs:73-115 confirm_email_verification *)
Definition confirm_email_verification (state : AppState) (env : AccountEnv) (headers : HeaderMap)
    (submitted_token : string) : Handler unit :=
  do! _ := lift (require_csrf headers) in
  do! token := valid_account_token state (account_check_now env) (hash_token submitted_token)
                 EmailVerification in
  do! user_id := some_or (account_token_user_id token)
                   (api_bad_request "invalid verification token") in
  do! consumed := query (consume_account_token_and_set_user_email_verified (account_token_id token)
                           user_id (account_now env)) in
  do! _ := reject_if (negb consumed)
             (api_bad_request "verification token expired or already used") in
  account_audit env
    (audit_with_metadata (email_metadata_of (account_token_email token))
       (audit_system (state_organization_id state) "account.email_verified" (uuid_to_string user_id))).

(** The account that is invited. *)
Definition invited_user (state : AppState) (env : AccountEnv) (email display_name : string)
    : Handler User :=
  do! existing := query (find_user_by_email (state_organization_id state) email) in
  match existing with
  | Some existing =>
      if is_some (uwp_password_hash existing)
      then fail (api_status 409 "user already has credentials")
      else succeed (uwp_user existing)
  | None =>
      do! user := lift (map_err api_domain_error
        (User_new (account_new_user_id env) (account_new_user_now env) (state_organization_id state)
           email display_name)) in
      do! _ := query (create_user user None) in
      succeed user
  end.
(** [account_now] is the clock of the proof of recent authentication. *)
(* apps/api/src/http/account_routes/invitation.rs:26-86 create_invitation *)
Definition create_invitation (state : AppState) (env : AccountEnv) (headers : HeaderMap)
    (payload : CreateInvitationRequest) : Handler QueuedDelivery :=
  do! actor := require_recent_admin_session state (account_session_now env) (account_now env) headers in
  do! _ := lift (require_csrf headers) in
  do! email := lift (map_err api_domain_error (normalize_email (invitation_email payload))) in
  do! user := invited_user state env email (invitation_display_name payload) in
  do! delivery := queue_account_lifecycle_email state env
    (mk_AccountLifecycleEmail Invitation (Some (user_id user)) (user_email user)
       (Some (session_user_id actor)) (duration_days 7) "account_invitation"
       "Accept your Cairn Identity invitation" "/accept-invitation"
       "You have been invited to Cairn Identity."
       (Object [("created_by_user_id", String_ (uuid_to_string (session_user_id actor)))])) in
  do! _ := account_audit env
    (audit_with_metadata (email_metadata_of (user_email user))
       (audit_user (state_organization_id state) (session_user_id actor) "admin.invitation_created"
          (uuid_to_string (user_id user)))) in
  succeed delivery.

(* apps/api/src/http/account_routes/invitation.rs:88-133 accept_invitation *)
Definition accept_invitation (state : AppState) (env : AccountEnv) (headers : HeaderMap)
    (submitted_token password : string) : Handler unit :=
  do! _ := lift (require_csrf headers) in
  do! token := valid_account_token state (account_check_now env) (hash_token submitted_token)
                 Invitation in
  do! user_id := some_or (account_token_user_id token) (api_bad_request "invalid invitation token") in
  do! password := lift (valid_new_password password) in
  do! password_hash := lift (map_err (fun _ => api_authn_error)
                               (hash_password (account_salt env) password)) in
  do! consumed := query (consume_account_token_and_set_user_password (account_token_id token) user_id
                           password_hash true false (account_now env)) in
  do! _ := reject_if (negb consumed) (api_bad_request "invitation token expired or already used") in
  account_audit env
    (audit_with_metadata (email_metadata_of (account_token_email token))
       (audit_system (state_organization_id state) "account.invitation_accepted"
          (uuid_to_string user_id))).

Definition recovery_request (user : User) : AccountLifecycleEmail :=
  mk_AccountLifecycleEmail PasswordRecovery (Some (user_id user)) (user_email user) None
    (duration_hours 1) "password_recovery" "Reset your Cairn Identity password" "/reset-password"
    "Reset your Cairn Identity password." (Object []).
(** The reply is [{ "status": "ok" }], whatever was queued. *)
(* apps/api/src/http/account_lifecycle/password.rs:6-11 password_recovery_response *)
Definition password_recovery_response (environment : Environment)
    (queued_delivery : option QueuedDelivery) : Value := Object [("status", String_ "ok")].
(* apps/api/src/http/account_routes/password_recovery.rs:32-96 request_password_recovery *)
Definition request_password_recovery (state : AppState) (env : AccountEnv) (identity : RequestIdentity)
    (headers : HeaderMap) (submitted_email : string) : Handler Value :=
  do! _ := lift (require_csrf headers) in
  do! email := lift (map_err api_domain_error (normalize_email submitted_email)) in
  let keys := account_recovery_rate_limit_keys (state_organization_id state) identity in
  do! _ := enforce_rate_limit (account_enforce_now env) keys in
  do! _ := record_rate_limit_failures (account_failure_now env) keys ACCOUNT_RECOVERY_RATE_LIMIT_WINDOW
             ACCOUNT_RECOVERY_RATE_LIMIT_MAX_ATTEMPTS ACCOUNT_RECOVERY_RATE_LIMIT_BLOCK in
  do! user_with_password := query (find_user_by_email (state_organization_id state) email) in
  do! queued_delivery :=
    match user_with_password with
    | Some u =>
        if is_some (uwp_password_hash u) && bool_decide (user_status (uwp_user u) = UserStatus_Active)
        then
          do! delivery := queue_account_lifecycle_email state env (recovery_request (uwp_user u)) in
          do! _ := account_audit env
            (audit_system (state_organization_id state) "account.password_recovery_requested"
               (uuid_to_string (user_id (uwp_user u)))) in
          succeed (Some delivery)
        else succeed None
    | None => succeed None
    end in
  succeed (password_recovery_response (config_environment state) queued_delivery).

(** The reply counts what was revoked. *)
(* apps/api/src/http/account_routes/password_recovery.rs:98-172 complete_password_recovery *)
Definition complete_password_recovery (state : AppState) (env : AccountEnv) (identity : RequestIdentity)
    (headers : HeaderMap) (submitted_token password : string) : Handler PasswordRecoveryMutation :=
  do! _ := lift (require_csrf headers) in
  do! token := valid_account_token state (account_check_now env) (hash_token submitted_token)
                 PasswordRecovery in
  do! user_id := some_or (account_token_user_id token) (api_bad_request "invalid recovery token") in
  do! password := lift (valid_new_password password) in
  do! password_hash := lift (map_err (fun _ => api_authn_error)
                               (hash_password (account_salt env) password)) in
  let now := account_now env in
  let '(ip_address, user_agent) := audit_request_context_for_identity identity headers in
  let notification :=
    password_recovery_completed_notification_email state (account_message_id env) token user_id
      ip_address user_agent now in
  do! outcome := query (consume_password_recovery_token_and_reset_user_password
    (mk_PasswordRecoveryInput (account_token_organization_id token) user_id (account_token_id token)
       password_hash (Some notification) now)) in
  do! mutation := some_or outcome (api_bad_request "recovery token expired or already used") in
  do! _ := account_audit env
    (audit_with_metadata
      (Object [("email", String_ (account_token_email token));
               ("sessions_revoked", Number (Z.of_nat (recovery_sessions_revoked mutation)));
               ("access_tokens_revoked", Number (Z.of_nat (recovery_access_tokens_revoked mutation)));
               ("refresh_tokens_revoked", Number (Z.of_nat (recovery_refresh_tokens_revoked mutation)));
               ("account_tokens_consumed", Number (Z.of_nat (recovery_account_tokens_consumed mutation)));
               ("notification_email_outbox_id",
                 opt_string (uuid_to_string <$> recovery_notification_email_outbox_id mutation))])
      (audit_request_context ip_address user_agent
        (audit_system (state_organization_id state) "account.password_recovered"
           (uuid_to_string user_id)))) in
  succeed mutation.
End routes.

(** ** Properties *)

Section account_properties.
Context {CC : CryptoCrates} {TC : TokenCrates} {AG : AesGcm} {HC : HttpCrates} {UU : UuidCrate}.
Context {TF : TimeFormat} {AH : Argon2Hash}.

(** *** From the page to the link *)

Lemma queue_Ok state env request db q db' :
  run (queue_account_lifecycle_email state env request) db = (Ok q, db') ->
  exists encrypted, encrypted_delivery state env (lifecycle_kind request) = Ok encrypted
    /\ t_account_tokens db' = <[account_secret_id env := lifecycle_token state env request]> (t_account_tokens db)
    /\ t_email_outbox db' = <[account_message_id env := lifecycle_message state env request encrypted]>
         (t_email_outbox db)
    /\ t_users db' = t_users db.
Proof.
  intros H. apply lift_then_Ok in H as (encrypted & He & H).
  apply query_then_Ok in H as (u & d & Hi & H). simpl in H. injection H as _ <-.
  unfold insert_account_token_and_email_outbox_message, insert_account_token_record,
    insert_email_outbox_message in Hi. apply transaction_Ok in Hi.
  destruct Hi as [Hi|(d2 & Hi & _)]; db_steps. exists encrypted. done.
Qed.

(** The text of the message with its link. *)
Definition link_body (intro url : string) : string :=
  intro +:+ newline +:+ newline +:+ "Open this link to continue: " +:+ url +:+ newline +:+ newline
  +:+ "If you did not request this email, ignore it.".
Lemma str_replace_app pattern to a s c p :
  pattern = String c p -> contains_char c a = false ->
  str_replace pattern to (a +:+ s) = a +:+ str_replace pattern to s.
Proof.
  intros -> Hc. rewrite contains_char_false in Hc. unfold str_replace.
  induction a as [|d a IH]; [done|].
  cbn [all_bytes] in Hc. apply andb_true_iff in Hc as [Hd Ha].
  change (String d a +:+ ?x) with (String d (a +:+ x)). cbn [str_replace_from].
  rewrite IH by done. unfold starts_with. cbn [strip_prefix]. destruct (Ascii.eqb c d); [done|].
  by rewrite bool_decide_false by (intros [? [=]]).
Qed.
Lemma lifecycle_body_rendered intro url :
  contains_char "{"%char intro = false ->
  str_contains action_url_mark (lifecycle_body intro) = true
  /\ str_replace action_url_mark url (lifecycle_body intro) = link_body intro url.
Proof.
  intros Hi. split.
  - unfold lifecycle_body. clear Hi. induction intro as [|c intro IH]; [reflexivity|].
    cbn [String.append]. simpl. rewrite IH. apply orb_true_r.
  - unfold lifecycle_body, link_body. rewrite (str_replace_app _ _ intro _ "{"%char "{action_url}}") by done.
    reflexivity.
Qed.
Lemma encoded_token_reads secret :
  utf8_valid secret = true ->
  parse_url_encoded_pairs ("token=" +:+ percent_encode_minimal secret) = Ok [("token", secret)].
Proof.
  intros Hutf. apply (parse_encoded_pairs [("token", secret)]). by repeat constructor.
Qed.

(** The link of a queued message. *)
Definition link_of (state : AppState) (path secret : string) : string :=
  trim_end_matches "/"%char (config_public_web_origin state) +:+ path +:+ "?"
  +:+ "token=" +:+ percent_encode_minimal secret.
Lemma lifecycle_message_rendered state env request key encrypted m :
  aes_round_trip AG -> config_key_encryption_key state = Some key ->
  String.length (account_nonce env) = 12 -> utf8_valid (account_secret env) = true ->
  is_empty (uuid_to_string (account_secret_id env)) = false ->
  contains_char "{"%char (lifecycle_body_intro request) = false ->
  encrypted_delivery state env (lifecycle_kind request) = Ok encrypted ->
  mail_content m = mail_content (lifecycle_message state env request encrypted) ->
  exists payload, render_email m state = Ok payload
    /\ payload_to payload = lifecycle_email request
    /\ payload_text payload
       = link_body (lifecycle_body_intro request)
           (link_of state (lifecycle_action_path request) (account_secret env)).
Proof.
  intros Haes Hkey Hn Hutf Hid Hi He Hm.
  unfold encrypted_delivery in He. rewrite Hkey in He.
  destruct (map_err _ (encrypt_secret _ _ _ _)) as [e|] eqn:Ee; [|done]. simpl in He. injection He as <-.
  apply map_err_Ok in Ee.
  destruct m as [id org to subject body template path ciphertext nonce status attempts err provider
    metadata created updated next sent].
  cbn in Hm. injection Hm as -> -> -> -> -> -> -> -> -> -> ->.
  destruct (lifecycle_body_rendered (lifecycle_body_intro request)
    (link_of state (lifecycle_action_path request) (account_secret env)) Hi) as [Hc Hr].
  unfold render_email. cbn [email_body_text email_id email_recipient_email email_subject email_template email_metadata].
  rewrite Hc. unfold action_url. rewrite Hkey.
  cbn [email_action_path email_delivery_token_ciphertext email_delivery_token_nonce email_metadata email_id].
  unfold email_metadata_str. simpl. rewrite Hid. simpl.
  assert (Hk : is_empty (account_token_kind_label (lifecycle_kind request)) = false)
    by by destruct (lifecycle_kind request).
  rewrite Hk. simpl.
  change (mk_EncryptedSecret (encrypted_ciphertext e) (encrypted_nonce e))
    with (mk_EncryptedSecret (encrypted_ciphertext e) (encrypted_nonce e)).
  destruct e as [c n]. cbn [encrypted_ciphertext encrypted_nonce].
  pose proof (encrypt_decrypt _ _ _ _ _ Haes Hn Hutf Ee) as Hd. unfold account_token_aad in Hd.
  rewrite Hd. simpl. eexists. split; [reflexivity|]. split; [done|]. exact Hr.
Qed.

(** A stored token is found by its secret. *)
Definition hashes_unique (db : Database) : Prop :=
  forall k1 k2 t1 t2, t_account_tokens db !! k1 = Some t1 -> t_account_tokens db !! k2 = Some t2 ->
    account_token_token_hash t1 = account_token_token_hash t2 -> t1 = t2.
Lemma valid_account_token_run state now k t db :
  hashes_unique db -> t_account_tokens db !! k = Some t ->
  account_token_organization_id t = state_organization_id state ->
  account_token_consumed_at t = None -> (now < account_token_expires_at t)%Z ->
  run (valid_account_token state now (account_token_token_hash t) (account_token_kind t)) db = (Ok t, db).
Proof.
  intros Hu Ht Ho Hc Hnow. unfold valid_account_token, get_account_token_by_hash, db_gets. simpl.
  rewrite (find_row_unique _ _ k t); [|done|by rewrite !bool_decide_true|].
  - unfold some_or. cbn [ok_or map_err]. rewrite lift_Ok_bind, Ho, N.eqb_refl, Hc. simpl.
    by rewrite (proj2 (Z.leb_gt _ _)).
  - intros k' t' Ht'. rewrite andb_true_iff, !bool_decide_eq_true. intros [Hh _]. by eapply Hu.
Qed.

(** C9. The link in the e-mail works.  When a page has queued a link, the
    message goes to the address of the request, and however the worker has
    claimed, retried or marked it since, it is rendered with a link to the
    page of the web application whose token parameter is the drawn secret; the
    form parser reads the secret back; and as long as the token is neither
    spent nor expired the secret is accepted for the kind it was drawn for. *)
Theorem account_link_round_trip state env request key db q db1 :
  aes_round_trip AG -> config_key_encryption_key state = Some key ->
  String.length (account_nonce env) = 12 -> utf8_valid (account_secret env) = true ->
  is_empty (uuid_to_string (account_secret_id env)) = false ->
  contains_char "{"%char (lifecycle_body_intro request) = false ->
  run (queue_account_lifecycle_email state env request) db = (Ok q, db1) ->
  exists message token,
    t_email_outbox db1 !! account_message_id env = Some message
    /\ t_account_tokens db1 !! account_secret_id env = Some token
    /\ (forall m, mail_content m = mail_content message ->
         exists payload, render_email m state = Ok payload
           /\ payload_to payload = lifecycle_email request
           /\ payload_text payload
              = link_body (lifecycle_body_intro request)
                  (link_of state (lifecycle_action_path request) (account_secret env)))
    /\ parse_url_encoded_pairs ("token=" +:+ percent_encode_minimal (account_secret env))
       = Ok [("token", account_secret env)]
    /\ (forall db2 now, hashes_unique db2 -> t_account_tokens db2 !! account_secret_id env = Some token ->
         (now < account_queue_now env + lifecycle_ttl request)%Z ->
         run (valid_account_token state now (hash_token (account_secret env)) (lifecycle_kind request)) db2
         = (Ok token, db2)).
Proof.
  intros Haes Hkey Hn Hutf Hid Hi H. apply queue_Ok in H as (encrypted & He & Ht & Hm & _).
  exists (lifecycle_message state env request encrypted), (lifecycle_token state env request).
  rewrite Ht, Hm, !lookup_insert_eq. split_and!; try done.
  - intros m Hc. by eapply lifecycle_message_rendered.
  - by apply encoded_token_reads.
  - intros db2 now Hu Hk Hnow. by apply (valid_account_token_run state now _ _ db2 Hu Hk).
Qed.

(** *** Recovering a password *)

Lemma valid_account_token_reads state now h kind db :
  exists r, run (valid_account_token state now h kind) db = (r, db)
    /\ forall t, r = Ok t -> account_token_token_hash t = h /\ account_token_kind t = kind
         /\ account_token_organization_id t = state_organization_id state
         /\ account_token_consumed_at t = None /\ (now < account_token_expires_at t)%Z
         /\ exists k, t_account_tokens db !! k = Some t.
Proof.
  unfold valid_account_token, get_account_token_by_hash, db_gets. simpl.
  destruct (find_row _ _) as [t|] eqn:E; [|by eexists]. unfold some_or. cbn [ok_or].
  rewrite lift_Ok_bind. destruct (negb _ || _ || _) eqn:Ec; [by eexists|].
  exists (Ok t). split; [done|]. intros t' [= <-]. apply find_row_Some in E as (k & Hk & HP).
  rewrite andb_true_iff, !bool_decide_eq_true in HP. rewrite !orb_false_iff in Ec. destruct Ec as [[Ho Hc] He].
  apply negb_false_iff, N.eqb_eq in Ho. apply Z.leb_gt in He.
  split_and!; try tauto; [by destruct (account_token_consumed_at t)|eauto].
Qed.
(** A link in a chain of checks that change nothing. *)
Lemma check_then {A B} (h : Handler A) (f : A -> Handler B) db r db' r1 :
  run h db = (r1, db) -> run (handler_bind h f) db = (r, db') ->
  (exists e, r = Err e /\ db' = db) \/ exists a, r1 = Ok a /\ run (f a) db = (r, db').
Proof.
  intros Hh. unfold handler_bind. rewrite run_bind, Hh. destruct r1 as [a|e]; [eauto|].
  intros [= <- <-]. eauto.
Qed.
Lemma lift_check {A B} (x : result ApiError A) (f : A -> Handler B) db r db' :
  run (handler_bind (lift x) f) db = (r, db') ->
  (exists e, r = Err e /\ db' = db) \/ exists a, x = Ok a /\ run (f a) db = (r, db').
Proof. by apply check_then. Qed.

Lemma audited_tables {A} env event (x : A) db r db' :
  run (do! _ := account_audit env event in succeed x) db = (r, db') ->
  exists f, db' = on_audit_events f db.
Proof.
  assert (Hid : db = on_audit_events (fun t => t) db) by by destruct db.
  intros H. unfold account_audit, insert_audit_event, handler_bind in H. rewrite run_bind in H. simpl in H.
  unfold db_bind, db_check, db_modify in H. destruct (absent _ _); simpl in H; [|injection H as _ <-; eauto].
  destruct (fk_organization _ _); simpl in H; injection H as _ <-; eauto.
Qed.
(** C8. Recovering a password.  The page either refuses and changes nothing,
    or it was called with the CSRF token, a password of at least 12 bytes and
    the secret of a live recovery token that went to the address its user
    still has; then the user, active and with a password before, has the hash
    of the new one and a verified address, the token and every other recovery
    token of the user are spent, and no session, access token or refresh token
    of the user is live, even if recording the audit event should fail. *)
Theorem complete_recovery_spec state env identity headers submitted password db r db' :
  account_tokens_keyed db ->
  run (complete_password_recovery state env identity headers submitted password) db = (r, db') ->
  (exists e, r = Err e /\ db' = db)
  \/ exists k t u uid h,
       require_csrf headers = Ok tt /\ 12 <= String.length password
       /\ hash_password (account_salt env) password = Ok h
       /\ t_account_tokens db !! k = Some t /\ account_token_token_hash t = hash_token submitted
       /\ account_token_kind t = PasswordRecovery /\ account_token_consumed_at t = None
       /\ (account_check_now env < account_token_expires_at t)%Z
       /\ (account_now env < account_token_expires_at t)%Z
       /\ account_token_user_id t = Some uid /\ t_users db !! uid = Some u
       /\ user_email (uwp_user u) = account_token_email t
       /\ user_status (uwp_user u) = UserStatus_Active /\ is_Some (uwp_password_hash u)
       /\ t_users db' = <[uid := user_set_password h (user_set_email_verified true (account_now env)) u]>
                          (t_users db)
       /\ t_account_tokens db' !! k = Some (account_token_spend (account_now env) t)
       /\ no_live_recovery_token (state_organization_id state) uid (account_now env) db'
       /\ user_credentials_dead (state_organization_id state) uid db'.
Proof.
  intros Hkeyed. unfold complete_password_recovery.
  intros [?|([] & Hcsrf & H)]%lift_check; [by left|].
  destruct (valid_account_token_reads state (account_check_now env) (hash_token submitted)
    PasswordRecovery db) as (rt & Hrt & Htok).
  destruct (check_then _ _ _ _ _ _ Hrt H) as [?|(t & -> & H')]; [by left|]. clear H. rename H' into H.
  destruct (Htok t eq_refl) as (Hh & Hk & Ho & Hc & Hexp & k & Ht). clear Htok Hrt.
  apply lift_check in H as [?|(uid & Huid%ok_or_Ok & H)]; [by left|].
  apply lift_check in H as [?|(pw & Hpw & H)]; [by left|].
  unfold valid_new_password in Hpw. destruct (String.length password <? 12) eqn:El; [done|].
  injection Hpw as <-. apply Nat.ltb_ge in El.
  apply lift_check in H as [?|(h & Hhash%map_err_Ok & H)]; [by left|]. cbv zeta in H.
  destruct (audit_request_context_for_identity identity headers) as [ip agent].
  set (input := mk_PasswordRecoveryInput _ _ _ _ _ _) in H.
  pose proof (Hkeyed _ _ Ht) as Hid. unfold handler_bind at 1 in H. rewrite run_bind in H.
  destruct (run (query (consume_password_recovery_token_and_reset_user_password input)) db) as [ro d] eqn:Ec.
  simpl in Ec. destruct (consume_password_recovery_token_and_reset_user_password input db) as [rc dc] eqn:Er.
  injection Ec as <- <-.
  destruct (recover_password_spec input db rc dc Hkeyed Er) as (Herr & Hnone & Hsome).
  destruct rc as [[m|]|e].
  - right. destruct (Hsome m eq_refl) as (t' & u & Hrec & Husers & Hspent & Hdead & Hcred & _ & _).
    unfold recoverable in Hrec. cbn in Hrec, Husers, Hspent, Hdead, Hcred. rewrite Hid, Ho in *.
    destruct Hrec as (Ht' & Hu & _ & _ & _ & _ & Hexp2 & _ & He & Hs & Hp).
    rewrite Ht in Ht'. injection Ht' as <-.
    cbn [map_err] in H. unfold some_or in H. cbn [ok_or] in H. rewrite lift_Ok_bind in H.
    apply audited_tables in H as [f ->]. exists k, t, u, uid, h. done.
  - left. simpl in H. destruct (Hnone eq_refl) as [-> _]. injection H as <- <-. eauto.
  - left. simpl in H. injection H as <- <-. rewrite (Herr e eq_refl). eauto.
Qed.
End account_properties.
