(* ===== verification/Listing.v ===== *)
(** * Listings page by page

    [apps/api/src/http]'s admin_query: the query strings of the listings,
    their opaque cursors, and the page that is made of the rows of a
    statement which asked for one row more than the page holds. *)

From S2P Require Import Prelude RustStr Domain Authn Oidc Http Codec Store.
From S2P Require Import ClientStore SessionStore Directory AuditStore ConsentStore.
From S2P Require Import Handler BrowserSession Mfa.
From Stdlib Require Import Ascii.
From stdpp Require Import sorting.

(** [OffsetDateTime::from_unix_timestamp_nanos]; its inverse is the identity. *)
Class TimeNanos := { from_unix_timestamp_nanos : Z -> option OffsetDateTime }.

(** [OffsetDateTime::parse(value, &Rfc3339)]. *)
Class Rfc3339Parse := { rfc3339_parse : string -> option OffsetDateTime }.

(** ** The listing of clients *)

(* crates/database/src/types/filters.rs:40-46 OidcClientListFilter *)
Record OidcClientListFilter := mk_OidcClientListFilter {
  filter_client_search_prefix : option string;
  filter_public_client : option bool;
  filter_client_status : option OidcClientStatus;
  filter_grant_type : option OidcGrantType;
  filter_scope : option string;
}.
Definition client_matches (like : string -> string -> bool) (filter : OidcClientListFilter)
    (c : OidcClient) : bool :=
  filtered (prefix_search_pattern (filter_client_search_prefix filter))
    (fun p => like (client_client_id c) p || like (client_name c) p)
  && filtered (filter_public_client filter) (fun b => Bool.eqb (client_public_client c) b)
  && filtered (filter_client_status filter) (fun s => bool_decide (client_status c = s))
  && filtered (filter_grant_type filter) (contains (client_grant_types c))
  && filtered (filter_scope filter) (contains (client_allowed_scopes c)).
(** [like] is [lower(column) LIKE pattern], PostgreSQL's. *)
(* crates/database/src/oidc_clients/listings.rs:32-82 list_oidc_clients_page_filtered *)
Definition list_oidc_clients_page_filtered (like : string -> string -> bool) (organization_id : Uuid)
    (filter : OidcClientListFilter) (after : option ListCursor) (limit : nat) : DB (list OidcClient) :=
  db_gets (fun db =>
    take limit (order_by (created_desc client_created_at client_uuid)
      (select_where (fun c =>
         N.eqb (client_organization_id c) organization_id
         && after_cursor client_created_at client_uuid after c && client_matches like filter c)
         (t_oidc_clients db)))).
(* crates/database/src/oidc_clients/listings.rs:17-30 list_oidc_clients_page *)
Definition list_oidc_clients_page (like : string -> string -> bool) (organization_id : Uuid)
    (after : option ListCursor) (limit : nat) : DB (list OidcClient) :=
  list_oidc_clients_page_filtered like organization_id
    (mk_OidcClientListFilter None None None None None) after limit.
(* crates/database/src/oidc_clients/listings.rs:8-15 list_oidc_clients *)
Definition list_oidc_clients (like : string -> string -> bool) (organization_id : Uuid) (limit : nat)
    : DB (list OidcClient) := list_oidc_clients_page like organization_id None limit.

(** ** Pages and cursors *)

Definition ADMIN_LIST_QUERY_MAX_BYTES : nat := 512.
Definition ADMIN_LIST_DEFAULT_LIMIT : Z := 100.
Definition ADMIN_LIST_MAX_LIMIT : Z := 250.

(* apps/api/src/http/admin_query/pagination.rs:12-15 ListPage *)
Record ListPage (A : Type) := mk_ListPage {
  page_items : list A;
  page_next_cursor : option string;
}.
Arguments mk_ListPage {A} page_items page_next_cursor.
Arguments page_items {A} l.
Arguments page_next_cursor {A} l.
(* apps/api/src/http/admin_query/pagination.rs:18-21 AdminListQuery *)
Record AdminListQuery := mk_AdminListQuery {
  list_limit : Z;
  list_cursor : option ListCursor;
}.
(* apps/api/src/http/admin_query/pagination.rs:34-36 fetch_limit *)
Definition fetch_limit (query : AdminListQuery) : Z := list_limit query + 1.
(* apps/api/src/http/admin_query/pagination.rs:23-31 ListQueryLabels *)
Record ListQueryLabels := mk_ListQueryLabels {
  too_large : string;
  invalid_query : string;
  duplicate_parameter : string;
  invalid_limit : string;
  limit_out_of_range : string;
  invalid_cursor : string;
  unsupported_parameter : string;
}.
Definition admin_list_labels : ListQueryLabels :=
  mk_ListQueryLabels "admin list query too large" "invalid admin list query"
    "duplicate admin list parameter" "invalid admin list limit" "admin list limit out of range"
    "invalid admin list cursor" "unsupported admin list parameter".

Definition url_safe_byte (b : ascii) : bool :=
  in_range 65 90 b || in_range 97 122 b || in_range 48 57 b || Ascii.eqb b "-" || Ascii.eqb b "_".

Section cursors.
Context {CC : CryptoCrates} {TC : TokenCrates} {UU : UuidCrate} {BD : Base64Decode} {TN : TimeNanos}.

Definition cursor_payload (cursor : ListCursor) : string :=
  i64_to_string (cursor_created_at cursor) +:+ "." +:+ uuid_to_string (cursor_tie_breaker_id cursor).
(* apps/api/src/http/admin_query/pagination.rs:132-139 encode_admin_list_cursor *)
Definition encode_admin_list_cursor (cursor : ListCursor) : string :=
  base64url_encode (cursor_payload cursor).
(* apps/api/src/http/admin_query/pagination.rs:147-176 decode_list_cursor *)
Definition decode_list_cursor (value invalid_cursor_message : string) : result ApiError ListCursor :=
  let invalid := api_bad_request invalid_cursor_message in
  if is_empty value || (128 <? String.length value)%nat || negb (all_bytes url_safe_byte value)
  then Err invalid
  else
    let? decoded := ok_or (base64url_decode value) invalid in
    let? decoded := ok_or (if utf8_valid decoded then Some decoded else None) invalid in
    let? (created_at, tie_breaker_id) := ok_or (split_once "." decoded) invalid in
    let? created_at := ok_or (parse_i128 created_at ≫= from_unix_timestamp_nanos) invalid in
    let? tie_breaker_id := ok_or (Uuid_parse_str tie_breaker_id) invalid in
    Ok (mk_ListCursor created_at tie_breaker_id).
(* apps/api/src/http/admin_query/pagination.rs:141-145 decode_admin_list_cursor *)
Definition decode_admin_list_cursor (value : string) : result ApiError ListCursor :=
  decode_list_cursor value "invalid admin list cursor".

(* apps/api/src/http/admin_query/pagination.rs:108-130 list_page *)
Definition list_page {A} (rows : list A) (limit : Z) (cursor_for_item : A -> ListCursor) : ListPage A :=
  let limit := Z.to_nat limit in
  let has_more := (limit <? length rows)%nat in
  let rows := if has_more then take limit rows else rows in
  mk_ListPage rows
    (if has_more then (fun x => encode_admin_list_cursor (cursor_for_item x)) <$> last rows else None).

(** ** The parameters of a listing *)

(** The [limit] and [cursor] every listing has. *)
Record PageParts := mk_PageParts {
  part_limit : option Z;
  part_cursor : option ListCursor;
}.
Definition no_parts : PageParts := mk_PageParts None None.
(** [value.parse::<i64>()] within [1..=max_limit]. *)
Definition limit_parameter (labels : ListQueryLabels) (max_limit : Z) (value : string)
    : result ApiError Z :=
  let? parsed := ok_or (parse_i64 value) (api_bad_request (invalid_limit labels)) in
  if (parsed <? 1)%Z || (max_limit <? parsed)%Z
  then Err (api_bad_request (limit_out_of_range labels)) else Ok parsed.
(** The arms [limit] and [cursor] of the [match]; [None] for another name. *)
Definition page_parameter (labels : ListQueryLabels) (max_limit : Z) (parts : PageParts)
    (name value : string) : option (result ApiError PageParts) :=
  let duplicate := Err (api_bad_request (duplicate_parameter labels)) in
  if String.eqb name "limit" then
    Some (if is_some (part_limit parts) then duplicate
          else let? limit := limit_parameter labels max_limit value in
               Ok (mk_PageParts (Some limit) (part_cursor parts)))
  else if String.eqb name "cursor" then
    Some (if is_some (part_cursor parts) then duplicate
          else let? cursor := decode_list_cursor value (invalid_cursor labels) in
               Ok (mk_PageParts (part_limit parts) (Some cursor)))
  else None.
Definition page_of (default_limit : Z) (parts : PageParts) : AdminListQuery :=
  mk_AdminListQuery (default default_limit (part_limit parts)) (part_cursor parts).

(** [for (name, value) in pairs { .. }] with [?] and early returns. *)
Fixpoint each_pair {S} (step : S -> string -> string -> result ApiError S) (s : S)
    (pairs : list (string * string)) : result ApiError S :=
  match pairs with
  | [] => Ok s
  | (name, value) :: pairs => let? s := step s name value in each_pair step s pairs
  end.
(** The checks before the loop. *)
Definition listing_pairs (labels : ListQueryLabels) (raw_query : option string)
    : result ApiError (list (string * string)) :=
  let query := default "" raw_query in
  if (ADMIN_LIST_QUERY_MAX_BYTES <? String.length query)%nat
  then Err (api_bad_request (too_large labels))
  else map_err (fun _ => api_bad_request (invalid_query labels)) (parse_url_encoded_pairs query).

Definition list_step (labels : ListQueryLabels) (max_limit : Z) (parts : PageParts)
    (name value : string) : result ApiError PageParts :=
  match page_parameter labels max_limit parts name value with
  | Some r => r
  | None => Err (api_bad_request (unsupported_parameter labels))
  end.
(* apps/api/src/http/admin_query/pagination.rs:60-106 list_query *)
Definition list_query (raw_query : option string) (default_limit max_limit : Z)
    (labels : ListQueryLabels) : result ApiError AdminListQuery :=
  let? pairs := listing_pairs labels raw_query in
  let? parts := each_pair (list_step labels max_limit) no_parts pairs in
  Ok (page_of default_limit parts).
(* apps/api/src/http/admin_query/pagination.rs:39-58 admin_list_query *)
Definition admin_list_query (raw_query : option string) (default_limit max_limit : Z)
    : result ApiError AdminListQuery :=
  list_query raw_query default_limit max_limit admin_list_labels.

(** A prefix to search for: trimmed, at most 128 bytes, nothing when empty. *)
Definition prefix_parameter (value too_large_message : string) : result ApiError (option string) :=
  let trimmed := trim value in
  if (128 <? String.length trimmed)%nat then Err (api_bad_request too_large_message)
  else Ok (if is_empty trimmed then None else Some trimmed).
Definition duplicate_admin_parameter {A} : result ApiError A :=
  Err (api_bad_request "duplicate admin list parameter").
Definition unsupported_admin_parameter {A} : result ApiError A :=
  Err (api_bad_request "unsupported admin list parameter").

(** *** Users *)

(* apps/api/src/http/admin_query/users.rs:95-102 admin_user_status_filter *)
Definition admin_user_status_filter (value : string) : result ApiError UserStatus :=
  if String.eqb value "active" then Ok UserStatus_Active
  else if String.eqb value "suspended" then Ok UserStatus_Suspended
  else if String.eqb value "locked" then Ok UserStatus_Locked
  else Err (api_bad_request "invalid admin user status filter").
(* apps/api/src/http/admin_query/users.rs:12-15 AdminUserListQuery *)
Record AdminUserListQuery := mk_AdminUserListQuery {
  user_query_page : AdminListQuery;
  user_query_filter : UserListFilter;
}.
(** The page, the prefix with whether it was seen, and the status. *)
Record UserParts := mk_UserParts {
  user_parts : PageParts;
  user_search : option (option string);
  user_status_part : option UserStatus;
}.
Definition user_step (max_limit : Z) (s : UserParts) (name value : string) : result ApiError UserParts :=
  match page_parameter admin_list_labels max_limit (user_parts s) name value with
  | Some r => let? parts := r in Ok (mk_UserParts parts (user_search s) (user_status_part s))
  | None =>
      if String.eqb name "q" then
        if is_some (user_search s) then duplicate_admin_parameter
        else let? prefix := prefix_parameter value "admin user search query too large" in
             Ok (mk_UserParts (user_parts s) (Some prefix) (user_status_part s))
      else if String.eqb name "status" then
        if is_some (user_status_part s) then duplicate_admin_parameter
        else let? status := admin_user_status_filter value in
             Ok (mk_UserParts (user_parts s) (user_search s) (Some status))
      else unsupported_admin_parameter
  end.
(* apps/api/src/http/admin_query/users.rs:17-93 admin_user_list_query *)
Definition admin_user_list_query (raw_query : option string) (default_limit max_limit : Z)
    : result ApiError AdminUserListQuery :=
  let? pairs := listing_pairs admin_list_labels raw_query in
  let? s := each_pair (user_step max_limit) (mk_UserParts no_parts None None) pairs in
  Ok (mk_AdminUserListQuery (page_of default_limit (user_parts s))
        (mk_UserListFilter (default None (user_search s)) (user_status_part s))).

(** *** Audit events *)

Context {RP : Rfc3339Parse}.

(* apps/api/src/http/admin_query/audit_events.rs:131-141 admin_audit_prefix_filter *)
Definition admin_audit_prefix_filter (value too_large_message : string)
    : result ApiError (option string) := prefix_parameter value too_large_message.
(* apps/api/src/http/admin_query/audit_events.rs:143-152 admin_audit_actor_kind_filter *)
Definition admin_audit_actor_kind_filter (value : string) : result ApiError AuditActorKind :=
  if String.eqb value "user" then Ok ActorKind_User
  else if String.eqb value "client" then Ok ActorKind_Client
  else if String.eqb value "system" then Ok ActorKind_System
  else Err (api_bad_request "invalid admin audit actor kind filter").
(* apps/api/src/http/admin_query/audit_events.rs:154-157 admin_audit_actor_id_filter *)
Definition admin_audit_actor_id_filter (value : string) : result ApiError Uuid :=
  ok_or (Uuid_parse_str (trim value)) (api_bad_request "invalid admin audit actor_id filter").
(* apps/api/src/http/admin_query/audit_events.rs:159-162 admin_audit_timestamp_filter *)
Definition admin_audit_timestamp_filter (value : string) : result ApiError OffsetDateTime :=
  ok_or (rfc3339_parse (trim value)) (api_bad_request "invalid admin audit timestamp filter").
(* apps/api/src/http/admin_query/audit_events.rs:14-17 AdminAuditEventListQuery *)
Record AdminAuditEventListQuery := mk_AdminAuditEventListQuery {
  audit_query_page : AdminListQuery;
  audit_query_filter : AuditEventListFilter;
}.
Record AuditParts := mk_AuditParts {
  audit_parts : PageParts;
  action_part : option (option string);
  target_part : option (option string);
  actor_kind_part : option AuditActorKind;
  actor_id_part : option Uuid;
  from_part : option OffsetDateTime;
  to_part : option OffsetDateTime;
}.
Definition audit_step (max_limit : Z) (s : AuditParts) (name value : string) : result ApiError AuditParts :=
  let '(mk_AuditParts parts action target kind actor from to) := s in
  match page_parameter admin_list_labels max_limit parts name value with
  | Some r => let? parts := r in Ok (mk_AuditParts parts action target kind actor from to)
  | None =>
      if String.eqb name "action" then
        if is_some action then duplicate_admin_parameter
        else let? p := admin_audit_prefix_filter value "admin audit action filter too large" in
             Ok (mk_AuditParts parts (Some p) target kind actor from to)
      else if String.eqb name "target" then
        if is_some target then duplicate_admin_parameter
        else let? p := admin_audit_prefix_filter value "admin audit target filter too large" in
             Ok (mk_AuditParts parts action (Some p) kind actor from to)
      else if String.eqb name "actor_kind" then
        if is_some kind then duplicate_admin_parameter
        else let? k := admin_audit_actor_kind_filter value in
             Ok (mk_AuditParts parts action target (Some k) actor from to)
      else if String.eqb name "actor_id" then
        if is_some actor then duplicate_admin_parameter
        else let? id := admin_audit_actor_id_filter value in
             Ok (mk_AuditParts parts action target kind (Some id) from to)
      else if String.eqb name "from" then
        if is_some from then duplicate_admin_parameter
        else let? t := admin_audit_timestamp_filter value in
             Ok (mk_AuditParts parts action target kind actor (Some t) to)
      else if String.eqb name "to" then
        if is_some to then duplicate_admin_parameter
        else let? t := admin_audit_timestamp_filter value in
             Ok (mk_AuditParts parts action target kind actor from (Some t))
      else unsupported_admin_parameter
  end.
(* apps/api/src/http/admin_query/audit_events.rs:19-124 admin_audit_event_list_query *)
Definition admin_audit_event_list_query (raw_query : option string) (default_limit max_limit : Z)
    : result ApiError AdminAuditEventListQuery :=
  let? pairs := listing_pairs admin_list_labels raw_query in
  let? s := each_pair (audit_step max_limit) (mk_AuditParts no_parts None None None None None None)
              pairs in
  let? _ := match from_part s, to_part s with
            | Some from, Some to =>
                if (to <=? from)%Z then Err (api_bad_request "admin audit time range invalid")
                else Ok tt
            | _, _ => Ok tt
            end in
  Ok (mk_AdminAuditEventListQuery (page_of default_limit (audit_parts s))
        (mk_AuditEventListFilter (default None (action_part s)) (default None (target_part s))
           (actor_kind_part s) (actor_id_part s) (from_part s) (to_part s))).

(** *** Clients *)

(* apps/api/src/http/admin_query/oidc_clients/filters.rs:6-14 admin_oidc_client_type_filter *)
Definition admin_oidc_client_type_filter (value : string) : result ApiError bool :=
  if String.eqb value "public" then Ok true
  else if String.eqb value "confidential" then Ok false
  else Err (api_bad_request "invalid admin OIDC client type filter").
(* apps/api/src/http/admin_query/oidc_clients/filters.rs:16-24 admin_oidc_client_status_filter *)
Definition admin_oidc_client_status_filter (value : string) : result ApiError OidcClientStatus :=
  if String.eqb value "active" then Ok ClientStatus_Active
  else if String.eqb value "disabled" then Ok ClientStatus_Disabled
  else Err (api_bad_request "invalid admin OIDC client status filter").
(* apps/api/src/http/admin_query/oidc_clients/filters.rs:26-35 admin_oidc_client_grant_type_filter *)
Definition admin_oidc_client_grant_type_filter (value : string) : result ApiError OidcGrantType :=
  if String.eqb value "authorization_code" then Ok AuthorizationCodeGrant
  else if String.eqb value "refresh_token" then Ok RefreshTokenGrant
  else if String.eqb value "client_credentials" then Ok ClientCredentialsGrant
  else Err (api_bad_request "invalid admin OIDC client grant_type filter").
(* apps/api/src/http/admin_query/oidc_clients/filters.rs:37-53 admin_oidc_client_scope_filter *)
Definition admin_oidc_client_scope_filter (value : string) : result ApiError (option string) :=
  let? prefix := prefix_parameter value "admin OIDC client scope filter too large" in
  match prefix with
  | Some scope =>
      if scope_token_is_valid scope then Ok (Some scope)
      else Err (api_bad_request "invalid admin OIDC client scope filter")
  | None => Ok None
  end.
(* apps/api/src/http/admin_query/oidc_clients/types.rs:6-9 AdminOidcClientListQuery *)
Record AdminOidcClientListQuery := mk_AdminOidcClientListQuery {
  client_query_page : AdminListQuery;
  client_query_filter : OidcClientListFilter;
}.
Record ClientParts := mk_ClientParts {
  client_parts : PageParts;
  client_search : option (option string);
  client_type_part : option bool;
  client_status_part : option OidcClientStatus;
  client_grant_part : option OidcGrantType;
  client_scope_part : option (option string);
}.
Definition client_step (max_limit : Z) (s : ClientParts) (name value : string)
    : result ApiError ClientParts :=
  let '(mk_ClientParts parts search type_ status grant scope) := s in
  match page_parameter admin_list_labels max_limit parts name value with
  | Some r => let? parts := r in Ok (mk_ClientParts parts search type_ status grant scope)
  | None =>
      if String.eqb name "q" then
        if is_some search then duplicate_admin_parameter
        else let? p := prefix_parameter value "admin OIDC client search query too large" in
             Ok (mk_ClientParts parts (Some p) type_ status grant scope)
      else if String.eqb name "client_type" then
        if is_some type_ then duplicate_admin_parameter
        else let? t := admin_oidc_client_type_filter value in
             Ok (mk_ClientParts parts search (Some t) status grant scope)
      else if String.eqb name "status" then
        if is_some status then duplicate_admin_parameter
        else let? st := admin_oidc_client_status_filter value in
             Ok (mk_ClientParts parts search type_ (Some st) grant scope)
      else if String.eqb name "grant_type" then
        if is_some grant then duplicate_admin_parameter
        else let? g := admin_oidc_client_grant_type_filter value in
             Ok (mk_ClientParts parts search type_ status (Some g) scope)
      else if String.eqb name "scope" then
        if is_some scope then duplicate_admin_parameter
        else let? sc := admin_oidc_client_scope_filter value in
             Ok (mk_ClientParts parts search type_ status grant (Some sc))
      else unsupported_admin_parameter
  end.
(* apps/api/src/http/admin_query/oidc_clients/parser.rs:15-117 admin_oidc_client_list_query *)
Definition admin_oidc_client_list_query (raw_query : option string) (default_limit max_limit : Z)
    : result ApiError AdminOidcClientListQuery :=
  let? pairs := listing_pairs admin_list_labels raw_query in
  let? s := each_pair (client_step max_limit) (mk_ClientParts no_parts None None None None None) pairs in
  Ok (mk_AdminOidcClientListQuery (page_of default_limit (client_parts s))
        (mk_OidcClientListFilter (default None (client_search s)) (client_type_part s)
           (client_status_part s) (client_grant_part s) (default None (client_scope_part s)))).

(** *** Consent grants *)

(* apps/api/src/http/admin_query/consent_grants/common.rs:84-94 consent_grant_status_filter *)
Definition consent_grant_status_filter (value invalid_status_message : string)
    : result ApiError (option bool) :=
  let value := trim value in
  if String.eqb value "all" then Ok None
  else if String.eqb value "active" then Ok (Some false)
  else if String.eqb value "revoked" then Ok (Some true)
  else Err (api_bad_request invalid_status_message).
(** The page and [filter.revoked]. *)
Definition consent_step (labels : ListQueryLabels) (invalid_status : string) (max_limit : Z)
    (s : PageParts * option (option bool)) (name value : string)
    : result ApiError (PageParts * option (option bool)) :=
  let '(parts, status) := s in
  match page_parameter labels max_limit parts name value with
  | Some r => let? parts := r in Ok (parts, status)
  | None =>
      if String.eqb name "status" then
        if is_some status then Err (api_bad_request (duplicate_parameter labels))
        else let? revoked := consent_grant_status_filter value invalid_status in
             Ok (parts, Some revoked)
      else Err (api_bad_request (unsupported_parameter labels))
  end.
(* apps/api/src/http/admin_query/consent_grants/common.rs:23-87 parse_consent_grant_list_parts *)
Definition parse_consent_grant_list_parts (raw_query : option string) (default_limit max_limit : Z)
    (labels : ListQueryLabels) (invalid_status : string)
    : result ApiError (AdminListQuery * option bool) :=
  let? pairs := listing_pairs labels raw_query in
  let? (parts, status) := each_pair (consent_step labels invalid_status max_limit) (no_parts, None) pairs in
  Ok (page_of default_limit parts, default None status).
(* apps/api/src/http/admin_query/consent_grants/admin.rs:7-31 admin_consent_grant_list_query *)
Definition admin_consent_grant_list_query (raw_query : option string) (default_limit max_limit : Z)
    : result ApiError (AdminListQuery * option bool) :=
  parse_consent_grant_list_parts raw_query default_limit max_limit admin_list_labels
    "invalid admin consent status filter".
(** A cursor is refused with the text of the administration's listings. *)
(* apps/api/src/http/admin_query/consent_grants/session.rs:7-31 session_consent_grant_list_query *)
Definition session_consent_grant_list_query (raw_query : option string) (default_limit max_limit : Z)
    : result ApiError (AdminListQuery * option bool) :=
  parse_consent_grant_list_parts raw_query default_limit max_limit
    (mk_ListQueryLabels "session consent list query too large" "invalid session consent list query"
       "duplicate session consent list parameter" "invalid session consent list limit"
       "session consent list limit out of range" "invalid admin list cursor"
       "unsupported session consent list parameter")
    "invalid session consent status filter".

(** What a reader of the listing does: every page's cursor is the [cursor] of
    the next request, till a page has none. [fetch] is the statement, asked for
    one row more than the page holds. *)
Fixpoint walk_pages {A} (cursor_for_item : A -> ListCursor) (limit : Z)
    (fetch : option ListCursor -> nat -> list A) (fuel : nat) (cursor : option ListCursor)
    : option (list A) :=
  match fuel with
  | O => None
  | S fuel =>
      let query := mk_AdminListQuery limit cursor in
      let page := list_page (fetch cursor (Z.to_nat (fetch_limit query))) limit cursor_for_item in
      match page_next_cursor page with
      | None => Some (page_items page)
      | Some text =>
          match decode_admin_list_cursor text with
          | Err _ => None
          | Ok cursor =>
              rest ← walk_pages cursor_for_item limit fetch fuel (Some cursor);
              Some (page_items page ++ rest)
          end
      end
  end.
(** The rows of a statement that has a page of them, read to the end. *)
Definition rows_of {A} (statement : DB (list A)) (db : Database) : list A :=
  match fst (statement db) with Ok rows => rows | Err _ => [] end.
Definition all_pages {A} (created_at : A -> OffsetDateTime) (id : A -> Uuid) (limit : Z)
    (statement : option ListCursor -> nat -> DB (list A)) (fuel : nat) (db : Database)
    : option (list A) :=
  walk_pages (fun x => mk_ListCursor (created_at x) (id x)) limit
    (fun cursor n => rows_of (statement cursor n) db) fuel None.
End cursors.

(** ** Properties *)

(** *** [ORDER BY] sorts, and commutes with [WHERE] *)

Section sorted.
Context {A : Type} (le : A -> A -> bool).
Context (le_total : forall a b, le a b = true \/ le b a = true).
Context (le_trans : forall a b c, le a b = true -> le b c = true -> le a c = true).

Notation sorted := (StronglySorted (fun a b => le a b = true)).

Lemma insert_by_sorted x l : sorted l -> sorted (insert_by le x l).
Proof.
  induction 1 as [|y l Hl IH Hy]; cbn; [by repeat constructor|].
  destruct (le x y) eqn:E.
  - constructor; [by constructor|]. constructor; [done|]. eapply Forall_impl; [exact Hy|].
    intros z Hz. by eapply le_trans.
  - constructor; [done|]. apply Forall_forall. intros z. rewrite insert_by_perm, elem_of_cons.
    rewrite Forall_forall in Hy. intros [->|Hz]; [|by apply Hy]. destruct (le_total y x); [done|congruence].
Qed.
Lemma order_by_sorted l : sorted (order_by le l).
Proof. induction l as [|x l IH]; cbn; [constructor|by apply insert_by_sorted]. Qed.
Lemma insert_by_least x l : Forall (fun y => le x y = true) l -> insert_by le x l = x :: l.
Proof. destruct 1 as [|y l Hy _]; cbn; [done|by rewrite Hy]. Qed.
Lemma insert_by_filter (P : A -> bool) x l :
  sorted l -> List.filter P (insert_by le x l)
  = if P x then insert_by le x (List.filter P l) else List.filter P l.
Proof.
  induction 1 as [|y l Hl IH Hy]; cbn; [by destruct (P x)|].
  destruct (le x y) eqn:E; cbn.
  - destruct (P x) eqn:Ex; [|done]. destruct (P y) eqn:Ey; cbn; [by rewrite E|].
    symmetry. apply insert_by_least. apply Forall_forall. intros z Hz.
    apply list_elem_of_In, filter_In in Hz as [Hz _]. rewrite Forall_forall in Hy.
    eapply le_trans; [exact E|]. apply Hy. by apply list_elem_of_In.
  - rewrite IH. destruct (P y) eqn:Ey, (P x) eqn:Ex; cbn; by rewrite ?E.
Qed.
Lemma order_by_filter (P : A -> bool) l :
  order_by le (List.filter P l) = List.filter P (order_by le l).
Proof.
  induction l as [|x l IH]; cbn; [done|]. rewrite insert_by_filter by apply order_by_sorted.
  destruct (P x); cbn; by rewrite IH.
Qed.
(** What follows [x] in a sorted list is what is not before or at it. *)
Lemma filter_after before x after :
  sorted (before ++ x :: after) -> (forall y, y ∈ after -> le y x = false) ->
  List.filter (fun y => negb (le y x)) (before ++ x :: after) = after.
Proof.
  intros Hs Ha. assert (Hx : le x x = true) by (destruct (le_total x x); done).
  induction before as [|y before IH].
  - cbn. rewrite Hx. cbn. clear Hs. induction after as [|z after IH]; [done|]. cbn.
    rewrite Ha by left. cbn. f_equal. apply IH. intros y Hy. apply Ha. by right.
  - cbn [app List.filter]. inversion_clear Hs as [|? ? Hl Hy]. rewrite Forall_forall in Hy.
    rewrite Hy by set_solver. cbn. by apply IH.
Qed.
End sorted.

Section keyset.
Context {A : Type} (created_at : A -> OffsetDateTime) (id : A -> Uuid).

Lemma created_desc_total a b : created_desc created_at id a b = true \/ created_desc created_at id b a = true.
Proof.
  unfold created_desc. rewrite !orb_true_iff, !andb_true_iff, !Z.ltb_lt, !Z.eqb_eq, !N.leb_le. lia.
Qed.
Lemma created_desc_trans a b c :
  created_desc created_at id a b = true -> created_desc created_at id b c = true ->
  created_desc created_at id a c = true.
Proof.
  unfold created_desc. rewrite !orb_true_iff, !andb_true_iff, !Z.ltb_lt, !Z.eqb_eq, !N.leb_le. lia.
Qed.
Lemma after_cursor_desc a x :
  after_cursor created_at id (Some (mk_ListCursor (created_at x) (id x))) a
  = negb (created_desc created_at id a x).
Proof.
  apply eq_bool_prop_intro. unfold after_cursor, created_desc. cbn.
  rewrite !Is_true_true, negb_true_iff, orb_false_iff, andb_false_iff, orb_true_iff, andb_true_iff.
  rewrite !Z.ltb_lt, !Z.ltb_ge, !Z.eqb_eq, !Z.eqb_neq, !N.ltb_lt, !N.leb_gt. lia.
Qed.
Lemma after_no_cursor l : List.filter (after_cursor created_at id None) l = l.
Proof. induction l as [|x l IH]; cbn; congruence. Qed.
End keyset.

(** *** Cursors *)

Section pages.
Context {CC : CryptoCrates} {TC : TokenCrates} {UU : UuidCrate} {BD : Base64Decode} {TN : TimeNanos}.

Definition payload_byte (b : ascii) : bool :=
  in_range 97 102 b || in_range 48 57 b || Ascii.eqb b "-" || Ascii.eqb b ".".
(** What the crates are known to do with the cursor of a row: an instant of the
    table is in the range of the clock, an identifier is read back from its
    text of 36 hexadecimal digits and hyphens, and base64url writes a text of
    the alphabet four thirds as long, which it reads back. *)
Record cursor_crates (c : ListCursor) : Prop := {
  clock_range : from_unix_timestamp_nanos (cursor_created_at c) = Some (cursor_created_at c);
  clock_digits : (- 10 ^ 22 < cursor_created_at c < 10 ^ 22)%Z;
  uuid_reads : Uuid_parse_str (uuid_to_string (cursor_tie_breaker_id c)) = Some (cursor_tie_breaker_id c);
  uuid_text : all_bytes payload_byte (uuid_to_string (cursor_tie_breaker_id c)) = true
              /\ String.length (uuid_to_string (cursor_tie_breaker_id c)) <= 36;
  base64_reads : forall s, base64url_decode (base64url_encode s) = Some s;
  base64_text : forall s, s <> "" -> all_bytes payload_byte s = true ->
    all_bytes url_safe_byte (base64url_encode s) = true /\ base64url_encode s <> ""
    /\ 3 * String.length (base64url_encode s) <= 4 * String.length s + 2;
}.

Lemma pretty_digits k n s :
  (n < 10 ^ N.of_nat k)%N -> all_bytes is_ascii_digit s = true ->
  all_bytes is_ascii_digit (pretty_N_go n s) = true
  /\ String.length (pretty_N_go n s) <= k + String.length s.
Proof.
  revert n s. induction k as [|k IH]; intros n s Hn Hs.
  - replace n with 0%N by (cbn in Hn; lia). by rewrite pretty_N_go_0.
  - destruct (decide (n = 0%N)) as [->|Hne]; [rewrite pretty_N_go_0; split; [done|lia]|].
    rewrite pretty_N_go_step by lia.
    assert (Hc : forall j, j < 10 -> is_ascii_digit (pretty_N_char (N.of_nat j)) = true)
      by (intros j Hj; by do 10 (destruct j; [done|]); lia).
    assert (Hd : is_ascii_digit (pretty_N_char (n `mod` 10)) = true).
    { rewrite <- (N2Nat.id (n `mod` 10)). apply Hc. pose proof (N.mod_lt n 10 ltac:(done)). lia. }
    assert (Hq : (n `div` 10 < 10 ^ N.of_nat k)%N).
    { apply N.Div0.div_lt_upper_bound. rewrite Nat2N.inj_succ, N.pow_succ_r' in Hn. lia. }
    assert (Hs' : all_bytes is_ascii_digit (String (pretty_N_char (n `mod` 10)) s) = true)
      by (cbn [all_bytes]; by rewrite Hd, Hs).
    destruct (IH _ _ Hq Hs') as [H1 H2]. split; [done|]. cbn [String.length] in H2. lia.
Qed.
Lemma pretty_N_digits k n :
  (n < 10 ^ N.of_nat (S k))%N ->
  all_bytes is_ascii_digit (pretty n) = true /\ String.length (pretty n) <= S k.
Proof.
  intros Hn. unfold pretty, pretty_N. destruct (decide (n = 0%N)); [split; cbn; [done|lia]|].
  destruct (pretty_digits (S k) n "" Hn eq_refl) as [H1 H2]. split; [done|]. cbn in *. lia.
Qed.
Lemma digit_payload b : is_ascii_digit b = true -> payload_byte b = true /\ Ascii.eqb "." b = false.
Proof. by destruct b as [[] [] [] [] [] [] [] []]. Qed.
Lemma digits_payload s :
  all_bytes is_ascii_digit s = true -> all_bytes payload_byte s = true /\ contains_char "." s = false.
Proof.
  rewrite contains_char_false. induction s as [|b s IH]; [done|]. cbn [all_bytes].
  rewrite !andb_true_iff. intros [Hb%digit_payload Hs%IH]. destruct Hb as [-> ->]. tauto.
Qed.
Lemma instant_text (z : Z) :
  (- 10 ^ 22 < z < 10 ^ 22)%Z -> all_bytes payload_byte (i64_to_string z) = true
  /\ String.length (i64_to_string z) <= 23 /\ contains_char "." (i64_to_string z) = false.
Proof.
  intros Hz. change (10 ^ 22)%Z with 10000000000000000000000%Z in Hz.
  assert (Hpow : (10 ^ N.of_nat 22 = 10000000000000000000000)%N) by reflexivity.
  unfold i64_to_string, pretty, pretty_Z. destruct z as [|p|p].
  - by split_and!; [|cbn; lia|].
  - destruct (pretty_N_digits 21 (N.pos p)) as [Hd Hl]; [rewrite Hpow; lia|].
    apply digits_payload in Hd as [H1 H2]. split_and!; [done| |done].
    clear - Hl. by etransitivity; [exact Hl|lia].
  - destruct (pretty_N_digits 21 (N.pos p)) as [Hd Hl]; [rewrite Hpow; lia|].
    apply digits_payload in Hd as [H1 H2]. rewrite contains_char_false in H2 |- *.
    split_and!; [exact H1| |exact H2].
    clear - Hl. change (S (String.length (pretty (N.pos p))) <= 23). lia.
Qed.
Lemma payload_utf8 s : all_bytes payload_byte s = true -> utf8_valid s = true.
Proof.
  intros Hs. apply ascii_utf8_valid. unfold is_ascii. induction s as [|b s IH]; [done|].
  cbn [all_bytes] in *. apply andb_true_iff in Hs as [Hb Hs]. rewrite IH by done.
  by destruct b as [[] [] [] [] [] [] [] []].
Qed.

(** What a page hands out is accepted for the next. *)
Lemma cursor_round_trip c message :
  cursor_crates c -> decode_list_cursor (encode_admin_list_cursor c) message = Ok c.
Proof.
  intros [Hclock Hdig Huuid [Htext Hlen] Hread Hb64].
  destruct (instant_text _ Hdig) as (Hd & Hl & Hdot).
  assert (Hp : all_bytes payload_byte (cursor_payload c) = true).
  { unfold cursor_payload. by rewrite !all_bytes_app, Hd, Htext. }
  assert (Hne : cursor_payload c <> "").
  { unfold cursor_payload. intros H. apply (f_equal (contains_char ".")) in H.
    rewrite !contains_char_app in H. cbn in H. by rewrite orb_true_r in H. }
  destruct (Hb64 _ Hne Hp) as (Hsafe & Hne' & Hlen').
  unfold decode_list_cursor, encode_admin_list_cursor.
  assert (String.length (base64url_encode (cursor_payload c)) <= 128).
  { unfold cursor_payload in *. rewrite !string_length_app in Hlen'. cbn in Hlen'. lia. }
  rewrite Hsafe, (proj2 (Nat.ltb_ge _ _)) by lia.
  assert (is_empty (base64url_encode (cursor_payload c)) = false) as ->
    by by destruct (base64url_encode (cursor_payload c)).
  rewrite Hread. cbn. rewrite (payload_utf8 _ Hp). cbn. unfold cursor_payload.
  change ("." +:+ ?x) with (String "." x). rewrite (split_once_app "." _ _ Hdot). cbn.
  rewrite parse_i128_pretty by (unfold i128_range; lia). cbn. rewrite Hclock. cbn. rewrite Huuid.
  by destruct c.
Qed.

(** *** A listing page by page *)

Section walk.
Context {A : Type} (created_at : A -> OffsetDateTime) (id : A -> Uuid) (listing : list A) (limit : Z).
Context (le := created_desc created_at id) (cursor_of := fun x => mk_ListCursor (created_at x) (id x)).
Context (Hsorted : StronglySorted (fun a b => le a b = true) listing).
Context (Hkeyed : NoDup (id <$> listing)) (Hlimit : (1 <= limit)%Z).
Context (Hcrates : Forall (fun x => cursor_crates (cursor_of x)) listing).

Definition rows_after (after : option ListCursor) : list A :=
  List.filter (after_cursor created_at id after) listing.

Lemma rows_after_here before x after :
  listing = before ++ x :: after -> rows_after (Some (cursor_of x)) = after.
Proof.
  intros E. pose proof Hsorted as Hs. pose proof Hkeyed as Hk. rewrite E in Hs, Hk.
  unfold rows_after. rewrite (filter_ext _ (fun y => negb (le y x))) by
    (intros y; apply after_cursor_desc). rewrite E.
  apply (filter_after le (created_desc_total created_at id) (created_desc_trans created_at id) _ _ _ Hs).
  intros y Hy.
  rewrite fmap_app, fmap_cons, NoDup_app, NoDup_cons in Hk. destruct Hk as (_ & _ & Hx & _).
  apply StronglySorted_app_1_r in Hs. inversion_clear Hs as [|? ? _ Hle].
  rewrite Forall_forall in Hle. specialize (Hle y Hy). destruct (le y x) eqn:Hyx; [|done].
  exfalso. apply Hx. apply list_elem_of_fmap. exists y. split; [|done].
  unfold le, created_desc in Hle, Hyx.
  rewrite orb_true_iff, andb_true_iff, Z.ltb_lt, Z.eqb_eq, N.leb_le in Hle, Hyx. lia.
Qed.

Lemma walk_reads fetch fuel before after c :
  (forall c n, fetch c n = take n (rows_after c)) -> listing = before ++ after ->
  rows_after c = after -> length after < fuel -> walk_pages cursor_of limit fetch fuel c = Some after.
Proof.
  intros Hfetch. revert before after c. induction fuel as [|fuel IH]; intros before after c E Hc Hf; [lia|].
  cbn [walk_pages]. rewrite Hfetch, Hc. unfold list_page, fetch_limit. cbn [list_limit page_items page_next_cursor].
  rewrite length_take.
  match goal with |- context [Nat.ltb ?a ?b] => destruct (Nat.ltb_spec a b) as [Hmore|Hmore] end.
  - rewrite take_take, Nat.min_l by lia.
    destruct (last (take (Z.to_nat limit) after)) as [x|] eqn:Hlast; cycle 1.
    { apply last_None, (f_equal length) in Hlast. rewrite length_take in Hlast. cbn in Hlast. lia. }
    pose proof Hlast as [before' H0]%last_Some. cbn [fmap option_fmap option_map].
    unfold decode_admin_list_cursor.
    assert (E' : listing = (before ++ before') ++ x :: drop (Z.to_nat limit) after).
    { rewrite E, <- (take_drop (Z.to_nat limit) after) at 1. rewrite H0, <- !app_assoc. done. }
    rewrite cursor_round_trip by (rewrite Forall_forall in Hcrates; apply Hcrates; rewrite E'; set_solver).
    rewrite (IH (before ++ before' ++ [x]) (drop (Z.to_nat limit) after)).
    + cbn. by rewrite take_drop.
    + rewrite E'. by rewrite <- !app_assoc.
    + by apply rows_after_here in E'.
    + rewrite length_drop. lia.
  - cbn. f_equal. apply take_ge. lia.
Qed.
End walk.

(** A table whose rows are under their identifiers, with cursors that can be
    written and read. *)
Definition pageable {V A} (row : V -> A) (created_at : A -> OffsetDateTime) (id : A -> Uuid)
    (table : gmap Uuid V) : Prop :=
  map_Forall (fun k v => id (row v) = k /\
    cursor_crates (mk_ListCursor (created_at (row v)) (id (row v)))) table.

Section statement.
Context {V A : Type} (row : V -> A) (created_at : A -> OffsetDateTime) (id : A -> Uuid).
Context (le := created_desc created_at id) (table : gmap Uuid V) (P : V -> bool).
Context (statement : option ListCursor -> nat -> DB (list A)) (db : Database).
Context (Hstatement : forall c n, rows_of (statement c n) db
  = take n (List.filter (after_cursor created_at id c)
              (order_by le (List.map row (select_where P table))))).
Context (Hpageable : pageable row created_at id table).

Lemma pageable_nodup : NoDup (id <$> List.map row (select_where P table)).
Proof.
  unfold select_where.
  assert (Hk : (id <$> List.map row (map_to_list table).*2) = (map_to_list table).*1).
  { change (List.map row) with (fmap (M:=list) row). rewrite <- !list_fmap_compose.
    apply list_fmap_ext. intros i [k v] Hi. apply list_elem_of_lookup_2, elem_of_map_to_list in Hi.
    by apply (Hpageable k v). }
  pose proof (NoDup_fst_map_to_list table) as Hnd. rewrite <- Hk in Hnd. clear Hk.
  induction (map_to_list table).*2 as [|v vs IH]; [done|]. cbn in *.
  apply NoDup_cons in Hnd as [Hv Hnd]. specialize (IH Hnd). destruct (P v); [|done]. cbn.
  apply NoDup_cons. split; [|done]. intros Hin. apply Hv. apply list_elem_of_fmap in Hin as (a & Ha & Hin).
  apply list_elem_of_fmap. exists a. split; [done|].
  apply list_elem_of_In, in_map_iff in Hin as (v' & Hv' & Hin). apply filter_In in Hin as [Hin _].
  apply list_elem_of_In, in_map_iff. eauto.
Qed.
Lemma pageable_crates :
  Forall (fun x => cursor_crates (mk_ListCursor (created_at x) (id x)))
    (order_by le (List.map row (select_where P table))).
Proof.
  apply Forall_forall. intros x. rewrite elem_of_order_by. intros Hx.
  apply list_elem_of_In, in_map_iff in Hx as (v & <- & Hv).
  apply list_elem_of_In, elem_of_select_where in Hv as (k & Hk & _). by apply (Hpageable k v).
Qed.
Lemma select_where_size : length (select_where P table) <= size table.
Proof.
  unfold select_where. etransitivity; [apply filter_length_le|].
  by rewrite length_fmap, length_map_to_list.
Qed.
Lemma statement_pages limit fuel :
  (1 <= limit)%Z -> size table < fuel ->
  all_pages created_at id limit statement fuel db = Some (rows_of (statement None (size table)) db).
Proof.
  intros Hlimit Hfuel. unfold all_pages. rewrite Hstatement.
  assert (Hlen : length (order_by le (List.map row (select_where P table))) <= size table).
  { rewrite order_by_perm, length_map. apply select_where_size. }
  rewrite after_no_cursor, take_ge by done.
  apply (walk_reads created_at id (order_by le (List.map row (select_where P table))) limit)
    with (before := []); try done.
  - apply order_by_sorted; [apply created_desc_total|apply created_desc_trans].
  - rewrite order_by_perm. apply pageable_nodup.
  - apply pageable_crates.
  - apply after_no_cursor.
  - lia.
Qed.
End statement.

(** [WHERE o AND after AND m ORDER BY .. LIMIT n] is the head of what is after
    the cursor in the whole listing. *)
Lemma keyset_statement {V A} (row : V -> A) created_at id (table : gmap Uuid V) (O M : V -> bool) c n :
  take n (order_by (created_desc created_at id) (List.map row
    (select_where (fun v => O v && after_cursor created_at id c (row v) && M v) table)))
  = take n (List.filter (after_cursor created_at id c)
      (order_by (created_desc created_at id) (List.map row (select_where (fun v => O v && M v) table)))).
Proof.
  rewrite <- (order_by_filter _ (created_desc_total created_at id) (created_desc_trans created_at id)).
  do 2 f_equal. unfold select_where. induction (map_to_list table).*2 as [|v vs IH]; [done|]. cbn.
  destruct (O v), (M v), (after_cursor created_at id c (row v)) eqn:E; cbn; rewrite ?E; congruence.
Qed.

(** C13. The listings of the administration are complete and without
    repetition: a reader that follows the cursors of users, groups, clients or
    audit events, with any filter and a page of any size, is handed exactly
    the rows the one statement without a limit answers with, in its order,
    and comes to the last page within one more request than the table has rows. *)
Theorem pages_are_the_listing like organization_id db limit :
  (1 <= limit)%Z ->
  pageable uwp_user user_created_at user_id (t_users db) ->
  pageable (fun g => g) group_created_at group_id (t_groups db) ->
  pageable (fun c => c) client_created_at client_uuid (t_oidc_clients db) ->
  pageable (fun e => e) audit_created_at audit_id (t_audit_events db) ->
  (forall filter fuel, let statement := list_users_page_filtered like organization_id filter in
    size (t_users db) < fuel ->
    all_pages user_created_at user_id limit statement fuel db
    = Some (rows_of (statement None (size (t_users db))) db))
  /\ (forall fuel, let statement := list_groups_page organization_id in
    size (t_groups db) < fuel ->
    all_pages group_created_at group_id limit statement fuel db
    = Some (rows_of (statement None (size (t_groups db))) db))
  /\ (forall filter fuel, let statement := list_oidc_clients_page_filtered like organization_id filter in
    size (t_oidc_clients db) < fuel ->
    all_pages client_created_at client_uuid limit statement fuel db
    = Some (rows_of (statement None (size (t_oidc_clients db))) db))
  /\ (forall filter fuel, let statement := list_audit_events_page_filtered like organization_id filter in
    size (t_audit_events db) < fuel ->
    all_pages audit_created_at audit_id limit statement fuel db
    = Some (rows_of (statement None (size (t_audit_events db))) db)).
Proof.
  intros Hl Hu Hg Hc He. split_and!.
  - intros filter fuel statement Hf.
    eapply (statement_pages uwp_user); [|exact Hu|done|done]. intros c n. apply keyset_statement.
  - intros fuel statement Hf.
    eapply (statement_pages (fun g => g) _ _ (t_groups db) (fun g => group_in organization_id g && true));
      [|exact Hg|done|done].
    intros c n. rewrite <- keyset_statement, List.map_id. cbn. do 2 f_equal.
    unfold select_where. apply filter_ext. intros g. by rewrite andb_true_r.
  - intros filter fuel statement Hf.
    eapply (statement_pages (fun c => c)); [|exact Hc|done|done]. intros c n.
    rewrite <- keyset_statement, List.map_id. done.
  - intros filter fuel statement Hf.
    eapply (statement_pages (fun e => e)); [|exact He|done|done]. intros c n.
    rewrite <- keyset_statement, List.map_id. done.
Qed.
End pages.
