(* ===== verification/ScimProtocol.v ===== *)
(** * SCIM: errors, replies and the bearer token

    [apps/api/src/http]'s scim_protocol and scim_auth: the constants of the
    protocol, [ScimError] and its reply, the JSON replies, and the check of
    the provisioning client's token; and [config/scim.rs], which reads the
    hashes of the accepted tokens. *)

From S2P Require Import Prelude RustStr Domain Authn Oidc Http Codec Store.
From S2P Require Import Handler KeyStore OAuthPolicy RequestContext.
From Stdlib Require Import Ascii.

(** ** Constants *)

Definition SCIM_JSON_BODY_MAX_BYTES : Z := 256 * 1024.
Definition SCIM_QUERY_MAX_BYTES : nat := 2048.
Definition SCIM_DEFAULT_COUNT : Z := 100.
Definition SCIM_MAX_COUNT : Z := 200.
Definition SCIM_MAX_START_INDEX : Z := 10000.
Definition SCIM_USER_SCHEMA : string := "urn:ietf:params:scim:schemas:core:2.0:User".
Definition SCIM_GROUP_SCHEMA : string := "urn:ietf:params:scim:schemas:core:2.0:Group".
Definition SCIM_SCHEMA_SCHEMA : string := "urn:ietf:params:scim:schemas:core:2.0:Schema".
Definition SCIM_RESOURCE_TYPE_SCHEMA : string :=
  "urn:ietf:params:scim:schemas:core:2.0:ResourceType".
Definition SCIM_SERVICE_PROVIDER_CONFIG_SCHEMA : string :=
  "urn:ietf:params:scim:schemas:core:2.0:ServiceProviderConfig".
Definition SCIM_LIST_RESPONSE_SCHEMA : string := "urn:ietf:params:scim:api:messages:2.0:ListResponse".
Definition SCIM_ERROR_SCHEMA : string := "urn:ietf:params:scim:api:messages:2.0:Error".
Definition SCIM_PATCH_OP_SCHEMA : string := "urn:ietf:params:scim:api:messages:2.0:PatchOp".
Definition SCIM_SEARCH_REQUEST_SCHEMA : string := "urn:ietf:params:scim:api:messages:2.0:SearchRequest".
Definition SCIM_BULK_REQUEST_SCHEMA : string := "urn:ietf:params:scim:api:messages:2.0:BulkRequest".
Definition SCIM_BULK_RESPONSE_SCHEMA : string := "urn:ietf:params:scim:api:messages:2.0:BulkResponse".
Definition SCIM_PATCH_MAX_OPERATIONS : nat := 20.
Definition SCIM_BULK_MAX_OPERATIONS : nat := 50.
Definition SCIM_GROUP_MAX_MEMBERS : nat := 500.
Definition SCIM_PROJECTION_MAX_ATTRIBUTES : nat := 20.

(** ** Errors *)

(* apps/api/src/http/scim_protocol/error.rs:10-15 ScimError *)
Record ScimError := mk_ScimError {
  scim_error_status : StatusCode;
  scim_error_detail : string;
  scim_error_type : option string;
  scim_www_authenticate : option string;
}.
#[export] Instance ScimError_eq_dec : EqDecision ScimError.
Proof. solve_decision. Defined.

(* apps/api/src/http/scim_protocol/error.rs:18-25 ScimError::new *)
Definition scim_error (status : StatusCode) (detail : string) (scim_type : option string) : ScimError :=
  mk_ScimError status detail scim_type None.
(* apps/api/src/http/scim_protocol/error.rs:27-29 ScimError::invalid_value *)
Definition invalid_value (detail : string) : ScimError := scim_error 400 detail (Some "invalidValue").
(* apps/api/src/http/scim_protocol/error.rs:31-33 ScimError::invalid_filter *)
Definition invalid_filter (detail : string) : ScimError := scim_error 400 detail (Some "invalidFilter").
(* apps/api/src/http/scim_protocol/error.rs:35-37 ScimError::invalid_path *)
Definition invalid_path (detail : string) : ScimError := scim_error 400 detail (Some "invalidPath").
(* apps/api/src/http/scim_protocol/error.rs:39-41 ScimError::no_target *)
Definition no_target (detail : string) : ScimError := scim_error 400 detail (Some "noTarget").
(* apps/api/src/http/scim_protocol/error.rs:43-45 ScimError::uniqueness *)
Definition uniqueness (detail : string) : ScimError := scim_error 409 detail (Some "uniqueness").
(* apps/api/src/http/scim_protocol/error.rs:47-49 ScimError::conflict *)
Definition scim_conflict (detail : string) : ScimError := scim_error 409 detail None.
(* apps/api/src/http/scim_protocol/error.rs:51-53 ScimError::mutability *)
Definition mutability (status : StatusCode) (detail : string) : ScimError :=
  scim_error status detail (Some "mutability").
(* apps/api/src/http/scim_protocol/error.rs:55-57 ScimError::not_found *)
Definition scim_not_found (detail : string) : ScimError := scim_error 404 detail None.
(* apps/api/src/http/scim_protocol/error.rs:59-63 ScimError::unauthorized *)
Definition scim_unauthorized (detail : string) : ScimError :=
  mk_ScimError 401 detail None
    (Some ("Bearer realm=" +:+ String "034" ("SCIM" +:+ String "034" ""))).
(* apps/api/src/http/scim_protocol/error.rs:65-67 ScimError::unavailable *)
Definition scim_unavailable (detail : string) : ScimError := scim_error 503 detail None.
(* apps/api/src/http/scim_protocol/error.rs:69-71 ScimError::server_error *)
Definition scim_server_error (detail : string) : ScimError := scim_error 500 detail None.

(* apps/api/src/http/scim_protocol/error.rs:98-103 ScimError::from *)
Definition scim_of_database_error (error : DatabaseError) : ScimError := scim_server_error "database error".
#[export] Instance scim_from_database_error : FromDatabaseError ScimError := scim_of_database_error.
(* apps/api/src/http/scim_protocol/error.rs:105-109 ScimError::from *)
Definition scim_from_domain_error (error : DomainError) : ScimError :=
  invalid_value (domain_error_text error).

(* apps/api/src/http/scim_protocol/error.rs:86-96 scim_error_body *)
Definition scim_error_body (error : ScimError) : Value :=
  Object ([("schemas", Array [String_ SCIM_ERROR_SCHEMA]);
           ("detail", String_ (scim_error_detail error));
           ("status", String_ (i64_to_string (Z.of_N (scim_error_status error))))]
          ++ match scim_error_type error with Some t => [("scimType", String_ t)] | None => [] end).

(** ** Replies *)

(* apps/api/src/http/scim_protocol/response.rs:11-18 scim_json_response *)
Definition scim_json_response (status : StatusCode) (body : Value) : Reply :=
  mk_Reply (mk_Response status [("content-type", SCIM_CONTENT_TYPE)]) (Body_Value body).
(* apps/api/src/http/scim_protocol/response.rs:20-35 scim_list_response *)
Definition scim_list_response (resources : list Value) (total_results start_index : Z) : Reply :=
  scim_json_response 200
    (Object [("schemas", Array [String_ SCIM_LIST_RESPONSE_SCHEMA]);
             ("totalResults", Number total_results); ("startIndex", Number start_index);
             ("itemsPerPage", Number (Z.of_nat (length resources))); ("Resources", Array resources)]).
(* apps/api/src/http/scim_protocol/error.rs:75-83 ScimError::into_response *)
Definition scim_error_response (error : ScimError) : Reply :=
  let response := scim_json_response (scim_error_status error) (scim_error_body error) in
  match scim_www_authenticate error with
  | Some value =>
      mk_Reply (mk_Response (scim_error_status error)
                  (response_headers (reply_response response) ++ [("www-authenticate", value)]))
        (reply_body response)
  | None => response
  end.

Section scim.
Context {CC : CryptoCrates} {AG : AesGcm} {HC : HttpCrates} {TF : TimeFormat}.

(* apps/api/src/http/scim_protocol/response.rs:37-43 scim_location *)
Definition scim_location (state : AppState) (suffix : string) : string :=
  trim_end_matches "/" (config_issuer state) +:+ "/scim/v2/" +:+ trim_start_matches "/" suffix.
(* apps/api/src/http/scim_protocol/timestamp.rs:3-7 scim_timestamp *)
Definition scim_timestamp (timestamp : OffsetDateTime) : string :=
  default (i64_to_string (unix_timestamp timestamp)) (rfc3339_format timestamp).

(** The body of a request as [ScimJson] takes it: the bytes of the body, and
    what the JSON decoder of the payload's type makes of them. *)
(* apps/api/src/http/scim_protocol/extractor.rs:21-33 ScimJson::from_request *)
Definition scim_json {A} (headers : HeaderMap) (body : string) (from_bytes : string -> option A)
    : result ScimError A :=
  if negb (request_has_scim_content_type headers)
  then Err (invalid_value "content type must be application/scim+json")
  else if (SCIM_JSON_BODY_MAX_BYTES <? Z.of_nat (String.length body))%Z
  then Err (invalid_value "SCIM body too large")
  else ok_or (from_bytes body) (invalid_value "invalid SCIM JSON body").

(** ** The bearer token *)

(* apps/api/src/http/scim_auth.rs:44-56 bearer_token_value *)
Definition bearer_token_value (value : string) : option string :=
  '(scheme, token) ← split_at_whitespace (trim value);
  if negb (eq_ignore_ascii_case scheme "Bearer") then None
  else
    let token := trim token in
    if is_empty token || is_some (split_at_whitespace token) then None else Some token.
(* apps/api/src/http/scim_auth.rs:58-64 constant_time_eq_32 *)
Definition constant_time_eq_32 (left right : string) : bool :=
  (fold_left (fun diff index => N.lor diff (N.lxor (byte_at left index) (byte_at right index)))
     (seq 0 32) 0%N =? 0)%N.
(* apps/api/src/http/scim_auth.rs:66-72 scim_token_hash_matches *)
Definition scim_token_hash_matches (expected_hashes : list string) (actual_hash : string) : bool :=
  fold_left (fun matched expected_hash => matched || constant_time_eq_32 expected_hash actual_hash)
    expected_hashes false.

(* apps/api/src/http/scim_auth.rs:10-42 require_scim_bearer_hashes *)
Definition require_scim_bearer_hashes (expected_hashes : list string) (headers : HeaderMap)
    : result ScimError unit :=
  match expected_hashes with
  | [] => Err (scim_unavailable "SCIM bearer token is not configured")
  | _ =>
      match headers_get_all headers "authorization" with
      | [] => Err (scim_unauthorized "missing bearer token")
      | _ :: _ :: _ => Err (scim_unauthorized "multiple authorization headers are not allowed")
      | [value] =>
          let invalid := scim_unauthorized "invalid bearer token" in
          let? value := ok_or (header_to_str value) invalid in
          let? token := ok_or (bearer_token_value value) invalid in
          require scim_token_hash_matches expected_hashes (sha256_digest token) else invalid in
          Ok tt
      end
  end.
(* apps/api/src/http/scim_auth.rs:6-8 require_scim_bearer *)
Definition require_scim_bearer (state : AppState) (headers : HeaderMap) : result ScimError unit :=
  require_scim_bearer_hashes (config_scim_bearer_token_sha256_hashes state) headers.
End scim.

(** ** The configured hashes *)

(* apps/api/src/config.rs:173-178 ConfigError *)
Inductive ScimConfigError :=
| InvalidTokenHash
| DuplicateTokenHash
| TooManyTokenHashes (max : nat).
Definition SCIM_BEARER_TOKEN_HASH_MAX_VALUES : nat := 4.

(* apps/api/src/config/scim.rs:58-65 hex_nibble *)
Definition hex_nibble (c : ascii) : option N :=
  if is_ascii_digit c then Some (byte c - 48)%N
  else if in_range 97 102 c then Some (byte c - 97 + 10)%N
  else if in_range 65 70 c then Some (byte c - 65 + 10)%N
  else None.
(** The loop over the chunks of two bytes. *)
Fixpoint parse_hex_chunks (value : string) : option string :=
  match value with
  | String a (String b rest) =>
      high ← hex_nibble a;
      low ← hex_nibble b;
      bytes ← parse_hex_chunks rest;
      Some (String (ascii_of_N (N.lor (N.shiftl high 4) low)) bytes)
  | _ => Some EmptyString
  end.
(* apps/api/src/config/scim.rs:43-56 parse_sha256_hex *)
Definition parse_sha256_hex (value : string) : result ScimConfigError string :=
  let value := trim value in
  if negb (Nat.eqb (String.length value) 64) then Err InvalidTokenHash
  else ok_or (parse_hex_chunks value) InvalidTokenHash.
Fixpoint parse_hash_list (hashes raw_hashes : list string) : result ScimConfigError (list string) :=
  match raw_hashes with
  | [] => Ok hashes
  | raw_hash :: rest =>
      let? hash := parse_sha256_hex raw_hash in
      if existsb (fun existing => bool_decide (existing = hash)) hashes then Err DuplicateTokenHash
      else parse_hash_list (hashes ++ [hash]) rest
  end.
(* apps/api/src/config/scim.rs:20-41 parse_sha256_hex_list *)
Definition parse_sha256_hex_list (value : string) (max_values : nat)
    : result ScimConfigError (list string) :=
  let? hashes := parse_hash_list [] (split_char "," value) in
  if (max_values <? length hashes)%nat then Err (TooManyTokenHashes max_values) else Ok hashes.
(* apps/api/src/config/scim.rs:3-18 scim_config_from_env *)
Definition scim_config_from_env (value : option string) : result ScimConfigError (list string) :=
  match value with
  | Some value => parse_sha256_hex_list value SCIM_BEARER_TOKEN_HASH_MAX_VALUES
  | None => Ok []
  end.
