(* ===== verification/ScimQuery.v ===== *)
(** * SCIM: filters, listing parameters and projections

    [apps/api/src/http]'s scim_query and scim_projection: the filter language
    of the listings, their query strings and search requests, the attributes a
    reply shows or hides.  The user and the group variants of a listing differ
    only in their filter and their attributes, so [scim_list_query] and
    [scim_search_query] are written once. *)

From S2P Require Import Prelude RustStr Domain Oidc Http Codec Store Directory.
From S2P Require Import Lifecycle.
From S2P Require Import Handler ScimProtocol.
From Stdlib Require Import Ascii.

Definition double_quote : ascii := "034".
Definition quote_string : string := String double_quote "".
Definition backslash : ascii := "092".

(** ** Conditions *)

(* apps/api/src/http/scim_input/scim_values.rs:58-78 optional_scim_str *)
Definition optional_scim_str (field : string) (value : option string) (max_len : nat)
    : result ScimError (option string) :=
  match value with
  | None => Ok None
  | Some value =>
      let trimmed := trim value in
      if is_empty trimmed then Ok None
      else if (max_len <? chars_count trimmed)%nat
      then Err (invalid_value (field +:+ " exceeds maximum length"))
      else Ok (Some trimmed)
  end.
(* apps/api/src/http/scim_query/filter.rs:89-109 optional_filter_string *)
Definition optional_filter_string (field : string) (value : option string) (max_len : nat)
    : result ScimError (option string) :=
  match value with
  | None => Ok None
  | Some value =>
      let trimmed := trim value in
      if is_empty trimmed then Ok None
      else if (max_len <? chars_count trimmed)%nat
      then Err (invalid_value (field +:+ " exceeds maximum length"))
      else Ok (Some trimmed)
  end.

(* apps/api/src/http/scim_query/filter.rs:155-159 ascii_keyword_at *)
Definition ascii_keyword_at (bytes keyword : string) : bool :=
  eq_ignore_ascii_case (String.substring 0 (String.length keyword) bytes) keyword.
(** The loop over the bytes: [condition] is [value[start..index]], [skip]
    counts down the bytes of a keyword that was just read. *)
Fixpoint split_conditions_loop (skip : nat) (condition : string) (in_string escaped : bool)
    (bytes : string) : result ScimError (list string) :=
  match bytes with
  | EmptyString =>
      if in_string then Err (invalid_filter "unterminated SCIM filter string")
      else
        let condition := trim condition in
        if is_empty condition then Err (invalid_filter "empty SCIM filter condition")
        else Ok [condition]
  | String byte rest =>
      let condition' := condition +:+ String byte "" in
      match skip with
      | S skip => split_conditions_loop skip condition in_string escaped rest
      | O =>
          if escaped then split_conditions_loop O condition' in_string false rest
          else if Ascii.eqb byte backslash && in_string
          then split_conditions_loop O condition' in_string true rest
          else if Ascii.eqb byte double_quote
          then split_conditions_loop O condition' (negb in_string) false rest
          else if negb in_string && ascii_keyword_at bytes " and "
          then
            let condition := trim condition in
            if is_empty condition then Err (invalid_filter "empty SCIM filter condition")
            else
              let? conditions := split_conditions_loop 4 "" false false rest in
              Ok (condition :: conditions)
          else split_conditions_loop O condition' in_string false rest
      end
  end.
(* apps/api/src/http/scim_query/filter.rs:111-153 split_scim_and_conditions *)
Definition split_scim_and_conditions (value : string) : result ScimError (list string) :=
  split_conditions_loop O "" false false value.

(* apps/api/src/http/scim_query/filter.rs:161-182 scim_eq_condition *)
Definition scim_eq_condition (condition : string) : result ScimError (string * string) :=
  let must_use_eq := invalid_filter "SCIM filter must use eq" in
  let? (attribute, from) := ok_or (split_at_whitespace (trim condition)) must_use_eq in
  let attribute := trim attribute in
  let remaining := trim_start from in
  let? (operator, from) := ok_or (split_at_whitespace remaining) must_use_eq in
  require eq_ignore_ascii_case operator "eq"
    else invalid_filter "only eq filters are supported" in
  let raw_value := trim_start from in
  if is_empty attribute || is_empty raw_value
  then Err (invalid_filter "SCIM filter must include attribute and value")
  else Ok (attribute, raw_value).

Fixpoint unescape_loop (output : string) (escaped : bool) (characters : string)
    : result ScimError string :=
  match characters with
  | EmptyString =>
      if escaped then Err (invalid_filter "unterminated SCIM string escape") else Ok output
  | String c rest =>
      if escaped
      then
        if Ascii.eqb c double_quote || Ascii.eqb c backslash
        then unescape_loop (output +:+ String c "") false rest
        else Err (invalid_filter "unsupported SCIM string escape")
      else if Ascii.eqb c backslash then unescape_loop output true rest
      else unescape_loop (output +:+ String c "") false rest
  end.
(* apps/api/src/http/scim_query/filter.rs:184-210 scim_filter_string *)
Definition scim_filter_string (value : string) : result ScimError string :=
  let value := trim value in
  if negb (starts_with quote_string value) || negb (ends_with quote_string value)
     || (String.length value <? 2)%nat
  then Err (invalid_filter "SCIM string filter value must be quoted")
  else unescape_loop "" false (String.substring 1 (String.length value - 2) value).

(** ** Filters *)

Definition unsupported_filter : ScimError := invalid_filter "unsupported SCIM filter attribute".
(** The body of the loop over the conditions. *)
Definition user_condition (filter : ScimUserListFilter) (condition : string)
    : result ScimError ScimUserListFilter :=
  let '(mk_ScimUserListFilter user_name_eq external_id_eq active_eq) := filter in
  let? (attribute, raw_value) := scim_eq_condition condition in
  let attribute := to_ascii_lowercase attribute in
  if bool_decide (attribute = "username")
  then
    if is_some user_name_eq then Err (invalid_filter "duplicate userName filter")
    else
      let? name := scim_filter_string raw_value in
      let? email := map_err scim_from_domain_error (normalize_email name) in
      Ok (mk_ScimUserListFilter (Some email) external_id_eq active_eq)
  else if bool_decide (attribute = "externalid")
  then
    if is_some external_id_eq then Err (invalid_filter "duplicate externalId filter")
    else
      let? external_id := scim_filter_string raw_value in
      let? external_id_eq := optional_filter_string "externalId" (Some external_id) 256 in
      Ok (mk_ScimUserListFilter user_name_eq external_id_eq active_eq)
  else if bool_decide (attribute = "active")
  then
    if is_some active_eq then Err (invalid_filter "duplicate active filter")
    else
      let value := trim raw_value in
      if bool_decide (value = "true")
      then Ok (mk_ScimUserListFilter user_name_eq external_id_eq (Some true))
      else if bool_decide (value = "false")
      then Ok (mk_ScimUserListFilter user_name_eq external_id_eq (Some false))
      else Err (invalid_filter "active filter must be boolean")
  else Err unsupported_filter.
Definition group_condition (filter : ScimGroupListFilter) (condition : string)
    : result ScimError ScimGroupListFilter :=
  let '(mk_ScimGroupListFilter display_name_eq external_id_eq) := filter in
  let? (attribute, raw_value) := scim_eq_condition condition in
  let attribute := to_ascii_lowercase attribute in
  if bool_decide (attribute = "displayname")
  then
    if is_some display_name_eq then Err (invalid_filter "duplicate displayName filter")
    else
      let? display_name := scim_filter_string raw_value in
      let? name := optional_filter_string "displayName" (Some display_name) 160 in
      let? name := ok_or name (invalid_filter "displayName filter cannot be empty") in
      Ok (mk_ScimGroupListFilter (Some name) external_id_eq)
  else if bool_decide (attribute = "externalid")
  then
    if is_some external_id_eq then Err (invalid_filter "duplicate externalId filter")
    else
      let? external_id := scim_filter_string raw_value in
      let? id := optional_filter_string "externalId" (Some external_id) 256 in
      let? id := ok_or id (invalid_filter "externalId filter cannot be empty") in
      Ok (mk_ScimGroupListFilter display_name_eq (Some id))
  else Err unsupported_filter.
Fixpoint fold_conditions {F} (add : F -> string -> result ScimError F) (filter : F)
    (conditions : list string) : result ScimError F :=
  match conditions with
  | [] => Ok filter
  | condition :: rest => let? filter := add filter condition in fold_conditions add filter rest
  end.
Definition any_user : ScimUserListFilter := mk_ScimUserListFilter None None None.
Definition any_group : ScimGroupListFilter := mk_ScimGroupListFilter None None.
(* apps/api/src/http/scim_query/filter.rs:5-46 scim_user_filter *)
Definition scim_user_filter (value : string) : result ScimError ScimUserListFilter :=
  let? conditions := split_scim_and_conditions value in fold_conditions user_condition any_user conditions.
(* apps/api/src/http/scim_query/filter.rs:48-87 scim_group_filter *)
Definition scim_group_filter (value : string) : result ScimError ScimGroupListFilter :=
  let? conditions := split_scim_and_conditions value in
  fold_conditions group_condition any_group conditions.

(** ** Projection paths *)

(* apps/api/src/http/scim_projection/paths.rs:16-19 ScimResourceKind *)
Inductive ScimResourceKind := Kind_User | Kind_Group.
(* apps/api/src/http/scim_projection/paths.rs:22-25 ScimProjectionPath *)
Record ScimProjectionPath := mk_ScimProjectionPath { path_top : string; path_sub : option string }.
#[export] Instance ScimProjectionPath_eq_dec : EqDecision ScimProjectionPath.
Proof. solve_decision. Defined.
Definition top_path (top : string) : ScimProjectionPath := mk_ScimProjectionPath top None.
Definition sub_path (top sub : string) : ScimProjectionPath := mk_ScimProjectionPath top (Some sub).
(* apps/api/src/http/scim_projection/paths.rs:39-41 is_always_returned *)
Definition is_always_returned (path : ScimProjectionPath) : bool :=
  bool_decide (path_top path = "schemas") || bool_decide (path_top path = "id").

Definition strip_schema_prefix (schema path : string) : string :=
  match split_at_byte (String.length schema) path with
  | None => path
  | Some (prefix, rest) =>
      if eq_ignore_ascii_case prefix schema
      then match rest with String ":" path' => path' | _ => path end
      else path
  end.
(* apps/api/src/http/scim_projection/paths.rs:94-107 strip_scim_user_schema_prefix *)
Definition strip_scim_user_schema_prefix (path : string) : string :=
  strip_schema_prefix SCIM_USER_SCHEMA path.
(* apps/api/src/http/scim_projection/paths.rs:109-122 strip_scim_group_schema_prefix *)
Definition strip_scim_group_schema_prefix (path : string) : string :=
  strip_schema_prefix SCIM_GROUP_SCHEMA path.

(** The two tables: the names in lower case and as they are written. *)
Definition user_projection_table : list (string * option string * ScimProjectionPath) :=
  [("schemas", None, top_path "schemas"); ("id", None, top_path "id");
   ("externalid", None, top_path "externalId"); ("username", None, top_path "userName");
   ("displayname", None, top_path "displayName"); ("active", None, top_path "active");
   ("name", None, top_path "name"); ("name", Some "formatted", sub_path "name" "formatted");
   ("name", Some "givenname", sub_path "name" "givenName");
   ("name", Some "familyname", sub_path "name" "familyName");
   ("emails", None, top_path "emails"); ("emails", Some "value", sub_path "emails" "value");
   ("emails", Some "type", sub_path "emails" "type");
   ("emails", Some "primary", sub_path "emails" "primary"); ("meta", None, top_path "meta");
   ("meta", Some "resourcetype", sub_path "meta" "resourceType");
   ("meta", Some "created", sub_path "meta" "created");
   ("meta", Some "lastmodified", sub_path "meta" "lastModified");
   ("meta", Some "location", sub_path "meta" "location")].
Definition group_projection_table : list (string * option string * ScimProjectionPath) :=
  [("schemas", None, top_path "schemas"); ("id", None, top_path "id");
   ("externalid", None, top_path "externalId"); ("displayname", None, top_path "displayName");
   ("members", None, top_path "members"); ("members", Some "value", sub_path "members" "value");
   ("members", Some "$ref", sub_path "members" "$ref");
   ("members", Some "display", sub_path "members" "display");
   ("members", Some "type", sub_path "members" "type"); ("meta", None, top_path "meta");
   ("meta", Some "resourcetype", sub_path "meta" "resourceType");
   ("meta", Some "created", sub_path "meta" "created");
   ("meta", Some "lastmodified", sub_path "meta" "lastModified");
   ("meta", Some "location", sub_path "meta" "location")].
Definition table_lookup (table : list (string * option string * ScimProjectionPath))
    (top : string) (sub : option string) (error : ScimError) : result ScimError ScimProjectionPath :=
  ok_or (snd <$> List.find (fun row => bool_decide (row.1 = (top, sub))) table) error.
(* apps/api/src/http/scim_projection/paths.rs:158-186 scim_user_projection_path *)
Definition scim_user_projection_path (top : string) (sub : option string)
    : result ScimError ScimProjectionPath :=
  table_lookup user_projection_table top sub
    (invalid_value "unsupported SCIM user projection attribute").
(* apps/api/src/http/scim_projection/paths.rs:188-211 scim_group_projection_path *)
Definition scim_group_projection_path (top : string) (sub : option string)
    : result ScimError ScimProjectionPath :=
  table_lookup group_projection_table top sub
    (invalid_value "unsupported SCIM group projection attribute").
(* apps/api/src/http/scim_projection/paths.rs:124-156 scim_projection_path *)
Definition scim_projection_path (kind : ScimResourceKind) (raw_path : string)
    : result ScimError ScimProjectionPath :=
  let path := match kind with
              | Kind_User => strip_scim_user_schema_prefix (trim raw_path)
              | Kind_Group => strip_scim_group_schema_prefix (trim raw_path)
              end in
  if is_empty path then Err (invalid_value "SCIM projection attribute cannot be empty")
  else if contains_char "[" path || contains_char "]" path
  then Err (invalid_value "filtered SCIM projection attributes are not supported")
  else
    let parts := split_char "." path in
    if (2 <? length parts)%nat || existsb (fun part => is_empty (trim part)) parts
    then Err (invalid_value "unsupported SCIM projection attribute")
    else
      let top := to_ascii_lowercase (trim (default "" (parts !! 0%nat))) in
      let sub := (fun part => to_ascii_lowercase (trim part)) <$> parts !! 1%nat in
      match kind with
      | Kind_User => scim_user_projection_path top sub
      | Kind_Group => scim_group_projection_path top sub
      end.

(** The two nested loops over the raw paths of all the values. *)
Fixpoint collect_projection_paths (kind : ScimResourceKind) (paths : list ScimProjectionPath)
    (raw_paths : list string) : result ScimError (list ScimProjectionPath) :=
  match raw_paths with
  | [] => Ok paths
  | raw_path :: rest =>
      let? path := scim_projection_path kind raw_path in
      let paths := if bool_decide (path ∈ paths) then paths else paths ++ [path] in
      if (SCIM_PROJECTION_MAX_ATTRIBUTES <? length paths)%nat
      then Err (invalid_value "too many SCIM projection attributes")
      else collect_projection_paths kind paths rest
  end.
(* apps/api/src/http/scim_projection/paths.rs:63-92 scim_projection_paths_from_values *)
Definition scim_projection_paths_from_values (kind : ScimResourceKind) (values : list string)
    : result ScimError (list ScimProjectionPath) :=
  let? paths := collect_projection_paths kind [] (mjoin (split_char "," <$> values)) in
  match paths with
  | [] => Err (invalid_value "SCIM projection attributes cannot be empty")
  | _ => Ok paths
  end.
(* apps/api/src/http/scim_projection/paths.rs:56-61 scim_projection_paths *)
Definition scim_projection_paths (kind : ScimResourceKind) (value : string)
    : result ScimError (list ScimProjectionPath) :=
  scim_projection_paths_from_values kind (split_char "," value).

(* apps/api/src/http/scim_projection/paths.rs:10-13 ScimSearchAttributes *)
Inductive ScimSearchAttributes :=
| Attributes_List (values : list string)
| Attributes_CommaSeparated (value : string).
(* apps/api/src/http/scim_projection/paths.rs:45-53 projection_paths *)
Definition projection_paths (attributes : ScimSearchAttributes) (kind : ScimResourceKind)
    : result ScimError (list ScimProjectionPath) :=
  match attributes with
  | Attributes_List values => scim_projection_paths_from_values kind values
  | Attributes_CommaSeparated value => scim_projection_paths kind value
  end.

(** ** Which attributes a reply shows *)

(* apps/api/src/http/scim_projection/types.rs:4-9 ScimProjection *)
Inductive ScimProjection :=
| Projection_Default
| Projection_Include (paths : list ScimProjectionPath)
| Projection_Exclude (paths : list ScimProjectionPath).

(* apps/api/src/http/scim_projection/query.rs:54-66 scim_projection_from_query *)
Definition scim_projection_from_query (attributes excluded_attributes : option (list ScimProjectionPath))
    : result ScimError ScimProjection :=
  match attributes, excluded_attributes with
  | Some _, Some _ =>
      Err (invalid_value "attributes and excludedAttributes are mutually exclusive")
  | Some attributes, None => Ok (Projection_Include attributes)
  | None, Some excluded_attributes => Ok (Projection_Exclude excluded_attributes)
  | None, None => Ok Projection_Default
  end.
(* apps/api/src/http/scim_projection/query.rs:10-17 scim_search_projection_paths *)
Definition scim_search_projection_paths (kind : ScimResourceKind)
    (attributes : option ScimSearchAttributes) : result ScimError (option (list ScimProjectionPath)) :=
  match attributes with
  | Some attributes => let? paths := projection_paths attributes kind in Ok (Some paths)
  | None => Ok None
  end.

Definition duplicate_parameter (name : string) : ScimError :=
  invalid_value ("duplicate " +:+ name +:+ " parameter").
Definition unsupported_parameter : ScimError := invalid_value "unsupported SCIM query parameter".
(** The loop over the parameters of one resource. *)
Fixpoint resource_parameters (kind : ScimResourceKind)
    (attributes excluded_attributes : option (list ScimProjectionPath)) (pairs : list (string * string))
    : result ScimError (option (list ScimProjectionPath) * option (list ScimProjectionPath)) :=
  match pairs with
  | [] => Ok (attributes, excluded_attributes)
  | (name, value) :: rest =>
      if bool_decide (name = "attributes")
      then
        if is_some attributes then Err (duplicate_parameter name)
        else let? paths := scim_projection_paths kind value in
             resource_parameters kind (Some paths) excluded_attributes rest
      else if bool_decide (name = "excludedAttributes")
      then
        if is_some excluded_attributes then Err (duplicate_parameter name)
        else let? paths := scim_projection_paths kind value in
             resource_parameters kind attributes (Some paths) rest
      else Err unsupported_parameter
  end.
(* apps/api/src/http/scim_projection/query.rs:19-52 scim_resource_projection_query *)
Definition scim_resource_projection_query (raw_query : option string) (kind : ScimResourceKind)
    (context : string) : result ScimError ScimProjection :=
  let query := default "" raw_query in
  if (SCIM_QUERY_MAX_BYTES <? String.length query)%nat
  then Err (invalid_value (context +:+ " too large"))
  else
    let? pairs := map_err (fun _ => invalid_value ("invalid " +:+ context))
                    (parse_url_encoded_pairs query) in
    let? (attributes, excluded_attributes) := resource_parameters kind None None pairs in
    scim_projection_from_query attributes excluded_attributes.

(** *** Applying a projection *)

Definition object_remove (key : string) (entries : list (string * Value)) : list (string * Value) :=
  List.filter (fun entry => negb (bool_decide (entry.1 = key))) entries.
Definition is_empty_object (item : Value) : bool := match item with Object [] => true | _ => false end.

(* apps/api/src/http/scim_projection/apply.rs:90-98 scim_copy_top_attribute *)
Definition scim_copy_top_attribute (source : Value) (target : list (string * Value))
    (attribute : string) : list (string * Value) :=
  match value_get source attribute with
  | Some value => object_insert attribute value target
  | None => target
  end.
(* apps/api/src/http/scim_projection/apply.rs:137-152 scim_remove_empty_projected_array *)
Definition scim_remove_empty_projected_array (target : list (string * Value)) (attribute : string)
    : list (string * Value) :=
  match object_get target attribute with
  | Some (Array items) =>
      if forallb is_empty_object items then object_remove attribute target else target
  | _ => target
  end.
(** The loop over the items of the source and the target. *)
Definition copy_item (sub_attribute : string) (source_item target_item : Value) : Value :=
  match value_get source_item sub_attribute, target_item with
  | Some value, Object entries => Object (object_insert sub_attribute value entries)
  | _, _ => target_item
  end.
(* apps/api/src/http/scim_projection/apply.rs:35-88 scim_copy_projection_path *)
Definition scim_copy_projection_path (source : Value) (target : list (string * Value))
    (path : ScimProjectionPath) : list (string * Value) :=
  let top := path_top path in
  if is_always_returned path then scim_copy_top_attribute source target top
  else
  match path_sub path with
  | None => scim_copy_top_attribute source target top
  | Some sub_attribute =>
      match value_get source top with
      | Some (Object source_object) =>
          match object_get source_object sub_attribute with
          | None => target
          | Some value =>
              match default (Object []) (object_get target top) with
              | Object target_sub_object =>
                  object_insert top (Object (object_insert sub_attribute value target_sub_object)) target
              | _ => target
              end
          end
      | Some (Array source_array) =>
          let blank := replicate (length source_array) (Object []) in
          let target :=
            match default (Array blank) (object_get target top) with
            | Array target_array =>
                let target_array :=
                  if Nat.eqb (length target_array) (length source_array) then target_array else blank in
                object_insert top (Array (zip_with (copy_item sub_attribute) source_array target_array))
                  target
            | _ => target
            end in
          scim_remove_empty_projected_array target top
      | _ => target
      end
  end.
(* apps/api/src/http/scim_projection/apply.rs:16-26 scim_include_projection *)
Definition scim_include_projection (resource : Value) (paths : list ScimProjectionPath) : Value :=
  let projected := scim_copy_top_attribute resource [] "schemas" in
  let projected := scim_copy_top_attribute resource projected "id" in
  Object (fold_left (scim_copy_projection_path resource) paths projected).

Definition remove_sub (sub_attribute : string) (item : Value) : Value :=
  match item with Object entries => Object (object_remove sub_attribute entries) | _ => item end.
(* apps/api/src/http/scim_projection/apply.rs:100-135 scim_remove_projection_path *)
Definition scim_remove_projection_path (resource : Value) (path : ScimProjectionPath) : Value :=
  let top := path_top path in
  if is_always_returned path then resource
  else
  match resource with
  | Object resource_object =>
      match path_sub path with
      | None => Object (object_remove top resource_object)
      | Some sub_attribute =>
          match object_get resource_object top with
          | Some (Object object) =>
              let object := object_remove sub_attribute object in
              match object with
              | [] => Object (object_remove top resource_object)
              | _ => Object (object_insert top (Object object) resource_object)
              end
          | Some (Array items) =>
              let items := remove_sub sub_attribute <$> items in
              if forallb is_empty_object items then Object (object_remove top resource_object)
              else Object (object_insert top (Array items) resource_object)
          | _ => resource
          end
      end
  | _ => resource
  end.
(* apps/api/src/http/scim_projection/apply.rs:28-33 scim_exclude_projection *)
Definition scim_exclude_projection (resource : Value) (paths : list ScimProjectionPath) : Value :=
  fold_left scim_remove_projection_path paths resource.
(* apps/api/src/http/scim_projection/apply.rs:5-14 scim_apply_projection *)
Definition scim_apply_projection (resource : Value) (projection : ScimProjection) : Value :=
  match projection with
  | Projection_Default => resource
  | Projection_Include paths => scim_include_projection resource paths
  | Projection_Exclude paths => scim_exclude_projection resource paths
  end.

(** ** Listings *)

(* apps/api/src/http/scim_query/types.rs:7-12 ScimUserListQuery *)
Record ScimListQuery (F : Type) := mk_ScimListQuery {
  query_start_index : Z;
  query_count : Z;
  query_filter : F;
  query_projection : ScimProjection;
}.
Arguments mk_ScimListQuery {F}.
Arguments query_start_index {F}.
Arguments query_count {F}.
Arguments query_filter {F}.
Arguments query_projection {F}.

Definition in_bounds (lo hi : Z) (n : Z) : bool := ((lo <=? n) && (n <=? hi))%Z.
(* apps/api/src/http/scim_query/list.rs:125-133 scim_list_start_index *)
Definition scim_list_start_index (value : string) : result ScimError Z :=
  let? parsed := ok_or (parse_i64 value) (invalid_value "invalid startIndex") in
  require in_bounds 1 SCIM_MAX_START_INDEX parsed else invalid_value "startIndex out of range" in
  Ok parsed.
(* apps/api/src/http/scim_query/list.rs:135-143 scim_list_count *)
Definition scim_list_count (value : string) : result ScimError Z :=
  let? parsed := ok_or (parse_i64 value) (invalid_value "invalid count") in
  require in_bounds 0 SCIM_MAX_COUNT parsed else invalid_value "count out of range" in
  Ok parsed.

Section lists.
Context {F : Type} (parse_filter : string -> result ScimError F) (any : F) (kind : ScimResourceKind).

Record ListParameters := mk_ListParameters {
  param_start_index : option Z;
  param_count : option Z;
  param_filter : option F;
  param_attributes : option (list ScimProjectionPath);
  param_excluded_attributes : option (list ScimProjectionPath);
}.
(** The body of the loop over the parameters. *)
Definition list_parameter (parameters : ListParameters) (entry : string * string)
    : result ScimError ListParameters :=
  let '(mk_ListParameters start_index count filter attributes excluded_attributes) := parameters in
  let '(name, value) := entry in
  if bool_decide (name = "startIndex") && is_some start_index then Err (duplicate_parameter name)
  else if bool_decide (name = "count") && is_some count then Err (duplicate_parameter name)
  else if bool_decide (name = "filter") && is_some filter then Err (duplicate_parameter name)
  else if bool_decide (name = "attributes") && is_some attributes then Err (duplicate_parameter name)
  else if bool_decide (name = "excludedAttributes") && is_some excluded_attributes
  then Err (duplicate_parameter name)
  else if bool_decide (name = "startIndex")
  then let? n := scim_list_start_index value in
       Ok (mk_ListParameters (Some n) count filter attributes excluded_attributes)
  else if bool_decide (name = "count")
  then let? n := scim_list_count value in
       Ok (mk_ListParameters start_index (Some n) filter attributes excluded_attributes)
  else if bool_decide (name = "filter")
  then let? f := parse_filter value in
       Ok (mk_ListParameters start_index count (Some f) attributes excluded_attributes)
  else if bool_decide (name = "attributes")
  then let? paths := scim_projection_paths kind value in
       Ok (mk_ListParameters start_index count filter (Some paths) excluded_attributes)
  else if bool_decide (name = "excludedAttributes")
  then let? paths := scim_projection_paths kind value in
       Ok (mk_ListParameters start_index count filter attributes (Some paths))
  else Err unsupported_parameter.
Fixpoint list_parameters (parameters : ListParameters) (pairs : list (string * string))
    : result ScimError ListParameters :=
  match pairs with
  | [] => Ok parameters
  | entry :: rest =>
      let? parameters := list_parameter parameters entry in list_parameters parameters rest
  end.
(** The function for users; the one for groups is the same at its filter. *)
(* apps/api/src/http/scim_query/list.rs:13-67 scim_user_list_query *)
Definition scim_list_query (raw_query : option string) : result ScimError (ScimListQuery F) :=
  let query := default "" raw_query in
  if (SCIM_QUERY_MAX_BYTES <? String.length query)%nat
  then Err (invalid_value "SCIM query too large")
  else
    let? pairs := map_err (fun _ => invalid_value "invalid SCIM query") (parse_url_encoded_pairs query) in
    let? parameters := list_parameters (mk_ListParameters None None None None None) pairs in
    let? projection := scim_projection_from_query (param_attributes parameters)
                         (param_excluded_attributes parameters) in
    Ok (mk_ScimListQuery (default 1%Z (param_start_index parameters))
          (default SCIM_DEFAULT_COUNT (param_count parameters)) (default any (param_filter parameters))
          projection).
End lists.
Definition scim_user_list_query : option string -> result ScimError (ScimListQuery ScimUserListFilter) :=
  scim_list_query scim_user_filter any_user Kind_User.
(* apps/api/src/http/scim_query/list.rs:69-123 scim_group_list_query *)
Definition scim_group_list_query : option string -> result ScimError (ScimListQuery ScimGroupListFilter) :=
  scim_list_query scim_group_filter any_group Kind_Group.

(** *** Search requests *)

(* apps/api/src/http/scim_query/types.rs:24-40 ScimSearchRequest *)
Record ScimSearchRequest := mk_ScimSearchRequest {
  search_schemas : list string;
  search_attributes : option ScimSearchAttributes;
  search_excluded_attributes : option ScimSearchAttributes;
  search_filter : option string;
  search_sort_by : option string;
  search_sort_order : option string;
  search_start_index : option Z;
  search_count : option Z;
}.
(* apps/api/src/http/scim_query/search.rs:13-20 reject_scim_search_query *)
Definition reject_scim_search_query (raw_query : option string) : result ScimError unit :=
  match raw_query with
  | Some query =>
      if negb (is_empty query)
      then Err (invalid_value "SCIM SearchRequest query parameters are not supported") else Ok tt
  | None => Ok tt
  end.
(* apps/api/src/http/scim_query/search.rs:62-74 validate_scim_search_request_common *)
Definition validate_scim_search_request_common (payload : ScimSearchRequest) : result ScimError unit :=
  if negb (bool_decide (search_schemas payload = [SCIM_SEARCH_REQUEST_SCHEMA]))
  then Err (invalid_value "SCIM SearchRequest schema is required")
  else if is_some (search_sort_by payload) || is_some (search_sort_order payload)
  then Err (invalid_value "SCIM SearchRequest sorting is not supported")
  else Ok tt.
(* apps/api/src/http/scim_query/search.rs:76-82 scim_search_start_index *)
Definition scim_search_start_index (start_index : option Z) : result ScimError Z :=
  let start_index := default 1%Z start_index in
  require in_bounds 1 SCIM_MAX_START_INDEX start_index else invalid_value "startIndex out of range" in
  Ok start_index.
(* apps/api/src/http/scim_query/search.rs:84-90 scim_search_count *)
Definition scim_search_count (count : option Z) : result ScimError Z :=
  let count := default SCIM_DEFAULT_COUNT count in
  require in_bounds 0 SCIM_MAX_COUNT count else invalid_value "count out of range" in
  Ok count.
(* apps/api/src/http/scim_query/search.rs:22-40 scim_user_search_query *)
Definition scim_search_query {F} (parse_filter : string -> result ScimError F) (any : F)
    (kind : ScimResourceKind) (payload : ScimSearchRequest) : result ScimError (ScimListQuery F) :=
  let? _ := validate_scim_search_request_common payload in
  let? start_index := scim_search_start_index (search_start_index payload) in
  let? count := scim_search_count (search_count payload) in
  let? filter := match search_filter payload with
                 | Some filter => parse_filter filter
                 | None => Ok any
                 end in
  let? attributes := scim_search_projection_paths kind (search_attributes payload) in
  let? excluded_attributes := scim_search_projection_paths kind (search_excluded_attributes payload) in
  let? projection := scim_projection_from_query attributes excluded_attributes in
  Ok (mk_ScimListQuery start_index count filter projection).
Definition scim_user_search_query : ScimSearchRequest -> result ScimError (ScimListQuery ScimUserListFilter) :=
  scim_search_query scim_user_filter any_user Kind_User.
(* apps/api/src/http/scim_query/search.rs:42-60 scim_group_search_query *)
Definition scim_group_search_query : ScimSearchRequest -> result ScimError (ScimListQuery ScimGroupListFilter) :=
  scim_search_query scim_group_filter any_group Kind_Group.
