(* ===== verification/ScimInput.v ===== *)
(** * SCIM: resources and patches as they come in

    [apps/api/src/http]'s scim_input: the requests for users and groups, the
    PATCH language with its paths, and the user or group each asks for.  How
    serde decodes a JSON document into a request is [ScimSerde], a parameter;
    an object's entries are in the order of its keys, as [serde_json::Map]
    iterates over them. *)

From S2P Require Import Prelude RustStr Domain Oidc Http Codec Store Directory.
From S2P Require Import Lifecycle.
From S2P Require Import Handler BrowserSession ScimProtocol ScimQuery.
From Stdlib Require Import Ascii.

(** ** Requests *)

(* apps/api/src/http/scim_input/scim_user_profile.rs:9-16 ScimNameRequest *)
Record ScimNameRequest := mk_ScimNameRequest {
  name_formatted : option string;
  name_given_name : option string;
  name_family_name : option string;
}.
(* apps/api/src/http/scim_input/scim_user_profile.rs:19-25 ScimEmailRequest *)
Record ScimEmailRequest := mk_ScimEmailRequest {
  email_value : string;
  email_type : option string;
  email_primary : option bool;
}.
(* apps/api/src/http/scim_input/scim_group_members.rs:11-19 ScimGroupMemberRequest *)
Record ScimGroupMemberRequest := mk_ScimGroupMemberRequest {
  member_request_value : Uuid;
  member_request_reference : option string;
  member_request_type : option string;
  member_request_display : option string;
}.
(* apps/api/src/http/scim_input.rs:29-43 ScimUserRequest *)
Record ScimUserRequest := mk_ScimUserRequest {
  user_request_schemas : list string;
  user_request_user_name : string;
  user_request_external_id : option string;
  user_request_name : option ScimNameRequest;
  user_request_display_name : option string;
  user_request_active : option bool;
  user_request_emails : list ScimEmailRequest;
}.
(* apps/api/src/http/scim_input.rs:47-56 ScimGroupRequest *)
Record ScimGroupRequest := mk_ScimGroupRequest {
  group_request_schemas : list string;
  group_request_external_id : option string;
  group_request_display_name : option string;
  group_request_members : list ScimGroupMemberRequest;
}.
(* apps/api/src/http/scim_input/scim_patch_request.rs:49-55 ScimPatchOperation *)
Record ScimPatchOperation := mk_ScimPatchOperation {
  patch_op : string;
  patch_path : option string;
  patch_value : option Value;
}.
(* apps/api/src/http/scim_input/scim_patch_request.rs:8-13 ScimPatchRequest *)
Record ScimPatchRequest := mk_ScimPatchRequest {
  patch_schemas : list string;
  patch_operations : list ScimPatchOperation;
}.

(** [serde_json::from_value] at the types the program decodes. *)
Class ScimSerde := {
  strings_from_value : Value -> option (list string);
  name_from_value : Value -> option ScimNameRequest;
  email_from_value : Value -> option ScimEmailRequest;
  emails_from_value : Value -> option (list ScimEmailRequest);
  member_from_value : Value -> option ScimGroupMemberRequest;
  user_request_from_value : Value -> option ScimUserRequest;
  group_request_from_value : Value -> option ScimGroupRequest;
  patch_request_from_value : Value -> option ScimPatchRequest;
}.

(* apps/api/src/http/scim_input.rs:59-65 ScimUserInput *)
Record ScimUserInput := mk_ScimUserInput {
  input_email : string;
  input_external_id : option string;
  input_email_verified : bool;
  input_display_name : string;
  input_status : UserStatus;
}.
(* apps/api/src/http/scim_input.rs:68-72 ScimGroupInput *)
Record ScimGroupInput := mk_ScimGroupInput {
  group_input_display_name : string;
  group_input_external_id : option string;
  group_input_member_user_ids : list Uuid;
}.

(** ** Values *)

Definition scim_email (email : string) : result ScimError string :=
  map_err scim_from_domain_error (normalize_email email).
(* apps/api/src/http/scim_input/scim_values.rs:5-17 scim_required_string_value *)
Definition scim_required_string_value (field : string) (value : Value) (max_len : nat)
    : result ScimError string :=
  let? value := ok_or (as_str value) (invalid_value (field +:+ " must be a string")) in
  let? value := optional_scim_str field (Some value) max_len in
  ok_or value (invalid_value (field +:+ " cannot be empty")).
(* apps/api/src/http/scim_input/scim_values.rs:19-33 scim_optional_string_value *)
Definition scim_optional_string_value (field : string) (value : Value) (max_len : nat)
    : result ScimError (option string) :=
  match value with
  | Null => Ok None
  | _ =>
      let? value := ok_or (as_str value) (invalid_value (field +:+ " must be a string or null")) in
      optional_scim_str field (Some value) max_len
  end.
(* apps/api/src/http/scim_input/scim_values.rs:35-48 scim_bool_value *)
Definition scim_bool_value (field : string) (value : Value) : result ScimError bool :=
  match value with
  | Bool b => Ok b
  | String_ s =>
      if eq_ignore_ascii_case s "true" then Ok true
      else if eq_ignore_ascii_case s "false" then Ok false
      else Err (invalid_value (field +:+ " must be boolean"))
  | _ => Err (invalid_value (field +:+ " must be boolean"))
  end.

(** ** Schemas *)

(* apps/api/src/http/scim_input/scim_schemas.rs:29-39 validate_optional_request_schemas *)
Definition validate_optional_request_schemas (schemas : list string)
    (required_schema error_message : string) : result ScimError unit :=
  match schemas with
  | [] => Ok tt
  | _ => if contains schemas required_schema then Ok tt else Err (invalid_value error_message)
  end.

Section input.
Context {SS : ScimSerde} {UU : UuidCrate}.

(* apps/api/src/http/scim_input/scim_schemas.rs:41-58 validate_required_schema_patch_value *)
Definition validate_required_schema_patch_value (value : Value) (required_schema error_message : string)
    : result ScimError unit :=
  let? contains_schema :=
    match as_str value with
    | Some value => Ok (bool_decide (value = required_schema))
    | None =>
        let? schemas := ok_or (strings_from_value value)
                          (invalid_value "schemas must be a string array") in
        Ok (contains schemas required_schema)
    end in
  if (contains_schema : bool) then Ok tt else Err (invalid_value error_message).
(* apps/api/src/http/scim_input/scim_schemas.rs:5-7 validate_scim_user_request_schemas *)
Definition validate_scim_user_request_schemas (schemas : list string) : result ScimError unit :=
  validate_optional_request_schemas schemas SCIM_USER_SCHEMA "unsupported SCIM user schema".
(* apps/api/src/http/scim_input/scim_schemas.rs:9-11 validate_scim_group_request_schemas *)
Definition validate_scim_group_request_schemas (schemas : list string) : result ScimError unit :=
  validate_optional_request_schemas schemas SCIM_GROUP_SCHEMA "unsupported SCIM group schema".
(* apps/api/src/http/scim_input/scim_schemas.rs:13-19 validate_scim_user_schemas_patch_value *)
Definition validate_scim_user_schemas_patch_value (value : Value) : result ScimError unit :=
  validate_required_schema_patch_value value SCIM_USER_SCHEMA
    "schemas must include the core User schema".
(* apps/api/src/http/scim_input/scim_schemas.rs:21-27 validate_scim_group_schemas_patch_value *)
Definition validate_scim_group_schemas_patch_value (value : Value) : result ScimError unit :=
  validate_required_schema_patch_value value SCIM_GROUP_SCHEMA
    "schemas must include the core Group schema".

(** ** A user's profile *)

(* apps/api/src/http/scim_input/scim_user_profile.rs:28-30 is_primary *)
Definition is_primary (email : ScimEmailRequest) : bool := default false (email_primary email).
Definition email_type_must_be_work : ScimError :=
  invalid_value "emails.type must be work for Cairn Identity users".
(** The loop over the addresses. *)
Fixpoint validate_emails (user_name : string) (emails : list ScimEmailRequest) : result ScimError unit :=
  match emails with
  | [] => Ok tt
  | email :: rest =>
      let? normalized := scim_email (email_value email) in
      if negb (bool_decide (normalized = user_name))
      then Err (invalid_value "emails.value must match userName for Cairn Identity users")
      else
      let? _ :=
        match email_type email with
        | Some email_type =>
            let email_type := trim email_type in
            if is_empty email_type || (32 <? chars_count email_type)%nat
               || negb (eq_ignore_ascii_case email_type "work")
            then Err email_type_must_be_work else Ok tt
        | None => Ok tt
        end in
      validate_emails user_name rest
  end.
(* apps/api/src/http/scim_input/scim_user_profile.rs:80-110 validate_scim_email_values *)
Definition validate_scim_email_values (user_name : string) (emails : list ScimEmailRequest)
    : result ScimError unit :=
  let? _ := validate_emails user_name emails in
  let primary_count := length (List.filter is_primary emails) in
  if (1 <? primary_count)%nat then Err (invalid_value "only one primary email can be supplied")
  else Ok tt.
(* apps/api/src/http/scim_input/scim_user_profile.rs:33-57 scim_email_from_patch_value *)
Definition scim_email_from_patch_value (value : Value) : result ScimError string :=
  match value with
  | String_ value => scim_email value
  | Object _ =>
      let? email := ok_or (email_from_value value) (invalid_value "emails must contain value fields") in
      let? selected_email := scim_email (email_value email) in
      let? _ := validate_scim_email_values selected_email [email] in
      Ok selected_email
  | _ =>
      let? emails := ok_or (emails_from_value value)
                       (invalid_value "emails must be a string, object, or array") in
      match emails with
      | [] => Err (invalid_value "emails cannot be empty")
      | first :: _ =>
          let selected := default first (List.find is_primary emails) in
          let? selected_email := scim_email (email_value selected) in
          let? _ := validate_scim_email_values selected_email emails in
          Ok selected_email
      end
  end.
(* apps/api/src/http/scim_input/scim_user_profile.rs:59-68 validate_scim_email_type_patch_value *)
Definition validate_scim_email_type_patch_value (value : Value) : result ScimError unit :=
  let? email_type := scim_required_string_value "emails.type" value 32 in
  if eq_ignore_ascii_case email_type "work" then Ok tt else Err email_type_must_be_work.
(* apps/api/src/http/scim_input/scim_user_profile.rs:70-78 validate_scim_email_primary_patch_value *)
Definition validate_scim_email_primary_patch_value (value : Value) : result ScimError unit :=
  let? primary := scim_bool_value "emails.primary" value in
  if (primary : bool) then Ok tt
  else Err (invalid_value "emails.primary must remain true for Cairn Identity users").
Definition option_list {A} (o : option A) : list A := match o with Some a => [a] | None => [] end.
(* apps/api/src/http/scim_input/scim_user_profile.rs:112-136 scim_display_name *)
Definition scim_display_name (user_name : string) (display_name : option string)
    (name : option ScimNameRequest) : result ScimError string :=
  let? display_name := optional_scim_str "displayName" display_name 160 in
  match display_name with
  | Some display_name => Ok display_name
  | None =>
      match name with
      | None => Ok user_name
      | Some name =>
          let? formatted := optional_scim_str "name.formatted" (name_formatted name) 160 in
          match formatted with
          | Some formatted => Ok formatted
          | None =>
              let? given_name := optional_scim_str "name.givenName" (name_given_name name) 80 in
              let? family_name := optional_scim_str "name.familyName" (name_family_name name) 80 in
              match option_list given_name ++ option_list family_name with
              | [] => Ok user_name
              | parts => Ok (join " " parts)
              end
          end
      end
  end.

(** ** Members of a group *)

(* apps/api/src/http/scim_input/scim_group_members.rs:92-113 scim_group_member_user_id_from_request *)
Definition scim_group_member_user_id_from_request (member : ScimGroupMemberRequest)
    : result ScimError Uuid :=
  match member_request_type member with
  | Some member_type =>
      if negb (eq_ignore_ascii_case member_type "User")
      then Err (invalid_value "SCIM group members only support User resources")
      else Ok (member_request_value member)
  | None => Ok (member_request_value member)
  end.
(* apps/api/src/http/scim_input/scim_group_members.rs:72-79 scim_group_member_value_user_id_from_patch_value *)
Definition scim_group_member_value_user_id_from_patch_value (value : Value) : result ScimError Uuid :=
  match as_str value with
  | Some value => ok_or (Uuid_parse_str value) (invalid_value "members.value must be a UUID")
  | None => Err (invalid_value "members.value must be a UUID string")
  end.
(* apps/api/src/http/scim_input/scim_group_members.rs:81-90 scim_group_member_user_id_from_patch_value *)
Definition scim_group_member_user_id_from_patch_value (value : Value) : result ScimError Uuid :=
  match as_str value with
  | Some value => ok_or (Uuid_parse_str value) (invalid_value "members.value must be a UUID")
  | None =>
      let? member := ok_or (member_from_value value)
                       (invalid_value "members must contain value fields") in
      scim_group_member_user_id_from_request member
  end.
(* apps/api/src/http/scim_input/scim_group_members.rs:115-131 unique_scim_group_member_user_ids *)
Definition unique_scim_group_member_user_ids (user_ids : list Uuid) : result ScimError (list Uuid) :=
  if (SCIM_GROUP_MAX_MEMBERS <? length user_ids)%nat then Err (invalid_value "too many group members")
  else if bool_decide (NoDup user_ids) then Ok user_ids
  else Err (invalid_value "duplicate members.value entries are not allowed").
(* apps/api/src/http/scim_input/scim_group_members.rs:21-29 scim_group_member_user_ids *)
Definition scim_group_member_user_ids (members : list ScimGroupMemberRequest)
    : result ScimError (list Uuid) :=
  let? user_ids := collect_results scim_group_member_user_id_from_request members in
  unique_scim_group_member_user_ids user_ids.
(* apps/api/src/http/scim_input/scim_group_members.rs:31-43 scim_group_member_user_ids_from_patch_value *)
Definition scim_group_member_user_ids_from_patch_value (value : Value) : result ScimError (list Uuid) :=
  let? user_ids :=
    match value with
    | Array values => collect_results scim_group_member_user_id_from_patch_value values
    | _ => let? user_id := scim_group_member_user_id_from_patch_value value in Ok [user_id]
    end in
  unique_scim_group_member_user_ids user_ids.
(* apps/api/src/http/scim_input/scim_group_members.rs:45-54 scim_group_single_member_user_id_from_patch_value *)
Definition scim_group_single_member_user_id_from_patch_value (value : Value) (value_only : bool)
    : result ScimError Uuid :=
  if value_only then scim_group_member_value_user_id_from_patch_value value
  else scim_group_member_user_id_from_patch_value value.
(* apps/api/src/http/scim_input/scim_group_members.rs:56-70 scim_group_member_value_user_ids_from_patch_value *)
Definition scim_group_member_value_user_ids_from_patch_value (value : Value)
    : result ScimError (list Uuid) :=
  let? user_ids :=
    match value with
    | Array values => collect_results scim_group_member_value_user_id_from_patch_value values
    | _ => let? user_id := scim_group_member_value_user_id_from_patch_value value in Ok [user_id]
    end in
  unique_scim_group_member_user_ids user_ids.

(** ** Paths of a PATCH *)

(* apps/api/src/http/scim_input/scim_patch_path.rs:48-52 ScimEmailFilter *)
Inductive ScimEmailFilter := Filter_TypeWork | Filter_PrimaryTrue | Filter_Value (value : string).
(* apps/api/src/http/scim_input/scim_patch_path.rs:29-34 ScimEmailPatchAttribute *)
Inductive ScimEmailPatchAttribute := Email_Resource | Email_Value | Email_Type | Email_Primary.
(* apps/api/src/http/scim_input/scim_patch_path.rs:12-26 ScimPatchPath *)
Inductive ScimPatchPath :=
| Path_UserName
| Path_ExternalId
| Path_DisplayName
| Path_Active
| Path_Name
| Path_NameFormatted
| Path_NameGivenName
| Path_NameFamilyName
| Path_Emails (filter : option ScimEmailFilter) (attribute : ScimEmailPatchAttribute)
| Path_Schemas.
(* apps/api/src/http/scim_input/scim_patch_path.rs:37-45 ScimGroupPatchPath *)
Inductive ScimGroupPatchPath :=
| GroupPath_DisplayName
| GroupPath_ExternalId
| GroupPath_Members (value : option Uuid) (value_only : bool)
| GroupPath_Schemas.
(* apps/api/src/http/scim_input/scim_patch_path.rs:55-60 matches_email *)
Definition matches_email (filter : ScimEmailFilter) (email : string) : bool :=
  match filter with
  | Filter_TypeWork | Filter_PrimaryTrue => true
  | Filter_Value value => bool_decide (value = email)
  end.

(* apps/api/src/http/scim_input/scim_patch_path.rs:218-247 scim_email_filter *)
Definition scim_email_filter (value : string) : result ScimError ScimEmailFilter :=
  let? (attribute, raw_value) := scim_eq_condition value in
  let attribute := to_ascii_lowercase attribute in
  if bool_decide (attribute = "type")
  then
    let? value := scim_filter_string raw_value in
    if eq_ignore_ascii_case value "work" then Ok Filter_TypeWork
    else Err (no_target "SCIM PATCH email type filter did not match a stored email")
  else if bool_decide (attribute = "primary")
  then
    let value := trim raw_value in
    if bool_decide (value = "true") then Ok Filter_PrimaryTrue
    else if bool_decide (value = "false")
    then Err (no_target "SCIM PATCH email primary filter did not match a stored email")
    else Err (invalid_filter "SCIM PATCH email primary filter must be boolean")
  else if bool_decide (attribute = "value")
  then
    let? value := scim_filter_string raw_value in
    let? email := scim_email value in
    Ok (Filter_Value email)
  else Err (invalid_filter "unsupported SCIM PATCH email filter attribute").

(** [path[..open]], [path[open + 1..close]] and [path[close + 1..]]. *)
Definition bracketed (path name : string) (invalid unterminated : ScimError)
    : result ScimError (string * string) :=
  let? (before, rest) := ok_or (split_once "[" path) invalid in
  if negb (eq_ignore_ascii_case before name) then Err invalid
  else ok_or (split_once "]" rest) unterminated.
(* apps/api/src/http/scim_input/scim_patch_path.rs:186-216 scim_patch_email_path *)
Definition scim_patch_email_path (path : string) : result ScimError ScimPatchPath :=
  let? (inside, after) := bracketed path "emails" (invalid_path "invalid SCIM email path")
                            (invalid_path "unterminated SCIM email filter path") in
  let? filter := scim_email_filter inside in
  let suffix := trim after in
  let? attribute :=
    if is_empty suffix then Ok Email_Resource
    else if eq_ignore_ascii_case suffix ".value" then Ok Email_Value
    else if eq_ignore_ascii_case suffix ".type" then Ok Email_Type
    else if eq_ignore_ascii_case suffix ".primary" then Ok Email_Primary
    else Err (invalid_path "unsupported SCIM email filter sub-attribute") in
  Ok (Path_Emails (Some filter) attribute).

Definition read_only_attributes : list string :=
  ["id"; "meta"; "meta.created"; "meta.lastmodified"; "meta.location"].
(* apps/api/src/http/scim_input/scim_patch_path.rs:63-105 scim_patch_path *)
Definition scim_patch_path (raw_path : string) : result ScimError ScimPatchPath :=
  let path := strip_scim_user_schema_prefix (trim raw_path) in
  if is_empty path then Err (invalid_path "SCIM PATCH path cannot be empty")
  else
    let lower := to_ascii_lowercase path in
    let named name := bool_decide (lower = name) in
    if named "username" then Ok Path_UserName
    else if named "externalid" then Ok Path_ExternalId
    else if named "displayname" then Ok Path_DisplayName
    else if named "active" then Ok Path_Active
    else if named "name" then Ok Path_Name
    else if named "name.formatted" then Ok Path_NameFormatted
    else if named "name.givenname" then Ok Path_NameGivenName
    else if named "name.familyname" then Ok Path_NameFamilyName
    else if named "emails" then Ok (Path_Emails None Email_Resource)
    else if named "emails.value" then Ok (Path_Emails None Email_Value)
    else if named "emails.type" then Ok (Path_Emails None Email_Type)
    else if named "emails.primary" then Ok (Path_Emails None Email_Primary)
    else if named "schemas" then Ok Path_Schemas
    else if contains read_only_attributes lower
    then Err (mutability 400 "read-only SCIM user attributes cannot be modified")
    else if starts_with "emails[" lower then scim_patch_email_path path
    else Err (invalid_path "unsupported SCIM PATCH path").

Definition generated_member_attributes : ScimError :=
  mutability 400 "generated SCIM group member attributes cannot be modified".
(* apps/api/src/http/scim_input/scim_patch_path.rs:141-184 scim_group_patch_member_path *)
Definition scim_group_patch_member_path (path : string) : result ScimError ScimGroupPatchPath :=
  let? (inside, after) := bracketed path "members" (invalid_path "invalid SCIM member path")
                            (invalid_path "unterminated SCIM member filter path") in
  let suffix := trim after in
  let? value_only :=
    if is_empty suffix then Ok false
    else if eq_ignore_ascii_case suffix ".value" then Ok true
    else if eq_ignore_ascii_case suffix ".$ref" || eq_ignore_ascii_case suffix ".display"
            || eq_ignore_ascii_case suffix ".type"
    then Err generated_member_attributes
    else Err (invalid_path "unsupported SCIM member filter sub-attribute") in
  let? (attribute, raw_value) := scim_eq_condition inside in
  if negb (eq_ignore_ascii_case attribute "value")
  then Err (invalid_filter "SCIM group member filters only support value")
  else
    let? value := scim_filter_string raw_value in
    let? user_id := ok_or (Uuid_parse_str value)
                      (invalid_filter "SCIM group member value must be a UUID") in
    Ok (GroupPath_Members (Some user_id) value_only).
(* apps/api/src/http/scim_input/scim_patch_path.rs:107-139 scim_group_patch_path *)
Definition scim_group_patch_path (raw_path : string) : result ScimError ScimGroupPatchPath :=
  let path := strip_scim_group_schema_prefix (trim raw_path) in
  if is_empty path then Err (invalid_path "SCIM PATCH path cannot be empty")
  else
    let lower := to_ascii_lowercase path in
    let named name := bool_decide (lower = name) in
    if named "displayname" then Ok GroupPath_DisplayName
    else if named "externalid" then Ok GroupPath_ExternalId
    else if named "members" then Ok (GroupPath_Members None false)
    else if named "members.value" then Ok (GroupPath_Members None true)
    else if contains ["members.$ref"; "members.display"; "members.type"] lower
    then Err generated_member_attributes
    else if named "schemas" then Ok GroupPath_Schemas
    else if contains read_only_attributes lower
    then Err (mutability 400 "read-only SCIM group attributes cannot be modified")
    else if starts_with "members[" lower then scim_group_patch_member_path path
    else Err (invalid_path "unsupported SCIM PATCH path").

(** ** PATCH requests *)

(* apps/api/src/http/scim_input/scim_patch_request.rs:58-62 ScimPatchOp *)
Inductive ScimPatchOp := Op_Add | Op_Replace | Op_Remove.
(* apps/api/src/http/scim_input/scim_patch_request.rs:65-75 ScimPatchOp::parse *)
Definition patch_op_parse (value : string) : result ScimError ScimPatchOp :=
  if eq_ignore_ascii_case value "add" then Ok Op_Add
  else if eq_ignore_ascii_case value "replace" then Ok Op_Replace
  else if eq_ignore_ascii_case value "remove" then Ok Op_Remove
  else Err (invalid_value "unsupported SCIM PATCH op").
(* apps/api/src/http/scim_input/scim_patch_request.rs:16-18 operation_count *)
Definition operation_count (payload : ScimPatchRequest) : nat := length (patch_operations payload).
(* apps/api/src/http/scim_input/scim_patch_request.rs:25-44 validate *)
Definition validate_patch_request (payload : ScimPatchRequest) : result ScimError unit :=
  if negb (contains (patch_schemas payload) SCIM_PATCH_OP_SCHEMA)
  then Err (invalid_value "SCIM PATCH request must include PatchOp schema")
  else if bool_decide (patch_operations payload = [])
  then Err (invalid_value "SCIM PATCH request must include at least one operation")
  else if (SCIM_PATCH_MAX_OPERATIONS <? length (patch_operations payload))%nat
  then Err (invalid_value "too many SCIM PATCH operations")
  else Ok tt.
(* apps/api/src/http/scim_input/scim_patch_request.rs:20-23 into_validated_operations *)
Definition into_validated_operations (payload : ScimPatchRequest)
    : result ScimError (list ScimPatchOperation) :=
  let? _ := validate_patch_request payload in Ok (patch_operations payload).
(** The loops that apply one change after the other. *)
Fixpoint apply_each {S A} (apply : S -> A -> result ScimError S) (state : S) (changes : list A)
    : result ScimError S :=
  match changes with
  | [] => Ok state
  | change :: rest => let? state := apply state change in apply_each apply state rest
  end.

(** ** Patching a user *)

(* apps/api/src/http/scim_input/scim_user_patch.rs:19-27 ScimPatchState *)
Record ScimPatchState := mk_ScimPatchState {
  patch_email : string;
  patch_external_id : option string;
  patch_email_verified : bool;
  patch_display_name : string;
  patch_status : UserStatus;
  patch_given_name : option string;
  patch_family_name : option string;
}.
(* apps/api/src/http/scim_input/scim_user_patch.rs:41-51 from_user *)
Definition patch_state_from_user (user : User) : ScimPatchState :=
  mk_ScimPatchState (user_email user) (user_scim_external_id user) (user_email_verified user)
    (user_display_name user) (user_status user) None None.
(* apps/api/src/http/scim_input/scim_user_patch.rs:53-62 into_input *)
Definition patch_state_into_input (state : ScimPatchState) : result ScimError ScimUserInput :=
  let? display_name := optional_scim_str "displayName" (Some (patch_display_name state)) 160 in
  let? display_name := ok_or display_name (invalid_value "displayName cannot be empty") in
  Ok (mk_ScimUserInput (patch_email state) (patch_external_id state) (patch_email_verified state)
        display_name (patch_status state)).
(* apps/api/src/http/scim_input/scim_user_patch.rs:64-69 set_user_name *)
Definition patch_set_user_name (email : string) (state : ScimPatchState) : ScimPatchState :=
  if bool_decide (patch_email state = email) then state
  else mk_ScimPatchState email (patch_external_id state) false (patch_display_name state)
         (patch_status state) (patch_given_name state) (patch_family_name state).
Definition patch_set_external_id (external_id : option string) (state : ScimPatchState) : ScimPatchState :=
  mk_ScimPatchState (patch_email state) external_id (patch_email_verified state)
    (patch_display_name state) (patch_status state) (patch_given_name state) (patch_family_name state).
Definition patch_set_status (status : UserStatus) (state : ScimPatchState) : ScimPatchState :=
  mk_ScimPatchState (patch_email state) (patch_external_id state) (patch_email_verified state)
    (patch_display_name state) status (patch_given_name state) (patch_family_name state).
(* apps/api/src/http/scim_input/scim_user_patch.rs:75-79 set_display_name *)
Definition patch_set_display_name (display_name : string) (state : ScimPatchState) : ScimPatchState :=
  mk_ScimPatchState (patch_email state) (patch_external_id state) (patch_email_verified state)
    display_name (patch_status state) None None.
(* apps/api/src/http/scim_input/scim_user_patch.rs:91-103 rebuild_display_name_from_patch_parts *)
Definition rebuild_display_name (state : ScimPatchState) : result ScimError ScimPatchState :=
  let parts := option_list (patch_given_name state) ++ option_list (patch_family_name state) in
  let? display_name := optional_scim_str "displayName" (Some (join " " parts)) 160 in
  let? display_name := ok_or display_name (invalid_value "displayName cannot be empty") in
  Ok (mk_ScimPatchState (patch_email state) (patch_external_id state) (patch_email_verified state)
        display_name (patch_status state) (patch_given_name state) (patch_family_name state)).
(* apps/api/src/http/scim_input/scim_user_patch.rs:81-84 set_given_name *)
Definition patch_set_given_name (given_name : string) (state : ScimPatchState)
    : result ScimError ScimPatchState :=
  rebuild_display_name
    (mk_ScimPatchState (patch_email state) (patch_external_id state) (patch_email_verified state)
       (patch_display_name state) (patch_status state) (Some given_name) (patch_family_name state)).
(* apps/api/src/http/scim_input/scim_user_patch.rs:86-89 set_family_name *)
Definition patch_set_family_name (family_name : string) (state : ScimPatchState)
    : result ScimError ScimPatchState :=
  rebuild_display_name
    (mk_ScimPatchState (patch_email state) (patch_external_id state) (patch_email_verified state)
       (patch_display_name state) (patch_status state) (patch_given_name state) (Some family_name)).

Definition email_filter_misses (filter : option ScimEmailFilter) (state : ScimPatchState) : bool :=
  match filter with Some filter => negb (matches_email filter (patch_email state)) | None => false end.
Definition email_filter_no_match : ScimError :=
  no_target "SCIM PATCH email filter did not match a stored email".
(* apps/api/src/http/scim_input/scim_user_patch.rs:154-223 apply_scim_patch_path_value *)
Definition apply_scim_patch_path_value (state : ScimPatchState) (path : ScimPatchPath) (value : Value)
    : result ScimError ScimPatchState :=
  match path with
  | Path_UserName =>
      let? name := scim_required_string_value "userName" value 320 in
      let? email := scim_email name in
      Ok (patch_set_user_name email state)
  | Path_ExternalId =>
      let? external_id := scim_optional_string_value "externalId" value 256 in
      Ok (patch_set_external_id external_id state)
  | Path_DisplayName =>
      let? display_name := scim_required_string_value "displayName" value 160 in
      Ok (patch_set_display_name display_name state)
  | Path_Active =>
      let? active := scim_bool_value "active" value in
      Ok (patch_set_status (if (active : bool) then UserStatus_Active else UserStatus_Suspended) state)
  | Path_Name =>
      let? name := ok_or (name_from_value value) (invalid_value "name must be a SCIM name object") in
      let? display_name := scim_display_name (patch_email state) None (Some name) in
      Ok (patch_set_display_name display_name state)
  | Path_NameFormatted =>
      let? display_name := scim_required_string_value "name.formatted" value 160 in
      Ok (patch_set_display_name display_name state)
  | Path_NameGivenName =>
      let? given_name := scim_required_string_value "name.givenName" value 80 in
      patch_set_given_name given_name state
  | Path_NameFamilyName =>
      let? family_name := scim_required_string_value "name.familyName" value 80 in
      patch_set_family_name family_name state
  | Path_Emails filter attribute =>
      if email_filter_misses filter state then Err email_filter_no_match
      else
        match attribute with
        | Email_Resource =>
            let? email := scim_email_from_patch_value value in
            Ok (patch_set_user_name email state)
        | Email_Value =>
            let? value := scim_required_string_value "emails.value" value 320 in
            let? email := scim_email value in
            Ok (patch_set_user_name email state)
        | Email_Type => let? _ := validate_scim_email_type_patch_value value in Ok state
        | Email_Primary => let? _ := validate_scim_email_primary_patch_value value in Ok state
        end
  | Path_Schemas => let? _ := validate_scim_user_schemas_patch_value value in Ok state
  end.
(** [apply] on the entries of a patch without a path. *)
Definition patch_resource_entries (value : Value) : result ScimError (list (string * Value)) :=
  match as_object value with
  | None => Err (invalid_value "SCIM PATCH resource value must be an object")
  | Some [] => Err (invalid_value "SCIM PATCH resource value cannot be empty")
  | Some object => Ok object
  end.
(* apps/api/src/http/scim_input/scim_user_patch.rs:134-152 apply_scim_patch_resource_value *)
Definition apply_scim_patch_resource_value (state : ScimPatchState) (value : Value)
    : result ScimError ScimPatchState :=
  let? object := patch_resource_entries value in
  apply_each (fun state '(attribute, value) =>
    let? path := scim_patch_path attribute in apply_scim_patch_path_value state path value)
    state object.
(* apps/api/src/http/scim_input/scim_user_patch.rs:225-262 remove_scim_patch_path *)
Definition remove_scim_patch_path (state : ScimPatchState) (path : ScimPatchPath)
    : result ScimError ScimPatchState :=
  match path with
  | Path_ExternalId => Ok (patch_set_external_id None state)
  | Path_Emails filter _ =>
      if email_filter_misses filter state then Err email_filter_no_match
      else Err (mutability 400 "emails cannot be removed from Cairn Identity users")
  | Path_Schemas => Err (mutability 400 "schemas cannot be removed from Cairn Identity users")
  | Path_UserName | Path_DisplayName | Path_Active | Path_Name | Path_NameFormatted
  | Path_NameGivenName | Path_NameFamilyName =>
      Err (mutability 400
        "required Cairn Identity user attributes cannot be removed through SCIM PATCH")
  end.
Definition value_required : ScimError := invalid_value "SCIM PATCH value is required".
Definition remove_requires_path : ScimError := invalid_path "SCIM PATCH remove requires path".
(* apps/api/src/http/scim_input/scim_user_patch.rs:106-132 apply_scim_patch_operation *)
Definition apply_scim_patch_operation (state : ScimPatchState) (operation : ScimPatchOperation)
    : result ScimError ScimPatchState :=
  let? op := patch_op_parse (patch_op operation) in
  match op with
  | Op_Add | Op_Replace =>
      let? value := ok_or (patch_value operation) value_required in
      match patch_path operation with
      | Some path =>
          let? path := scim_patch_path path in
          apply_scim_patch_path_value state path value
      | None => apply_scim_patch_resource_value state value
      end
  | Op_Remove =>
      let? path := ok_or (patch_path operation) remove_requires_path in
      let? path := scim_patch_path path in
      remove_scim_patch_path state path
  end.
(* apps/api/src/http/scim_input/scim_user_patch.rs:29-38 scim_patch_user_input *)
Definition scim_patch_user_input (current_user : User) (payload : ScimPatchRequest)
    : result ScimError ScimUserInput :=
  let? operations := into_validated_operations payload in
  let? state := apply_each apply_scim_patch_operation (patch_state_from_user current_user) operations in
  patch_state_into_input state.

(** ** Patching a group *)

(* apps/api/src/http/scim_input/scim_group_patch.rs:21-25 ScimGroupPatchState *)
Record ScimGroupPatchState := mk_ScimGroupPatchState {
  group_patch_display_name : string;
  group_patch_external_id : option string;
  group_patch_members : list Uuid;
}.
(* apps/api/src/http/scim_input/scim_group_patch.rs:40-46 from_group *)
Definition group_patch_from_group (group : Group) (members : list ScimGroupMember)
    : ScimGroupPatchState :=
  mk_ScimGroupPatchState (group_display_name group) (group_scim_external_id group)
    (List.map member_user_id members).
(* apps/api/src/http/scim_input/scim_group_patch.rs:48-59 into_input *)
Definition group_patch_into_input (state : ScimGroupPatchState) : result ScimError ScimGroupInput :=
  if (SCIM_GROUP_MAX_MEMBERS <? length (group_patch_members state))%nat
  then Err (invalid_value "too many group members")
  else
    let? display_name := optional_scim_str "displayName" (Some (group_patch_display_name state)) 160 in
    let? display_name := ok_or display_name (invalid_value "displayName is required") in
    Ok (mk_ScimGroupInput display_name (group_patch_external_id state) (group_patch_members state)).
Definition group_patch_set_members (members : list Uuid) (state : ScimGroupPatchState)
    : ScimGroupPatchState :=
  mk_ScimGroupPatchState (group_patch_display_name state) (group_patch_external_id state) members.
(** [existing] is the set of the members so far. *)
Definition add_member (members : list Uuid) (user_id : Uuid) : list Uuid :=
  if bool_decide (user_id ∈ members) then members else members ++ [user_id].
(* apps/api/src/http/scim_input/scim_group_patch.rs:61-72 add_member_user_ids *)
Definition add_member_user_ids (user_ids : list Uuid) (state : ScimGroupPatchState)
    : result ScimError ScimGroupPatchState :=
  let members := fold_left add_member user_ids (group_patch_members state) in
  if (SCIM_GROUP_MAX_MEMBERS <? length members)%nat then Err (invalid_value "too many group members")
  else Ok (group_patch_set_members members state).
(* apps/api/src/http/scim_input/scim_group_patch.rs:78-91 add_filtered_member_user_id *)
Definition add_filtered_member_user_id (filtered_user_id : Uuid) (value : Value) (value_only : bool)
    (state : ScimGroupPatchState) : result ScimError ScimGroupPatchState :=
  let? user_id := scim_group_single_member_user_id_from_patch_value value value_only in
  if negb (N.eqb user_id filtered_user_id)
  then Err (invalid_value "filtered members PATCH value must match the path filter")
  else add_member_user_ids [user_id] state.
(** [iter().position(..)]. *)
Fixpoint position (user_id : Uuid) (members : list Uuid) : option nat :=
  match members with
  | [] => None
  | existing :: rest => if N.eqb existing user_id then Some O else S <$> position user_id rest
  end.
(* apps/api/src/http/scim_input/scim_group_patch.rs:93-119 replace_filtered_member_user_id *)
Definition replace_filtered_member_user_id (filtered_user_id : Uuid) (value : Value)
    (value_only : bool) (state : ScimGroupPatchState) : result ScimError ScimGroupPatchState :=
  let? replacement_user_id := scim_group_single_member_user_id_from_patch_value value value_only in
  let members := group_patch_members state in
  let? target_index := ok_or (position filtered_user_id members)
                         (no_target "SCIM PATCH member filter did not match a stored member") in
  if N.eqb replacement_user_id filtered_user_id then Ok state
  else if bool_decide (replacement_user_id ∈ members)
  then Ok (group_patch_set_members (take target_index members ++ drop (S target_index) members) state)
  else Ok (group_patch_set_members (<[target_index := replacement_user_id]> members) state).
(* apps/api/src/http/scim_input/scim_group_patch.rs:121-123 remove_member_user_id *)
Definition remove_member_user_id (user_id : Uuid) (state : ScimGroupPatchState) : ScimGroupPatchState :=
  group_patch_set_members (List.filter (fun existing => negb (N.eqb existing user_id))
                             (group_patch_members state)) state.

(** The arms for [Remove] are [unreachable!] in the source. *)
Definition remove_is_handled_separately : ScimError := scim_server_error "remove is handled separately".
(* apps/api/src/http/scim_input/scim_group_patch.rs:173-218 apply_scim_group_patch_path_value *)
Definition apply_scim_group_patch_path_value (state : ScimGroupPatchState) (path : ScimGroupPatchPath)
    (value : Value) (op : ScimPatchOp) : result ScimError ScimGroupPatchState :=
  match path with
  | GroupPath_DisplayName =>
      let? display_name := scim_required_string_value "displayName" value 160 in
      Ok (mk_ScimGroupPatchState display_name (group_patch_external_id state) (group_patch_members state))
  | GroupPath_ExternalId =>
      let? external_id := scim_optional_string_value "externalId" value 256 in
      Ok (mk_ScimGroupPatchState (group_patch_display_name state) external_id (group_patch_members state))
  | GroupPath_Members None value_only =>
      let? member_user_ids :=
        if value_only then scim_group_member_value_user_ids_from_patch_value value
        else scim_group_member_user_ids_from_patch_value value in
      match op with
      | Op_Add => add_member_user_ids member_user_ids state
      | Op_Replace => Ok (group_patch_set_members member_user_ids state)
      | Op_Remove => Err remove_is_handled_separately
      end
  | GroupPath_Members (Some user_id) value_only =>
      match op with
      | Op_Add => add_filtered_member_user_id user_id value value_only state
      | Op_Replace => replace_filtered_member_user_id user_id value value_only state
      | Op_Remove => Err remove_is_handled_separately
      end
  | GroupPath_Schemas => let? _ := validate_scim_group_schemas_patch_value value in Ok state
  end.
(* apps/api/src/http/scim_input/scim_group_patch.rs:153-171 apply_scim_group_patch_resource_value *)
Definition apply_scim_group_patch_resource_value (state : ScimGroupPatchState) (value : Value)
    (op : ScimPatchOp) : result ScimError ScimGroupPatchState :=
  let? object := patch_resource_entries value in
  apply_each (fun state '(attribute, value) =>
    let? path := scim_group_patch_path attribute in
    apply_scim_group_patch_path_value state path value op) state object.
(* apps/api/src/http/scim_input/scim_group_patch.rs:220-249 remove_scim_group_patch_path *)
Definition remove_scim_group_patch_path (state : ScimGroupPatchState) (path : ScimGroupPatchPath)
    : result ScimError ScimGroupPatchState :=
  match path with
  | GroupPath_ExternalId =>
      Ok (mk_ScimGroupPatchState (group_patch_display_name state) None (group_patch_members state))
  | GroupPath_Members None _ => Ok (group_patch_set_members [] state)
  | GroupPath_Members (Some user_id) _ => Ok (remove_member_user_id user_id state)
  | GroupPath_Schemas => Err (mutability 400 "schemas cannot be removed from Cairn Identity groups")
  | GroupPath_DisplayName =>
      Err (mutability 400 "displayName cannot be removed from Cairn Identity groups")
  end.
(* apps/api/src/http/scim_input/scim_group_patch.rs:126-151 apply_scim_group_patch_operation *)
Definition apply_scim_group_patch_operation (state : ScimGroupPatchState)
    (operation : ScimPatchOperation) : result ScimError ScimGroupPatchState :=
  let? op := patch_op_parse (patch_op operation) in
  match op with
  | Op_Add | Op_Replace =>
      let? value := ok_or (patch_value operation) value_required in
      match patch_path operation with
      | Some path =>
          let? path := scim_group_patch_path path in
          apply_scim_group_patch_path_value state path value op
      | None => apply_scim_group_patch_resource_value state value op
      end
  | Op_Remove =>
      let? path := ok_or (patch_path operation) remove_requires_path in
      let? path := scim_group_patch_path path in
      remove_scim_group_patch_path state path
  end.
(* apps/api/src/http/scim_input/scim_group_patch.rs:27-37 scim_patch_group_input *)
Definition scim_patch_group_input (current_group : Group) (current_members : list ScimGroupMember)
    (payload : ScimPatchRequest) : result ScimError ScimGroupInput :=
  let? operations := into_validated_operations payload in
  let? state := apply_each apply_scim_group_patch_operation
                  (group_patch_from_group current_group current_members) operations in
  group_patch_into_input state.

(** ** Whole resources *)

(* apps/api/src/http/scim_input.rs:74-92 scim_user_input *)
Definition scim_user_input (payload : ScimUserRequest) : result ScimError ScimUserInput :=
  let? _ := validate_scim_user_request_schemas (user_request_schemas payload) in
  let? email := scim_email (user_request_user_name payload) in
  let? _ := validate_scim_email_values email (user_request_emails payload) in
  let? display_name := scim_display_name email (user_request_display_name payload)
                         (user_request_name payload) in
  let? external_id := optional_scim_str "externalId" (user_request_external_id payload) 256 in
  Ok (mk_ScimUserInput email external_id false display_name
        (if default true (user_request_active payload) then UserStatus_Active else UserStatus_Suspended)).
(* apps/api/src/http/scim_input.rs:94-106 scim_group_input *)
Definition scim_group_input (payload : ScimGroupRequest) : result ScimError ScimGroupInput :=
  let? _ := validate_scim_group_request_schemas (group_request_schemas payload) in
  let? display_name := optional_scim_str "displayName" (group_request_display_name payload) 160 in
  let? display_name := ok_or display_name (invalid_value "displayName is required") in
  let? external_id := optional_scim_str "externalId" (group_request_external_id payload) 256 in
  let? member_user_ids := scim_group_member_user_ids (group_request_members payload) in
  Ok (mk_ScimGroupInput display_name external_id member_user_ids).

(** The loop over the characters: a byte of a character that is not ASCII
    behaves as the character does, after its first. *)
Fixpoint slug_base (base seed : string) : string :=
  match seed with
  | EmptyString => base
  | String c rest =>
      if is_ascii_alphanumeric c then slug_base (base +:+ String (lower_byte c) "") rest
      else if negb (ends_with "-" base) then slug_base (base +:+ "-") rest
      else slug_base base rest
  end.
End input.

(* apps/api/src/http/scim_input.rs:108-136 scim_group_slug *)
Definition scim_group_slug `{TokenCrates} (group_id : Uuid) (external_id : option string)
    (display_name : string) : result ScimError string :=
  let seed := default display_name external_id in
  let base := trim_matches "-" (slug_base "" seed) in
  let base := if is_empty base then uuid_to_string group_id else base in
  let slug := "scim-" +:+ base in
  let slug := if (80 <? String.length slug)%nat
              then trim_end_matches "-" (String.substring 0 80 slug) else slug in
  map_err scim_from_domain_error (checked_string "slug" slug 80).
