(* ===== verification/Config.v ===== *)
(** * The configuration of the service

    [apps/api/src]'s config.rs with config/{origin,network,email,audit}.rs: the
    environment variables as the service reads them when it starts, and what it
    refuses to start with.  The list of trusted proxies is the one
    [RequestContext] reads forwarded addresses with; the hashes of the
    provisioning tokens are read by [ScimProtocol].  The theorems say what a
    configuration that was accepted guarantees, and that a forwarded address
    counts only when the peer is a configured proxy. *)

From S2P Require Import Prelude RustStr IpAddr Domain Authn Oidc Http Codec.
From S2P Require Import Store.
From S2P Require Import Handler KeyStore OAuthPolicy RequestContext.
From S2P Require Import AuthorizeRequest Mfa OutboxStore Delivery ScimProtocol.
From Stdlib Require Import Ascii.

(** [url::Url::host_str] *)
Class UrlHostText `{UrlCrate} := { url_host_str : Url -> option string }.
(** The constructor of [KeyEncryptionKey], from its 32 bytes. *)
Class KeyBytes `{AesGcm} := { key_of_bytes : string -> KeyEncryptionKey }.

(** ** Errors *)

(** A variable is named by its text; the errors of the token hashes are those
    of [scim_config_from_env]. *)
(* apps/api/src/config.rs:155-197 ConfigError *)
Inductive ConfigError :=
| Config_Missing (variable : string)
| Config_InvalidJson (variable : string)
| Config_InvalidKeyEncryptionKey (variable : string) (source : OidcError)
| Config_InvalidNumber (variable value : string)
| Config_TokenHash (variable : string) (error : ScimConfigError)
| Config_InvalidOrigin (variable value reason : string)
| Config_InvalidIpAddress (variable value : string)
| Config_InvalidEmailProvider (message : string)
| Config_InvalidBootstrapSetupSecret (variable reason : string).

(** ** Origins *)

Section origins.
Context {UC : UrlCrate} {UP : UrlParts} {UH : UrlHostText}.

(* apps/api/src/config/origin.rs:53-58 is_loopback_host *)
Definition is_loopback_host (url : Url) : bool :=
  match url_host_str url with
  | Some host => contains ["localhost"; "127.0.0.1"; "[::1]"] host
  | None => false
  end.
(* apps/api/src/config/origin.rs:14-51 validate_public_origin *)
Definition validate_public_origin (environment : Environment) (variable value : string)
    : result ConfigError unit :=
  let invalid reason := Config_InvalidOrigin variable value reason in
  let? parsed := ok_or (Url_parse value) (invalid "must be an absolute URL") in
  if url_cannot_be_a_base parsed || is_none (url_host_str parsed)
  then Err (invalid "must include a host")
  else if negb (is_empty (url_username parsed)) || is_some (url_password parsed)
  then Err (invalid "must not include credentials")
  else if negb (String.eqb (url_path parsed) "/") || is_some (url_query parsed)
          || is_some (url_fragment parsed)
  then Err (invalid "must be an origin without path, query, or fragment")
  else if String.eqb (url_scheme parsed) "https" then Ok tt
  else if String.eqb (url_scheme parsed) "http"
  then if bool_decide (environment = Development) && is_loopback_host parsed then Ok tt
       else Err (invalid "http is allowed only for localhost development origins")
  else Err (invalid "must use http or https").
(* apps/api/src/config/origin.rs:5-12 validate_origin_configuration *)
Definition validate_origin_configuration (environment : Environment)
    (issuer public_web_origin : string) : result ConfigError unit :=
  let? _ := validate_public_origin environment "CAIRN_ISSUER" issuer in
  validate_public_origin environment "CAIRN_PUBLIC_WEB_ORIGIN" public_web_origin.
End origins.

(** ** Trusted proxies *)

Definition TRUSTED_PROXY_IPS_ENV : string := "CAIRN_TRUSTED_PROXY_IPS".
Fixpoint trusted_proxy_loop (trusted_proxy_ips : list IpAddr) (parts : list string)
    : result ConfigError (list IpAddr) :=
  match parts with
  | [] => Ok trusted_proxy_ips
  | raw_ip :: parts =>
      let raw_ip := trim raw_ip in
      if is_empty raw_ip then trusted_proxy_loop trusted_proxy_ips parts
      else
        let? ip := ok_or (parse_ip_addr raw_ip) (Config_InvalidIpAddress TRUSTED_PROXY_IPS_ENV raw_ip) in
        trusted_proxy_loop (trusted_proxy_ips ++ [ip]) parts
  end.
(* apps/api/src/config/network.rs:14-35 trusted_proxy_ips_from_value *)
Definition trusted_proxy_ips_from_value (value : option string) : result ConfigError (list IpAddr) :=
  match value with
  | None => Ok []
  | Some value => trusted_proxy_loop [] (split_char "," value)
  end.

(** ** The variables *)

(** The environment: a variable is absent or has a text; one that is not
    Unicode is absent to [env::var]. *)
Definition Environ : Type := string -> option string.

(* apps/api/src/config.rs:227-229 required *)
Definition required (env : Environ) (variable : string) : result ConfigError string :=
  ok_or (env variable) (Config_Missing variable).
(* apps/api/src/config.rs:231-241 optional_i64 *)
Definition optional_i64 (env : Environ) (variable : string) (default_ : Z) : result ConfigError Z :=
  match env variable with
  | Some value => ok_or (parse_i64 value) (Config_InvalidNumber variable value)
  | None => Ok default_
  end.
Definition i32_range (z : Z) : bool := (- 2 ^ 31 <=? z)%Z && (z <? 2 ^ 31)%Z.
Definition parse_i32 (s : string) : option Z :=
  z ← parse_signed s; if i32_range z then Some z else None.
(* apps/api/src/config.rs:243-253 optional_i32 *)
Definition optional_i32 (env : Environ) (variable : string) (default_ : Z) : result ConfigError Z :=
  match env variable with
  | Some value => ok_or (parse_i32 value) (Config_InvalidNumber variable value)
  | None => Ok default_
  end.
(** [Ord::clamp] *)
Definition clamp (z lo hi : Z) : Z := Z.min (Z.max z lo) hi.

(* apps/api/src/config.rs:40-44 AuditOperationsConfig *)
Record AuditOperationsConfig := mk_AuditOperationsConfig {
  audit_retention_days : Z;
  audit_purge_batch_size : Z;
  audit_export_max_rows : Z;
}.
(* apps/api/src/config/audit.rs:3-9 audit_operations_from_env *)
Definition audit_operations_from_env (env : Environ) : result ConfigError AuditOperationsConfig :=
  let? retention_days := optional_i64 env "CAIRN_AUDIT_RETENTION_DAYS" 365 in
  let? purge_batch_size := optional_i64 env "CAIRN_AUDIT_PURGE_BATCH_SIZE" 1000 in
  let? export_max_rows := optional_i64 env "CAIRN_AUDIT_EXPORT_MAX_ROWS" 10000 in
  Ok (mk_AuditOperationsConfig (clamp retention_days 30 3650) (clamp purge_batch_size 1 50000)
        (clamp export_max_rows 1 50000)).

Definition email_provider_from_env (env : Environ) (environment : Environment)
    : result ConfigError EmailProviderConfig :=
  let default_provider :=
    match environment with Development => "stdout" | Production => "disabled" end in
  let provider_name := default default_provider (env "CAIRN_EMAIL_PROVIDER") in
  if String.eqb provider_name "disabled" then Ok EmailProvider_Disabled
  else if String.eqb provider_name "stdout" then
    if bool_decide (environment = Production)
    then Err (Config_InvalidEmailProvider "CAIRN_EMAIL_PROVIDER=stdout is development-only")
    else Ok EmailProvider_Stdout
  else if String.eqb provider_name "command" then
    let? path := required env "CAIRN_EMAIL_COMMAND_PATH" in Ok (EmailProvider_Command path)
  else Err (Config_InvalidEmailProvider
    ("unsupported CAIRN_EMAIL_PROVIDER " +:+ provider_name
     +:+ "; expected disabled, stdout, or command")).
(* apps/api/src/config/email.rs:6-43 email_delivery_from_env *)
Definition email_delivery_from_env (env : Environ) (environment : Environment)
    : result ConfigError EmailDeliveryConfig :=
  let? provider := email_provider_from_env env environment in
  let? batch_size := optional_i64 env "CAIRN_EMAIL_BATCH_SIZE" 10 in
  let? max_attempts := optional_i32 env "CAIRN_EMAIL_MAX_ATTEMPTS" 5 in
  let? retry_seconds := optional_i64 env "CAIRN_EMAIL_RETRY_SECONDS" 300 in
  let? sending_timeout_seconds := optional_i64 env "CAIRN_EMAIL_SENDING_TIMEOUT_SECONDS" 900 in
  Ok (mk_EmailDeliveryConfig provider (clamp batch_size 1 100) (clamp max_attempts 1 20)
        (clamp retry_seconds 1 86400) (clamp sending_timeout_seconds 30 86400)).
(* apps/api/src/config/network.rs:6-12 request_identity_from_env *)
Definition request_identity_from_env (env : Environ) : result ConfigError (list IpAddr) :=
  trusted_proxy_ips_from_value (env TRUSTED_PROXY_IPS_ENV).

Section config.
Context {CC : CryptoCrates} {AG : AesGcm} {KB : KeyBytes} {BD : Base64Decode} {SJ : SerdeJson}.
Context {UC : UrlCrate} {UP : UrlParts} {UH : UrlHostText}.

Definition BOOTSTRAP_SETUP_SECRET_ENV : string := "CAIRN_BOOTSTRAP_SETUP_SECRET".
(* apps/api/src/config.rs:205-225 bootstrap_setup_secret_hash *)
Definition bootstrap_setup_secret_hash (environment : Environment) (value : option string)
    : result ConfigError (option string) :=
  match value with
  | Some secret =>
      let secret := trim secret in
      if is_empty secret
      then Err (Config_InvalidBootstrapSetupSecret BOOTSTRAP_SETUP_SECRET_ENV "must not be empty")
      else Ok (Some (hash_token secret))
  | None =>
      if bool_decide (environment = Production) then Err (Config_Missing BOOTSTRAP_SETUP_SECRET_ENV)
      else Ok None
  end.
(* apps/api/src/config.rs:199-203 bootstrap_setup_secret_hash_from_env *)
Definition bootstrap_setup_secret_hash_from_env (env : Environ) (environment : Environment)
    : result ConfigError (option string) :=
  bootstrap_setup_secret_hash environment (env BOOTSTRAP_SETUP_SECRET_ENV).

(* crates/oidc/src/signing/encryption.rs:28-41 KeyEncryptionKey::from_base64_url_no_pad *)
Definition key_from_base64_url_no_pad (value : string) : result OidcError KeyEncryptionKey :=
  let? decoded := ok_or (base64url_decode (trim value)) InvalidKeyEncryptionKey in
  if negb (String.length decoded =? 32)%nat then Err InvalidKeyEncryptionKey
  else Ok (key_of_bytes decoded).
Definition key_encryption_key_from_env (env : Environ) : result ConfigError (option KeyEncryptionKey) :=
  match env "CAIRN_KEY_ENCRYPTION_KEY" with
  | Some value =>
      let? key := map_err (Config_InvalidKeyEncryptionKey "CAIRN_KEY_ENCRYPTION_KEY")
                    (key_from_base64_url_no_pad value) in
      Ok (Some key)
  | None => Ok None
  end.
(** The two characters backslash and n, and a line feed. *)
Definition escaped_newline : string := String (ascii_of_N 92) "n".
Definition signing_from_env (env : Environ) : result ConfigError (option SigningMaterial) :=
  match env "CAIRN_SIGNING_KEY_ID", env "CAIRN_SIGNING_PRIVATE_KEY_PEM",
        env "CAIRN_SIGNING_PUBLIC_JWK" with
  | Some key_id, Some private_key_pem, Some public_jwk =>
      let? public_jwk := ok_or (serde_json_from_str public_jwk)
                           (Config_InvalidJson "CAIRN_SIGNING_PUBLIC_JWK") in
      Ok (Some (mk_SigningMaterial key_id (str_replace escaped_newline newline private_key_pem)
                  public_jwk))
  | _, _, _ => Ok None
  end.

(* apps/api/src/config.rs:23-37 ApiConfig *)
Record ApiConfig := mk_ApiConfig {
  api_environment : Environment;
  api_bind : string;
  api_issuer : string;
  api_public_web_origin : string;
  api_database_url : string;
  api_default_org_slug : string;
  api_scim : list string;
  api_audit : AuditOperationsConfig;
  api_email_delivery : EmailDeliveryConfig;
  api_request_identity : list IpAddr;
  api_bootstrap_setup_secret_hash : option string;
  api_signing : option SigningMaterial;
  api_key_encryption_key : option KeyEncryptionKey;
}.
Definition environment_of (value : option string) : Environment :=
  if String.eqb (default "development" value) "production" then Production else Development.
Definition bind_of (env : Environ) : string :=
  match env "CAIRN_API_BIND" with
  | Some bind => bind
  | None => match env "PORT" with Some port => "0.0.0.0:" +:+ port | None => "127.0.0.1:8080" end
  end.
(* apps/api/src/config.rs:73-147 from_env *)
Definition api_config_from_env (env : Environ) : result ConfigError ApiConfig :=
  let environment := environment_of (env "CAIRN_ENV") in
  let bind := bind_of env in
  let issuer := default "http://localhost:8080" (env "CAIRN_ISSUER") in
  let public_web_origin := default "http://localhost:5173" (env "CAIRN_PUBLIC_WEB_ORIGIN") in
  let? _ := validate_origin_configuration environment issuer public_web_origin in
  let? database_url := required env "DATABASE_URL" in
  let default_org_slug := default "default" (env "CAIRN_DEFAULT_ORG_SLUG") in
  let? scim := map_err (Config_TokenHash "CAIRN_SCIM_BEARER_TOKEN_SHA256")
                 (scim_config_from_env (env "CAIRN_SCIM_BEARER_TOKEN_SHA256")) in
  let? audit := audit_operations_from_env env in
  let? email_delivery := email_delivery_from_env env environment in
  let? request_identity := request_identity_from_env env in
  let? bootstrap := bootstrap_setup_secret_hash_from_env env environment in
  let? key_encryption_key := key_encryption_key_from_env env in
  let? signing := signing_from_env env in
  Ok (mk_ApiConfig environment bind issuer public_web_origin database_url default_org_slug scim
        audit email_delivery request_identity bootstrap signing key_encryption_key).

(** What the handlers read of the configuration. *)
Definition app_state (organization_id : Uuid) (config : ApiConfig) : AppState :=
  mk_AppState organization_id (api_issuer config) (api_key_encryption_key config)
    (api_signing config) (api_public_web_origin config) (api_environment config)
    (api_bootstrap_setup_secret_hash config) (api_scim config).
End config.

(** ** Properties *)

Section accepted.
Context {CC : CryptoCrates} {TC : TokenCrates} {AG : AesGcm} {KB : KeyBytes} {BD : Base64Decode}.
Context {SJ : SerdeJson} {UC : UrlCrate} {UP : UrlParts} {UH : UrlHostText} {HC : HttpCrates}.
Implicit Types (env : Environ) (config : ApiConfig).

(** An origin the service may be reached at. *)
Definition public_origin (environment : Environment) (value : string) : Prop :=
  exists url host, Url_parse value = Some url
    /\ url_cannot_be_a_base url = false /\ url_host_str url = Some host
    /\ url_username url = "" /\ url_password url = None
    /\ url_path url = "/" /\ url_query url = None /\ url_fragment url = None
    /\ (url_scheme url = "https"
        \/ url_scheme url = "http" /\ environment = Development
           /\ host ∈ ["localhost"; "127.0.0.1"; "[::1]"]).
Lemma validate_public_origin_Ok environment variable value u :
  validate_public_origin environment variable value = Ok u <-> public_origin environment value.
Proof.
  unfold validate_public_origin, public_origin, is_loopback_host. rewrite result_bind_Ok.
  setoid_rewrite ok_or_Ok. destruct u. split.
  - intros (url & Hurl & H).
    destruct (url_cannot_be_a_base url) eqn:E1; [done|].
    destruct (url_host_str url) as [host|] eqn:E2; [|done]. cbn in H.
    destruct (is_empty (url_username url)) eqn:E3; [|done]. apply is_empty_true in E3.
    destruct (url_password url) eqn:E4; [done|]. cbn in H.
    destruct (String.eqb_spec (url_path url) "/") as [E5|]; [|done]. cbn in H.
    destruct (url_query url) eqn:E6; [done|]. destruct (url_fragment url) eqn:E7; [done|]. cbn in H.
    exists url, host. split_and!; try done.
    destruct (String.eqb_spec (url_scheme url) "https") as [|Hs]; [by left|].
    destruct (String.eqb_spec (url_scheme url) "http") as [|Hh]; [|done]. right.
    destruct (bool_decide (environment = Development)) eqn:E8; [|done].
    apply bool_decide_eq_true in E8. cbn in H.
    destruct (contains _ host) eqn:E9; [|done]. by apply contains_true in E9.
  - intros (url & host & Hurl & H1 & H2 & H3 & H4 & H5 & H6 & H7 & H8). exists url. split; [done|].
    rewrite H1, H2, H3, H4, H5, H6, H7. cbn. destruct H8 as [->|(-> & -> & Hl)]; [done|]. cbn.
    apply contains_true in Hl. by rewrite Hl.
Qed.

Lemma trusted_proxy_loop_Ok ips parts r :
  trusted_proxy_loop ips parts = Ok r ->
  forall ip, ip ∈ r <-> ip ∈ ips \/ exists part, part ∈ parts /\ parse_ip part = Some ip.
Proof.
  revert ips. induction parts as [|raw parts IH]; intros ips; cbn [trusted_proxy_loop].
  - intros [= <-] ip. split; [by left|]. intros [?|(? & Hn & _)]; [done|]. by apply elem_of_nil in Hn.
  - setoid_rewrite elem_of_cons. unfold parse_ip. destruct (trim raw) as [|c s] eqn:Et; cbn [is_empty].
    + intros H ip. rewrite (IH _ H ip). unfold parse_ip. split; [naive_solver|].
      intros [?|(part & [->|?] & Hp)]; [by left| |by eauto]. rewrite Et in Hp. by vm_compute in Hp.
    + intros (a & Ha & H)%result_bind_Ok ip. apply ok_or_Ok in Ha. rewrite (IH _ H ip), elem_of_app.
      unfold parse_ip. rewrite list_elem_of_singleton. split.
      * intros [[?|Hx]|(part & ? & ?)]; [by left|right; exists raw; rewrite Et; subst; by eauto|by eauto].
      * intros [?|(part & [->|?] & Hp)]; [by left; left| |by eauto].
        rewrite Et in Hp. left. right. congruence.
Qed.
Lemma trusted_proxies_Ok value ips :
  trusted_proxy_ips_from_value value = Ok ips ->
  forall ip, ip ∈ ips <-> exists text part, value = Some text /\ part ∈ split_char "," text
                        /\ parse_ip part = Some ip.
Proof.
  destruct value as [text|]; cbn.
  - intros H ip. rewrite (trusted_proxy_loop_Ok _ _ _ H ip). rewrite elem_of_nil. naive_solver.
  - intros [= <-] ip. rewrite elem_of_nil. naive_solver.
Qed.
Lemma parse_hash_list_Ok hashes raw r :
  parse_hash_list hashes raw = Ok r -> NoDup hashes -> NoDup r.
Proof.
  revert hashes. induction raw as [|h raw IH]; intros hashes; cbn; [by intros [= <-]|].
  intros (hash & _ & H)%result_bind_Ok Hd. destruct (existsb _ _) eqn:E; [done|].
  apply (IH _ H), NoDup_app. split_and!; [done| |apply NoDup_singleton].
  intros x Hx ->%list_elem_of_singleton. assert (existsb (fun existing => bool_decide (existing = hash)) hashes = true); [|congruence].
  apply existsb_exists. exists hash. rewrite <- list_elem_of_In, bool_decide_eq_true. done.
Qed.
Lemma scim_hashes_Ok value hashes :
  scim_config_from_env value = Ok hashes -> NoDup hashes /\ (length hashes <= 4)%nat.
Proof.
  destruct value as [value|]; cbn; [|intros [= <-]; split; [constructor|cbn; lia]].
  unfold parse_sha256_hex_list. intros (l & Hl & H)%result_bind_Ok.
  destruct (_ <? _)%nat eqn:E; [done|]. injection H as ->. apply Nat.ltb_ge in E.
  split; [|exact E]. by eapply parse_hash_list_Ok; [|constructor].
Qed.
Lemma clamp_bounds z lo hi : (lo <= hi)%Z -> (lo <= clamp z lo hi <= hi)%Z.
Proof. unfold clamp. lia. Qed.
Lemma audit_operations_Ok env audit :
  audit_operations_from_env env = Ok audit ->
  (30 <= audit_retention_days audit <= 3650)%Z /\ (1 <= audit_purge_batch_size audit <= 50000)%Z
  /\ (1 <= audit_export_max_rows audit <= 50000)%Z.
Proof.
  unfold audit_operations_from_env. intros (? & _ & (? & _ & (? & _ & [= <-])%result_bind_Ok)%result_bind_Ok)%result_bind_Ok.
  cbn. split_and!; apply clamp_bounds; lia.
Qed.
Lemma email_delivery_Ok env environment delivery :
  email_delivery_from_env env environment = Ok delivery ->
  (environment = Production -> delivery_provider delivery <> EmailProvider_Stdout)
  /\ (1 <= delivery_batch_size delivery <= 100)%Z /\ (1 <= delivery_max_attempts delivery <= 20)%Z
  /\ (1 <= delivery_retry_seconds delivery <= 86400)%Z
  /\ (30 <= delivery_sending_timeout_seconds delivery <= 86400)%Z.
Proof.
  unfold email_delivery_from_env.
  intros (p & Hp & (? & _ & (? & _ & (? & _ & (? & _ & [= <-])%result_bind_Ok)%result_bind_Ok)%result_bind_Ok)%result_bind_Ok)%result_bind_Ok.
  cbn. split; [|split_and!; apply clamp_bounds; lia]. intros -> ->.
  unfold email_provider_from_env in Hp. cbn in Hp.
  repeat (case_match; try discriminate). apply result_bind_Ok in Hp as (? & _ & [=]).
Qed.
Lemma environment_production value : environment_of value = Production <-> value = Some "production".
Proof.
  unfold environment_of. destruct value as [v|]; cbn; [|done].
  destruct (String.eqb_spec v "production") as [->|H]; [done|]. split; [done|congruence].
Qed.

Lemma origin_configuration_Ok environment issuer web u :
  validate_origin_configuration environment issuer web = Ok u ->
  public_origin environment issuer /\ public_origin environment web.
Proof.
  intros (? & H1 & H2)%result_bind_Ok. by apply validate_public_origin_Ok in H1, H2.
Qed.
Lemma bootstrap_hash_Ok environment value hash :
  bootstrap_setup_secret_hash environment value = Ok hash ->
  match value with
  | Some secret => trim secret <> "" /\ hash = Some (hash_token (trim secret))
  | None => environment = Development /\ hash = None
  end.
Proof.
  destruct value as [secret|]; cbn.
  - destruct (trim secret) eqn:E; [done|]. cbn. intros [= <-]. done.
  - destruct environment; [by intros [= <-]|done].
Qed.

Lemma config_audit env config :
  api_config_from_env env = Ok config -> audit_operations_from_env env = Ok (api_audit config).
Proof.
  unfold api_config_from_env. cbv zeta. rewrite !result_bind_Ok.
  intros (? & Ho & H). repeat (apply result_bind_Ok in H as (? & ? & H)). by injection H as <-.
Qed.

(** What a configuration guarantees that the service starts with: production
    is exactly what is called so; the issuer and the address of the user
    interface are bare origins, without credentials, path, query or fragment, by
    https or, in development only, by http on the local host; production has
    the hash of a setup secret that is not blank, sets its cookies Secure and
    never writes mail to the console; at most four distinct provisioning tokens
    are accepted; and every number is within its range, whatever 64-bit (or
    32-bit) number the variable holds. *)
Theorem accepted_configuration env config organization_id :
  api_config_from_env env = Ok config ->
  (api_environment config = Production <-> env "CAIRN_ENV" = Some "production")
  /\ public_origin (api_environment config) (api_issuer config)
  /\ public_origin (api_environment config) (api_public_web_origin config)
  /\ (api_environment config = Production ->
       (exists secret, env BOOTSTRAP_SETUP_SECRET_ENV = Some secret /\ trim secret <> ""
          /\ api_bootstrap_setup_secret_hash config = Some (hash_token (trim secret)))
       /\ secure_cookies (app_state organization_id config) = true
       /\ delivery_provider (api_email_delivery config) <> EmailProvider_Stdout)
  /\ NoDup (api_scim config) /\ (length (api_scim config) <= 4)%nat
  /\ (let audit := api_audit config in
      (30 <= audit_retention_days audit <= 3650)%Z /\ (1 <= audit_purge_batch_size audit <= 50000)%Z
      /\ (1 <= audit_export_max_rows audit <= 50000)%Z)
  /\ (let delivery := api_email_delivery config in
      (1 <= delivery_batch_size delivery <= 100)%Z /\ (1 <= delivery_max_attempts delivery <= 20)%Z
      /\ (1 <= delivery_retry_seconds delivery <= 86400)%Z
      /\ (30 <= delivery_sending_timeout_seconds delivery <= 86400)%Z).
Proof.
  unfold api_config_from_env. cbv zeta. rewrite !result_bind_Ok.
  intros (? & Ho & H). repeat (apply result_bind_Ok in H as (? & ? & H)). injection H as <-.
  apply origin_configuration_Ok in Ho as [Hi Hw].
  match goal with H : map_err _ (scim_config_from_env _) = _ |- _ =>
    apply map_err_Ok, scim_hashes_Ok in H as [Hs1 Hs2] end.
  match goal with H : audit_operations_from_env _ = _ |- _ => apply audit_operations_Ok in H as Ha end.
  match goal with H : email_delivery_from_env _ _ = _ |- _ => apply email_delivery_Ok in H as [He1 He2] end.
  match goal with H : bootstrap_setup_secret_hash_from_env _ _ = _ |- _ =>
    apply bootstrap_hash_Ok in H as Hb end.
  cbn. split; [apply environment_production|]. split; [done|]. split; [done|].
  split; [|split_and!; tauto]. intros Hp. rewrite Hp in *.
  destruct (env BOOTSTRAP_SETUP_SECRET_ENV) as [secret|]; [|by destruct Hb].
  split; [exists secret; tauto|]. split; [|by apply He1].
  unfold secure_cookies. by rewrite bool_decide_true.
Qed.

(** A forwarded address counts only from a configured proxy: whatever the
    headers of a request say, its source is the peer of the connection unless
    that peer is one of the addresses written in CAIRN_TRUSTED_PROXY_IPS, so
    without that variable no client chooses the address it is limited and
    recorded under; behind a configured proxy the source is the first address
    of X-Forwarded-For, else that of X-Real-IP, else the proxy. *)
Theorem forwarded_address_needs_proxy env config (headers headers' : HeaderMap) peer
    (organization_id : Uuid) :
  api_config_from_env env = Ok config ->
  (forall ip, ip ∈ api_request_identity config <->
     exists text part, env TRUSTED_PROXY_IPS_ENV = Some text /\ part ∈ split_char "," text
       /\ parse_ip part = Some ip)
  /\ (let identity headers := request_identity_from_parts (api_request_identity config) headers peer in
      (forall ip, peer = Some ip -> ip ∉ api_request_identity config ->
         identity headers = mk_RequestIdentity peer
         /\ login_pre_credential_rate_limit_keys organization_id (identity headers)
            = login_pre_credential_rate_limit_keys organization_id (identity headers')
         /\ (audit_request_context_for_identity (identity headers) headers).1
            = (audit_request_context_for_identity (identity headers') headers').1)
      /\ (peer = None -> identity headers = without_peer)
      /\ (forall ip, peer = Some ip -> ip ∈ api_request_identity config ->
         identity headers = mk_RequestIdentity (Some (default ip
           (match value ← header_first_value headers "x-forwarded-for";
                  head (split_char "," value) ≫= parse_ip with
            | Some forwarded => Some forwarded
            | None => header_first_value headers "x-real-ip" ≫= parse_ip
            end))))).
Proof.
  unfold api_config_from_env. cbv zeta. rewrite !result_bind_Ok.
  intros (? & _ & H). repeat (apply result_bind_Ok in H as (? & ? & H)). injection H as <-.
  cbn [api_request_identity]. split; [by apply trusted_proxies_Ok|].
  unfold request_identity_from_parts, source_ip. split_and!.
  - intros ip -> Hip. cbn. apply contains_false in Hip. by rewrite Hip.
  - by intros ->.
  - intros ip -> Hip. cbn. apply contains_true in Hip. rewrite Hip. unfold forwarded_ip.
    destruct (header_first_value headers "x-forwarded-for") as [value|]; done.
Qed.
End accepted.
