(* ===== verification/ScimWellFormed.v ===== *)
(** * SCIM: what every input is

    The types of what [ScimInput] makes of a request: a user or a group that
    comes out of a resource or of a patch is well formed, whatever came in;
    and what a patch does to the members of a group, as operations on sets. *)

From S2P Require Import Prelude RustStr Domain Oidc Http Codec Store Directory.
From S2P Require Import Lifecycle.
From S2P Require Import Handler BrowserSession ScimProtocol ScimQuery ScimInput.
From Stdlib Require Import Ascii.

(** A trimmed text of one to [max] characters. *)
Definition scim_text (max : nat) (s : string) : Prop :=
  s <> "" /\ trim s = s /\ (chars_count s <= max)%nat.
Definition optional_text (max : nat) (s : option string) : Prop :=
  forall t, s = Some t -> scim_text max t.
(** [max] bounds the display name. *)
Record user_input_ok (max : nat) (input : ScimUserInput) : Prop := {
  ok_email : normal_email (input_email input);
  ok_display_name : scim_text max (input_display_name input);
  ok_external_id : optional_text 256 (input_external_id input);
}.
Record group_input_ok (input : ScimGroupInput) : Prop := {
  ok_group_name : scim_text 160 (group_input_display_name input);
  ok_group_external_id : optional_text 256 (group_input_external_id input);
  ok_members : NoDup (group_input_member_user_ids input);
  ok_member_count : (length (group_input_member_user_ids input) <= SCIM_GROUP_MAX_MEMBERS)%nat;
}.

(** *** The members of a group as a set *)

Definition member_set (state : ScimGroupPatchState) : gset Uuid :=
  list_to_set (group_patch_members state).
#[global] Arguments member_set : simpl never.
Definition at_most_members (members : gset Uuid) : result ScimError (gset Uuid) :=
  if (SCIM_GROUP_MAX_MEMBERS <? size members)%nat then Err (invalid_value "too many group members")
  else Ok members.
(** The users that a value names. *)
Definition named_members `{ScimSerde} `{UuidCrate} (value_only : bool) (value : Value)
    : result ScimError (list Uuid) :=
  if value_only then scim_group_member_value_user_ids_from_patch_value value
  else scim_group_member_user_ids_from_patch_value value.
(** What a change of [members] or of [members[value eq ..]] is meant to do. *)
Definition change_members `{ScimSerde} `{UuidCrate} (op : ScimPatchOp) (target : option Uuid)
    (value_only : bool) (value : Value) (members : gset Uuid) : result ScimError (gset Uuid) :=
  match op, target with
  | Op_Remove, None => let? _ := named_members value_only value in Err remove_is_handled_separately
  | Op_Remove, Some _ => Err remove_is_handled_separately
  | Op_Add, None => let? ids := named_members value_only value in at_most_members (members ∪ list_to_set ids)
  | Op_Replace, None => let? ids := named_members value_only value in Ok (list_to_set ids)
  | Op_Add, Some user_id =>
      let? id := scim_group_single_member_user_id_from_patch_value value value_only in
      if bool_decide (id = user_id) then at_most_members (members ∪ {[user_id]})
      else Err (invalid_value "filtered members PATCH value must match the path filter")
  | Op_Replace, Some user_id =>
      let? id := scim_group_single_member_user_id_from_patch_value value value_only in
      if bool_decide (user_id ∈ members) then Ok ({[id]} ∪ members ∖ {[user_id]})
      else Err (no_target "SCIM PATCH member filter did not match a stored member")
  end.
Definition remove_members (target : option Uuid) (members : gset Uuid) : gset Uuid :=
  match target with Some user_id => members ∖ {[user_id]} | None => ∅ end.

(** ** Texts *)

Lemma scim_text_weaken n m s : (n <= m)%nat -> scim_text n s -> scim_text m s.
Proof. intros Hnm (? & ? & ?). split_and!; [done..|lia]. Qed.
Lemma chars_count_app a b : chars_count (a +:+ b) = (chars_count a + chars_count b)%nat.
Proof.
  induction a as [|c a IH]; [done|]. rewrite string_app_cons. cbn. rewrite IH. destruct (cont c); lia.
Qed.
Lemma chars_count_length s : (chars_count s <= String.length s)%nat.
Proof. induction s as [|c s IH]; cbn; [done|]. destruct (cont c); lia. Qed.
Lemma is_empty_false s : is_empty s = false -> s <> "".
Proof. by destruct s. Qed.
Lemma optional_scim_str_Ok field value max r :
  optional_scim_str field value max = Ok r -> optional_text max r.
Proof.
  unfold optional_scim_str, optional_text. destruct value as [v|]; [|by intros [= <-]].
  cbv zeta. destruct (is_empty (trim v)) eqn:E; [by intros [= <-]|].
  destruct (max <? chars_count (trim v))%nat eqn:El; [done|]. intros [= <-] t [= <-].
  split_and!; [by apply is_empty_false|apply trim_idem|]. by apply Nat.ltb_ge.
Qed.
Lemma required_value_Ok field value max s :
  scim_required_string_value field value max = Ok s -> scim_text max s.
Proof.
  unfold scim_required_string_value. intros (v & _ & H)%result_bind_Ok.
  apply result_bind_Ok in H as (r & Hr & ->%ok_or_Ok). by apply (optional_scim_str_Ok _ _ _ _ Hr).
Qed.
Lemma optional_value_Ok field value max r :
  scim_optional_string_value field value max = Ok r -> optional_text max r.
Proof.
  unfold scim_optional_string_value.
  assert (forall e, (let? v := ok_or (as_str value) e in optional_scim_str field (Some v) max) = Ok r ->
    optional_text max r) as Htext by (intros e (v & _ & H)%result_bind_Ok; by eapply optional_scim_str_Ok).
  destruct value; [by intros [= <-]|apply Htext..].
Qed.
Lemma normal_email_text e : normal_email e -> scim_text 320 e.
Proof.
  intros (Ht & _ & Hl & a & b & -> & _). split_and!; [by destruct a|done|].
  etrans; [apply chars_count_length|done].
Qed.
Lemma scim_email_normal s e : scim_email s = Ok e -> normal_email e.
Proof. intros H%map_err_Ok. by eapply normalize_email_normal. Qed.

(** Two trimmed words with a space between them are trimmed. *)
Lemma strip_ws_space a b : a <> "" -> strip_ws a = None -> strip_ws (a +:+ String " " b) = None.
Proof.
  destruct a as [|x [|y [|z a]]]; intros Hne H; [done|..]; rewrite ?string_app_cons, ?string_app_nil_l.
  - cbn in *. destruct (ws1 x); [done|]. unfold ws2, ws3. cbn. rewrite !andb_false_r. cbn.
    destruct b as [|z b]; [done|]. by rewrite ?andb_false_r.
  - cbn in *. destruct (ws1 x); [done|]. destruct (ws2 x y); [done|]. unfold ws3, in_range. cbn.
    by rewrite !andb_false_r.
  - cbn in *. destruct (ws1 x); [done|]. destruct (ws2 x y); [done|]. by destruct (ws3 x y z).
Qed.
Lemma strip_ws_rev_space a b : a <> "" -> strip_ws_rev a = None -> strip_ws_rev (a +:+ String " " b) = None.
Proof.
  destruct a as [|x [|y [|z a]]]; intros Hne H; [done|..]; rewrite ?string_app_cons, ?string_app_nil_l.
  - cbn in *. destruct (ws1 x); [done|]. unfold ws2, ws3. cbn.
    destruct b as [|z b]; [done|]. by rewrite ?andb_false_r.
  - cbn in *. destruct (ws1 x); [done|]. destruct (ws2 y x); [done|]. unfold ws3. cbn. done.
  - cbn in *. destruct (ws1 x); [done|]. destruct (ws2 y x); [done|]. by destruct (ws3 z y x).
Qed.
Lemma trimmed_words a b :
  a <> "" -> b <> "" -> trim a = a -> trim b = b -> trim (a +:+ String " " b) = a +:+ String " " b.
Proof.
  intros Ha Hb Hta Htb. apply trim_fix.
  - apply strip_ws_space; [done|]. rewrite <- Hta. apply trim_no_ws.
  - rewrite rev_app, rev_cons, <- string_app_assoc. apply strip_ws_rev_space.
    + intros E. apply Hb. rewrite <- (rev_rev b), E. done.
    + rewrite <- Htb. apply trim_no_ws.
Qed.

Section input.
Context {SS : ScimSerde} {UU : UuidCrate}.

(** ** Users *)

Lemma scim_display_name_Ok user_name display_name name s :
  normal_email user_name -> scim_display_name user_name display_name name = Ok s -> scim_text 320 s.
Proof.
  intros He. apply normal_email_text in He. unfold scim_display_name.
  intros (d & Hd%optional_scim_str_Ok & H)%result_bind_Ok. destruct d as [d|].
  { injection H as <-. by apply (scim_text_weaken 160); [lia|apply Hd]. }
  destruct name as [name|]; [|by injection H as <-].
  apply result_bind_Ok in H as (f & Hf%optional_scim_str_Ok & H). destruct f as [f|].
  { injection H as <-. by apply (scim_text_weaken 160); [lia|apply Hf]. }
  apply result_bind_Ok in H as (g & Hg%optional_scim_str_Ok & H).
  apply result_bind_Ok in H as (h & Hh%optional_scim_str_Ok & H).
  destruct g as [g|], h as [h|]; cbn in H; injection H as <-; [..|done].
  - destruct (Hg g eq_refl) as (Hg1 & Hg2 & Hg3), (Hh h eq_refl) as (Hh1 & Hh2 & Hh3).
    split_and!; [by destruct g|by apply trimmed_words|]. rewrite !chars_count_app. cbn. destruct (cont _); lia.
  - by apply (scim_text_weaken 80); [lia|apply Hg].
  - by apply (scim_text_weaken 80); [lia|apply Hh].
Qed.
Lemma scim_user_input_Ok payload input :
  scim_user_input payload = Ok input ->
  user_input_ok 320 input /\ input_email_verified input = false
  /\ input_status input <> UserStatus_Locked.
Proof.
  unfold scim_user_input. intros (_ & _ & H)%result_bind_Ok.
  apply result_bind_Ok in H as (e & He%scim_email_normal & H).
  apply result_bind_Ok in H as (_ & _ & H).
  apply result_bind_Ok in H as (d & Hd & H).
  apply result_bind_Ok in H as (x & Hx%optional_scim_str_Ok & [= <-]).
  split_and!; [split; cbn; [done| |done]|done|by destruct (default _ _)].
  by eapply scim_display_name_Ok.
Qed.

(** What the patch so far has made of the user [u]. *)
Record patch_state_ok (u : User) (state : ScimPatchState) : Prop := {
  ok_patch_email : normal_email (patch_email state);
  ok_patch_external_id : optional_text 256 (patch_external_id state);
  ok_patch_verified : patch_email_verified state = true ->
    user_email_verified u = true /\ patch_email state = user_email u;
  ok_patch_status : patch_status state = user_status u \/ patch_status state <> UserStatus_Locked;
}.
Section patch.
Context (u : User).
Lemma set_user_name_ok e state :
  normal_email e -> patch_state_ok u state -> patch_state_ok u (patch_set_user_name e state).
Proof. intros He Hs. unfold patch_set_user_name. case_bool_decide; [done|]. destruct Hs. by split. Qed.
Lemma set_display_name_ok d state :
  patch_state_ok u state -> patch_state_ok u (patch_set_display_name d state).
Proof. intros Hs. destruct Hs. by split. Qed.
Lemma rebuild_ok state state' :
  patch_state_ok u state -> rebuild_display_name state = Ok state' -> patch_state_ok u state'.
Proof.
  intros Hs. unfold rebuild_display_name. intros (r & _ & H)%result_bind_Ok.
  apply result_bind_Ok in H as (d & _ & [= <-]). destruct Hs. by split.
Qed.
Lemma email_from_patch_value_ok value e : scim_email_from_patch_value value = Ok e -> normal_email e.
Proof.
  assert (Hsel : forall s (k : string -> result ScimError unit),
    (let? e := scim_email s in let? _ := k e in Ok e) = Ok e -> normal_email e).
  { intros s k (e' & He%scim_email_normal & H)%result_bind_Ok. by apply result_bind_Ok in H as (_ & _ & [= <-]). }
  assert (Hmany : (let? emails := ok_or (emails_from_value value)
                       (invalid_value "emails must be a string, object, or array") in
      match emails with
      | [] => Err (invalid_value "emails cannot be empty")
      | first :: _ =>
          let selected := default first (List.find is_primary emails) in
          let? selected_email := scim_email (email_value selected) in
          let? _ := validate_scim_email_values selected_email emails in
          Ok selected_email
      end) = Ok e -> normal_email e).
  { intros (l & _ & H)%result_bind_Ok. destruct l as [|m l]; [done|].
    exact (Hsel _ (fun e => validate_scim_email_values e (m :: l)) H). }
  unfold scim_email_from_patch_value. destruct value; try exact Hmany.
  - apply scim_email_normal.
  - intros (m & _ & H)%result_bind_Ok. exact (Hsel _ (fun e => validate_scim_email_values e [m]) H).
Qed.
Lemma path_value_ok state path value state' :
  apply_scim_patch_path_value state path value = Ok state' ->
  patch_state_ok u state -> patch_state_ok u state'.
Proof.
  intros H Hs. destruct path as [| | | | | | | |filter attribute|]; cbn [apply_scim_patch_path_value] in H.
  - apply result_bind_Ok in H as (n & _ & H). apply result_bind_Ok in H as (e & He%scim_email_normal & [= <-]).
    by apply set_user_name_ok.
  - apply result_bind_Ok in H as (x & Hx%optional_value_Ok & [= <-]). destruct Hs. by split.
  - apply result_bind_Ok in H as (d & _ & [= <-]). by apply set_display_name_ok.
  - apply result_bind_Ok in H as (b & _ & [= <-]). destruct Hs. split; try done. cbn. by destruct b; right.
  - apply result_bind_Ok in H as (n & _ & H). apply result_bind_Ok in H as (d & _ & [= <-]).
    by apply set_display_name_ok.
  - apply result_bind_Ok in H as (d & _ & [= <-]). by apply set_display_name_ok.
  - apply result_bind_Ok in H as (d & _ & H). eapply rebuild_ok; [|exact H]. destruct Hs. by split.
  - apply result_bind_Ok in H as (d & _ & H). eapply rebuild_ok; [|exact H]. destruct Hs. by split.
  - destruct (email_filter_misses filter state); [done|]. destruct attribute.
    + apply result_bind_Ok in H as (e & He%email_from_patch_value_ok & [= <-]). by apply set_user_name_ok.
    + apply result_bind_Ok in H as (n & _ & H).
      apply result_bind_Ok in H as (e & He%scim_email_normal & [= <-]). by apply set_user_name_ok.
    + by apply result_bind_Ok in H as (_ & _ & [= <-]).
    + by apply result_bind_Ok in H as (_ & _ & [= <-]).
  - by apply result_bind_Ok in H as (_ & _ & [= <-]).
Qed.
Lemma apply_each_keeps {S A} (P : S -> Prop) (apply : S -> A -> result ScimError S) changes state state' :
  (forall s a s', apply s a = Ok s' -> P s -> P s') ->
  apply_each apply state changes = Ok state' -> P state -> P state'.
Proof.
  intros Happly. revert state. induction changes as [|a changes IH]; intros state; cbn; [by intros [= <-]|].
  intros (s & Hs & H)%result_bind_Ok HP. eapply IH; [exact H|]. by eapply Happly.
Qed.
Lemma patch_operation_ok state operation state' :
  apply_scim_patch_operation state operation = Ok state' ->
  patch_state_ok u state -> patch_state_ok u state'.
Proof.
  unfold apply_scim_patch_operation. intros (op & _ & H)%result_bind_Ok Hs.
  assert (Hset : (let? value := ok_or (patch_value operation) value_required in
      match patch_path operation with
      | Some path =>
          let? path := scim_patch_path path in apply_scim_patch_path_value state path value
      | None => apply_scim_patch_resource_value state value
      end) = Ok state' -> patch_state_ok u state').
  { intros (v & _ & Hv)%result_bind_Ok. destruct (patch_path operation) as [p|].
    - apply result_bind_Ok in Hv as (path & _ & Hv). by eapply path_value_ok.
    - apply result_bind_Ok in Hv as (object & _ & Hv). eapply apply_each_keeps; [|exact Hv|done].
      intros s [k v'] s' (path & _ & Hp)%result_bind_Ok. by eapply path_value_ok. }
  destruct op; [by apply Hset..|].
  apply result_bind_Ok in H as (p & _ & H). apply result_bind_Ok in H as (path & _ & H).
  destruct path as [| | | | | | | |filter attribute|]; try done; cbn in H.
  - injection H as <-. destruct Hs. by split.
  - by destruct (email_filter_misses filter state).
Qed.
Lemma patch_user_input_Ok payload input :
  normal_email (user_email u) -> optional_text 256 (user_scim_external_id u) ->
  scim_patch_user_input u payload = Ok input ->
  user_input_ok 160 input
  /\ (input_email_verified input = true ->
      user_email_verified u = true /\ input_email input = user_email u)
  /\ (input_status input = user_status u \/ input_status input <> UserStatus_Locked).
Proof.
  intros He Hx. unfold scim_patch_user_input. intros (operations & _ & H)%result_bind_Ok.
  apply result_bind_Ok in H as (state & Hstate & H).
  assert (patch_state_ok u state) as [Hpe Hpx Hpv Hps].
  { eapply apply_each_keeps; [apply patch_operation_ok|exact Hstate|]. split; cbn; auto. }
  unfold patch_state_into_input in H. apply result_bind_Ok in H as (d & Hd%optional_scim_str_Ok & H).
  apply result_bind_Ok in H as (d' & ->%ok_or_Ok & [= <-]).
  split_and!; [|done..]. split; cbn; [done|by apply Hd|done].
Qed.
End patch.

(** ** Groups *)

Lemma unique_members_Ok ids ids' :
  unique_scim_group_member_user_ids ids = Ok ids' ->
  NoDup ids' /\ (length ids' <= SCIM_GROUP_MAX_MEMBERS)%nat.
Proof.
  unfold unique_scim_group_member_user_ids. destruct (_ <? _)%nat eqn:E; [done|].
  case_bool_decide; [|done]. intros [= <-]. split; [done|]. by apply Nat.ltb_ge.
Qed.
Lemma named_members_Ok value_only value ids :
  named_members value_only value = Ok ids -> NoDup ids /\ (length ids <= SCIM_GROUP_MAX_MEMBERS)%nat.
Proof.
  unfold named_members, scim_group_member_value_user_ids_from_patch_value,
    scim_group_member_user_ids_from_patch_value.
  destruct value_only; intros (l & _ & H)%result_bind_Ok; by eapply unique_members_Ok.
Qed.
Lemma add_member_NoDup members id : NoDup members -> NoDup (add_member members id).
Proof.
  intros H. unfold add_member. case_bool_decide; [done|]. apply NoDup_app. split_and!; [done| |].
  - set_solver.
  - apply NoDup_singleton.
Qed.
Lemma add_members_NoDup ids members : NoDup members -> NoDup (fold_left add_member ids members).
Proof. revert members. induction ids as [|id ids IH]; intros members H; [done|]. by apply IH, add_member_NoDup. Qed.
Lemma add_members_set ids members :
  list_to_set (fold_left add_member ids members) = (list_to_set members ∪ list_to_set ids : gset Uuid).
Proof.
  revert members. induction ids as [|id ids IH]; intros members; [set_solver|].
  cbn. rewrite IH. unfold add_member. case_bool_decide; [set_solver|].
  rewrite list_to_set_app_L. set_solver.
Qed.
Lemma position_spec id members :
  match position id members with
  | Some i => members !! i = Some id
  | None => id ∉ members
  end.
Proof.
  induction members as [|m members IH]; cbn; [set_solver|]. destruct (N.eqb_spec m id) as [->|Hne]; [done|].
  destruct (position id members); cbn; [done|]. set_solver.
Qed.
Lemma NoDup_size (l : list Uuid) : NoDup l -> size (list_to_set l : gset Uuid) = length l.
Proof. apply size_list_to_set. Qed.
(** The members before and after one of them, which occurs once. *)
Lemma members_split (members : list Uuid) i id :
  NoDup members -> members !! i = Some id ->
  members = take i members ++ id :: drop (S i) members
  /\ NoDup (take i members ++ drop (S i) members) /\ id ∉ take i members ++ drop (S i) members.
Proof.
  intros Hn Hi. pose proof (take_drop_middle _ _ _ Hi) as E.
  rewrite <- E in Hn. apply Permutation_middle in Hn || rewrite <- Permutation_middle in Hn.
  apply NoDup_cons in Hn as [Hnin Hn]. done.
Qed.
Lemma add_member_ids_set ids state :
  NoDup (group_patch_members state) ->
  (let? state' := add_member_user_ids ids state in Ok (member_set state'))
  = at_most_members (member_set state ∪ list_to_set ids).
Proof.
  intros Hn. unfold add_member_user_ids, at_most_members. cbv zeta.
  rewrite <- (NoDup_size (fold_left _ _ _)) by (by apply add_members_NoDup).
  rewrite add_members_set. fold (member_set state). destruct (_ <? _)%nat; [done|]. cbn.
  unfold member_set. cbn. by rewrite add_members_set.
Qed.
Lemma replace_member_set id value value_only state :
  NoDup (group_patch_members state) ->
  (let? state' := replace_filtered_member_user_id id value value_only state in Ok (member_set state'))
  = change_members Op_Replace (Some id) value_only value (member_set state).
Proof.
  intros Hn. unfold replace_filtered_member_user_id, change_members.
  destruct (scim_group_single_member_user_id_from_patch_value value value_only) as [new|e]; [cbn|done].
  pose proof (position_spec id (group_patch_members state)) as Hp.
  destruct (position id (group_patch_members state)) as [i|]; cbn.
  2:{ rewrite bool_decide_eq_false_2; [done|]. unfold member_set. set_solver. }
  destruct (members_split _ _ _ Hn Hp) as (Hsplit & Hn' & Hnin).
  assert (Hset : member_set state = {[id]} ∪ list_to_set (take i (group_patch_members state)
                   ++ drop (S i) (group_patch_members state))).
  { unfold member_set. rewrite Hsplit at 1. rewrite !list_to_set_app_L. cbn. set_solver. }
  rewrite (bool_decide_eq_true_2 (id ∈ member_set state)) by (rewrite Hset; set_solver).
  destruct (N.eqb_spec new id) as [->|Hne]; [cbn; f_equal; rewrite Hset; set_solver|].
  case_bool_decide as Hnew; cbn; f_equal; unfold member_set at 1; cbn; rewrite Hset.
  - rewrite Hsplit in Hnew. set_solver.
  - rewrite insert_take_drop by (by eapply lookup_lt_Some). rewrite list_to_set_app_L. cbn.
    rewrite list_to_set_app_L. set_solver.
Qed.
Lemma path_value_members_set op target value_only value state :
  NoDup (group_patch_members state) ->
  (let? state' := apply_scim_group_patch_path_value state (GroupPath_Members target value_only) value op in
   Ok (member_set state')) = change_members op target value_only value (member_set state).
Proof.
  intros Hn. destruct op, target as [id|]; cbn [apply_scim_group_patch_path_value].
  - unfold add_filtered_member_user_id, change_members.
    destruct (scim_group_single_member_user_id_from_patch_value value value_only) as [new|e]; [cbn|done].
    destruct (N.eqb_spec new id) as [->|Hne]; cbn.
    + rewrite bool_decide_eq_true_2 by done. rewrite add_member_ids_set by done. f_equal. set_solver.
    + by rewrite bool_decide_eq_false_2.
  - unfold change_members, named_members. destruct (if value_only then _ else _) as [ids|e]; [cbn|done].
    by apply add_member_ids_set.
  - by apply replace_member_set.
  - unfold change_members, named_members. by destruct (if value_only then _ else _) as [ids|e].
  - done.
  - unfold change_members, named_members. by destruct (if value_only then _ else _) as [ids|e].
Qed.
Lemma path_value_members_NoDup state path value op state' :
  apply_scim_group_patch_path_value state path value op = Ok state' ->
  NoDup (group_patch_members state) -> NoDup (group_patch_members state').
Proof.
  intros H Hn. destruct path as [| |[id|] value_only|]; cbn [apply_scim_group_patch_path_value] in H.
  - by apply result_bind_Ok in H as (d & _ & [= <-]).
  - by apply result_bind_Ok in H as (x & _ & [= <-]).
  - destruct op; [| |done].
    + unfold add_filtered_member_user_id in H. apply result_bind_Ok in H as (new & _ & H).
      destruct (negb _); [done|]. unfold add_member_user_ids in H. cbv zeta in H.
      destruct (_ <? _)%nat; [done|]. injection H as <-. by apply (add_member_NoDup _ new).
    + unfold replace_filtered_member_user_id in H. apply result_bind_Ok in H as (new & _ & H).
      cbv zeta in H. apply result_bind_Ok in H as (i & Hi%ok_or_Ok & H).
      pose proof (position_spec id (group_patch_members state)) as Hp. rewrite Hi in Hp.
      destruct (members_split _ _ _ Hn Hp) as (Hsplit & Hn' & Hnin).
      destruct (N.eqb new id); [by injection H as <-|]. case_bool_decide as Hnew; injection H as <-; [done|].
      cbn. rewrite insert_take_drop by (by eapply lookup_lt_Some).
      rewrite <- Permutation_middle. apply NoDup_cons. split; [|done]. rewrite Hsplit in Hnew. set_solver.
  - apply result_bind_Ok in H as (ids & Hids & H).
    assert (NoDup ids) as Hnids by (by apply (named_members_Ok value_only value ids)).
    destruct op; [|by injection H as <-|done]. unfold add_member_user_ids in H. cbv zeta in H.
    destruct (_ <? _)%nat; [done|]. injection H as <-. by apply add_members_NoDup.
  - by apply result_bind_Ok in H as (_ & _ & [= <-]).
Qed.
Lemma members_path_frame state target value_only value op state' :
  apply_scim_group_patch_path_value state (GroupPath_Members target value_only) value op = Ok state' ->
  group_patch_display_name state' = group_patch_display_name state
  /\ group_patch_external_id state' = group_patch_external_id state.
Proof.
  assert (Hadd : forall ids, add_member_user_ids ids state = Ok state' ->
    group_patch_display_name state' = group_patch_display_name state
    /\ group_patch_external_id state' = group_patch_external_id state).
  { intros ids H. unfold add_member_user_ids in H. cbv zeta in H. destruct (_ <? _)%nat; [done|].
    by injection H as <-. }
  destruct target as [id|]; cbn [apply_scim_group_patch_path_value]; intros H.
  - destruct op; [| |done].
    + apply result_bind_Ok in H as (new & _ & H). destruct (negb _); [done|]. by eapply Hadd.
    + apply result_bind_Ok in H as (new & _ & H). cbv zeta in H.
      apply result_bind_Ok in H as (i & _ & H).
      destruct (N.eqb new id); [by injection H as <-|]. case_bool_decide; by injection H as <-.
  - apply result_bind_Ok in H as (ids & _ & H). destruct op; [by eapply Hadd|by injection H as <-|done].
Qed.
Lemma path_value_members_ok state path value op state' :
  apply_scim_group_patch_path_value state path value op = Ok state' ->
  NoDup (group_patch_members state) -> optional_text 256 (group_patch_external_id state) ->
  NoDup (group_patch_members state') /\ optional_text 256 (group_patch_external_id state').
Proof.
  intros H Hn Hx. split; [by eapply path_value_members_NoDup|].
  destruct path as [| |target value_only|].
  - by apply result_bind_Ok in H as (d & _ & [= <-]).
  - by apply result_bind_Ok in H as (x & Hx'%optional_value_Ok & [= <-]).
  - apply members_path_frame in H as [_ Hx']. by rewrite Hx'.
  - by apply result_bind_Ok in H as (_ & _ & [= <-]).
Qed.
Lemma NoDup_filter_members (p : Uuid -> bool) l : NoDup l -> NoDup (List.filter p l).
Proof.
  intros H. rewrite NoDup_ListNoDup in *. by apply List.NoDup_filter.
Qed.
Lemma group_operation_ok state operation state' :
  apply_scim_group_patch_operation state operation = Ok state' ->
  NoDup (group_patch_members state) /\ optional_text 256 (group_patch_external_id state) ->
  NoDup (group_patch_members state') /\ optional_text 256 (group_patch_external_id state').
Proof.
  unfold apply_scim_group_patch_operation. intros (op & _ & H)%result_bind_Ok [Hn Hx].
  assert (Hset : forall op, (let? value := ok_or (patch_value operation) value_required in
      match patch_path operation with
      | Some path =>
          let? path := scim_group_patch_path path in apply_scim_group_patch_path_value state path value op
      | None => apply_scim_group_patch_resource_value state value op
      end) = Ok state' ->
    NoDup (group_patch_members state') /\ optional_text 256 (group_patch_external_id state')).
  { intros op' (v & _ & Hv)%result_bind_Ok. destruct (patch_path operation) as [p|].
    - apply result_bind_Ok in Hv as (path & _ & Hv). by eapply path_value_members_ok.
    - apply result_bind_Ok in Hv as (object & _ & Hv).
      refine (apply_each_keeps (fun s => NoDup (group_patch_members s) /\ optional_text 256 (group_patch_external_id s))
                _ _ _ _ _ Hv (conj Hn Hx)).
      intros s [k v'] s' (path & _ & Hp)%result_bind_Ok [??]. by eapply path_value_members_ok. }
  destruct op; [by eapply Hset..|].
  apply result_bind_Ok in H as (p & _ & H). apply result_bind_Ok in H as (path & _ & H).
  destruct path as [| |[id|] value_only|]; try done; cbn in H; injection H as <-; split; try done.
  - by apply NoDup_filter_members.
  - apply NoDup_nil_2.
Qed.
Lemma patch_group_input_Ok group members payload input :
  optional_text 256 (group_scim_external_id group) -> NoDup (List.map member_user_id members) ->
  scim_patch_group_input group members payload = Ok input -> group_input_ok input.
Proof.
  intros Hx Hn. unfold scim_patch_group_input. intros (operations & _ & H)%result_bind_Ok.
  apply result_bind_Ok in H as (state & Hstate & H).
  refine (_ (apply_each_keeps (fun s => NoDup (group_patch_members s) /\ optional_text 256 (group_patch_external_id s))
                _ _ _ _ group_operation_ok Hstate (conj Hn Hx))). intros [Hn' Hx'].
  unfold group_patch_into_input in H. destruct (_ <? _)%nat eqn:El; [done|].
  apply result_bind_Ok in H as (d & Hd%optional_scim_str_Ok & H).
  apply result_bind_Ok in H as (d' & ->%ok_or_Ok & [= <-]).
  split; cbn; [by apply Hd|done|done|]. by apply Nat.ltb_ge.
Qed.
Lemma scim_group_input_Ok payload input : scim_group_input payload = Ok input -> group_input_ok input.
Proof.
  unfold scim_group_input. intros (_ & _ & H)%result_bind_Ok.
  apply result_bind_Ok in H as (d & Hd%optional_scim_str_Ok & H).
  apply result_bind_Ok in H as (d' & ->%ok_or_Ok & H).
  apply result_bind_Ok in H as (x & Hx%optional_scim_str_Ok & H).
  apply result_bind_Ok in H as (ids & Hids & [= <-]).
  unfold scim_group_member_user_ids in Hids. apply result_bind_Ok in Hids as (l & _ & Hids%unique_members_Ok).
  split; cbn; [by apply Hd|done|apply Hids..].
Qed.

(** ** The properties *)

(** C20. Whatever document a provisioning client sends, what is made of it is well
    formed.  Of a user, the address is normalized, the display name is trimmed,
    not empty and bounded (at 160 characters by a patch, at the length of an
    address by a resource, whose name falls back to it), the external
    identifier is trimmed, not empty and at most 256 characters; nothing that
    comes in verifies an address (a patch keeps a verification only with the
    address it is for), and nothing locks an account.  Of a group, the display
    name has 1 to 160 characters, and there are at most 500 members and none
    of them twice; a patch of however many operations keeps all of it. *)
Theorem scim_inputs_are_typed :
  (forall payload input, scim_user_input payload = Ok input ->
     user_input_ok 320 input /\ input_email_verified input = false
     /\ input_status input <> UserStatus_Locked)
  /\ (forall user payload input,
     normal_email (user_email user) -> optional_text 256 (user_scim_external_id user) ->
     scim_patch_user_input user payload = Ok input ->
     user_input_ok 160 input
     /\ (input_email_verified input = true ->
         user_email_verified user = true /\ input_email input = user_email user)
     /\ (input_status input = user_status user \/ input_status input <> UserStatus_Locked))
  /\ (forall payload input, scim_group_input payload = Ok input -> group_input_ok input)
  /\ (forall group members payload input,
     optional_text 256 (group_scim_external_id group) -> NoDup (List.map member_user_id members) ->
     scim_patch_group_input group members payload = Ok input -> group_input_ok input).
Proof.
  split_and!; [apply scim_user_input_Ok|apply patch_user_input_Ok|apply scim_group_input_Ok|apply patch_group_input_Ok].
Qed.

(** C22. A patch treats the members of a group as a set.  On a list without
    duplicates every change of members, with or without a filter on one of
    them, has the result that [change_members] has on the set, errors
    included: adding is union within the limit of 500, replacing is
    assignment, a filtered change needs the member it names and exchanges it,
    a removal is difference; the display name and the external identifier stay
    as they are, and no duplicate appears. *)
Theorem group_patch_refines_sets op target value_only value state :
  NoDup (group_patch_members state) ->
  (let? state' := apply_scim_group_patch_path_value state (GroupPath_Members target value_only) value op in
   Ok (member_set state')) = change_members op target value_only value (member_set state)
  /\ (let? state' := remove_scim_group_patch_path state (GroupPath_Members target value_only) in
      Ok (member_set state')) = Ok (remove_members target (member_set state))
  /\ (forall state',
       apply_scim_group_patch_path_value state (GroupPath_Members target value_only) value op = Ok state'
       \/ remove_scim_group_patch_path state (GroupPath_Members target value_only) = Ok state' ->
       NoDup (group_patch_members state')
       /\ group_patch_display_name state' = group_patch_display_name state
       /\ group_patch_external_id state' = group_patch_external_id state).
Proof.
  intros Hn. split_and!; [by apply path_value_members_set| |].
  - destruct target as [id|]; [|done]. cbn. f_equal. unfold member_set, remove_member_user_id. cbn.
    apply set_eq. intros x. rewrite elem_of_list_to_set, elem_of_difference, elem_of_list_to_set.
    rewrite !list_elem_of_In, List.filter_In, negb_true_iff, N.eqb_neq, elem_of_singleton. done.
  - intros state' [H|H].
    + split; [by eapply path_value_members_NoDup|]. by eapply members_path_frame.
    + destruct target as [id|]; injection H as <-; split_and!; try done;
        [by apply NoDup_filter_members|apply NoDup_nil_2].
Qed.
End input.
