(* ===== verification/ScimFilters.v ===== *)
(** * SCIM: what the filter language means

    A filter is printed and read back: the printed form quotes and escapes its
    texts, so that no text of a value is taken for the syntax around it.  And
    the bounds of what a listing may ask for. *)

From S2P Require Import Prelude RustStr Domain Oidc Http Codec Store Directory.
From S2P Require Import Lifecycle.
From S2P Require Import Handler BrowserSession ScimProtocol ScimQuery ScimInput ScimWellFormed.
From Stdlib Require Import Ascii.

(** ** Printing *)

Fixpoint escaped (s : string) : string :=
  match s with
  | EmptyString => ""
  | String c rest =>
      if Ascii.eqb c double_quote || Ascii.eqb c backslash
      then String backslash (String c (escaped rest)) else String c (escaped rest)
  end.
Definition quoted (s : string) : string := String double_quote (escaped s +:+ quote_string).
Definition text_condition (attribute value : string) : string :=
  attribute +:+ " eq " +:+ quoted value.
Definition bool_condition (attribute : string) (value : bool) : string :=
  attribute +:+ " eq " +:+ (if value then "true" else "false").
Definition print_user_filter (f : ScimUserListFilter) : string :=
  join " and "
    (option_list (text_condition "userName" <$> filter_user_name_eq f)
     ++ option_list (text_condition "externalId" <$> filter_external_id_eq f)
     ++ option_list (bool_condition "active" <$> filter_active_eq f)).
Definition print_group_filter (f : ScimGroupListFilter) : string :=
  join " and "
    (option_list (text_condition "displayName" <$> filter_display_name_eq f)
     ++ option_list (text_condition "externalId" <$> filter_group_external_id_eq f)).

(** A filter on texts that the directory can hold. *)
Definition user_filter_ok (f : ScimUserListFilter) : Prop :=
  (forall e, filter_user_name_eq f = Some e -> normal_email e)
  /\ optional_text 256 (filter_external_id_eq f).
Definition group_filter_ok (f : ScimGroupListFilter) : Prop :=
  optional_text 160 (filter_display_name_eq f) /\ optional_text 256 (filter_group_external_id_eq f).

(** What the texts of a filter are taken for, each on its own. *)
Definition checked_user_filter (f : ScimUserListFilter) : result ScimError ScimUserListFilter :=
  let? user_name :=
    match filter_user_name_eq f with
    | Some e => Some <$> map_err scim_from_domain_error (normalize_email e)
    | None => Ok None
    end in
  let? external_id := optional_filter_string "externalId" (filter_external_id_eq f) 256 in
  Ok (mk_ScimUserListFilter user_name external_id (filter_active_eq f)).
Definition checked_group_text (field : string) (max_len : nat) (value : option string)
    : result ScimError (option string) :=
  match value with
  | Some s =>
      let? checked := optional_filter_string field (Some s) max_len in
      Some <$> ok_or checked (invalid_filter (field +:+ " filter cannot be empty"))
  | None => Ok None
  end.
Definition checked_group_filter (f : ScimGroupListFilter) : result ScimError ScimGroupListFilter :=
  let? name := checked_group_text "displayName" 160 (filter_display_name_eq f) in
  let? external_id := checked_group_text "externalId" 256 (filter_group_external_id_eq f) in
  Ok (mk_ScimGroupListFilter name external_id).

(** ** Strings *)

Lemma unescape_escaped s output : unescape_loop output false (escaped s) = Ok (output +:+ s).
Proof.
  revert output. induction s as [|c s IH]; intros output; cbn [escaped].
  - cbn. by rewrite string_app_nil_r.
  - destruct (Ascii.eqb c double_quote || Ascii.eqb c backslash) eqn:E.
    + cbn [unescape_loop]. cbn. rewrite E, IH, <- string_app_assoc. done.
    + apply orb_false_iff in E as [_ E]. cbn [unescape_loop]. rewrite E, IH, <- string_app_assoc. done.
Qed.
Lemma substring_app a b : String.substring 0 (String.length a) (a +:+ b) = a.
Proof. induction a as [|c a IH]; [by destruct b|]. rewrite string_app_cons. cbn. by rewrite IH. Qed.
(** An ASCII character that is not white space. *)
Lemma strip_ws_ascii c t : (byte c <? 0x80)%N = true -> ws1 c = false -> strip_ws (String c t) = None.
Proof.
  intros Hc Hw. apply N.ltb_lt in Hc. cbn. rewrite Hw. destruct t as [|b t]; [done|].
  assert (forall n, (0x80 <= n)%N -> (byte c =? n)%N = false) as Hne by (intros; apply N.eqb_neq; lia).
  unfold ws2, ws3. rewrite !Hne by lia. cbn. by destruct t.
Qed.
Lemma strip_ws_rev_ascii c t :
  (byte c <? 0x80)%N = true -> ws1 c = false -> strip_ws_rev (String c t) = None.
Proof.
  intros Hc Hw. apply N.ltb_lt in Hc. cbn. rewrite Hw. destruct t as [|b t]; [done|].
  assert (forall n, (0x80 <= n)%N -> (byte c =? n)%N = false) as Hne by (intros; apply N.eqb_neq; lia).
  assert (forall lo hi, (0x80 <= lo)%N -> in_range lo hi c = false) as Hin.
  { intros lo hi Hlo. unfold in_range. apply andb_false_iff. left. apply N.leb_gt. lia. }
  unfold ws2, ws3. rewrite !Hne, !Hin by lia. rewrite !andb_false_r. cbn.
  destruct t; [done|]. by rewrite !andb_false_r.
Qed.
Lemma trim_ascii a t b :
  (byte a <? 0x80)%N = true -> ws1 a = false -> (byte b <? 0x80)%N = true -> ws1 b = false ->
  trim (String a t +:+ String b "") = String a t +:+ String b "".
Proof.
  intros Ha Hwa Hb Hwb. apply trim_fix; [by apply strip_ws_ascii|].
  rewrite rev_app. by apply strip_ws_rev_ascii.
Qed.
Lemma quoted_trim s : trim (quoted s) = quoted s.
Proof. exact (trim_ascii double_quote (escaped s) double_quote eq_refl eq_refl eq_refl eq_refl). Qed.
Lemma scim_filter_string_quoted s : scim_filter_string (quoted s) = Ok s.
Proof.
  unfold scim_filter_string. rewrite quoted_trim. cbv zeta.
  assert (Hstart : starts_with quote_string (quoted s) = true) by (by apply bool_decide_eq_true_2).
  assert (Hend : ends_with quote_string (quoted s) = true).
  { unfold ends_with, quoted. rewrite <- string_app_cons, rev_app. by apply bool_decide_eq_true_2. }
  assert (Hlen : String.length (quoted s) = S (S (String.length (escaped s)))).
  { unfold quoted. cbn. rewrite string_length_app. cbn. lia. }
  rewrite Hstart, Hend, Hlen. cbn [negb orb Nat.ltb Nat.leb Nat.sub].
  unfold quoted. cbn [String.substring]. rewrite Nat.sub_0_r, substring_app. apply unescape_escaped.
Qed.

(** ** Conditions *)

(** [ and ] may start at [c], with [rest] after it. *)
Definition keyword_start (c : ascii) (rest : string) : bool :=
  Ascii.eqb (lower_byte c) " "
  && match rest with String d _ => Ascii.eqb (lower_byte d) "a" | EmptyString => false end.
(** [p] holds neither a quote nor the start of [ and ], before [rest]. *)
Fixpoint plain (p rest : string) : bool :=
  match p with
  | EmptyString => true
  | String c p' =>
      negb (Ascii.eqb c double_quote) && negb (keyword_start c (p' +:+ rest)) && plain p' rest
  end.
Lemma eq_ignore_ascii_case_cons a b s t :
  eq_ignore_ascii_case (String a s) (String b t)
  = Ascii.eqb (lower_byte a) (lower_byte b) && eq_ignore_ascii_case s t.
Proof.
  unfold eq_ignore_ascii_case, to_ascii_lowercase. cbn.
  destruct (Ascii.eqb_spec (lower_byte a) (lower_byte b)) as [E|E]; cbn.
  - apply bool_decide_ext. rewrite E. split; [by intros [=]|by intros ->].
  - apply bool_decide_eq_false_2. by intros [=].
Qed.
Lemma no_keyword c rest : keyword_start c rest = false -> ascii_keyword_at (String c rest) " and " = false.
Proof.
  unfold ascii_keyword_at, keyword_start. cbn [String.length String.substring].
  destruct rest as [|d rest]; cbn [String.substring]; rewrite !eq_ignore_ascii_case_cons.
  - intros _. apply andb_false_r.
  - intros H. rewrite andb_assoc. change (lower_byte " ") with (" "%char). change (lower_byte "a") with ("a"%char).
    by rewrite H.
Qed.
Lemma loop_plain p condition rest :
  plain p rest = true ->
  split_conditions_loop 0 condition false false (p +:+ rest)
  = split_conditions_loop 0 (condition +:+ p) false false rest.
Proof.
  revert condition. induction p as [|c p IH]; intros condition; cbn [plain].
  - intros _. by rewrite string_app_nil_r.
  - intros [[Hq%negb_true_iff Hk%negb_true_iff]%andb_true_iff Hp]%andb_true_iff.
    rewrite string_app_cons. cbn [split_conditions_loop]. rewrite andb_false_r, Hq, no_keyword by done.
    cbn [negb andb]. rewrite IH by done. by rewrite <- string_app_assoc.
Qed.
Lemma loop_string s condition rest :
  split_conditions_loop 0 condition true false (escaped s +:+ String double_quote rest)
  = split_conditions_loop 0 (condition +:+ escaped s +:+ quote_string) false false rest.
Proof.
  revert condition. induction s as [|c s IH]; intros condition; cbn [escaped].
  - rewrite string_app_nil_l. cbn. done.
  - destruct (Ascii.eqb c double_quote || Ascii.eqb c backslash) eqn:E.
    + rewrite !string_app_cons. cbn [split_conditions_loop]. cbn. rewrite IH.
      by rewrite <- !string_app_assoc.
    + apply orb_false_iff in E as [Hq Hb]. rewrite !string_app_cons. cbn [split_conditions_loop].
      rewrite Hb, Hq. cbn [negb andb]. rewrite IH. by rewrite <- !string_app_assoc.
Qed.
Lemma loop_quoted s condition rest :
  split_conditions_loop 0 condition false false (quoted s +:+ rest)
  = split_conditions_loop 0 (condition +:+ quoted s) false false rest.
Proof.
  unfold quoted. rewrite string_app_cons, <- string_app_assoc. cbn [split_conditions_loop]. cbn.
  change (quote_string +:+ rest) with (String double_quote rest). rewrite loop_string.
  by rewrite <- string_app_assoc.
Qed.

(** A condition that the splitting leaves whole. *)
Record whole (condition : string) : Prop := {
  whole_loop : forall before rest, rest = "" \/ (exists t, rest = " and " +:+ t) ->
    split_conditions_loop 0 before false false (condition +:+ rest)
    = split_conditions_loop 0 (before +:+ condition) false false rest;
  whole_trim : trim condition = condition;
  whole_not_empty : condition <> "";
}.
Lemma loop_and condition rest :
  split_conditions_loop 0 condition false false (" and " +:+ rest)
  = if is_empty (trim condition) then Err (invalid_filter "empty SCIM filter condition")
    else let? conditions := split_conditions_loop 0 "" false false rest in
         Ok (trim condition :: conditions).
Proof.
  assert (Hk : ascii_keyword_at (" and " +:+ rest) " and " = true).
  { unfold ascii_keyword_at. replace (String.substring 0 (String.length " and ") (" and " +:+ rest)) with " and "; [done|].
    symmetry. exact (substring_app " and " rest). }
  assert (Hskip : split_conditions_loop 4 "" false false ("and " +:+ rest)
                  = split_conditions_loop 0 "" false false rest) by done.
  revert Hk Hskip. change (" and " +:+ rest) with (String " " ("and " +:+ rest)).
  generalize ("and " +:+ rest) as r. intros r Hk Hskip. cbn [split_conditions_loop].
  rewrite andb_false_r, Hk, Hskip. done.
Qed.
Lemma split_whole l : l <> [] -> Forall whole l -> split_scim_and_conditions (join " and " l) = Ok l.
Proof.
  unfold split_scim_and_conditions. intros Hne Hl. induction Hl as [|c l [Hloop Htrim Hc] Hl IH]; [done|].
  assert (Hempty : is_empty c = false) by (by destruct c).
  destruct l as [|d l].
  - cbn [join]. rewrite <- (string_app_nil_r c) at 1. rewrite Hloop by auto.
    cbn [split_conditions_loop]. rewrite string_app_nil_l, Htrim. cbv zeta. by rewrite Hempty.
  - rewrite join_cons, Hloop, string_app_nil_l, loop_and, Htrim, Hempty by eauto. by rewrite IH.
Qed.
Lemma whole_text attribute value :
  (forall rest, plain (attribute +:+ " eq ") (quoted value +:+ rest) = true) ->
  (exists c t, attribute = String c t /\ (byte c <? 0x80)%N = true /\ ws1 c = false) ->
  whole (text_condition attribute value).
Proof.
  intros Hp (c & t & -> & Hc & Hw). unfold text_condition. split.
  - intros before rest _. rewrite !string_app_assoc, <- (string_app_assoc _ (quoted value)).
    rewrite loop_plain by apply Hp. rewrite loop_quoted. by rewrite !string_app_assoc.
  - replace (String c t +:+ " eq " +:+ quoted value)
      with (String c (t +:+ " eq " +:+ String double_quote (escaped value)) +:+ String double_quote "").
    + by apply trim_ascii.
    + unfold quoted. rewrite !string_app_cons. f_equal. rewrite <- !string_app_assoc. done.
  - done.
Qed.
Lemma whole_bool attribute (value : bool) :
  (forall rest, plain (attribute +:+ " eq ") ((if value then "true" else "false") +:+ rest) = true) ->
  (exists c t, attribute = String c t /\ (byte c <? 0x80)%N = true /\ ws1 c = false) ->
  whole (bool_condition attribute value).
Proof.
  intros Hp (c & t & -> & Hc & Hw). unfold bool_condition. split.
  - intros before rest _. rewrite !string_app_assoc, <- (string_app_assoc _ (if value then "true" else "false")).
    rewrite loop_plain by apply Hp. rewrite loop_plain by (by destruct value). by rewrite !string_app_assoc.
  - destruct value.
    + replace (String c t +:+ " eq " +:+ "true")
        with (String c (t +:+ " eq tru") +:+ String "e" "").
      * by apply trim_ascii.
      * rewrite !string_app_cons. f_equal. by rewrite <- !string_app_assoc.
    + replace (String c t +:+ " eq " +:+ "false")
        with (String c (t +:+ " eq fals") +:+ String "e" "").
      * by apply trim_ascii.
      * rewrite !string_app_cons. f_equal. by rewrite <- !string_app_assoc.
  - done.
Qed.

(** ** Reading a condition back *)

(** No white space in [attribute], which is in ASCII. *)
Definition word (attribute : string) : bool :=
  all_bytes (fun c => (byte c <? 0x80)%N && negb (ws1 c)) attribute.
Lemma split_word attribute rest :
  word attribute = true ->
  split_at_whitespace (attribute +:+ String " " rest) = Some (attribute, String " " rest).
Proof.
  unfold word. induction attribute as [|c a IH]; [done|].
  cbn [all_bytes]. intros [[Hc Hw%negb_true_iff]%andb_true_iff Ha]%andb_true_iff.
  rewrite string_app_cons. cbn [split_at_whitespace]. rewrite strip_ws_ascii, IH by done. done.
Qed.
Lemma word_trim attribute : word attribute = true -> trim attribute = attribute.
Proof.
  unfold word. intros H. apply trim_fix.
  - destruct attribute as [|c a]; [done|]. cbn [all_bytes] in H. bool_prop. by apply strip_ws_ascii.
  - destruct (String.rev attribute) as [|c a] eqn:E; [done|].
    assert (Hr : all_bytes (fun c => (byte c <? 0x80)%N && negb (ws1 c)) (String.rev attribute) = true)
      by (by rewrite all_bytes_rev).
    rewrite E in Hr. cbn [all_bytes] in Hr. bool_prop. by apply strip_ws_rev_ascii.
Qed.
Lemma condition_read attribute c value :
  word attribute = true -> attribute <> "" -> (byte c <? 0x80)%N = true -> ws1 c = false ->
  trim (attribute +:+ " eq " +:+ String c value) = attribute +:+ " eq " +:+ String c value ->
  scim_eq_condition (attribute +:+ " eq " +:+ String c value) = Ok (attribute, String c value).
Proof.
  intros Hword Hne Hc Hw Ht. unfold scim_eq_condition. rewrite Ht. cbv zeta.
  change (" eq " +:+ String c value) with (String " " ("eq" +:+ String " " (String c value))).
  rewrite split_word by done. cbv beta iota delta [ok_or mbind result_bind]. rewrite word_trim by done.
  assert (Hstart : forall s, trim_start (String " " s) = trim_start s).
  { intros s. unfold trim_start. done. }
  assert (Hid : forall s, strip_ws s = None -> trim_start s = s) by apply trim_start_fix.
  rewrite Hstart, (Hid ("eq" +:+ _)) by (by apply strip_ws_ascii). rewrite split_word by done.
  cbv beta iota delta [ok_or mbind result_bind]. rewrite Hstart, Hid by (by apply strip_ws_ascii).
  destruct (is_empty attribute) eqn:E; [by destruct attribute|]. done.
Qed.
Lemma text_condition_read attribute value :
  word attribute = true -> attribute <> "" -> whole (text_condition attribute value) ->
  scim_eq_condition (text_condition attribute value) = Ok (attribute, quoted value).
Proof. intros Hw Hne [_ Ht _]. by apply condition_read. Qed.
Lemma bool_condition_read attribute (value : bool) :
  word attribute = true -> attribute <> "" -> whole (bool_condition attribute value) ->
  scim_eq_condition (bool_condition attribute value) = Ok (attribute, if value then "true" else "false").
Proof. intros Hw Hne [_ Ht _]. by destruct value; apply condition_read. Qed.
Lemma whole_user_name e : whole (text_condition "userName" e).
Proof. apply whole_text; [done|by eexists _, _]. Qed.
Lemma whole_external_id e : whole (text_condition "externalId" e).
Proof. apply whole_text; [done|by eexists _, _]. Qed.
Lemma whole_display_name e : whole (text_condition "displayName" e).
Proof. apply whole_text; [done|by eexists _, _]. Qed.
Lemma whole_active b : whole (bool_condition "active" b).
Proof. apply whole_bool; [by destruct b|by eexists _, _]. Qed.
#[local] Hint Resolve whole_user_name whole_external_id whole_display_name whole_active : core.

Lemma optional_filter_text field s max :
  scim_text max s -> optional_filter_string field (Some s) max = Ok (Some s).
Proof.
  intros (Hne & Ht & Hl). unfold optional_filter_string. rewrite Ht. cbv zeta.
  destruct (is_empty s) eqn:E; [by destruct s|].
  destruct (max <? chars_count s)%nat eqn:El; [apply Nat.ltb_lt in El; lia|done].
Qed.
(** Reads one printed condition, up to the check of its text. *)
Ltac read_condition :=
  first [rewrite text_condition_read by done | rewrite bool_condition_read by done];
  cbv beta iota zeta delta [mbind result_bind];
  repeat match goal with |- context [bool_decide (to_ascii_lowercase ?a = ?b)] =>
    first [ rewrite (bool_decide_eq_false_2 (to_ascii_lowercase a = b)) by done
          | rewrite (bool_decide_eq_true_2 (to_ascii_lowercase a = b)) by done ] end;
  cbn [is_some]; rewrite ?scim_filter_string_quoted; cbv beta iota.
Lemma user_name_read e x a :
  user_condition (mk_ScimUserListFilter None x a) (text_condition "userName" e)
  = (let? email := map_err scim_from_domain_error (normalize_email e) in
     Ok (mk_ScimUserListFilter (Some email) x a)).
Proof. unfold user_condition. by read_condition. Qed.
Lemma external_id_read e u a :
  user_condition (mk_ScimUserListFilter u None a) (text_condition "externalId" e)
  = (let? external_id := optional_filter_string "externalId" (Some e) 256 in
     Ok (mk_ScimUserListFilter u external_id a)).
Proof. unfold user_condition. by read_condition. Qed.
Lemma active_read b u x :
  user_condition (mk_ScimUserListFilter u x None) (bool_condition "active" b)
  = Ok (mk_ScimUserListFilter u x (Some b)).
Proof. unfold user_condition. read_condition. by destruct b. Qed.
Lemma group_name_read e x :
  group_condition (mk_ScimGroupListFilter None x) (text_condition "displayName" e)
  = (let? name := checked_group_text "displayName" 160 (Some e) in Ok (mk_ScimGroupListFilter name x)).
Proof.
  unfold group_condition. read_condition. unfold checked_group_text.
  by destruct (optional_filter_string _ _ _) as [[]|].
Qed.
Lemma group_external_id_read e n :
  group_condition (mk_ScimGroupListFilter n None) (text_condition "externalId" e)
  = (let? external_id := checked_group_text "externalId" 256 (Some e) in
     Ok (mk_ScimGroupListFilter n external_id)).
Proof.
  unfold group_condition. read_condition. unfold checked_group_text.
  by destruct (optional_filter_string _ _ _) as [[]|].
Qed.
(** Texts that the directory can hold are taken for themselves. *)
Lemma user_filter_checked f : user_filter_ok f -> checked_user_filter f = Ok f.
Proof.
  destruct f as [u x a]. intros [Hu Hx]. unfold checked_user_filter, optional_text in *.
  cbn -[optional_filter_string normalize_email] in *.
  destruct u as [u|]; [rewrite normal_email_fixed by auto|]; (destruct x as [x|]; [rewrite optional_filter_text by auto|]);
    done.
Qed.
Lemma group_filter_checked f : group_filter_ok f -> checked_group_filter f = Ok f.
Proof.
  destruct f as [n x]. intros [Hn Hx]. unfold checked_group_filter, checked_group_text, optional_text in *.
  cbn -[optional_filter_string] in *.
  destruct n as [n|]; [rewrite optional_filter_text by auto|]; (destruct x as [x|]; [rewrite optional_filter_text by auto|]);
    done.
Qed.

(** A printed filter is split into the conditions it was printed from. *)
Lemma user_filter_read f : f <> any_user -> scim_user_filter (print_user_filter f) = checked_user_filter f.
Proof.
  intros Hne. destruct f as [u x a]. unfold scim_user_filter, print_user_filter, checked_user_filter, any_user in *.
  cbn [filter_user_name_eq filter_external_id_eq filter_active_eq]. rewrite split_whole.
  - cbn [mbind result_bind].
    destruct u as [u|], x as [x|], a as [a|]; cbn [option_list option_fmap option_map fmap app fold_conditions];
      try done; rewrite ?user_name_read; try (destruct (normalize_email u) as [email|]; [|done]);
      cbn [map_err mbind result_bind fmap result_fmap fold_conditions];
      rewrite ?external_id_read; try (destruct (optional_filter_string _ (Some x) _) as [id|]; [|done]);
      cbn [mbind result_bind fold_conditions]; rewrite ?active_read; done.
  - by destruct u, x, a.
  - destruct u, x, a; cbn; auto.
Qed.
Lemma group_filter_read f : f <> any_group -> scim_group_filter (print_group_filter f) = checked_group_filter f.
Proof.
  intros Hne. destruct f as [n x]. unfold scim_group_filter, print_group_filter, checked_group_filter, any_group in *.
  cbn [filter_display_name_eq filter_group_external_id_eq]. rewrite split_whole.
  - cbn [mbind result_bind].
    destruct n as [n|], x as [x|]; cbn [option_list option_fmap option_map fmap app fold_conditions];
      try done; rewrite ?group_name_read; try (destruct (checked_group_text "displayName" _ (Some n)) as [name|]; [|done]);
      cbn [mbind result_bind fold_conditions]; rewrite ?group_external_id_read;
      try (destruct (checked_group_text "externalId" _ (Some x)) as [id|]; [|done]); done.
  - by destruct n, x.
  - destruct n, x; cbn; auto.
Qed.

(** C21. A filter says what it was written to say.  Whatever texts it compares
    with, quotes, backslashes and the word and among them, a filter on users or
    on groups with at least one condition that is printed in the filter language
    is read back condition by condition, each text with the check and the
    trimming it gets on its own: no text of a value is taken for a condition or
    for the end of the value.  A text the directory can hold (a normalized
    e-mail address, or a trimmed text that is neither empty nor too long) is
    read back as it is, so that such a filter is read back as the same filter;
    a blank externalId is dropped from a filter on users, and refused in a
    filter on groups. *)
Theorem scim_filter_round_trip :
  (forall f, f <> any_user -> scim_user_filter (print_user_filter f) = checked_user_filter f)
  /\ (forall f, f <> any_group -> scim_group_filter (print_group_filter f) = checked_group_filter f)
  /\ (forall f, user_filter_ok f -> f <> any_user -> scim_user_filter (print_user_filter f) = Ok f)
  /\ (forall f, group_filter_ok f -> f <> any_group -> scim_group_filter (print_group_filter f) = Ok f)
  /\ (forall u x a, trim x = "" -> checked_user_filter (mk_ScimUserListFilter u (Some x) a)
                                 = checked_user_filter (mk_ScimUserListFilter u None a))
  /\ (forall n x, trim x = "" -> is_ok (checked_group_filter (mk_ScimGroupListFilter n (Some x))) = false).
Proof.
  assert (Hu : forall f, f <> any_user -> scim_user_filter (print_user_filter f) = checked_user_filter f)
    by exact user_filter_read.
  assert (Hg : forall f, f <> any_group -> scim_group_filter (print_group_filter f) = checked_group_filter f)
    by exact group_filter_read.
  split; [exact Hu|]. split; [exact Hg|]. split_and!.
  - intros f Hf Hne. rewrite Hu by done. by apply user_filter_checked.
  - intros f Hf Hne. rewrite Hg by done. by apply group_filter_checked.
  - intros u x a Hx. unfold checked_user_filter, optional_filter_string. cbn. by rewrite Hx.
  - intros n x Hx. unfold checked_group_filter. destruct (checked_group_text "displayName" _ _); [|done].
    unfold checked_group_text, optional_filter_string. cbn. by rewrite Hx.
Qed.
