(* ===== verification/ScimProjections.v ===== *)
(** * SCIM: what a projection shows

    The attributes of a resource that a reply shows when the request asks for
    some of them or for all but some. *)

From S2P Require Import Prelude RustStr Domain Oidc Http Codec Store Directory.
From S2P Require Import Lifecycle.
From S2P Require Import Handler BrowserSession ScimProtocol ScimQuery.

(** Returned whatever is asked. *)
Definition always_returned (key : string) : Prop := key = "schemas" \/ key = "id".
Definition mentions (paths : list ScimProjectionPath) (key : string) : Prop :=
  exists path, path ∈ paths /\ path_top path = key.
(** A sub-attribute of [key] is among the paths. *)
Definition mentions_part (paths : list ScimProjectionPath) (key : string) : Prop :=
  exists sub, sub_path key sub ∈ paths.

Lemma value_get_cons a v entries k :
  value_get (Object ((a, v) :: entries)) k
  = if decide (a = k) then Some v else value_get (Object entries) k.
Proof. cbn. by repeat case_decide || case_bool_decide. Qed.
Lemma value_get_remove key entries k :
  value_get (Object (object_remove key entries)) k
  = if bool_decide (k = key) then None else value_get (Object entries) k.
Proof.
  induction entries as [|[a v] entries IH]; [by case_bool_decide|].
  unfold object_remove. cbn [List.filter fst]. fold (object_remove key entries).
  destruct (decide (a = key)) as [->|Hne].
  - rewrite (bool_decide_eq_true_2 (key = key)) by done. cbn [negb]. rewrite IH, value_get_cons.
    case_bool_decide as Hk; [done|]. by rewrite decide_False.
  - rewrite (bool_decide_eq_false_2 (a = key)) by done. cbn [negb]. rewrite !value_get_cons, IH.
    destruct (decide (a = k)) as [->|Hne']; [by rewrite bool_decide_eq_false_2|done].
Qed.
Lemma is_always_returned_iff path : is_always_returned path = true <-> always_returned (path_top path).
Proof. unfold is_always_returned, always_returned. by rewrite orb_true_iff, !bool_decide_eq_true. Qed.

(** ** Asked for *)

Section include.
Context (resource : Value).
Notation shown target := (value_get (Object target)).

Lemma copy_top_get target attribute k :
  shown (scim_copy_top_attribute resource target attribute) k
  = if bool_decide (k = attribute)
    then match value_get resource attribute with Some v => Some v | None => shown target k end
    else shown target k.
Proof.
  unfold scim_copy_top_attribute. destruct (value_get resource attribute) as [v|].
  - apply value_get_insert.
  - by case_bool_decide.
Qed.
Lemma copy_path_other target path k :
  k <> path_top path -> shown (scim_copy_projection_path resource target path) k = shown target k.
Proof.
  intros Hne. unfold scim_copy_projection_path. cbv zeta.
  assert (Htop : shown (scim_copy_top_attribute resource target (path_top path)) k = shown target k)
    by (by rewrite copy_top_get, bool_decide_eq_false_2).
  assert (Hins : forall v t, shown (object_insert (path_top path) v t) k = shown t k)
    by (intros v t; by rewrite value_get_insert, bool_decide_eq_false_2).
  assert (Hrem : forall t, shown (scim_remove_empty_projected_array t (path_top path)) k = shown t k).
  { intros t. unfold scim_remove_empty_projected_array. repeat case_match; try done.
    by rewrite value_get_remove, bool_decide_eq_false_2. }
  destruct (is_always_returned path); [done|]. destruct (path_sub path) as [sub|]; [|done].
  destruct (value_get resource (path_top path)) as [[]|]; try done.
  - rewrite Hrem. destruct (default _ _); rewrite ?Hins; done.
  - destruct (object_get entries sub); [|done]. destruct (default _ _); rewrite ?Hins; done.
Qed.
Lemma copy_path_whole target path :
  is_always_returned path = true \/ path_sub path = None ->
  shown (scim_copy_projection_path resource target path) (path_top path)
  = match value_get resource (path_top path) with Some v => Some v | None => shown target (path_top path) end.
Proof.
  intros H. unfold scim_copy_projection_path. cbv zeta.
  destruct (is_always_returned path); [|destruct H as [[=]| ->]];
    by rewrite copy_top_get, bool_decide_eq_true_2.
Qed.
Lemma copy_paths_other paths target k :
  ~ mentions paths k -> shown (fold_left (scim_copy_projection_path resource) paths target) k = shown target k.
Proof.
  revert target. induction paths as [|p paths IH]; intros target Hk; cbn [fold_left]; [done|]. rewrite IH.
  - apply copy_path_other. intros ->. apply Hk. exists p. set_solver.
  - intros (q & Hq & <-). apply Hk. exists q. set_solver.
Qed.
(** The value so far is none, or the whole. *)
Lemma copy_paths_whole paths target k :
  always_returned k \/ ~ mentions_part paths k ->
  shown target k = None \/ shown target k = value_get resource k ->
  let shown_ := shown (fold_left (scim_copy_projection_path resource) paths target) k in
  (shown_ = None \/ shown_ = value_get resource k)
  /\ (shown target k = value_get resource k \/ mentions paths k -> shown_ = value_get resource k).
Proof.
  cbv zeta. intros Hk. revert target. induction paths as [|p paths IH]; intros target Ht; cbn [fold_left].
  { split; [done|]. intros [?|(p & Hp & _)]; [done|]. by apply elem_of_nil in Hp. }
  assert (Hk' : always_returned k \/ ~ mentions_part paths k).
  { destruct Hk as [?|Hk]; [by left|right]. intros [sub Hsub]. apply Hk. exists sub. set_solver. }
  destruct (decide (path_top p = k)) as [<-|Hne].
  - assert (Hw : is_always_returned p = true \/ path_sub p = None).
    { destruct Hk as [Hk|Hk]; [left; by apply is_always_returned_iff|right].
      destruct p as [top [sub|]]; [|done]. exfalso. apply Hk. exists sub. set_solver. }
    assert (Hget : shown (scim_copy_projection_path resource target p) (path_top p)
                   = value_get resource (path_top p)).
    { rewrite copy_path_whole by done. destruct (value_get resource (path_top p)); [done|]. by destruct Ht. }
    destruct (IH Hk' (scim_copy_projection_path resource target p)) as [H1 H2]; [by right|].
    split; [done|]. intros _. apply H2. by left.
  - rewrite <- (copy_path_other target p k) in Ht |- * by done.
    destruct (IH Hk' _ Ht) as [H1 H2]. split; [done|]. intros [Hs|(q & Hq & Hqk)]; apply H2; [by left|right].
    exists q. split; [|done]. apply elem_of_cons in Hq as [->|Hq]; [done|]. done.
Qed.
End include.

(** ** Asked to leave out *)

Lemma remove_path_other resource path k :
  k <> path_top path \/ is_always_returned path = true ->
  value_get (scim_remove_projection_path resource path) k = value_get resource k.
Proof.
  intros H. unfold scim_remove_projection_path. cbv zeta.
  destruct (is_always_returned path); [done|]. destruct H as [Hne|[=]].
  destruct resource as [| | | | |entries]; try done.
  assert (Hrem : value_get (Object (object_remove (path_top path) entries)) k = value_get (Object entries) k)
    by (by rewrite value_get_remove, bool_decide_eq_false_2).
  assert (Hins : forall v, value_get (Object (object_insert (path_top path) v entries)) k
                           = value_get (Object entries) k)
    by (intros v; by rewrite value_get_insert, bool_decide_eq_false_2).
  destruct (path_sub path) as [sub|]; [|done].
  destruct (object_get entries (path_top path)) as [[]|]; try done.
  - by destruct (forallb _ _).
  - by destruct (object_remove sub entries0).
Qed.
Lemma remove_path_whole resource top :
  ~ always_returned top -> value_get (scim_remove_projection_path resource (top_path top)) top = None.
Proof.
  intros Ha. unfold scim_remove_projection_path. cbv zeta.
  destruct (is_always_returned (top_path top)) eqn:E; [by apply is_always_returned_iff in E|].
  cbn. destruct resource; try done. by rewrite value_get_remove, bool_decide_eq_true_2.
Qed.
Lemma remove_path_none resource path k :
  value_get resource k = None -> value_get (scim_remove_projection_path resource path) k = None.
Proof.
  intros Hk. destruct (decide (k = path_top path)) as [->|Hne].
  2:{ rewrite remove_path_other; [done|by left]. }
  unfold scim_remove_projection_path. cbv zeta. destruct (is_always_returned path); [done|].
  destruct resource as [| | | | |entries]; try done. destruct (path_sub path) as [sub|].
  - unfold object_get. change (option_map snd) with (fmap (M := option) (A := string * Value) snd).
    cbn in Hk. by rewrite Hk.
  - by rewrite value_get_remove, bool_decide_eq_true_2.
Qed.

#[local] Instance always_returned_dec k : Decision (always_returned k).
Proof. unfold always_returned. tc_solve. Defined.
Lemma shown_first resource k :
  value_get (Object (scim_copy_top_attribute resource (scim_copy_top_attribute resource [] "schemas") "id")) k
  = if decide (always_returned k) then value_get resource k else None.
Proof.
  rewrite !copy_top_get. unfold always_returned. repeat case_bool_decide; subst; case_decide; try naive_solver.
  - by destruct (value_get resource "id").
  - by destruct (value_get resource "schemas").
Qed.
Lemma remove_paths_kept paths resource k :
  ~ mentions paths k \/ always_returned k ->
  value_get (fold_left scim_remove_projection_path paths resource) k = value_get resource k.
Proof.
  revert resource. induction paths as [|p paths IH]; intros resource H; cbn [fold_left]; [done|].
  rewrite IH.
  - apply remove_path_other. destruct (decide (k = path_top p)) as [->|]; [right|by left].
    apply is_always_returned_iff. destruct H as [Hn|]; [|done]. exfalso. apply Hn. exists p. set_solver.
  - destruct H as [Hn|]; [left|by right]. intros (q & Hq & <-). apply Hn. exists q. set_solver.
Qed.
Lemma remove_paths_none paths resource k :
  value_get resource k = None -> value_get (fold_left scim_remove_projection_path paths resource) k = None.
Proof.
  revert resource. induction paths as [|p paths IH]; intros resource H; cbn [fold_left]; [done|].
  by apply IH, remove_path_none.
Qed.
Lemma remove_paths_whole paths resource k :
  ~ always_returned k -> top_path k ∈ paths ->
  value_get (fold_left scim_remove_projection_path paths resource) k = None.
Proof.
  intros Hk. revert resource. induction paths as [|p paths IH]; intros resource; cbn [fold_left];
    rewrite ?elem_of_nil, ?elem_of_cons; [done|]. intros [<-|Hin]; [|by apply IH].
  by apply remove_paths_none, remove_path_whole.
Qed.

(** A reply shows what was asked for.  A listing or a resource that asks for
    attributes shows the schemas and the identifier as they are, the whole of
    every attribute it asks for in whole, and nothing of an attribute it does
    not mention; one that leaves attributes out shows the schemas and the
    identifier as they are, nothing of an attribute it leaves out in whole,
    and every attribute it does not mention as it is. *)
Theorem projection_spec resource paths :
  (forall k, always_returned k ->
     value_get (scim_apply_projection resource (Projection_Include paths)) k = value_get resource k
     /\ value_get (scim_apply_projection resource (Projection_Exclude paths)) k = value_get resource k)
  /\ (forall k, ~ always_returned k -> ~ mentions paths k ->
     value_get (scim_apply_projection resource (Projection_Include paths)) k = None
     /\ value_get (scim_apply_projection resource (Projection_Exclude paths)) k = value_get resource k)
  /\ (forall k, ~ always_returned k -> top_path k ∈ paths ->
     (~ mentions_part paths k ->
      value_get (scim_apply_projection resource (Projection_Include paths)) k = value_get resource k)
     /\ value_get (scim_apply_projection resource (Projection_Exclude paths)) k = None).
Proof.
  cbn [scim_apply_projection]. unfold scim_include_projection, scim_exclude_projection. cbv zeta.
  split_and!; intros k Hk.
  - split; [|by apply remove_paths_kept; right].
    apply copy_paths_whole; [by left| |left]; rewrite shown_first; by destruct (decide (always_returned k)); auto.
  - intros Hm. split; [|by apply remove_paths_kept; left].
    by rewrite copy_paths_other, shown_first, decide_False.
  - intros Hin. split.
    + intros Hp. apply copy_paths_whole; [by right| |right].
      * rewrite shown_first, decide_False by done. by left.
      * by exists (top_path k).
    + by apply remove_paths_whole.
Qed.
