(* ===== verification/Frames.v ===== *)
(** * What a handler leaves alone

    Frame reasoning for statements and handlers: a preorder between databases
    that every statement keeps to is kept by the whole run.  Two preorders are
    used: the audit log does not change, and nothing of another organization
    changes. *)

From S2P Require Import Prelude RustStr Domain Codec Store Handler.

(** ** Statements that keep to a preorder *)

Section moves.
Context (R : Database -> Database -> Prop) `{!PreOrder R}.

Definition moves_at {X} (db : Database) (op : DB X) : Prop := R db (op db).2.
Definition moves {X} (op : DB X) : Prop := forall db, moves_at db op.

Lemma moves_at_same {X} db (op : DB X) : (op db).2 = db -> moves_at db op.
Proof. unfold moves_at. by intros ->. Qed.
Lemma moves_at_ret {X} db (x : X) : moves_at db (db_ret x).
Proof. by apply moves_at_same. Qed.
Lemma moves_at_commit {X} db (x : X) : moves_at db (commit x).
Proof. by apply moves_at_same. Qed.
Lemma moves_at_rollback {X} db (x : X) : moves_at db (rollback x).
Proof. by apply moves_at_same. Qed.
Lemma moves_at_err {X} db e : moves_at db (db_err (A := X) e).
Proof. by apply moves_at_same. Qed.
Lemma moves_at_fetch_one {X} db (x : option X) : moves_at db (fetch_one x).
Proof. apply moves_at_same. by destruct x. Qed.
Lemma moves_at_gets {X} db (f : Database -> X) : moves_at db (db_gets f).
Proof. by apply moves_at_same. Qed.
Lemma moves_at_check db c e : moves_at db (db_check c e).
Proof. apply moves_at_same. unfold db_check. by destruct (c db). Qed.
Lemma moves_at_modify db f : R db (f db) -> moves_at db (db_modify f).
Proof. done. Qed.
Lemma moves_at_apply {X} db (f : Database -> X * Database) : R db (f db).2 -> moves_at db (db_apply f).
Proof. unfold moves_at, db_apply. by destruct (f db). Qed.
Lemma moves_at_transaction {X} db (body : DB (TxEnd X)) : moves_at db body -> moves_at db (transaction body).
Proof. unfold moves_at, transaction. by destruct (body db) as [[[a|a]|e] db']. Qed.
Lemma moves_at_bind {X Y} db (c : DB X) (k : X -> DB Y) :
  moves_at db c -> (forall x db', c db = (Ok x, db') -> R db db' -> moves_at db' (k x)) ->
  moves_at db (db_bind c k).
Proof.
  unfold moves_at, db_bind. destruct (c db) as [[x|e] db']; cbn; [|done]. intros H Hk.
  etrans; [exact H|by apply Hk].
Qed.
(** What a check or a read told the statements after it. *)
Lemma moves_at_check_then {Y} db c e (k : unit -> DB Y) :
  (c db = true -> moves_at db (k tt)) -> moves_at db (db_bind (db_check c e) k).
Proof.
  intros H. apply moves_at_bind; [apply moves_at_check|]. intros [] db' [Hc ->]%db_check_Ok _. by apply H.
Qed.
Lemma moves_at_gets_then {X Y} db (f : Database -> X) (k : X -> DB Y) :
  moves_at db (k (f db)) -> moves_at db (db_bind (db_gets f) k).
Proof. done. Qed.
Lemma moves_at_update_key {K V} `{Countable K} get (on : (gmap K V -> gmap K V) -> Database -> Database) k P f db :
  R db (on (fun _ => (update_row k P f (get db)).2) db) -> moves_at db (update_key get on k P f).
Proof. intros HR. unfold update_key. apply moves_at_apply. by destruct (update_row k P f (get db)). Qed.
Lemma moves_update_key {K V} `{Countable K} get (on : (gmap K V -> gmap K V) -> Database -> Database) k P f :
  (forall db, R db (on (fun _ => (update_row k P f (get db)).2) db)) -> moves (update_key get on k P f).
Proof. intros HR db. apply moves_at_update_key, HR. Qed.
Lemma moves_update_rows {K V} `{Countable K} get (on : (gmap K V -> gmap K V) -> Database -> Database) P f :
  (forall db, R db (on (update_where P f) db)) -> moves (update_rows get on P f).
Proof. intros HR db. apply moves_at_apply, HR. Qed.

Lemma each_moves_run {A} (p : Prog A) db : each_op (fun X op => moves op) p -> R db (run p db).2.
Proof.
  revert db. induction p as [a|X op k IH]; intros db; simpl; [done|]. intros [Hop Hk].
  specialize (Hop db). unfold moves_at in Hop. destruct (op db) as [r db']. etrans; [exact Hop|by apply IH].
Qed.
End moves.

(** Goes through the parts of a statement; what is left are its updates. *)
Ltac moves_step :=
  match goal with
  | |- PreOrder _ => typeclasses eauto
  | |- moves _ (update_key _ _ _ _ _) => apply moves_update_key
  | |- moves _ (update_rows _ _ _ _) => apply moves_update_rows
  | |- moves _ _ => let db := fresh "db" in intros db
  | |- moves_at _ _ (db_ret _) => apply moves_at_ret
  | |- moves_at _ _ (commit _) => apply moves_at_commit
  | |- moves_at _ _ (rollback _) => apply moves_at_rollback
  | |- moves_at _ _ (db_err _) => apply moves_at_err
  | |- moves_at _ _ (fetch_one _) => apply moves_at_fetch_one
  | |- moves_at _ _ (db_gets _) => apply moves_at_gets
  | |- moves_at _ _ (db_check _ _) => apply moves_at_check
  | |- moves_at _ _ (db_modify _) => apply moves_at_modify
  | |- moves_at _ _ (transaction _) => apply moves_at_transaction
  | |- moves_at _ _ (db_bind (db_check _ _) _) => apply moves_at_check_then
  | |- moves_at _ _ (db_bind (db_gets _) _) => apply moves_at_gets_then
  | |- moves_at _ _ (db_bind _ _) => apply moves_at_bind
  | |- moves_at _ ?db (update_key _ _ _ _ _) => refine (moves_update_key _ _ _ _ _ _ _ db)
  | |- moves_at _ ?db (update_rows _ _ _ _) => refine (moves_update_rows _ _ _ _ _ _ db)
  | |- moves_at _ _ (match ?x with _ => _ end) => destruct x eqn:?
  | |- forall _, _ => intro
  end.
Ltac moves_steps := repeat moves_step.

(** ** The audit log *)

Definition same_log (db db' : Database) : Prop := t_audit_events db' = t_audit_events db.
#[export] Instance same_log_preorder : PreOrder same_log.
Proof. split; [by intros db|]. intros d1 d2 d3 H1 H2. unfold same_log in *. congruence. Qed.
Ltac keeps_log := moves_steps; try reflexivity.

(** ** Other organizations *)

(** The rows that are not of organization [o] are the same in both tables. *)
Definition elsewhere {K V} `{Countable K} (org : V -> Uuid) (o : Uuid) (t t' : gmap K V) : Prop :=
  forall k v, org v <> o -> t !! k = Some v <-> t' !! k = Some v.
Section elsewhere.
Context {K V : Type} `{Countable K} (org : V -> Uuid) (o : Uuid).
#[export] Instance elsewhere_preorder : PreOrder (elsewhere (K := K) org o).
Proof.
  split; [done|]. intros t1 t2 t3 H1 H2 k v Hv. by rewrite (H1 k v Hv), (H2 k v Hv).
Qed.
Lemma elsewhere_insert (t : gmap K V) k v :
  org v = o -> (forall v', t !! k = Some v' -> org v' = o) -> elsewhere org o t (<[k := v]> t).
Proof.
  intros Hv Hk k' v' Hne. rewrite lookup_insert_Some. split.
  - intros Hl. right. split; [|done]. intros ->. by apply Hne, Hk.
  - by intros [[-> <-]|[_ Hl]].
Qed.
Lemma elsewhere_fresh (t : gmap K V) k v :
  org v = o -> absent t k = true -> elsewhere org o t (<[k := v]> t).
Proof.
  intros Hv Ha. apply elsewhere_insert; [done|]. unfold absent in Ha. apply bool_decide_eq_true in Ha.
  by rewrite Ha.
Qed.
Lemma elsewhere_update (t : gmap K V) P f :
  (forall v, P v = true -> org v = o) -> (forall v, org (f v) = org v) ->
  elsewhere org o t (update_where P f t).
Proof.
  intros HP Hf k v Hv. rewrite lookup_update_where_Some. split.
  - intros Hl. exists v. split; [done|]. destruct (P v) eqn:E; [|done]. by apply HP in E.
  - intros (v' & Hl & ->). destruct (P v') eqn:E; [|done]. apply HP in E. by rewrite Hf in Hv.
Qed.
Lemma elsewhere_update_row (t : gmap K V) k P f :
  (forall v, P v = true -> org v = o) -> (forall v, org (f v) = org v) ->
  elsewhere org o t (update_row k P f t).2.
Proof.
  intros HP Hf. unfold update_row. destruct (t !! k) as [v|] eqn:E; [|done].
  destruct (P v) eqn:EP; [|done]. apply elsewhere_insert; [rewrite Hf; by apply HP|].
  cbn. intros v' Hv'. assert (v' = v) as -> by congruence. by apply HP.
Qed.
Lemma elsewhere_delete (t : gmap K V) P :
  (forall v, P v = true -> org v = o) -> elsewhere org o t (delete_where P t).
Proof.
  intros HP k v Hv. rewrite lookup_delete_where. split; [|tauto]. intros Hl. split; [done|].
  destruct (P v) eqn:E; [|done]. by apply HP in E.
Qed.
End elsewhere.

Record stays_in (o : Uuid) (db db' : Database) : Prop := mk_stays_in {
  stays_organizations : t_organizations db' = t_organizations db;
  stays_users : elsewhere (fun u => user_organization_id (uwp_user u)) o (t_users db) (t_users db');
  stays_groups : elsewhere group_organization_id o (t_groups db) (t_groups db');
  stays_memberships : elsewhere membership_organization_id o (t_memberships db) (t_memberships db');
  stays_clients : elsewhere client_organization_id o (t_oidc_clients db) (t_oidc_clients db');
  stays_sessions : elsewhere (fun r => session_organization_id (row_session r)) o
                     (t_auth_sessions db) (t_auth_sessions db');
  stays_policies : elsewhere policy_organization_id o (t_consent_policy_templates db)
                     (t_consent_policy_templates db');
  stays_grants : elsewhere grant_organization_id o (t_consent_grants db) (t_consent_grants db');
  stays_consents : elsewhere consent_organization_id o (t_consent_authorizations db)
                     (t_consent_authorizations db');
  stays_codes : elsewhere code_organization_id o (t_authorization_codes db) (t_authorization_codes db');
  stays_access : elsewhere access_organization_id o (t_access_tokens db) (t_access_tokens db');
  stays_refresh : elsewhere refresh_organization_id o (t_refresh_tokens db) (t_refresh_tokens db');
  stays_account_tokens : elsewhere account_token_organization_id o (t_account_tokens db)
                           (t_account_tokens db');
  stays_outbox : elsewhere email_organization_id o (t_email_outbox db) (t_email_outbox db');
  stays_rate_limits : t_rate_limit_buckets db' = t_rate_limit_buckets db;
  stays_signing_keys : t_signing_keys db' = t_signing_keys db;
  stays_challenges : elsewhere challenge_organization_id o (t_webauthn_challenges db)
                       (t_webauthn_challenges db');
  stays_factors : elsewhere mfa_organization_id o (t_mfa_credentials db) (t_mfa_credentials db');
  stays_events : elsewhere audit_organization_id o (t_audit_events db) (t_audit_events db');
}.
#[export] Instance stays_in_preorder o : PreOrder (stays_in o).
Proof.
  split; [by intros db; split|]. intros d1 d2 d3 H1 H2. destruct H1, H2.
  split; (etrans; [eassumption|done]) || congruence.
Qed.
(** The change of one table. *)
Ltac stays_table := split; try reflexivity.
