(* ===== verification/StatementFrames.v ===== *)
(** * What each statement leaves alone

    The frame lemmas of [Frames] for the statements of the directory, the
    clients, the consents and the sessions: none of them touches the audit
    log, each stays in the organization it is given. *)

From S2P Require Import Prelude RustStr Domain Authn Oidc Http Codec Store.
From S2P Require Import OAuthStore ClientStore SessionStore Directory Lifecycle AccountStore AuditStore.
From S2P Require Import ConsentStore OutboxStore Handler Frames.

Create HintDb frames.

(** ** Other organizations *)

(** Rows of [memberships] are under their key and reference [groups] by group
    and organization. *)
Definition members_wf (db : Database) : Prop :=
  forall k m, t_memberships db !! k = Some m ->
    membership_key m = k /\ fk_group db k.2 (membership_organization_id m) = true.
Definition confined (o : Uuid) (db db' : Database) : Prop :=
  members_wf db -> members_wf db' /\ stays_in o db db'.

(** Identifiers that were compared. *)
Ltac eqb_subst := repeat match goal with H : (_ =? _)%N = true |- _ => apply N.eqb_eq in H end; subst.

(** ** The audit log *)

(** The statements of the pages do not touch the log. *)
Lemma log_account_link t m : moves same_log (insert_account_token_and_email_outbox_message t m).
Proof. unfold insert_account_token_and_email_outbox_message, insert_account_token_record,
  insert_email_outbox_message. keeps_log. Qed.
Lemma log_create_user u h : moves same_log (create_user u h).
Proof. unfold create_user. keeps_log. Qed.
Lemma log_find_user o e : moves same_log (find_user_by_email o e).
Proof. unfold find_user_by_email. keeps_log. Qed.
Lemma log_get_user o u : moves same_log (get_user_with_password o u).
Proof. unfold get_user_with_password. keeps_log. Qed.
Lemma log_update_user_status o u s slug at_ : moves same_log (update_user_status o u s slug at_).
Proof. unfold update_user_status, locked_user_for_update, get_user_with_password,
  deactivation_would_remove_last_owner, protected_owner_group_id_for_update, user_is_group_owner,
  active_group_owner_count_excluding_user_in_transaction, update_returning,
  revoke_user_runtime_credentials. keeps_log. Qed.
Lemma log_revoke_session o u s at_ : moves same_log (revoke_user_browser_session o u s at_).
Proof. unfold revoke_user_browser_session, get_auth_session. keeps_log. Qed.
Lemma log_create_group g : moves same_log (create_group g).
Proof. unfold create_group. keeps_log. Qed.
Lemma log_write_membership m : moves same_log (write_membership m).
Proof. intros db. unfold moves_at, write_membership.
  destruct (t_memberships db !! membership_key m); [done|]. change (moves_at same_log db (create_membership m)).
  unfold create_membership. keeps_log. Qed.
Lemma log_upsert_membership m slug : moves same_log (upsert_group_membership m slug).
Proof. unfold upsert_group_membership, locked_group_in_transaction, get_group, user_exists_in_transaction,
  locked_membership_role_in_transaction, would_remove_last_active_owner_in_transaction,
  active_group_owner_count_excluding_user_in_transaction. keeps_log. apply log_write_membership. Qed.
Lemma log_delete_membership o g u slug : moves same_log (delete_group_membership o g u slug).
Proof. unfold delete_group_membership, locked_group_in_transaction, get_group,
  locked_membership_role_in_transaction, would_remove_last_active_owner_in_transaction,
  active_group_owner_count_excluding_user_in_transaction. keeps_log. Qed.
Lemma log_get_membership o g u : moves same_log (get_group_membership o g u).
Proof. unfold get_group_membership. keeps_log. Qed.
Lemma log_create_client c : moves same_log (create_oidc_client c).
Proof. unfold create_oidc_client. keeps_log. Qed.
Lemma log_client_credentials o c at_ :
  moves same_log (invalidate_pending_authorization_codes o c at_) /\ moves same_log (revoke_active_tokens o c at_).
Proof. unfold invalidate_pending_authorization_codes, revoke_active_tokens. split; keeps_log. Qed.
Lemma log_update_client o c u at_ : moves same_log (update_oidc_client_details o c u at_).
Proof. unfold update_oidc_client_details, get_oidc_client_in_organization,
  invalidate_pending_authorization_codes, revoke_active_tokens. keeps_log. Qed.
Lemma log_update_client_status o c s at_ : moves same_log (update_oidc_client_status o c s at_).
Proof. unfold update_oidc_client_status, get_oidc_client_in_organization, revoke_client_runtime_credentials,
  invalidate_pending_authorization_codes, revoke_active_tokens. keeps_log. Qed.
Lemma log_rotate_secret o c h : moves same_log (rotate_oidc_client_secret o c h).
Proof. unfold rotate_oidc_client_secret. keeps_log. Qed.
Lemma log_get_client o c : moves same_log (get_oidc_client_in_organization o c).
Proof. unfold get_oidc_client_in_organization. keeps_log. Qed.
Lemma log_create_policy t : moves same_log (create_consent_policy_template t).
Proof. unfold create_consent_policy_template. keeps_log. Qed.
Lemma log_get_policy o t : moves same_log (get_consent_policy_template o t).
Proof. unfold get_consent_policy_template. keeps_log. Qed.
Lemma log_revoke_consent o c id at_ : moves same_log (revoke_user_client_consent_and_tokens o c id at_).
Proof. unfold revoke_user_client_consent_and_tokens, revoke_consent_grant_and_tokens. keeps_log. Qed.
#[export] Hint Resolve log_account_link log_create_user log_find_user log_get_user log_update_user_status
  log_revoke_session log_create_group log_upsert_membership log_delete_membership log_get_membership
  log_create_client log_update_client log_update_client_status log_rotate_secret log_get_client
  log_create_policy log_get_policy log_revoke_consent : frames.


(** ** Other organizations: the statements *)

#[export] Instance confined_preorder o : PreOrder (confined o).
Proof.
  split.
  - intros db Hwf. by split.
  - intros d1 d2 d3 H1 H2 Hwf. destruct (H1 Hwf) as [Hwf2 H12]. destruct (H2 Hwf2) as [Hwf3 H23].
    split; [done|]. by etrans.
Qed.

Create HintDb owner.
#[export] Hint Unfold session_of_user access_of_user refresh_of_user user_in group_in in_organization
  client_code_pending client_access_live client_refresh_live grant_live_of user_code_pending
  user_access_live user_refresh_live account_token_of_user : owner.
Ltac owned :=
  intros; autounfold with owner in *;
  repeat match goal with H : _ && _ = true |- _ => apply andb_true_iff in H as [H ?] end;
  by apply N.eqb_eq.
(** An update of a table without memberships. *)
Ltac confine_table :=
  intros ?; split; [assumption|stays_table];
  first [ apply elsewhere_fresh; [first [reflexivity|assumption]|bool_prop; assumption]
        | apply elsewhere_update; [owned|reflexivity]
        | apply elsewhere_update_row; [owned|reflexivity] ].
Ltac confine := moves_steps; try match goal with |- confined _ _ _ => confine_table end.

Lemma confined_account_link t m :
  account_token_organization_id t = email_organization_id m ->
  moves (confined (email_organization_id m)) (insert_account_token_and_email_outbox_message t m).
Proof. intros Ho. unfold insert_account_token_and_email_outbox_message, insert_account_token_record,
  insert_email_outbox_message, account_token_unique. confine. Qed.
Lemma confined_create_user u h : moves (confined (user_organization_id u)) (create_user u h).
Proof. unfold create_user, user_unique. confine. Qed.
Lemma confined_update_user_status o u s slug at_ : moves (confined o) (update_user_status o u s slug at_).
Proof. unfold update_user_status, locked_user_for_update,
  deactivation_would_remove_last_owner, protected_owner_group_id_for_update, user_is_group_owner,
  active_group_owner_count_excluding_user_in_transaction, update_returning,
  revoke_user_runtime_credentials, get_user_with_password. confine. Qed.
Lemma confined_revoke_session o u s at_ : moves (confined o) (revoke_user_browser_session o u s at_).
Proof. unfold revoke_user_browser_session, get_auth_session. confine. Qed.
Lemma confined_create_client c : moves (confined (client_organization_id c)) (create_oidc_client c).
Proof. unfold create_oidc_client. confine. Qed.
Lemma confined_update_client o c u at_ : moves (confined o) (update_oidc_client_details o c u at_).
Proof. unfold update_oidc_client_details, get_oidc_client_in_organization,
  invalidate_pending_authorization_codes, revoke_active_tokens. confine. Qed.
Lemma confined_update_client_status o c s at_ : moves (confined o) (update_oidc_client_status o c s at_).
Proof. unfold update_oidc_client_status, get_oidc_client_in_organization, revoke_client_runtime_credentials,
  invalidate_pending_authorization_codes, revoke_active_tokens. confine. Qed.
Lemma confined_rotate_secret o c h : moves (confined o) (rotate_oidc_client_secret o c h).
Proof. unfold rotate_oidc_client_secret. confine. Qed.
Lemma confined_create_policy t : moves (confined (policy_organization_id t)) (create_consent_policy_template t).
Proof. unfold create_consent_policy_template. confine. Qed.
Lemma confined_revoke_consent o c id at_ : moves (confined o) (revoke_user_client_consent_and_tokens o c id at_).
Proof. unfold revoke_user_client_consent_and_tokens, revoke_consent_grant_and_tokens. confine. Qed.
Lemma confined_insert_event e : moves (confined (audit_organization_id e)) (insert_audit_event e).
Proof. unfold insert_audit_event. confine. Qed.

(** *** Groups and memberships *)

Lemma confined_create_group g : moves (confined (group_organization_id g)) (create_group g).
Proof. unfold create_group, group_unique. moves_steps. intros Hwf. split.
  - intros k m Hk. destruct (Hwf k m Hk) as [Hkey Hg]. split; [done|]. unfold fk_group in *. cbn.
    destruct (decide (k.2 = group_id g)) as [E|Hne]; [|by rewrite lookup_insert_ne].
    unfold absent in *. bool_prop. rewrite E in Hg.
    match goal with H : t_groups db !! _ = None |- _ => by rewrite H in Hg end.
  - stays_table. apply elsewhere_fresh; [reflexivity|]. bool_prop. assumption.
Qed.
Lemma confined_create_membership m : moves (confined (membership_organization_id m)) (create_membership m).
Proof. unfold create_membership. moves_steps. intros Hwf. split.
  - intros k m'. cbn. intros [[<- <-]|[_ Hk]]%lookup_insert_Some; [|by apply Hwf].
    split; [done|]. unfold membership_fk in *. bool_prop. assumption.
  - stays_table. by apply elsewhere_fresh.
Qed.
Lemma confined_write_membership m db :
  fk_group db (membership_group_id m) (membership_organization_id m) = true ->
  moves_at (confined (membership_organization_id m)) db (write_membership m).
Proof.
  intros Hg. unfold moves_at, write_membership.
  destruct (t_memberships db !! membership_key m) as [existing|] eqn:E; [|apply confined_create_membership].
  intros Hwf. assert (Ho : membership_organization_id existing = membership_organization_id m).
  { destruct (Hwf _ _ E) as [_ Hfk]. unfold fk_group, membership_key in *. cbn in Hfk.
    destruct (t_groups db !! membership_group_id m); [|done]. apply N.eqb_eq in Hg, Hfk. congruence. }
  split.
  - intros k m'. cbn. intros [[<- <-]|[_ Hk]]%lookup_insert_Some; [|by apply Hwf].
    split; [by apply (Hwf _ _ E)|]. cbn. rewrite Ho. exact Hg.
  - stays_table. apply elsewhere_insert; [done|]. intros m'. rewrite E. by intros [= <-].
Qed.
Lemma confined_upsert_membership m slug :
  moves (confined (membership_organization_id m)) (upsert_group_membership m slug).
Proof. unfold upsert_group_membership, locked_group_in_transaction, get_group, user_exists_in_transaction,
  locked_membership_role_in_transaction, would_remove_last_active_owner_in_transaction,
  active_group_owner_count_excluding_user_in_transaction. moves_steps.
  match goal with H : (if ?c then _ else _) ?d = (Ok _, ?d1) |- _ =>
    assert (d1 = d) as -> by (destruct c; unfold db_ret, db_bind, db_gets in H; congruence) end.
  apply confined_write_membership. unfold fk_group, group_in in *. by repeat case_match.
Qed.
Lemma confined_delete_membership o g u slug : moves (confined o) (delete_group_membership o g u slug).
Proof. unfold delete_group_membership, locked_group_in_transaction, get_group,
  locked_membership_role_in_transaction, would_remove_last_active_owner_in_transaction,
  active_group_owner_count_excluding_user_in_transaction. moves_steps. intros Hwf. split.
  - intros k v. cbn. intros [Hk _]%lookup_delete_where. by apply Hwf.
  - stays_table. apply elsewhere_delete. owned.
Qed.
#[export] Hint Resolve confined_update_user_status confined_revoke_session confined_update_client
  confined_update_client_status confined_rotate_secret confined_revoke_consent
  confined_delete_membership : frames.

Lemma confined_reads o {X} (op : DB X) : reads op -> moves (confined o) op.
Proof. intros Hr db. unfold moves_at. by rewrite Hr. Qed.
Lemma confined_gets o {X} (f : Database -> X) : moves (confined o) (db_gets f).
Proof. by apply confined_reads. Qed.
#[export] Hint Resolve confined_gets : frames.

(** ** Provisioning *)

Lemma log_find_external o e : moves same_log (find_user_by_scim_external_id o e).
Proof. unfold find_user_by_scim_external_id. keeps_log. Qed.
Lemma log_update_user_from_scim i : moves same_log (update_user_from_scim i).
Proof. unfold update_user_from_scim, locked_user_for_update, get_user_with_password, user_email_is_taken,
  user_scim_external_id_is_taken, deactivation_would_remove_last_owner,
  protected_owner_group_id_for_update, user_is_group_owner,
  active_group_owner_count_excluding_user_in_transaction, update_returning,
  revoke_user_runtime_credentials. keeps_log. Qed.
Lemma log_write_members o g ids at_ : moves same_log (write_members o g ids at_).
Proof. induction ids as [|id ids IH]; cbn [write_members]; keeps_log; [apply log_write_membership|apply IH]. Qed.
Lemma log_create_scim_group g ids : moves same_log (create_scim_group g ids).
Proof. unfold create_scim_group, group_slug_exists_in_transaction, get_group_by_slug,
  optional_external_id_exists, group_external_id_exists_in_transaction, all_users_exist_in_transaction,
  insert_scim_group_member_ids_in_transaction. keeps_log; [apply log_create_group|apply log_write_members].
Qed.
Lemma log_replace_scim_group i : moves same_log (replace_scim_group i).
Proof. unfold replace_scim_group, locked_group_in_transaction, get_group, optional_external_id_exists,
  group_external_id_exists_in_transaction, all_users_exist_in_transaction,
  insert_scim_group_member_ids_in_transaction. keeps_log. apply log_write_members. Qed.
Lemma log_delete_scim_group o g slug : moves same_log (delete_scim_group o g slug).
Proof. unfold delete_scim_group, locked_group_in_transaction, get_group. keeps_log. Qed.
Lemma log_get_group o g : moves same_log (get_group o g).
Proof. unfold get_group. keeps_log. Qed.
Lemma log_list_members o l : moves same_log (list_scim_group_members_for_groups o l).
Proof. unfold list_scim_group_members_for_groups. keeps_log. Qed.
#[export] Hint Resolve log_find_external log_update_user_from_scim log_create_scim_group
  log_replace_scim_group log_delete_scim_group log_get_group log_list_members : frames.

Lemma confined_update_user_from_scim i :
  moves (confined (scim_user_organization_id i)) (update_user_from_scim i).
Proof. unfold update_user_from_scim, locked_user_for_update, get_user_with_password, user_email_is_taken,
  user_scim_external_id_is_taken, deactivation_would_remove_last_owner,
  protected_owner_group_id_for_update, user_is_group_owner,
  active_group_owner_count_excluding_user_in_transaction, update_returning,
  revoke_user_runtime_credentials. confine.
  unfold get_user_with_password. confine. Qed.

Lemma membership_keeps_groups m db : t_groups (write_membership m db).2 = t_groups db.
Proof.
  unfold write_membership. destruct (t_memberships db !! membership_key m); [done|].
  unfold create_membership, db_bind, db_check.
  destruct (absent _ _); [|done]. by destruct (membership_fk _ _).
Qed.
Lemma confined_write_members o g ids at_ db :
  fk_group db g o = true -> moves_at (confined o) db (write_members o g ids at_).
Proof.
  revert db. induction ids as [|id ids IH]; intros db Hg; cbn [write_members]; [apply moves_at_ret; tc_solve|].
  apply moves_at_bind; [tc_solve|apply (confined_write_membership (mk_Membership o id g _ at_) db Hg)|].
  intros u db' Hw _. apply IH. unfold fk_group.
  pose proof (membership_keeps_groups (mk_Membership o id g MembershipRole_Member at_) db) as Hgr.
  rewrite Hw in Hgr. cbn in Hgr. by rewrite Hgr.
Qed.
Lemma confined_insert_members o g ids at_ db :
  fk_group db g o = true ->
  moves_at (confined o) db (insert_scim_group_member_ids_in_transaction o g ids at_).
Proof.
  intros Hg. unfold insert_scim_group_member_ids_in_transaction.
  apply moves_at_check_then; [tc_solve|]. intros _. by apply confined_write_members.
Qed.
Lemma create_group_fk g db db' u :
  create_group g db = (Ok u, db') -> fk_group db' (group_id g) (group_organization_id g) = true.
Proof.
  unfold create_group. intros H. db_steps. unfold fk_group. cbn. rewrite lookup_insert_eq.
  by rewrite N.eqb_refl.
Qed.
Lemma confined_create_scim_group g ids :
  moves (confined (group_organization_id g)) (create_scim_group g ids).
Proof. unfold create_scim_group, group_slug_exists_in_transaction, get_group_by_slug,
  optional_external_id_exists, group_external_id_exists_in_transaction, all_users_exist_in_transaction.
  moves_steps; [apply confined_create_group|]. apply confined_insert_members. by eapply create_group_fk.
Qed.
Lemma confined_delete_scim_group o g slug : moves (confined o) (delete_scim_group o g slug).
Proof.
  unfold delete_scim_group, locked_group_in_transaction, get_group. moves_steps.
  unfold group_in in *. intros Hwf. split.
  - intros k m. cbn. intros [Hk Hkeep]%lookup_delete_where. destruct (Hwf k m Hk) as [Hkey Hg].
    split; [done|]. unfold fk_group in *. cbn. rewrite lookup_delete_ne; [done|]. intros E.
    rewrite <- Hkey in Hg, E. unfold membership_key in Hg, E. cbn in Hg, E. subst g.
    repeat case_match; simplify_eq. eqb_subst. by rewrite Hg, !N.eqb_refl in Hkeep.
  - stays_table.
    + intros k v Hv. cbn. destruct (decide (k = g)) as [->|Hne]; [|by rewrite lookup_delete_ne].
      rewrite lookup_delete_eq. split; [|done]. intros Hl. repeat case_match; simplify_eq.
      by eqb_subst.
    + apply elsewhere_delete. owned.
Qed.
Lemma replace_group_fk db o g i k :
  (fk_group (on_groups (fun _ => (update_row g (group_in o) (group_set_scim (replace_display_name i)
     (replace_scim_external_id i)) (t_groups db)).2) db) k.1 k.2 = fk_group db k.1 k.2).
Proof.
  unfold fk_group, update_row. cbn. destruct (t_groups db !! g) as [v|] eqn:E; [|done].
  destruct (group_in o v); [|done]. cbn. destruct (decide (k.1 = g)) as [->|Hne].
  - by rewrite lookup_insert_eq, E.
  - by rewrite lookup_insert_ne.
Qed.
Lemma confined_replace_scim_group i : moves (confined (replace_organization_id i)) (replace_scim_group i).
Proof.
  unfold replace_scim_group, locked_group_in_transaction, get_group, optional_external_id_exists,
    group_external_id_exists_in_transaction, all_users_exist_in_transaction. moves_steps.
  - intros Hwf. split.
    + intros k m Hk. destruct (Hwf k m Hk) as [Hkey Hg]. split; [done|].
      by rewrite (replace_group_fk _ _ _ _ (k.2, membership_organization_id m)).
    + stays_table. apply elsewhere_update_row; [owned|reflexivity].
  - intros Hwf. split.
    + intros k m. cbn. intros [Hk _]%lookup_delete_where. by apply Hwf.
    + stays_table. apply elsewhere_delete. owned.
  - apply confined_insert_members.
    match goal with H : db_modify _ _ = _ |- _ => injection H as _ <- end.
    match goal with H : fetch_one ?row _ = _ |- _ =>
      destruct row as [v|] eqn:E in H; [injection H as _ <-|discriminate H] end.
    unfold fk_group, group_in in *. cbn. by repeat case_match.
Qed.
Lemma confined_get_group o o' g : moves (confined o) (get_group o' g).
Proof. apply confined_gets. Qed.
Lemma confined_list_members o o' l : moves (confined o) (list_scim_group_members_for_groups o' l).
Proof. apply confined_reads. intros db. by destruct l. Qed.
#[export] Hint Resolve confined_get_group confined_list_members : frames.
