(* ===== verification/AdminRoutes.v ===== *)
(** * The administration of users and groups

    [apps/api/src/http]'s admin_users, admin_groups and admin_audit: the
    listings, the creation and status of users, the links an administrator
    sends, other users' browser sessions, groups and memberships. *)

From S2P Require Import Prelude RustStr Domain Authn Oidc Http Codec Store.
From S2P Require Import SessionStore Directory Lifecycle AuditStore.
From S2P Require Import Handler KeyStore OAuthPolicy RequestContext BrowserSession Mfa Login.
From S2P Require Import AccountRoutes Listing.

(** What a page draws: the clocks of the session check, of the freshness check
    and of the change, random values and identifiers. *)
Record AdminEnv := mk_AdminEnv {
  admin_session_now : OffsetDateTime;
  admin_recent_now : OffsetDateTime;
  admin_now : OffsetDateTime;
  admin_new_id : Uuid;
  admin_secret_id : Uuid;
  admin_secret : string;
  admin_salt : string;
  admin_event_id : Uuid;
  admin_event_now : OffsetDateTime;
  admin_link : AccountEnv;
}.
Definition SESSION_LIST_LIMIT : nat := 100.
Definition ADMIN_GROUP_MEMBERSHIP_LIST_MAX_LIMIT : Z := 500.
Definition ADMIN_AUDIT_EXPORT_DEFAULT_LIMIT : Z := 1000.
Definition not_found (message : string) : ApiError := api_status 404 message.
Definition conflict (message : string) : ApiError := api_status 409 message.

(** ** Browser sessions as the pages show them *)

(* apps/api/src/http/browser_sessions.rs:12-23 BrowserSessionResponse *)
Record BrowserSessionResponse := mk_BrowserSessionResponse {
  shown_id : Uuid;
  shown_current : bool;
  shown_acr : string;
  shown_amr : list string;
  shown_created_at : OffsetDateTime;
  shown_expires_at : OffsetDateTime;
  shown_created_ip_address : option string;
  shown_created_user_agent : option string;
}.
(* apps/api/src/http/browser_sessions.rs:26-37 BrowserSessionResponse::from_summary *)
Definition browser_session_from_summary (row : SessionRow) (current_session_id : Uuid)
    : BrowserSessionResponse :=
  let session := row_session row in
  mk_BrowserSessionResponse (session_id session) (N.eqb (session_id session) current_session_id)
    (session_acr session) (session_amr session) (session_created_at session)
    (session_expires_at session) (row_created_ip_address row) (row_created_user_agent row).

Section pages.
Context {CC : CryptoCrates} {TC : TokenCrates} {AG : AesGcm} {HC : HttpCrates} {UU : UuidCrate}.
Context {TF : TimeFormat} {AH : Argon2Hash} {BD : Base64Decode} {TN : TimeNanos} {RP : Rfc3339Parse}.

(* apps/api/src/http/request_context/audit.rs:7-11 audit_request_context *)
Definition headers_audit_context (headers : HeaderMap) : option string * option string :=
  audit_request_context_for_identity without_peer headers.

Definition admin_audit (env : AdminEnv) (event : AuditEventBuilder) : Handler unit :=
  query (insert_audit_event (audit_build (admin_event_id env) (admin_event_now env) event)).
(** The first two checks of a page that changes something. *)
Definition admin_change {A} (state : AppState) (env : AdminEnv) (headers : HeaderMap)
    (k : AuthSession -> Handler A) : Handler A :=
  do! actor := require_recent_admin_session state (admin_session_now env) (admin_recent_now env) headers in
  do! _ := lift (require_csrf headers) in
  k actor.
Definition user_in_organization (state : AppState) (user_id : Uuid) : Handler UserWithPassword :=
  do! user := query (get_user_with_password (state_organization_id state) user_id) in
  some_or user (not_found "user not found").

(** ** Users *)

(* apps/api/src/http/admin_users/core.rs:26-49 list_users *)
Definition list_users_route (like : string -> string -> bool) (state : AppState) (env : AdminEnv)
    (headers : HeaderMap) (raw_query : option string) : Handler (ListPage User) :=
  do! _ := require_admin_session state (admin_session_now env) headers in
  do! parsed := lift (admin_user_list_query raw_query ADMIN_LIST_DEFAULT_LIMIT ADMIN_LIST_MAX_LIMIT) in
  let page := user_query_page parsed in
  do! users := query (list_users_page_filtered like (state_organization_id state)
                       (user_query_filter parsed) (list_cursor page) (Z.to_nat (fetch_limit page))) in
  succeed (list_page users (list_limit page)
             (fun user => mk_ListCursor (user_created_at user) (user_id user))).

(* apps/api/src/http/admin_users/core.rs:136-140 CreateUserRequest *)
Record CreateUserRequest := mk_CreateUserRequest {
  create_email : string;
  create_display_name : string;
  create_password : option string;
}.
(* apps/api/src/http/admin_users/core.rs:51-84 create_user *)
Definition create_user_route (state : AppState) (env : AdminEnv) (headers : HeaderMap)
    (payload : CreateUserRequest) : Handler User :=
  admin_change state env headers (fun actor =>
  do! user := lift (map_err api_domain_error
    (User_new (admin_new_id env) (admin_now env) (state_organization_id state) (create_email payload)
       (create_display_name payload))) in
  do! password_hash :=
    match create_password payload with
    | Some password =>
        if is_empty password then succeed None
        else
          do! password := lift (valid_new_password password) in
          do! hash := lift (map_err (fun _ => api_authn_error) (hash_password (admin_salt env) password)) in
          succeed (Some hash)
    | None => succeed None
    end in
  do! _ := query (create_user user password_hash) in
  do! _ := admin_audit env (audit_user (state_organization_id state) (session_user_id actor)
             "admin.user_created" (uuid_to_string (user_id user))) in
  succeed user).

(* apps/api/src/http/admin_users/core.rs:86-133 update_user_status *)
Definition update_user_status_route (state : AppState) (env : AdminEnv) (headers : HeaderMap)
    (user_id_ : Uuid) (status : UserStatus) : Handler User :=
  admin_change state env headers (fun actor =>
  do! outcome := query (update_user_status (state_organization_id state) user_id_ status
                          ADMINISTRATORS_GROUP_SLUG (admin_now env)) in
  do! user := match outcome with
              | UserStatusApplied user => succeed user
              | UserStatusNotFound => fail (not_found "user not found")
              | UserStatusWouldDeactivateLastOwner =>
                  fail (conflict "administrators group must keep at least one active owner")
              end in
  do! _ := admin_audit env
    (audit_with_metadata (Object [("status", String_ (to_str (user_status user)))])
       (audit_user (state_organization_id state) (session_user_id actor) "admin.user_status_updated"
          (uuid_to_string (user_id user)))) in
  succeed user).

(** *** Links *)

Definition admin_initiator (actor : AuthSession) : Value :=
  Object [("created_by_user_id", String_ (uuid_to_string (session_user_id actor)));
          ("initiator", String_ "admin")].
Definition admin_link_audit (state : AppState) (env : AdminEnv) (headers : HeaderMap)
    (actor : AuthSession) (action : string) (user : User) : Handler unit :=
  let '(ip_address, user_agent) := headers_audit_context headers in
  admin_audit env
    (audit_with_metadata (email_metadata_of (user_email user))
       (audit_request_context ip_address user_agent
          (audit_user (state_organization_id state) (session_user_id actor) action
             (uuid_to_string (user_id user))))).
(** [None] is the reply [already_verified]. *)
(* apps/api/src/http/admin_users/lifecycle_emails.rs:22-84 request_admin_user_email_verification *)
Definition request_admin_user_email_verification (state : AppState) (env : AdminEnv)
    (headers : HeaderMap) (user_id_ : Uuid) : Handler (option QueuedDelivery) :=
  admin_change state env headers (fun actor =>
  do! found := user_in_organization state user_id_ in
  let user := uwp_user found in
  if user_email_verified user then succeed None
  else
  do! _ := reject_if (negb (bool_decide (user_status user = UserStatus_Active)))
             (conflict "user must be active") in
  do! delivery := queue_account_lifecycle_email state (admin_link env)
    (mk_AccountLifecycleEmail EmailVerification (Some (user_id user)) (user_email user)
       (Some (session_user_id actor)) (duration_hours 24) "email_verification"
       "Verify your Cairn Identity email" "/verify-email"
       "Verify this email address for Cairn Identity." (admin_initiator actor)) in
  do! _ := admin_link_audit state env headers actor "admin.email_verification_requested" user in
  succeed (Some delivery)).
(* apps/api/src/http/admin_users/lifecycle_emails.rs:86-150 request_admin_user_password_recovery *)
Definition request_admin_user_password_recovery (state : AppState) (env : AdminEnv)
    (headers : HeaderMap) (user_id_ : Uuid) : Handler QueuedDelivery :=
  admin_change state env headers (fun actor =>
  do! found := user_in_organization state user_id_ in
  let user := uwp_user found in
  do! _ := reject_if (negb (bool_decide (user_status user = UserStatus_Active)))
             (conflict "user must be active") in
  do! _ := reject_if (is_none (uwp_password_hash found))
             (conflict "user does not have password credentials") in
  do! delivery := queue_account_lifecycle_email state (admin_link env)
    (mk_AccountLifecycleEmail PasswordRecovery (Some (user_id user)) (user_email user)
       (Some (session_user_id actor)) (duration_hours 1) "password_recovery"
       "Reset your Cairn Identity password" "/reset-password" "Reset your Cairn Identity password."
       (admin_initiator actor)) in
  do! _ := admin_link_audit state env headers actor "admin.password_recovery_requested" user in
  succeed delivery).

(** *** What a user did, and where *)

Definition cursor_of_event (event : AuditEvent) : ListCursor :=
  mk_ListCursor (audit_created_at event) (audit_id event).
(* apps/api/src/http/admin_users/security_events.rs:17-47 list_admin_user_security_events *)
Definition list_admin_user_security_events (state : AppState) (env : AdminEnv) (headers : HeaderMap)
    (user_id_ : Uuid) (raw_query : option string) : Handler (ListPage AuditEvent) :=
  do! _ := require_admin_session state (admin_session_now env) headers in
  do! _ := user_in_organization state user_id_ in
  do! page := lift (admin_list_query raw_query ADMIN_LIST_DEFAULT_LIMIT ADMIN_LIST_MAX_LIMIT) in
  do! events := query (list_user_security_events_page uuid_to_string (state_organization_id state)
                         user_id_ (list_cursor page) (Z.to_nat (fetch_limit page))) in
  succeed (list_page events (list_limit page) cursor_of_event).

(* apps/api/src/http/admin_users/sessions.rs:22-48 list_admin_user_browser_sessions *)
Definition list_admin_user_browser_sessions (state : AppState) (env : AdminEnv) (headers : HeaderMap)
    (user_id_ : Uuid) : Handler (list BrowserSessionResponse) :=
  do! actor := require_admin_session state (admin_session_now env) headers in
  do! _ := user_in_organization state user_id_ in
  do! sessions := query (list_active_browser_sessions_for_user (state_organization_id state) user_id_
                           (admin_now env) SESSION_LIST_LIMIT) in
  succeed ((fun row => browser_session_from_summary row (session_id actor)) <$> sessions).

Definition session_amr_json (session : AuthSession) : Value := Array (String_ <$> session_amr session).
(* apps/api/src/http/admin_users/sessions.rs:50-110 revoke_admin_user_browser_session *)
Definition revoke_admin_user_browser_session (state : AppState) (env : AdminEnv) (headers : HeaderMap)
    (user_id_ session_id_ : Uuid) : Handler Uuid :=
  admin_change state env headers (fun actor =>
  do! _ := user_in_organization state user_id_ in
  do! _ := reject_if (N.eqb session_id_ (session_id actor))
             (api_bad_request "use logout to revoke current session") in
  do! revoked := query (revoke_user_browser_session (state_organization_id state) user_id_ session_id_
                          (admin_now env)) in
  do! revoked := some_or revoked (not_found "browser session not found") in
  let '(ip_address, user_agent) := headers_audit_context headers in
  do! _ := admin_audit env
    (audit_with_metadata
      (Object [("subject_user_id", String_ (uuid_to_string user_id_));
               ("admin_session_id", String_ (uuid_to_string (session_id actor)));
               ("revoked_session_acr", String_ (session_acr revoked));
               ("revoked_session_amr", session_amr_json revoked)])
      (audit_request_context ip_address user_agent
        (audit_user (state_organization_id state) (session_user_id actor) "admin.user_session_revoked"
           (uuid_to_string (session_id revoked))))) in
  succeed (session_id revoked)).

(** ** Groups *)

(* apps/api/src/http/admin_groups/groups.rs:22-40 list_groups *)
Definition list_groups_route (state : AppState) (env : AdminEnv) (headers : HeaderMap)
    (raw_query : option string) : Handler (ListPage Group) :=
  do! _ := require_admin_session state (admin_session_now env) headers in
  do! page := lift (admin_list_query raw_query ADMIN_LIST_DEFAULT_LIMIT ADMIN_LIST_MAX_LIMIT) in
  do! groups := query (list_groups_page (state_organization_id state) (list_cursor page)
                         (Z.to_nat (fetch_limit page))) in
  succeed (list_page groups (list_limit page)
             (fun group => mk_ListCursor (group_created_at group) (group_id group))).
(* apps/api/src/http/admin_groups/groups.rs:42-72 create_group *)
Definition create_group_route (state : AppState) (env : AdminEnv) (headers : HeaderMap)
    (slug display_name : string) : Handler Group :=
  admin_change state env headers (fun actor =>
  do! slug := lift (map_err api_domain_error (checked_string "slug" slug 80)) in
  do! display_name := lift (map_err api_domain_error (checked_string "display_name" display_name 160)) in
  let group := mk_Group (admin_new_id env) (state_organization_id state) slug None display_name
                 (admin_now env) in
  do! _ := query (create_group group) in
  do! _ := admin_audit env (audit_user (state_organization_id state) (session_user_id actor)
             "admin.group_created" (uuid_to_string (group_id group))) in
  succeed group).

(* apps/api/src/http/admin_groups/memberships.rs:26-51 list_group_memberships *)
Definition list_group_memberships_route (state : AppState) (env : AdminEnv) (headers : HeaderMap)
    (group_id_ : Uuid) (raw_query : option string) : Handler (ListPage Membership) :=
  do! _ := require_admin_session state (admin_session_now env) headers in
  do! page := lift (admin_list_query raw_query ADMIN_GROUP_MEMBERSHIP_LIST_MAX_LIMIT
                      ADMIN_GROUP_MEMBERSHIP_LIST_MAX_LIMIT) in
  do! _ := require_group_in_organization state group_id_ in
  do! memberships := query (list_group_memberships_page (state_organization_id state) group_id_
                              (list_cursor page) (Z.to_nat (fetch_limit page))) in
  succeed (list_page memberships (list_limit page)
             (fun m => mk_ListCursor (membership_created_at m) (membership_user_id m))).

(* apps/api/src/http/admin_groups/errors.rs:6-20 group_membership_mutation_error *)
Definition group_membership_mutation_error (outcome : MembershipMutationOutcome) : option ApiError :=
  match outcome with
  | MembershipApplied => None
  | MembershipNotFound => Some (not_found "group or user not found")
  | WouldRemoveLastOwner => Some (conflict "administrators group must keep at least one owner")
  end.
(* apps/api/src/http/admin_groups/errors.rs:22-36 group_membership_deletion_error *)
Definition group_membership_deletion_error (outcome : MembershipMutationOutcome) : option ApiError :=
  match outcome with
  | MembershipApplied => None
  | MembershipNotFound => Some (not_found "membership not found")
  | WouldRemoveLastOwner => Some (conflict "administrators group must keep at least one owner")
  end.
(** [if let Some(error) = .. { return Err(error) }] *)
Definition reject_with (error : option ApiError) : Handler unit :=
  match error with Some e => fail e | None => succeed tt end.
(* apps/api/src/http/admin_groups/memberships.rs:53-97 upsert_group_membership *)
Definition upsert_group_membership_route (state : AppState) (env : AdminEnv) (headers : HeaderMap)
    (group_id_ user_id_ : Uuid) (role : MembershipRole) : Handler Membership :=
  admin_change state env headers (fun actor =>
  let membership := mk_Membership (state_organization_id state) user_id_ group_id_ role (admin_now env) in
  do! outcome := query (upsert_group_membership membership ADMINISTRATORS_GROUP_SLUG) in
  do! _ := reject_with (group_membership_mutation_error outcome) in
  do! stored := query (get_group_membership (state_organization_id state) group_id_ user_id_) in
  do! stored := some_or stored (api_status 500 "membership missing") in
  do! _ := admin_audit env
    (audit_with_metadata (Object [("user_id", String_ (uuid_to_string user_id_));
                                  ("role", String_ (to_str (membership_role stored)))])
       (audit_user (state_organization_id state) (session_user_id actor)
          "admin.group_membership_upserted" (uuid_to_string group_id_))) in
  succeed stored).
(* apps/api/src/http/admin_groups/memberships.rs:99-135 delete_group_membership *)
Definition delete_group_membership_route (state : AppState) (env : AdminEnv) (headers : HeaderMap)
    (group_id_ user_id_ : Uuid) : Handler unit :=
  admin_change state env headers (fun actor =>
  do! outcome := query (delete_group_membership (state_organization_id state) group_id_ user_id_
                          ADMINISTRATORS_GROUP_SLUG) in
  do! _ := reject_with (group_membership_deletion_error outcome) in
  admin_audit env
    (audit_with_metadata (Object [("user_id", String_ (uuid_to_string user_id_))])
       (audit_user (state_organization_id state) (session_user_id actor)
          "admin.group_membership_deleted" (uuid_to_string group_id_)))).

(** ** The audit log *)

(** [serde_json::to_string] of an event and [HeaderValue::from_str]. *)
Variables (event_json : AuditEvent -> option string) (header_value : string -> option string).

(* apps/api/src/http/admin_audit.rs:64-68 audit_event_page *)
Definition audit_event_page (events : list AuditEvent) (limit : Z) : ListPage AuditEvent :=
  list_page events limit cursor_of_event.
(* apps/api/src/http/admin_audit.rs:17-38 list_audit_events *)
Definition list_audit_events_route (like : string -> string -> bool) (state : AppState)
    (env : AdminEnv) (headers : HeaderMap) (raw_query : option string) : Handler (ListPage AuditEvent) :=
  do! _ := require_admin_session state (admin_session_now env) headers in
  do! parsed := lift (admin_audit_event_list_query raw_query ADMIN_LIST_DEFAULT_LIMIT
                        ADMIN_LIST_MAX_LIMIT) in
  let page := audit_query_page parsed in
  do! events := query (list_audit_events_page_filtered like (state_organization_id state)
                         (audit_query_filter parsed) (list_cursor page) (Z.to_nat (fetch_limit page))) in
  succeed (audit_event_page events (list_limit page)).

Definition export_failed : ApiError := api_status 500 "audit export failed".
(* apps/api/src/http/admin_audit.rs:95-106 audit_export_body *)
Fixpoint audit_export_body (events : list AuditEvent) : result ApiError string :=
  match events with
  | [] => Ok ""
  | event :: events =>
      let? line := ok_or (event_json event) export_failed in
      let? rest := audit_export_body events in
      Ok (line +:+ newline +:+ rest)
  end.
(** The body and the headers that are set. *)
(* apps/api/src/http/admin_audit.rs:70-93 audit_export_response *)
Definition audit_export_response (page : ListPage AuditEvent)
    : result ApiError (string * list (string * string)) :=
  let? body := audit_export_body (page_items page) in
  let headers :=
    [("content-type", "application/x-ndjson");
     ("content-disposition", "attachment; filename=" +:+ String (Ascii.ascii_of_N 34)
        ("cairn-audit-events.ndjson" +:+ String (Ascii.ascii_of_N 34) ""));
     ("access-control-expose-headers", "x-cairn-next-cursor")] in
  match page_next_cursor page with
  | Some next_cursor =>
      let? next_cursor := ok_or (header_value next_cursor) export_failed in
      Ok (body, headers ++ [("x-cairn-next-cursor", next_cursor)])
  | None => Ok (body, headers)
  end.
(* apps/api/src/http/admin_audit.rs:40-62 export_audit_events *)
Definition export_audit_events (like : string -> string -> bool) (state : AppState) (env : AdminEnv)
    (export_max_rows : Z) (headers : HeaderMap) (raw_query : option string)
    : Handler (string * list (string * string)) :=
  do! _ := require_admin_session state (admin_session_now env) headers in
  do! parsed := lift (admin_audit_event_list_query raw_query
                        (Z.min ADMIN_AUDIT_EXPORT_DEFAULT_LIMIT export_max_rows) export_max_rows) in
  let page := audit_query_page parsed in
  do! events := query (list_audit_events_page_filtered like (state_organization_id state)
                         (audit_query_filter parsed) (list_cursor page) (Z.to_nat (fetch_limit page))) in
  lift (audit_export_response (audit_event_page events (list_limit page))).
End pages.
