(* ===== verification/SessionRoutes.v ===== *)
(** * The pages of a user's own sessions

    [apps/api/src/http]'s session_routes without the consent and logout pages:
    the list of one's browser sessions and the end of another one, what
    happened on one's account, the applications one consented to, and the
    signed-in user.  The theorem says that these pages show and change only
    what belongs to the user of the session. *)

From S2P Require Import Prelude RustStr Domain Authn Oidc Http Codec Store.
From S2P Require Import SessionStore Directory AuditStore ConsentStore.
From S2P Require Import Handler KeyStore OAuthPolicy RequestContext BrowserSession Mfa Login.
From S2P Require Import AccountRoutes Listing AdminRoutes.

(** What a page draws: the clocks of the session check and of the change, and
    those of its audit event. *)
Record OwnEnv := mk_OwnEnv {
  own_session_now : OffsetDateTime;
  own_now : OffsetDateTime;
  own_event_id : Uuid;
  own_event_now : OffsetDateTime;
}.

(** ** What happened on the account *)

(** The arms of the [match] with a literal. *)
Definition labelled_actions : list (string * (string * string)) :=
  [("session.logged_in", ("sign_in", "Signed in"));
   ("session.logged_out", ("sign_out", "Signed out"));
   ("session.reauthenticated", ("reauthentication", "Reauthenticated"));
   ("session.revoked_by_user", ("session_revoked", "Browser session revoked"));
   ("admin.user_session_revoked",
     ("administrator_action", "An administrator revoked a browser session"));
   ("admin.consent_revoked",
     ("application_consent", "An administrator revoked application access"));
   ("admin.email_verification_requested",
     ("email_verification_requested", "An administrator requested email verification"));
   ("admin.password_recovery_requested",
     ("password_recovery_requested", "An administrator requested password recovery"));
   ("admin.user_created", ("administrator_action", "An administrator created this account"));
   ("admin.user_status_updated",
     ("administrator_action", "An administrator updated account status"));
   ("account.password_changed", ("password_changed", "Password changed"));
   ("account.password_recovery_requested",
     ("password_recovery_requested", "Password recovery requested"));
   ("account.password_recovered", ("password_recovered", "Password recovered"));
   ("account.email_verification_requested",
     ("email_verification_requested", "Email verification requested"));
   ("account.email_verified", ("email_verified", "Email verified"));
   ("mfa.totp_enrollment_started", ("mfa_updated", "Authenticator app enrollment started"));
   ("mfa.totp_enabled", ("mfa_updated", "Authenticator app enabled"));
   ("mfa.webauthn_enrollment_started", ("mfa_updated", "Passkey enrollment started"));
   ("mfa.webauthn_enabled", ("mfa_updated", "Passkey enabled"));
   ("mfa.credential_revoked", ("mfa_updated", "Multi-factor credential revoked"));
   ("mfa.recovery_codes_regenerated", ("mfa_updated", "Recovery codes regenerated"));
   ("oauth.consent_granted", ("application_consent", "Application access approved"));
   ("user.consent_revoked", ("application_consent", "Application access revoked"))].
(* apps/api/src/http/session_routes/security_activity.rs:82-136 security_activity_labels *)
Definition security_activity_labels (action : string) : string * string :=
  match List.find (fun arm => bool_decide (fst arm = action)) labelled_actions with
  | Some (_, labels) => labels
  | None =>
      if starts_with "admin." action
      then ("administrator_action", "An administrator updated this account")
      else ("security_event", "Security event recorded")
  end.

(* apps/api/src/http/session_routes/security_activity.rs:58-66 SessionSecurityActivityEvent *)
Record SessionSecurityActivityEvent := mk_SessionSecurityActivityEvent {
  activity_id : Uuid;
  activity_event_type : string;
  activity_summary : string;
  activity_ip_address : option string;
  activity_user_agent : option string;
  activity_occurred_at : OffsetDateTime;
}.
(* apps/api/src/http/session_routes/security_activity.rs:69-79 SessionSecurityActivityEvent::from *)
Definition session_security_activity_event (event : AuditEvent) : SessionSecurityActivityEvent :=
  let '(event_type, summary) := security_activity_labels (audit_action event) in
  mk_SessionSecurityActivityEvent (audit_id event) event_type summary (audit_ip_address event)
    (audit_user_agent event) (audit_created_at event).

(** ** One's consents *)

(* apps/api/src/http/session_routes/consent.rs:174-186 SessionConsentGrantSummary *)
Record SessionConsentGrantSummary := mk_SessionConsentGrantSummary {
  own_grant_id : Uuid;
  own_grant_organization_id : Uuid;
  own_grant_user_id : Uuid;
  own_grant_client_id : Uuid;
  own_grant_client_public_id : string;
  own_grant_client_name : string;
  own_grant_scopes : list string;
  own_grant_created_at : OffsetDateTime;
  own_grant_revoked_at : option OffsetDateTime;
}.
(* apps/api/src/http/session_routes/consent.rs:189-201 SessionConsentGrantSummary::from *)
Definition session_consent_grant_summary (summary : UserConsentGrantSummary)
    : SessionConsentGrantSummary :=
  let grant := user_summary_grant summary in
  mk_SessionConsentGrantSummary (grant_id grant) (grant_organization_id grant)
    (grant_user_id grant) (grant_client_id grant) (user_summary_client_public_id summary)
    (user_summary_client_name summary) (grant_scopes grant) (grant_created_at grant)
    (grant_revoked_at grant).

(** ** The pages *)

Section pages.
Context {CC : CryptoCrates} {TC : TokenCrates} {AG : AesGcm} {HC : HttpCrates} {UU : UuidCrate}.
Context {TN : TimeNanos} {BD : Base64Decode} {RP : Rfc3339Parse} {TF : TimeFormat}.

(* apps/api/src/http/session_routes/browser_session_routes.rs:22-41 list_browser_sessions *)
Definition list_browser_sessions (state : AppState) (env : OwnEnv) (headers : HeaderMap)
    : Handler (list BrowserSessionResponse) :=
  do! session := require_session state (own_session_now env) headers in
  do! sessions := query (list_active_browser_sessions_for_user (session_organization_id session)
                           (session_user_id session) (own_now env) SESSION_LIST_LIMIT) in
  succeed ((fun row => browser_session_from_summary row (session_id session)) <$> sessions).

(* apps/api/src/http/session_routes/browser_session_routes.rs:43-96 revoke_browser_session *)
Definition revoke_browser_session (state : AppState) (env : OwnEnv) (headers : HeaderMap)
    (session_id_ : Uuid) : Handler Uuid :=
  do! session := require_session state (own_session_now env) headers in
  do! _ := lift (require_csrf headers) in
  do! _ := reject_if (N.eqb session_id_ (session_id session))
             (api_bad_request "use logout to revoke current session") in
  do! revoked := query (revoke_user_browser_session (session_organization_id session)
                          (session_user_id session) session_id_ (own_now env)) in
  do! revoked := some_or revoked (api_status 404 "browser session not found") in
  let '(ip_address, user_agent) := headers_audit_context headers in
  do! _ := query (insert_audit_event
    (audit_build (own_event_id env) (own_event_now env)
      (audit_with_metadata
        (Object [("current_session_id", String_ (uuid_to_string (session_id session)));
                 ("revoked_session_acr", String_ (session_acr revoked));
                 ("revoked_session_amr", Array (String_ <$> session_amr revoked))])
        (audit_request_context ip_address user_agent
          (audit_user (session_organization_id session) (session_user_id session)
             "session.revoked_by_user" (uuid_to_string (session_id revoked))))))) in
  succeed (session_id revoked).

Definition security_activity_labels_of_errors : ListQueryLabels :=
  mk_ListQueryLabels "session security activity query too large"
    "invalid session security activity query" "duplicate session security activity parameter"
    "invalid session security activity limit" "session security activity limit out of range"
    "invalid session security activity cursor" "unsupported session security activity parameter".
(* apps/api/src/http/session_routes/security_activity.rs:19-55 list_security_activity *)
Definition list_security_activity (state : AppState) (env : OwnEnv) (headers : HeaderMap)
    (raw_query : option string) : Handler (ListPage SessionSecurityActivityEvent) :=
  do! session := require_session state (own_session_now env) headers in
  do! page := lift (list_query raw_query ADMIN_LIST_DEFAULT_LIMIT ADMIN_LIST_MAX_LIMIT
                      security_activity_labels_of_errors) in
  do! events := query (list_user_security_events_page uuid_to_string
                         (session_organization_id session) (session_user_id session)
                         (list_cursor page) (Z.to_nat (fetch_limit page))) in
  succeed (list_page (session_security_activity_event <$> events) (list_limit page)
             (fun event => mk_ListCursor (activity_occurred_at event) (activity_id event))).

(* apps/api/src/http/session_routes/consent.rs:96-124 list_session_consent_grants *)
Definition list_session_consent_grants (state : AppState) (env : OwnEnv) (headers : HeaderMap)
    (raw_query : option string) : Handler (ListPage SessionConsentGrantSummary) :=
  do! session := require_session state (own_session_now env) headers in
  do! (page, revoked) := lift (session_consent_grant_list_query raw_query ADMIN_LIST_DEFAULT_LIMIT
                                 ADMIN_LIST_MAX_LIMIT) in
  do! grants := query (list_consent_grants_for_user_page_filtered
                         (session_organization_id session) (session_user_id session) revoked
                         (list_cursor page) (Z.to_nat (fetch_limit page))) in
  succeed (list_page (session_consent_grant_summary <$> grants) (list_limit page)
             (fun grant => mk_ListCursor (own_grant_created_at grant) (own_grant_id grant))).

(* apps/api/src/http/session_routes/current_user.rs:10-21 me *)
Definition me (state : AppState) (env : OwnEnv) (headers : HeaderMap) : Handler User :=
  do! session := require_session state (own_session_now env) headers in
  do! user := query (get_user (session_user_id session)) in
  some_or user (api_status 401 "user missing").
End pages.

(** ** Properties *)

Section session_pages.
Context {CC : CryptoCrates} {TC : TokenCrates} {AG : AesGcm} {HC : HttpCrates} {UU : UuidCrate}.
Context {TN : TimeNanos} {BD : Base64Decode} {RP : Rfc3339Parse} {TF : TimeFormat}.

Lemma elem_of_take_order_by {A} (le : A -> A -> bool) n l x :
  x ∈ take n (order_by le l) -> x ∈ l.
Proof. intros Hx. apply elem_of_take in Hx as (i & Hi & _). by apply list_elem_of_lookup_2, elem_of_order_by in Hi. Qed.
Lemma elem_of_page {A} (rows : list A) limit cursor x :
  x ∈ page_items (list_page rows limit cursor) -> x ∈ rows.
Proof.
  unfold list_page. simpl. destruct (_ <? _)%nat; [|done].
  intros Hx. apply elem_of_take in Hx as (i & Hi & _). by eapply list_elem_of_lookup_2.
Qed.
Lemma elem_of_page_map {A B} (f : A -> B) (le : A -> A -> bool) n l limit cursor y :
  y ∈ page_items (list_page (f <$> take n (order_by le l)) limit cursor) ->
  exists x, y = f x /\ x ∈ l.
Proof.
  intros (x & -> & Hx)%elem_of_page%list_elem_of_fmap. exists x. split; [done|].
  by eapply elem_of_take_order_by.
Qed.
(** A page starts from the session of its request. *)
Lemma session_then_Ok {A} state now headers (k : AuthSession -> Handler A) db a db' :
  run (handler_bind (require_session state now headers) k) db = (Ok a, db') <->
  exists s, carries_session db state now headers s /\ run (k s) db = (Ok a, db').
Proof.
  rewrite run_handler_Ok. split.
  - intros (s & db1 & [-> Hs]%require_session_Ok & Hk). eauto.
  - intros (s & Hs & Hk). exists s, db. by rewrite require_session_Ok.
Qed.

(** A session of the user of [s] that still stands. *)
Definition own_active (s : AuthSession) (now : OffsetDateTime) (r : SessionRow) : Prop :=
  session_organization_id (row_session r) = session_organization_id s
  /\ session_user_id (row_session r) = session_user_id s
  /\ session_revoked_at (row_session r) = None /\ (now < session_expires_at (row_session r))%Z.
Lemma own_active_true s now r :
  session_of_user (session_organization_id s) (session_user_id s) r && session_active now r = true
  <-> own_active s now r.
Proof.
  unfold session_of_user, session_active, own_active.
  rewrite !andb_true_iff, !N.eqb_eq, Z.ltb_lt. destruct (session_revoked_at _); simpl; naive_solver.
Qed.

(** The pages about oneself show what is one's own and change nothing: they
    need a session, and the user of that session is the only one they show
    anything of.  The sessions listed are that user's standing ones, all of them
    while there are fewer than a hundred, and the one of the request is the one
    marked as current; every entry of the activity page is the coarse rendering
    of an audit event of the user, without its metadata, its target and its
    actor; every consent listed was given by the user; and the user shown is the
    user. *)
Theorem own_pages_show_own state env headers db :
  (forall shown db', run (list_browser_sessions state env headers) db = (Ok shown, db') ->
     db' = db /\ exists s, carries_session db state (own_session_now env) headers s
     /\ Forall (fun b => shown_current b = true <-> shown_id b = session_id s) shown
     /\ (forall b, b ∈ shown -> exists k r, t_auth_sessions db !! k = Some r
           /\ own_active s (own_now env) r /\ b = browser_session_from_summary r (session_id s))
     /\ ((length shown < 100)%nat -> forall k r, t_auth_sessions db !! k = Some r ->
           own_active s (own_now env) r -> browser_session_from_summary r (session_id s) ∈ shown))
  /\ (forall q page db', run (list_security_activity state env headers q) db = (Ok page, db') ->
     db' = db /\ exists s, carries_session db state (own_session_now env) headers s
     /\ forall a, a ∈ page_items page -> exists k e, t_audit_events db !! k = Some e
          /\ audit_organization_id e = session_organization_id s
          /\ is_event_of_user (session_user_id s) (uuid_to_string (session_user_id s)) e = true
          /\ a = mk_SessionSecurityActivityEvent (audit_id e)
                   (security_activity_labels (audit_action e)).1
                   (security_activity_labels (audit_action e)).2
                   (audit_ip_address e) (audit_user_agent e) (audit_created_at e))
  /\ (forall q page db', run (list_session_consent_grants state env headers q) db = (Ok page, db') ->
     db' = db /\ exists s, carries_session db state (own_session_now env) headers s
     /\ forall c, c ∈ page_items page ->
          own_grant_user_id c = session_user_id s
          /\ own_grant_organization_id c = session_organization_id s
          /\ exists k g, t_consent_grants db !! k = Some g /\ own_grant_id c = grant_id g
               /\ own_grant_scopes c = grant_scopes g /\ grant_user_id g = session_user_id s)
  /\ (forall u db', run (me state env headers) db = (Ok u, db') ->
     db' = db /\ exists s row, carries_session db state (own_session_now env) headers s
     /\ t_users db !! session_user_id s = Some row /\ u = uwp_user row).
Proof.
  split_and!.
  - intros shown db' (s & Hs & H)%session_then_Ok. run_steps. injection H0 as <- <-. split; [done|].
    exists s. split; [done|]. split_and!.
    + apply Forall_forall. intros b (r & -> & _)%list_elem_of_fmap. apply N.eqb_eq.
    + intros b (r & -> & (k & Hk & Hr)%elem_of_take_order_by%elem_of_select_where)%list_elem_of_fmap.
      exists k, r. by rewrite own_active_true in Hr.
    + rewrite length_fmap. intros Hl k r Hk Hr. apply list_elem_of_fmap. exists r. split; [done|].
      rewrite take_ge by (rewrite length_take in Hl; unfold SESSION_LIST_LIMIT in *; lia).
      apply elem_of_order_by, elem_of_select_where. exists k. by rewrite own_active_true.
  - intros q page db' (s & Hs & H)%session_then_Ok. run_steps. injection H1 as <- <-. split; [done|].
    exists s. split; [done|]. intros x (e & -> & (k & Hk & He)%elem_of_select_where)%elem_of_page_map.
    bool_prop. exists k, e. split_and!; [done|by apply N.eqb_eq|done|].
    unfold session_security_activity_event. by destruct (security_activity_labels _).
  - intros q page db' (s & Hs & H)%session_then_Ok. run_steps. destruct a as [parts revoked]. run_steps.
    injection H1 as <- <-. split; [done|].
    exists s. split; [done|]. intros c (g & -> & Hg)%elem_of_page_map.
    apply list_elem_of_omap in Hg as (g0 & (k & Hk & Hg)%elem_of_select_where & Hsum).
    unfold user_grant_summary in Hsum. repeat case_match; simplify_eq/=.
    rewrite !andb_true_iff, !N.eqb_eq in Hg. destruct Hg as [[[? ?] _] _]. eauto 10.
  - intros u db' (s & Hs & H)%session_then_Ok. run_steps.
    injection H0 as <- <-. destruct (t_users db !! session_user_id s) as [row|] eqn:E; [|done].
    injection H as <-. split; [done|]. by exists s, row.
Qed.
End session_pages.
