(* ===== verification/Logout.v ===== *)
(** * Signing out

    [apps/api/src/http]'s session_routes/logout.rs, end_session.rs,
    oidc_browser_routes/logout_route.rs, the logout part of client_policy.rs,
    the writing side of cookies.rs and the ID token hint of
    crates/oidc/src/claims.rs.  The theorems say that signing out ends the
    session of the request and nothing else, that the browser is sent only to
    an address registered for the client the hint was issued to, and that an ID
    token of the service, however old, is such a hint. *)

From S2P Require Import Prelude RustStr Domain Authn Oidc Http Codec Store.
From S2P Require Import ClientStore SessionStore Directory AuditStore.
From S2P Require Import Handler KeyStore OAuthPolicy RequestContext BrowserSession.
From S2P Require Import AuthorizeRequest Mfa Login AccountRoutes Listing AdminRoutes SessionRoutes.
From Stdlib Require Import Ascii.

(** [HeaderValue::from_str] of the [http] crate; a value is its text. *)
Class HeaderValues := { header_value_from_str : string -> option string }.

(** What the code uses of [jsonwebtoken]: [decode_header],
    [DecodingKey::from_rsa_components] and [decode]. *)
Inductive Algorithm := RS256 | OtherAlgorithm.
#[export] Instance Algorithm_eq_dec : EqDecision Algorithm.
Proof. solve_decision. Defined.
Record JwtHeader := mk_JwtHeader { jwt_alg : Algorithm; jwt_kid : option string }.
Record Validation := mk_Validation {
  validation_algorithm : Algorithm;
  validate_exp : bool;
  validate_aud : bool;
  required_spec_claims : list string;
  validation_iss : list string;
}.
Class JwtDecode := {
  DecodingKey : Type;
  decode_header : string -> option JwtHeader;
  from_rsa_components : string -> string -> option DecodingKey;
  jwt_decode : string -> DecodingKey -> Validation -> option IdTokenClaims;
}.

(** ** The cookies of a reply *)

Section cookies.
Context {AG : AesGcm} {HV : HeaderValues}.

Definition secure_suffix (state : AppState) : string :=
  if secure_cookies state then "; Secure" else "".
(** The headers of a response are a list in order; [append] adds one. *)
(* apps/api/src/http/cookies.rs:136-143 append_set_cookie *)
Definition append_set_cookie (headers : list (string * string)) (value : string)
    : result ApiError (list (string * string)) :=
  let? value := ok_or (header_value_from_str value) (api_status 500 "invalid cookie") in
  Ok (headers ++ [("set-cookie", value)]).
(* apps/api/src/http/cookies.rs:92-105 set_csrf_cookie *)
Definition set_csrf_cookie (headers : list (string * string)) (state : AppState) (token : string)
    : result ApiError (list (string * string)) :=
  append_set_cookie headers
    (CSRF_COOKIE +:+ "=" +:+ token +:+ "; Path=/; HttpOnly; SameSite=Lax; Max-Age=43200"
     +:+ secure_suffix state).
Definition cleared_cookie (state : AppState) (name : string) : string :=
  name +:+ "=; Path=/; HttpOnly; SameSite=Lax; Max-Age=0" +:+ secure_suffix state.
(* apps/api/src/http/cookies.rs:116-124 clear_session_cookie *)
Definition clear_session_cookie (headers : list (string * string)) (state : AppState)
    : result ApiError (list (string * string)) :=
  append_set_cookie headers (cleared_cookie state SESSION_COOKIE).
(* apps/api/src/http/cookies.rs:126-134 clear_csrf_cookie *)
Definition clear_csrf_cookie (headers : list (string * string)) (state : AppState)
    : result ApiError (list (string * string)) :=
  append_set_cookie headers (cleared_cookie state CSRF_COOKIE).
(* apps/api/src/http/cookies.rs:107-114 clear_browser_session_cookies *)
Definition clear_browser_session_cookies (headers : list (string * string)) (state : AppState)
    : result ApiError (list (string * string)) :=
  let? headers := clear_session_cookie headers state in
  clear_csrf_cookie headers state.
End cookies.

(** [HeaderMap::insert]: the values of the name are replaced. *)
Definition insert_header (headers : list (string * string)) (name value : string)
    : list (string * string) :=
  List.filter (fun h => negb (String.eqb (fst h) name)) headers ++ [(name, value)].
(* apps/api/src/http/oauth_http/response.rs:43-45 add_oauth_cache_headers *)
Definition add_oauth_cache_headers (headers : list (string * string)) : list (string * string) :=
  insert_header (insert_header headers "cache-control" "no-store") "pragma" "no-cache".

(** ** The request *)

(* crates/oidc/src/oauth_types.rs:23-36 EndSessionRequest *)
Record EndSessionRequest := mk_EndSessionRequest {
  end_id_token_hint : option string;
  end_logout_hint : option string;
  end_client_id : option string;
  end_post_logout_redirect_uri : option string;
  end_state : option string;
  end_ui_locales : option string;
}.
Definition end_session_parameters : list string :=
  ["id_token_hint"; "logout_hint"; "client_id"; "post_logout_redirect_uri"; "state"; "ui_locales"].
(* apps/api/src/http/end_session.rs:80-90 end_session_request_parameter_name *)
Definition end_session_request_parameter_name (name : string) : option string :=
  if contains end_session_parameters name then Some name else None.
(* apps/api/src/http/end_session.rs:66-78 duplicate_end_session_request_parameter *)
Definition duplicate_end_session_request_parameter (pairs : list (string * string))
    : option string := duplicate_parameter_loop end_session_request_parameter_name [] pairs.
Definition end_session_set (r : EndSessionRequest) (pair : string * string) : EndSessionRequest :=
  let '(mk_EndSessionRequest h l c u s g) := r in
  let '(name, value) := pair in
  if bool_decide (name = "id_token_hint") then mk_EndSessionRequest (Some value) l c u s g
  else if bool_decide (name = "logout_hint") then mk_EndSessionRequest h (Some value) c u s g
  else if bool_decide (name = "client_id") then mk_EndSessionRequest h l (Some value) u s g
  else if bool_decide (name = "post_logout_redirect_uri")
  then mk_EndSessionRequest h l c (Some value) s g
  else if bool_decide (name = "state") then mk_EndSessionRequest h l c u (Some value) g
  else if bool_decide (name = "ui_locales") then mk_EndSessionRequest h l c u s (Some value)
  else r.
(* apps/api/src/http/end_session.rs:36-64 end_session_request_from_pairs *)
Definition end_session_request_from_pairs (pairs : list (string * string))
    : result ApiError EndSessionRequest :=
  if is_some (duplicate_end_session_request_parameter pairs)
  then Err (api_bad_request "duplicate logout request parameter")
  else Ok (fold_left end_session_set pairs (mk_EndSessionRequest None None None None None None)).
Definition invalid_logout_request : ApiError := api_bad_request "invalid logout request".
Definition logout_request_too_large : ApiError := api_bad_request "logout request too large".
(* apps/api/src/http/end_session.rs:9-19 end_session_request_from_query *)
Definition end_session_request_from_query (raw_query : option string)
    : result ApiError EndSessionRequest :=
  let query := default "" raw_query in
  require (len query <=? OAUTH_QUERY_MAX_BYTES)%N else logout_request_too_large in
  let? pairs := map_err (fun _ => invalid_logout_request) (parse_url_encoded_pairs query) in
  end_session_request_from_pairs pairs.

Section logout.
Context {CC : CryptoCrates} {TC : TokenCrates} {AG : AesGcm} {HC : HttpCrates} {UU : UuidCrate}.
Context {HV : HeaderValues} {JD : JwtDecode} {BD : Base64Decode} {TF : TimeFormat}.

(* apps/api/src/http/end_session.rs:92-100 require_logout_form_content_type *)
Definition require_logout_form_content_type (headers : HeaderMap) : result ApiError unit :=
  if request_has_urlencoded_content_type headers then Ok tt
  else Err (api_bad_request "content type must be application/x-www-form-urlencoded").
(* apps/api/src/http/end_session.rs:21-34 end_session_request_from_form *)
Definition end_session_request_from_form (headers : HeaderMap) (request : option string)
    : result ApiError EndSessionRequest :=
  let? _ := require_logout_form_content_type headers in
  let? body := ok_or (bounded_request_body request OAUTH_FORM_BODY_MAX_BYTES)
                 logout_request_too_large in
  require utf8_valid body else invalid_logout_request in
  let? pairs := map_err (fun _ => invalid_logout_request) (parse_url_encoded_pairs body) in
  end_session_request_from_pairs pairs.

(** ** The hint *)

(* crates/oidc/src/claims.rs:124-134 decoding_key_from_public_jwk *)
Definition decoding_key_from_public_jwk (jwk : Value) : result OidcError DecodingKey :=
  let? modulus := ok_or (value_get jwk "n" ≫= as_str) InvalidIdTokenHint in
  let? exponent := ok_or (value_get jwk "e" ≫= as_str) InvalidIdTokenHint in
  ok_or (from_rsa_components modulus exponent) InvalidIdTokenHint.
Definition logout_hint_validation (issuer : string) : Validation :=
  mk_Validation RS256 false false ["exp"; "iss"; "aud"; "sub"] [trim_end_matches "/" issuer].
(* crates/oidc/src/claims.rs:99-122 validate_logout_id_token_hint_issuer *)
Definition validate_logout_id_token_hint_issuer (id_token_hint issuer : string)
    (signing : SigningMaterial) : result OidcError IdTokenClaims :=
  let? header := ok_or (decode_header id_token_hint) InvalidIdTokenHint in
  if negb (bool_decide (jwt_alg header = RS256))
     || negb (bool_decide (jwt_kid header = Some (signing_key_id signing)))
  then Err InvalidIdTokenHint
  else
  let? key := decoding_key_from_public_jwk (signing_public_jwk signing) in
  ok_or (jwt_decode id_token_hint key (logout_hint_validation issuer)) InvalidIdTokenHint.
(* crates/oidc/src/claims.rs:86-97 validate_logout_id_token_hint *)
Definition validate_logout_id_token_hint (id_token_hint issuer : string) (client : OidcClient)
    (signing : SigningMaterial) : result OidcError IdTokenClaims :=
  let? claims := validate_logout_id_token_hint_issuer id_token_hint issuer signing in
  if negb (bool_decide (aud claims = client_client_id client)) then Err InvalidIdTokenHint
  else Ok claims.

(** ** Where the browser goes *)

(** [.as_deref().filter(|value| !value.is_empty())] *)
Definition nonempty (value : option string) : option string :=
  match value with Some v => if is_empty v then None else Some v | None => None end.
(* apps/api/src/http/client_policy.rs:65-78 post_logout_redirect_target_for_client *)
Definition post_logout_redirect_target_for_client (request : EndSessionRequest)
    (client : OidcClient) (post_logout_redirect_uri : string) : result ApiError (option string) :=
  if negb (allows_post_logout_redirect_uri client post_logout_redirect_uri)
  then Err (api_bad_request "invalid post_logout_redirect_uri")
  else Ok (Some (append_post_logout_redirect_params post_logout_redirect_uri (end_state request))).
(* apps/api/src/http/client_policy.rs:21-63 post_logout_redirect_target *)
Definition post_logout_redirect_target (state : AppState) (request : EndSessionRequest)
    : Handler (option string) :=
  match nonempty (end_post_logout_redirect_uri request) with
  | None => succeed None
  | Some post_logout_redirect_uri =>
  do! id_token_hint := some_or (nonempty (end_id_token_hint request))
                         (api_bad_request "id_token_hint is required") in
  do! signing := resolve_signing_material state in
  do! claims := lift (map_err (fun _ => api_bad_request "invalid id_token_hint")
    (validate_logout_id_token_hint_issuer id_token_hint (config_issuer state) signing)) in
  let client_id := default (aud claims) (nonempty (end_client_id request)) in
  do! client := query (get_oidc_client_by_public_id client_id) in
  do! client := some_or client (api_bad_request "unknown client") in
  do! _ := reject_if (negb (N.eqb (client_organization_id client) (state_organization_id state)))
             (api_bad_request "unknown client") in
  do! _ := reject_if (negb (oidc_client_is_active client)) (api_bad_request "unknown client") in
  do! _ := reject_if (negb (bool_decide (aud claims = client_client_id client)))
             (api_bad_request "invalid id_token_hint") in
  lift (post_logout_redirect_target_for_client request client post_logout_redirect_uri)
  end.

(** ** The pages *)

Definition logout_event (env : OwnEnv) (headers : HeaderMap) (session : AuthSession)
    (initiator : string) : AuditEvent :=
  let '(ip_address, user_agent) := headers_audit_context headers in
  audit_build (own_event_id env) (own_event_now env)
    (audit_with_metadata
      (Object [("initiator", String_ initiator); ("acr", String_ (session_acr session));
               ("amr", Array (String_ <$> session_amr session))])
      (audit_request_context ip_address user_agent
        (audit_user (session_organization_id session) (session_user_id session)
           "session.logged_out" (uuid_to_string (session_id session))))).
(* apps/api/src/http/session_routes/logout.rs:33-64 revoke_session_for_logout *)
Definition revoke_session_for_logout (env : OwnEnv) (headers : HeaderMap) (session : AuthSession)
    (initiator : string) : Handler unit :=
  do! _ := query (revoke_auth_session (session_id session) (own_now env)) in
  query (insert_audit_event (logout_event env headers session initiator)).
(** [if let Some(session) = session_from_cookie(..).await? { .. }] *)
Definition end_cookie_session (state : AppState) (env : OwnEnv) (headers : HeaderMap)
    (initiator : string) : Handler unit :=
  do! session := session_from_cookie state (own_session_now env) headers in
  match session with
  | Some session => revoke_session_for_logout env headers session initiator
  | None => succeed tt
  end.
Definition ok_status : ReplyBody := Body_Value (Object [("status", String_ "ok")]).
(* apps/api/src/http/session_routes/logout.rs:20-31 logout *)
Definition logout (state : AppState) (env : OwnEnv) (headers : HeaderMap) : Handler Reply :=
  do! _ := lift (require_csrf headers) in
  do! _ := end_cookie_session state env headers "browser" in
  do! set := lift (clear_browser_session_cookies [] state) in
  succeed (mk_Reply (mk_Response 200 set) ok_status).

(** The body [IntoResponse] gives an error. *)
Definition api_error_body (e : ApiError) : ReplyBody :=
  match e with
  | ApiError_Status _ message _ => Body_Value (Object [("error", String_ message)])
  | ApiError_OAuth _ body => Body_Error body
  end.
(* apps/api/src/http/oidc_browser_routes/logout_route.rs:81-85 logout_error_response *)
Definition logout_error_response (error : ApiError) : Reply :=
  let response := api_error_into_response error in
  mk_Reply (mk_Response (response_status response)
              (add_oauth_cache_headers (response_headers response)))
    (api_error_body error).
(* apps/api/src/http/oidc_browser_routes/logout_route.rs:69-79 logout_redirect_response *)
Definition logout_redirect_response (target : string) : result ApiError Reply :=
  let? location := ok_or (header_value_from_str target)
                     (api_status 500 "invalid logout redirect location") in
  Ok (mk_Reply (mk_Response 302 [("location", location)]) Body_Empty).
(* apps/api/src/http/oidc_browser_routes/logout_route.rs:45-67 end_session_response *)
Definition end_session_response (state : AppState) (env : OwnEnv) (headers : HeaderMap)
    (request : EndSessionRequest) : Handler Reply :=
  prog_bind (post_logout_redirect_target state request) (fun target =>
  match target with
  | Err error => succeed (logout_error_response error)
  | Ok redirect_target =>
      do! _ := end_cookie_session state env headers "rp_initiated" in
      do! response := lift match redirect_target with
                           | Some target => logout_redirect_response target
                           | None => Ok (mk_Reply (mk_Response 200 []) ok_status)
                           end in
      do! set := lift (clear_browser_session_cookies
                         (add_oauth_cache_headers (response_headers (reply_response response)))
                         state) in
      succeed (mk_Reply (mk_Response (response_status (reply_response response)) set)
                 (reply_body response))
  end).
(* apps/api/src/http/oidc_browser_routes/logout_route.rs:21-31 end_session *)
Definition end_session (state : AppState) (env : OwnEnv) (headers : HeaderMap)
    (raw_query : option string) : Handler Reply :=
  match end_session_request_from_query raw_query with
  | Err error => succeed (logout_error_response error)
  | Ok request => end_session_response state env headers request
  end.
(* apps/api/src/http/oidc_browser_routes/logout_route.rs:33-43 end_session_post *)
Definition end_session_post (state : AppState) (env : OwnEnv) (headers : HeaderMap)
    (request : option string) : Handler Reply :=
  match end_session_request_from_form headers request with
  | Err error => succeed (logout_error_response error)
  | Ok request => end_session_response state env headers request
  end.
End logout.

(** ** Properties *)

(** The rows of [auth_sessions] are under their identifiers. *)
Definition sessions_keyed (db : Database) : Prop :=
  map_Forall (fun k r => session_id (row_session r) = k) (t_auth_sessions db).

Section signing_out.
Context {CC : CryptoCrates} {TC : TokenCrates} {AG : AesGcm} {HC : HttpCrates} {UU : UuidCrate}.
Context {HV : HeaderValues} {JD : JwtDecode} {BD : Base64Decode} {TF : TimeFormat}.
Implicit Types (state : AppState) (env : OwnEnv) (db : Database).

(** *** The end of a session *)

Definition with_session_ended (at_ : OffsetDateTime) (row : SessionRow) (db : Database) : Database :=
  on_auth_sessions (<[session_id (row_session row) := session_set_revoked_at (Some at_) row]>) db.
Definition no_session_left state env (headers : HeaderMap) db : Prop :=
  forall now s, (own_session_now env <= now)%Z -> ~ carries_session db state now headers s.
(** The session of the request is revoked and its end is in the audit log; a
    request without a session changes nothing. *)
Definition session_ended state env (headers : HeaderMap) (initiator : string) db db' : Prop :=
  (db' = db /\ forall s, ~ carries_session db state (own_session_now env) headers s)
  \/ exists row, carries_session db state (own_session_now env) headers (row_session row)
     /\ t_auth_sessions db !! session_id (row_session row) = Some row
     /\ db' = on_audit_events
                (<[own_event_id env := logout_event env headers (row_session row) initiator]>)
                (with_session_ended (own_now env) row db).

Lemma carried_row db state now headers s :
  sessions_keyed db -> carries_session db state now headers s ->
  exists raw row, cookie_value headers SESSION_COOKIE = Some raw
    /\ Uuid_parse_str raw = Some (session_id s)
    /\ t_auth_sessions db !! session_id s = Some row /\ row_session row = s.
Proof.
  intros Hk (raw & id & Hraw & Hid & Hs & _). apply fmap_Some in Hs as (row & Hrow & ->).
  pose proof (Hk _ _ Hrow) as <-. by exists raw, row.
Qed.
(** A revoked session is of no use, whenever it is shown. *)
Lemma ended_not_carried db state headers now row at_ s :
  sessions_keyed db -> carries_session db state now headers (row_session row) ->
  forall now', ~ carries_session (with_session_ended at_ row db) state now' headers s.
Proof.
  intros Hk Hc now' (raw & id & Hraw & Hid & Hs & _ & Hr & _).
  destruct (carried_row _ _ _ _ _ Hk Hc) as (raw0 & row0 & Hraw0 & Hid0 & _).
  assert (raw0 = raw) as -> by congruence. assert (id = session_id (row_session row)) as -> by congruence.
  unfold with_session_ended in Hs. simpl in Hs. rewrite lookup_insert_eq in Hs.
  injection Hs as <-. discriminate Hr.
Qed.
(** Time does not bring a session back. *)
Lemma not_carried_later db state headers now now' s :
  (forall s, ~ carries_session db state now headers s) -> (now <= now')%Z ->
  ~ carries_session db state now' headers s.
Proof.
  intros Hn Hle (raw & id & Hraw & Hid & Hs & Ho & Hr & He & Hu). apply (Hn s). exists raw, id.
  split; [done|]. split; [done|]. repeat split; try done. lia.
Qed.
Lemma carries_with_event db e state now headers s :
  carries_session (on_audit_events e db) state now headers s <-> carries_session db state now headers s.
Proof. done. Qed.

Lemma insert_event_cases e db r db' :
  insert_audit_event e db = (r, db') ->
  (r = Ok tt /\ db' = on_audit_events (<[audit_id e := e]>) db)
  \/ ((exists error, r = Err error) /\ db' = db).
Proof.
  unfold insert_audit_event, db_bind, db_check, db_modify.
  destruct (absent (t_audit_events db) (audit_id e)); [|intros [= <- <-]; by eauto].
  destruct (fk_organization db (audit_organization_id e)); intros [= <- <-]; eauto.
Qed.
Lemma logout_event_id env headers s initiator :
  audit_id (logout_event env headers s initiator) = own_event_id env.
Proof. unfold logout_event. by destruct (headers_audit_context headers). Qed.

Lemma end_cookie_session_run state env headers initiator db r db' :
  sessions_keyed db -> run (end_cookie_session state env headers initiator) db = (r, db') ->
  no_session_left state env headers db'
  /\ (r = Ok tt -> session_ended state env headers initiator db db').
Proof.
  intros Hk. unfold end_cookie_session.
  destruct (session_from_cookie_run state (own_session_now env) headers db) as (o & Hr & Ho).
  rewrite (run_known _ _ _ _ Hr). destruct o as [s|].
  - pose proof (proj1 (Ho s) eq_refl) as Hs.
    destruct (carried_row _ _ _ _ _ Hk Hs) as (raw & row & _ & _ & Hrow & <-).
    unfold revoke_session_for_logout, handler_bind, revoke_auth_session. cbn [query prog_bind run].
    unfold update_key, db_apply, update_row. rewrite Hrow. cbn [map_err prog_bind run].
    change (on_auth_sessions _ db) with (with_session_ended (own_now env) row db).
    set (db1 := with_session_ended _ _ _).
    assert (Hn : forall e, no_session_left state env headers (on_audit_events e db1))
      by (intros e now s _ Hc; by apply (ended_not_carried db state headers _ row (own_now env) s Hk Hs now)).
    set (event := logout_event _ _ _ _). cbn [query run].
    destruct (insert_audit_event event db1) as [r1 db2] eqn:E. cbn [run]. intros [= <- <-].
    destruct (insert_event_cases _ _ _ _ E) as [[-> ->]|[[e ->] ->]].
    + subst event. rewrite logout_event_id. split; [apply Hn|]. intros _. right. by exists row.
    + split; [apply (Hn (fun m => m))|done].
  - assert (Hno : forall s, ~ carries_session db state (own_session_now env) headers s)
      by (intros s Hs; by apply Ho in Hs).
    intros [= <- <-]. split; [intros now s; apply not_carried_later, Hno|]. intros _. by left.
Qed.

(** *** Where the browser goes *)

(** An address to return to: registered for an active client of the
    organization, to which the hint was issued. *)
Definition registered_target state db (request : EndSessionRequest) (target : string) : Prop :=
  exists uri hint signing claims client,
    end_post_logout_redirect_uri request = Some uri /\ end_id_token_hint request = Some hint
    /\ run (resolve_signing_material state) db = (Ok signing, db)
    /\ validate_logout_id_token_hint_issuer hint (config_issuer state) signing = Ok claims
    /\ get_oidc_client_by_public_id (aud claims) db = (Ok (Some client), db)
    /\ client_client_id client = aud claims
    /\ client_organization_id client = state_organization_id state
    /\ client_status client = ClientStatus_Active
    /\ uri ∈ client_post_logout_redirect_uris client
    /\ target = append_post_logout_redirect_params uri (end_state request).

Lemma nonempty_Some o v : nonempty o = Some v <-> o = Some v /\ v <> "".
Proof.
  destruct o as [[|c w]|]; simpl; naive_solver.
Qed.
Lemma allows_post_logout_true c uri :
  allows_post_logout_redirect_uri c uri = true <-> uri ∈ client_post_logout_redirect_uris c.
Proof.
  unfold allows_post_logout_redirect_uri. rewrite existsb_exists. split.
  - intros (x & Hx & <-%bool_decide_eq_true). by apply list_elem_of_In.
  - intros Hu. exists uri. by rewrite <- list_elem_of_In, bool_decide_eq_true.
Qed.
Lemma post_logout_target_reads state request :
  each_op (fun X op => reads op) (post_logout_redirect_target state request).
Proof. unfold post_logout_redirect_target. each_op_steps; try done. apply resolve_signing_reads. Qed.
Lemma post_logout_target_Ok state request db target db' :
  run (post_logout_redirect_target state request) db = (Ok target, db') ->
  match target with
  | Some target => registered_target state db request target
  | None => nonempty (end_post_logout_redirect_uri request) = None
  end.
Proof.
  unfold post_logout_redirect_target.
  destruct (nonempty (end_post_logout_redirect_uri request)) as [uri|] eqn:Eu; [|by intros [= <- _]].
  apply nonempty_Some in Eu as [Hu _]. intros H. run_steps.
  destruct (resolve_signing_run state db) as [r1 Hr]. rewrite Hr in H1. injection H1 as -> <-.
  apply nonempty_Some in H0 as [Hh _]. apply map_err_Ok in H2.
  unfold get_oidc_client_by_public_id, db_gets in H3. simplify_eq. rename H0 into Hfind.
  apply negb_false_iff in H5, H6, H7. apply N.eqb_eq in H5.
  apply bool_decide_eq_true in H6, H7.
  assert (default (aud a1) (nonempty (end_client_id request)) = aud a1) as Hid.
  { apply find_row_Some in Hfind as (k & _ & Hp). apply bool_decide_eq_true in Hp. congruence. }
  rewrite Hid in Hfind. unfold post_logout_redirect_target_for_client in H.
  destruct (allows_post_logout_redirect_uri a3 uri) eqn:Ea; [|done]. injection H as <-.
  apply allows_post_logout_true in Ea. exists uri, a, a0, a1, a3.
  split_and!; try done. unfold get_oidc_client_by_public_id, db_gets. by rewrite Hfind.
Qed.

(** *** The replies *)

Definition clears_cookies state (reply : Reply) : Prop :=
  exists headers session_value csrf_value,
    response_headers (reply_response reply)
      = headers ++ [("set-cookie", session_value); ("set-cookie", csrf_value)]
    /\ header_value_from_str (cleared_cookie state SESSION_COOKIE) = Some session_value
    /\ header_value_from_str (cleared_cookie state CSRF_COOKIE) = Some csrf_value.
Definition sends_to (reply : Reply) (target : option string) : Prop :=
  match target with
  | Some target => response_status (reply_response reply) = 302%N
      /\ exists location, header_value_from_str target = Some location
           /\ ("location", location) ∈ response_headers (reply_response reply)
  | None => response_status (reply_response reply) = 200%N
  end.

Lemma clear_cookies_Ok headers state set :
  clear_browser_session_cookies headers state = Ok set <->
  exists v1 v2, header_value_from_str (cleared_cookie state SESSION_COOKIE) = Some v1
    /\ header_value_from_str (cleared_cookie state CSRF_COOKIE) = Some v2
    /\ set = headers ++ [("set-cookie", v1); ("set-cookie", v2)].
Proof.
  unfold clear_browser_session_cookies, clear_session_cookie, clear_csrf_cookie, append_set_cookie.
  destruct (header_value_from_str (cleared_cookie state SESSION_COOKIE)) as [v1|]; simpl; [|naive_solver].
  destruct (header_value_from_str (cleared_cookie state CSRF_COOKIE)) as [v2|]; simpl; [|naive_solver].
  rewrite <- app_assoc. simpl. naive_solver.
Qed.
Lemma end_session_response_run state env headers request db r db' :
  sessions_keyed db -> run (end_session_response state env headers request) db = (r, db') ->
  (exists e, r = Ok (logout_error_response e) /\ db' = db)
  \/ exists target,
       match target with
       | Some target => registered_target state db request target
       | None => nonempty (end_post_logout_redirect_uri request) = None
       end
       /\ no_session_left state env headers db'
       /\ forall reply, r = Ok reply ->
            session_ended state env headers "rp_initiated" db db'
            /\ sends_to reply target /\ clears_cookies state reply.
Proof.
  intros Hk. unfold end_session_response. rewrite run_bind.
  pose proof (each_reads_run _ db (post_logout_target_reads state request)) as Hdb.
  destruct (run (post_logout_redirect_target state request) db) as [[target|e] db1] eqn:Et;
    simpl in Hdb; subst db1; [|intros [= <- <-]; left; by exists e].
  apply post_logout_target_Ok in Et. intros H. right. exists target. split; [done|].
  unfold handler_bind in H. rewrite run_bind in H.
  destruct (run (end_cookie_session state env headers "rp_initiated") db) as [r1 db1] eqn:Ee.
  apply end_cookie_session_run in Ee as [Hno He]; [|done].
  destruct r1 as [[]|e]; [|injection H as <- <-; by split].
  specialize (He eq_refl).
  assert (db' = db1) as ->.
  { clear -H. destruct target as [t|]; simpl in H; repeat case_match; simpl in *; simplify_eq/=; done. }
  split; [done|]. intros reply ->. split; [done|].
  destruct target as [t|]; cbn in H.
  - unfold logout_redirect_response in H.
    destruct (header_value_from_str t) as [location|] eqn:El; cbn in H; [|done].
    destruct (clear_browser_session_cookies _ state) as [set|] eqn:Ec; cbn in H; [|done].
    injection H as <-. apply clear_cookies_Ok in Ec as (v1 & v2 & H1 & H2 & ->).
    split; [|by eexists _, v1, v2]. split; [done|]. exists location. split; [done|]. cbn. set_solver.
  - destruct (clear_browser_session_cookies _ state) as [set|] eqn:Ec; cbn in H; [|done].
    injection H as <-. apply clear_cookies_Ok in Ec as (v1 & v2 & H1 & H2 & ->).
    split; [done|]. by eexists _, v1, v2.
Qed.

(** C10. Signing out ends the session of the request, and nothing else.  After
    the logout page, and after a logout a client asked for, by GET or POST, no
    request with the same cookie has a session any more, whatever became of the
    reply; a reply that is not an error says that exactly that session was
    revoked and its end recorded, and clears both cookies.  The page of the
    user interface asks for the CSRF token first.  A logout a client asked for is
    refused, with nothing changed, or sends the browser to no other address than
    one registered for an active client of the organization to which the service
    issued the ID token the request shows. *)
Theorem sign_out_spec state env headers db :
  sessions_keyed db ->
  (forall r db', run (logout state env headers) db = (r, db') ->
     match require_csrf headers with
     | Err e => r = Err e /\ db' = db
     | Ok _ => no_session_left state env headers db'
         /\ forall reply, r = Ok reply ->
              session_ended state env headers "browser" db db'
              /\ sends_to reply None /\ clears_cookies state reply
     end)
  /\ (forall q body page r db',
     page = end_session state env headers q \/ page = end_session_post state env headers body ->
     run page db = (r, db') ->
     (exists e, r = Ok (logout_error_response e) /\ db' = db)
     \/ exists request target,
          (end_session_request_from_query q = Ok request
           \/ end_session_request_from_form headers body = Ok request)
          /\ match target with
             | Some target => registered_target state db request target
             | None => nonempty (end_post_logout_redirect_uri request) = None
             end
          /\ no_session_left state env headers db'
          /\ forall reply, r = Ok reply ->
               session_ended state env headers "rp_initiated" db db'
               /\ sends_to reply target /\ clears_cookies state reply).
Proof.
  intros Hk. split.
  - intros r db' H. unfold logout, handler_bind in H. cbn [lift prog_bind] in H.
    destruct (require_csrf headers) as [[]|e]; [|by injection H as <- <-].
    rewrite run_bind in H.
    destruct (run (end_cookie_session state env headers "browser") db) as [r1 db1] eqn:Ee.
    apply end_cookie_session_run in Ee as [Hno He]; [|done].
    destruct r1 as [[]|e]; [|injection H as <- <-; by split].
    destruct (clear_browser_session_cookies [] state) as [set|] eqn:Ec; cbn in H;
      injection H as <- <-; [|by split].
    apply clear_cookies_Ok in Ec as (v1 & v2 & H1 & H2 & ->).
    split; [done|]. intros reply [= <-]. split; [by apply He|]. split; [done|]. by exists [], v1, v2.
  - intros q body page r db' [->| ->] H.
    + unfold end_session in H. destruct (end_session_request_from_query q) as [request|e] eqn:Er;
        [|injection H as <- <-; left; by exists e].
      apply end_session_response_run in H as [H|(target & H)]; [by left| |done].
      right. exists request, target. split; [by left|done].
    + unfold end_session_post in H. destruct (end_session_request_from_form headers body) as [request|e] eqn:Er;
        [|injection H as <- <-; left; by exists e].
      apply end_session_response_run in H as [H|(target & H)]; [by left| |done].
      right. exists request, target. split; [by right|done].
Qed.

(** *** The way of an ID token *)

(** [encode] and [decode] of [jsonwebtoken] for a key pair: a token signed with
    the private key names its key, and is decoded with the public one to the
    claims that were signed when neither expiry nor audience are validated and
    the issuer is one of those allowed. *)
Definition jwt_round_trip (signing : SigningMaterial) : Prop :=
  exists n e key, value_get (signing_public_jwk signing) "n" ≫= as_str = Some n
    /\ value_get (signing_public_jwk signing) "e" ≫= as_str = Some e
    /\ from_rsa_components n e = Some key
    /\ forall kid claims token v,
         jwt_encode kid (signing_private_key_pem signing) claims = Some token ->
         token <> "" /\ utf8_valid token = true
         /\ decode_header token = Some (mk_JwtHeader RS256 (Some kid))
         /\ (validation_algorithm v = RS256 -> validate_exp v = false -> validate_aud v = false ->
             required_spec_claims v ⊆ ["exp"; "iss"; "aud"; "sub"] ->
             iss claims ∈ validation_iss v -> jwt_decode token key v = Some claims).

Lemma issued_hint_accepted now request issuer token :
  jwt_round_trip (issue_signing request) ->
  issue_id_token now request = Ok token ->
  trim_end_matches "/" issuer = trim_end_matches "/" (issue_issuer request) ->
  token <> "" /\ utf8_valid token = true
  /\ validate_logout_id_token_hint_issuer token issuer (issue_signing request)
     = Ok (id_token_claims now request).
Proof.
  intros (n & e & key & Hn & He & Hkey & Hj) Ht%ok_or_Ok Hi.
  destruct (Hj _ _ _ (logout_hint_validation issuer) Ht) as (Hne & Hu & Hh & Hd).
  split; [done|]. split; [done|]. unfold validate_logout_id_token_hint_issuer. rewrite Hh. cbn.
  rewrite !bool_decide_true by done. cbn. unfold decoding_key_from_public_jwk.
  rewrite Hn, He. cbn. rewrite Hkey. cbn. rewrite Hd; [done..|]. cbn. rewrite Hi. set_solver.
Qed.

(** The query of a logout a client asks for. *)
Definition logout_query (token uri st : string) : string :=
  join "&" (encode_pair <$> [("id_token_hint", token); ("post_logout_redirect_uri", uri);
                             ("state", st)]).
Lemma logout_query_parses token uri st :
  utf8_valid token = true -> utf8_valid uri = true -> utf8_valid st = true ->
  (len (logout_query token uri st) <= OAUTH_QUERY_MAX_BYTES)%N ->
  end_session_request_from_query (Some (logout_query token uri st))
  = Ok (mk_EndSessionRequest (Some token) None None (Some uri) (Some st) None).
Proof.
  intros Ht Hu Hs Hl. unfold end_session_request_from_query. cbn [from_option id].
  apply N.leb_le in Hl. rewrite Hl. unfold logout_query. rewrite parse_encoded_pairs; [done|].
  repeat constructor; done.
Qed.
Lemma issued_hint_target state now request client uri st db :
  run (resolve_signing_material state) db = (Ok (issue_signing request), db) ->
  jwt_round_trip (issue_signing request) -> config_issuer state = issue_issuer request ->
  get_oidc_client_by_public_id (client_client_id (issue_client request)) db = (Ok (Some client), db) ->
  client_organization_id client = state_organization_id state ->
  client_status client = ClientStatus_Active ->
  uri ∈ client_post_logout_redirect_uris client -> uri <> "" ->
  forall token, issue_id_token now request = Ok token ->
  run (post_logout_redirect_target state
         (mk_EndSessionRequest (Some token) None None (Some uri) (Some st) None)) db
  = (Ok (Some (append_post_logout_redirect_params uri (Some st))), db).
Proof.
  intros Hr Hj Hi Hc Ho Ha Hu Hne token Ht.
  destruct (issued_hint_accepted now request (config_issuer state) token) as (Htne & _ & Hv);
    [done..|by rewrite Hi|].
  unfold post_logout_redirect_target. cbn [end_post_logout_redirect_uri end_id_token_hint end_client_id].
  rewrite (proj2 (nonempty_Some (Some uri) uri)) by done.
  rewrite (proj2 (nonempty_Some (Some token) token)) by done. unfold some_or. cbn [ok_or].
  rewrite lift_Ok_bind, (run_known _ _ _ _ Hr), Hv. cbn [map_err nonempty from_option id id_token_claims aud].
  rewrite lift_Ok_bind. rewrite (run_known _ _ db (Some client)).
  2: { unfold query. cbn [run].
       change (aud (id_token_claims now request)) with (client_client_id (issue_client request)).
       by rewrite Hc. }
  unfold get_oidc_client_by_public_id, db_gets in Hc. injection Hc as Hc.
  apply find_row_Some in Hc as (k & _ & Hid%bool_decide_eq_true).
  unfold some_or. cbn [ok_or]. rewrite lift_Ok_bind, Ho, N.eqb_refl.
  change (aud (id_token_claims now request)) with (client_client_id (issue_client request)).
  unfold oidc_client_is_active. rewrite Ha, Hid, !bool_decide_true by done.
  unfold post_logout_redirect_target_for_client. rewrite (proj2 (allows_post_logout_true client uri) Hu).
  reflexivity.
Qed.

(** Nothing keeps the reply from being written: the target and the cookies are
    header values, the audit event is new and its organization exists. *)
Record reply_possible state env db (target : string) : Prop := mk_reply_possible {
  possible_target : is_Some (header_value_from_str target);
  possible_session_cookie : is_Some (header_value_from_str (cleared_cookie state SESSION_COOKIE));
  possible_csrf_cookie : is_Some (header_value_from_str (cleared_cookie state CSRF_COOKIE));
  possible_event : t_audit_events db !! own_event_id env = None;
  possible_organization : is_Some (t_organizations db !! state_organization_id state);
}.
Lemma end_cookie_session_succeeds state env headers initiator db target :
  reply_possible state env db target -> sessions_keyed db ->
  exists db', run (end_cookie_session state env headers initiator) db = (Ok tt, db').
Proof.
  intros [_ _ _ Hev Horg] Hk. unfold end_cookie_session.
  destruct (session_from_cookie_run state (own_session_now env) headers db) as (o & Hr & Ho).
  rewrite (run_known _ _ _ _ Hr). destruct o as [s|]; [|by eexists].
  pose proof (proj1 (Ho s) eq_refl) as Hs.
  assert (session_organization_id s = state_organization_id state) as Hso
    by (destruct Hs as (? & ? & _ & _ & _ & H & _); exact H).
  destruct (carried_row _ _ _ _ _ Hk Hs) as (raw & row & _ & _ & Hrow & <-).
  unfold revoke_session_for_logout, handler_bind, revoke_auth_session. cbn [query prog_bind run].
  unfold update_key, db_apply, update_row. rewrite Hrow. cbn [map_err prog_bind query run].
  unfold insert_audit_event, db_bind, db_check, db_modify. rewrite logout_event_id.
  unfold absent, fk_organization. cbn [t_audit_events t_organizations on_auth_sessions].
  rewrite (bool_decide_true (t_audit_events db !! own_event_id env = None)) by done.
  replace (audit_organization_id _) with (state_organization_id state)
    by (unfold logout_event; by destruct (headers_audit_context headers)).
  rewrite bool_decide_true by done. by eexists.
Qed.
Lemma end_session_response_sends state env headers request db target :
  reply_possible state env db target -> sessions_keyed db ->
  run (post_logout_redirect_target state request) db = (Ok (Some target), db) ->
  exists reply db', run (end_session_response state env headers request) db = (Ok reply, db')
    /\ session_ended state env headers "rp_initiated" db db'
    /\ no_session_left state env headers db'
    /\ sends_to reply (Some target) /\ clears_cookies state reply.
Proof.
  intros Hp Hk Ht. destruct (end_cookie_session_succeeds state env headers "rp_initiated" db target Hp Hk)
    as [db1 He].
  pose proof (end_cookie_session_run _ _ _ _ _ _ _ Hk He) as [Hno Hended].
  destruct Hp as [[location Hl] [v1 H1] [v2 H2] _ _].
  unfold end_session_response. rewrite run_bind, Ht, (run_known_at _ _ _ _ _ He).
  assert (logout_redirect_response target
          = Ok (mk_Reply (mk_Response 302 [("location", location)]) Body_Empty)) as ->
    by (unfold logout_redirect_response; by rewrite Hl).
  rewrite lift_Ok_bind.
  cbn [reply_response response_headers response_status reply_body].
  set (hs := add_oauth_cache_headers _).
  rewrite (proj2 (clear_cookies_Ok hs state _))
    by (exists v1, v2; split_and!; [done|done|reflexivity]).
  rewrite lift_Ok_bind. eexists _, db1. split; [reflexivity|]. split_and!; [by apply Hended|done| |].
  - split; [done|]. exists location. split; [done|]. cbn. set_solver.
  - by exists hs, v1, v2.
Qed.

(** C11. An ID token is good for a logout as long as its key is the service's: a
    client that shows an ID token the service once issued to it, however long
    expired, and asks to come back to one of its registered addresses, gets its
    user's session ended and the browser sent to that address with its state;
    the request is the query a client writes with percent-encoding. *)
Theorem issued_token_logs_out state env headers db now request client token uri st :
  sessions_keyed db ->
  run (resolve_signing_material state) db = (Ok (issue_signing request), db) ->
  jwt_round_trip (issue_signing request) -> config_issuer state = issue_issuer request ->
  issue_id_token now request = Ok token ->
  get_oidc_client_by_public_id (client_client_id (issue_client request)) db = (Ok (Some client), db) ->
  client_organization_id client = state_organization_id state ->
  client_status client = ClientStatus_Active ->
  uri ∈ client_post_logout_redirect_uris client -> uri <> "" ->
  utf8_valid uri = true -> utf8_valid st = true ->
  (len (logout_query token uri st) <= OAUTH_QUERY_MAX_BYTES)%N ->
  reply_possible state env db (append_post_logout_redirect_params uri (Some st)) ->
  exists reply db',
    run (end_session state env headers (Some (logout_query token uri st))) db = (Ok reply, db')
    /\ session_ended state env headers "rp_initiated" db db'
    /\ no_session_left state env headers db'
    /\ sends_to reply (Some (append_post_logout_redirect_params uri (Some st)))
    /\ clears_cookies state reply.
Proof.
  intros Hk Hr Hj Hi Ht Hc Ho Ha Hu Hne Hvu Hvs Hlen Hp.
  destruct (issued_hint_accepted now request (config_issuer state) token) as (_ & Hvt & _);
    [done..|by rewrite Hi|].
  unfold end_session. rewrite logout_query_parses by done.
  apply end_session_response_sends; [done..|]. by eapply issued_hint_target.
Qed.
End signing_out.
