(* ===== verification/AdminClients.v ===== *)
(** * The administration of clients and consents

    [apps/api/src/http]'s admin_oidc with the client part of client_policy:
    clients, their secrets and status, consent policies and the consents users
    gave to a client. *)

From S2P Require Import Prelude RustStr Domain Authn Oidc Http Codec Store.
From S2P Require Import ClientStore SessionStore Directory AuditStore ConsentStore.
From S2P Require Import Handler KeyStore OAuthPolicy RequestContext BrowserSession.
From S2P Require Import Mfa Login AccountRoutes Listing AdminRoutes.

(* apps/api/src/http/admin_oidc/types.rs:11-27 AdminOidcClient *)
Record AdminOidcClient := mk_AdminOidcClient {
  admin_client_uuid : Uuid;
  admin_client_organization_id : Uuid;
  admin_client_client_id : string;
  admin_client_consent_policy_template_id : option Uuid;
  admin_client_name : string;
  admin_client_redirect_uris : list string;
  admin_client_post_logout_redirect_uris : list string;
  admin_client_allowed_scopes : list string;
  admin_client_grant_types : list OidcGrantType;
  admin_client_public_client : bool;
  admin_client_require_pkce : bool;
  admin_client_status : OidcClientStatus;
  admin_client_has_client_secret : bool;
  admin_client_created_at : OffsetDateTime;
}.
(* apps/api/src/http/admin_oidc/types.rs:29-48 AdminOidcClient::from *)
Definition admin_oidc_client (client : OidcClient) : AdminOidcClient :=
  mk_AdminOidcClient (client_uuid client) (client_organization_id client) (client_client_id client)
    (client_consent_policy_template_id client) (client_name client) (client_redirect_uris client)
    (client_post_logout_redirect_uris client) (client_allowed_scopes client)
    (client_grant_types client) (client_public_client client) (client_require_pkce client)
    (client_status client) (is_some (client_secret_hash client)) (client_created_at client).
(** The number fields of a reply are those of the mutation. *)
(* apps/api/src/http/admin_oidc/types.rs:62-76 UpdateOidcClientResponse *)
Record UpdateOidcClientResponse := mk_UpdateOidcClientResponse {
  update_response_client : AdminOidcClient;
  update_response_mutation : ClientRuntimeCredentialMutation;
}.
(* apps/api/src/http/admin_oidc/types.rs:79-91 AdminConsentGrantSummary *)
Record AdminConsentGrantSummary := mk_AdminConsentGrantSummary {
  admin_grant : ConsentGrant;
  admin_grant_user_email : string;
  admin_grant_user_display_name : string;
}.
(* apps/api/src/http/admin_oidc/types.rs:92-106 AdminConsentGrantSummary::from *)
Definition admin_consent_grant_summary (summary : ConsentGrantSummary) : AdminConsentGrantSummary :=
  mk_AdminConsentGrantSummary (summary_grant summary) (summary_user_email summary)
    (summary_user_display_name summary).
(* apps/api/src/http/admin_oidc/types.rs:108-127 AdminConsentGrantRevocationResponse::from *)
Definition admin_consent_grant_revocation (revocation : ConsentGrantRevocation)
    : AdminConsentGrantSummary * (nat * nat * nat * nat) :=
  (admin_consent_grant_summary (revocation_grant revocation),
   (revocation_consent_grants_revoked revocation, revocation_authorization_codes_invalidated revocation,
    revocation_access_tokens_revoked revocation, revocation_refresh_tokens_revoked revocation)).

(* apps/api/src/http/admin_oidc/types.rs:136-143 UpdateClientRequest *)
Record UpdateClientRequest := mk_UpdateClientRequest {
  update_name : string;
  update_redirect_uris : list string;
  update_post_logout_redirect_uris : list string;
  update_allowed_scopes : list string;
  update_consent_policy_template_id : option Uuid;
}.
(* apps/api/src/http/admin_oidc/types.rs:153-165 CreateClientRequest *)
Record CreateClientRequest := mk_CreateClientRequest {
  create_client_id : string;
  create_name : string;
  create_redirect_uris : list string;
  create_post_logout_redirect_uris : list string;
  create_allowed_scopes : list string;
  create_public_client : bool;
  create_consent_policy_template_id : option Uuid;
}.

(** The loop over the scopes, then the scope every client has. *)
Fixpoint valid_scopes_loop (allowed_scopes scopes : list string) : result ApiError (list string) :=
  match scopes with
  | [] => Ok allowed_scopes
  | scope :: scopes =>
      if negb (scope_token_is_valid scope) then Err (api_bad_request "invalid client scope")
      else if contains allowed_scopes scope then valid_scopes_loop allowed_scopes scopes
      else valid_scopes_loop (allowed_scopes ++ [scope]) scopes
  end.
(* apps/api/src/http/admin_oidc/types.rs:175-191 validate_allowed_client_scopes *)
Definition validate_allowed_client_scopes (scopes : list string) : result ApiError (list string) :=
  let? allowed_scopes := valid_scopes_loop [] scopes in
  Ok (if contains allowed_scopes "openid" then allowed_scopes else allowed_scopes ++ ["openid"]).

(* crates/database/src/oidc_clients/consent_policies.rs:51-81 list_consent_policy_templates *)
Definition list_consent_policy_templates (organization_id : Uuid) (after : option ListCursor)
    (limit : nat) : DB (list ConsentPolicyTemplate) :=
  db_gets (fun db =>
    take limit (order_by (created_desc policy_created_at policy_id)
      (select_where (fun p =>
         N.eqb (policy_organization_id p) organization_id
         && after_cursor policy_created_at policy_id after p)
         (t_consent_policy_templates db)))).

Section pages.
Context {CC : CryptoCrates} {TC : TokenCrates} {AG : AesGcm} {HC : HttpCrates} {UU : UuidCrate}.
Context {BD : Base64Decode} {TN : TimeNanos} {UC : UrlCrate}.

(** [.map(RedirectUri::parse).collect::<Result<Vec<_>, _>>()?] *)
Definition parse_redirect_uris (uris : list string) : result ApiError (list string) :=
  map_err api_domain_error (mapM RedirectUri_parse uris).
(* apps/api/src/http/client_policy.rs:80-93 organization_client_by_id *)
Definition organization_client_by_id (state : AppState) (client_id : Uuid) : Handler OidcClient :=
  do! client := query (get_oidc_client_in_organization (state_organization_id state) client_id) in
  some_or client (not_found "client not found").
(* apps/api/src/http/client_policy.rs:95-115 validate_consent_policy_template_assignment *)
Definition validate_consent_policy_template_assignment (state : AppState) (template_id : option Uuid)
    : Handler (option Uuid) :=
  match template_id with
  | None => succeed None
  | Some template_id =>
      do! template := query (get_consent_policy_template (state_organization_id state) template_id) in
      do! _ := reject_if (is_none template) (not_found "consent policy template not found") in
      succeed (Some template_id)
  end.

(** ** Clients *)

(* apps/api/src/http/admin_oidc/clients.rs:32-60 list_clients *)
Definition list_clients_route (like : string -> string -> bool) (state : AppState) (env : AdminEnv)
    (headers : HeaderMap) (raw_query : option string) : Handler (ListPage AdminOidcClient) :=
  do! _ := require_admin_session state (admin_session_now env) headers in
  do! parsed := lift (admin_oidc_client_list_query raw_query ADMIN_LIST_DEFAULT_LIMIT
                        ADMIN_LIST_MAX_LIMIT) in
  let query_page := client_query_page parsed in
  do! clients := query (list_oidc_clients_page_filtered like (state_organization_id state)
                          (client_query_filter parsed) (list_cursor query_page)
                          (Z.to_nat (fetch_limit query_page))) in
  let page := list_page clients (list_limit query_page)
                (fun client => mk_ListCursor (client_created_at client) (client_uuid client)) in
  succeed (mk_ListPage (admin_oidc_client <$> page_items page) (page_next_cursor page)).
(* apps/api/src/http/admin_oidc/clients.rs:62-71 get_client *)
Definition get_client_route (state : AppState) (env : AdminEnv) (headers : HeaderMap) (client_id : Uuid)
    : Handler AdminOidcClient :=
  do! _ := require_admin_session state (admin_session_now env) headers in
  do! client := organization_client_by_id state client_id in
  succeed (admin_oidc_client client).

Definition created_client (state : AppState) (env : AdminEnv) (payload : CreateClientRequest)
    (secret_hash : option string) (allowed_scopes redirect_uris post_logout_redirect_uris : list string)
    (consent_policy_template_id : option Uuid) : OidcClient :=
  mk_OidcClient (admin_new_id env) (state_organization_id state) (create_client_id payload) secret_hash
    consent_policy_template_id (create_name payload) redirect_uris post_logout_redirect_uris
    allowed_scopes
    (if create_public_client payload then [AuthorizationCodeGrant; RefreshTokenGrant]
     else [AuthorizationCodeGrant; RefreshTokenGrant; ClientCredentialsGrant])
    (create_public_client payload) true ClientStatus_Active (admin_now env).
(** The reply is the client and its secret in the clear. *)
(* apps/api/src/http/admin_oidc/clients.rs:73-151 create_client *)
Definition create_client_route (state : AppState) (env : AdminEnv) (headers : HeaderMap)
    (payload : CreateClientRequest) : Handler (AdminOidcClient * option string) :=
  admin_change state env headers (fun actor =>
  do! allowed_scopes := lift (validate_allowed_client_scopes (create_allowed_scopes payload)) in
  do! template_id := validate_consent_policy_template_assignment state
                       (create_consent_policy_template_id payload) in
  let secret := if create_public_client payload then None
                else Some (generate_hashed_secret (admin_secret_id env) (admin_secret env)) in
  do! redirect_uris := lift (parse_redirect_uris (create_redirect_uris payload)) in
  do! post_logout_redirect_uris :=
    lift (parse_redirect_uris (create_post_logout_redirect_uris payload)) in
  let client := created_client state env payload (generated_hash <$> secret) allowed_scopes redirect_uris
                  post_logout_redirect_uris template_id in
  do! _ := query (create_oidc_client client) in
  do! _ := admin_audit env (audit_user (state_organization_id state) (session_user_id actor)
             "admin.client_created" (uuid_to_string (client_uuid client))) in
  succeed (admin_oidc_client client, generated_value <$> secret)).

Definition mutation_json (mutation : ClientRuntimeCredentialMutation) : list (string * Value) :=
  [("authorization_codes_invalidated", Number (Z.of_nat (authorization_codes_invalidated mutation)));
   ("access_tokens_revoked", Number (Z.of_nat (access_tokens_revoked mutation)));
   ("refresh_tokens_revoked", Number (Z.of_nat (refresh_tokens_revoked mutation)))].
(* apps/api/src/http/admin_oidc/clients.rs:153-218 update_client *)
Definition update_client_route (state : AppState) (env : AdminEnv) (headers : HeaderMap)
    (client_id : Uuid) (payload : UpdateClientRequest) : Handler UpdateOidcClientResponse :=
  admin_change state env headers (fun actor =>
  do! allowed_scopes := lift (validate_allowed_client_scopes (update_allowed_scopes payload)) in
  do! template_id := validate_consent_policy_template_assignment state
                       (update_consent_policy_template_id payload) in
  do! redirect_uris := lift (parse_redirect_uris (update_redirect_uris payload)) in
  do! post_logout_redirect_uris :=
    lift (parse_redirect_uris (update_post_logout_redirect_uris payload)) in
  let update := mk_OidcClientDetailsUpdate (update_name payload) redirect_uris
                  post_logout_redirect_uris allowed_scopes template_id in
  do! outcome := query (update_oidc_client_details (state_organization_id state) client_id update
                          (admin_now env)) in
  do! applied := some_or outcome (not_found "client not found") in
  let '(client, fields, mutation) := applied in
  do! _ := admin_audit env
    (audit_with_metadata
      (Object (("client_id", String_ (client_client_id client))
               :: ("changed_fields", Array (String_ <$> fields)) :: mutation_json mutation))
      (audit_user (state_organization_id state) (session_user_id actor) "admin.client_updated"
         (uuid_to_string (client_uuid client)))) in
  succeed (mk_UpdateOidcClientResponse (admin_oidc_client client) mutation)).

(* apps/api/src/http/admin_oidc/clients.rs:220-263 rotate_client_secret *)
Definition rotate_client_secret_route (state : AppState) (env : AdminEnv) (headers : HeaderMap)
    (client_id : Uuid) : Handler (AdminOidcClient * string) :=
  admin_change state env headers (fun actor =>
  do! client := organization_client_by_id state client_id in
  do! _ := reject_if (client_public_client client) (conflict "public clients do not have secrets") in
  let secret := generate_hashed_secret (admin_secret_id env) (admin_secret env) in
  do! rotated := query (rotate_oidc_client_secret (state_organization_id state) (client_uuid client)
                          (generated_hash secret)) in
  do! _ := reject_if (negb rotated) (not_found "client not found") in
  let client := client_set_secret_hash (Some (generated_hash secret)) client in
  do! _ := admin_audit env
    (audit_with_metadata (Object [("client_id", String_ (client_client_id client))])
       (audit_user (state_organization_id state) (session_user_id actor) "admin.client_secret_rotated"
          (uuid_to_string (client_uuid client)))) in
  succeed (admin_oidc_client client, generated_value secret)).

(* apps/api/src/http/admin_oidc/clients.rs:265-311 update_client_status *)
Definition update_client_status_route (state : AppState) (env : AdminEnv) (headers : HeaderMap)
    (client_id : Uuid) (status : OidcClientStatus) : Handler UpdateOidcClientResponse :=
  admin_change state env headers (fun actor =>
  do! outcome := query (update_oidc_client_status (state_organization_id state) client_id status
                          (admin_now env)) in
  do! applied := some_or outcome (not_found "client not found") in
  let '(client, mutation) := applied in
  do! _ := admin_audit env
    (audit_with_metadata
      (Object (("client_id", String_ (client_client_id client))
               :: ("status", String_ (to_str (client_status client))) :: mutation_json mutation))
      (audit_user (state_organization_id state) (session_user_id actor) "admin.client_status_updated"
         (uuid_to_string (client_uuid client)))) in
  succeed (mk_UpdateOidcClientResponse (admin_oidc_client client) mutation)).

(** ** Consent policies *)

(* apps/api/src/http/admin_oidc/consent_policies.rs:22-41 list_consent_policy_templates *)
Definition list_consent_policy_templates_route (state : AppState) (env : AdminEnv) (headers : HeaderMap)
    (raw_query : option string) : Handler (ListPage ConsentPolicyTemplate) :=
  do! _ := require_admin_session state (admin_session_now env) headers in
  do! page := lift (admin_list_query raw_query ADMIN_LIST_DEFAULT_LIMIT ADMIN_LIST_MAX_LIMIT) in
  do! templates := query (list_consent_policy_templates (state_organization_id state)
                            (list_cursor page) (Z.to_nat (fetch_limit page))) in
  succeed (list_page templates (list_limit page)
             (fun template => mk_ListCursor (policy_created_at template) (policy_id template))).
(* apps/api/src/http/admin_oidc/consent_policies.rs:43-80 create_consent_policy_template *)
Definition create_consent_policy_template_route (state : AppState) (env : AdminEnv)
    (headers : HeaderMap) (slug name : string) (grant_mode : ConsentGrantMode)
    : Handler ConsentPolicyTemplate :=
  admin_change state env headers (fun actor =>
  do! slug := lift (map_err api_domain_error (checked_string "slug" slug 80)) in
  do! name := lift (map_err api_domain_error (checked_string "name" name 160)) in
  let template := mk_ConsentPolicyTemplate (admin_new_id env) (state_organization_id state) slug name
                    grant_mode (admin_now env) in
  do! _ := query (create_consent_policy_template template) in
  do! _ := admin_audit env
    (audit_with_metadata (Object [("slug", String_ slug); ("grant_mode", String_ (to_str grant_mode))])
       (audit_user (state_organization_id state) (session_user_id actor)
          "admin.consent_policy_template_created" (uuid_to_string (policy_id template)))) in
  succeed template).

(** ** Consents *)

(* apps/api/src/http/admin_oidc/consent_grants.rs:22-52 list_client_consent_grants *)
Definition list_client_consent_grants (state : AppState) (env : AdminEnv) (headers : HeaderMap)
    (client_id : Uuid) (raw_query : option string) : Handler (ListPage AdminConsentGrantSummary) :=
  do! _ := require_admin_session state (admin_session_now env) headers in
  do! client := organization_client_by_id state client_id in
  do! parsed := lift (admin_consent_grant_list_query raw_query ADMIN_LIST_DEFAULT_LIMIT
                        ADMIN_LIST_MAX_LIMIT) in
  let '(page, revoked) := parsed in
  do! grants := query (list_consent_grants_for_client_page_filtered (state_organization_id state)
                         (client_uuid client) revoked (list_cursor page) (Z.to_nat (fetch_limit page))) in
  succeed (list_page (admin_consent_grant_summary <$> grants) (list_limit page)
             (fun s => mk_ListCursor (grant_created_at (admin_grant s)) (grant_id (admin_grant s)))).
(* apps/api/src/http/admin_oidc/consent_grants.rs:54-103 revoke_client_consent_grant *)
Definition revoke_client_consent_grant (state : AppState) (env : AdminEnv) (headers : HeaderMap)
    (client_id grant_id_ : Uuid) : Handler (AdminConsentGrantSummary * (nat * nat * nat * nat)) :=
  admin_change state env headers (fun actor =>
  do! client := organization_client_by_id state client_id in
  do! revocation := query (revoke_user_client_consent_and_tokens (state_organization_id state)
                             (client_uuid client) grant_id_ (admin_now env)) in
  do! revocation := some_or revocation (not_found "consent grant not found") in
  let grant := summary_grant (revocation_grant revocation) in
  do! _ := admin_audit env
    (audit_with_metadata
      (Object
        [("client_id", String_ (uuid_to_string (client_uuid client)));
         ("client_public_id", String_ (client_client_id client));
         ("user_id", String_ (uuid_to_string (grant_user_id grant)));
         ("user_email", String_ (summary_user_email (revocation_grant revocation)));
         ("scopes", Array (String_ <$> grant_scopes grant));
         ("consent_grants_revoked", Number (Z.of_nat (revocation_consent_grants_revoked revocation)));
         ("authorization_codes_invalidated",
           Number (Z.of_nat (revocation_authorization_codes_invalidated revocation)));
         ("access_tokens_revoked", Number (Z.of_nat (revocation_access_tokens_revoked revocation)));
         ("refresh_tokens_revoked", Number (Z.of_nat (revocation_refresh_tokens_revoked revocation)))])
      (audit_user (state_organization_id state) (session_user_id actor) "admin.consent_revoked"
         (uuid_to_string grant_id_))) in
  succeed (admin_consent_grant_revocation revocation)).
End pages.

(** ** Properties *)

Section client_properties.
Context {CC : CryptoCrates} {TC : TokenCrates} {AG : AesGcm} {HC : HttpCrates} {UU : UuidCrate}.
Context {UC : UrlCrate}.

Lemma valid_scopes_loop_Ok acc scopes r :
  valid_scopes_loop acc scopes = Ok r ->
  (forall s, s ∈ acc -> scope_token_is_valid s = true) ->
  (forall s, s ∈ r -> scope_token_is_valid s = true)
  /\ (forall s, s ∈ r <-> s ∈ acc \/ s ∈ scopes) /\ (NoDup acc -> NoDup r).
Proof.
  revert acc. induction scopes as [|s scopes IH]; intros acc; cbn.
  - intros [= <-] Hacc. split_and!; try done. intros s. set_solver.
  - destruct (scope_token_is_valid s) eqn:Hs; [|done]. cbn. destruct (contains acc s) eqn:Hc; intros H Hacc.
    + apply contains_true in Hc. destruct (IH acc H Hacc) as (Hv & Hin & Hnd). split_and!; try done.
      intros x. rewrite Hin. set_solver.
    + apply contains_false in Hc. destruct (IH (acc ++ [s]) H) as (Hv & Hin & Hnd).
      { intros x [Hx|Hx%list_elem_of_singleton]%elem_of_app; [auto|by subst]. }
      split_and!; try done.
      * intros x. rewrite Hin. set_solver.
      * intros Ha. apply Hnd, NoDup_app. split_and!; [done|set_solver|apply NoDup_singleton].
Qed.
Lemma validate_allowed_client_scopes_Ok scopes r :
  validate_allowed_client_scopes scopes = Ok r ->
  NoDup r /\ (forall s, s ∈ r -> scope_token_is_valid s = true)
  /\ (forall s, s ∈ r <-> s = "openid" \/ s ∈ scopes).
Proof.
  unfold validate_allowed_client_scopes. intros (l & Hl & [= <-])%result_bind_Ok.
  destruct (valid_scopes_loop_Ok _ _ _ Hl) as (Hv & Hin & Hnd); [set_solver|].
  specialize (Hnd (NoDup_nil_2)). destruct (contains l "openid") eqn:Hc.
  - apply contains_true in Hc. split_and!; try done. intros s. rewrite Hin in *. set_solver.
  - apply contains_false in Hc. split_and!.
    + apply NoDup_app. split_and!; [done|set_solver|apply NoDup_singleton].
    + intros s [Hs|Hs%list_elem_of_singleton]%elem_of_app; [auto|by subst].
    + intros s. rewrite elem_of_app, Hin. set_solver.
Qed.
Lemma parse_redirect_uris_Ok uris r :
  parse_redirect_uris uris = Ok r -> Forall2 (fun raw uri => RedirectUri_parse raw = Ok uri) uris r.
Proof.
  unfold parse_redirect_uris. rewrite map_err_Ok. revert r. induction uris as [|u uris IH]; intros r; cbn.
  - intros [= <-]. constructor.
  - intros (x & Hx & H)%result_bind_Ok. apply result_bind_Ok in H as (l & Hl & [= <-]).
    constructor; [done|by apply IH].
Qed.

(** A client whose public identifier no other client has. *)
Lemma authenticates_iff state auth db id client :
  t_oidc_clients db !! id = Some client ->
  (forall k c, t_oidc_clients db !! k = Some c -> client_client_id c = client_client_id client -> c = client) ->
  client_organization_id client = state_organization_id state -> client_status client = ClientStatus_Active ->
  run (authenticated_client_from_request state auth) db = (Ok client, db) <-> client_proven client auth.
Proof.
  intros Hc Hu Ho Hs. rewrite authenticated_client_Ok. split; [tauto|]. intros Hp. split_and!; try done.
  apply (find_row_unique _ _ id); [done|by apply bool_decide_eq_true|].
  intros k c Hk He. apply bool_decide_eq_true in He. by eapply Hu.
Qed.
Definition proves_secret (client : OidcClient) (secret : option string) (auth : OAuthClientAuth) : Prop :=
  auth_client_id auth = Some (client_client_id client)
  /\ hash_token <$> auth_client_secret auth = hash_token <$> secret.
Lemma secret_proven client secret auth :
  client_secret_hash client = hash_token <$> secret ->
  (client_public_client client = true <-> secret = None) ->
  client_proven client auth <-> proves_secret client secret auth.
Proof.
  intros Hs Hp. unfold client_proven, proves_secret. apply and_iff_compat_l.
  destruct (client_public_client client).
  - rewrite (proj1 Hp eq_refl). destruct (auth_client_secret auth); naive_solver.
  - destruct secret as [secret|]; [|by pose proof (proj2 Hp eq_refl)]. rewrite Hs. cbn.
    destruct (auth_client_secret auth) as [s|]; cbn; split.
    + intros (s' & [= <-] & Hh). by rewrite Hh.
    + intros Hh. exists s. by rewrite Hh.
    + by intros (s' & [=] & _).
    + done.
Qed.

Lemma admin_change_Ok {A} state env headers (k : AuthSession -> Handler A) db a db' :
  run (admin_change state env headers k) db = (Ok a, db') ->
  exists actor, run (k actor) db = (Ok a, db').
Proof.
  intros H. apply run_handler_Ok in H as (actor & d & Hguard & H).
  destruct (require_recent_admin_session_spec state (admin_session_now env) (admin_recent_now env) headers db)
    as [Hdb _]. rewrite Hguard in Hdb. cbn in Hdb. subst d.
  apply lift_then_Ok in H as ([] & _ & H). by exists actor.
Qed.
Lemma policy_assignment_Ok state id db r db' :
  run (validate_consent_policy_template_assignment state id) db = (Ok r, db') -> db' = db.
Proof.
  unfold validate_consent_policy_template_assignment, get_consent_policy_template, db_gets.
  destruct id as [id|]; [|by intros [= _ <-]]. intros H. run_steps. by simplify_eq.
Qed.
Lemma admin_audit_then_Ok {A} env event (x a : A) db db' :
  run (do! _ := admin_audit env event in succeed x) db = (Ok a, db') ->
  a = x /\ t_oidc_clients db' = t_oidc_clients db.
Proof.
  intros (u & d & H1 & [= <- <-])%run_handler_Ok. apply run_query_Ok in H1.
  unfold insert_audit_event in H1. by db_steps.
Qed.
(** The row an administrator creates, and that its public identifier is new. *)
Lemma create_client_Ok state env headers payload db shown secret db' :
  run (create_client_route state env headers payload) db = (Ok (shown, secret), db') ->
  exists scopes uris posts template,
    let hash := if create_public_client payload then None else Some (hash_token (admin_secret env)) in
    let client := created_client state env payload hash scopes uris posts template in
    secret = (if create_public_client payload then None else Some (admin_secret env))
    /\ shown = admin_oidc_client client
    /\ "openid" ∈ scopes /\ (forall s, s ∈ scopes -> scope_token_is_valid s = true)
    /\ Forall2 (fun raw uri => RedirectUri_parse raw = Ok uri) (create_redirect_uris payload) uris
    /\ t_oidc_clients db !! admin_new_id env = None
    /\ (forall k c, t_oidc_clients db !! k = Some c -> client_client_id c <> create_client_id payload)
    /\ t_oidc_clients db' = <[admin_new_id env := client]> (t_oidc_clients db).
Proof.
  intros [actor H]%admin_change_Ok.
  apply lift_then_Ok in H as (scopes & Hscopes & H).
  apply validate_allowed_client_scopes_Ok in Hscopes as (_ & Hvalid & Hin).
  apply run_handler_Ok in H as (template & d & ->%policy_assignment_Ok & H).
  apply lift_then_Ok in H as (uris & Huris%parse_redirect_uris_Ok & H).
  apply lift_then_Ok in H as (posts & _ & H).
  apply query_then_Ok in H as (u & d1 & Hcreate & H).
  apply admin_audit_then_Ok in H as [Hr Hclients]. injection Hr as -> ->.
  unfold create_oidc_client in Hcreate. db_steps.
  exists scopes, uris, posts, template. rewrite Hclients.
  unfold absent, client_public_id_absent in *. bool_prop.
  split_and!; try (by destruct (create_public_client payload)); try done.
  - apply Hin. by left.
Qed.
Lemma rotate_client_Ok state env headers id db shown secret db' client :
  run (rotate_client_secret_route state env headers id) db = (Ok (shown, secret), db') ->
  t_oidc_clients db !! id = Some client -> client_uuid client = id ->
  let rotated := client_set_secret_hash (Some (hash_token secret)) client in
  shown = admin_oidc_client rotated /\ client_public_client client = false
  /\ t_oidc_clients db' = <[id := rotated]> (t_oidc_clients db).
Proof.
  intros [actor H]%admin_change_Ok Hc Hid. unfold organization_client_by_id in H.
  apply run_handler_Ok in H as (c & d & Hget & H). unfold get_oidc_client_in_organization in Hget.
  apply run_handler_Ok in Hget as (o & d0 & Hq & Hget). apply run_query_Ok in Hq. unfold db_gets in Hq.
  simplify_eq. rewrite Hc in Hget. cbn in Hget. case_match; cbn in Hget; [|done]. simplify_eq.
  apply reject_then_Ok in H as [Hp H]. apply query_then_Ok in H as (b & d1 & Hrot & H).
  apply reject_then_Ok in H as [Hb H]. apply admin_audit_then_Ok in H as [Hr Hclients].
  injection Hr as -> ->. rewrite Hclients. destruct b; [|done].
  unfold rotate_oidc_client_secret in Hrot. db_steps.
  match goal with H : update_row _ _ _ _ = _ |- _ => apply update_row_true in H as (v & Hv & _ & ->) end.
  rewrite Hc in Hv. injection Hv as <-. done.
Qed.

(** A client's secret opens its door, and only the latest one does.  The
    client an administrator creates is a new row of the organization, active,
    with PKCE required, with scopes that are valid and contain openid, and
    with redirect URIs that were accepted; it then authenticates exactly with
    its identifier and, when confidential, with a secret of the hash of the
    one in the reply.  After its secret is rotated it authenticates exactly
    with the new one. *)
Theorem client_secret_round_trip state env headers payload db shown secret db' :
  run (create_client_route state env headers payload) db = (Ok (shown, secret), db') ->
  exists client,
    t_oidc_clients db !! admin_new_id env = None
    /\ t_oidc_clients db' = <[admin_new_id env := client]> (t_oidc_clients db)
    /\ shown = admin_oidc_client client /\ client_client_id client = create_client_id payload
    /\ client_organization_id client = state_organization_id state
    /\ client_status client = ClientStatus_Active /\ client_require_pkce client = true
    /\ "openid" ∈ client_allowed_scopes client
    /\ (forall s, s ∈ client_allowed_scopes client -> scope_token_is_valid s = true)
    /\ Forall2 (fun raw uri => RedirectUri_parse raw = Ok uri) (create_redirect_uris payload)
         (client_redirect_uris client)
    /\ (client_public_client client = true <-> secret = None)
    /\ (forall db2 auth, t_oidc_clients db2 = t_oidc_clients db' ->
         run (authenticated_client_from_request state auth) db2 = (Ok client, db2)
         <-> proves_secret client secret auth)
    /\ (forall env2 headers2 db2 shown2 secret2 db3 auth, t_oidc_clients db2 = t_oidc_clients db' ->
         run (rotate_client_secret_route state env2 headers2 (admin_new_id env)) db2
           = (Ok (shown2, secret2), db3) ->
         let rotated := client_set_secret_hash (Some (hash_token secret2)) client in
         shown2 = admin_oidc_client rotated
         /\ (run (authenticated_client_from_request state auth) db3 = (Ok rotated, db3)
             <-> proves_secret rotated (Some secret2) auth)).
Proof.
  intros (scopes & uris & posts & template & Hs & Hshown & Hopen & Hvalid & Huris & Hfresh & Hnew & Htable)
    %create_client_Ok.
  set (hash := if create_public_client payload then None else Some (hash_token (admin_secret env))) in *.
  exists (created_client state env payload hash scopes uris posts template).
  set (client := created_client state env payload hash scopes uris posts template) in *.
  assert (Hpublic : client_public_client client = true <-> secret = None)
    by (rewrite Hs; cbn; by destruct (create_public_client payload)).
  assert (Hrow : t_oidc_clients db' !! admin_new_id env = Some client) by (by rewrite Htable, lookup_insert_eq).
  assert (Hother : forall k c, t_oidc_clients db' !! k = Some c -> client_client_id c = create_client_id payload ->
                     k = admin_new_id env /\ c = client).
  { intros k c. rewrite Htable. intros [[<- <-]|[_ Hk]]%lookup_insert_Some; [done|]. by intros ?%(Hnew k c Hk). }
  split_and!; try done.
  - intros db2 auth H2. rewrite (authenticates_iff state auth db2 (admin_new_id env) client); try done.
    + apply secret_proven; [|done]. rewrite Hs. unfold client, hash. cbn. by destruct (create_public_client payload).
    + by rewrite H2.
    + intros k c. rewrite H2. intros Hk He. by apply (Hother k c Hk He).
  - intros env2 headers2 db2 shown2 secret2 db3 auth H2 Hrot.
    apply (rotate_client_Ok _ _ _ _ _ _ _ _ client) in Hrot as (-> & Hp & H3); [|by rewrite H2|done].
    split; [done|]. rewrite H2 in H3. set (rotated := client_set_secret_hash _ client) in *.
    rewrite (authenticates_iff state auth db3 (admin_new_id env) rotated); try done.
    + apply secret_proven; [done|]. cbn. cbn in Hp. by rewrite Hp.
    + by rewrite H3, lookup_insert_eq.
    + intros k c. rewrite H3. intros [[<- <-]|[Hne Hk]]%lookup_insert_Some; [done|].
      intros He. destruct (Hother k c Hk He) as [-> _]. by destruct Hne.
Qed.
End client_properties.
