(* ===== verification/Administration.v ===== *)
(** * What the administration promises

    The pages of [AdminRoutes], [AdminClients] and the invitation of
    [AccountRoutes] taken together: a change needs an administrator who has
    just proven who they are, it is recorded in their name, and it stays in
    their organization. *)

From S2P Require Import Prelude RustStr Domain Authn Oidc Http Codec Store.
From S2P Require Import OAuthStore ClientStore SessionStore Directory Lifecycle AccountStore AuditStore.
From S2P Require Import ConsentStore Handler KeyStore OAuthPolicy RequestContext BrowserSession.
From S2P Require Import Mfa Login AccountRoutes Listing Frames StatementFrames AdminRoutes AdminClients.

Section administration.
Context {CC : CryptoCrates} {TC : TokenCrates} {AG : AesGcm} {HC : HttpCrates} {UU : UuidCrate}.
Context {TF : TimeFormat} {AH : Argon2Hash} {UC : UrlCrate}.

(** The pages that change something, with the clocks of their two session
    checks and the identifier of their audit event. *)
Inductive admin_route (state : AppState) (headers : HeaderMap)
    : OffsetDateTime -> OffsetDateTime -> Uuid -> forall A, Handler A -> Prop :=
| route_create_user env payload :
    admin_route state headers (admin_session_now env) (admin_recent_now env) (admin_event_id env)
      _ (create_user_route state env headers payload)
| route_update_user_status env id status :
    admin_route state headers (admin_session_now env) (admin_recent_now env) (admin_event_id env)
      _ (update_user_status_route state env headers id status)
| route_request_verification env id :
    admin_route state headers (admin_session_now env) (admin_recent_now env) (admin_event_id env)
      _ (request_admin_user_email_verification state env headers id)
| route_request_recovery env id :
    admin_route state headers (admin_session_now env) (admin_recent_now env) (admin_event_id env)
      _ (request_admin_user_password_recovery state env headers id)
| route_revoke_session env id session :
    admin_route state headers (admin_session_now env) (admin_recent_now env) (admin_event_id env)
      _ (revoke_admin_user_browser_session state env headers id session)
| route_create_group env slug display_name :
    admin_route state headers (admin_session_now env) (admin_recent_now env) (admin_event_id env)
      _ (create_group_route state env headers slug display_name)
| route_upsert_membership env group user role :
    admin_route state headers (admin_session_now env) (admin_recent_now env) (admin_event_id env)
      _ (upsert_group_membership_route state env headers group user role)
| route_delete_membership env group user :
    admin_route state headers (admin_session_now env) (admin_recent_now env) (admin_event_id env)
      _ (delete_group_membership_route state env headers group user)
| route_create_client env payload :
    admin_route state headers (admin_session_now env) (admin_recent_now env) (admin_event_id env)
      _ (create_client_route state env headers payload)
| route_update_client env client payload :
    admin_route state headers (admin_session_now env) (admin_recent_now env) (admin_event_id env)
      _ (update_client_route state env headers client payload)
| route_rotate_secret env client :
    admin_route state headers (admin_session_now env) (admin_recent_now env) (admin_event_id env)
      _ (rotate_client_secret_route state env headers client)
| route_update_client_status env client status :
    admin_route state headers (admin_session_now env) (admin_recent_now env) (admin_event_id env)
      _ (update_client_status_route state env headers client status)
| route_create_policy env slug name mode :
    admin_route state headers (admin_session_now env) (admin_recent_now env) (admin_event_id env)
      _ (create_consent_policy_template_route state env headers slug name mode)
| route_revoke_consent env client grant :
    admin_route state headers (admin_session_now env) (admin_recent_now env) (admin_event_id env)
      _ (revoke_client_consent_grant state env headers client grant)
| route_invite env payload :
    admin_route state headers (account_session_now env) (account_now env) (account_event_id env)
      _ (create_invitation state env headers payload).

(** The administrator of a request, who has just proven who they are. *)
Record acting (db : Database) (state : AppState) (headers : HeaderMap)
    (session_now recent_now : OffsetDateTime) (actor : AuthSession) : Prop := {
  acting_session : carries_session db state session_now headers actor;
  acting_admin : is_administrator db (session_organization_id actor) (session_user_id actor);
  acting_mfa : mfa_proof actor;
  acting_recent : (recent_now <= session_created_at actor + duration_minutes 15)%Z;
  acting_csrf : require_csrf headers = Ok tt;
}.

(** *** The guard *)

Lemma admin_guarded {A} state session_now recent_now headers (k : AuthSession -> Handler A) db r db' :
  run (do! actor := require_recent_admin_session state session_now recent_now headers in
       do! _ := lift (require_csrf headers) in k actor) db = (r, db') ->
  (exists e, r = Err e) /\ db' = db
  \/ exists actor, acting db state headers session_now recent_now actor /\ run (k actor) db = (r, db').
Proof.
  destruct (require_recent_admin_session_spec state session_now recent_now headers db) as [Hdb Hok].
  unfold handler_bind at 1. rewrite run_bind.
  destruct (run (require_recent_admin_session _ _ _ _) db) as [[actor|e] d]; cbn in Hdb, Hok; subst d.
  2:{ intros [= <- <-]. left. eauto. }
  destruct (proj1 (Hok actor) eq_refl) as (Hs & Ha & Hm & Hr). clear Hok.
  destruct (require_csrf headers) as [[]|e] eqn:Hc; [rewrite lift_Ok_bind|intros [= <- <-]; left; eauto].
  intros H. right. exists actor. by split.
Qed.

(** C15. The administration answers only to administrators.  A request to any
    page that creates or changes a user, a group, a membership, a client, a
    secret, a policy or a consent, sends a link or ends a session changes
    something, whatever it then answers, only with the CSRF token and a
    standing session of an owner of the administrators group, who showed a
    second factor at most 15 minutes ago. *)
Theorem administration_is_guarded state headers session_now recent_now event_id A (h : Handler A)
    db r db' :
  admin_route state headers session_now recent_now event_id A h -> run h db = (r, db') ->
  (db' <> db \/ is_ok r = true) ->
  exists actor, acting db state headers session_now recent_now actor.
Proof.
  intros Hroute H Hor. destruct Hroute; apply admin_guarded in H as [[[e ->] ->]|(actor & Ha & _)];
    try (by exists actor); by destruct Hor.
Qed.

(** *** The audit log *)

(** One event of the administrator, and nothing else, was added to the log. *)
Definition recorded (organization_id user_id event_id : Uuid) (db db' : Database) : Prop :=
  exists event, t_audit_events db !! event_id = None
    /\ t_audit_events db' = <[event_id := event]> (t_audit_events db)
    /\ audit_id event = event_id /\ audit_organization_id event = organization_id
    /\ audit_actor_kind event = ActorKind_User /\ audit_actor_id event = Some user_id.
Definition records (organization_id user_id event_id : Uuid) {A} (h : Handler A) : Prop :=
  forall db r db', run h db = (r, db') ->
    match r with Ok _ => recorded organization_id user_id event_id db db' | Err _ => same_log db db' end.

Lemma records_after {A B} o u id (h : Handler A) (f : A -> Handler B) :
  each_op (fun X op => moves same_log op) h -> (forall x, records o u id (f x)) ->
  records o u id (handler_bind h f).
Proof.
  intros Hh Hf db r db'. unfold handler_bind. rewrite run_bind.
  pose proof (each_moves_run same_log h db Hh) as Hlog.
  destruct (run h db) as [[x|e] d]; cbn in Hlog; [|by intros [= <- <-]].
  intros H. specialize (Hf x d r db' H). destruct r as [b|e]; [|etrans; [exact Hlog|exact Hf]].
  unfold recorded, same_log in *. by rewrite Hlog in Hf.
Qed.
Lemma records_last o u id now event :
  builder_organization_id event = o -> builder_actor_kind event = ActorKind_User ->
  builder_actor_id event = Some u ->
  records o u id (query (insert_audit_event (audit_build id now event))).
Proof.
  intros Ho Hk Hu db r db'. unfold insert_audit_event, db_bind, db_check, db_modify, absent. cbn.
  destruct (bool_decide (t_audit_events db !! id = None)) eqn:Ea; [|by intros [= <- <-]].
  destruct (fk_organization db (builder_organization_id event)); [|by intros [= <- <-]].
  intros [= <- <-]. exists (audit_build id now event). bool_prop. by split_and!.
Qed.
Lemma records_then {A B} o u id (h : Handler A) (f : A -> Handler B) :
  records o u id h -> (forall x, exists y, f x = succeed y) -> records o u id (handler_bind h f).
Proof.
  intros Hh Hf db r db'. unfold handler_bind. rewrite run_bind. destruct (run h db) as [[x|e] d] eqn:E.
  - destruct (Hf x) as [y ->]. intros [= <- <-]. exact (Hh db _ _ E).
  - intros [= <- <-]. exact (Hh db _ _ E).
Qed.
Lemma records_event {A} o u id now event (x : A) :
  builder_organization_id event = o -> builder_actor_kind event = ActorKind_User ->
  builder_actor_id event = Some u ->
  records o u id (do! _ := query (insert_audit_event (audit_build id now event)) in succeed x).
Proof. intros Ho Hk Hu. apply records_then; [by apply records_last|]. intros _. by exists x. Qed.

Lemma log_queue_link state env request :
  each_op (fun X op => moves same_log op) (queue_account_lifecycle_email state env request).
Proof. unfold queue_account_lifecycle_email. cbv zeta. each_op_steps. auto with frames. Qed.
Lemma log_user_in_organization state id :
  each_op (fun X op => moves same_log op) (user_in_organization state id).
Proof. unfold user_in_organization. each_op_steps. auto with frames. Qed.
Lemma log_client_by_id state id :
  each_op (fun X op => moves same_log op) (organization_client_by_id state id).
Proof. unfold organization_client_by_id. each_op_steps. auto with frames. Qed.
Lemma log_policy_assignment state id :
  each_op (fun X op => moves same_log op) (validate_consent_policy_template_assignment state id).
Proof. unfold validate_consent_policy_template_assignment. each_op_steps. auto with frames. Qed.
Lemma log_invited_user state env email display_name :
  each_op (fun X op => moves same_log op) (invited_user state env email display_name).
Proof. unfold invited_user. each_op_steps; auto with frames. Qed.
#[local] Hint Resolve log_queue_link log_user_in_organization log_client_by_id log_policy_assignment
  log_invited_user : frames.

(** Goes through a page to the recording of its event. *)
Ltac records_step :=
  match goal with
  | |- records _ _ _ (handler_bind (admin_audit _ _) _) => apply records_event; reflexivity
  | |- records _ _ _ (handler_bind (admin_link_audit _ _ _ _ _ _) _) => apply records_event; reflexivity
  | |- records _ _ _ (admin_audit _ _) => apply records_last; reflexivity
  | |- records _ _ _ (handler_bind (account_audit _ _) _) => apply records_event; reflexivity
  | |- records _ _ _ (handler_bind _ _) => apply records_after; [|intros ?]
  | |- records _ _ _ (match ?x with _ => _ end) => destruct x
  | |- records _ _ _ (let _ := _ in _) => cbv zeta
  | |- each_op _ (reject_with ?x) => unfold reject_with
  | |- each_op _ (handler_bind _ _) => apply each_op_handler; [|intros ?]
  | |- each_op _ _ => progress each_op_steps
  end.
Ltac records_steps := repeat records_step; auto with frames.

(** A page that may find there is nothing to do. *)
Definition records_or_nothing (organization_id user_id event_id : Uuid) {A} (h : Handler A) : Prop :=
  forall db r db', run h db = (r, db') ->
    match r with
    | Ok _ => db' = db \/ recorded organization_id user_id event_id db db'
    | Err _ => same_log db db'
    end.
Lemma records_page {A} o u id (h : Handler A) : records o u id h -> records_or_nothing o u id h.
Proof. intros H db r db' Hr. specialize (H db r db' Hr). destruct r; auto. Qed.
Lemma reads_page {A B} o u id (h : Handler A) (f : A -> Handler B) :
  each_op (fun X op => reads op) h -> (forall x, records_or_nothing o u id (f x)) ->
  records_or_nothing o u id (handler_bind h f).
Proof.
  intros Hh Hf db r db'. unfold handler_bind. rewrite run_bind.
  pose proof (each_reads_run h db Hh) as Hdb. destruct (run h db) as [[x|e] d]; cbn in Hdb; subst d.
  - apply Hf.
  - by intros [= <- <-].
Qed.
Lemma page_recorded {A} state session_now recent_now headers id (k : AuthSession -> Handler A) db r db' :
  (forall actor, records_or_nothing (state_organization_id state) (session_user_id actor) id (k actor)) ->
  run (do! actor := require_recent_admin_session state session_now recent_now headers in
       do! _ := lift (require_csrf headers) in k actor) db = (r, db') ->
  match r with
  | Ok _ => db' = db
      \/ exists actor, acting db state headers session_now recent_now actor
           /\ recorded (state_organization_id state) (session_user_id actor) id db db'
  | Err _ => t_audit_events db' = t_audit_events db
  end.
Proof.
  intros Hk [[[e ->] ->]|(actor & Ha & H)]%admin_guarded; [done|]. specialize (Hk actor db r db' H).
  destruct r; [|done]. destruct Hk as [->|Hk]; [by left|right; by exists actor].
Qed.
Lemma verification_page state env headers id actor :
  records_or_nothing (state_organization_id state) (session_user_id actor) (admin_event_id env)
    (do! found := user_in_organization state id in
     let user := uwp_user found in
     if user_email_verified user then succeed None
     else
     do! _ := reject_if (negb (bool_decide (user_status user = UserStatus_Active)))
                (conflict "user must be active") in
     do! delivery := queue_account_lifecycle_email state (admin_link env)
       (mk_AccountLifecycleEmail EmailVerification (Some (user_id user)) (user_email user)
          (Some (session_user_id actor)) (duration_hours 24) "email_verification"
          "Verify your Cairn Identity email" "/verify-email"
          "Verify this email address for Cairn Identity." (admin_initiator actor)) in
     do! _ := admin_link_audit state env headers actor "admin.email_verification_requested" user in
     succeed (Some delivery)).
Proof.
  apply reads_page.
  - unfold user_in_organization. each_op_steps. by intros db.
  - intros found. cbv zeta. destruct (user_email_verified _).
    + by intros db r db' [= <- <-]; left.
    + apply records_page. records_steps.
Qed.

(** C16. What the administration reports as done is in the audit log under the
    name of the administrator: a page that answers with success has added exactly
    one event, of the organization, by the user of the session, or changed
    nothing at all; and a page that fails adds none, so that no event tells of
    something that was not done.  The converse is not promised: the change and
    its event are statements of their own, and a page whose last statements
    fail may leave a change that no event tells of. *)
Theorem administration_is_recorded state headers session_now recent_now event_id A (h : Handler A)
    db r db' :
  admin_route state headers session_now recent_now event_id A h -> run h db = (r, db') ->
  match r with
  | Ok _ => db' = db
      \/ exists actor, acting db state headers session_now recent_now actor
           /\ recorded (state_organization_id state) (session_user_id actor) event_id db db'
  | Err _ => t_audit_events db' = t_audit_events db
  end.
Proof.
  intros Hroute H. destruct Hroute.
  3: { eapply page_recorded; [|exact H]. intros actor. apply verification_page. }
  all: (eapply page_recorded; [|exact H]); intros actor; apply records_page; records_steps.
Qed.
(** *** Other organizations *)

Lemma confined_audit state env event :
  builder_organization_id event = state_organization_id state ->
  each_op (fun X op => moves (confined (state_organization_id state)) op) (admin_audit env event).
Proof. intros <-. apply each_op_query, confined_insert_event. Qed.
Lemma confined_account_audit state env event :
  builder_organization_id event = state_organization_id state ->
  each_op (fun X op => moves (confined (state_organization_id state)) op) (account_audit env event).
Proof. intros <-. apply each_op_query, confined_insert_event. Qed.
Lemma confined_queue_link state env request :
  each_op (fun X op => moves (confined (state_organization_id state)) op)
    (queue_account_lifecycle_email state env request).
Proof.
  unfold queue_account_lifecycle_email. cbv zeta. each_op_steps.
  by apply (confined_account_link _ (lifecycle_message state env request _)).
Qed.
Lemma confined_new_user state id now email display_name user h :
  User_new id now (state_organization_id state) email display_name = Ok user ->
  moves (confined (state_organization_id state)) (create_user user h).
Proof.
  unfold User_new. intros (e & _ & H)%result_bind_Ok.
  apply result_bind_Ok in H as (d & _ & [= <-]). apply (confined_create_user (mk_User _ _ _ _ _ _ _ _ _ _)).
Qed.

Lemma confined_admin_guard state s r headers :
  each_op (fun X op => moves (confined (state_organization_id state)) op)
    (require_recent_admin_session state s r headers).
Proof.
  eapply each_op_impl; [intros X op; apply confined_reads|].
  unfold require_recent_admin_session, require_admin_session, require_session.
  each_op_steps; try apply session_from_cookie_reads. by intros db0.
Qed.

Lemma confined_link_audit state env headers actor action user :
  each_op (fun X op => moves (confined (state_organization_id state)) op)
    (admin_link_audit state env headers actor action user).
Proof. by apply confined_audit. Qed.
(** Goes through a page to its statements. *)
Ltac confined_step :=
  cbv zeta;
  match goal with
  | |- each_op _ (admin_audit _ _) => apply confined_audit; reflexivity
  | |- each_op _ (account_audit _ _) => apply confined_account_audit; reflexivity
  | |- each_op _ (admin_link_audit _ _ _ _ _ _) => apply confined_link_audit
  | |- each_op _ (queue_account_lifecycle_email _ _ _) => apply confined_queue_link
  | |- each_op _ (require_recent_admin_session _ _ _ _) => apply confined_admin_guard
  | |- each_op _ (handler_bind (lift _) _) => apply each_op_lift_then; intros ? ?
  | |- each_op _ (reject_with ?x) => destruct x; exact I
  | |- each_op _ (user_in_organization _ _) => unfold user_in_organization
  | |- each_op _ (organization_client_by_id _ _) => unfold organization_client_by_id
  | |- each_op _ (invited_user _ _ _ _) => unfold invited_user
  | |- each_op _ (validate_consent_policy_template_assignment _ _) =>
      unfold validate_consent_policy_template_assignment
  | |- each_op _ _ => each_op_step
  | |- moves _ (create_user _ _) => eapply confined_new_user, map_err_Ok; eassumption
  | |- moves _ (create_group ?g) => exact (confined_create_group g)
  | |- moves _ (upsert_group_membership ?m _) => exact (confined_upsert_membership m _)
  | |- moves _ (create_oidc_client ?c) => exact (confined_create_client c)
  | |- moves _ (create_consent_policy_template ?t) => exact (confined_create_policy t)
  | |- moves _ _ => solve [auto with frames | apply confined_gets]
  end.

(** C17. The administration stays in its organization: no page, whatever it is
    asked and whatever it answers, adds, changes or removes a row of another
    organization in any table, touches an organization itself, a signing key
    or a rate limit; and the memberships stay in the organizations of their
    groups. *)
Theorem administration_is_confined state headers session_now recent_now event_id A (h : Handler A) db :
  admin_route state headers session_now recent_now event_id A h -> members_wf db ->
  members_wf (run h db).2 /\ stays_in (state_organization_id state) db (run h db).2.
Proof.
  intros Hroute. apply (each_moves_run (confined (state_organization_id state))).
  destruct Hroute; (apply each_op_handler; [apply confined_admin_guard|intros actor]);
    (apply each_op_handler; [exact I|intros _]); repeat confined_step.
Qed.
End administration.
