(* ===== verification/ScimRoutes.v ===== *)
(** * SCIM: resources, operations and pages

    [apps/api/src/http]'s scim_resource, scim_operations, scim_routes and
    scim_metadata: the JSON of a user and a group, what provisioning does with
    them, and the pages around it.  An operation answers with a
    [ScimOperationResult] because the bulk pages of [ScimBulk] run operations
    too. *)

From S2P Require Import Prelude RustStr Domain Authn Oidc Http Codec Store.
From S2P Require Import SessionStore Directory Lifecycle AuditStore.
From S2P Require Import Handler KeyStore OAuthPolicy RequestContext BrowserSession.
From S2P Require Import AdminRoutes ScimProtocol ScimQuery ScimInput.
From Stdlib Require Import Ascii.

(** What an operation draws: an identifier, the clock, and those of its audit
    event. *)
Record ScimEnv := mk_ScimEnv {
  scim_new_id : Uuid;
  scim_now : OffsetDateTime;
  scim_event_id : Uuid;
  scim_event_now : OffsetDateTime;
}.

(** ** Results *)

(* apps/api/src/http/scim_operations.rs:22-26 ScimOperationResult *)
Record ScimOperationResult := mk_ScimOperationResult {
  operation_status : StatusCode;
  operation_location : option string;
  operation_body : option Value;
}.
(* apps/api/src/http/scim_operations.rs:29-35 ScimOperationResult::json *)
Definition operation_json (status : StatusCode) (body : Value) (location : option string)
    : ScimOperationResult := mk_ScimOperationResult status location (Some body).
(* apps/api/src/http/scim_operations.rs:37-43 ScimOperationResult::no_content *)
Definition operation_no_content (location : option string) : ScimOperationResult :=
  mk_ScimOperationResult 204 location None.

Section scim.
Context {CC : CryptoCrates} {TC : TokenCrates} {AG : AesGcm} {HC : HttpCrates} {UU : UuidCrate}.
Context {TF : TimeFormat} {SS : ScimSerde}.
(** [HeaderValue::from_str]. *)
Context (header_value : string -> option string).

(* apps/api/src/http/scim_operations.rs:45-59 into_http_response *)
Definition into_http_response (result : ScimOperationResult) : Prelude.result ScimError Reply :=
  let response := match operation_body result with
                  | Some body => scim_json_response (operation_status result) body
                  | None => mk_Reply (mk_Response (operation_status result) []) Body_Empty
                  end in
  match operation_location result with
  | Some location =>
      if N.eqb (operation_status result) 201
      then
        let? location := ok_or (header_value location)
                           (scim_server_error "invalid SCIM resource location") in
        Ok (mk_Reply (mk_Response (operation_status result)
                        (response_headers (reply_response response) ++ [("location", location)]))
              (reply_body response))
      else Ok response
  | None => Ok response
  end.

(** ** Resources *)

Definition external_id_entry (external_id : option string) : list (string * Value) :=
  match external_id with Some id => [("externalId", String_ id)] | None => [] end.
(* apps/api/src/http/scim_resource.rs:12-38 scim_user_resource *)
Definition scim_user_resource (state : AppState) (user : User) : Value :=
  Object ([("schemas", Array [String_ SCIM_USER_SCHEMA]);
           ("id", String_ (uuid_to_string (user_id user)));
           ("userName", String_ (user_email user));
           ("displayName", String_ (user_display_name user));
           ("name", Object [("formatted", String_ (user_display_name user))]);
           ("active", Bool (bool_decide (user_status user = UserStatus_Active)));
           ("emails", Array [Object [("value", String_ (user_email user)); ("type", String_ "work");
                                     ("primary", Bool true)]]);
           ("meta", Object [("resourceType", String_ "User");
                            ("created", String_ (scim_timestamp (user_created_at user)));
                            ("lastModified", String_ (scim_timestamp (user_updated_at user)));
                            ("location", String_ (scim_location state
                               ("Users/" +:+ uuid_to_string (user_id user))))])]
          ++ external_id_entry (user_scim_external_id user)).
(* apps/api/src/http/scim_resource.rs:40-71 scim_group_resource *)
Definition scim_group_resource (state : AppState) (group : Group) (members : list ScimGroupMember)
    : Value :=
  Object ([("schemas", Array [String_ SCIM_GROUP_SCHEMA]);
           ("id", String_ (uuid_to_string (group_id group)));
           ("displayName", String_ (group_display_name group));
           ("members", Array (List.map (fun member =>
              Object [("value", String_ (uuid_to_string (member_user_id member)));
                      ("$ref", String_ (scim_location state
                         ("Users/" +:+ uuid_to_string (member_user_id member))));
                      ("display", String_ (member_display_name member));
                      ("type", String_ "User")]) members));
           ("meta", Object [("resourceType", String_ "Group");
                            ("created", String_ (scim_timestamp (group_created_at group)));
                            ("lastModified", String_ (scim_timestamp (group_created_at group)));
                            ("location", String_ (scim_location state
                               ("Groups/" +:+ uuid_to_string (group_id group))))])]
          ++ external_id_entry (group_scim_external_id group)).
(** The map from groups to their members, read at one group. *)
(* apps/api/src/http/scim_resource.rs:73-84 scim_group_members_by_group *)
Definition scim_group_members_by_group (members : list ScimGroupMember) (group_id : Uuid)
    : list ScimGroupMember :=
  List.filter (fun member => N.eqb (member_group_id member) group_id) members.

(** ** Users *)

Definition scim_audit (state : AppState) (env : ScimEnv) (headers : HeaderMap) (action target : string)
    (metadata : list (string * Value)) : HandlerOf ScimError unit :=
  let '(ip_address, user_agent) := headers_audit_context headers in
  query (insert_audit_event (audit_build (scim_event_id env) (scim_event_now env)
    (audit_with_metadata (Object metadata)
       (audit_request_context ip_address user_agent
          (audit_system (state_organization_id state) action target))))).
Definition user_metadata (user : User) : list (string * Value) :=
  [("user_name", String_ (user_email user)); ("external_id", opt_string (user_scim_external_id user));
   ("active", Bool (bool_decide (user_status user = UserStatus_Active)))].
Definition user_location (state : AppState) (user : User) : string :=
  scim_location state ("Users/" +:+ uuid_to_string (user_id user)).
(* apps/api/src/http/scim_operations/users/update.rs:121-131 user_resource_result *)
Definition user_resource_result (state : AppState) (status : StatusCode) (user : User)
    : ScimOperationResult :=
  operation_json status (scim_user_resource state user) (Some (user_location state user)).

(* apps/api/src/http/scim_operations/users/lookup.rs:6-17 scim_get_tenant_user *)
Definition scim_get_tenant_user (state : AppState) (user_id : Uuid) : HandlerOf ScimError User :=
  do! user := query (get_user_with_password (state_organization_id state) user_id) in
  do! user := some_or user (scim_not_found "SCIM user not found") in
  succeed (uwp_user user).
(** The user of [User::new] as the request describes it. *)
Definition provisioned_user (input : ScimUserInput) (user : User) : User :=
  mk_User (user_id user) (user_organization_id user) (user_email user) (input_external_id input)
    (input_email_verified input) (user_display_name user) (input_status input) (user_created_at user)
    (user_updated_at user) (user_last_login_at user).
(* apps/api/src/http/scim_operations/users/create.rs:15-71 scim_create_user_operation *)
Definition scim_create_user_operation (state : AppState) (env : ScimEnv) (headers : HeaderMap)
    (payload : ScimUserRequest) : HandlerOf ScimError ScimOperationResult :=
  do! input := lift (scim_user_input payload) in
  do! existing := query (find_user_by_email (state_organization_id state) (input_email input)) in
  do! _ := reject_if (is_some existing) (uniqueness "userName already exists") in
  do! existing :=
    match input_external_id input with
    | Some external_id => query (find_user_by_scim_external_id (state_organization_id state) external_id)
    | None => succeed None
    end in
  do! _ := reject_if (is_some existing) (uniqueness "externalId already exists") in
  do! user := lift (map_err scim_from_domain_error
    (User_new (scim_new_id env) (scim_now env) (state_organization_id state) (input_email input)
       (input_display_name input))) in
  let user := provisioned_user input user in
  do! _ := query (create_user user None) in
  do! _ := scim_audit state env headers "scim.user_created" (uuid_to_string (user_id user))
             (user_metadata user) in
  succeed (user_resource_result state 201 user).

(* apps/api/src/http/scim_operations/users/update.rs:86-119 scim_apply_user_update *)
Definition scim_apply_user_update (state : AppState) (env : ScimEnv) (user_id : Uuid)
    (input : ScimUserInput) : HandlerOf ScimError User :=
  do! outcome := query (update_user_from_scim
    (mk_ScimUserUpdateInput (state_organization_id state) user_id (input_email input)
       (input_external_id input) (input_email_verified input) (input_display_name input)
       (input_status input) ADMINISTRATORS_GROUP_SLUG (scim_now env))) in
  match outcome with
  | ScimUserApplied user => succeed user
  | ScimUserNotFound => fail (scim_not_found "SCIM user not found")
  | ScimUserWouldDeactivateLastOwner =>
      fail (mutability 409 "administrators group must keep at least one active owner")
  | EmailAlreadyExists => fail (uniqueness "userName already exists")
  | ScimUserExternalIdAlreadyExists => fail (uniqueness "externalId already exists")
  end.
(* apps/api/src/http/scim_operations/users/update.rs:21-50 scim_replace_user_operation *)
Definition scim_replace_user_operation (state : AppState) (env : ScimEnv) (headers : HeaderMap)
    (user_id_ : Uuid) (payload : ScimUserRequest) : HandlerOf ScimError ScimOperationResult :=
  do! input := lift (scim_user_input payload) in
  do! user := scim_apply_user_update state env user_id_ input in
  do! _ := scim_audit state env headers "scim.user_replaced" (uuid_to_string (user_id user))
             (user_metadata user) in
  succeed (user_resource_result state 200 user).
(* apps/api/src/http/scim_operations/users/update.rs:52-84 scim_patch_user_operation *)
Definition scim_patch_user_operation (state : AppState) (env : ScimEnv) (headers : HeaderMap)
    (user_id_ : Uuid) (payload : ScimPatchRequest) : HandlerOf ScimError ScimOperationResult :=
  do! current_user := scim_get_tenant_user state user_id_ in
  let count := operation_count payload in
  do! input := lift (scim_patch_user_input current_user payload) in
  do! user := scim_apply_user_update state env user_id_ input in
  do! _ := scim_audit state env headers "scim.user_patched" (uuid_to_string (user_id user))
             (user_metadata user ++ [("operation_count", Number (Z.of_nat count))]) in
  succeed (user_resource_result state 200 user).
(* apps/api/src/http/scim_operations/users/delete.rs:16-68 scim_delete_user_operation *)
Definition scim_delete_user_operation (state : AppState) (env : ScimEnv) (headers : HeaderMap)
    (user_id_ : Uuid) : HandlerOf ScimError ScimOperationResult :=
  do! outcome := query (update_user_status (state_organization_id state) user_id_ UserStatus_Suspended
                          ADMINISTRATORS_GROUP_SLUG (scim_now env)) in
  do! user := match outcome with
              | UserStatusApplied user => succeed user
              | UserStatusNotFound => fail (scim_not_found "SCIM user not found")
              | UserStatusWouldDeactivateLastOwner =>
                  fail (mutability 409 "administrators group must keep at least one active owner")
              end in
  do! _ := scim_audit state env headers "scim.user_deprovisioned" (uuid_to_string (user_id user))
             [("user_name", String_ (user_email user));
              ("external_id", opt_string (user_scim_external_id user)); ("active", Bool false)] in
  succeed (operation_no_content (Some (user_location state user))).

(** ** Groups *)

Definition group_metadata (group : Group) (member_count : nat) : list (string * Value) :=
  [("display_name", String_ (group_display_name group));
   ("external_id", opt_string (group_scim_external_id group));
   ("member_count", Number (Z.of_nat member_count))].
Definition group_location (state : AppState) (group : Group) : string :=
  scim_location state ("Groups/" +:+ uuid_to_string (group_id group)).
(* apps/api/src/http/scim_operations/groups/update.rs:129-143 group_resource_result *)
Definition group_resource_result (state : AppState) (status : StatusCode) (group : Group)
    : HandlerOf ScimError ScimOperationResult :=
  do! members := query (list_scim_group_members_for_groups (state_organization_id state) [group_id group]) in
  succeed (operation_json status (scim_group_resource state group members)
             (Some (group_location state group))).
(* apps/api/src/http/scim_operations/groups/lookup.rs:6-15 scim_get_tenant_group *)
Definition scim_get_tenant_group (state : AppState) (group_id : Uuid) : HandlerOf ScimError Group :=
  do! group := query (get_group (state_organization_id state) group_id) in
  some_or group (scim_not_found "SCIM group not found").
(* apps/api/src/http/scim_operations/groups/create.rs:18-90 scim_create_group_operation *)
Definition scim_create_group_operation (state : AppState) (env : ScimEnv) (headers : HeaderMap)
    (payload : ScimGroupRequest) : HandlerOf ScimError ScimOperationResult :=
  do! input := lift (scim_group_input payload) in
  do! slug := lift (scim_group_slug (scim_new_id env) (group_input_external_id input)
                      (group_input_display_name input)) in
  let group := mk_Group (scim_new_id env) (state_organization_id state) slug
                 (group_input_external_id input) (group_input_display_name input) (scim_now env) in
  do! outcome := query (create_scim_group group (group_input_member_user_ids input)) in
  do! group :=
    match outcome with
    | ScimGroupApplied group => succeed group
    | SlugAlreadyExists =>
        fail (uniqueness "displayName or externalId maps to an existing group slug")
    | ScimGroupExternalIdAlreadyExists => fail (uniqueness "externalId already exists")
    | MemberNotFound => fail (invalid_value "members.value must reference existing users")
    | ScimGroupNotFound | WouldModifyProtectedGroup =>
        fail (scim_server_error "unexpected SCIM group create result")
    end in
  do! _ := scim_audit state env headers "scim.group_created" (uuid_to_string (group_id group))
             (group_metadata group (length (group_input_member_user_ids input))) in
  group_resource_result state 201 group.

(* apps/api/src/http/scim_operations/groups/update.rs:93-127 scim_apply_group_replace *)
Definition scim_apply_group_replace (state : AppState) (env : ScimEnv) (group_id : Uuid)
    (input : ScimGroupInput) : HandlerOf ScimError Group :=
  do! outcome := query (replace_scim_group
    (mk_ScimGroupReplaceInput (state_organization_id state) group_id (group_input_display_name input)
       (group_input_external_id input) (group_input_member_user_ids input) ADMINISTRATORS_GROUP_SLUG
       (scim_now env))) in
  match outcome with
  | ScimGroupApplied group => succeed group
  | ScimGroupNotFound => fail (scim_not_found "SCIM group not found")
  | ScimGroupExternalIdAlreadyExists => fail (uniqueness "externalId already exists")
  | MemberNotFound => fail (invalid_value "members.value must reference existing users")
  | WouldModifyProtectedGroup =>
      fail (mutability 409 "administrators group cannot be modified through SCIM")
  | SlugAlreadyExists => fail (scim_server_error "unexpected SCIM group replace result")
  end.
(* apps/api/src/http/scim_operations/groups/update.rs:22-52 scim_replace_group_operation *)
Definition scim_replace_group_operation (state : AppState) (env : ScimEnv) (headers : HeaderMap)
    (group_id_ : Uuid) (payload : ScimGroupRequest) : HandlerOf ScimError ScimOperationResult :=
  do! input := lift (scim_group_input payload) in
  let member_count := length (group_input_member_user_ids input) in
  do! group := scim_apply_group_replace state env group_id_ input in
  do! _ := scim_audit state env headers "scim.group_replaced" (uuid_to_string (group_id group))
             (group_metadata group member_count) in
  group_resource_result state 200 group.
(* apps/api/src/http/scim_operations/groups/update.rs:54-91 scim_patch_group_operation *)
Definition scim_patch_group_operation (state : AppState) (env : ScimEnv) (headers : HeaderMap)
    (group_id_ : Uuid) (payload : ScimPatchRequest) : HandlerOf ScimError ScimOperationResult :=
  do! current_group := scim_get_tenant_group state group_id_ in
  do! current_members := query (list_scim_group_members_for_groups (state_organization_id state)
                                  [group_id current_group]) in
  let count := operation_count payload in
  do! input := lift (scim_patch_group_input current_group current_members payload) in
  let member_count := length (group_input_member_user_ids input) in
  do! group := scim_apply_group_replace state env group_id_ input in
  do! _ := scim_audit state env headers "scim.group_patched" (uuid_to_string (group_id group))
             (group_metadata group member_count ++ [("operation_count", Number (Z.of_nat count))]) in
  group_resource_result state 200 group.
(* apps/api/src/http/scim_operations/groups/delete.rs:14-65 scim_delete_group_operation *)
Definition scim_delete_group_operation (state : AppState) (env : ScimEnv) (headers : HeaderMap)
    (group_id_ : Uuid) : HandlerOf ScimError ScimOperationResult :=
  do! outcome := query (delete_scim_group (state_organization_id state) group_id_
                          ADMINISTRATORS_GROUP_SLUG) in
  do! group :=
    match outcome with
    | ScimGroupApplied group => succeed group
    | ScimGroupNotFound => fail (scim_not_found "SCIM group not found")
    | WouldModifyProtectedGroup =>
        fail (mutability 409 "administrators group cannot be modified through SCIM")
    | SlugAlreadyExists | ScimGroupExternalIdAlreadyExists | MemberNotFound =>
        fail (scim_server_error "unexpected SCIM group delete result")
    end in
  do! _ := scim_audit state env headers "scim.group_deleted" (uuid_to_string (group_id group))
             [("display_name", String_ (group_display_name group));
              ("external_id", opt_string (group_scim_external_id group))] in
  succeed (operation_no_content (Some (group_location state group))).

(** ** Pages

    A page takes the headers, the query string and the body of its request;
    its payload is decoded before anything else, as axum runs the extractors. *)

Definition scim_page {A} (state : AppState) (headers : HeaderMap) (k : HandlerOf ScimError A)
    : HandlerOf ScimError A :=
  do! _ := lift (require_scim_bearer state headers) in k.
Definition scim_payload_page {P A} (state : AppState) (headers : HeaderMap) (body : string)
    (from_bytes : string -> option P) (k : P -> HandlerOf ScimError A) : HandlerOf ScimError A :=
  do! payload := lift (scim_json headers body from_bytes) in
  scim_page state headers (k payload).
Definition operation_reply (operation : HandlerOf ScimError ScimOperationResult)
    : HandlerOf ScimError Reply :=
  do! result := operation in lift (into_http_response result).

(** [Json::from_bytes] at the types of the payloads. *)
Context (search_request_from_bytes : string -> option ScimSearchRequest)
  (user_request_from_bytes : string -> option ScimUserRequest)
  (group_request_from_bytes : string -> option ScimGroupRequest)
  (patch_request_from_bytes : string -> option ScimPatchRequest).

(* apps/api/src/http/scim_routes/users.rs:47-69 scim_user_list_response_for_query *)
Definition scim_user_list_response_for_query (state : AppState)
    (list_query : ScimListQuery ScimUserListFilter) : HandlerOf ScimError Reply :=
  do! (total_results, users) := query (list_scim_users_page_filtered (state_organization_id state)
    (query_filter list_query) (Z.to_nat (query_start_index list_query))
    (Z.to_nat (query_count list_query))) in
  let resources := List.map (fun user =>
    scim_apply_projection (scim_user_resource state user) (query_projection list_query)) users in
  succeed (scim_list_response resources (Z.of_nat total_results) (query_start_index list_query)).
(* apps/api/src/http/scim_routes/users.rs:25-33 scim_list_users *)
Definition scim_list_users (state : AppState) (headers : HeaderMap) (raw_query : option string)
    : HandlerOf ScimError Reply :=
  scim_page state headers (
  do! list_query := lift (scim_user_list_query raw_query) in
  scim_user_list_response_for_query state list_query).
(* apps/api/src/http/scim_routes/users.rs:35-45 scim_search_users *)
Definition scim_search_users (state : AppState) (headers : HeaderMap) (raw_query : option string)
    (body : string) : HandlerOf ScimError Reply :=
  scim_payload_page state headers body search_request_from_bytes (fun payload =>
  do! _ := lift (reject_scim_search_query raw_query) in
  do! list_query := lift (scim_user_search_query payload) in
  scim_user_list_response_for_query state list_query).
(* apps/api/src/http/scim_routes/users.rs:71-80 scim_create_user *)
Definition scim_create_user (state : AppState) (env : ScimEnv) (headers : HeaderMap) (body : string)
    : HandlerOf ScimError Reply :=
  scim_payload_page state headers body user_request_from_bytes (fun payload =>
  operation_reply (scim_create_user_operation state env headers payload)).
(* apps/api/src/http/scim_routes/users.rs:82-99 scim_get_user *)
Definition scim_get_user (state : AppState) (headers : HeaderMap) (user_id : Uuid)
    (raw_query : option string) : HandlerOf ScimError Reply :=
  scim_page state headers (
  do! projection := lift (scim_resource_projection_query raw_query Kind_User "SCIM user query") in
  do! user := scim_get_tenant_user state user_id in
  succeed (scim_json_response 200 (scim_apply_projection (scim_user_resource state user) projection))).
(* apps/api/src/http/scim_routes/users.rs:101-111 scim_replace_user *)
Definition scim_replace_user (state : AppState) (env : ScimEnv) (headers : HeaderMap) (user_id : Uuid)
    (body : string) : HandlerOf ScimError Reply :=
  scim_payload_page state headers body user_request_from_bytes (fun payload =>
  operation_reply (scim_replace_user_operation state env headers user_id payload)).
(* apps/api/src/http/scim_routes/users.rs:113-123 scim_patch_user *)
Definition scim_patch_user (state : AppState) (env : ScimEnv) (headers : HeaderMap) (user_id : Uuid)
    (body : string) : HandlerOf ScimError Reply :=
  scim_payload_page state headers body patch_request_from_bytes (fun payload =>
  operation_reply (scim_patch_user_operation state env headers user_id payload)).
(* apps/api/src/http/scim_routes/users.rs:125-134 scim_delete_user *)
Definition scim_delete_user (state : AppState) (env : ScimEnv) (headers : HeaderMap) (user_id : Uuid)
    : HandlerOf ScimError Reply :=
  scim_page state headers (operation_reply (scim_delete_user_operation state env headers user_id)).

(* apps/api/src/http/scim_routes/groups.rs:47-85 scim_group_list_response_for_query *)
Definition scim_group_list_response_for_query (state : AppState)
    (list_query : ScimListQuery ScimGroupListFilter) : HandlerOf ScimError Reply :=
  do! (total_results, groups) := query (list_scim_groups_page_filtered (state_organization_id state)
    (query_filter list_query) (Z.to_nat (query_start_index list_query))
    (Z.to_nat (query_count list_query))) in
  let group_ids := List.map group_id groups in
  do! members := query (list_scim_group_members_for_groups (state_organization_id state) group_ids) in
  let members_by_group := scim_group_members_by_group members in
  let resources := List.map (fun group =>
    scim_apply_projection (scim_group_resource state group (members_by_group (group_id group)))
      (query_projection list_query)) groups in
  succeed (scim_list_response resources (Z.of_nat total_results) (query_start_index list_query)).
(* apps/api/src/http/scim_routes/groups.rs:25-33 scim_list_groups *)
Definition scim_list_groups (state : AppState) (headers : HeaderMap) (raw_query : option string)
    : HandlerOf ScimError Reply :=
  scim_page state headers (
  do! list_query := lift (scim_group_list_query raw_query) in
  scim_group_list_response_for_query state list_query).
(* apps/api/src/http/scim_routes/groups.rs:35-45 scim_search_groups *)
Definition scim_search_groups (state : AppState) (headers : HeaderMap) (raw_query : option string)
    (body : string) : HandlerOf ScimError Reply :=
  scim_payload_page state headers body search_request_from_bytes (fun payload =>
  do! _ := lift (reject_scim_search_query raw_query) in
  do! list_query := lift (scim_group_search_query payload) in
  scim_group_list_response_for_query state list_query).
(* apps/api/src/http/scim_routes/groups.rs:87-96 scim_create_group *)
Definition scim_create_group (state : AppState) (env : ScimEnv) (headers : HeaderMap) (body : string)
    : HandlerOf ScimError Reply :=
  scim_payload_page state headers body group_request_from_bytes (fun payload =>
  operation_reply (scim_create_group_operation state env headers payload)).
(* apps/api/src/http/scim_routes/groups.rs:98-119 scim_get_group *)
Definition scim_get_group (state : AppState) (headers : HeaderMap) (group_id_ : Uuid)
    (raw_query : option string) : HandlerOf ScimError Reply :=
  scim_page state headers (
  do! projection := lift (scim_resource_projection_query raw_query Kind_Group "SCIM group query") in
  do! group := scim_get_tenant_group state group_id_ in
  do! members := query (list_scim_group_members_for_groups (state_organization_id state) [group_id group]) in
  succeed (scim_json_response 200
             (scim_apply_projection (scim_group_resource state group members) projection))).
(* apps/api/src/http/scim_routes/groups.rs:121-131 scim_replace_group *)
Definition scim_replace_group (state : AppState) (env : ScimEnv) (headers : HeaderMap) (group_id : Uuid)
    (body : string) : HandlerOf ScimError Reply :=
  scim_payload_page state headers body group_request_from_bytes (fun payload =>
  operation_reply (scim_replace_group_operation state env headers group_id payload)).
(* apps/api/src/http/scim_routes/groups.rs:133-143 scim_patch_group *)
Definition scim_patch_group (state : AppState) (env : ScimEnv) (headers : HeaderMap) (group_id : Uuid)
    (body : string) : HandlerOf ScimError Reply :=
  scim_payload_page state headers body patch_request_from_bytes (fun payload =>
  operation_reply (scim_patch_group_operation state env headers group_id payload)).
(* apps/api/src/http/scim_routes/groups.rs:145-154 scim_delete_group *)
Definition scim_delete_group (state : AppState) (env : ScimEnv) (headers : HeaderMap) (group_id : Uuid)
    : HandlerOf ScimError Reply :=
  scim_page state headers (operation_reply (scim_delete_group_operation state env headers group_id)).

(** ** The service's description of itself *)

(* apps/api/src/http/scim_metadata/attributes.rs:3-22 scim_schema_attribute *)
Definition scim_schema_attribute (name value_type : string) (required case_exact : bool)
    (uniqueness description : string) : Value :=
  Object [("name", String_ name); ("type", String_ value_type); ("multiValued", Bool false);
          ("description", String_ description); ("required", Bool required);
          ("caseExact", Bool case_exact); ("mutability", String_ "readWrite");
          ("returned", String_ "default"); ("uniqueness", String_ uniqueness)].
Definition complex_attribute (name : string) (multi_valued : bool) (description : string)
    (sub_attributes : list Value) : Value :=
  Object [("name", String_ name); ("type", String_ "complex"); ("multiValued", Bool multi_valued);
          ("description", String_ description); ("required", Bool false); ("caseExact", Bool false);
          ("mutability", String_ "readWrite"); ("returned", String_ "default");
          ("uniqueness", String_ "none"); ("subAttributes", Array sub_attributes)].
Definition resource_meta (state : AppState) (resource_type path : string) : Value :=
  Object [("resourceType", String_ resource_type); ("location", String_ (scim_location state path))].
(* apps/api/src/http/scim_metadata/schemas.rs:9-58 scim_user_schema_resource *)
Definition scim_user_schema_resource (state : AppState) : Value :=
  Object [("schemas", Array [String_ SCIM_SCHEMA_SCHEMA]); ("id", String_ SCIM_USER_SCHEMA);
    ("name", String_ "User"); ("description", String_ "Cairn Identity SCIM user subset");
    ("attributes", Array [
      scim_schema_attribute "userName" "string" true true "server"
        "User login identifier; mapped to normalized email.";
      scim_schema_attribute "externalId" "string" false false "server"
        "Provisioning client's stable external identifier.";
      scim_schema_attribute "displayName" "string" false false "none"
        "Display name shown in Cairn Identity.";
      scim_schema_attribute "active" "boolean" false false "none"
        "Whether the account is active for runtime access.";
      complex_attribute "name" false "Structured display name subset."
        [scim_schema_attribute "formatted" "string" false false "none" "Formatted display name.";
         scim_schema_attribute "givenName" "string" false false "none"
           "Accepted for compatibility and folded into displayName when needed.";
         scim_schema_attribute "familyName" "string" false false "none"
           "Accepted for compatibility and folded into displayName when needed."];
      complex_attribute "emails" true "Email addresses. Cairn Identity stores one primary work email."
        [scim_schema_attribute "value" "string" false false "none" "Email address value.";
         scim_schema_attribute "type" "string" false false "none" "Email type.";
         scim_schema_attribute "primary" "boolean" false false "none" "Primary email marker."]]);
    ("meta", resource_meta state "Schema" ("Schemas/" +:+ SCIM_USER_SCHEMA))].
(* apps/api/src/http/scim_metadata/schemas.rs:60-92 scim_group_schema_resource *)
Definition scim_group_schema_resource (state : AppState) : Value :=
  Object [("schemas", Array [String_ SCIM_SCHEMA_SCHEMA]); ("id", String_ SCIM_GROUP_SCHEMA);
    ("name", String_ "Group");
    ("description", String_ "Cairn Identity SCIM group subset with user members only.");
    ("attributes", Array [
      scim_schema_attribute "displayName" "string" true false "none" "Human-readable group name.";
      scim_schema_attribute "externalId" "string" false false "server"
        "Provisioning client's stable external identifier.";
      complex_attribute "members" true
        "User members. Nested group members are not accepted in this release."
        [scim_schema_attribute "value" "string" false false "none" "User resource identifier.";
         scim_schema_attribute "$ref" "reference" false false "none" "User resource location.";
         scim_schema_attribute "display" "string" false false "none" "User display name.";
         scim_schema_attribute "type" "string" false false "none"
           "Member resource type; only User is supported."]]);
    ("meta", resource_meta state "Schema" ("Schemas/" +:+ SCIM_GROUP_SCHEMA))].
Definition resource_type (state : AppState) (name endpoint description schema : string) : Value :=
  Object [("schemas", Array [String_ SCIM_RESOURCE_TYPE_SCHEMA]); ("id", String_ name);
          ("name", String_ name); ("endpoint", String_ endpoint); ("description", String_ description);
          ("schema", String_ schema); ("schemaExtensions", Array []);
          ("meta", resource_meta state "ResourceType" ("ResourceTypes/" +:+ name))].
(* apps/api/src/http/scim_metadata/resource_types.rs:10-24 scim_user_resource_type *)
Definition scim_user_resource_type (state : AppState) : Value :=
  resource_type state "User" "/Users" "Cairn Identity user accounts" SCIM_USER_SCHEMA.
(* apps/api/src/http/scim_metadata/resource_types.rs:26-40 scim_group_resource_type *)
Definition scim_group_resource_type (state : AppState) : Value :=
  resource_type state "Group" "/Groups" "Cairn Identity groups with user members" SCIM_GROUP_SCHEMA.

Definition supported (b : bool) : Value := Object [("supported", Bool b)].
(* apps/api/src/http/scim_routes/metadata.rs:22-57 scim_service_provider_config *)
Definition scim_service_provider_config (state : AppState) (headers : HeaderMap)
    : HandlerOf ScimError Reply :=
  scim_page state headers (succeed (scim_json_response 200 (Object [
    ("schemas", Array [String_ SCIM_SERVICE_PROVIDER_CONFIG_SCHEMA]);
    ("documentationUri", String_ (trim_end_matches "/" (config_issuer state) +:+ "/docs/scim"));
    ("patch", supported true);
    ("bulk", Object [("supported", Bool true);
                     ("maxOperations", Number (Z.of_nat SCIM_BULK_MAX_OPERATIONS));
                     ("maxPayloadSize", Number SCIM_JSON_BODY_MAX_BYTES)]);
    ("filter", Object [("supported", Bool true); ("maxResults", Number SCIM_MAX_COUNT)]);
    ("changePassword", supported false); ("sort", supported false); ("etag", supported false);
    ("cursorPagination", supported false); ("securityEvents", supported false);
    ("authenticationSchemes", Array [Object [
      ("type", String_ "oauthbearertoken"); ("name", String_ "Bearer token");
      ("description", String_ "SCIM requests use an operator-provisioned bearer token hash.");
      ("specUri", String_ "https://www.rfc-editor.org/rfc/rfc6750"); ("primary", Bool true)]]);
    ("meta", resource_meta state "ServiceProviderConfig" "ServiceProviderConfig")]))).
(* apps/api/src/http/scim_routes/metadata.rs:59-72 scim_schemas *)
Definition scim_schemas (state : AppState) (headers : HeaderMap) : HandlerOf ScimError Reply :=
  scim_page state headers (succeed (scim_list_response
    [scim_user_schema_resource state; scim_group_schema_resource state] 2 1)).
(* apps/api/src/http/scim_routes/metadata.rs:74-88 scim_schema *)
Definition scim_schema (state : AppState) (headers : HeaderMap) (schema_id : string)
    : HandlerOf ScimError Reply :=
  scim_page state headers (
  do! resource :=
    if bool_decide (schema_id = SCIM_USER_SCHEMA) then succeed (scim_user_schema_resource state)
    else if bool_decide (schema_id = SCIM_GROUP_SCHEMA) then succeed (scim_group_schema_resource state)
    else fail (scim_not_found "SCIM schema not found") in
  succeed (scim_json_response 200 resource)).
(* apps/api/src/http/scim_routes/metadata.rs:90-103 scim_resource_types *)
Definition scim_resource_types (state : AppState) (headers : HeaderMap) : HandlerOf ScimError Reply :=
  scim_page state headers (succeed (scim_list_response
    [scim_user_resource_type state; scim_group_resource_type state] 2 1)).
(* apps/api/src/http/scim_routes/metadata.rs:105-119 scim_resource_type *)
Definition scim_resource_type (state : AppState) (headers : HeaderMap) (resource_type : string)
    : HandlerOf ScimError Reply :=
  scim_page state headers (
  do! resource :=
    if eq_ignore_ascii_case resource_type "User" then succeed (scim_user_resource_type state)
    else if eq_ignore_ascii_case resource_type "Group" then succeed (scim_group_resource_type state)
    else fail (scim_not_found "SCIM resource type not found") in
  succeed (scim_json_response 200 resource)).
End scim.
