(* ===== verification/ScimListings.v ===== *)
(** * SCIM: what a listing answers

    The bounds of what a listing may ask for and of what it answers. *)

From S2P Require Import Prelude RustStr Domain Authn Oidc Http Codec Store.
From S2P Require Import Directory Lifecycle.
From S2P Require Import Handler KeyStore OAuthPolicy RequestContext BrowserSession AdminRoutes.
From S2P Require Import ScimProtocol ScimQuery ScimInput ScimRoutes.

(** The paths of a projection: some, at most 20, none twice, all of them
    attributes of the resource. *)
Definition paths_ok (kind : ScimResourceKind) (paths : list ScimProjectionPath) : Prop :=
  paths <> [] /\ NoDup paths /\ (length paths <= SCIM_PROJECTION_MAX_ATTRIBUTES)%nat
  /\ forall path, path ∈ paths -> exists row, row.2 = path
       /\ row ∈ match kind with Kind_User => user_projection_table | Kind_Group => group_projection_table end.
Definition projection_ok (kind : ScimResourceKind) (projection : ScimProjection) : Prop :=
  match projection with
  | Projection_Default => True
  | Projection_Include paths | Projection_Exclude paths => paths_ok kind paths
  end.
Record list_query_ok {F} (kind : ScimResourceKind) (q : ScimListQuery F) : Prop := {
  ok_start_index : (1 <= query_start_index q <= 10000)%Z;
  ok_count : (0 <= query_count q <= 200)%Z;
  ok_projection : projection_ok kind (query_projection q);
}.

(** ** Projections *)

Lemma table_lookup_Ok table top sub e path :
  table_lookup table top sub e = Ok path -> exists row, row.2 = path /\ row ∈ table.
Proof.
  unfold table_lookup. intros H%ok_or_Ok. apply fmap_Some in H as (row & Hrow & ->).
  apply List.find_some in Hrow as [Hin _]. exists row. split; [done|]. by apply list_elem_of_In.
Qed.
Lemma projection_path_Ok kind raw path :
  scim_projection_path kind raw = Ok path ->
  exists row, row.2 = path
    /\ row ∈ match kind with Kind_User => user_projection_table | Kind_Group => group_projection_table end.
Proof.
  unfold scim_projection_path. cbv zeta. destruct (is_empty _); [done|]. destruct (_ || _); [done|].
  destruct (_ || _); [done|]. destruct kind; apply table_lookup_Ok.
Qed.
Lemma collect_paths_Ok kind raw_paths paths paths' :
  collect_projection_paths kind paths raw_paths = Ok paths' ->
  NoDup paths -> (length paths <= SCIM_PROJECTION_MAX_ATTRIBUTES)%nat ->
  (forall path, path ∈ paths -> exists row, row.2 = path
    /\ row ∈ match kind with Kind_User => user_projection_table | Kind_Group => group_projection_table end) ->
  paths' <> [] -> paths_ok kind paths'.
Proof.
  revert paths. induction raw_paths as [|raw raw_paths IH]; intros paths; cbn [collect_projection_paths].
  - intros [= <-]. by intros.
  - intros (path & Hpath%projection_path_Ok & H)%result_bind_Ok Hn Hl Hrow. cbv zeta in H.
    destruct (_ <? _)%nat eqn:E; [done|]. apply Nat.ltb_ge in E. apply (IH _ H).
    + case_bool_decide; [done|]. apply NoDup_app. split_and!; [done|set_solver|apply NoDup_singleton].
    + done.
    + intros p. case_bool_decide; [apply Hrow|]. intros [Hp| ->%list_elem_of_singleton]%elem_of_app; auto.
Qed.
Lemma paths_from_values_Ok kind values paths :
  scim_projection_paths_from_values kind values = Ok paths -> paths_ok kind paths.
Proof.
  unfold scim_projection_paths_from_values. intros (l & Hl & H)%result_bind_Ok.
  assert (l = paths /\ paths <> []) as [-> Hne] by (destruct l; [done|by injection H as <-]).
  eapply collect_paths_Ok; [exact Hl|constructor|cbn; lia| |done]. intros p. by intros ?%elem_of_nil.
Qed.
Lemma projection_from_query_Ok kind attributes excluded projection :
  (forall paths, attributes = Some paths -> paths_ok kind paths) ->
  (forall paths, excluded = Some paths -> paths_ok kind paths) ->
  scim_projection_from_query attributes excluded = Ok projection -> projection_ok kind projection.
Proof. intros Ha He. unfold scim_projection_from_query. destruct attributes, excluded; intros [= <-]; cbn; auto. Qed.

(** ** Listing parameters *)

Section lists.
Context {F : Type} (parse_filter : string -> Prelude.result ScimError F) (any : F) (kind : ScimResourceKind).

Record parameters_ok (p : ListParameters) : Prop := {
  ok_param_start : forall n, param_start_index p = Some n -> (1 <= n <= 10000)%Z;
  ok_param_count : forall n, param_count p = Some n -> (0 <= n <= 200)%Z;
  ok_param_attributes : forall paths, param_attributes p = Some paths -> paths_ok kind paths;
  ok_param_excluded : forall paths, param_excluded_attributes (F := F) p = Some paths -> paths_ok kind paths;
}.
Lemma in_bounds_iff lo hi n : in_bounds lo hi n = true <-> (lo <= n <= hi)%Z.
Proof. unfold in_bounds. rewrite andb_true_iff, !Z.leb_le. done. Qed.
Lemma list_parameter_Ok p entry p' :
  list_parameter parse_filter kind p entry = Ok p' -> parameters_ok p -> parameters_ok p'.
Proof.
  destruct p as [start count filter attributes excluded], entry as [name value].
  unfold list_parameter. repeat match goal with |- (if ?c then Err _ else _) = _ -> _ => destruct c; [done|] end.
  intros H [H1 H2 H3 H4]. cbn in H1, H2, H3, H4.
  case_bool_decide; [|case_bool_decide; [|case_bool_decide; [|case_bool_decide; [|case_bool_decide; [|done]]]]];
    apply result_bind_Ok in H as (x & Hx & [= <-]); split; cbn; auto.
  - unfold scim_list_start_index in Hx. apply result_bind_Ok in Hx as (n & _ & Hx).
    destruct (in_bounds _ _ n) eqn:E; [|done]. injection Hx as <-. intros m [= <-]. by apply in_bounds_iff in E.
  - unfold scim_list_count in Hx. apply result_bind_Ok in Hx as (n & _ & Hx).
    destruct (in_bounds _ _ n) eqn:E; [|done]. injection Hx as <-. intros m [= <-]. by apply in_bounds_iff in E.
  - intros paths [= <-]. by eapply paths_from_values_Ok.
  - intros paths [= <-]. by eapply paths_from_values_Ok.
Qed.
Lemma list_query_Ok raw q : scim_list_query parse_filter any kind raw = Ok q -> list_query_ok kind q.
Proof.
  unfold scim_list_query. cbv zeta. destruct (_ <? _)%nat; [done|].
  intros (pairs & _ & H)%result_bind_Ok. apply result_bind_Ok in H as (p & Hp & H).
  apply result_bind_Ok in H as (projection & Hproj & [= <-]).
  assert (parameters_ok p) as [H1 H2 H3 H4].
  { assert (Hstart : parameters_ok (mk_ListParameters None None None None None)) by (by split).
    revert Hp Hstart. generalize (mk_ListParameters (F := F) None None None None None) as p0.
    induction pairs as [|entry pairs IH]; intros p0; cbn [list_parameters]; [by intros [= <-]|].
    intros (p1 & Hp1 & Hp)%result_bind_Ok Hp0. eapply IH; [exact Hp|]. by eapply list_parameter_Ok. }
  split; cbn.
  - destruct (param_start_index p) eqn:E; cbn; [by apply H1|lia].
  - destruct (param_count p) eqn:E; cbn; [by apply H2|unfold SCIM_DEFAULT_COUNT; lia].
  - exact (projection_from_query_Ok _ _ _ _ H3 H4 Hproj).
Qed.
Lemma search_query_Ok payload q : scim_search_query parse_filter any kind payload = Ok q -> list_query_ok kind q.
Proof.
  unfold scim_search_query. intros (_ & _ & H)%result_bind_Ok.
  apply result_bind_Ok in H as (start & Hstart & H). apply result_bind_Ok in H as (count & Hcount & H).
  apply result_bind_Ok in H as (f & _ & H). apply result_bind_Ok in H as (a & Ha & H).
  apply result_bind_Ok in H as (x & Hx & H). apply result_bind_Ok in H as (projection & Hproj & [= <-]).
  assert (Hpaths : forall attributes paths,
    scim_search_projection_paths kind attributes = Ok (Some paths) -> paths_ok kind paths).
  { intros [attributes|] paths; [|done]. cbn. intros (l & Hl & [= <-])%result_bind_Ok.
    destruct attributes; by eapply paths_from_values_Ok. }
  split; cbn.
  - unfold scim_search_start_index in Hstart. cbv zeta in Hstart.
    destruct (in_bounds _ _ _) eqn:E in Hstart; [|done]. injection Hstart as <-. by apply in_bounds_iff in E.
  - unfold scim_search_count in Hcount. cbv zeta in Hcount.
    destruct (in_bounds _ _ _) eqn:E in Hcount; [|done]. injection Hcount as <-. by apply in_bounds_iff in E.
  - eapply projection_from_query_Ok; [| |exact Hproj]; intros paths ->; by eapply Hpaths.
Qed.
End lists.

(** ** Pages *)

Section pages.
Context {CC : CryptoCrates} {TC : TokenCrates} {AG : AesGcm} {HC : HttpCrates} {UU : UuidCrate}.
Context {TF : TimeFormat} {SS : ScimSerde}.
Context (search_bytes : string -> option ScimSearchRequest).

Inductive listing_page (state : AppState) (headers : HeaderMap) : HandlerOf ScimError Reply -> Prop :=
| listing_users raw : listing_page state headers (scim_list_users state headers raw)
| listing_user_search raw body :
    listing_page state headers (scim_search_users search_bytes state headers raw body)
| listing_groups raw : listing_page state headers (scim_list_groups state headers raw)
| listing_group_search raw body :
    listing_page state headers (scim_search_groups search_bytes state headers raw body).

(** What a listing answers: at most 200 resources out of [total]. *)
Definition bounded_reply (reply : Reply) : Prop :=
  exists resources total start_index,
    reply = scim_list_response resources (Z.of_nat total) start_index
    /\ (1 <= start_index <= 10000)%Z
    /\ (length resources <= 200)%nat /\ (length resources <= total)%nat.
Lemma page_bounded {A} (l : list A) (resource : A -> Value) total start n offset :
  (1 <= start <= 10000)%Z -> (0 <= n <= 200)%Z -> length l = total ->
  bounded_reply (scim_list_response (List.map resource (take (Z.to_nat n) (drop offset l))) (Z.of_nat total) start).
Proof.
  intros Hs Hn <-. eexists _, _, _. split_and!; [done|lia|lia|..]; rewrite length_map, length_take, length_drop; lia.
Qed.
Lemma user_listing_bounded state q db reply db' :
  list_query_ok Kind_User q ->
  run (scim_user_list_response_for_query state q) db = (Ok reply, db') -> bounded_reply reply.
Proof.
  intros [Hs Hc _]. unfold scim_user_list_response_for_query. rewrite run_handler_Ok.
  intros ([total users] & d & Hq%run_query_Ok & [= <- <-]).
  injection Hq as <- <- <-. apply page_bounded; [done..|]. by rewrite order_by_perm, length_map.
Qed.
Lemma group_listing_bounded state q db reply db' :
  list_query_ok Kind_Group q ->
  run (scim_group_list_response_for_query state q) db = (Ok reply, db') -> bounded_reply reply.
Proof.
  intros [Hs Hc _]. unfold scim_group_list_response_for_query. rewrite run_handler_Ok.
  intros ([total groups] & d & Hq%run_query_Ok & H). cbv zeta in H.
  apply run_handler_Ok in H as (members & d2 & _ & [= <- <-]).
  injection Hq as <- <- <-. apply page_bounded; [done..|]. by rewrite order_by_perm.
Qed.

(** A listing is bounded and changes nothing.  Whatever a request for users
    or groups asks, in its query string or as a search request, its answer is
    an error or a list of at most 200 resources, never more than it says there
    are in total, from a position between 1 and 10000; and the database is as
    before. *)
Theorem scim_listings_are_bounded state headers page db r db' :
  listing_page state headers page -> run page db = (r, db') ->
  db' = db /\ (forall reply, r = Ok reply -> bounded_reply reply).
Proof.
  intros Hpage H. split.
  - enough (Hreads : each_op (fun X op => reads op) page).
    { pose proof (each_reads_run page db Hreads) as Hdb. by rewrite H in Hdb. }
    destruct Hpage; unfold scim_list_users, scim_search_users, scim_list_groups, scim_search_groups,
      scim_payload_page, scim_page, scim_user_list_response_for_query, scim_group_list_response_for_query;
      each_op_steps; try (by intros d); intros d; by destruct (List.map group_id _).
  - intros reply ->. destruct Hpage; unfold scim_list_users, scim_search_users, scim_list_groups,
      scim_search_groups, scim_payload_page, scim_page in H;
      repeat match type of H with
      | run (handler_bind (lift ?c) _) _ = _ => destruct c eqn:?; [rewrite lift_Ok_bind in H|done]
      end;
      match type of H with
      | run (scim_user_list_response_for_query _ _) _ = _ => eapply user_listing_bounded; [|exact H]
      | _ => eapply group_listing_bounded; [|exact H]
      end; by first [eapply list_query_Ok; eassumption | eapply search_query_Ok; eassumption].
Qed.
End pages.
