(* ===== verification/ScimBulk.v ===== *)
(** * SCIM: bulk requests

    [apps/api/src/http]'s scim_bulk: a list of operations that may refer to
    what others of the list create, run in rounds: each round runs the
    operations whose references are settled. *)

From S2P Require Import Prelude RustStr Domain Authn Oidc Http Codec Store.
From S2P Require Import SessionStore Directory Lifecycle AuditStore.
From S2P Require Import Handler KeyStore OAuthPolicy RequestContext BrowserSession.
From S2P Require Import AdminRoutes ScimProtocol ScimQuery ScimInput ScimRoutes.
From Stdlib Require Import Ascii.

(** ** The request *)

(* apps/api/src/http/scim_bulk/contract/types.rs:17-24 ScimBulkOperationRequest *)
Record ScimBulkOperationRequest := mk_ScimBulkOperationRequest {
  bulk_method : string;
  bulk_bulk_id : option string;
  bulk_path : string;
  bulk_data : option Value;
}.
(* apps/api/src/http/scim_bulk/contract/types.rs:6-13 ScimBulkRequest *)
Record ScimBulkRequest := mk_ScimBulkRequest {
  bulk_schemas : list string;
  bulk_fail_on_errors : option nat;
  bulk_operations : list ScimBulkOperationRequest;
}.
(* apps/api/src/http/scim_bulk/contract/types.rs:27-31 ScimBulkJobOperation *)
Record ScimBulkJobOperation := mk_ScimBulkJobOperation {
  job_method : string;
  job_bulk_id : option string;
  job_operation : ScimBulkOperationRequest;
}.
(* apps/api/src/http/scim_bulk/contract/request.rs:13-18 ScimBulkMethod *)
Inductive ScimBulkMethod := Bulk_Post | Bulk_Put | Bulk_Patch | Bulk_Delete.
(* apps/api/src/http/scim_bulk/contract/request.rs:21-26 ScimBulkPath *)
Inductive ScimBulkPath :=
| BulkPath_Users
| BulkPath_User (id : Uuid)
| BulkPath_Groups
| BulkPath_Group (id : Uuid).

(* apps/api/src/http/scim_bulk/contract/request.rs:29-41 ScimBulkMethod::parse *)
Definition bulk_method_parse (value : string) : result ScimError ScimBulkMethod :=
  if eq_ignore_ascii_case value "POST" then Ok Bulk_Post
  else if eq_ignore_ascii_case value "PUT" then Ok Bulk_Put
  else if eq_ignore_ascii_case value "PATCH" then Ok Bulk_Patch
  else if eq_ignore_ascii_case value "DELETE" then Ok Bulk_Delete
  else Err (invalid_value "unsupported SCIM Bulk method").
(* apps/api/src/http/scim_bulk/contract/request.rs:78-86 scim_bulk_fail_on_errors *)
Definition scim_bulk_fail_on_errors (value : option nat) : result ScimError (option nat) :=
  match value with
  | None => Ok None
  | Some limit =>
      if (1 <=? limit)%nat && (limit <=? SCIM_BULK_MAX_OPERATIONS)%nat then Ok (Some limit)
      else Err (invalid_value "failOnErrors out of range")
  end.
(* apps/api/src/http/scim_bulk/contract/request.rs:129-131 scim_bulk_id *)
Definition scim_bulk_id (value : option string) : result ScimError (option string) :=
  optional_scim_str "bulkId" value 80.
(* apps/api/src/http/scim_bulk/contract/request.rs:133-140 scim_bulk_response_method *)
Definition scim_bulk_response_method (value : string) : string :=
  let method := trim value in
  if is_empty method then "UNKNOWN" else to_ascii_uppercase method.
(* apps/api/src/http/scim_bulk/contract/request.rs:88-103 scim_bulk_job_operations *)
Definition scim_bulk_job_operations (operations : list ScimBulkOperationRequest)
    : result ScimError (list ScimBulkJobOperation) :=
  collect_results (fun operation =>
    let method := scim_bulk_response_method (bulk_method operation) in
    let? bulk_id := scim_bulk_id (bulk_bulk_id operation) in
    Ok (mk_ScimBulkJobOperation method bulk_id operation)) operations.
(** The loop over the operations, with the identifiers seen. *)
Fixpoint bulk_ids_are_unique (seen : gset string) (operations : list ScimBulkOperationRequest)
    : result ScimError unit :=
  match operations with
  | [] => Ok tt
  | operation :: rest =>
      let? bulk_id := scim_bulk_id (bulk_bulk_id operation) in
      match bulk_id with
      | None => bulk_ids_are_unique seen rest
      | Some bulk_id =>
          if bool_decide (bulk_id ∈ seen)
          then Err (invalid_value "duplicate SCIM Bulk bulkId values are not allowed")
          else bulk_ids_are_unique ({[bulk_id]} ∪ seen) rest
      end
  end.
(* apps/api/src/http/scim_bulk/contract/request.rs:105-120 validate_scim_bulk_ids *)
Definition validate_scim_bulk_ids (operations : list ScimBulkOperationRequest) : result ScimError unit :=
  bulk_ids_are_unique ∅ operations.
(* apps/api/src/http/scim_bulk/contract/request.rs:122-127 scim_required_bulk_id *)
Definition scim_required_bulk_id (value : option string) : result ScimError string :=
  let? bulk_id := scim_bulk_id value in
  ok_or bulk_id (invalid_value "SCIM Bulk POST operations must include bulkId").

(** ** References *)

Definition BULK_REFERENCE_PREFIX : string := "bulkId:".
(* apps/api/src/http/scim_bulk/references.rs:132-135 scim_bulk_reference_name *)
Definition scim_bulk_reference_name (reference : string) : result ScimError string :=
  let? name := optional_scim_str "bulkId reference" (Some reference) 80 in
  ok_or name (invalid_value "SCIM Bulk bulkId reference cannot be empty").
Definition add_reference (references : gset string) (text : string) : result ScimError (gset string) :=
  match strip_prefix BULK_REFERENCE_PREFIX text with
  | Some reference => let? name := scim_bulk_reference_name reference in Ok ({[name]} ∪ references)
  | None => Ok references
  end.
(* apps/api/src/http/scim_bulk/references.rs:21-31 scim_collect_bulk_path_references *)
Definition scim_collect_bulk_path_references (path : string) (references : gset string)
    : result ScimError (gset string) :=
  apply_each add_reference references (split_char "/" path).
(* apps/api/src/http/scim_bulk/references.rs:33-56 scim_collect_bulk_value_references *)
Fixpoint scim_collect_bulk_value_references (value : Value) (references : gset string)
    {struct value} : result ScimError (gset string) :=
  match value with
  | String_ value => add_reference references value
  | Array values =>
      (fix each values references :=
         match values with
         | [] => Ok references
         | value :: rest =>
             let? references := scim_collect_bulk_value_references value references in
             each rest references
         end) values references
  | Object entries =>
      (fix each (entries : list (string * Value)) references :=
         match entries with
         | [] => Ok references
         | (_, value) :: rest =>
             let? references := scim_collect_bulk_value_references value references in
             each rest references
         end) entries references
  | Null | Bool _ | Number _ => Ok references
  end.
(* apps/api/src/http/scim_bulk/references.rs:10-19 scim_bulk_reference_dependencies *)
Definition scim_bulk_reference_dependencies (operation : ScimBulkOperationRequest)
    : result ScimError (gset string) :=
  let? references := scim_collect_bulk_path_references (bulk_path operation) ∅ in
  match bulk_data operation with
  | Some data => scim_collect_bulk_value_references data references
  | None => Ok references
  end.
(* apps/api/src/http/scim_bulk/references.rs:58-69 scim_bulk_dependencies_are_ready *)
Definition scim_bulk_dependencies_are_ready (dependencies : gset string)
    (bulk_references : gmap string Uuid) (creatable_bulk_ids failed_bulk_ids : gset string) : bool :=
  forallb (fun reference =>
    bool_decide (is_Some (bulk_references !! reference))
    || bool_decide (reference ∈ failed_bulk_ids)
    || negb (bool_decide (reference ∈ creatable_bulk_ids))) (elements dependencies).
(* apps/api/src/http/scim_bulk/references.rs:120-130 scim_bulk_reference_id *)
Definition scim_bulk_reference_id (reference : string) (bulk_references : gmap string Uuid)
    : result ScimError Uuid :=
  let? reference := scim_bulk_reference_name reference in
  ok_or (bulk_references !! reference)
    (invalid_value "SCIM Bulk bulkId reference must point to a successful POST operation").

Section bulk.
Context {CC : CryptoCrates} {TC : TokenCrates} {AG : AesGcm} {HC : HttpCrates} {UU : UuidCrate}.
Context {TF : TimeFormat} {SS : ScimSerde}.

Definition resolve_text (bulk_references : gmap string Uuid) (text : string) : result ScimError string :=
  match strip_prefix BULK_REFERENCE_PREFIX text with
  | Some reference =>
      let? resource_id := scim_bulk_reference_id reference bulk_references in
      Ok (uuid_to_string resource_id)
  | None => Ok text
  end.
(* apps/api/src/http/scim_bulk/references.rs:71-85 scim_resolve_bulk_path_references *)
Definition scim_resolve_bulk_path_references (path : string) (bulk_references : gmap string Uuid)
    : result ScimError string :=
  let? resolved := collect_results (resolve_text bulk_references) (split_char "/" path) in
  Ok (join "/" resolved).
(* apps/api/src/http/scim_bulk/references.rs:87-118 scim_resolve_bulk_value_references *)
Fixpoint scim_resolve_bulk_value_references (value : Value) (bulk_references : gmap string Uuid)
    {struct value} : result ScimError Value :=
  match value with
  | String_ text => let? text := resolve_text bulk_references text in Ok (String_ text)
  | Array values =>
      let? values :=
        (fix each values :=
           match values with
           | [] => Ok []
           | value :: rest =>
               let? value := scim_resolve_bulk_value_references value bulk_references in
               let? rest := each rest in Ok (value :: rest)
           end) values in
      Ok (Array values)
  | Object entries =>
      let? entries :=
        (fix each (entries : list (string * Value)) :=
           match entries with
           | [] => Ok []
           | (key, value) :: rest =>
               let? value := scim_resolve_bulk_value_references value bulk_references in
               let? rest := each rest in Ok ((key, value) :: rest)
           end) entries in
      Ok (Object entries)
  | Null | Bool _ | Number _ => Ok value
  end.
(* apps/api/src/http/scim_bulk/references.rs:137-144 scim_bulk_result_resource_id *)
Definition scim_bulk_result_resource_id (result : ScimOperationResult) : option Uuid :=
  body ← operation_body result;
  id ← value_get body "id";
  text ← as_str id;
  Uuid_parse_str text.

(** ** One operation *)

Definition str_contains_any (patterns : list string) (s : string) : bool :=
  existsb (fun pattern => str_contains pattern s) patterns.
Definition strip_prefix_or_self (prefix path : string) : string :=
  default path (strip_prefix prefix path).
(* apps/api/src/http/scim_bulk/contract/request.rs:44-76 scim_bulk_path *)
Definition scim_bulk_path (raw_path : string) : result ScimError ScimBulkPath :=
  let path := trim raw_path in
  if is_empty path then Err (invalid_path "SCIM Bulk path cannot be empty")
  else if str_contains_any ["://"; "?"; "#"] path
  then Err (invalid_path "SCIM Bulk path must be relative to the SCIM service root")
  else
    let path := trim_start_matches "/" path in
    let path := strip_prefix_or_self "scim/v2/" path in
    let path := strip_prefix_or_self "v2/" path in
    let segments := split_char "/" path in
    if existsb is_empty segments then Err (invalid_path "invalid SCIM Bulk path")
    else
    match segments with
    | [collection] =>
        if bool_decide (collection = "Users") then Ok BulkPath_Users
        else if bool_decide (collection = "Groups") then Ok BulkPath_Groups
        else Err (invalid_path "unsupported SCIM Bulk path")
    | [collection; id] =>
        if bool_decide (collection = "Users")
        then let? id := ok_or (Uuid_parse_str id)
                          (invalid_path "SCIM Bulk user path must include a UUID") in
             Ok (BulkPath_User id)
        else if bool_decide (collection = "Groups")
        then let? id := ok_or (Uuid_parse_str id)
                          (invalid_path "SCIM Bulk group path must include a UUID") in
             Ok (BulkPath_Group id)
        else Err (invalid_path "unsupported SCIM Bulk path")
    | _ => Err (invalid_path "unsupported SCIM Bulk path")
    end.
(* apps/api/src/http/scim_bulk/contract/request.rs:142-157 scim_bulk_data *)
Definition scim_bulk_data {T} (from_value : Value -> option T) (operation : ScimBulkOperationRequest)
    (resource_name : string) (bulk_references : gmap string Uuid) : result ScimError T :=
  let? data := ok_or (bulk_data operation)
                 (invalid_value "SCIM Bulk operation data is required for this method") in
  let? data := scim_resolve_bulk_value_references data bulk_references in
  ok_or (from_value data) (invalid_value ("invalid SCIM Bulk " +:+ resource_name +:+ " data")).
(* apps/api/src/http/scim_bulk/contract/request.rs:159-168 scim_bulk_expect_no_data *)
Definition scim_bulk_expect_no_data (operation : ScimBulkOperationRequest) : result ScimError unit :=
  if is_some (bulk_data operation)
  then Err (invalid_value "SCIM Bulk DELETE operations must not include data") else Ok tt.

(* apps/api/src/http/scim_bulk/operations.rs:23-74 scim_execute_bulk_operation *)
Definition scim_execute_bulk_operation (state : AppState) (env : ScimEnv) (headers : HeaderMap)
    (operation : ScimBulkOperationRequest) (bulk_references : gmap string Uuid)
    : HandlerOf ScimError ScimOperationResult :=
  do! method := lift (bulk_method_parse (bulk_method operation)) in
  do! resolved_path := lift (scim_resolve_bulk_path_references (bulk_path operation) bulk_references) in
  do! path := lift (scim_bulk_path resolved_path) in
  match method, path with
  | Bulk_Post, BulkPath_Users =>
      do! _ := lift (scim_required_bulk_id (bulk_bulk_id operation)) in
      do! payload := lift (scim_bulk_data user_request_from_value operation "User" bulk_references) in
      scim_create_user_operation state env headers payload
  | Bulk_Put, BulkPath_User user_id =>
      do! payload := lift (scim_bulk_data user_request_from_value operation "User" bulk_references) in
      scim_replace_user_operation state env headers user_id payload
  | Bulk_Patch, BulkPath_User user_id =>
      do! payload := lift (scim_bulk_data patch_request_from_value operation "PatchOp" bulk_references) in
      scim_patch_user_operation state env headers user_id payload
  | Bulk_Delete, BulkPath_User user_id =>
      do! _ := lift (scim_bulk_expect_no_data operation) in
      scim_delete_user_operation state env headers user_id
  | Bulk_Post, BulkPath_Groups =>
      do! _ := lift (scim_required_bulk_id (bulk_bulk_id operation)) in
      do! payload := lift (scim_bulk_data group_request_from_value operation "Group" bulk_references) in
      scim_create_group_operation state env headers payload
  | Bulk_Put, BulkPath_Group group_id =>
      do! payload := lift (scim_bulk_data group_request_from_value operation "Group" bulk_references) in
      scim_replace_group_operation state env headers group_id payload
  | Bulk_Patch, BulkPath_Group group_id =>
      do! payload := lift (scim_bulk_data patch_request_from_value operation "PatchOp" bulk_references) in
      scim_patch_group_operation state env headers group_id payload
  | Bulk_Delete, BulkPath_Group group_id =>
      do! _ := lift (scim_bulk_expect_no_data operation) in
      scim_delete_group_operation state env headers group_id
  | _, _ => fail (invalid_value "unsupported SCIM Bulk operation for path and method")
  end.

(** ** Replies *)

Definition bulk_id_entry (bulk_id : option string) : list (string * Value) :=
  match bulk_id with Some id => [("bulkId", String_ id)] | None => [] end.
Definition status_text (status : StatusCode) : Value := String_ (i64_to_string (Z.of_N status)).
(* apps/api/src/http/scim_bulk/contract/response.rs:11-30 scim_bulk_success_response *)
Definition scim_bulk_success_response (method : string) (bulk_id : option string)
    (result : ScimOperationResult) : Value :=
  Object ([("method", String_ method); ("status", status_text (operation_status result))]
          ++ bulk_id_entry bulk_id
          ++ match operation_location result with
             | Some location => [("location", String_ location)] | None => [] end
          ++ match operation_body result with Some body => [("response", body)] | None => [] end).
(* apps/api/src/http/scim_bulk/contract/response.rs:32-46 scim_bulk_error_response *)
Definition scim_bulk_error_response (method : string) (bulk_id : option string) (error : ScimError)
    : Value :=
  Object ([("method", String_ method); ("status", status_text (scim_error_status error));
           ("response", scim_error_body error)] ++ bulk_id_entry bulk_id).
(* apps/api/src/http/scim_bulk/contract/response.rs:48-58 scim_bulk_limit_response *)
Definition scim_bulk_limit_response : Reply :=
  scim_json_response 413
    (Object [("schemas", Array [String_ SCIM_ERROR_SCHEMA]);
             ("detail", String_ "SCIM Bulk operation limit exceeded"); ("status", status_text 413);
             ("maxOperations", Number (Z.of_nat SCIM_BULK_MAX_OPERATIONS))]).

(** ** The job *)

(** The local variables of the job. *)
Record JobState := mk_JobState {
  job_error_count : nat;
  job_references : gmap string Uuid;
  job_failed : gset string;
  job_pending : gset nat;
  job_responses : list (option Value);
}.
Definition is_post (operation : ScimBulkJobOperation) : bool :=
  eq_ignore_ascii_case (bulk_method (job_operation operation)) "POST".
Definition creatable_ids (operations : list ScimBulkJobOperation) : gset string :=
  list_to_set (omap job_bulk_id (List.filter is_post operations)).
Definition limit_reached (fail_on_errors : option nat) (error_count : nat) : bool :=
  match fail_on_errors with Some limit => (limit <=? error_count)%nat | None => false end.
(** An operation answered with an error. *)
Definition job_fails (operation : ScimBulkJobOperation) (index : nat) (error : ScimError)
    (job : JobState) : JobState :=
  mk_JobState (S (job_error_count job)) (job_references job)
    (match job_bulk_id operation with
     | Some bulk_id => if is_post operation then {[bulk_id]} ∪ job_failed job else job_failed job
     | None => job_failed job
     end)
    (job_pending job ∖ {[index]})
    (<[index := Some (scim_bulk_error_response (job_method operation) (job_bulk_id operation) error)]>
       (job_responses job)).
Definition job_succeeds (operation : ScimBulkJobOperation) (index : nat) (result : ScimOperationResult)
    (job : JobState) : JobState :=
  mk_JobState (job_error_count job)
    (match job_bulk_id operation, scim_bulk_result_resource_id result with
     | Some bulk_id, Some resource_id =>
         if is_post operation then <[bulk_id := resource_id]> (job_references job) else job_references job
     | _, _ => job_references job
     end)
    (job_failed job) (job_pending job ∖ {[index]})
    (<[index := Some (scim_bulk_success_response (job_method operation) (job_bulk_id operation) result)]>
       (job_responses job)).

(** The order in which a [HashSet] of indices iterates. *)
Context (iteration_order : gset nat -> list nat).

(** The loop of [record_unresolved_operations]. *)
Fixpoint fail_unresolved (operations : list ScimBulkJobOperation) (fail_on_errors : option nat)
    (unresolved : list nat) (job : JobState) : JobState :=
  match unresolved with
  | [] => job
  | index :: rest =>
      match operations !! index with
      | None => job
      | Some operation =>
          let job := job_fails operation index
                       (scim_conflict "SCIM Bulk bulkId references could not be resolved") job in
          if limit_reached fail_on_errors (job_error_count job) then job
          else fail_unresolved operations fail_on_errors rest job
      end
  end.
(* apps/api/src/http/scim_bulk/job.rs:108-136 record_unresolved_operations *)
Definition record_unresolved_operations (operations : list ScimBulkJobOperation)
    (fail_on_errors : option nat) (job : JobState) : JobState :=
  fail_unresolved operations fail_on_errors (iteration_order (job_pending job)) job.

Definition ready_indices (operations : list ScimBulkJobOperation) (dependencies : list (gset string))
    (creatable_bulk_ids : gset string) (job : JobState) : list nat :=
  List.filter (fun index =>
    bool_decide (index ∈ job_pending job)
    && scim_bulk_dependencies_are_ready (default ∅ (dependencies !! index)) (job_references job)
         creatable_bulk_ids (job_failed job)) (seq 0 (length operations)).
(** The loop over the operations of one round; each draws from [envs]. *)
Fixpoint run_ready (state : AppState) (envs : nat -> ScimEnv) (headers : HeaderMap)
    (operations : list ScimBulkJobOperation) (fail_on_errors : option nat) (indices : list nat)
    (job : JobState) : Prog JobState :=
  match indices with
  | [] => Ret job
  | index :: rest =>
      match operations !! index with
      | None => Ret job
      | Some operation =>
          prog_bind (scim_execute_bulk_operation state (envs index) headers (job_operation operation)
                       (job_references job)) (fun outcome =>
          let job := match outcome with
                     | Ok result => job_succeeds operation index result job
                     | Err error => job_fails operation index error job
                     end in
          if limit_reached fail_on_errors (job_error_count job) then Ret job
          else run_ready state envs headers operations fail_on_errors rest job)
      end
  end.
(** The [while] loop: every round answers an operation or is the last, so as
    many rounds as operations are enough. *)
Fixpoint run_rounds (rounds : nat) (state : AppState) (envs : nat -> ScimEnv) (headers : HeaderMap)
    (operations : list ScimBulkJobOperation) (dependencies : list (gset string))
    (fail_on_errors : option nat) (job : JobState) : Prog JobState :=
  match rounds with
  | O => Ret job
  | S rounds =>
      if bool_decide (job_pending job = ∅) || limit_reached fail_on_errors (job_error_count job)
      then Ret job
      else
        match ready_indices operations dependencies (creatable_ids operations) job with
        | [] => Ret (record_unresolved_operations operations fail_on_errors job)
        | indices =>
            prog_bind (run_ready state envs headers operations fail_on_errors indices job) (fun job =>
            run_rounds rounds state envs headers operations dependencies fail_on_errors job)
        end
  end.
Definition new_job (operations : list ScimBulkJobOperation) : JobState :=
  mk_JobState 0 ∅ ∅ (set_seq 0 (length operations)) (replicate (length operations) None).
(* apps/api/src/http/scim_bulk/job.rs:15-106 execute_scim_bulk_job *)
Definition execute_scim_bulk_job (state : AppState) (envs : nat -> ScimEnv) (headers : HeaderMap)
    (operations : list ScimBulkJobOperation) (fail_on_errors : option nat)
    : HandlerOf ScimError (list Value) :=
  do! dependencies :=
    lift (collect_results (fun operation => scim_bulk_reference_dependencies (job_operation operation))
            operations) in
  prog_bind (run_rounds (length operations) state envs headers operations dependencies fail_on_errors
               (new_job operations)) (fun job =>
  succeed (omap id (job_responses job))).

(** [Json::from_bytes] of the payload. *)
Context (bulk_request_from_bytes : string -> option ScimBulkRequest).
(* apps/api/src/http/scim_bulk.rs:30-66 scim_bulk *)
Definition scim_bulk (state : AppState) (envs : nat -> ScimEnv) (headers : HeaderMap) (body : string)
    : HandlerOf ScimError Reply :=
  scim_payload_page state headers body bulk_request_from_bytes (fun payload =>
  if negb (contains (bulk_schemas payload) SCIM_BULK_REQUEST_SCHEMA)
  then fail (invalid_value "SCIM Bulk request must include BulkRequest schema")
  else if bool_decide (length (bulk_operations payload) = 0)
  then fail (invalid_value "SCIM Bulk request must include at least one operation")
  else if (SCIM_BULK_MAX_OPERATIONS <? length (bulk_operations payload))%nat
  then succeed scim_bulk_limit_response
  else
    do! fail_on_errors := lift (scim_bulk_fail_on_errors (bulk_fail_on_errors payload)) in
    do! _ := lift (validate_scim_bulk_ids (bulk_operations payload)) in
    do! operations := lift (scim_bulk_job_operations (bulk_operations payload)) in
    do! responses := execute_scim_bulk_job state envs headers operations fail_on_errors in
    succeed (scim_json_response 200
      (Object [("schemas", Array [String_ SCIM_BULK_RESPONSE_SCHEMA]);
               ("Operations", Array responses)]))).
End bulk.
