(* ===== verification/ScimJobs.v ===== *)
(** * SCIM: what a bulk job guarantees

    The rounds of [execute_scim_bulk_job] with their outcomes: which operation
    was answered with what, and on which successful operations it relied. *)

From S2P Require Import Prelude RustStr Domain Authn Oidc Http Codec Store.
From S2P Require Import SessionStore Directory Lifecycle AuditStore.
From S2P Require Import Handler KeyStore OAuthPolicy RequestContext BrowserSession.
From S2P Require Import AdminRoutes ScimProtocol ScimQuery ScimInput ScimRoutes ScimBulk.
From Stdlib Require Import Ascii.

Notation Outcome := (Prelude.result ScimError ScimOperationResult).
Definition is_error (outcome : option Outcome) : bool :=
  match outcome with Some (Err _) => true | _ => false end.
(** The response that reports an outcome. *)
Definition render (operation : ScimBulkJobOperation) (outcome : Outcome) : Value :=
  match outcome with
  | Ok result => scim_bulk_success_response (job_method operation) (job_bulk_id operation) result
  | Err error => scim_bulk_error_response (job_method operation) (job_bulk_id operation) error
  end.
Definition render_all (operations : list ScimBulkJobOperation) (outcomes : list (option Outcome))
    : list (option Value) :=
  zip_with (fun operation outcome => render operation <$> outcome) operations outcomes.

Section jobs.
Context {CC : CryptoCrates} {TC : TokenCrates} {AG : AesGcm} {HC : HttpCrates} {UU : UuidCrate}.
Context {TF : TimeFormat} {SS : ScimSerde}.
Context (iteration_order : gset nat -> list nat).

(** Operation [j] is a POST with the bulk identifier [name] that succeeded and
    answered with the resource [id]. *)
Definition created (operations : list ScimBulkJobOperation) (outcomes : list (option Outcome))
    (name : string) (id : Uuid) : Prop :=
  exists j operation result,
    operations !! j = Some operation /\ outcomes !! j = Some (Some (Ok result))
    /\ is_post operation = true /\ job_bulk_id operation = Some name
    /\ scim_bulk_result_resource_id result = Some id.
(** Every reference of every operation that succeeded was created. *)
Definition references_created (operations : list ScimBulkJobOperation)
    (outcomes : list (option Outcome)) : Prop :=
  forall i operation result references name,
    operations !! i = Some operation -> outcomes !! i = Some (Some (Ok result)) ->
    scim_bulk_reference_dependencies (job_operation operation) = Ok references -> name ∈ references ->
    exists id, created operations outcomes name id.

(** ** References *)

Section Value_nested.
Context (P : Value -> Prop) (Hnull : P Null) (Hbool : forall b, P (Bool b)) (Hnumber : forall n, P (Number n))
  (Hstring : forall s, P (String_ s)) (Harray : forall l, Forall P l -> P (Array l))
  (Hobject : forall l, Forall (fun e => P e.2) l -> P (Object l)).
Fixpoint Value_nested (v : Value) : P v :=
  match v with
  | Null => Hnull
  | Bool b => Hbool b
  | Number n => Hnumber n
  | String_ s => Hstring s
  | Array l => Harray l ((fix each l : Forall P l :=
      match l with [] => Forall_nil_2 P | w :: l => Forall_cons_2 P w l (Value_nested w) (each l) end) l)
  | Object l => Hobject l ((fix each (l : list (string * Value)) : Forall (fun e => P e.2) l :=
      match l with
      | [] => Forall_nil_2 (fun e => P e.2)
      | e :: l => Forall_cons_2 (fun e => P e.2) e l (Value_nested e.2) (each l)
      end) l)
  end.
End Value_nested.

(** What was collected from a text that resolves is resolved. *)
Definition resolves (bulk_references : gmap string Uuid) (references references' : gset string) : Prop :=
  forall name, name ∈ references' -> name ∈ references \/ is_Some (bulk_references !! name).
#[local] Instance resolves_preorder bulk_references : PreOrder (resolves bulk_references).
Proof. split; [intros r n; auto|]. intros r1 r2 r3 H1 H2 n Hn. destruct (H2 n Hn); [by apply H1|by right]. Qed.
Lemma text_resolves bulk_references text text' references references' :
  resolve_text bulk_references text = Ok text' -> add_reference references text = Ok references' ->
  resolves bulk_references references references'.
Proof.
  unfold resolve_text, add_reference. destruct (strip_prefix _ text) as [reference|]; [|by intros _ [= <-]].
  intros (id & Hid & _)%result_bind_Ok (name & Hname & [= <-])%result_bind_Ok.
  unfold scim_bulk_reference_id in Hid. rewrite Hname in Hid. cbn in Hid. apply ok_or_Ok in Hid.
  intros n [->%elem_of_singleton|Hn]%elem_of_union; [right; eauto|by left].
Qed.
Lemma path_resolves bulk_references path path' references references' :
  scim_resolve_bulk_path_references path bulk_references = Ok path' ->
  scim_collect_bulk_path_references path references = Ok references' ->
  resolves bulk_references references references'.
Proof.
  unfold scim_resolve_bulk_path_references, scim_collect_bulk_path_references.
  intros (resolved & H & _)%result_bind_Ok. revert resolved references H.
  generalize (split_char "/" path) as segments. intros segments.
  induction segments as [|s segments IH]; intros resolved references; cbn; [by intros _ [= <-]|].
  intros (t & Ht & H)%result_bind_Ok (r & Hr & H')%result_bind_Ok.
  apply result_bind_Ok in H as (ts & Hts & _). etrans; [by eapply text_resolves|by eapply IH].
Qed.
Lemma value_resolves bulk_references value :
  forall value' references references',
  scim_resolve_bulk_value_references value bulk_references = Ok value' ->
  scim_collect_bulk_value_references value references = Ok references' ->
  resolves bulk_references references references'.
Proof.
  induction value as [|b|n|s|l IH|l IH] using Value_nested; intros value' references references';
    cbn [scim_resolve_bulk_value_references scim_collect_bulk_value_references]; try by intros _ [= <-].
  - intros (t & Ht & _)%result_bind_Ok H. by eapply text_resolves.
  - intros (vs & Hvs & _)%result_bind_Ok. revert vs references Hvs.
    induction IH as [|v l Hv _ IHl]; intros vs references; [by intros _ [= <-]|].
    intros (v' & Hv' & H)%result_bind_Ok (r & Hr & H')%result_bind_Ok.
    apply result_bind_Ok in H as (rest & Hrest & _). etrans; [by eapply Hv|by eapply IHl].
  - intros (vs & Hvs & _)%result_bind_Ok. revert vs references Hvs.
    induction IH as [|[k v] l Hv _ IHl]; intros vs references; [by intros _ [= <-]|].
    intros (v' & Hv' & H)%result_bind_Ok (r & Hr & H')%result_bind_Ok.
    apply result_bind_Ok in H as (rest & Hrest & _). etrans; [by eapply Hv|by eapply IHl].
Qed.

(** An operation that succeeded had all its references. *)
Lemma execute_resolved state env headers operation bulk_references db result db' references name :
  run (scim_execute_bulk_operation state env headers operation bulk_references) db = (Ok result, db') ->
  scim_bulk_reference_dependencies operation = Ok references -> name ∈ references ->
  is_Some (bulk_references !! name).
Proof.
  intros H (pr & Hpath & Hdata)%result_bind_Ok Hname.
  unfold scim_execute_bulk_operation in H.
  apply run_handler_Ok in H as (method & d & [_ ->]%run_lift_Ok & H).
  apply run_handler_Ok in H as (rp & d1 & [Hrp ->]%run_lift_Ok & H).
  apply run_handler_Ok in H as (path & d2 & [_ ->]%run_lift_Ok & H).
  assert (Hp : resolves bulk_references ∅ pr) by (by eapply path_resolves).
  assert (Hd : forall T (from : Value -> option T) what p, 
    scim_bulk_data from operation what bulk_references = Ok p -> resolves bulk_references ∅ references).
  { intros T from what p (data & Hdt%ok_or_Ok & Hres)%result_bind_Ok. rewrite Hdt in Hdata.
    apply result_bind_Ok in Hres as (v & Hv & _). etrans; [exact Hp|by eapply value_resolves]. }
  assert (Hn : scim_bulk_expect_no_data operation = Ok tt -> resolves bulk_references ∅ references).
  { unfold scim_bulk_expect_no_data. destruct (bulk_data operation); [done|]. by injection Hdata as <-. }
  enough (resolves bulk_references ∅ references) as Hall by (by destruct (Hall name Hname)).
  destruct method, path; try (cbn in H; discriminate H);
    repeat match type of H with
    | run (handler_bind (lift (scim_bulk_data _ _ _ _)) _) _ = _ =>
        apply run_handler_Ok in H as (? & ? & [Hpl ->]%run_lift_Ok & _); by eapply Hd
    | run (handler_bind (lift (scim_bulk_expect_no_data _)) _) _ = _ =>
        apply run_handler_Ok in H as ([] & ? & [Hpl ->]%run_lift_Ok & _); by apply Hn
    | run (handler_bind (lift _) _) _ = _ =>
        apply run_handler_Ok in H as (? & ? & [_ ->]%run_lift_Ok & H)
    end.
Qed.

(** ** The state of a job *)

Section job.
Context (operations : list ScimBulkJobOperation) (dependencies : list (gset string)).
Context (limit : option nat).

(** The state of the job after the outcomes so far. *)
Record job_inv (outcomes : list (option Outcome)) (job : JobState) : Prop := {
  inv_length : length outcomes = length operations;
  inv_responses : job_responses job = render_all operations outcomes;
  inv_pending : forall i, i ∈ job_pending job <-> outcomes !! i = Some None;
  inv_references : forall name id, job_references job !! name = Some id ->
    created operations outcomes name id;
  inv_errors : job_error_count job = length (List.filter is_error outcomes);
  inv_created : references_created operations outcomes;
}.
(** The answer to operation [i]. *)
Definition answer (i : nat) (operation : ScimBulkJobOperation) (outcome : Outcome) (job : JobState)
    : JobState :=
  match outcome with
  | Ok result => job_succeeds operation i result job
  | Err error => job_fails operation i error job
  end.

Lemma new_job_inv : job_inv (replicate (length operations) None) (new_job operations).
Proof.
  split; cbn.
  - apply length_replicate.
  - unfold render_all. induction operations as [|o l IH]; cbn; [done|]. by rewrite IH.
  - intros i. rewrite elem_of_set_seq, lookup_replicate. naive_solver lia.
  - intros name id. by rewrite lookup_empty.
  - by induction (length operations).
  - intros i o result references name _ Hi. by apply lookup_replicate in Hi as [? _].
Qed.
Lemma created_insert outcomes i outcome name id :
  outcomes !! i = Some None -> created operations outcomes name id ->
  created operations (<[i := Some outcome]> outcomes) name id.
Proof.
  intros Hi (j & o & result & Ho & Hj & Hrest). exists j, o, result. split_and!; try apply Hrest; [done|].
  rewrite list_lookup_insert_ne; [done|]. intros ->. by rewrite Hi in Hj.
Qed.
Lemma count_errors_insert outcomes i outcome :
  outcomes !! i = Some None ->
  length (List.filter is_error (<[i := Some outcome]> outcomes))
  = (length (List.filter is_error outcomes) + if is_error (Some outcome) then 1 else 0)%nat.
Proof.
  revert i. induction outcomes as [|o l IH]; intros [|i]; cbn -[is_error]; [done..| |].
  - intros [= ->]. cbn [is_error]. destruct outcome; cbn; lia.
  - intros Hi. destruct (is_error o); cbn -[is_error]; by rewrite IH.
Qed.
Lemma answer_inv outcomes job i operation outcome :
  job_inv outcomes job -> operations !! i = Some operation -> i ∈ job_pending job ->
  (forall result references name, outcome = Ok result ->
     scim_bulk_reference_dependencies (job_operation operation) = Ok references -> name ∈ references ->
     is_Some (job_references job !! name)) ->
  job_inv (<[i := Some outcome]> outcomes) (answer i operation outcome job).
Proof.
  intros [Hl Hr Hp Href He Hc] Ho Hi Hres. pose proof (proj1 (Hp i) Hi) as Hnone.
  assert (Hlt : i < length outcomes) by (by eapply lookup_lt_Some).
  split.
  - by rewrite length_insert.
  - transitivity (<[i := Some (render operation outcome)]> (job_responses job)).
    { by destruct outcome. }
    rewrite Hr. unfold render_all. rewrite <- (list_insert_id operations i operation Ho) at 2.
    by rewrite <- insert_zip_with.
  - intros j. transitivity (j ∈ job_pending job ∖ {[i]}); [by destruct outcome|].
    rewrite elem_of_difference, elem_of_singleton, Hp. destruct (decide (j = i)) as [->|Hne].
    + rewrite list_lookup_insert_eq by done. naive_solver.
    + rewrite list_lookup_insert_ne by done. naive_solver.
  - intros name id. destruct outcome as [result|error]; cbn.
    2:{ intros Hn. apply created_insert; auto. }
    destruct (job_bulk_id operation) as [bulk_id|] eqn:Eb; [|intros Hn; apply created_insert; auto].
    destruct (scim_bulk_result_resource_id result) as [r|] eqn:Er; [|intros Hn; apply created_insert; auto].
    destruct (is_post operation) eqn:Epost; [|intros Hn; apply created_insert; auto].
    intros [[<- <-]|[_ Hn]]%lookup_insert_Some; [|apply created_insert; auto].
    exists i, operation, result. split_and!; try done. by apply list_lookup_insert_eq.
  - rewrite count_errors_insert, <- He by done. destruct outcome; cbn; lia.
  - intros j o result references name Hj Hout Hdeps Hname. destruct (decide (j = i)) as [->|Hne].
    + rewrite list_lookup_insert_eq in Hout by done. injection Hout as ->.
      assert (o = operation) as -> by congruence.
      destruct (Hres result references name eq_refl Hdeps Hname) as [id Hid].
      exists id. by apply created_insert; [|apply Href].
    + rewrite list_lookup_insert_ne in Hout by done.
      destruct (Hc j o result references name Hj Hout Hdeps Hname) as [id Hid].
      exists id. by apply created_insert.
Qed.
Definition within_limit (job : JobState) : Prop :=
  forall k, limit = Some k -> (job_error_count job <= k)%nat.
Lemma answer_within i operation outcome job :
  limit_reached limit (job_error_count job) = false -> within_limit (answer i operation outcome job).
Proof.
  intros H k ->. cbn in H. apply Nat.leb_gt in H. destruct outcome; cbn; lia.
Qed.

(** *** One round *)

Lemma run_ready_inv state envs headers indices job outcomes db :
  job_inv outcomes job -> NoDup indices -> (forall i, i ∈ indices -> i ∈ job_pending job) ->
  limit_reached limit (job_error_count job) = false ->
  exists outcomes' job' db',
    run (run_ready state envs headers operations limit indices job) db = (job', db')
    /\ job_inv outcomes' job' /\ within_limit job'
    /\ (limit_reached limit (job_error_count job') = false ->
        job_pending job' = job_pending job ∖ list_to_set indices).
Proof.
  revert job outcomes db. induction indices as [|i indices IH]; intros job outcomes db Hinv Hn Hin Hlim;
    cbn [run_ready].
  { exists outcomes, job, db. split_and!; [done..| |].
    - intros k ->. cbn in Hlim. apply Nat.leb_gt in Hlim. lia.
    - intros _. set_solver. }
  apply NoDup_cons in Hn as [Hi Hn].
  assert (Hpend : i ∈ job_pending job) by (apply Hin; set_solver).
  assert (is_Some (operations !! i)) as [operation Ho].
  { apply lookup_lt_is_Some. rewrite <- (inv_length _ _ Hinv).
    apply (inv_pending _ _ Hinv) in Hpend. by eapply lookup_lt_Some. }
  rewrite Ho, run_bind.
  destruct (run (scim_execute_bulk_operation _ _ _ _ _) db) as [outcome db1] eqn:E.
  change (match outcome with Ok result => _ | Err error => _ end) with (answer i operation outcome job).
  cbv zeta.
  assert (Hinv' : job_inv (<[i := Some outcome]> outcomes) (answer i operation outcome job)).
  { apply answer_inv; [done..|]. intros result references name -> Hdeps Hname. by eapply execute_resolved. }
  assert (Hpend' : job_pending (answer i operation outcome job) = job_pending job ∖ {[i]})
    by (by destruct outcome).
  destruct (limit_reached limit (job_error_count (answer i operation outcome job))) eqn:El.
  - eexists _, _, _. split_and!; [done|exact Hinv'|by apply answer_within|]. cbn. congruence.
  - destruct (IH _ _ db1 Hinv' Hn) as (outcomes' & job' & db' & Hrun & Hj & Hw & Hp); [|done|].
    { intros j Hj. rewrite Hpend', elem_of_difference, elem_of_singleton.
      split; [apply Hin; set_solver|]. by intros ->. }
    eexists _, _, _. split_and!; [exact Hrun|exact Hj|done|]. intros Hl. rewrite (Hp Hl), Hpend'. set_solver.
Qed.

(** *** All rounds *)

Definition finished (job : JobState) : Prop :=
  limit_reached limit (job_error_count job) = false -> job_pending job = ∅.
Lemma fail_unresolved_inv unresolved job outcomes :
  job_inv outcomes job -> NoDup unresolved -> (forall i, i ∈ unresolved <-> i ∈ job_pending job) ->
  limit_reached limit (job_error_count job) = false ->
  exists outcomes', job_inv outcomes' (fail_unresolved operations limit unresolved job)
    /\ within_limit (fail_unresolved operations limit unresolved job)
    /\ finished (fail_unresolved operations limit unresolved job).
Proof.
  revert job outcomes. induction unresolved as [|i unresolved IH]; intros job outcomes Hinv Hn Hin Hlim;
    cbn [fail_unresolved].
  { exists outcomes. split_and!; [done| |].
    - intros k ->. cbn in Hlim. apply Nat.leb_gt in Hlim. lia.
    - intros _. set_solver. }
  apply NoDup_cons in Hn as [Hi Hn].
  assert (Hpend : i ∈ job_pending job) by (apply Hin; set_solver).
  assert (is_Some (operations !! i)) as [operation Ho].
  { apply lookup_lt_is_Some. rewrite <- (inv_length _ _ Hinv).
    apply (inv_pending _ _ Hinv) in Hpend. by eapply lookup_lt_Some. }
  rewrite Ho. cbv zeta. set (e := scim_conflict _).
  change (job_fails operation i e job) with (answer i operation (Err e) job).
  assert (Hinv' : job_inv (<[i := Some (Err e)]> outcomes) (answer i operation (Err e) job)) by (by apply answer_inv).
  destruct (limit_reached limit (job_error_count (answer i operation (Err e) job))) eqn:El.
  - eexists. split_and!; [exact Hinv'|by apply answer_within|]. unfold finished. congruence.
  - apply (IH _ _ Hinv' Hn); [|done]. intros j. cbn. rewrite elem_of_difference, elem_of_singleton, <- Hin.
    rewrite elem_of_cons. split; [|naive_solver]. intros Hj. split; [by right|]. by intros ->.
Qed.
Lemma run_rounds_inv rounds state envs headers job outcomes db :
  (forall s, iteration_order s ≡ₚ elements s) ->
  job_inv outcomes job -> within_limit job -> (size (job_pending job) <= rounds)%nat ->
  exists outcomes' job' db',
    run (run_rounds iteration_order rounds state envs headers operations dependencies limit job) db = (job', db')
    /\ job_inv outcomes' job' /\ within_limit job' /\ finished job'.
Proof.
  intros Horder. revert job outcomes db.
  induction rounds as [|rounds IH]; intros job outcomes db Hinv Hw Hsize; cbn [run_rounds].
  { exists outcomes, job, db. split_and!; [done..|]. intros _. apply leibniz_equiv, size_empty_inv. lia. }
  destruct (bool_decide (job_pending job = ∅)) eqn:Ee; cbn [orb].
  { exists outcomes, job, db. split_and!; [done..|]. intros _. by bool_prop. }
  destruct (limit_reached limit (job_error_count job)) eqn:El.
  { exists outcomes, job, db. split_and!; [done..|]. unfold finished. congruence. }
  assert (Hready : NoDup (ready_indices operations dependencies (creatable_ids operations) job)
    /\ forall i, i ∈ ready_indices operations dependencies (creatable_ids operations) job -> i ∈ job_pending job).
  { unfold ready_indices. split.
    - apply NoDup_ListNoDup, List.NoDup_filter, NoDup_ListNoDup, NoDup_seq.
    - intros i. rewrite list_elem_of_In, List.filter_In, andb_true_iff, bool_decide_eq_true. tauto. }
  destruct Hready as [Hn Hin].
  destruct (ready_indices _ _ _ _) as [|i indices] eqn:Er.
  - destruct (fail_unresolved_inv (iteration_order (job_pending job)) job outcomes)
      as (outcomes' & H1 & H2 & H3); try done.
    + rewrite Horder. apply NoDup_elements.
    + intros j. by rewrite Horder, elem_of_elements.
    + eexists _, _, _. split_and!; [done|exact H1|done..].
  - rewrite run_bind.
    destruct (run_ready_inv state envs headers (i :: indices) job outcomes db Hinv Hn Hin El)
      as (outcomes' & job' & db' & -> & Hinv' & Hw' & Hp).
    destruct (limit_reached limit (job_error_count job')) eqn:El'.
    + exists outcomes', job', db'. split_and!; [|done..|unfold finished; congruence].
      destruct rounds; cbn [run_rounds]; [done|]. by rewrite El', orb_true_r.
    + apply (IH job' outcomes' db' Hinv' Hw'). rewrite (Hp eq_refl).
      assert (Hi : i ∈ job_pending job) by (apply Hin; set_solver).
      assert (job_pending job ∖ list_to_set (i :: indices) ⊂ job_pending job) as Hsub%subset_size by set_solver.
      lia.
Qed.
Lemma bulk_job_outcomes state envs headers db :
  (forall s, iteration_order s ≡ₚ elements s) -> (forall k, limit = Some k -> (1 <= k)%nat) ->
  collect_results (fun operation => scim_bulk_reference_dependencies (job_operation operation)) operations
    = Ok dependencies ->
  exists outcomes db',
    run (execute_scim_bulk_job iteration_order state envs headers operations limit) db
      = (Ok (omap id (render_all operations outcomes)), db')
    /\ length outcomes = length operations
    /\ references_created operations outcomes
    /\ (forall k, limit = Some k -> (length (List.filter is_error outcomes) <= k)%nat)
    /\ (limit = None -> forall i, outcomes !! i <> Some None).
Proof.
  intros Horder Hk Hdeps. unfold execute_scim_bulk_job. rewrite Hdeps, lift_Ok_bind, run_bind.
  destruct (run_rounds_inv (length operations) state envs headers (new_job operations)
              (replicate (length operations) None) db Horder new_job_inv)
    as (outcomes & job & db' & -> & [Hl Hr Hp _ He Hc] & Hw & Hf).
  - intros k ->. cbn. lia.
  - cbn. rewrite size_set_seq. done.
  - exists outcomes, db'. rewrite <- Hr, <- He. split_and!; try done.
    intros Hlim i Hi. apply Hp in Hi. rewrite (Hf ltac:(by rewrite Hlim)) in Hi. set_solver.
Qed.
End job.

(** ** The properties *)

(** The response says which operation it is for. *)
Definition answers (operation : ScimBulkJobOperation) (response : Value) : Prop :=
  value_get response "method" = Some (String_ (job_method operation))
  /\ value_get response "bulkId" = String_ <$> job_bulk_id operation.
Lemma render_answers operation outcome : answers operation (render operation outcome).
Proof.
  unfold answers, render. destruct outcome as [result|error].
  - unfold scim_bulk_success_response. destruct (job_bulk_id operation), (operation_location result),
      (operation_body result); done.
  - unfold scim_bulk_error_response. by destruct (job_bulk_id operation).
Qed.

(** C19. A bulk job ends and answers every operation.  Without a limit on errors
    a job whose references can be read ends, whatever its operations refer to
    (an identifier nobody creates, each other in a circle, themselves),
    however a set is iterated over and whatever the database answers, with
    exactly one response for every operation, in the order of the request. *)
Theorem bulk_job_answers_every_operation state envs headers operations dependencies db :
  (forall s, iteration_order s ≡ₚ elements s) ->
  collect_results (fun operation => scim_bulk_reference_dependencies (job_operation operation)) operations
    = Ok dependencies ->
  exists responses db',
    run (execute_scim_bulk_job iteration_order state envs headers operations None) db = (Ok responses, db')
    /\ Forall2 answers operations responses.
Proof.
  intros Horder Hdeps.
  destruct (bulk_job_outcomes operations dependencies None state envs headers db Horder)
    as (outcomes & db' & Hrun & Hl & _ & _ & Hall); [done..|].
  eexists _, db'. split; [exact Hrun|]. specialize (Hall eq_refl). clear Hrun Hdeps.
  revert outcomes Hl Hall. induction operations as [|o operations IH]; intros [|outcome outcomes]; try done.
  intros [= Hl] Hall. destruct outcome as [outcome|]; [|by specialize (Hall 0)].
  cbn. constructor; [apply render_answers|]. apply IH; [done|]. intros i. apply (Hall (S i)).
Qed.

(** A reference of a bulk job is to something the job created.  Whatever the
    limit on errors, when an operation of the job succeeded, every reference
    in its path and in its data is the bulk identifier of a POST of the same
    job that succeeded too and answered with a resource; no more operations
    than the limit fail; and the responses are those of the operations that
    were run, in the order of the request. *)
Theorem bulk_references_are_created state envs headers operations dependencies limit db r db' :
  (forall s, iteration_order s ≡ₚ elements s) -> (forall k, limit = Some k -> (1 <= k)%nat) ->
  collect_results (fun operation => scim_bulk_reference_dependencies (job_operation operation)) operations
    = Ok dependencies ->
  run (execute_scim_bulk_job iteration_order state envs headers operations limit) db = (r, db') ->
  exists outcomes, r = Ok (omap id (render_all operations outcomes))
    /\ length outcomes = length operations
    /\ references_created operations outcomes
    /\ (forall k, limit = Some k -> (length (List.filter is_error outcomes) <= k)%nat).
Proof.
  intros Horder Hk Hdeps Hrun.
  destruct (bulk_job_outcomes operations dependencies limit state envs headers db Horder Hk Hdeps)
    as (outcomes & db2 & Hrun' & Hl & Hc & He & _).
  rewrite Hrun in Hrun'. injection Hrun' as -> ->. by exists outcomes.
Qed.
End jobs.
