(* ===== verification/Provisioning.v ===== *)
(** * What provisioning promises

    The pages of [ScimRoutes] and [ScimBulk] taken together: they answer only
    to the bearer of a configured token, they stay in their organization, and
    the administrators group is out of their reach. *)

From S2P Require Import Prelude RustStr Domain Authn Oidc Http Codec Store.
From S2P Require Import OAuthStore ClientStore SessionStore Directory Lifecycle AccountStore AuditStore.
From S2P Require Import ConsentStore Handler KeyStore OAuthPolicy RequestContext BrowserSession.
From S2P Require Import Frames StatementFrames AdminRoutes.
From S2P Require Import ScimProtocol ScimQuery ScimInput ScimRoutes ScimBulk.
From Stdlib Require Import Ascii.

Section provisioning.
Context {CC : CryptoCrates} {TC : TokenCrates} {AG : AesGcm} {HC : HttpCrates} {UU : UuidCrate}.
Context {TF : TimeFormat} {SS : ScimSerde}.
Context (header_value : string -> option string) (iteration_order : gset nat -> list nat).
Context (search_bytes : string -> option ScimSearchRequest) (user_bytes : string -> option ScimUserRequest)
  (group_bytes : string -> option ScimGroupRequest) (patch_bytes : string -> option ScimPatchRequest)
  (bulk_bytes : string -> option ScimBulkRequest).

(** The pages. *)
Inductive scim_route (state : AppState) (headers : HeaderMap) : HandlerOf ScimError Reply -> Prop :=
| route_list_users raw : scim_route state headers (scim_list_users state headers raw)
| route_search_users raw body :
    scim_route state headers (scim_search_users search_bytes state headers raw body)
| route_create_user env body :
    scim_route state headers (scim_create_user header_value user_bytes state env headers body)
| route_get_user id raw : scim_route state headers (scim_get_user state headers id raw)
| route_replace_user env id body :
    scim_route state headers (scim_replace_user header_value user_bytes state env headers id body)
| route_patch_user env id body :
    scim_route state headers (scim_patch_user header_value patch_bytes state env headers id body)
| route_delete_user env id :
    scim_route state headers (scim_delete_user header_value state env headers id)
| route_list_groups raw : scim_route state headers (scim_list_groups state headers raw)
| route_search_groups raw body :
    scim_route state headers (scim_search_groups search_bytes state headers raw body)
| route_create_group env body :
    scim_route state headers (scim_create_group header_value group_bytes state env headers body)
| route_get_group id raw : scim_route state headers (scim_get_group state headers id raw)
| route_replace_group env id body :
    scim_route state headers (scim_replace_group header_value group_bytes state env headers id body)
| route_patch_group env id body :
    scim_route state headers (scim_patch_group header_value patch_bytes state env headers id body)
| route_delete_group env id :
    scim_route state headers (scim_delete_group header_value state env headers id)
| route_config : scim_route state headers (scim_service_provider_config state headers)
| route_schemas : scim_route state headers (scim_schemas state headers)
| route_schema id : scim_route state headers (scim_schema state headers id)
| route_resource_types : scim_route state headers (scim_resource_types state headers)
| route_resource_type name : scim_route state headers (scim_resource_type state headers name)
| route_bulk envs body :
    scim_route state headers (scim_bulk iteration_order bulk_bytes state envs headers body).

(** The request shows a token whose digest is configured: the 32 bytes agree. *)
Definition bearer_shown (state : AppState) (headers : HeaderMap) : Prop :=
  exists raw value token expected,
    headers_get_all headers "authorization" = [raw] /\ header_to_str raw = Some value
    /\ bearer_token_value value = Some token
    /\ expected ∈ config_scim_bearer_token_sha256_hashes state
    /\ forall i, (i < 32)%nat -> byte_at expected i = byte_at (sha256_digest token) i.

(** ** The guard *)

Lemma constant_time_eq_32_iff l r :
  constant_time_eq_32 l r = true <-> forall i, (i < 32)%nat -> byte_at l i = byte_at r i.
Proof.
  unfold constant_time_eq_32. rewrite N.eqb_eq, fold_lor_zero, Forall_forall. split.
  - intros [_ H] i Hi. apply N.lxor_eq, H, elem_of_seq. lia.
  - intros H. split; [done|]. intros i Hi%elem_of_seq. rewrite H by lia. apply N.lxor_nilpotent.
Qed.
Lemma scim_token_hash_matches_iff hashes actual :
  scim_token_hash_matches hashes actual = true <->
  exists expected, expected ∈ hashes /\ constant_time_eq_32 expected actual = true.
Proof.
  unfold scim_token_hash_matches. enough (forall b,
    fold_left (fun matched expected => matched || constant_time_eq_32 expected actual) hashes b = true <->
    b = true \/ exists expected, expected ∈ hashes /\ constant_time_eq_32 expected actual = true) as H.
  { rewrite H. naive_solver. }
  induction hashes as [|h hashes IH]; intros b; simpl.
  - split; [auto|]. intros [?|(e & He & _)]; [done|]. by apply elem_of_nil in He.
  - rewrite IH, orb_true_iff. setoid_rewrite elem_of_cons. naive_solver.
Qed.
Lemma require_scim_bearer_shown state headers u :
  require_scim_bearer state headers = Ok u -> bearer_shown state headers.
Proof.
  unfold require_scim_bearer, require_scim_bearer_hashes, bearer_shown.
  destruct (config_scim_bearer_token_sha256_hashes state) as [|h hashes]; [done|].
  destruct (headers_get_all headers "authorization") as [|raw [|]]; [done| |done].
  intros (value & Hvalue%ok_or_Ok & H)%result_bind_Ok.
  apply result_bind_Ok in H as (token & Htoken%ok_or_Ok & H).
  destruct (scim_token_hash_matches _ _) eqn:E; [|done].
  apply scim_token_hash_matches_iff in E as (expected & Hin & He).
  rewrite constant_time_eq_32_iff in He. by exists raw, value, token, expected.
Qed.
Lemma scim_page_guarded {A} state headers (k : HandlerOf ScimError A) db r db' :
  run (scim_page state headers k) db = (r, db') ->
  (is_ok r = false /\ db' = db) \/ bearer_shown state headers /\ run k db = (r, db').
Proof.
  unfold scim_page. destruct (require_scim_bearer state headers) as [u|e] eqn:E.
  - rewrite lift_Ok_bind. intros H. right. split; [by eapply require_scim_bearer_shown|done].
  - intros [= <- <-]. by left.
Qed.
Lemma scim_payload_page_guarded {P A} state headers body (bytes : string -> option P)
    (k : P -> HandlerOf ScimError A) db r db' :
  run (scim_payload_page state headers body bytes k) db = (r, db') ->
  (is_ok r = false /\ db' = db) \/ bearer_shown state headers /\ exists p, run (k p) db = (r, db').
Proof.
  unfold scim_payload_page. destruct (scim_json headers body bytes) as [p|e].
  - rewrite lift_Ok_bind. intros [H|[Hb H]]%scim_page_guarded; [by left|right; eauto].
  - intros [= <- <-]. by left.
Qed.

(** Provisioning answers only to the bearer of a configured token.  A
    request to any SCIM page, of whatever method and body, gets an answer
    other than an error, or changes anything, only when it carries exactly one
    Authorization header whose bearer token has one of the configured SHA-256
    digests; without configured digests no request does. *)
Theorem provisioning_is_guarded state headers h db r db' :
  scim_route state headers h -> run h db = (r, db') -> (db' <> db \/ is_ok r = true) ->
  bearer_shown state headers /\ config_scim_bearer_token_sha256_hashes state <> [].
Proof.
  intros Hroute H Hor. enough (bearer_shown state headers) as Hb.
  { split; [done|]. destruct Hb as (raw & value & token & expected & _ & _ & _ & Hin & _).
    intros Hnil. rewrite Hnil in Hin. by apply elem_of_nil in Hin. }
  destruct Hroute;
    first [apply scim_page_guarded in H as [[Hr Hdb]|[Hb _]]
          |apply scim_payload_page_guarded in H as [[Hr Hdb]|[Hb _]]];
    try done; by destruct Hor; rewrite ?Hr in *.
Qed.

(** ** The statements of the pages *)

Definition is_system_event (o : Uuid) (event : AuditEvent) : Prop :=
  audit_organization_id event = o /\ audit_actor_kind event = ActorKind_System
  /\ audit_actor_id event = None.
(** A statement of provisioning in the organization [o]. *)
Inductive scim_statement (o : Uuid) : forall X, DB X -> Prop :=
| statement_reads X (op : DB X) : reads op -> scim_statement o X op
| statement_audit event : is_system_event o event -> scim_statement o _ (insert_audit_event event)
| statement_create_user user :
    user_organization_id user = o -> scim_statement o _ (create_user user None)
| statement_update_user input :
    scim_user_organization_id input = o ->
    scim_user_protected_owner_group_slug input = ADMINISTRATORS_GROUP_SLUG ->
    scim_statement o _ (update_user_from_scim input)
| statement_suspend_user id at_ :
    scim_statement o _ (update_user_status o id UserStatus_Suspended ADMINISTRATORS_GROUP_SLUG at_)
| statement_create_group group members :
    group_organization_id group = o -> group_slug group <> ADMINISTRATORS_GROUP_SLUG ->
    scim_statement o _ (create_scim_group group members)
| statement_replace_group input :
    replace_organization_id input = o ->
    replace_protected_group_slug input = ADMINISTRATORS_GROUP_SLUG ->
    scim_statement o _ (replace_scim_group input)
| statement_delete_group id :
    scim_statement o _ (delete_scim_group o id ADMINISTRATORS_GROUP_SLUG).

(** *** The slug of a provisioned group *)

(** Empty, or starting with an s. *)
Definition s_first (s : string) : Prop := s = "" \/ exists t, s = String "s" t.
Lemma s_first_prefix s p : s_first (s +:+ p) -> s_first s.
Proof. intros [H|[t H]]; destruct s as [|a s]; [by left..|by left|]. injection H as -> _. right. eauto. Qed.
Lemma s_first_trim s : s_first s -> s_first (trim s).
Proof.
  intros Hs. unfold trim. replace (trim_start s) with s.
  - destruct (trim_end_prefix s) as [p Hp]. apply (s_first_prefix _ p). by rewrite <- Hp.
  - destruct Hs as [->|[t ->]]; [done|]. symmetry. apply trim_start_fix.
    by destruct t as [|? [|? ?]].
Qed.
Lemma trim_end_matches_prefix c s : exists p, s = trim_end_matches c s +:+ p.
Proof.
  unfold trim_end_matches. assert (H : s = String.rev (String.rev s)) by (symmetry; apply rev_rev).
  revert H. generalize (String.rev s) as r. intros r ->.
  enough (exists q, r = q +:+ trim_start_matches c r) as [q Hq].
  { exists (String.rev q). rewrite Hq at 1. apply rev_app. }
  induction r as [|d r IH]; simpl; [by exists ""|]. destruct (Ascii.eqb d c).
  - destruct IH as [q Hq]. exists (String d q). rewrite string_app_cons. by rewrite <- Hq.
  - by exists "".
Qed.
Lemma substring_0_s_first n s : s_first s -> s_first (String.substring 0 n s).
Proof. intros [->|[t ->]]; destruct n; [by left..|by left|]. right. simpl. eauto. Qed.
Lemma scim_group_slug_unprotected id external_id display_name slug :
  scim_group_slug id external_id display_name = Ok slug -> slug <> ADMINISTRATORS_GROUP_SLUG.
Proof.
  unfold scim_group_slug. cbv zeta. intros H%map_err_Ok. unfold checked_string in H. cbv zeta in H.
  revert H. match goal with |- context [trim ?raw] => assert (Hs : s_first (trim raw)) end.
  - apply s_first_trim. match goal with |- context [if is_empty ?b then ?x else ?y] =>
      generalize (if is_empty b then x else y) as base end. intros base.
    assert (Hb : s_first ("scim-" +:+ base)) by (right; eexists; reflexivity).
    destruct (_ <? _)%nat; [|done].
    match goal with |- s_first (trim_end_matches ?c ?s) => destruct (trim_end_matches_prefix c s) as [p Hp] end.
    apply (s_first_prefix _ p). rewrite <- Hp. by apply substring_0_s_first.
  - revert Hs. match goal with |- s_first ?v -> _ => generalize v as value end. intros value Hs.
    destruct (is_empty value); [by intros [=]|]. destruct (_ <? _)%nat; [by intros [=]|].
    intros [= <-] ->. destruct Hs as [Hs|[t Hs]]; discriminate Hs.
Qed.

(** *** Every statement of every page *)

Lemma scim_audit_statement state env headers action target metadata :
  each_op (scim_statement (state_organization_id state))
    (scim_audit state env headers action target metadata).
Proof.
  unfold scim_audit. destruct (headers_audit_context headers) as [ip agent].
  apply each_op_query, statement_audit. by split_and!.
Qed.
Lemma new_user_organization id now o email display_name user :
  User_new id now o email display_name = Ok user -> user_organization_id user = o.
Proof.
  unfold User_new. intros (e & _ & H)%result_bind_Ok. by apply result_bind_Ok in H as (d & _ & [= <-]).
Qed.
Lemma reads_statement o {X} (f : Database -> X) : scim_statement o X (db_gets f).
Proof. by apply statement_reads. Qed.
Lemma reads_members o o' ids : scim_statement o _ (list_scim_group_members_for_groups o' ids).
Proof. apply statement_reads. intros db. by destruct ids. Qed.
Ltac scim_step :=
  cbv zeta;
  match goal with
  | |- each_op _ (scim_audit _ _ _ _ _ _) => apply scim_audit_statement
  | |- each_op _ (handler_bind (lift _) _) => apply each_op_lift_then; intros ? ?
  | |- each_op _ (scim_get_tenant_user _ _) => unfold scim_get_tenant_user
  | |- each_op _ (scim_get_tenant_group _ _) => unfold scim_get_tenant_group
  | |- each_op _ (group_resource_result _ _ _) => unfold group_resource_result
  | |- each_op _ (scim_apply_user_update _ _ _ _) => unfold scim_apply_user_update
  | |- each_op _ (scim_apply_group_replace _ _ _ _) => unfold scim_apply_group_replace
  | |- each_op _ _ => each_op_step
  | |- scim_statement _ _ (db_gets _) => apply reads_statement
  | |- scim_statement _ _ (list_scim_group_members_for_groups _ _) => apply reads_members
  | |- scim_statement _ _ (update_user_from_scim _) => by apply statement_update_user
  | |- scim_statement _ _ (update_user_status _ _ _ _ _) => apply statement_suspend_user
  | |- scim_statement _ _ (replace_scim_group _) => by apply statement_replace_group
  | |- scim_statement _ _ (delete_scim_group _ _ _) => apply statement_delete_group
  | |- scim_statement _ _ _ => apply reads_statement
  end.
Ltac scim_steps := repeat scim_step.

Section operations.
Context (state : AppState) (env : ScimEnv) (headers : HeaderMap).
Notation each := (each_op (scim_statement (state_organization_id state))).

Lemma create_user_statements payload : each (scim_create_user_operation state env headers payload).
Proof.
  unfold scim_create_user_operation. scim_steps. apply statement_create_user. cbn.
  by eapply new_user_organization, map_err_Ok.
Qed.
Lemma replace_user_statements id payload : each (scim_replace_user_operation state env headers id payload).
Proof. unfold scim_replace_user_operation. scim_steps. Qed.
Lemma patch_user_statements id payload : each (scim_patch_user_operation state env headers id payload).
Proof. unfold scim_patch_user_operation. scim_steps. Qed.
Lemma delete_user_statements id : each (scim_delete_user_operation state env headers id).
Proof. unfold scim_delete_user_operation. scim_steps. Qed.
Lemma create_group_statements payload : each (scim_create_group_operation state env headers payload).
Proof.
  unfold scim_create_group_operation. scim_steps. apply statement_create_group; [done|].
  by eapply scim_group_slug_unprotected.
Qed.
Lemma replace_group_statements id payload : each (scim_replace_group_operation state env headers id payload).
Proof. unfold scim_replace_group_operation. scim_steps. Qed.
Lemma patch_group_statements id payload : each (scim_patch_group_operation state env headers id payload).
Proof. unfold scim_patch_group_operation. scim_steps. Qed.
Lemma delete_group_statements id : each (scim_delete_group_operation state env headers id).
Proof. unfold scim_delete_group_operation. scim_steps. Qed.
End operations.
#[local] Hint Resolve create_user_statements replace_user_statements patch_user_statements
  delete_user_statements create_group_statements replace_group_statements patch_group_statements
  delete_group_statements : core.

Lemma bulk_operation_statements state env headers operation references :
  each_op (scim_statement (state_organization_id state))
    (scim_execute_bulk_operation state env headers operation references).
Proof. unfold scim_execute_bulk_operation. scim_steps; auto. Qed.
Lemma bulk_round_statements state envs headers operations limit indices job :
  each_op (scim_statement (state_organization_id state))
    (run_ready state envs headers operations limit indices job).
Proof.
  revert job. induction indices as [|i indices IH]; intros job; cbn [run_ready]; [done|].
  destruct (operations !! i) as [operation|]; [|done].
  apply each_op_bind; [apply bulk_operation_statements|]. intros outcome. cbv zeta.
  destruct (limit_reached _ _); [done|apply IH].
Qed.
Lemma bulk_rounds_statements rounds state envs headers operations dependencies limit job :
  each_op (scim_statement (state_organization_id state))
    (run_rounds iteration_order rounds state envs headers operations dependencies limit job).
Proof.
  revert job. induction rounds as [|rounds IH]; intros job; cbn [run_rounds]; [done|].
  destruct (_ || _); [done|]. destruct (ready_indices _ _ _ _) as [|i indices]; [done|].
  apply each_op_bind; [apply bulk_round_statements|apply IH].
Qed.
Ltac head_of t := lazymatch t with ?f _ => head_of f | _ => t end.
Lemma scim_route_statements state headers h :
  scim_route state headers h -> each_op (scim_statement (state_organization_id state)) h.
Proof.
  intros Hroute. destruct Hroute;
    match goal with |- each_op _ ?page => let f := head_of page in unfold f end;
    unfold scim_payload_page, scim_page, operation_reply,
      scim_user_list_response_for_query, scim_group_list_response_for_query; scim_steps; auto.
  unfold execute_scim_bulk_job. scim_steps. apply each_op_bind; [apply bulk_rounds_statements|done].
Qed.

(** ** What the statements leave alone *)

Lemma scim_statement_confined o X (op : DB X) :
  scim_statement o X op -> moves (confined o) op.
Proof.
  intros [?? Hr|event (<- & _ & _)|user <-|input <- _|id at_|group members <- _|input <- _|id].
  - by apply confined_reads.
  - apply confined_insert_event.
  - apply confined_create_user.
  - apply confined_update_user_from_scim.
  - apply confined_update_user_status.
  - apply confined_create_scim_group.
  - apply confined_replace_scim_group.
  - apply confined_delete_scim_group.
Qed.

(** The rows of the administrators group and of its memberships. *)
Definition administrators_group (o : Uuid) (group : Group) : Prop :=
  group_organization_id group = o /\ group_slug group = ADMINISTRATORS_GROUP_SLUG.
Definition administrators_kept (o : Uuid) (db db' : Database) : Prop :=
  (forall k group, administrators_group o group ->
     t_groups db !! k = Some group <-> t_groups db' !! k = Some group)
  /\ (forall k group, t_groups db !! k.2 = Some group -> administrators_group o group ->
       t_memberships db' !! k = t_memberships db !! k).
Definition keyed (db : Database) : Prop :=
  forall k m, t_memberships db !! k = Some m -> membership_key m = k.
(** The two parts, of which the second needs the keys of memberships. *)
Record spares (o : Uuid) (db db' : Database) : Prop := mk_spares {
  spares_groups : forall k group, administrators_group o group ->
    t_groups db !! k = Some group <-> t_groups db' !! k = Some group;
  spares_keyed : keyed db -> keyed db';
  spares_members : keyed db -> forall k group, t_groups db !! k.2 = Some group ->
    administrators_group o group -> t_memberships db' !! k = t_memberships db !! k;
}.
#[local] Instance spares_preorder o : PreOrder (spares o).
Proof.
  split; [by intros db; split|]. intros d1 d2 d3 [Hg1 Hk1 Hm1] [Hg2 Hk2 Hm2]. split.
  - intros k g Hg. by rewrite (Hg1 k g Hg), (Hg2 k g Hg).
  - auto.
  - intros Hk k g Hl Hg. by rewrite (Hm2 (Hk1 Hk) k g), (Hm1 Hk k g); [..|by apply (Hg1 k.2 g Hg)|done].
Qed.
Lemma spares_trivially o db db' :
  t_groups db' = t_groups db -> t_memberships db' = t_memberships db -> spares o db db'.
Proof. intros Hg Hm. by split; unfold keyed; rewrite ?Hg, ?Hm. Qed.

(** *** A group that is not the administrators' *)

Definition ordinary (o gid : Uuid) (db : Database) : Prop :=
  forall group, t_groups db !! gid = Some group -> ~ administrators_group o group.
Lemma spares_ordinary o gid db db' : spares o db db' -> ordinary o gid db -> ordinary o gid db'.
Proof. intros Hs Ho group Hl Hg. apply (Ho group); [|done]. by apply (spares_groups _ _ _ Hs). Qed.
Lemma spares_membership o m m' db :
  ordinary o (membership_group_id m) db -> (keyed db -> membership_key m' = membership_key m) ->
  spares o db (on_memberships <[membership_key m := m']> db).
Proof.
  intros Ho Hm. split; [done|..].
  - intros Hk k v. cbn. intros [[<- <-]|[_ Hv]]%lookup_insert_Some; [by apply Hm|by apply Hk].
  - intros Hk k group Hl Hg. cbn. apply lookup_insert_ne. intros <-. by eapply Ho.
Qed.
Lemma spares_write_membership o m :
  forall db, ordinary o (membership_group_id m) db -> moves_at (spares o) db (write_membership m).
Proof.
  intros db Ho. unfold moves_at, write_membership, create_membership, db_bind, db_check, db_modify.
  destruct (t_memberships db !! membership_key m) as [v|] eqn:E.
  { apply spares_membership; [done|]. intros Hk. apply (Hk _ v E). }
  destruct (absent _ _); [|by apply spares_trivially].
  destruct (membership_fk _ _); [by apply spares_membership|by apply spares_trivially].
Qed.
Lemma spares_insert_members o org g ids at_ db :
  ordinary o g db ->
  moves_at (spares o) db (insert_scim_group_member_ids_in_transaction org g ids at_).
Proof.
  intros Ho. unfold insert_scim_group_member_ids_in_transaction.
  apply moves_at_check_then; [tc_solve|]. intros _. revert db Ho.
  induction ids as [|id ids IH]; intros db Ho; cbn [write_members]; [apply moves_at_ret; tc_solve|].
  apply moves_at_bind; [tc_solve|by apply spares_write_membership|].
  intros u db' _ Hs. apply IH. by eapply spares_ordinary.
Qed.
Lemma spares_delete_memberships o g P db :
  ordinary o g db -> (forall m, P m = true -> membership_group_id m = g) ->
  spares o db (on_memberships (delete_where P) db).
Proof.
  intros Ho HP. split; [done|..].
  - intros Hk k m. cbn. intros [Hm _]%lookup_delete_where. by apply Hk.
  - intros Hk k group Hl Hg. cbn. apply option_eq. intros m. rewrite lookup_delete_where.
    split; [tauto|]. intros Hm. split; [done|]. destruct (P m) eqn:E; [|done]. exfalso.
    apply HP in E. eapply Ho; [|exact Hg]. rewrite <- E, <- Hl. by rewrite <- (Hk _ _ Hm).
Qed.

(** *** The statements on groups *)

Lemma spares_create_group o g db :
  ~ administrators_group o g -> moves_at (spares o) db (create_group g).
Proof.
  intros Hg. unfold create_group. moves_steps. split; [|done..].
  intros k v Hv. cbn. rewrite lookup_insert_Some. unfold absent in *. bool_prop.
  split; [intros Hl; right; split; [congruence|done]|]. by intros [[_ <-]|[_ Hl]].
Qed.
Lemma create_group_lookup g db db' u : create_group g db = (Ok u, db') -> t_groups db' !! group_id g = Some g.
Proof. unfold create_group. intros H. db_steps. cbn. apply lookup_insert_eq. Qed.
Lemma spares_create_scim_group o g ids :
  ~ administrators_group o g -> moves (spares o) (create_scim_group g ids).
Proof.
  intros Hg. unfold create_scim_group, group_slug_exists_in_transaction, get_group_by_slug,
    optional_external_id_exists, group_external_id_exists_in_transaction, all_users_exist_in_transaction.
  moves_steps; [by apply spares_create_group|]. apply spares_insert_members.
  match goal with H : create_group _ _ = _ |- _ => apply create_group_lookup in H as Hl end.
  intros group. rewrite Hl. by intros [= <-].
Qed.
Lemma spares_delete_group o g db : ordinary o g db -> spares o db (on_groups (delete g) db).
Proof.
  intros Ho. split; [|done..]. intros k v Hv. cbn. rewrite lookup_delete_Some.
  split; [|tauto]. intros Hl. split; [|done]. intros <-. by eapply Ho.
Qed.
Lemma found_ordinary o o' g slug db group :
  (match t_groups db !! g with Some v => if group_in o' v then Some v else None | None => None end)
    = Some group ->
  bool_decide (group_slug group = slug) = false -> slug = ADMINISTRATORS_GROUP_SLUG -> ordinary o g db.
Proof. intros Hl Hs -> v Hv [_ Hv']. repeat case_match; simplify_eq. by bool_prop. Qed.
Lemma spares_delete_scim_group o o' g :
  moves (spares o) (delete_scim_group o' g ADMINISTRATORS_GROUP_SLUG).
Proof.
  unfold delete_scim_group, locked_group_in_transaction, get_group. moves_steps.
  assert (ordinary o g db) as Ho by (by eapply found_ordinary).
  trans (on_groups (delete g) db); [by apply spares_delete_group|]. cbn.
  apply (spares_delete_memberships o g (fun m => N.eqb (membership_organization_id m) o'
    && N.eqb (membership_group_id m) g) (on_groups (delete g) db)).
  - eapply spares_ordinary; [by apply spares_delete_group|done].
  - intros m [_ Hm]%andb_true_iff. by apply N.eqb_eq.
Qed.
Lemma spares_update_group o g P f db :
  ordinary o g db -> (forall v, administrators_group o (f v) -> administrators_group o v) ->
  spares o db (on_groups (fun _ => (update_row g P f (t_groups db)).2) db).
Proof.
  intros Ho Hf. unfold update_row. destruct (t_groups db !! g) as [v|] eqn:E; [|by apply spares_trivially].
  destruct (P v); [|by apply spares_trivially]. split; [|done..].
  intros k w Hw. cbn. rewrite lookup_insert_Some. split.
  - intros Hl. right. split; [|done]. intros <-. by eapply Ho.
  - intros [[<- <-]|[_ Hl]]; [|done]. exfalso. eapply Ho; [exact E|by apply Hf].
Qed.
Lemma spares_replace_scim_group o i :
  replace_protected_group_slug i = ADMINISTRATORS_GROUP_SLUG -> moves (spares o) (replace_scim_group i).
Proof.
  intros Hslug. unfold replace_scim_group, locked_group_in_transaction, get_group,
    optional_external_id_exists, group_external_id_exists_in_transaction, all_users_exist_in_transaction.
  repeat first [apply moves_at_update_key | moves_step];
    (assert (ordinary o (replace_group_id i) db) as Ho by (by eapply found_ordinary));
    repeat match goal with H : spares o _ _ |- _ => eapply spares_ordinary in H; [|exact Ho]; clear Ho; rename H into Ho end.
  - by apply spares_update_group.
  - apply (spares_delete_memberships o (replace_group_id i)); [done|].
    intros m [[_ Hm]%andb_true_iff _]%andb_true_iff. by apply N.eqb_eq.
  - by apply spares_insert_members.
Qed.

(** *** The other statements *)

Ltac spares_step := first [solve [by apply spares_trivially] | moves_step].
Lemma spares_update_user o i : moves (spares o) (update_user_from_scim i).
Proof.
  unfold update_user_from_scim, locked_user_for_update, get_user_with_password,
    user_email_is_taken, user_scim_external_id_is_taken, deactivation_would_remove_last_owner,
    protected_owner_group_id_for_update, user_is_group_owner,
    active_group_owner_count_excluding_user_in_transaction, update_returning,
    revoke_user_runtime_credentials, get_user_with_password. repeat spares_step.
Qed.
Lemma spares_update_user_status o o' id s slug at_ :
  moves (spares o) (update_user_status o' id s slug at_).
Proof.
  unfold update_user_status, locked_user_for_update, get_user_with_password,
    deactivation_would_remove_last_owner, protected_owner_group_id_for_update, user_is_group_owner,
    active_group_owner_count_excluding_user_in_transaction, update_returning,
    revoke_user_runtime_credentials, get_user_with_password. repeat spares_step.
Qed.
Lemma scim_statement_spares o X (op : DB X) : scim_statement o X op -> moves (spares o) op.
Proof.
  intros [?? Hr|event _|user _|input _ _|id at_|group members _ Hs|input _ Hs|id].
  - intros db. unfold moves_at. by rewrite Hr.
  - unfold insert_audit_event. repeat spares_step.
  - unfold create_user. repeat spares_step.
  - apply spares_update_user.
  - apply spares_update_user_status.
  - apply spares_create_scim_group. by intros [_ ?].
  - by apply spares_replace_scim_group.
  - apply spares_delete_scim_group.
Qed.
Lemma scim_statement_directory o X (op : DB X) db :
  scim_statement o X op -> directory_ok o ADMINISTRATORS_GROUP_SLUG db ->
  directory_ok o ADMINISTRATORS_GROUP_SLUG (op db).2.
Proof.
  assert (Hstep : forall A (c : DB A), directory_op ADMINISTRATORS_GROUP_SLUG A c ->
    directory_ok o ADMINISTRATORS_GROUP_SLUG db -> directory_ok o ADMINISTRATORS_GROUP_SLUG (c db).2).
  { intros A c Hc. apply directory_step_keeps. exists A, c, (c db).1. split; [done|]. by destruct (c db). }
  intros [?? Hr|event _|user _|input _ Hi|id at_|group members _ Hs|input _ Hi|id].
  - by rewrite Hr.
  - apply same_directory_ok. unfold insert_audit_event, db_bind, db_check, db_modify.
    repeat case_match; simplify_eq/=; done.
  - apply Hstep. constructor.
  - apply Hstep. by constructor.
  - apply Hstep. constructor.
  - apply Hstep. constructor.
  - apply Hstep. by constructor.
  - apply Hstep. constructor.
Qed.

(** ** Provisioning next to itself

    Any number of provisioning requests at once, statement by statement, with
    connections that fail before or after a statement. *)

Definition provisioning_page (state : AppState) (page : Prog (Prelude.result ScimError Reply)) : Prop :=
  exists headers, scim_route state headers page.
Lemma provisioning_keeps (R : Database -> Database -> Prop) `{!PreOrder R} state pages db pages' db' :
  (forall X op, scim_statement (state_organization_id state) X op -> moves R op) ->
  Forall (provisioning_page state) pages -> rtc pool_step (pages, db) (pages', db') -> R db db'.
Proof.
  intros HR Hpages Hs.
  apply (pool_evolves (scim_statement (state_organization_id state)) (fun _ => True) R (pages, db) (pages', db'));
    try done.
  - intros X op d Hop _. by apply HR.
  - eapply Forall_impl; [exact Hpages|]. intros page [headers Hroute]. by eapply scim_route_statements.
Qed.

(** C23. Provisioning stays in its organization.  However many SCIM requests run
    at once, in whatever order their statements reach the database and
    whichever of them fail or lose their answer, no row of another
    organization is added, changed or removed in any table, no organization,
    signing key or rate limit is touched, and the memberships stay in the
    organizations of their groups. *)
Theorem provisioning_is_confined state pages db pages' db' :
  Forall (provisioning_page state) pages -> rtc pool_step (pages, db) (pages', db') -> members_wf db ->
  members_wf db' /\ stays_in (state_organization_id state) db db'.
Proof.
  intros Hpages Hs. apply (provisioning_keeps (confined (state_organization_id state)) state pages db pages');
    [|done..]. intros X op. apply scim_statement_confined.
Qed.

(** C18. The administrators are out of the reach of provisioning.  However many
    SCIM requests run at once, with whatever failures, the administrators
    group of the organization stays as it is, row for row, no other group
    takes its place, nobody joins it, leaves it or changes role in it; and if
    one of its owners could log in before, one still can. *)
Theorem administrators_out_of_reach state pages db pages' db' :
  Forall (provisioning_page state) pages -> rtc pool_step (pages, db) (pages', db') -> keyed db ->
  administrators_kept (state_organization_id state) db db'
  /\ (directory_ok (state_organization_id state) ADMINISTRATORS_GROUP_SLUG db ->
      directory_ok (state_organization_id state) ADMINISTRATORS_GROUP_SLUG db').
Proof.
  intros Hpages Hs Hk. split.
  - enough (spares (state_organization_id state) db db') as [Hg _ Hm] by (split; [done|by apply Hm]).
    eapply provisioning_keeps; [tc_solve|apply scim_statement_spares|done..].
  - refine (provisioning_keeps (fun d d' => _ d -> _ d') state pages db pages' db' _ Hpages Hs).
    + split; [by intros d|]. intros d1 d2 d3 H1 H2 H. auto.
    + intros X op Hop d. exact (scim_statement_directory _ X op d Hop).
Qed.
End provisioning.
