(* ===== verification/MfaRaces.v ===== *)
(** * Second factors under concurrency

    Logins and reauthentications run statement by statement next to each
    other.  A recovery code and a passkey challenge each confirm one of them
    at most. *)

From S2P Require Import Prelude RustStr Domain Authn Oidc Http Codec Store.
From S2P Require Import MfaStore.
From S2P Require Import Handler KeyStore OAuthPolicy BrowserSession Mfa.

Section checks.
Context {CC : CryptoCrates} {TC : TokenCrates} {AG : AesGcm} {TR : TotpCrate} {BD : Base64Decode}.
Context {UC : UrlCrate} {WA : WebAuthnCrate}.

(** ** Checks in flight *)

(** The part of a login that checks what the request has shown, with the
    credentials it has read (perhaps long ago). *)
Inductive FactorCheck :=
| Check_Code (clock : nat -> OffsetDateTime) (organization_id user_id : Uuid)
    (totp_credentials recovery_code_credentials : list MfaCredential) (code : string)
| Check_Assertion (now : OffsetDateTime) (organization_id user_id : Uuid)
    (webauthn_credentials : list MfaCredential) (challenge : Uuid) (assertion : PublicKeyCredential).
Definition check_factor (state : AppState) (check : FactorCheck)
    : Handler (option MfaVerificationMethod) :=
  match check with
  | Check_Code clock _ _ totp codes code =>
      verify_mfa_code_against_credentials state clock totp codes code
  | Check_Assertion now o u credentials challenge assertion =>
      do! method := verify_webauthn_assertion state now o u credentials challenge assertion in
      succeed (Some method)
  end.
(** A check with its outcome. *)
Definition serve_check (state : AppState) (check : FactorCheck)
    : Prog (FactorCheck * result ApiError (option MfaVerificationMethod)) :=
  prog_bind (check_factor state check) (fun r => Ret (check, r)).
(** The credentials are those of the user the check is for. *)
Definition check_wf (check : FactorCheck) : Prop :=
  match check with
  | Check_Code _ o u _ codes _ =>
      Forall (fun c => mfa_organization_id c = o /\ mfa_user_id c = u) codes
  | Check_Assertion _ _ _ _ _ _ => True
  end.

(** ** Properties *)

(** The statements of a check. *)
Inductive factor_statement : forall X, DB X -> Prop :=
| fst_mark id at_ : factor_statement _ (mark_mfa_credential_used id at_)
| fst_code o u h at_ : factor_statement _ (consume_active_recovery_code o u h at_)
| fst_challenge id o u kind at_ : factor_statement _ (consume_webauthn_challenge id o u kind at_)
| fst_update id passkey credential_id metadata used :
    webauthn_passkey_metadata_json "active" credential_id passkey = Ok metadata ->
    factor_statement _ (update_mfa_credential_metadata id metadata used).
Hint Constructors factor_statement : core.

Lemma totp_statements state clock l code :
  each_op factor_statement (verify_totp_credentials state clock l code).
Proof.
  revert clock. induction l as [|c l IH]; intros clock; cbn [verify_totp_credentials]; [exact I|].
  repeat (each_op_step || apply IH || auto).
Qed.
Lemma recovery_statements now h l : each_op factor_statement (consume_recovery_code_loop now h l).
Proof.
  induction l as [|c l IH]; cbn [consume_recovery_code_loop]; [exact I|].
  repeat (each_op_step || exact IH || auto).
Qed.
Lemma record_assertion_statements now result l :
  each_op factor_statement (record_assertion now result l).
Proof.
  induction l as [|c l IH]; cbn [record_assertion]; [exact I|]. each_op_step; [exact I|].
  destruct (update_credential a result) as [[changed passkey]|]; [|exact IH].
  each_op_step; [|exact I]. destruct changed; [|repeat each_op_step; auto].
  destruct (webauthn_passkey_metadata_json _ _ _) eqn:E; [|exact I].
  rewrite lift_Ok_bind. each_op_step. by econstructor.
Qed.
Lemma assertion_statements state now o u l id assertion :
  each_op factor_statement (verify_webauthn_assertion state now o u l id assertion).
Proof.
  unfold verify_webauthn_assertion. destruct l as [|c l]; [exact I|].
  repeat (each_op_step || apply record_assertion_statements || auto).
Qed.
Lemma check_statements state check : each_op factor_statement (check_factor state check).
Proof.
  destruct check; simpl check_factor.
  - unfold verify_mfa_code_against_credentials.
    repeat (each_op_step || apply totp_statements || apply recovery_statements).
  - repeat (each_op_step || apply assertion_statements).
Qed.

(** *** Recovery codes *)

Section recovery.
Context (o u : Uuid) (h : string).

(** No live code with this hash is left. *)
Definition code_spent (db : Database) : Prop :=
  forall k c, t_mfa_credentials db !! k = Some c -> ~ recovery_code_live o u h c.

Lemma with_mfa_keeps_spent id f db :
  (forall c, recovery_code_live o u h (f c) -> recovery_code_live o u h c) ->
  code_spent db -> code_spent (with_mfa id f db).
Proof.
  intros Hf Hs k c. cbn. destruct (decide (id = k)) as [->|Hne].
  - rewrite lookup_alter_eq. destruct (t_mfa_credentials db !! k) as [c0|] eqn:E; [|done].
    intros [= <-] Hl%Hf. by eapply Hs.
  - rewrite lookup_alter_ne by done. apply Hs.
Qed.
Inductive code_claim : forall X, DB X -> (X -> Prop) -> Prop :=
| code_claim_consume at_ :
    code_claim bool (consume_active_recovery_code o u h at_) (fun used => used = true).
Lemma recovery_claim_raises X (op : DB X) won db x db' :
  code_claim X op won -> op db = (Ok x, db') -> won x -> ~ code_spent db /\ code_spent db'.
Proof.
  intros Hc. revert x. destruct Hc as [at_]. intros x [-> ->]%consume_recovery_run Hx. split.
  - apply Nat.ltb_lt, count_where_pos in Hx as (k & c & Hk & Hc%active_recovery_code_true).
    intros Hs. by eapply Hs.
  - intros k c. apply consumed_codes_dead.
Qed.
Lemma statement_keeps_spent X (op : DB X) : factor_statement X op -> keeps_flag code_spent X op.
Proof.
  intros [id at_|o' u' h' at_|id o' u' kind at_|id passkey cid metadata used Hm] db Hs.
  - rewrite mark_used_run. by apply with_mfa_keeps_spent.
  - destruct (consume_active_recovery_code o' u' h' at_ db) as [r db'] eqn:E. simpl.
    destruct r as [used|e]; [|unfold consume_active_recovery_code in E; discriminate E].
    apply consume_recovery_run in E as [_ ->]. intros k c. cbn.
    rewrite lookup_update_where_Some. intros (c0 & Hc0 & ->). destruct (active_recovery_code _ _ _ c0); [|eauto].
    intros (_ & _ & _ & Hst & _). pose proof (closed_not_active "consumed" at_ c0 ltac:(done)) as Hn.
    unfold mfa_status_is in Hn. by rewrite bool_decide_eq_false in Hn.
  - destruct (consume_challenge_run id o' u' kind at_ db) as (r & -> & _). by destruct r.
  - destruct (update_mfa_credential_metadata id metadata used db) as [[v|e] db'] eqn:E.
    + apply update_metadata_Ok in E as ->. apply with_mfa_keeps_spent; [|done].
      intros c (_ & _ & _ & _ & Hh). exfalso. cbn in Hh.
      apply result_bind_Ok in Hm as (value & _ & [= <-]). discriminate Hh.
    + unfold update_mfa_credential_metadata, db_bind, db_check in E.
      set (free := match t_mfa_credentials db !! id with Some _ => _ | None => _ end) in E.
      destruct free; [|by injection E as _ <-].
      destruct (update_mfa_key_run id (mfa_set_metadata metadata used) db) as [b Hb]. by rewrite Hb in E.
Qed.

(** The check has shown the recovery code. *)
Definition by_recovery_code (outcome : FactorCheck * result ApiError (option MfaVerificationMethod)) : Prop :=
  outcome.2 = Ok (Some Method_RecoveryCode)
  /\ match outcome.1 with
     | Check_Code _ o' u' _ _ code => o' = o /\ u' = u /\ hash_token code = h
     | Check_Assertion _ _ _ _ _ _ => False
     end.
Lemma recovery_loop_guarded now l :
  Forall (fun c => mfa_organization_id c = o /\ mfa_user_id c = u) l ->
  guarded code_spent code_claim (fun r => r = Ok true) (consume_recovery_code_loop now h l).
Proof.
  induction 1 as [|c l [Ho Hu] _ IH]; cbn [consume_recovery_code_loop]; [done|].
  destruct (recovery_code_hash c) as [stored|e]; [rewrite lift_Ok_bind|done].
  destruct (bool_decide (stored = h)); [|exact IH]. rewrite Ho, Hu. simpl.
  split; [by apply statement_keeps_spent|]. right. exists (fun used => used = true).
  split; [constructor|]. split; [intros []; auto|]. split; [|done].
  intros [used|e] Hr; simpl; [|done]. intros [= ->]. by eapply Hr.
Qed.
Lemma check_guarded state check :
  check_wf check -> guarded code_spent code_claim by_recovery_code (serve_check state check).
Proof.
  intros Hwf. unfold serve_check. apply guarded_map.
  assert (Hall : each_op (keeps_flag code_spent) (check_factor state check)).
  { eapply each_op_impl; [|apply check_statements]. apply statement_keeps_spent. }
  destruct check as [clock o' u' totp codes code|now o' u' l id assertion]; [|apply each_op_guarded; [by intros a [_ []]|done]].
  destruct (decide (o' = o /\ u' = u /\ hash_token code = h)) as [(-> & -> & Hh)|Hn];
    [|apply each_op_guarded; [by intros a [_ Ha]|done]].
  simpl check_factor. unfold verify_mfa_code_against_credentials.
  apply guarded_bind; [by intros e [[=] _]| |].
  { eapply each_op_impl; [apply statement_keeps_spent|apply totp_statements]. }
  intros []; [by intros [[=] _]|]. unfold consume_recovery_code. rewrite Hh.
  apply (guarded_relabel _ _ (fun r => r = Ok true)); [|by apply recovery_loop_guarded].
  intros [[]|e]; eexists; (split; [reflexivity|]); [done|by intros [[=] _]|by intros [[=] _]].
Qed.
End recovery.

(** *** Challenges *)

Section challenge.
Context (id : Uuid).

Definition challenge_spent (db : Database) : Prop :=
  exists c, t_webauthn_challenges db !! id = Some c /\ is_Some (challenge_consumed_at c).
Inductive challenge_claim : forall X, DB X -> (X -> Prop) -> Prop :=
| challenge_claim_consume o u kind at_ :
    challenge_claim _ (consume_webauthn_challenge id o u kind at_) is_Some.
Lemma challenge_claim_raises X (op : DB X) won db x db' :
  challenge_claim X op won -> op db = (Ok x, db') -> won x ->
  ~ challenge_spent db /\ challenge_spent db'.
Proof.
  intros Hc. revert x. destruct Hc as [o u kind at_]. intros x Hop [c ->].
  destruct (consume_challenge_run id o u kind at_ db) as (r & Hrun & Hr). rewrite Hrun in Hop.
  injection Hop as -> <-. destruct (proj1 (Hr c) eq_refl) as [Hk (_ & _ & _ & Hn & _)]. split.
  - intros (c' & Hk' & Hs). rewrite Hk in Hk'. injection Hk' as <-. rewrite Hn in Hs. by destruct Hs.
  - exists (challenge_consume at_ c). cbn. by rewrite lookup_insert_eq.
Qed.
Lemma statement_keeps_challenge X (op : DB X) :
  factor_statement X op -> keeps_flag challenge_spent X op.
Proof.
  intros [i at_|o' u' h' at_|i o' u' kind at_|i passkey cid metadata used Hm] db (c & Hk & Hs).
  - rewrite mark_used_run. by exists c.
  - destruct (consume_active_recovery_code o' u' h' at_ db) as [[used|e] db'] eqn:E;
      [|unfold consume_active_recovery_code in E; discriminate E].
    apply consume_recovery_run in E as [_ ->]. by exists c.
  - destruct (consume_challenge_run i o' u' kind at_ db) as (r & -> & Hr). simpl.
    destruct r as [c'|]; [|by exists c]. cbn. destruct (decide (i = id)) as [->|Hne].
    + eexists. cbn. rewrite lookup_insert_eq. split; [reflexivity|done].
    + exists c. cbn. by rewrite lookup_insert_ne.
  - destruct (update_mfa_credential_metadata i metadata used db) as [[v|e] db'] eqn:E.
    + apply update_metadata_Ok in E as ->. by exists c.
    + unfold update_mfa_credential_metadata, db_bind, db_check in E.
      set (free := match t_mfa_credentials db !! i with Some _ => _ | None => _ end) in E.
      destruct free; [|injection E as _ <-; by exists c].
      destruct (update_mfa_key_run i (mfa_set_metadata metadata used) db) as [b Hb]. by rewrite Hb in E.
Qed.

(** The check has answered the challenge. *)
Definition by_challenge (outcome : FactorCheck * result ApiError (option MfaVerificationMethod)) : Prop :=
  is_ok outcome.2 = true
  /\ match outcome.1 with
     | Check_Assertion _ _ _ _ challenge _ => challenge = id
     | Check_Code _ _ _ _ _ _ => False
     end.
Lemma check_guarded_challenge state check :
  guarded challenge_spent challenge_claim by_challenge (serve_check state check).
Proof.
  assert (Hkeep : forall A (p : Prog A), each_op factor_statement p -> each_op (keeps_flag challenge_spent) p).
  { intros A p. apply each_op_impl. apply statement_keeps_challenge. }
  unfold serve_check. apply guarded_map.
  destruct check as [clock o' u' totp codes code|now o' u' l i assertion];
    [apply each_op_guarded; [by intros a [_ []]|apply Hkeep, (check_statements state (Check_Code _ _ _ _ _ _))]|].
  destruct (decide (i = id)) as [->|Hne];
    [|apply each_op_guarded; [by intros a [_ Ha]|apply Hkeep, (check_statements state (Check_Assertion _ _ _ _ _ _))]].
  simpl check_factor.
  apply (guarded_relabel _ _ (fun r => is_ok r = true)).
  { intros [m|e]; eexists; (split; [reflexivity|]); [done|by intros [[=] _]]. }
  unfold verify_webauthn_assertion. destruct l as [|c l]; [done|].
  apply (guarded_claim _ _ _ _ is_Some).
  - done.
  - apply statement_keeps_challenge. constructor.
  - constructor.
  - intros [c'|]; [by left; eexists|right; by intros []].
  - intros [c'|] Hn; [by destruct Hn|]. done.
  - intros x. apply Hkeep. repeat (each_op_step || apply record_assertion_statements).
Qed.
End challenge.

(** C5. A second factor is shown once.  Whatever checks of logins and
    reauthentications run next to each other, with credentials they may have
    read long before, statements that fail or lose their answer, and any
    interleaving: at most one of the checks that submit the same recovery
    code of a user is confirmed by it, and at most one of the checks that
    answer the same passkey challenge succeeds. *)
Theorem second_factor_shown_once state checks db ps db' :
  rtc pool_step (serve_check state <$> checks, db) (ps, db') -> Forall check_wf checks ->
  (forall o u h i j a b, ps !! i = Some (Ret a) -> ps !! j = Some (Ret b) ->
     by_recovery_code o u h a -> by_recovery_code o u h b -> i = j)
  /\ (forall id i j a b, ps !! i = Some (Ret a) -> ps !! j = Some (Ret b) ->
       by_challenge id a -> by_challenge id b -> i = j).
Proof.
  intros Hs Hwf. split.
  - intros o u h i j a b Hi Hj Ha Hb.
    eapply (one_winner _ _ (recovery_claim_raises o u h) (by_recovery_code o u h)); [exact Hs| |done..].
    apply Forall_fmap. eapply Forall_impl; [exact Hwf|]. intros c. apply check_guarded.
  - intros id i j a b Hi Hj Ha Hb.
    eapply (one_winner _ _ (challenge_claim_raises id) (by_challenge id)); [exact Hs| |done..].
    apply Forall_fmap, Forall_forall. intros c _. apply check_guarded_challenge.
Qed.
End checks.
