(* ===== verification/MfaRoutes.v ===== *)
(** * The pages for second factors

    [apps/api/src/http]'s mfa_routes: enrolling an authenticator or a passkey,
    listing and revoking factors, and new recovery codes. *)

From S2P Require Import Prelude RustStr Domain Authn Oidc Http Codec Store.
From S2P Require Import MfaStore.
From S2P Require Import SessionStore Directory AuditStore Handler KeyStore OAuthPolicy.
From S2P Require Import BrowserSession Mfa.

(** ** Summaries *)

(* apps/api/src/http/mfa_routes/types.rs:16-25 MfaCredentialSummary *)
Record MfaCredentialSummary := mk_MfaCredentialSummary {
  summary_id : Uuid;
  summary_kind : MfaKind;
  summary_label : string;
  summary_status : string;
  summary_created_at : OffsetDateTime;
  summary_last_used_at : option OffsetDateTime;
}.
(* apps/api/src/http/mfa_routes/types.rs:27-38 mfa_credential_summary *)
Definition mfa_credential_summary (credential : MfaCredential) : MfaCredentialSummary :=
  mk_MfaCredentialSummary (mfa_id credential) (mfa_kind credential) (mfa_label credential)
    (mfa_metadata_status credential) (mfa_created_at credential) (mfa_last_used_at credential).

(** What an enrollment draws: the session check's clock, its own, random
    values and identifiers, and the readings of the clock in a code check. *)
Record EnrollEnv := mk_EnrollEnv {
  enroll_session_now : OffsetDateTime;
  enroll_now : OffsetDateTime;
  enroll_secret : string;
  enroll_nonce : string;
  enroll_entropy : N;
  enroll_id : Uuid;
  enroll_event_id : Uuid;
  enroll_event_now : OffsetDateTime;
  enroll_check_now : OffsetDateTime;
  enroll_recovery_codes : list (Uuid * string);
}.

Section routes.
Context {CC : CryptoCrates} {TC : TokenCrates} {AG : AesGcm} {TR : TotpCrate} {BD : Base64Decode}.
Context {UC : UrlCrate} {WA : WebAuthnCrate} {HC : HttpCrates} {UU : UuidCrate}.

Definition enroll_audit (env : EnrollEnv) (session : AuthSession) (action target : string)
    (metadata : option Value) : Handler unit :=
  let event := audit_user (session_organization_id session) (session_user_id session) action target in
  query (insert_audit_event (audit_build (enroll_event_id env) (enroll_event_now env)
    match metadata with Some m => audit_with_metadata m event | None => event end)).

(** The body of the reply. *)
Record TotpEnrollment := mk_TotpEnrollment {
  enrollment_credential_id : Uuid;
  enrollment_otpauth_url : string;
  enrollment_secret_base32 : string;
}.
Definition pending_totp (env : EnrollEnv) (session : AuthSession) (label : string)
    (encrypted_secret : EncryptedSecret) : MfaCredential :=
  mk_MfaCredential (enroll_id env) (session_organization_id session) (session_user_id session)
    MfaKind_Totp label (totp_metadata_json "pending" encrypted_secret) (enroll_now env) None.
(* apps/api/src/http/mfa_routes/totp.rs:30-90 start_totp_mfa *)
Definition start_totp_mfa (state : AppState) (env : EnrollEnv) (headers : HeaderMap)
    (label : option string) : Handler TotpEnrollment :=
  do! session := require_session state (enroll_session_now env) headers in
  do! _ := lift (require_csrf headers) in
  let now := enroll_now env in
  do! _ := require_recent_enrollment_authentication session now in
  do! user := query (get_user (session_user_id session)) in
  do! user := some_or user (api_status 401 "user missing") in
  do! key := lift (require_key_encryption_key state) in
  let profile := mk_TotpProfile "Cairn Identity" (user_email user) (enroll_secret env) in
  do! totp := some_or (totp_build profile) api_authn_error in
  do! encrypted_secret :=
    lift (map_err (fun _ => api_oidc_error)
            (encrypt_secret (enroll_nonce env) (enroll_secret env) key
               (totp_credential_aad (session_organization_id session) (session_user_id session)))) in
  let label := match label with
               | Some value => if is_empty (trim value) then "Authenticator app" else value
               | None => "Authenticator app"
               end in
  let credential := pending_totp env session label encrypted_secret in
  do! _ := query (create_mfa_credential credential) in
  do! _ := enroll_audit env session "mfa.totp_enrollment_started"
             (uuid_to_string (mfa_id credential)) None in
  succeed (mk_TotpEnrollment (mfa_id credential) (totp_get_url totp) (totp_get_secret_base32 totp)).

(* apps/api/src/http/mfa_routes/totp.rs:92-149 confirm_totp_mfa *)
Definition confirm_totp_mfa (state : AppState) (env : EnrollEnv) (headers : HeaderMap)
    (credential_id : Uuid) (code : string) : Handler (list string) :=
  do! session := require_session state (enroll_session_now env) headers in
  do! _ := lift (require_csrf headers) in
  let now := enroll_now env in
  do! _ := require_recent_enrollment_authentication session now in
  do! credentials := query (list_mfa_credentials (session_organization_id session)
                              (session_user_id session) MfaKind_Totp) in
  do! credential := some_or
    (List.find (fun c => N.eqb (mfa_id c) credential_id
                  && bool_decide (mfa_metadata_status c = "pending")) credentials)
    (api_bad_request "unknown pending TOTP enrollment") in
  do! _ := reject_if (mfa_created_at credential + TOTP_ENROLLMENT_TTL <? now)%Z
             (api_bad_request "expired pending TOTP enrollment") in
  do! valid := lift (verify_totp_code state credential (enroll_check_now env) code) in
  do! _ := reject_if (negb valid) (api_status 401 "invalid TOTP code") in
  do! secret := lift (encrypted_secret_from_totp_metadata credential) in
  do! _ := query (update_mfa_credential_metadata (mfa_id credential)
                    (totp_metadata_json "active" secret) (Some now)) in
  do! replaced := replace_recovery_codes_for_session session (enroll_recovery_codes env) now in
  do! _ := enroll_audit env session "mfa.totp_enabled" (uuid_to_string (mfa_id credential))
             (Some (Object [("recovery_codes_revoked", Number (Z.of_nat (snd replaced)))])) in
  succeed (fst replaced).

(* apps/api/src/http/mfa_routes/webauthn.rs:27-94 start_webauthn_mfa *)
Definition start_webauthn_mfa (state : AppState) (env : EnrollEnv) (headers : HeaderMap)
    (label : option string) : Handler (Uuid * Value * string) :=
  do! session := require_session state (enroll_session_now env) headers in
  do! _ := lift (require_csrf headers) in
  let now := enroll_now env in
  do! _ := require_recent_enrollment_authentication session now in
  do! user := query (get_user (session_user_id session)) in
  do! user := some_or user (api_status 401 "user missing") in
  do! active_credentials := active_webauthn_credentials_for_user
                              (session_organization_id session) (session_user_id session) in
  do! passkeys := lift (passkeys_from_credentials active_credentials) in
  do! relying_party := lift (webauthn state) in
  do! started := some_or
    (start_passkey_registration (enroll_entropy env) relying_party (session_user_id session)
       (user_email user) (user_display_name user) (cred_id <$> passkeys))
    (api_bad_request "passkey registration could not start") in
  let '(options, registration_state) := started in
  do! state_value := some_or (registration_to_value registration_state)
                       (internal_error "passkey state serialization failed") in
  do! _ := query (insert_webauthn_challenge
    (mk_WebAuthnChallenge (enroll_id env) (session_organization_id session)
       (session_user_id session) Registration state_value now (now + WEBAUTHN_CHALLENGE_TTL)%Z
       None)) in
  do! _ := enroll_audit env session "mfa.webauthn_enrollment_started"
             (uuid_to_string (enroll_id env)) None in
  succeed (enroll_id env, options, default default_passkey_label label).

(* apps/api/src/http/mfa_routes/webauthn.rs:96-172 finish_webauthn_mfa *)
Definition finish_webauthn_mfa (state : AppState) (env : EnrollEnv) (headers : HeaderMap)
    (challenge : Uuid) (registration : RegisterPublicKeyCredential) (label : option string)
    : Handler (Uuid * string) :=
  do! session := require_session state (enroll_session_now env) headers in
  do! _ := lift (require_csrf headers) in
  let now := enroll_now env in
  do! _ := require_recent_enrollment_authentication session now in
  do! challenge := query (consume_webauthn_challenge challenge (session_organization_id session)
                            (session_user_id session) Registration now) in
  do! challenge := some_or challenge (api_bad_request "invalid or expired passkey challenge") in
  do! registration_state := some_or (registration_from_value (challenge_state challenge))
                              (internal_error "passkey registration state is invalid") in
  do! relying_party := lift (webauthn state) in
  do! passkey := some_or (finish_passkey_registration relying_party registration registration_state)
                   (api_status 401 "invalid passkey registration") in
  let credential_id := passkey_credential_id passkey in
  do! existing := query (find_active_webauthn_credential_by_credential_id
                           (session_organization_id session) credential_id) in
  do! _ := reject_if (is_some existing) (api_status 409 "passkey is already registered") in
  let label := match label with
               | Some value => if is_empty (trim value) then default_passkey_label else value
               | None => default_passkey_label
               end in
  do! metadata := lift (webauthn_passkey_metadata_json "active" credential_id passkey) in
  do! _ := query (create_mfa_credential
    (mk_MfaCredential (enroll_id env) (session_organization_id session) (session_user_id session)
       MfaKind_WebAuthn label metadata now None)) in
  do! _ := enroll_audit env session "mfa.webauthn_enabled" (uuid_to_string (enroll_id env))
             (Some (Object [("credential_id", String_ credential_id)])) in
  succeed (enroll_id env, label).

(* apps/api/src/http/mfa_routes/management.rs:26-42 list_session_mfa_credentials *)
Definition list_session_mfa_credentials (state : AppState) (session_now : OffsetDateTime)
    (headers : HeaderMap) : Handler (list MfaCredentialSummary * nat) :=
  do! session := require_session state session_now headers in
  do! credentials := visible_mfa_credentials_for_user (session_organization_id session)
                       (session_user_id session) in
  do! codes := active_recovery_code_credentials_for_user (session_organization_id session)
                 (session_user_id session) in
  succeed (mfa_credential_summary <$> credentials, length codes).

(** The kind in [json!] is its snake case name. *)
Definition mfa_kind_json (kind : MfaKind) : string :=
  match kind with
  | MfaKind_Totp => "totp"
  | MfaKind_WebAuthn => "web_authn"
  | MfaKind_RecoveryCode => "recovery_code"
  end.
(* apps/api/src/http/mfa_routes/management.rs:44-93 revoke_session_mfa_credential *)
Definition revoke_session_mfa_credential (state : AppState) (env : EnrollEnv) (headers : HeaderMap)
    (credential_id : Uuid) : Handler MfaCredentialSummary :=
  do! session := require_session state (enroll_session_now env) headers in
  do! _ := lift (require_csrf headers) in
  let now := enroll_now env in
  do! _ := lift (require_recent_mfa_proof session now) in
  let organization_id := session_organization_id session in
  let user_id := session_user_id session in
  do! revoked := query (revoke_mfa_credential organization_id user_id credential_id now) in
  do! revoked := some_or revoked (api_status 404 "MFA credential not found") in
  do! count := active_second_factor_count organization_id user_id in
  do! recovery_codes_revoked :=
    if (count =? 0)%nat
    then query (revoke_active_mfa_credentials_by_kind organization_id user_id MfaKind_RecoveryCode now)
    else succeed 0 in
  do! _ := enroll_audit env session "mfa.credential_revoked" (uuid_to_string (mfa_id revoked))
    (Some (Object [("kind", String_ (mfa_kind_json (mfa_kind revoked)));
                   ("label", String_ (mfa_label revoked));
                   ("recovery_codes_revoked", Number (Z.of_nat recovery_codes_revoked))])) in
  succeed (mfa_credential_summary revoked).

(* apps/api/src/http/mfa_routes/management.rs:95-135 regenerate_session_recovery_codes *)
Definition regenerate_session_recovery_codes (state : AppState) (env : EnrollEnv)
    (headers : HeaderMap) : Handler (list string) :=
  do! session := require_session state (enroll_session_now env) headers in
  do! _ := lift (require_csrf headers) in
  let now := enroll_now env in
  do! _ := lift (require_recent_mfa_proof session now) in
  do! count := active_second_factor_count (session_organization_id session)
                 (session_user_id session) in
  do! _ := reject_if (count =? 0)%nat (api_status 409 "active MFA credential required") in
  do! replaced := replace_recovery_codes_for_session session (enroll_recovery_codes env) now in
  do! _ := enroll_audit env session "mfa.recovery_codes_regenerated"
    (uuid_to_string (session_user_id session))
    (Some (Object [("recovery_codes_issued", Number (Z.of_nat (length (fst replaced))));
                   ("recovery_codes_revoked", Number (Z.of_nat (snd replaced)))])) in
  succeed (fst replaced).
End routes.

(** ** Properties *)

Section route_properties.
Context {CC : CryptoCrates} {TC : TokenCrates} {AG : AesGcm} {TR : TotpCrate} {BD : Base64Decode}.
Context {UC : UrlCrate} {WA : WebAuthnCrate} {HC : HttpCrates} {UU : UuidCrate}.

(** *** What has to be shown first *)

Lemma second_factor_count_run o u db :
  exists n, run (active_second_factor_count o u) db = (Ok n, db)
    /\ ((0 <? n)%nat = true <-> second_factor db o u).
Proof.
  unfold active_second_factor_count, active_totp_credentials_for_user,
    active_webauthn_credentials_for_user.
  destruct (active_credentials_run MfaKind_Totp o u db) as (t & Ht & Et).
  destruct (active_credentials_run MfaKind_WebAuthn o u db) as (w & Hw & Ew).
  eexists. rewrite (run_known _ _ _ _ Ht), (run_known _ _ _ _ Hw). split; [reflexivity|].
  rewrite Nat.ltb_lt. unfold second_factor. setoid_rewrite <- Et. setoid_rewrite <- Ew. split.
  - destruct t as [|c t]; [|exists c; left; left]. destruct w as [|c w]; [simpl; lia|exists c; right; left].
  - intros [c [Hc|Hc]]; [destruct t|destruct w]; simpl; try lia; by apply elem_of_nil in Hc.
Qed.

(** The session has authenticated within the last 15 minutes, with a second
    factor when the user has one. *)
Definition fresh_proof (db : Database) (session : AuthSession) (now : OffsetDateTime) : Prop :=
  (now <= session_created_at session + duration_minutes 15)%Z
  /\ (second_factor db (session_organization_id session) (session_user_id session) ->
      mfa_proof session).
Lemma enrollment_authentication_run session now db r db' :
  run (require_recent_enrollment_authentication session now) db = (r, db') ->
  db' = db /\ (r = Ok tt -> fresh_proof db session now).
Proof.
  unfold require_recent_enrollment_authentication, fresh_proof.
  destruct (second_factor_count_run (session_organization_id session) (session_user_id session) db)
    as (n & Hn & Hs). rewrite (run_known _ _ _ _ Hn). destruct (0 <? n)%nat; intros [= <- <-]; split; try done.
  - intros [Hm Hr]%require_recent_mfa_proof_Ok. split; [exact Hr|done].
  - unfold require_recent_authentication, MFA_DESTRUCTIVE_ACTION_MAX_AGE.
    destruct (_ <? now)%Z eqn:E; [done|]. bool_prop. intros _. split; [lia|].
    intros Hsf. by apply Hs in Hsf.
Qed.
Lemma mfa_proof_run session now db r db' :
  run (lift (require_recent_mfa_proof session now)) db = (r, db') ->
  db' = db /\ (r = Ok tt -> mfa_proof session /\ fresh_proof db session now).
Proof.
  intros [= <- <-]. split; [done|]. intros [Hm Hr]%require_recent_mfa_proof_Ok.
  split; [done|]. by split.
Qed.
(** The first three checks of every page. *)
Lemma guarded_route {A} state now headers (proof : AuthSession -> Handler unit)
    (k : AuthSession -> Handler A) (P : AuthSession -> Prop) db r db' :
  (forall session r1 db1, run (proof session) db = (r1, db1) -> db1 = db /\ (r1 = Ok tt -> P session)) ->
  run (do! session := require_session state now headers in
       do! _ := lift (require_csrf headers) in
       do! _ := proof session in k session) db = (r, db') ->
  db' = db \/ exists session, carries_session db state now headers session
    /\ require_csrf headers = Ok tt /\ P session /\ run (k session) db = (r, db').
Proof.
  intros Hproof. unfold handler_bind at 1. rewrite run_bind.
  destruct (run (require_session state now headers) db) as [[session|e] d] eqn:Es.
  2:{ intros [= _ <-]. left. unfold require_session in Es.
      destruct (session_from_cookie_run state now headers db) as (o & Ho & _).
      rewrite (run_known _ _ _ _ Ho) in Es. destruct o; by injection Es. }
  apply require_session_Ok in Es as [-> Hs].
  destruct (require_csrf headers) as [[]|e]; [rewrite lift_Ok_bind|intros [= _ <-]; by left].
  unfold handler_bind at 1. rewrite run_bind. destruct (run (proof session) db) as [r1 d1] eqn:Ep.
  destruct (Hproof _ _ _ Ep) as [-> HP]. destruct r1 as [[]|e]; [|intros [= _ <-]; by left].
  intros H. right. exists session. auto.
Qed.

(** The pages that change factors. *)
Inductive factor_route (state : AppState) (env : EnrollEnv) (headers : HeaderMap)
    : forall A, Handler A -> Prop :=
| route_start_totp label : factor_route state env headers _ (start_totp_mfa state env headers label)
| route_confirm_totp id code :
    factor_route state env headers _ (confirm_totp_mfa state env headers id code)
| route_start_webauthn label :
    factor_route state env headers _ (start_webauthn_mfa state env headers label)
| route_finish_webauthn id registration label :
    factor_route state env headers _ (finish_webauthn_mfa state env headers id registration label)
| route_revoke id : factor_route state env headers _ (revoke_session_mfa_credential state env headers id)
| route_regenerate : factor_route state env headers _ (regenerate_session_recovery_codes state env headers).

(** C12. Second factors are protected by themselves.  A request to any page that
    enrolls or revokes a factor or replaces the recovery codes changes
    something, whatever it then answers, only with a standing session and its
    CSRF token, authenticated at most 15 minutes ago, and with a second factor
    in that session when the user has one: a stolen password or an old session
    cannot add a factor or take one away. *)
Theorem factors_are_protected state env headers A (h : Handler A) db r db' :
  factor_route state env headers A h -> run h db = (r, db') -> db' <> db ->
  exists session, carries_session db state (enroll_session_now env) headers session
    /\ require_csrf headers = Ok tt
    /\ (enroll_now env <= session_created_at session + duration_minutes 15)%Z
    /\ (second_factor db (session_organization_id session) (session_user_id session) ->
        mfa_proof session).
Proof.
  intros Hroute H Hne.
  assert (Henroll : forall session r1 db1,
    run (require_recent_enrollment_authentication session (enroll_now env)) db = (r1, db1) ->
    db1 = db /\ (r1 = Ok tt -> fresh_proof db session (enroll_now env)))
    by (intros session r1 db1; apply enrollment_authentication_run).
  assert (Hmfa : forall session r1 db1,
    run (lift (require_recent_mfa_proof session (enroll_now env))) db = (r1, db1) ->
    db1 = db /\ (r1 = Ok tt -> fresh_proof db session (enroll_now env))).
  { intros session r1 db1 Hrun%mfa_proof_run. tauto. }
  destruct Hroute;
    (apply (guarded_route state _ headers _ _ _ _ _ _ Henroll) in H
     || apply (guarded_route state _ headers _ _ _ _ _ _ Hmfa) in H);
    (destruct H as [?|(session & Hs & Hc & [Hrecent Hp] & _)]; [done|by exists session]).
Qed.

(** *** Recovery codes *)

Definition recovery_code_row (session : AuthSession) (at_ : OffsetDateTime) (p : Uuid * string)
    : MfaCredential :=
  mk_MfaCredential p.1 (session_organization_id session) (session_user_id session)
    MfaKind_RecoveryCode "Recovery code" (recovery_code_metadata_json "active" (hash_token p.2)) at_
    None.
Lemma create_mfa_Ok c db u db' :
  create_mfa_credential c db = (Ok u, db') ->
  t_mfa_credentials db !! mfa_id c = None
  /\ db' = on_mfa_credentials (<[mfa_id c := c]>) db.
Proof. unfold create_mfa_credential. intros H. db_steps. unfold absent in *. by bool_prop. Qed.
Lemma store_codes_Ok session l at_ db u db' :
  run (store_recovery_codes_loop session l at_) db = (Ok u, db') ->
  (forall k c, t_mfa_credentials db' !! k = Some c <->
     t_mfa_credentials db !! k = Some c
     \/ exists p, p ∈ l /\ k = p.1 /\ c = recovery_code_row session at_ p)
  /\ db' = on_mfa_credentials (fun _ => t_mfa_credentials db') db.
Proof.
  revert db. induction l as [|[id code] l IH]; intros db; cbn [store_recovery_codes_loop].
  - intros [= _ <-]. split; [|by rewrite on_mfa_credentials_id]. intros k c. split; [by left|].
    by intros [?|(p & Hp%elem_of_nil & _)].
  - intros (u1 & d & [Hfresh ->]%create_mfa_Ok & H)%query_then_Ok.
    change (mk_MfaCredential _ _ _ _ _ _ _ _) with (recovery_code_row session at_ (id, code)) in *.
    destruct (IH _ H) as [Hrows Hdb]. split; [|by rewrite Hdb at 1]. intros k c. rewrite Hrows. cbn.
    rewrite lookup_insert_Some. setoid_rewrite elem_of_cons. cbn in Hfresh. split.
    + intros [[[<- <-]|[Hne Hk]]|(p & Hp & ? & ?)]; [right; exists (id, code); auto|by left|right; eauto].
    + intros [Hk|(p & [->|Hp] & -> & ->)]; [left; right; split; [congruence|done]|left; by left|right; eauto].
Qed.
Lemma revoke_by_kind_run o u kind at_ db :
  exists n, revoke_active_mfa_credentials_by_kind o u kind at_ db
    = (Ok n, on_mfa_credentials (update_where (fun c => mfa_of_user o u c
        && bool_decide (mfa_kind c = kind) && mfa_status_is "active" c) (mfa_close "revoked" at_)) db).
Proof. by eexists. Qed.
Lemma revoked_rows o u kind at_ (m : gmap N MfaCredential) k c :
  update_where (fun c => mfa_of_user o u c && bool_decide (mfa_kind c = kind) && mfa_status_is "active" c)
    (mfa_close "revoked" at_) m !! k = Some c ->
  ~ (mfa_organization_id c = o /\ mfa_user_id c = u /\ mfa_kind c = kind
     /\ json_text (mfa_secret_metadata c) "status" = Some "active").
Proof.
  rewrite lookup_update_where_Some. intros (c0 & _ & ->) (Ho & Hu & Hk & Hs).
  destruct (mfa_of_user o u c0 && _ && _) eqn:E.
  - pose proof (closed_not_active "revoked" at_ c0 ltac:(done)) as Hn. unfold mfa_status_is in Hn.
    by rewrite bool_decide_eq_false in Hn.
  - apply not_true_iff_false in E. apply E. unfold mfa_of_user, mfa_status_is.
    rewrite !andb_true_iff, !N.eqb_eq, !bool_decide_eq_true. done.
Qed.
Lemma replace_codes_Ok session generated at_ db codes n db' :
  run (replace_recovery_codes_for_session session generated at_) db = (Ok (codes, n), db') ->
  codes = snd <$> take RECOVERY_CODE_COUNT generated
  /\ db' = on_mfa_credentials (fun _ => t_mfa_credentials db') db
  /\ (forall c, active_factor db' (session_organization_id session) (session_user_id session)
                  MfaKind_RecoveryCode c
        <-> exists p, p ∈ take RECOVERY_CODE_COUNT generated /\ c = recovery_code_row session at_ p)
  /\ (forall kind c, kind <> MfaKind_RecoveryCode ->
        active_factor db' (session_organization_id session) (session_user_id session) kind c
        <-> active_factor db (session_organization_id session) (session_user_id session) kind c).
Proof.
  unfold replace_recovery_codes_for_session. intros H.
  destruct (revoke_by_kind_run (session_organization_id session) (session_user_id session)
    MfaKind_RecoveryCode at_ db) as [m Hm].
  apply query_then_Ok in H as (m' & d & Hd & H). rewrite Hm in Hd. injection Hd as <- <-.
  apply run_handler_Ok in H as (u & d & Hst & H). simpl in H. injection H as <- <- <-.
  apply store_codes_Ok in Hst as [Hrows Hdb]. cbn in Hrows. split; [done|]. split; [|split].
  - by rewrite Hdb.
  - intros c. unfold active_factor. setoid_rewrite Hrows. split.
    + intros ((k & [Hk|(p & Hp & _ & ->)]) & Hact); [|by exists p].
      by apply revoked_rows in Hk.
    + intros (p & Hp & ->). split; [exists p.1; right; by exists p|done].
  - intros kind c Hkind. unfold active_factor. setoid_rewrite Hrows. split.
    + intros ((k & [Hk|(p & Hp & _ & ->)]) & Ho & Hu & Hki & Hs); [|done].
      split; [|done]. exists k. apply lookup_update_where_Some in Hk as (c0 & Hc0 & ->).
      destruct (mfa_of_user _ _ c0 && bool_decide (mfa_kind c0 = MfaKind_RecoveryCode) && _) eqn:E; [|done].
      rewrite !andb_true_iff, bool_decide_eq_true in E. destruct E as [[_ E] _]. cbn in Hki. congruence.
    + intros ((k & Hk) & Ho & Hu & Hki & Hs). split; [|done]. exists k. left.
      rewrite lookup_update_where, Hk. cbn. rewrite Hki, (bool_decide_false (kind = _)) by done.
      by rewrite andb_false_r.
Qed.

(** *** Enrolling an authenticator *)

Definition base64_round_trip : Prop := forall s, base64url_decode (base64url_encode s) = Some s.
Definition mfa_keyed (db : Database) : Prop :=
  forall k c, t_mfa_credentials db !! k = Some c -> mfa_id c = k.

Lemma stored_secret_read c status secret used :
  base64_round_trip ->
  encrypted_secret_from_totp_metadata (mfa_set_metadata (totp_metadata_json status secret) used c)
  = Ok secret.
Proof.
  intros Hb. unfold encrypted_secret_from_totp_metadata. set (c' := mfa_set_metadata _ _ _).
  assert (metadata_str c' "secret_ciphertext" = Ok (base64url_encode (encrypted_ciphertext secret)))
    as -> by reflexivity.
  assert (metadata_str c' "secret_nonce" = Ok (base64url_encode (encrypted_nonce secret)))
    as -> by reflexivity.
  simpl. rewrite Hb. simpl. rewrite Hb. by destruct secret.
Qed.
(** A stored secret checks codes against the secret that was encrypted. *)
Lemma verify_stored_secret state key nonce secret encrypted c now code :
  aes_round_trip AG -> String.length nonce = 12 -> utf8_valid secret = true ->
  config_key_encryption_key state = Some key ->
  encrypt_secret nonce secret key (totp_credential_aad (mfa_organization_id c) (mfa_user_id c))
    = Ok encrypted ->
  encrypted_secret_from_totp_metadata c = Ok encrypted ->
  verify_totp_code state c now code
  = ok_or (verify_current (mk_TotpProfile "Cairn Identity" (uuid_to_string (mfa_user_id c)) secret)
             now code) api_authn_error.
Proof.
  intros Haes Hn Hu Hk He Hs. unfold verify_totp_code, require_key_encryption_key.
  rewrite Hs, Hk. simpl. unfold encrypt_secret in He.
  apply result_bind_Ok in He as (ct & Hct%ok_or_Ok & [= <-]).
  unfold decrypt_secret. cbn [encrypted_nonce encrypted_ciphertext]. rewrite Hn. cbn [Nat.eqb negb].
  rewrite (Haes _ _ _ _ _ Hct). simpl. by rewrite Hu.
Qed.

Lemma start_totp_Ok state env headers label db e db' :
  run (start_totp_mfa state env headers label) db = (Ok e, db') ->
  exists session key encrypted l,
    carries_session db state (enroll_session_now env) headers session
    /\ config_key_encryption_key state = Some key
    /\ encrypt_secret (enroll_nonce env) (enroll_secret env) key
         (totp_credential_aad (session_organization_id session) (session_user_id session)) = Ok encrypted
    /\ enrollment_credential_id e = enroll_id env
    /\ t_mfa_credentials db' = <[enroll_id env := pending_totp env session l encrypted]> (t_mfa_credentials db).
Proof.
  unfold start_totp_mfa, enroll_audit. intros H.
  apply run_handler_Ok in H as (session & d & [-> Hs]%require_session_Ok & H).
  apply lift_then_Ok in H as (u0 & _ & H).
  apply run_handler_Ok in H as (u1 & d & [-> _]%enrollment_authentication_run & H).
  apply fetch_then_Ok in H as (user & _ & H). apply lift_then_Ok in H as (key & Hk%ok_or_Ok & H).
  apply run_handler_Ok in H as (totp & d & [_ ->]%run_some_or_Ok & H).
  apply lift_then_Ok in H as (encrypted & He%map_err_Ok & H). cbv zeta in H.
  apply query_then_Ok in H as (u2 & d & [_ ->]%create_mfa_Ok & H).
  apply query_then_Ok in H as (u3 & d & Ha & H). unfold insert_audit_event in Ha. db_steps.
  simpl in H. injection H as <- <-. eexists session, key, encrypted, _. done.
Qed.
Lemma confirm_totp_Ok state env headers id code db codes db' :
  mfa_keyed db ->
  run (confirm_totp_mfa state env headers id code) db = (Ok codes, db') ->
  exists session c secret db1,
    carries_session db state (enroll_session_now env) headers session
    /\ t_mfa_credentials db !! id = Some c /\ mfa_kind c = MfaKind_Totp
    /\ mfa_organization_id c = session_organization_id session
    /\ mfa_user_id c = session_user_id session
    /\ (enroll_now env <= mfa_created_at c + TOTP_ENROLLMENT_TTL)%Z
    /\ verify_totp_code state c (enroll_check_now env) code = Ok true
    /\ encrypted_secret_from_totp_metadata c = Ok secret
    /\ (exists n, run (replace_recovery_codes_for_session session (enroll_recovery_codes env) (enroll_now env))
          (with_mfa id (mfa_set_metadata (totp_metadata_json "active" secret) (Some (enroll_now env))) db)
        = (Ok (codes, n), db1))
    /\ t_mfa_credentials db' = t_mfa_credentials db1.
Proof.
  intros Hkeyed. unfold confirm_totp_mfa, enroll_audit. intros H.
  apply run_handler_Ok in H as (session & d & [-> Hs]%require_session_Ok & H).
  apply lift_then_Ok in H as (u0 & _ & H).
  apply run_handler_Ok in H as (u1 & d & [-> _]%enrollment_authentication_run & H).
  apply query_then_Ok in H as (l & d & Hl & H). unfold list_mfa_credentials, db_gets in Hl.
  injection Hl as <- <-. apply run_handler_Ok in H as (c & d & [Hc ->]%run_some_or_Ok & H).
  apply reject_then_Ok in H as [Ht H]. apply lift_then_Ok in H as (valid & Hv & H).
  apply reject_then_Ok in H as [Hvalid H]. apply lift_then_Ok in H as (secret & Hsec & H).
  apply query_then_Ok in H as (u2 & d & Hu & H).
  apply update_metadata_Ok in Hu as ->.
  apply run_handler_Ok in H as ([codes' n] & d & Hrep & H).
  apply query_then_Ok in H as (u3 & d2 & Ha & H). unfold insert_audit_event in Ha. db_steps.
  simpl in H. injection H as <- <-. apply negb_false_iff in Hvalid. subst valid. bool_prop.
  apply find_some in Hc as [Hin Hid]. rewrite andb_true_iff, N.eqb_eq in Hid. destruct Hid as [Hid _].
  apply list_elem_of_In, elem_of_order_by, elem_of_select_where in Hin as (k & Hk & HP).
  unfold mfa_of_user in HP. rewrite !andb_true_iff, !N.eqb_eq, bool_decide_eq_true in HP.
  pose proof (Hkeyed _ _ Hk) as Hkk. assert (k = id) as -> by congruence. rewrite Hid in Hrep.
  destruct HP as [[Ho Hu] Hkind].
  exists session, c, secret, d. split_and!; try done; eauto.
Qed.

(** Enrolling an authenticator works.  Between the two pages the pending
    secret may wait in the database for ten minutes.  When the second page
    accepts a code, that code was one of the secret the first page generated
    and showed; from then on the user has a second factor, which accepts
    exactly the codes of that secret; and the active recovery codes of the
    user are exactly the ten the reply lists. *)
Theorem totp_enrollment_spec state env1 headers1 label db e db1 env2 headers2 code db2 codes db3 :
  aes_round_trip AG -> base64_round_trip -> String.length (enroll_nonce env1) = 12 ->
  utf8_valid (enroll_secret env1) = true -> mfa_keyed db2 ->
  run (start_totp_mfa state env1 headers1 label) db = (Ok e, db1) ->
  t_mfa_credentials db2 !! enrollment_credential_id e = t_mfa_credentials db1 !! enrollment_credential_id e ->
  run (confirm_totp_mfa state env2 headers2 (enrollment_credential_id e) code) db2 = (Ok codes, db3) ->
  exists session c,
    carries_session db state (enroll_session_now env1) headers1 session
    /\ (let o := session_organization_id session in
        let u := session_user_id session in
        let profile := mk_TotpProfile "Cairn Identity" (uuid_to_string u) (enroll_secret env1) in
        active_factor db3 o u MfaKind_Totp c /\ mfa_id c = enroll_id env1
        /\ verify_current profile (enroll_check_now env2) code = Some true
        /\ (forall now any, verify_totp_code state c now any
              = ok_or (verify_current profile now any) api_authn_error)
        /\ (enroll_now env2 <= enroll_now env1 + duration_minutes 10)%Z
        /\ codes = snd <$> take RECOVERY_CODE_COUNT (enroll_recovery_codes env2)
        /\ (forall r, active_factor db3 o u MfaKind_RecoveryCode r ->
             exists p, p ∈ take RECOVERY_CODE_COUNT (enroll_recovery_codes env2)
               /\ json_text (mfa_secret_metadata r) "code_hash" = Some (hash_token p.2)))
    /\ forall p, p ∈ take RECOVERY_CODE_COUNT (enroll_recovery_codes env2) ->
         exists r, active_factor db3 (session_organization_id session) (session_user_id session)
                     MfaKind_RecoveryCode r
           /\ json_text (mfa_secret_metadata r) "code_hash" = Some (hash_token p.2).
Proof.
  intros Haes Hb64 Hn Hutf Hkeyed Hstart Hkept Hconfirm.
  apply start_totp_Ok in Hstart as (session & key & encrypted & l & Hs & Hkey & Henc & Hid & Hdb1).
  rewrite Hid in *. rewrite Hdb1, lookup_insert_eq in Hkept.
  apply confirm_totp_Ok in Hconfirm
    as (session2 & c & secret & db4 & _ & Hc & Hkind & Ho & Hu & Hage & Hv & Hsec & (n & Hrep) & Hdb3); [|done].
  rewrite Hkept in Hc. injection Hc as <-. cbn in Ho, Hu, Hage.
  set (pending := pending_totp env1 session l encrypted) in *.
  assert (Hpending : encrypted_secret_from_totp_metadata pending = Ok encrypted)
    by exact (stored_secret_read pending "pending" encrypted None Hb64).
  rewrite Hpending in Hsec. injection Hsec as <-.
  set (active := mfa_set_metadata (totp_metadata_json "active" encrypted) (Some (enroll_now env2)) pending).
  apply replace_codes_Ok in Hrep as (Hcodes & _ & Hrc & Hother).
  rewrite <- Ho, <- Hu in Hrc, Hother.
  assert (Hsame : forall o u kind x, active_factor db3 o u kind x <-> active_factor db4 o u kind x).
  { intros o u kind x. unfold active_factor. by rewrite Hdb3. }
  exists session, active. split; [done|]. cbn zeta. setoid_rewrite Hsame. setoid_rewrite Hrc.
  split.
  - split_and!; try done.
    + rewrite Hother by done. split; [|done]. exists (enroll_id env1). cbn. by rewrite lookup_alter_eq, Hkept.
    + rewrite (verify_stored_secret _ key (enroll_nonce env1) (enroll_secret env1) encrypted) in Hv by done.
      by apply ok_or_Ok in Hv.
    + intros now any. by apply (verify_stored_secret _ key (enroll_nonce env1) _ encrypted);
        try done; apply stored_secret_read.
    + intros r (p & Hp & ->). by exists p.
  - intros p Hp. eexists. split; [by exists p|done].
Qed.

(** The row that was closed. *)
Lemma closed_row_Ok o u id at_ db closed db1 :
  mfa_keyed db -> revoke_mfa_credential o u id at_ db = (Ok (Some closed), db1) ->
  exists c, t_mfa_credentials db !! id = Some c /\ mfa_id c = id /\ closed = mfa_close "revoked" at_ c
    /\ (mfa_kind c = MfaKind_Totp \/ mfa_kind c = MfaKind_WebAuthn)
    /\ db1 = with_mfa id (fun _ => closed) db.
Proof.
  intros Hkeyed. unfold revoke_mfa_credential, transaction, db_bind, db_gets.
  destruct (t_mfa_credentials db !! id) as [c|] eqn:Hc; [|done].
  destruct (revocable o u c) eqn:Hr; [|done]. pose proof (Hkeyed _ _ Hc) as Hid. cbv zeta.
  destruct (update_mfa_key_run (mfa_id (mfa_close "revoked" at_ c))
    (mfa_set_metadata (mfa_secret_metadata (mfa_close "revoked" at_ c))
       (mfa_last_used_at (mfa_close "revoked" at_ c))) db) as [b ->].
  cbn. intros [= <- <-]. apply andb_true_iff in Hr as [_ Hk].
  rewrite orb_true_iff, !bool_decide_eq_true in Hk. exists c. split_and!; try done.
  rewrite Hid. unfold with_mfa, on_mfa_credentials. f_equal. apply map_eq. intros k.
  destruct (decide (k = id)) as [->|Hne]; [by rewrite !lookup_alter_eq, Hc|by rewrite !lookup_alter_ne].
Qed.
Lemma closed_row_factors o u id closed db kind x :
  mfa_keyed db -> mfa_status_is "active" closed = false ->
  active_factor (with_mfa id (fun _ => closed) db) o u kind x
  <-> mfa_id x <> id /\ active_factor db o u kind x.
Proof.
  intros Hkeyed Hclosed. unfold active_factor. cbn. split.
  - intros ((k & Hk) & Ho & Hu & Hkind & Hs).
    rewrite lookup_alter in Hk. case_decide as Hd.
    + subst k. destruct (_ !! id); [|done]. injection Hk as <-.
      unfold mfa_status_is in Hclosed. by rewrite bool_decide_eq_false in Hclosed.
    + pose proof (Hkeyed _ _ Hk). split; [congruence|split_and!; eauto].
  - intros (Hne & (k & Hk) & Hx). split; [|done]. exists k.
    rewrite lookup_alter_ne; [done|]. apply Hkeyed in Hk. congruence.
Qed.
(** Revoking the active factors of one kind keeps those of the others. *)
Lemma revoke_kind_factor o u kind at_ db :
  let db' := on_mfa_credentials (update_where (fun c => mfa_of_user o u c
    && bool_decide (mfa_kind c = kind) && mfa_status_is "active" c) (mfa_close "revoked" at_)) db in
  (forall c, ~ active_factor db' o u kind c)
  /\ (forall kind' c, kind' <> kind -> active_factor db' o u kind' c <-> active_factor db o u kind' c).
Proof.
  split.
  - intros c ((k & Hk) & Hact). by apply revoked_rows in Hk.
  - intros kind' c Hne. unfold active_factor. cbn. setoid_rewrite lookup_update_where_Some. split.
    + intros ((k & c0 & Hk & ->) & Ho & Hu & Hki & Hs).
      destruct (mfa_of_user o u c0 && bool_decide (mfa_kind c0 = kind) && _) eqn:E; [|eauto 10].
      rewrite !andb_true_iff, bool_decide_eq_true in E. cbn in Hki. destruct E as [[_ ?] _]. congruence.
    + intros ((k & Hk) & Ho & Hu & Hki & Hs). split; [|done]. exists k, c. split; [done|].
      by rewrite (bool_decide_false (mfa_kind c = kind)), andb_false_r by congruence.
Qed.
Lemma closed_metadata_status at_ c : mfa_metadata_status (mfa_close "revoked" at_ c) = "revoked".
Proof.
  unfold mfa_metadata_status, mfa_close. cbn [mfa_set_metadata mfa_secret_metadata].
  unfold metadata_with_status. destruct (mfa_secret_metadata c); by rewrite ?value_get_insert.
Qed.

(** Revoking a factor.  The page revokes the named authenticator or passkey
    of the user, whose status is then revoked; and when that was the last
    active one, no active recovery code is left either, so the user is back
    to the password alone and no code that was written down still works. *)
Theorem revoke_factor_spec state env headers id db summary db' :
  mfa_keyed db ->
  run (revoke_session_mfa_credential state env headers id) db = (Ok summary, db') ->
  exists session, carries_session db state (enroll_session_now env) headers session
    /\ (let o := session_organization_id session in
        let u := session_user_id session in
        summary_id summary = id /\ summary_status summary = "revoked"
        /\ (forall kind c, active_factor db' o u kind c -> mfa_id c <> id /\ active_factor db o u kind c)
        /\ (~ second_factor db' o u -> forall c, ~ active_factor db' o u MfaKind_RecoveryCode c)
        /\ (forall kind c, kind <> MfaKind_RecoveryCode -> mfa_id c <> id ->
             active_factor db o u kind c -> active_factor db' o u kind c)).
Proof.
  intros Hkeyed. unfold revoke_session_mfa_credential, enroll_audit. intros H.
  apply run_handler_Ok in H as (session & d & [-> Hs]%require_session_Ok & H).
  apply lift_then_Ok in H as (u0 & _ & H). apply lift_then_Ok in H as (u1 & _ & H). cbv zeta in H.
  apply query_then_Ok in H as (revoked & db1 & Hrev & H).
  apply run_handler_Ok in H as (closed & d & [-> ->]%run_some_or_Ok & H).
  apply closed_row_Ok in Hrev as (c & Hc & Hid & -> & Hkind & Hdb1); [|done].
  destruct (second_factor_count_run (session_organization_id session) (session_user_id session) db1)
    as (n & Hn & Hsf). apply run_handler_Ok in H as (n' & d & Hn' & H).
  rewrite Hn in Hn'. injection Hn' as <- <-. exists session. split; [done|]. cbv zeta.
  assert (Hdead : mfa_status_is "active" (mfa_close "revoked" (enroll_now env) c) = false)
    by by apply closed_not_active.
  assert (Hrest := fun kind x => closed_row_factors (session_organization_id session)
    (session_user_id session) id _ db kind x Hkeyed Hdead). rewrite <- Hdb1 in Hrest.
  assert (Hend : exists n0 db2, run (if (n =? 0)%nat then query (revoke_active_mfa_credentials_by_kind
      (session_organization_id session) (session_user_id session) MfaKind_RecoveryCode (enroll_now env))
      else succeed 0) db1 = (Ok n0, db2)
    /\ t_mfa_credentials db' = t_mfa_credentials db2
    /\ summary = mfa_credential_summary (mfa_close "revoked" (enroll_now env) c)).
  { apply run_handler_Ok in H as (n0 & db2 & Hif & H). exists n0, db2. split; [done|].
    apply query_then_Ok in H as (u2 & d & Ha & H). unfold insert_audit_event in Ha. db_steps.
    simpl in H. by injection H as <- <-. }
  destruct Hend as (n0 & db2 & Hif & Hrows & ->).
  assert (Hsame : forall o u kind x, active_factor db' o u kind x <-> active_factor db2 o u kind x).
  { intros o u kind x. unfold active_factor. by rewrite Hrows. }
  unfold second_factor in *. setoid_rewrite Hsame. split; [done|]. split; [apply closed_metadata_status|].
  destruct n as [|n]; simpl in Hif.
  - destruct (revoke_kind_factor (session_organization_id session) (session_user_id session)
      MfaKind_RecoveryCode (enroll_now env) db1) as [Hnone Hothers].
    injection Hif as <- <-. split_and!.
    + intros kind x Hx. destruct (decide (kind = MfaKind_RecoveryCode)) as [->|Hk]; [by apply Hnone in Hx|].
      by apply Hrest, Hothers.
    + intros _. apply Hnone.
    + intros kind x Hk Hne Hx. apply Hothers, Hrest; auto.
  - injection Hif as <- <-. setoid_rewrite Hrest. split_and!; auto.
    intros Hno. exfalso. apply Hno. destruct (proj1 Hsf eq_refl) as [x Hx]. exists x. by rewrite !Hrest in Hx.
Qed.
End route_properties.
