(* ===== verification/TokenEndpoint.v ===== *)
(** * The token endpoint

    [apps/api/src/http/oauth_routes/token_exchange]: the authorization code,
    client credentials and refresh token grants and the endpoint that
    dispatches to them, as programs over the store.  What a call reads from
    outside the database — the clock, the random identifiers and secrets — is
    its [CallEnv]. *)

From S2P Require Import Prelude RustStr Domain Authn Oidc Http Codec Store.
From S2P Require Import OAuthStore.
From S2P Require Import SessionStore Directory ClientStore Handler KeyStore OAuthPolicy.

(** [env_now] is the handler's [OffsetDateTime::now_utc()], [env_signing_now]
    the one of [issue_id_token]; the others are the values
    [generate_hashed_secret] and [Uuid::new_v4] return. *)
Record CallEnv := mk_CallEnv {
  env_now : OffsetDateTime;
  env_signing_now : OffsetDateTime;
  env_access_id : Uuid;
  env_access_value : string;
  env_refresh_id : Uuid;
  env_refresh_value : string;
  env_family_id : Uuid;
}.

Definition invalid_grant_error (description : string) : ApiError :=
  api_oauth 400 (invalid_grant description).

(** The token response all three grants send. *)
Definition token_reply (access : GeneratedSecret) (refresh : option GeneratedSecret)
    (id_token : option string) (scopes : list string) : Reply :=
  oauth_json_response 200 (Body_Token
    (mk_TokenResponse (generated_value access) "Bearer" 900
       (generated_value <$> refresh) id_token (token_response_scope scopes))).

Section token_endpoint.
Context {CC : CryptoCrates} {TC : TokenCrates} {AG : AesGcm}.

Definition env_access (env : CallEnv) : GeneratedSecret :=
  generate_hashed_secret (env_access_id env) (env_access_value env).
Definition env_refresh (env : CallEnv) : GeneratedSecret :=
  generate_hashed_secret (env_refresh_id env) (env_refresh_value env).

(** ** Authorization codes *)

(* apps/api/src/http/oauth_routes/token_exchange/authorization_code.rs:139-155 authorization_code_token *)
Definition code_refresh_record (env : CallEnv) (stored : AuthorizationCode) (client : OidcClient)
    : option RefreshToken :=
  if should_issue_refresh_token (code_scopes stored) client then
    Some (mk_RefreshToken (generated_id (env_refresh env)) (generated_hash (env_refresh env))
            (env_family_id env) (code_organization_id stored) (Some (code_user_id stored))
            (code_client_id stored) (code_scopes stored) (env_now env)
            (env_now env + duration_days 30) None None)
  else None.
(* apps/api/src/http/oauth_routes/token_exchange/authorization_code.rs:156-168 authorization_code_token *)
Definition code_access_record (env : CallEnv) (stored : AuthorizationCode)
    (refresh : option RefreshToken) : AccessTokenRecord :=
  mk_AccessTokenRecord (generated_hash (env_access env)) (code_organization_id stored)
    (Some (code_user_id stored)) (code_client_id stored) (code_scopes stored)
    (refresh_family_id <$> refresh) (env_now env) (env_now env + duration_minutes 15) None.

(* apps/api/src/http/oauth_routes/token_exchange/authorization_code.rs:120-131 authorization_code_token *)
Definition code_id_token_request (state : AppState) (stored : AuthorizationCode)
    (client : OidcClient) (user : User) (session : AuthSession) (groups : option (list string))
    (signing : SigningMaterial) : IdTokenIssueRequest :=
  {| issue_issuer := config_issuer state; issue_client := client; issue_user := user;
     issue_scopes := code_scopes stored; issue_nonce := code_nonce stored;
     issue_auth_time := Some (session_created_at session); issue_amr := session_amr session;
     issue_acr := session_acr session; issue_groups := groups; issue_signing := signing |}.

(* apps/api/src/http/oauth_routes/token_exchange/authorization_code.rs:29-199 authorization_code_token *)
Definition authorization_code_token (state : AppState) (env : CallEnv) (request : TokenRequest)
    (client_auth : OAuthClientAuth) : Handler Reply :=
  do! code := lift (required_oauth_form_parameter (token_code request) "code") in
  let code_hash := hash_token code in
  do! stored := query (get_authorization_code code_hash) in
  do! stored := some_or stored (invalid_grant_error "unknown code") in
  let now := env_now env in
  do! _ := reject_if (is_some (code_used_at stored) || (code_expires_at stored <=? now)%Z)
             (invalid_grant_error "code expired or already used") in
  do! _ := lift (validate_authorization_code_redirect_uri (token_redirect_uri request)
             (code_redirect_uri stored)) in
  do! client := authenticated_client_from_request state client_auth in
  do! _ := lift (require_client_bound_to_stored_grant client (code_organization_id stored)
             (code_client_id stored)) in
  do! _ := lift (require_token_endpoint_grant client AuthorizationCodeGrant) in
  do! verifier := lift (required_authorization_code_verifier (token_code_verifier request)) in
  do! _ := lift (map_err (fun err => invalid_grant_error (oidc_error_text err))
             (verify_authorization_code_pkce verifier (code_code_challenge stored)
                (code_code_challenge_method stored))) in
  do! user := query (get_user (code_user_id stored)) in
  do! user := some_or user (invalid_grant_error "user missing") in
  do! _ := reject_if (negb (user_allows_runtime_access user (code_organization_id stored)))
             (invalid_grant_error "session expired or revoked") in
  do! auth_session := query (get_auth_session (code_session_id stored)) in
  do! auth_session := some_or auth_session (invalid_grant_error "session missing") in
  do! _ := reject_if (negb (N.eqb (session_organization_id auth_session) (code_organization_id stored))
                      || negb (N.eqb (session_user_id auth_session) (code_user_id stored))
                      || is_some (session_revoked_at auth_session)
                      || (session_expires_at auth_session <=? now)%Z)
             (invalid_grant_error "session expired or revoked") in
  do! groups := groups_claim_for_user (code_organization_id stored) (code_user_id stored)
                  (code_scopes stored) in
  do! signing := resolve_signing_material state in
  do! id_token := lift (map_err (fun err => api_oauth 500 (invalid_request (oidc_error_text err)))
                    (issue_id_token (env_signing_now env)
                       (code_id_token_request state stored client user auth_session groups signing))) in
  let refresh_record := code_refresh_record env stored client in
  let access_record := code_access_record env stored refresh_record in
  do! consumed := query (consume_authorization_code_and_insert_tokens code_hash access_record
                           refresh_record now) in
  do! _ := reject_if (negb consumed) (invalid_grant_error "code expired or already used") in
  succeed (token_reply (env_access env) ((fun _ => env_refresh env) <$> refresh_record)
             (Some id_token) (code_scopes stored)).

(** ** Client credentials *)

Definition credentials_access_record (env : CallEnv) (client : OidcClient) (scopes : list string)
    : AccessTokenRecord :=
  mk_AccessTokenRecord (generated_hash (env_access env)) (client_organization_id client) None
    (client_uuid client) scopes None (env_now env) (env_now env + duration_minutes 15) None.

(* apps/api/src/http/oauth_routes/token_exchange/client_credentials.rs:20-68 client_credentials_token *)
Definition client_credentials_token (state : AppState) (env : CallEnv) (request : TokenRequest)
    (client_auth : OAuthClientAuth) : Handler Reply :=
  do! client := authenticated_client_from_request state client_auth in
  do! _ := lift (require_confidential_client_credentials_client client) in
  do! _ := lift (require_token_endpoint_grant client ClientCredentialsGrant) in
  do! requested := lift (token_request_scopes (token_scope request)) in
  let requested_scopes := default [] requested in
  do! _ := reject_if
             (existsb (fun scope => negb (existsb (fun allowed => bool_decide (allowed = scope))
                                            (client_allowed_scopes client))) requested_scopes)
             (api_oauth 400 (invalid_scope "invalid scope")) in
  do! _ := query (insert_access_token (credentials_access_record env client requested_scopes)) in
  succeed (token_reply (env_access env) None None requested_scopes).

(** ** Refresh tokens *)

(* apps/api/src/http/oauth_routes/token_exchange/refresh.rs:83-99 refresh_token *)
Definition rotated_refresh_record (env : CallEnv) (stored : RefreshToken) (scopes : list string)
    (client : OidcClient) : option RefreshToken :=
  if should_issue_refresh_token scopes client then
    Some (mk_RefreshToken (generated_id (env_refresh env)) (generated_hash (env_refresh env))
            (refresh_family_id stored) (refresh_organization_id stored) (refresh_user_id stored)
            (refresh_client_id stored) scopes (env_now env) (env_now env + duration_days 30)
            None None)
  else None.
(* apps/api/src/http/oauth_routes/token_exchange/refresh.rs:100-111 refresh_token *)
Definition rotated_access_record (env : CallEnv) (stored : RefreshToken) (scopes : list string)
    : AccessTokenRecord :=
  mk_AccessTokenRecord (generated_hash (env_access env)) (refresh_organization_id stored)
    (refresh_user_id stored) (refresh_client_id stored) scopes (Some (refresh_family_id stored))
    (env_now env) (env_now env + duration_minutes 15) None.

(** The answer to a reused token, after its family is revoked. *)
Definition reuse_detected {A} (stored : RefreshToken) (now : OffsetDateTime) : Handler A :=
  do! _ := query (revoke_refresh_token_family_and_access_tokens (refresh_family_id stored) now) in
  fail (invalid_grant_error "refresh token reuse detected").

(* apps/api/src/http/oauth_routes/token_exchange/refresh.rs:24-140 refresh_token *)
Definition refresh_token (state : AppState) (env : CallEnv) (request : TokenRequest)
    (client_auth : OAuthClientAuth) : Handler Reply :=
  do! raw_refresh := lift (required_refresh_token (token_refresh_token request)) in
  let refresh_hash := hash_token raw_refresh in
  do! stored := query (get_refresh_token refresh_hash) in
  do! stored := some_or stored (invalid_grant_error "unknown refresh token") in
  let now := env_now env in
  do! _ := lift (require_stored_token_organization (refresh_organization_id stored)
                   (state_organization_id state)) in
  if is_some (refresh_rotated_at stored) then reuse_detected stored now
  else
    do! _ := reject_if (is_some (refresh_revoked_at stored) || (refresh_expires_at stored <=? now)%Z)
               (invalid_grant_error "refresh token expired or revoked") in
    do! active := token_subject_is_active (refresh_organization_id stored)
                    (refresh_user_id stored) in
    do! _ := reject_if (negb active) (invalid_grant_error "refresh token expired or revoked") in
    do! client := query (get_oidc_client (refresh_client_id stored)) in
    do! client := some_or client (invalid_grant_error "client missing") in
    do! _ := lift (require_oauth_client_active client) in
    do! _ := lift (authenticate_oauth_client client client_auth) in
    do! _ := lift (require_token_endpoint_grant client RefreshTokenGrant) in
    do! granted_scopes := lift (refresh_token_granted_scopes (token_scope request)
                                  (refresh_scopes stored)) in
    let refresh_record := rotated_refresh_record env stored granted_scopes client in
    let access_record := rotated_access_record env stored granted_scopes in
    do! rotated := query (rotate_refresh_token_and_insert_tokens refresh_hash access_record
                            refresh_record now) in
    if negb rotated then reuse_detected stored now
    else succeed (token_reply (env_access env) ((fun _ => env_refresh env) <$> refresh_record)
                    None granted_scopes).

(** ** The endpoint *)

Context {HC : HttpCrates} {UC : UrlCrate}.

(* apps/api/src/http/oauth_routes/token_exchange.rs:26-60 token *)
Definition token (state : AppState) (env : CallEnv) (headers : HeaderMap)
    (request : option string) : Handler Reply :=
  do! body := lift (oauth_form_body_from_request headers request) in
  do! request := lift (token_request_from_oauth_form headers body) in
  do! client_auth := lift (oauth_client_auth_from_request headers (token_client_id request)
                             (token_client_secret request)) in
  let grant_type := token_grant_type request in
  if is_empty (trim grant_type) then
    succeed (oauth_json_response 400 (Body_Error (invalid_request "missing grant_type")))
  else if negb (grant_type_is_valid grant_type) then
    succeed (oauth_json_response 400 (Body_Error (invalid_request "invalid grant_type")))
  else if bool_decide (grant_type = "authorization_code") then
    authorization_code_token state env request client_auth
  else if bool_decide (grant_type = "client_credentials") then
    client_credentials_token state env request client_auth
  else if bool_decide (grant_type = "refresh_token") then
    refresh_token state env request client_auth
  else succeed (oauth_json_response 400 (Body_Error unsupported_grant_type)).
End token_endpoint.

(** ** Properties *)

Section token_properties.
Context {CC : CryptoCrates} {TC : TokenCrates} {AG : AesGcm}.
Implicit Types (state : AppState) (env : CallEnv) (auth : OAuthClientAuth) (db : Database).

(** The guards of the handlers, as propositions. *)
Lemma stale_false {A} (o : option A) (expires now : Z) :
  is_some o || (expires <=? now)%Z = false <-> o = None /\ (now < expires)%Z.
Proof. rewrite orb_false_iff, Z.leb_gt. destruct o; simpl; naive_solver. Qed.
Lemma inactive_user_false u o :
  negb (user_allows_runtime_access u o) = false <->
  user_organization_id u = o /\ user_status u = UserStatus_Active.
Proof. by rewrite negb_false_iff, runtime_access_true. Qed.
Lemma dead_session_false s o u now :
  negb (N.eqb (session_organization_id s) o) || negb (N.eqb (session_user_id s) u)
  || is_some (session_revoked_at s) || (session_expires_at s <=? now)%Z = false <->
  session_organization_id s = o /\ session_user_id s = u /\ session_revoked_at s = None
  /\ (now < session_expires_at s)%Z.
Proof.
  rewrite !orb_false_iff, !negb_false_iff, !N.eqb_eq, Z.leb_gt.
  destruct (session_revoked_at s); simpl; naive_solver.
Qed.
Lemma code_pkce_Ok {E} (f : OidcError -> E) verifier challenge m :
  map_err f (verify_authorization_code_pkce verifier challenge m) = Ok tt <->
  pkce_value verifier /\ pkce_value challenge
  /\ challenge = base64url_encode (sha256_digest verifier).
Proof. unfold verify_authorization_code_pkce. by rewrite !map_err_Ok, verify_pkce_Ok. Qed.
Lemma fetch_row {V W} (f : V -> W) (o : option V) w : f <$> o = Some w <-> exists v, o = Some v /\ w = f v.
Proof. apply fmap_Some. Qed.

(** The client that [auth] authenticates. *)
Definition authenticated (state : AppState) (auth : OAuthClientAuth) (db : Database)
    (client : OidcClient) : Prop :=
  find_row (fun c => bool_decide (client_client_id c = client_client_id client)) (t_oidc_clients db)
  = Some client
  /\ client_organization_id client = state_organization_id state
  /\ client_status client = ClientStatus_Active /\ client_proven client auth.

(** Everything an authorization code exchange requires. *)
Record code_exchange (state : AppState) (env : CallEnv) (request : TokenRequest)
    (auth : OAuthClientAuth) (db : Database) (code verifier : string)
    (stored : AuthorizationCode) (client : OidcClient) (user : UserWithPassword)
    (session : SessionRow) : Prop := {
  ce_code : token_code request = Some code /\ is_empty (trim code) = false;
  ce_stored : t_authorization_codes db !! hash_token code = Some stored;
  ce_fresh : code_used_at stored = None /\ (env_now env < code_expires_at stored)%Z;
  ce_redirect : token_redirect_uri request = Some (code_redirect_uri stored)
                /\ is_empty (trim (code_redirect_uri stored)) = false;
  ce_client : authenticated state auth db client;
  ce_bound : client_organization_id client = code_organization_id stored
             /\ client_uuid client = code_client_id stored;
  ce_grant : AuthorizationCodeGrant ∈ client_grant_types client;
  ce_verifier : token_code_verifier request = Some verifier /\ is_empty (trim verifier) = false;
  ce_pkce : pkce_value verifier /\ pkce_value (code_code_challenge stored)
            /\ code_code_challenge stored = base64url_encode (sha256_digest verifier);
  ce_user : t_users db !! code_user_id stored = Some user
            /\ user_organization_id (uwp_user user) = code_organization_id stored
            /\ user_status (uwp_user user) = UserStatus_Active;
  ce_session : t_auth_sessions db !! code_session_id stored = Some session
            /\ session_organization_id (row_session session) = code_organization_id stored
            /\ session_user_id (row_session session) = code_user_id stored
            /\ session_revoked_at (row_session session) = None
            /\ (env_now env < session_expires_at (row_session session))%Z;
}.

Lemma authorization_code_token_keeps state env request auth :
  keeps_on_error (authorization_code_token state env request auth).
Proof.
  unfold authorization_code_token. repeat keeps_step.
  apply keeps_on_error_last; [intros db e db'; apply consume_Err|].
  intros db x db' Hc Hx. destruct x; [done|]. by apply consume_Ok in Hc as [(_ & -> & _)|([=] & _)].
Qed.

Lemma authorization_code_token_Ok state env request auth db reply db' :
  run (authorization_code_token state env request auth) db = (Ok reply, db') <->
     exists code verifier stored client user session signing id_token,
       code_exchange state env request auth db code verifier stored client user session
       /\ run (resolve_signing_material state) db = (Ok signing, db)
       /\ issue_id_token (env_signing_now env)
            (code_id_token_request state stored client (uwp_user user) (row_session session)
               (groups_claim db (code_organization_id stored) (code_user_id stored)
                  (code_scopes stored)) signing) = Ok id_token
       /\ let refresh := code_refresh_record env stored client in
          let access := code_access_record env stored refresh in
          let used := on_authorization_codes
                        (<[hash_token code := code_set_used_at (Some (env_now env)) stored]>) db in
          insertable used access refresh
          /\ db' = add_optional_refresh refresh (add_access access used)
          /\ reply = token_reply (env_access env) ((fun _ => env_refresh env) <$> refresh)
                       (Some id_token) (code_scopes stored).
Proof.
  unfold authorization_code_token. rewrite lift_then_Ok. split.
  - intros (code & Hcode & H). apply required_parameter_Ok in Hcode.
    apply fetch_then_Ok in H as (stored & Hstored & H).
    apply reject_then_Ok in H as [Hfresh H]. apply lift_then_Ok in H as ([] & Hredirect & H).
    apply run_handler_Ok in H as (client & db1 & Hclient & H).
    apply authenticated_client_Ok in Hclient as [-> Hclient].
    apply lift_then_Ok in H as ([] & Hbound & H). apply lift_then_Ok in H as ([] & Hgrant & H).
    apply lift_then_Ok in H as (verifier & Hverifier & H).
    apply lift_then_Ok in H as ([] & Hpkce & H).
    apply fetch_then_Ok in H as (user & Huser & H). apply reject_then_Ok in H as [Hactive H].
    apply fetch_then_Ok in H as (session & Hsession & H). apply reject_then_Ok in H as [Hlive H].
    rewrite (run_known _ _ _ _ (groups_claim_run _ _ _ _)) in H.
    apply reads_then_Ok in H as (signing & Hsigning & H); [|apply resolve_signing_run].
    apply lift_then_Ok in H as (id_token & Hid & H). apply map_err_Ok in Hid.
    apply query_then_Ok in H as (consumed & db2 & Hconsume & H). apply reject_then_Ok in H as [Hok H].
    apply consume_Ok in Hconsume as [(-> & _)|(_ & c & Hc & _ & Hins & ->)]; [done|].
    assert (c = stored) as -> by congruence. injection H as <- <-.
    apply fetch_row in Huser as (urow & Hurow & ->). apply fetch_row in Hsession as (srow & Hsrow & ->).
    exists code, verifier, stored, client, urow, srow, signing, id_token. split; [|by split_and!].
    split; [done|done|by apply stale_false|by apply validate_redirect_Ok in Hredirect|done|by apply require_bound_Ok in Hbound
      |by apply require_grant_Ok in Hgrant|by apply required_parameter_Ok in Hverifier|by apply code_pkce_Ok in Hpkce
      |by apply inactive_user_false in Hactive|by apply dead_session_false in Hlive].
  - intros (code & verifier & stored & client & user & session & signing & id_token & He & Hsign & Hid
      & Hins & -> & ->). destruct He.
    exists code. split; [by apply required_parameter_Ok|].
    apply fetch_then_Ok. exists stored. split; [done|].
    apply reject_then_Ok. split; [by apply stale_false|].
    apply lift_then_Ok. exists tt. split; [by apply validate_redirect_Ok|].
    rewrite (run_known _ _ _ client) by by apply authenticated_client_Ok.
    apply lift_then_Ok. exists tt. split; [by apply require_bound_Ok|].
    apply lift_then_Ok. exists tt. split; [by apply require_grant_Ok|].
    apply lift_then_Ok. exists verifier. split; [by apply required_parameter_Ok|].
    apply lift_then_Ok. exists tt. split; [by apply code_pkce_Ok|].
    apply fetch_then_Ok. exists (uwp_user user). destruct ce_user0 as [Hu Ha]. split; [by rewrite Hu|].
    apply reject_then_Ok. split; [by apply inactive_user_false|].
    apply fetch_then_Ok. exists (row_session session). destruct ce_session0 as [Hs Hl]. split; [by rewrite Hs|].
    apply reject_then_Ok. split; [by apply dead_session_false|].
    rewrite (run_known _ _ _ _ (groups_claim_run _ _ _ _)), (run_known _ _ _ _ Hsign).
    apply lift_then_Ok. exists id_token. split; [by apply map_err_Ok|].
    apply query_then_Ok. eexists true, _. split; [|by apply reject_then_Ok].
    apply consume_Ok. right. split; [done|]. exists stored. split_and!; [done| |done].
    by apply code_redeemable_true.
Qed.

(** C26. The authorization code grant, exactly.  A call succeeds if and only if
    the code is known, unused and unexpired; the redirect URI is the one of
    the authorization request; the client is active, of this organization,
    authenticated, the one the code was issued to and allowed the grant; the
    PKCE verifier answers the stored challenge; the user is active and the
    session it authenticated in is neither revoked nor expired; an ID token
    could be signed and the new rows are acceptable.  It then marks the code
    used, stores the hashes of the new tokens with the code's scopes, and
    answers with the tokens.  A refused or failed call changes nothing. *)
Theorem authorization_code_token_spec state env request auth db :
  (forall reply db', run (authorization_code_token state env request auth) db = (Ok reply, db') <->
     exists code verifier stored client user session signing id_token,
       code_exchange state env request auth db code verifier stored client user session
       /\ run (resolve_signing_material state) db = (Ok signing, db)
       /\ issue_id_token (env_signing_now env)
            (code_id_token_request state stored client (uwp_user user) (row_session session)
               (groups_claim db (code_organization_id stored) (code_user_id stored)
                  (code_scopes stored)) signing) = Ok id_token
       /\ let refresh := code_refresh_record env stored client in
          let access := code_access_record env stored refresh in
          let used := on_authorization_codes
                        (<[hash_token code := code_set_used_at (Some (env_now env)) stored]>) db in
          insertable used access refresh
          /\ db' = add_optional_refresh refresh (add_access access used)
          /\ reply = token_reply (env_access env) ((fun _ => env_refresh env) <$> refresh)
                       (Some id_token) (code_scopes stored))
  /\ (forall e db', run (authorization_code_token state env request auth) db = (Err e, db') ->
     db' = db).
Proof.
  split; [apply authorization_code_token_Ok|apply authorization_code_token_keeps].
Qed.

(** *** Client credentials *)

Lemma client_credentials_token_keeps state env request auth :
  keeps_on_error (client_credentials_token state env request auth).
Proof.
  unfold client_credentials_token. repeat keeps_step.
  intros db e db'. unfold insert_access_token. intros H.
  apply (keeps_on_error_last _ (fun _ => false) (api_status 500 "")
    (fun _ => token_reply (env_access env) None None (default [] a2))) in H; [done| |done].
  clear. intros db e db' H. unfold insert_access_token_record, db_bind, db_check in H.
  destruct (absent _ _) in H; [|by injection H]. by destruct (access_fk _ _) in H; injection H.
Qed.

Lemma client_credentials_token_Ok state env request auth db reply db' :
  run (client_credentials_token state env request auth) db = (Ok reply, db') <->
     exists client scopes,
       authenticated state auth db client
       /\ client_public_client client = false
       /\ ClientCredentialsGrant ∈ client_grant_types client
       /\ ((token_scope request = None /\ scopes = [])
           \/ exists s, token_scope request = Some s /\ parse_scopes s = Ok scopes)
       /\ scopes ⊆ client_allowed_scopes client
       /\ let access := credentials_access_record env client scopes in
          insertable db access None
          /\ db' = add_access access db
          /\ reply = token_reply (env_access env) None None scopes.
Proof.
  unfold client_credentials_token. split.
  - intros H. apply run_handler_Ok in H as (client & db1 & Hclient & H).
    apply authenticated_client_Ok in Hclient as [-> Hclient].
    apply lift_then_Ok in H as ([] & Hconf & H). apply require_confidential_Ok in Hconf as [Hpub _].
    apply lift_then_Ok in H as ([] & Hgrant & H). apply require_grant_Ok in Hgrant.
    apply lift_then_Ok in H as (o & Hscopes & H). apply token_request_scopes_Ok in Hscopes.
    apply reject_then_Ok in H as [Hsub H]. apply exceeds_false in Hsub.
    apply query_then_Ok in H as ([] & db2 & Hins & H). apply insert_access_Ok in Hins as (Ha & Hf & ->).
    injection H as <- <-. exists client, (default [] o). split_and!; try done.
    destruct Hscopes as [[? ->]|(s & l & ? & ? & ->)]; simpl; eauto.
  - intros (client & scopes & Hclient & Hpub & Hgrant & Hscopes & Hsub & (Ha & Hf & _) & -> & ->).
    rewrite (run_known _ _ _ client) by by apply authenticated_client_Ok.
    apply lift_then_Ok. exists tt. split.
    { apply require_confidential_Ok. split; [done|]. destruct Hclient as (_ & _ & _ & _ & Hp).
      rewrite Hpub in Hp. destruct Hp as (? & _ & ->). eauto. }
    apply lift_then_Ok. exists tt. split; [by apply require_grant_Ok|].
    apply lift_then_Ok. exists (match token_scope request with None => None | Some _ => Some scopes end).
    assert (Hd : default [] (match token_scope request with None => None | Some _ => Some scopes end) = scopes).
    { destruct Hscopes as [[-> ->]|(s & -> & _)]; done. }
    split; [apply token_request_scopes_Ok; destruct Hscopes as [[-> ->]|(s & -> & Hs)]; eauto 6|].
    rewrite Hd. apply reject_then_Ok. split; [by apply exceeds_false|].
    apply query_then_Ok. eexists tt, _. split; [by apply insert_access_Ok|done].
Qed.

(** The client credentials grant, exactly.  A call succeeds if and only if
    the client is active, of this organization, confidential, authenticated
    by its secret and allowed the grant, and the scopes it asks for are
    well-formed and among its allowed scopes.  It then stores the hash of one
    access token that belongs to no user, for those scopes and 15 minutes,
    and answers with it, without refresh or ID token.  A refused or failed
    call changes nothing. *)
Theorem client_credentials_token_spec state env request auth db :
  (forall reply db', run (client_credentials_token state env request auth) db = (Ok reply, db') <->
     exists client scopes,
       authenticated state auth db client
       /\ client_public_client client = false
       /\ ClientCredentialsGrant ∈ client_grant_types client
       /\ ((token_scope request = None /\ scopes = [])
           \/ exists s, token_scope request = Some s /\ parse_scopes s = Ok scopes)
       /\ scopes ⊆ client_allowed_scopes client
       /\ let access := credentials_access_record env client scopes in
          insertable db access None
          /\ db' = add_access access db
          /\ reply = token_reply (env_access env) None None scopes)
  /\ (forall e db', run (client_credentials_token state env request auth) db = (Err e, db') ->
     db' = db).
Proof.
  split; [apply client_credentials_token_Ok|apply client_credentials_token_keeps].
Qed.

(** *** Refresh tokens *)

(** Everything a refresh requires. *)
Record refresh_exchange (state : AppState) (env : CallEnv) (request : TokenRequest)
    (auth : OAuthClientAuth) (db : Database) (raw : string) (stored : RefreshToken)
    (client : OidcClient) (granted : list string) : Prop := {
  re_raw : token_refresh_token request = Some raw /\ is_empty (trim raw) = false;
  re_stored : t_refresh_tokens db !! hash_token raw = Some stored;
  re_organization : refresh_organization_id stored = state_organization_id state;
  re_rotated : refresh_rotated_at stored = None;
  re_live : refresh_revoked_at stored = None /\ (env_now env < refresh_expires_at stored)%Z;
  re_subject : subject_active db (refresh_organization_id stored) (refresh_user_id stored) = true;
  re_client : t_oidc_clients db !! refresh_client_id stored = Some client;
  re_active : client_status client = ClientStatus_Active;
  re_proven : client_proven client auth;
  re_grant : RefreshTokenGrant ∈ client_grant_types client;
  re_scopes : refresh_token_granted_scopes (token_scope request) (refresh_scopes stored) = Ok granted;
}.

(** What reuse leaves behind. *)
Definition family_revoked (stored : RefreshToken) (now : OffsetDateTime) (db : Database) : Database :=
  on_access_tokens (update_where (access_in_family (refresh_family_id stored)) (access_revoke now))
    (on_refresh_tokens (update_where (in_family (refresh_family_id stored)) (refresh_revoke now)) db).
Definition reuse_error : ApiError := invalid_grant_error "refresh token reuse detected".
Lemma reuse_detected_run {A} stored now db :
  run (reuse_detected (A := A) stored now) db = (Err reuse_error, family_revoked stored now db).
Proof. done. Qed.

Lemma refresh_rotate_true h a r now db t b db' :
  t_refresh_tokens db !! h = Some t -> refresh_rotated_at t = None ->
  refresh_revoked_at t = None -> (now < refresh_expires_at t)%Z ->
  rotate_refresh_token_and_insert_tokens h a r now db = (Ok b, db') -> b = true.
Proof.
  intros Ht Hr Hv He [(-> & _ & Hn)|[-> _]]%rotate_Ok; [|done].
  specialize (Hn _ Ht). rewrite (proj2 (refresh_rotatable_true now t)) in Hn; done.
Qed.

(** The answer of [refresh_token] once its token is found and not rotated. *)
Lemma refresh_token_Ok state env request auth db reply db' :
  run (refresh_token state env request auth) db = (Ok reply, db') <->
  exists raw stored client granted,
    refresh_exchange state env request auth db raw stored client granted
    /\ let refresh := rotated_refresh_record env stored granted client in
       let access := rotated_access_record env stored granted in
       let rotated := on_refresh_tokens
                        (<[hash_token raw := refresh_set_rotated_at (Some (env_now env)) stored]>) db in
       insertable rotated access refresh
       /\ db' = add_optional_refresh refresh (add_access access rotated)
       /\ reply = token_reply (env_access env) ((fun _ => env_refresh env) <$> refresh) None granted.
Proof.
  unfold refresh_token. rewrite lift_then_Ok. split.
  - intros (raw & Hraw & H). apply required_parameter_Ok in Hraw.
    apply fetch_then_Ok in H as (stored & Hstored & H).
    apply lift_then_Ok in H as ([] & Horg & H). apply require_stored_organization_Ok in Horg.
    destruct (refresh_rotated_at stored) eqn:Hrot; [done|]. cbn [is_some is_none negb] in H.
    apply reject_then_Ok in H as [Hlive H]. apply stale_false in Hlive.
    rewrite (run_known _ _ _ _ (token_subject_run _ _ _)) in H.
    apply reject_then_Ok in H as [Hsub H]. apply negb_false_iff in Hsub.
    apply fetch_then_Ok in H as (client & Hclient & H).
    apply lift_then_Ok in H as ([] & Hactive & H). apply require_active_Ok in Hactive.
    apply lift_then_Ok in H as ([] & Hproven & H). apply authenticate_Ok in Hproven.
    apply lift_then_Ok in H as ([] & Hgrant & H). apply require_grant_Ok in Hgrant.
    apply lift_then_Ok in H as (granted & Hscopes & H).
    apply query_then_Ok in H as (b & db2 & Hb & H).
    assert (b = true) as -> by (destruct Hlive; eapply refresh_rotate_true; eauto).
    injection H as <- <-. apply rotate_Ok in Hb as [([=] & _)|(_ & t & Ht & _ & Hins & ->)].
    assert (t = stored) as -> by congruence.
    exists raw, stored, client, granted. split; [by split|by split_and!].
  - intros (raw & stored & client & granted & [] & Hins & -> & ->).
    exists raw. split; [by apply required_parameter_Ok|].
    apply fetch_then_Ok. exists stored. split; [done|].
    apply lift_then_Ok. exists tt. split; [by apply require_stored_organization_Ok|].
    rewrite re_rotated0. cbn [is_some is_none negb].
    apply reject_then_Ok. split; [by apply stale_false|].
    rewrite (run_known _ _ _ _ (token_subject_run _ _ _)).
    apply reject_then_Ok. split; [by apply negb_false_iff|].
    apply fetch_then_Ok. exists client. split; [done|].
    apply lift_then_Ok. exists tt. split; [by apply require_active_Ok|].
    apply lift_then_Ok. exists tt. split; [by apply authenticate_Ok|].
    apply lift_then_Ok. exists tt. split; [by apply require_grant_Ok|].
    apply lift_then_Ok. exists granted. split; [done|].
    apply query_then_Ok. eexists true, _. split; [|done].
    apply rotate_Ok. right. split; [done|]. exists stored. split_and!; [done| |done].
    by apply refresh_rotatable_true.
Qed.

Lemma refresh_token_reuse state env request auth db raw stored :
  token_refresh_token request = Some raw -> is_empty (trim raw) = false ->
  t_refresh_tokens db !! hash_token raw = Some stored ->
  refresh_organization_id stored = state_organization_id state ->
  is_Some (refresh_rotated_at stored) ->
  run (refresh_token state env request auth) db
  = (Err reuse_error, family_revoked stored (env_now env) db).
Proof.
  intros Hraw Hne Hst Ho [t Ht]. unfold refresh_token.
  rewrite (run_known _ _ _ raw) by (rewrite run_lift_Ok; split; [by apply required_parameter_Ok|done]).
  rewrite (run_known _ _ _ (Some stored)) by (by rewrite run_query_Ok; unfold get_refresh_token, db_gets; rewrite Hst).
  rewrite (run_known _ _ _ stored) by done.
  rewrite (run_known _ _ _ tt) by (rewrite run_lift_Ok; split; [by apply require_stored_organization_Ok|done]).
  rewrite Ht. cbn [is_some is_none negb]. apply reuse_detected_run.
Qed.

Lemma refresh_token_Err state env request auth db e db' :
  run (refresh_token state env request auth) db = (Err e, db') ->
  db' = db
  \/ exists raw stored, token_refresh_token request = Some raw
       /\ t_refresh_tokens db !! hash_token raw = Some stored
       /\ refresh_organization_id stored = state_organization_id state
       /\ is_Some (refresh_rotated_at stored)
       /\ e = reuse_error /\ db' = family_revoked stored (env_now env) db.
Proof.
  unfold refresh_token. intros H.
  apply reads_then_Err in H as [->|(raw & Hraw & H)]; [by left| |done].
  apply run_lift_Ok in Hraw as [Hraw _]. apply required_parameter_Ok in Hraw as [Hraw _].
  apply reads_then_Err in H as [->|(o & Ho & H)]; [by left| |done].
  apply run_query_Ok in Ho. injection Ho as Ho.
  apply reads_then_Err in H as [->|(stored & Hs & H)]; [by left| |done].
  apply run_some_or_Ok in Hs as [-> _].
  apply reads_then_Err in H as [->|([] & Horg & H)]; [by left| |done].
  apply run_lift_Ok in Horg as [Horg _]. apply require_stored_organization_Ok in Horg.
  destruct (refresh_rotated_at stored) as [t|] eqn:Hrot; cbn [is_some is_none negb] in H.
  - rewrite reuse_detected_run in H. injection H as <- <-. right. exists raw, stored. by rewrite Hrot.
  - left. apply reads_then_Err in H as [->|([] & Hlive & H)]; [done| |by each_op_steps].
    apply run_reject_Ok in Hlive as [Hlive _]. apply stale_false in Hlive as [Hv He].
    do 8 (apply reads_then_Err in H as [->|(? & _ & H)]; [done| |first [by each_op_steps|auto with reads]]).
    simpl in H. destruct (rotate_refresh_token_and_insert_tokens _ _ _ _ db) as [[b|e'] db1] eqn:E; simpl in H.
    + assert (b = true) as -> by (by eapply refresh_rotate_true). done.
    + injection H as _ <-. by apply rotate_Err in E.
Qed.

(** The refresh grant, exactly.  A call succeeds if and only if the token is
    known, of this organization, neither rotated nor revoked nor expired, its
    user (if any) is active, its client is active, authenticated and allowed
    the grant, and the requested scopes stay within the token's; it then
    marks the token rotated and stores successors in the same family for the
    same user and client.  A token that was already rotated revokes its whole
    family, whatever else the request holds; every other failure changes
    nothing. *)
Theorem refresh_token_spec state env request auth db :
  (forall reply db', run (refresh_token state env request auth) db = (Ok reply, db') <->
     exists raw stored client granted,
       refresh_exchange state env request auth db raw stored client granted
       /\ let refresh := rotated_refresh_record env stored granted client in
          let access := rotated_access_record env stored granted in
          let rotated := on_refresh_tokens
                (<[hash_token raw := refresh_set_rotated_at (Some (env_now env)) stored]>) db in
          insertable rotated access refresh
          /\ db' = add_optional_refresh refresh (add_access access rotated)
          /\ reply = token_reply (env_access env) ((fun _ => env_refresh env) <$> refresh)
                       None granted)
  /\ (forall raw stored, token_refresh_token request = Some raw -> is_empty (trim raw) = false ->
     t_refresh_tokens db !! hash_token raw = Some stored ->
     refresh_organization_id stored = state_organization_id state ->
     is_Some (refresh_rotated_at stored) ->
     run (refresh_token state env request auth) db
     = (Err reuse_error, family_revoked stored (env_now env) db))
  /\ (forall e db', run (refresh_token state env request auth) db = (Err e, db') ->
     db' = db
     \/ exists raw stored, token_refresh_token request = Some raw
          /\ t_refresh_tokens db !! hash_token raw = Some stored
          /\ refresh_organization_id stored = state_organization_id state
          /\ is_Some (refresh_rotated_at stored)
          /\ e = reuse_error /\ db' = family_revoked stored (env_now env) db).
Proof.
  split_and!; [apply refresh_token_Ok| |apply refresh_token_Err].
  intros raw stored. apply refresh_token_reuse.
Qed.

(** *** The endpoint *)

Lemma add_optional_refresh_access r db :
  t_access_tokens (add_optional_refresh r db) = t_access_tokens db.
Proof. by destruct r. Qed.
Lemma add_optional_refresh_lookup r t db :
  r = Some t -> t_refresh_tokens (add_optional_refresh r db) !! refresh_token_hash t = Some t.
Proof. intros ->. simpl. by rewrite lookup_insert_eq. Qed.

(** The primary key of [oidc_clients] is its [id] column. *)
Definition clients_keyed (db : Database) : Prop :=
  forall k c, t_oidc_clients db !! k = Some c -> client_uuid c = k.
Lemma authenticated_row state auth db client :
  clients_keyed db -> authenticated state auth db client ->
  t_oidc_clients db !! client_uuid client = Some client
  /\ client_status client = ClientStatus_Active /\ client_proven client auth.
Proof.
  intros Hk (Hf & _ & Ha & Hp). apply find_row_Some in Hf as (k & Hc & _).
  pose proof (Hk _ _ Hc) as <-. done.
Qed.

(** What backs a token response: the client it was issued to, the row of its
    access token and, if it carries a refresh token, the row of that. *)
Record token_backed (state : AppState) (env : CallEnv) (auth : OAuthClientAuth)
    (db db' : Database) (resp : TokenResponse) (client : OidcClient)
    (access : AccessTokenRecord) : Prop := {
  tb_client : t_oidc_clients db !! access_client_id access = Some client
              /\ client_status client = ClientStatus_Active /\ client_proven client auth;
  tb_organization : access_organization_id access = state_organization_id state;
  tb_subject : subject_active db (access_organization_id access) (access_user_id access) = true;
  tb_hash : access_token_hash access = hash_token (response_access_token resp);
  tb_fresh : t_access_tokens db !! access_token_hash access = None;
  tb_stored : t_access_tokens db' = <[access_token_hash access := access]> (t_access_tokens db);
  tb_lifetime : access_revoked_at access = None
                /\ access_expires_at access = (env_now env + duration_minutes 15)%Z;
  tb_scope : response_scope resp = token_response_scope (access_scopes access);
  tb_refresh : forall r, response_refresh_token resp = Some r ->
    "offline_access" ∈ access_scopes access /\ RefreshTokenGrant ∈ client_grant_types client
    /\ exists row, t_refresh_tokens db' !! hash_token r = Some row
         /\ refresh_client_id row = access_client_id access
         /\ refresh_user_id row = access_user_id access
         /\ refresh_scopes row = access_scopes access
         /\ Some (refresh_family_id row) = access_refresh_family_id access
         /\ refresh_rotated_at row = None /\ refresh_revoked_at row = None;
}.

Lemma should_issue_true scopes client :
  should_issue_refresh_token scopes client = true ->
  "offline_access" ∈ scopes /\ RefreshTokenGrant ∈ client_grant_types client.
Proof.
  unfold should_issue_refresh_token, allows_grant. intros H. bool_prop.
  apply contains_true in H. apply existsb_elem in H0 as (x & Hx & Hb). by bool_prop; subst.
Qed.

Definition token_of_reply (access : GeneratedSecret) (refresh : option GeneratedSecret)
    (id_token : option string) (scopes : list string) : TokenResponse :=
  mk_TokenResponse (generated_value access) "Bearer" 900 (generated_value <$> refresh) id_token
    (token_response_scope scopes).

Lemma code_token_backed state env request auth db code verifier stored client user session id_token :
  clients_keyed db ->
  code_exchange state env request auth db code verifier stored client user session ->
  let refresh := code_refresh_record env stored client in
  let access := code_access_record env stored refresh in
  let used := on_authorization_codes
                (<[hash_token code := code_set_used_at (Some (env_now env)) stored]>) db in
  insertable used access refresh ->
  token_backed state env auth db (add_optional_refresh refresh (add_access access used))
    (token_of_reply (env_access env) ((fun _ => env_refresh env) <$> refresh) id_token
       (code_scopes stored)) client access.
Proof.
  intros Hk [] refresh access used (Ha & _ & _).
  destruct (authenticated_row _ _ _ _ Hk ce_client0) as (Hrow & Hact & Hp).
  destruct ce_bound0 as [Ho Hc]. destruct ce_client0 as (_ & Hco & _).
  split; try done.
  - simpl. by rewrite <- Hc.
  - simpl. congruence.
  - simpl. destruct ce_user0 as (Hu & Huo & Hus). rewrite Hu. by apply runtime_access_true.
  - by rewrite add_optional_refresh_access.
  - subst refresh access. unfold code_refresh_record.
    destruct (should_issue_refresh_token _ _) eqn:E; [|done]. apply should_issue_true in E as [Hs Hg].
    intros r [= <-]. split_and!; [done..|]. eexists. split; [by apply lookup_insert_eq|].
    by split_and!.
Qed.

Lemma refresh_token_backed state env request auth db raw stored client granted :
  refresh_exchange state env request auth db raw stored client granted ->
  let refresh := rotated_refresh_record env stored granted client in
  let access := rotated_access_record env stored granted in
  let rotated := on_refresh_tokens
                   (<[hash_token raw := refresh_set_rotated_at (Some (env_now env)) stored]>) db in
  insertable rotated access refresh ->
  token_backed state env auth db (add_optional_refresh refresh (add_access access rotated))
    (token_of_reply (env_access env) ((fun _ => env_refresh env) <$> refresh) None granted)
    client access.
Proof.
  intros [] refresh access rotated (Ha & _ & _). split; try done.
  - by rewrite add_optional_refresh_access.
  - subst refresh access. unfold rotated_refresh_record.
    destruct (should_issue_refresh_token _ _) eqn:E; [|done]. apply should_issue_true in E as [Hs Hg].
    intros r [= <-]. split_and!; [done..|]. eexists. split; [by apply lookup_insert_eq|].
    by split_and!.
Qed.

Context {HC : HttpCrates} {UC : UrlCrate}.

Lemma credentials_token_backed state env auth db client scopes :
  clients_keyed db -> authenticated state auth db client ->
  insertable db (credentials_access_record env client scopes) None ->
  token_backed state env auth db (add_access (credentials_access_record env client scopes) db)
    (token_of_reply (env_access env) None None scopes) client
    (credentials_access_record env client scopes).
Proof.
  intros Hk Hc (Ha & _ & _). split; try done.
  - by apply (authenticated_row state).
  - by destruct Hc as (_ & Ho & _).
Qed.

(** An ID token of the endpoint is one of the configured issuer. *)
Lemma issued_id_token state env headers request db reply db' resp id_token :
  run (token state env headers request) db = (Ok reply, db') ->
  reply_body reply = Body_Token resp -> response_id_token resp = Some id_token ->
  exists now issue, issue_issuer issue = config_issuer state /\ issue_id_token now issue = Ok id_token.
Proof.
  intros H Hresp Hid. unfold token in H.
  apply lift_then_Ok in H as (body & _ & H). apply lift_then_Ok in H as (form & _ & H).
  apply lift_then_Ok in H as (auth & _ & H).
  destruct (is_empty _); [by injection H as <- <-|]. destruct (negb _); [by injection H as <- <-|].
  assert (Hdone : forall access refresh id scopes, reply = token_reply access refresh id scopes -> id = Some id_token).
  { intros access refresh id scopes ->. injection Hresp as <-. done. }
  destruct (bool_decide _); [|destruct (bool_decide _); [|destruct (bool_decide _); [|by injection H as <- <-]]].
  - apply authorization_code_token_Ok in H as (code & verifier & stored & client & user & session
      & signing & token & _ & _ & Hissue & _ & _ & [= ->]%Hdone). eexists _, _. by split; [|exact Hissue].
  - by apply client_credentials_token_Ok in H as (client & scopes & _ & _ & _ & _ & _ & _ & _ & ?%Hdone).
  - by apply refresh_token_Ok in H as (raw & stored & client & granted & _ & _ & _ & ?%Hdone).
Qed.

(** C27. Every token the endpoint hands out is backed by the store.  Whatever
    the request, if the reply carries tokens then they were issued to an
    active client of the store that the request's credentials authenticate;
    the access token's hash was fresh and is now stored, unrevoked, for 15
    minutes and for this organization, and no other access token changed; its
    user, if it has one, exists and is active in the organization; the scope
    in the reply is that of the row; and a refresh token in the reply is
    stored unrotated in the same family for the same client, user and scopes,
    which include [offline_access]. *)
Theorem issued_token_is_backed state env headers request db reply db' resp :
  clients_keyed db ->
  run (token state env headers request) db = (Ok reply, db') ->
  reply_body reply = Body_Token resp ->
  exists body form auth client access,
    oauth_form_body_from_request headers request = Ok body
    /\ token_request_from_oauth_form headers body = Ok form
    /\ oauth_client_auth_from_request headers (token_client_id form) (token_client_secret form)
       = Ok auth
    /\ token_backed state env auth db db' resp client access.
Proof.
  intros Hk H Hresp. unfold token in H.
  apply lift_then_Ok in H as (body & Hbody & H). apply lift_then_Ok in H as (form & Hform & H).
  apply lift_then_Ok in H as (auth & Hauth & H). exists body, form, auth.
  destruct (is_empty _); [by injection H as <- <-|].
  destruct (negb _); [by injection H as <- <-|].
  assert (Hdone : forall access refresh id scopes,
    reply = token_reply access refresh id scopes -> resp = token_of_reply access refresh id scopes).
  { intros access refresh id scopes ->. by injection Hresp as <-. }
  destruct (bool_decide _); [|destruct (bool_decide _); [|destruct (bool_decide _); [|by injection H as <- <-]]].
  - apply authorization_code_token_Ok in H as (code & verifier & stored & client & user & session
      & signing & id_token & He & _ & _ & Hins & -> & ->%Hdone).
    eexists client, _. split_and!; [done..|]. by eapply code_token_backed.
  - apply client_credentials_token_Ok in H as (client & scopes & Hc & _ & _ & _ & _ & Hins & -> & ->%Hdone).
    eexists client, _. split_and!; [done..|]. by apply credentials_token_backed.
  - apply refresh_token_Ok in H as (raw & stored & client & granted & He & Hins & -> & ->%Hdone).
    eexists client, _. split_and!; [done..|]. by eapply refresh_token_backed.
Qed.
End token_properties.
