(* ===== verification/TokenStatus.v ===== *)
(** * Introspection, revocation and userinfo

    [apps/api/src/http/oauth_routes]'s token_status.rs and userinfo.rs: what
    the service says about the tokens it stores, and how a client revokes
    them. *)

From S2P Require Import Prelude RustStr Domain Authn Oidc Http Codec Store.
From S2P Require Import OAuthStore.
From S2P Require Import Directory ClientStore Handler KeyStore OAuthPolicy TokenEndpoint.

Section token_status.
Context {CC : CryptoCrates} {TC : TokenCrates} {AG : AesGcm}.

(** ** Introspection *)

(* apps/api/src/http/oauth_routes/token_status.rs:106-131 introspect_access_token *)
Definition introspect_access_token (state : AppState) (client : OidcClient) (token_hash : string)
    (now : OffsetDateTime) : Handler (option Value) :=
  do! token := query (get_access_token token_hash) in
  match token with
  | None => succeed None
  | Some token =>
      if negb (access_token_active_for_client token client now)
      then succeed (Some inactive_introspection_response)
      else
        do! active := token_subject_is_active (access_organization_id token) (access_user_id token) in
        if negb active then succeed (Some inactive_introspection_response)
        else succeed (Some (active_introspection_response (config_issuer state) client
               (access_scopes token) (access_user_id token) (Some "Bearer")
               (access_created_at token) (access_expires_at token)))
  end.

(* apps/api/src/http/oauth_routes/token_status.rs:133-158 introspect_refresh_token *)
Definition introspect_refresh_token (state : AppState) (client : OidcClient) (token_hash : string)
    (now : OffsetDateTime) : Handler (option Value) :=
  do! token := query (get_refresh_token token_hash) in
  match token with
  | None => succeed None
  | Some token =>
      if negb (refresh_token_active_for_client token client now)
      then succeed (Some inactive_introspection_response)
      else
        do! active := token_subject_is_active (refresh_organization_id token) (refresh_user_id token) in
        if negb active then succeed (Some inactive_introspection_response)
        else succeed (Some (active_introspection_response (config_issuer state) client
               (refresh_scopes token) (refresh_user_id token) None
               (refresh_created_at token) (refresh_expires_at token)))
  end.

Definition introspect_hint (state : AppState) (client : OidcClient) (token_hash : string)
    (now : OffsetDateTime) (hint : TokenTypeHint) : Handler (option Value) :=
  match hint with
  | Hint_AccessToken => introspect_access_token state client token_hash now
  | Hint_RefreshToken => introspect_refresh_token state client token_hash now
  end.
Fixpoint introspect_hints (state : AppState) (client : OidcClient) (token_hash : string)
    (now : OffsetDateTime) (hints : list TokenTypeHint) : Handler Value :=
  match hints with
  | [] => succeed inactive_introspection_response
  | hint :: rest =>
      do! response := introspect_hint state client token_hash now hint in
      match response with
      | Some response => succeed response
      | None => introspect_hints state client token_hash now rest
      end
  end.
(* apps/api/src/http/oauth_routes/token_status.rs:82-104 introspection_response_for_token *)
Definition introspection_response_for_token (state : AppState) (client : OidcClient)
    (token_hash : string) (token_type_hint : option string) (now : OffsetDateTime)
    : Handler Value :=
  introspect_hints state client token_hash now (token_type_hint_lookup_order token_type_hint).

(** ** Revocation *)

(* apps/api/src/http/oauth_routes/token_status.rs:198-212 revoke_access_token_for_client *)
Definition revoke_access_token_for_client (client : OidcClient) (token_hash : string)
    (now : OffsetDateTime) : Handler bool :=
  do! access := query (get_access_token token_hash) in
  match access with
  | Some access =>
      if N.eqb (access_organization_id access) (client_organization_id client)
         && N.eqb (access_client_id access) (client_uuid client)
      then do! _ := query (revoke_access_token token_hash now) in succeed true
      else succeed false
  | None => succeed false
  end.

(* apps/api/src/http/oauth_routes/token_status.rs:214-231 revoke_refresh_token_for_client *)
Definition revoke_refresh_token_for_client (client : OidcClient) (token_hash : string)
    (now : OffsetDateTime) : Handler bool :=
  do! refresh := query (get_refresh_token token_hash) in
  match refresh with
  | Some refresh =>
      if N.eqb (refresh_organization_id refresh) (client_organization_id client)
         && N.eqb (refresh_client_id refresh) (client_uuid client)
      then do! _ := query (revoke_refresh_token_family_and_access_tokens
                             (refresh_family_id refresh) now) in succeed true
      else succeed false
  | None => succeed false
  end.

Definition revoke_hint (client : OidcClient) (token_hash : string) (now : OffsetDateTime)
    (hint : TokenTypeHint) : Handler bool :=
  match hint with
  | Hint_AccessToken => revoke_access_token_for_client client token_hash now
  | Hint_RefreshToken => revoke_refresh_token_for_client client token_hash now
  end.
Fixpoint revoke_hints (client : OidcClient) (token_hash : string) (now : OffsetDateTime)
    (hints : list TokenTypeHint) : Handler unit :=
  match hints with
  | [] => succeed tt
  | hint :: rest =>
      do! revoked := revoke_hint client token_hash now hint in
      if (revoked : bool) then succeed tt else revoke_hints client token_hash now rest
  end.
(* apps/api/src/http/oauth_routes/token_status.rs:174-196 revoke_token_for_client *)
Definition revoke_token_for_client (client : OidcClient) (token_hash : string)
    (token_type_hint : option string) (now : OffsetDateTime) : Handler unit :=
  revoke_hints client token_hash now (token_type_hint_lookup_order token_type_hint).

(** ** The endpoints *)

Context {HC : HttpCrates}.

(* apps/api/src/http/oauth_routes/token_status.rs:29-53 introspect *)
Definition introspect (state : AppState) (now : OffsetDateTime) (headers : HeaderMap)
    (request : option string) : Handler Reply :=
  do! body := lift (oauth_form_body_from_request headers request) in
  do! payload := lift (introspection_request_from_oauth_form headers body) in
  do! client_auth := lift (oauth_client_auth_from_request headers (introspect_client_id payload)
                             (introspect_client_secret payload)) in
  do! client := authenticated_client_from_request state client_auth in
  do! response := introspection_response_for_token state client
                    (hash_token (introspect_token payload)) (introspect_token_type_hint payload) now in
  succeed (oauth_json_response 200 (Body_Value response)).

(* apps/api/src/http/oauth_routes/token_status.rs:55-80 revoke *)
Definition revoke (state : AppState) (now : OffsetDateTime) (headers : HeaderMap)
    (request : option string) : Handler Reply :=
  do! body := lift (oauth_form_body_from_request headers request) in
  do! payload := lift (revocation_request_from_oauth_form headers body) in
  do! client_auth := lift (oauth_client_auth_from_request headers (revoke_client_id payload)
                             (revoke_client_secret payload)) in
  do! client := authenticated_client_from_request state client_auth in
  do! _ := revoke_token_for_client client (hash_token (revoke_token payload))
             (revoke_token_type_hint payload) now in
  succeed (oauth_empty_response 200).

Definition bearer_challenge (status : StatusCode) (error description : string)
    (scope : option string) : Handler Reply :=
  succeed (mk_Reply (bearer_challenge_response status (Some error) (Some description) scope)
             Body_Empty).

(* apps/api/src/http/oauth_routes/userinfo.rs:51-139 userinfo_response_for_bearer_token *)
Definition userinfo_response_for_bearer_token (state : AppState) (now : OffsetDateTime)
    (headers : HeaderMap) (form_access_token raw_query : option string) : Handler Reply :=
  match bearer_token_from_sources headers form_access_token raw_query with
  | Err error => succeed (mk_Reply (bearer_token_error_response error) Body_Empty)
  | Ok token =>
  do! access := query (get_access_token (hash_token token)) in
  match access with
  | None => bearer_challenge 401 "invalid_token" "invalid bearer token" None
  | Some access =>
  if negb (bearer_token_matches_organization (access_organization_id access)
             (state_organization_id state))
  then bearer_challenge 401 "invalid_token" "invalid bearer token" None
  else if is_some (access_revoked_at access) || (access_expires_at access <=? now)%Z
  then bearer_challenge 401 "invalid_token" "expired or revoked bearer token" None
  else
  do! client := query (get_oidc_client (access_client_id access)) in
  match client with
  | None => bearer_challenge 401 "invalid_token" "invalid bearer token" None
  | Some client =>
  if negb (N.eqb (client_organization_id client) (access_organization_id access))
     || negb (oidc_client_is_active client)
  then bearer_challenge 401 "invalid_token" "invalid bearer token" None
  else
  match access_user_id access with
  | None => bearer_challenge 403 "insufficient_scope" "userinfo requires a user access token"
              (Some "openid")
  | Some user_id =>
  if negb (existsb (fun scope => bool_decide (scope = "openid")) (access_scopes access))
  then bearer_challenge 403 "insufficient_scope" "userinfo requires openid scope" (Some "openid")
  else
  do! user := query (get_user user_id) in
  do! user := some_or user (api_status 500 "user token is inconsistent") in
  if negb (user_allows_runtime_access user (access_organization_id access))
  then bearer_challenge 401 "invalid_token" "invalid bearer token" None
  else
  do! groups := groups_claim_for_user (access_organization_id access) (Domain.user_id user)
                  (access_scopes access) in
  succeed (oauth_json_response 200 (Body_Value (userinfo user (access_scopes access) groups)))
  end end end end.

(* apps/api/src/http/oauth_routes/userinfo.rs:141-153 userinfo_form_access_token *)
Definition userinfo_form_access_token (headers : HeaderMap) (request : option string)
    : result BearerTokenError (option string) :=
  if negb (request_has_urlencoded_content_type headers) then Ok None
  else
    let? body := ok_or (bounded_request_body request OAUTH_FORM_BODY_MAX_BYTES) Bearer_InvalidRequest in
    userinfo_request_from_form_body body.

(* apps/api/src/http/oauth_routes/userinfo.rs:29-35 userinfo_endpoint *)
Definition userinfo_endpoint (state : AppState) (now : OffsetDateTime) (headers : HeaderMap)
    (raw_query : option string) : Handler Reply :=
  userinfo_response_for_bearer_token state now headers None raw_query.
(* apps/api/src/http/oauth_routes/userinfo.rs:37-49 userinfo_endpoint_post *)
Definition userinfo_endpoint_post (state : AppState) (now : OffsetDateTime) (headers : HeaderMap)
    (raw_query : option string) (request : option string) : Handler Reply :=
  match userinfo_form_access_token headers request with
  | Err error => succeed (mk_Reply (bearer_token_error_response error) Body_Empty)
  | Ok form_access_token =>
      userinfo_response_for_bearer_token state now headers form_access_token raw_query
  end.
End token_status.

(** ** Properties *)

Section status_properties.
Context {CC : CryptoCrates} {TC : TokenCrates} {AG : AesGcm}.
Implicit Types (state : AppState) (client : OidcClient) (db : Database).

(** An access token, a refresh token that introspection calls active. *)
Definition access_token_good (db : Database) (client : OidcClient) (now : OffsetDateTime)
    (t : AccessTokenRecord) : bool :=
  access_token_active_for_client t client now
  && subject_active db (access_organization_id t) (access_user_id t).
Definition refresh_token_good (db : Database) (client : OidcClient) (now : OffsetDateTime)
    (t : RefreshToken) : bool :=
  refresh_token_active_for_client t client now
  && subject_active db (refresh_organization_id t) (refresh_user_id t).
Definition access_document (state : AppState) (client : OidcClient) (t : AccessTokenRecord) : Value :=
  active_introspection_response (config_issuer state) client (access_scopes t) (access_user_id t)
    (Some "Bearer") (access_created_at t) (access_expires_at t).
Definition refresh_document (state : AppState) (client : OidcClient) (t : RefreshToken) : Value :=
  active_introspection_response (config_issuer state) client (refresh_scopes t) (refresh_user_id t)
    None (refresh_created_at t) (refresh_expires_at t).

(** A hash names at most one token. *)
Definition one_kind (h : string) (db : Database) : Prop :=
  t_access_tokens db !! h = None \/ t_refresh_tokens db !! h = None.

(** What introspection says about a hash, without hints. *)
Definition introspected (state : AppState) (client : OidcClient) (h : string) (now : OffsetDateTime)
    (db : Database) : Value :=
  match t_access_tokens db !! h, t_refresh_tokens db !! h with
  | Some t, _ => if access_token_good db client now t then access_document state client t
                 else inactive_introspection_response
  | None, Some t => if refresh_token_good db client now t then refresh_document state client t
                    else inactive_introspection_response
  | None, None => inactive_introspection_response
  end.

Lemma introspect_access_run state client h now db :
  run (introspect_access_token state client h now) db
  = (Ok ((fun t => if access_token_good db client now t then access_document state client t
                   else inactive_introspection_response) <$> t_access_tokens db !! h), db).
Proof.
  unfold introspect_access_token. rewrite (run_known _ _ _ (t_access_tokens db !! h)) by done.
  destruct (t_access_tokens db !! h) as [t|]; [|done]. simpl. unfold access_token_good.
  destruct (access_token_active_for_client t client now); [|done]. simpl.
  rewrite (run_known _ _ _ _ (token_subject_run _ _ _)). by destruct (subject_active _ _ _).
Qed.
Lemma introspect_refresh_run state client h now db :
  run (introspect_refresh_token state client h now) db
  = (Ok ((fun t => if refresh_token_good db client now t then refresh_document state client t
                   else inactive_introspection_response) <$> t_refresh_tokens db !! h), db).
Proof.
  unfold introspect_refresh_token. rewrite (run_known _ _ _ (t_refresh_tokens db !! h)) by done.
  destruct (t_refresh_tokens db !! h) as [t|]; [|done]. simpl. unfold refresh_token_good.
  destruct (refresh_token_active_for_client t client now); [|done]. simpl.
  rewrite (run_known _ _ _ _ (token_subject_run _ _ _)). by destruct (subject_active _ _ _).
Qed.

Lemma lookup_order hint :
  token_type_hint_lookup_order hint = [Hint_AccessToken; Hint_RefreshToken]
  \/ token_type_hint_lookup_order hint = [Hint_RefreshToken; Hint_AccessToken].
Proof. unfold token_type_hint_lookup_order. destruct (TokenTypeHint_parse hint) as [[]|]; auto. Qed.

(** What one lookup answers. *)
Definition hint_answer (state : AppState) (client : OidcClient) (h : string) (now : OffsetDateTime)
    (db : Database) (hint : TokenTypeHint) : option Value :=
  match hint with
  | Hint_AccessToken =>
      (fun t => if access_token_good db client now t then access_document state client t
                else inactive_introspection_response) <$> t_access_tokens db !! h
  | Hint_RefreshToken =>
      (fun t => if refresh_token_good db client now t then refresh_document state client t
                else inactive_introspection_response) <$> t_refresh_tokens db !! h
  end.
Lemma introspect_hints_run state client h now db hints :
  run (introspect_hints state client h now hints) db
  = (Ok (default inactive_introspection_response
           (head (omap (hint_answer state client h now db) hints))), db).
Proof.
  induction hints as [|hint hints IH]; [done|].
  assert (Hh : run (introspect_hint state client h now hint) db
               = (Ok (hint_answer state client h now db hint), db)).
  { destruct hint; [apply introspect_access_run|apply introspect_refresh_run]. }
  change (introspect_hints state client h now (hint :: hints)) with
    (do! response := introspect_hint state client h now hint in
      match response with
      | Some response => succeed response
      | None => introspect_hints state client h now hints
      end).
  rewrite (run_known _ _ _ _ Hh). simpl. by destruct (hint_answer _ _ _ _ _ hint).
Qed.
Lemma introspection_run state client h hint now db :
  one_kind h db ->
  run (introspection_response_for_token state client h hint now) db
  = (Ok (introspected state client h now db), db).
Proof.
  unfold introspection_response_for_token, one_kind, introspected. rewrite introspect_hints_run.
  destruct (lookup_order hint) as [-> | ->]; simpl;
    destruct (t_access_tokens db !! h), (t_refresh_tokens db !! h); simpl; intros [H|H]; done.
Qed.

Lemma document_active issuer client scopes user kind created expires :
  active_introspection_response issuer client scopes user kind created expires
  <> inactive_introspection_response.
Proof. unfold active_introspection_response, inactive_introspection_response. intros [=]. Qed.

Lemma access_good_true db client now t :
  access_token_good db client now t = true <->
  access_organization_id t = client_organization_id client /\ access_client_id t = client_uuid client
  /\ access_revoked_at t = None /\ (now < access_expires_at t)%Z
  /\ subject_active db (access_organization_id t) (access_user_id t) = true.
Proof.
  unfold access_token_good, access_token_active_for_client.
  rewrite !andb_true_iff, !N.eqb_eq, Z.ltb_lt. destruct (access_revoked_at t); simpl; naive_solver.
Qed.
Lemma refresh_good_true db client now t :
  refresh_token_good db client now t = true <->
  refresh_organization_id t = client_organization_id client /\ refresh_client_id t = client_uuid client
  /\ refresh_rotated_at t = None /\ refresh_revoked_at t = None /\ (now < refresh_expires_at t)%Z
  /\ subject_active db (refresh_organization_id t) (refresh_user_id t) = true.
Proof.
  unfold refresh_token_good, refresh_token_active_for_client.
  rewrite !andb_true_iff, !N.eqb_eq, Z.ltb_lt.
  destruct (refresh_rotated_at t), (refresh_revoked_at t); simpl; naive_solver.
Qed.

(** Introspection tells a client exactly what its own tokens are worth.
    For a hash that is not in both token tables it always answers, changes
    nothing and does not depend on the hint; it answers an active document
    exactly when the hash is that of an access token of this client that is
    neither revoked nor expired, or of a refresh token of this client that is
    neither rotated nor revoked nor expired, and the token's user, if it has
    one, is still active; the document is the one of that row, and in every
    other case it is the inactive one. *)
Theorem introspection_spec state client h hint now db :
  one_kind h db ->
  exists v, run (introspection_response_for_token state client h hint now) db = (Ok v, db)
  /\ (forall hint', run (introspection_response_for_token state client h hint' now) db = (Ok v, db))
  /\ (v <> inactive_introspection_response <->
      (exists t, t_access_tokens db !! h = Some t /\ access_token_good db client now t = true)
      \/ exists t, t_refresh_tokens db !! h = Some t /\ refresh_token_good db client now t = true)
  /\ (forall t, t_access_tokens db !! h = Some t ->
      v = access_document state client t
          /\ access_organization_id t = client_organization_id client
          /\ access_client_id t = client_uuid client /\ access_revoked_at t = None
          /\ (now < access_expires_at t)%Z
          /\ subject_active db (access_organization_id t) (access_user_id t) = true
      \/ v = inactive_introspection_response)
  /\ (forall t, t_refresh_tokens db !! h = Some t ->
      v = refresh_document state client t
          /\ refresh_organization_id t = client_organization_id client
          /\ refresh_client_id t = client_uuid client /\ refresh_rotated_at t = None
          /\ refresh_revoked_at t = None /\ (now < refresh_expires_at t)%Z
          /\ subject_active db (refresh_organization_id t) (refresh_user_id t) = true
      \/ v = inactive_introspection_response).
Proof.
  intros Hone. exists (introspected state client h now db).
  split; [by apply introspection_run|]. split; [intros hint'; by apply introspection_run|].
  unfold introspected. unfold one_kind in Hone.
  destruct (t_access_tokens db !! h) as [a|], (t_refresh_tokens db !! h) as [r|]; [by destruct Hone|..].
  - destruct (access_token_good db client now a) eqn:E.
    + split_and!; [|intros t [= <-]; left; split; [done|by apply access_good_true]|done].
      split; [eauto|]. intros _. apply document_active.
    + split_and!; [|by right|done]. split; [done|]. intros [(t & [= <-] & Ht)|(t & [=] & _)]. congruence.
  - destruct (refresh_token_good db client now r) eqn:E.
    + split_and!; [|done|intros t [= <-]; left; split; [done|by apply refresh_good_true]].
      split; [eauto|]. intros _. apply document_active.
    + split_and!; [|done|by right]. split; [done|]. intros [(t & [=] & _)|(t & [= <-] & Ht)]. congruence.
  - split_and!; [|done|done]. split; [done|]. by intros [(t & [=] & _)|(t & [=] & _)].
Qed.

(** *** Revocation *)

Definition access_owned (client : OidcClient) (t : AccessTokenRecord) : bool :=
  N.eqb (access_organization_id t) (client_organization_id client)
  && N.eqb (access_client_id t) (client_uuid client).
Definition refresh_owned (client : OidcClient) (t : RefreshToken) : bool :=
  N.eqb (refresh_organization_id t) (client_organization_id client)
  && N.eqb (refresh_client_id t) (client_uuid client).
Definition access_revoked (h : string) (now : OffsetDateTime) (t : AccessTokenRecord) (db : Database)
    : Database := on_access_tokens (<[h := access_set_revoked_at (Some now) t]>) db.

(** The database a revocation leaves. *)
Definition revoked_for (client : OidcClient) (h : string) (now : OffsetDateTime) (db : Database)
    : Database :=
  match t_access_tokens db !! h, t_refresh_tokens db !! h with
  | Some t, _ => if access_owned client t then access_revoked h now t db else db
  | None, Some t => if refresh_owned client t then family_revoked t now db else db
  | None, None => db
  end.

Lemma revoke_access_run client h now db :
  run (revoke_access_token_for_client client h now) db
  = match t_access_tokens db !! h with
    | Some t => if access_owned client t then (Ok true, access_revoked h now t db) else (Ok false, db)
    | None => (Ok false, db)
    end.
Proof.
  unfold revoke_access_token_for_client. rewrite (run_known _ _ _ (t_access_tokens db !! h)) by done.
  destruct (t_access_tokens db !! h) as [t|] eqn:E; [|done]. unfold access_owned.
  destruct (_ && _); [|done]. simpl. unfold revoke_access_token, update_key, db_apply, update_row.
  by rewrite E.
Qed.
Lemma revoke_refresh_run client h now db :
  run (revoke_refresh_token_for_client client h now) db
  = match t_refresh_tokens db !! h with
    | Some t => if refresh_owned client t then (Ok true, family_revoked t now db) else (Ok false, db)
    | None => (Ok false, db)
    end.
Proof.
  unfold revoke_refresh_token_for_client. rewrite (run_known _ _ _ (t_refresh_tokens db !! h)) by done.
  destruct (t_refresh_tokens db !! h) as [t|] eqn:E; [|done]. unfold refresh_owned.
  by destruct (_ && _).
Qed.
Lemma run_then {A B} (h : Handler A) (f : A -> Handler B) db a db1 :
  run h db = (Ok a, db1) -> run (handler_bind h f) db = run (f a) db1.
Proof. intros H. unfold handler_bind. by rewrite run_bind, H. Qed.
Lemma revocation_run client h hint now db :
  one_kind h db ->
  run (revoke_token_for_client client h hint now) db = (Ok tt, revoked_for client h now db).
Proof.
  intros Hone. unfold revoke_token_for_client, revoked_for.
  pose proof (revoke_access_run client h now db) as Ha.
  pose proof (revoke_refresh_run client h now db) as Hr.
  assert (Hcons : forall hint rest, revoke_hints client h now (hint :: rest)
    = do! revoked := revoke_hint client h now hint in
      if (revoked : bool) then succeed tt else revoke_hints client h now rest) by done.
  destruct (lookup_order hint) as [-> | ->]; rewrite !Hcons; clear Hcons;
    destruct (t_access_tokens db !! h) as [a|] eqn:Ea, (t_refresh_tokens db !! h) as [r|] eqn:Er;
    unfold one_kind in Hone; rewrite Ea, Er in Hone; try (by destruct Hone);
    try destruct (access_owned client a); try destruct (refresh_owned client r);
    rewrite (run_then _ _ _ _ _ Ha) || rewrite (run_then _ _ _ _ _ Hr); try done;
    rewrite (run_then _ _ _ _ _ Hr) || rewrite (run_then _ _ _ _ _ Ha); done.
Qed.

Lemma revoked_access_bad db client now t : access_revoked_at t <> None -> access_token_good db client now t = false.
Proof. intros H. apply not_true_iff_false. rewrite access_good_true. naive_solver. Qed.
Lemma revoked_refresh_bad db client now t : refresh_revoked_at t <> None -> refresh_token_good db client now t = false.
Proof. intros H. apply not_true_iff_false. rewrite refresh_good_true. naive_solver. Qed.

(** In a revoked family every token is dead. *)
Lemma family_revoked_refresh t now db h r :
  t_refresh_tokens (family_revoked t now db) !! h = Some r ->
  refresh_family_id r = refresh_family_id t -> refresh_revoked_at r <> None.
Proof.
  simpl. intros (r0 & Hr0 & ->)%lookup_update_where_Some. unfold in_family.
  destruct (N.eqb_spec (refresh_family_id r0) (refresh_family_id t)); [|done].
  intros _. simpl. by destruct (refresh_revoked_at r0).
Qed.
Lemma family_revoked_access t now db h r :
  t_access_tokens (family_revoked t now db) !! h = Some r ->
  access_refresh_family_id r = Some (refresh_family_id t) -> access_revoked_at r <> None.
Proof.
  simpl. intros (r0 & Hr0 & ->)%lookup_update_where_Some. unfold access_in_family.
  destruct (bool_decide _) eqn:E; [|by apply bool_decide_eq_false in E].
  intros _. simpl. by destruct (access_revoked_at r0).
Qed.
Lemma family_revoked_other t now db :
  (forall h r, t_refresh_tokens db !! h = Some r -> refresh_family_id r <> refresh_family_id t ->
     t_refresh_tokens (family_revoked t now db) !! h = Some r)
  /\ (forall h r, t_access_tokens db !! h = Some r ->
     access_refresh_family_id r <> Some (refresh_family_id t) ->
     t_access_tokens (family_revoked t now db) !! h = Some r).
Proof.
  split; intros h r Hr Hne; simpl; rewrite lookup_update_where, Hr; simpl.
  - unfold in_family. by rewrite (proj2 (N.eqb_neq _ _) Hne).
  - unfold access_in_family. by rewrite bool_decide_false.
Qed.
Lemma introspected_dead state client h now db :
  one_kind h db ->
  (forall t, t_access_tokens db !! h = Some t -> access_revoked_at t <> None) ->
  (forall t, t_refresh_tokens db !! h = Some t -> refresh_revoked_at t <> None) ->
  introspected state client h now db = inactive_introspection_response.
Proof.
  intros Hone Ha Hr. unfold introspected, one_kind in *.
  destruct (t_access_tokens db !! h) as [a|]; [by rewrite revoked_access_bad by auto|].
  destruct (t_refresh_tokens db !! h) as [r|]; [by rewrite revoked_refresh_bad by auto|done].
Qed.

(** Revocation kills a client's own token and nothing else.  For a hash that
    is not in both token tables it always succeeds, whatever the hint.  If
    the token is the client's, introspection answers inactive for it from
    then on, to every client and at every time; revoking a refresh token
    revokes its whole family, access tokens included, and leaves every row
    of other families alone, and revoking an access token changes only its
    own row.  A token of another client and an unknown token are left as they
    are. *)
Theorem revocation_spec client h hint now db :
  one_kind h db ->
  exists db', run (revoke_token_for_client client h hint now) db = (Ok tt, db')
  /\ (forall hint', run (revoke_token_for_client client h hint' now) db = (Ok tt, db'))
  /\ (forall t, t_access_tokens db !! h = Some t -> access_owned client t = true ->
      t_access_tokens db' = <[h := access_set_revoked_at (Some now) t]> (t_access_tokens db)
      /\ t_refresh_tokens db' = t_refresh_tokens db
      /\ forall state client' hint' later,
           run (introspection_response_for_token state client' h hint' later) db'
           = (Ok inactive_introspection_response, db'))
  /\ (forall t, t_refresh_tokens db !! h = Some t -> refresh_owned client t = true ->
      (forall h' r, t_refresh_tokens db' !! h' = Some r ->
         refresh_family_id r = refresh_family_id t -> refresh_revoked_at r <> None)
      /\ (forall h' r, t_access_tokens db' !! h' = Some r ->
         access_refresh_family_id r = Some (refresh_family_id t) -> access_revoked_at r <> None)
      /\ (forall h' r, t_refresh_tokens db !! h' = Some r ->
         refresh_family_id r <> refresh_family_id t -> t_refresh_tokens db' !! h' = Some r)
      /\ (forall h' r, t_access_tokens db !! h' = Some r ->
         access_refresh_family_id r <> Some (refresh_family_id t) -> t_access_tokens db' !! h' = Some r)
      /\ forall state client' hint' later,
           run (introspection_response_for_token state client' h hint' later) db'
           = (Ok inactive_introspection_response, db'))
  /\ ((forall t, t_access_tokens db !! h = Some t -> access_owned client t = false) ->
      (forall t, t_refresh_tokens db !! h = Some t -> refresh_owned client t = false) -> db' = db).
Proof.
  intros Hone. exists (revoked_for client h now db). split; [by apply revocation_run|].
  split; [intros hint'; by apply revocation_run|]. unfold revoked_for. unfold one_kind in Hone.
  destruct (t_access_tokens db !! h) as [a|] eqn:Ea, (t_refresh_tokens db !! h) as [r|] eqn:Er;
    [by destruct Hone|..].
  - split_and!; [|done|intros Hn _; by rewrite (Hn a)]. intros t [= <-] ->. split_and!; [done..|].
    intros state client' hint' later. rewrite introspection_run by (right; simpl; done).
    rewrite introspected_dead; [done|by right| |].
    + intros t. simpl. rewrite lookup_insert_eq. by intros [= <-].
    + intros t. simpl. by rewrite Er.
  - split_and!; [done| |intros _ Hn; by rewrite (Hn r)]. intros t [= <-] ->.
    destruct (family_revoked_other r now db) as [Ho1 Ho2].
    split_and!; [apply family_revoked_refresh|apply family_revoked_access|done|done|].
    assert (Hnone : t_access_tokens (family_revoked r now db) !! h = None).
    { simpl. by apply update_where_None. }
    intros state client' hint' later. rewrite introspection_run by by left.
    rewrite introspected_dead; [done|by left| |].
    + intros t. by rewrite Hnone.
    + intros t Ht. apply (family_revoked_refresh _ _ _ _ _ Ht).
      simpl in Ht. apply lookup_update_where_Some in Ht as (t0 & Ht0 & ->).
      assert (t0 = r) as -> by congruence. unfold in_family. by rewrite N.eqb_refl.
  - done.
Qed.

(** *** Userinfo *)

Context {HC : HttpCrates}.

(** Everything the userinfo endpoint requires of a bearer token. *)
Record userinfo_granted (state : AppState) (now : OffsetDateTime) (db : Database) (bearer : string)
    (access : AccessTokenRecord) (client : OidcClient) (user : UserWithPassword) : Prop := {
  ug_access : t_access_tokens db !! hash_token bearer = Some access;
  ug_organization : access_organization_id access = state_organization_id state;
  ug_live : access_revoked_at access = None /\ (now < access_expires_at access)%Z;
  ug_client : t_oidc_clients db !! access_client_id access = Some client
              /\ client_organization_id client = access_organization_id access
              /\ client_status client = ClientStatus_Active;
  ug_openid : "openid" ∈ access_scopes access;
  ug_user : exists id, access_user_id access = Some id /\ t_users db !! id = Some user
            /\ user_organization_id (uwp_user user) = access_organization_id access
            /\ user_status (uwp_user user) = UserStatus_Active;
}.

Lemma userinfo_reads state now headers form query :
  each_op (fun X op => reads op) (userinfo_response_for_bearer_token state now headers form query).
Proof.
  unfold userinfo_response_for_bearer_token.
  repeat (each_op_step || apply groups_claim_reads || done).
Qed.
Lemma client_guard_false client (o : Uuid) :
  negb (N.eqb (client_organization_id client) o) || negb (oidc_client_is_active client) = false <->
  client_organization_id client = o /\ client_status client = ClientStatus_Active.
Proof.
  unfold oidc_client_is_active.
  by rewrite orb_false_iff, !negb_false_iff, N.eqb_eq, bool_decide_eq_true.
Qed.
Lemma has_scope_true (scopes : list string) x :
  existsb (fun scope => bool_decide (scope = x)) scopes = true <-> x ∈ scopes.
Proof. rewrite existsb_elem. setoid_rewrite bool_decide_eq_true. naive_solver. Qed.

Lemma userinfo_Ok state now headers form raw_query db v :
  run (userinfo_response_for_bearer_token state now headers form raw_query) db
               = (Ok (oauth_json_response 200 (Body_Value v)), db) <->
     exists bearer access client user,
       bearer_token_from_sources headers form raw_query = Ok bearer
       /\ userinfo_granted state now db bearer access client user
       /\ v = userinfo (uwp_user user) (access_scopes access)
                (groups_claim db (access_organization_id access)
                   (user_id (uwp_user user)) (access_scopes access)).
Proof.
  unfold userinfo_response_for_bearer_token. split.
  - intros H. destruct (bearer_token_from_sources headers form raw_query) as [bearer|]; [|done].
    rewrite (run_known _ _ _ (t_access_tokens db !! hash_token bearer)) in H by done.
    destruct (t_access_tokens db !! hash_token bearer) as [access|] eqn:Ea; [|done].
    unfold bearer_token_matches_organization in H.
    destruct (N.eqb_spec (access_organization_id access) (state_organization_id state)); [|done].
    simpl negb in H. cbn iota in H.
    destruct (is_some (access_revoked_at access) || _) eqn:El; [done|]. apply stale_false in El.
    rewrite (run_known _ _ _ (t_oidc_clients db !! access_client_id access)) in H by done.
    destruct (t_oidc_clients db !! access_client_id access) as [client|] eqn:Ec; [|done].
    destruct (_ || negb (oidc_client_is_active client)) eqn:Eg; [done|]. apply client_guard_false in Eg.
    destruct (access_user_id access) as [id|] eqn:Eu; [|done].
    destruct (negb (existsb _ _)) eqn:Es in H; [done|]. apply negb_false_iff, has_scope_true in Es.
    apply fetch_then_Ok in H as (u & Hu & H). apply fetch_row in Hu as (user & Hu & ->).
    destruct (negb (user_allows_runtime_access _ _)) eqn:Er; [done|]. apply inactive_user_false in Er.
    rewrite (run_known _ _ _ _ (groups_claim_run _ _ _ _)) in H. injection H as <-.
    exists bearer, access, client, user. split_and!; [done| |done]. split; try done. by exists id.
  - intros (bearer & access & client & user & -> & [] & ->). cbn iota.
    rewrite (run_known _ _ _ (t_access_tokens db !! hash_token bearer)) by done. rewrite ug_access0. cbn iota.
    unfold bearer_token_matches_organization. rewrite (proj2 (N.eqb_eq _ _) ug_organization0).
    cbn [negb]. rewrite (proj2 (stale_false _ _ _) ug_live0). cbn iota. destruct ug_client0 as [Hc Hcl].
    rewrite (run_known _ _ _ (t_oidc_clients db !! access_client_id access)) by done. rewrite Hc. cbn iota.
    rewrite (proj2 (client_guard_false _ _) Hcl). cbn iota. destruct ug_user0 as (id & -> & Hu & Hr). cbn iota.
    rewrite (proj2 (has_scope_true _ _) ug_openid0). simpl negb. cbn iota.
    apply fetch_then_Ok. exists (uwp_user user). split; [by rewrite Hu|].
    rewrite (proj2 (inactive_user_false _ _) Hr).
    by rewrite (run_known _ _ _ _ (groups_claim_run _ _ _ _)).
Qed.

(** The userinfo endpoint discloses a user's claims exactly when the request
    carries one valid bearer token whose hash is stored, for this
    organization, unrevoked and unexpired, whose client is active in the same
    organization, whose scopes include [openid] and whose user is active; the
    claims are those the token's scopes name, of that user, with the user's
    groups only for the scope [groups].  The endpoint never changes the
    database. *)
Theorem userinfo_spec state now headers form raw_query db :
  (forall r db', run (userinfo_response_for_bearer_token state now headers form raw_query) db
                 = (r, db') -> db' = db)
  /\ (forall v, run (userinfo_response_for_bearer_token state now headers form raw_query) db
               = (Ok (oauth_json_response 200 (Body_Value v)), db) <->
     exists bearer access client user,
       bearer_token_from_sources headers form raw_query = Ok bearer
       /\ userinfo_granted state now db bearer access client user
       /\ v = userinfo (uwp_user user) (access_scopes access)
                (groups_claim db (access_organization_id access)
                   (user_id (uwp_user user)) (access_scopes access))).
Proof.
  split; [|intros v; apply userinfo_Ok].
  intros r db' H. pose proof (each_reads_run _ db (userinfo_reads state now headers form raw_query)) as Hr.
  rewrite H in Hr. done.
Qed.
End status_properties.
