(* ===== verification/Concurrency.v ===== *)
(** * Concurrent requests

    The OAuth endpoints served concurrently: any number of requests in flight,
    their statements interleaved in any order, each statement possibly failing
    before or after it took effect ([Handler.pool_step]).  One authorization
    code and one refresh token still yield tokens at most once. *)

From S2P Require Import Prelude RustStr Domain Authn Oidc Http Codec Store.
From S2P Require Import OAuthStore.
From S2P Require Import SessionStore Directory ClientStore Handler KeyStore OAuthPolicy TokenEndpoint TokenStatus.

Section concurrency.
Context {CC : CryptoCrates} {TC : TokenCrates} {AG : AesGcm} {HC : HttpCrates} {UC : UrlCrate}.

(** ** Requests *)

(** A request to one of the OAuth endpoints, with what its handler reads of
    the clock and the random generator. *)
Inductive OAuthRequest :=
| Req_Token (env : CallEnv) (headers : HeaderMap) (body : option string)
| Req_Introspect (now : OffsetDateTime) (headers : HeaderMap) (body : option string)
| Req_Revoke (now : OffsetDateTime) (headers : HeaderMap) (body : option string)
| Req_Userinfo (now : OffsetDateTime) (headers : HeaderMap) (raw_query : option string)
| Req_UserinfoPost (now : OffsetDateTime) (headers : HeaderMap) (raw_query body : option string).

Definition handle (state : AppState) (request : OAuthRequest) : Handler Reply :=
  match request with
  | Req_Token env headers body => token state env headers body
  | Req_Introspect now headers body => introspect state now headers body
  | Req_Revoke now headers body => revoke state now headers body
  | Req_Userinfo now headers raw_query => userinfo_endpoint state now headers raw_query
  | Req_UserinfoPost now headers raw_query body =>
      userinfo_endpoint_post state now headers raw_query body
  end.
(** The handler, its outcome labelled with the request. *)
Definition serve (state : AppState) (request : OAuthRequest)
    : Prog (OAuthRequest * result ApiError Reply) :=
  prog_bind (handle state request) (fun r => Ret (request, r)).

(** The form of a token request and the credential it presents. *)
Definition token_form (headers : HeaderMap) (body : option string) : option TokenRequest :=
  match oauth_form_body_from_request headers body with
  | Ok bytes =>
      match token_request_from_oauth_form headers bytes with
      | Ok request => Some request
      | Err _ => None
      end
  | Err _ => None
  end.
Definition presented (grant_type : string) (get : TokenRequest -> option string)
    (request : OAuthRequest) : option string :=
  match request with
  | Req_Token _ headers body =>
      match token_form headers body with
      | Some form => if bool_decide (token_grant_type form = grant_type)
                     then hash_token <$> get form else None
      | None => None
      end
  | _ => None
  end.
Definition presented_code : OAuthRequest -> option string := presented "authorization_code" token_code.
Definition presented_refresh : OAuthRequest -> option string :=
  presented "refresh_token" token_refresh_token.

(** The reply hands out tokens. *)
Definition issues_tokens (r : result ApiError Reply) : Prop :=
  exists reply resp, r = Ok reply /\ reply_body reply = Body_Token resp.

(** ** Statements and flags *)

(** The statements of the OAuth endpoints. *)
Inductive oauth_statement : forall X, DB X -> Prop :=
| st_reads X (op : DB X) : reads op -> oauth_statement X op
| st_consume h a r now : oauth_statement _ (consume_authorization_code_and_insert_tokens h a r now)
| st_rotate h a r now : oauth_statement _ (rotate_refresh_token_and_insert_tokens h a r now)
| st_insert a : oauth_statement _ (insert_access_token a)
| st_revoke h now : oauth_statement _ (revoke_access_token h now)
| st_revoke_family f now :
    oauth_statement _ (revoke_refresh_token_family_and_access_tokens f now).
Hint Constructors oauth_statement : core.

Ltac statements :=
  repeat (each_op_step
          || (eapply each_op_impl; [|solve [auto with reads]]; by constructor)
          || solve [constructor; done]).

Lemma reuse_statements {A} stored now :
  each_op oauth_statement (reuse_detected (A := A) stored now).
Proof. unfold reuse_detected. statements. Qed.
Lemma code_statements state env request auth :
  each_op oauth_statement (authorization_code_token state env request auth).
Proof. unfold authorization_code_token. statements. Qed.
Lemma credentials_statements state env request auth :
  each_op oauth_statement (client_credentials_token state env request auth).
Proof. unfold client_credentials_token. statements. Qed.
Lemma refresh_statements state env request auth :
  each_op oauth_statement (refresh_token state env request auth).
Proof. unfold refresh_token. repeat (statements; try apply reuse_statements). Qed.

Lemma each_op_reading {A} (p : Prog A) : each_op (fun X op => reads op) p -> each_op oauth_statement p.
Proof. apply each_op_impl. by constructor. Qed.
Lemma introspect_hints_reads state client h now hints :
  each_op (fun X op => reads op) (introspect_hints state client h now hints).
Proof.
  induction hints as [|[] hints IH]; [done|..]; simpl introspect_hints;
    unfold introspect_access_token, introspect_refresh_token;
    repeat (each_op_step || exact IH || auto with reads || done).
Qed.
Lemma revoke_hints_statements client h now hints :
  each_op oauth_statement (revoke_hints client h now hints).
Proof.
  induction hints as [|[] hints IH]; [done|..]; simpl revoke_hints;
    unfold revoke_access_token_for_client, revoke_refresh_token_for_client;
    repeat (each_op_step || exact IH || solve [constructor; done]).
Qed.
Lemma handle_statements state request : each_op oauth_statement (handle state request).
Proof.
  destruct request as [env headers body|now headers body|now headers body|now headers q|now headers q body];
    simpl handle.
  - unfold token. repeat (each_op_step || apply code_statements || apply credentials_statements
      || apply refresh_statements).
  - unfold introspect, introspection_response_for_token.
    repeat (each_op_step || apply each_op_reading, introspect_hints_reads
            || apply each_op_reading, authenticated_client_reads).
  - unfold revoke, revoke_token_for_client.
    repeat (each_op_step || apply revoke_hints_statements
            || apply each_op_reading, authenticated_client_reads).
  - apply each_op_reading, userinfo_reads.
  - unfold userinfo_endpoint_post. destruct (userinfo_form_access_token headers body); [|exact I].
    apply each_op_reading, userinfo_reads.
Qed.

(** *** A used code stays used *)

Definition code_used (h : string) (db : Database) : Prop :=
  exists c, t_authorization_codes db !! h = Some c /\ code_used_at c <> None.

Lemma successors_codes a r db :
  t_authorization_codes (add_optional_refresh r (add_access a db)) = t_authorization_codes db.
Proof. by destruct r. Qed.

Lemma consume_codes h h' a r now db b db' :
  consume_authorization_code_and_insert_tokens h' a r now db = (Ok b, db') ->
  (b = true -> h' = h -> ~ code_used h db /\ code_used h db')
  /\ (code_used h db -> code_used h db').
Proof.
  intros [(-> & -> & _)|(-> & c & Hc & Hr & _ & ->)]%consume_Ok; [done|].
  apply code_redeemable_true in Hr as [Hu _]. unfold code_used. rewrite successors_codes. simpl.
  split.
  - intros _ ->. split; [intros (c' & Hc' & Hne); congruence|].
    rewrite lookup_insert_eq. eauto.
  - intros (c' & Hc' & Hne). destruct (decide (h = h')) as [->|Hh].
    + rewrite lookup_insert_eq. eauto.
    + rewrite lookup_insert_ne by done. eauto.
Qed.
Lemma rotate_codes h a r now db x db' :
  rotate_refresh_token_and_insert_tokens h a r now db = (x, db') ->
  t_authorization_codes db' = t_authorization_codes db.
Proof.
  destruct x as [b|e]; [|by intros ->%rotate_Err].
  intros [(_ & -> & _)|(_ & t & _ & _ & _ & ->)]%rotate_Ok; [done|]. by rewrite successors_codes.
Qed.
Lemma statement_keeps_code h X (op : DB X) : oauth_statement X op -> keeps_flag (code_used h) X op.
Proof.
  intros [X' op' Hr|h' a r now|h' a r now|a|h' now|f now] db Hf.
  - by rewrite Hr.
  - destruct (consume_authorization_code_and_insert_tokens h' a r now db) as [[b|e] db'] eqn:E; simpl.
    + by apply (consume_codes h) in E as [_ E]; auto.
    + by apply consume_Err in E as ->.
  - destruct (rotate_refresh_token_and_insert_tokens h' a r now db) as [x db'] eqn:E. simpl.
    unfold code_used. by rewrite (rotate_codes _ _ _ _ _ _ _ E).
  - unfold insert_access_token, insert_access_token_record, db_bind, db_check.
    destruct (absent _ _); [|done]. by destruct (access_fk db a).
  - unfold revoke_access_token, update_key, db_apply. by destruct (update_row _ _ _ _).
  - destruct (revoke_family_total f now db) as [db' Hdb']. rewrite Hdb'.
    apply revoke_family_Ok in Hdb' as ->. done.
Qed.

(** *** A rotated refresh token stays rotated *)

Definition refresh_used (h : string) (db : Database) : Prop :=
  exists t, t_refresh_tokens db !! h = Some t /\ refresh_rotated_at t <> None.

Lemma refresh_used_update P f h db :
  (forall t, refresh_rotated_at (f t) = refresh_rotated_at t) ->
  refresh_used h db -> refresh_used h (on_refresh_tokens (update_where P f) db).
Proof.
  intros Hf (t & Ht & Hr). eexists. split; [simpl; by rewrite lookup_update_where, Ht|].
  destruct (P t); [by rewrite Hf|done].
Qed.
(** Inserting successors keeps the rows that are there. *)
Lemma successors_refresh a r h t db :
  insertable db a r -> t_refresh_tokens db !! h = Some t ->
  t_refresh_tokens (add_optional_refresh r (add_access a db)) !! h = Some t.
Proof.
  intros (_ & _ & Hr) Ht. destruct r as [r|]; [|done]. simpl.
  destruct (Hr r eq_refl) as (Hnone & _). rewrite lookup_insert_ne; [done|congruence].
Qed.
Lemma rotate_refresh h h' a r now db b db' :
  rotate_refresh_token_and_insert_tokens h' a r now db = (Ok b, db') ->
  (b = true -> h' = h -> ~ refresh_used h db /\ refresh_used h db')
  /\ (refresh_used h db -> refresh_used h db').
Proof.
  intros [(-> & -> & _)|(-> & t & Ht & Hr & Hins & ->)]%rotate_Ok; [done|].
  apply refresh_rotatable_true in Hr as (Hu & _ & _).
  assert (Hnew : refresh_used h' (add_optional_refresh r (add_access a (on_refresh_tokens
    (fun _ => <[h' := refresh_set_rotated_at (Some now) t]> (t_refresh_tokens db)) db)))).
  { eexists. split; [apply successors_refresh; [done|]; simpl; by rewrite lookup_insert_eq|done]. }
  split.
  - intros _ ->. split; [|done]. intros (t' & Ht' & Hne). congruence.
  - intros (t' & Ht' & Hne). destruct (decide (h = h')) as [->|Hh]; [done|].
    exists t'. split; [|done]. apply successors_refresh; [done|]. simpl. by rewrite lookup_insert_ne.
Qed.
Lemma statement_keeps_refresh h X (op : DB X) :
  oauth_statement X op -> keeps_flag (refresh_used h) X op.
Proof.
  intros [X' op' Hr|h' a r now|h' a r now|a|h' now|f now] db Hf.
  - by rewrite Hr.
  - destruct (consume_authorization_code_and_insert_tokens h' a r now db) as [[b|e] db'] eqn:E; simpl.
    + apply consume_Ok in E as [(_ & -> & _)|(_ & c & _ & _ & Hins & ->)]; [done|].
      destruct Hf as (t & Ht & Hne). exists t. split; [by apply successors_refresh|done].
    + by apply consume_Err in E as ->.
  - destruct (rotate_refresh_token_and_insert_tokens h' a r now db) as [[b|e] db'] eqn:E; simpl.
    + by apply (rotate_refresh h) in E as [_ E]; auto.
    + by apply rotate_Err in E as ->.
  - unfold insert_access_token, insert_access_token_record, db_bind, db_check.
    destruct (absent _ _); [|done]. by destruct (access_fk db a).
  - unfold revoke_access_token, update_key, db_apply. by destruct (update_row _ _ _ _).
  - destruct (revoke_family_total f now db) as [db' Hdb']. rewrite Hdb'.
    apply revoke_family_Ok in Hdb' as ->. simpl. by apply (refresh_used_update _ _ h db).
Qed.

(** *** Claims *)

(** The statement that redeems the credential with hash [h]. *)
Inductive code_claim (h : string) : forall X, DB X -> (X -> Prop) -> Prop :=
| claim_code a r now :
    code_claim h bool (consume_authorization_code_and_insert_tokens h a r now) (fun b => b = true).
Inductive refresh_claim (h : string) : forall X, DB X -> (X -> Prop) -> Prop :=
| claim_refresh a r now :
    refresh_claim h bool (rotate_refresh_token_and_insert_tokens h a r now) (fun b => b = true).

Lemma code_claim_raises h X (op : DB X) won db x db' :
  code_claim h X op won -> op db = (Ok x, db') -> won x -> ~ code_used h db /\ code_used h db'.
Proof.
  intros Hc. revert x. destruct Hc as [a r now]. intros x H Hx.
  apply (consume_codes h) in H as [H _]. auto.
Qed.
Lemma refresh_claim_raises h X (op : DB X) won db x db' :
  refresh_claim h X op won -> op db = (Ok x, db') -> won x ->
  ~ refresh_used h db /\ refresh_used h db'.
Proof.
  intros Hc. revert x. destruct Hc as [a r now]. intros x H Hx.
  apply (rotate_refresh h) in H as [H _]. auto.
Qed.

Lemma no_tokens_on_error e : ~ issues_tokens (Err e).
Proof. by intros (? & ? & [=] & _). Qed.
Hint Resolve no_tokens_on_error : core.
Lemma reject_true {A} c e (k : Handler A) : c = true -> (do! _ := reject_if c e in k) = fail e.
Proof. by intros ->. Qed.

(** The parts of a handler before its claim only read. *)
Ltac before_claim keeps :=
  match goal with
  | |- guarded _ _ _ (handler_bind (query (consume_authorization_code_and_insert_tokens _ _ _ _)) _) => fail 1
  | |- guarded _ _ _ (handler_bind (query (rotate_refresh_token_and_insert_tokens _ _ _ _)) _) => fail 1
  | |- guarded _ _ _ (handler_bind _ _) =>
      apply guarded_bind;
      [auto|eapply each_op_impl; [apply keeps|]; apply each_op_reading;
            solve [by each_op_steps|auto with reads]|intros ?]
  end.

Lemma code_token_guarded h state env request auth :
  (forall code, token_code request = Some code -> hash_token code = h) ->
  guarded (code_used h) (code_claim h) issues_tokens (authorization_code_token state env request auth).
Proof.
  intros Hh. unfold authorization_code_token.
  destruct (required_oauth_form_parameter (token_code request) "code") as [code|e] eqn:E; [|by apply no_tokens_on_error].
  apply required_parameter_Ok in E as [E _]. apply Hh in E.
  rewrite lift_Ok_bind, E.
  repeat before_claim (statement_keeps_code h).
  eapply guarded_claim; [done|apply statement_keeps_code, st_consume|constructor
    |intros []; [by left|by right]| |].
  - intros b Hb. destruct b; [done|]. apply no_tokens_on_error.
  - intros b. eapply each_op_impl; [apply statement_keeps_code|]. by statements.
Qed.

Lemma reuse_guarded h stored now :
  guarded (refresh_used h) (refresh_claim h) issues_tokens (reuse_detected stored now).
Proof.
  apply guarded_bind; [done| |intros _; apply no_tokens_on_error].
  eapply each_op_impl; [apply (statement_keeps_refresh h)|]. statements.
Qed.
Lemma refresh_token_guarded h state env request auth :
  (forall raw, token_refresh_token request = Some raw -> hash_token raw = h) ->
  guarded (refresh_used h) (refresh_claim h) issues_tokens (refresh_token state env request auth).
Proof.
  intros Hh. unfold refresh_token.
  destruct (required_refresh_token (token_refresh_token request)) as [raw|e] eqn:E; [|by apply no_tokens_on_error].
  apply required_parameter_Ok in E as [E _]. apply Hh in E.
  rewrite lift_Ok_bind, E.
  do 3 before_claim (statement_keeps_refresh h).
  match goal with |- context [if is_some ?x then _ else _] => destruct (is_some x) end;
    [apply reuse_guarded|].
  repeat before_claim (statement_keeps_refresh h).
  eapply guarded_claim; [done|apply statement_keeps_refresh, st_rotate|constructor
    |intros []; [by left|by right]| |].
  - intros b Hb. destruct b; [done|]. apply reuse_guarded.
  - intros b. eapply each_op_impl; [apply (statement_keeps_refresh h)|].
    destruct b; [exact I|apply reuse_statements].
Qed.

(** *** The endpoint *)

(** A request that succeeds with the credential [h]. *)
Definition redeems (present : OAuthRequest -> option string) (h : string)
    (outcome : OAuthRequest * result ApiError Reply) : Prop :=
  present outcome.1 = Some h /\ issues_tokens outcome.2.

Lemma token_with_form state env headers body form bytes :
  oauth_form_body_from_request headers body = Ok bytes ->
  token_request_from_oauth_form headers bytes = Ok form ->
  token state env headers body =
  (do! client_auth := lift (oauth_client_auth_from_request headers (token_client_id form)
                             (token_client_secret form)) in
   if is_empty (trim (token_grant_type form)) then
     succeed (oauth_json_response 400 (Body_Error (invalid_request "missing grant_type")))
   else if negb (grant_type_is_valid (token_grant_type form)) then
     succeed (oauth_json_response 400 (Body_Error (invalid_request "invalid grant_type")))
   else if bool_decide (token_grant_type form = "authorization_code") then
     authorization_code_token state env form client_auth
   else if bool_decide (token_grant_type form = "client_credentials") then
     client_credentials_token state env form client_auth
   else if bool_decide (token_grant_type form = "refresh_token") then
     refresh_token state env form client_auth
   else succeed (oauth_json_response 400 (Body_Error unsupported_grant_type))).
Proof. intros Hb Hf. unfold token. by rewrite Hb, lift_Ok_bind, Hf, lift_Ok_bind. Qed.
Lemma token_form_Some headers body form :
  token_form headers body = Some form <->
  exists bytes, oauth_form_body_from_request headers body = Ok bytes
    /\ token_request_from_oauth_form headers bytes = Ok form.
Proof.
  unfold token_form. destruct (oauth_form_body_from_request headers body) as [bytes|];
    [|by split; [|intros (? & [=] & _)]].
  destruct (token_request_from_oauth_form headers bytes) as [f|] eqn:E; split.
  - intros [= ->]. eauto.
  - intros (? & [= <-] & Hf). congruence.
  - done.
  - intros (? & [= <-] & Hf). congruence.
Qed.
Lemma error_reply_issues_nothing status body :
  ~ issues_tokens (Ok (oauth_json_response status (Body_Error body))).
Proof. by intros (reply & resp & [= <-] & [=]). Qed.


Lemma serve_other flag claims present h state request :
  (forall X (op : DB X), oauth_statement X op -> keeps_flag flag X op) ->
  present request <> Some h ->
  guarded flag claims (redeems present h) (serve state request).
Proof.
  intros Hk Hne. apply guarded_map. apply each_op_guarded; [by intros r [? _]|].
  eapply each_op_impl; [apply Hk|apply handle_statements].
Qed.

(** A request that presents the credential either fails before any grant or
    runs the grant. *)
Lemma serve_presenting flag claims grant get h state env headers body form :
  token_form headers body = Some form -> token_grant_type form = grant ->
  (forall auth, guarded flag claims issues_tokens
     (if bool_decide (token_grant_type form = "authorization_code") then
        authorization_code_token state env form auth
      else if bool_decide (token_grant_type form = "client_credentials") then
        client_credentials_token state env form auth
      else if bool_decide (token_grant_type form = "refresh_token") then
        refresh_token state env form auth
      else succeed (oauth_json_response 400 (Body_Error unsupported_grant_type)))) ->
  guarded flag claims (redeems (presented grant get) h) (serve state (Req_Token env headers body)).
Proof.
  intros (bytes & Hb & Hf)%token_form_Some _ Hg. apply guarded_map.
  apply (guarded_impl _ _ issues_tokens); [by intros r [_ ?]|].
  simpl handle. rewrite (token_with_form _ _ _ _ _ _ Hb Hf).
  destruct (oauth_client_auth_from_request _ _ _) as [auth|e]; [|apply no_tokens_on_error].
  rewrite lift_Ok_bind. destruct (is_empty _); [apply error_reply_issues_nothing|].
  destruct (negb _); [apply error_reply_issues_nothing|]. apply Hg.
Qed.
Lemma presented_Some grant get request h :
  presented grant get request = Some h ->
  exists env headers body form v, request = Req_Token env headers body
    /\ token_form headers body = Some form /\ token_grant_type form = grant
    /\ get form = Some v /\ hash_token v = h.
Proof.
  unfold presented. destruct request as [env headers body| | | |]; try done.
  destruct (token_form headers body) as [form|] eqn:E; [|done].
  destruct (bool_decide _) eqn:Eg; bool_prop; [|done].
  intros (v & Hv & ->)%fmap_Some. by eexists _, _, _, form, v.
Qed.

Lemma serve_code_guarded h state request :
  guarded (code_used h) (code_claim h) (redeems presented_code h) (serve state request).
Proof.
  destruct (decide (presented_code request = Some h)) as [Hp|Hp];
    [|apply serve_other; [apply statement_keeps_code|done]].
  apply presented_Some in Hp as (env & headers & body & form & v & -> & Hform & Hg & Hv & Hh).
  eapply serve_presenting; [done|done|]. intros auth. rewrite Hg. simpl.
  apply code_token_guarded. intros code Hc. congruence.
Qed.
Lemma serve_refresh_guarded h state request :
  guarded (refresh_used h) (refresh_claim h) (redeems presented_refresh h) (serve state request).
Proof.
  destruct (decide (presented_refresh request = Some h)) as [Hp|Hp];
    [|apply serve_other; [apply statement_keeps_refresh|done]].
  apply presented_Some in Hp as (env & headers & body & form & v & -> & Hform & Hg & Hv & Hh).
  eapply serve_presenting; [done|done|]. intros auth. rewrite Hg. simpl.
  apply refresh_token_guarded. intros raw Hc. congruence.
Qed.

(** C1. However many requests are in flight, one authorization code yields
    tokens at most once.  Whatever the OAuth requests (any grants, codes
    presented twice or by several clients, introspection, revocation), the
    starting database, the interleaving of their statements and the
    statements that fail or lose their answer: at most one of the requests
    that present the code with hash [h] is answered with tokens. *)
Theorem code_redeemed_at_most_once state requests db ps db' h :
  rtc pool_step (serve state <$> requests, db) (ps, db') ->
  forall i j ri rj oi oj,
    ps !! i = Some (Ret (ri, oi)) -> ps !! j = Some (Ret (rj, oj)) ->
    presented_code ri = Some h -> presented_code rj = Some h ->
    issues_tokens oi -> issues_tokens oj -> i = j.
Proof.
  intros Hs i j ri rj oi oj Hi Hj Hpi Hpj Hti Htj.
  eapply (one_winner _ _ (code_claim_raises h) (redeems presented_code h)); [exact Hs| |done..].
  apply Forall_fmap, Forall_forall. intros r _. apply serve_code_guarded.
Qed.

(** C2. However many requests are in flight, one refresh token is exchanged at
    most once: under the same conditions at most one of the requests that
    present the refresh token with hash [h] is answered with tokens. *)
Theorem refresh_token_exchanged_at_most_once state requests db ps db' h :
  rtc pool_step (serve state <$> requests, db) (ps, db') ->
  forall i j ri rj oi oj,
    ps !! i = Some (Ret (ri, oi)) -> ps !! j = Some (Ret (rj, oj)) ->
    presented_refresh ri = Some h -> presented_refresh rj = Some h ->
    issues_tokens oi -> issues_tokens oj -> i = j.
Proof.
  intros Hs i j ri rj oi oj Hi Hj Hpi Hpj Hti Htj.
  eapply (one_winner _ _ (refresh_claim_raises h) (redeems presented_refresh h)); [exact Hs| |done..].
  apply Forall_fmap, Forall_forall. intros r _. apply serve_refresh_guarded.
Qed.
End concurrency.
