(* ===== verification/CutOff.v ===== *)
(** * What locking a user out is worth at the endpoints

    The account operations of [crates/database] (suspension, locking,
    password recovery) leave a user without live credentials
    ([Lifecycle.user_credentials_dead]).  Here the OAuth endpoints are shown
    to honour that: nothing is issued to such a user, nothing of the user's is
    called active, and no sequence of OAuth requests changes it. *)

From S2P Require Import Prelude RustStr Domain Authn Oidc Http Codec Store.
From S2P Require Import OAuthStore.
From S2P Require Import SessionStore Directory ClientStore Lifecycle AccountStore.
From S2P Require Import Handler KeyStore OAuthPolicy TokenEndpoint TokenStatus Concurrency.

Section cut_off.
Context {CC : CryptoCrates} {TC : TokenCrates} {AG : AesGcm} {HC : HttpCrates} {UC : UrlCrate}.
Implicit Types (state : AppState) (db : Database).

(** Requests served one after the other. *)
Definition serve_all (state : AppState) (requests : list OAuthRequest) (db : Database) : Database :=
  fold_left (fun db request => (run (handle state request) db).2) requests db.

(** ** Properties *)

(** *** What keeps a user locked out *)

Lemma dead_add_access o id t db :
  (access_organization_id t = o -> access_user_id t = Some id -> is_Some (access_revoked_at t)) ->
  user_credentials_dead o id db -> user_credentials_dead o id (add_access t db).
Proof.
  intros Ht (Hs & Ha & Hr). split_and!; [exact Hs| |exact Hr]. intros h t'. simpl.
  intros [[_ <-]|[_ Hk]]%lookup_insert_Some; eauto.
Qed.
Lemma dead_add_refresh o id r db :
  (forall t, r = Some t -> refresh_organization_id t = o -> refresh_user_id t = Some id ->
     is_Some (refresh_revoked_at t)) ->
  user_credentials_dead o id db -> user_credentials_dead o id (add_optional_refresh r db).
Proof.
  intros Ht (Hs & Ha & Hr). destruct r as [t|]; [|done]. split_and!; [exact Hs|exact Ha|].
  intros h t'. simpl. intros [[_ <-]|[_ Hk]]%lookup_insert_Some; eauto.
Qed.
Lemma dead_update_refresh o id h t f db :
  t_refresh_tokens db !! h = Some t ->
  (refresh_organization_id (f t), refresh_user_id (f t), refresh_revoked_at (f t))
  = (refresh_organization_id t, refresh_user_id t, refresh_revoked_at t) ->
  user_credentials_dead o id db ->
  user_credentials_dead o id (on_refresh_tokens (<[h := f t]>) db).
Proof.
  intros Ht [= Ho Hu Hv] (Hs & Ha & Hr). split_and!; [exact Hs|exact Ha|]. intros h' t'. simpl.
  intros [[_ <-]|[_ Hk]]%lookup_insert_Some; [rewrite Ho, Hu, Hv|]; eauto.
Qed.
Lemma dead_family_revoked o id t now db :
  user_credentials_dead o id db -> user_credentials_dead o id (family_revoked t now db).
Proof.
  intros (Hs & Ha & Hr). split_and!; [exact Hs|..]; simpl.
  - intros h a (a0 & Ha0 & ->)%lookup_update_where_Some.
    destruct (access_in_family _ a0); [intros; apply coalesce_some|eauto].
  - intros h r (r0 & Hr0 & ->)%lookup_update_where_Some.
    destruct (in_family _ r0); [intros; apply coalesce_some|eauto].
Qed.
Lemma dead_access_revoked o id h now t db :
  user_credentials_dead o id db -> user_credentials_dead o id (access_revoked h now t db).
Proof.
  intros (Hs & Ha & Hr). split_and!; [exact Hs| |exact Hr]. intros h' t'. simpl.
  intros [[_ <-]|[_ Hk]]%lookup_insert_Some; eauto.
Qed.

(** *** The endpoints keep the user locked out *)

Section locked_out.
Context (state : AppState) (id : Uuid).
Notation dead := (user_credentials_dead (state_organization_id state) id).

Lemma code_token_keeps_dead env form auth db :
  dead db -> dead (run (authorization_code_token state env form auth) db).2.
Proof.
  intros Hd. destruct (run _ db) as [[reply|e] db'] eqn:E; simpl;
    [|by apply authorization_code_token_keeps in E as ->].
  apply authorization_code_token_Ok in E as (code & v & stored & client & user & session & sg & idt
    & He & _ & _ & _ & -> & _). destruct He.
  assert (Hne : code_organization_id stored = state_organization_id state -> code_user_id stored <> id).
  { intros Ho Hu. destruct ce_session as (Hs & Hso & Hsu & Hsr & _). destruct Hd as (Hd & _).
    destruct (Hd _ _ Hs) as [? ?]; congruence. }
  apply dead_add_refresh.
  - unfold code_refresh_record. destruct (should_issue_refresh_token _ _); [|done].
    intros t [= <-]. simpl. intros Ho [= Hu]. by destruct (Hne Ho Hu).
  - apply dead_add_access; [|exact Hd]. simpl. intros Ho [= Hu]. by destruct (Hne Ho Hu).
Qed.
Lemma credentials_keep_dead env form auth db :
  dead db -> dead (run (client_credentials_token state env form auth) db).2.
Proof.
  intros Hd. destruct (run _ db) as [[reply|e] db'] eqn:E; simpl;
    [|by apply client_credentials_token_keeps in E as ->].
  apply client_credentials_token_Ok in E as (client & scopes & _ & _ & _ & _ & _ & _ & -> & _).
  by apply dead_add_access.
Qed.
Lemma refresh_keeps_dead env form auth db :
  dead db -> dead (run (refresh_token state env form auth) db).2.
Proof.
  intros Hd. destruct (run _ db) as [[reply|e] db'] eqn:E; simpl.
  - apply refresh_token_Ok in E as (raw & stored & client & granted & He & _ & -> & _).
    destruct He.
    assert (Hne : refresh_user_id stored <> Some id).
    { intros Hu. destruct Hd as (_ & _ & Hd). destruct (Hd _ _ re_stored) as [? ?]; [congruence..|].
      destruct re_live; congruence. }
    apply dead_add_refresh.
    + unfold rotated_refresh_record. destruct (should_issue_refresh_token _ _); [|done].
      by intros t [= <-].
    + apply dead_add_access; [done|]. by apply (dead_update_refresh _ _ _ _ _ _ re_stored).
  - apply refresh_token_Err in E as [->|(raw & stored & _ & _ & _ & _ & _ & ->)]; [done|].
    by apply dead_family_revoked.
Qed.

(** A handler of reading statements and one that fails before its statements. *)
Lemma reads_keep_dead {A} (p : Prog A) db :
  each_op (fun X op => reads op) p -> dead db -> dead (run p db).2.
Proof. intros Hr. by rewrite each_reads_run. Qed.
Lemma lift_keeps_dead {X A} (r : result ApiError X) (k : X -> Handler A) db :
  dead db -> (forall x, dead (run (k x) db).2) -> dead (run (handler_bind (lift r) k) db).2.
Proof. intros Hd Hk. destruct r as [x|e]; [apply Hk|exact Hd]. Qed.
Lemma reads_then_keep_dead {X A} (h : Handler X) (k : X -> Handler A) db :
  each_op (fun X op => reads op) h -> dead db -> (forall x, dead (run (k x) db).2) ->
  dead (run (handler_bind h k) db).2.
Proof.
  intros Hh Hd Hk. unfold handler_bind. rewrite run_bind. pose proof (each_reads_run h db Hh) as Hdb.
  destruct (run h db) as [[x|e] db1]; simpl in Hdb; subst; [apply Hk|exact Hd].
Qed.

Lemma revoke_hints_keep_dead client h now hints db :
  dead db -> dead (run (revoke_hints client h now hints) db).2.
Proof.
  revert db. induction hints as [|hint hints IH]; intros db Hd; [done|].
  change (revoke_hints client h now (hint :: hints)) with
    (do! revoked := revoke_hint client h now hint in
     if (revoked : bool) then succeed tt else revoke_hints client h now hints).
  unfold handler_bind. rewrite run_bind.
  assert (Hh : dead (run (revoke_hint client h now hint) db).2).
  { destruct hint; simpl revoke_hint; [rewrite revoke_access_run|rewrite revoke_refresh_run].
    - destruct (t_access_tokens db !! h) as [t|]; [|done]. destruct (access_owned client t); [|done].
      by apply dead_access_revoked.
    - destruct (t_refresh_tokens db !! h) as [t|]; [|done]. destruct (refresh_owned client t); [|done].
      by apply dead_family_revoked. }
  destruct (run (revoke_hint client h now hint) db) as [[[]|e] db1]; simpl in *; auto.
Qed.

Lemma handle_keeps_dead request db : dead db -> dead (run (handle state request) db).2.
Proof.
  intros Hd. destruct request as [env headers body|now headers body|now headers body|now headers q|now headers q body];
    simpl handle.
  - unfold token. repeat (apply lift_keeps_dead; [done|intros ?]).
    repeat (match goal with |- context [if ?c then _ else _] => destruct c end; [done || idtac|]); try done.
    + by apply code_token_keeps_dead.
    + by apply credentials_keep_dead.
    + by apply refresh_keeps_dead.
  - unfold introspect, introspection_response_for_token. apply reads_keep_dead; [|done].
    repeat (each_op_step || apply introspect_hints_reads || apply authenticated_client_reads).
  - unfold revoke. apply lift_keeps_dead; [done|intros bytes].
    apply lift_keeps_dead; [done|intros payload]. apply lift_keeps_dead; [done|intros auth].
    apply reads_then_keep_dead; [apply authenticated_client_reads|done|intros client].
    unfold handler_bind, revoke_token_for_client. rewrite run_bind.
    pose proof (revoke_hints_keep_dead client (hash_token (revoke_token payload)) now
      (token_type_hint_lookup_order (revoke_token_type_hint payload)) db Hd) as Hr.
    by destruct (run _ db) as [[u|e] db1].
  - apply reads_keep_dead; [apply userinfo_reads|done].
  - unfold userinfo_endpoint_post. destruct (userinfo_form_access_token headers body); [|done].
    apply reads_keep_dead; [apply userinfo_reads|done].
Qed.

Lemma serve_all_keeps_dead requests db : dead db -> dead (serve_all state requests db).
Proof.
  unfold serve_all. revert db. induction requests as [|r requests IH]; intros db Hd; [done|].
  apply IH. by apply handle_keeps_dead.
Qed.

(** The token with hash [h] is one of the user's. *)
Definition users_token (db : Database) (h : string) : Prop :=
  (exists t, t_access_tokens db !! h = Some t /\ access_user_id t = Some id
     /\ access_organization_id t = state_organization_id state)
  \/ exists t, t_refresh_tokens db !! h = Some t /\ refresh_user_id t = Some id
     /\ refresh_organization_id t = state_organization_id state.

Lemma dead_introspected client h now db :
  dead db -> one_kind h db -> users_token db h ->
  introspected state client h now db = inactive_introspection_response.
Proof.
  intros (_ & Ha & Hr) Hone Hu. unfold introspected, one_kind in *.
  destruct Hu as [(t & Ht & Hu & Ho)|(t & Ht & Hu & Ho)]; rewrite Ht in *.
  - destruct (Ha _ _ Ht Ho Hu) as [x Hx]. by rewrite revoked_access_bad by by rewrite Hx.
  - destruct Hone as [->|[=]]. destruct (Hr _ _ Ht Ho Hu) as [x Hx].
    by rewrite revoked_refresh_bad by by rewrite Hx.
Qed.
End locked_out.

(** The operations that lock a user out, by the database they leave. *)
Inductive locks_out (o id : Uuid) : Database -> Prop :=
| locked_by_recovery i db0 m db :
    recovery_organization_id i = o -> recovery_user_id i = id ->
    consume_password_recovery_token_and_reset_user_password i db0 = (Ok (Some m), db) ->
    locks_out o id db
| locked_by_status s slug at_ db0 u db :
    update_user_status o id s slug at_ db0 = (Ok (UserStatusApplied u), db) ->
    s <> UserStatus_Active -> locks_out o id db.

(** C3. Locking a user out holds at every OAuth endpoint, for good.  After a
    password recovery, or after the user is suspended or locked, whatever
    OAuth requests are then served, in any number and order: the user gets
    no live session, access token or refresh token back; a token endpoint
    reply never carries an access token of the user; introspection answers
    inactive for every token of the user, to every client; and the userinfo
    endpoint refuses every access token of the user. *)
Theorem locked_out_user_stays_out state id db requests :
  locks_out (state_organization_id state) id db ->
  let db' := serve_all state requests db in
  user_credentials_dead (state_organization_id state) id db'
  /\ (forall env headers body reply resp db'' t,
       run (token state env headers body) db' = (Ok reply, db'') ->
       reply_body reply = Body_Token resp ->
       t_access_tokens db'' !! hash_token (response_access_token resp) = Some t ->
       access_organization_id t = state_organization_id state -> access_revoked_at t = None ->
       access_user_id t <> Some id)
  /\ (forall client h hint now, one_kind h db' -> users_token state id db' h ->
       run (introspection_response_for_token state client h hint now) db'
       = (Ok inactive_introspection_response, db'))
  /\ (forall now headers form raw_query bearer t v,
       bearer_token_from_sources headers form raw_query = Ok bearer ->
       t_access_tokens db' !! hash_token bearer = Some t -> access_user_id t = Some id ->
       run (userinfo_response_for_bearer_token state now headers form raw_query) db'
       <> (Ok (oauth_json_response 200 (Body_Value v)), db')).
Proof.
  intros Hl db'.
  assert (Hd : user_credentials_dead (state_organization_id state) id db').
  { apply serve_all_keeps_dead.
    destruct Hl as [i db0 m db <- <- H|s slug at_ db0 u db H Hs]; [by eapply recovery_dead|].
    by eapply update_user_status_dead. }
  split_and!; [done|..].
  - intros env headers body reply resp db'' t H _ Ht Ho Hv Hu.
    pose proof (handle_keeps_dead state id (Req_Token env headers body) db' Hd) as Hd'.
    simpl handle in Hd'. rewrite H in Hd'. destruct Hd' as (_ & Ha & _).
    destruct (Ha _ _ Ht Ho Hu) as [? ?]. congruence.
  - intros client h hint now Hone Hu. rewrite introspection_run by done.
    by rewrite (dead_introspected state id).
  - intros now headers form raw_query bearer t v Hb Ht Hu H.
    apply userinfo_Ok in H as (bearer' & access & client & user & Hb' & [] & _).
    assert (bearer' = bearer) as -> by congruence. assert (access = t) as -> by congruence.
    destruct Hd as (_ & Ha & _). destruct (Ha _ _ Ht ug_organization Hu) as [? ?].
    destruct ug_live. congruence.
Qed.
End cut_off.
