(* ===== verification/Metadata.v ===== *)
(** * Discovery, published keys and the middleware around every page

    crates/oidc/src/metadata.rs and [apps/api/src/http]'s public_metadata.rs,
    app_settings.rs and security.rs: the discovery document, the published keys,
    the settings page, the security headers and the check of the browser's
    origin.  The theorems compare what discovery announces with what the
    endpoints accept, follow a key from its use to its retirement, and say what
    the middleware lets through. *)

From S2P Require Import Prelude RustStr Domain Authn Oidc Http Codec Store.
From S2P Require Import ClientStore SessionStore Directory OAuthStore.
From S2P Require Import Handler KeyStore OAuthPolicy BrowserSession AuthorizeRequest.
From S2P Require Import TokenEndpoint Mfa Login AccountRoutes Listing AdminRoutes SessionRoutes Logout.
From Stdlib Require Import Ascii.

(** ** Discovery *)

(* crates/oidc/src/metadata.rs:5-31 ProviderMetadata *)
Record ProviderMetadata := mk_ProviderMetadata {
  issuer : string;
  authorization_endpoint : string;
  token_endpoint : string;
  userinfo_endpoint : string;
  end_session_endpoint : string;
  jwks_uri : string;
  introspection_endpoint : string;
  revocation_endpoint : string;
  response_types_supported : list string;
  response_modes_supported : list string;
  grant_types_supported : list string;
  subject_types_supported : list string;
  id_token_signing_alg_values_supported : list string;
  scopes_supported : list string;
  claims_supported : list string;
  acr_values_supported : list string;
  prompt_values_supported : list string;
  display_values_supported : list string;
  token_endpoint_auth_methods_supported : list string;
  code_challenge_methods_supported : list string;
  authorization_response_iss_parameter_supported : bool;
  claims_parameter_supported : bool;
  request_parameter_supported : bool;
  request_uri_parameter_supported : bool;
  require_request_uri_registration : bool;
}.
(* crates/oidc/src/metadata.rs:34-105 ProviderMetadata::new *)
Definition ProviderMetadata_new (issuer_ : string) : ProviderMetadata :=
  let issuer_ := trim_end_matches "/" issuer_ in
  {| authorization_endpoint := issuer_ +:+ "/oauth2/authorize";
     token_endpoint := issuer_ +:+ "/oauth2/token";
     userinfo_endpoint := issuer_ +:+ "/oauth2/userinfo";
     end_session_endpoint := issuer_ +:+ "/oauth2/logout";
     jwks_uri := issuer_ +:+ "/.well-known/jwks.json";
     introspection_endpoint := issuer_ +:+ "/oauth2/introspect";
     revocation_endpoint := issuer_ +:+ "/oauth2/revoke";
     issuer := issuer_;
     response_types_supported := ["code"];
     response_modes_supported := ["query"];
     grant_types_supported := ["authorization_code"; "refresh_token"; "client_credentials"];
     subject_types_supported := ["public"];
     id_token_signing_alg_values_supported := ["RS256"];
     scopes_supported := ["openid"; "profile"; "email"; "groups"; "offline_access"];
     claims_supported := ["sub"; "iss"; "aud"; "exp"; "iat"; "auth_time"; "nonce"; "email";
                          "email_verified"; "name"; "amr"; "acr"; "groups"];
     acr_values_supported := ["urn:cairn:acr:password"; "urn:cairn:acr:password+totp";
                              "urn:cairn:acr:password+recovery_code";
                              "urn:cairn:acr:password+webauthn"];
     prompt_values_supported := ["none"; "login"; "consent"];
     display_values_supported := ["page"; "popup"; "touch"; "wap"];
     token_endpoint_auth_methods_supported := ["client_secret_post"; "client_secret_basic"; "none"];
     code_challenge_methods_supported := ["S256"];
     authorization_response_iss_parameter_supported := true;
     claims_parameter_supported := false;
     request_parameter_supported := false;
     request_uri_parameter_supported := false;
     require_request_uri_registration := false |}.

(** The pages of the protocol, by their handlers. *)
Inductive ProtocolPage :=
| page_healthz | page_openid_configuration | page_jwks | page_authorize | page_end_session | page_token
| page_userinfo | page_introspect | page_revoke.
(** Path, methods and page. *)
(* apps/api/src/http/router/protocol.rs:13-27 protocol_routes *)
Definition protocol_routes : list (string * list string * ProtocolPage) :=
  [("/healthz", ["GET"], page_healthz);
   ("/.well-known/openid-configuration", ["GET"], page_openid_configuration);
   ("/.well-known/jwks.json", ["GET"], page_jwks);
   ("/oauth2/authorize", ["GET"; "POST"], page_authorize);
   ("/oauth2/logout", ["GET"; "POST"], page_end_session);
   ("/oauth2/token", ["POST"], page_token);
   ("/oauth2/userinfo", ["GET"; "POST"], page_userinfo);
   ("/oauth2/introspect", ["POST"], page_introspect);
   ("/oauth2/revoke", ["POST"], page_revoke)].
(** [endpoint] is the address of [page] under the issuer, whatever the method. *)
Definition leads_to (issuer endpoint : string) (page : ProtocolPage) (methods : list string) : Prop :=
  exists path, endpoint = issuer +:+ path /\ (path, methods, page) ∈ protocol_routes
  /\ forall methods' page', (path, methods', page') ∈ protocol_routes -> page' = page.

(** A [JwkSet] is its keys. *)
(* crates/oidc/src/metadata.rs:109-111 JwkSet *)
Definition JwkSet : Type := list Value.
(* crates/oidc/src/metadata.rs:114-116 JwkSet::empty *)
Definition JwkSet_empty : JwkSet := [].
(* crates/oidc/src/signing/material.rs:31-35 SigningMaterial::jwk_set *)
Definition jwk_set (signing : SigningMaterial) : JwkSet := [signing_public_jwk signing].
(* apps/api/src/http/public_metadata.rs:25-38 jwk_set_from_sources *)
Definition jwk_set_from_sources (active_keys : list SigningKey)
    (static_signing : option SigningMaterial) : JwkSet :=
  match active_keys with
  | [] => default JwkSet_empty (jwk_set <$> static_signing)
  | _ => signing_public_jwk_ <$> active_keys
  end.

Section pages.
Context {CC : CryptoCrates} {TC : TokenCrates} {AG : AesGcm} {HC : HttpCrates} {UU : UuidCrate}.
Context {UC : UrlCrate} {UP : UrlParts}.

(* apps/api/src/http/public_metadata.rs:13-15 openid_configuration *)
Definition openid_configuration (state : AppState) : ProviderMetadata :=
  ProviderMetadata_new (config_issuer state).
(* apps/api/src/http/public_metadata.rs:17-23 jwks *)
Definition jwks (state : AppState) : Handler JwkSet :=
  do! active_keys := query active_jwks in
  succeed (jwk_set_from_sources active_keys (config_signing state)).

(* apps/api/src/http/app_settings.rs:22-35 settings_payload *)
Definition settings_payload (state : AppState) (database_signing_configured : bool) : Value :=
  Object
    [("issuer", String_ (config_issuer state));
     ("public_web_origin", String_ (config_public_web_origin state));
     ("organization_id", String_ (uuid_to_string (state_organization_id state)));
     ("signing_configured", Bool (database_signing_configured || is_some (config_signing state)));
     ("database_signing_configured", Bool database_signing_configured);
     ("key_encryption_configured", Bool (is_some (config_key_encryption_key state)))].
(* apps/api/src/http/app_settings.rs:9-20 settings *)
Definition settings (state : AppState) (now : OffsetDateTime) (headers : HeaderMap) : Handler Value :=
  do! _ := require_admin_session state now headers in
  do! key := query active_signing_key in
  succeed (settings_payload state (is_some key)).

(** ** The middleware *)

(* apps/api/src/http/security.rs:67-69 api_response_requires_no_store *)
Definition api_response_requires_no_store (path : string) : bool :=
  starts_with "/api/v1/" path || starts_with "/scim/v2/" path.
(* apps/api/src/http/security.rs:112-118 unsafe_api_request_path *)
Definition unsafe_api_request_path (method path : string) : bool :=
  starts_with "/api/v1/" path && contains ["POST"; "PUT"; "PATCH"; "DELETE"] method.
Definition invalid_request_origin : ApiError := api_status 403 "invalid request origin".
(* apps/api/src/http/security.rs:71-110 validate_api_browser_origin *)
Definition validate_api_browser_origin (state : AppState) (method path : string)
    (headers : HeaderMap) : result ApiError unit :=
  if negb (unsafe_api_request_path method path) then Ok tt
  else
  match headers_get headers "origin" with
  | Some origin =>
      let? origin := ok_or (header_to_str origin) invalid_request_origin in
      if negb (String.eqb origin (config_public_web_origin state)) then Err invalid_request_origin
      else Ok tt
  | None =>
  match headers_get headers "referer" with
  | Some referer =>
      let? referer := ok_or (header_to_str referer) invalid_request_origin in
      let referer_origin := url_origin <$> Url_parse referer in
      if negb (bool_decide (referer_origin = Some (config_public_web_origin state)))
      then Err invalid_request_origin else Ok tt
  | None => Ok tt
  end end.
(* apps/api/src/http/security.rs:126-166 security_response_header_pairs *)
Definition security_response_header_pairs (state : AppState) : list (string * string) :=
  [("content-security-policy",
     "default-src 'none'; frame-ancestors 'none'; base-uri 'none'; form-action 'none'");
   ("x-content-type-options", "nosniff");
   ("x-frame-options", "DENY");
   ("referrer-policy", "no-referrer");
   ("permissions-policy",
     "accelerometer=(), camera=(), geolocation=(), gyroscope=(), magnetometer=(), microphone=(), payment=(), usb=()");
   ("cross-origin-opener-policy", "same-origin")]
  ++ (if secure_cookies state
      then [("strict-transport-security", "max-age=63072000; includeSubDomains")] else []).
(* apps/api/src/http/security.rs:120-124 insert_security_headers *)
Definition insert_security_headers (headers : list (string * string)) (state : AppState)
    : list (string * string) :=
  fold_left (fun headers pair => insert_header headers (fst pair) (snd pair))
    (security_response_header_pairs state) headers.
(** [add_no_store_cache_headers] inserts what [add_oauth_cache_headers] does. *)
Definition secured (state : AppState) (path : string) (response : Response) : Response :=
  let headers := response_headers response in
  mk_Response (response_status response)
    (insert_security_headers
       (if api_response_requires_no_store path then add_oauth_cache_headers headers else headers)
       state).
(* apps/api/src/http/security.rs:39-65 add_security_headers *)
Definition add_security_headers (state : AppState) (method path : string) (headers : HeaderMap)
    (next : Prog Response) : Prog Response :=
  match validate_api_browser_origin state method path headers with
  | Err error => Ret (secured state path (api_error_into_response error))
  | Ok _ => prog_bind next (fun response => Ret (secured state path response))
  end.
End pages.

(** ** Properties *)

Section discovery.
Context {CC : CryptoCrates} {TC : TokenCrates} {SJ : SerdeJson} {AG : AesGcm} {HC : HttpCrates}.
Context {UU : UuidCrate} {UC : UrlCrate}.

Lemma prompt_values_known prompt p :
  parse_prompt prompt = Ok p ->
  forall v, v ∈ split_whitespace (default "" (trimmed_nonempty prompt)) ->
  v ∈ ["none"; "login"; "consent"].
Proof.
  unfold parse_prompt. destruct (trimmed_nonempty prompt) as [text|]; cbn [from_option id].
  - cbv zeta. destruct (_ && _); [done|]. destruct (negb (Nat.eqb _ _)); [done|].
    destruct (existsb _ _) eqn:E; [done|]. intros _ v Hv. rewrite existsb_elem_false in E.
    specialize (E v Hv). cbv beta in E. rewrite negb_false_iff, !orb_true_iff, !bool_decide_eq_true in E.
    set_solver.
  - intros _ v Hv. by apply elem_of_nil in Hv.
Qed.
Lemma display_value_known display d :
  parse_display display = Ok d ->
  match trimmed_nonempty display with
  | Some v => v ∈ ["page"; "popup"; "touch"; "wap"]
  | None => True
  end.
Proof.
  unfold parse_display. destruct (trimmed_nonempty display) as [v|]; [|done].
  intros H. repeat (case_match; try discriminate); set_solver.
Qed.

Lemma leads_to_route issuer path page methods :
  filter (fun route => route.1.1 = path) protocol_routes = [(path, methods, page)] ->
  leads_to issuer (issuer +:+ path) page methods.
Proof.
  intros H. exists path. split; [done|]. split.
  - assert ((path, methods, page) ∈ filter (fun route => route.1.1 = path) protocol_routes) as Hin
      by (rewrite H; left).
    by apply list_elem_of_filter in Hin as [_ ?].
  - intros methods' page' Hin.
    assert ((path, methods', page') ∈ filter (fun route => route.1.1 = path) protocol_routes) as Hf
      by by apply list_elem_of_filter.
    rewrite H in Hf. apply list_elem_of_singleton in Hf. congruence.
Qed.

(** C40. What discovery announces of the protocol is what the endpoints do.  Its
    endpoints are the paths of the router, under the issuer it names and each of
    the page it is announced for; that issuer is the one in every ID token the
    token endpoint hands out; an authorization request that is accepted has the
    announced response type and mode, asks for PKCE by an announced method,
    names announced prompts and an announced display, and carries neither a
    request object nor a request URI; a grant type that is not announced is, when
    it is well formed, answered as unsupported; and every authentication context
    a login can reach is announced.  What is announced of the claims parameter
    is not among this: discovery denies it, and one form of it is accepted. *)
Theorem discovery_is_true state :
  let metadata := openid_configuration state in
  (leads_to (issuer metadata) (authorization_endpoint metadata) page_authorize ["GET"; "POST"]
   /\ leads_to (issuer metadata) (token_endpoint metadata) page_token ["POST"]
   /\ leads_to (issuer metadata) (userinfo_endpoint metadata) page_userinfo ["GET"; "POST"]
   /\ leads_to (issuer metadata) (end_session_endpoint metadata) page_end_session ["GET"; "POST"]
   /\ leads_to (issuer metadata) (jwks_uri metadata) page_jwks ["GET"]
   /\ leads_to (issuer metadata) (introspection_endpoint metadata) page_introspect ["POST"]
   /\ leads_to (issuer metadata) (revocation_endpoint metadata) page_revoke ["POST"])
  /\ (forall env headers body db reply db' resp id_token,
       run (token state env headers body) db = (Ok reply, db') ->
       reply_body reply = Body_Token resp -> response_id_token resp = Some id_token ->
       exists now issue, issue_id_token now issue = Ok id_token
         /\ iss (id_token_claims now issue) = issuer metadata)
  /\ (forall r c v, validate r c = Ok v ->
       req_response_type r ∈ response_types_supported metadata
       /\ default "query" (trimmed_nonempty (req_response_mode r)) ∈ response_modes_supported metadata
       /\ (exists method, req_code_challenge_method r = Some method
             /\ method ∈ code_challenge_methods_supported metadata)
       /\ (forall p, p ∈ split_whitespace (default "" (trimmed_nonempty (req_prompt r))) ->
             p ∈ prompt_values_supported metadata)
       /\ match trimmed_nonempty (req_display r) with
          | Some d => d ∈ display_values_supported metadata
          | None => True
          end
       /\ (request_parameter_supported metadata = false -> trimmed_nonempty (req_request r) = None)
       /\ (request_uri_parameter_supported metadata = false ->
             trimmed_nonempty (req_request_uri r) = None))
  /\ (forall env headers body form request auth db,
       oauth_form_body_from_request headers body = Ok form ->
       token_request_from_oauth_form headers form = Ok request ->
       oauth_client_auth_from_request headers (token_client_id request)
         (token_client_secret request) = Ok auth ->
       grant_type_is_valid (token_grant_type request) = true ->
       token_grant_type request ∉ grant_types_supported metadata ->
       exists status error, run (token state env headers body) db
         = (Ok (oauth_json_response status (Body_Error error)), db)
         /\ status = 400%N
         /\ (trim (token_grant_type request) <> "" -> oauth_error error = "unsupported_grant_type"))
  /\ (forall id organization_id user_id mfa_method now,
       session_acr (authenticated_session id organization_id user_id mfa_method now)
       ∈ acr_values_supported metadata).
Proof.
  cbn -[parse_prompt validate token grant_type_is_valid]. split_and!.
  1-7: by apply leads_to_route.
  - intros env headers body db reply db' resp id_token H Hr Hid.
    destruct (issued_id_token _ _ _ _ _ _ _ _ _ H Hr Hid) as (now & issue & Hi & Hok).
    exists now, issue. split; [done|]. cbn. by rewrite Hi.
  - intros r c v Hv. apply validate_ok in Hv as (Hacc & _ & Hp & Hd).
    destruct (acc_pkce _ _ Hacc) as (ch & _ & _ & Hm).
    split_and!; try done.
    + apply list_elem_of_singleton. exact (acc_response_type _ _ Hacc).
    + destruct (acc_response_mode _ _ Hacc) as [->| ->]; cbn; set_solver.
    + eexists. split; [exact Hm|]. set_solver.
    + by eapply prompt_values_known.
    + by eapply display_value_known.
    + intros _. apply (acc_no_request _ _ Hacc).
    + intros _. apply (acc_no_request _ _ Hacc).
  - intros env headers body form request auth db Hf Hr Ha Hv Hg. unfold token.
    rewrite Hf, lift_Ok_bind, Hr, lift_Ok_bind, Ha, lift_Ok_bind, Hv. cbv zeta.
    destruct (is_empty (trim (token_grant_type request))) eqn:E.
    { eexists _, _. split; [reflexivity|]. split; [done|]. apply is_empty_true in E. by rewrite E. }
    rewrite !bool_decide_false by set_solver. by eexists _, _.
  - intros id o u m now. destruct m as [[]|]; cbn; set_solver.
Qed.
End discovery.

(** *** Keys *)

Section keys.
Context {CC : CryptoCrates} {TC : TokenCrates} {AG : AesGcm}.
Implicit Types (state : AppState) (db : Database).

(** The public key [jwk] is among the unretired keys of the table, under [kid]. *)
Definition published (kid : string) (jwk : Value) db : Prop :=
  exists row, t_signing_keys db !! kid = Some row
    /\ key_row_retired_at row = None /\ key_row_public_jwk row = jwk.
(** The maintenance of the table that neither retires nor replaces [kid]. *)
Inductive spares_key (kid : string) : forall A, DB A -> Prop :=
| spares_upsert k : key_kid k <> kid -> spares_key kid _ (upsert_signing_key_material k)
| spares_retire other at_ : other <> kid -> spares_key kid _ (retire_signing_key other at_)
| spares_rotation now ks ts : spares_key kid _ (apply_key_encryption_rotation now ks ts).
Definition maintained (kid : string) db db' : Prop :=
  exists A (c : DB A) r, spares_key kid A c /\ c db = (r, db').

Lemma published_update_key kid jwk other P f db r db' :
  (forall row, key_row_retired_at (f row) = key_row_retired_at row \/ other <> kid) ->
  (forall row, key_row_public_jwk (f row) = key_row_public_jwk row) ->
  update_key t_signing_keys on_signing_keys other P f db = (r, db') ->
  published kid jwk db -> published kid jwk db'.
Proof.
  intros Hr Hj. unfold update_key, db_apply.
  destruct (update_row other P f (t_signing_keys db)) as [b rows] eqn:E. intros [= _ <-] (row & Hk & Hn & Hp).
  destruct b.
  - apply update_row_true in E as (v & Hv & _ & ->). unfold published. cbn.
    destruct (decide (other = kid)) as [->|Hne].
    + rewrite lookup_insert_eq. assert (v = row) as -> by congruence. eexists. split; [done|].
      rewrite Hj. destruct (Hr row) as [->|?]; done.
    + rewrite lookup_insert_ne by done. by exists row.
  - apply update_row_false in E as [-> _]. by exists row.
Qed.
Lemma published_rotate_keys kid jwk ks db r db' :
  rotate_keys ks db = (r, db') -> published kid jwk db -> published kid jwk db'.
Proof.
  revert db. induction ks as [|k ks IH]; simpl; intros db H; [by injection H as _ <-|].
  unfold db_bind in H.
  destruct (update_key_total t_signing_keys on_signing_keys (key_kid k) (fun _ => true)
    (key_set_secret (key_private_key_ciphertext k) (key_private_key_nonce k)) db) as (b & db1 & E).
  rewrite E in H. intros Hp. eapply IH; [exact H|].
  refine (published_update_key kid jwk _ _ _ _ _ _ _ _ E Hp); [by left|done].
Qed.
Lemma maintained_published kid jwk db db' :
  maintained kid db db' -> published kid jwk db -> published kid jwk db'.
Proof.
  intros (A & c & r & Hc & H) Hp. destruct Hc as [k Hk|other at_ Ho|now ks ts].
  - destruct Hp as (row & Hrow & Hn & Hj). unfold upsert_signing_key_material, transaction, db_bind in H.
    assert (forall db1, (exists row1, t_signing_keys db1 !! kid = Some row1
              /\ key_row_retired_at row1 = None /\ key_row_public_jwk row1 = jwk) ->
            published kid jwk (on_signing_keys (<[key_kid k := key_row_of k]>) db1)) as Hins.
    { intros db1 (row1 & H1 & H2). exists row1. cbn. by rewrite lookup_insert_ne. }
    unfold update_rows, db_apply, db_check, db_ret, db_modify, commit in H.
    destruct (key_signing_active k); cbn in H;
      [destruct (no_other_active _ _); cbn in H; injection H as _ <-; [|by exists row]
      |injection H as _ <-; apply Hins; by exists row].
    apply Hins. cbn. rewrite lookup_update_where, Hrow. cbn. eexists. split; [done|].
    by destruct (key_row_signing_active row).
  - refine (published_update_key kid jwk _ _ _ _ _ _ _ _ H Hp); [by right|done].
  - unfold apply_key_encryption_rotation, transaction, db_bind in H.
    destruct (rotate_keys_total ks db) as [db1 E1]. rewrite E1 in H.
    destruct (rotate_tokens_total now ts db1) as [db2 E2]. rewrite E2 in H. cbn in H. injection H as _ <-.
    apply (published_rotate_keys _ _ _ _ _ _ E1) in Hp as (row & Hp). exists row.
    by rewrite (rotate_tokens_keys _ _ _ _ _ E2).
Qed.
Lemma published_in_jwks state kid jwk db :
  published kid jwk db -> exists keys, run (jwks state) db = (Ok keys, db) /\ jwk ∈ keys.
Proof.
  intros (row & Hrow & Hn & <-). unfold jwks. cbn. eexists. split; [reflexivity|].
  assert (signing_key_of_row row ∈ signing_key_of_row <$> order_by active_then_newest
            (select_where (fun k => is_none (key_row_retired_at k)) (t_signing_keys db))) as Hin.
  { apply list_elem_of_fmap. exists row. split; [done|]. apply elem_of_order_by, elem_of_select_where.
    exists kid. by rewrite Hn. }
  unfold jwk_set_from_sources. destruct (signing_key_of_row <$> _) as [|k ks] eqn:E.
  - by apply elem_of_nil in Hin.
  - apply list_elem_of_fmap. by exists (signing_key_of_row row).
Qed.

(** The key the service signs with, when it is one of the table's. *)
Lemma stored_key_published state kek stored signing db :
  signing_keys_keyed db -> config_key_encryption_key state = Some kek ->
  active_signing_key db = (Ok (Some stored), db) ->
  run (resolve_signing_material state) db = (Ok signing, db) ->
  published (signing_key_id signing) (signing_public_jwk signing) db.
Proof.
  intros Hk Hkek Ha. unfold resolve_signing_material. rewrite Hkek.
  destruct (active_signing_key_spec db) as (o & Ho & _ & Hsome). rewrite Ha in Ho. injection Ho as <-.
  destruct (Hsome stored eq_refl) as (kid & row & Hrow & _ & Hret & Hm).
  unfold handler_bind. cbn [query run prog_bind]. rewrite Ha. cbn. intros [= H%map_err_Ok].
  unfold decrypt_signing_material in H. destruct (_ || _); [done|].
  apply result_bind_Ok in H as (pem & _ & [= <-]). cbn. pose proof (Hk _ _ Hrow) as Hkid. cbn in Hkid.
  unfold try_into_material in Hm. apply result_bind_Ok in Hm as (? & _ & Hm).
  apply result_bind_Ok in Hm as (? & _ & [= <-]). cbn. rewrite Hkid. by exists row.
Qed.

(** C30. What the service signs can be verified: with a key of the table, the
    public half of the key an ID token is signed with is among the published
    keys at once, and stays there through any number of new keys, rotations of
    the key encryption key and retirements of other keys, until that very key is
    retired or replaced; and while the table has no unretired key, the configured
    key is the one that is published. *)
Theorem issued_tokens_stay_verifiable state db :
  signing_keys_keyed db ->
  (forall kek stored signing db' state',
     config_key_encryption_key state = Some kek ->
     active_signing_key db = (Ok (Some stored), db) ->
     run (resolve_signing_material state) db = (Ok signing, db) ->
     rtc (maintained (signing_key_id signing)) db db' ->
     exists keys, run (jwks state') db' = (Ok keys, db') /\ signing_public_jwk signing ∈ keys)
  /\ ((forall kid row, t_signing_keys db !! kid = Some row -> key_row_retired_at row <> None) ->
      forall signing, run (resolve_signing_material state) db = (Ok signing, db) ->
      run (jwks state) db = (Ok [signing_public_jwk signing], db)).
Proof.
  intros Hk. split.
  - intros kek stored signing db' state' Hkek Ha Hr Hsteps.
    pose proof (stored_key_published _ _ _ _ _ Hk Hkek Ha Hr) as Hp.
    assert (published (signing_key_id signing) (signing_public_jwk signing) db') as Hp'.
    { clear -Hsteps Hp. induction Hsteps as [|d1 d2 d3 Hst _ IH]; [done|].
      apply IH. by eapply maintained_published. }
    exact (published_in_jwks state' _ _ _ Hp').
  - intros Hret signing Hr.
    assert (select_where (fun k => is_none (key_row_retired_at k)) (t_signing_keys db) = []) as Hnone.
    { destruct (select_where _ _) as [|row l] eqn:E; [done|]. exfalso.
      assert (row ∈ row :: l) as Hin by left. rewrite <- E in Hin.
      apply elem_of_select_where in Hin as (kid & Hrow & Hn). apply (Hret kid row Hrow).
      by destruct (key_row_retired_at row). }
    unfold jwks. cbn. rewrite Hnone. cbn.
    assert (config_signing state = Some signing) as ->; [|done].
    unfold resolve_signing_material in Hr. destruct (config_key_encryption_key state) as [kek|].
    + destruct (active_signing_key_spec db) as (o & Ho & _ & Hsome).
      unfold handler_bind in Hr. cbn [query run prog_bind] in Hr. rewrite Ho in Hr. cbn in Hr.
      destruct o as [stored|].
      * destruct (Hsome stored eq_refl) as (kid & row & Hrow & _ & Hn & _). by destruct (Hret _ _ Hrow).
      * by apply run_some_or_Ok in Hr as [? _].
    + by apply run_some_or_Ok in Hr as [? _].
Qed.

(** Without a key encryption key the service signs with the configured key, but
    publishes the keys of the table if it has any. *)
Lemma configured_key_hidden state db signing :
  config_key_encryption_key state = None -> config_signing state = Some signing ->
  (exists kid row, t_signing_keys db !! kid = Some row /\ key_row_retired_at row = None) ->
  (forall kid, ~ published kid (signing_public_jwk signing) db) ->
  run (resolve_signing_material state) db = (Ok signing, db)
  /\ exists keys, run (jwks state) db = (Ok keys, db) /\ signing_public_jwk signing ∉ keys.
Proof.
  intros Hkek Hs (kid & row & Hrow & Hn) Hno. split.
  - unfold resolve_signing_material. by rewrite Hkek, Hs.
  - destruct (published_in_jwks state kid (key_row_public_jwk row) db) as (keys & Hj & _); [by exists row|].
    exists keys. split; [done|]. unfold jwks in Hj. cbn in Hj. injection Hj as <-. intros Hin.
    unfold jwk_set_from_sources in Hin.
    destruct (signing_key_of_row <$> _) as [|k ks] eqn:E.
    + apply (f_equal length) in E. rewrite length_fmap, order_by_perm in E. cbn in E.
      assert (row ∈ select_where (fun k => is_none (key_row_retired_at k)) (t_signing_keys db)) as Hr
        by (apply elem_of_select_where; exists kid; by rewrite Hn).
      destruct (select_where _ _); [by apply elem_of_nil in Hr|done].
    + rewrite <- E in Hin. apply list_elem_of_fmap in Hin as (sk & Hjwk & Hin).
      apply list_elem_of_fmap in Hin as (row' & -> & Hin%elem_of_order_by%elem_of_select_where).
      destruct Hin as (kid' & Hrow' & Hn'). apply (Hno kid'). exists row'. split; [done|].
      by destruct (key_row_retired_at row').
Qed.
End keys.

(** *** The middleware *)

Section middleware.
Context {AG : AesGcm} {HC : HttpCrates} {UC : UrlCrate} {UP : UrlParts}.
Implicit Types (state : AppState) (db : Database).

(** The page a request says it comes from is another one's. *)
Definition foreign_origin state (headers : HeaderMap) : Prop :=
  match headers_get headers "origin" with
  | Some origin => header_to_str origin <> Some (config_public_web_origin state)
  | None =>
      match headers_get headers "referer" with
      | Some referer => forall text, header_to_str referer = Some text ->
          url_origin <$> Url_parse text <> Some (config_public_web_origin state)
      | None => False
      end
  end.
Lemma browser_origin_cases state method path headers :
  (validate_api_browser_origin state method path headers = Ok tt
   /\ (unsafe_api_request_path method path = true -> ~ foreign_origin state headers))
  \/ (validate_api_browser_origin state method path headers = Err invalid_request_origin
      /\ unsafe_api_request_path method path = true /\ foreign_origin state headers).
Proof.
  unfold validate_api_browser_origin, foreign_origin.
  destruct (unsafe_api_request_path method path); cbn; [|by left].
  destruct (headers_get headers "origin") as [o|].
  - destruct (header_to_str o) as [t|]; cbn; [|by right].
    destruct (String.eqb_spec t (config_public_web_origin state)) as [->|Hne]; cbn; [left|right]; naive_solver.
  - destruct (headers_get headers "referer") as [r|]; [|left; naive_solver].
    destruct (header_to_str r) as [t|]; cbn; [|right; naive_solver].
    destruct (bool_decide (url_origin <$> Url_parse t = Some (config_public_web_origin state))) eqn:E;
      [apply bool_decide_eq_true in E; left|apply bool_decide_eq_false in E; right]; naive_solver.
Qed.

Lemma elem_of_insert_header headers n v n' v' :
  (n', v') ∈ insert_header headers n v <-> (n' = n /\ v' = v) \/ (n' <> n /\ (n', v') ∈ headers).
Proof.
  unfold insert_header. rewrite elem_of_app, list_elem_of_singleton, list_elem_of_In, filter_In,
    <- list_elem_of_In. cbn. destruct (String.eqb_spec n' n) as [->|Hne]; cbn; naive_solver.
Qed.
Lemma elem_of_insert_headers pairs headers n v :
  NoDup pairs.*1 ->
  (n, v) ∈ fold_left (fun headers pair => insert_header headers (fst pair) (snd pair)) pairs headers
  <-> (n, v) ∈ pairs \/ (n ∉ pairs.*1 /\ (n, v) ∈ headers).
Proof.
  revert headers. induction pairs as [|[n' v'] pairs IH]; intros headers Hd; cbn [fold_left fst snd].
  - split; [intros H; right; split; [apply not_elem_of_nil|done]|].
    intros [H|[_ H]]; [by apply elem_of_nil in H|done].
  - cbn in Hd. apply NoDup_cons in Hd as [Hn Hd]. rewrite IH by done.
    rewrite elem_of_insert_header. cbn. rewrite !elem_of_cons.
    assert ((n, v) ∈ pairs -> n ∈ pairs.*1) as Hin
      by (intros H; apply list_elem_of_fmap; by exists (n, v)).
    destruct (decide (n = n')) as [->|Hne]; naive_solver.
Qed.
Lemma security_headers_nodup state : NoDup (security_response_header_pairs state).*1.
Proof. apply (bool_decide_unpack _). unfold security_response_header_pairs. by destruct (secure_cookies state). Qed.

(** What stands around every page: a request that changes something through
    the API and says it comes from another origin than the user interface's is
    answered 403 without a statement to the database, any other is the page's
    business alone; and every response, refusals included, carries the security
    headers (with strict transport security in production) and no other value
    under their names, and forbids storing what the API and the provisioning
    pages answer. *)
Theorem middleware_spec state method path headers (next : Prog Response) db :
  let page := run (add_security_headers state method path headers next) db in
  (unsafe_api_request_path method path = true /\ foreign_origin state headers ->
     response_status page.1 = 403%N /\ page.2 = db)
  /\ (unsafe_api_request_path method path = false \/ ~ foreign_origin state headers ->
     response_status page.1 = response_status (run next db).1 /\ page.2 = (run next db).2)
  /\ (forall name value, name ∈ (security_response_header_pairs state).*1 ->
        (name, value) ∈ response_headers page.1 <-> (name, value) ∈ security_response_header_pairs state)
  /\ (config_environment state = Production ->
        ("strict-transport-security", "max-age=63072000; includeSubDomains") ∈ response_headers page.1)
  /\ (api_response_requires_no_store path = true ->
        ("cache-control", "no-store") ∈ response_headers page.1
        /\ ("pragma", "no-cache") ∈ response_headers page.1).
Proof.
  intros page.
  assert (exists response, page.1 = secured state path response) as [response Hpage].
  { subst page. unfold add_security_headers. destruct (validate_api_browser_origin _ _ _ _); [|by eexists].
    rewrite run_bind. destruct (run next db) as [r db1]. by exists r. }
  rewrite Hpage. split_and!.
  - intros [Hu Hf]. rewrite <- Hpage. subst page. unfold add_security_headers.
    destruct (browser_origin_cases state method path headers) as [[_ Hn]|[-> _]]; [by destruct (Hn Hu)|done].
  - intros Hok. rewrite <- Hpage. subst page. unfold add_security_headers.
    destruct (browser_origin_cases state method path headers) as [[-> _]|[_ [Hu Hf]]].
    + rewrite run_bind. by destruct (run next db) as [r db1].
    + destruct Hok; [congruence|done].
  - intros name value Hn. unfold secured. cbn [response_headers]. unfold insert_security_headers.
    rewrite elem_of_insert_headers by apply security_headers_nodup. tauto.
  - intros Hp. unfold secured. cbn [response_headers]. unfold insert_security_headers.
    rewrite elem_of_insert_headers by apply security_headers_nodup. left.
    unfold security_response_header_pairs, secure_cookies. rewrite bool_decide_true by done. set_solver.
  - intros Hs. unfold secured. rewrite Hs. cbn [response_headers]. unfold insert_security_headers, add_oauth_cache_headers.
    rewrite !elem_of_insert_headers by apply security_headers_nodup.
    rewrite !elem_of_insert_header. unfold security_response_header_pairs.
    split; right; (split; [|naive_solver]); destruct (secure_cookies state); cbn; set_solver.
Qed.
End middleware.
