(* ===== verification/KeyRotation.v ===== *)
(** * The operator's commands on keys

    [apps/api/src]'s signing_key_operations.rs and key_encryption_operations.rs:
    the signing key a service makes sure of when it starts, the commands that
    list, create, replace and retire signing keys, and the command that
    re-encrypts what the key encryption key protects.  The theorems say that a
    rotation of that key keeps every signing key and every link in the outbox
    readable under the new key, all or nothing, and what it leaves behind. *)

From S2P Require Import Prelude RustStr Domain Authn Oidc Http Codec Store.
From S2P Require Import SessionStore.
From S2P Require Import Handler KeyStore OAuthPolicy BrowserSession AuthorizeRequest Mfa Delivery Config.

(** ** Errors and reports *)

(** The causes of a [Box<dyn Error>] of a command. *)
Inductive CommandError :=
| Command_InvalidInput (message : string)
| Command_Config (e : ConfigError)
| Command_Database (e : DatabaseError)
| Command_Oidc (e : OidcError)
| Command_Domain (e : DomainError)
| Command_Io (already_exists : bool)
| Command_Json.
#[export] Instance command_from_database_error : FromDatabaseError CommandError := Command_Database.

(* apps/api/src/signing_key_operations.rs:122-128 SigningKeyRotationReport *)
Record SigningKeyRotationReport := mk_SigningKeyRotationReport {
  signing_report_status : string;
  signing_report_active_kid : string;
  signing_report_active : bool;
  signing_report_completed_at : OffsetDateTime;
}.
(* apps/api/src/key_encryption_operations.rs:109-115 KeyEncryptionRotationReport *)
Record KeyEncryptionRotationReport := mk_KeyEncryptionRotationReport {
  kek_report_status : string;
  kek_report_signing_keys : nat;
  kek_report_email_delivery_tokens : nat;
  kek_report_completed_at : OffsetDateTime;
}.
(** What a command prints; writing it as JSON is left out. *)
Inductive KeyCommandOutput :=
| Printed_Key (text : string)
| Printed_Keys (keys : list SigningKey)
| Printed_Ensured (active_kid : option string)
| Printed_Rotated (report : SigningKeyRotationReport)
| Printed_Retired (status kid : string).

(** ** Key material *)

(** What the code uses of [openssl] and [jsonwebtoken]: a new RSA key as PEM,
    and its public key as a JWK with the key id. *)
Class RsaKeys := { rsa_generate_pem : option string; jwk_from_pem : string -> string -> option Value }.
(** The random values and the clock of one command. *)
Record KeyEnv := mk_KeyEnv {
  key_env_uuid : Uuid;
  key_env_nonce : nat -> string;
  key_env_random : string;
  key_env_now : OffsetDateTime;
}.

Section commands.
Context {CC : CryptoCrates} {TC : TokenCrates} {AG : AesGcm} {RK : RsaKeys}.
Context {KB : KeyBytes} {BD : Base64Decode} {SJ : SerdeJson}.
Context {UC : UrlCrate} {UP : UrlParts} {UH : UrlHostText}.

(* crates/oidc/src/signing/jwk.rs:9-17 rsa_public_jwk *)
Definition rsa_public_jwk (key_id private_key_pem : string) : result OidcError Value :=
  ok_or (jwk_from_pem key_id private_key_pem) InvalidSigningKey.
(* crates/oidc/src/signing/keys.rs:14-35 generate_encrypted_signing_key *)
Definition generate_encrypted_signing_key (env : KeyEnv) (key_encryption_key : KeyEncryptionKey)
    : result OidcError SigningKeyMaterial :=
  let? private_key_pem := ok_or rsa_generate_pem SigningKeyGeneration in
  let key_id := "rs256-" +:+ uuid_to_string (key_env_uuid env) in
  let? public_jwk := rsa_public_jwk key_id private_key_pem in
  encrypt_signing_material (key_env_nonce env 0) (key_env_now env)
    (mk_SigningMaterial key_id private_key_pem public_jwk) key_encryption_key.
(* crates/oidc/src/signing/encryption.rs:48-51 generate_key_encryption_key *)
Definition generate_key_encryption_key (env : KeyEnv) : string := base64url_encode (key_env_random env).

(** ** Signing keys *)

(* apps/api/src/signing_key_operations.rs:12-41 ensure_startup_signing_key *)
Definition ensure_startup_signing_key (env : KeyEnv) (config : ApiConfig)
    : HandlerOf CommandError unit :=
  do! _ := reject_if
    (is_none (api_key_encryption_key config) && is_none (api_signing config)
     && bool_decide (api_environment config = Production))
    (Command_InvalidInput
       "production requires CAIRN_KEY_ENCRYPTION_KEY or legacy CAIRN_SIGNING_* material") in
  match api_key_encryption_key config with
  | None => succeed tt
  | Some key_encryption_key =>
      do! active := query active_signing_key in
      if is_some active then succeed tt
      else
      do! key := lift (map_err Command_Oidc
        match api_signing config with
        | Some signing =>
            encrypt_signing_material (key_env_nonce env 0) (key_env_now env) signing key_encryption_key
        | None => generate_encrypted_signing_key env key_encryption_key
        end) in
      query (upsert_signing_key_material key)
  end.

Definition signing_key_usage : CommandError :=
  Command_InvalidInput "usage: cairn-api signing-key <generate-kek|list|ensure|rotate|retire>".
Definition config_of (environ : Environ) : HandlerOf CommandError ApiConfig :=
  lift (map_err Command_Config (api_config_from_env environ)).
(** Connecting to the database and migrating it are left out. *)
(* apps/api/src/signing_key_operations.rs:43-115 run_signing_key_command *)
Definition run_signing_key_command (environ : Environ) (env : KeyEnv) (args : list string)
    : HandlerOf CommandError KeyCommandOutput :=
  match args with
  | [] => fail signing_key_usage
  | command :: rest =>
  if String.eqb command "generate-kek" then succeed (Printed_Key (generate_key_encryption_key env))
  else if String.eqb command "list" then
    do! _ := config_of environ in
    do! keys := query list_signing_keys in
    succeed (Printed_Keys keys)
  else if String.eqb command "ensure" then
    do! config := config_of environ in
    do! _ := ensure_startup_signing_key env config in
    do! active := query active_signing_key in
    succeed (Printed_Ensured (key_kid <$> active))
  else if String.eqb command "rotate" then
    do! config := config_of environ in
    do! key_encryption_key := some_or (api_key_encryption_key config)
      (Command_InvalidInput "CAIRN_KEY_ENCRYPTION_KEY is required to rotate signing keys") in
    do! key := lift (map_err Command_Oidc (generate_encrypted_signing_key env key_encryption_key)) in
    let report := mk_SigningKeyRotationReport "rotated" (key_kid key) (key_signing_active key)
                    (key_env_now env) in
    do! _ := query (upsert_signing_key_material key) in
    succeed (Printed_Rotated report)
  else if String.eqb command "retire" then
    match rest with
    | [] => fail (Command_InvalidInput "usage: cairn-api signing-key retire <kid>")
    | kid :: _ =>
        do! _ := config_of environ in
        do! retired := query (retire_signing_key kid (key_env_now env)) in
        succeed (Printed_Retired (if (retired : bool) then "retired" else "not_found") kid)
    end
  else fail signing_key_usage
  end.

(** ** The key encryption key *)

(* apps/api/src/key_encryption_operations.rs:71-78 key_encryption_key_from_env *)
Definition required_key_encryption_key (environ : Environ) (name : string)
    : result CommandError KeyEncryptionKey :=
  let? value := ok_or (environ name)
    (Command_InvalidInput ("missing required environment variable " +:+ name)) in
  map_err (fun error => Command_InvalidInput ("invalid " +:+ name +:+ ": " +:+ oidc_error_text error))
    (key_from_base64_url_no_pad value).
(* apps/api/src/key_encryption_operations.rs:80-94 metadata_str *)
Definition rotation_metadata_str (metadata : Value) (field : string) (email_outbox_id : Uuid)
    : result CommandError string :=
  ok_or (match value_get metadata field ≫= as_str with
         | Some value => if is_empty value then None else Some value
         | None => None
         end)
    (Command_InvalidInput ("email_outbox " +:+ uuid_to_string email_outbox_id
       +:+ " is missing metadata field " +:+ field)).
(* apps/api/src/key_encryption_operations.rs:96-98 account_token_delivery_aad *)
Definition account_token_delivery_aad (kind account_token_id : string) : string :=
  "cairnid:account-token-delivery:" +:+ kind +:+ ":" +:+ account_token_id.

(* crates/database/src/rows/email.rs:9-14 EmailOutboxDeliveryToken *)
Record EmailOutboxDeliveryToken := mk_EmailOutboxDeliveryToken {
  delivery_token_id : Uuid;
  delivery_token_ciphertext : string;
  delivery_token_nonce : string;
  delivery_token_metadata : Value;
}.
(* crates/database/src/rows/email.rs:79-88 EmailOutboxDeliveryTokenRow::try_into_token *)
Definition try_into_token (row : EmailOutboxMessage) : result DatabaseError EmailOutboxDeliveryToken :=
  let? ciphertext := ok_or (email_delivery_token_ciphertext row) NotFound in
  let? nonce := ok_or (email_delivery_token_nonce row) NotFound in
  Ok (mk_EmailOutboxDeliveryToken (email_id row) ciphertext nonce (email_metadata row)).
Definition has_delivery_token (m : EmailOutboxMessage) : bool :=
  is_some (email_delivery_token_ciphertext m) && is_some (email_delivery_token_nonce m).
Definition oldest_message_first (a b : EmailOutboxMessage) : bool :=
  (email_created_at a <=? email_created_at b)%Z.
(* crates/database/src/signing_keys.rs:122-140 list_email_outbox_delivery_tokens *)
Definition list_email_outbox_delivery_tokens : DB (list EmailOutboxDeliveryToken) := fun db =>
  db_result (collect_results try_into_token
    (order_by oldest_message_first (select_where has_delivery_token (t_email_outbox db)))) db.

(* apps/api/src/key_encryption_operations.rs:33-50 run_key_encryption_command *)
Definition reencrypt_token (nonce : string) (old_key new_key : KeyEncryptionKey)
    (token : EmailOutboxDeliveryToken) : result CommandError ReencryptedEmailOutboxDeliveryToken :=
  let metadata_str field :=
    rotation_metadata_str (delivery_token_metadata token) field (delivery_token_id token) in
  let? kind := metadata_str "kind" in
  let? account_token_id := metadata_str "account_token_id" in
  let aad := account_token_delivery_aad kind account_token_id in
  let? value := map_err Command_Oidc
    (decrypt_secret (mk_EncryptedSecret (delivery_token_ciphertext token) (delivery_token_nonce token))
       old_key aad) in
  let? encrypted := map_err Command_Oidc (encrypt_secret nonce value new_key aad) in
  Ok (mk_ReencryptedEmailOutboxDeliveryToken (delivery_token_id token)
        (encrypted_ciphertext encrypted) (encrypted_nonce encrypted)).

(** The command from its two keys on.  [generate_nonce] answers the nonces of
    [env] in order, for the keys first and then for the tokens. *)
(* apps/api/src/key_encryption_operations.rs:22-65 run_key_encryption_command *)
Definition rotate_key_encryption (env : KeyEnv) (old_key new_key : KeyEncryptionKey)
    : HandlerOf CommandError KeyEncryptionRotationReport :=
  do! signing_keys := query list_encrypted_signing_key_materials in
  do! reencrypted_signing_keys := lift (collect_results (fun '(i, key) =>
    map_err Command_Oidc (reencrypt_signing_key_material (key_env_nonce env i) key old_key new_key))
    (imap pair signing_keys)) in
  do! email_delivery_tokens := query list_email_outbox_delivery_tokens in
  do! reencrypted_email_delivery_tokens := lift (collect_results (fun '(i, token) =>
    reencrypt_token (key_env_nonce env (length signing_keys + i)) old_key new_key token)
    (imap pair email_delivery_tokens)) in
  do! _ := query (apply_key_encryption_rotation (key_env_now env) reencrypted_signing_keys
                    reencrypted_email_delivery_tokens) in
  succeed (mk_KeyEncryptionRotationReport "rotated" (length reencrypted_signing_keys)
             (length reencrypted_email_delivery_tokens) (key_env_now env)).
(* apps/api/src/key_encryption_operations.rs:11-69 run_key_encryption_command *)
Definition run_key_encryption_command (environ : Environ) (env : KeyEnv) (args : list string)
    : HandlerOf CommandError KeyEncryptionRotationReport :=
  match args with
  | command :: _ =>
      if String.eqb command "rotate" then
        do! _ := config_of environ in
        do! old_key := lift (required_key_encryption_key environ "CAIRN_OLD_KEY_ENCRYPTION_KEY") in
        do! new_key := lift (required_key_encryption_key environ "CAIRN_NEW_KEY_ENCRYPTION_KEY") in
        rotate_key_encryption env old_key new_key
      else fail (Command_InvalidInput "usage: cairn-api key-encryption rotate")
  | [] => fail (Command_InvalidInput "usage: cairn-api key-encryption rotate")
  end.
End commands.

(** ** Properties *)

Section rotation.
Context {CC : CryptoCrates} {TC : TokenCrates} {AG : AesGcm}.
Implicit Types (db : Database) (env : KeyEnv) (state : AppState).

(** *** The statements of the transaction *)

(** Updating rows by their keys, one after the other, when no two updates are
    of the same row. *)
Section updates.
Context {K V A : Type} `{Countable K}.
Context (get : Database -> gmap K V) (on : (gmap K V -> gmap K V) -> Database -> Database).
Context (get_on : forall rows db, get (on (fun _ => rows) db) = rows).
Context (on_on : forall rows rows' db, on (fun _ => rows) (on (fun _ => rows') db) = on (fun _ => rows) db).
Context (on_get : forall db, on (fun _ => get db) db = db).
Context (key : A -> K) (f : A -> V -> V) (program : list A -> DB unit).
Context (program_nil : program [] = db_ret tt).
Context (program_cons : forall a l, program (a :: l)
  = db_bind (update_key get on (key a) (fun _ => true) (f a)) (fun _ => program l)).

Lemma updates_run l db :
  NoDup (key <$> l) ->
  exists rows, program l db = (Ok tt, on (fun _ => rows) db)
  /\ (forall a, a ∈ l -> rows !! key a = f a <$> get db !! key a)
  /\ forall k, k ∉ key <$> l -> rows !! k = get db !! k.
Proof.
  revert db. induction l as [|a l IH]; simpl; intros db Hnd.
  { exists (get db). rewrite program_nil, on_get. split; [done|]. split; [|done].
    intros a Ha. by apply elem_of_nil in Ha. }
  apply NoDup_cons in Hnd as [Hk Hnd]. rewrite program_cons. unfold db_bind, update_key, db_apply.
  destruct (update_row _ _ _ _) as [b rows1] eqn:E.
  destruct (IH (on (fun _ => rows1) db) Hnd) as (rows & -> & Hin & Hout).
  exists rows. rewrite on_on. split; [done|]. rewrite get_on in Hin, Hout.
  assert (rows1 !! key a = f a <$> get db !! key a
          /\ forall k, k <> key a -> rows1 !! k = get db !! k) as [H1 H2].
  { destruct b.
    - apply update_row_true in E as (v & -> & _ & ->). rewrite lookup_insert_eq. split; [done|].
      intros k Hne. by rewrite lookup_insert_ne.
    - apply update_row_false in E as [-> Hn]. split; [|done].
      destruct (get db !! key a) as [v|]; [|done]. by discriminate (Hn v). }
  split.
  - intros a' [Ha'|Ha']%elem_of_cons; [subst a'; by rewrite Hout|].
    rewrite Hin, H2; [done| |done]. intros Heq. apply Hk. rewrite <- Heq. by apply list_elem_of_fmap_2.
  - intros k Hkn. rewrite Hout, H2; [done|set_solver|set_solver].
Qed.
(** The updates computed from the rows a clause selects, one for each. *)
Lemma updates_of_selection (id : V -> K) (P : V -> bool) (le : V -> V -> bool) (R : V -> A -> Prop) l db :
  map_Forall (fun k v => id v = k) (get db) ->
  (forall v a, R v a -> key a = id v) ->
  Forall2 R (order_by le (select_where P (get db))) l ->
  exists rows, program l db = (Ok tt, on (fun _ => rows) db)
  /\ forall k, match get db !! k with
               | None => rows !! k = None
               | Some v => if P v then exists a, R v a /\ rows !! k = Some (f a v) else rows !! k = Some v
               end.
Proof.
  intros Hid Hkey HR.
  assert (Hkeys : key <$> l = id <$> order_by le (select_where P (get db))).
  { clear -HR Hkey. induction HR as [|v a vs l Hva _ IH]; [done|]. cbn. by rewrite IH, (Hkey _ _ Hva). }
  destruct (updates_run l db) as (rows & Hrun & Hin & Hout).
  { rewrite Hkeys, order_by_perm. by apply select_where_NoDup. }
  exists rows. split; [done|]. intros k. destruct (get db !! k) as [v|] eqn:Ek; [destruct (P v) eqn:EP|].
  - assert (v ∈ order_by le (select_where P (get db))) as Hv
      by (apply elem_of_order_by, elem_of_select_where; eauto).
    apply list_elem_of_lookup in Hv as [i Hi]. destruct (Forall2_lookup_l _ _ _ _ _ HR Hi) as (a & Ha & Hva).
    exists a. split; [done|]. apply list_elem_of_lookup_2 in Ha.
    assert (key a = k) as Hak by (rewrite (Hkey _ _ Hva); by apply Hid).
    specialize (Hin a Ha). by rewrite Hak, Ek in Hin.
  - rewrite Hout, Ek; [done|]. rewrite Hkeys. intros (w & Hw & Hin')%list_elem_of_fmap.
    apply elem_of_order_by, elem_of_select_where in Hin' as (k' & Hk' & HPw).
    rewrite (Hid _ _ Hk') in Hw. subst k'. congruence.
  - rewrite Hout; [done|]. rewrite Hkeys. intros (w & Hw & Hin')%list_elem_of_fmap.
    apply elem_of_order_by, elem_of_select_where in Hin' as (k' & Hk' & HPw).
    rewrite (Hid _ _ Hk') in Hw. subst k'. congruence.
Qed.
End updates.

(** *** What is encrypted stays readable *)

(** The private key of a stored key, and the secret of a link, under a key
    encryption key. *)
Definition key_readable (kek : KeyEncryptionKey) (row : SigningKeyMaterialRow) (pem : string) : Prop :=
  exists m, try_into_material row = Ok m /\ decrypt_signing_private_key_pem m kek = Ok pem.
Definition link_readable (kek : KeyEncryptionKey) (m : EmailOutboxMessage) (secret : string) : Prop :=
  exists ciphertext nonce kind account_token_id,
    email_delivery_token_ciphertext m = Some ciphertext /\ email_delivery_token_nonce m = Some nonce
    /\ email_metadata_str m "kind" = Ok kind
    /\ email_metadata_str m "account_token_id" = Ok account_token_id
    /\ decrypt_secret (mk_EncryptedSecret ciphertext nonce) kek
         (account_token_delivery_aad kind account_token_id) = Ok secret.
(** The rows of a rotation: a key keeps everything but its ciphertext and
    nonce, a message everything but those of its link and the instant of the
    change. *)
Definition key_rotated (old_key new_key : KeyEncryptionKey) (row row' : SigningKeyMaterialRow) : Prop :=
  if has_secret row
  then (exists ciphertext nonce, row' = key_set_secret ciphertext nonce row)
       /\ exists pem, key_readable old_key row pem /\ key_readable new_key row' pem
  else row' = row.
Definition link_rotated (old_key new_key : KeyEncryptionKey) (now : OffsetDateTime)
    (m m' : EmailOutboxMessage) : Prop :=
  if has_delivery_token m
  then (exists ciphertext nonce, m' = email_set_delivery_token ciphertext nonce now m)
       /\ exists secret, link_readable old_key m secret /\ link_readable new_key m' secret
  else m' = m.

Lemma reencrypted_key_readable nonce row m m' old_key new_key :
  aes_round_trip AG -> String.length nonce = 12%nat ->
  try_into_material row = Ok m -> reencrypt_signing_key_material nonce m old_key new_key = Ok m' ->
  key_kid m' = key_row_kid row
  /\ let row' := key_set_secret (key_private_key_ciphertext m') (key_private_key_nonce m') row in
     exists pem, key_readable old_key row pem /\ key_readable new_key row' pem.
Proof.
  intros Haes Hn Hm. unfold reencrypt_signing_key_material. destruct (negb _); [done|].
  rewrite result_bind_Ok. intros (pem & Hpem & H). apply result_bind_Ok in H as (c & Hc%ok_or_Ok & [= <-]).
  unfold try_into_material in Hm. apply result_bind_Ok in Hm as (c0 & Hc0 & Hm).
  apply result_bind_Ok in Hm as (n0 & Hn0 & [= <-]). cbn. split; [done|]. exists pem. split.
  - eexists. split; [|exact Hpem]. unfold try_into_material. by rewrite Hc0, Hn0.
  - eexists. split; [reflexivity|]. unfold decrypt_signing_private_key_pem in Hpem |- *. cbn in Hpem |- *.
    apply Haes in Hc. cbn in Hc. rewrite Hn, Hc. cbn.
    destruct (negb _) in Hpem; [done|]. apply result_bind_Ok in Hpem as (p & _ & Hp).
    destruct (utf8_valid p) eqn:Eu; [|done]. injection Hp as ->. by rewrite Eu.
Qed.
Lemma metadata_strs_agree (m : EmailOutboxMessage) field value :
  rotation_metadata_str (email_metadata m) field (email_id m) = Ok value
  <-> email_metadata_str m field = Ok value.
Proof. unfold rotation_metadata_str, email_metadata_str. by rewrite !ok_or_Ok. Qed.
Lemma decrypted_utf8 encrypted kek aad secret :
  decrypt_secret encrypted kek aad = Ok secret -> utf8_valid secret = true.
Proof.
  unfold decrypt_secret. destruct (negb _); [done|]. intros (p & _ & Hp)%result_bind_Ok.
  destruct (utf8_valid p) eqn:E; [|done]. congruence.
Qed.
Lemma reencrypted_link_readable nonce now m token t old_key new_key :
  aes_round_trip AG -> String.length nonce = 12%nat ->
  try_into_token m = Ok token -> reencrypt_token nonce old_key new_key token = Ok t ->
  reencrypted_id t = email_id m
  /\ let m' := email_set_delivery_token (reencrypted_delivery_token_ciphertext t)
                 (reencrypted_delivery_token_nonce t) now m in
     exists secret, link_readable old_key m secret /\ link_readable new_key m' secret.
Proof.
  intros Haes Hn Hm. unfold try_into_token in Hm. apply result_bind_Ok in Hm as (c & Hc%ok_or_Ok & Hm).
  apply result_bind_Ok in Hm as (n & Hno%ok_or_Ok & [= <-]). unfold reencrypt_token. cbn.
  intros (kind & Hk%metadata_strs_agree & H)%result_bind_Ok.
  apply result_bind_Ok in H as (id & Hi%metadata_strs_agree & H).
  apply result_bind_Ok in H as (secret & Hs%map_err_Ok & H).
  apply result_bind_Ok in H as (e & He%map_err_Ok & [= <-]). cbn. split; [done|]. exists secret.
  split; eexists _, _, kind, id; (split_and!; [done..|]); [done|].
  eapply encrypt_decrypt in He; [|done..|by eapply decrypted_utf8]. by destruct e.
Qed.

Lemma rotate_keys_run ks db :
  NoDup (key_kid <$> ks) ->
  exists rows, rotate_keys ks db = (Ok tt, on_signing_keys (fun _ => rows) db)
  /\ (forall k, k ∈ ks -> rows !! key_kid k =
        key_set_secret (key_private_key_ciphertext k) (key_private_key_nonce k)
        <$> t_signing_keys db !! key_kid k)
  /\ forall kid, kid ∉ key_kid <$> ks -> rows !! kid = t_signing_keys db !! kid.
Proof. apply (updates_run t_signing_keys on_signing_keys); try done. by intros []. Qed.
Lemma rotate_tokens_run now ts db :
  NoDup (reencrypted_id <$> ts) ->
  exists rows, rotate_tokens now ts db = (Ok tt, on_email_outbox (fun _ => rows) db)
  /\ (forall t, t ∈ ts -> rows !! reencrypted_id t =
        email_set_delivery_token (reencrypted_delivery_token_ciphertext t)
          (reencrypted_delivery_token_nonce t) now <$> t_email_outbox db !! reencrypted_id t)
  /\ forall id, id ∉ reencrypted_id <$> ts -> rows !! id = t_email_outbox db !! id.
Proof. apply (updates_run t_email_outbox on_email_outbox); try done. by intros []. Qed.

(** *** The command *)

Definition related_rows {K V} `{Countable K} (R : V -> V -> Prop) (rows rows' : gmap K V) : Prop :=
  forall k, option_Forall2 R (rows !! k) (rows' !! k).
Definition outbox_keyed db : Prop := map_Forall (fun k m => email_id m = k) (t_email_outbox db).

Lemma rotation_applied now ms ts old_key new_key (nonces : nat -> string) db :
  aes_round_trip AG -> (forall i, String.length (nonces i) = 12%nat) -> signing_keys_keyed db -> outbox_keyed db ->
  Forall2 (fun row m => exists k i, try_into_material row = Ok k
             /\ reencrypt_signing_key_material (nonces i) k old_key new_key = Ok m)
    (order_by newest_first (select_where has_secret (t_signing_keys db))) ms ->
  Forall2 (fun row t => exists k i, try_into_token row = Ok k
             /\ reencrypt_token (nonces i) old_key new_key k = Ok t)
    (order_by oldest_message_first (select_where has_delivery_token (t_email_outbox db))) ts ->
  exists keys messages,
    apply_key_encryption_rotation now ms ts db
      = (Ok tt, on_email_outbox (fun _ => messages) (on_signing_keys (fun _ => keys) db))
    /\ related_rows (key_rotated old_key new_key) (t_signing_keys db) keys
    /\ related_rows (link_rotated old_key new_key now) (t_email_outbox db) messages.
Proof.
  intros Haes Hn Hkk Hok Hms Hts. unfold apply_key_encryption_rotation, transaction, db_bind at 1.
  let R := match type of Hms with Forall2 ?R _ _ => R end in
  destruct (updates_of_selection t_signing_keys on_signing_keys ltac:(done) ltac:(done) ltac:(by intros [])
    key_kid (fun k => key_set_secret (key_private_key_ciphertext k) (key_private_key_nonce k))
    rotate_keys eq_refl ltac:(done) key_row_kid has_secret newest_first R ms db Hkk)
    as (keys & -> & Hkeys); [|exact Hms|].
  { intros row m (k & i & Hk & Hm). by destruct (reencrypted_key_readable _ _ _ _ _ _ Haes (Hn i) Hk Hm). }
  unfold db_bind at 1.
  let R := match type of Hts with Forall2 ?R _ _ => R end in
  destruct (updates_of_selection t_email_outbox on_email_outbox ltac:(done) ltac:(done) ltac:(by intros [])
    reencrypted_id (fun t => email_set_delivery_token (reencrypted_delivery_token_ciphertext t)
      (reencrypted_delivery_token_nonce t) now)
    (rotate_tokens now) eq_refl ltac:(done) email_id has_delivery_token oldest_message_first R ts
    (on_signing_keys (fun _ => keys) db) Hok) as (messages & -> & Hmessages); [|exact Hts|].
  { intros row t (k & i & Hk & Ht).
    by destruct (reencrypted_link_readable _ now _ _ _ _ _ Haes (Hn i) Hk Ht). }
  exists keys, messages. split; [done|]. split; intros k.
  - specialize (Hkeys k). destruct (t_signing_keys db !! k) as [row|]; [|rewrite Hkeys; constructor].
    unfold key_rotated. destruct (has_secret row) eqn:Es.
    + destruct Hkeys as (m & (k0 & i & Hk & Hm) & ->). constructor. rewrite Es.
      destruct (reencrypted_key_readable _ _ _ _ _ _ Haes (Hn i) Hk Hm) as [_ Hr]. eauto.
    + rewrite Hkeys. constructor. by rewrite Es.
  - specialize (Hmessages k). cbn in Hmessages.
    destruct (t_email_outbox db !! k) as [m|]; [|rewrite Hmessages; constructor].
    unfold link_rotated. destruct (has_delivery_token m) eqn:Es.
    + destruct Hmessages as (t & (k0 & i & Hk & Ht) & ->). constructor. rewrite Es.
      destruct (reencrypted_link_readable _ now _ _ _ _ _ Haes (Hn i) Hk Ht) as [_ Hr]. eauto.
    + rewrite Hmessages. constructor. by rewrite Es.
Qed.

Lemma collected_twice {E F A B C} (f : A -> result E B) (g : nat * B -> result F C) l bs cs :
  collect_results f l = Ok bs -> collect_results g (imap pair bs) = Ok cs ->
  Forall2 (fun a c => exists b i, f a = Ok b /\ g (i, b) = Ok c) l cs.
Proof.
  intros Hf%collect_results_Ok Hg%collect_indexed_Ok. revert cs Hg.
  induction Hf as [|a b l bs Hab _ IH]; intros cs; inversion 1 as [|? c ? cs' (i & Hi)]; subst;
    constructor; eauto.
Qed.

Lemma rotate_key_encryption_run env old_key new_key db r db' :
  aes_round_trip AG -> (forall i, String.length (key_env_nonce env i) = 12%nat) ->
  signing_keys_keyed db -> outbox_keyed db ->
  run (rotate_key_encryption env old_key new_key) db = (r, db') ->
  match r with
  | Err _ => db' = db
  | Ok report => exists keys messages,
      db' = on_email_outbox (fun _ => messages) (on_signing_keys (fun _ => keys) db)
      /\ related_rows (key_rotated old_key new_key) (t_signing_keys db) keys
      /\ related_rows (link_rotated old_key new_key (key_env_now env)) (t_email_outbox db) messages
  end.
Proof.
  intros Haes Hn Hkk Hok. unfold rotate_key_encryption, list_encrypted_signing_key_materials,
    list_email_outbox_delivery_tokens, handler_bind. cbn [query prog_bind run db_result].
  destruct (collect_results try_into_material _) as [ks|e] eqn:Eks; cbn; [|by intros [= <- <-]].
  destruct (collect_results _ (imap pair ks)) as [ms|e] eqn:Ems; cbn; [|by intros [= <- <-]].
  destruct (collect_results try_into_token _) as [tokens|e] eqn:Ets; cbn; [|by intros [= <- <-]].
  destruct (collect_results _ (imap pair tokens)) as [ts|e] eqn:Ers; cbn; [|by intros [= <- <-]].
  destruct (rotation_applied (key_env_now env) ms ts old_key new_key (key_env_nonce env) db
    Haes Hn Hkk Hok) as (keys & messages & Hrun & Hkeys & Hmessages).
  - eapply Forall2_impl; [exact (collected_twice _ _ _ _ _ Eks Ems)|]. cbn.
    intros row m (k & i & Hk & Hm%map_err_Ok). eauto.
  - eapply Forall2_impl; [exact (collected_twice _ _ _ _ _ Ets Ers)|]. cbn.
    intros row t (k & i & Hk & Ht). eauto.
  - rewrite Hrun. cbn. intros [= <- <-]. by exists keys, messages.
Qed.

(** *** The service under the new key *)

Definition under_key (kek : KeyEncryptionKey) (state : AppState) : AppState :=
  mk_AppState (state_organization_id state) (config_issuer state) (Some kek) (config_signing state)
    (config_public_web_origin state) (config_environment state)
    (config_bootstrap_setup_secret_hash state) (config_scim_bearer_token_sha256_hashes state).

Lemma material_has_secret row m : try_into_material row = Ok m -> has_secret row = true.
Proof.
  unfold try_into_material, has_secret. intros (c & ->%ok_or_Ok & H)%result_bind_Ok.
  by apply result_bind_Ok in H as (n & ->%ok_or_Ok & _).
Qed.
Lemma key_rotated_usable old_key new_key row row' :
  key_rotated old_key new_key row row' ->
  usable row' = usable row /\ key_row_signing_active row' = key_row_signing_active row.
Proof.
  unfold key_rotated. destruct (has_secret row) eqn:Es; [|by intros ->].
  intros [(c & n & ->) _]. unfold usable. cbn. by rewrite Es.
Qed.
Lemma key_rotated_material old_key new_key row row' m m' :
  key_rotated old_key new_key row row' -> try_into_material row = Ok m -> try_into_material row' = Ok m' ->
  decrypt_signing_material m' new_key = decrypt_signing_material m old_key.
Proof.
  intros Hr Hm Hm'. unfold key_rotated in Hr. rewrite (material_has_secret _ _ Hm) in Hr.
  destruct Hr as [(c & n & ->) (pem & (m1 & Hm1 & Hp) & (m2 & Hm2 & Hp'))].
  rewrite Hm in Hm1. injection Hm1 as <-. rewrite Hm' in Hm2. injection Hm2 as <-.
  unfold decrypt_signing_material. rewrite Hp, Hp'. cbn.
  unfold try_into_material in Hm, Hm'. apply result_bind_Ok in Hm as (? & _ & Hm).
  apply result_bind_Ok in Hm as (? & _ & [= <-]). cbn in Hm'. injection Hm' as <-. done.
Qed.

Lemma rotated_signing old_key new_key state db db' :
  single_active db -> config_key_encryption_key state = Some old_key ->
  related_rows (key_rotated old_key new_key) (t_signing_keys db) (t_signing_keys db') ->
  (run (resolve_signing_material (under_key new_key state)) db').1
  = (run (resolve_signing_material state) db).1.
Proof.
  intros Hs Hold Hrel. unfold resolve_signing_material. rewrite Hold. cbn [under_key config_key_encryption_key].
  destruct (active_signing_key_spec db) as (o & Ho & Hnone & Hsome).
  destruct (active_signing_key_spec db') as (o' & Ho' & Hnone' & Hsome').
  unfold handler_bind. cbn [query prog_bind run]. rewrite Ho, Ho'. cbn.
  assert (Hback : forall kid row', t_signing_keys db' !! kid = Some row' ->
    exists row, t_signing_keys db !! kid = Some row /\ key_rotated old_key new_key row row').
  { intros kid row' Hk. specialize (Hrel kid). rewrite Hk in Hrel. inversion Hrel; subst. eauto. }
  destruct o' as [m'|].
  - destruct (Hsome' m' eq_refl) as (kid' & row' & Hrow' & Hact' & Hret' & Hm').
    destruct (Hback _ _ Hrow') as (row & Hrow & Hr). destruct (key_rotated_usable _ _ _ _ Hr) as [Hu Ha].
    destruct o as [m|].
    + destruct (Hsome m eq_refl) as (kid & row1 & Hrow1 & Hact1 & _ & Hm).
      assert (kid = kid') as -> by (eapply Hs; [exact Hrow1|exact Hrow|done|congruence]).
      assert (row1 = row) as -> by congruence.
      by rewrite (key_rotated_material _ _ _ _ _ _ Hr Hm Hm').
    + specialize (Hnone eq_refl _ _ Hrow). rewrite Hnone in Hu. unfold usable in Hu.
      by rewrite Hact', Hret', (material_has_secret _ _ Hm') in Hu.
  - destruct o as [m|]; [|done].
    destruct (Hsome m eq_refl) as (kid & row & Hrow & Hact & Hret & Hm).
    specialize (Hrel kid). rewrite Hrow in Hrel. inversion Hrel as [? row' Hr Heq Hrow'|]; subst.
    symmetry in Hrow'. specialize (Hnone' eq_refl _ _ Hrow'). destruct (key_rotated_usable _ _ _ _ Hr) as [Hu _].
    rewrite Hnone' in Hu. unfold usable in Hu. by rewrite Hact, Hret, (material_has_secret _ _ Hm) in Hu.
Qed.

Lemma rotated_link old_key new_key now m m' state :
  config_key_encryption_key state = Some old_key -> link_rotated old_key new_key now m m' ->
  render_email m' (under_key new_key state) = render_email m state.
Proof.
  intros Hold. unfold link_rotated, has_delivery_token.
  assert (Hno : is_some (email_delivery_token_ciphertext m) && is_some (email_delivery_token_nonce m) = false ->
            render_email m (under_key new_key state) = render_email m state).
  { intros Hn. unfold render_email, action_url. rewrite Hold. cbn.
    destruct (email_action_path m); cbn; [|done].
    destruct (email_delivery_token_ciphertext m); cbn; [|done].
    by destruct (email_delivery_token_nonce m). }
  destruct (_ && _) eqn:E; [|intros ->; by apply Hno]. clear Hno.
  intros [(c & n & ->) (secret & (c1 & n1 & kind & id & Hc & Hn & Hk & Hi & Hd) &
    (c2 & n2 & kind2 & id2 & Hc2 & Hn2 & Hk2 & Hi2 & Hd2))].
  cbn in Hc2, Hn2. injection Hc2 as <-. injection Hn2 as <-.
  unfold render_email, action_url. rewrite Hold, Hc, Hn, Hk, Hi.
  change (email_metadata_str (email_set_delivery_token c n now m)) with (email_metadata_str m) in *.
  rewrite Hk in Hk2. injection Hk2 as <-. rewrite Hi in Hi2. injection Hi2 as <-.
  unfold account_token_delivery_aad in Hd, Hd2. cbn. rewrite Hk, Hi. cbn. by rewrite Hd, Hd2.
Qed.

(** *** When a rotation succeeds *)

Lemma readable_key_reencrypted nonce row m pem old_key new_key :
  (forall nonce aad text, is_Some (aes_encrypt new_key nonce aad text)) ->
  key_row_algorithm row = "RS256" -> key_readable old_key row pem -> try_into_material row = Ok m ->
  exists m', reencrypt_signing_key_material nonce m old_key new_key = Ok m'.
Proof.
  intros Henc Ha (m0 & Hm0 & Hp) Hm. rewrite Hm in Hm0. injection Hm0 as <-.
  unfold reencrypt_signing_key_material. rewrite Hp.
  assert (key_algorithm m = "RS256") as ->.
  { unfold try_into_material in Hm. apply result_bind_Ok in Hm as (? & _ & Hm).
    by apply result_bind_Ok in Hm as (? & _ & [= <-]). }
  rewrite bool_decide_true by done. cbn.
  destruct (Henc nonce (signing_key_aad (key_kid m)) pem) as [c ->]. by eexists.
Qed.
Lemma readable_link_reencrypted nonce m token secret old_key new_key :
  (forall nonce aad text, is_Some (aes_encrypt new_key nonce aad text)) ->
  link_readable old_key m secret -> try_into_token m = Ok token ->
  exists t, reencrypt_token nonce old_key new_key token = Ok t.
Proof.
  intros Henc (c & n & kind & id & Hc & Hn & Hk%metadata_strs_agree & Hi%metadata_strs_agree & Hd) Ht.
  unfold try_into_token in Ht. rewrite Hc, Hn in Ht. injection Ht as <-.
  unfold reencrypt_token. cbn. rewrite Hk. cbn. rewrite Hi. cbn. rewrite Hd. cbn.
  unfold encrypt_secret. destruct (Henc nonce (account_token_delivery_aad kind id) secret) as [c' ->].
  by eexists.
Qed.
Lemma collected_origin {E A B} (f : A -> result E B) l bs i b :
  collect_results f l = Ok bs -> (i, b) ∈ imap pair bs -> exists a, a ∈ l /\ f a = Ok b.
Proof.
  intros H%collect_results_Ok Hb. apply elem_of_lookup_imap in Hb as (j & b' & [= <- <-] & Hb).
  destruct (Forall2_lookup_r _ _ _ _ _ H Hb) as (a & Ha & Hf). exists a. split; [|done].
  by eapply list_elem_of_lookup_2.
Qed.
Lemma rotation_succeeds env old_key new_key db :
  (forall nonce aad text, is_Some (aes_encrypt new_key nonce aad text)) ->
  (forall kid row, t_signing_keys db !! kid = Some row -> has_secret row = true ->
     key_row_algorithm row = "RS256" /\ exists pem, key_readable old_key row pem) ->
  (forall id m, t_email_outbox db !! id = Some m -> has_delivery_token m = true ->
     exists secret, link_readable old_key m secret) ->
  exists report, (run (rotate_key_encryption env old_key new_key) db).1 = Ok report.
Proof.
  intros Henc Hkeys Hlinks. unfold rotate_key_encryption, list_encrypted_signing_key_materials,
    list_email_outbox_delivery_tokens, handler_bind. cbn [query prog_bind run db_result].
  destruct (collect_results_ok try_into_material
    (order_by newest_first (select_where has_secret (t_signing_keys db)))) as [ks Eks].
  { intros row (kid & Hrow & Hs)%elem_of_order_by%elem_of_select_where.
    destruct (Hkeys _ _ Hrow Hs) as [_ (pem & m & Hm & _)]. eauto. }
  rewrite Eks. cbn.
  match goal with |- context [collect_results ?f ?l] => destruct (collect_results_ok f l) as [ms Ems] end.
  { intros [i m] Him. destruct (collected_origin _ _ _ _ _ Eks Him) as (row & Hrow & Hm).
    apply elem_of_order_by, elem_of_select_where in Hrow as (kid & Hrow & Hs).
    destruct (Hkeys _ _ Hrow Hs) as [Ha (pem & Hp)].
    destruct (readable_key_reencrypted (key_env_nonce env i) _ _ _ _ _ Henc Ha Hp Hm) as [m' ->]. by eexists. }
  rewrite Ems. cbn.
  destruct (collect_results_ok try_into_token
    (order_by oldest_message_first (select_where has_delivery_token (t_email_outbox db)))) as [tokens Ets].
  { intros m (id & Hm & Hs)%elem_of_order_by%elem_of_select_where.
    destruct (Hlinks _ _ Hm Hs) as (secret & c & n & kind & aid & Hc & Hn & _).
    unfold try_into_token. rewrite Hc, Hn. by eexists. }
  rewrite Ets. cbn.
  match goal with |- context [collect_results ?f ?l] => destruct (collect_results_ok f l) as [ts Ers] end.
  { intros [i t] Hit. destruct (collected_origin _ _ _ _ _ Ets Hit) as (m & Hm & Ht).
    apply elem_of_order_by, elem_of_select_where in Hm as (id & Hm & Hs).
    destruct (Hlinks _ _ Hm Hs) as (secret & Hl).
    by eapply readable_link_reencrypted. }
  rewrite Ers. cbn. unfold apply_key_encryption_rotation, transaction, db_bind.
  destruct (rotate_keys_total ms db) as [db1 ->].
  destruct (rotate_tokens_total (key_env_now env) ts db1) as [db2 ->]. by eexists.
Qed.

(** C31. Rotating the key encryption key is all or nothing and loses no signing
    key and no link.  If the command fails, for whatever row, the database is
    unchanged.  If it succeeds, nothing but the encrypted columns of the signing
    keys and of the outbox has changed (and the instant of the latter), and a
    service started with the new key does what the old one did: it signs with
    the same key, or fails for the same reason, and the worker renders every
    message of the outbox to the same text with the same link.  And it succeeds
    whenever every stored key and every link can be read under the old key. *)
Theorem rotation_keeps_keys_and_links env old_key new_key db r db' :
  aes_round_trip AG -> (forall i, String.length (key_env_nonce env i) = 12%nat) ->
  signing_keys_keyed db -> outbox_keyed db -> single_active db ->
  run (rotate_key_encryption env old_key new_key) db = (r, db') ->
  (forall e, r = Err e -> db' = db)
  /\ (forall report, r = Ok report ->
       (exists keys messages,
          db' = on_email_outbox (fun _ => messages) (on_signing_keys (fun _ => keys) db)
          /\ related_rows (key_rotated old_key new_key) (t_signing_keys db) keys
          /\ related_rows (link_rotated old_key new_key (key_env_now env)) (t_email_outbox db) messages)
       /\ forall state, config_key_encryption_key state = Some old_key ->
            (run (resolve_signing_material (under_key new_key state)) db').1
            = (run (resolve_signing_material state) db).1
            /\ forall id m, t_email_outbox db !! id = Some m ->
                 exists m', t_email_outbox db' !! id = Some m'
                   /\ render_email m' (under_key new_key state) = render_email m state)
  /\ ((forall nonce aad text, is_Some (aes_encrypt new_key nonce aad text)) ->
      (forall kid row, t_signing_keys db !! kid = Some row -> has_secret row = true ->
         key_row_algorithm row = "RS256" /\ exists pem, key_readable old_key row pem) ->
      (forall id m, t_email_outbox db !! id = Some m -> has_delivery_token m = true ->
         exists secret, link_readable old_key m secret) ->
      exists report, r = Ok report).
Proof.
  intros Haes Hn Hkk Hok Hs Hrun.
  pose proof (rotate_key_encryption_run _ _ _ _ _ _ Haes Hn Hkk Hok Hrun) as H. split_and!.
  - intros e ->. exact H.
  - intros report ->. split; [exact H|]. destruct H as (keys & messages & -> & Hkeys & Hmessages).
    intros state Hold. split; [by apply (rotated_signing old_key)|]. intros id m Hm.
    specialize (Hmessages id). rewrite Hm in Hmessages. inversion Hmessages as [? m' Hl Heq Hm'|]; subst.
    exists m'. split; [done|]. exact (rotated_link _ _ _ _ _ _ Hold Hl).
  - intros Henc Hkeys Hlinks. destruct (rotation_succeeds env old_key new_key db Henc Hkeys Hlinks) as [rep Hr].
    exists rep. by rewrite Hrun in Hr.
Qed.

(** *** What a rotation leaves behind *)

(** The secret of an authenticator, encrypted under one key and of no use to
    another. *)
Definition sealed_under `{Base64Decode} (old_key new_key : KeyEncryptionKey) (credential : MfaCredential)
    : Prop :=
  let aad := totp_credential_aad (mfa_organization_id credential) (mfa_user_id credential) in
  exists encrypted secret, encrypted_secret_from_totp_metadata credential = Ok encrypted
    /\ decrypt_secret encrypted old_key aad = Ok secret
    /\ aes_decrypt new_key (encrypted_nonce encrypted) aad (encrypted_ciphertext encrypted) = None.

(** C32. Authenticators do not survive a rotation.  Their secrets are encrypted
    under the same key but are not among what the command re-encrypts: it leaves
    every second factor as it was, and under the new key every code of a user
    with an authenticator, a right one and a recovery code included, is answered
    with an internal error, so such users cannot show their second factor. *)
Theorem rotation_strands_authenticators {BD : Base64Decode} {TO : TotpCrate} env old_key new_key db
    report db' state clock credential others recovery_codes code :
  aes_round_trip AG -> (forall i, String.length (key_env_nonce env i) = 12%nat) ->
  signing_keys_keyed db -> outbox_keyed db ->
  run (rotate_key_encryption env old_key new_key) db = (Ok report, db') ->
  sealed_under old_key new_key credential ->
  t_mfa_credentials db' = t_mfa_credentials db
  /\ run (verify_mfa_code_against_credentials (under_key new_key state) clock (credential :: others)
            recovery_codes code) db'
     = (Err (api_status 500 "MFA decryption failed"), db').
Proof.
  intros Haes Hn Hkk Hok Hrun (e & secret & He & Ho & Hnew).
  destruct (rotate_key_encryption_run _ _ _ _ _ _ Haes Hn Hkk Hok Hrun) as (keys & messages & -> & _).
  split; [done|]. unfold verify_mfa_code_against_credentials. cbn [verify_totp_credentials].
  unfold verify_totp_code. rewrite He. cbn. unfold decrypt_secret in Ho |- *.
  destruct (negb _); [done|]. by rewrite Hnew.
Qed.
End rotation.
