(* ===== verification/Operator.v ===== *)
(** * Starting the service and breaking the glass

    [apps/api/src]'s main.rs and admin_operations.rs, [crates/database]'s
    organizations.rs and groups/break_glass.rs: what the service makes sure of
    before it serves, and the operator's command that makes a user an owner of
    the administrators group when nobody can.  The theorems say that the
    command restores the administration, all or nothing and on record, and that
    a service that starts serves an organization that exists, unless two
    services start at once. *)

From S2P Require Import Prelude RustStr Domain Authn Oidc Http Codec Store.
From S2P Require Import SessionStore.
From S2P Require Import Directory Lifecycle AuditStore Frames StatementFrames.
From S2P Require Import Handler KeyStore OAuthPolicy BrowserSession AuthorizeRequest Mfa Config KeyRotation.

(** ** Organizations *)

(** [INSERT .. ON CONFLICT (slug) DO NOTHING]; the identifier is the primary key. *)
(* crates/database/src/organizations.rs:6-24 create_organization *)
Definition create_organization (organization : Organization) : DB unit := fun db =>
  if bool_decide (map_Forall (fun _ o => organization_slug o <> organization_slug organization)
                    (t_organizations db))
  then
    (let! _ := db_check (fun db => absent (t_organizations db) (organization_id organization))
                 UniqueViolation in
     db_modify (on_organizations (<[organization_id organization := organization]>))) db
  else (Ok tt, db).
(* crates/database/src/organizations.rs:26-42 get_organization_by_slug *)
Definition get_organization_by_slug (slug : string) : DB (option Organization) :=
  db_gets (fun db => find_row (fun o => bool_decide (organization_slug o = slug)) (t_organizations db)).

(** ** Breaking the glass *)

(* crates/database/src/types/users.rs:34-44 BreakGlassAdminRecovery *)
Record BreakGlassAdminRecovery := mk_BreakGlassAdminRecovery {
  recovery_organization_id : Uuid;
  recovery_user_id : Uuid;
  recovery_user_email : string;
  recovery_user_status_before : UserStatus;
  recovery_user_status_after : UserStatus;
  recovery_admin_group_id : Uuid;
  recovery_admin_group_created : bool;
  recovery_membership_role_before : option MembershipRole;
  recovery_membership_role_after : MembershipRole;
}.
(** The transaction, once the organization is known to exist. *)
(* crates/database/src/groups/break_glass.rs:37-175 break_glass_grant_admin_owner *)
Definition break_glass_body (organization_id user_id : Uuid) (admin_group : Group) (at_ : OffsetDateTime)
    (audit_event : AuditEvent) : DB (TxEnd (option BreakGlassAdminRecovery)) :=
  let! user_row := get_user_with_password organization_id user_id in
  match user_row with
  | None => commit None
  | Some user =>
  let! group_row := get_group_by_slug organization_id (group_slug admin_group) in
  let! group := match group_row with
                | Some row => db_ret (group_id row, false)
                | None => let! _ := create_group admin_group in db_ret (group_id admin_group, true)
                end in
  let '(admin_group_id, admin_group_created) := group in
  let! membership_role_before :=
    locked_membership_role_in_transaction organization_id admin_group_id user_id in
  let! _ := write_membership
    (mk_Membership organization_id user_id admin_group_id MembershipRole_Owner at_) in
  let! updated_user :=
    update_returning organization_id user_id (user_set_status UserStatus_Active at_) in
  let! _ := insert_audit_event audit_event in
  commit (Some (mk_BreakGlassAdminRecovery organization_id user_id (user_email updated_user)
    (user_status (uwp_user user)) (user_status updated_user) admin_group_id admin_group_created
    membership_role_before MembershipRole_Owner))
  end.
(* crates/database/src/groups/break_glass.rs:14-35 break_glass_grant_admin_owner *)
Definition break_glass_grant_admin_owner (organization_id user_id : Uuid) (admin_group : Group)
    (at_ : OffsetDateTime) (audit_event : AuditEvent) : DB (option BreakGlassAdminRecovery) :=
  transaction (
    let! organization_exists := db_gets (fun db => t_organizations db !! organization_id) in
    match organization_exists with
    | None => db_err NotFound
    | Some _ => break_glass_body organization_id user_id admin_group at_ audit_event
    end).

(* apps/api/src/admin_operations.rs:145-159 BreakGlassOwnerReport *)
Record BreakGlassOwnerReport := mk_BreakGlassOwnerReport {
  break_glass_status : string;
  break_glass_recovery : BreakGlassAdminRecovery;
  break_glass_audit_event_id : Uuid;
  break_glass_completed_at : OffsetDateTime;
}.
(* apps/api/src/admin_operations.rs:115-134 break_glass_owner_report *)
Definition break_glass_owner_report (recovery : BreakGlassAdminRecovery) (audit_event_id : Uuid)
    (completed_at : OffsetDateTime) : BreakGlassOwnerReport :=
  mk_BreakGlassOwnerReport "granted" recovery audit_event_id completed_at.
Definition BREAK_GLASS_CONFIRMATION : string := "grant-admin-owner".
(* apps/api/src/admin_operations.rs:100-102 break_glass_confirmation_is_valid *)
Definition break_glass_confirmation_is_valid (value : option string) : bool :=
  bool_decide (value = Some BREAK_GLASS_CONFIRMATION).
(* apps/api/src/admin_operations.rs:104-113 break_glass_admin_group *)
Definition break_glass_admin_group (id organization_id : Uuid) (created_at : OffsetDateTime) : Group :=
  mk_Group id organization_id ADMINISTRATORS_GROUP_SLUG None ADMINISTRATORS_GROUP_DISPLAY_NAME
    created_at.
Definition break_glass_usage : CommandError :=
  Command_InvalidInput "usage: cairn-api admin break-glass-owner <user-email>".

(** The identifiers and instants of one command. *)
Record OperatorEnv := mk_OperatorEnv {
  operator_now : OffsetDateTime;
  operator_group_id : Uuid;
  operator_event_id : Uuid;
  operator_event_now : OffsetDateTime;
}.

Section commands.
Context {CC : CryptoCrates} {TC : TokenCrates} {AG : AesGcm} {RK : RsaKeys}.
Context {KB : KeyBytes} {BD : Base64Decode} {SJ : SerdeJson}.
Context {UC : UrlCrate} {UP : UrlParts} {UH : UrlHostText}.

Definition break_glass_event (env : OperatorEnv) (organization_id user_id : Uuid)
    (email default_org_slug : string) : AuditEvent :=
  audit_build (operator_event_id env) (operator_event_now env)
    (audit_with_metadata
      (Object [("command", String_ "cairn-api admin break-glass-owner");
               ("requested_email", String_ email);
               ("default_org_slug", String_ default_org_slug)])
      (audit_system organization_id "operator.break_glass_owner_granted" (uuid_to_string user_id))).
(* apps/api/src/admin_operations.rs:16-98 run_admin_command *)
Definition run_admin_command (environ : Environ) (env : OperatorEnv) (args : list string)
    : HandlerOf CommandError BreakGlassOwnerReport :=
  match args with
  | [] => fail break_glass_usage
  | command :: rest =>
  if negb (String.eqb command "break-glass-owner") then fail break_glass_usage
  else
  match rest with
  | [] => fail break_glass_usage
  | email :: _ =>
  do! _ := reject_if (negb (break_glass_confirmation_is_valid (environ "CAIRN_BREAK_GLASS_CONFIRM")))
    (Command_InvalidInput
      "set CAIRN_BREAK_GLASS_CONFIRM=grant-admin-owner to acknowledge admin-auth bypass") in
  do! config := config_of environ in
  do! email := lift (map_err Command_Domain (normalize_email email)) in
  do! organization := query (get_organization_by_slug (api_default_org_slug config)) in
  do! organization := some_or organization
    (Command_InvalidInput ("organization " +:+ api_default_org_slug config +:+ " does not exist")) in
  do! user := query (find_user_by_email (organization_id organization) email) in
  do! user := some_or user
    (Command_InvalidInput ("user " +:+ email +:+ " does not exist in organization "
       +:+ api_default_org_slug config)) in
  let now := operator_now env in
  let admin_group := break_glass_admin_group (operator_group_id env) (organization_id organization) now in
  let audit_event := break_glass_event env (organization_id organization) (user_id (uwp_user user))
                       email (api_default_org_slug config) in
  do! recovery := query (break_glass_grant_admin_owner (organization_id organization)
    (user_id (uwp_user user)) admin_group now audit_event) in
  do! recovery := some_or recovery
    (Command_InvalidInput ("user " +:+ email +:+ " no longer exists in organization "
       +:+ api_default_org_slug config)) in
  succeed (break_glass_owner_report recovery (audit_id audit_event) now)
  end end.

(** ** Starting *)

(** Logging, connecting, migrating, the address to bind and the listener are
    left out; what is left is the state the handlers are given. *)
(* apps/api/src/main.rs:94-133 run *)
Definition start_service (environ : Environ) (key_env : KeyEnv) (new_organization_id : Uuid)
    (organization_now : OffsetDateTime) : HandlerOf CommandError AppState :=
  do! config := config_of environ in
  do! _ := ensure_startup_signing_key key_env config in
  do! existing := query (get_organization_by_slug (api_default_org_slug config)) in
  do! organization :=
    match existing with
    | Some organization => succeed organization
    | None =>
        do! organization := lift (map_err Command_Domain
          (Organization_new new_organization_id organization_now (api_default_org_slug config)
             "Default Organization")) in
        do! _ := query (create_organization organization) in
        succeed organization
    end in
  succeed (app_state (organization_id organization) config).
End commands.

(** ** Properties *)

(** *** The transaction *)

(** The group of the administration, found or created. *)
Definition group_of_administration (organization_id : Uuid) (admin_group : Group) (gid : Uuid)
    (created : bool) (db db1 : Database) : Prop :=
  if created
  then gid = group_id admin_group /\ t_groups db !! gid = None
       /\ db1 = on_groups (<[gid := admin_group]>) db
       /\ forall k g, t_groups db !! k = Some g -> group_organization_id g = organization_id ->
            group_slug g <> group_slug admin_group
  else db1 = db /\ exists g, t_groups db !! gid = Some g /\ group_organization_id g = organization_id
       /\ group_slug g = group_slug admin_group.
(** The row that makes a user an owner: a new one, or the one there was. *)
Definition owner_row (organization_id user_id gid : Uuid) (at_ : OffsetDateTime) (db : Database)
    (m : Membership) : Prop :=
  match t_memberships db !! (user_id, gid) with
  | Some existing => m = membership_set_role MembershipRole_Owner existing
  | None => m = mk_Membership organization_id user_id gid MembershipRole_Owner at_
  end.
(** The whole change. *)
Definition glass_broken (organization_id id : Uuid) (admin_group : Group) (at_ : OffsetDateTime)
    (event : AuditEvent) (recovery : BreakGlassAdminRecovery) (db db' : Database) : Prop :=
  let gid := recovery_admin_group_id recovery in
  exists u db1 m,
    t_users db !! id = Some u /\ user_organization_id (uwp_user u) = organization_id
    /\ group_of_administration organization_id admin_group gid (recovery_admin_group_created recovery) db db1
    /\ owner_row organization_id id gid at_ db m
    /\ t_audit_events db !! audit_id event = None
    /\ db' = on_audit_events (<[audit_id event := event]>)
               (with_user id (on_user (user_set_status UserStatus_Active at_) u)
                 (on_memberships (<[(id, gid) := m]>) db1))
    /\ recovery_user_id recovery = id /\ recovery_user_status_before recovery = user_status (uwp_user u)
    /\ recovery_user_email recovery = user_email (uwp_user u)
    /\ recovery_user_status_after recovery = UserStatus_Active
    /\ recovery_membership_role_after recovery = MembershipRole_Owner.

Lemma break_glass_run o id admin_group at_ event db r db' :
  directory_wf db -> group_organization_id admin_group = o ->
  break_glass_grant_admin_owner o id admin_group at_ event db = (r, db') ->
  match r with
  | Ok (Some recovery) => glass_broken o id admin_group at_ event recovery db db'
  | _ => db' = db
  end.
Proof.
  intros Hwf Hgo H. destruct r as [x|e]; [|by eapply transaction_Err].
  assert (exists e db1, (let! organization_exists := db_gets (fun db => t_organizations db !! o) in
    match organization_exists with None => db_err NotFound | Some _ => break_glass_body o id admin_group at_ event end) db
    = (Ok e, db1) /\ match e with Commit y => x = y /\ db' = db1 | Rollback y => x = y /\ db' = db end)
    as (e & dbe & H1 & He) 
    by (apply transaction_Ok in H as [H|(db1 & H & ->)];
        [by exists (Commit x), db'|by exists (Rollback x), db1]).
  clear H. rename H1 into H.
  apply db_bind_Ok in H as (oo & ? & Ho & H). unfold db_gets in Ho. injection Ho as Hoo <-.
  destruct oo as [org|]; [|done]. clear Hoo.
  unfold break_glass_body in H.
  apply db_bind_Ok in H as (user & ? & [-> Hu]%get_user_with_password_Ok & H).
  destruct user as [u|]; [|injection H as <- <-; by destruct He as [-> ->]]. destruct Hu as [Hu Huo].
  apply db_bind_Ok in H as (g & ? & Hg & H). unfold get_group_by_slug, db_gets in Hg.
  injection Hg as <- <-.
  apply db_bind_Ok in H as ([gid created] & db1 & Hgroup & H).
  assert (group_of_administration o admin_group gid created db db1
          /\ t_memberships db1 = t_memberships db /\ t_users db1 = t_users db
          /\ t_audit_events db1 = t_audit_events db) as (Hga & Hm1 & Hu1 & Ha1).
  { destruct (find_row _ (t_groups db)) as [g|] eqn:Eg.
    - unfold db_ret in Hgroup. injection Hgroup as <- <- <-. split; [|by split_and!]. split; [done|].
      apply find_row_Some in Eg as (k & Hk & [Hgi%N.eqb_eq Hs%bool_decide_eq_true]%andb_true_iff).
      exists g. by rewrite (wf_groups _ Hwf _ _ Hk).
    - clear H. unfold create_group, absent in Hgroup. db_steps. bool_prop. subst db1.
      split; [|by split_and!]. split_and!; try done.
      intros k g Hk Hgk. rewrite find_row_None in Eg. specialize (Eg _ _ Hk). unfold group_in in Eg.
      rewrite Hgk, N.eqb_refl in Eg. by apply bool_decide_eq_false in Eg. }
  apply db_bind_Ok in H as (before & ? & Hbefore & H).
  unfold locked_membership_role_in_transaction, db_gets in Hbefore. injection Hbefore as _ <-.
  apply db_bind_Ok in H as ([] & db2 & Hw & H).
  assert (exists m, owner_row o id gid at_ db m /\ db2 = on_memberships (<[(id, gid) := m]>) db1) as (m & Hm & ->).
  { unfold write_membership in Hw. unfold owner_row. rewrite <- Hm1. cbn in Hw.
    change (membership_key (mk_Membership o id gid MembershipRole_Owner at_)) with (id, gid) in Hw.
    destruct (t_memberships db1 !! (id, gid)) as [existing|].
    - db_steps. eauto.
    - unfold create_membership in Hw. db_steps. eauto. }
  rewrite <- Hu1 in Hu.
  apply db_bind_Ok in H as (updated & db3 & Hup & H).
  rewrite (update_returning_run o id (user_set_status UserStatus_Active at_) u) in Hup by done.
  injection Hup as <- <-. unfold insert_audit_event, absent in H.
  apply db_bind_Ok in H as ([] & db4 & Hev & H). injection H as <- <-. destruct He as [-> ->].
  db_steps. bool_prop.
  exists u, db1, m. rewrite <- Hu1, <- Ha1. by split_and!.
Qed.

Lemma break_glass_succeeds o org id u admin_group at_ event db :
  directory_wf db -> t_organizations db !! o = Some org ->
  t_users db !! id = Some u -> user_organization_id (uwp_user u) = o ->
  group_organization_id admin_group = o -> group_scim_external_id admin_group = None ->
  t_groups db !! group_id admin_group = None ->
  t_audit_events db !! audit_id event = None -> audit_organization_id event = o ->
  exists recovery, (break_glass_grant_admin_owner o id admin_group at_ event db).1 = Ok (Some recovery).
Proof.
  intros Hwf Horg Hu Huo Hgo Hge Hg Ha Hao.
  unfold break_glass_grant_admin_owner, transaction, db_bind at 1, db_gets at 1. rewrite Horg.
  unfold break_glass_body. unfold db_bind at 1.
  rewrite (proj2 (get_user_with_password_Ok o id db (Some u) db)) by done.
  unfold db_bind at 1, get_group_by_slug, db_gets at 1.
  set (found := find_row _ _).
  assert (exists gid created db1,
    match found with
    | Some row => db_ret (group_id row, false)
    | None => let! _ := create_group admin_group in db_ret (group_id admin_group, true)
    end db = (Ok (gid, created), db1)
    /\ fk_group db1 gid o = true /\ t_organizations db1 = t_organizations db
    /\ t_memberships db1 = t_memberships db /\ t_users db1 = t_users db
    /\ t_audit_events db1 = t_audit_events db) as (gid & created & db1 & Hrun & Hfk & Ho1 & Hm1 & Hu1 & Ha1).
  { destruct found as [g|] eqn:Eg; subst found.
    - exists (group_id g), false, db. split; [done|]. split; [|done].
      apply find_row_Some in Eg as (k & Hk & [Hgi%N.eqb_eq _]%andb_true_iff).
      unfold fk_group. rewrite (wf_groups _ Hwf _ _ Hk), Hk. by apply N.eqb_eq.
    - exists (group_id admin_group), true, (on_groups (<[group_id admin_group := admin_group]>) db).
      split.
      + unfold create_group, db_bind, db_check, absent, fk_organization. rewrite Hg, Hgo.
        assert (group_unique db (group_id admin_group) o (group_slug admin_group)
                  (group_scim_external_id admin_group) = true) as ->;
          [|cbn; rewrite Horg; by rewrite (bool_decide_true (is_Some (Some org))) by by eexists].
        unfold group_unique. apply bool_decide_eq_true. intros k g Hk _ Hgi. rewrite Hge. split; [|done].
        rewrite find_row_None in Eg. specialize (Eg _ _ Hk). unfold group_in in Eg.
        rewrite Hgi, N.eqb_refl in Eg. by apply bool_decide_eq_false in Eg.
      + split; [|done]. unfold fk_group. cbn. rewrite lookup_insert_eq. by apply N.eqb_eq. }
  unfold db_bind at 1. rewrite Hrun. clear Hrun. unfold db_bind at 1.
  unfold locked_membership_role_in_transaction, db_gets at 1.
  set (before := match t_memberships db1 !! _ with Some _ => _ | None => _ end). clearbody before.
  unfold db_bind at 1.
  assert (exists rows, write_membership (mk_Membership o id gid MembershipRole_Owner at_) db1
    = (Ok tt, on_memberships rows db1)) as [rows ->].
  { unfold write_membership. destruct (t_memberships db1 !! _) as [e|] eqn:E; [by eexists|].
    unfold create_membership, absent, db_bind, db_check. rewrite E. cbn -[membership_fk].
    assert (membership_fk db1 (mk_Membership o id gid MembershipRole_Owner at_) = true) as ->; [|by eexists].
    unfold membership_fk. cbn [membership_organization_id membership_user_id membership_group_id].
    rewrite Hfk. unfold fk_organization, fk_user. rewrite Ho1, Hu1, Horg, Hu.
    rewrite bool_decide_true by by eexists. cbn. rewrite andb_true_r. by apply N.eqb_eq. }
  unfold db_bind at 1.
  rewrite (update_returning_run o id _ u) by (cbn; rewrite ?Hu1; done).
  unfold db_bind at 1, insert_audit_event, db_bind, db_check, absent, fk_organization. cbn.
  rewrite Ha1, Ha, Hao. cbn. rewrite Ho1, Horg.
  rewrite (bool_decide_true (is_Some (Some org))) by by eexists. cbn. by eexists.
Qed.

(** *** The command *)

Section broken.
Context {CC : CryptoCrates} {TC : TokenCrates} {AG : AesGcm} {RK : RsaKeys}.
Context {KB : KeyBytes} {BD : Base64Decode} {SJ : SerdeJson}.
Context {UC : UrlCrate} {UP : UrlParts} {UH : UrlHostText}.
Implicit Types (db : Database) (env : OperatorEnv).

(** What the operator asked for, and for whom. *)
Record glass_request (environ : Environ) (args : list string) db (config : ApiConfig)
    (organization : Organization) (u : UserWithPassword) (address : string) : Prop := mk_glass_request {
  glass_args : exists email rest, args = "break-glass-owner" :: email :: rest
    /\ normalize_email email = Ok address;
  glass_confirmed : environ "CAIRN_BREAK_GLASS_CONFIRM" = Some "grant-admin-owner";
  glass_config : api_config_from_env environ = Ok config;
  glass_organization : get_organization_by_slug (api_default_org_slug config) db
    = (Ok (Some organization), db);
  glass_user : find_user_by_email (organization_id organization) address db = (Ok (Some u), db);
}.

Lemma run_admin_command_Ok environ env args db report db' :
  run (run_admin_command environ env args) db = (Ok report, db') <->
  exists config organization u address recovery,
    glass_request environ args db config organization u address
    /\ break_glass_grant_admin_owner (organization_id organization) (user_id (uwp_user u))
         (break_glass_admin_group (operator_group_id env) (organization_id organization) (operator_now env))
         (operator_now env)
         (break_glass_event env (organization_id organization) (user_id (uwp_user u)) address
            (api_default_org_slug config)) db = (Ok (Some recovery), db')
    /\ report = break_glass_owner_report recovery (operator_event_id env) (operator_now env).
Proof.
  unfold run_admin_command. split.
  - intros H. destruct args as [|command rest]; [done|].
    destruct (String.eqb_spec command "break-glass-owner") as [->|]; cbn [negb] in H; [|done].
    destruct rest as [|email rest]; [done|]. run_steps.
    unfold config_of in *. run_steps.
    repeat match goal with H : map_err _ _ = Ok _ |- _ => apply map_err_Ok in H end.
    match goal with H : negb _ = false |- _ => apply negb_false_iff, bool_decide_eq_true in H end.
    unfold get_organization_by_slug, find_user_by_email, db_gets in *. simplify_eq.
    match goal with H : break_glass_grant_admin_owner _ _ _ _ _ _ = _ |- _ => rename H into Hrun end.
    eexists _, _, _, _, _. split; [|split; [exact Hrun|done]].
    split; [by exists email, rest|done|done| |]; unfold get_organization_by_slug, find_user_by_email, db_gets;
      by repeat f_equal.
  - intros (config & organization & u & address & recovery & [(email & rest & -> & He) Hc Hcfg Ho Hu] & Hrun & ->).
    lazy beta iota. rewrite String.eqb_refl. cbn [negb].
    unfold break_glass_confirmation_is_valid. rewrite Hc, bool_decide_true by done. cbn [negb reject_if].
    unfold config_of. rewrite Hcfg, He. cbn. unfold get_organization_by_slug, find_user_by_email, db_gets in Ho, Hu.
    injection Ho as Ho. injection Hu as Hu. rewrite Ho. cbn. rewrite Hu. cbn. rewrite Hrun. done.
Qed.

Lemma run_admin_command_Err environ env args db e db' :
  directory_wf db -> run (run_admin_command environ env args) db = (Err e, db') -> db' = db.
Proof.
  intros Hwf. unfold run_admin_command. destruct args as [|command rest]; [by intros [= _ <-]|].
  destruct (negb _); [by intros [= _ <-]|]. destruct rest as [|email rest]; [by intros [= _ <-]|].
  destruct (negb _); [by intros [= _ <-]|]. cbn [reject_if]. unfold config_of.
  destruct (api_config_from_env environ) as [config|]; [|by intros [= _ <-]].
  destruct (normalize_email email) as [address|]; [|by intros [= _ <-]].
  unfold handler_bind. cbn [prog_bind succeed map_err lift query run].
  destruct (get_organization_by_slug _ db) as [[[organization|]|] db1] eqn:Eo;
    unfold get_organization_by_slug, db_gets in Eo; [|injection Eo as _ <-; by intros [= _ <-]|done].
  injection Eo as _ <-. cbn.
  destruct (find_row _ (t_users db)) as [u|]; [|by intros [= _ <-]]. cbn.
  match goal with |- (let '(_, _) := ?c in _) = _ -> _ => destruct c as [r1 db1] eqn:Eb end.
  apply break_glass_run in Eb; [|done..]. destruct r1 as [[?|]|]; by intros [= ? <-].
Qed.

(** An owner remains one; the user is one now. *)
Lemma glass_broken_owners o id admin_group at_ event recovery db db' :
  directory_wf db -> members_wf db -> group_organization_id admin_group = o ->
  group_slug admin_group = ADMINISTRATORS_GROUP_SLUG ->
  glass_broken o id admin_group at_ event recovery db db' ->
  is_administrator db' o id /\ owner_of db' o (recovery_admin_group_id recovery) id
  /\ has_active_owner o ADMINISTRATORS_GROUP_SLUG db'
  /\ forall gid uid, owner_of db o gid uid -> owner_of db' o gid uid.
Proof.
  intros Hwf Hmwf Hgo Hgs (u & db1 & m & Hu & Huo & Hg & Hm & _ & -> & _ & _).
  set (gid := recovery_admin_group_id recovery) in *.
  assert (exists g, t_groups db1 !! gid = Some g /\ group_organization_id g = o
          /\ group_slug g = ADMINISTRATORS_GROUP_SLUG) as (g & Hgr & Hgro & Hgrs).
  { unfold group_of_administration in Hg. destruct (recovery_admin_group_created recovery).
    - destruct Hg as (Hid & _ & -> & _). exists admin_group. cbn. by rewrite lookup_insert_eq.
    - destruct Hg as (-> & g & ? & ? & ?). exists g. split_and!; try done. congruence. }
  assert (Hrest : t_memberships db1 = t_memberships db /\ t_users db1 = t_users db).
  { unfold group_of_administration in Hg. destruct (recovery_admin_group_created recovery).
    - by destruct Hg as (_ & _ & -> & _).
    - by destruct Hg as (-> & _). }
  destruct Hrest as [Hm1 Hu1].
  assert (membership_role m = MembershipRole_Owner /\ membership_key m = (id, gid)
          /\ membership_organization_id m = o) as (Hrole & Hkey & Hmo).
  { unfold owner_row in Hm. destruct (t_memberships db !! (id, gid)) as [e|] eqn:Ee; [|by subst m].
    destruct (Hmwf _ _ Ee) as [Hk Hfk]. subst m. split_and!; [done|done|]. cbn.
    unfold fk_group in Hfk. cbn in Hfk.
    unfold group_of_administration in Hg. destruct (recovery_admin_group_created recovery).
    - destruct Hg as (_ & Hn & _). by rewrite Hn in Hfk.
    - destruct Hg as (-> & _). rewrite Hgr in Hfk. apply N.eqb_eq in Hfk. congruence. }
  assert (How : owner_of (on_audit_events (<[audit_id event := event]>)
      (with_user id (on_user (user_set_status UserStatus_Active at_) u)
        (on_memberships (<[(id, gid) := m]>) db1))) o gid id).
  { split.
    - exists m. cbn. by rewrite lookup_insert_eq.
    - eexists. cbn. by rewrite lookup_insert_eq. }
  split_and!; [|done| |].
  - exists (id, gid), m, g. cbn. rewrite lookup_insert_eq. injection Hkey as Hk1 Hk2.
    split_and!; try done. unfold membership_group. cbn. rewrite Hk2, Hgr. unfold group_in.
    by rewrite Hgro, Hmo, N.eqb_refl.
  - exists gid, g, id. by split_and!.
  - intros gid' uid [(m' & Hm' & Hmo' & Hr') (u' & Hu' & Huo' & Hs')]. split.
    + cbn. rewrite Hm1. destruct (decide ((uid, gid') = (id, gid))) as [->|Hne].
      * exists m. by rewrite lookup_insert_eq.
      * exists m'. by rewrite lookup_insert_ne by congruence.
    + cbn. rewrite Hu1. destruct (decide (uid = id)) as [->|Hne].
      * eexists. rewrite lookup_insert_eq. split_and!; [done|cbn; congruence|done].
      * exists u'. by rewrite lookup_insert_ne by congruence.
Qed.

(** C33. Breaking the glass restores the administration, and only with the
    operator's confirmation.  A command that fails changes nothing.  One that
    succeeds was confirmed, and named by its address a user of the configured
    organization; that user is now active and an owner of the administrators
    group, which was found or created; no owner of any group lost that role;
    one event of the system tells of it in the audit log, and nothing else has
    changed.  And it does succeed whenever there is such a user, whatever state
    the administration is in. *)
Theorem break_glass_restores_administration environ env args db r db' :
  directory_wf db -> members_wf db ->
  run (run_admin_command environ env args) db = (r, db') ->
  (forall e, r = Err e -> db' = db)
  /\ (forall report, r = Ok report -> exists config organization u address,
       glass_request environ args db config organization u address
       /\ let o := organization_id organization in
          let event := break_glass_event env o (user_id (uwp_user u)) address (api_default_org_slug config) in
          glass_broken o (user_id (uwp_user u))
            (break_glass_admin_group (operator_group_id env) o (operator_now env)) (operator_now env)
            event (break_glass_recovery report) db db'
          /\ is_administrator db' o (user_id (uwp_user u))
          /\ has_active_owner o ADMINISTRATORS_GROUP_SLUG db'
          /\ (forall gid uid, owner_of db o gid uid -> owner_of db' o gid uid)
          /\ audit_actor_kind event = ActorKind_System)
  /\ (forall config organization u address, glass_request environ args db config organization u address ->
       t_organizations db !! organization_id organization = Some organization ->
       t_groups db !! operator_group_id env = None -> t_audit_events db !! operator_event_id env = None ->
       exists report, r = Ok report).
Proof.
  intros Hwf Hmwf Hrun. split_and!.
  - intros e ->. by eapply run_admin_command_Err.
  - intros report ->. apply run_admin_command_Ok in Hrun as (config & organization & u & address & recovery & Hreq & Hb & ->).
    exists config, organization, u, address. split; [done|]. cbv zeta. cbn [break_glass_recovery break_glass_owner_report].
    apply break_glass_run in Hb; [|done..].
    pose proof Hb as Hb'. eapply glass_broken_owners in Hb' as (Ha & _ & Hh & Hk); [|done..]. by split_and!.
  - intros config organization u address Hreq Horg Hg He.
    pose proof (glass_user _ _ _ _ _ _ _ Hreq) as Hu. unfold find_user_by_email, db_gets in Hu.
    injection Hu as (k & Hk & [Hin%N.eqb_eq _]%andb_true_iff)%find_row_Some.
    destruct (break_glass_succeeds (organization_id organization) organization (user_id (uwp_user u)) u
      (break_glass_admin_group (operator_group_id env) (organization_id organization) (operator_now env))
      (operator_now env)
      (break_glass_event env (organization_id organization) (user_id (uwp_user u)) address
        (api_default_org_slug config)) db Hwf Horg) as [recovery Hb]; try done.
    { by rewrite (wf_users _ Hwf _ _ Hk). }
    destruct (break_glass_grant_admin_owner _ _ _ _ _ db) as [r1 db1] eqn:Eb. cbn in Hb. subst r1.
    assert (Hok : run (run_admin_command environ env args) db
      = (Ok (break_glass_owner_report recovery (operator_event_id env) (operator_now env)), db1))
      by (apply run_admin_command_Ok; by exists config, organization, u, address, recovery).
    rewrite Hrun in Hok. injection Hok as -> _. by eexists.
Qed.
End broken.

(** *** Starting *)

Section started.
Context {CC : CryptoCrates} {TC : TokenCrates} {AG : AesGcm} {RK : RsaKeys}.
Context {KB : KeyBytes} {BD : Base64Decode} {SJ : SerdeJson}.
Context {UC : UrlCrate} {UP : UrlParts} {UH : UrlHostText}.
Implicit Types (db : Database) (key_env : KeyEnv).

Definition organizations_keyed db : Prop :=
  map_Forall (fun k o => organization_id o = k) (t_organizations db).

Lemma encrypted_material_usable nonce now signing kek key :
  encrypt_signing_material nonce now signing kek = Ok key -> usable (key_row_of key) = true.
Proof. unfold encrypt_signing_material. by intros (c & _ & [= <-])%result_bind_Ok. Qed.
Lemma generated_usable key_env kek key :
  generate_encrypted_signing_key key_env kek = Ok key -> usable (key_row_of key) = true.
Proof.
  unfold generate_encrypted_signing_key. intros (pem & _ & H)%result_bind_Ok.
  apply result_bind_Ok in H as (jwk & _ & H). by eapply encrypted_material_usable.
Qed.
Lemma ensured_active key_env config db db' :
  run (ensure_startup_signing_key key_env config) db = (Ok tt, db') ->
  t_organizations db' = t_organizations db
  /\ (api_environment config = Production ->
        api_key_encryption_key config <> None \/ api_signing config <> None)
  /\ (api_key_encryption_key config <> None ->
        exists key, active_signing_key db' = (Ok (Some key), db')).
Proof.
  unfold ensure_startup_signing_key. intros H. run_step. run_step. rename H0 into Hp.
  assert (api_environment config = Production ->
    api_key_encryption_key config <> None \/ api_signing config <> None) as Hprod.
  { intros Hprod. rewrite Hprod, bool_decide_true, andb_true_r in Hp by done.
    destruct (api_key_encryption_key config), (api_signing config); naive_solver. }
  destruct (api_key_encryption_key config) as [kek|]; [|run_steps; split_and!; naive_solver].
  run_step. run_step. destruct (active_signing_key_spec db) as (o & Ho & _ & _).
  pose proof Ho as Hact. rewrite H0 in Ho. injection Ho as <- ->. destruct a0 as [key|].
  { change (is_some (Some key)) with true in H. lazy iota in H. injection H as <-. split_and!; [done|done|]. intros _. exists key. exact Hact. }
  clear Hact H0. change (is_some None) with false in H. lazy iota in H. run_steps. apply map_err_Ok in H0.
  assert (usable (key_row_of a0) = true) as Hus
    by (destruct (api_signing config); [by eapply encrypted_material_usable|by eapply generated_usable]).
  unfold upsert_signing_key_material in H. apply transaction_Ok in H as [H|(db1 & H & _)]; [|by db_steps].
  assert (t_organizations db' = t_organizations db
          /\ t_signing_keys db' !! key_kid a0 = Some (key_row_of a0)) as [Ho1 Hk].
  { destruct (key_signing_active a0); db_steps; (split; [done|]); cbn; by rewrite lookup_insert_eq. }
  split_and!; [done|done|]. intros _. destruct (active_signing_key_spec db') as (o & Ho' & Hnone & _).
  destruct o as [key|]; [by exists key|]. exfalso. by rewrite (Hnone eq_refl _ _ Hk) in Hus.
Qed.

(** A service that starts alone serves an organization that exists, under the
    slug it is configured with, and starts with the same one the next time; in
    production it has something to sign with, and with a key encryption key an
    active signing key.  The slug must have no blanks around it: the
    organization is created under the trimmed slug and looked for under the
    other. *)
Theorem started_service environ key_env new_id now db state db' :
  organizations_keyed db ->
  run (start_service environ key_env new_id now) db = (Ok state, db') ->
  exists config organization, api_config_from_env environ = Ok config
  /\ (trim (api_default_org_slug config) = api_default_org_slug config ->
       t_organizations db' !! state_organization_id state = Some organization
       /\ organization_slug organization = api_default_org_slug config
       /\ (forall key_env' new_id' now' state' db'',
            run (start_service environ key_env' new_id' now') db' = (Ok state', db'') -> state' = state))
  /\ (api_environment config = Production ->
        config_key_encryption_key state <> None \/ config_signing state <> None)
  /\ (config_key_encryption_key state <> None ->
        exists key, active_signing_key db' = (Ok (Some key), db')).
Proof.
  intros Hk H. unfold start_service, config_of in H. run_steps. apply map_err_Ok in H0. rename a into config.
  destruct a0. apply ensured_active in H1 as (Ho & Hp & Hact).
  unfold get_organization_by_slug, db_gets in H2. injection H2 as <- <-.
  set (named := fun o => bool_decide (organization_slug o = api_default_org_slug config)) in *.
  assert (t_signing_keys dbx2 = t_signing_keys dbx0
    /\ (trim (api_default_org_slug config) = api_default_org_slug config ->
        find_row named (t_organizations dbx2) = Some a2
        /\ t_organizations dbx2 !! organization_id a2 = Some a2)) as [Hkeys Hfound].
  { destruct (find_row named (t_organizations dbx0)) as [o|] eqn:Ef.
    - run_steps. split; [done|]. intros _. split; [done|].
      apply find_row_Some in Ef as (k & Hrow & _). rewrite Ho in Hrow |- *.
      by rewrite (Hk _ _ Hrow).
    - run_steps. apply map_err_Ok in H as Hnew2. destruct a0. unfold create_organization in H1.
      assert (Hslug : trim (api_default_org_slug config) = api_default_org_slug config ->
                organization_slug a = api_default_org_slug config).
      { intros Htrim. unfold Organization_new in Hnew2. apply result_bind_Ok in Hnew2 as (slug & Hs & Hnew2).
        apply result_bind_Ok in Hnew2 as (? & _ & [= <-]). cbn. unfold checked_string in Hs.
        destruct (is_empty _); [done|]. destruct (_ <? _)%nat; [done|]. by injection Hs as <-. }
      rewrite find_row_None in Ef.
      case_bool_decide as Hall.
      + db_steps. subst. split; [done|]. intros Htrim. cbn. rewrite lookup_insert_eq. split; [|done].
        destruct (find_row named (<[organization_id a:=a]> (t_organizations dbx0))) as [o|] eqn:Ef2.
        * apply find_row_Some in Ef2 as (k & [[_ <-]|[_ Hrow]]%lookup_insert_Some & Hn); [done|].
          by rewrite (Ef _ _ Hrow) in Hn.
        * rewrite find_row_None in Ef2. specialize (Ef2 (organization_id a) a (lookup_insert_eq _ _ _)).
          unfold named in Ef2. rewrite bool_decide_true in Ef2 by by apply Hslug. done.
      + injection H1 as <-. split; [done|]. intros Htrim. exfalso. apply Hall. intros k o Hrow Hs.
        specialize (Ef _ _ Hrow). unfold named in Ef. apply bool_decide_eq_false in Ef. apply Ef.
        rewrite Hs. by apply Hslug. }
  exists config, a2. split; [done|]. split; [|split].
  - intros Htrim. destruct (Hfound Htrim) as [Hf Hrow]. split; [exact Hrow|]. split.
    { apply find_row_Some in Hf as (? & _ & Hn). by apply bool_decide_eq_true in Hn. }
    intros key_env' new_id' now' state' db'' H. unfold start_service, config_of in H. run_steps.
    apply map_err_Ok in H1. assert (a = config) as -> by congruence. destruct a0.
    apply ensured_active in H2 as (Ho' & _ & _).
    unfold get_organization_by_slug, db_gets in H4. injection H4 as <- <-. rewrite Ho' in H5.
    fold named in H5. rewrite Hf in H5. run_steps. done.
  - done.
  - intros Hkek. destruct (Hact Hkek) as [key Hkey]. exists key.
    unfold active_signing_key in Hkey |- *. rewrite Hkeys.
    destruct (order_by newest_first _) as [|row rows]; [done|]. unfold db_result in Hkey |- *.
    injection Hkey as ->. done.
Qed.
End started.
