(* ===== verification/AuditOperations.v ===== *)
(** * The operator's commands on the audit log

    [apps/api/src]'s audit_operations.rs with audit_operations/{retention,export}:
    the command that deletes what is older than the retention period, a batch
    at a time, and the command that writes a part of the log to a file.  The
    theorems say which events a purge deletes and that enough purges delete all
    that expired, that exports which go on where the last one stopped write
    exactly the listing, and what the arguments of an export mean. *)

From S2P Require Import Prelude RustStr Domain Authn Oidc Http Codec Store.
From S2P Require Import SessionStore Directory AuditStore.
From S2P Require Import Handler KeyStore OAuthPolicy BrowserSession AuthorizeRequest Mfa Config Listing.
From S2P Require Import RequestContext KeyRotation Operator.
From Stdlib Require Import Sorted.

(** ** Retention *)

(* apps/api/src/audit_operations/retention.rs:32-43 AuditRetentionPurgeReport *)
Record AuditRetentionPurgeReport := mk_AuditRetentionPurgeReport {
  purge_status : string;
  purge_organization_id : Uuid;
  purge_retention_days : Z;
  purge_cutoff : OffsetDateTime;
  purge_batch_size : Z;
  purge_deleted : nat;
  purge_completed_at : OffsetDateTime;
}.
(* apps/api/src/audit_operations/retention.rs:28-30 audit_retention_cutoff *)
Definition audit_retention_cutoff (now : OffsetDateTime) (retention_days : Z) : OffsetDateTime :=
  (now - duration_minutes (60 * 24 * retention_days))%Z.
Section retention.
Context {AG : AesGcm} {KB : KeyBytes}.
(* apps/api/src/audit_operations/retention.rs:7-26 purge_expired_audit_events *)
Definition purge_expired_audit_events (config : ApiConfig) (organization_id : Uuid)
    (now : OffsetDateTime) : HandlerOf CommandError AuditRetentionPurgeReport :=
  let audit := api_audit config in
  let cutoff := audit_retention_cutoff now (audit_retention_days audit) in
  do! deleted := query (delete_audit_events_before organization_id cutoff
                          (audit_purge_batch_size audit)) in
  succeed (mk_AuditRetentionPurgeReport "ok" organization_id (audit_retention_days audit) cutoff
             (audit_purge_batch_size audit) deleted now).
End retention.

(** ** The arguments of an export *)

(* apps/api/src/audit_operations/export/options.rs:11-17 AuditExportOptions *)
Record AuditExportOptions := mk_AuditExportOptions {
  export_output_path : string;
  export_limit : Z;
  export_after : option ListCursor;
  export_filter : AuditEventListFilter;
}.
(** The variables of the loop over the flags. *)
Record ExportParts := mk_ExportParts {
  limit_flag : option Z;
  action_flag : option string;
  target_flag : option string;
  actor_kind_flag : option AuditActorKind;
  actor_id_flag : option Uuid;
  from_flag : option OffsetDateTime;
  to_flag : option OffsetDateTime;
  after_created_at_flag : option OffsetDateTime;
  after_id_flag : option Uuid;
}.
Definition no_export_parts : ExportParts :=
  mk_ExportParts None None None None None None None None None.
Definition AUDIT_EXPORT_DEFAULT_LIMIT : Z := 1000.
Definition AUDIT_EXPORT_USAGE : string :=
  "usage: cairn-api audit export-ndjson <output-path> [--limit <rows>] [--action <prefix>] [--target <prefix>] [--actor-kind <user|client|system>] [--actor-id <uuid>] [--from <rfc3339>] [--to <rfc3339>] [--after-created-at <rfc3339> --after-id <uuid>]".

Section options.
Context {UU : UuidCrate} {RP : Rfc3339Parse}.

(* apps/api/src/audit_operations/export/options.rs:181-194 audit_export_prefix *)
Definition audit_export_prefix (value too_large_message : string)
    : result CommandError (option string) :=
  let trimmed := trim value in
  if (128 <? String.length trimmed)%nat then Err (Command_InvalidInput too_large_message)
  else if is_empty trimmed then Ok None
  else Ok (Some (to_ascii_lowercase trimmed)).
(* apps/api/src/audit_operations/export/options.rs:196-203 audit_export_actor_kind *)
Definition audit_export_actor_kind (value : string) : result CommandError AuditActorKind :=
  let value := trim value in
  if String.eqb value "user" then Ok ActorKind_User
  else if String.eqb value "client" then Ok ActorKind_Client
  else if String.eqb value "system" then Ok ActorKind_System
  else Err (Command_InvalidInput "invalid audit export --actor-kind").
(* apps/api/src/audit_operations/export/options.rs:205-208 audit_export_timestamp *)
Definition audit_export_timestamp (value : string) : result CommandError OffsetDateTime :=
  ok_or (rfc3339_parse (trim value)) (Command_InvalidInput "invalid audit export timestamp").
(** The limit and the identifiers among the arms of the loop. *)
(* apps/api/src/audit_operations/export/options.rs:75-84 audit_export_options *)
Definition audit_export_limit (max_rows : Z) (value : string) : result CommandError Z :=
  let? parsed := ok_or (parse_i64 value) (Command_InvalidInput "invalid audit export --limit") in
  if (parsed <? 1)%Z || (max_rows <? parsed)%Z
  then Err (Command_InvalidInput "audit export --limit out of range") else Ok parsed.
Definition audit_export_id (value message : string) : result CommandError Uuid :=
  ok_or (Uuid_parse_str (trim value)) (Command_InvalidInput message).

(** Whether a flag has been given before; [None] is an argument that is no
    flag.  A prefix that was blank counts as not given. *)
(* apps/api/src/audit_operations/export/options.rs:47-74 audit_export_options *)
Definition flag_given (s : ExportParts) (flag : string) : option bool :=
  if String.eqb flag "--limit" then Some (is_some (limit_flag s))
  else if String.eqb flag "--action" then Some (is_some (action_flag s))
  else if String.eqb flag "--target" then Some (is_some (target_flag s))
  else if String.eqb flag "--actor-kind" then Some (is_some (actor_kind_flag s))
  else if String.eqb flag "--actor-id" then Some (is_some (actor_id_flag s))
  else if String.eqb flag "--from" then Some (is_some (from_flag s))
  else if String.eqb flag "--to" then Some (is_some (to_flag s))
  else if String.eqb flag "--after-created-at" then Some (is_some (after_created_at_flag s))
  else if String.eqb flag "--after-id" then Some (is_some (after_id_flag s))
  else None.
(* apps/api/src/audit_operations/export/options.rs:75-136 audit_export_options *)
Definition take_flag (max_rows : Z) (s : ExportParts) (flag value : string)
    : result CommandError ExportParts :=
  let '(mk_ExportParts limit action target kind actor from to after_at after_id) := s in
  if String.eqb flag "--limit" then
    let? v := audit_export_limit max_rows value in
    Ok (mk_ExportParts (Some v) action target kind actor from to after_at after_id)
  else if String.eqb flag "--action" then
    let? v := audit_export_prefix value "audit export --action too large" in
    Ok (mk_ExportParts limit v target kind actor from to after_at after_id)
  else if String.eqb flag "--target" then
    let? v := audit_export_prefix value "audit export --target too large" in
    Ok (mk_ExportParts limit action v kind actor from to after_at after_id)
  else if String.eqb flag "--actor-kind" then
    let? v := audit_export_actor_kind value in
    Ok (mk_ExportParts limit action target (Some v) actor from to after_at after_id)
  else if String.eqb flag "--actor-id" then
    let? v := audit_export_id value "invalid audit export --actor-id" in
    Ok (mk_ExportParts limit action target kind (Some v) from to after_at after_id)
  else if String.eqb flag "--from" then
    let? v := audit_export_timestamp value in
    Ok (mk_ExportParts limit action target kind actor (Some v) to after_at after_id)
  else if String.eqb flag "--to" then
    let? v := audit_export_timestamp value in
    Ok (mk_ExportParts limit action target kind actor from (Some v) after_at after_id)
  else if String.eqb flag "--after-created-at" then
    let? v := audit_export_timestamp value in
    Ok (mk_ExportParts limit action target kind actor from to (Some v) after_id)
  else if String.eqb flag "--after-id" then
    let? v := audit_export_id value "invalid audit export --after-id" in
    Ok (mk_ExportParts limit action target kind actor from to after_at (Some v))
  else Err (Command_InvalidInput "unsupported audit export argument").
(** The value of a flag is the next argument, as next_audit_export_arg takes it. *)
(* apps/api/src/audit_operations/export/options.rs:44-137 audit_export_options *)
Fixpoint export_flags (max_rows : Z) (s : ExportParts) (args : list string)
    : result CommandError ExportParts :=
  match args with
  | [] => Ok s
  | flag :: args =>
      match flag_given s flag with
      | None => Err (Command_InvalidInput "unsupported audit export argument")
      | Some true => Err (Command_InvalidInput ("duplicate audit export " +:+ flag))
      | Some false =>
          match args with
          | [] => Err (Command_InvalidInput ("missing value for " +:+ flag))
          | value :: args =>
              let? s := take_flag max_rows s flag value in
              export_flags max_rows s args
          end
      end
  end.
(* apps/api/src/audit_operations/export/options.rs:139-167 audit_export_options *)
Definition export_options (output_path : string) (max_rows : Z) (s : ExportParts)
    : result CommandError AuditExportOptions :=
  let? _ := match from_flag s, to_flag s with
            | Some from, Some to =>
                if (to <=? from)%Z then Err (Command_InvalidInput "audit export time range invalid")
                else Ok tt
            | _, _ => Ok tt
            end in
  let? after := match after_created_at_flag s, after_id_flag s with
                | Some created_at, Some id => Ok (Some (mk_ListCursor created_at id))
                | None, None => Ok None
                | _, _ => Err (Command_InvalidInput
                    "audit export cursor requires both --after-created-at and --after-id")
                end in
  Ok (mk_AuditExportOptions output_path
        (default (Z.min AUDIT_EXPORT_DEFAULT_LIMIT max_rows) (limit_flag s)) after
        (mk_AuditEventListFilter (action_flag s) (target_flag s) (actor_kind_flag s)
           (actor_id_flag s) (from_flag s) (to_flag s))).
(* apps/api/src/audit_operations/export/options.rs:19-167 audit_export_options *)
Definition audit_export_options (args : list string) (export_max_rows : Z)
    : result CommandError AuditExportOptions :=
  match args with
  | [] => Err (Command_InvalidInput AUDIT_EXPORT_USAGE)
  | output_path :: args =>
      if is_empty (trim output_path) || String.eqb output_path "-"
      then Err (Command_InvalidInput "audit export output path must be a file path, not stdout")
      else
        let max_rows := clamp export_max_rows 1 50000 in
        let? s := export_flags max_rows no_export_parts args in
        export_options output_path max_rows s
  end.
End options.

(** ** Writing an export *)

(** The files there are, by path, and what the operating system does: whether
    it lets a file be created, whether it writes [bytes] to a file that
    holds [contents], and whether it makes a file durable.  Paths are texts;
    links are left out. *)
Notation Files := (gmap string string).
Class Disk := {
  disk_creates : string -> bool;
  disk_writes : string -> string -> bool;
  disk_syncs : string -> bool;
}.

(* apps/api/src/audit_operations/export/receipt.rs:24-34 AuditExportReceiptFilter *)
Record AuditExportReceiptFilter := mk_AuditExportReceiptFilter {
  receipt_action_prefix : option string;
  receipt_target_prefix : option string;
  receipt_actor_kind : option string;
  receipt_actor_id : option Uuid;
  receipt_created_from : option OffsetDateTime;
  receipt_created_to : option OffsetDateTime;
}.
(* apps/api/src/audit_operations/export/receipt.rs:6-22 AuditExportReceipt *)
Record AuditExportReceipt := mk_AuditExportReceipt {
  receipt_status : string;
  receipt_organization_id : Uuid;
  receipt_output_path : string;
  receipt_rows_exported : nat;
  receipt_bytes_written : nat;
  receipt_limit : Z;
  receipt_export_max_rows : Z;
  receipt_has_more : bool;
  receipt_next_after_created_at : option OffsetDateTime;
  receipt_next_after_id : option Uuid;
  receipt_filters : AuditExportReceiptFilter;
  receipt_completed_at : OffsetDateTime;
}.
(* apps/api/src/audit_operations/export/archive.rs:64-70 audit_export_actor_kind_name *)
Definition audit_export_actor_kind_name (kind : AuditActorKind) : string :=
  match kind with
  | ActorKind_User => "user"
  | ActorKind_Client => "client"
  | ActorKind_System => "system"
  end.

Section exports.
Context {DK : Disk}.
(** [serde_json::to_writer] of an event. *)
Variable event_json : AuditEvent -> option string.

(** The lines after what the file holds; a write that fails leaves the file
    with what was written before it. *)
(* apps/api/src/audit_operations/export/archive.rs:77-80 loop *)
Fixpoint write_events (contents : string) (events : list AuditEvent)
    : result CommandError unit * string :=
  match events with
  | [] => (Ok tt, contents)
  | event :: events =>
      match event_json event with
      | None => (Err Command_Json, contents)
      | Some line =>
          if disk_writes contents line then
            let contents := contents +:+ line in
            if disk_writes contents newline then write_events (contents +:+ newline) events
            else (Err (Command_Io false), contents)
          else (Err Command_Json, contents)
      end
  end.
(** The number of bytes of the file. *)
(* apps/api/src/audit_operations/export/archive.rs:72-84 write_audit_export_ndjson_file *)
Definition write_audit_export_ndjson_file (path : string) (events : list AuditEvent) (files : Files)
    : result CommandError nat * Files :=
  if is_some (files !! path) then (Err (Command_Io true), files)
  else if negb (disk_creates path) then (Err (Command_Io false), files)
  else
    let '(written, contents) := write_events "" events in
    let files := <[path := contents]> files in
    match written with
    | Err e => (Err e, files)
    | Ok _ => if disk_syncs path then (Ok (String.length contents), files)
              else (Err (Command_Io false), files)
    end.

(** The rows of the page, whether there are more, and where they start. *)
Definition export_page (rows : list AuditEvent) (limit : Z) : list AuditEvent * bool * option ListCursor :=
  let limit := Z.to_nat limit in
  let has_more := (limit <? length rows)%nat in
  let events := if has_more then take limit rows else rows in
  (events, has_more, if has_more then (fun event => mk_ListCursor (audit_created_at event) (audit_id event)) <$> last events else None).
(* apps/api/src/audit_operations/export/archive.rs:10-62 export_audit_events_ndjson *)
Definition export_audit_events_ndjson (like : string -> string -> bool) (organization_id : Uuid)
    (export_max_rows : Z) (options : AuditExportOptions) (completed_at : OffsetDateTime) (files : Files)
    : HandlerOf CommandError (result CommandError AuditExportReceipt * Files) :=
  let export_max_rows := clamp export_max_rows 1 50000 in
  let fetch_limit := Z.min (Z.min (export_limit options + 1) i64_max) (export_max_rows + 1) in
  do! rows := query (list_audit_events_page_filtered like organization_id (export_filter options)
                       (export_after options) (Z.to_nat fetch_limit)) in
  let '(events, has_more, next_after) := export_page rows (export_limit options) in
  let '(bytes_written, files) :=
    write_audit_export_ndjson_file (export_output_path options) events files in
  let filter := export_filter options in
  succeed (let? bytes_written := bytes_written in
    Ok (mk_AuditExportReceipt "ok" organization_id (export_output_path options) (length events)
      bytes_written (export_limit options) export_max_rows has_more
      (cursor_created_at <$> next_after) (cursor_tie_breaker_id <$> next_after)
      (mk_AuditExportReceiptFilter (filter_action_prefix filter) (filter_target_prefix filter)
         (audit_export_actor_kind_name <$> filter_actor_kind filter) (filter_actor_id filter)
         (filter_created_from filter) (filter_created_to filter))
      completed_at), files).
End exports.

(** ** The command *)

Definition AUDIT_COMMAND_USAGE : string :=
  "usage: cairn-api audit <purge-expired|export-ndjson <output-path> [--limit <rows>] [--action <prefix>] [--target <prefix>] [--actor-kind <user|client|system>] [--actor-id <uuid>] [--from <rfc3339>] [--to <rfc3339>] [--after-created-at <rfc3339> --after-id <uuid>]>".
(** What a command prints; writing it as JSON is left out. *)
Inductive AuditCommandOutput :=
| Printed_Purge (report : AuditRetentionPurgeReport)
| Printed_Export (receipt : AuditExportReceipt).

Section command.
Context {CC : CryptoCrates} {AG : AesGcm} {KB : KeyBytes} {BD : Base64Decode} {SJ : SerdeJson}.
Context {UC : UrlCrate} {UP : UrlParts} {UH : UrlHostText}.
Context {UU : UuidCrate} {RP : Rfc3339Parse} {DK : Disk}.
Variables (event_json : AuditEvent -> option string) (like : string -> string -> bool).

(** Connecting to the database and migrating it are left out. *)
(* apps/api/src/audit_operations.rs:47-64 default_organization_database *)
Definition default_organization_database (config : ApiConfig) : HandlerOf CommandError Uuid :=
  do! organization := query (get_organization_by_slug (api_default_org_slug config)) in
  do! organization := some_or organization
    (Command_InvalidInput ("organization " +:+ api_default_org_slug config +:+ " does not exist")) in
  succeed (organization_id organization).
(** The files are left as they were when the command fails before it writes. *)
(* apps/api/src/audit_operations.rs:13-45 run_audit_command *)
Definition run_audit_command (environ : Environ) (now : OffsetDateTime) (args : list string)
    (files : Files) : HandlerOf CommandError (result CommandError AuditCommandOutput * Files) :=
  match args with
  | "purge-expired" :: _ =>
      do! config := config_of environ in
      do! organization_id := default_organization_database config in
      do! report := purge_expired_audit_events config organization_id now in
      succeed (Ok (Printed_Purge report), files)
  | "export-ndjson" :: args =>
      do! config := config_of environ in
      do! options := lift (audit_export_options args (audit_export_max_rows (api_audit config))) in
      do! organization_id := default_organization_database config in
      do! written := export_audit_events_ndjson event_json like organization_id
        (audit_export_max_rows (api_audit config)) options now files in
      let '(receipt, files) := written in
      succeed (let? receipt := receipt in Ok (Printed_Export receipt), files)
  | _ => fail (Command_InvalidInput AUDIT_COMMAND_USAGE)
  end.
End command.

(** ** Properties *)

(** *** The purge *)

(** Of a list in order, a test that holds of what is before what it holds of
    takes the first ones. *)
Lemma filter_take_sorted {A} (le : A -> A -> bool) (P : A -> bool) n l :
  StronglySorted (fun a b => le a b = true) l ->
  (forall a b, a ∈ l -> le a b = true -> P b = true -> P a = true) ->
  List.filter P (take n l) = take n (List.filter P l).
Proof.
  intros Hs. revert n. induction Hs as [|a l Hs IH Ha]; intros n Hdown; [by destruct n|].
  assert (Hdown' : forall a b, a ∈ l -> le a b = true -> P b = true -> P a = true)
    by (intros c b Hc; apply Hdown; by right).
  destruct n as [|n]; [done|]. cbn. destruct (P a) eqn:Pa; cbn; [by rewrite IH|].
  rewrite IH by done. assert (List.filter P l = []) as ->; [|by destruct n].
  assert (Hnone : Forall (fun b => P b = false) l).
  { eapply Forall_impl; [exact Ha|]. intros b Hb. destruct (P b) eqn:Pb; [|done].
    rewrite (Hdown a b) in Pa; [done|by left|done|done]. }
  clear - Hnone. induction Hnone as [|b l Hb _ IHl]; [done|]. cbn. by rewrite Hb.
Qed.

Definition audit_keyed (db : Database) : Prop :=
  map_Forall (fun k e => audit_id e = k) (t_audit_events db).
(** The events of an organization before an instant. *)
Definition expired (organization_id : Uuid) (before : OffsetDateTime) (e : AuditEvent) : bool :=
  N.eqb (audit_organization_id e) organization_id && (audit_created_at e <? before)%Z.

Lemma created_asc_total a b : created_asc a b = true \/ created_asc b a = true.
Proof. unfold created_asc. rewrite !orb_true_iff, !andb_true_iff, !Z.ltb_lt, !Z.eqb_eq, !N.leb_le. lia. Qed.
Lemma created_asc_trans a b c :
  created_asc a b = true -> created_asc b c = true -> created_asc a c = true.
Proof. unfold created_asc. rewrite !orb_true_iff, !andb_true_iff, !Z.ltb_lt, !Z.eqb_eq, !N.leb_le. lia. Qed.
Lemma created_asc_le a b : created_asc a b = true -> (audit_created_at a <= audit_created_at b)%Z.
Proof. unfold created_asc. rewrite orb_true_iff, andb_true_iff, Z.ltb_lt, Z.eqb_eq. lia. Qed.

Section purge.
Context (o : Uuid) (before : OffsetDateTime) (n : nat) (db : Database).
Context (Hkeyed : audit_keyed db).

Lemma elem_of_expired_events e :
  e ∈ expired_events o before n db -> t_audit_events db !! audit_id e = Some e /\ expired o before e = true.
Proof.
  unfold expired_events. intros He. eapply elem_of_sublist in He; [|apply sublist_take].
  apply elem_of_order_by, elem_of_select_where in He as (k & Hk & He). by rewrite (Hkeyed _ _ Hk).
Qed.
Lemma contains_expired e :
  t_audit_events db !! audit_id e = Some e ->
  contains (audit_id <$> expired_events o before n db) (audit_id e) = true
  <-> e ∈ expired_events o before n db.
Proof.
  intros He. unfold contains. rewrite bool_decide_eq_true, list_elem_of_fmap. split; [|eauto].
  intros (e' & Hid & He'). pose proof (elem_of_expired_events _ He') as [He2 _].
  rewrite <- Hid, He in He2. by injection He2 as ->.
Qed.
Lemma expired_events_NoDup : NoDup (expired_events o before n db).
Proof.
  apply (NoDup_fmap_1 audit_id). unfold expired_events. eapply sublist_NoDup; [|apply fmap_sublist, sublist_take].
  rewrite order_by_perm. by apply select_where_NoDup.
Qed.
Lemma expired_events_length :
  length (expired_events o before n db) = Nat.min n (count_where (expired o before) (t_audit_events db)).
Proof. unfold expired_events, count_where. by rewrite length_take, order_by_perm. Qed.

Definition gone (e : AuditEvent) : bool :=
  contains (audit_id <$> expired_events o before n db) (audit_id e).
Lemma gone_iff k e :
  t_audit_events db !! k = Some e -> gone e = true <-> e ∈ expired_events o before n db.
Proof. intros Hk. apply contains_expired. by rewrite (Hkeyed _ _ Hk). Qed.
Lemma gone_expired k e : t_audit_events db !! k = Some e -> gone e = true -> expired o before e = true.
Proof. intros Hk He. eapply gone_iff in He; [|exact Hk]. by apply elem_of_expired_events. Qed.
Lemma count_gone : count_where gone (t_audit_events db) = length (expired_events o before n db).
Proof.
  unfold count_where. apply Permutation_length, NoDup_Permutation.
  - by eapply NoDup_fmap_1, select_where_NoDup.
  - apply expired_events_NoDup.
  - intros e. rewrite elem_of_select_where. split.
    + intros (k & Hk & He). by eapply gone_iff.
    + intros He. pose proof (elem_of_expired_events _ He) as [Hk _]. exists (audit_id e).
      split; [done|]. by eapply gone_iff.
Qed.
(** Among what was kept, what a shorter retention would have taken too has
    lost up to [n] of its events: the oldest go first. *)
Lemma purge_progress before0 :
  (before0 <= before)%Z ->
  count_where (expired o before0) (delete_where gone (t_audit_events db))
  = count_where (expired o before0) (t_audit_events db) - n.
Proof.
  intros Hb.
  assert (expired_mono : forall e, expired o before0 e = true -> expired o before e = true).
  { intros e. unfold expired. rewrite !andb_true_iff, !Z.ltb_lt. intros [-> ?]. split; [done|lia]. }
  set (P := expired o before0). set (X := select_where P (t_audit_events db)).
  assert (Hrest : select_where P (delete_where gone (t_audit_events db))
                  ≡ₚ List.filter (fun e => negb (gone e)) X).
  { apply NoDup_Permutation.
    - eapply NoDup_fmap_1, (select_where_NoDup audit_id). intros k e Hk.
      apply lookup_delete_where in Hk as [Hk _]. by apply Hkeyed.
    - apply NoDup_ListNoDup, List.NoDup_filter, NoDup_ListNoDup. by eapply NoDup_fmap_1, select_where_NoDup.
    - intros e. rewrite elem_of_select_where, list_elem_of_In, filter_In, <- list_elem_of_In.
      unfold X. rewrite elem_of_select_where, negb_true_iff. setoid_rewrite lookup_delete_where. naive_solver. }
  assert (Htaken : List.filter gone X ≡ₚ List.filter P (expired_events o before n db)).
  { apply NoDup_Permutation.
    - apply NoDup_ListNoDup, List.NoDup_filter, NoDup_ListNoDup. by eapply NoDup_fmap_1, select_where_NoDup.
    - apply NoDup_ListNoDup, List.NoDup_filter, NoDup_ListNoDup, expired_events_NoDup.
    - intros e. rewrite !list_elem_of_In, !filter_In, <- !list_elem_of_In. unfold X.
      rewrite elem_of_select_where. split.
      + intros [(k & Hk & HP) He]. split; [|done]. by eapply gone_iff.
      + intros [He HP]. pose proof (elem_of_expired_events _ He) as [Hk _].
        split; [eauto|]. by eapply gone_iff. }
  assert (Hlen : length (List.filter gone X) = Nat.min n (length X)).
  { rewrite Htaken. unfold expired_events.
    rewrite (filter_take_sorted created_asc).
    - rewrite length_take. f_equal.
      rewrite <- (order_by_filter _ created_asc_total created_asc_trans), order_by_perm.
      unfold X, select_where. induction (map_to_list (t_audit_events db)).*2 as [|e es IH]; [done|]. cbn.
      pose proof (expired_mono e) as Hm. fold (expired o before e). fold P in Hm.
      destruct (P e) eqn:HP; [|destruct (expired o before e); cbn; by rewrite ?HP].
      rewrite Hm by done. cbn. rewrite HP. cbn. by f_equal.
    - apply order_by_sorted; [apply created_asc_total|apply created_asc_trans].
    - intros a b Ha%elem_of_order_by Hab%created_asc_le.
      apply elem_of_select_where in Ha as (_ & _ & [Ha _]%andb_true_iff). unfold P, expired.
      rewrite Ha, !andb_true_iff, !Z.ltb_lt. intros [_ Hlt]. split; [done|lia]. }
  pose proof (List.filter_length gone X) as Hsum. unfold count_where. rewrite Hrest. fold X. lia.
Qed.
End purge.

Section purges.
Context {CC : CryptoCrates} {AG : AesGcm} {KB : KeyBytes} {BD : Base64Decode} {SJ : SerdeJson}.
Context {UC : UrlCrate} {UP : UrlParts} {UH : UrlHostText}.
Context {UU : UuidCrate} {RP : Rfc3339Parse} {DK : Disk}.
Context (event_json : AuditEvent -> option string) (like : string -> string -> bool).
Context (environ : Environ) (config : ApiConfig) (Hconfig : api_config_from_env environ = Ok config).

Notation batch := (Z.to_nat (audit_purge_batch_size (api_audit config))).
Notation cutoff now := (audit_retention_cutoff now (audit_retention_days (api_audit config))).

(** The command run at each of these instants. *)
Fixpoint purge_at (nows : list OffsetDateTime) (db : Database) : Database :=
  match nows with
  | [] => db
  | now :: nows =>
      purge_at nows (run (run_audit_command event_json like environ now ["purge-expired"] ∅) db).2
  end.
(** The organization the command works on. *)
Definition default_organization (db : Database) : option Uuid :=
  organization_id <$> find_row (fun o => bool_decide (organization_slug o = api_default_org_slug config))
                        (t_organizations db).

Lemma batch_positive : (0 < audit_purge_batch_size (api_audit config))%Z.
Proof. pose proof (audit_operations_Ok _ _ (config_audit _ _ Hconfig)). lia. Qed.
Lemma default_organization_run o db :
  default_organization db = Some o -> run (default_organization_database config) db = (Ok o, db).
Proof.
  unfold default_organization, default_organization_database, get_organization_by_slug.
  intros (org & Horg & ->)%fmap_Some. cbn. by rewrite Horg.
Qed.
(** What is deleted and what is kept add up to what there was. *)
Lemma size_delete_where (P : AuditEvent -> bool) (m : gmap N AuditEvent) :
  size m = size (delete_where P m) + count_where P m.
Proof.
  assert (Hsize : size (delete_where P m) = length (filter (fun kv => P kv.2 = false) (map_to_list m))).
  { unfold delete_where. rewrite <- length_map_to_list, map_filter_alt. apply Permutation_length, map_to_list_to_map.
    apply (sublist_NoDup _ (map_to_list m).*1); [apply NoDup_fst_map_to_list|apply fmap_sublist, sublist_filter]. }
  rewrite Hsize, <- length_map_to_list. unfold count_where, select_where. clear Hsize.
  induction (map_to_list m) as [|[k e] l IH]; [done|].
  rewrite filter_cons, fmap_cons. cbn [List.filter length snd] in *.
  destruct (P e); [rewrite decide_False by done|rewrite decide_True by done]; cbn [length]; rewrite IH; lia.
Qed.
Lemma purge_command_run o now args files db :
  default_organization db = Some o ->
  run (run_audit_command event_json like environ now ("purge-expired" :: args) files) db
  = (Ok (Ok (Printed_Purge (mk_AuditRetentionPurgeReport "ok" o
        (audit_retention_days (api_audit config)) (cutoff now) (audit_purge_batch_size (api_audit config))
        (count_where (gone o (cutoff now) batch db) (t_audit_events db)) now)), files),
     on_audit_events (delete_where (gone o (cutoff now) batch db)) db).
Proof.
  intros Ho. unfold run_audit_command, config_of. rewrite Hconfig. cbn [map_err].
  rewrite lift_Ok_bind. rewrite (run_known_at _ _ _ _ _ (default_organization_run o db Ho)).
  unfold purge_expired_audit_events, delete_audit_events_before.
  pose proof batch_positive. rewrite (proj2 (Z.leb_gt _ _)) by lia. done.
Qed.

Lemma purge_step o now db :
  default_organization db = Some o -> audit_keyed db ->
  let db' := purge_at [now] db in
  default_organization db' = Some o /\ audit_keyed db'
  /\ db' = on_audit_events (fun _ => t_audit_events db') db
  /\ (forall k e, t_audit_events db' !! k = Some e <->
        t_audit_events db !! k = Some e /\ gone o (cutoff now) batch db e = false)
  /\ (forall t, (t <= now)%Z ->
        count_where (expired o (cutoff t)) (t_audit_events db')
        = count_where (expired o (cutoff t)) (t_audit_events db) - batch).
Proof.
  intros Ho Hk. cbn [purge_at]. rewrite (purge_command_run o now [] ∅ db Ho). cbn.
  split; [done|]. split.
  { intros k e [He _]%lookup_delete_where. by apply Hk. }
  split; [done|]. split; [intros k e; apply lookup_delete_where|].
  intros t Ht. apply purge_progress; [done|]. unfold audit_retention_cutoff. lia.
Qed.
Lemma purge_at_cons now nows db : purge_at (now :: nows) db = purge_at nows (purge_at [now] db).
Proof. done. Qed.

(** An instant, less the configured days. *)
Notation day now :=
  (now - audit_retention_days (api_audit config) * (24 * 60 * 60) * 1000000000)%Z.
(** C34. The retention of the audit log: a purge reports the number of events it
    deletes, which is as many as expired and no more than a batch; however often
    it is run, it adds no event, changes nothing but the log, deletes no event of
    another organization and none that is younger than the retention period
    on the day of a run; and as many runs as there are batches of events that
    had expired when the first one started leave none of those behind. *)
Theorem purges_keep_the_retained o nows db :
  default_organization db = Some o -> audit_keyed db ->
  (forall now files, exists report db1,
     run (run_audit_command event_json like environ now ["purge-expired"] files) db
     = (Ok (Ok (Printed_Purge report), files), db1)
     /\ t_audit_events db1 ⊆ t_audit_events db
     /\ size (t_audit_events db) = size (t_audit_events db1) + purge_deleted report
     /\ purge_deleted report
        = Nat.min batch (count_where (expired o (day now)) (t_audit_events db)))
  /\ (let db' := purge_at nows db in
      db' = on_audit_events (fun _ => t_audit_events db') db
      /\ t_audit_events db' ⊆ t_audit_events db
      /\ (forall k e, t_audit_events db !! k = Some e ->
            t_audit_events db' !! k = Some e
            \/ audit_organization_id e = o /\ exists now, now ∈ nows /\ (audit_created_at e < day now)%Z)
      /\ (forall t, Forall (fun now => t <= now)%Z nows ->
            count_where (expired o (day t)) (t_audit_events db) <= length nows * batch ->
            forall k e, t_audit_events db' !! k = Some e -> audit_organization_id e = o ->
              (day t <= audit_created_at e)%Z)).
Proof.
  intros Ho Hk. assert (Hday : forall now, day now = cutoff now)
    by (intros now; unfold audit_retention_cutoff, duration_minutes, duration_seconds; lia).
  split.
  { intros now files. rewrite Hday. rewrite (purge_command_run o now [] files db Ho).
    eexists _, _. split; [done|]. cbn [purge_deleted]. split; [apply map_filter_subseteq|].
    split; [apply size_delete_where|]. by rewrite count_gone, expired_events_length. }
  revert db Ho Hk. induction nows as [|now nows IH]; intros db Ho Hk db'.
  - split; [by destruct db|]. split; [done|]. split; [by left|].
    cbn. intros t _ Hz%Nat.le_0_r k e He Heo. rewrite count_where_zero in Hz. specialize (Hz _ _ He).
    unfold expired in Hz. rewrite Heo, N.eqb_refl in Hz. cbn in Hz. by apply Z.ltb_ge.
  - unfold db'. rewrite purge_at_cons. clear db'.
    destruct (purge_step o now db Ho Hk) as (Ho1 & Hk1 & Hdb1 & Hl1 & Hc1).
    set (db1 := purge_at [now] db) in *. destruct (IH db1 Ho1 Hk1) as (Hdb' & Hsub & Hkeep & Hdrain).
    split; [rewrite Hdb', Hdb1 at 1; by destruct db|].
    split.
    { etransitivity; [exact Hsub|]. apply map_subseteq_spec. intros k e He. by apply Hl1. }
    split.
    + intros k e He. destruct (gone o (cutoff now) batch db e) eqn:Hg.
      * right. apply (gone_expired _ _ _ _ Hk _ _ He) in Hg.
        unfold expired in Hg. apply andb_true_iff in Hg as [Hg1%N.eqb_eq Hg2%Z.ltb_lt].
        split; [done|]. exists now. rewrite Hday. split; [by left|done].
      * destruct (Hkeep k e) as [|[? (now' & ? & ?)]]; [by apply Hl1|by left|].
        right. split; [done|]. exists now'. split; [by right|done].
    + intros t [Ht Hts]%Forall_cons Hcount. apply (Hdrain t Hts).
      rewrite Hday in Hcount |- *. rewrite Hc1 by done. cbn in Hcount. lia.
Qed.
End purges.

(** *** Exports one after the other *)

Section continued.
Context {DK : Disk} (event_json : AuditEvent -> option string) (like : string -> string -> bool).
Context (o : Uuid) (max_rows limit : Z) (filter : AuditEventListFilter) (now : OffsetDateTime).

(** An export for each path, each going on where the receipt of the one before
    says, till a receipt says there is no more. *)
Fixpoint export_all (paths : list string) (after : option ListCursor) (files : Files) (db : Database)
    : option (list AuditExportReceipt * Files) :=
  match paths with
  | [] => None
  | path :: paths =>
      match (run (export_audit_events_ndjson event_json like o max_rows
                    (mk_AuditExportOptions path limit after filter) now files) db).1 with
      | Ok (Ok receipt, files) =>
          match receipt_next_after_created_at receipt, receipt_next_after_id receipt with
          | Some created_at, Some id =>
              rest ← export_all paths (Some (mk_ListCursor created_at id)) files db;
              Some (receipt :: rest.1, rest.2)
          | _, _ => Some ([receipt], files)
          end
      | _ => None
      end
  end.
(** The lines of a list of events. *)
Definition ndjson (events : list AuditEvent) : string :=
  foldr (fun event lines => default "" (event_json event) +:+ newline +:+ lines) "" events.
(** What the files of these receipts hold, one after the other. *)
Definition exported (receipts : list AuditExportReceipt) (files : Files) : string :=
  foldr (fun receipt text => default "" (files !! receipt_output_path receipt) +:+ text) "" receipts.

Lemma ndjson_app l1 l2 : ndjson (l1 ++ l2) = ndjson l1 +:+ ndjson l2.
Proof.
  induction l1 as [|e l1 IH]; [done|]. unfold ndjson in *. cbn [app foldr].
  rewrite IH. by rewrite !string_app_assoc.
Qed.
Lemma write_file_keeps path events files :
  files ⊆ (write_audit_export_ndjson_file event_json path events files).2.
Proof.
  unfold write_audit_export_ndjson_file. destruct (files !! path) eqn:E; [done|]. cbn.
  destruct (disk_creates path); [|done]. cbn. destruct (write_events _ _ _) as [w contents].
  destruct w; [case_match|]; by apply insert_subseteq.
Qed.

Context (Hcreates : forall path, disk_creates path = true).
Context (Hwrites : forall contents text, disk_writes contents text = true).
Context (Hsyncs : forall path, disk_syncs path = true).

Lemma write_events_run contents events :
  Forall (fun e => is_Some (event_json e)) events ->
  write_events event_json contents events = (Ok tt, contents +:+ ndjson events).
Proof.
  intros He. revert contents. induction He as [|e events [line Hl] _ IH]; intros contents.
  - cbn. by rewrite string_app_nil_r.
  - cbn [write_events]. rewrite Hl, !Hwrites, IH. unfold ndjson. cbn [foldr]. rewrite Hl. cbn [from_option id].
    by rewrite <- !string_app_assoc.
Qed.
Lemma write_file_run path events files :
  files !! path = None -> Forall (fun e => is_Some (event_json e)) events ->
  write_audit_export_ndjson_file event_json path events files
  = (Ok (String.length (ndjson events)), <[path := ndjson events]> files).
Proof.
  intros Hf He. unfold write_audit_export_ndjson_file. rewrite Hf, Hcreates. cbn.
  rewrite write_events_run by done. cbn. by rewrite Hsyncs.
Qed.

Context (db : Database) (Hkeyed : audit_keyed db).
Context (Hlimit : (1 <= limit <= clamp max_rows 1 50000)%Z).

(** The whole of what is exported, in the order of the listing. *)
Definition audit_listing : list AuditEvent :=
  rows_of (list_audit_events_page_filtered like o filter None (size (t_audit_events db))) db.
Context (Hjson : Forall (fun e => is_Some (event_json e)) audit_listing).
Notation rest after := (rows_after audit_created_at audit_id audit_listing after).

Lemma audit_listing_eq :
  audit_listing = order_by (created_desc audit_created_at audit_id)
    (select_where (fun e => N.eqb (audit_organization_id e) o && audit_matches like filter e)
       (t_audit_events db)).
Proof.
  unfold audit_listing, list_audit_events_page_filtered, db_gets, rows_of. cbn [fst].
  rewrite take_ge; cycle 1.
  { rewrite order_by_perm. apply select_where_size. }
  f_equal. unfold select_where. apply filter_ext. intros e. cbn. by rewrite andb_true_r.
Qed.
Lemma audit_rows after n :
  list_audit_events_page_filtered like o filter after n db = (Ok (take n (rest after)), db).
Proof.
  unfold list_audit_events_page_filtered, db_gets. do 2 f_equal. unfold rows_after.
  rewrite audit_listing_eq.
  pose proof (keyset_statement (fun e => e) audit_created_at audit_id (t_audit_events db)
    (fun e => N.eqb (audit_organization_id e) o) (audit_matches like filter) after n) as H.
  rewrite !List.map_id in H. exact H.
Qed.
Lemma rest_json after : Forall (fun e => is_Some (event_json e)) (rest after).
Proof.
  rewrite Forall_forall in Hjson. apply Forall_forall. intros e He. apply Hjson.
  unfold rows_after in He. apply list_elem_of_In, filter_In in He as [He _]. by apply list_elem_of_In.
Qed.
Lemma rest_here before e events :
  audit_listing = before ++ e :: events ->
  rest (Some (mk_ListCursor (audit_created_at e) (audit_id e))) = events.
Proof.
  apply (rows_after_here audit_created_at audit_id audit_listing).
  - rewrite audit_listing_eq. apply order_by_sorted; [apply created_desc_total|apply created_desc_trans].
  - rewrite audit_listing_eq, order_by_perm. by apply select_where_NoDup.
Qed.

Lemma export_run path after files :
  files !! path = None ->
  let events := take (Z.to_nat limit) (rest after) in
  exists receipt,
    run (export_audit_events_ndjson event_json like o max_rows
           (mk_AuditExportOptions path limit after filter) now files) db
    = (Ok (Ok receipt, <[path := ndjson events]> files), db)
    /\ receipt_output_path receipt = path /\ receipt_rows_exported receipt = length events
    /\ receipt_bytes_written receipt = String.length (ndjson events)
    /\ match last events with
       | Some e =>
           if (Z.to_nat limit <? length (rest after))%nat
           then receipt_next_after_created_at receipt = Some (audit_created_at e)
                /\ receipt_next_after_id receipt = Some (audit_id e)
           else receipt_next_after_created_at receipt = None
       | None => receipt_next_after_created_at receipt = None
       end.
Proof.
  intros Hf events. unfold export_audit_events_ndjson. cbn [export_limit export_after export_filter].
  rewrite (run_known_at _ _ _ (take (S (Z.to_nat limit)) (rest after)) db); cycle 1.
  { apply run_query_Ok. rewrite audit_rows. do 3 f_equal. unfold clamp, i64_max in *. lia. }
  unfold export_page. rewrite length_take.
  assert (Hpage : (if (Z.to_nat limit <? S (Z.to_nat limit) `min` length (rest after))%nat
            then take (Z.to_nat limit) (take (S (Z.to_nat limit)) (rest after))
            else take (S (Z.to_nat limit)) (rest after)) = events).
  { destruct (Nat.ltb_spec (Z.to_nat limit) (S (Z.to_nat limit) `min` length (rest after))).
    - rewrite take_take. f_equal. lia.
    - unfold events. rewrite !take_ge by lia. done. }
  rewrite Hpage.
  assert (Hmore : (Z.to_nat limit <? S (Z.to_nat limit) `min` length (rest after))%nat
                  = (Z.to_nat limit <? length (rest after))%nat)
    by (apply eq_bool_prop_intro; rewrite !Is_true_true, !Nat.ltb_lt; lia).
  rewrite Hmore. cbn [export_output_path].
  rewrite write_file_run by (done || apply Forall_take, rest_json).
  eexists. split; [done|].
  cbn [receipt_output_path receipt_rows_exported receipt_bytes_written receipt_next_after_created_at
       receipt_next_after_id].
  split; [done|]. split; [done|]. split; [done|].
  destruct (Z.to_nat limit <? length (rest after))%nat, (last events); done.
Qed.

(** A receipt tells what its file holds. *)
Definition receipt_true (files : Files) (receipt : AuditExportReceipt) : Prop :=
  (Z.of_nat (receipt_rows_exported receipt) <= limit)%Z
  /\ exists contents, files !! receipt_output_path receipt = Some contents
     /\ receipt_bytes_written receipt = String.length contents.

Lemma export_all_from paths before events after files :
  audit_listing = before ++ events -> rest after = events -> length events < length paths ->
  NoDup paths -> Forall (fun path => files !! path = None) paths ->
  exists receipts files', export_all paths after files db = Some (receipts, files')
    /\ files ⊆ files' /\ exported receipts files' = ndjson events
    /\ sum_list (receipt_rows_exported <$> receipts) = length events
    /\ Forall (receipt_true files') receipts.
Proof.
  revert before events after files. induction paths as [|path paths IH];
    [by intros ? ? ? ? _ _ Hlen%Nat.nlt_0_r|].
  intros before events after files Hl Hr Hlen [Hp Hnd]%NoDup_cons [Hf Hfs]%Forall_cons.
  cbn [length] in Hlen.
  destruct (export_run path after files Hf) as (receipt & Hrun & Hpath & Hrows & Hbytes & Hnext).
  rewrite Hr in *. set (page := take (Z.to_nat limit) events) in *. cbn [export_all].
  rewrite Hrun. cbn [fst].
  assert (Hshort : (Z.of_nat (length page) <= limit)%Z) by (unfold page; rewrite length_take; lia).
  assert (Hsub : files ⊆ <[path := ndjson page]> files) by by apply insert_subseteq.
  destruct (decide (Z.to_nat limit < length events)) as [Hmore|Hmore].
  - destruct (last page) as [e|] eqn:He; cycle 1.
    { apply last_None in He. apply (f_equal length) in He. unfold page in He.
      rewrite length_take in He. cbn in He. lia. }
    rewrite (proj2 (Nat.ltb_lt _ _) Hmore) in Hnext. destruct Hnext as [-> ->].
    apply last_Some in He as [page' He].
    assert (Hl' : audit_listing = (before ++ page') ++ e :: drop (Z.to_nat limit) events).
    { rewrite Hl, <- (take_drop (Z.to_nat limit) events) at 1. fold page. rewrite He, <- !app_assoc. done. }
    destruct (IH (before ++ page) (drop (Z.to_nat limit) events)
      (Some (mk_ListCursor (audit_created_at e) (audit_id e))) (<[path := ndjson page]> files))
      as (receipts & files' & Hall & Hsub' & Hexp & Hsum & Htrue).
    + rewrite Hl', He, <- !app_assoc. done.
    + by eapply rest_here.
    + rewrite length_drop. lia.
    + done.
    + rewrite Forall_forall in Hfs |- *. intros q Hq. rewrite lookup_insert_ne by (by intros ->). by apply Hfs.
    + rewrite Hall. cbn. do 2 eexists. split; [done|].
      assert (Hfile : files' !! path = Some (ndjson page)).
      { eapply lookup_weaken; [|exact Hsub']. apply lookup_insert_eq. }
      split; [by etransitivity|]. split.
      { unfold exported in *. cbn [fst snd foldr]. rewrite Hpath, Hfile, Hexp. cbn [from_option id]. unfold page. by rewrite <- ndjson_app, take_drop. }
      split.
      { cbn [fst snd fmap list_fmap sum_list id]. rewrite Hrows, Hsum, length_drop.
        unfold page. rewrite length_take. lia. }
      constructor; [|done]. unfold receipt_true. rewrite Hpath, Hrows. eauto.
  - assert (page = events) as -> by (apply take_ge; lia).
    exists [receipt], (<[path := ndjson events]> files).
    assert (receipt_next_after_created_at receipt = None) as ->.
    { rewrite (proj2 (Nat.ltb_ge _ _)) in Hnext by lia. by destruct (last events). }
    split; [done|]. split; [done|]. unfold receipt_true.
    unfold exported. cbn [foldr]. rewrite Hpath, lookup_insert_eq. cbn [from_option id].
    rewrite string_app_nil_r. cbn. split; [done|]. split; [lia|]. constructor; [|done].
    rewrite Hpath, Hrows, lookup_insert_eq. eauto.
Qed.
End continued.

(** C35. Exports make a complete archive: an export writes only a file that is
    not there yet, whatever the disk does; and on a disk that works, exports
    to new paths, each going on after the row the receipt of the one before
    names, come to an end within one more export than the log has events, and the
    files one after the other hold the lines of exactly the events the one
    statement without a limit answers with, in its order, none twice; a
    receipt tells the bytes of its file and no more rows than were asked for,
    and the rows of the receipts add up to those of the listing. *)
Theorem exports_are_the_listing (DK : Disk) event_json like o max_rows limit filter now db :
  audit_keyed db -> (1 <= limit <= clamp max_rows 1 50000)%Z ->
  (forall paths after files receipts files',
     export_all event_json like o max_rows limit filter now paths after files db = Some (receipts, files') ->
     files ⊆ files')
  /\ (forall options files files' r db',
       run (export_audit_events_ndjson event_json like o max_rows options now files) db
         = (Ok (r, files'), db') ->
       db' = db /\ files ⊆ files'
       /\ (files !! export_output_path options <> None -> r = Err (Command_Io true) /\ files' = files))
  /\ ((forall path, disk_creates path = true) ->
      (forall contents text, disk_writes contents text = true) ->
      (forall path, disk_syncs path = true) ->
      Forall (fun e => is_Some (event_json e)) (audit_listing like o filter db) ->
      forall paths files, size (t_audit_events db) < length paths -> NoDup paths ->
        Forall (fun path => files !! path = None) paths ->
        exists receipts files',
          export_all event_json like o max_rows limit filter now paths None files db
            = Some (receipts, files')
          /\ exported receipts files' = ndjson event_json (audit_listing like o filter db)
          /\ sum_list (receipt_rows_exported <$> receipts) = length (audit_listing like o filter db)
          /\ Forall (receipt_true limit files') receipts).
Proof.
  intros Hk Hl. assert (Hone : forall options files files' r db',
       run (export_audit_events_ndjson event_json like o max_rows options now files) db
         = (Ok (r, files'), db') ->
       db' = db /\ files ⊆ files'
       /\ (files !! export_output_path options <> None -> r = Err (Command_Io true) /\ files' = files)).
  { intros options files files' r db'. unfold export_audit_events_ndjson.
    rewrite query_then_Ok. intros (rows & db1 & Hrows & H).
    injection Hrows as <- <-. destruct (export_page _ _) as [[events more] next].
    pose proof (write_file_keeps event_json (export_output_path options) events files) as Hkeep.
    destruct (write_audit_export_ndjson_file _ _ _ _) as [n files1] eqn:E.
    injection H as <- <- <-. split; [done|]. split; [done|]. intros Hf.
    unfold write_audit_export_ndjson_file in E.
    destruct (files !! export_output_path options); [|done]. by injection E as <- <-. }
  split; [|split; [done|]].
  - induction paths as [|path paths IH]; intros after files receipts files'; [done|]. cbn [export_all].
    destruct (run _ _) as [[[[receipt|] files1]|] db1] eqn:E; cbn [fst]; [|done|done].
    apply Hone in E as (_ & Hsub & _).
    destruct (receipt_next_after_created_at receipt), (receipt_next_after_id receipt);
      try (intros [= <- <-]; exact Hsub).
    destruct (export_all _ _ _ _ _ _ _ _ _ _) as [[receipts1 files2]|] eqn:E2; [|done].
    intros [= <- <-]. etransitivity; [exact Hsub|]. by eapply IH.
  - intros Hc Hw Hs Hj paths files Hlen Hnd Hf.
    destruct (export_all_from event_json like o max_rows limit filter now Hc Hw Hs db Hk Hl Hj
      paths [] (audit_listing like o filter db) None files) as (receipts & files' & ?); try done.
    + apply after_no_cursor.
    + rewrite audit_listing_eq, order_by_perm. eapply Nat.le_lt_trans; [apply select_where_size|done].
    + exists receipts, files'. tauto.
Qed.

(** *** The arguments of an export *)

Section arguments.
Context {UU : UuidCrate} {RP : Rfc3339Parse} (max_rows : Z).

Definition ok_of {E A} (r : result E A) : option A := match r with Ok a => Some a | Err _ => None end.
(** What the flags given, each with its value, say. *)
Definition parts_of (m : gmap string string) : ExportParts :=
  let time (flag : string) := m !! flag ≫= fun v => ok_of (audit_export_timestamp v) in
  let uuid (flag message : string) := m !! flag ≫= fun v => ok_of (audit_export_id v message) in
  let prefix (flag message : string) :=
    m !! flag ≫= fun v => ok_of (audit_export_prefix v message) ≫= id in
  mk_ExportParts (m !! "--limit" ≫= fun v => ok_of (audit_export_limit max_rows v))
    (prefix "--action" "audit export --action too large")
    (prefix "--target" "audit export --target too large")
    (m !! "--actor-kind" ≫= fun v => ok_of (audit_export_actor_kind v))
    (uuid "--actor-id" "invalid audit export --actor-id") (time "--from") (time "--to")
    (time "--after-created-at") (uuid "--after-id" "invalid audit export --after-id").
(** An argument that is a flag, with a value the flag takes. *)
Definition flag_takes (flag_value : string * string) : bool :=
  match take_flag max_rows no_export_parts flag_value.1 flag_value.2 with Ok _ => true | Err _ => false end.
Definition arguments (flags : list (string * string)) : list string :=
  flags ≫= fun flag_value => [flag_value.1; flag_value.2].

(** One flag that was not given before. *)
Ltac flag_case flag name read :=
  destruct (String.eqb_spec flag name) as [->|?];
  [ cbn [String.eqb Ascii.eqb Bool.eqb];
    let E := fresh in destruct read eqn:E; unfold result_bind;
    rewrite ?lookup_insert_eq, ?lookup_insert_ne by done;
    match goal with H : _ !! _ = None |- _ => rewrite ?H end;
    cbn [mbind option_bind]; rewrite ?E;
    first [by split | right; split; [done|by eexists]] | ].
Lemma flag_step m flag value :
  m !! flag = None ->
  if flag_takes (flag, value)
  then flag_given (parts_of m) flag = Some false
       /\ take_flag max_rows (parts_of m) flag value = Ok (parts_of (<[flag := value]> m))
  else flag_given (parts_of m) flag = None
       \/ flag_given (parts_of m) flag = Some false
          /\ exists e, take_flag max_rows (parts_of m) flag value = Err e.
Proof.
  intros Hm. unfold flag_takes, flag_given, take_flag, no_export_parts, parts_of.
  cbn [fst snd].
  flag_case flag "--limit" (audit_export_limit max_rows value).
  flag_case flag "--action" (audit_export_prefix value "audit export --action too large").
  flag_case flag "--target" (audit_export_prefix value "audit export --target too large").
  flag_case flag "--actor-kind" (audit_export_actor_kind value).
  flag_case flag "--actor-id" (audit_export_id value "invalid audit export --actor-id").
  flag_case flag "--from" (audit_export_timestamp value).
  flag_case flag "--to" (audit_export_timestamp value).
  flag_case flag "--after-created-at" (audit_export_timestamp value).
  flag_case flag "--after-id" (audit_export_id value "invalid audit export --after-id").
  by left.
Qed.

Lemma export_flags_map flags m s :
  NoDup flags.*1 -> Forall (fun flag => m !! flag = None) flags.*1 ->
  export_flags max_rows (parts_of m) (arguments flags) = Ok s
  <-> forallb flag_takes flags = true /\ s = parts_of (list_to_map flags ∪ m).
Proof.
  revert m. induction flags as [|[flag value] flags IH]; intros m Hnd Hm; cbn [fmap list_fmap fst] in *.
  - change (list_to_map [] ∪ m) with (∅ ∪ m). rewrite (left_id_L ∅ (∪)). cbn. naive_solver.
  - apply NoDup_cons in Hnd as [Hf Hnd]. apply Forall_cons in Hm as [Hmf Hm].
    unfold arguments. cbn [mbind list_bind app fst snd export_flags]. fold (arguments flags).
    cbn [forallb list_to_map foldr fst snd]. pose proof (flag_step m flag value Hmf) as Hstep.
    destruct (flag_takes (flag, value)).
    + destruct Hstep as [-> ->]. cbn [mbind result_bind]. rewrite IH; [|done|].
      * rewrite andb_true_l.
        rewrite <- insert_union_r, insert_union_l by by apply not_elem_of_list_to_map. done.
      * rewrite Forall_forall in Hm |- *. intros f Hin. rewrite lookup_insert_ne by (by intros ->).
        by apply Hm.
    + destruct Hstep as [->|(-> & e & ->)]; naive_solver.
Qed.
Lemma parts_of_nothing : parts_of ∅ = no_export_parts.
Proof. reflexivity. Qed.
End arguments.

Lemma audit_export_limit_Ok max_rows value limit :
  audit_export_limit max_rows value = Ok limit -> (1 <= limit <= max_rows)%Z.
Proof.
  unfold audit_export_limit. intros (parsed & _ & H)%result_bind_Ok.
  destruct (Z.ltb_spec parsed 1), (Z.ltb_spec max_rows parsed); cbn in H; simplify_eq. lia.
Qed.
(** The limit of an export, whatever else it is told. *)
Lemma export_flags_limit {UU : UuidCrate} {RP : Rfc3339Parse} max_rows s args s' :
  (forall limit, limit_flag s = Some limit -> (1 <= limit <= max_rows)%Z) ->
  export_flags max_rows s args = Ok s' ->
  (forall limit, limit_flag s' = Some limit -> (1 <= limit <= max_rows)%Z)
  /\ exists flags, args = arguments flags.
Proof.
  remember (length args) as n eqn:Hn. assert (Hle : length args <= n) by lia. clear Hn.
  revert s args Hle. induction n as [|n IH]; intros s [|flag args] Hle Hs H; try (cbn in Hle; lia);
    cbn [export_flags] in H.
  1,2: injection H as <-; split; [done|by exists []].
  destruct (flag_given s flag) as [[]|]; [done| |done]. destruct args as [|value args]; [done|].
  apply result_bind_Ok in H as (s1 & H1 & H2). cbn in Hle.
  destruct (IH s1 args ltac:(lia)) as [Hlimit [flags ->]]; [|done|].
  - intros limit Hl. unfold take_flag in H1. destruct s. cbn in Hs.
    repeat case_match; repeat (apply result_bind_Ok in H1 as (? & ? & H1)); try discriminate H1;
      injection H1 as <-; cbn in Hl; eauto.
    injection Hl as ->. by eapply audit_export_limit_Ok.
  - split; [done|]. by exists ((flag, value) :: flags).
Qed.

(** The arguments of an export: whatever is accepted is a path, which is not
    the standard output, with flags that each have a value; it has a limit
    within the configured one and a time range that is not empty.  Flags that
    are each given once are accepted exactly when each takes its value and
    together they make sense, and then mean what the table of them says, so
    their order does not matter. *)
Theorem export_arguments_spec {UU : UuidCrate} {RP : Rfc3339Parse} (export_max_rows : Z) :
  let max_rows := clamp export_max_rows 1 50000 in
  (forall args options, audit_export_options args export_max_rows = Ok options ->
     (exists path flags, args = path :: arguments flags /\ export_output_path options = path
        /\ trim path <> "" /\ path <> "-")
     /\ (1 <= export_limit options <= max_rows)%Z
     /\ (forall from to, filter_created_from (export_filter options) = Some from ->
          filter_created_to (export_filter options) = Some to -> (from < to)%Z))
  /\ (forall path flags options, NoDup flags.*1 ->
     audit_export_options (path :: arguments flags) export_max_rows = Ok options
     <-> trim path <> "" /\ path <> "-" /\ forallb (flag_takes max_rows) flags = true
         /\ export_options path max_rows (parts_of max_rows (list_to_map flags)) = Ok options)
  /\ (forall path flags flags', NoDup flags.*1 -> flags ≡ₚ flags' ->
     forall options, audit_export_options (path :: arguments flags) export_max_rows = Ok options ->
       audit_export_options (path :: arguments flags') export_max_rows = Ok options).
Proof.
  intros max_rows.
  assert (Hmax : (1 <= max_rows)%Z) by (unfold max_rows, clamp; lia).
  assert (Hpath : forall path, is_empty (trim path) || String.eqb path "-" = false
                    <-> trim path <> "" /\ path <> "-").
  { intros path. rewrite orb_false_iff, String.eqb_neq. unfold is_empty. destruct (trim path); naive_solver. }
  assert (Hmap : forall path flags options, NoDup flags.*1 ->
     audit_export_options (path :: arguments flags) export_max_rows = Ok options
     <-> trim path <> "" /\ path <> "-" /\ forallb (flag_takes max_rows) flags = true
         /\ export_options path max_rows (parts_of max_rows (list_to_map flags)) = Ok options).
  { intros path flags options Hnd. cbn [audit_export_options]. specialize (Hpath path).
    destruct (is_empty (trim path) || String.eqb path "-"); [naive_solver|].
    fold max_rows. rewrite result_bind_Ok, <- (parts_of_nothing max_rows).
    setoid_rewrite (export_flags_map max_rows flags ∅); [|done|apply Forall_forall; intros; apply lookup_empty].
    rewrite (right_id_L ∅ (∪)). naive_solver. }
  split; [|split; [exact Hmap|]].
  - intros [|path args] options; [done|]. cbn [audit_export_options]. specialize (Hpath path).
    destruct (is_empty (trim path) || String.eqb path "-"); [done|].
    intros (s & Hs & H)%result_bind_Ok. fold max_rows in Hs, H.
    apply export_flags_limit in Hs as [Hlimit [flags ->]]; [|done].
    unfold export_options in H. apply result_bind_Ok in H as ([] & Hr & H).
    apply result_bind_Ok in H as (after & _ & [= <-]). cbn. split_and!.
    + exists path, flags. tauto.
    + destruct (limit_flag s) as [limit|]; cbn; [by apply Hlimit|unfold AUDIT_EXPORT_DEFAULT_LIMIT; lia].
    + destruct (limit_flag s) as [limit|]; cbn; [by apply Hlimit|unfold AUDIT_EXPORT_DEFAULT_LIMIT; lia].
    + intros from to Hf Ht. rewrite Hf, Ht in Hr. destruct (Z.leb_spec to from); [done|lia].
  - intros path flags flags' Hnd Hperm options. rewrite !Hmap by (by rewrite <- ?Hperm).
    rewrite (list_to_map_proper flags flags') by done. intros (H1 & H2 & H3 & H4). split_and!; try done.
    rewrite forallb_forall in H3 |- *. intros f Hin. apply H3. apply list_elem_of_In. rewrite Hperm.
    by apply list_elem_of_In.
Qed.
