(* ===== verification/EvidenceRedaction.v ===== *)
(** * What release evidence may not show

    [crates/operations/src]'s operations_evidence/redaction.rs: the check that
    a document of the release evidence holds no credential, and the text of a
    failure before it is reported.  The theorems say which documents the check
    lets through, that the usual ways to write a credential are found, and
    that a reported failure does not depend on the credential it was made from
    (noninterference), with the texts for which it does. *)

From S2P Require Import Prelude RustStr Domain Codec Store RequestContext.
From Stdlib Require Import Ascii.

(** ** Strings *)

Fixpoint drop_bytes (n : nat) (s : string) : string :=
  match n, s with S n, String _ s => drop_bytes n s | _, _ => s end.
Fixpoint take_bytes (n : nat) (s : string) : string :=
  match n, s with S n, String c s => String c (take_bytes n s) | _, _ => EmptyString end.
Fixpoint filter_bytes (p : ascii -> bool) (s : string) : string :=
  match s with
  | EmptyString => EmptyString
  | String c s => if p c then String c (filter_bytes p s) else filter_bytes p s
  end.
(** What comes before the first byte with [p], and the text without the bytes
    with [p] it begins with. *)
Fixpoint take_until (p : ascii -> bool) (s : string) : string :=
  match s with
  | EmptyString => EmptyString
  | String c s => if p c then EmptyString else String c (take_until p s)
  end.
Fixpoint drop_while (p : ascii -> bool) (s : string) : string :=
  match s with String c s' => if p c then drop_while p s' else s | EmptyString => EmptyString end.
Definition double_quote : ascii := ascii_of_N 34.
Definition single_quote : ascii := ascii_of_N 39.
Definition is_quote (c : ascii) : bool := Ascii.eqb c double_quote || Ascii.eqb c single_quote.
(** [str::trim_matches] of the quotes. *)
Definition trim_quotes (s : string) : string :=
  String.rev (drop_while is_quote (String.rev (drop_while is_quote s))).
(** [str::find] in the lower-case text: what comes before, and the text from there. *)
Fixpoint find_lower (needle s : string) : option (string * string) :=
  if starts_with needle (to_ascii_lowercase s) then Some (EmptyString, s)
  else match s with
       | EmptyString => None
       | String c s => (fun found => (String c found.1, found.2)) <$> find_lower needle s
       end.
(** A key without its punctuation, in lower case. *)
Definition normalized_key (key : string) : string :=
  to_ascii_lowercase (filter_bytes is_ascii_alphanumeric key).

(** ** Credentials in a text *)

Definition fragment_end (c : ascii) : bool :=
  is_ascii_whitespace c || is_quote c || Ascii.eqb c "," || Ascii.eqb c ";" || Ascii.eqb c "}"
  || Ascii.eqb c "]".
(* crates/operations/src/operations_evidence/redaction.rs:160-177 credential_value_fragment *)
Definition credential_value_fragment (value : string) : string :=
  take_until fragment_end (drop_while (fun c => is_ascii_whitespace c || is_quote c) value).
Definition placeholder_words : list string :=
  ["token"; "bearer-token"; "raw-token"; "secret"; "client-secret"; "password"; "value"; "example";
   "example-token"; "old-token"; "new-token"; "old-or-new-token-during-rotation";
   "old-or-invalid-token"].
(* crates/operations/src/operations_evidence/redaction.rs:179-218 credential_value_is_placeholder *)
Definition credential_value_is_placeholder (value : string) : bool :=
  let value := trim_quotes (trim value) in
  if is_empty value then true
  else
    let lower := to_ascii_lowercase value in
    (starts_with "<" lower && ends_with ">" lower)
    || (starts_with "${" lower && ends_with "}" lower)
    || (starts_with "%" lower && ends_with "%" lower)
    || str_contains "placeholder" lower || str_contains "redacted" lower
    || all_bytes (fun c => Ascii.eqb c "*") value
    || contains placeholder_words lower.

(** The occurrences of the word, one after the other; [before] is what comes
    before [value] in the text, and no two occurrences overlap. *)
(* crates/operations/src/operations_evidence/redaction.rs:90-110 contains_raw_bearer_value *)
Fixpoint raw_bearer_from (before value : string) : bool :=
  match value with
  | EmptyString => false
  | String c rest =>
      (starts_with "bearer" (to_ascii_lowercase value)
       && let after := drop_bytes 6 value in
          match after with
          | EmptyString => false
          | String next _ =>
              is_ascii_whitespace next
              && (is_empty (trim (to_ascii_lowercase before))
                  || str_contains "authorization" (to_ascii_lowercase before))
              && negb (credential_value_is_placeholder (credential_value_fragment after))
          end)
      || raw_bearer_from (before +:+ String c EmptyString) rest
  end.
Definition contains_raw_bearer_value (value : string) : bool := raw_bearer_from EmptyString value.

(* crates/operations/src/operations_evidence/redaction.rs:141-143 is_assignment_key_character *)
Definition is_assignment_key_character (c : ascii) : bool :=
  is_ascii_alphanumeric c || Ascii.eqb c "_" || Ascii.eqb c "-" || Ascii.eqb c ":" || Ascii.eqb c "$".
(* crates/operations/src/operations_evidence/redaction.rs:128-139 assignment_key_before *)
Definition assignment_key_before (before : string) : string :=
  trim (String.rev (take_until (fun c => negb (is_assignment_key_character c)) (String.rev before))).
(* crates/operations/src/operations_evidence/redaction.rs:145-158 is_sensitive_assignment_key *)
Definition is_sensitive_assignment_key (key : string) : bool :=
  let normalized := normalized_key key in
  contains ["clientsecret"; "password"; "secret"; "token"] normalized
  || ends_with "clientsecret" normalized || ends_with "password" normalized
  || ends_with "secret" normalized || ends_with "token" normalized.
(** The equals signs, one after the other. *)
(* crates/operations/src/operations_evidence/redaction.rs:112-126 contains_sensitive_assignment_value *)
Fixpoint sensitive_assignment_from (before value : string) : bool :=
  match value with
  | EmptyString => false
  | String c rest =>
      (Ascii.eqb c "="
       && is_sensitive_assignment_key (assignment_key_before before)
       && negb (credential_value_is_placeholder (credential_value_fragment rest)))
      || sensitive_assignment_from (before +:+ String c EmptyString) rest
  end.
Definition contains_sensitive_assignment_value (value : string) : bool :=
  sensitive_assignment_from EmptyString value.
(* crates/operations/src/operations_evidence/redaction.rs:86-88 is_credential_shaped_token_free_value *)
Definition is_credential_shaped_token_free_value (value : string) : bool :=
  contains_raw_bearer_value value || contains_sensitive_assignment_value value.

(** ** Documents *)

(* crates/operations/src/operations_evidence/redaction.rs:3-33 FORBIDDEN_TOKEN_FREE_RELEASE_EVIDENCE_FIELDS *)
Definition FORBIDDEN_TOKEN_FREE_RELEASE_EVIDENCE_FIELDS : list string :=
  ["accesstoken"; "apikey"; "authorization"; "authorizationheader"; "authorizationheaders";
   "bearertoken"; "clientsecret"; "clientsecrets"; "commandoutput"; "cookie"; "cookies"; "idtoken";
   "password"; "passwords"; "privatekey"; "providercredential"; "providercredentials"; "rawoutput";
   "rawsecret"; "rawtoken"; "refreshtoken"; "requestheader"; "requestheaders"; "secret";
   "secrettoken"; "sessioncookie"; "setcookie"; "stderr"; "stdout"].
Definition forbidden_key (key : string) : bool :=
  contains FORBIDDEN_TOKEN_FREE_RELEASE_EVIDENCE_FIELDS (normalized_key key).
(** The failures that are pushed, in order. *)
(* crates/operations/src/operations_evidence/redaction.rs:35-84 reject_forbidden_token_free_release_evidence_fields *)
Fixpoint reject_forbidden_token_free_release_evidence_fields (value : Value) (path artifact_name : string) : list string :=
  match value with
  | Object object =>
      concat (List.map (fun '(key, child) =>
        let child_path := if String.eqb path "$" then "$." +:+ key else path +:+ "." +:+ key in
        (if forbidden_key key
         then [child_path +:+ " must not be present in token-free release evidence artifact "
                 +:+ artifact_name]
         else [])
        ++ reject_forbidden_token_free_release_evidence_fields child child_path artifact_name) object)
  | Array values =>
      concat (imap (fun index failures => failures (path +:+ "[" +:+ pretty (N.of_nat index) +:+ "]"))
        (List.map (fun child path =>
           reject_forbidden_token_free_release_evidence_fields child path artifact_name) values))
  | String_ text =>
      if is_credential_shaped_token_free_value text
      then [path +:+ " value is credential-shaped in token-free release evidence artifact "
              +:+ artifact_name]
      else []
  | _ => []
  end.

(** ** The text of a failure *)

(* crates/operations/src/operations_evidence/redaction.rs:268-275 redact_case_insensitive_suffix *)
Definition redact_case_insensitive_suffix (value needle : string) : string :=
  match find_lower needle value with
  | None => value
  | Some (before, from) => before +:+ take_bytes (String.length needle) from +:+ "<redacted>"
  end.
Definition secret_value_markers : list string :=
  ["access_token"; "api_key"; "apikey"; "authorization:"; "client_secret"; "cookie:"; "id_token";
   "password="; "private_key"; "providercredential"; "rawtoken"; "refresh_token"; "secret="; "token="].
Definition echoes_secret (echoed : string) : bool :=
  existsb (fun marker => str_contains marker (to_ascii_lowercase echoed)) secret_value_markers.
Definition truncated (failure : string) : string :=
  if (512 <? String.length failure)%nat then take_chars 512 failure +:+ "... <truncated>" else failure.
(* crates/operations/src/operations_evidence/redaction.rs:220-266 sanitize_release_evidence_failure *)
Definition sanitize_release_evidence_failure (failure : string) : string :=
  if str_contains "must not be present in token-free" failure then failure
  else
    let redacted_bearer := redact_case_insensitive_suffix failure "bearer " in
    if negb (String.eqb redacted_bearer failure) then redacted_bearer
    else
      match find_lower "got " failure with
      | Some (before, from) =>
          if echoes_secret (drop_bytes 4 from) then before +:+ "got <redacted>" else truncated failure
      | None => truncated failure
      end.

(** ** Properties *)

(** *** Documents *)

(** What the check is for: a key or a text anywhere in a document that may be a
    credential. *)
Inductive leaks : Value -> Prop :=
| leaks_key key child object : (key, child) ∈ object -> forbidden_key key = true -> leaks (Object object)
| leaks_entry key child object : (key, child) ∈ object -> leaks child -> leaks (Object object)
| leaks_item child values : child ∈ values -> leaks child -> leaks (Array values)
| leaks_text text : is_credential_shaped_token_free_value text = true -> leaks (String_ text).

Lemma concat_nil {A} (l : list (list A)) : concat l = [] <-> Forall (fun x => x = []) l.
Proof.
  induction l as [|x l IH]; cbn; [done|]. rewrite Forall_cons, <- IH. split; [apply app_nil|].
  by intros [-> ->].
Qed.
Lemma rejects_leaks value path artifact :
  leaks value -> reject_forbidden_token_free_release_evidence_fields value path artifact <> [].
Proof.
  intros Hl. revert path. induction Hl as [key child object Hin Hk|key child object Hin _ IH
    |child values Hin _ IH|text Ht]; intros path; cbn [reject_forbidden_token_free_release_evidence_fields].
  - rewrite concat_nil, Forall_forall. intros Hall.
    assert (Hnil := Hall _ (list_elem_of_fmap_2 _ _ _ Hin)). cbn in Hnil. by rewrite Hk in Hnil.
  - rewrite concat_nil, Forall_forall. intros Hall.
    assert (Hnil := Hall _ (list_elem_of_fmap_2 _ _ _ Hin)). cbn in Hnil.
    apply app_nil in Hnil as [_ Hnil]. by eapply IH.
  - apply list_elem_of_lookup in Hin as [i Hi]. rewrite concat_nil, Forall_forall. intros Hall.
    eapply IH, Hall, (list_elem_of_lookup_2 _ i). rewrite list_lookup_imap.
    change (List.map ?f values) with (f <$> values). rewrite list_lookup_fmap, Hi. reflexivity.
  - by rewrite Ht.
Qed.
Lemma accepts_clean value path artifact :
  ~ leaks value -> reject_forbidden_token_free_release_evidence_fields value path artifact = [].
Proof.
  revert value path. fix IH 1. intros [| | |text|values|object] path Hclean; try done;
    cbn [reject_forbidden_token_free_release_evidence_fields].
  - destruct (is_credential_shaped_token_free_value text) eqn:E; [|done]. by destruct Hclean; constructor.
  - set (reject := fun child path => reject_forbidden_token_free_release_evidence_fields child path artifact).
    assert (Hitems : Forall (fun child => forall path, reject child path = []) values).
    { assert (Hall : forall child, child ∈ values -> ~ leaks child)
        by (intros child Hin Hl; apply Hclean; by eapply leaks_item).
      clear Hclean. induction values as [|child values IHv]; constructor.
      - intros path'. apply IH, Hall. by left.
      - apply IHv. intros child' Hin. apply Hall. by right. }
    apply concat_nil, Forall_forall. intros x Hx.
    apply elem_of_lookup_imap in Hx as (i & f & -> & Hi).
    change (List.map ?f values) with (f <$> values) in Hi.
    apply list_lookup_fmap_Some in Hi as (child & -> & Hi).
    rewrite Forall_forall in Hitems. apply Hitems. by eapply list_elem_of_lookup_2.
  - assert (Hobject : forall key child, (key, child) ∈ object -> forbidden_key key = false /\ ~ leaks child).
    { intros key child Hin. split.
      - destruct (forbidden_key key) eqn:E; [|done]. by destruct Hclean; econstructor.
      - intros Hl. apply Hclean. by eapply leaks_entry. }
    clear Hclean. induction object as [|[key child] object IHo]; [done|]. cbn.
    destruct (Hobject key child) as [Hk Hc]; [by left|]. rewrite Hk, IH by done. cbn.
    apply IHo. intros key' child' Hin. apply Hobject. by right.
Qed.

(** *** Texts *)

Definition stops (p : ascii -> bool) (s : string) : bool :=
  match s with EmptyString => true | String c _ => p c end.
Lemma take_until_app p a b :
  all_bytes (fun c => negb (p c)) a = true -> stops p b = true -> take_until p (a +:+ b) = a.
Proof.
  induction a as [|c a IH]; rewrite ?string_app_nil_l, ?string_app_cons; cbn.
  - intros _. destruct b as [|c b]; cbn; [done|]. by intros ->.
  - rewrite andb_true_iff, negb_true_iff. intros [-> Ha] Hb. by rewrite IH.
Qed.
Lemma drop_while_app p a b :
  all_bytes p a = true -> stops (fun c => negb (p c)) b = true -> drop_while p (a +:+ b) = b.
Proof.
  induction a as [|c a IH]; rewrite ?string_app_nil_l, ?string_app_cons; cbn.
  - intros _. destruct b as [|c b]; cbn; [done|]. by destruct (p c).
  - rewrite andb_true_iff. intros [-> Ha] Hb. by apply IH.
Qed.
(** A credential as it is written after a word or an equals sign: after blanks
    and quotes, up to a blank, a quote or a delimiter. *)
Record written (lead secret rest : string) : Prop := {
  written_lead : all_bytes (fun c => is_ascii_whitespace c || is_quote c) lead = true;
  written_secret : all_bytes (fun c => negb (fragment_end c)) secret = true;
  written_rest : stops fragment_end rest = true;
  written_real : credential_value_is_placeholder secret = false;
}.
Lemma fragment_written lead secret rest :
  written lead secret rest -> credential_value_fragment (lead +:+ secret +:+ rest) = secret.
Proof.
  intros [Hl Hs Hr Hp]. unfold credential_value_fragment.
  rewrite drop_while_app; [by apply take_until_app|done|].
  destruct secret as [|c secret]; [done|]. rewrite string_app_cons. cbn in Hs |- *.
  apply andb_true_iff in Hs as [Hc _]. unfold fragment_end in Hc.
  by destruct (is_ascii_whitespace c), (is_quote c).
Qed.
Lemma starts_with_app p s : starts_with p (p +:+ s) = true.
Proof.
  apply bool_decide_eq_true. exists s. induction p as [|c p IH]; [by destruct s|].
  rewrite string_app_cons. cbn. by rewrite Ascii.eqb_refl.
Qed.
Lemma drop_bytes_app n a b : String.length a = n -> drop_bytes n (a +:+ b) = b.
Proof. intros <-. induction a as [|c a IH]; [by destruct b|exact IH]. Qed.
Lemma raw_bearer_later before more value :
  raw_bearer_from (before +:+ more) value = true -> raw_bearer_from before (more +:+ value) = true.
Proof.
  revert before. induction more as [|c more IH]; intros before; [by rewrite string_app_nil_r|].
  intros H. rewrite string_app_cons.
  cbn [raw_bearer_from]. rewrite IH, orb_true_r; [done|]. by rewrite <- string_app_assoc.
Qed.
Lemma sensitive_later before more value :
  sensitive_assignment_from (before +:+ more) value = true ->
  sensitive_assignment_from before (more +:+ value) = true.
Proof.
  revert before. induction more as [|c more IH]; intros before; [by rewrite string_app_nil_r|].
  intros H. rewrite string_app_cons.
  cbn [sensitive_assignment_from]. rewrite IH, orb_true_r; [done|]. by rewrite <- string_app_assoc.
Qed.

Lemma bearer_found before word lead secret rest :
  to_ascii_lowercase word = "bearer" ->
  trim (to_ascii_lowercase before) = "" \/ str_contains "authorization" (to_ascii_lowercase before) = true ->
  stops is_ascii_whitespace lead = true -> lead <> "" -> written lead secret rest ->
  contains_raw_bearer_value (before +:+ word +:+ lead +:+ secret +:+ rest) = true.
Proof.
  intros Hw Hb Hl Hne Hwr. apply raw_bearer_later. rewrite string_app_nil_l.
  assert (Hlen : String.length word = 6).
  { apply (f_equal String.length) in Hw. unfold to_ascii_lowercase in Hw. by rewrite map_bytes_length in Hw. }
  destruct word as [|c word]; [done|]. rewrite string_app_cons.
  cbn [raw_bearer_from]. apply orb_true_iff. left.
  rewrite <- string_app_cons.
  rewrite (drop_bytes_app 6) by done. unfold to_ascii_lowercase at 1. rewrite map_bytes_app.
  fold (to_ascii_lowercase (String c word)). rewrite Hw, starts_with_app.
  pose proof (fragment_written _ _ _ Hwr) as Hf. destruct lead as [|w lead]; [done|].
  rewrite string_app_cons in *. cbn in Hl. rewrite Hf, Hl.
  rewrite (written_real _ _ _ Hwr). cbn. rewrite andb_true_r. apply orb_true_iff.
  destruct Hb as [->|Hb]; [by left|by right].
Qed.

Lemma key_character_plain c s :
  is_assignment_key_character c = true -> strip_ws (String c s) = None /\ strip_ws_rev (String c s) = None.
Proof.
  intros Hc.
  assert (Hplain : ws1 c = false /\ (byte c < 128)%N) by (by destruct c as [[] [] [] [] [] [] [] []]).
  destruct Hplain as [Hws Hlt].
  assert (Hlead : forall n, (128 <= n)%N -> (byte c =? n)%N = false) by (intros n Hn; apply N.eqb_neq; lia).
  assert (Hcont : forall lo hi, (128 <= lo)%N -> in_range lo hi c = false).
  { intros lo hi Hlo. unfold in_range. rewrite (proj2 (N.leb_gt lo (byte c))) by lia. done. }
  split; cbn; rewrite Hws; destruct s as [|b [|a s]]; try done; unfold ws2, ws3;
    rewrite ?Hlead, ?Hcont, ?andb_false_r by lia; done.
Qed.
Lemma assignment_key before key :
  all_bytes is_assignment_key_character key = true ->
  stops (fun c => negb (is_assignment_key_character c)) (String.rev before) = true ->
  assignment_key_before (before +:+ key) = key.
Proof.
  intros Hk Hb. unfold assignment_key_before. rewrite rev_app, take_until_app, rev_rev.
  - apply trim_fix.
    + destruct key as [|c key]; [done|]. cbn in Hk. apply andb_true_iff in Hk as [Hc _].
      by apply key_character_plain.
    + rewrite <- all_bytes_rev in Hk. destruct (String.rev key) as [|c k]; [done|]. cbn in Hk.
      apply andb_true_iff in Hk as [Hc _]. by apply key_character_plain.
  - rewrite all_bytes_rev. clear - Hk. induction key as [|c key IH]; [done|]. cbn in *.
    apply andb_true_iff in Hk as [-> Hk]. by apply IH.
  - done.
Qed.
Lemma assignment_found before key lead secret rest :
  all_bytes is_assignment_key_character key = true ->
  stops (fun c => negb (is_assignment_key_character c)) (String.rev before) = true ->
  is_sensitive_assignment_key key = true -> written lead secret rest ->
  contains_sensitive_assignment_value (before +:+ key +:+ "=" +:+ lead +:+ secret +:+ rest) = true.
Proof.
  intros Hk Hb Hs Hwr. rewrite string_app_assoc. apply sensitive_later. rewrite string_app_nil_l.
  rewrite string_app_cons, string_app_nil_l. cbn [sensitive_assignment_from]. apply orb_true_iff. left.
  rewrite assignment_key, Hs, (fragment_written _ _ _ Hwr), (written_real _ _ _ Hwr) by done. done.
Qed.

(** *** Failures *)

Lemma find_lower_eq needle s :
  find_lower needle s =
    if starts_with needle (to_ascii_lowercase s) then Some (EmptyString, s)
    else match s with
         | EmptyString => None
         | String c s => (fun found => (String c found.1, found.2)) <$> find_lower needle s
         end.
Proof. by destruct s. Qed.
Lemma starts_with_prefix p x y :
  starts_with p (x +:+ y) = true -> String.length p <= String.length x -> starts_with p x = true.
Proof.
  unfold starts_with. rewrite !bool_decide_eq_true. revert x. induction p as [|c p IH]; intros x.
  - by exists x; destruct x.
  - destruct x as [|d x]; [cbn; lia|]. rewrite string_app_cons. cbn.
    destruct (Ascii.eqb c d); [|by intros [? ?]]. intros H Hl. apply IH; [done|lia].
Qed.
Lemma str_contains_tail p c s : str_contains p (String c s) = false -> str_contains p s = false.
Proof. cbn. by intros [_ H]%orb_false_iff. Qed.
(** The first occurrence of a text, which is not begun before it. *)
Lemma find_lower_first needle last before word s :
  to_ascii_lowercase word = needle +:+ String last "" ->
  str_contains (needle +:+ String last "") (to_ascii_lowercase before +:+ needle) = false ->
  find_lower (needle +:+ String last "") (before +:+ word +:+ s) = Some (before, word +:+ s).
Proof.
  intros Hw. unfold to_ascii_lowercase in *. induction before as [|c before IH]; intros Hb.
  - rewrite string_app_nil_l, find_lower_eq. unfold to_ascii_lowercase.
    by rewrite map_bytes_app, Hw, starts_with_app.
  - rewrite string_app_cons, find_lower_eq, IH by exact (str_contains_tail _ (lower_byte c) _ Hb).
    destruct (starts_with _ (to_ascii_lowercase _)) eqn:E; [|done]. exfalso.
    rewrite <- string_app_cons in E. unfold to_ascii_lowercase in E.
    rewrite !map_bytes_app, Hw, <- (string_app_assoc needle), !(string_app_assoc _ needle) in E.
    apply starts_with_prefix in E.
    + cbn in Hb. rewrite string_app_cons in Hb. cbn in Hb. apply orb_false_iff in Hb as [Hb _].
      cbn in E. rewrite string_app_cons in E. congruence.
    + rewrite !string_length_app. cbn. lia.
Qed.
Lemma take_bytes_app n a b : String.length a = n -> take_bytes n (a +:+ b) = a.
Proof. intros <-. induction a as [|c a IH]; [by destruct b|]. rewrite string_app_cons. cbn. by rewrite IH. Qed.
Lemma lower_length word text : to_ascii_lowercase word = text -> String.length word = String.length text.
Proof. intros <-. unfold to_ascii_lowercase. by rewrite map_bytes_length. Qed.
Lemma string_app_inj a b c : a +:+ b = a +:+ c -> b = c.
Proof.
  induction a as [|x a IH]; [done|]. rewrite !string_app_cons. intros H. apply IH. by injection H.
Qed.

(** A text that names a forbidden field is reported as it is. *)
Notation exempt failure := (str_contains "must not be present in token-free" failure).
Lemma bearer_redacted before word secret :
  to_ascii_lowercase word = "bearer " ->
  str_contains "bearer " (to_ascii_lowercase before +:+ "bearer") = false ->
  exempt (before +:+ word +:+ secret) = false -> secret <> "<redacted>" ->
  sanitize_release_evidence_failure (before +:+ word +:+ secret) = before +:+ word +:+ "<redacted>".
Proof.
  intros Hw Hb He Hs. unfold sanitize_release_evidence_failure, redact_case_insensitive_suffix.
  assert (find_lower "bearer " (before +:+ word +:+ secret) = Some (before, word +:+ secret)) as Hf
    by exact (find_lower_first "bearer" " " before word secret Hw Hb).
  rewrite He, Hf.
  rewrite take_bytes_app by by apply lower_length in Hw.
  destruct (String.eqb_spec (before +:+ word +:+ "<redacted>") (before +:+ word +:+ secret)) as [E|E]; [|done].
  apply string_app_inj, string_app_inj in E. by rewrite E in Hs.
Qed.
Lemma echo_redacted before word echoed :
  to_ascii_lowercase word = "got " ->
  str_contains "got " (to_ascii_lowercase before +:+ "got") = false ->
  exempt (before +:+ word +:+ echoed) = false ->
  find_lower "bearer " (before +:+ word +:+ echoed) = None -> echoes_secret echoed = true ->
  sanitize_release_evidence_failure (before +:+ word +:+ echoed) = before +:+ "got <redacted>".
Proof.
  intros Hw Hb He Hn Hs. unfold sanitize_release_evidence_failure, redact_case_insensitive_suffix.
  rewrite He, Hn, String.eqb_refl. cbn [negb].
  assert (find_lower "got " (before +:+ word +:+ echoed) = Some (before, word +:+ echoed)) as Hf
    by exact (find_lower_first "got" " " before word echoed Hw Hb).
  rewrite Hf.
  by rewrite drop_bytes_app, Hs by by apply lower_length in Hw.
Qed.

(** What is reported of a failure does not depend on the credential it was made
    from: after the word Bearer, in any case, whatever stands there is reported
    the same, and so is what a failure without that word echoes of a value
    that looks like a secret.  Failures that name a forbidden field are
    reported whole, so they are left out. *)
Theorem failures_hide_credentials before word secret1 secret2 :
  exempt (before +:+ word +:+ secret1) = false -> exempt (before +:+ word +:+ secret2) = false ->
  (to_ascii_lowercase word = "bearer " ->
   str_contains "bearer " (to_ascii_lowercase before +:+ "bearer") = false ->
   secret1 <> "<redacted>" -> secret2 <> "<redacted>" ->
   sanitize_release_evidence_failure (before +:+ word +:+ secret1)
   = sanitize_release_evidence_failure (before +:+ word +:+ secret2))
  /\ (to_ascii_lowercase word = "got " ->
   str_contains "got " (to_ascii_lowercase before +:+ "got") = false ->
   find_lower "bearer " (before +:+ word +:+ secret1) = None ->
   find_lower "bearer " (before +:+ word +:+ secret2) = None ->
   echoes_secret secret1 = true -> echoes_secret secret2 = true ->
   sanitize_release_evidence_failure (before +:+ word +:+ secret1)
   = sanitize_release_evidence_failure (before +:+ word +:+ secret2)).
Proof.
  intros H1 H2. split.
  - intros Hw Hb Hs1 Hs2. by rewrite !bearer_redacted.
  - intros Hw Hb Hn1 Hn2 He1 He2. by rewrite !echo_redacted.
Qed.
(** The usual ways to write a credential are found: after Authorization and
    Bearer, and after the name of a secret and an equals sign, in any case,
    with blanks or quotes around it. *)
Theorem credentials_are_found before word key lead secret rest :
  written lead secret rest ->
  (to_ascii_lowercase word = "bearer" ->
   trim (to_ascii_lowercase before) = "" \/ str_contains "authorization" (to_ascii_lowercase before) = true ->
   stops is_ascii_whitespace lead = true -> lead <> "" ->
   leaks (String_ (before +:+ word +:+ lead +:+ secret +:+ rest)))
  /\ (all_bytes is_assignment_key_character key = true ->
   stops (fun c => negb (is_assignment_key_character c)) (String.rev before) = true ->
   is_sensitive_assignment_key key = true ->
   leaks (String_ (before +:+ key +:+ "=" +:+ lead +:+ secret +:+ rest))).
Proof.
  intros Hw. split; intros; constructor; unfold is_credential_shaped_token_free_value; apply orb_true_iff.
  - left. by apply bearer_found.
  - right. by apply assignment_found.
Qed.

(** One pass stops at the word Bearer: a secret that is echoed before it stays,
    and only the second pass, which the list of all failures gets and that of
    the artifact does not, takes it away. *)
Lemma one_pass_leaves_a_secret :
  let failure := "status must be ok, got client_secret=hunter2 Bearer abc" in
  sanitize_release_evidence_failure failure
  = "status must be ok, got client_secret=hunter2 Bearer <redacted>"
  /\ sanitize_release_evidence_failure (sanitize_release_evidence_failure failure)
     = "status must be ok, got <redacted>".
Proof. by split; vm_compute. Qed.
