(* ===== verification/EvidenceFields.v ===== *)
(** * The fields of a piece of evidence

    [crates/operations/src]'s operations_evidence/validation: the checks on one
    field of a JSON document that the validators of the release evidence are
    made of, and operations_evidence/timestamp.rs: the two ways an instant is
    written in a document.  A validator is a program that pushes onto two
    lists, [Validation]; the lemmas say what each check pushes. *)

From S2P Require Import Prelude RustStr Domain Authn Oidc Codec Store BrowserSession.
From S2P Require Import Listing.
From Stdlib Require Import Ascii.

(** ** Validators *)

(** The two vectors a validator is given: what it checked and what failed. *)
Record Findings := mk_Findings { checks : list string; failures : list string }.
Definition no_findings : Findings := mk_Findings [] [].
Definition Validation (A : Type) : Type := Findings -> A * Findings.
Definition v_ret {A} (a : A) : Validation A := fun s => (a, s).
Definition v_bind {A B} (c : Validation A) (k : A -> Validation B) : Validation B :=
  fun s => let '(a, s) := c s in k a s.
Notation "'let+' x ':=' c 'in' k" := (v_bind c (fun x => k))
  (at level 10, x pattern, k at level 200) : cairn_scope.
Notation pass := (v_ret tt).
Definition push_check (text : string) : Validation unit :=
  fun s => (tt, mk_Findings (checks s ++ [text]) (failures s)).
Definition push_failure (text : string) : Validation unit :=
  fun s => (tt, mk_Findings (checks s) (failures s ++ [text])).
Fixpoint v_each {A} (f : A -> Validation unit) (l : list A) : Validation unit :=
  match l with [] => pass | x :: l => let+ _ := f x in v_each f l end.

(** ** Values *)

Definition as_bool (v : Value) : option bool := match v with Bool b => Some b | _ => None end.
Definition as_i64 (v : Value) : option Z :=
  match v with Number n => if i64_range n then Some n else None | _ => None end.
Definition as_u64 (v : Value) : option Z :=
  match v with Number n => if (0 <=? n)%Z && (n <? 2 ^ 64)%Z then Some n else None | _ => None end.
Definition as_array (v : Value) : option (list Value) := match v with Array l => Some l | _ => None end.
Definition is_object (v : Value) : bool := match v with Object _ => true | _ => false end.
Definition is_null (v : Value) : bool := match v with Null => true | _ => false end.
Definition bool_text (b : bool) : string := if b then "true" else "false".

(* crates/operations/src/operations_evidence/validation/path.rs:3-12 value_at_path *)
Fixpoint value_at_path (value : Value) (path : list string) : option Value :=
  match path with
  | [] => Some value
  | segment :: path => value_get value segment ≫= fun current => value_at_path current path
  end.
(* crates/operations/src/operations_evidence/validation/path.rs:14-21 non_empty_string_at_path *)
Definition non_empty_string_at_path (value : Value) (path : list string) : bool :=
  match value_at_path value path ≫= as_str with Some text => negb (is_empty text) | None => false end.
Notation field_of path := (join "." path).

(** ** Scalars *)

Definition expect_string (field : string) (actual : option string) (expected : string) : Validation unit :=
  match actual with
  | Some actual =>
      if String.eqb actual expected then pass
      else push_failure (field +:+ " must be " +:+ expected +:+ ", got " +:+ actual)
  | None => push_failure (field +:+ " must be " +:+ expected)
  end.
(* crates/operations/src/operations_evidence/validation/fields/scalar.rs:5-16 require_string *)
Definition require_string (value : Value) (field expected : string) : Validation unit :=
  expect_string field (value_get value field ≫= as_str) expected.
(* crates/operations/src/operations_evidence/validation/fields/scalar.rs:18-32 require_string_at_path *)
Definition require_string_at_path (value : Value) (path : list string) (expected : string)
    : Validation unit :=
  expect_string (field_of path) (value_at_path value path ≫= as_str) expected.
(* crates/operations/src/operations_evidence/validation/fields/scalar.rs:34-47 require_string_at_path_dynamic *)
Definition require_string_at_path_dynamic (value : Value) (prefix : string) (path : list string)
    (expected : string) : Validation unit :=
  expect_string (prefix +:+ "." +:+ field_of path) (value_at_path value path ≫= as_str) expected.
(* crates/operations/src/operations_evidence/validation/fields/scalar.rs:49-65 validate_user_status_field *)
Definition validate_user_status_field (value : Value) (path : list string) : Validation unit :=
  match value_at_path value path ≫= as_str with
  | Some status =>
      if contains ["active"; "suspended"; "locked"] status then pass
      else push_failure (field_of path +:+ " must be active, suspended, or locked, got " +:+ status)
  | None => push_failure (field_of path +:+ " must be active, suspended, or locked")
  end.
(* crates/operations/src/operations_evidence/validation/fields/scalar.rs:67-81 require_bool *)
Definition require_bool (value : Value) (path : list string) (expected : bool) : Validation unit :=
  match value_at_path value path ≫= as_bool with
  | Some actual =>
      if Bool.eqb actual expected then pass
      else push_failure (field_of path +:+ " must be " +:+ bool_text expected +:+ ", got "
             +:+ bool_text actual)
  | None => push_failure (field_of path +:+ " must be " +:+ bool_text expected)
  end.
Definition expect_i64 (ok : Z -> bool) (field expected : string) (actual : option Z) : Validation unit :=
  match actual with
  | Some actual =>
      if ok actual then pass
      else push_failure (field +:+ " must be " +:+ expected +:+ ", got " +:+ i64_to_string actual)
  | None => push_failure (field +:+ " must be " +:+ expected)
  end.
(* crates/operations/src/operations_evidence/validation/fields/scalar.rs:83-97 require_i64_at_least *)
Definition require_i64_at_least (value : Value) (path : list string) (minimum : Z) : Validation unit :=
  expect_i64 (fun actual => (minimum <=? actual)%Z) (field_of path)
    ("at least " +:+ i64_to_string minimum) (value_at_path value path ≫= as_i64).
(* crates/operations/src/operations_evidence/validation/fields/scalar.rs:99-113 require_i64_exact *)
Definition require_i64_exact (value : Value) (path : list string) (expected : Z) : Validation unit :=
  expect_i64 (Z.eqb expected) (field_of path) (i64_to_string expected)
    (value_at_path value path ≫= as_i64).
Definition expect_non_empty (field : string) (actual : option string) : Validation unit :=
  match actual with
  | Some text => if negb (is_empty text) then pass else push_failure (field +:+ " must not be empty")
  | None => push_failure (field +:+ " must be a non-empty string")
  end.
(* crates/operations/src/operations_evidence/validation/fields/scalar.rs:115-125 require_non_empty_string_at_path *)
Definition require_non_empty_string_at_path (value : Value) (path : list string) : Validation unit :=
  expect_non_empty (field_of path) (value_at_path value path ≫= as_str).
(* crates/operations/src/operations_evidence/validation/fields/scalar.rs:127-141 require_non_empty_string_at_path_dynamic *)
Definition require_non_empty_string_at_path_dynamic (value : Value) (prefix : string)
    (path : list string) : Validation unit :=
  expect_non_empty (prefix +:+ "." +:+ field_of path) (value_at_path value path ≫= as_str).
(** The value, or a failure that it is not of its type. *)
Definition expect_typed {A} (actual : option A) (failure : string) : Validation (option A) :=
  match actual with
  | Some a => v_ret (Some a)
  | None => let+ _ := push_failure failure in v_ret None
  end.
(* crates/operations/src/operations_evidence/validation/fields/scalar.rs:143-155 require_bool_at_path *)
Definition require_bool_at_path (value : Value) (path : list string) : Validation (option bool) :=
  expect_typed (value_at_path value path ≫= as_bool) (field_of path +:+ " must be a boolean").
(* crates/operations/src/operations_evidence/validation/fields/scalar.rs:157-169 require_u64_at_path *)
Definition require_u64_at_path (value : Value) (path : list string) : Validation (option Z) :=
  expect_typed (value_at_path value path ≫= as_u64)
    (field_of path +:+ " must be a non-negative integer").

(** ** Arrays *)

(* crates/operations/src/operations_evidence/validation/fields/arrays.rs:5-15 require_empty_array *)
Definition require_empty_array (value : Value) (field : string) : Validation unit :=
  match value_get value field ≫= as_array with
  | Some [] => pass
  | Some _ => push_failure (field +:+ " must be empty")
  | None => push_failure (field +:+ " must be an empty array")
  end.
(** For each required text, whether the array has an element for it. *)
Definition require_each (values : option (list Value)) (field : string)
    (has : string -> Value -> bool) (missing : string -> string) (required : list string)
    : Validation unit :=
  match values with
  | None => push_failure (field +:+ " must be an array")
  | Some values =>
      v_each (fun text => if existsb (has text) values then pass else push_failure (missing text))
        required
  end.
Definition is_text (text : string) (value : Value) : bool := bool_decide (as_str value = Some text).
(* crates/operations/src/operations_evidence/validation/fields/arrays.rs:17-36 require_string_array_contains_all *)
Definition require_string_array_contains_all (value : Value) (path required : list string)
    : Validation unit :=
  let field := field_of path in
  require_each (value_at_path value path ≫= as_array) field is_text
    (fun text => field +:+ " must include " +:+ text) required.
(* crates/operations/src/operations_evidence/validation/fields/arrays.rs:38-62 require_object_array_contains_strings *)
Definition require_object_array_contains_strings (value : Value) (path : list string)
    (field_name : string) (required : list string) : Validation unit :=
  let field := field_of path in
  require_each (value_at_path value path ≫= as_array) field
    (fun text item => bool_decide ((value_get item field_name ≫= as_str) = Some text))
    (fun text => field +:+ " must include object with " +:+ field_name +:+ "=" +:+ text) required.
(* crates/operations/src/operations_evidence/validation/fields/arrays.rs:64-84 require_string_array_contains_substrings *)
Definition require_string_array_contains_substrings (value : Value) (path required : list string)
    : Validation unit :=
  let field := field_of path in
  require_each (value_at_path value path ≫= as_array) field
    (fun text item => match as_str item with Some s => str_contains text s | None => false end)
    (fun text => field +:+ " must include " +:+ text) required.
(* crates/operations/src/operations_evidence/validation/fields/arrays.rs:86-105 require_string_array_contains_all_from_value *)
Definition require_string_array_contains_all_from_value (value : Value) (prefix field : string)
    (required : list string) : Validation unit :=
  let field_name := prefix +:+ "." +:+ field in
  require_each (value_get value field ≫= as_array) field_name is_text
    (fun text => field_name +:+ " must include " +:+ text) required.
(* crates/operations/src/operations_evidence/validation/fields/arrays.rs:107-118 require_non_empty_array_at_path *)
Definition require_non_empty_array_at_path (value : Value) (path : list string) : Validation unit :=
  match value_at_path value path ≫= as_array with
  | Some (_ :: _) => pass
  | Some [] => push_failure (field_of path +:+ " must not be empty")
  | None => push_failure (field_of path +:+ " must be a non-empty array")
  end.
(* crates/operations/src/operations_evidence/validation/fields/rejections.rs:3-15 reject_non_empty_array *)
Definition reject_non_empty_array (value : Value) (field : string) : Validation unit :=
  match value_get value field ≫= as_array with
  | Some (_ :: _) => push_failure (field +:+ " must be empty or absent")
  | _ => pass
  end.
(* crates/operations/src/operations_evidence/validation/fields/rejections.rs:17-29 reject_true_bool *)
Definition reject_true_bool (value : Value) (field : string) : Validation unit :=
  match value_get value field ≫= as_bool with
  | Some true => push_failure (field +:+ " must be false or absent")
  | _ => pass
  end.

(** ** Values that may be absent *)

(* crates/operations/src/operations_evidence/validation/fields/optional.rs:5-19 validate_optional_membership_role *)
Definition validate_optional_membership_role (value : Value) (path : list string) : Validation unit :=
  match value_at_path value path with
  | Some Null | None => pass
  | Some (String_ role) =>
      if contains ["member"; "owner"] role then pass
      else push_failure (field_of path +:+ " must be member, owner, or null, got " +:+ role)
  | Some _ => push_failure (field_of path +:+ " must be member, owner, or null")
  end.
(* crates/operations/src/operations_evidence/validation/fields/optional.rs:21-31 validate_optional_filter_string *)
Definition validate_optional_filter_string (value : Value) (path : list string) : Validation unit :=
  match value_at_path value path with
  | Some Null | Some (String_ _) | None => pass
  | Some _ => push_failure (field_of path +:+ " must be a string or null")
  end.

(** ** Instants and identifiers *)

(** [Date::from_calendar_date] and [Time::from_hms] with
    [date.with_time(time).assume_utc()]: the instant, when there is such a day
    and such a time. *)
Class Calendar := {
  calendar_instant : forall year month day hour minute second : Z, option OffsetDateTime
}.

(** [str::parse::<u8>] and [str::parse::<i32>]: an unsigned number has no minus
    sign. *)
Definition parse_unsigned (max : Z) (s : string) : option Z :=
  let digits := match s with String "+"%char s => s | _ => s end in
  match parse_nat_str digits with Some n => if (n <=? max)%Z then Some n else None | None => None end.
Definition parse_u8 : string -> option Z := parse_unsigned 255.
Definition parse_i32 (s : string) : option Z :=
  match parse_signed s with
  | Some n => if (- 2 ^ 31 <=? n)%Z && (n <? 2 ^ 31)%Z then Some n else None
  | None => None
  end.

Section instants.
Context {RP : Rfc3339Parse} {CAL : Calendar} {UU : UuidCrate} {TC : TokenCrates}.

Definition month_names : list (list string) :=
  [["jan"; "january"]; ["feb"; "february"]; ["mar"; "march"]; ["apr"; "april"]; ["may"];
   ["jun"; "june"]; ["jul"; "july"]; ["aug"; "august"]; ["sep"; "sept"; "september"];
   ["oct"; "october"]; ["nov"; "november"]; ["dec"; "december"]].
(** A month is its number. *)
(* crates/operations/src/operations_evidence/timestamp.rs:100-116 parse_english_month *)
Definition parse_english_month (value : string) : option Z :=
  (fun found => Z.of_nat (S found.1)) <$>
    list_find (fun names => to_ascii_lowercase value ∈ names) month_names.
(** The hour of a day from that of a half day, which is between 1 and 12. *)
Definition hour_of (hour : Z) (period : string) : option Z :=
  if String.eqb period "AM" then Some (if (hour =? 12)%Z then 0%Z else hour)
  else if String.eqb period "PM" then Some (if (hour =? 12)%Z then 12%Z else (hour + 12)%Z)
  else None.
(* crates/operations/src/operations_evidence/timestamp.rs:57-98 parse_openid_suite_export_timestamp *)
Definition parse_openid_suite_export_timestamp (value : string) : option OffsetDateTime :=
  match split_char "," value with
  | [month_day; year; time_period] =>
      year ← parse_i32 (trim year);
      match split_whitespace (trim month_day) with
      | [month; day] =>
          month ← parse_english_month month;
          day ← parse_u8 day;
          match split_whitespace (trim time_period) with
          | [time; period] =>
              match split_char ":" time with
              | [hour; minute; second] =>
                  hour ← parse_u8 hour;
                  minute ← parse_u8 minute;
                  second ← parse_u8 second;
                  if negb ((1 <=? hour)%Z && (hour <=? 12)%Z) then None
                  else hour ← hour_of hour (to_ascii_uppercase period);
                       calendar_instant year month day hour minute second
              | _ => None
              end
          | _ => None
          end
      | _ => None
      end
  | _ => None
  end.
(* crates/operations/src/operations_evidence/timestamp.rs:51-55 parse_release_evidence_timestamp *)
Definition parse_release_evidence_timestamp (value : string) : option OffsetDateTime :=
  match rfc3339_parse value with
  | Some timestamp => Some timestamp
  | None => parse_openid_suite_export_timestamp value
  end.
Definition RELEASE_EVIDENCE_CLOCK_SKEW_SECONDS : Z := 300.
(** The first of the fields that is a text. *)
Definition root_timestamp (value : Value) : option (string * string) :=
  let text (field : string) := (fun timestamp => (field, timestamp)) <$> (value_get value field ≫= as_str) in
  match text "completed_at" with
  | Some found => Some found
  | None => match text "exportedAt" with Some found => Some found | None => text "generated_at" end
  end.
(* crates/operations/src/operations_evidence/timestamp.rs:6-49 validate_artifact_root_timestamp_freshness *)
Definition validate_artifact_root_timestamp_freshness (value : Value) (now : OffsetDateTime)
    (max_age_days : Z) : Validation unit :=
  match root_timestamp value with
  | None => pass
  | Some (field, timestamp) =>
      match parse_release_evidence_timestamp timestamp with
      | None => pass
      | Some timestamp =>
          if (duration_minutes (60 * 24 * max_age_days) <? now - timestamp)%Z
          then push_failure (field +:+ " is older than " +:+ i64_to_string max_age_days
                 +:+ " days and must be refreshed")
          else if (duration_seconds RELEASE_EVIDENCE_CLOCK_SKEW_SECONDS <? timestamp - now)%Z
          then push_failure (field +:+ " is more than "
                 +:+ i64_to_string RELEASE_EVIDENCE_CLOCK_SKEW_SECONDS +:+ " seconds in the future")
          else push_check "completion timestamp is within the release evidence freshness window"
      end
  end.

(* crates/operations/src/operations_evidence/validation/timestamps.rs:6-24 require_rfc3339_timestamp *)
Definition require_rfc3339_timestamp (value : Value) (field evidence_kind : string) : Validation unit :=
  match value_get value field ≫= as_str with
  | None => push_failure (field +:+ " must be present for " +:+ evidence_kind +:+ " evidence")
  | Some timestamp =>
      match rfc3339_parse timestamp with
      | None => push_failure (field +:+ " must be an RFC3339 timestamp")
      | Some _ => push_check (evidence_kind +:+ " completion timestamp is valid")
      end
  end.
(* crates/operations/src/operations_evidence/validation/timestamps.rs:26-39 require_rfc3339_timestamp_at_path *)
Definition require_rfc3339_timestamp_at_path (value : Value) (path : list string) (label : string)
    : Validation unit :=
  match (value_at_path value path ≫= as_str) ≫= rfc3339_parse with
  | None => push_failure (label +:+ " must be an RFC3339 timestamp")
  | Some _ => pass
  end.
(* crates/operations/src/operations_evidence/validation/timestamps.rs:41-57 require_openid_export_timestamp_at_path *)
Definition require_openid_export_timestamp_at_path (value : Value) (path : list string) (label : string)
    : Validation bool :=
  match (value_at_path value path ≫= as_str) ≫= parse_release_evidence_timestamp with
  | None => let+ _ := push_failure (label +:+ " must be an OpenID suite export timestamp") in v_ret false
  | Some _ => v_ret true
  end.
(* crates/operations/src/operations_evidence/validation/timestamps.rs:59-81 validate_optional_filter_timestamp *)
Definition validate_optional_filter_timestamp (value : Value) (path : list string) : Validation unit :=
  let failed := push_failure (field_of path +:+ " must be an RFC3339 timestamp or null") in
  match value_at_path value path with
  | Some Null | None => pass
  | Some (String_ timestamp) => match rfc3339_parse timestamp with None => failed | Some _ => pass end
  | Some _ => failed
  end.

(* crates/operations/src/operations_evidence/validation/ids.rs:6-25 require_uuid_at_path *)
Definition require_uuid_at_path (value : Value) (path : list string) : Validation (option Uuid) :=
  expect_typed ((value_at_path value path ≫= as_str) ≫= Uuid_parse_str)
    (field_of path +:+ " must be a UUID").
(** The elements from an index on, with the identifiers seen before. *)
Fixpoint uuid_items (field : string) (index : nat) (values : list Value) (uuids : gset Uuid)
    : Validation (gset Uuid) :=
  match values with
  | [] => v_ret uuids
  | value :: values =>
      let item := field +:+ "[" +:+ pretty (N.of_nat index) +:+ "]" in
      match as_str value ≫= Uuid_parse_str with
      | None =>
          let+ _ := push_failure (item +:+ " must be a UUID string") in
          uuid_items field (S index) values uuids
      | Some uuid =>
          let+ _ := if decide (uuid ∈ uuids)
                    then push_failure (item +:+ " duplicates UUID " +:+ uuid_to_string uuid)
                    else pass in
          uuid_items field (S index) values ({[uuid]} ∪ uuids)
      end
  end.
(* crates/operations/src/operations_evidence/validation/ids.rs:27-62 require_uuid_array_exact_len *)
Definition require_uuid_array_exact_len (value : Value) (path : list string) (expected_len : nat)
    : Validation (option (gset Uuid)) :=
  let field := field_of path in
  match value_at_path value path ≫= as_array with
  | None => let+ _ := push_failure (field +:+ " must be an array of UUIDs") in v_ret None
  | Some values =>
      let+ _ := if (length values =? expected_len)%nat then pass
                else push_failure (field +:+ " must contain exactly "
                       +:+ pretty (N.of_nat expected_len) +:+ " UUIDs, got "
                       +:+ pretty (N.of_nat (length values))) in
      let+ uuids := uuid_items field 0 values ∅ in
      v_ret (Some uuids)
  end.
(* crates/operations/src/operations_evidence/validation/ids.rs:64-77 validate_optional_uuid *)
Definition validate_optional_uuid (value : Value) (path : list string) : Validation unit :=
  match value_at_path value path with
  | Some Null | None => pass
  | Some (String_ candidate) =>
      match Uuid_parse_str candidate with
      | Some _ => pass
      | None => push_failure (field_of path +:+ " must be a UUID or null")
      end
  | Some _ => push_failure (field_of path +:+ " must be a UUID string or null")
  end.
End instants.

(** ** Lemmas *)

(** [quiet c a]: the part answers [a] and pushes no failure. *)
Definition quiet {A} (c : Validation A) (a : A) : Prop :=
  forall s, (c s).1 = a /\ failures (c s).2 = failures s.
Lemma quiet_ret {A} (a : A) : quiet (v_ret a) a.
Proof. done. Qed.
Lemma quiet_check text : quiet (push_check text) tt.
Proof. done. Qed.
Lemma quiet_bind {A B} (c : Validation A) (k : A -> Validation B) a b :
  quiet c a -> quiet (k a) b -> quiet (v_bind c k) b.
Proof.
  intros Hc Hk s. unfold v_bind. destruct (Hc s) as [H1 H2]. destruct (c s) as [a' s']. cbn in *. subst a'.
  destruct (Hk s') as [H3 H4]. by rewrite <- H2.
Qed.

Section quiet.
Context {RP : Rfc3339Parse} {CAL : Calendar} {UU : UuidCrate} {TC : TokenCrates}.
Implicit Types (value : Value) (path : list string).

Lemma quiet_string value field expected :
  (value_get value field ≫= as_str) = Some expected -> quiet (require_string value field expected) tt.
Proof. unfold require_string. intros ->. cbn. by rewrite String.eqb_refl. Qed.
Lemma quiet_string_at_path value path expected :
  (value_at_path value path ≫= as_str) = Some expected ->
  quiet (require_string_at_path value path expected) tt.
Proof. unfold require_string_at_path. intros ->. cbn. by rewrite String.eqb_refl. Qed.
Lemma quiet_status value path status :
  (value_at_path value path ≫= as_str) = Some status -> status ∈ ["active"; "suspended"; "locked"] ->
  quiet (validate_user_status_field value path) tt.
Proof. unfold validate_user_status_field. intros -> H%contains_true. by rewrite H. Qed.
Lemma quiet_bool value path expected :
  (value_at_path value path ≫= as_bool) = Some expected -> quiet (require_bool value path expected) tt.
Proof. unfold require_bool. intros ->. by rewrite eqb_reflx. Qed.
Lemma quiet_non_empty value path text :
  (value_at_path value path ≫= as_str) = Some text -> text <> "" ->
  quiet (require_non_empty_string_at_path value path) tt.
Proof. unfold require_non_empty_string_at_path. intros -> H. cbn. by destruct text. Qed.
Lemma quiet_typed {A} (o : option A) a failure : o = Some a -> quiet (expect_typed o failure) (Some a).
Proof. by intros ->. Qed.
Lemma quiet_bool_at_path value path b :
  (value_at_path value path ≫= as_bool) = Some b -> quiet (require_bool_at_path value path) (Some b).
Proof. apply quiet_typed. Qed.
Lemma quiet_u64 value path n :
  value_at_path value path = Some (Number n) -> (0 <= n < 2 ^ 64)%Z ->
  quiet (require_u64_at_path value path) (Some n).
Proof.
  intros Hv Hn. apply quiet_typed. rewrite Hv. cbn.
  by rewrite (proj2 (Z.leb_le _ _)), (proj2 (Z.ltb_lt _ _)) by lia.
Qed.
Lemma quiet_no_array value field :
  value_get value field = None -> quiet (reject_non_empty_array value field) tt.
Proof. unfold reject_non_empty_array. by intros ->. Qed.
Lemma quiet_instant value field kind text :
  (value_get value field ≫= as_str) = Some text -> is_Some (rfc3339_parse text) ->
  quiet (require_rfc3339_timestamp value field kind) tt.
Proof. unfold require_rfc3339_timestamp. by intros -> [t ->]. Qed.
Lemma quiet_instant_at_path value path label text :
  (value_at_path value path ≫= as_str) = Some text -> is_Some (rfc3339_parse text) ->
  quiet (require_rfc3339_timestamp_at_path value path label) tt.
Proof. unfold require_rfc3339_timestamp_at_path. intros -> [t Ht]. cbn. by rewrite Ht. Qed.
Lemma quiet_uuid value path text id :
  (value_at_path value path ≫= as_str) = Some text -> Uuid_parse_str text = Some id ->
  quiet (require_uuid_at_path value path) (Some id).
Proof. intros Hv Hid. apply quiet_typed. rewrite Hv. exact Hid. Qed.
Lemma quiet_optional_role value path :
  (value_at_path value path = Some Null
   \/ exists role, value_at_path value path = Some (String_ role) /\ role ∈ ["member"; "owner"]) ->
  quiet (validate_optional_membership_role value path) tt.
Proof.
  unfold validate_optional_membership_role. intros [->|(role & -> & H%contains_true)]; [done|].
  by rewrite H.
Qed.
Lemma quiet_optional_string value path o :
  value_at_path value path = Some (match o with Some s => String_ s | None => Null end) ->
  quiet (validate_optional_filter_string value path) tt.
Proof. unfold validate_optional_filter_string. intros ->. by destruct o. Qed.
Lemma quiet_optional_instant value path :
  (value_at_path value path = Some Null
   \/ exists text, value_at_path value path = Some (String_ text) /\ is_Some (rfc3339_parse text)) ->
  quiet (validate_optional_filter_timestamp value path) tt.
Proof.
  unfold validate_optional_filter_timestamp. intros [->|(text & -> & [t Ht])]; [done|]. by rewrite Ht.
Qed.
Lemma quiet_optional_uuid value path :
  (value_at_path value path = Some Null
   \/ exists text, value_at_path value path = Some (String_ text) /\ is_Some (Uuid_parse_str text)) ->
  quiet (validate_optional_uuid value path) tt.
Proof. unfold validate_optional_uuid. intros [->|(text & -> & [t Ht])]; [done|]. by rewrite Ht. Qed.

(** Every part of a validator only pushes. *)
Definition pushes {A} (c : Validation A) : Prop :=
  forall s, exists more, failures (c s).2 = failures s ++ more.
Lemma quiet_pushes {A} (c : Validation A) a : quiet c a -> pushes c.
Proof. intros Hc s. exists []. rewrite app_nil_r. apply Hc. Qed.
Lemma pushes_failure text : pushes (push_failure text).
Proof. intros s. by exists [text]. Qed.
Lemma pushes_bind {A B} (c : Validation A) (k : A -> Validation B) :
  pushes c -> (forall a, pushes (k a)) -> pushes (v_bind c k).
Proof.
  intros Hc Hk s. unfold v_bind. destruct (Hc s) as [m1 H1]. destruct (c s) as [a s1]. cbn in *.
  destruct (Hk a s1) as [m2 H2]. exists (m1 ++ m2). by rewrite H2, H1, app_assoc.
Qed.
Lemma pushes_each {A} (f : A -> Validation unit) l : (forall x, pushes (f x)) -> pushes (v_each f l).
Proof.
  intros Hf. induction l as [|x l IH]; cbn; [by eapply quiet_pushes, quiet_ret|]. by apply pushes_bind.
Qed.
Lemma pushes_ret {A} (a : A) : pushes (v_ret a).
Proof. by eapply quiet_pushes, quiet_ret. Qed.
Lemma pushes_check text : pushes (push_check text).
Proof. by eapply quiet_pushes, quiet_check. Qed.
Lemma pushes_freshness value now days :
  pushes (validate_artifact_root_timestamp_freshness value now days).
Proof.
  unfold validate_artifact_root_timestamp_freshness.
  repeat case_match; first [apply pushes_failure|apply pushes_ret|apply pushes_check].
Qed.
End quiet.

(** A validator is made of parts that only push: the tactic takes it apart. *)
Ltac solve_pushes :=
  repeat first
    [ apply pushes_failure | apply pushes_ret | apply pushes_check
    | apply pushes_bind; [|intros ?]
    | progress cbv delta [require_string require_string_at_path expect_string require_bool expect_i64
        require_i64_at_least require_non_empty_string_at_path expect_non_empty expect_typed
        require_bool_at_path require_u64_at_path reject_non_empty_array require_empty_array
        validate_user_status_field validate_optional_membership_role validate_optional_filter_string
        validate_optional_filter_timestamp validate_optional_uuid require_rfc3339_timestamp
        require_rfc3339_timestamp_at_path require_uuid_at_path] beta
    | case_match ].
