(* ===== verification/FileSystem.v ===== *)
(** * Paths and files

    [std::path] and [std::fs] as the tools around the service use them, on
    Unix: a disk is a tree of named nodes, a path is a text the kernel walks
    from the root or from the working directory, following no more links than
    the system allows.  The library's part is to say what a walk can reach, and what a
    change of one file leaves as it was. *)

From S2P Require Import Prelude RustStr.
From Stdlib Require Import Ascii.

(** ** Paths *)

Inductive Component := RootDir | CurDir | ParentDir | Normal (name : string).
#[export] Instance Component_eq_dec : EqDecision Component.
Proof. solve_decision. Defined.

Definition slash : ascii := ascii_of_N 47.
Definition segments (path : string) : list string := split_char slash path.
(** A segment that does not lead anywhere. *)
Definition idle (segment : string) : bool := is_empty segment || String.eqb segment ".".

(** [Path::is_absolute] *)
Definition is_absolute (path : string) : bool := starts_with "/" path.
(** [Path::components] *)
Definition component_of (segment : string) : option Component :=
  if idle segment then None
  else Some (if String.eqb segment ".." then ParentDir else Normal segment).
Definition components (path : string) : list Component :=
  (if is_absolute path then [RootDir]
   else match segments path with "." :: _ => [CurDir] | _ => [] end)
  ++ omap component_of (segments path).
(** [Path::join] *)
Definition path_join (path name : string) : string :=
  if is_absolute name then name
  else if is_empty path || ends_with "/" path then path +:+ name
  else path +:+ "/" +:+ name.
(** [Path::starts_with] *)
Definition path_starts_with (path base : string) : bool :=
  bool_decide (components base `prefix_of` components path).
(** [Path::parent] *)
Fixpoint drop_idle (reversed : list string) : list string :=
  match reversed with
  | segment :: rest => if idle segment then drop_idle rest else reversed
  | [] => []
  end.
Definition path_parent (path : string) : option string :=
  match drop_idle (rev (segments path)) with
  | [] => match segments path with
          | "." :: _ => Some ""
          | _ => None
          end
  | _ :: rest =>
      Some (match drop_idle rest with
            | [] => if is_absolute path then "/"
                    else match segments path with "." :: _ => "." | _ => "" end
            | kept => join "/" (rev kept)
            end)
  end.

(** ** The disk *)

(** [io::Error::kind], as far as it is looked at. *)
Inductive IoErrorKind := Io_NotFound | Io_Other.
Inductive FileType := RegularFile | Symlink | Directory_ | OtherFile.

Inductive Node :=
| Folder
| File_ (contents : string) (modified_at : option Z)
| Link (target : string)
| Special.
Definition node_type (n : Node) : FileType :=
  match n with
  | Folder => Directory_ | File_ _ _ => RegularFile | Link _ => Symlink | Special => OtherFile
  end.

(** A place is the list of the names that lead to it from the root.
    [refused] are the places the system does not let the process use, for want
    of permission or for a name it does not take; [arrange] is the order in
    which a directory is read, [max_links] how many links a walk may follow (forty
    on Linux). *)
Notation Place := (list string).
Record FileSystem := mk_FileSystem {
  nodes : gmap Place Node;
  refused : Place -> bool;
  arrange : list string -> list string;
  working_directory : Place;
  max_links : nat;
}.
Definition node (fs : FileSystem) (at_ : Place) : option Node :=
  match at_ with [] => Some Folder | _ => nodes fs !! at_ end.
Definition set_node (fs : FileSystem) (at_ : Place) (n : Node) : FileSystem :=
  mk_FileSystem (<[at_ := n]> (nodes fs)) (refused fs) (arrange fs) (working_directory fs) (max_links fs).

(** What is known of every disk: names are names, what is there is in a
    directory, and reading a directory meets each name once. *)
Definition is_name (name : string) : bool :=
  negb (idle name) && negb (String.eqb name "..") && negb (contains_char slash name)
  && negb (contains_char (ascii_of_N 0) name).
Record fs_wf (fs : FileSystem) : Prop := {
  fs_names : forall at_ name n, nodes fs !! (at_ ++ [name]) = Some n -> is_name name = true;
  fs_closed : forall at_ name n, nodes fs !! (at_ ++ [name]) = Some n -> node fs at_ = Some Folder;
  fs_arranged : forall names, arrange fs names ≡ₚ names;
  fs_rooted : nodes fs !! [] = None;
  fs_working : node fs (working_directory fs) = Some Folder;
}.

(** The walk of the kernel: [follow] says whether a link at the end is
    followed, [make] whether the last name may be missing.  It returns the
    place and how many links may still be followed. *)
Definition parent_place (at_ : Place) : Place := removelast at_.
Section walk.
Context (fs : FileSystem) (follow make : bool).
Fixpoint walk (links : nat) : Place -> list string -> result IoErrorKind (Place * nat) :=
  fix go (at_ : Place) (path : list string) {struct path} :=
    match path with
    | [] => Ok (at_, links)
    | segment :: rest =>
        if refused fs at_ then Err Io_Other
        else match node fs at_ with
             | Some Folder =>
                 if idle segment then go at_ rest
                 else if String.eqb segment ".." then go (parent_place at_) rest
                 else let next := at_ ++ [segment] in
                      match node fs next, rest with
                      | None, [] => if make then Ok (next, links) else Err Io_NotFound
                      | None, _ => Err Io_NotFound
                      | Some (Link target), _ =>
                          if match rest with [] => negb follow | _ => false end then Ok (next, links)
                          else match links with
                               | O => Err Io_Other
                               | S links' => walk links' (if is_absolute target then [] else at_)
                                               (segments target ++ rest)
                               end
                      | Some _, _ => go next rest
                      end
             | _ => Err Io_Other
             end
    end.
End walk.
Definition resolve (fs : FileSystem) (follow make : bool) (path : string) : result IoErrorKind Place :=
  if is_empty path then Err Io_NotFound
  else if contains_char (ascii_of_N 0) path then Err Io_Other
  else fst <$> walk fs follow make (max_links fs)
         (if is_absolute path then [] else working_directory fs) (segments path).

(** ** [std::fs] *)

Definition place_text (at_ : Place) : string := "/" +:+ join "/" at_.

(** [fs::symlink_metadata]: the type, and when a file was changed. *)
Definition fs_symlink_metadata (fs : FileSystem) (path : string)
    : result IoErrorKind (FileType * option Z) :=
  let? at_ := resolve fs false false path in
  match node fs at_ with
  | Some n => Ok (node_type n, match n with File_ _ modified_at => modified_at | _ => None end)
  | None => Err Io_NotFound
  end.
(** [Path::is_dir] *)
Definition is_dir (fs : FileSystem) (path : string) : bool :=
  match resolve fs true false path with
  | Ok at_ => match node fs at_ with Some Folder => true | _ => false end
  | Err _ => false
  end.
(** [Path::canonicalize] *)
Definition canonicalize (fs : FileSystem) (path : string) : result IoErrorKind string :=
  place_text <$> resolve fs true false path.
(** [fs::read_dir]: the names with their types. *)
Fixpoint child_of (at_ place : Place) : option string :=
  match at_, place with
  | [], [name] => Some name
  | x :: at_', y :: place' => if String.eqb x y then child_of at_' place' else None
  | _, _ => None
  end.
Definition children (fs : FileSystem) (at_ : Place) : list string :=
  elements (list_to_set (omap (fun '(place, _) => child_of at_ place) (map_to_list (nodes fs))) : gset string).
Definition entry_type (fs : FileSystem) (at_ : Place) (name : string) : FileType :=
  match node fs (at_ ++ [name]) with Some n => node_type n | None => OtherFile end.
Definition fs_read_dir (fs : FileSystem) (path : string)
    : result IoErrorKind (list (string * FileType)) :=
  let? at_ := resolve fs true false path in
  if refused fs at_ then Err Io_Other
  else match node fs at_ with
       | Some Folder => Ok ((fun name => (name, entry_type fs at_ name)) <$> arrange fs (children fs at_))
       | _ => Err Io_Other
       end.
(** [fs::read_to_string] *)
Definition fs_read_to_string (fs : FileSystem) (path : string) : result IoErrorKind string :=
  let? at_ := resolve fs true false path in
  if refused fs at_ then Err Io_Other
  else match node fs at_ with
       | Some (File_ contents _) => if utf8_valid contents then Ok contents else Err Io_Other
       | _ => Err Io_Other
       end.
(** [fs::write], at the time the clock shows. *)
Definition fs_write (fs : FileSystem) (path contents : string) (clock : Z)
    : result IoErrorKind FileSystem :=
  let? at_ := resolve fs true true path in
  if refused fs at_ then Err Io_Other
  else match node fs at_ with
       | None | Some (File_ _ _) => Ok (set_node fs at_ (File_ contents (Some clock)))
       | _ => Err Io_Other
       end.
(** mkdir(2): slashes at the end do not matter, and a link there is not
    followed. *)
Definition mkdir (fs : FileSystem) (path : string) : result IoErrorKind FileSystem :=
  let trimmed := trim_end_matches slash path in
  let? at_ := resolve fs false true (if is_empty trimmed then path else trimmed) in
  if refused fs at_ then Err Io_Other
  else match node fs at_ with
       | None => Ok (set_node fs at_ Folder)
       | Some _ => Err Io_Other
       end.
(** [fs::create_dir_all]: a directory, and first the one it is in; what was
    made stays when a later step fails.  Each turn drops a segment, so their
    number is enough. *)
Definition mkdir_or_there (fs : FileSystem) (path : string) : result IoErrorKind unit * FileSystem :=
  match mkdir fs path with
  | Ok fs' => (Ok tt, fs')
  | Err kind => (if is_dir fs path then Ok tt else Err kind, fs)
  end.
Fixpoint create_dir_all_turns (turns : nat) (fs : FileSystem) (path : string)
    : result IoErrorKind unit * FileSystem :=
  if is_empty path then (Ok tt, fs)
  else match mkdir fs path with
       | Err Io_NotFound =>
           match turns, path_parent path with
           | S turns', Some parent =>
               let '(made, fs) := create_dir_all_turns turns' fs parent in
               match made with
               | Ok _ => mkdir_or_there fs path
               | Err kind => (Err kind, fs)
               end
           | _, _ => (Err Io_Other, fs)
           end
       | _ => mkdir_or_there fs path
       end.
Definition create_dir_all (fs : FileSystem) (path : string) : result IoErrorKind unit * FileSystem :=
  create_dir_all_turns (length (segments path)) fs path.

(** ** What a walk reaches *)

Section walks.
Lemma walk_eq fs follow make links at_ path :
  walk fs follow make links at_ path =
  match path with
  | [] => Ok (at_, links)
  | segment :: rest =>
      if refused fs at_ then Err Io_Other
      else match node fs at_ with
           | Some Folder =>
               if idle segment then walk fs follow make links at_ rest
               else if String.eqb segment ".." then walk fs follow make links (parent_place at_) rest
               else let next := at_ ++ [segment] in
                    match node fs next, rest with
                    | None, [] => if make then Ok (next, links) else Err Io_NotFound
                    | None, _ => Err Io_NotFound
                    | Some (Link target), _ =>
                        if match rest with [] => negb follow | _ => false end then Ok (next, links)
                        else match links with
                             | O => Err Io_Other
                             | S links' => walk fs follow make links'
                                             (if is_absolute target then [] else at_)
                                             (segments target ++ rest)
                             end
                    | Some _, _ => walk fs follow make links next rest
                    end
           | _ => Err Io_Other
           end
  end.
Proof. by destruct links, path. Qed.

Lemma walk_app fs follow make links at_ path path' :
  path' <> [] ->
  walk fs follow make links at_ (path ++ path')
  = match walk fs true false links at_ path with
    | Ok (place, links') => walk fs follow make links' place path'
    | Err kind => Err kind
    end.
Proof.
  intros Hne. revert at_ path. induction links as [|links IHl]; intros at_ path; revert at_;
    induction path as [|segment path IH]; intros at_; try by destruct path'.
  all: cbn [app]; rewrite (walk_eq fs follow make), (walk_eq fs true false).
  all: destruct (refused fs at_); [done|]; destruct (node fs at_) as [[]|]; try done.
  all: destruct (idle segment); [by apply IH|]; destruct (String.eqb segment ".."); [by apply IH|].
  all: cbv zeta; destruct (node fs (at_ ++ [segment])) as [[| | |]|]; try apply IH.
  all: try by destruct path, path'.
  assert (match path ++ path' with [] => negb follow | _ => false end = false) as -> by by destruct path, path'.
  assert (match path with [] => negb true | _ => false end = false) as -> by by destruct path.
  by rewrite app_assoc, IHl.
Qed.

(** A walk is not disturbed by what is put where nothing was looked into. *)
Definition grows fs fs' : Prop :=
  refused fs' = refused fs /\ max_links fs' = max_links fs
  /\ (forall at_, node fs at_ = Some Folder -> node fs' at_ = Some Folder)
  /\ (forall at_ target, node fs at_ = Some (Link target) -> node fs' at_ = Some (Link target))
  /\ (forall at_, is_Some (node fs at_) -> is_Some (node fs' at_)).
Lemma walk_stops fs fs' follow make make' links next rest place links' :
  refused fs' = refused fs ->
  node fs next <> Some Folder -> (forall target, node fs next <> Some (Link target)) ->
  is_Some (node fs' place) ->
  (forall target, node fs' place = Some (Link target) -> node fs place = Some (Link target)) ->
  match node fs next, rest with
  | None, [] => if make then Ok (next, links) else Err Io_NotFound
  | None, _ => Err Io_NotFound
  | Some _, _ => walk fs follow make links next rest
  end = Ok (place, links') ->
  match node fs' next, rest with
  | None, [] => if make' then Ok (next, links) else Err Io_NotFound
  | None, _ => Err Io_NotFound
  | Some (Link target), _ =>
      if match rest with [] => negb follow | _ => false end then Ok (next, links)
      else match links with
           | O => Err Io_Other
           | S links' => walk fs' follow make' links' (if is_absolute target then [] else removelast next)
                           (segments target ++ rest)
           end
  | Some _, _ => walk fs' follow make' links next rest
  end = Ok (place, links').
Proof.
  intros Hr Hf Hl [n Hp] Hlink.
  assert (Hend : rest = [] -> next = place -> match node fs' next with
    | Some (Link _) => False | Some _ => True | None => False end).
  { intros -> ->. rewrite Hp. destruct n as [| |target|]; try done. by apply (Hl target), Hlink. }
  destruct rest as [|segment rest].
  - assert (forall b : bool, (if b then Ok (next, links) else Err Io_NotFound) = Ok (place, links') ->
      next = place /\ links = links') as Hok by (intros []; [by intros [= -> ->]|done]).
    destruct (node fs next) as [n'|].
    + rewrite walk_eq. intros [= Hn <-]. specialize (Hend eq_refl Hn).
      destruct (node fs' next) as [[]|]; try done; by rewrite walk_eq, Hn.
    + intros [Hn <-]%Hok. specialize (Hend eq_refl Hn).
      destruct (node fs' next) as [[]|]; try done; by rewrite walk_eq, Hn.
  - destruct (node fs next) as [n'|] eqn:En; [|done]. rewrite walk_eq, En.
    destruct (refused fs next); [done|]. by destruct n'.
Qed.
Lemma walk_grows fs fs' follow make make' links at_ path place links' :
  grows fs fs' ->
  walk fs follow make links at_ path = Ok (place, links') ->
  is_Some (node fs' place) ->
  (forall target, node fs' place = Some (Link target) -> node fs place = Some (Link target)) ->
  walk fs' follow make' links at_ path = Ok (place, links').
Proof.
  intros (Hr & _ & Hf & Hl & Hs) Hw Hp Hlink. revert at_ path Hw. induction links as [|links IHl]; intros at_ path; revert at_;
    induction path as [|segment path IH]; intros at_.
  all: rewrite (walk_eq fs), (walk_eq fs'); try done.
  all: rewrite Hr; destruct (refused fs at_); [done|]; destruct (node fs at_) as [[]|] eqn:Ea; try done.
  all: rewrite (Hf _ Ea); destruct (idle segment); [by apply IH|]; destruct (String.eqb segment ".."); [by apply IH|].
  all: cbv zeta; pose proof (walk_stops fs fs' follow make make') as Hstop; specialize Hstop with (next := at_ ++ [segment]).
  all: rewrite removelast_last in Hstop.
  all: destruct (node fs (at_ ++ [segment])) as [[|contents modified|target|]|] eqn:En.
  all: try (rewrite (Hf _ En); apply IH).
  all: try (rewrite (Hl _ _ En); destruct (match path with [] => negb follow | _ => false end); solve [done|apply IHl]).
  all: intros Hw; apply Hstop; done.
Qed.
End walks.

(** ** Texts of paths *)

Lemma split_char_sep c a s : split_char c (a +:+ String c s) = split_char c a ++ split_char c s.
Proof.
  induction a as [|d a IH].
  - rewrite string_app_nil_l. cbn. by rewrite Ascii.eqb_refl.
  - rewrite string_app_cons. cbn. destruct (Ascii.eqb d c); [by rewrite IH|]. rewrite IH.
    by pose proof (split_char_nonempty c a); destruct (split_char c a).
Qed.
Lemma is_name_spec name :
  is_name name = true ->
  name <> "" /\ idle name = false /\ String.eqb name ".." = false
  /\ contains_char slash name = false /\ contains_char (ascii_of_N 0) name = false.
Proof.
  unfold is_name, idle. intros ((([He Hd]%negb_true_iff%orb_false_iff & Hp%negb_true_iff)%andb_true_iff
    & Hs%negb_true_iff)%andb_true_iff & Hn%negb_true_iff)%andb_true_iff.
  split_and!; try done; [by intros ->|]. by rewrite He, Hd.
Qed.
Lemma is_absolute_cons c path : is_absolute (String c path) = Ascii.eqb slash c.
Proof.
  unfold is_absolute, starts_with. cbn [strip_prefix]. change "/"%char with slash.
  destruct (Ascii.eqb slash c); [|done]. apply bool_decide_eq_true_2. destruct path; by eexists.
Qed.
Lemma is_absolute_app path text : path <> "" -> is_absolute (path +:+ text) = is_absolute path.
Proof. destruct path as [|c path]; [done|]. intros _. by rewrite string_app_cons, !is_absolute_cons. Qed.
Lemma name_not_absolute name : contains_char slash name = false -> is_absolute name = false.
Proof.
  destruct name as [|c name]; [done|]. rewrite contains_char_false, is_absolute_cons. cbn.
  by intros [H%negb_true_iff _]%andb_true_iff.
Qed.
Lemma ends_with_slash path : ends_with "/" path = true -> exists front, path = front +:+ "/".
Proof.
  unfold ends_with, starts_with. intros [rest H]%bool_decide_eq_true. exists (String.rev rest).
  apply rev_inj. rewrite rev_app, rev_rev. change (String.rev "/") with (String slash "") in *.
  destruct (String.rev path) as [|c text]; [done|]. cbn [strip_prefix] in H.
  destruct (Ascii.eqb_spec slash c) as [<-|]; [|done].
  rewrite string_app_cons, string_app_nil_l. destruct text; by injection H as ->.
Qed.
Lemma path_join_spec path name :
  is_name name = true -> path <> "" ->
  exists front, segments (path_join path name) = front ++ [name]
    /\ (segments path = front \/ segments path = front ++ [""])
    /\ is_absolute (path_join path name) = is_absolute path
    /\ is_empty (path_join path name) = false
    /\ contains_char (ascii_of_N 0) (path_join path name) = contains_char (ascii_of_N 0) path.
Proof.
  intros (Hne & _ & _ & Hs & Hn)%is_name_spec Hp. unfold path_join, segments.
  rewrite name_not_absolute by done.
  assert (forall text, is_empty (path +:+ text) = false) as Hempty by by destruct path.
  assert (is_empty path = false) as -> by by destruct path.
  destruct (ends_with "/" path) eqn:E; cbn [orb].
  - apply ends_with_slash in E as [front ->]. exists (split_char slash front).
    rewrite is_absolute_app, Hempty, contains_char_app, Hn, orb_false_r by done.
    rewrite <- string_app_assoc, string_app_cons, string_app_nil_l, !split_char_sep.
    rewrite (split_char_none _ name) by done. split_and!; auto.
  - exists (split_char slash path). rewrite is_absolute_app, Hempty, contains_char_app by done.
    rewrite string_app_cons, string_app_nil_l, split_char_sep, (split_char_none _ name) by done.
    split_and!; auto. change (contains_char (ascii_of_N 0) (String "/" name))
      with (contains_char (ascii_of_N 0) ("/" +:+ name)).
    by rewrite contains_char_app, Hn, orb_false_r.
Qed.
Lemma resolve_join fs follow make path name place :
  is_name name = true -> resolve fs true false path = Ok place -> node fs place = Some Folder ->
  (follow = true -> forall target, node fs (place ++ [name]) <> Some (Link target)) ->
  resolve fs follow make (path_join path name)
  = if refused fs place then Err Io_Other
    else match node fs (place ++ [name]) with
         | None => if make then Ok (place ++ [name]) else Err Io_NotFound
         | Some _ => Ok (place ++ [name])
         end.
Proof.
  intros Hname Hr Hf Hlink. unfold resolve in Hr. destruct (is_empty path) eqn:Ee; [done|].
  destruct (path_join_spec path name) as (front & Hseg & Hpath & Habs & Hempty & Hnul);
    [done|by intros ->|]. unfold resolve. rewrite Hempty, Hnul, Hseg, Habs.
  destruct (contains_char _ path); [done|]. rewrite walk_app by done.
  set (start := if is_absolute path then [] else _) in *.
  assert (exists links, walk fs true false (max_links fs) start front = Ok (place, links)) as [links ->].
  { destruct (walk fs true false (max_links fs) start (segments path)) as [[p l]|] eqn:Ew; [|done].
    injection Hr as ->. destruct Hpath as [Hpath|Hpath]; rewrite Hpath in Ew; [by exists l|].
    rewrite walk_app in Ew by done. destruct (walk fs true false _ start front) as [[p' l']|]; [|done].
    rewrite walk_eq in Ew. destruct (refused fs p'); [done|]. destruct (node fs p') as [[]|]; try done.
    cbn in Ew. rewrite walk_eq in Ew. injection Ew as -> ->. by exists l. }
  apply is_name_spec in Hname as (_ & Hidle & Hdots & _). rewrite walk_eq, Hf, Hidle, Hdots.
  destruct (refused fs place); [done|]. cbv zeta.
  destruct (node fs (place ++ [name])) as [[| |target|]|] eqn:En; try by rewrite walk_eq.
  - destruct follow; [by destruct (Hlink eq_refl target)|done].
  - by destruct make.
Qed.

(** ** The tree *)

Lemma node_set_node fs at_ n at' :
  at_ <> [] -> node (set_node fs at_ n) at' = if decide (at' = at_) then Some n else node fs at'.
Proof.
  intros Hne. unfold node, set_node. destruct at' as [|x at']; cbn [nodes].
  - by case_decide.
  - case_decide as E; [by rewrite E, lookup_insert_eq|by rewrite lookup_insert_ne].
Qed.
(** What is put where nothing, or a file, was. *)
Lemma set_node_grows fs at_ n :
  at_ <> [] -> node fs at_ <> Some Folder -> (forall target, node fs at_ <> Some (Link target)) ->
  grows fs (set_node fs at_ n).
Proof.
  intros Hne Hf Hl. split_and!; [done|done|..]; intros at'.
  1-3: rewrite node_set_node by done. all: case_decide as E; subst; try done; naive_solver.
Qed.

Lemma child_of_spec at_ place name : child_of at_ place = Some name <-> place = at_ ++ [name].
Proof.
  revert place. induction at_ as [|x at_ IH]; intros [|y place]; cbn.
  - done.
  - destruct place; naive_solver.
  - done.
  - destruct (String.eqb_spec x y) as [->|]; [rewrite IH|]; naive_solver.
Qed.
Lemma elem_of_children fs at_ name :
  name ∈ children fs at_ <-> is_Some (nodes fs !! (at_ ++ [name])).
Proof.
  unfold children. rewrite elem_of_elements, elem_of_list_to_set, list_elem_of_omap. split.
  - intros ([place n] & H%elem_of_map_to_list & ->%child_of_spec). by exists n.
  - intros [n H]. exists (at_ ++ [name], n). rewrite elem_of_map_to_list. split; [done|].
    by apply child_of_spec.
Qed.
Lemma children_NoDup fs at_ : NoDup (children fs at_).
Proof. apply NoDup_elements. Qed.
(** Two disks with the same entries in a directory. *)
Definition same_entries fs fs' at_ : Prop :=
  refused fs' at_ = refused fs at_
  /\ (forall name, refused fs' (at_ ++ [name]) = refused fs (at_ ++ [name]))
  /\ (forall name, nodes fs' !! (at_ ++ [name]) = nodes fs !! (at_ ++ [name])).
Lemma node_entry fs at_ name : node fs (at_ ++ [name]) = nodes fs !! (at_ ++ [name]).
Proof. by destruct at_. Qed.
Lemma same_children fs fs' at_ : same_entries fs fs' at_ -> children fs' at_ = children fs at_.
Proof.
  intros (_ & _ & H). unfold children. f_equal. apply set_eq. intros name.
  pose proof (elem_of_children fs at_ name) as H1. pose proof (elem_of_children fs' at_ name) as H2.
  unfold children in H1, H2. rewrite elem_of_elements in H1, H2. by rewrite H1, H2, H.
Qed.
Lemma read_dir_ok fs path place entries :
  resolve fs true false path = Ok place -> fs_read_dir fs path = Ok entries ->
  node fs place = Some Folder /\ refused fs place = false
  /\ entries = (fun name => (name, entry_type fs place name)) <$> arrange fs (children fs place).
Proof.
  unfold fs_read_dir. intros ->. cbn [mbind result_bind]. destruct (refused fs place); [done|].
  destruct (node fs place) as [[]|]; try done. by intros [= <-].
Qed.

(** The text of a place. *)
Lemma fs_names_place fs place : fs_wf fs -> is_Some (node fs place) -> Forall (fun name => is_name name = true) place.
Proof.
  intros Hwf. induction place as [|name place IH] using rev_ind; [by constructor|].
  rewrite node_entry. intros [n Hn]. apply Forall_app. split.
  - apply IH. rewrite (fs_closed _ Hwf _ _ _ Hn). by eexists.
  - constructor; [by apply (fs_names _ Hwf _ _ _ Hn)|constructor].
Qed.
Lemma place_segments place :
  Forall (fun name => is_name name = true) place ->
  segments (place_text place) = "" :: match place with [] => [""] | _ => place end.
Proof.
  intros H. unfold segments, place_text. change ("/" +:+ join "/" place) with ("" +:+ String slash (join "/" place)).
  rewrite split_char_sep. cbn [split_char app]. f_equal. destruct place as [|name place]; [done|].
  apply (split_char_join slash); [done|]. eapply Forall_impl; [exact H|].
  intros x Hx. by apply is_name_spec in Hx as (_ & _ & _ & ? & _).
Qed.
Lemma place_components place :
  Forall (fun name => is_name name = true) place ->
  components (place_text place) = RootDir :: (Normal <$> place).
Proof.
  intros H. unfold components. rewrite place_segments by done.
  assert (is_absolute (place_text place) = true) as ->.
  { unfold place_text. change ("/" +:+ join "/" place) with (String slash (join "/" place)).
    by rewrite is_absolute_cons, Ascii.eqb_refl. }
  cbn [app omap list_omap]. change (component_of "") with (@None Component). cbn iota. f_equal.
  destruct place as [|x place]; [done|]. revert H. generalize (x :: place). clear.
  induction 1 as [|name place (_ & Hi & Hd & _)%is_name_spec _ IH]; [done|].
  cbn. unfold component_of at 1. by rewrite Hi, Hd, IH.
Qed.
Lemma place_starts_with place base :
  Forall (fun name => is_name name = true) place -> Forall (fun name => is_name name = true) base ->
  path_starts_with (place_text place) (place_text base) = bool_decide (base `prefix_of` place).
Proof.
  intros H1 H2. unfold path_starts_with. rewrite !place_components by done. apply bool_decide_ext. split.
  - intros [rest E]. injection E as E. clear H1 H2. revert place E.
    induction base as [|x base IH]; intros place E; [by exists place|].
    destruct place as [|y place]; [done|]. injection E as -> E. apply IH in E. by apply prefix_cons.
  - intros [rest ->]. exists (Normal <$> rest). by rewrite fmap_app.
Qed.

(** ** What a path leads to *)

Lemma folder_prefix fs place more :
  fs_wf fs -> node fs (place ++ more) = Some Folder -> node fs place = Some Folder.
Proof.
  intros Hwf. induction more as [|name more IH] using rev_ind; [by rewrite app_nil_r|].
  rewrite app_assoc, node_entry. intros Hn. apply IH. by apply (fs_closed _ Hwf _ _ _ Hn).
Qed.
Lemma folder_parent fs place :
  fs_wf fs -> node fs place = Some Folder -> node fs (parent_place place) = Some Folder.
Proof.
  intros Hwf Hf. unfold parent_place. destruct place as [|name place _] using rev_ind; [done|].
  rewrite removelast_last. by eapply folder_prefix.
Qed.
Lemma walk_found fs follow links at_ path place links' :
  fs_wf fs -> is_Some (node fs at_) -> walk fs follow false links at_ path = Ok (place, links') ->
  is_Some (node fs place)
  /\ (follow = true -> (forall target, node fs at_ <> Some (Link target)) ->
       forall target, node fs place <> Some (Link target)).
Proof.
  intros Hwf. revert at_ path. induction links as [|links IHl]; intros at_ path; revert at_;
    induction path as [|segment path IH]; intros at_ Hat; rewrite walk_eq; try (intros [= <- <-]; by split).
  all: destruct (refused fs at_); [done|]; destruct (node fs at_) as [[]|] eqn:Ea; try done.
  all: assert (forall target, node fs at_ <> Some (Link target)) as Hno by (by rewrite Ea).
  all: destruct (idle segment);
    [intros Hw; apply IH in Hw as [? H2]; [split; [done|]; intros; by apply H2|rewrite Ea; by eexists]|].
  all: destruct (String.eqb segment "..");
    [intros Hw; apply IH in Hw as [? H2]; rewrite folder_parent in * by done;
     [split; [done|]; intros; by apply H2|by eexists]|].
  all: cbv zeta; destruct (node fs (at_ ++ [segment])) as [[| |target|]|] eqn:En; try by destruct path.
  all: try (intros Hw; apply IH in Hw as [? H2]; rewrite En in *; [split; [done|]; intros; by apply H2|by eexists]).
  all: destruct path; cbn [app]; [destruct follow; cbn [negb]|]; try done.
  all: try (intros [= <- <-]; rewrite En; split; [by eexists|done]).
  all: intros Hw; apply IHl in Hw as [? H2];
    [split; [done|]; intros; apply H2; [done|]; by destruct (is_absolute target)
    |destruct (is_absolute target); [by eexists|rewrite Ea; by eexists]].
Qed.
Lemma resolve_found fs follow path place :
  fs_wf fs -> resolve fs follow false path = Ok place ->
  is_Some (node fs place) /\ (follow = true -> forall target, node fs place <> Some (Link target)).
Proof.
  intros Hwf. unfold resolve. destruct (is_empty path), (contains_char (ascii_of_N 0) path); try done.
  set (start := if is_absolute path then [] else _).
  assert (node fs start = Some Folder) as Hs by (subst start; destruct (is_absolute path); [done|apply Hwf]).
  destruct (walk _ _ _ _ start (segments path)) as [[p l]|] eqn:Ew; [|done]. intros [= <-].
  apply walk_found in Ew as [? H2]; [|done|by rewrite Hs]. split; [done|]. intros. apply H2; [done|].
  by rewrite Hs.
Qed.
Lemma walk_names fs links at_ names place links' :
  fs_wf fs -> node fs (at_ ++ names) = Some Folder -> Forall (fun name => is_name name = true) names ->
  walk fs true false links at_ names = Ok (place, links') -> place = at_ ++ names.
Proof.
  intros Hwf Hf Hnames. revert at_ Hf. induction Hnames as [|name names Hname Hnames IH]; intros at_ Hf;
    rewrite walk_eq; [intros [= <- <-]; by rewrite app_nil_r|].
  apply is_name_spec in Hname as (_ & Hi & Hd & _). rewrite Hi, Hd. rewrite (cons_middle name at_ names) in Hf.
  rewrite app_assoc in Hf. destruct (refused fs at_); [done|].
  rewrite (folder_prefix fs at_ ([name] ++ names)) by (by rewrite ?app_assoc).
  cbv zeta. rewrite (folder_prefix fs (at_ ++ [name]) names) by done.
  intros Hw. apply IH in Hw; [|done]. by rewrite Hw, <- app_assoc.
Qed.
Lemma resolve_place fs place place' :
  fs_wf fs -> node fs place = Some Folder -> resolve fs true false (place_text place) = Ok place' ->
  place' = place.
Proof.
  intros Hwf Hf. assert (Forall (fun name => is_name name = true) place) as Hnames
    by (by eapply fs_names_place; [|rewrite Hf; eexists]).
  unfold resolve, place_text at 1. destruct (contains_char (ascii_of_N 0) (place_text place)); [done|]. cbn [is_empty String.append].
  change ("/" +:+ join "/" place) with (String slash (join "/" place)) at 1.
  assert (is_absolute (place_text place) = true) as ->.
  { unfold place_text. change ("/" +:+ join "/" place) with (String slash (join "/" place)).
    by rewrite is_absolute_cons, Ascii.eqb_refl. }
  rewrite place_segments by done. cbn [is_empty]. rewrite walk_eq. cbn [idle is_empty orb node].
  destruct (refused fs []) eqn:Er; [done|].
  destruct (walk _ _ _ _ _ _) as [[p l]|] eqn:Ew; [|done]. intros [= <-].
  destruct place as [|name place].
  - rewrite walk_eq, Er in Ew. cbn [idle is_empty orb node] in Ew. rewrite walk_eq in Ew. by injection Ew as <- _.
  - by apply walk_names in Ew.
Qed.

(** ** What a change leaves *)

(** What was there is still there; other things may be new. *)
Definition extends fs fs' : Prop :=
  refused fs' = refused fs /\ working_directory fs' = working_directory fs /\ max_links fs' = max_links fs
  /\ forall at_, is_Some (node fs at_) -> node fs' at_ = node fs at_.
#[export] Instance extends_preorder : PreOrder extends.
Proof.
  split; [by intros fs|]. intros fs1 fs2 fs3 (H1 & H2 & Hm & H3) (H4 & H5 & Hm' & H6).
  split_and!; [congruence..|]. intros at_ Hat. rewrite H6; rewrite H3; done.
Qed.
Lemma extends_grows fs fs' : extends fs fs' -> grows fs fs'.
Proof.
  intros (Hr & _ & Hm & H). split_and!; [done|done|..]; intros at_.
  - intros Hn. by rewrite H, Hn by by rewrite Hn.
  - intros target Hn. by rewrite H, Hn by by rewrite Hn.
  - intros Hn. by rewrite H.
Qed.
Lemma set_node_extends fs at_ n : node fs at_ = None -> extends fs (set_node fs at_ n).
Proof.
  intros Hn. assert (at_ <> []) by by intros ->. split_and!; [done..|]. intros at' Hat.
  rewrite node_set_node by done. case_decide; [|done]. subst. rewrite Hn in Hat. by destruct Hat.
Qed.
Lemma mkdir_extends fs fs' path : mkdir fs path = Ok fs' -> extends fs fs'.
Proof.
  unfold mkdir. intros (at_ & _ & H)%result_bind_Ok. destruct (refused fs at_); [done|].
  destruct (node fs at_) eqn:E; [done|]. injection H as <-. by apply set_node_extends.
Qed.
Lemma create_dir_all_extends fs path : extends fs (create_dir_all fs path).2.
Proof.
  unfold create_dir_all. assert (forall fs, extends fs (mkdir_or_there fs path).2) as Hthere.
  { intros fs0. unfold mkdir_or_there. destruct (mkdir fs0 path) eqn:E; [by eapply mkdir_extends|done]. }
  generalize (length (segments path)). intros turns. revert fs path Hthere.
  induction turns as [|turns IH]; intros fs path Hthere; cbn [create_dir_all_turns].
  all: destruct (is_empty path); [done|]; destruct (mkdir fs path) as [|[]] eqn:E; try apply Hthere.
  { done. }
  destruct (path_parent path) as [parent|]; [|done].
  assert (extends fs (create_dir_all_turns turns fs parent).2) as Hparent.
  { apply IH. intros fs0. unfold mkdir_or_there. destruct (mkdir fs0 parent) eqn:E'; [by eapply mkdir_extends|done]. }
  destruct (create_dir_all_turns turns fs parent) as [[] fs1]; [|done]. etrans; [exact Hparent|]. apply Hthere.
Qed.

(** Following a link at the end matters only when there is one. *)
Lemma walk_last fs make links at_ path :
  (forall place links' target, walk fs false false links at_ path = Ok (place, links') ->
     node fs place <> Some (Link target)) ->
  walk fs true make links at_ path = walk fs false make links at_ path.
Proof.
  revert at_ path. induction links as [|links IHl]; intros at_ path; revert at_;
    induction path as [|segment path IH]; intros at_; [by rewrite !walk_eq| |by rewrite !walk_eq|].
  all: rewrite (walk_eq fs true make), (walk_eq fs false make), (walk_eq fs false false).
  all: destruct (refused fs at_); [reflexivity|]; destruct (node fs at_) as [[]|] eqn:Ea; try (intros _; reflexivity).
  all: destruct (idle segment); [apply IH|]; destruct (String.eqb segment ".."); [apply IH|].
  all: cbv zeta; destruct (node fs (at_ ++ [segment])) as [[| |target|]|] eqn:En; try apply IH; try (intros _; reflexivity).
  all: destruct path; [intros H; by destruct (H _ _ target eq_refl)|]; first [intros _; reflexivity|apply IHl].
Qed.
Lemma resolve_last fs make path :
  (forall place target, resolve fs false false path = Ok place -> node fs place <> Some (Link target)) ->
  resolve fs true make path = resolve fs false make path.
Proof.
  unfold resolve. destruct (is_empty path); [done|]. destruct (contains_char (ascii_of_N 0) path); [done|].
  intros H. rewrite walk_last; [done|]. intros place links' target Hw. apply H. by rewrite Hw.
Qed.
Lemma resolve_grows fs fs' follow make make' path place :
  grows fs fs' -> working_directory fs' = working_directory fs ->
  resolve fs follow make path = Ok place -> is_Some (node fs' place) ->
  (forall target, node fs' place = Some (Link target) -> node fs place = Some (Link target)) ->
  resolve fs' follow make' path = Ok place.
Proof.
  intros Hg Hwd. unfold resolve. pose proof Hg as (_ & Hm & _). rewrite Hwd, Hm.
  destruct (is_empty path), (contains_char (ascii_of_N 0) path); try done.
  destruct (walk fs _ _ _ _ _) as [[p l]|] eqn:Ew; [|done]. intros [= ->] Hp Hl.
  by rewrite (walk_grows fs fs' follow make make' _ _ _ _ _ Hg Ew).
Qed.
(** The place a name in a directory leads to has that name. *)
Lemma walk_one fs make links at_ name place links' :
  is_name name = true -> walk fs false make links at_ [name] = Ok (place, links') -> place = at_ ++ [name].
Proof.
  intros (_ & Hi & Hd & _)%is_name_spec. rewrite walk_eq, Hi, Hd. cbv zeta.
  destruct (refused fs at_); [done|]. destruct (node fs at_) as [[]|]; [|done..]. cbn [negb].
  destruct (node fs (at_ ++ [name])) as [[]|]; rewrite ?walk_eq; [by intros [= <-]..|].
  destruct make; [by intros [= <-]|done].
Qed.
Lemma resolve_named fs make path name place :
  is_name name = true -> resolve fs false make (path_join path name) = Ok place ->
  exists front, place = front ++ [name].
Proof.
  intros Hname. unfold resolve. destruct (is_empty (path_join path name)) eqn:Hempty; [done|].
  destruct (contains_char (ascii_of_N 0) (path_join path name)); [done|]. intros H.
  destruct (walk fs false make _ _ _) as [[p links']|] eqn:Ew; [|done]. injection H as ->.
  destruct (decide (path = "")) as [->|Hne].
  - pose proof Hname as (Hn & _ & _ & Hs & _)%is_name_spec. unfold path_join in Ew.
    rewrite (name_not_absolute name) in Ew by done. cbn [is_empty orb] in Ew.
    rewrite string_app_nil_l in Ew. unfold segments in Ew. rewrite split_char_none in Ew by done.
    apply walk_one in Ew; [|done]. by eexists.
  - destruct (path_join_spec path name) as (front & Hseg & _); [done|done|].
    rewrite Hseg, walk_app in Ew by done.
    destruct (walk fs true false _ _ front) as [[at_ links]|]; [|done].
    apply walk_one in Ew; [|done]. by eexists.
Qed.
(** Writing a file puts it at one place and touches nothing else. *)
Lemma fs_write_ok fs fs' path contents clock :
  fs_write fs path contents clock = Ok fs' -> exists place,
    resolve fs true true path = Ok place /\ refused fs place = false /\ place <> []
    /\ node fs place <> Some Folder /\ (forall target, node fs place <> Some (Link target))
    /\ (node fs place <> None -> exists old modified, node fs place = Some (File_ old modified))
    /\ fs' = set_node fs place (File_ contents (Some clock)).
Proof.
  unfold fs_write. intros (place & Hr & H)%result_bind_Ok. exists place.
  destruct (refused fs place); [done|].
  assert (place <> []) by (intros ->; done).
  destruct (node fs place) as [[|old modified|target|]|] eqn:En; try done; injection H as <-;
    rewrite ?En; split_and!; eauto; done.
Qed.
