(* ===== verification/Evidence.v ===== *)
(** * Checking a piece of release evidence

    [crates/operations/src]'s operations_evidence/artifact_check.rs and
    operations_drill: the check of one file of the release evidence, and the
    validators of the receipts the operator's commands print.  The theorems say
    what an artifact that passed is, that each failure has its code, and that
    the receipt of every command is accepted: what the service prints and what
    the release asks for agree. *)

From S2P Require Import Prelude RustStr Domain Authn Oidc Http Codec Store.
From S2P Require Import SessionStore Directory Lifecycle AuditStore Frames StatementFrames.
From S2P Require Import Handler KeyStore OAuthPolicy BrowserSession AuthorizeRequest Mfa Config Listing.
From S2P Require Import RequestContext KeyRotation Operator AuditOperations EvidenceRedaction EvidenceFields FileSystem.

(** ** Artifacts *)

(* crates/operations/src/operations_evidence/registry/types.rs:1-27 EvidenceValidator *)
Inductive EvidenceValidator :=
| OperationsPreflight | DependencyPolicyCheck | ReleaseAssetsVerification | OpenIdStaticRegistration
| OpenIdStaticConfig | OidcMetadataSmoke | OpenIdConfigOpConformance | OpenIdBasicOpConformance
| ScimGenericConnectorProfile | ScimOktaConnectorProfile | ScimEntraConnectorProfile | ScimSmoke
| ScimOktaConnectorSmoke | ScimEntraConnectorSmoke | BrowserOriginSmoke | SecurityHeadersSmoke
| EmailProviderSmoke | LifecycleEmailSmoke | RestoreDrill | BreakGlassAdminRecovery_
| SigningKeyRotation | KeyEncryptionRotation_ | AuditExportArchive | AuditRetentionPurge.
(* crates/operations/src/operations_evidence/registry/types.rs:29-40 EvidenceSpec *)
Record EvidenceSpec := mk_EvidenceSpec {
  spec_name : string;
  spec_file_name : string;
  spec_release_gate : string;
  spec_command : string;
  spec_validator : EvidenceValidator;
  spec_contains_secrets : bool;
  spec_requires_production_like_environment : bool;
  spec_writes_application_state : bool;
  spec_touches_external_provider : bool;
}.
(* crates/operations/src/operations_evidence/types.rs:7-20 ReleaseEvidenceFailureCode *)
Inductive ReleaseEvidenceFailureCode :=
| MissingEvidence | StaleOrInvalidScaffold | InvalidJson | InvalidJsonRoot | StaleOrInvalidTimestamp
| TimestampContract | ForbiddenField | ArtifactPathFailure | ContractMismatch | ValidationFailed.
(* crates/operations/src/operations_evidence/types.rs:23-36 as_str *)
Definition failure_code_as_str (code : ReleaseEvidenceFailureCode) : string :=
  match code with
  | MissingEvidence => "missing_evidence"
  | StaleOrInvalidScaffold => "stale_or_invalid_scaffold"
  | InvalidJson => "invalid_json"
  | InvalidJsonRoot => "invalid_json_root"
  | StaleOrInvalidTimestamp => "stale_or_invalid_timestamp"
  | TimestampContract => "timestamp_contract"
  | ForbiddenField => "forbidden_field"
  | ArtifactPathFailure => "artifact_path_failure"
  | ContractMismatch => "contract_mismatch"
  | ValidationFailed => "validation_failed"
  end.
(* crates/operations/src/operations_evidence/types.rs:52-65 ReleaseEvidenceArtifactReport *)
Record ReleaseEvidenceArtifactReport := mk_ArtifactReport {
  artifact_name : string;
  artifact_file_name : string;
  artifact_release_gate : string;
  artifact_status : string;
  artifact_command : string;
  artifact_modified_at : option OffsetDateTime;
  artifact_checks : list string;
  artifact_failures : list string;
  artifact_failure_codes : list ReleaseEvidenceFailureCode;
}.
(** The directory of the evidence, by file name: what is there without
    following links, and its text, with the text of an error. *)
Record EvidenceFiles := mk_EvidenceFiles {
  symlink_metadata : string -> result string (option (FileType * option OffsetDateTime));
  read_to_string : string -> result string string;
}.

Section artifacts.
Context {RP : Rfc3339Parse} {CAL : Calendar} {SJ : SerdeJson}.
(** The text of an error of [serde_json::from_str]. *)
Variable json_error : string -> string.
(** The validators, with the two vectors they are given. *)
Variable validate_artifact : EvidenceValidator -> Value -> Validation unit.

(* crates/operations/src/operations_evidence/artifact_check.rs:136-152 failed_artifact_report *)
Definition failed_artifact_report (spec : EvidenceSpec) (failures : list string)
    (failure_codes : list ReleaseEvidenceFailureCode) : ReleaseEvidenceArtifactReport :=
  mk_ArtifactReport (spec_name spec) (spec_file_name spec) (spec_release_gate spec) "failed"
    (spec_command spec) None [] failures failure_codes.
(** The document, or the failure with its code. *)
(* crates/operations/src/operations_evidence/artifact_check.rs:154-182 read_json_artifact *)
Definition read_json_artifact (files : EvidenceFiles) (path : string)
    : result (string * ReleaseEvidenceFailureCode) Value :=
  match read_to_string files path with
  | Ok contents =>
      match serde_json_from_str contents with
      | Some value =>
          if is_object value then Ok value
          else Err ("artifact JSON root must be an object", InvalidJsonRoot)
      | None => Err ("artifact is not valid JSON: " +:+ json_error contents, InvalidJson)
      end
  | Err error => Err ("artifact could not be read: " +:+ error, ArtifactPathFailure)
  end.
(* crates/operations/src/operations_evidence/artifact_check.rs:184-191 push_code_for_new_failures *)
Definition push_code_for_new_failures (failure_codes : list ReleaseEvidenceFailureCode)
    (previous_failure_count current_failure_count : nat) (code : ReleaseEvidenceFailureCode)
    : list ReleaseEvidenceFailureCode :=
  failure_codes ++ repeat code (current_failure_count - previous_failure_count).
(** A part of the check, with a code for each failure it pushes. *)
Definition coded (code : ReleaseEvidenceFailureCode) (part : Validation unit)
    (s : Findings * list ReleaseEvidenceFailureCode) : Findings * list ReleaseEvidenceFailureCode :=
  let found := (part (fst s)).2 in
  (found, push_code_for_new_failures (snd s) (length (failures (fst s))) (length (failures found)) code).
Definition push_failures (texts : list string) : Validation unit := v_each push_failure texts.
(** The document is checked after its age, by the parts in order. *)
(* crates/operations/src/operations_evidence/artifact_check.rs:69-112 check_artifact *)
Definition check_document (spec : EvidenceSpec) (now : OffsetDateTime) (max_age_days : Z)
    (document : result (string * ReleaseEvidenceFailureCode) Value)
    (s : Findings * list ReleaseEvidenceFailureCode) : Findings * list ReleaseEvidenceFailureCode :=
  match document with
  | Err (failure, code) => coded code (push_failure failure) s
  | Ok value =>
      let s := if spec_contains_secrets spec then s
               else coded ForbiddenField (push_failures
                      (reject_forbidden_token_free_release_evidence_fields value "$" (spec_name spec))) s in
      let s := coded StaleOrInvalidTimestamp
                 (validate_artifact_root_timestamp_freshness value now max_age_days) s in
      coded ContractMismatch (validate_artifact (spec_validator spec) value) s
  end.
(* crates/operations/src/operations_evidence/artifact_check.rs:14-134 check_artifact *)
Definition check_artifact (files : EvidenceFiles) (spec : EvidenceSpec) (now : OffsetDateTime)
    (max_age_days : Z) : result string ReleaseEvidenceArtifactReport :=
  let path := spec_file_name spec in
  let? metadata := symlink_metadata files path in
  let not_a_file (failure : string) := Ok (failed_artifact_report spec [failure] [ArtifactPathFailure]) in
  match metadata with
  | None => Ok (mk_ArtifactReport (spec_name spec) path (spec_release_gate spec) "missing"
                  (spec_command spec) None [] ["required evidence artifact is missing"] [MissingEvidence])
  | Some (Symlink, _) => not_a_file "artifact must be a regular file, got symlink"
  | Some (Directory_, _) => not_a_file "artifact must be a regular file, got directory"
  | Some (OtherFile, _) => not_a_file "artifact must be a regular file"
  | Some (RegularFile, modified_at) =>
      let stale := match modified_at with
                   | Some modified_at =>
                       (duration_minutes (60 * 24 * max_age_days) <? now - modified_at)%Z
                   | None => false
                   end in
      let s := coded StaleOrInvalidTimestamp
        (let+ _ := if stale then push_failure ("artifact is older than " +:+ i64_to_string max_age_days
                                   +:+ " days and must be refreshed") else pass in
         push_check "artifact exists") (no_findings, []) in
      let '(found, failure_codes) :=
        check_document spec now max_age_days (read_json_artifact files path) s in
      let failures := sanitize_release_evidence_failure <$> failures found in
      Ok (mk_ArtifactReport (spec_name spec) path (spec_release_gate spec)
            (match failures with [] => "passed" | _ => "failed" end)
            (spec_command spec) modified_at (checks found) failures failure_codes)
  end.
End artifacts.

(** ** The receipts of the operator's commands *)

Section drills.
Context {RP : Rfc3339Parse} {UU : UuidCrate}.

(* crates/operations/src/operations_evidence/operations_drill/rotation.rs:7-35 validate_key_encryption_rotation *)
Definition validate_key_encryption_rotation (value : Value) : Validation unit :=
  let+ _ := require_string value "status" "rotated" in
  let+ _ := reject_non_empty_array value "failures" in
  let+ _ := reject_non_empty_array value "errors" in
  let+ _ := require_rfc3339_timestamp value "completed_at" "key-encryption rotation" in
  let+ signing_keys := require_u64_at_path value ["signing_keys"] in
  let+ _ := require_u64_at_path value ["email_delivery_tokens"] in
  match signing_keys with
  | Some count =>
      if (1 <=? count)%Z then push_check "key-encryption rotation re-encrypted signing keys"
      else push_failure ("signing_keys must be at least 1 for production KEK rotation evidence, got "
             +:+ i64_to_string count)
  | None => pass
  end.
(* crates/operations/src/operations_evidence/operations_drill/rotation.rs:37-58 validate_signing_key_rotation *)
Definition validate_signing_key_rotation (value : Value) : Validation unit :=
  let+ _ := require_string value "status" "rotated" in
  let+ _ := reject_non_empty_array value "failures" in
  let+ _ := reject_non_empty_array value "errors" in
  let+ _ := require_rfc3339_timestamp value "completed_at" "signing-key rotation" in
  let+ _ := require_non_empty_string_at_path value ["active_kid"] in
  let+ _ := require_bool value ["active"] true in
  fun s =>
    match failures s with
    | [] => push_check "signing-key rotation produced an active database key" s
    | _ => pass s
    end.
(* crates/operations/src/operations_evidence/operations_drill/recovery.rs:8-36 validate_break_glass_admin_recovery *)
Definition validate_break_glass_admin_recovery (value : Value) : Validation unit :=
  let+ _ := require_string value "status" "granted" in
  let+ _ := reject_non_empty_array value "failures" in
  let+ _ := reject_non_empty_array value "errors" in
  let+ _ := require_rfc3339_timestamp value "completed_at" "break-glass recovery" in
  let+ _ := require_uuid_at_path value ["organization_id"] in
  let+ _ := require_uuid_at_path value ["user_id"] in
  let+ _ := require_non_empty_string_at_path value ["user_email"] in
  let+ _ := require_uuid_at_path value ["admin_group_id"] in
  let+ _ := require_bool_at_path value ["admin_group_created"] in
  let+ _ := validate_user_status_field value ["user_status_before"] in
  let+ _ := require_string_at_path value ["user_status_after"] "active" in
  let+ _ := validate_optional_membership_role value ["membership_role_before"] in
  let+ _ := require_string_at_path value ["membership_role_after"] "owner" in
  let+ _ := require_uuid_at_path value ["audit_event_id"] in
  let+ _ := push_check "break-glass recovery grants active owner access" in
  push_check "break-glass recovery includes audit event evidence".
(* crates/operations/src/operations_evidence/operations_drill/restore.rs:7-48 validate_restore_drill *)
Definition validate_restore_drill (value : Value) : Validation unit :=
  let+ _ := require_string value "status" "ok" in
  let+ _ := require_empty_array value "failures" in
  let+ _ := require_rfc3339_timestamp value "completed_at" "restore drill" in
  let+ _ := require_bool value ["database"; "reachable"] true in
  let+ _ := require_bool value ["database"; "migrations_present"] true in
  let+ _ := require_i64_at_least value ["database"; "applied_migrations"] 1 in
  let+ _ := require_uuid_at_path value ["organization_id"] in
  let+ _ := require_bool value ["signing"; "signing_source_available"] true in
  let restored_database_key_ready :=
    non_empty_string_at_path value ["signing"; "active_database_kid"]
    && default false (value_at_path value ["signing"; "active_database_key_decryptable"] ≫= as_bool)
    && match value_at_path value ["signing"; "active_jwks_count"] ≫= as_i64 with
       | Some count => (1 <=? count)%Z
       | None => false
       end in
  let legacy_signing_ready :=
    default false (value_at_path value ["signing"; "legacy_env_configured"] ≫= as_bool) in
  if restored_database_key_ready then push_check "restored database signing key and JWKS are ready"
  else if legacy_signing_ready
  then push_check "legacy signing material is ready for restored environment"
  else push_failure "restore drill must prove a decryptable active database signing key with JWKS material or configured legacy signing material".

(** A comparison, when the numbers are there. *)
Definition compare_numbers (a b : option Z) (holds : Z -> Z -> bool) (checked : string)
    (failure : Z -> Z -> string) : Validation unit :=
  match a, b with
  | Some a, Some b => if holds a b then push_check checked else push_failure (failure a b)
  | _, _ => pass
  end.
(* crates/operations/src/operations_evidence/operations_drill/audit.rs:80-100 validate_audit_export_archive *)
Definition validate_export_filters (value : Value) : Validation unit :=
  match value_at_path value ["filters"] with
  | None => push_failure "filters must be present"
  | Some filters =>
      if negb (is_object filters) then push_failure "filters must be an object"
      else
        let+ _ := validate_optional_filter_string value ["filters"; "action_prefix"] in
        let+ _ := validate_optional_filter_string value ["filters"; "target_prefix"] in
        let+ _ := validate_optional_uuid value ["filters"; "actor_id"] in
        let+ _ := validate_optional_filter_timestamp value ["filters"; "created_from"] in
        let+ _ := validate_optional_filter_timestamp value ["filters"; "created_to"] in
        match value_at_path value ["filters"; "actor_kind"] with
        | Some Null | None => pass
        | Some (String_ kind) =>
            if contains ["user"; "client"; "system"] kind then pass
            else push_failure ("filters.actor_kind must be user, client, or system, got " +:+ kind)
        | Some _ => push_failure "filters.actor_kind must be a string or null"
        end
  end.
(* crates/operations/src/operations_evidence/operations_drill/audit.rs:9-101 validate_audit_export_archive *)
Definition validate_audit_export_archive (value : Value) : Validation unit :=
  let+ _ := require_string value "status" "ok" in
  let+ _ := reject_non_empty_array value "failures" in
  let+ _ := reject_non_empty_array value "errors" in
  let+ _ := require_rfc3339_timestamp value "completed_at" "audit export/archive" in
  let+ _ := require_uuid_at_path value ["organization_id"] in
  let+ _ := require_non_empty_string_at_path value ["output_path"] in
  let+ rows_exported := require_u64_at_path value ["rows_exported"] in
  let+ bytes_written := require_u64_at_path value ["bytes_written"] in
  let+ limit := require_u64_at_path value ["limit"] in
  let+ export_max_rows := require_u64_at_path value ["export_max_rows"] in
  let+ _ := if bool_decide ((value_at_path value ["output_path"] ≫= as_str) = Some "-")
            then push_failure "output_path must be a create-only archive file path" else pass in
  let+ _ := compare_numbers rows_exported limit Z.leb
    "audit export row count is within the requested limit"
    (fun rows_exported limit => "rows_exported must be less than or equal to limit, got "
       +:+ i64_to_string rows_exported +:+ " > " +:+ i64_to_string limit) in
  let+ _ := compare_numbers limit export_max_rows
    (fun limit ceiling => (1 <=? limit)%Z && (limit <=? ceiling)%Z)
    "audit export limit is within the configured ceiling"
    (fun limit ceiling => "limit must be between 1 and export_max_rows, got "
       +:+ i64_to_string limit +:+ " with ceiling " +:+ i64_to_string ceiling) in
  let+ _ := match rows_exported, bytes_written with
            | Some rows_exported, Some bytes_written =>
                if (0 <? rows_exported)%Z && (bytes_written =? 0)%Z
                then push_failure "bytes_written must be greater than zero when rows are exported"
                else pass
            | _, _ => pass
            end in
  let+ has_more := require_bool_at_path value ["has_more"] in
  let given (field : string) :=
    match value_at_path value [field] with Some v => negb (is_null v) | None => false end in
  let+ _ := match has_more with
            | Some true =>
                let+ _ := require_rfc3339_timestamp_at_path value ["next_after_created_at"]
                            "next_after_created_at" in
                let+ _ := require_uuid_at_path value ["next_after_id"] in pass
            | _ =>
                if given "next_after_created_at" || given "next_after_id"
                then push_failure "next cursor fields must be null or absent when has_more is false"
                else pass
            end in
  validate_export_filters value.
(* crates/operations/src/operations_evidence/operations_drill/audit.rs:103-152 validate_audit_retention_purge *)
Definition validate_audit_retention_purge (value : Value) : Validation unit :=
  let+ _ := require_string value "status" "ok" in
  let+ _ := reject_non_empty_array value "failures" in
  let+ _ := reject_non_empty_array value "errors" in
  let+ _ := require_rfc3339_timestamp value "completed_at" "audit retention purge" in
  let+ _ := require_uuid_at_path value ["organization_id"] in
  let+ _ := require_rfc3339_timestamp_at_path value ["cutoff"] "cutoff" in
  let+ retention_days := require_u64_at_path value ["retention_days"] in
  let+ batch_size := require_u64_at_path value ["batch_size"] in
  let+ deleted := require_u64_at_path value ["deleted"] in
  let within (lo hi : Z) (number : option Z) (checked failure : string) :=
    compare_numbers number number (fun n _ => (lo <=? n)%Z && (n <=? hi)%Z) checked
      (fun n _ => failure +:+ i64_to_string n) in
  let+ _ := within 30%Z 3650%Z retention_days "audit retention window is within configured bounds"
              "retention_days must be between 30 and 3650, got " in
  let+ _ := within 1%Z 50000%Z batch_size "audit purge batch size is within configured bounds"
              "batch_size must be between 1 and 50000, got " in
  compare_numbers deleted batch_size Z.leb "audit purge deleted count is within batch size"
    (fun deleted batch_size => "deleted must be less than or equal to batch_size, got "
       +:+ i64_to_string deleted +:+ " > " +:+ i64_to_string batch_size).
End drills.

(** ** The receipts as they are printed *)

Section receipts.
Context {TC : TokenCrates} {TF : TimeFormat}.

Definition uuid_json (id : Uuid) : Value := String_ (uuid_to_string id).
Definition nullable {A} (json : A -> Value) (o : option A) : Value :=
  match o with Some a => json a | None => Null end.
(** An instant that cannot be written is an error of the command. *)
Definition instant_json (at_ : OffsetDateTime) : option Value := String_ <$> rfc3339_format at_.
Definition nullable_instant_json (at_ : option OffsetDateTime) : option Value :=
  match at_ with Some at_ => instant_json at_ | None => Some Null end.

Definition purge_report_json (r : AuditRetentionPurgeReport) : option Value :=
  cutoff ← instant_json (purge_cutoff r);
  completed_at ← instant_json (purge_completed_at r);
  Some (Object [("status", String_ (purge_status r)); ("organization_id", uuid_json (purge_organization_id r));
    ("retention_days", Number (purge_retention_days r)); ("cutoff", cutoff);
    ("batch_size", Number (purge_batch_size r)); ("deleted", Number (Z.of_nat (purge_deleted r)));
    ("completed_at", completed_at)]).
Definition export_filter_json (f : AuditExportReceiptFilter) : option Value :=
  created_from ← nullable_instant_json (receipt_created_from f);
  created_to ← nullable_instant_json (receipt_created_to f);
  Some (Object [("action_prefix", nullable String_ (receipt_action_prefix f));
    ("target_prefix", nullable String_ (receipt_target_prefix f));
    ("actor_kind", nullable String_ (receipt_actor_kind f));
    ("actor_id", nullable uuid_json (receipt_actor_id f));
    ("created_from", created_from); ("created_to", created_to)]).
Definition export_receipt_json (r : AuditExportReceipt) : option Value :=
  next_after_created_at ← nullable_instant_json (receipt_next_after_created_at r);
  filters ← export_filter_json (receipt_filters r);
  completed_at ← instant_json (receipt_completed_at r);
  Some (Object [("status", String_ (receipt_status r));
    ("organization_id", uuid_json (receipt_organization_id r));
    ("output_path", String_ (receipt_output_path r));
    ("rows_exported", Number (Z.of_nat (receipt_rows_exported r)));
    ("bytes_written", Number (Z.of_nat (receipt_bytes_written r)));
    ("limit", Number (receipt_limit r)); ("export_max_rows", Number (receipt_export_max_rows r));
    ("has_more", Bool (receipt_has_more r)); ("next_after_created_at", next_after_created_at);
    ("next_after_id", nullable uuid_json (receipt_next_after_id r)); ("filters", filters);
    ("completed_at", completed_at)]).
Definition signing_key_report_json (r : SigningKeyRotationReport) : option Value :=
  completed_at ← instant_json (signing_report_completed_at r);
  Some (Object [("status", String_ (signing_report_status r));
    ("active_kid", String_ (signing_report_active_kid r)); ("active", Bool (signing_report_active r));
    ("completed_at", completed_at)]).
Definition key_encryption_report_json (r : KeyEncryptionRotationReport) : option Value :=
  completed_at ← instant_json (kek_report_completed_at r);
  Some (Object [("status", String_ (kek_report_status r));
    ("signing_keys", Number (Z.of_nat (kek_report_signing_keys r)));
    ("email_delivery_tokens", Number (Z.of_nat (kek_report_email_delivery_tokens r)));
    ("completed_at", completed_at)]).
Definition break_glass_report_json (r : BreakGlassOwnerReport) : option Value :=
  let recovery := break_glass_recovery r in
  completed_at ← instant_json (break_glass_completed_at r);
  Some (Object [("status", String_ (break_glass_status r));
    ("organization_id", uuid_json (recovery_organization_id recovery));
    ("user_id", uuid_json (recovery_user_id recovery));
    ("user_email", String_ (recovery_user_email recovery));
    ("user_status_before", String_ (user_status_to_str (recovery_user_status_before recovery)));
    ("user_status_after", String_ (user_status_to_str (recovery_user_status_after recovery)));
    ("admin_group_id", uuid_json (recovery_admin_group_id recovery));
    ("admin_group_created", Bool (recovery_admin_group_created recovery));
    ("membership_role_before",
      nullable (fun role => String_ (membership_role_to_str role)) (recovery_membership_role_before recovery));
    ("membership_role_after", String_ (membership_role_to_str (recovery_membership_role_after recovery)));
    ("audit_event_id", uuid_json (break_glass_audit_event_id r)); ("completed_at", completed_at)]).
End receipts.

(** ** Properties *)

(** *** What passed *)

Section passed.
Context {RP : Rfc3339Parse} {CAL : Calendar} {SJ : SerdeJson}.
Context (json_error : string -> string) (validate_artifact : EvidenceValidator -> Value -> Validation unit).
Context (Hpushes : forall validator value, pushes (validate_artifact validator value)).
Notation check := (check_artifact json_error validate_artifact).

(** The instant a document gives itself, when it can be read. *)
Definition document_instant (value : Value) : option OffsetDateTime :=
  root_timestamp value ≫= fun found => parse_release_evidence_timestamp found.2.
Definition fresh (now : OffsetDateTime) (max_age_days : Z) (at_ : OffsetDateTime) : Prop :=
  (now - at_ <= max_age_days * (24 * 60 * 60) * 1000000000 /\ at_ - now <= 300 * 1000000000)%Z.

Definition paired (s : Findings * list ReleaseEvidenceFailureCode) : Prop :=
  length (failures (fst s)) = length (snd s).
Lemma coded_paired code part s : pushes part -> paired s -> paired (coded code part s).
Proof.
  intros Hp. unfold paired, coded, push_code_for_new_failures. cbn.
  destruct (Hp (fst s)) as [more ->]. rewrite !length_app, repeat_length. lia.
Qed.
Lemma coded_none code part s :
  pushes part -> failures (fst (coded code part s)) = [] <->
  failures (fst s) = [] /\ failures (part (fst s)).2 = [].
Proof.
  intros Hp. unfold coded. cbn. destruct (Hp (fst s)) as [more ->]. split; [|tauto].
  intros [H1 H2]%app_nil. rewrite H1, H2. done.
Qed.
Lemma pushes_texts texts : pushes (push_failures texts).
Proof. apply pushes_each. intros. apply pushes_failure. Qed.
Lemma push_failures_run texts s : failures (push_failures texts s).2 = failures s ++ texts.
Proof.
  revert s. induction texts as [|t texts IH]; intros s; cbn; [by rewrite app_nil_r|].
  unfold v_bind, push_failure at 1. fold (push_failures texts). rewrite IH. cbn. by rewrite <- app_assoc.
Qed.
Lemma check_document_paired spec now days document s :
  paired s -> paired (check_document validate_artifact spec now days document s).
Proof.
  intros Hs. unfold check_document. destruct document as [value|[failure code]].
  - apply coded_paired; [apply Hpushes|]. apply coded_paired; [apply pushes_freshness|].
    destruct (spec_contains_secrets spec); [done|]. by apply coded_paired; [apply pushes_texts|].
  - by apply coded_paired; [apply pushes_failure|].
Qed.
Lemma freshness_quiet value now days s :
  failures (validate_artifact_root_timestamp_freshness value now days s).2 = failures s <->
  forall at_, document_instant value = Some at_ -> fresh now days at_.
Proof.
  unfold validate_artifact_root_timestamp_freshness, document_instant, fresh.
  assert (Hpushed : forall text, failures (push_failure text s).2 <> failures s).
  { intros text H. cbn in H. apply (f_equal length) in H. rewrite length_app in H. cbn in H. lia. }
  destruct (root_timestamp value) as [[field text]|]; cbn [option_bind mbind snd]; [|by split].
  destruct (parse_release_evidence_timestamp text) as [at_|]; [|by split].
  unfold duration_minutes, duration_seconds, RELEASE_EVIDENCE_CLOCK_SKEW_SECONDS.
  destruct (Z.ltb_spec (60 * 24 * days * 60 * 1000000000) (now - at_)) as [H1|H1].
  { split; [intros H; by apply Hpushed in H|]. intros H. specialize (H _ eq_refl). lia. }
  destruct (Z.ltb_spec (300 * 1000000000) (at_ - now)) as [H2|H2].
  { split; [intros H; by apply Hpushed in H|]. intros H. specialize (H _ eq_refl). lia. }
  split; [|done]. intros _ at' [= <-]. lia.
Qed.
Lemma check_document_none spec now days document s :
  failures s.1 = [] ->
  failures (check_document validate_artifact spec now days document s).1 = [] <->
  exists value found, document = Ok value
    /\ (spec_contains_secrets spec = false -> ~ leaks value)
    /\ (forall at_, document_instant value = Some at_ -> fresh now days at_)
    /\ failures found = [] /\ failures (validate_artifact (spec_validator spec) value found).2 = []
    /\ found = (validate_artifact_root_timestamp_freshness value now days s.1).2.
Proof.
  intros Hs. unfold check_document. destruct document as [value|[failure code]]; cycle 1.
  { rewrite coded_none by apply pushes_failure. cbn. rewrite Hs. cbn. naive_solver. }
  set (s1 := if spec_contains_secrets spec then s else _).
  assert (H1 : failures s1.1 = [] <-> (spec_contains_secrets spec = false -> ~ leaks value)).
  { unfold s1. destruct (spec_contains_secrets spec); [by split|].
    rewrite coded_none, push_failures_run, Hs by apply pushes_texts. cbn. split.
    - intros [_ Hnone] _ Hl. by eapply rejects_leaks.
    - intros Hl. split; [done|]. apply accepts_clean. by apply Hl. }
  rewrite coded_none, coded_none, H1 by (apply Hpushes || apply pushes_freshness).
  assert (Hchecks : (spec_contains_secrets spec = false -> ~ leaks value) -> s1.1 = s.1).
  { intros Hl. unfold s1. destruct (spec_contains_secrets spec); [done|]. unfold coded. cbn.
    by rewrite accepts_clean by by apply Hl. }
  split.
  - intros [[Hl Hf] Hv]. cbn [coded fst] in Hv. rewrite (Hchecks Hl) in Hf, Hv.
    exists value, (validate_artifact_root_timestamp_freshness value now days s.1).2.
    split; [done|]. split; [done|]. split; [|done]. apply (freshness_quiet _ _ _ s.1). by rewrite Hs.
  - intros (value' & found & [= <-] & Hl & Hf & H0 & Hv & ->). cbn [coded fst]. rewrite (Hchecks Hl).
    split; [|exact Hv]. split; [done|]. exact H0.
Qed.
Lemma coded_pushes code part s : pushes part ->
  exists more, failures (coded code part s).1 = failures s.1 ++ more.
Proof. intros Hp. apply Hp. Qed.
Lemma check_document_pushes spec now days document s found codes :
  check_document validate_artifact spec now days document s = (found, codes) ->
  exists more, failures found = failures s.1 ++ more.
Proof.
  unfold check_document. intros H. apply (f_equal (fun r => failures r.1)) in H. cbn [fst] in H. rewrite <- H.
  destruct document as [value|[failure code]]; [|apply coded_pushes, pushes_failure].
  set (s1 := if spec_contains_secrets spec then s else _).
  assert (exists more, failures s1.1 = failures s.1 ++ more) as [m1 H1].
  { unfold s1. destruct (spec_contains_secrets spec); [exists []; by rewrite app_nil_r|].
    apply coded_pushes, pushes_texts. }
  destruct (coded_pushes StaleOrInvalidTimestamp
    (validate_artifact_root_timestamp_freshness value now days) s1) as [m2 H2]; [apply pushes_freshness|].
  set (s2 := coded StaleOrInvalidTimestamp _ s1) in *.
  destruct (coded_pushes ContractMismatch (validate_artifact (spec_validator spec) value) s2 (Hpushes _ _))
    as [m3 ->].
  exists (m1 ++ m2 ++ m3). by rewrite H2, H1, <- !app_assoc.
Qed.
(** What the sanitizer leaves of a failure is not nothing. *)
Lemma passed_failures (found : Findings) :
  sanitize_release_evidence_failure <$> failures found = [] <-> failures found = [].
Proof. by destruct (failures found). Qed.

(** A JSON artifact is an object in a file that can be read. *)
Lemma document_read files path value :
  read_json_artifact json_error files path = Ok value <-> exists contents,
    read_to_string files path = Ok contents
    /\ serde_json_from_str contents = Some value /\ is_object value = true.
Proof.
  unfold read_json_artifact.
  destruct (read_to_string _ _) as [contents|] eqn:Er; [|by split; [|intros (? & [=] & _)]].
  destruct (serde_json_from_str contents) as [v|] eqn:Ev; cycle 1.
  { split; [done|]. intros (? & [= <-] & H2 & _). congruence. }
  destruct (is_object v) eqn:Eo.
  - split; [intros [= <-]; by exists contents|]. intros (? & [= <-] & H2 & _). congruence.
  - split; [done|]. intros (? & [= <-] & H2 & H3). congruence.
Qed.
Lemma stale_spec modified_at now days :
  match modified_at with
  | Some modified_at => (duration_minutes (60 * 24 * days) <? now - modified_at)%Z
  | None => false
  end = false
  <-> forall at_, modified_at = Some at_ -> (now - at_ <= days * (24 * 60 * 60) * 1000000000)%Z.
Proof.
  unfold duration_minutes, duration_seconds. destruct modified_at as [at_|]; [|by split].
  rewrite Z.ltb_ge. split; [intros H1 ? [= <-]; lia|]. intros H1. specialize (H1 _ eq_refl). lia.
Qed.

(** What every report tells: the artifact it is of, one of three outcomes, and
    a code for each failure. *)
Lemma artifact_report_spec files spec now max_age_days report :
  check files spec now max_age_days = Ok report ->
  (artifact_status report = "passed" <-> artifact_failures report = [])
  /\ length (artifact_failures report) = length (artifact_failure_codes report)
  /\ artifact_name report = spec_name spec /\ artifact_file_name report = spec_file_name spec
  /\ artifact_release_gate report = spec_release_gate spec /\ artifact_command report = spec_command spec
  /\ artifact_status report ∈ ["passed"; "missing"; "failed"].
Proof.
  unfold check_artifact. intros (metadata & _ & H)%result_bind_Ok.
  destruct metadata as [[[] modified_at]|]; try (injection H as <-; cbn; split_and!; try done; set_solver).
  set (s := coded StaleOrInvalidTimestamp _ _) in H.
  assert (Hs : paired s) by (subst s; by destruct (match modified_at with Some _ => _ | None => false end)).
  pose proof (check_document_paired spec now max_age_days
    (read_json_artifact json_error files (spec_file_name spec)) s Hs) as Hp.
  destruct (check_document validate_artifact spec now max_age_days _ s) as [found codes].
  injection H as <-. unfold paired in Hp. cbn in *. rewrite length_fmap.
  split_and!; try done; destruct (failures found); cbn; set_solver.
Qed.

(** C37. An artifact of the release evidence that passed is what it claims to be:
    a regular file, no link, last changed within the allowed age where the disk
    knows when, that holds
    a JSON object whose own date, if it can be read, is within the allowed age
    and not in the future by more than the tolerance of the clocks; that object has no field and no text shaped like a
    credential anywhere, unless it is meant to hold secrets; and its validator
    found nothing.  An artifact of which all this is true passes.  A report
    passed exactly when it lists no failure, and has one code for each. *)
Theorem passed_evidence_is_genuine files spec now max_age_days report :
  check files spec now max_age_days = Ok report ->
  (artifact_status report = "passed" <-> artifact_failures report = [])
  /\ length (artifact_failures report) = length (artifact_failure_codes report)
  /\ (artifact_status report = "passed" -> exists modified_at contents value found,
        symlink_metadata files (spec_file_name spec) = Ok (Some (RegularFile, modified_at))
        /\ (forall at_, modified_at = Some at_ ->
             now - at_ <= max_age_days * (24 * 60 * 60) * 1000000000)%Z
        /\ read_to_string files (spec_file_name spec) = Ok contents
        /\ serde_json_from_str contents = Some value /\ is_object value = true
        /\ (forall at_, document_instant value = Some at_ -> fresh now max_age_days at_)
        /\ (spec_contains_secrets spec = false -> ~ leaks value)
        /\ failures found = [] /\ failures (validate_artifact (spec_validator spec) value found).2 = [])
  /\ (forall modified_at contents value,
        symlink_metadata files (spec_file_name spec) = Ok (Some (RegularFile, modified_at)) ->
        (forall at_, modified_at = Some at_ ->
          now - at_ <= max_age_days * (24 * 60 * 60) * 1000000000)%Z ->
        read_to_string files (spec_file_name spec) = Ok contents ->
        serde_json_from_str contents = Some value -> is_object value = true ->
        (forall at_, document_instant value = Some at_ -> fresh now max_age_days at_) ->
        (spec_contains_secrets spec = false -> ~ leaks value) ->
        quiet (validate_artifact (spec_validator spec) value) tt ->
        artifact_status report = "passed").
Proof.
  intros Hc. pose proof (artifact_report_spec _ _ _ _ _ Hc) as (Hpassed & Hcodes & _).
  split; [done|]. split; [done|]. revert Hc. unfold check_artifact. intros (metadata & Hm & H)%result_bind_Ok.
  destruct metadata as [[[] modified_at]|];
    try (injection H as <-; split; [done|intros ? ? ? Hm'; by rewrite Hm in Hm']).
  set (stale := match modified_at with Some _ => _ | None => false end) in H.
  pose proof (stale_spec modified_at now max_age_days : stale = false <-> _) as Hstale.
  clearbody stale.
  set (s := coded StaleOrInvalidTimestamp _ _) in H.
  assert (Hs0 : failures s.1 = [] <-> stale = false) by (subst s; by destruct stale).
  clearbody s.
  set (document := read_json_artifact json_error files (spec_file_name spec)) in H.
  pose proof (check_document_none spec now max_age_days document s) as Hnone.
  destruct (check_document validate_artifact spec now max_age_days document s) as [found codes] eqn:Hrun.
  injection H as <-. cbn [artifact_status artifact_failures fst] in *.
  assert (Hpass : (match sanitize_release_evidence_failure <$> failures found with
                   | [] => "passed" | _ => "failed" end) = "passed" <-> failures found = [])
    by by destruct (failures found).
  rewrite Hpass. pose proof (document_read files (spec_file_name spec)) as Hdocument. fold document in Hdocument.
  split.
  - intros Hf. assert (Hs1 : failures s.1 = []).
    { assert (exists more, failures found = failures s.1 ++ more) as [more Hm2].
      { eapply check_document_pushes. exact Hrun. }
      rewrite Hf in Hm2. symmetry in Hm2. by apply app_nil in Hm2 as [? _]. }
    apply (Hnone Hs1) in Hf as (value & found' & (contents & Hr & Hj & Ho)%Hdocument & Hl & Ht & H0 & Hv & _).
    exists modified_at, contents, value, found'. split_and!; try done. by apply Hstale, Hs0.
  - intros modified' contents value Hm' Hage Hr Hj Ho Ht Hl Hv. rewrite Hm in Hm'. injection Hm' as <-.
    assert (Hs1 : failures s.1 = []) by by apply Hs0, Hstale.
    apply Hpass, (Hnone Hs1). exists value, (validate_artifact_root_timestamp_freshness value now max_age_days s.1).2.
    split; [apply Hdocument; by exists contents|]. split; [done|]. split; [done|].
    assert (Hq : failures (validate_artifact_root_timestamp_freshness value now max_age_days s.1).2 = [])
      by (rewrite <- Hs1; by apply freshness_quiet).
    split; [done|]. split; [|done]. rewrite <- Hq. apply Hv.
Qed.
End passed.

(** The validators of the receipts are such. *)
Lemma drill_validators_push {RP : Rfc3339Parse} {UU : UuidCrate} value :
  pushes (validate_audit_retention_purge value) /\ pushes (validate_audit_export_archive value)
  /\ pushes (validate_signing_key_rotation value) /\ pushes (validate_key_encryption_rotation value)
  /\ pushes (validate_break_glass_admin_recovery value) /\ pushes (validate_restore_drill value).
Proof.
  split_and!.
  - unfold validate_audit_retention_purge, compare_numbers. solve_pushes.
  - unfold validate_audit_export_archive, validate_export_filters, compare_numbers. solve_pushes.
  - unfold validate_signing_key_rotation. solve_pushes.
    intros s. destruct (failures s) eqn:E; exists []; cbn; rewrite ?E; by rewrite ?app_nil_r.
  - unfold validate_key_encryption_rotation. solve_pushes.
  - unfold validate_break_glass_admin_recovery. solve_pushes.
  - unfold validate_restore_drill. solve_pushes.
Qed.

(** *** The receipts *)

Section accepted.
Context {CC : CryptoCrates} {TC : TokenCrates} {AG : AesGcm} {RK : RsaKeys}.
Context {KB : KeyBytes} {BD : Base64Decode} {SJ : SerdeJson}.
Context {UC : UrlCrate} {UP : UrlParts} {UH : UrlHostText}.
Context {UU : UuidCrate} {RP : Rfc3339Parse} {TF : TimeFormat} {DK : Disk}.
(** What is written is read: identifiers and instants. *)
Context (Huuid : forall id, Uuid_parse_str (uuid_to_string id) = Some id).
Context (Htime : forall at_ text, rfc3339_format at_ = Some text -> rfc3339_parse text = Some at_).

(** Text that is an instant's, as a field of a receipt holds it. *)
Definition instant_text (v : Value) : Prop := exists text, v = String_ text /\ is_Some (rfc3339_parse text).
Lemma instant_json_text at_ v : instant_json at_ = Some v -> instant_text v.
Proof.
  unfold instant_json. intros (text & Ht & ->)%fmap_Some. exists text. split; [done|].
  apply Htime in Ht. by eexists.
Qed.
Lemma nullable_instant_text at_ v :
  nullable_instant_json at_ = Some v -> v = Null \/ instant_text v.
Proof. destruct at_; cbn; [right; by eapply instant_json_text|]. intros [= <-]. by left. Qed.

(** One step of a validator on a receipt. *)
Ltac accept_step :=
  first
    [ eapply quiet_string; reflexivity
    | eapply quiet_string_at_path; reflexivity
    | eapply quiet_no_array; reflexivity
    | eapply quiet_instant; [reflexivity|done]
    | eapply quiet_instant_at_path; [reflexivity|done]
    | eapply quiet_uuid; [reflexivity|apply Huuid]
    | eapply quiet_bool_at_path; reflexivity
    | eapply quiet_bool; reflexivity
    | eapply quiet_u64; [reflexivity|lia]
    | eapply quiet_check ].
Ltac accept := repeat (eapply quiet_bind; [accept_step|]).

Lemma quiet_compare a b holds checked failure :
  holds a b = true -> quiet (compare_numbers (Some a) (Some b) holds checked failure) tt.
Proof. cbn. by intros ->. Qed.

Lemma purge_accepted r json :
  purge_report_json r = Some json -> purge_status r = "ok" ->
  (30 <= purge_retention_days r <= 3650)%Z -> (1 <= purge_batch_size r <= 50000)%Z ->
  (Z.of_nat (purge_deleted r) <= purge_batch_size r)%Z ->
  quiet (validate_audit_retention_purge json) tt.
Proof.
  unfold purge_report_json. intros H Hs Hd Hb Hn.
  apply bind_Some in H as (cutoff & (c & -> & Hc)%instant_json_text & H).
  apply bind_Some in H as (completed & (t & -> & Ht)%instant_json_text & [= <-]). rewrite Hs.
  unfold validate_audit_retention_purge. accept.
  eapply quiet_bind; [apply quiet_compare; lia|]. eapply quiet_bind; [apply quiet_compare; lia|].
  apply quiet_compare. by apply Z.leb_le.
Qed.
Lemma signing_key_accepted r json :
  signing_key_report_json r = Some json -> signing_report_status r = "rotated" ->
  signing_report_active_kid r <> "" -> signing_report_active r = true ->
  quiet (validate_signing_key_rotation json) tt.
Proof.
  unfold signing_key_report_json. intros H Hs Hk Ha.
  apply bind_Some in H as (completed & (t & -> & Ht)%instant_json_text & [= <-]). rewrite Hs, Ha.
  unfold validate_signing_key_rotation. accept.
  eapply quiet_bind; [eapply quiet_non_empty; [reflexivity|done]|]. accept.
  intros s. by destruct (failures s) eqn:E; cbn; rewrite ?E.
Qed.
Lemma key_encryption_accepted r json :
  key_encryption_report_json r = Some json -> kek_report_status r = "rotated" ->
  (1 <= Z.of_nat (kek_report_signing_keys r) < 2 ^ 64)%Z ->
  (Z.of_nat (kek_report_email_delivery_tokens r) < 2 ^ 64)%Z ->
  quiet (validate_key_encryption_rotation json) tt.
Proof.
  unfold key_encryption_report_json. intros H Hs Hk Ht.
  apply bind_Some in H as (completed & (t & -> & Hc)%instant_json_text & [= <-]). rewrite Hs.
  unfold validate_key_encryption_rotation. accept.
  rewrite (proj2 (Z.leb_le _ _)) by lia. apply quiet_check.
Qed.
Lemma break_glass_accepted r json :
  break_glass_report_json r = Some json -> break_glass_status r = "granted" ->
  recovery_user_email (break_glass_recovery r) <> "" ->
  recovery_user_status_after (break_glass_recovery r) = UserStatus_Active ->
  recovery_membership_role_after (break_glass_recovery r) = MembershipRole_Owner ->
  quiet (validate_break_glass_admin_recovery json) tt.
Proof.
  unfold break_glass_report_json. intros H Hs He Ha Ho.
  apply bind_Some in H as (completed & (t & -> & Hc)%instant_json_text & [= <-]). rewrite Hs, Ha, Ho.
  unfold validate_break_glass_admin_recovery. accept.
  eapply quiet_bind; [eapply quiet_non_empty; [reflexivity|done]|]. accept.
  eapply quiet_bind.
  { eapply quiet_status; [reflexivity|]. destruct (recovery_user_status_before _); cbn; set_solver. }
  accept. eapply quiet_bind.
  { apply quiet_optional_role. destruct (recovery_membership_role_before _) as [[]|]; [right..|by left];
      eexists; (split; [reflexivity|set_solver]). }
  accept. apply quiet_check.
Qed.

(** What an export's receipt says of itself. *)
Record sound_receipt (r : AuditExportReceipt) : Prop := {
  sound_status : receipt_status r = "ok";
  sound_path : receipt_output_path r <> "" /\ receipt_output_path r <> "-";
  sound_rows : (Z.of_nat (receipt_rows_exported r) <= receipt_limit r)%Z;
  sound_limit : (1 <= receipt_limit r <= receipt_export_max_rows r)%Z;
  sound_ceiling : (receipt_export_max_rows r <= 50000)%Z;
  sound_bytes : 0 < receipt_rows_exported r -> 0 < receipt_bytes_written r;
  sound_cursor : if receipt_has_more r
                 then receipt_next_after_created_at r <> None /\ receipt_next_after_id r <> None
                 else receipt_next_after_created_at r = None /\ receipt_next_after_id r = None;
  sound_kind : forall kind, receipt_actor_kind (receipt_filters r) = Some kind ->
    kind ∈ ["user"; "client"; "system"];
}.
Lemma filters_accepted f fields fv value :
  export_filter_json f = Some fv -> value = Object fields ->
  value_at_path value ["filters"] = Some fv ->
  (forall kind, receipt_actor_kind f = Some kind -> kind ∈ ["user"; "client"; "system"]) ->
  quiet (validate_export_filters value) tt.
Proof.
  unfold export_filter_json. intros H -> Hf Hk.
  apply bind_Some in H as (from & Hfrom%nullable_instant_text & H).
  apply bind_Some in H as (to & Hto%nullable_instant_text & H). injection H as <-.
  assert (Hpath : forall name, value_at_path (Object fields) ["filters"; name]
    = match value_at_path (Object fields) ["filters"] with
      | Some v => value_at_path v [name] | None => None end).
  { intros name. cbn [value_at_path]. destruct (value_get (Object fields) "filters"); done. }
  unfold validate_export_filters. rewrite Hf. cbn [is_object negb].
  eapply quiet_bind; [apply (quiet_optional_string _ _ (receipt_action_prefix f)); by rewrite Hpath, Hf|].
  eapply quiet_bind; [apply (quiet_optional_string _ _ (receipt_target_prefix f)); by rewrite Hpath, Hf|].
  eapply quiet_bind.
  { apply quiet_optional_uuid. rewrite Hpath, Hf. cbn. destruct (receipt_actor_id f) as [id|]; [right|by left].
    eexists. split; [reflexivity|]. rewrite Huuid. by eexists. }
  eapply quiet_bind.
  { apply quiet_optional_instant. rewrite Hpath, Hf. cbn.
    destruct Hfrom as [->|(t & -> & Ht)]; [by left|right; eauto]. }
  eapply quiet_bind.
  { apply quiet_optional_instant. rewrite Hpath, Hf. cbn.
    destruct Hto as [->|(t & -> & Ht)]; [by left|right; eauto]. }
  rewrite Hpath, Hf. change (value_at_path _ _) with (Some (nullable String_ (receipt_actor_kind f))).
  destruct (receipt_actor_kind f) as [kind|]; cbn [nullable]; [|apply quiet_ret].
  specialize (Hk _ eq_refl). apply contains_true in Hk. rewrite Hk. apply quiet_ret.
Qed.
Lemma export_accepted r json :
  export_receipt_json r = Some json -> sound_receipt r ->
  (Z.of_nat (receipt_bytes_written r) < 2 ^ 64)%Z ->
  quiet (validate_audit_export_archive json) tt.
Proof.
  unfold export_receipt_json. intros H Hr Hbytes. destruct Hr as [Hs [Hp1 Hp2] Hrows Hlim Hceil Hb Hcur Hkind].
  apply bind_Some in H as (next & Hnext & H).
  apply bind_Some in H as (filters & Hfilters & H).
  apply bind_Some in H as (completed & (t & -> & Ht)%instant_json_text & [= <-]). rewrite Hs.
  unfold validate_audit_export_archive. accept.
  eapply quiet_bind; [eapply quiet_non_empty; [reflexivity|done]|]. accept.
  eapply quiet_bind.
  { match goal with |- quiet (if bool_decide ?P then _ else _) _ =>
      assert (bool_decide P = false) as ->; [apply bool_decide_eq_false; intros [=]; congruence|] end.
    apply quiet_ret. }
  eapply quiet_bind; [apply quiet_compare; by apply Z.leb_le|].
  eapply quiet_bind; [apply quiet_compare; lia|].
  eapply quiet_bind.
  { assert ((0 <? Z.of_nat (receipt_rows_exported r))%Z && (Z.of_nat (receipt_bytes_written r) =? 0)%Z = false)
      as -> by lia. apply quiet_ret. }
  accept. eapply quiet_bind; cycle 1.
  { eapply filters_accepted; [exact Hfilters|reflexivity|reflexivity|exact Hkind]. }
  destruct (receipt_has_more r).
  - destruct Hcur as [Hc1 Hc2].
    destruct (receipt_next_after_created_at r) as [at_|]; [|done].
    destruct (receipt_next_after_id r) as [id|]; [|done]. cbn in Hnext.
    apply instant_json_text in Hnext as (text & -> & Htext). accept. apply quiet_ret.
  - destruct Hcur as [Hc1 Hc2]. rewrite Hc1 in Hnext. injection Hnext as <-. rewrite Hc2. apply quiet_ret.
Qed.

Lemma purge_printed environ now args files db r db' report event_json like :
  audit_keyed db ->
  run (run_audit_command event_json like environ now ("purge-expired" :: args) files) db = (r, db') ->
  r = Ok (Ok (Printed_Purge report), files) ->
  purge_status report = "ok" /\ (30 <= purge_retention_days report <= 3650)%Z
  /\ (1 <= purge_batch_size report <= 50000)%Z
  /\ (Z.of_nat (purge_deleted report) <= purge_batch_size report)%Z.
Proof.
  intros Hk Hrun ->. unfold run_audit_command, config_of in Hrun.
  apply lift_then_Ok in Hrun as (config & Hc%map_err_Ok & Hrun).
  apply run_handler_Ok in Hrun as (o & db1 & Ho & Hrun).
  pose proof (audit_operations_Ok _ _ (config_audit _ _ Hc)) as (Hd & Hb & _).
  assert (db1 = db) as ->.
  { unfold default_organization_database in Ho. by apply fetch_then_Ok in Ho as (org & _ & [= _ <-]). }
  apply run_handler_Ok in Hrun as (report' & db2 & Hp & [= -> _]).
  unfold purge_expired_audit_events in Hp. apply query_then_Ok in Hp as (deleted & db3 & Hdel & [= <- _]).
  cbn. split; [done|]. split; [done|]. split; [done|].
  unfold delete_audit_events_before in Hdel. rewrite (proj2 (Z.leb_gt _ _)) in Hdel by lia.
  injection Hdel as <- _. fold (gone o (audit_retention_cutoff now (audit_retention_days (api_audit config)))
    (Z.to_nat (audit_purge_batch_size (api_audit config))) db).
  rewrite count_gone, expired_events_length by done. lia.
Qed.
Lemma export_page_sound rows limit events more next :
  (1 <= limit)%Z -> export_page rows limit = (events, more, next) ->
  (Z.of_nat (length events) <= limit)%Z /\ (if more : bool then next <> None else next = None).
Proof.
  unfold export_page. intros Hl [= <- <- <-].
  destruct (Nat.ltb_spec (Z.to_nat limit) (length rows)) as [H|H]; [|split; [lia|done]].
  rewrite length_take. split; [lia|]. destruct (last _) as [e|] eqn:E; [done|].
  apply last_None, (f_equal length) in E. rewrite length_take in E. cbn in E. lia.
Qed.
Lemma write_file_bytes event_json path events files n files' :
  write_audit_export_ndjson_file event_json path events files = (Ok n, files') ->
  0 < length events -> 0 < n.
Proof.
  unfold write_audit_export_ndjson_file. intros H Hlen. case_match; [done|]. case_match; [done|].
  destruct (write_events event_json "" events) as [w contents] eqn:E. destruct w; [|done].
  case_match; [|done]. injection H as <- _.
  assert (Hgrow : forall contents events w after, write_events event_json contents events = (w, after) ->
    String.length contents <= String.length after).
  { clear. intros contents events. revert contents. induction events as [|e events IH]; intros c w after; cbn.
    - by intros [= _ <-].
    - repeat case_match; try (intros [= _ <-]; rewrite ?string_length_app; lia).
      intros ?%IH. rewrite !string_length_app in *. lia. }
  destruct events as [|e events]; [by apply Nat.lt_irrefl in Hlen|]. cbn in E. repeat case_match; try discriminate.
  apply Hgrow in E. rewrite !string_length_app in E. cbn in E. lia.
Qed.
Lemma export_printed environ now args files db receipt files' db' event_json like :
  run (run_audit_command event_json like environ now ("export-ndjson" :: args) files) db
  = (Ok (Ok (Printed_Export receipt), files'), db') -> sound_receipt receipt.
Proof.
  unfold run_audit_command, config_of. intros Hrun.
  apply lift_then_Ok in Hrun as (config & Hc%map_err_Ok & Hrun).
  apply lift_then_Ok in Hrun as (options & Hopt & Hrun).
  apply run_handler_Ok in Hrun as (o & db1 & _ & Hrun).
  apply run_handler_Ok in Hrun as ([r files1] & db2 & Hexp & Hrun). injection Hrun as Hr _ _.
  apply result_bind_Ok in Hr as (receipt' & -> & [= ->]).
  apply (proj1 (export_arguments_spec _)) in Hopt as ((path & flags & _ & Hpath & Hp1 & Hp2) & Hlimit & _).
  unfold export_audit_events_ndjson in Hexp. apply query_then_Ok in Hexp as (rows & db3 & _ & Hexp).
  destruct (export_page rows (export_limit options)) as [[events more] next] eqn:Epage.
  destruct (write_audit_export_ndjson_file _ _ _ _) as [n files2] eqn:Ew. injection Hexp as Hr _ _.
  apply result_bind_Ok in Hr as (bytes & -> & [= <-]).
  apply export_page_sound in Epage as [Hlen Hnext]; [|lia].
  assert ((1 <= clamp (audit_export_max_rows (api_audit config)) 1 50000 <= 50000)%Z)
    by (unfold clamp; lia).
  split; cbn; try done; try lia.
  - rewrite Hpath. split; [by intros ->|done].
  - intros Hrows. by eapply write_file_bytes.
  - destruct more; [by destruct next|by subst next].
  - intros kind (k & _ & ->)%fmap_Some. destruct k; set_solver.
Qed.

Lemma signing_key_printed environ env args db report db' :
  run (run_signing_key_command environ env ("rotate" :: args)) db = (Ok (Printed_Rotated report), db') ->
  signing_report_status report = "rotated" /\ signing_report_active_kid report <> ""
  /\ signing_report_active report = true.
Proof.
  unfold run_signing_key_command. cbn [String.eqb Ascii.eqb Bool.eqb]. intros Hrun.
  apply run_handler_Ok in Hrun as (config & db1 & _ & Hrun).
  apply run_handler_Ok in Hrun as (kek & db2 & _ & Hrun).
  apply lift_then_Ok in Hrun as (key & Hkey%map_err_Ok & Hrun).
  apply query_then_Ok in Hrun as (u & db3 & _ & [= <- _]). cbn.
  unfold generate_encrypted_signing_key in Hkey. apply result_bind_Ok in Hkey as (pem & _ & Hkey).
  apply result_bind_Ok in Hkey as (jwk & _ & Hkey).
  unfold encrypt_signing_material in Hkey. apply result_bind_Ok in Hkey as (c & _ & [= <-]). done.
Qed.
Lemma key_encryption_printed environ env args db report db' :
  run (run_key_encryption_command environ env ("rotate" :: args)) db = (Ok report, db') ->
  kek_report_status report = "rotated".
Proof.
  unfold run_key_encryption_command. cbn [String.eqb Ascii.eqb Bool.eqb]. intros Hrun.
  apply run_handler_Ok in Hrun as (config & db1 & _ & Hrun).
  apply lift_then_Ok in Hrun as (old_key & _ & Hrun).
  apply lift_then_Ok in Hrun as (new_key & _ & Hrun).
  unfold rotate_key_encryption in Hrun.
  apply query_then_Ok in Hrun as (? & ? & _ & Hrun).
  apply lift_then_Ok in Hrun as (? & _ & Hrun).
  apply query_then_Ok in Hrun as (? & ? & _ & Hrun).
  apply lift_then_Ok in Hrun as (? & _ & Hrun).
  by apply query_then_Ok in Hrun as (? & ? & _ & [= <- _]).
Qed.
Lemma break_glass_printed environ env args db report db' :
  directory_wf db ->
  run (run_admin_command environ env args) db = (Ok report, db') ->
  break_glass_status report = "granted" /\ recovery_user_email (break_glass_recovery report) <> ""
  /\ recovery_user_status_after (break_glass_recovery report) = UserStatus_Active
  /\ recovery_membership_role_after (break_glass_recovery report) = MembershipRole_Owner.
Proof.
  intros Hwf (config & organization & u & address & recovery & Hreq & Hb & ->)%run_admin_command_Ok. cbn.
  apply break_glass_run in Hb; [|done..].
  destruct Hb as (u' & db1 & m & Hu' & _ & _ & _ & _ & _ & _ & _ & He & Hs & Hr).
  split; [done|]. split; [|done]. rewrite He.
  destruct Hreq as [(email & rest & _ & Hn) _ _ _ Hu]. unfold find_user_by_email, db_gets in Hu.
  injection Hu as (k & Hk & [_ Ha%bool_decide_eq_true]%andb_true_iff)%find_row_Some.
  rewrite (wf_users _ Hwf _ _ Hk), Hk in Hu'. injection Hu' as <-. rewrite Ha.
  apply normalize_email_normal in Hn as (_ & _ & _ & mailbox & host & -> & _). by destruct mailbox.
Qed.

(** C36. The release asks for what the service prints.  The receipt of each of
    the operator's commands, as it is printed after any run that succeeds, is
    accepted by the validator the release evidence has for it, without a
    single failure: purging and exporting the audit log, replacing the signing
    key, rotating the key encryption key when there was a key to rotate, and
    breaking the glass. *)
Theorem printed_receipts_are_evidence :
  (forall event_json like environ now args files db report db' json, audit_keyed db ->
     run (run_audit_command event_json like environ now ("purge-expired" :: args) files) db
       = (Ok (Ok (Printed_Purge report), files), db') ->
     purge_report_json report = Some json -> quiet (validate_audit_retention_purge json) tt)
  /\ (forall event_json like environ now args files db receipt files' db' json,
     run (run_audit_command event_json like environ now ("export-ndjson" :: args) files) db
       = (Ok (Ok (Printed_Export receipt), files'), db') ->
     (Z.of_nat (receipt_bytes_written receipt) < 2 ^ 64)%Z ->
     export_receipt_json receipt = Some json -> quiet (validate_audit_export_archive json) tt)
  /\ (forall environ env args db report db' json,
     run (run_signing_key_command environ env ("rotate" :: args)) db = (Ok (Printed_Rotated report), db') ->
     signing_key_report_json report = Some json -> quiet (validate_signing_key_rotation json) tt)
  /\ (forall environ env args db report db' json,
     run (run_key_encryption_command environ env ("rotate" :: args)) db = (Ok report, db') ->
     (1 <= Z.of_nat (kek_report_signing_keys report) < 2 ^ 64)%Z ->
     (Z.of_nat (kek_report_email_delivery_tokens report) < 2 ^ 64)%Z ->
     key_encryption_report_json report = Some json -> quiet (validate_key_encryption_rotation json) tt)
  /\ (forall environ env args db report db' json, directory_wf db ->
     run (run_admin_command environ env args) db = (Ok report, db') ->
     break_glass_report_json report = Some json ->
     quiet (validate_break_glass_admin_recovery json) tt).
Proof.
  split_and!.
  - intros event_json like environ now args files db report db' json Hk Hrun Hj.
    eapply purge_printed in Hrun as (? & ? & ? & ?); [|done|done]. by eapply purge_accepted.
  - intros event_json like environ now args files db receipt files' db' json Hrun%export_printed Hb Hj.
    by eapply export_accepted.
  - intros environ env args db report db' json (? & ? & ?)%signing_key_printed Hj.
    by eapply signing_key_accepted.
  - intros environ env args db report db' json Hrun%key_encryption_printed Hk Ht Hj.
    by eapply key_encryption_accepted.
  - intros environ env args db report db' json Hwf Hrun Hj.
    apply break_glass_printed in Hrun as (? & ? & ? & ?); [|done]. by eapply break_glass_accepted.
Qed.
End accepted.
