(* ===== verification/EvidenceRegistry.v ===== *)
(** * The pieces of the release evidence

    [crates/operations/src]'s operations_evidence/registry, scaffold/manifest.rs
    and scaffold/readme.rs: what a release asks for, the manifest that lists it
    and the README of the directory. *)

From S2P Require Import Prelude RustStr Domain RequestContext Evidence.

(** ** The registry *)

(* crates/operations/src/operations_evidence/registry/specs.rs:3-268 EVIDENCE_SPECS *)
Definition EVIDENCE_SPECS : list EvidenceSpec := [
  mk_EvidenceSpec "operations_preflight" "operations-preflight.json" "Operations preflight"
    "cairn-api operations preflight > operations-preflight.json"
    OperationsPreflight false true false false;
  mk_EvidenceSpec "dependency_policy_check" "dependency-policy-check.json" "Dependency policy"
    "cairn-api operations dependency-policy-evidence > dependency-policy-check.json"
    DependencyPolicyCheck false false false false;
  mk_EvidenceSpec "release_assets_verification" "release-assets-verification.json" "CLI/MCP public release assets"
    "cairnid release-assets verify <release-dir> --tag <tag> --source-commit <sha> --release-url <url> --github-release-immutability-enabled-before-publish --provenance-attestations-verified --sbom-attestations-verified > release-assets-verification.json"
    ReleaseAssetsVerification false false false true;
  mk_EvidenceSpec "openid_static_registration" "openid-static-registration.json" "Static OpenID artifacts"
    "cairn-api conformance oidcc-static-registration > openid-static-registration.json"
    OpenIdStaticRegistration false true false false;
  mk_EvidenceSpec "openid_static_config" "cairn-oidcc-static.json" "Static OpenID artifacts"
    "cairn-api conformance oidcc-static-config > cairn-oidcc-static.json"
    OpenIdStaticConfig true true false false;
  mk_EvidenceSpec "oidc_metadata_smoke" "oidc-metadata-smoke.json" "Deployed OIDC metadata"
    "cairn-api operations oidc-metadata-smoke > oidc-metadata-smoke.json"
    OidcMetadataSmoke false true false false;
  mk_EvidenceSpec "openid_config_op_conformance" "openid-config-op-result.json" "OpenID conformance"
    "save OpenID Foundation Config OP suite result JSON as openid-config-op-result.json"
    OpenIdConfigOpConformance false true false true;
  mk_EvidenceSpec "openid_basic_op_conformance" "openid-basic-op-result.json" "OpenID conformance"
    "save OpenID Foundation Basic OP suite result JSON as openid-basic-op-result.json"
    OpenIdBasicOpConformance false true false true;
  mk_EvidenceSpec "scim_generic_connector_profile" "scim-generic-connector-profile.json" "SCIM provisioning"
    "cairn-api scim connector-profile generic > scim-generic-connector-profile.json"
    ScimGenericConnectorProfile false true false false;
  mk_EvidenceSpec "scim_okta_connector_profile" "scim-okta-connector-profile.json" "SCIM provisioning"
    "cairn-api scim connector-profile okta > scim-okta-connector-profile.json"
    ScimOktaConnectorProfile false true false false;
  mk_EvidenceSpec "scim_entra_connector_profile" "scim-entra-connector-profile.json" "SCIM provisioning"
    "cairn-api scim connector-profile entra > scim-entra-connector-profile.json"
    ScimEntraConnectorProfile false true false false;
  mk_EvidenceSpec "scim_public_smoke" "scim-smoke.json" "SCIM provisioning"
    "cairn-api scim smoke > scim-smoke.json"
    ScimSmoke false true true false;
  mk_EvidenceSpec "scim_okta_connector_smoke" "scim-okta-connector-smoke.json" "SCIM provisioning"
    "save normalized Okta connector smoke summary as scim-okta-connector-smoke.json"
    ScimOktaConnectorSmoke false true true true;
  mk_EvidenceSpec "scim_entra_connector_smoke" "scim-entra-connector-smoke.json" "SCIM provisioning"
    "save normalized Microsoft Entra connector smoke summary as scim-entra-connector-smoke.json"
    ScimEntraConnectorSmoke false true true true;
  mk_EvidenceSpec "browser_origin_smoke" "browser-origin-smoke.json" "Browser origin defense"
    "cairn-api operations browser-origin-smoke > browser-origin-smoke.json"
    BrowserOriginSmoke false true false false;
  mk_EvidenceSpec "security_headers_smoke" "security-headers-smoke.json" "Security headers"
    "cairn-api operations security-headers-smoke > security-headers-smoke.json"
    SecurityHeadersSmoke false true false false;
  mk_EvidenceSpec "email_provider_smoke" "email-provider-smoke.json" "Email delivery"
    "cairn-api email-outbox smoke-provider <recipient-email> > email-provider-smoke.json"
    EmailProviderSmoke false true false true;
  mk_EvidenceSpec "lifecycle_email_smoke" "lifecycle-email-smoke.json" "Email delivery"
    "cairn-api email-outbox lifecycle-smoke-evidence > lifecycle-email-smoke.json"
    LifecycleEmailSmoke false true true true;
  mk_EvidenceSpec "restore_drill" "restore-drill.json" "Restore drill"
    "set DATABASE_URL to a restored production-like Postgres database, then run cairn-api operations restore-check > restore-drill.json"
    RestoreDrill false true false false;
  mk_EvidenceSpec "signing_key_rotation_drill" "signing-key-rotation-drill.json" "Key operations"
    "set DATABASE_URL to a production-like or restored Postgres drill database, then run the state-changing command cairn-api signing-key rotate > signing-key-rotation-drill.json"
    SigningKeyRotation false true true false;
  mk_EvidenceSpec "kek_rotation_drill" "kek-rotation-drill.json" "Key operations"
    "set DATABASE_URL to a production-like or restored Postgres drill database, then run the state-changing command cairn-api key-encryption rotate > kek-rotation-drill.json"
    KeyEncryptionRotation_ false true true false;
  mk_EvidenceSpec "break_glass_admin_recovery_drill" "break-glass-admin-recovery-drill.json" "Emergency access"
    "set DATABASE_URL to a production-like or restored Postgres drill database, then run the state-changing command cairn-api admin break-glass-owner <user-email> > break-glass-admin-recovery-drill.json"
    BreakGlassAdminRecovery_ false true true false;
  mk_EvidenceSpec "audit_export_archive_drill" "audit-export-archive-drill.json" "Audit operations"
    "set DATABASE_URL to a production-like or restored Postgres drill database, then run cairn-api audit export-ndjson <output-path> > audit-export-archive-drill.json"
    AuditExportArchive false true false false;
  mk_EvidenceSpec "audit_retention_purge_drill" "audit-retention-purge-drill.json" "Audit operations"
    "set DATABASE_URL to a production-like or restored Postgres drill database, then run the state-changing command cairn-api audit purge-expired > audit-retention-purge-drill.json"
    AuditRetentionPurge false true true false
].
(* crates/operations/src/operations_evidence/registry/names.rs:3-32 evidence_validator_name *)
Definition evidence_validator_name (validator : EvidenceValidator) : string :=
  match validator with
  | OperationsPreflight => "operations_preflight"
  | DependencyPolicyCheck => "dependency_policy_check"
  | ReleaseAssetsVerification => "release_assets_verification"
  | OpenIdStaticRegistration => "openid_static_registration"
  | OpenIdStaticConfig => "openid_static_config"
  | OidcMetadataSmoke => "oidc_metadata_smoke"
  | OpenIdConfigOpConformance => "openid_config_op_conformance"
  | OpenIdBasicOpConformance => "openid_basic_op_conformance"
  | ScimGenericConnectorProfile => "scim_connector_profile_generic"
  | ScimOktaConnectorProfile => "scim_connector_profile_okta"
  | ScimEntraConnectorProfile => "scim_connector_profile_entra"
  | ScimSmoke => "scim_smoke"
  | ScimOktaConnectorSmoke => "scim_connector_smoke_okta"
  | ScimEntraConnectorSmoke => "scim_connector_smoke_entra"
  | BrowserOriginSmoke => "browser_origin_smoke"
  | SecurityHeadersSmoke => "security_headers_smoke"
  | EmailProviderSmoke => "email_provider_smoke"
  | LifecycleEmailSmoke => "lifecycle_email_smoke"
  | RestoreDrill => "restore_drill"
  | BreakGlassAdminRecovery_ => "break_glass_admin_recovery"
  | SigningKeyRotation => "signing_key_rotation"
  | KeyEncryptionRotation_ => "key_encryption_rotation"
  | AuditExportArchive => "audit_export_archive"
  | AuditRetentionPurge => "audit_retention_purge"
  end.
(* crates/operations/src/operations_evidence/types.rs:5-5 RELEASE_EVIDENCE_SCHEMA_VERSION *)
Definition RELEASE_EVIDENCE_SCHEMA_VERSION : string := "cairnid.evidence.v1".
(* crates/operations/src/operations_evidence.rs:41-41 DEFAULT_RELEASE_EVIDENCE_MAX_AGE_DAYS *)
Definition DEFAULT_RELEASE_EVIDENCE_MAX_AGE_DAYS : Z := 30.

(** ** The manifest *)

(* crates/operations/src/operations_evidence/types.rs:80-90 ReleaseEvidenceManifestArtifact *)
Record ReleaseEvidenceManifestArtifact := mk_ManifestArtifact {
  manifest_name : string;
  manifest_file_name : string;
  manifest_release_gate : string;
  manifest_command : string;
  manifest_validator : string;
  manifest_contains_secrets : bool;
  manifest_requires_production_like_environment : bool;
  manifest_writes_application_state : bool;
  manifest_touches_external_provider : bool;
}.
(* crates/operations/src/operations_evidence/types.rs:68-77 ReleaseEvidenceManifest *)
Record ReleaseEvidenceManifest := mk_Manifest {
  manifest_schema_version : string;
  manifest_status : string;
  manifest_generated_at : OffsetDateTime;
  manifest_default_max_age_days : Z;
  manifest_artifact_count : nat;
  manifest_artifacts : list ReleaseEvidenceManifestArtifact;
  manifest_notes : list string;
}.
(* crates/operations/src/operations_evidence/scaffold/manifest.rs:12-27 release_evidence_manifest_from_specs *)
Definition manifest_artifact (spec : EvidenceSpec) : ReleaseEvidenceManifestArtifact :=
  mk_ManifestArtifact (spec_name spec) (spec_file_name spec) (spec_release_gate spec) (spec_command spec)
    (evidence_validator_name (spec_validator spec)) (spec_contains_secrets spec)
    (spec_requires_production_like_environment spec) (spec_writes_application_state spec)
    (spec_touches_external_provider spec).
(* crates/operations/src/operations_evidence/scaffold/manifest.rs:8-45 release_evidence_manifest_from_specs *)
Definition release_evidence_manifest_from_specs (specs : list EvidenceSpec) (generated_at : OffsetDateTime)
    : ReleaseEvidenceManifest :=
  let artifacts := manifest_artifact <$> specs in
  mk_Manifest RELEASE_EVIDENCE_SCHEMA_VERSION "ok" generated_at DEFAULT_RELEASE_EVIDENCE_MAX_AGE_DAYS
    (length artifacts) artifacts
  ["Store release evidence in an access-controlled directory.";
   "Do not commit cairn-oidcc-static.json because it contains OIDC client secrets.";
   "This manifest is an operator checklist only; it does not produce artifacts, prove release approval, or claim production readiness.";
   "Review contains_secrets, requires_production_like_environment, writes_application_state, and touches_external_provider before running any command.";
   "State-changing artifacts such as lifecycle-email-smoke.json and signing-key-rotation-drill.json require explicit approval and an approved production-like or restored drill target.";
   "External-provider artifacts such as release-assets-verification.json and lifecycle-email-smoke.json must be normalized token-free receipts without raw provider exports, logs, screenshots, request headers, cookies, or tokens.";
   "release-assets-verification.json is final release evidence only after a published GitHub Release exists and provenance plus SBOM attestation checks have passed; workflow-run and rehearsal receipts are not final release evidence.";
   "Run cairnid evidence check against the completed directory before the first public RC and each public release."].
(* crates/operations/src/operations_evidence.rs:200-202 release_evidence_manifest *)
Definition release_evidence_manifest (generated_at : OffsetDateTime) : ReleaseEvidenceManifest :=
  release_evidence_manifest_from_specs EVIDENCE_SPECS generated_at.

(** The manifest as a [serde_json::Value], its fields in the order of their
    names. *)
Section manifest_json.
Context {TF : TimeFormat}.
(* crates/operations/src/operations_evidence/types.rs:79-90 ReleaseEvidenceManifestArtifact *)
Definition manifest_artifact_json (a : ReleaseEvidenceManifestArtifact) : Value :=
  Object [("command", String_ (manifest_command a));
    ("contains_secrets", Bool (manifest_contains_secrets a));
    ("file_name", String_ (manifest_file_name a)); ("name", String_ (manifest_name a));
    ("release_gate", String_ (manifest_release_gate a));
    ("requires_production_like_environment", Bool (manifest_requires_production_like_environment a));
    ("touches_external_provider", Bool (manifest_touches_external_provider a));
    ("validator", String_ (manifest_validator a));
    ("writes_application_state", Bool (manifest_writes_application_state a))].
(* crates/operations/src/operations_evidence/types.rs:67-77 ReleaseEvidenceManifest *)
Definition manifest_json (m : ReleaseEvidenceManifest) : option Value :=
  generated_at ← rfc3339_format (manifest_generated_at m);
  Some (Object [("artifact_count", Number (Z.of_nat (manifest_artifact_count m)));
    ("artifacts", Array (manifest_artifact_json <$> manifest_artifacts m));
    ("default_max_age_days", Number (manifest_default_max_age_days m));
    ("generated_at", String_ generated_at); ("notes", Array (String_ <$> manifest_notes m));
    ("schema_version", String_ (manifest_schema_version m)); ("status", String_ (manifest_status m))]).
End manifest_json.

(** ** The README *)

Definition line (text : string) : string := text +:+ newline.
Definition para (text : string) : string := text +:+ newline +:+ newline.
Definition text_of (pieces : list string) : string := foldr String.append "" pieces.
(* crates/operations/src/operations_evidence/scaffold/readme.rs:138-140 yes_no *)
Definition yes_no (value : bool) : string := if value then "yes" else "no".
(* crates/operations/src/operations_evidence/scaffold/readme.rs:120-136 push_artifact_group *)
Definition push_artifact_group (artifacts : list ReleaseEvidenceManifestArtifact) : string :=
  text_of (match artifacts with
           | [] => [line "- None."]
           | _ => (fun a => line ("- `" +:+ manifest_file_name a +:+ "` (" +:+ manifest_release_gate a +:+ ") - `"
                                  +:+ manifest_command a +:+ "`")) <$> artifacts
           end) +:+ newline.
(* crates/operations/src/operations_evidence/scaffold/readme.rs:53-118 push_high_risk_review *)
Definition push_high_risk_review (manifest : ReleaseEvidenceManifest) : string := text_of [
  para "## High-Risk Review";
  "This scaffold is an operator checklist only. It does not produce artifacts, prove release approval, or claim production readiness. ";
  para "Before running any command, review every `yes` flag in the table and confirm the exact target environment, provider, and approval path outside this directory.";
  para "### Secret-Containing Artifacts";
  para "Files listed here can contain or derive from secrets. Keep them access-controlled, do not commit them, and do not paste them into issue, PR, ticket, chat, or provider support systems.";
  push_artifact_group (filter (fun a => is_true (manifest_contains_secrets a)) (manifest_artifacts manifest));
  para "### Production-Like Environment Artifacts";
  para "Files listed here must come from the required production-like HTTPS deployment, external suite, connector, provider, or approved restored/drill Postgres target. Local rehearsal receipts are not release-ready evidence.";
  push_artifact_group (filter (fun a => is_true (manifest_requires_production_like_environment a)) (manifest_artifacts manifest));
  para "### State-Changing Artifacts";
  para "Files listed here can write application, tenant, provider, or drill-database state. Confirm the target, backup/restore posture, and operator approval before running them.";
  push_artifact_group (filter (fun a => is_true (manifest_writes_application_state a)) (manifest_artifacts manifest));
  para "### External-Provider Artifacts";
  para "Files listed here require action against systems outside CairnID. Save only the normalized JSON receipt expected by `cairnid evidence check`; do not archive raw provider exports, debug logs, request headers, cookies, bearer tokens, client secrets, screenshots, or copied stdout/stderr.";
  push_artifact_group (filter (fun a => is_true (manifest_touches_external_provider a)) (manifest_artifacts manifest));
  para "### Example Gate Checks";
  line "- `cairn-oidcc-static.json`: secret-containing static OpenID config for the target issuer; keep it access-controlled and never commit or paste it.";
  line "- `lifecycle-email-smoke.json`: state-changing plus external-provider email evidence; use controlled recipients and keep lifecycle URLs, tokens, provider credentials, provider logs, and screenshots out of the saved JSON.";
  line "- `signing-key-rotation-drill.json`: state-changing key-operations drill evidence; confirm `DATABASE_URL` points at the approved production-like or restored Postgres drill database before running the rotation command.";
  para "- `release-assets-verification.json`: external-provider release-asset evidence; capture it only after a published GitHub Release exists, assets are downloaded, and provenance plus SBOM attestation checks have passed. Workflow-run and rehearsal receipts are not final release evidence."].
(* crates/operations/src/operations_evidence/scaffold/readme.rs:32-43 release_evidence_readme *)
Definition readme_row (a : ReleaseEvidenceManifestArtifact) : string :=
  line ("| " +:+ manifest_release_gate a +:+ " | `" +:+ manifest_file_name a +:+ "` | `" +:+ manifest_command a
    +:+ "` | " +:+ yes_no (manifest_contains_secrets a)
    +:+ " | " +:+ yes_no (manifest_requires_production_like_environment a)
    +:+ " | " +:+ yes_no (manifest_writes_application_state a)
    +:+ " | " +:+ yes_no (manifest_touches_external_provider a) +:+ " |").
(* crates/operations/src/operations_evidence/scaffold/readme.rs:3-51 release_evidence_readme *)
Definition release_evidence_readme (manifest : ReleaseEvidenceManifest) : string := text_of ([
  para "# Cairn Identity Release Evidence";
  "This directory is for first-public-RC and public-release evidence. Keep it access-controlled. ";
  para "The generated `.gitignore` keeps evidence artifacts out of source control by default.";
  "One required artifact, `cairn-oidcc-static.json`, contains OIDC client secrets. ";
  para "Provider receipts and drill reports can also reveal operational posture, so store the directory with the same care as deployment records.";
  para "## Workflow";
  line "1. Produce each artifact with the command in the checklist.";
  line "2. Capture restore, signing-key rotation, KEK rotation, break-glass, audit export, and audit purge drill evidence from production-like or restored Postgres databases.";
  line "3. Keep state-changing drills on an approved production-like or restored database only.";
  line "4. Use local rehearsal only with disposable or restored databases; local rehearsal receipts are not release-ready evidence.";
  line "5. Run `cairnid evidence check <evidence-dir>` before the first public RC and each public release.";
  line "6. Do not commit the evidence artifacts.";
  para "7. Do not add screenshots, raw provider exports, logs, or extra files to this directory.";
  push_high_risk_review manifest;
  para "## Required Artifacts";
  line "| Release Gate | File | Command | Secrets | Production-like Env | Mutates | External Provider |";
  line "| --- | --- | --- | --- | --- | --- | --- |"] ++ (readme_row <$> manifest_artifacts manifest)
  ++ [newline +:+ para "## Notes"] ++ ((fun note => line ("- " +:+ note)) <$> manifest_notes manifest)).
