(* ===== verification/EvidenceReport.v ===== *)
(** * Checking the directory of the release evidence

    [crates/operations/src/operations_evidence.rs] and its scaffold: laying a
    directory out, checking that its scaffold is the current one and that it
    holds nothing else, checking every artifact, and the reports.  The theorems
    say what a directory that is ready holds, that a directory just laid out
    passes the checks of its scaffold, and that nothing outside the directory
    has a say. *)

From S2P Require Import Prelude RustStr Domain Oidc Store RequestContext Listing EvidenceRedaction.
From S2P Require Import EvidenceFields.
From S2P Require Import FileSystem Evidence EvidenceRegistry.

(** ** Errors and reports *)

(* crates/operations/src/operations_evidence/types.rs:199-210 ReleaseEvidenceError *)
Inductive ReleaseEvidenceError :=
| InvalidMaxAge
| NotDirectory (path : string)
| ExistingScaffoldFile (path : string)
| Evidence_Json
| Evidence_Io (text : string).
(* crates/operations/src/operations_evidence/types.rs:40-50 ReleaseEvidenceReport *)
Record ReleaseEvidenceReport := mk_Report {
  report_schema_version : string;
  report_status : string;
  report_evidence_dir : string;
  report_generated_at : OffsetDateTime;
  report_max_age_days : Z;
  report_artifacts : list ReleaseEvidenceArtifactReport;
  report_failures : list string;
  report_failure_codes : list ReleaseEvidenceFailureCode;
}.
(* crates/operations/src/operations_evidence/types.rs:93-106 ReleaseEvidenceInitReport *)
Record ReleaseEvidenceInitReport := mk_InitReport {
  init_schema_version : string;
  init_status : string;
  init_evidence_dir : string;
  init_generated_at : OffsetDateTime;
  init_force : bool;
  init_artifact_count : nat;
  init_secret_artifact_count : nat;
  init_state_changing_artifact_count : nat;
  init_external_provider_artifact_count : nat;
  init_files_written : list string;
  init_next_command : string;
}.
(* crates/operations/src/operations_evidence/types.rs:188-196 ReleaseEvidenceNextAction *)
Record ReleaseEvidenceNextAction := mk_NextAction {
  action_name : string;
  action_file_name : string;
  action_release_gate : string;
  action_status : string;
  action_command : string;
  action_failures : list string;
  action_failure_codes : list ReleaseEvidenceFailureCode;
}.
(* crates/operations/src/operations_evidence/types.rs:167-185 ReleaseEvidenceStatusReport *)
Record ReleaseEvidenceStatusReport := mk_StatusReport {
  status_schema_version : string;
  status_status : string;
  status_evidence_dir : string;
  status_generated_at : OffsetDateTime;
  status_max_age_days : Z;
  status_artifact_count : nat;
  status_passed_artifact_count : nat;
  status_missing_artifact_count : nat;
  status_failed_artifact_count : nat;
  status_secret_artifact_count : nat;
  status_state_changing_artifact_count : nat;
  status_external_provider_artifact_count : nat;
  status_next_actions : list ReleaseEvidenceNextAction;
  status_failures : list string;
  status_failure_codes : list ReleaseEvidenceFailureCode;
}.

(** ** The scaffold *)

(* crates/operations/src/operations_evidence/scaffold.rs:13-13 RELEASE_EVIDENCE_MANIFEST_FILE *)
Definition RELEASE_EVIDENCE_MANIFEST_FILE : string := "release-evidence-manifest.json".
(* crates/operations/src/operations_evidence/scaffold.rs:14-14 RELEASE_EVIDENCE_README_FILE *)
Definition RELEASE_EVIDENCE_README_FILE : string := "README.md".
(* crates/operations/src/operations_evidence/scaffold.rs:15-15 RELEASE_EVIDENCE_GITIGNORE_FILE *)
Definition RELEASE_EVIDENCE_GITIGNORE_FILE : string := ".gitignore".
(* crates/operations/src/operations_evidence/scaffold.rs:17-24 RELEASE_EVIDENCE_GITIGNORE *)
Definition RELEASE_EVIDENCE_GITIGNORE : string := text_of [
  line "# Release evidence can contain provider receipts and client secrets.";
  line "# Keep artifact JSON out of source control by default.";
  line "*"; line "!.gitignore"; line "!README.md"; line "!release-evidence-manifest.json"].

(** What is at a path; [None] is missing. *)
(* crates/operations/src/operations_evidence/scaffold/path_safety.rs:4-10 ReleaseEvidencePathKind *)
Definition ReleaseEvidencePathKind : Type := option FileType.
(* crates/operations/src/operations_evidence/scaffold/path_safety.rs:54-75 release_evidence_path_kind *)
Definition release_evidence_path_kind (fs : FileSystem) (path : string)
    : result IoErrorKind ReleaseEvidencePathKind :=
  match fs_symlink_metadata fs path with
  | Ok (type, _) => Ok (Some type)
  | Err Io_NotFound => Ok None
  | Err kind => Err kind
  end.
(** The two kinds the code calls unreachable have no text. *)
(* crates/operations/src/operations_evidence/scaffold/path_safety.rs:13-26 scaffold_failure *)
Definition scaffold_failure (type : FileType) (file_name : string) : string :=
  file_name +:+ ": scaffold file must be a regular file"
  +:+ match type with
      | Symlink => ", got symlink"
      | Directory_ => ", got directory"
      | _ => ""
      end.
(* crates/operations/src/operations_evidence/scaffold/path_safety.rs:28-51 scaffold_io_error *)
Definition scaffold_io_error (type : FileType) (path : string) : ReleaseEvidenceError :=
  Evidence_Io ("release evidence scaffold file must be a regular file"
    +:+ match type with
        | Symlink => ", got symlink"
        | Directory_ => ", got directory"
        | _ => ""
        end +:+ ": " +:+ path).

(** Failures with their codes, in order. *)
Notation Noted := (list (string * ReleaseEvidenceFailureCode)).

(** [serde_json::to_string_pretty(&manifest)]; [None] when the instant cannot
    be written. *)
Class ManifestText := { manifest_to_string_pretty : ReleaseEvidenceManifest -> option string }.

Section scaffold.
Context {RP : Rfc3339Parse} {CAL : Calendar} {SJ : SerdeJson} {TF : TimeFormat} {MT : ManifestText}.
(** The text of an error of the system. *)
Variable io_text : IoErrorKind -> string.
Definition io_error (kind : IoErrorKind) : ReleaseEvidenceError := Evidence_Io (io_text kind).

(* crates/operations/src/operations_evidence/scaffold/validation.rs:167-195 read_scaffold_file *)
Definition read_scaffold_file (fs : FileSystem) (path file_name missing_failure : string)
    : result ReleaseEvidenceError (option string * Noted) :=
  let? kind := map_err io_error (release_evidence_path_kind fs path) in
  match kind with
  | None => Ok (None, [(missing_failure, MissingEvidence)])
  | Some RegularFile =>
      match fs_read_to_string fs path with
      | Ok contents => Ok (Some contents, [])
      | Err Io_NotFound => Ok (None, [(missing_failure, MissingEvidence)])
      | Err error => Err (io_error error)
      end
  | Some type => Ok (None, [(scaffold_failure type file_name, ArtifactPathFailure)])
  end.

(** [serde_json::Value]'s equality. *)
Fixpoint value_eqb (a b : Value) {struct a} : bool :=
  match a, b with
  | Null, Null => true
  | Bool x, Bool y => Bool.eqb x y
  | Number x, Number y => Z.eqb x y
  | String_ x, String_ y => String.eqb x y
  | Array x, Array y =>
      (fix go (x y : list Value) : bool :=
         match x, y with
         | [], [] => true
         | a :: x, b :: y => value_eqb a b && go x y
         | _, _ => false
         end) x y
  | Object x, Object y =>
      (fix go (x y : list (string * Value)) : bool :=
         match x, y with
         | [], [] => true
         | (k, a) :: x, (l, b) :: y => String.eqb k l && value_eqb a b && go x y
         | _, _ => false
         end) x y
  | _, _ => false
  end.
(** What is wrong with the text of a manifest; [None] ends the whole check of
    the scaffold, as its early return does. *)
(* crates/operations/src/operations_evidence/scaffold/validation.rs:33-74 validate_release_evidence_scaffold *)
Definition check_manifest (contents : string) (now : OffsetDateTime) (max_age_days : Z)
    : result ReleaseEvidenceError (Noted * bool) :=
  let failure (text : string) := (RELEASE_EVIDENCE_MANIFEST_FILE +:+ text, StaleOrInvalidScaffold) in
  match serde_json_from_str contents with
  | Some manifest =>
      let generated_at := text ← value_get manifest "generated_at" ≫= as_str;
                          parse_release_evidence_timestamp text in
      match generated_at with
      | None => Ok ([failure ": scaffold manifest must include an RFC3339 generated_at timestamp"], false)
      | Some generated_at =>
          let stale := if (duration_minutes (60 * 24 * max_age_days) <? now - generated_at)%Z
                       then [failure (": scaffold manifest is older than " +:+ i64_to_string max_age_days
                                      +:+ " days and must be regenerated")] else [] in
          let future := if (duration_seconds RELEASE_EVIDENCE_CLOCK_SKEW_SECONDS <? generated_at - now)%Z
                        then [failure ": scaffold manifest timestamp is too far in the future"] else [] in
          let? expected := ok_or (manifest_json (release_evidence_manifest generated_at)) Evidence_Json in
          let changed := if value_eqb manifest expected then []
                         else [failure ": scaffold manifest must match the current release-evidence artifact contract; rerun cairnid evidence init <evidence-dir> --force"] in
          Ok (stale ++ future ++ changed, true)
      end
  | None => Ok ([failure ": scaffold manifest must be valid release-evidence JSON"], true)
  end.
(* crates/operations/src/operations_evidence/scaffold/validation.rs:87-90 validate_release_evidence_scaffold *)
Definition readme_guides (contents : string) : bool :=
  str_contains "Do not commit the evidence artifacts" contents
  && str_contains "cairnid evidence check" contents
  && str_contains "Do not add screenshots, raw provider exports" contents.
Definition crlf : string := String (Ascii.ascii_of_N 13) newline.
(* crates/operations/src/operations_evidence/scaffold/validation.rs:15-116 validate_release_evidence_scaffold *)
Definition validate_release_evidence_scaffold (fs : FileSystem) (evidence_dir : string)
    (now : OffsetDateTime) (max_age_days : Z) : result ReleaseEvidenceError Noted :=
  let read (file_name what : string) :=
    read_scaffold_file fs (path_join evidence_dir file_name) file_name
      (file_name +:+ ": scaffold " +:+ what +:+ " is missing; run cairnid evidence init <evidence-dir>") in
  let? manifest := read RELEASE_EVIDENCE_MANIFEST_FILE "manifest" in
  let? checked := match manifest.1 with
                  | Some contents => check_manifest contents now max_age_days
                  | None => Ok ([], true)
                  end in
  let found := manifest.2 ++ checked.1 in
  if negb checked.2 then Ok found
  else
    let? readme := read RELEASE_EVIDENCE_README_FILE "README" in
    let found := found ++ readme.2
      ++ (if match readme.1 with Some contents => negb (readme_guides contents) | None => false end
          then [(RELEASE_EVIDENCE_README_FILE +:+ ": scaffold README is missing required release workflow guidance",
                 StaleOrInvalidScaffold)] else []) in
    let? gitignore := read RELEASE_EVIDENCE_GITIGNORE_FILE "gitignore" in
    Ok (found ++ gitignore.2
      ++ (if match gitignore.1 with
             | Some contents => negb (String.eqb (str_replace crlf newline contents) RELEASE_EVIDENCE_GITIGNORE)
             | None => false
             end
          then [(RELEASE_EVIDENCE_GITIGNORE_FILE
                   +:+ ": scaffold gitignore must match the guarded release-evidence template",
                 StaleOrInvalidScaffold)] else [])).

(* crates/operations/src/operations_evidence/scaffold/validation.rs:197-207 allowed_release_evidence_files *)
Definition allowed_release_evidence_files (specs : list EvidenceSpec) : list string :=
  (spec_file_name <$> specs)
  ++ [RELEASE_EVIDENCE_MANIFEST_FILE; RELEASE_EVIDENCE_README_FILE; RELEASE_EVIDENCE_GITIGNORE_FILE].
(* crates/operations/src/operations_evidence/scaffold/validation.rs:127-161 validate_release_evidence_file_inventory *)
Definition inventory_entry (allowed_files : list string) (entry : string * FileType) : Noted :=
  let '(file_name, file_type) := entry in
  let failure (text : string) := (text, ArtifactPathFailure) in
  if negb (utf8_valid file_name)
  then [failure "release evidence directory contains a non-UTF-8 entry name; remove it before release"]
  else
    (if contains allowed_files file_name then []
     else [failure ("unexpected release evidence entry: " +:+ file_name
             +:+ "; remove files that are not generated scaffold files or required artifacts")])
    ++ match file_type with
       | Symlink => [failure ("release evidence entry must be a regular file, got symlink: " +:+ file_name)]
       | Directory_ => [failure ("release evidence entry must be a regular file, got directory: " +:+ file_name)]
       | OtherFile => [failure ("release evidence entry must be a regular file: " +:+ file_name)]
       | RegularFile => []
       end.
(* crates/operations/src/operations_evidence/scaffold/validation.rs:118-165 validate_release_evidence_file_inventory *)
Definition validate_release_evidence_file_inventory (fs : FileSystem) (evidence_dir : string)
    (specs : list EvidenceSpec) : result ReleaseEvidenceError Noted :=
  let? entries := map_err io_error (fs_read_dir fs evidence_dir) in
  Ok (concat (inventory_entry (allowed_release_evidence_files specs) <$> entries)).

(** ** Laying a directory out *)

(* crates/operations/src/operations_evidence/scaffold/init.rs:76-91 ensure_scaffold_file_can_be_written *)
Definition ensure_scaffold_file_can_be_written (fs : FileSystem) (path : string) (force : bool)
    : result ReleaseEvidenceError unit :=
  let? kind := map_err io_error (release_evidence_path_kind fs path) in
  match kind, force with
  | None, _ => Ok tt
  | Some RegularFile, true => Ok tt
  | Some RegularFile, false => Err (ExistingScaffoldFile path)
  | Some type, true => Err (scaffold_io_error type path)
  | Some _, false => Err (ExistingScaffoldFile path)
  end.
(** The files are written one by one; what is written stays when a later one
    fails, so the disk is part of the outcome. *)
(* crates/operations/src/operations_evidence/scaffold/init.rs:41-47 init_release_evidence_directory *)
Fixpoint write_scaffold_files (fs : FileSystem) (evidence_dir : string) (force : bool) (clock : Z)
    (files : list (string * string)) : result ReleaseEvidenceError unit * FileSystem :=
  match files with
  | [] => (Ok tt, fs)
  | (file_name, contents) :: files =>
      let path := path_join evidence_dir file_name in
      match ensure_scaffold_file_can_be_written fs path force with
      | Err error => (Err error, fs)
      | Ok _ =>
          match fs_write fs path contents clock with
          | Err kind => (Err (io_error kind), fs)
          | Ok fs => write_scaffold_files fs evidence_dir force clock files
          end
      end
  end.
(* crates/operations/src/operations_evidence/scaffold/init.rs:28-39 init_release_evidence_directory *)
Definition scaffold_contents (generated_at : OffsetDateTime) : option (list (string * string)) :=
  let manifest := release_evidence_manifest generated_at in
  manifest_text ← manifest_to_string_pretty manifest;
  Some [(RELEASE_EVIDENCE_MANIFEST_FILE, manifest_text);
        (RELEASE_EVIDENCE_README_FILE, release_evidence_readme manifest);
        (RELEASE_EVIDENCE_GITIGNORE_FILE, RELEASE_EVIDENCE_GITIGNORE)].
Definition count {A} (p : A -> bool) (l : list A) : nat := length (filter (fun a => p a = true) l).
(* crates/operations/src/operations_evidence/scaffold/init.rs:11-74 init_release_evidence_directory *)
Definition init_release_evidence_directory (fs : FileSystem) (evidence_dir : string)
    (generated_at : OffsetDateTime) (force : bool) (clock : Z)
    : result ReleaseEvidenceError ReleaseEvidenceInitReport * FileSystem :=
  let '(made, fs) := create_dir_all fs evidence_dir in
  match made with
  | Err kind => (Err (io_error kind), fs)
  | Ok _ =>
      let ensured := collect_results (fun file_name =>
        ensure_scaffold_file_can_be_written fs (path_join evidence_dir file_name) force)
        [RELEASE_EVIDENCE_MANIFEST_FILE; RELEASE_EVIDENCE_README_FILE; RELEASE_EVIDENCE_GITIGNORE_FILE] in
      match ensured, scaffold_contents generated_at with
      | Err error, _ => (Err error, fs)
      | Ok _, None => (Err Evidence_Json, fs)
      | Ok _, Some files =>
          let manifest := release_evidence_manifest generated_at in
          let '(written, fs) := write_scaffold_files fs evidence_dir force clock files in
          (let? _ := written in
           Ok (mk_InitReport (manifest_schema_version manifest) "initialized" evidence_dir generated_at force
                 (manifest_artifact_count manifest)
                 (count manifest_contains_secrets (manifest_artifacts manifest))
                 (count manifest_writes_application_state (manifest_artifacts manifest))
                 (count manifest_touches_external_provider (manifest_artifacts manifest))
                 (fst <$> files) ("cairnid evidence check " +:+ evidence_dir)), fs)
      end
  end.

(** ** Checking a directory *)

Variable json_error : string -> string.
Variable validate_artifact : EvidenceValidator -> Value -> Validation unit.

(** The files of a directory, as the check of one artifact reads them. *)
Definition evidence_files (fs : FileSystem) (evidence_dir : string) : EvidenceFiles :=
  mk_EvidenceFiles
    (fun file_name => match fs_symlink_metadata fs (path_join evidence_dir file_name) with
                      | Ok found => Ok (Some found)
                      | Err Io_NotFound => Ok None
                      | Err kind => Err (io_text kind)
                      end)
    (fun file_name => map_err io_text (fs_read_to_string fs (path_join evidence_dir file_name))).
(* crates/operations/src/operations_evidence.rs:73-82 check_release_evidence *)
Definition check_artifacts (fs : FileSystem) (evidence_dir : string) (now : OffsetDateTime) (max_age_days : Z)
    (specs : list EvidenceSpec) : result ReleaseEvidenceError (list ReleaseEvidenceArtifactReport) :=
  collect_results (fun spec => map_err Evidence_Io
    (check_artifact json_error validate_artifact (evidence_files fs evidence_dir) spec now max_age_days)) specs.
(* crates/operations/src/operations_evidence.rs:83-85 check_release_evidence *)
Definition named_failures (artifact : ReleaseEvidenceArtifactReport) : list string :=
  (fun failure => artifact_name artifact +:+ ": " +:+ failure) <$> artifact_failures artifact.
(* crates/operations/src/operations_evidence.rs:43-108 check_release_evidence *)
Definition check_release_evidence (fs : FileSystem) (evidence_dir : string) (now : OffsetDateTime)
    (max_age_days : Z) : result ReleaseEvidenceError ReleaseEvidenceReport :=
  if negb ((1 <=? max_age_days)%Z && (max_age_days <=? 365)%Z) then Err InvalidMaxAge
  else if negb (is_dir fs evidence_dir) then Err (NotDirectory evidence_dir)
  else
    let? scaffold := validate_release_evidence_scaffold fs evidence_dir now max_age_days in
    let? inventory := validate_release_evidence_file_inventory fs evidence_dir EVIDENCE_SPECS in
    let? artifacts := check_artifacts fs evidence_dir now max_age_days EVIDENCE_SPECS in
    let noted := scaffold ++ inventory in
    let failures := sanitize_release_evidence_failure
                      <$> ((fst <$> noted) ++ concat (named_failures <$> artifacts)) in
    Ok (mk_Report RELEASE_EVIDENCE_SCHEMA_VERSION (match failures with [] => "ready" | _ => "incomplete" end)
          evidence_dir now max_age_days artifacts failures
          ((snd <$> noted) ++ concat (artifact_failure_codes <$> artifacts))).

(** ** The summary *)

Definition has_status (status : string) (artifact : ReleaseEvidenceArtifactReport) : bool :=
  String.eqb (artifact_status artifact) status.
(* crates/operations/src/operations_evidence.rs:139-147 summarize_release_evidence *)
Definition next_action (artifact : ReleaseEvidenceArtifactReport) : ReleaseEvidenceNextAction :=
  mk_NextAction (artifact_name artifact) (artifact_file_name artifact) (artifact_release_gate artifact)
    (artifact_status artifact) (artifact_command artifact) (artifact_failures artifact)
    (artifact_failure_codes artifact).
(* crates/operations/src/operations_evidence.rs:119-176 summarize_release_evidence *)
Definition summarize_release_evidence (report : ReleaseEvidenceReport) : ReleaseEvidenceStatusReport :=
  let artifacts := report_artifacts report in
  mk_StatusReport RELEASE_EVIDENCE_SCHEMA_VERSION (report_status report) (report_evidence_dir report)
    (report_generated_at report) (report_max_age_days report) (length artifacts)
    (count (has_status "passed") artifacts) (count (has_status "missing") artifacts)
    (count (has_status "failed") artifacts)
    (count spec_contains_secrets EVIDENCE_SPECS) (count spec_writes_application_state EVIDENCE_SPECS)
    (count spec_touches_external_provider EVIDENCE_SPECS)
    (next_action <$> filter (fun a => has_status "passed" a = false) artifacts)
    (report_failures report) (report_failure_codes report).
(* crates/operations/src/operations_evidence.rs:110-117 release_evidence_status_report *)
Definition release_evidence_status_report (fs : FileSystem) (evidence_dir : string) (now : OffsetDateTime)
    (max_age_days : Z) : result ReleaseEvidenceError ReleaseEvidenceStatusReport :=
  let? report := check_release_evidence fs evidence_dir now max_age_days in
  Ok (summarize_release_evidence report).
End scaffold.

(** ** Values *)

Lemma value_eqb_eq : forall a b, value_eqb a b = true -> a = b.
Proof.
  fix IH 1. intros [|x|x|x|x|x] [|y|y|y|y|y]; cbn; try done.
  - by intros ->%Bool.eqb_prop.
  - by intros ->%Z.eqb_eq.
  - by intros ->%String.eqb_eq.
  - intros H. f_equal. revert y H. induction x as [|a x IHx]; intros [|b y]; try done.
    intros [Ha Hx]%andb_true_iff. f_equal; [by apply IH|by apply IHx].
  - intros H. f_equal. revert y H. induction x as [|[k a] x IHx]; intros [|[l b] y]; try done.
    intros [[->%String.eqb_eq Ha]%andb_true_iff Hx]%andb_true_iff.
    f_equal; [f_equal; by apply IH|by apply IHx].
Qed.
Lemma value_eqb_refl : forall a, value_eqb a a = true.
Proof.
  fix IH 1. intros [|x|x|x|x|x]; cbn; try done.
  - apply Bool.eqb_reflx.
  - apply Z.eqb_refl.
  - apply String.eqb_refl.
  - induction x as [|a x IHx]; [done|]. by rewrite IH, IHx.
  - induction x as [|[k a] x IHx]; [done|]. by rewrite String.eqb_refl, IH, IHx.
Qed.

Section directory.
Context {RP : Rfc3339Parse} {CAL : Calendar} {SJ : SerdeJson} {TF : TimeFormat} {MT : ManifestText}.
Context (io_text : IoErrorKind -> string).
Notation validate_scaffold := (validate_release_evidence_scaffold io_text).
Notation init := (init_release_evidence_directory io_text).

(** ** What a directory holds *)

(** A regular file that can be read. *)
Definition holds (fs : FileSystem) (place : Place) (name contents : string) : Prop :=
  refused fs place = false /\ refused fs (place ++ [name]) = false /\ utf8_valid contents = true
  /\ exists modified_at, node fs (place ++ [name]) = Some (File_ contents modified_at).
Lemma entry_metadata fs dir place name :
  is_name name = true -> resolve fs true false dir = Ok place -> node fs place = Some Folder ->
  fs_symlink_metadata fs (path_join dir name)
  = if refused fs place then Err Io_Other
    else match node fs (place ++ [name]) with
         | Some n => Ok (node_type n, match n with File_ _ modified_at => modified_at | _ => None end)
         | None => Err Io_NotFound
         end.
Proof.
  intros Hname Hr Hf. unfold fs_symlink_metadata. rewrite (resolve_join fs false false dir name place) by done.
  destruct (refused fs place); [done|]. destruct (node fs (place ++ [name])) eqn:E; [|done].
  cbn. by rewrite E.
Qed.
Lemma entry_contents fs dir place name contents modified_at :
  is_name name = true -> resolve fs true false dir = Ok place -> node fs place = Some Folder ->
  node fs (place ++ [name]) = Some (File_ contents modified_at) ->
  fs_read_to_string fs (path_join dir name)
  = if refused fs place || refused fs (place ++ [name]) then Err Io_Other
    else if utf8_valid contents then Ok contents else Err Io_Other.
Proof.
  intros Hname Hr Hf Hn. unfold fs_read_to_string.
  rewrite (resolve_join fs true false dir name place) by (try done; by rewrite Hn).
  rewrite Hn. destruct (refused fs place); [done|]. cbn. rewrite Hn. by destruct (refused fs (place ++ [name])).
Qed.
Lemma read_scaffold_holds fs dir place name missing text :
  is_name name = true -> resolve fs true false dir = Ok place -> node fs place = Some Folder ->
  holds fs place name text ->
  read_scaffold_file io_text fs (path_join dir name) name missing = Ok (Some text, []).
Proof.
  intros Hname Hr Hf (Hp & Hn & Hu & modified_at & E). unfold read_scaffold_file, release_evidence_path_kind.
  rewrite (entry_metadata fs dir place name), Hp, E by done. cbn.
  by rewrite (entry_contents fs dir place name text modified_at), Hp, Hn, Hu by done.
Qed.
(** A file of the scaffold that is there. *)
Lemma read_scaffold_ok fs dir place name missing contents noted :
  is_name name = true -> resolve fs true false dir = Ok place -> node fs place = Some Folder ->
  read_scaffold_file io_text fs (path_join dir name) name missing = Ok (contents, noted) ->
  (noted = [] <-> is_Some contents) /\ (forall text, contents = Some text <-> holds fs place name text).
Proof.
  intros Hname Hr Hf Hread.
  assert (Hholds : forall text, holds fs place name text -> contents = Some text).
  { intros text Hh. rewrite (read_scaffold_holds fs dir place name missing text) in Hread by done. by injection Hread. }
  assert ((noted = [] <-> is_Some contents) /\ (forall text, contents = Some text -> holds fs place name text))
    as [Hn Hh]; [|split; [done|]; intros text; split; [apply Hh|apply Hholds]].
  clear Hholds. revert Hread. unfold read_scaffold_file, release_evidence_path_kind.
  rewrite (entry_metadata fs dir place name) by done. destruct (refused fs place) eqn:Erp; [done|].
  destruct (node fs (place ++ [name])) as [[|text modified_at|target|]|] eqn:En; cbn;
    try (intros [= <- <-]; split; [by split; [|intros []]|done]).
  rewrite (entry_contents fs dir place name text modified_at), Erp by done. cbn.
  destruct (refused fs (place ++ [name])) eqn:Er; [done|]. destruct (utf8_valid text) eqn:Eu; [|done].
  intros [= <- <-]. split; [by split|]. intros ? [= <-]. split_and!; try done. by eexists.
Qed.
(** A manifest that is the current one, and neither too old nor from the
    future. *)
Definition current_manifest (text : string) (now : OffsetDateTime) (days : Z) : Prop :=
  exists manifest generated_at, serde_json_from_str text = Some manifest
  /\ (value_get manifest "generated_at" ≫= as_str) ≫= parse_release_evidence_timestamp = Some generated_at
  /\ manifest_json (release_evidence_manifest generated_at) = Some manifest /\ fresh now days generated_at.
Lemma check_manifest_spec text now days noted going :
  check_manifest text now days = Ok (noted, going) ->
  (noted = [] <-> current_manifest text now days) /\ (going = false -> noted <> []).
Proof.
  unfold check_manifest, current_manifest.
  destruct (serde_json_from_str text) as [manifest|];
    [|intros [= <- <-]; split; [split; [done|by intros (? & ? & ? & _)]|done]].
  change (text ← value_get manifest "generated_at" ≫= as_str; parse_release_evidence_timestamp text)
    with ((value_get manifest "generated_at" ≫= as_str) ≫= parse_release_evidence_timestamp).
  destruct (_ ≫= parse_release_evidence_timestamp) as [at_|] eqn:Ea; cycle 1.
  { intros [= <- <-]. split; [split; [done|]|done]. intros (? & ? & [= <-] & H & _). by rewrite Ea in H. }
  intros (expected & He%ok_or_Ok & [= <- <-])%result_bind_Ok. split; [|done]. unfold fresh.
  unfold duration_minutes, duration_seconds, RELEASE_EVIDENCE_CLOCK_SKEW_SECONDS.
  destruct (Z.ltb_spec (60 * 24 * days * 60 * 1000000000) (now - at_)) as [H1|H1];
    [split; [done|intros (? & ? & [= <-] & H & _ & H2 & _); rewrite Ea in H; injection H as <-; lia]|].
  match goal with |- context [Z.ltb ?skew (at_ - now)] => change skew with (300 * 1000000000)%Z end.
  destruct (Z.ltb_spec (300 * 1000000000) (at_ - now)) as [H2|H2];
    [split; [done|intros (? & ? & [= <-] & H & _ & _ & H3); rewrite Ea in H; injection H as <-; lia]|].
  cbn [app]. destruct (value_eqb manifest expected) eqn:Ev.
  - split; [intros _|done]. apply value_eqb_eq in Ev as ->. exists expected, at_. split_and!; try done; lia.
  - split; [done|]. intros (? & ? & [= <-] & H & Hm & _). rewrite Ea in H. injection H as <-.
    rewrite He in Hm. injection Hm as ->. by rewrite value_eqb_refl in Ev.
Qed.
Definition scaffold_current (fs : FileSystem) (place : Place) (now : OffsetDateTime) (days : Z) : Prop :=
  (exists text, holds fs place RELEASE_EVIDENCE_MANIFEST_FILE text /\ current_manifest text now days)
  /\ (exists text, holds fs place RELEASE_EVIDENCE_README_FILE text /\ readme_guides text = true)
  /\ (exists text, holds fs place RELEASE_EVIDENCE_GITIGNORE_FILE text
        /\ str_replace crlf newline text = RELEASE_EVIDENCE_GITIGNORE).
Lemma holds_unique fs place name text text' : holds fs place name text -> holds fs place name text' -> text = text'.
Proof. intros (_ & _ & _ & ? & H1) (_ & _ & _ & ? & H2). rewrite H1 in H2. by injection H2. Qed.
(** A part of the scaffold: what was read, and a test of its text. *)
Lemma part_spec fs place name (contents : option string) (noted : Noted) (bad : string -> bool) failure :
  (noted = [] <-> is_Some contents) -> (forall text, contents = Some text <-> holds fs place name text) ->
  noted ++ (if match contents with Some text => bad text | None => false end then [failure] else []) = []
  <-> exists text, holds fs place name text /\ bad text = false.
Proof.
  intros Hn Hh. setoid_rewrite <- Hh. destruct contents as [text|]; [destruct (bad text) eqn:E|].
  - split; [by intros [_ ?]%app_nil|]. intros (? & [= <-] & ?). congruence.
  - rewrite app_nil_r, Hn. split; [intros _; by exists text|by eexists].
  - rewrite app_nil_r, Hn. split; [by intros []|by intros (? & ? & _)].
Qed.
Lemma scaffold_spec fs dir place now days noted :
  resolve fs true false dir = Ok place -> node fs place = Some Folder ->
  validate_scaffold fs dir now days = Ok noted -> (noted = [] <-> scaffold_current fs place now days).
Proof.
  intros Hr Hf. unfold validate_release_evidence_scaffold, scaffold_current.
  intros ([manifest noted1] & Hm & H)%result_bind_Ok.
  apply (read_scaffold_ok fs dir place) in Hm as [Hn1 Hh1]; [|done..].
  apply result_bind_Ok in H as ([noted2 going] & Hc & H). cbn [fst snd] in *.
  assert (Hfirst : (noted1 ++ noted2 = [] <->
      exists text, holds fs place RELEASE_EVIDENCE_MANIFEST_FILE text /\ current_manifest text now days)
    /\ (going = false -> noted1 ++ noted2 <> [])).
  { setoid_rewrite <- Hh1. destruct manifest as [text|].
    - apply check_manifest_spec in Hc as [H1 H2]. rewrite (proj2 Hn1) by by eexists. cbn [app].
      split; [rewrite H1|done]. split; [by eexists|by intros (? & [= <-] & ?)].
    - injection Hc as <- <-. split; [|done]. rewrite app_nil_r, Hn1. split; [by intros []|by intros (? & ? & _)]. }
  destruct Hfirst as [Hfirst Hgoing]. rewrite <- Hfirst. destruct going; cbn [negb] in H; cycle 1.
  { injection H as <-. specialize (Hgoing eq_refl). tauto. }
  apply result_bind_Ok in H as ([readme noted3] & H3 & H).
  apply (read_scaffold_ok fs dir place) in H3 as [Hn3 Hh3]; [|done..].
  apply result_bind_Ok in H as ([gitignore noted4] & H4 & H).
  apply (read_scaffold_ok fs dir place) in H4 as [Hn4 Hh4]; [|done..].
  cbn [fst snd] in *. injection H as <-.
  pose proof (part_spec _ _ _ _ _ (fun text => negb (readme_guides text))
    (RELEASE_EVIDENCE_README_FILE +:+ ": scaffold README is missing required release workflow guidance",
     StaleOrInvalidScaffold) Hn3 Hh3) as P3.
  pose proof (part_spec _ _ _ _ _ (fun text => negb (String.eqb (str_replace crlf newline text) RELEASE_EVIDENCE_GITIGNORE))
    (RELEASE_EVIDENCE_GITIGNORE_FILE +:+ ": scaffold gitignore must match the guarded release-evidence template",
     StaleOrInvalidScaffold) Hn4 Hh4) as P4.
  setoid_rewrite negb_false_iff in P3. setoid_rewrite negb_false_iff in P4. setoid_rewrite String.eqb_eq in P4.
  rewrite <- P3, <- P4, !app_nil. tauto.
Qed.
(** *** The inventory *)

Lemma inventory_entry_nil allowed_files name type :
  inventory_entry allowed_files (name, type) = [] <->
  utf8_valid name = true /\ name ∈ allowed_files /\ type = RegularFile.
Proof.
  unfold inventory_entry. destruct (utf8_valid name); cbn [negb]; [|by split; [|intros [? _]]].
  unfold contains. case_bool_decide; [|by split; [|intros (_ & ? & _)]].
  cbn [app]. destruct type; (split; [|by intros (_ & _ & ?)]); by try intros [=].
Qed.
(** Nothing but what belongs there. *)
Definition only_evidence (fs : FileSystem) (place : Place) (specs : list EvidenceSpec) : Prop :=
  forall name n, node fs (place ++ [name]) = Some n ->
  utf8_valid name = true /\ name ∈ allowed_release_evidence_files specs /\ node_type n = RegularFile.
Lemma inventory_spec fs dir place specs noted :
  fs_wf fs -> resolve fs true false dir = Ok place ->
  validate_release_evidence_file_inventory io_text fs dir specs = Ok noted ->
  (noted = [] <-> only_evidence fs place specs).
Proof.
  intros Hwf Hr. unfold validate_release_evidence_file_inventory.
  intros (entries & He%map_err_Ok & [= <-])%result_bind_Ok.
  apply (read_dir_ok fs dir place) in He as (_ & _ & ->); [|done].
  rewrite concat_nil_Forall, Forall_fmap, Forall_fmap, Forall_forall. unfold only_evidence, entry_type.
  split.
  - intros H name n Hn. specialize (H name). unfold compose in H. rewrite inventory_entry_nil, Hn in H. apply H.
    rewrite (fs_arranged _ Hwf), elem_of_children, <- node_entry, Hn. by eexists.
  - intros H name. rewrite (fs_arranged _ Hwf), elem_of_children, <- node_entry. intros [n Hn]. unfold compose.
    rewrite inventory_entry_nil, Hn. by apply H.
Qed.

Section report.
Context (json_error : string -> string) (validate_artifact : EvidenceValidator -> Value -> Validation unit).
Notation check_release_evidence := (check_release_evidence io_text json_error validate_artifact).
Notation check_artifacts := (check_artifacts io_text json_error validate_artifact).
Notation check_one := (check_artifact json_error validate_artifact).

(** *** Nothing outside the directory *)

(** Two disks that lead to the same directory, with the same in it. *)
Definition same_directory (fs fs' : FileSystem) (dir : string) (place : Place) : Prop :=
  resolve fs true false dir = Ok place /\ resolve fs' true false dir = Ok place
  /\ node fs place = Some Folder /\ node fs' place = Some Folder
  /\ same_entries fs fs' place /\ arrange fs' = arrange fs.
Lemma same_metadata fs fs' dir place name :
  same_directory fs fs' dir place -> is_name name = true ->
  fs_symlink_metadata fs' (path_join dir name) = fs_symlink_metadata fs (path_join dir name).
Proof.
  intros (H1 & H2 & H3 & H4 & (Hr & _ & Hn) & _) Hname.
  rewrite (entry_metadata _ _ _ _ Hname H1 H3), (entry_metadata _ _ _ _ Hname H2 H4).
  by rewrite Hr, !node_entry, Hn.
Qed.
Lemma same_contents fs fs' dir place name found :
  same_directory fs fs' dir place -> is_name name = true ->
  fs_symlink_metadata fs (path_join dir name) = Ok (RegularFile, found) ->
  fs_read_to_string fs' (path_join dir name) = fs_read_to_string fs (path_join dir name).
Proof.
  intros (H1 & H2 & H3 & H4 & (Hr & Hrn & Hn) & _) Hname.
  rewrite (entry_metadata _ _ _ _ Hname H1 H3). destruct (refused fs place) eqn:Erp; [done|].
  destruct (node fs (place ++ [name])) as [[|contents modified_at| |]|] eqn:En; try done. intros _.
  rewrite (entry_contents fs dir place name contents modified_at Hname H1 H3 En).
  rewrite node_entry, <- Hn, <- node_entry in En.
  by rewrite (entry_contents fs' dir place name contents modified_at Hname H2 H4 En), Hr, Hrn, Erp.
Qed.
Lemma same_artifact fs fs' dir place spec now days :
  same_directory fs fs' dir place -> is_name (spec_file_name spec) = true ->
  check_one (evidence_files io_text fs' dir) spec now days
  = check_one (evidence_files io_text fs dir) spec now days.
Proof.
  intros Hsame Hname. unfold check_artifact, read_json_artifact. cbn [symlink_metadata read_to_string evidence_files].
  rewrite (same_metadata fs fs' dir place _ Hsame Hname).
  destruct (fs_symlink_metadata fs _) as [[[] found]|[]] eqn:Em; try done. cbn [mbind result_bind].
  by rewrite (same_contents fs fs' dir place _ found Hsame Hname Em).
Qed.
Lemma same_scaffold_file fs fs' dir place name missing :
  same_directory fs fs' dir place -> is_name name = true ->
  read_scaffold_file io_text fs' (path_join dir name) name missing
  = read_scaffold_file io_text fs (path_join dir name) name missing.
Proof.
  intros Hsame Hname. unfold read_scaffold_file, release_evidence_path_kind.
  rewrite (same_metadata fs fs' dir place _ Hsame Hname).
  destruct (fs_symlink_metadata fs _) as [[[] found]|[]] eqn:Em; try done. cbn [mbind result_bind map_err].
  by rewrite (same_contents fs fs' dir place _ found Hsame Hname Em).
Qed.
(** The artifacts have names. *)
Lemma artifacts_named : Forall (fun spec => is_name (spec_file_name spec) = true) EVIDENCE_SPECS.
Proof. apply (List.Forall_forall _), List.forallb_forall. by vm_compute. Qed.
Lemma same_report fs fs' dir place now days :
  same_directory fs fs' dir place ->
  check_release_evidence fs' dir now days = check_release_evidence fs dir now days.
Proof.
  intros Hsame. pose proof Hsame as (H1 & H2 & H3 & H4 & He & Harrange).
  unfold EvidenceReport.check_release_evidence, is_dir. rewrite H1, H2, H3, H4. destruct (negb _); [done|]. cbn [negb].
  assert (validate_scaffold fs' dir now days = validate_scaffold fs dir now days) as ->.
  { unfold validate_release_evidence_scaffold. by rewrite !(same_scaffold_file fs fs' dir place _ _ Hsame). }
  assert (validate_release_evidence_file_inventory io_text fs' dir EVIDENCE_SPECS
    = validate_release_evidence_file_inventory io_text fs dir EVIDENCE_SPECS) as ->.
  { unfold validate_release_evidence_file_inventory, fs_read_dir. rewrite H1, H2. cbn [mbind result_bind].
    rewrite H3, H4, Harrange, (same_children _ _ _ He). destruct He as (-> & _ & Hn).
    destruct (refused fs place); [done|]. cbn. do 3 f_equal. apply list_fmap_ext. intros _ name _.
    unfold entry_type. by rewrite !node_entry, Hn. }
  assert (check_artifacts fs' dir now days EVIDENCE_SPECS = check_artifacts fs dir now days EVIDENCE_SPECS) as ->.
  { unfold EvidenceReport.check_artifacts. pose proof artifacts_named as Hnames.
    induction Hnames as [|spec specs Hname Hnames IH]; [done|]. cbn [collect_results].
    by rewrite (same_artifact fs fs' dir place spec now days Hsame Hname), IH. }
  done.
Qed.

(** *** The report *)

Context (Hpushes : forall validator value, pushes (validate_artifact validator value)).
Lemma check_release_evidence_parts fs dir now days report :
  check_release_evidence fs dir now days = Ok report ->
  (1 <= days <= 365)%Z /\ is_dir fs dir = true /\ exists scaffold inventory,
    validate_scaffold fs dir now days = Ok scaffold
    /\ validate_release_evidence_file_inventory io_text fs dir EVIDENCE_SPECS = Ok inventory
    /\ check_artifacts fs dir now days EVIDENCE_SPECS = Ok (report_artifacts report)
    /\ report_status report = (match report_failures report with [] => "ready" | _ => "incomplete" end)
    /\ report_failures report = sanitize_release_evidence_failure
         <$> ((fst <$> scaffold ++ inventory) ++ concat (named_failures <$> report_artifacts report))
    /\ report_failure_codes report
       = (snd <$> scaffold ++ inventory) ++ concat (artifact_failure_codes <$> report_artifacts report).
Proof.
  unfold EvidenceReport.check_release_evidence.
  destruct ((1 <=? days)%Z && (days <=? 365)%Z) eqn:Ed; [|done]. destruct (is_dir fs dir); [|done]. cbn [negb].
  intros (scaffold & Hs & H)%result_bind_Ok. apply result_bind_Ok in H as (inventory & Hi & H).
  apply result_bind_Ok in H as (artifacts & Ha & [= <-]).
  split; [by apply andb_true_iff in Ed; lia|]. split; [done|]. by exists scaffold, inventory.
Qed.
Lemma checked_artifacts fs dir now days specs artifacts :
  check_artifacts fs dir now days specs = Ok artifacts ->
  Forall2 (fun spec artifact => check_one (evidence_files io_text fs dir) spec now days = Ok artifact)
    specs artifacts.
Proof.
  unfold EvidenceReport.check_artifacts. intros H%collect_results_Ok. eapply Forall2_impl; [exact H|].
  intros spec artifact. by intros ?%map_err_Ok.
Qed.
(** Each failure of a report has its code. *)
Lemma report_paired fs dir now days report :
  check_release_evidence fs dir now days = Ok report ->
  length (report_failures report) = length (report_failure_codes report).
Proof.
  intros (_ & _ & scaffold & inventory & _ & _ & Ha & _ & -> & ->)%check_release_evidence_parts.
  apply checked_artifacts in Ha. rewrite length_fmap, !length_app, !length_fmap. f_equal.
  induction Ha as [|spec artifact specs artifacts Hc Ha IH]; [done|]. cbn. rewrite !length_app, IH.
  apply artifact_report_spec in Hc as (_ & Hc & _); [|done]. unfold named_failures.
  by rewrite length_fmap, Hc.
Qed.

Lemma fmap_none {A B} (f : A -> B) l : f <$> l = [] <-> l = [].
Proof. by destruct l. Qed.
(** C38. A directory of release evidence is ready exactly when it is complete,
    current and clean: every artifact the release asks for was found there and
    passed; the manifest of the directory is the one of the current contract,
    neither too old nor from the future, its .gitignore is the one of the
    scaffold up to the form of the line ends, and its README has the three
    pieces of guidance the check looks for, whatever else it says; and the
    directory holds nothing else, and nothing but regular files.  A report that
    is not ready lists a failure, and each failure has its code. *)
Theorem ready_directory_is_complete fs dir now days report :
  fs_wf fs -> check_release_evidence fs dir now days = Ok report ->
  exists place, resolve fs true false dir = Ok place
  /\ (report_status report = "ready" <->
        (forall spec, spec ∈ EVIDENCE_SPECS -> exists artifact, artifact ∈ report_artifacts report
           /\ artifact_name artifact = spec_name spec /\ artifact_status artifact = "passed"
           /\ check_one (evidence_files io_text fs dir) spec now days = Ok artifact)
        /\ scaffold_current fs place now days /\ only_evidence fs place EVIDENCE_SPECS)
  /\ (report_status report = "ready" <-> report_failures report = [])
  /\ length (report_failures report) = length (report_failure_codes report).
Proof.
  intros Hwf Hcheck. pose proof (report_paired _ _ _ _ _ Hcheck) as Hpaired.
  apply check_release_evidence_parts in Hcheck
    as (_ & Hdir & scaffold & inventory & Hs & Hi & Ha%checked_artifacts & Hstatus & Hf & _).
  unfold is_dir in Hdir. destruct (resolve fs true false dir) as [place|] eqn:Hr; [|done]. exists place.
  split; [done|]. destruct (node fs place) as [[]|] eqn:Hfolder; try done.
  apply (scaffold_spec _ _ place) in Hs; [|done..]. apply (inventory_spec _ _ place) in Hi; [|done..].
  assert (Hready : report_status report = "ready" <-> report_failures report = [])
    by (rewrite Hstatus; by destruct (report_failures report)).
  assert (Hpassed : concat (named_failures <$> report_artifacts report) = []
    <-> Forall (fun a => artifact_status a = "passed") (report_artifacts report)).
  { rewrite concat_nil_Forall, Forall_fmap, !Forall_lookup. apply forall_proper. intros i. apply forall_proper.
    intros a. split; intros H Hin; specialize (H Hin).
    all: eapply Forall2_lookup_r in Ha as (spec & _ & Hc); [|done].
    all: apply artifact_report_spec in Hc as (Hc & _); [|done].
    all: unfold named_failures, compose in *; rewrite ?fmap_none in *; tauto. }
  split_and!; try done. rewrite Hready, Hf, fmap_none, app_nil, fmap_none, app_nil, Hs, Hi, Hpassed.
  split; [intros [[H1 H2] H3]|intros (H3 & H1 & H2)]; split_and!; try done.
  - intros spec [i Hspec]%list_elem_of_lookup_1. destruct (Forall2_lookup_l _ _ _ _ _ Ha Hspec) as (a & Hin & Hc).
    pose proof (artifact_report_spec _ _ Hpushes _ _ _ _ _ Hc) as (_ & _ & Hname & _).
    exists a. split_and!; try done; [by eapply list_elem_of_lookup_2|].
    rewrite Forall_lookup in H3. by eapply H3.
  - apply Forall_lookup. intros i a Hin. destruct (Forall2_lookup_r _ _ _ _ _ Ha Hin) as (spec & Hspec & Hc).
    destruct (H3 spec) as (a' & _ & _ & Hstatus' & Hc'); [by eapply list_elem_of_lookup_2|].
    rewrite Hc in Hc'. by injection Hc' as ->.
Qed.
End report.

(** *** Laying out *)

(** What a command that writes the scaffold may do to a disk: make new things,
    and with [force] write the files of the scaffold again. *)
Definition rewritten (clock : Z) (force : bool) (names : list string) (fs fs' : FileSystem) : Prop :=
  refused fs' = refused fs /\ working_directory fs' = working_directory fs /\ max_links fs' = max_links fs
  /\ forall at_, is_Some (node fs at_) -> node fs' at_ = node fs at_
     \/ (force = true /\ (exists old modified_at, node fs at_ = Some (File_ old modified_at))
         /\ (exists name, name ∈ names /\ last at_ = Some name)
         /\ exists text, node fs' at_ = Some (File_ text (Some clock))).
Lemma extends_rewritten clock force names fs fs' : extends fs fs' -> rewritten clock force names fs fs'.
Proof. intros (H1 & H2 & Hm & H3). split_and!; [done..|]. intros at_ Hat. left. by apply H3. Qed.
Lemma rewritten_grows clock force names fs fs' : rewritten clock force names fs fs' -> grows fs fs'.
Proof.
  intros (H1 & _ & Hm & H). split_and!; [done|done|..]; intros at_.
  - intros Hn. destruct (H at_) as [->|(_ & (? & ? & E) & _)]; [by rewrite Hn|done|congruence].
  - intros target Hn. destruct (H at_) as [->|(_ & (? & ? & E) & _)]; [by rewrite Hn|done|congruence].
  - intros Hn. destruct (H at_) as [->|(_ & _ & _ & ? & ->)]; done.
Qed.
Lemma rewritten_trans clock force names fs1 fs2 fs3 :
  rewritten clock force names fs1 fs2 -> rewritten clock force names fs2 fs3 -> rewritten clock force names fs1 fs3.
Proof.
  intros (H1 & H2 & Hm & H3) (H4 & H5 & Hm' & H6). split_and!; [congruence..|]. intros at_ Hat.
  destruct (H3 at_ Hat) as [E|(Hf & Hold & Hname & text & E)]; destruct (H6 at_) as [E'|(Hf' & Hold' & Hname' & text' & E')];
    try (rewrite E; done); try (rewrite E; by eexists).
  - left. congruence.
  - right. rewrite E in Hold'. split_and!; eauto.
  - right. split_and!; eauto. exists text. congruence.
  - right. split_and!; eauto.
Qed.
Lemma rewritten_subset clock force names names' fs fs' :
  names ⊆ names' -> rewritten clock force names fs fs' -> rewritten clock force names' fs fs'.
Proof.
  intros Hsub (H1 & H2 & Hm & H). split_and!; [done..|]. intros at_ Hat.
  destruct (H at_ Hat) as [?|(? & ? & (name & ? & ?) & ?)]; [by left|]. right. split_and!; try done. exists name. set_solver.
Qed.
(** A file that was written, after a check that allowed it. *)
Lemma ensured_write fs fs' dir name force text clock :
  is_name name = true -> ensure_scaffold_file_can_be_written io_text fs (path_join dir name) force = Ok tt ->
  fs_write fs (path_join dir name) text clock = Ok fs' ->
  rewritten clock force [name] fs fs'
  /\ exists place, resolve fs' false false (path_join dir name) = Ok place /\ last place = Some name
     /\ node fs' place = Some (File_ text (Some clock)) /\ refused fs' place = false.
Proof.
  intros Hname He (place & Hr & Hp & Hne & Hfolder & Hlink & Hfile & ->)%fs_write_ok.
  unfold ensure_scaffold_file_can_be_written, release_evidence_path_kind, fs_symlink_metadata in He.
  assert (Hnolink : forall at_ target, resolve fs false false (path_join dir name) = Ok at_ ->
    node fs at_ <> Some (Link target)).
  { intros at_ target Hat Hn. rewrite Hat in He. cbn in He. rewrite Hn in He. by destruct force. }
  rewrite (resolve_last fs true _ Hnolink) in Hr.
  destruct (resolve_named fs true dir name place Hname Hr) as [front Hplace].
  assert (Hlast : last place = Some name) by (by rewrite Hplace, last_snoc).
  assert (Hgrows : grows fs (set_node fs place (File_ text (Some clock)))) by by apply set_node_grows.
  assert (Hnode : node (set_node fs place (File_ text (Some clock))) place = Some (File_ text (Some clock))).
  { rewrite node_set_node by done. by rewrite decide_True. }
  assert (Hkept : force = false -> node fs place = None).
  { intros ->. destruct (node fs place) as [n|] eqn:En; [|done]. exfalso.
    assert (resolve fs false false (path_join dir name) = Ok place) as Hr'.
    { eapply (resolve_grows fs fs); [by split_and!|done|exact Hr|by rewrite En|done]. }
    rewrite Hr' in He. cbn in He. rewrite En in He. by destruct n. }
  split.
  - split_and!; [done..|]. intros at_ Hat. rewrite node_set_node by done. case_decide as E; [|by left].
    subst at_. right. destruct force; [|rewrite Hkept in Hat by done; by destruct Hat].
    split_and!; [done|apply Hfile; intros E; rewrite E in Hat; by destruct Hat|exists name; set_solver|by eexists].
  - exists place. split_and!; try done. eapply resolve_grows; [exact Hgrows|done|exact Hr|by rewrite Hnode|].
    intros target. by rewrite Hnode.
Qed.
Definition placed (fs : FileSystem) (dir name text : string) (clock : Z) : Prop :=
  exists place, resolve fs false false (path_join dir name) = Ok place /\ last place = Some name
  /\ node fs place = Some (File_ text (Some clock)) /\ refused fs place = false.
Lemma placed_kept clock force names fs fs' dir name text :
  name ∉ names -> rewritten clock force names fs fs' -> placed fs dir name text clock -> placed fs' dir name text clock.
Proof.
  intros Hname Hw (place & Hr & Hl & Hn & Hp). pose proof Hw as (H1 & H2 & _ & H).
  assert (node fs' place = node fs place) as E.
  { destruct (H place) as [?|(_ & _ & (name' & Hin & Hl') & _)]; [by rewrite Hn|done|].
    rewrite Hl in Hl'. injection Hl' as <-. done. }
  exists place. rewrite E, H1. split_and!; try done.
  eapply resolve_grows; [by eapply rewritten_grows|done|exact Hr|by rewrite E, Hn|by rewrite E, Hn].
Qed.
Lemma write_scaffold_rewritten dir force clock files fs :
  Forall (fun file => is_name file.1 = true) files ->
  rewritten clock force (fst <$> files) fs (write_scaffold_files io_text fs dir force clock files).2.
Proof.
  intros Hnames. revert fs. induction Hnames as [|[name text] files Hname Hnames IH]; intros fs; cbn;
    [by apply extends_rewritten|].
  destruct (ensure_scaffold_file_can_be_written io_text fs _ force) as [[]|] eqn:He; [|by apply extends_rewritten].
  destruct (fs_write fs _ text clock) as [fs1|] eqn:Hw; [|by apply extends_rewritten].
  eapply ensured_write in Hw as [Hw _]; [|done|done].
  eapply rewritten_trans; [eapply rewritten_subset; [|exact Hw]; set_solver|].
  eapply rewritten_subset; [|apply IH]. set_solver.
Qed.
Lemma write_scaffold_placed dir force clock files fs fs' :
  Forall (fun file => is_name file.1 = true) files -> NoDup (fst <$> files) ->
  write_scaffold_files io_text fs dir force clock files = (Ok tt, fs') ->
  Forall (fun file => placed fs' dir file.1 file.2 clock) files.
Proof.
  intros Hnames. revert fs. induction Hnames as [|[name text] files Hname Hnames IH]; intros fs Hd; [constructor|].
  cbn [write_scaffold_files]. destruct (ensure_scaffold_file_can_be_written io_text fs _ force) as [[]|] eqn:He; [|done].
  destruct (fs_write fs _ text clock) as [fs1|] eqn:Hw; [|done].
  eapply ensured_write in Hw as [_ Hp]; [|done|done]. apply NoDup_cons in Hd as [Hnew Hd].
  intros Hrest. constructor; [|by eapply IH].
  pose proof (write_scaffold_rewritten dir force clock files fs1 Hnames) as Hkept. rewrite Hrest in Hkept.
  by eapply placed_kept.
Qed.
Lemma read_scaffold_placed fs dir name text clock missing :
  placed fs dir name text clock -> utf8_valid text = true ->
  read_scaffold_file io_text fs (path_join dir name) name missing = Ok (Some text, []).
Proof.
  intros (place & Hr & _ & Hn & Hp) Hu.
  assert (resolve fs true false (path_join dir name) = Ok place) as Hr'.
  { rewrite resolve_last; [done|]. intros place' target Hat. rewrite Hr in Hat. injection Hat as <-. by rewrite Hn. }
  unfold read_scaffold_file, release_evidence_path_kind, fs_symlink_metadata, fs_read_to_string.
  rewrite Hr, Hr'. cbn. by rewrite Hn, Hp, Hu.
Qed.
(** [serde_json] reads back the manifest it wrote, which is UTF-8. *)
Definition manifest_reads_back : Prop :=
  forall generated_at text, manifest_to_string_pretty (release_evidence_manifest generated_at) = Some text ->
  utf8_valid text = true /\ exists v, manifest_json (release_evidence_manifest generated_at) = Some v
    /\ serde_json_from_str text = Some v.
Definition instants_read_back : Prop :=
  forall at_ text, rfc3339_format at_ = Some text -> rfc3339_parse text = Some at_.
Lemma manifest_current generated_at text now days :
  manifest_reads_back -> instants_read_back ->
  manifest_to_string_pretty (release_evidence_manifest generated_at) = Some text ->
  fresh now days generated_at ->
  utf8_valid text = true /\ exists v, check_manifest text now days = Ok (v, true) /\ v = [].
Proof.
  intros Hback Htime (Hu & v & Hv & Hparse)%Hback [H1 H2]. split; [done|].
  pose proof Hv as Hv'. apply bind_Some in Hv' as (at_text & Hat & [= Hv']).
  assert ((value_get v "generated_at" ≫= as_str) ≫= parse_release_evidence_timestamp = Some generated_at) as Hg.
  { rewrite <- Hv'. change (parse_release_evidence_timestamp at_text = Some generated_at).
    unfold parse_release_evidence_timestamp. by rewrite (Htime _ _ Hat). }
  destruct (check_manifest text now days) as [[noted going]|error] eqn:Hc.
  - pose proof Hc as Hc'. apply check_manifest_spec in Hc as [Hc Hgoing].
    assert (noted = []) as -> by (apply Hc; by exists v, generated_at).
    destruct going; [by eexists|]. by destruct (Hgoing eq_refl).
  - exfalso. unfold check_manifest in Hc. rewrite Hparse in Hc.
    change (text ← value_get v "generated_at" ≫= as_str; parse_release_evidence_timestamp text)
      with ((value_get v "generated_at" ≫= as_str) ≫= parse_release_evidence_timestamp) in Hc.
    by rewrite Hg, Hv in Hc.
Qed.
Lemma gitignore_spec :
  utf8_valid RELEASE_EVIDENCE_GITIGNORE = true
  /\ str_replace crlf newline RELEASE_EVIDENCE_GITIGNORE = RELEASE_EVIDENCE_GITIGNORE.
Proof. split; by vm_compute. Qed.
Lemma readme_spec generated_at :
  utf8_valid (release_evidence_readme (release_evidence_manifest generated_at)) = true
  /\ readme_guides (release_evidence_readme (release_evidence_manifest generated_at)) = true.
Proof. split; by vm_compute. Qed.

(** C39. Laying a directory out is safe and enough.  Whatever becomes of the
    command, everything that was on the disk is as it was, unless [--force] was
    given, and then only files under the three names of the scaffold were
    written again; without it not even those are.  And when the command
    succeeds, the scaffold of the directory passes its check, from the moment
    of its date on for as many days as the check allows. *)
Theorem initialized_directory_is_current fs dir generated_at force clock outcome fs' :
  manifest_reads_back -> instants_read_back ->
  init fs dir generated_at force clock = (outcome, fs') ->
  rewritten clock force
    [RELEASE_EVIDENCE_MANIFEST_FILE; RELEASE_EVIDENCE_README_FILE; RELEASE_EVIDENCE_GITIGNORE_FILE] fs fs'
  /\ (forall report, outcome = Ok report -> forall now days, fresh now days generated_at ->
        validate_scaffold fs' dir now days = Ok []).
Proof.
  intros Hback Htime. unfold init_release_evidence_directory.
  pose proof (create_dir_all_extends fs dir) as Hdir. destruct (create_dir_all fs dir) as [[[]|] fs1]; cbn in Hdir;
    [|intros [= <- <-]; split; [by apply extends_rewritten|done]].
  destruct (collect_results _ _) as [ensured|];
    [|intros [= <- <-]; split; [by apply extends_rewritten|done]].
  destruct (scaffold_contents generated_at) as [files|] eqn:Hfiles;
    [|intros [= <- <-]; split; [by apply extends_rewritten|done]].
  apply bind_Some in Hfiles as (text & Htext & [= <-]).
  match goal with |- context [write_scaffold_files _ _ _ _ _ ?files] =>
    pose proof (write_scaffold_rewritten dir force clock files fs1) as Hkept;
    pose proof (write_scaffold_placed dir force clock files fs1) as Hplaced;
    destruct (write_scaffold_files io_text fs1 dir force clock files) as [written fs2] end.
  intros [= <- <-]. split.
  - eapply rewritten_trans; [by apply extends_rewritten|]. apply Hkept. by repeat constructor.
  - intros report H. destruct written as [[]|]; [clear H|done]. intros now days Hfresh.
    specialize (Hplaced fs2). rewrite !Forall_cons in Hplaced.
    destruct Hplaced as (Hm & Hr & Hg & _); [by repeat constructor|by apply (bool_decide_unpack _); vm_compute|done|].
    destruct (manifest_current _ _ _ _ Hback Htime Htext Hfresh) as (Hu & ? & Hc & ->).
    unfold validate_release_evidence_scaffold.
    rewrite (read_scaffold_placed _ _ _ _ _ _ Hm Hu). cbn [mbind result_bind fst snd].
    rewrite Hc. cbn [mbind result_bind fst snd negb app].
    rewrite (read_scaffold_placed _ _ _ _ _ _ Hr) by apply readme_spec. cbn [mbind result_bind fst snd].
    rewrite (read_scaffold_placed _ _ _ _ _ _ Hg) by apply gitignore_spec. cbn [mbind result_bind fst snd].
    rewrite (proj2 (readme_spec generated_at)), (proj2 gitignore_spec), String.eqb_refl. done.
Qed.
End directory.
