(* ===== verification/EvidencePlan.v ===== *)
(** * The plan for capturing the release evidence

    [crates/operations/src/operations_evidence/plan.rs] and plan/: which
    artifacts can be captured with the environment there is, what is missing,
    and what an operator must know.  The theorem says that the plan tells
    exactly what is missing. *)

From S2P Require Import Prelude RustStr Domain RequestContext EvidenceRedaction Evidence EvidenceRegistry.
From S2P Require Import EvidenceReport.

(* crates/operations/src/operations_evidence/types.rs:161-165 ReleaseEvidenceEnvironmentRequirement *)
Record ReleaseEvidenceEnvironmentRequirement := env_req {
  requirement_alternatives : list (list string);
  requirement_purpose : string;
  requirement_contains_secret : bool;
}.
(* crates/operations/src/operations_evidence/types.rs:134-139 ReleaseEvidencePlanPendingArtifact *)
Record ReleaseEvidencePlanPendingArtifact := mk_PendingArtifact {
  pending_name : string;
  pending_file_name : string;
  pending_release_gate : string;
  pending_status : string;
}.
(* crates/operations/src/operations_evidence/types.rs:142-158 ReleaseEvidencePlanStep *)
Record ReleaseEvidencePlanStep := mk_PlanStep {
  step_name : string;
  step_file_name : string;
  step_release_gate : string;
  step_command : string;
  step_validator : string;
  step_status : string;
  step_pending_manual_evidence : bool;
  step_pending_external_evidence : bool;
  step_contains_secrets : bool;
  step_requires_production_like_environment : bool;
  step_writes_application_state : bool;
  step_touches_external_provider : bool;
  step_required_environment : list ReleaseEvidenceEnvironmentRequirement;
  step_missing_environment : list string;
  step_operator_notes : list string;
}.
(* crates/operations/src/operations_evidence/types.rs:109-131 ReleaseEvidencePlanReport *)
Record ReleaseEvidencePlanReport := mk_PlanReport {
  plan_schema_version : string;
  plan_status : string;
  plan_generated_at : OffsetDateTime;
  plan_local_capture_ready : bool;
  plan_manual_evidence_pending : bool;
  plan_external_evidence_pending : bool;
  plan_artifact_count : nat;
  plan_ready_artifact_count : nat;
  plan_manual_artifact_count : nat;
  plan_manual_pending_count : nat;
  plan_missing_environment_artifact_count : nat;
  plan_secret_artifact_count : nat;
  plan_state_changing_artifact_count : nat;
  plan_external_provider_artifact_count : nat;
  plan_external_pending_count : nat;
  plan_pending_manual_evidence : list ReleaseEvidencePlanPendingArtifact;
  plan_pending_external_evidence : list ReleaseEvidencePlanPendingArtifact;
  plan_steps : list ReleaseEvidencePlanStep;
  plan_missing_environment : list string;
  plan_notes : list string;
}.

(** ** What an artifact needs *)

(* crates/operations/src/operations_evidence/plan/requirements/catalog.rs:6-6 DRILL_DATABASE_PURPOSE *)
Definition DRILL_DATABASE_PURPOSE : string := "production-like or restored Postgres drill database for release evidence; local rehearsal receipts are not release-ready evidence".
(* crates/operations/src/operations_evidence/plan/requirements/catalog.rs:7-7 RESTORED_DRILL_DATABASE_PURPOSE *)
Definition RESTORED_DRILL_DATABASE_PURPOSE : string := "restored production-like Postgres database for release evidence; local rehearsal receipts are not release-ready evidence".
(* crates/operations/src/operations_evidence/plan/requirements/catalog.rs:8-8 STATE_CHANGING_DRILL_DATABASE_PURPOSE *)
Definition STATE_CHANGING_DRILL_DATABASE_PURPOSE : string := "production-like or restored Postgres drill database prepared for state-changing release evidence; local rehearsal receipts are not release-ready evidence".
(* crates/operations/src/operations_evidence/plan/requirements/catalog.rs:10-266 evidence_environment_requirements *)
Definition evidence_environment_requirements (validator : EvidenceValidator)
    : list ReleaseEvidenceEnvironmentRequirement :=
  match validator with
  | DependencyPolicyCheck =>
      []
  | ReleaseAssetsVerification =>
      []
  | OperationsPreflight =>
      [env_req [["CAIRN_ENV"]] "production-mode preflight" false;
       env_req [["DATABASE_URL"]] "database connectivity" true;
       env_req [["CAIRN_ISSUER"]] "public HTTPS issuer" false;
       env_req [["CAIRN_PUBLIC_WEB_ORIGIN"]] "public web origin" false;
       env_req [["CAIRN_KEY_ENCRYPTION_KEY"]; ["CAIRN_SIGNING_KEY_ID"; "CAIRN_SIGNING_PRIVATE_KEY_PEM"; "CAIRN_SIGNING_PUBLIC_JWK"]] "OIDC signing source" true;
       env_req [["CAIRN_EMAIL_PROVIDER"]] "production email provider mode" false;
       env_req [["CAIRN_EMAIL_COMMAND_PATH"]] "production email provider command path" false]
  | OpenIdStaticRegistration =>
      [env_req [["CAIRN_ISSUER"]] "public HTTPS issuer" false;
       env_req [["CAIRN_CONFORMANCE_ALIAS"]] "OpenID conformance suite alias" false;
       env_req [["CAIRN_CONFORMANCE_SUITE_BASE_URL"]] "OpenID conformance suite base URL" false;
       env_req [["CAIRN_CONFORMANCE_CLIENT_ID"]] "primary static client ID" false;
       env_req [["CAIRN_CONFORMANCE_CLIENT2_ID"]] "secondary static client ID" false]
  | OpenIdStaticConfig =>
      [env_req [["CAIRN_ISSUER"]] "public HTTPS issuer" false;
       env_req [["CAIRN_CONFORMANCE_ALIAS"]] "OpenID conformance suite alias" false;
       env_req [["CAIRN_CONFORMANCE_CLIENT_ID"]] "primary static client ID" false;
       env_req [["CAIRN_CONFORMANCE_CLIENT_SECRET"]] "primary static client secret" true;
       env_req [["CAIRN_CONFORMANCE_CLIENT2_ID"]] "secondary static client ID" false;
       env_req [["CAIRN_CONFORMANCE_CLIENT2_SECRET"]] "secondary static client secret" true]
  | OidcMetadataSmoke =>
      [env_req [["CAIRN_OIDC_METADATA_SMOKE_ISSUER"]; ["CAIRN_ISSUER"]] "deployed HTTPS issuer for metadata/JWKS smoke" false]
  | OpenIdConfigOpConformance | OpenIdBasicOpConformance =>
      []
  | ScimGenericConnectorProfile | ScimOktaConnectorProfile | ScimEntraConnectorProfile =>
      [env_req [["CAIRN_ISSUER"]] "public HTTPS issuer for connector profile URLs" false]
  | ScimSmoke =>
      [env_req [["CAIRN_SCIM_SMOKE_BASE_URL"]; ["CAIRN_ISSUER"]] "deployed SCIM base URL" false;
       env_req [["CAIRN_SCIM_BEARER_TOKEN"]] "primary raw SCIM smoke token" true;
       env_req [["CAIRN_SCIM_SECONDARY_BEARER_TOKEN"]] "secondary raw SCIM token for rotation-window release evidence" true;
       env_req [["CAIRN_SCIM_REJECTED_BEARER_TOKEN"]] "retired or invalid raw SCIM token for rejection release evidence" true]
  | ScimOktaConnectorSmoke | ScimEntraConnectorSmoke =>
      []
  | BrowserOriginSmoke =>
      [env_req [["CAIRN_BROWSER_ORIGIN_SMOKE_BASE_URL"]; ["CAIRN_ISSUER"]] "deployed API base URL for browser-origin rejection smoke" false]
  | SecurityHeadersSmoke =>
      [env_req [["CAIRN_SECURITY_HEADERS_API_BASE_URL"]; ["CAIRN_ISSUER"]] "deployed API base URL for security-header smoke" false;
       env_req [["CAIRN_SECURITY_HEADERS_WEB_BASE_URL"]; ["CAIRN_PUBLIC_WEB_ORIGIN"]] "deployed web base URL for security-header smoke" false]
  | EmailProviderSmoke =>
      [env_req [["CAIRN_EMAIL_PROVIDER"]] "production email provider mode" false;
       env_req [["CAIRN_EMAIL_COMMAND_PATH"]] "production email provider command path" false]
  | LifecycleEmailSmoke =>
      [env_req [["DATABASE_URL"]] "database connectivity" true;
       env_req [["CAIRN_EMAIL_PROVIDER"]] "production email provider mode" false;
       env_req [["CAIRN_EMAIL_COMMAND_PATH"]] "production email provider command path" false;
       env_req [["CAIRN_KEY_ENCRYPTION_KEY"]] "encrypted lifecycle action-link rendering" true]
  | RestoreDrill =>
      [env_req [["DATABASE_URL"]] RESTORED_DRILL_DATABASE_PURPOSE true;
       env_req [["CAIRN_KEY_ENCRYPTION_KEY"]; ["CAIRN_SIGNING_KEY_ID"; "CAIRN_SIGNING_PRIVATE_KEY_PEM"; "CAIRN_SIGNING_PUBLIC_JWK"]] "post-restore OIDC signing source" true]
  | BreakGlassAdminRecovery_ =>
      [env_req [["DATABASE_URL"]] STATE_CHANGING_DRILL_DATABASE_PURPOSE true;
       env_req [["CAIRN_BREAK_GLASS_CONFIRM"]] "explicit break-glass acknowledgement" false]
  | SigningKeyRotation =>
      [env_req [["DATABASE_URL"]] STATE_CHANGING_DRILL_DATABASE_PURPOSE true;
       env_req [["CAIRN_KEY_ENCRYPTION_KEY"]] "database-backed signing-key encryption" true]
  | KeyEncryptionRotation_ =>
      [env_req [["DATABASE_URL"]] STATE_CHANGING_DRILL_DATABASE_PURPOSE true;
       env_req [["CAIRN_OLD_KEY_ENCRYPTION_KEY"]] "old database key-encryption key" true;
       env_req [["CAIRN_NEW_KEY_ENCRYPTION_KEY"]] "new database key-encryption key" true]
  | AuditExportArchive | AuditRetentionPurge =>
      [env_req [["DATABASE_URL"]] (match validator with
                                  | AuditRetentionPurge => STATE_CHANGING_DRILL_DATABASE_PURPOSE
                                  | _ => DRILL_DATABASE_PURPOSE
                                  end) true]
  end.
(* crates/operations/src/operations_evidence/plan/requirements/helpers.rs:30-42 environment_requirement_satisfied *)
Definition environment_requirement_satisfied (requirement : ReleaseEvidenceEnvironmentRequirement)
    (environment_present : string -> bool) : bool :=
  existsb (forallb environment_present) (requirement_alternatives requirement).
(* crates/operations/src/operations_evidence/plan/requirements/helpers.rs:44-57 missing_environment_message *)
Definition missing_environment_message (artifact_name : string)
    (requirement : ReleaseEvidenceEnvironmentRequirement) : string :=
  artifact_name +:+ ": set " +:+ join " OR " (join " + " <$> requirement_alternatives requirement)
  +:+ " for " +:+ requirement_purpose requirement.
(* crates/operations/src/operations_evidence/plan/requirements/helpers.rs:3-16 missing_environment_for_requirements *)
Definition missing_environment_for_requirements (artifact_name : string)
    (requirements : list ReleaseEvidenceEnvironmentRequirement) (environment_present : string -> bool)
    : list string :=
  missing_environment_message artifact_name
    <$> filter (fun r => environment_requirement_satisfied r environment_present = false) requirements.

(** ** What an operator must know *)

(* crates/operations/src/operations_evidence/plan/notes.rs:3-12 evidence_capture_is_manual *)
Definition evidence_capture_is_manual (validator : EvidenceValidator) : bool :=
  match validator with
  | OpenIdConfigOpConformance | OpenIdBasicOpConformance | ReleaseAssetsVerification
  | ScimOktaConnectorSmoke | ScimEntraConnectorSmoke => true
  | _ => false
  end.
(* crates/operations/src/operations_evidence/plan/notes.rs:14-58 evidence_operator_notes *)
Definition evidence_operator_notes (spec : EvidenceSpec) : list string :=
  (match spec_validator spec with
     | DependencyPolicyCheck =>
         ["Run from the repository root after installing the pinned dependency-security tools.";
          "The generated receipt records tool versions, exit codes, and byte counts only; do not archive full audit stdout or stderr in release evidence."]
     | OpenIdConfigOpConformance | OpenIdBasicOpConformance =>
         ["Export this artifact from the OpenID Foundation conformance suite after running the generated static-client plan.";
          "Use `cairn-api conformance oidcc-result-template <config-op|basic-op>` to generate the token-free normalized published-result shape when archiving an official result URL instead of a full suite export.";
          "Do not include static-client secrets, cookies, request headers, passwords, screenshots, or browser session data in normalized OpenID result summaries."]
     | ReleaseAssetsVerification =>
         ["Verify the published GitHub Release assets, checksum file, release manifest, CycloneDX SBOMs, and GitHub provenance plus SBOM attestations before saving this token-free receipt.";
          "Do not archive gh debug logs, request headers, cookies, tokens, or raw attestation payloads in this JSON artifact."]
     | ScimOktaConnectorSmoke | ScimEntraConnectorSmoke =>
         ["Record a normalized connector smoke summary after the external provisioning client completes the required provider-emitted SCIM create, update, deactivation, deletion, and token-rotation checks.";
          "Keep SCIM Bulk proof in the built-in scim-smoke.json evidence; Okta and Microsoft Entra connector summaries do not require provider-emitted Bulk.";
          "Use `cairn-api scim connector-smoke-template <okta|entra>` to generate the token-free JSON shape, then replace every placeholder with verified external connector evidence.";
          "Do not include raw connector bearer tokens, provider credentials, end-user secrets, or provider console screenshots in this JSON artifact."]
     | _ => []
     end)
  ++ (match spec_validator spec with
      | ScimSmoke => ["First-public-RC SCIM evidence requires primary, secondary, and rejected token checks even though the smoke command can run without optional rotation variables."]
      | _ => []
      end)
  ++ (match spec_validator spec with
      | EmailProviderSmoke => ["The smoke-provider command also requires a controlled recipient email argument; the plan does not record mailbox addresses."]
      | _ => []
      end)
  ++ (if spec_writes_application_state spec
      then ["Run this command only against a production-like tenant prepared for state-changing release smoke."] else [])
  ++ (if spec_contains_secrets spec
      then ["The artifact or command inputs can contain secrets; keep the evidence directory access-controlled and uncommitted."] else []).

(** ** The plan *)

Definition quote : string := String double_quote "".
(* crates/operations/src/operations_evidence/plan.rs:24-59 release_evidence_capture_plan_from_specs *)
Definition plan_step (environment_present : string -> bool) (spec : EvidenceSpec) : ReleaseEvidencePlanStep :=
  let required_environment := evidence_environment_requirements (spec_validator spec) in
  let missing_environment :=
    missing_environment_for_requirements (spec_name spec) required_environment environment_present in
  let manual := evidence_capture_is_manual (spec_validator spec) in
  let status := match missing_environment with
                | [] => if manual then "manual_external" else "ready"
                | _ => "missing_environment"
                end in
  mk_PlanStep (spec_name spec) (spec_file_name spec) (spec_release_gate spec) (spec_command spec)
    (evidence_validator_name (spec_validator spec)) status manual (spec_touches_external_provider spec)
    (spec_contains_secrets spec) (spec_requires_production_like_environment spec)
    (spec_writes_application_state spec) (spec_touches_external_provider spec) required_environment
    missing_environment (evidence_operator_notes spec).
(* crates/operations/src/operations_evidence/plan.rs:134-143 pending_artifact_from_step *)
Definition pending_artifact_from_step (step : ReleaseEvidencePlanStep) : ReleaseEvidencePlanPendingArtifact :=
  mk_PendingArtifact (step_name step) (step_file_name step) (step_release_gate step) (step_status step).
Definition status_is (status : string) (step : ReleaseEvidencePlanStep) : bool :=
  String.eqb (step_status step) status.
(* crates/operations/src/operations_evidence/plan.rs:14-132 release_evidence_capture_plan_from_specs *)
Definition release_evidence_capture_plan_from_specs (specs : list EvidenceSpec) (generated_at : OffsetDateTime)
    (environment_present : string -> bool) : ReleaseEvidencePlanReport :=
  let steps := plan_step environment_present <$> specs in
  let missing_environment :=
    order_by String.leb (remove_dups (concat (step_missing_environment <$> steps))) in
  let pending_manual_evidence :=
    pending_artifact_from_step <$> filter (fun s => step_pending_manual_evidence s = true) steps in
  let pending_external_evidence :=
    pending_artifact_from_step <$> filter (fun s => step_pending_external_evidence s = true) steps in
  let local_capture_ready := match missing_environment with [] => true | _ => false end in
  let manual_pending_count := length pending_manual_evidence in
  let external_pending_count := length pending_external_evidence in
  mk_PlanReport RELEASE_EVIDENCE_SCHEMA_VERSION
    (if local_capture_ready then "ready" else "missing_environment") generated_at local_capture_ready
    (0 <? manual_pending_count)%nat (0 <? external_pending_count)%nat (length steps)
    (count (status_is "ready") steps) (count (status_is "manual_external") steps) manual_pending_count
    (count (status_is "missing_environment") steps) (count spec_contains_secrets specs)
    (count spec_writes_application_state specs) (count spec_touches_external_provider specs)
    external_pending_count pending_manual_evidence pending_external_evidence steps missing_environment
    ["This plan only reports whether required command inputs are present; it never prints environment values.";
     "Run first-public-RC evidence with CAIRN_ENV=production and production-like HTTPS origins where the artifact requires them.";
     "status=" +:+ quote +:+ "ready" +:+ quote +:+ " means local/generated capture prerequisites are present; it does not mean manual or provider-backed evidence has been captured.";
     "Review pending_manual_evidence and pending_external_evidence before collecting artifacts, then run cairnid evidence check."].
(* crates/operations/src/operations_evidence.rs:186-198 release_evidence_capture_plan *)
Definition release_evidence_capture_plan (generated_at : OffsetDateTime) (environment_present : string -> bool)
    : ReleaseEvidencePlanReport :=
  release_evidence_capture_plan_from_specs EVIDENCE_SPECS generated_at environment_present.

(** ** The plan tells what is missing *)

(** A requirement is met when all the variables of one alternative are set. *)
Definition met (environment_present : string -> bool) (r : ReleaseEvidenceEnvironmentRequirement) : Prop :=
  exists alternative, alternative ∈ requirement_alternatives r
  /\ forall name, name ∈ alternative -> environment_present name = true.
Lemma satisfied_met r environment_present :
  environment_requirement_satisfied r environment_present = true <-> met environment_present r.
Proof.
  unfold environment_requirement_satisfied, met. rewrite existsb_exists. setoid_rewrite forallb_forall.
  by setoid_rewrite <- list_elem_of_In.
Qed.
Definition missed (specs : list EvidenceSpec) (environment_present : string -> bool) (message : string) : Prop :=
  exists spec r, spec ∈ specs /\ r ∈ evidence_environment_requirements (spec_validator spec)
  /\ ~ met environment_present r /\ message = missing_environment_message (spec_name spec) r.
Lemma missing_spec specs at_ environment_present message :
  message ∈ plan_missing_environment (release_evidence_capture_plan_from_specs specs at_ environment_present)
  <-> missed specs environment_present message.
Proof.
  cbn. rewrite elem_of_order_by, elem_of_remove_dups, list_elem_of_In, in_concat. unfold missed. split.
  - intros (texts & Htexts & Hm). apply list_elem_of_In in Htexts, Hm.
    apply list_elem_of_fmap in Htexts as (step & -> & (spec & -> & Hspec)%list_elem_of_fmap).
    cbn in Hm. apply list_elem_of_fmap in Hm as (r & -> & [Hr Hin]%list_elem_of_filter).
    exists spec, r. split_and!; try done. rewrite <- satisfied_met. by rewrite Hr.
  - intros (spec & r & Hspec & Hr & Hmet & ->). exists (step_missing_environment (plan_step environment_present spec)).
    rewrite <- !list_elem_of_In. split; [by do 2 apply list_elem_of_fmap_2|].
    cbn. apply list_elem_of_fmap_2, list_elem_of_filter. split; [|done].
    rewrite <- satisfied_met in Hmet. by destruct (environment_requirement_satisfied r environment_present).
Qed.
Lemma statuses_partition (steps : list ReleaseEvidencePlanStep) :
  (forall step, step ∈ steps -> step_status step = "ready" \/ step_status step = "manual_external"
     \/ step_status step = "missing_environment") ->
  (count (status_is "ready") steps + count (status_is "manual_external") steps
   + count (status_is "missing_environment") steps = length steps)%nat.
Proof.
  unfold count. induction steps as [|step steps IH]; intros H; [done|]. rewrite !filter_cons.
  assert (Hstep := H step ltac:(left)). specialize (IH (fun s Hs => H s ltac:(by right))).
  unfold status_is in *. destruct Hstep as [-> | [-> | ->]]; repeat case_decide;
    cbn in *; try congruence; lia.
Qed.
(** The plan is ready exactly when the commands of every artifact can be run:
    when each of their requirements has an alternative whose variables are all
    set; otherwise it lists the requirements that are not met, each once and in
    order.  Every artifact is counted once: as ready, to be captured by hand, or
    missing something. *)
Theorem plan_tells_what_is_missing specs at_ environment_present :
  let plan := release_evidence_capture_plan_from_specs specs at_ environment_present in
  (plan_status plan = "ready" <-> forall spec r, spec ∈ specs ->
     r ∈ evidence_environment_requirements (spec_validator spec) -> met environment_present r)
  /\ (forall message, message ∈ plan_missing_environment plan <-> missed specs environment_present message)
  /\ NoDup (plan_missing_environment plan)
  /\ (plan_ready_artifact_count plan + plan_manual_artifact_count plan
      + plan_missing_environment_artifact_count plan = plan_artifact_count plan)%nat
  /\ plan_artifact_count plan = length specs.
Proof.
  intros plan. pose proof (missing_spec specs at_ environment_present) as Hmissing. split_and!.
  - assert (plan_status plan = "ready" <-> plan_missing_environment plan = []) as ->
      by (subst plan; cbn; by destruct (order_by _ _)).
    split.
    + intros Hnone spec r Hspec Hr. apply satisfied_met.
      destruct (environment_requirement_satisfied r environment_present) eqn:E; [done|]. exfalso.
      apply (not_elem_of_nil (missing_environment_message (spec_name spec) r)). rewrite <- Hnone.
      apply Hmissing. exists spec, r. split_and!; try done. rewrite <- satisfied_met. by rewrite E.
    + intros Hmet. destruct (plan_missing_environment plan) as [|message rest] eqn:E; [done|]. exfalso.
      assert (missed specs environment_present message) as (spec & r & Hspec & Hr & Hno & _).
      { apply Hmissing. fold plan. rewrite E. left. }
      by apply Hno, (Hmet spec).
  - done.
  - subst plan. cbn. rewrite order_by_perm. apply NoDup_remove_dups.
  - subst plan. cbn [plan_ready_artifact_count plan_manual_artifact_count plan_artifact_count
      plan_missing_environment_artifact_count release_evidence_capture_plan_from_specs].
    apply statuses_partition. intros step (spec & -> & _)%list_elem_of_fmap. cbn.
    destruct (missing_environment_for_requirements _ _ _); [destruct (evidence_capture_is_manual _)|]; auto.
  - subst plan. cbn. by rewrite length_fmap.
Qed.
