(* ===== verification/Mcp.v ===== *)
(** * The server for tools that inspect the evidence

    [apps/mcp/src/main.rs]: the checks on the arguments of a tool, the
    confinement of the directory it may look into, and the summaries it
    answers with.  The service the tools are served by, their schemas and the
    Windows paths are left out.  The theorems say that a tool only ever sees a
    directory below the root it was started with, whatever it is asked, and
    that its answers are made of fixed words and counts. *)

From S2P Require Import Prelude RustStr Domain Oidc Store RequestContext Listing EvidenceRedaction.
From S2P Require Import EvidenceFields.
From S2P Require Import FileSystem Evidence EvidenceRegistry EvidenceReport EvidencePlan.

(** ** Constants and messages *)

(* apps/mcp/src/main.rs:31-31 DEFAULT_EVIDENCE_CHILD *)
Definition DEFAULT_EVIDENCE_CHILD : string := "release-evidence".
(* apps/mcp/src/main.rs:32-32 MCP_EVIDENCE_RESULT_SCHEMA_VERSION *)
Definition MCP_EVIDENCE_RESULT_SCHEMA_VERSION : string := "cairnid.mcp.evidence.v1".
(* apps/mcp/src/main.rs:33-33 MIN_EVIDENCE_MAX_AGE_DAYS *)
Definition MIN_EVIDENCE_MAX_AGE_DAYS : Z := 1.
(* apps/mcp/src/main.rs:34-34 MAX_EVIDENCE_MAX_AGE_DAYS *)
Definition MAX_EVIDENCE_MAX_AGE_DAYS : Z := 365.
(* apps/mcp/src/main.rs:141-154 EvidenceDirectoryRequest *)
Record EvidenceDirectoryRequest := mk_EvidenceDirectoryRequest {
  request_evidence_dir : option string;
  request_max_age_days : option Z;
}.
(* apps/mcp/src/main.rs:275-280 McpEvidenceRequestError *)
Record McpEvidenceRequestError := mk_RequestError {
  mcp_code : string;
  mcp_failure_code : string;
  mcp_message : string;
}.
(* apps/mcp/src/main.rs:289-293 DRIVE_RELATIVE_OR_ROOT_STYLE_RELATIVE_PATH *)
Definition DRIVE_RELATIVE_OR_ROOT_STYLE_RELATIVE_PATH : McpEvidenceRequestError := mk_RequestError
  "drive_relative_or_root_style_relative_path" "artifact_path_failure"
  "evidence_dir must be a relative path without a drive prefix or root prefix, or an absolute path inside the allowlisted evidence root".
(* apps/mcp/src/main.rs:294-298 EMPTY_EVIDENCE_DIR *)
Definition EMPTY_EVIDENCE_DIR : McpEvidenceRequestError := mk_RequestError
  "empty_evidence_dir" "missing_evidence"
  "evidence_dir must be a non-empty path".
(* apps/mcp/src/main.rs:299-303 EVIDENCE_CONTRACT_FAILED *)
Definition EVIDENCE_CONTRACT_FAILED : McpEvidenceRequestError := mk_RequestError
  "evidence_contract_failed" "stale_or_invalid_scaffold"
  "release evidence failed the required contract".
(* apps/mcp/src/main.rs:304-308 EVIDENCE_READ_FAILED *)
Definition EVIDENCE_READ_FAILED : McpEvidenceRequestError := mk_RequestError
  "evidence_read_failed" "artifact_path_failure"
  "release evidence files could not be read".
(* apps/mcp/src/main.rs:309-313 INVALID_EVIDENCE_JSON *)
Definition INVALID_EVIDENCE_JSON : McpEvidenceRequestError := mk_RequestError
  "invalid_evidence_json" "internal_error"
  "release evidence JSON could not be processed".
(* apps/mcp/src/main.rs:314-318 INVALID_EVIDENCE_DIR *)
Definition INVALID_EVIDENCE_DIR : McpEvidenceRequestError := mk_RequestError
  "invalid_evidence_dir" "artifact_path_failure"
  "evidence_dir must be a string path when provided".
(* apps/mcp/src/main.rs:319-323 INVALID_MAX_AGE_DAYS *)
Definition INVALID_MAX_AGE_DAYS : McpEvidenceRequestError := mk_RequestError
  "invalid_max_age_days" "invalid_request"
  "max_age_days must be an integer from 1 through 365".
(* apps/mcp/src/main.rs:324-328 MISSING_EVIDENCE_DIR *)
Definition MISSING_EVIDENCE_DIR : McpEvidenceRequestError := mk_RequestError
  "missing_evidence_dir" "missing_evidence"
  "evidence_dir must be an existing directory".
(* apps/mcp/src/main.rs:329-333 NON_DIRECTORY_EVIDENCE_DIR *)
Definition NON_DIRECTORY_EVIDENCE_DIR : McpEvidenceRequestError := mk_RequestError
  "non_directory_evidence_dir" "artifact_path_failure"
  "evidence_dir must be a directory".
(* apps/mcp/src/main.rs:334-338 NO_ARGUMENTS_ACCEPTED *)
Definition NO_ARGUMENTS_ACCEPTED : McpEvidenceRequestError := mk_RequestError
  "unknown_argument" "invalid_request"
  "this tool does not accept arguments".
(* apps/mcp/src/main.rs:339-343 OUTSIDE_ALLOWLISTED_ROOT *)
Definition OUTSIDE_ALLOWLISTED_ROOT : McpEvidenceRequestError := mk_RequestError
  "outside_allowlisted_root" "artifact_path_failure"
  "evidence_dir must resolve inside the allowlisted evidence root".
(* apps/mcp/src/main.rs:344-348 PARENT_TRAVERSAL *)
Definition PARENT_TRAVERSAL : McpEvidenceRequestError := mk_RequestError
  "parent_traversal" "artifact_path_failure"
  "evidence_dir must not contain parent traversal".
(* apps/mcp/src/main.rs:349-353 SYMLINK_ENTRY *)
Definition SYMLINK_ENTRY : McpEvidenceRequestError := mk_RequestError
  "symlink_entry" "artifact_path_failure"
  "evidence_dir must not contain symlink entries".
(* apps/mcp/src/main.rs:354-358 SYMLINKED_EVIDENCE_DIR *)
Definition SYMLINKED_EVIDENCE_DIR : McpEvidenceRequestError := mk_RequestError
  "symlinked_evidence_dir" "artifact_path_failure"
  "evidence_dir must not be a symlink".
(* apps/mcp/src/main.rs:359-363 UNKNOWN_ARGUMENT *)
Definition UNKNOWN_ARGUMENT : McpEvidenceRequestError := mk_RequestError
  "unknown_argument" "invalid_request"
  "only evidence_dir and max_age_days are accepted".
(** The errors of a request. *)
Definition request_errors : list McpEvidenceRequestError :=
  [DRIVE_RELATIVE_OR_ROOT_STYLE_RELATIVE_PATH; EMPTY_EVIDENCE_DIR; EVIDENCE_CONTRACT_FAILED;
   EVIDENCE_READ_FAILED; INVALID_EVIDENCE_JSON; INVALID_EVIDENCE_DIR;
   INVALID_MAX_AGE_DAYS; MISSING_EVIDENCE_DIR; NON_DIRECTORY_EVIDENCE_DIR;
   NO_ARGUMENTS_ACCEPTED; OUTSIDE_ALLOWLISTED_ROOT; PARENT_TRAVERSAL;
   SYMLINK_ENTRY; SYMLINKED_EVIDENCE_DIR; UNKNOWN_ARGUMENT].

(** A [BTreeMap] from codes to counts. *)
Notation CodeCounts := (gmap string nat).
(* apps/mcp/src/main.rs:236-246 McpEvidenceArtifactSummary *)
Record McpEvidenceArtifactSummary := mk_ArtifactSummary {
  summary_name : string;
  summary_file_name : string;
  summary_release_gate : string;
  summary_command : string;
  summary_artifact_status : string;
  summary_check_count : nat;
  summary_artifact_failure_count : nat;
  summary_artifact_failure_codes : CodeCounts;
}.
(* apps/mcp/src/main.rs:248-256 McpEvidenceNextAction *)
Record McpEvidenceNextAction := mk_McpNextAction {
  next_name : string;
  next_file_name : string;
  next_release_gate : string;
  next_status : string;
  next_command : string;
  next_failure_codes : CodeCounts;
}.
(* apps/mcp/src/main.rs:220-234 McpEvidenceSummary *)
Record McpEvidenceSummary := mk_McpSummary {
  summary_schema_version : string;
  summary_status : string;
  summary_generated_at : string;
  summary_max_age_days : Z;
  summary_artifact_count : nat;
  summary_passed_artifact_count : nat;
  summary_missing_artifact_count : nat;
  summary_failed_artifact_count : nat;
  summary_failure_count : nat;
  summary_failure_codes : CodeCounts;
  summary_artifacts : list McpEvidenceArtifactSummary;
  summary_next_actions : list McpEvidenceNextAction;
}.
(** The envelope of an error, with its schema version. *)
(* apps/mcp/src/main.rs:258-273 McpEvidenceErrorEnvelope *)
Record McpEvidenceErrorEnvelope := mk_ErrorEnvelope {
  envelope_schema_version : string;
  error_code : string;
  error_failure_code : string;
  error_message : string;
  error_failure_codes : CodeCounts;
  error_summary : option McpEvidenceSummary;
}.
(* apps/mcp/src/main.rs:374-390 from *)
Definition request_error_result (error : McpEvidenceRequestError) : McpEvidenceErrorEnvelope :=
  mk_ErrorEnvelope MCP_EVIDENCE_RESULT_SCHEMA_VERSION (mcp_code error) (mcp_failure_code error)
    (mcp_message error) {[ mcp_failure_code error := 1%nat ]} None.

(** ** The arguments of a tool *)

(** The entries of an object, one per key. *)
Notation JsonObject := (list (string * Value)).
Definition argument (arguments : JsonObject) (key : string) : option Value := value_get (Object arguments) key.
(* apps/mcp/src/main.rs:840-849 optional_string_argument *)
Definition optional_string_argument (value : option Value) (invalid_error : McpEvidenceRequestError)
    : result McpEvidenceRequestError (option string) :=
  match value with
  | None | Some Null => Ok None
  | Some (String_ value) => Ok (Some value)
  | Some _ => Err invalid_error
  end.
(* apps/mcp/src/main.rs:851-860 optional_i64_argument *)
Definition optional_i64_argument (value : option Value) (invalid_error : McpEvidenceRequestError)
    : result McpEvidenceRequestError (option Z) :=
  match value with
  | None | Some Null => Ok None
  | Some (Number n) => Some <$> ok_or (as_i64 (Number n)) invalid_error
  | Some _ => Err invalid_error
  end.
(* apps/mcp/src/main.rs:862-870 validate_max_age_days *)
Definition validate_max_age_days (value : option Z) : result McpEvidenceRequestError unit :=
  match value with
  | None => Ok tt
  | Some value =>
      if (MIN_EVIDENCE_MAX_AGE_DAYS <=? value)%Z && (value <=? MAX_EVIDENCE_MAX_AGE_DAYS)%Z then Ok tt
      else Err INVALID_MAX_AGE_DAYS
  end.
(* apps/mcp/src/main.rs:806-830 parse_evidence_directory_request *)
Definition parse_evidence_directory_request (arguments : JsonObject)
    : result McpEvidenceRequestError EvidenceDirectoryRequest :=
  if negb (forallb (fun '(key, _) => contains ["evidence_dir"; "max_age_days"] key) arguments)
  then Err UNKNOWN_ARGUMENT
  else
    let? evidence_dir := optional_string_argument (argument arguments "evidence_dir") INVALID_EVIDENCE_DIR in
    let? max_age_days := optional_i64_argument (argument arguments "max_age_days") INVALID_MAX_AGE_DAYS in
    let? _ := validate_max_age_days max_age_days in
    Ok (mk_EvidenceDirectoryRequest evidence_dir max_age_days).
(* apps/mcp/src/main.rs:832-838 parse_empty_arguments *)
Definition parse_empty_arguments (arguments : JsonObject) : result McpEvidenceRequestError unit :=
  match arguments with [] => Ok tt | _ => Err NO_ARGUMENTS_ACCEPTED end.

(** ** Where a path leads, by its text *)

(* apps/mcp/src/main.rs:399-404 EvidenceDirPathBoundary *)
Inductive EvidenceDirPathBoundary := InsideRoot | InsideRootWithParentTraversal | OutsideRoot.
(* apps/mcp/src/main.rs:961-976 reject_drive_relative_or_root_style_relative_path *)
Definition reject_drive_relative_or_root_style_relative_path (path : string)
    : result McpEvidenceRequestError unit :=
  if is_absolute path then Ok tt
  else if existsb (fun component => match component with RootDir => true | _ => false end) (components path)
  then Err DRIVE_RELATIVE_OR_ROOT_STYLE_RELATIVE_PATH
  else Ok tt.
(* apps/mcp/src/main.rs:1024-1050 relative_evidence_dir_path_boundary *)
Fixpoint relative_boundary_from (depth : nat) (has_parent_traversal : bool) (path : list Component)
    : EvidenceDirPathBoundary :=
  match path with
  | Normal _ :: path => relative_boundary_from (S depth) has_parent_traversal path
  | CurDir :: path => relative_boundary_from depth has_parent_traversal path
  | ParentDir :: path =>
      match depth with
      | O => OutsideRoot
      | S depth => relative_boundary_from depth true path
      end
  | RootDir :: _ => OutsideRoot
  | [] => if has_parent_traversal then InsideRootWithParentTraversal else InsideRoot
  end.
Definition relative_evidence_dir_path_boundary (requested : string) : EvidenceDirPathBoundary :=
  relative_boundary_from 0 false (components requested).
(** On Unix the anchor of a path is empty, and so is the shortest key. *)
(* apps/mcp/src/main.rs:1082-1110 lexical_absolute_path_key *)
Definition lexical_absolute_path_key (path : string) : option (list string * bool) :=
  if negb (is_absolute path) then None
  else Some (foldl (fun '(key, has_parent_traversal) component =>
                      match component with
                      | RootDir | CurDir => (key, has_parent_traversal)
                      | Normal component => (key ++ [component], has_parent_traversal)
                      | ParentDir => (removelast key, true)
                      end) ([], false) (components path)).
(* apps/mcp/src/main.rs:1052-1074 absolute_evidence_dir_path_boundary *)
Definition absolute_evidence_dir_path_boundary (root requested : string) : EvidenceDirPathBoundary :=
  match lexical_absolute_path_key root, lexical_absolute_path_key requested with
  | Some (root_key, _), Some (requested_key, has_parent_traversal) =>
      if (length requested_key <? length root_key)%nat
         || negb (forallb (fun '(root_component, requested_component) => String.eqb root_component requested_component)
                    (zip root_key requested_key))
      then OutsideRoot
      else if has_parent_traversal then InsideRootWithParentTraversal else InsideRoot
  | _, _ => OutsideRoot
  end.
Definition boundary_rank (boundary : EvidenceDirPathBoundary) : nat :=
  match boundary with InsideRoot => 0 | InsideRootWithParentTraversal => 1 | OutsideRoot => 2 end.
(** [min_by_key]: the first of the least. *)
(* apps/mcp/src/main.rs:1006-1022 best_absolute_evidence_dir_path_boundary *)
Definition best_absolute_evidence_dir_path_boundary (root canonical_root requested : string)
    : EvidenceDirPathBoundary :=
  let supplied := absolute_evidence_dir_path_boundary root requested in
  let canonical := absolute_evidence_dir_path_boundary canonical_root requested in
  if (boundary_rank canonical <? boundary_rank supplied)%nat then canonical else supplied.
(* apps/mcp/src/main.rs:994-1004 evidence_dir_path_boundary *)
Definition evidence_dir_path_boundary (root canonical_root requested : string) : EvidenceDirPathBoundary :=
  if is_absolute requested then best_absolute_evidence_dir_path_boundary root canonical_root requested
  else relative_evidence_dir_path_boundary requested.
(* apps/mcp/src/main.rs:978-992 reject_boundary_escape_or_parent_traversal *)
Definition reject_boundary_escape_or_parent_traversal (root canonical_root requested : string)
    : result McpEvidenceRequestError unit :=
  match evidence_dir_path_boundary root canonical_root requested with
  | InsideRoot => Ok tt
  | InsideRootWithParentTraversal => Err PARENT_TRAVERSAL
  | OutsideRoot => Err OUTSIDE_ALLOWLISTED_ROOT
  end.

(** ** Where a path leads, on the disk *)

(* apps/mcp/src/main.rs:911-959 canonical_existing_directory *)
Definition canonical_existing_directory (fs : FileSystem) (path : string)
    : result McpEvidenceRequestError string :=
  match fs_symlink_metadata fs path with
  | Err Io_NotFound => Err MISSING_EVIDENCE_DIR
  | Err _ => Err EVIDENCE_READ_FAILED
  | Ok (Symlink, _) => Err SYMLINKED_EVIDENCE_DIR
  | Ok (Directory_, _) => map_err (fun _ => EVIDENCE_READ_FAILED) (canonicalize fs path)
  | Ok _ => Err NON_DIRECTORY_EVIDENCE_DIR
  end.
(* apps/mcp/src/main.rs:1151-1166 reject_symlink_entries *)
Definition reject_symlink_entries (fs : FileSystem) (evidence_dir : string)
    : result McpEvidenceRequestError unit :=
  let? entries := map_err (fun _ => EVIDENCE_READ_FAILED) (fs_read_dir fs evidence_dir) in
  if existsb (fun entry => match entry.2 with Symlink => true | _ => false end) entries
  then Err SYMLINK_ENTRY else Ok tt.
(* apps/mcp/src/main.rs:881-909 resolve_evidence_dir_in_roots *)
Definition resolve_evidence_dir_in_roots (fs : FileSystem) (root canonical_root : string)
    (value : option string) : result McpEvidenceRequestError string :=
  let requested := trim (default DEFAULT_EVIDENCE_CHILD value) in
  if is_empty requested then Err EMPTY_EVIDENCE_DIR
  else
    let? _ := reject_drive_relative_or_root_style_relative_path requested in
    let? _ := reject_boundary_escape_or_parent_traversal root canonical_root requested in
    let candidate := if is_absolute requested then requested else path_join canonical_root requested in
    let? evidence_dir := canonical_existing_directory fs candidate in
    if negb (path_starts_with evidence_dir canonical_root) then Err OUTSIDE_ALLOWLISTED_ROOT
    else
      let? _ := reject_symlink_entries fs evidence_dir in
      Ok evidence_dir.

(** ** Starting the server *)

(* apps/mcp/src/main.rs:109-114 StartupEvidenceRootErrorKind *)
Inductive StartupEvidenceRootError := InspectFailed | Root_NotDirectory | Root_Symlink.
(* apps/mcp/src/main.rs:126-136 fmt *)
Definition startup_error_text (kind : StartupEvidenceRootError) : string :=
  "evidence root " +:+ match kind with
                       | InspectFailed => "could not be inspected"
                       | Root_NotDirectory => "is not a directory"
                       | Root_Symlink => "must not be a symlink"
                       end.
(** The server keeps its root as it was supplied and as it is. *)
(* apps/mcp/src/main.rs:63-76 CairnIdMcpServer *)
Record CairnIdMcpServer := mk_CairnIdMcpServer {
  evidence_root : string;
  canonical_evidence_root : string;
}.
(* apps/mcp/src/main.rs:777-785 absolute_startup_evidence_root *)
Definition absolute_startup_evidence_root (fs : FileSystem) (root : string) : string :=
  if is_absolute root then root else path_join (place_text (working_directory fs)) root.
(* apps/mcp/src/main.rs:787-804 canonical_startup_evidence_root *)
Definition canonical_startup_evidence_root (fs : FileSystem) (path : string)
    : result StartupEvidenceRootError string :=
  match fs_symlink_metadata fs path with
  | Err _ => Err InspectFailed
  | Ok (Symlink, _) => Err Root_Symlink
  | Ok (Directory_, _) => map_err (fun _ => InspectFailed) (canonicalize fs path)
  | Ok _ => Err Root_NotDirectory
  end.
(* apps/mcp/src/main.rs:761-775 startup_evidence_root *)
Definition startup_evidence_root (fs : FileSystem) (value : option string)
    : result StartupEvidenceRootError CairnIdMcpServer :=
  let supplied := default (place_text (working_directory fs)) value in
  let supplied := absolute_startup_evidence_root fs supplied in
  let? canonical := canonical_startup_evidence_root fs supplied in
  Ok (mk_CairnIdMcpServer supplied canonical).

(** ** The answers *)

(* apps/mcp/src/main.rs:1168-1180 mcp_release_evidence_error *)
Definition mcp_release_evidence_error (error : ReleaseEvidenceError) : McpEvidenceRequestError :=
  match error with
  | InvalidMaxAge => INVALID_MAX_AGE_DAYS
  | NotDirectory _ => NON_DIRECTORY_EVIDENCE_DIR
  | ExistingScaffoldFile _ => EVIDENCE_CONTRACT_FAILED
  | Evidence_Json => INVALID_EVIDENCE_JSON
  | Evidence_Io _ => EVIDENCE_READ_FAILED
  end.
(* apps/mcp/src/main.rs:1344-1350 stable_report_status *)
Definition stable_report_status (status : string) : string :=
  if String.eqb status "ready" then "ready"
  else if String.eqb status "incomplete" then "incomplete" else "unknown".
(* apps/mcp/src/main.rs:1352-1359 stable_artifact_status *)
Definition stable_artifact_status (status : string) : string :=
  if String.eqb status "passed" then "passed"
  else if String.eqb status "missing" then "missing"
  else if String.eqb status "failed" then "failed" else "unknown".
(* apps/mcp/src/main.rs:1361-1372 failure_code_counts *)
Definition failure_code_counts (failure_codes : list ReleaseEvidenceFailureCode) : CodeCounts :=
  foldl (fun counts failure_code =>
    let code := failure_code_as_str failure_code in
    <[code := S (default O (counts !! code))]> counts) ∅ failure_codes.
(* apps/mcp/src/main.rs:1375-1386 dominant_failure_code *)
Definition PRIORITY : list string :=
  ["missing_evidence"; "stale_or_invalid_scaffold"; "artifact_path_failure"; "invalid_json";
   "invalid_json_root"; "stale_or_invalid_timestamp"; "timestamp_contract"; "forbidden_field";
   "contract_mismatch"; "validation_failed"].
(* apps/mcp/src/main.rs:1374-1393 dominant_failure_code *)
Definition dominant_failure_code (failure_codes : CodeCounts) : string :=
  default "validation_failed" (snd <$> list_find (fun code => is_Some (failure_codes !! code)) PRIORITY).
(* apps/mcp/src/main.rs:1314-1325 mcp_artifact_summary *)
Definition mcp_artifact_summary (artifact : ReleaseEvidenceArtifactReport) : McpEvidenceArtifactSummary :=
  mk_ArtifactSummary (artifact_name artifact) (artifact_file_name artifact) (artifact_release_gate artifact)
    (artifact_command artifact) (stable_artifact_status (artifact_status artifact))
    (length (artifact_checks artifact)) (length (artifact_failures artifact))
    (failure_code_counts (artifact_failure_codes artifact)).
(* apps/mcp/src/main.rs:1327-1336 mcp_next_action *)
Definition mcp_next_action (artifact : ReleaseEvidenceArtifactReport) : McpEvidenceNextAction :=
  mk_McpNextAction (artifact_name artifact) (artifact_file_name artifact) (artifact_release_gate artifact)
    (stable_artifact_status (artifact_status artifact)) (artifact_command artifact)
    (failure_code_counts (artifact_failure_codes artifact)).

Section tools.
Context {RP : Rfc3339Parse} {CAL : Calendar} {SJ : SerdeJson} {TF : TimeFormat}.
Context (io_text : IoErrorKind -> string) (json_error : string -> string)
  (validate_artifact : EvidenceValidator -> Value -> Validation unit).
Notation check_release_evidence := (check_release_evidence io_text json_error validate_artifact).

(** [None] is the panic of an instant that cannot be written, here and in the
    tools. *)
(* apps/mcp/src/main.rs:1270-1312 mcp_evidence_summary *)
Definition mcp_evidence_summary (report : ReleaseEvidenceReport) : option McpEvidenceSummary :=
  let artifacts := report_artifacts report in
  let next_actions :=
    mcp_next_action <$> filter (fun a => stable_artifact_status (artifact_status a) <> "passed") artifacts in
  generated_at ← rfc3339_format (report_generated_at report);
  Some (mk_McpSummary MCP_EVIDENCE_RESULT_SCHEMA_VERSION (stable_report_status (report_status report))
    generated_at (report_max_age_days report) (length artifacts) (count (has_status "passed") artifacts)
    (count (has_status "missing") artifacts) (count (has_status "failed") artifacts)
    (length (report_failures report)) (failure_code_counts (report_failure_codes report))
    (mcp_artifact_summary <$> artifacts) next_actions).
(* apps/mcp/src/main.rs:744-759 incomplete_evidence_error *)
Definition incomplete_evidence_error (summary : McpEvidenceSummary) : McpEvidenceErrorEnvelope :=
  mk_ErrorEnvelope MCP_EVIDENCE_RESULT_SCHEMA_VERSION "release_evidence_incomplete"
    (dominant_failure_code (summary_failure_codes summary))
    "release evidence is incomplete; inspect failure_codes and summary for the stable machine-readable failure contract"
    (summary_failure_codes summary) (Some summary).
(* apps/mcp/src/main.rs:729-742 release_evidence_report_for_roots *)
Definition release_evidence_report_for_roots (fs : FileSystem) (root canonical_root : string)
    (request : EvidenceDirectoryRequest) (now : OffsetDateTime)
    : result McpEvidenceErrorEnvelope ReleaseEvidenceReport :=
  let? evidence_dir := map_err request_error_result
    (resolve_evidence_dir_in_roots fs root canonical_root (request_evidence_dir request)) in
  let max_age_days := default DEFAULT_RELEASE_EVIDENCE_MAX_AGE_DAYS (request_max_age_days request) in
  map_err (fun error => request_error_result (mcp_release_evidence_error error))
    (check_release_evidence fs evidence_dir now max_age_days).
Notation Reply := (option (result McpEvidenceErrorEnvelope McpEvidenceSummary)).
(* apps/mcp/src/main.rs:719-727 evidence_summary_for_roots *)
Definition evidence_summary_for_roots (fs : FileSystem) (root canonical_root : string)
    (request : EvidenceDirectoryRequest) (now : OffsetDateTime) : Reply :=
  match release_evidence_report_for_roots fs root canonical_root request now with
  | Err error => Some (Err error)
  | Ok report => summary ← mcp_evidence_summary report; Some (Ok summary)
  end.
(* apps/mcp/src/main.rs:688-694 evidence_status_for_roots *)
Definition evidence_status_for_roots (fs : FileSystem) (root canonical_root : string)
    (request : EvidenceDirectoryRequest) (now : OffsetDateTime) : Reply :=
  evidence_summary_for_roots fs root canonical_root request now.
(* apps/mcp/src/main.rs:705-717 evidence_check_for_roots *)
Definition evidence_check_for_roots (fs : FileSystem) (root canonical_root : string)
    (request : EvidenceDirectoryRequest) (now : OffsetDateTime) : Reply :=
  match release_evidence_report_for_roots fs root canonical_root request now with
  | Err error => Some (Err error)
  | Ok report =>
      summary ← mcp_evidence_summary report;
      Some (if String.eqb (summary_status summary) "ready" then Ok summary
            else Err (incomplete_evidence_error summary))
  end.
(* apps/mcp/src/main.rs:594-600 evidence_status *)
Definition evidence_status (server : CairnIdMcpServer) (fs : FileSystem) (arguments : JsonObject)
    (now : OffsetDateTime) : Reply :=
  match parse_evidence_directory_request arguments with
  | Err error => Some (Err (request_error_result error))
  | Ok request =>
      evidence_status_for_roots fs (evidence_root server) (canonical_evidence_root server) request now
  end.
(* apps/mcp/src/main.rs:615-621 evidence_check *)
Definition evidence_check (server : CairnIdMcpServer) (fs : FileSystem) (arguments : JsonObject)
    (now : OffsetDateTime) : Reply :=
  match parse_evidence_directory_request arguments with
  | Err error => Some (Err (request_error_result error))
  | Ok request =>
      evidence_check_for_roots fs (evidence_root server) (canonical_evidence_root server) request now
  end.
End tools.

(** ** The plan and the manifest *)

(* apps/mcp/src/main.rs:189-194 McpEvidenceEnvironmentRequirement *)
Record McpEvidenceEnvironmentRequirement := mk_McpRequirement {
  mcp_alternatives : list (list string);
  mcp_purpose : string;
  mcp_contains_secret : bool;
}.
(* apps/mcp/src/main.rs:172-187 McpEvidencePlanStep *)
Record McpEvidencePlanStep := mk_McpStep {
  mcp_step_name : string;
  mcp_step_file_name : string;
  mcp_step_release_gate : string;
  mcp_step_command : string;
  mcp_step_validator : string;
  mcp_step_status : string;
  mcp_step_contains_secrets : bool;
  mcp_step_requires_production_like_environment : bool;
  mcp_step_writes_application_state : bool;
  mcp_step_touches_external_provider : bool;
  mcp_step_required_environment : list McpEvidenceEnvironmentRequirement;
  mcp_step_missing_environment : list string;
  mcp_step_operator_notes : list string;
}.
(* apps/mcp/src/main.rs:155-170 McpEvidencePlan *)
Record McpEvidencePlan := mk_McpPlan {
  mcp_plan_schema_version : string;
  mcp_plan_status : string;
  mcp_plan_generated_at : string;
  mcp_plan_artifact_count : nat;
  mcp_plan_ready_artifact_count : nat;
  mcp_plan_manual_artifact_count : nat;
  mcp_plan_missing_environment_artifact_count : nat;
  mcp_plan_secret_artifact_count : nat;
  mcp_plan_state_changing_artifact_count : nat;
  mcp_plan_external_provider_artifact_count : nat;
  mcp_plan_steps : list McpEvidencePlanStep;
  mcp_plan_missing_environment : list string;
  mcp_plan_notes : list string;
}.
(* apps/mcp/src/main.rs:207-218 McpEvidenceManifestArtifact *)
Record McpEvidenceManifestArtifact := mk_McpManifestArtifact {
  mcp_artifact_name : string;
  mcp_artifact_file_name : string;
  mcp_artifact_release_gate : string;
  mcp_artifact_command : string;
  mcp_artifact_validator : string;
  mcp_artifact_contains_secrets : bool;
  mcp_artifact_requires_production_like_environment : bool;
  mcp_artifact_writes_application_state : bool;
  mcp_artifact_touches_external_provider : bool;
}.
(* apps/mcp/src/main.rs:196-205 McpEvidenceManifest *)
Record McpEvidenceManifest := mk_McpManifest {
  mcp_manifest_schema_version : string;
  mcp_manifest_status : string;
  mcp_manifest_generated_at : string;
  mcp_manifest_default_max_age_days : Z;
  mcp_manifest_artifact_count : nat;
  mcp_manifest_artifacts : list McpEvidenceManifestArtifact;
  mcp_manifest_notes : list string;
}.
(* apps/mcp/src/main.rs:1226-1238 mcp_environment_requirement *)
Definition mcp_environment_requirement (requirement : ReleaseEvidenceEnvironmentRequirement)
    : McpEvidenceEnvironmentRequirement :=
  mk_McpRequirement (requirement_alternatives requirement) (requirement_purpose requirement)
    (requirement_contains_secret requirement).
(* apps/mcp/src/main.rs:1204-1224 mcp_evidence_plan_step *)
Definition mcp_evidence_plan_step (step : ReleaseEvidencePlanStep) : McpEvidencePlanStep :=
  mk_McpStep (step_name step) (step_file_name step) (step_release_gate step) (step_command step)
    (step_validator step) (step_status step) (step_contains_secrets step)
    (step_requires_production_like_environment step) (step_writes_application_state step)
    (step_touches_external_provider step) (mcp_environment_requirement <$> step_required_environment step)
    (step_missing_environment step) (step_operator_notes step).
(* apps/mcp/src/main.rs:1256-1268 mcp_manifest_artifact *)
Definition mcp_manifest_artifact (a : ReleaseEvidenceManifestArtifact) : McpEvidenceManifestArtifact :=
  mk_McpManifestArtifact (manifest_name a) (manifest_file_name a) (manifest_release_gate a)
    (manifest_command a) (manifest_validator a) (manifest_contains_secrets a)
    (manifest_requires_production_like_environment a) (manifest_writes_application_state a)
    (manifest_touches_external_provider a).
Section documents.
Context {TF : TimeFormat}.
(* apps/mcp/src/main.rs:1182-1202 mcp_evidence_plan *)
Definition mcp_evidence_plan (report : ReleaseEvidencePlanReport) : option McpEvidencePlan :=
  generated_at ← rfc3339_format (plan_generated_at report);
  Some (mk_McpPlan MCP_EVIDENCE_RESULT_SCHEMA_VERSION (plan_status report) generated_at
    (plan_artifact_count report) (plan_ready_artifact_count report) (plan_manual_artifact_count report)
    (plan_missing_environment_artifact_count report) (plan_secret_artifact_count report)
    (plan_state_changing_artifact_count report) (plan_external_provider_artifact_count report)
    (mcp_evidence_plan_step <$> plan_steps report) (plan_missing_environment report) (plan_notes report)).
(* apps/mcp/src/main.rs:1240-1254 mcp_evidence_manifest *)
Definition mcp_evidence_manifest (manifest : ReleaseEvidenceManifest) : option McpEvidenceManifest :=
  generated_at ← rfc3339_format (manifest_generated_at manifest);
  Some (mk_McpManifest MCP_EVIDENCE_RESULT_SCHEMA_VERSION (manifest_status manifest) generated_at
    (manifest_default_max_age_days manifest) (manifest_artifact_count manifest)
    (mcp_manifest_artifact <$> manifest_artifacts manifest) (manifest_notes manifest)).
(** The environment of the server, by the names that are set. *)
(* apps/mcp/src/main.rs:545-556 evidence_plan *)
Definition evidence_plan (environ : string -> option string) (arguments : JsonObject) (now : OffsetDateTime)
    : option (result McpEvidenceErrorEnvelope McpEvidencePlan) :=
  match parse_empty_arguments arguments with
  | Err error => Some (Err (request_error_result error))
  | Ok _ =>
      Ok <$> mcp_evidence_plan (release_evidence_capture_plan now
        (fun name => match environ name with Some value => negb (is_empty (trim value)) | None => false end))
  end.
(* apps/mcp/src/main.rs:571-579 evidence_manifest *)
Definition evidence_manifest (arguments : JsonObject) (now : OffsetDateTime)
    : option (result McpEvidenceErrorEnvelope McpEvidenceManifest) :=
  match parse_empty_arguments arguments with
  | Err error => Some (Err (request_error_result error))
  | Ok _ => Ok <$> mcp_evidence_manifest (release_evidence_manifest now)
  end.
End documents.

(** ** Paths *)

Lemma relative_parent depth path : relative_boundary_from depth true path <> InsideRoot.
Proof.
  revert depth. induction path as [|[| | |name] path IH]; intros depth; cbn; try done. by destruct depth.
Qed.
Lemma relative_inside depth path :
  relative_boundary_from depth false path = InsideRoot -> ParentDir ∉ path.
Proof.
  revert depth. induction path as [|[| | |name] path IH]; intros depth; cbn; try done.
  - intros _. apply not_elem_of_nil.
  - intros H. apply not_elem_of_cons. split; [done|]. by eapply IH.
  - destruct depth; [done|]. by intros H%relative_parent.
  - intros H. apply not_elem_of_cons. split; [done|]. by eapply IH.
Qed.
Lemma lexical_key_parent path key :
  lexical_absolute_path_key path = Some (key, false) -> ParentDir ∉ components path.
Proof.
  unfold lexical_absolute_path_key. destruct (is_absolute path); [|done]. cbn [negb].
  match goal with |- context [foldl ?f _ _] => set (step := f) end. generalize (components path). intros path' [= H].
  assert (Htrue : forall l key0, (foldl step (key0, true) l).2 = true).
  { induction l as [|[| | |name] l IH]; intros key0; cbn; auto. }
  revert H. generalize (@nil string). induction path' as [|[| | |name] l IH]; intros key0; cbn.
  - intros _. apply not_elem_of_nil.
  - intros H. apply not_elem_of_cons. split; [done|]. by eapply IH.
  - intros H. apply not_elem_of_cons. split; [done|]. by eapply IH.
  - intros H. specialize (Htrue l (removelast key0)). by rewrite H in Htrue.
  - intros H. apply not_elem_of_cons. split; [done|]. by eapply IH.
Qed.
(** A path that is found inside has no parent in it. *)
Lemma inside_no_parent root canonical_root requested :
  evidence_dir_path_boundary root canonical_root requested = InsideRoot -> ParentDir ∉ components requested.
Proof.
  unfold evidence_dir_path_boundary. destruct (is_absolute requested).
  - assert (forall r, absolute_evidence_dir_path_boundary r requested = InsideRoot -> ParentDir ∉ components requested) as H.
    { intros r. unfold absolute_evidence_dir_path_boundary.
      destruct (lexical_absolute_path_key r) as [[root_key _]|]; [|done].
      destruct (lexical_absolute_path_key requested) as [[key []]|] eqn:E; [|by apply lexical_key_parent in E|done].
      by destruct (_ || _). }
    unfold best_absolute_evidence_dir_path_boundary. destruct (_ <? _)%nat; apply H.
  - apply relative_inside.
Qed.

(** ** Confinement *)

(** A directory the tools may look into: below the root, and without links. *)
Definition allowed (fs : FileSystem) (root_place place : Place) : Prop :=
  node fs place = Some Folder /\ root_place `prefix_of` place
  /\ forall name target, node fs (place ++ [name]) <> Some (Link target).
(** What is canonical after it was found to be a directory is that directory. *)
Lemma directory_canonical fs path modified_at text :
  fs_symlink_metadata fs path = Ok (Directory_, modified_at) -> canonicalize fs path = Ok text ->
  exists place, text = place_text place /\ node fs place = Some Folder.
Proof.
  unfold fs_symlink_metadata, canonicalize. intros (place & Hr & Hn)%result_bind_Ok.
  destruct (node fs place) as [n|] eqn:En; [|done]. injection Hn as Hn _. destruct n; try done.
  rewrite (resolve_last fs false path), Hr; [intros [= <-]; by exists place|].
  intros place' target Hr'. rewrite Hr in Hr'. injection Hr' as <-. by rewrite En.
Qed.
Lemma canonical_directory fs path dir :
  canonical_existing_directory fs path = Ok dir -> exists place, dir = place_text place /\ node fs place = Some Folder.
Proof.
  unfold canonical_existing_directory.
  destruct (fs_symlink_metadata fs path) as [[[] ?]|[]] eqn:Em; try done.
  intros Hc%map_err_Ok. by eapply directory_canonical.
Qed.
Lemma resolved_is_allowed fs root root_place value dir :
  fs_wf fs -> Forall (fun name => is_name name = true) root_place ->
  resolve_evidence_dir_in_roots fs root (place_text root_place) value = Ok dir ->
  exists place, dir = place_text place /\ allowed fs root_place place
  /\ resolve fs true false dir = Ok place
  /\ ParentDir ∉ components (trim (default DEFAULT_EVIDENCE_CHILD value)).
Proof.
  intros Hwf Hroot. unfold resolve_evidence_dir_in_roots.
  set (requested := trim _). destruct (is_empty requested); [done|].
  intros (_ & _ & H)%result_bind_Ok. apply result_bind_Ok in H as ([] & Hb & H).
  apply result_bind_Ok in H as (dir' & Hd & H).
  apply canonical_directory in Hd as (place & -> & Hf). destruct (path_starts_with _ _) eqn:Hp; [|done].
  cbn [negb] in H. apply result_bind_Ok in H as ([] & Hs & [= <-]). exists place.
  assert (Hnames : Forall (fun name => is_name name = true) place)
    by (eapply fs_names_place; [done|by rewrite Hf]).
  rewrite place_starts_with in Hp by done. apply bool_decide_eq_true in Hp.
  unfold reject_symlink_entries in Hs. apply result_bind_Ok in Hs as (entries & He%map_err_Ok & Hlinks).
  assert (Hr : resolve fs true false (place_text place) = Ok place).
  { unfold fs_read_dir in He. destruct (resolve fs true false (place_text place)) as [place'|] eqn:Hr; [|done].
    by rewrite (resolve_place fs place place' Hwf Hf Hr). }
  unfold allowed. split_and!; try done.
  - intros name target Hlink. apply (read_dir_ok fs _ place) in He as (_ & _ & ->); [|done].
    destruct (existsb _ _) eqn:Hex; [done|]. rewrite existsb_elem_false in Hex.
    assert (name ∈ arrange fs (children fs place)) as Hin.
    { rewrite (fs_arranged _ Hwf), elem_of_children, <- node_entry, Hlink. by eexists. }
    assert ((name, Symlink) ∈ (fun name => (name, entry_type fs place name)) <$> arrange fs (children fs place))
      as Hm; [|by apply Hex in Hm].
    apply list_elem_of_fmap. exists name. unfold entry_type. by rewrite Hlink.
  - unfold reject_boundary_escape_or_parent_traversal in Hb.
    destruct (evidence_dir_path_boundary _ _ _) eqn:E; try done. by apply inside_no_parent in E.
Qed.
Lemma started_root fs value server :
  fs_wf fs -> startup_evidence_root fs value = Ok server -> exists root_place,
  canonical_evidence_root server = place_text root_place /\ node fs root_place = Some Folder
  /\ Forall (fun name => is_name name = true) root_place.
Proof.
  intros Hwf. unfold startup_evidence_root, canonical_startup_evidence_root.
  intros (canonical & Hc & [= <-])%result_bind_Ok. cbn [canonical_evidence_root].
  destruct (fs_symlink_metadata fs _) as [[[] ?]|[]] eqn:Em; try done. apply map_err_Ok in Hc.
  destruct (directory_canonical _ _ _ _ Em Hc) as (place & -> & Hf). exists place. split_and!; try done.
  eapply fs_names_place; [done|by rewrite Hf].
Qed.

(** ** Words and counts *)

(** How often each code occurs. *)
Lemma failure_code_counts_lookup codes text :
  default O (failure_code_counts codes !! text)
  = count (fun code => String.eqb (failure_code_as_str code) text) codes.
Proof.
  unfold failure_code_counts. cut (forall counts : CodeCounts, default O
    (foldl (fun counts failure_code => <[failure_code_as_str failure_code :=
       S (default O (counts !! failure_code_as_str failure_code))]> counts) counts codes !! text)
    = (default O (counts !! text) + count (fun code => String.eqb (failure_code_as_str code) text) codes)%nat).
  { intros H. specialize (H ∅). by rewrite lookup_empty in H. }
  unfold count. induction codes as [|code codes IH]; intros counts; cbn [foldl]; [cbn; lia|].
  rewrite IH, filter_cons. destruct (String.eqb_spec (failure_code_as_str code) text) as [->|Hne].
  - rewrite decide_True, lookup_insert_eq by done. cbn. lia.
  - rewrite decide_False, lookup_insert_ne by done. done.
Qed.
Lemma failure_code_counts_key codes text :
  is_Some (failure_code_counts codes !! text) -> exists code, code ∈ codes /\ text = failure_code_as_str code.
Proof.
  unfold failure_code_counts. cut (forall counts : CodeCounts, is_Some
    (foldl (fun counts failure_code => <[failure_code_as_str failure_code :=
       S (default O (counts !! failure_code_as_str failure_code))]> counts) counts codes !! text) ->
    is_Some (counts !! text) \/ exists code, code ∈ codes /\ text = failure_code_as_str code).
  { intros H Hs. destruct (H ∅ Hs) as [[? ?]|?]; [by rewrite lookup_empty in *|done]. }
  induction codes as [|code codes IH]; intros counts; cbn; [by left|].
  intros [Hc|(c & ? & ?)]%IH; [|right; exists c; split; [by right|done]].
  destruct (decide (failure_code_as_str code = text)) as [<-|Hne]; [right; exists code; split; [left|done]|].
  left. by rewrite lookup_insert_ne in Hc.
Qed.
Lemma failure_code_counts_occurs codes code :
  code ∈ codes -> is_Some (failure_code_counts codes !! failure_code_as_str code).
Proof.
  intros Hin. pose proof (failure_code_counts_lookup codes (failure_code_as_str code)) as H.
  destruct (failure_code_counts codes !! _); [by eexists|]. cbn in H. symmetry in H.
  unfold count in H. apply nil_length_inv in H.
  exfalso. apply (not_elem_of_nil code). rewrite <- H. apply list_elem_of_filter. by rewrite String.eqb_refl.
Qed.
(** Something that failed has a dominant code, one of its own. *)
Lemma dominant_occurs codes :
  codes <> [] -> exists code, code ∈ codes
  /\ dominant_failure_code (failure_code_counts codes) = failure_code_as_str code.
Proof.
  intros Hne. destruct codes as [|code codes]; [done|].
  assert (is_Some (failure_code_counts (code :: codes) !! failure_code_as_str code)) as Hcode.
  { apply failure_code_counts_occurs. left. }
  unfold dominant_failure_code. set (counts := failure_code_counts _) in *.
  destruct (list_find (fun text => is_Some (counts !! text)) PRIORITY) as [[i text]|] eqn:E.
  - apply list_find_Some in E as (_ & Htext & _). apply failure_code_counts_key in Htext as (c & ? & ->).
    by exists c.
  - apply list_find_None in E. rewrite Forall_forall in E. exfalso.
    apply (E (failure_code_as_str code)); [|done]. unfold PRIORITY. destruct code; cbn; set_solver.
Qed.

Section theorems.
Context {RP : Rfc3339Parse} {CAL : Calendar} {SJ : SerdeJson} {TF : TimeFormat}.
Context (io_text : IoErrorKind -> string) (json_error : string -> string)
  (validate_artifact : EvidenceValidator -> Value -> Validation unit).
Notation check_release_evidence := (check_release_evidence io_text json_error validate_artifact).
Notation report_for := (release_evidence_report_for_roots io_text json_error validate_artifact).
Notation evidence_status := (evidence_status io_text json_error validate_artifact).
Notation evidence_check := (evidence_check io_text json_error validate_artifact).

(** An answer that tells something of the evidence. *)
Definition tells (reply : option (result McpEvidenceErrorEnvelope McpEvidenceSummary))
    (summary : McpEvidenceSummary) : Prop :=
  reply = Some (Ok summary) \/ exists error, reply = Some (Err error) /\ error_summary error = Some summary.
(** One that refuses the request tells only why, in fixed words. *)
Definition refuses (reply : option (result McpEvidenceErrorEnvelope McpEvidenceSummary)) : Prop :=
  exists error, error ∈ request_errors /\ reply = Some (Err (request_error_result error)).
Definition listed {A} (r : result McpEvidenceRequestError A) : Prop :=
  forall error, r = Err error -> error ∈ request_errors.
Lemma listed_ok {A} (a : A) : listed (Ok a).
Proof. done. Qed.
Lemma listed_err {A} error : error ∈ request_errors -> listed (A := A) (Err error).
Proof. intros H e [= <-]. done. Qed.
Lemma listed_bind {A B} (r : result McpEvidenceRequestError A) (k : A -> result McpEvidenceRequestError B) :
  listed r -> (forall a, listed (k a)) -> listed (let? a := r in k a).
Proof. intros Hr Hk. destruct r as [a|e]; [apply Hk|]. apply listed_err. by apply Hr. Qed.
Lemma listed_map {E A} (r : result E A) error :
  error ∈ request_errors -> listed (map_err (fun _ => error) r).
Proof. intros H. destruct r; [done|]. by apply listed_err. Qed.
Ltac list_error :=
  repeat first [apply listed_ok | apply listed_map | apply listed_err | apply listed_bind; [|intros ?]
    | case_match | progress cbn];
  unfold request_errors; repeat first [apply list_elem_of_here | apply list_elem_of_further].
Lemma resolve_listed fs root canonical_root value :
  listed (resolve_evidence_dir_in_roots fs root canonical_root value).
Proof.
  unfold resolve_evidence_dir_in_roots, reject_drive_relative_or_root_style_relative_path,
    reject_boundary_escape_or_parent_traversal, canonical_existing_directory, reject_symlink_entries.
  list_error.
Qed.
Lemma parse_listed arguments : listed (parse_evidence_directory_request arguments).
Proof.
  unfold parse_evidence_directory_request, optional_string_argument, optional_i64_argument, validate_max_age_days.
  list_error.
Qed.
Lemma report_for_refuses fs root canonical_root request now envelope :
  report_for fs root canonical_root request now = Err envelope ->
  exists error, error ∈ request_errors /\ envelope = request_error_result error.
Proof.
  unfold release_evidence_report_for_roots.
  destruct (resolve_evidence_dir_in_roots _ _ _ _) as [dir|error] eqn:Hr; cbn.
  - destruct (EvidenceReport.check_release_evidence _ _ _ _ _ _ _) as [|error]; [done|]. intros [= <-].
    eexists. split; [|done]. destruct error; cbn; list_error.
  - intros [= <-]. exists error. split; [by eapply resolve_listed|done].
Qed.

(** *** What an answer is made of *)

Definition code_keys (counts : CodeCounts) : Prop :=
  forall text, is_Some (counts !! text) -> exists code, text = failure_code_as_str code.
Lemma counted_code_keys codes : code_keys (failure_code_counts codes).
Proof. intros text (code & _ & ->)%failure_code_counts_key. by exists code. Qed.
Definition stable_statuses : list string := ["passed"; "missing"; "failed"].
(** What is told of an artifact: what the release asks for, a status and counts. *)
Definition told_artifact (spec : EvidenceSpec) (a : McpEvidenceArtifactSummary) : Prop :=
  summary_name a = spec_name spec /\ summary_file_name a = spec_file_name spec
  /\ summary_release_gate a = spec_release_gate spec /\ summary_command a = spec_command spec
  /\ summary_artifact_status a ∈ stable_statuses /\ code_keys (summary_artifact_failure_codes a).
Definition told_action (specs : list EvidenceSpec) (a : McpEvidenceNextAction) : Prop :=
  exists spec, spec ∈ specs /\ next_name a = spec_name spec /\ next_file_name a = spec_file_name spec
  /\ next_release_gate a = spec_release_gate spec /\ next_command a = spec_command spec
  /\ next_status a ∈ ["missing"; "failed"] /\ code_keys (next_failure_codes a).
(** A summary has no text of its own: nothing read from a file is repeated. *)
Definition fixed_words (summary : McpEvidenceSummary) (now : OffsetDateTime) (days : Z) : Prop :=
  summary_schema_version summary = MCP_EVIDENCE_RESULT_SCHEMA_VERSION
  /\ summary_status summary ∈ ["ready"; "incomplete"]
  /\ rfc3339_format now = Some (summary_generated_at summary) /\ summary_max_age_days summary = days
  /\ code_keys (summary_failure_codes summary)
  /\ Forall2 told_artifact EVIDENCE_SPECS (summary_artifacts summary)
  /\ Forall (told_action EVIDENCE_SPECS) (summary_next_actions summary).

Context (Hpushes : forall validator value, pushes (validate_artifact validator value)).
Lemma stable_status status : status ∈ stable_statuses -> stable_artifact_status status = status.
Proof.
  unfold stable_statuses. rewrite !elem_of_cons. by intros [->|[->|[->|[]%not_elem_of_nil]]].
Qed.
Lemma checked_told files spec now days artifact :
  check_artifact json_error validate_artifact files spec now days = Ok artifact ->
  told_artifact spec (mcp_artifact_summary artifact)
  /\ (stable_artifact_status (artifact_status artifact) <> "passed" -> spec ∈ EVIDENCE_SPECS ->
      told_action EVIDENCE_SPECS (mcp_next_action artifact)).
Proof.
  intros (_ & _ & Hname & Hfile & Hgate & Hcommand & Hstatus)%(artifact_report_spec _ _ Hpushes).
  pose proof (stable_status _ Hstatus) as Hs. split.
  - unfold told_artifact. cbn. rewrite Hs. split_and!; try done. apply counted_code_keys.
  - rewrite Hs. intros Hne Hspec. exists spec. cbn. rewrite Hs. split_and!; try done; [|apply counted_code_keys].
    unfold stable_statuses in *. set_solver.
Qed.
Lemma report_made fs dir now days report :
  check_release_evidence fs dir now days = Ok report ->
  report_generated_at report = now /\ report_max_age_days report = days.
Proof.
  unfold EvidenceReport.check_release_evidence. destruct (_ && _); [|done].
  destruct (is_dir fs dir); [|done]. cbn [negb]. intros (? & _ & Hr)%result_bind_Ok.
  apply result_bind_Ok in Hr as (? & _ & Hr). by apply result_bind_Ok in Hr as (? & _ & [= <-]).
Qed.
Lemma report_told fs dir now days report summary :
  check_release_evidence fs dir now days = Ok report -> mcp_evidence_summary report = Some summary ->
  fixed_words summary now days.
Proof.
  intros Hr Hs. pose proof (check_release_evidence_parts _ _ _ _ _ _ _ _ Hr)
    as (_ & _ & scaffold & inventory & _ & _ & Ha%checked_artifacts & Hstatus & _).
  destruct (report_made _ _ _ _ _ Hr) as [Hnow Hdays].
  unfold Mcp.mcp_evidence_summary in Hs. apply bind_Some in Hs as (at_ & Hat & [= <-]). unfold fixed_words. cbn.
  rewrite Hnow in Hat. rewrite Hstatus. split_and!; try done; [|apply counted_code_keys| |].
  - destruct (report_failures report); [left|right; left].
  - rewrite Forall2_fmap_r. eapply Forall2_impl; [exact Ha|]. 
    intros spec artifact Hc. exact (proj1 (checked_told _ _ _ _ _ Hc)).
  - rewrite Forall_fmap, Forall_forall. unfold compose. intros artifact [Hne Hin]%list_elem_of_filter.
    apply list_elem_of_lookup in Hin as [i Hi]. eapply Forall2_lookup_r in Ha as (spec & Hspec & Hc); [|exact Hi].
    apply (proj2 (checked_told _ _ _ _ _ Hc)); [done|]. by eapply list_elem_of_lookup_2.
Qed.

(** *** Requests *)

(** What a report a tool made was made from. *)
Definition reported (fs : FileSystem) (server : CairnIdMcpServer) (request : EvidenceDirectoryRequest)
    (now : OffsetDateTime) (report : ReleaseEvidenceReport) : Prop :=
  exists root_place place, canonical_evidence_root server = place_text root_place /\ allowed fs root_place place
  /\ ParentDir ∉ components (trim (default DEFAULT_EVIDENCE_CHILD (request_evidence_dir request)))
  /\ forall fs', fs' = fs \/ same_directory fs fs' (place_text place) place ->
       check_release_evidence fs' (place_text place) now
         (default DEFAULT_RELEASE_EVIDENCE_MAX_AGE_DAYS (request_max_age_days request)) = Ok report.
Lemma report_for_reported fs0 fs value server request now report :
  fs_wf fs0 -> fs_wf fs -> startup_evidence_root fs0 value = Ok server ->
  report_for fs (evidence_root server) (canonical_evidence_root server) request now = Ok report ->
  reported fs server request now report.
Proof.
  intros Hwf0 Hwf (root_place & Hroot & _ & Hnames)%started_root; [|done].
  unfold release_evidence_report_for_roots. rewrite Hroot.
  intros (dir & Hd%map_err_Ok & Hr%map_err_Ok)%result_bind_Ok.
  apply resolved_is_allowed in Hd as (place & -> & Ha & Hres & Hparent); [|done..].
  exists root_place, place. do 3 (split; [assumption|]).
  intros fs' [->|Hsame]; [exact Hr|]. by rewrite (same_report _ _ _ _ _ _ _ _ _ Hsame).
Qed.
(** What the check makes of what the status says. *)
Definition strictly (status : option (result McpEvidenceErrorEnvelope McpEvidenceSummary)) :=
  match status with
  | Some (Ok summary) =>
      Some (if String.eqb (summary_status summary) "ready" then Ok summary
            else Err (incomplete_evidence_error summary))
  | reply => reply
  end.
Lemma strictly_tells summary : tells (strictly (Some (Ok summary))) summary.
Proof. unfold tells. cbn. destruct (String.eqb _ _); [by left|right]. by eexists. Qed.
Lemma check_by_status server fs arguments now :
  evidence_check server fs arguments now = strictly (evidence_status server fs arguments now).
Proof.
  unfold Mcp.evidence_check, Mcp.evidence_status, evidence_check_for_roots, evidence_status_for_roots,
    evidence_summary_for_roots.
  destruct (parse_evidence_directory_request arguments) as [request|]; [|done].
  destruct (report_for _ _ _ _ _) as [report|]; [|done]. by destruct (mcp_evidence_summary report).
Qed.

(** Whatever a tool is asked, it looks only where it may.  A request for the
    status or the check of the evidence is either refused with one of the fixed
    errors, or answered from one directory: a directory below the root the
    server was started with, on the disk as it is now, that no step to a parent
    was taken to reach and that holds no link.  The answer depends on nothing
    outside that directory: any other disk with the same directory gives the
    same report.  What is told of the report is counts, the instant, the age
    asked for and fixed words: the names, gates and commands of the artifacts
    the release asks for, three statuses and the codes of failures, each
    counted as often as it occurs.  Nothing that was read from a file is
    repeated.  Only an instant that cannot be
    written leaves a request without an answer. *)
Theorem evidence_requests_are_confined fs0 fs value server arguments now reply :
  fs_wf fs0 -> fs_wf fs -> startup_evidence_root fs0 value = Ok server ->
  reply = evidence_status server fs arguments now \/ reply = evidence_check server fs arguments now ->
  refuses reply
  \/ exists request report, parse_evidence_directory_request arguments = Ok request
     /\ reported fs server request now report
     /\ match rfc3339_format now with
        | None => reply = None
        | Some _ => exists summary, mcp_evidence_summary report = Some summary /\ tells reply summary
            /\ fixed_words summary now (default DEFAULT_RELEASE_EVIDENCE_MAX_AGE_DAYS (request_max_age_days request))
            /\ forall text, default O (summary_failure_codes summary !! text)
                 = count (fun code => String.eqb (failure_code_as_str code) text) (report_failure_codes report)
        end.
Proof.
  intros Hwf0 Hwf Hserver Hreply. rewrite check_by_status in Hreply.
  unfold Mcp.evidence_status, evidence_status_for_roots, evidence_summary_for_roots in Hreply.
  destruct (parse_evidence_directory_request arguments) as [request|error] eqn:Hp.
  2: { left. exists error. split; [by eapply parse_listed|]. by destruct Hreply as [->| ->]. }
  destruct (report_for fs _ _ request now) as [report|error] eqn:Hreport.
  2: { left. apply report_for_refuses in Hreport as (e & ? & ->). exists e. split; [done|].
       by destruct Hreply as [->| ->]. }
  right. exists request, report. split; [done|].
  pose proof (report_for_reported _ _ _ _ _ _ _ Hwf0 Hwf Hserver Hreport) as Hrep. split; [done|].
  destruct Hrep as (root_place & place & _ & _ & _ & Hcheck). specialize (Hcheck fs (or_introl eq_refl)).
  pose proof (fun summary => report_told _ _ _ _ _ summary Hcheck) as Htold.
  destruct (report_made _ _ _ _ _ Hcheck) as [Hnow _].
  unfold Mcp.mcp_evidence_summary in Hreply, Htold |- *. rewrite Hnow in Hreply, Htold |- *.
  destruct (rfc3339_format now) as [text|]; cbn [mbind option_bind] in Hreply, Htold |- *.
  2: by destruct Hreply as [->| ->].
  eexists. split; [done|].
  split; [|split; [by apply Htold|exact (failure_code_counts_lookup (report_failure_codes report))]].
  destruct Hreply as [->| ->]; [by left|]. apply strictly_tells.
Qed.
(** The check is the status, made strict: where the status answers with a
    summary that is ready the check gives the same answer, where the status
    refuses it refuses the same way, and where the evidence is incomplete it is
    an error that carries the very summary the status gives, with its counts
    and with a failure code that occurs in it. *)
Theorem check_is_strict_status server fs arguments now reply :
  evidence_status server fs arguments now = reply ->
  match reply with
  | Some (Ok summary) =>
      if String.eqb (summary_status summary) "ready" then evidence_check server fs arguments now = reply
      else exists error, evidence_check server fs arguments now = Some (Err error)
        /\ error_summary error = Some summary /\ error_failure_codes error = summary_failure_codes summary
        /\ is_Some (error_failure_codes error !! error_failure_code error)
        /\ summary_failure_count summary <> O
  | _ => evidence_check server fs arguments now = reply
  end.
Proof.
  intros <-. rewrite check_by_status. destruct (evidence_status _ _ _ _) as [[summary|]|] eqn:Hs; [|done..].
  unfold strictly. destruct (String.eqb _ "ready") eqn:Hready; [done|]. eexists. split; [done|].
  unfold Mcp.evidence_status, evidence_status_for_roots, evidence_summary_for_roots in Hs.
  destruct (parse_evidence_directory_request arguments) as [request|]; [|done].
  destruct (report_for fs _ _ request now) as [report|] eqn:Hreport; [|done].
  unfold Mcp.mcp_evidence_summary in Hs. destruct (rfc3339_format _); [|done]. injection Hs as <-.
  unfold release_evidence_report_for_roots in Hreport.
  apply result_bind_Ok in Hreport as (dir & _ & Hr%map_err_Ok).
  pose proof (report_paired _ _ _ Hpushes _ _ _ _ _ Hr) as Hlen. cbn in Hready.
  cbn [error_failure_codes error_failure_code incomplete_evidence_error summary_failure_codes error_summary
    summary_failure_count].
  apply check_release_evidence_parts in Hr as (_ & _ & ? & ? & _ & _ & _ & Hstatus & _).
  destruct (report_failures report) as [|failure failures] eqn:Hf; [by rewrite Hstatus in Hready|].
  destruct (dominant_occurs (report_failure_codes report)) as (code & Hcode & ->);
    [by destruct (report_failure_codes report)|]. split_and!; try done.
  by apply failure_code_counts_occurs.
Qed.
End theorems.
