(* ===== verification/Samples.v ===== *)
(** * A sample database

    One organization with an owner, a member, a client and one credential of
    each kind, on which the theorems with hypotheses are instantiated, and
    simple functions for the crates the program calls: encodings and digests
    that change nothing, a cipher that shows its key, tokens that all encode. *)

From S2P Require Import Prelude RustStr IpAddr Domain Authn Oidc Http Codec.
From S2P Require Import Store.
From S2P Require Import SessionStore MfaStore.
From S2P Require Import Handler KeyStore OAuthPolicy BrowserSession AuthorizeRequest Authorize.
From S2P Require Import TokenEndpoint RequestContext Mfa Login MfaRoutes.
From Stdlib Require Import Ascii.

Definition sample_time : OffsetDateTime := 1000.
Definition sample_later : OffsetDateTime := 5000.

Definition sample_organization : Organization := mk_Organization 1 "acme" "Acme" sample_time.
Definition sample_user (id : Uuid) (email : string) (status : UserStatus) : UserWithPassword :=
  mk_UserWithPassword
    (mk_User id 1 email None true "Sample" status sample_time sample_time None) (Some "phc").
Definition sample_group : Group := mk_Group 4 1 "admins" None "Admins" sample_time.
Definition sample_membership (user : Uuid) (role : MembershipRole) : Membership :=
  mk_Membership 1 user 4 role sample_time.
Definition sample_client : OidcClient :=
  mk_OidcClient 5 1 "app" None None "App" ["https://app.example/cb"] [] ["openid"; "profile"]
    [AuthorizationCodeGrant; RefreshTokenGrant] true true ClientStatus_Active sample_time.
Definition sample_session (id user : Uuid) : SessionRow :=
  mk_SessionRow (mk_AuthSession id 1 user "pwd" ["pwd"] sample_time sample_later None) None None.
Definition sample_verifier : string := "abcdefghijklmnopqrstuvwxyz-0123456789-abcdefghi".
Definition sample_code : AuthorizationCode :=
  mk_AuthorizationCode "code" 1 2 6 5 "https://app.example/cb" ["openid"] None sample_verifier S256
    sample_time sample_later None.
Definition sample_access (hash : string) : AccessTokenRecord :=
  mk_AccessTokenRecord hash 1 (Some 2%N) 5 ["openid"] (Some 7%N) sample_time sample_later None.
Definition sample_refresh (id : Uuid) (hash : string) : RefreshToken :=
  mk_RefreshToken id hash 7 1 (Some 2%N) 5 ["openid"] sample_time sample_later None None.
Definition sample_recovery : AccountToken :=
  mk_AccountToken 8 1 PasswordRecovery (Some 2%N) "ada@acme.example" "recovery" None
    sample_time sample_later None Null.

Definition sample_database : Database :=
  mk_Database
    {[1%N := sample_organization]}
    (list_to_map [(2%N, sample_user 2 "ada@acme.example" UserStatus_Active);
                  (3%N, sample_user 3 "bob@acme.example" UserStatus_Active)])
    {[4%N := sample_group]}
    (list_to_map [((2%N, 4%N), sample_membership 2 MembershipRole_Owner);
                  ((3%N, 4%N), sample_membership 3 MembershipRole_Member)])
    {[5%N := sample_client]}
    (list_to_map [(6%N, sample_session 6 2); (16%N, sample_session 16 3)])
    ∅ ∅ ∅
    {["code" := sample_code]}
    {["access" := sample_access "access"]}
    {["refresh" := sample_refresh 9 "refresh"]}
    {[8%N := sample_recovery]}
    ∅ ∅ ∅ ∅ ∅ ∅.

(** ** Crates *)

Definition sample_http : HttpCrates := {|
  HeaderMap := list (string * string);
  headers_get_all h n := List.map snd (List.filter (fun kv => String.eqb (fst kv) n) h);
  headers_get h n := snd <$> List.find (fun kv => String.eqb (fst kv) n) h;
  header_to_str := Some;
  base64_standard_decode := Some;
|}.
Definition sample_crypto : CryptoCrates := {|
  sha256_digest s := s;
  base64url_encode s := s;
  argon2_verify p h := Some (String.eqb p h);
|}.
Definition sample_tokens : TokenCrates := {|
  jwt_encode kid _ claims := Some (kid +:+ "." +:+ claims.(sub));
  uuid_to_string _ := "uuid";
|}.
Definition sample_aes : AesGcm := {|
  KeyEncryptionKey := string;
  aes_encrypt key nonce aad text := Some (key +:+ ":" +:+ text);
  aes_decrypt key nonce aad text := strip_prefix (key +:+ ":") text;
|}.
Definition sample_url : UrlCrate := {|
  Url := string; Url_parse := Some; url_scheme _ := "https"; url_host _ := None;
  url_username _ := ""; url_password _ := None; url_fragment _ := None; url_port _ := None;
  url_cannot_be_a_base _ := false;
|}.

(** ** Requests *)

Definition sample_signing : SigningMaterial := mk_SigningMaterial "kid" "pem" Null.
Definition sample_state : AppState (AG := sample_aes) :=
  mk_AppState (AG := sample_aes) 1 "https://id.example/" None (Some sample_signing)
    "https://web.example" Production None ["scim-secret"].
Definition sample_env (now : OffsetDateTime) (n : Uuid) (value : string) : CallEnv :=
  mk_CallEnv now now n value (n + 1) (value +:+ "-refresh") (n + 2).
Definition form_headers : list (string * string) :=
  [("content-type", "application/x-www-form-urlencoded")].
Definition code_body : string :=
  "grant_type=authorization_code&code=code&client_id=app&redirect_uri=https%3A%2F%2Fapp.example%2Fcb&code_verifier="
  +:+ sample_verifier.
Definition refresh_body : string :=
  "grant_type=refresh_token&refresh_token=refresh&client_id=app".

(** ** A browser *)

(** Identifiers of sessions are written in decimal. *)
Definition sample_uuids : UuidCrate := {|
  Uuid_parse_str s := Z.to_N <$> parse_i64 s;
|}.
(** The query after the first question mark, the path from the first slash
    after the scheme. *)
Definition before_query (u : string) : string := default u (fst <$> split_once "?"%char u).
Definition after_scheme (u : string) : string := default u (strip_prefix "https://" (before_query u)).
Definition sample_origin (u : string) : string :=
  default (after_scheme u) (fst <$> split_once "/"%char (after_scheme u)).
Definition sample_path (u : string) : string :=
  "/" +:+ default "" (snd <$> split_once "/"%char (after_scheme u)).
Definition sample_query_of (u : string) : option string := snd <$> split_once "?"%char u.
Definition sample_url_parts : UrlParts (H := sample_url) :=
  @Build_UrlParts sample_url sample_origin sample_path sample_query_of.
Definition sample_json : SerdeJson := {| serde_json_from_str _ := None |}.
Definition sample_csrf : string := "0123456789abcdefghijklmnopqrstuvwxyzABCDEF-".
Definition browser_headers : HeaderMap (HttpCrates := sample_http) :=
  [("cookie", "cairn_csrf=" +:+ sample_csrf +:+ "; cairn_session=6"); ("x-cairn-csrf", sample_csrf)].
(** The query of a request of the sample client. *)
Definition sample_query : string :=
  "response_type=code&client_id=app&redirect_uri=https://app.example/cb&scope=openid&state=xyz"
  +:+ "&code_challenge=E9Melhoa2OwvFrEMTJguCHaoeK1t8URWbuGJSstw-cM&code_challenge_method=S256".
Definition sample_authorize_env (value : string) : AuthorizeEnv :=
  mk_AuthorizeEnv 2000 2000 200 value.
Definition sample_consent : CreateConsentRequest :=
  mk_CreateConsentRequest "app" ("https://id.example/oauth2/authorize?" +:+ sample_query) ["openid"].
Definition sample_consent_env : ConsentEnv := mk_ConsentEnv 1900 1900 300 301 302 1900.

(** ** A login *)

(** A code is right when it is the secret; a password is its own hash. *)
Definition sample_totp : TotpCrate := {|
  TOTP := string;
  TOTP_new secret _ _ := Some secret;
  totp_check secret _ code := Some (String.eqb secret code);
  totp_get_url secret := "otpauth://totp/" +:+ secret;
  totp_get_secret_base32 secret := secret;
|}.
Definition sample_argon2 : Argon2Hash := {| argon2_hash _ password := Some password |}.
Definition sample_times : TimeFormat := {| rfc3339_format _ := None |}.
Definition sample_base64 : Base64Decode := {| base64url_decode := Some |}.
(** Passkeys are their credential ids, and every ceremony succeeds. *)
Definition sample_webauthn : WebAuthnCrate (H := sample_url) :=
  @Build_WebAuthnCrate sample_url (fun _ => Some "id.example")
    unit string unit unit string string unit
    (fun _ _ => Some tt) (fun _ _ _ => Some (Null, tt)) (fun _ _ _ => Some tt)
    (fun _ _ _ _ _ _ => Some (Null, tt)) (fun _ registration _ => Some registration)
    (fun passkey _ => Some (false, passkey)) (fun passkey => passkey)
    (fun passkey => Some (String_ passkey)) as_str
    (fun _ => Some Null) (fun _ => Some tt) (fun _ => Some Null) (fun _ => Some tt).
(** The state of a server that can encrypt secrets. *)
Definition mfa_state : AppState (AG := sample_aes) :=
  mk_AppState (AG := sample_aes) 1 "https://id.example/" (Some "kek") (Some sample_signing)
    "https://web.example" Production None ["scim-secret"].
Definition sample_recovery_code : MfaCredential :=
  mk_MfaCredential 40 1 2 MfaKind_RecoveryCode "Recovery code"
    (Object [("status", String_ "active"); ("code_hash", String_ "spare")]) sample_time None.
Definition sample_totp_factor : MfaCredential :=
  mk_MfaCredential 41 1 2 MfaKind_Totp "Authenticator"
    (Object [("status", String_ "active"); ("secret_ciphertext", String_ "kek:secret");
             ("secret_nonce", String_ "000000000000")]) sample_time None.
(** The sample user with an authenticator and a recovery code. *)
Definition mfa_database : Database :=
  on_mfa_credentials (fun _ => list_to_map [(40%N, sample_recovery_code); (41%N, sample_totp_factor)])
    sample_database.
Definition sample_challenge_env : ChallengeEnv := mk_ChallengeEnv 0 2000 400.
Definition sample_login_env (now : OffsetDateTime) (id : Uuid) : LoginEnv :=
  mk_LoginEnv now now now (mk_MfaEnv (fun _ => now) now sample_challenge_env now) now id (id + 1)
    (id + 2) now.
Definition sample_identity : RequestIdentity := mk_RequestIdentity (Some (V4 192 0 2 1)).
Definition login_request (password : string) (code : option string) : LoginRequest
    (UC := sample_url) (WA := sample_webauthn) :=
  mk_LoginRequest (UC := sample_url) (WA := sample_webauthn) "ada@acme.example" password code None None
    None None.
Definition sample_enroll_env (event_id : Uuid) : EnrollEnv :=
  mk_EnrollEnv 2000 2000 "secret" "000000000000" 0 50 event_id 2000 2000
    [(60%N, "one"); (61%N, "two")].

Lemma sample_aes_round_trip : aes_round_trip sample_aes.
Proof.
  intros k n a m c. cbn. intros [= <-]. induction k as [|x k IH]; simpl; [reflexivity|].
  rewrite Ascii.eqb_refl. exact IH.
Qed.
