(* ===== verification/Races.v ===== *)
(** * A race the checks of a handler leave open

    The code exchange reads the user and the session in statements of their
    own and redeems the code in a later transaction, which looks at the code
    only; password recovery revokes sessions and tokens but not outstanding
    codes.  The run below, on the sample database, is a concrete
    interleaving in which an exchange that began before a recovery ends after
    it with a live access token. *)

From S2P Require Import Prelude RustStr Domain Authn Oidc Http Codec Store.
From S2P Require Import OAuthStore.
From S2P Require Import ClientStore SessionStore Directory Lifecycle AccountStore Handler KeyStore.
From S2P Require Import OAuthPolicy TokenEndpoint TokenStatus Concurrency Samples.

Section races.
#[local] Existing Instances sample_crypto sample_tokens sample_aes sample_http sample_url.

(** The recovery, as the handler that runs its transaction. *)
Definition recover (input : PasswordRecoveryInput) : Handler Reply :=
  do! _ := query (consume_password_recovery_token_and_reset_user_password input) in
  succeed (oauth_empty_response 200).
Definition racing_recovery : PasswordRecoveryInput :=
  mk_PasswordRecoveryInput 1 2 8 "new phc" None 2000.
Definition racing_pool : list (Handler Reply) :=
  [handle sample_state (Req_Token (sample_env 2000 100 "late") form_headers (Some code_body));
   recover racing_recovery].

(** Four reads of the exchange, the recovery, the redemption of the code. *)
Definition racing_schedule : list (nat * Fault) :=
  [(0, Answered); (0, Answered); (0, Answered); (0, Answered); (1, Answered); (0, Answered)].
Definition finished {A} (p : Prog A) : bool := match p with Ret _ => true | _ => false end.

(** C28. Password recovery does not stop an exchange that is under way: there is
    an interleaving, without any failing statement, in which the exchange of
    an authorization code checks the session, a password recovery of the same
    user succeeds, and the exchange then still succeeds; the user is left
    with a live access token, which introspection calls active, although the
    same recovery run on its own leaves none. *)
Theorem recovery_races_code_exchange :
  exists ps db',
    rtc pool_step (racing_pool, sample_database) (ps, db')
    /\ (exists reply, ps !! 0 = Some (Ret (Ok reply)) /\ issues_tokens (Ok reply))
    /\ ps !! 1 = Some (Ret (Ok (oauth_empty_response 200)))
    /\ ~ user_credentials_dead 1 2 db'
    /\ (exists v, run (introspection_response_for_token sample_state sample_client
                         (hash_token "late") None 2000) db' = (Ok v, db')
          /\ v <> inactive_introspection_response)
    /\ user_credentials_dead 1 2 (run (recover racing_recovery) sample_database).2.
Proof.
  pose (final := run_schedule racing_schedule (racing_pool, sample_database)).
  exists final.1, final.2. split_and!.
  - rewrite <- surjective_pairing. apply run_schedule_steps.
  - eexists. split; [vm_compute; reflexivity|]. eexists _, _. split; reflexivity.
  - vm_compute. reflexivity.
  - intros (_ & Ha & _).
    destruct (t_access_tokens final.2 !! "late") as [t|] eqn:E; [|vm_compute in E; discriminate E].
    destruct (Ha "late" t E) as [x Hx]; vm_compute in E; injection E as <-; done.
  - eexists. split; [vm_compute; reflexivity|discriminate].
  - destruct (consume_password_recovery_token_and_reset_user_password racing_recovery sample_database)
      as [[[m|]|e] db1] eqn:E; [|vm_compute in E; discriminate E..].
    simpl. rewrite E. simpl. by apply (recovery_dead racing_recovery sample_database m).
Qed.
End races.
