(* ===== verification/Witnesses.v ===== *)
(** * The theorems at concrete inputs

    Each theorem with hypotheses, applied to the sample database or to
    concrete requests, with the hypotheses discharged by computation.  The
    crates the program calls are instantiated by simple functions. *)

From S2P Require Import Prelude RustStr Domain Authn Oidc Http Codec Store.
From S2P Require Import OAuthStore ClientStore SessionStore Directory Lifecycle AccountStore.
From S2P Require Import Handler KeyStore RateLimit OAuthPolicy TokenEndpoint TokenStatus Concurrency CutOff.
From S2P Require Import ConsentStore BrowserSession AuthorizeRequest Authorize.
From S2P Require Import Samples.

(** A run of a statement, split into its answer and its database. *)
Ltac run_eq := apply surjective_pairing.

Lemma oauth_client_auth_single_method_witness :
  oauth_client_auth_from_request (HC := sample_http) [] (Some "app") None
    = Ok (mk_OAuthClientAuth (Some "app") None)
  /\ (headers_get_all (HttpCrates := sample_http) [] "authorization" = []
      \/ @None string = Some "app").
Proof.
  split; [reflexivity|].
  destruct (oauth_client_auth_single_method (HC := sample_http) [] (Some "app") None
    (mk_OAuthClientAuth (Some "app") None) eq_refl) as [[H _]|[H _]]; [left|discriminate H].
  exact H.
Defined.

Lemma disable_client_revokes_witness :
  let run := update_oidc_client_status 1 5 ClientStatus_Disabled 2000 sample_database in
  (exists c m, fst run = Ok (Some (c, m))) /\ tokens_dead 1 5 (snd run).
Proof.
  split; [eexists _, _; vm_compute; reflexivity|].
  eapply (disable_client_revokes 1 5 2000 sample_database _ _ (surjective_pairing _)).
  vm_compute. reflexivity.
Defined.

Definition sample_details : OidcClientDetailsUpdate :=
  mk_OidcClientDetailsUpdate "App" ["https://app.example/cb"] [] ["openid"] None.
Lemma update_client_details_invalidates_witness :
  exists c l m db',
    update_oidc_client_details 1 5 sample_details 2000 sample_database = (Ok (Some (c, l, m)), db')
    /\ other_credentials_kept 1 5 sample_database db'.
Proof.
  destruct (update_oidc_client_details 1 5 sample_details 2000 sample_database) as [r db'] eqn:E.
  assert (Hr : exists c l m, r = Ok (Some (c, l, m))).
  { apply (f_equal fst) in E. vm_compute in E. rewrite <- E. eexists _, _, _. reflexivity. }
  destruct Hr as (c & l & m & ->). exists c, l, m, db'. split; [reflexivity|].
  destruct (update_client_details_invalidates 1 5 sample_details 2000 sample_database c l m db' E)
    as (? & ? & ? & ? & ? & ? & ? & ? & ? & Hk).
  exact Hk.
Defined.

Definition sample_new_session : AuthSession :=
  mk_AuthSession 26 1 2 "mfa" ["pwd"; "otp"] 2000 sample_later None.
Lemma rotate_auth_session_spec_witness :
  let run := rotate_auth_session_with_context 6 sample_new_session 2000 default_request_context
               sample_database in
  fst run = Ok tt
  /\ t_auth_sessions (snd run) !! 26%N = Some (mk_SessionRow sample_new_session None None).
Proof.
  intros run. assert (Hok : fst run = Ok tt) by (vm_compute; reflexivity). split; [exact Hok|].
  destruct (rotate_auth_session_spec 6 sample_new_session 2000 default_request_context
    sample_database _ _ (surjective_pairing run)) as (_ & H & _).
  destruct (H Hok) as (row & _ & _ & _ & _ & _ & _ & _ & Hnew & _). exact Hnew.
Defined.

(** *** The directory *)

Lemma sample_directory_wf : directory_wf sample_database.
Proof.
  split.
  - intros k u Hk. cbn in Hk. repeat (apply lookup_insert_Some in Hk as [[<- <-]|[_ Hk]]; [done|]). done.
  - intros k g Hk. cbn in Hk. by apply lookup_singleton_Some in Hk as [<- <-].
  - intros k m Hk. cbn in Hk. repeat (apply lookup_insert_Some in Hk as [[<- <-]|[_ Hk]]; [done|]). done.
  - intros k1 k2 g1 g2 H1 H2. cbn in H1, H2.
    apply lookup_singleton_Some in H1 as [<- _]. by apply lookup_singleton_Some in H2 as [<- _].
Qed.
Lemma sample_has_owner : has_active_owner 1 "admins" sample_database.
Proof.
  exists 4%N, sample_group, 2%N. split_and!; [done..|]. split; eexists; split_and!; done.
Qed.
Lemma last_active_owner_is_kept_witness :
  let suspend := update_user_status 1 2 UserStatus_Suspended "admins" 2000 in
  fst (suspend sample_database) = Ok UserStatusWouldDeactivateLastOwner
  /\ has_active_owner 1 "admins" (snd (suspend sample_database)).
Proof.
  split; [vm_compute; reflexivity|].
  apply (last_active_owner_is_kept 1 "admins" sample_database).
  - apply rtc_once. eexists _, _, _. split; [apply op_status|apply surjective_pairing].
  - exact sample_directory_wf.
  - exact sample_has_owner.
Defined.

Lemma update_user_status_spec_witness :
  let run := update_user_status 1 3 UserStatus_Locked "admins" 2000 sample_database in
  (exists u, fst run = Ok (UserStatusApplied u)) /\ user_credentials_dead 1 3 (snd run).
Proof.
  intros run. pose proof (update_user_status_spec 1 3 UserStatus_Locked "admins" 2000 sample_database
    _ _ sample_directory_wf (surjective_pairing run)) as H.
  assert (Hu : exists u, fst run = Ok (UserStatusApplied u))
    by (eexists; vm_compute; reflexivity).
  split; [exact Hu|]. destruct Hu as [u Hu]. rewrite Hu in H.
  destruct H as (? & _ & _ & _ & _ & Hd & _). apply Hd. discriminate.
Defined.

Definition sample_scim_update : ScimUserUpdateInput :=
  mk_ScimUserUpdateInput 1 2 "ada@new.example" None true "Ada" UserStatus_Active "admins" 2000.
Lemma update_user_from_scim_spec_witness :
  exists u db', update_user_from_scim sample_scim_update sample_database = (Ok (ScimUserApplied u), db')
    /\ user_email_verified u = false.
Proof.
  destruct (update_user_from_scim_spec sample_scim_update sample_database sample_directory_wf)
    as (r & db' & Hr & Hspec).
  assert (Hu : exists u, r = ScimUserApplied u).
  { apply (f_equal fst) in Hr. vm_compute in Hr. injection Hr as <-. eexists. reflexivity. }
  destruct Hu as [u ->]. exists u, db'. split; [exact Hr|].
  destruct Hspec as (_ & _ & u0 & Hu0 & _ & _ & _ & _ & _ & Hv & _).
  vm_compute in Hu0. injection Hu0 as <-. destruct (user_email_verified u); [|reflexivity].
  destruct (proj1 Hv eq_refl) as [_ He]. discriminate He.
Defined.

(** *** Account tokens *)

Definition sample_recovery_input : PasswordRecoveryInput :=
  mk_PasswordRecoveryInput 1 2 8 "new phc" None 2000.
Lemma sample_tokens_keyed : account_tokens_keyed sample_database.
Proof. intros k t Hk. cbn in Hk. by apply lookup_singleton_Some in Hk as [<- <-]. Qed.
Lemma recover_password_spec_witness :
  let run := consume_password_recovery_token_and_reset_user_password sample_recovery_input
               sample_database in
  (exists m, fst run = Ok (Some m)) /\ user_credentials_dead 1 2 (snd run).
Proof.
  intros run. assert (Hm : exists m, fst run = Ok (Some m)) by (eexists; vm_compute; reflexivity).
  split; [exact Hm|]. destruct Hm as [m Hm].
  destruct (recover_password_spec sample_recovery_input sample_database _ _ sample_tokens_keyed
    (surjective_pairing run)) as (_ & _ & H).
  destruct (H m Hm) as (t & u & _ & _ & _ & _ & Hd & _). exact Hd.
Defined.

Definition sample_change_input : PasswordChangeInput :=
  mk_PasswordChangeInput 1 2 "new phc" sample_new_session default_request_context None 2000.
Lemma change_password_spec_witness :
  let run := change_user_password_and_rotate_session sample_change_input sample_database in
  (exists m, fst run = Ok (Some m)) /\ no_live_recovery_token 1 2 2000 (snd run).
Proof.
  intros run. assert (Hm : exists m, fst run = Ok (Some m)) by (eexists; vm_compute; reflexivity).
  split; [exact Hm|]. destruct Hm as [m Hm].
  destruct (change_password_spec sample_change_input sample_database _ _
    (surjective_pairing run)) as (_ & _ & H).
  destruct (H m Hm) as (u & _ & _ & _ & _ & _ & _ & Hd & _). exact Hd.
Defined.

Lemma account_token_single_use_witness :
  let run := consume_account_token 8 2000 sample_database in
  fst run = Ok true
  /\ t_account_tokens (snd run) !! 8%N = Some (account_token_spend 2000 sample_recovery).
Proof.
  intros run. assert (Hok : fst run = Ok true) by (vm_compute; reflexivity). split; [exact Hok|].
  destruct (account_token_single_use 8 2000 _ sample_database _ _ (redeem_alone 8 2000)
    (surjective_pairing run)) as (H & _ & _).
  destruct (H Hok) as (t & Ht & _ & _ & Ht'). vm_compute in Ht. injection Ht as <-. exact Ht'.
Defined.

(** *** Keys and limits *)

Definition sample_key (kid : string) : SigningKeyMaterial :=
  mk_SigningKeyMaterial kid "RS256" Null "ciphertext" "nonce" true sample_time None.
Lemma single_active_signing_key_witness :
  let db1 := snd (upsert_signing_key_material (sample_key "old") sample_database) in
  let db2 := snd (upsert_signing_key_material (sample_key "new") db1) in
  key_row_signing_active <$> t_signing_keys db2 !! "old" = Some false /\ single_active db2.
Proof.
  intros db1 db2. split; [vm_compute; reflexivity|].
  assert (H0 : single_active sample_database) by (intros k1 k2 r1 r2 H1; discriminate H1).
  destruct (single_active_signing_key _ _ _ _ _ (op_upsert_key (sample_key "old")) H0
    (surjective_pairing _)) as [H1 _].
  destruct (single_active_signing_key _ _ _ _ _ (op_upsert_key (sample_key "new")) H1
    (surjective_pairing _)) as [H2 _]. exact H2.
Defined.

Lemma signing_key_rotation_round_trip_witness :
  let stored := mk_SigningKeyMaterial "kid" "RS256" Null "k1:pem" "000000000000" true 1000 None in
  let stored' := mk_SigningKeyMaterial "kid" "RS256" Null "k2:pem" "000000000000" true 1000 None in
  decrypt_signing_material (AG := sample_aes) stored "k1" = Ok sample_signing
  /\ decrypt_signing_material (AG := sample_aes) stored' "k2" = Ok sample_signing.
Proof.
  intros stored stored'.
  destruct (signing_key_rotation_round_trip sample_aes "000000000000" 1000 sample_signing "k1" "k2"
    stored stored' sample_aes_round_trip eq_refl) as (H1 & H2 & _).
  destruct (H1 eq_refl eq_refl) as [H _]. destruct (H2 eq_refl) as [H' _].
  rewrite H'. split; exact H.
Defined.

Lemma rate_limit_lockout_witness :
  let db' := fail_at "login" "login" 1000 3 5000000000 [10; 20; 30]%Z sample_database in
  exists s, run (enforce_rate_limit 40 [mk_RateLimitKey "login" "login"]) db'
            = (Err (api_rate_limited s), db') /\ (1 <= s <= 4)%Z.
Proof.
  intros db'.
  destruct (rate_limit_lockout "login" "login" 1000 3 5000000000 10 [20]%Z 30 40 sample_database)
    as (_ & H & _); [reflexivity|reflexivity|repeat constructor|].
  destruct (H ltac:(discriminate) ltac:(reflexivity)) as (s & Hs & Hle). exists s.
  split; [exact Hs|]. vm_compute (Z.max _ _) in Hle. exact Hle.
Defined.

(** *** The endpoints *)

Section endpoints.
#[local] Existing Instances sample_crypto sample_tokens sample_aes sample_http sample_url.

Definition sample_refresh_request : OAuthRequest :=
  Req_Token (sample_env 2000 100 "new") form_headers (Some refresh_body).
Definition sample_code_request (n : Uuid) (value : string) : OAuthRequest :=
  Req_Token (sample_env 2000 n value) form_headers (Some code_body).

Lemma sample_clients_keyed : clients_keyed sample_database.
Proof. intros k c Hk. cbn in Hk. by apply lookup_singleton_Some in Hk as [<- <-]. Qed.

Lemma issued_token_is_backed_witness :
  let served := run (handle sample_state sample_refresh_request) sample_database in
  exists resp, reply_body <$> fst served = Ok (Body_Token resp)
    /\ exists auth client access,
         token_backed sample_state (sample_env 2000 100 "new") auth sample_database (snd served)
           resp client access.
Proof.
  intros served.
  assert (Hr : exists reply resp, fst served = Ok reply /\ reply_body reply = Body_Token resp)
    by (eexists _, _; vm_compute; split; reflexivity).
  destruct Hr as (reply & resp & Hr & Hb). exists resp.
  split; [rewrite Hr; exact (f_equal Ok Hb)|].
  assert (Hrun : run (token sample_state (sample_env 2000 100 "new") form_headers (Some refresh_body))
    sample_database = (Ok reply, snd served)) by (rewrite <- Hr; apply surjective_pairing).
  destruct (issued_token_is_backed _ _ _ _ _ _ _ _ sample_clients_keyed Hrun Hb)
    as (body & form & auth & client & access & _ & _ & _ & H). exists auth, client, access. exact H.
Defined.

Lemma introspection_spec_witness :
  exists v, run (introspection_response_for_token sample_state sample_client "access" None 2000)
              sample_database = (Ok v, sample_database)
    /\ v <> inactive_introspection_response.
Proof.
  destruct (introspection_spec sample_state sample_client "access" None 2000 sample_database)
    as (v & Hv & _ & Hact & _); [right; reflexivity|].
  exists v. split; [exact Hv|]. apply Hact. left. exists (sample_access "access").
  split; vm_compute; reflexivity.
Defined.

Lemma revocation_spec_witness :
  exists db', run (revoke_token_for_client sample_client "refresh" None 2000) sample_database = (Ok tt, db')
    /\ forall r, t_access_tokens db' !! "access" = Some r ->
         access_refresh_family_id r = Some 7%N -> access_revoked_at r <> None.
Proof.
  destruct (revocation_spec sample_client "refresh" None 2000 sample_database)
    as (db' & Hrun & _ & _ & H & _); [left; reflexivity|].
  exists db'. split; [exact Hrun|]. intros r.
  destruct (H (sample_refresh 9 "refresh") eq_refl eq_refl) as (_ & Ha & _). exact (Ha "access" r).
Defined.

(** Two requests with the same code, their statements alternating. *)
Definition two_codes : list OAuthRequest := [sample_code_request 100 "one"; sample_code_request 200 "two"].
Definition two_refreshes : list OAuthRequest :=
  [Req_Token (sample_env 2000 100 "one") form_headers (Some refresh_body);
   Req_Token (sample_env 2000 200 "two") form_headers (Some refresh_body)].
Definition alternating : list (nat * Fault) :=
  flat_map (fun _ => [(0, Answered); (1, Answered)]) (seq 0 10).
Definition outcome {A} (p : Prog A) : option A := match p with Ret a => Some a | _ => None end.
Lemma outcome_Ret {A} (p : Prog A) a : outcome p = Some a -> p = Ret a.
Proof. destruct p; [by intros [= ->]|done]. Qed.

Lemma code_redeemed_at_most_once_witness :
  let final := run_schedule alternating (serve sample_state <$> two_codes, sample_database) in
  exists r o, final.1 !! 0 = Some (Ret (r, o)) /\ issues_tokens o
    /\ forall j o', final.1 !! j = Some (Ret (sample_code_request 200 "two", o')) ->
         issues_tokens o' -> 0 = j.
Proof.
  intros final.
  assert (H0 : exists r o p, final.1 !! 0 = Some p /\ outcome p = Some (r, o)
    /\ r = sample_code_request 100 "one" /\ issues_tokens o).
  { eexists _, _, _. split_and!; [vm_compute; reflexivity|simpl; reflexivity|vm_compute; reflexivity|].
    eexists _, _. split; reflexivity. }
  destruct H0 as (r & o & p & Hp & Ho%outcome_Ret & -> & Ht). subst p.
  exists (sample_code_request 100 "one"), o. split; [exact Hp|]. split; [exact Ht|].
  intros j o' Hj Ht'.
  apply (code_redeemed_at_most_once sample_state two_codes sample_database final.1 final.2 "code"
    ltac:(rewrite <- surjective_pairing; apply run_schedule_steps) 0 j _ _ _ _ Hp Hj);
    [vm_compute; reflexivity|vm_compute; reflexivity|exact Ht|exact Ht'].
Defined.

Lemma refresh_token_exchanged_at_most_once_witness :
  let final := run_schedule alternating (serve sample_state <$> two_refreshes, sample_database) in
  exists r o, final.1 !! 0 = Some (Ret (r, o)) /\ issues_tokens o
    /\ forall j r' o', final.1 !! j = Some (Ret (r', o')) -> presented_refresh r' = Some "refresh" ->
         issues_tokens o' -> 0 = j.
Proof.
  intros final.
  assert (H0 : exists r o p, final.1 !! 0 = Some p /\ outcome p = Some (r, o)
    /\ r = Req_Token (sample_env 2000 100 "one") form_headers (Some refresh_body) /\ issues_tokens o).
  { eexists _, _, _. split_and!; [vm_compute; reflexivity|simpl; reflexivity|vm_compute; reflexivity|].
    eexists _, _. split; reflexivity. }
  destruct H0 as (r & o & p & Hp & Ho%outcome_Ret & -> & Ht). subst p.
  eexists _, o. split; [exact Hp|]. split; [exact Ht|]. intros j r' o' Hj Hr' Ht'.
  apply (refresh_token_exchanged_at_most_once sample_state two_refreshes sample_database final.1 final.2
    "refresh" ltac:(rewrite <- surjective_pairing; apply run_schedule_steps) 0 j _ _ _ _ Hp Hj);
    [vm_compute; reflexivity|exact Hr'|exact Ht|exact Ht'].
Defined.

Lemma locked_out_user_stays_out_witness :
  let locked := update_user_status 1 3 UserStatus_Locked "admins" 2000 sample_database in
  (exists u, fst locked = Ok (UserStatusApplied u))
  /\ user_credentials_dead 1 3 (serve_all sample_state two_codes (snd locked)).
Proof.
  intros locked. assert (Hu : exists u, fst locked = Ok (UserStatusApplied u))
    by (eexists; vm_compute; reflexivity).
  split; [exact Hu|]. destruct Hu as [u Hu].
  assert (Hl : locks_out 1 3 (snd locked)).
  { eapply (locked_by_status 1 3 UserStatus_Locked "admins" 2000 sample_database u);
      [rewrite <- Hu; apply surjective_pairing|discriminate]. }
  destruct (locked_out_user_stays_out sample_state 3 (snd locked) two_codes Hl) as [H _]. exact H.
Defined.
End endpoints.

(** *** A browser: consent and authorization *)

Section browser.
#[local] Existing Instances sample_crypto sample_tokens sample_aes sample_http sample_url sample_uuids
  sample_url_parts sample_json.

Definition consent_run : result ApiError ConsentGrant * Database :=
  run (create_consent sample_state sample_consent_env browser_headers sample_consent) sample_database.
(** The database once the user has agreed. *)
Definition consented_database : Database := snd consent_run.
Lemma sample_authorizations_keyed : authorizations_keyed sample_database.
Proof. intros k c Hk. discriminate Hk. Qed.
Lemma consented_authorizations_keyed : authorizations_keyed consented_database.
Proof.
  assert (exists c, t_consent_authorizations consented_database = {[301%N := c]} /\ consent_id c = 301%N)
    as (c0 & Ht & Hid) by (eexists; split; vm_compute; reflexivity).
  intros k c Hk. rewrite Ht in Hk. by apply lookup_singleton_Some in Hk as [<- <-].
Qed.

Definition sample_consumption : ConsentAuthorizationConsumption :=
  mk_ConsentAuthorizationConsumption 1 2 6 5
    ("https://id.example/oauth2/authorize?" +:+
     "response_type=code&client_id=app&redirect_uri=https%3A%2F%2Fapp.example%2Fcb&scope=openid&state=xyz"
     +:+ "&code_challenge=E9Melhoa2OwvFrEMTJguCHaoeK1t8URWbuGJSstw-cM&code_challenge_method=S256")
    ["openid"] 2000.
Lemma consume_consent_authorization_spec_witness :
  exists db', run (consume_consent_authorization sample_consumption) consented_database = (Ok true, db')
    /\ exists id, forall c, t_consent_authorizations db' !! id = Some c -> ~ consumable sample_consumption c.
Proof.
  destruct (consume_consent_authorization_spec sample_consumption consented_database
    consented_authorizations_keyed) as (used & db' & Hr & _ & _ & H).
  assert (Hu : used = true) by (apply (f_equal fst) in Hr; vm_compute in Hr; injection Hr; done).
  subst used. exists db'. split; [exact Hr|]. destruct (H eq_refl) as (id & c & _ & _ & _ & Hn).
  exists id. exact Hn.
Defined.

Definition sample_pairs : list (string * string) :=
  match authorization_query_pairs (Some sample_query) with Ok pairs => pairs | Err _ => [] end.
Definition authorize_run (db : Database) : result ApiError Reply * Database :=
  run (authorize_with_pairs sample_state (sample_authorize_env "newcode") browser_headers sample_pairs) db.
Lemma authorize_redirects_are_safe_witness :
  exists reply target, fst (authorize_run sample_database) = Ok reply
    /\ reply = oauth_redirect_response target
    /\ ((exists uri query, uri ∈ client_redirect_uris sample_client
           /\ target = uri +:+ query_separator uri +:+ query)
        \/ (exists rest, target = config_public_web_origin sample_state +:+ "/login?return_to=" +:+ rest)
        \/ (exists rest, target = config_public_web_origin sample_state +:+ "/consent?return_to=" +:+ rest)).
Proof.
  assert (Hr : exists reply, fst (authorize_run sample_database) = Ok reply)
    by (eexists; vm_compute; reflexivity).
  destruct Hr as [reply Hr].
  destruct (authorize_redirects_are_safe sample_state (sample_authorize_env "newcode") browser_headers
    sample_pairs sample_database reply (snd (authorize_run sample_database)))
    as (client & target & Hc & Ht & Hsafe & _); [rewrite <- Hr; apply surjective_pairing|].
  exists reply, target. split; [exact Hr|]. split; [exact Ht|].
  vm_compute in Hc. injection Hc as <-. exact Hsafe.
Defined.

Lemma authorize_code_spec_witness :
  let db' := snd (authorize_run consented_database) in
  t_authorization_codes db' <> t_authorization_codes consented_database
  /\ exists client request validated session,
       may_issue consented_database sample_state (sample_authorize_env "newcode") browser_headers
         sample_pairs client request validated session.
Proof.
  intros db'.
  assert (Hne : t_authorization_codes db' <> t_authorization_codes consented_database).
  { intros H. apply (f_equal (fun m => is_some (m !! "newcode"))) in H. vm_compute in H. discriminate H. }
  split; [exact Hne|].
  destruct (authorize_code_spec sample_state (sample_authorize_env "newcode") browser_headers sample_pairs
    consented_database _ db' consented_authorizations_keyed (surjective_pairing _)) as [H _].
  destruct (H Hne) as (client & request & validated & session & _ & Hmay & _).
  exists client, request, validated, session. exact Hmay.
Defined.

Lemma consent_leads_to_code_witness :
  exists grant target db2,
    fst consent_run = Ok grant
    /\ run (authorize sample_state (sample_authorize_env "newcode") false browser_headers
              (Some sample_query) None) consented_database
       = (Ok (oauth_redirect_response target), db2).
Proof.
  assert (Hg : exists grant, fst consent_run = Ok grant) by (eexists; vm_compute; reflexivity).
  destruct Hg as [grant Hg].
  assert (Hv : exists v, validate (fst (authorization_request_from_query_pairs sample_pairs)) sample_client
      = Ok v /\ val_max_age v = None /\ val_acr_values v = [] /\ requires_login (val_prompt v) = false)
    by (eexists; vm_compute; split_and!; reflexivity).
  destruct Hv as (v & Hv & Hage & Hacr & Hlogin).
  destruct (consent_leads_to_code sample_state sample_consent_env (sample_authorize_env "newcode")
    browser_headers sample_consent sample_database grant consented_database
    (create_return_to sample_consent : Url (UrlCrate := sample_url)) sample_pairs
    (fst (authorization_request_from_query_pairs sample_pairs)) v sample_client
    (row_session (sample_session 6 2))) as (db2 & Hrun & _).
  - exact sample_authorizations_keyed.
  - rewrite <- Hg. apply surjective_pairing.
  - reflexivity.
  - vm_compute. reflexivity.
  - reflexivity.
  - vm_compute. reflexivity.
  - vm_compute. reflexivity.
  - exact Hv.
  - exact Hlogin.
  - eexists "6", 6%N. split; [vm_compute; reflexivity|]. split; [vm_compute; reflexivity|].
    split; [vm_compute; reflexivity|]. split_and!; try reflexivity.
    eexists. split; vm_compute; [reflexivity|]. split; reflexivity.
  - rewrite Hage. reflexivity.
  - rewrite Hacr. reflexivity.
  - vm_compute. reflexivity.
  - split; vm_compute; reflexivity.
  - eexists grant, _, db2. split; [exact Hg|]. exact Hrun.
Defined.

Lemma return_url_round_trip_witness :
  exists request validated,
    validate request sample_client = Ok validated
    /\ exists back, authorization_query_pairs (Some (authorize_url_query request Mode_RemoveConsent)) = Ok back
       /\ validate (fst (authorization_request_from_query_pairs back)) sample_client
          = Ok (val_with_prompt (returned_prompt (val_prompt validated) Mode_RemoveConsent) validated).
Proof.
  set (request := fst (authorization_request_from_query_pairs sample_pairs)).
  assert (Hv : exists v, validate request sample_client = Ok v) by (eexists; vm_compute; reflexivity).
  destruct Hv as [v Hv]. exists request, v. split; [exact Hv|].
  destruct (return_url_round_trip sample_query sample_pairs request None sample_client v Mode_RemoveConsent)
    as (back & r & Hb & _ & Hr & Hback & _);
    [vm_compute; reflexivity|vm_compute; reflexivity|exact Hv|vm_compute; discriminate|].
  exists back. split; [exact Hb|]. rewrite Hr. exact Hback.
Defined.
End browser.
