(* ===== verification/LoginWitnesses.v ===== *)
(** * The theorems on logins and factors at concrete inputs

    A user with an authenticator and a recovery code logs in, guesses wrong,
    enrolls and revokes factors. *)

From S2P Require Import Prelude RustStr Domain Authn Oidc Http Codec Store.
From S2P Require Import SessionStore AuditStore MfaStore.
From S2P Require Import Handler KeyStore RateLimit OAuthPolicy RequestContext BrowserSession Mfa.
From S2P Require Import Login MfaRaces MfaRoutes Samples.

#[local] Existing Instances sample_crypto sample_tokens sample_aes sample_http sample_url sample_uuids
  sample_totp sample_argon2 sample_times sample_base64 sample_webauthn.

Lemma recovery_code_single_use_witness :
  exists db', consume_active_recovery_code 1 2 "spare" 2000 mfa_database = (Ok true, db')
    /\ (consume_active_recovery_code 1 2 "spare" 2001 db').1 = Ok false.
Proof.
  destruct (consume_active_recovery_code 1 2 "spare" 2000 mfa_database) as [r db'] eqn:E.
  assert (Hr : r = Ok true) by (apply (f_equal fst) in E; vm_compute in E; by rewrite <- E).
  subst r. exists db'. split; [reflexivity|].
  destruct (recovery_code_single_use 1 2 "spare" 2000 mfa_database true db' E) as (_ & _ & _ & _ & _ & H).
  apply H.
Defined.

(** The user logs in with the recovery code. *)
Definition recovery_login : result ApiError LoginReply * Database :=
  run (login mfa_state (sample_login_env 2000 500) sample_identity browser_headers
         (login_request "phc" (Some "spare"))) mfa_database.
Lemma login_spec_witness :
  exists user cookie, fst recovery_login = Ok (Login_Session user cookie)
    /\ user_id user = 2%N
    /\ not_blocked mfa_database 2000 (login_verified_user_rate_limit_keys 1 (user_id user) sample_identity).
Proof.
  assert (Hr : exists user cookie, fst recovery_login = Ok (Login_Session user cookie) /\ user_id user = 2%N)
    by (eexists _, _; vm_compute; split; reflexivity).
  destruct Hr as (user & cookie & Hr & Hid). exists user, cookie. split; [exact Hr|]. split; [exact Hid|].
  destruct (login_spec mfa_state (sample_login_env 2000 500) sample_identity browser_headers
    (login_request "phc" (Some "spare")) mfa_database user cookie (snd recovery_login)) as (_ & _ & Hb & _);
    [rewrite <- Hr; apply surjective_pairing|]. exact Hb.
Defined.

Definition wrong_attempt (now : OffsetDateTime) : LoginAttempt :=
  (sample_login_env now 600, browser_headers, login_request "guess" None).
Lemma wrong_attempt_wrong now : wrong_login mfa_state (t_users mfa_database) (wrong_attempt now).
Proof.
  split; [vm_compute; reflexivity|]. exists "ada@acme.example". split; [vm_compute; reflexivity|].
  intros db u Hu (Hfind & _ & h & Hh & Hv).
  unfold user_by_email in Hfind. rewrite Hu in Hfind. vm_compute in Hfind. injection Hfind as <-.
  vm_compute in Hh. injection Hh as <-. vm_compute in Hv. discriminate Hv.
Qed.
Lemma login_lockout_witness :
  let db5 := fold_left (serve_login mfa_state sample_identity)
    (wrong_attempt 1000 :: [wrong_attempt 2000; wrong_attempt 3000; wrong_attempt 4000] ++ [wrong_attempt 5000])
    mfa_database in
  exists seconds, run (login mfa_state (sample_login_env 6000 700) sample_identity browser_headers
    (login_request "phc" (Some "spare"))) db5 = (Err (api_rate_limited seconds), db5).
Proof.
  intros db5.
  destruct (login_lockout mfa_state sample_identity mfa_database (wrong_attempt 1000)
    [wrong_attempt 2000; wrong_attempt 3000; wrong_attempt 4000] (wrong_attempt 5000)
    (sample_login_env 6000 700) browser_headers (login_request "phc" (Some "spare")))
    as (error & H & Hlimited).
  - intros b Hb. vm_compute in Hb. discriminate Hb.
  - reflexivity.
  - cbn [app]. repeat (constructor; [apply wrong_attempt_wrong|]). constructor.
  - cbn [app]. repeat (constructor; [vm_compute; reflexivity|]). constructor.
  - vm_compute. reflexivity.
  - destruct Hlimited as (seconds & -> & _); [vm_compute; reflexivity|vm_compute; reflexivity|].
    exists seconds. exact H.
Defined.

(** Two logins that have read the recovery code present it next to each other. *)
Definition two_checks : list FactorCheck :=
  [Check_Code (fun _ => 2000%Z) 1 2 [] [sample_recovery_code] "spare";
   Check_Code (fun _ => 2001%Z) 1 2 [] [sample_recovery_code] "spare"].
Lemma second_factor_shown_once_witness :
  let final := run_schedule [(0, Answered); (1, Answered)]
    (serve_check mfa_state <$> two_checks, mfa_database) in
  exists a, final.1 !! 0 = Some (Ret a) /\ by_recovery_code 1 2 "spare" a
    /\ forall j b, final.1 !! j = Some (Ret b) -> by_recovery_code 1 2 "spare" b -> 0 = j.
Proof.
  intros final.
  assert (H0 : exists a, final.1 !! 0 = Some (Ret a) /\ by_recovery_code 1 2 "spare" a)
    by (eexists; split; [vm_compute; reflexivity|vm_compute; split_and!; reflexivity]).
  destruct H0 as (a & Ha & Hc). exists a. split; [exact Ha|]. split; [exact Hc|]. intros j b Hb Hcb.
  destruct (second_factor_shown_once mfa_state two_checks mfa_database final.1 final.2) as [H _].
  - rewrite <- surjective_pairing. apply run_schedule_steps.
  - repeat (constructor; [repeat (constructor; [split; reflexivity|]); constructor|]). constructor.
  - exact (H 1%N 2%N "spare" 0 j a b Ha Hb Hc Hcb).
Defined.

(** Before any factor: the first authenticator. *)
Definition recovery_headers : HeaderMap :=
  [("cookie", "cairn_csrf=" +:+ sample_csrf +:+ "; cairn_session=500"); ("x-cairn-csrf", sample_csrf)].
Definition start_run : result ApiError (TotpEnrollment) * Database :=
  run (start_totp_mfa mfa_state (sample_enroll_env 51) browser_headers (Some "Phone")) sample_database.
Definition confirm_run : result ApiError (list string) * Database :=
  run (confirm_totp_mfa mfa_state (sample_enroll_env 52) browser_headers 50 "secret") (snd start_run).

Lemma factors_are_protected_witness :
  snd start_run <> sample_database
  /\ exists session, carries_session sample_database mfa_state 2000 browser_headers session
       /\ (2000 <= session_created_at session + duration_minutes 15)%Z.
Proof.
  assert (Hne : snd start_run <> sample_database).
  { intros H. apply (f_equal (fun db => is_some (t_mfa_credentials db !! 50%N))) in H.
    vm_compute in H. discriminate H. }
  split; [exact Hne|].
  destruct (factors_are_protected mfa_state (sample_enroll_env 51) browser_headers _
    (start_totp_mfa mfa_state (sample_enroll_env 51) browser_headers (Some "Phone")) sample_database _ _
    (route_start_totp _ _ _ (Some "Phone")) (surjective_pairing _) Hne) as (session & Hs & _ & Hr & _).
  exists session. split; [exact Hs|exact Hr].
Defined.

Lemma sample_base64_round_trip : base64_round_trip.
Proof. done. Qed.
Lemma start_rows_keyed : mfa_keyed (snd start_run).
Proof.
  assert (exists c, t_mfa_credentials (snd start_run) = {[50%N := c]} /\ mfa_id c = 50%N)
    as (c0 & Ht & Hid) by (eexists; split; vm_compute; reflexivity).
  intros k c Hk. rewrite Ht in Hk. by apply lookup_singleton_Some in Hk as [<- <-].
Qed.
Lemma totp_enrollment_spec_witness :
  fst confirm_run = Ok ["one"; "two"]
  /\ exists r, active_factor (snd confirm_run) 1 2 MfaKind_RecoveryCode r
       /\ json_text (mfa_secret_metadata r) "code_hash" = Some "one".
Proof.
  assert (Hc : fst confirm_run = Ok ["one"; "two"]) by (vm_compute; reflexivity). split; [exact Hc|].
  assert (Hs : fst start_run = Ok (mk_TotpEnrollment 50 "otpauth://totp/secret" "secret"))
    by (vm_compute; reflexivity).
  destruct (totp_enrollment_spec mfa_state (sample_enroll_env 51) browser_headers (Some "Phone")
    sample_database (mk_TotpEnrollment 50 "otpauth://totp/secret" "secret") (snd start_run)
    (sample_enroll_env 52) browser_headers "secret" (snd start_run) ["one"; "two"] (snd confirm_run))
    as (session & c & Hsess & _ & Hcodes).
  - exact sample_aes_round_trip.
  - exact sample_base64_round_trip.
  - reflexivity.
  - vm_compute. reflexivity.
  - exact start_rows_keyed.
  - rewrite <- Hs. apply surjective_pairing.
  - reflexivity.
  - rewrite <- Hc. apply surjective_pairing.
  - destruct (Hcodes (60%N, "one")) as (r & Hr & Hh); [vm_compute; left|].
    exists r. split; [|exact Hh].
    destruct Hsess as (cookie & id & H1 & H2 & H3 & _).
    vm_compute in H1. injection H1 as <-. vm_compute in H2. injection H2 as <-.
    vm_compute in H3. injection H3 as <-. exact Hr.
Defined.

(** The user revokes the only authenticator. *)
Definition revoke_run : result ApiError MfaCredentialSummary * Database :=
  run (revoke_session_mfa_credential mfa_state (sample_enroll_env 53) recovery_headers 41) (snd recovery_login).

Lemma recovery_rows_keyed : mfa_keyed (snd recovery_login).
Proof.
  assert (exists c c', t_mfa_credentials (snd recovery_login) = list_to_map [(40%N, c); (41%N, c')]
    /\ mfa_id c = 40%N /\ mfa_id c' = 41%N)
    as (c & c' & Ht & Hid & Hid') by (eexists _, _; split; vm_compute; [reflexivity|done]).
  intros k x Hk. rewrite Ht in Hk. cbn in Hk.
  apply lookup_insert_Some in Hk as [[<- <-]|[_ Hk]]; [exact Hid|].
  apply lookup_insert_Some in Hk as [[<- <-]|[_ Hk]]; [exact Hid'|done].
Qed.
Lemma revoke_factor_spec_witness :
  exists summary, fst revoke_run = Ok summary /\ summary_status summary = "revoked"
    /\ forall kind c, active_factor (snd revoke_run) 1 2 kind c -> mfa_id c <> 41%N.
Proof.
  assert (Hr : exists summary, fst revoke_run = Ok summary) by (eexists; vm_compute; reflexivity).
  destruct Hr as [summary Hr]. exists summary. split; [exact Hr|].
  destruct (revoke_factor_spec mfa_state (sample_enroll_env 53) recovery_headers 41 (snd recovery_login) summary
    (snd revoke_run) recovery_rows_keyed) as (session & Hsess & _ & Hs & Hgone & _);
    [rewrite <- Hr; apply surjective_pairing|].
  split; [exact Hs|]. destruct Hsess as (cookie & id & H1 & H2 & H3 & _).
  vm_compute in H1. injection H1 as <-. vm_compute in H2. injection H2 as <-.
  vm_compute in H3. injection H3 as <-. intros kind c Hc. exact (proj1 (Hgone kind c Hc)).
Defined.
