(* ===== verification/MailWitnesses.v ===== *)
(** * The theorems on e-mail, account links and listings at concrete inputs

    Two workers deliver the same outbox, a provider that is down is tried till
    the attempts are used up, a recovery link is queued and followed, and the
    sample organization is listed page by page. *)

From S2P Require Import Prelude RustStr Domain Authn Oidc Http Codec Store.
From S2P Require Import SessionStore Directory Lifecycle AccountStore AuditStore OutboxStore.
From S2P Require Import Handler KeyStore OAuthPolicy RequestContext BrowserSession.
From S2P Require Import Mfa Login Delivery AccountRoutes Listing Samples.
From Stdlib Require Import Ascii.

(** ** E-mail *)

Section mail.
#[local] Existing Instances sample_crypto sample_tokens sample_aes sample_http sample_url sample_uuids
  sample_argon2 sample_times.

Definition queued_message (id : Uuid) : EmailOutboxMessage :=
  mk_EmailOutboxMessage id 1 "ada@acme.example" "Hello" "Welcome." "welcome" None None None "queued" 0
    None None Null sample_time sample_time None None.
Definition mail_database : Database :=
  on_email_outbox (fun _ => list_to_map [(70%N, queued_message 70); (71%N, queued_message 71)])
    sample_database.
Definition sample_delivery : EmailDeliveryConfig := mk_EmailDeliveryConfig (EmailProvider_Command "mail") 10 2 60 300.
Definition provider_down : MailCommand := fun _ => Err Delivery_ProviderCommandJoin.
Definition provider_up : MailCommand := fun _ => Ok (Some "receipt").
Definition worker_at (now : OffsetDateTime) (command : MailCommand) : DeliveryEnv :=
  mk_DeliveryEnv now (fun _ => command) (fun _ => now).

Lemma mail_database_keyed : outbox_keyed mail_database.
Proof.
  intros k m Hk. cbn in Hk. apply lookup_insert_Some in Hk as [[<- <-]|[_ Hk]]; [done|].
  apply lookup_insert_Some in Hk as [[<- <-]|[_ Hk]]; [done|]. by rewrite lookup_empty in Hk.
Qed.
Definition two_workers : list DeliveryEnv := [worker_at 2000 provider_up; worker_at 2001 provider_down].
(** The first worker claims, the second finds nothing, the first marks. *)
Definition two_workers_schedule : list (nat * Fault) := [(0, Answered); (1, Answered); (0, Answered); (0, Lost)].
Definition two_workers_start : list (Worker EmailDeliveryReport) * Database :=
  (deliver_once mfa_state sample_delivery <$> two_workers, mail_database).
Definition two_workers_end : list (Worker EmailDeliveryReport) * Database :=
  run_schedule two_workers_schedule two_workers_start.
Definition two_workers_history : list Database := schedule_history two_workers_schedule two_workers_start.
Lemma outbox_refines_mail_queue_witness :
  mail_trace 70 mail_database two_workers_history = [Ev_Claimed 2000; Ev_Sent 2000]
  /\ exists m' s', t_email_outbox (snd two_workers_end) !! 70%N = Some m'
       /\ mail_state m' = Some s'
       /\ mail_run (sending_timeout sample_delivery) (Mail_Waiting 0 None)
            (mail_trace 70 mail_database two_workers_history) = Some s'.
Proof.
  split; [vm_compute; reflexivity|].
  destruct (outbox_refines_mail_queue mfa_state sample_delivery two_workers mail_database
    two_workers_history (fst two_workers_end) (snd two_workers_end) mail_database_keyed) as (_ & _ & H & _).
  - rewrite <- surjective_pairing. exact (run_schedule_history two_workers_schedule two_workers_start).
  - destruct (H 70%N (queued_message 70) (Mail_Waiting 0 None)) as (m' & s' & Hm & _ & Hs & Hr & _);
      [vm_compute; reflexivity|reflexivity|].
    exists m', s'. split; [exact Hm|]. split; [exact Hs|exact Hr].
Defined.

(** The provider is down: each message is tried twice and given up. *)
Definition down_rounds : list DeliveryEnv :=
  (fun n => worker_at (2000 + 100 * Z.of_nat n * 1000000000) provider_down) <$> seq 0 6.
Lemma down_ready : ready sample_delivery 2000 mail_database.
Proof.
  split; [apply mail_database_keyed|]. intros id m Hm. right. cbn in Hm.
  apply lookup_insert_Some in Hm as [[_ <-]|[_ Hm]]; [done|].
  apply lookup_insert_Some in Hm as [[_ <-]|[_ Hm]]; [done|]. by rewrite lookup_empty in Hm.
Qed.
Lemma outbox_drains_witness :
  let db' := deliver_rounds mfa_state sample_delivery mail_database down_rounds in
  dom (t_email_outbox db') = dom (t_email_outbox mail_database)
  /\ (forall id m', t_email_outbox db' !! id = Some m' -> email_final m' = true)
  /\ (email_status <$> t_email_outbox db' !! 70%N) = Some "failed".
Proof.
  intros db'.
  destruct (outbox_drains mfa_state sample_delivery (worker_at 2000 provider_down) (tail down_rounds)
    mail_database) as (Hdom & Hfin & _).
  - split_and!; [done|by eexists|done|done].
  - apply down_ready.
  - cbn. split_and!; try exact I; try (intros i); vm_compute; intros; discriminate.
  - apply Nat.leb_le. vm_compute. reflexivity.
  - split; [exact Hdom|]. split; [exact Hfin|vm_compute; reflexivity].
Defined.

(** ** A recovery link *)

Definition sample_account_env : AccountEnv :=
  mk_AccountEnv 2000 2000 2000 2000 2000 80 2000 81 "the-secret" "000000000000" 2000 82 "salt" 83 2000.
Definition sample_recovery_request : AccountLifecycleEmail :=
  recovery_request (uwp_user (sample_user 2 "ada@acme.example" UserStatus_Active)).
Lemma account_link_round_trip_witness :
  exists message, render_email message mfa_state
    = Ok (mk_EmailCommandPayload 82 "ada@acme.example" "Reset your Cairn Identity password"
            (link_body "Reset your Cairn Identity password."
               "https://web.example/reset-password?token=the-secret") "password_recovery"
            (email_metadata message)).
Proof.
  destruct (run (queue_account_lifecycle_email mfa_state sample_account_env sample_recovery_request)
    sample_database) as [r db1] eqn:E.
  assert (Hr : exists q, r = Ok q) by (apply (f_equal fst) in E; vm_compute in E; rewrite <- E; eauto).
  destruct Hr as [q ->].
  destruct (account_link_round_trip mfa_state sample_account_env sample_recovery_request "kek"
    sample_database q db1 sample_aes_round_trip eq_refl eq_refl) as (message & token & Hm & _ & Hrender & _);
    [vm_compute; reflexivity..|exact E|].
  exists message. destruct (Hrender message eq_refl) as (payload & Hp & Hto & Htext). rewrite Hp. f_equal.
  apply (f_equal snd) in E. cbn [snd] in E. subst db1. vm_compute in Hm. injection Hm as <-.
  vm_compute in Hp. injection Hp as <-. vm_compute. reflexivity.
Defined.

Lemma complete_recovery_spec_witness :
  let done := run (complete_password_recovery mfa_state sample_account_env sample_identity browser_headers
                     "recovery" "correct horse battery") sample_database in
  (exists m, fst done = Ok m) /\ user_credentials_dead 1 2 (snd done).
Proof.
  intros done. assert (Hok : exists m, fst done = Ok m) by (eexists; vm_compute; reflexivity).
  split; [exact Hok|]. destruct Hok as [m Hm].
  assert (Hkeyed : account_tokens_keyed sample_database).
  { intros k t Hk. cbn in Hk. by apply lookup_singleton_Some in Hk as [<- <-]. }
  destruct (complete_recovery_spec mfa_state sample_account_env sample_identity browser_headers "recovery"
    "correct horse battery" sample_database _ _ Hkeyed (surjective_pairing done))
    as [(e & He & _)|(k & t & u & uid & h & _ & _ & _ & Ht & _ & _ & _ & _ & _ & Huid & _ & _ & _ & _ & _ & _
                      & _ & Hdead)]; [by rewrite Hm in He|].
  cbn in Ht. apply lookup_singleton_Some in Ht as [_ <-]. injection Huid as <-. exact Hdead.
Defined.
End mail.

(** ** Pages *)

(** An encoding that swaps the byte of the payload which is not base64url. *)
Fixpoint swap_dots (s : string) : string :=
  match s with
  | EmptyString => EmptyString
  | String c s =>
      String (if Ascii.eqb c "." then "_" else if Ascii.eqb c "_" then "." else c)%char (swap_dots s)
  end.
Lemma swap_dots_twice s : swap_dots (swap_dots s) = s.
Proof.
  induction s as [|c s IH]; [done|]. cbn. rewrite IH. f_equal. by destruct c as [[] [] [] [] [] [] [] []].
Qed.
Lemma swap_dots_safe s :
  s <> "" -> all_bytes payload_byte s = true ->
  all_bytes url_safe_byte (swap_dots s) = true /\ swap_dots s <> ""
  /\ 3 * String.length (swap_dots s) <= 4 * String.length s + 2.
Proof.
  intros Hne Hs. split_and!; [|by destruct s|].
  - clear Hne. induction s as [|c s IH]; [done|]. cbn [all_bytes swap_dots] in *.
    apply andb_true_iff in Hs as [Hc Hs]. rewrite (IH Hs), andb_true_r.
    by destruct c as [[] [] [] [] [] [] [] []].
  - assert (String.length (swap_dots s) = String.length s) by (clear; induction s; cbn; congruence). lia.
Qed.

Section paging.
Definition paging_crypto : CryptoCrates := {|
  sha256_digest s := s; base64url_encode := swap_dots; argon2_verify p h := Some (String.eqb p h) |}.
Definition paging_base64 : Base64Decode := {| base64url_decode s := Some (swap_dots s) |}.
Definition paging_tokens : TokenCrates := {|
  jwt_encode _ _ _ := None; uuid_to_string := pretty |}.
Definition paging_clock : TimeNanos := {| from_unix_timestamp_nanos := Some |}.
#[local] Existing Instances paging_crypto paging_base64 paging_tokens paging_clock sample_uuids.

Lemma sample_cursor id :
  Uuid_parse_str (pretty id) = Some id -> all_bytes payload_byte (pretty id) = true ->
  (String.length (pretty id) <=? 36) = true -> cursor_crates (mk_ListCursor sample_time id).
Proof.
  intros Hr Ht Hl. apply Nat.leb_le in Hl. split; try done.
  - intros s. cbn. by rewrite swap_dots_twice.
  - intros s. apply swap_dots_safe.
Qed.
Lemma pages_are_the_listing_witness :
  option_map (List.map user_id)
    (all_pages user_created_at user_id 1
       (list_users_page_filtered (fun _ _ => true) 1 default_user_list_filter) 3 sample_database)
  = Some [3%N; 2%N].
Proof.
  destruct (pages_are_the_listing (fun _ _ => true) 1 sample_database 1) as (Hu & _ & _ & _).
  - done.
  - intros k u Hk. cbn in Hk. apply lookup_insert_Some in Hk as [[<- <-]|[_ Hk]].
    { split; [done|]. apply sample_cursor; vm_compute; reflexivity. }
    apply lookup_insert_Some in Hk as [[<- <-]|[_ Hk]]; [|by rewrite lookup_empty in Hk].
    split; [done|]. apply sample_cursor; vm_compute; reflexivity.
  - intros k g Hk. cbn in Hk. apply lookup_singleton_Some in Hk as [<- <-].
    split; [done|]. apply sample_cursor; vm_compute; reflexivity.
  - intros k c Hk. cbn in Hk. apply lookup_singleton_Some in Hk as [<- <-].
    split; [done|]. apply sample_cursor; vm_compute; reflexivity.
  - intros k e Hk. cbn in Hk. by rewrite lookup_empty in Hk.
  - rewrite (Hu default_user_list_filter 3); [vm_compute; reflexivity|].
    apply Nat.ltb_lt. vm_compute. reflexivity.
Defined.
End paging.
