(* ===== verification/SessionWitnesses.v ===== *)
(** * The theorems on sessions, configuration and metadata at concrete inputs

    A user signs out of the sample organization, by the page and by a client
    that shows the ID token it was issued; a production configuration with one
    trusted proxy starts the service; and a signing key stays published while
    another one takes its place. *)

From S2P Require Import Prelude RustStr IpAddr Domain Authn Oidc Http Codec.
From S2P Require Import Store.
From S2P Require Import ClientStore SessionStore Directory AuditStore.
From S2P Require Import Handler KeyStore OAuthPolicy RequestContext BrowserSession.
From S2P Require Import AuthorizeRequest Mfa Login Delivery Listing SessionRoutes Logout Config.
From S2P Require Import Metadata.
From S2P Require Import Samples.

(** ** Signing out *)

Section signing_out.
#[local] Existing Instances sample_crypto sample_aes sample_http sample_uuids sample_base64 sample_times.

(** Every text is a header value. *)
#[local] Instance sample_header_values : HeaderValues := {| header_value_from_str := Some |}.

Definition sample_hint_claims : IdTokenClaims :=
  mk_IdTokenClaims "https://id.example" "uuid" "app" 600 0 None None None None None
    (Some ["pwd"]) (Some "pwd") None.
#[local] Instance IdTokenClaims_eq_dec : EqDecision IdTokenClaims.
Proof. solve_decision. Defined.
(** One key, which signs one document. *)
#[local] Instance sample_signer : TokenCrates := {|
  jwt_encode kid _ claims :=
    if String.eqb kid "kid" && bool_decide (claims = sample_hint_claims) then Some "signed" else None;
  uuid_to_string _ := "uuid";
|}.
#[local] Instance sample_decoder : JwtDecode := {|
  DecodingKey := unit;
  decode_header _ := Some (mk_JwtHeader RS256 (Some "kid"));
  from_rsa_components _ _ := Some tt;
  jwt_decode _ _ v :=
    if contains (validation_iss v) "https://id.example" then Some sample_hint_claims else None;
|}.
Definition jwk_signing : SigningMaterial :=
  mk_SigningMaterial "kid" "pem" (Object [("n", String_ "n"); ("e", String_ "e")]).
Definition logout_state : AppState :=
  mk_AppState 1 "https://id.example/" None (Some jwk_signing) "https://web.example" Production None [].
Definition logout_client : OidcClient :=
  mk_OidcClient 5 1 "app" None None "App" ["https://app.example/cb"] ["https://app.example/bye"]
    ["openid"] [AuthorizationCodeGrant] true true ClientStatus_Active sample_time.
Definition logout_database : Database := on_oidc_clients (fun _ => {[5%N := logout_client]}) sample_database.
Definition logout_env : OwnEnv := mk_OwnEnv 2000 2001 80 2002.

Lemma logout_sessions_keyed : sessions_keyed logout_database.
Proof.
  intros k r H. cbn in H. apply lookup_insert_Some in H as [[<- <-]|[_ H]]; [done|].
  apply lookup_insert_Some in H as [[<- <-]|[_ H]]; [done|]. by rewrite lookup_empty in H.
Qed.
Lemma sign_out_spec_witness :
  let after := run (logout logout_state logout_env browser_headers) logout_database in
  no_session_left logout_state logout_env browser_headers (snd after)
  /\ session_ended logout_state logout_env browser_headers "browser" logout_database (snd after)
  /\ snd after <> logout_database.
Proof.
  intros after.
  pose proof (proj1 (sign_out_spec logout_state logout_env browser_headers logout_database
    logout_sessions_keyed) _ _ (surjective_pairing after)) as H.
  assert (Hc : require_csrf browser_headers = Ok tt) by (vm_compute; reflexivity).
  assert (Hok : exists reply, fst after = Ok reply) by (eexists; vm_compute; reflexivity).
  destruct Hok as [reply Hok]. rewrite Hc in H. destruct H as [Hno H].
  split; [exact Hno|]. split; [exact (proj1 (H _ Hok))|].
  intros He. apply (f_equal (fun db => size (t_audit_events db))) in He. vm_compute in He. discriminate.
Defined.

Definition hint_request : IdTokenIssueRequest :=
  mk_IdTokenIssueRequest "https://id.example/" logout_client
    (uwp_user (sample_user 2 "ada@acme.example" UserStatus_Active)) ["openid"] None None ["pwd"] "pwd" None jwk_signing.
Lemma sample_jwt_round_trip : jwt_round_trip jwk_signing.
Proof.
  exists "n", "e", tt. split_and!; [reflexivity..|]. intros kid claims token v. cbn.
  destruct (String.eqb_spec kid "kid") as [->|]; [|discriminate].
  case_bool_decide as Hc; [|discriminate]. subst claims. intros [= <-].
  split; [discriminate|]. split; [reflexivity|]. split; [reflexivity|]. intros _ _ _ _ Hi.
  assert (contains (validation_iss v) "https://id.example" = true) as ->; [|reflexivity].
  by apply contains_true.
Qed.
Lemma issued_token_logs_out_witness :
  exists reply db', run (end_session logout_state logout_env browser_headers
      (Some (logout_query "signed" "https://app.example/bye" "xyz"))) logout_database = (Ok reply, db')
    /\ no_session_left logout_state logout_env browser_headers db'
    /\ sends_to reply (Some "https://app.example/bye?state=xyz").
Proof.
  destruct (issued_token_logs_out logout_state logout_env browser_headers logout_database 1000 hint_request
    logout_client "signed" "https://app.example/bye" "xyz")
    as (reply & db' & Hr & _ & Hn & Hs & _);
    [exact logout_sessions_keyed|reflexivity|exact sample_jwt_round_trip|reflexivity|
     vm_compute; reflexivity|vm_compute; reflexivity|reflexivity|reflexivity|by left|discriminate|
     reflexivity|reflexivity|vm_compute; discriminate|
     split; [by eexists|by eexists|by eexists|reflexivity|by eexists]|].
  exists reply, db'. split; [exact Hr|]. split; [exact Hn|].
  assert (Ht : append_post_logout_redirect_params "https://app.example/bye" (Some "xyz")
               = "https://app.example/bye?state=xyz") by (vm_compute; reflexivity).
  rewrite <- Ht. exact Hs.
Defined.
End signing_out.

(** ** The configuration *)

Section configuration.
#[local] Existing Instances sample_crypto sample_tokens sample_aes sample_http sample_base64 sample_json
  sample_url sample_url_parts.
#[local] Instance sample_host_text : UrlHostText := {| url_host_str _ := Some "id.example" |}.
#[local] Instance sample_key_bytes : KeyBytes := {| key_of_bytes bytes := bytes |}.

Definition sample_variables : list (string * string) :=
  [("CAIRN_ENV", "production"); ("CAIRN_ISSUER", "https://id.example");
   ("CAIRN_PUBLIC_WEB_ORIGIN", "https://web.example"); ("DATABASE_URL", "postgres://db");
   ("CAIRN_BOOTSTRAP_SETUP_SECRET", " secret "); ("CAIRN_EMAIL_BATCH_SIZE", "-7");
   ("CAIRN_TRUSTED_PROXY_IPS", "10.0.0.1, ::1")].
Definition sample_environ : Environ := fun name =>
  snd <$> List.find (fun kv => String.eqb (fst kv) name) sample_variables.
Definition sample_config : ApiConfig :=
  mk_ApiConfig Production "127.0.0.1:8080" "https://id.example" "https://web.example" "postgres://db"
    "default" [] (mk_AuditOperationsConfig 365 1000 10000)
    (mk_EmailDeliveryConfig EmailProvider_Disabled 1 5 300 900) [V4 10 0 0 1; V6 [0; 0; 0; 0; 0; 0; 0; 1]%N]
    (Some (hash_token "secret")) None None.

Lemma accepted_configuration_witness :
  api_config_from_env sample_environ = Ok sample_config
  /\ public_origin Production "https://id.example"
  /\ secure_cookies (app_state 1 sample_config) = true.
Proof.
  assert (H : api_config_from_env sample_environ = Ok sample_config) by (vm_compute; reflexivity).
  split; [exact H|].
  destruct (accepted_configuration sample_environ sample_config 1 H) as (_ & Hi & _ & Hp & _).
  split; [exact Hi|]. exact (proj1 (proj2 (Hp eq_refl))).
Defined.

Definition forwarding_headers : HeaderMap := [("x-forwarded-for", "203.0.113.7, 10.0.0.1")].
Lemma forwarded_address_needs_proxy_witness :
  let identity := request_identity_from_parts (api_request_identity sample_config) forwarding_headers in
  identity (Some (V4 192 0 2 1)) = mk_RequestIdentity (Some (V4 192 0 2 1))
  /\ identity (Some (V4 10 0 0 1)) = mk_RequestIdentity (Some (V4 203 0 113 7)).
Proof.
  assert (H : api_config_from_env sample_environ = Ok sample_config) by (vm_compute; reflexivity).
  split.
  - destruct (forwarded_address_needs_proxy sample_environ sample_config forwarding_headers []
      (Some (V4 192 0 2 1)) 1 H) as (_ & Hout & _).
    refine (proj1 (Hout _ eq_refl _)). apply (bool_decide_eq_false_1 _). vm_compute. reflexivity.
  - destruct (forwarded_address_needs_proxy sample_environ sample_config forwarding_headers []
      (Some (V4 10 0 0 1)) 1 H) as (_ & _ & _ & Hin).
    etransitivity; [exact (Hin _ eq_refl ltac:(by left))|]. vm_compute. reflexivity.
Defined.

(** An address of the user interface written with a slash at its end is
    accepted, but no browser writes it so in the Origin header. *)
Definition slash_state : AppState :=
  mk_AppState 1 "https://id.example" None None "https://web.example/" Production None [].
Lemma slash_origin_refuses_browser :
  validate_public_origin Production "CAIRN_PUBLIC_WEB_ORIGIN" (config_public_web_origin slash_state) = Ok tt
  /\ validate_api_browser_origin slash_state "POST" "/api/v1/auth/login" [("origin", "https://web.example")]
     = Err invalid_request_origin.
Proof. split; vm_compute; reflexivity. Qed.
End configuration.

(** ** The published keys *)

Section keys.
#[local] Existing Instances sample_crypto sample_tokens sample_aes.

Definition stored_row (kid : string) : SigningKeyMaterialRow :=
  mk_SigningKeyMaterialRow kid "RS256" (String_ kid) (Some "kek:pem") (Some "000000000000") true
    sample_time None.
Definition keys_database : Database :=
  on_signing_keys (fun _ => {["first" := stored_row "first"]}) sample_database.
Definition second_key : SigningKeyMaterial :=
  mk_SigningKeyMaterial "second" "RS256" (String_ "second") "kek:pem" "000000000000" true sample_later None.
Lemma issued_tokens_stay_verifiable_witness :
  exists keys, run (jwks mfa_state) (snd (upsert_signing_key_material second_key keys_database))
      = (Ok keys, snd (upsert_signing_key_material second_key keys_database))
    /\ String_ "first" ∈ keys.
Proof.
  refine (proj1 (issued_tokens_stay_verifiable mfa_state keys_database _) "kek" _
    (mk_SigningMaterial "first" "pem" (String_ "first")) _ mfa_state eq_refl _ _ _).
  - intros k row H. cbn in H. apply lookup_singleton_Some in H as [<- <-]. reflexivity.
  - vm_compute. reflexivity.
  - vm_compute. reflexivity.
  - apply rtc_once. exists unit, (upsert_signing_key_material second_key). eexists.
    split; [constructor; discriminate|apply surjective_pairing].
Defined.
End keys.
