(* ===== verification/OperatorWitnesses.v ===== *)
(** * The theorems on the operator's commands at concrete inputs

    A key and a link are re-encrypted under a new key encryption key, which an
    authenticator does not survive; a suspended member is made an owner of the
    administrators group; two services that start at once disagree on the
    organization; and an audit log is purged of what expired and written to
    files one after the other. *)

From S2P Require Import Prelude RustStr Domain Authn Oidc Http Codec Store.
From S2P Require Import SessionStore.
From S2P Require Import Directory Lifecycle AuditStore Frames StatementFrames.
From S2P Require Import Handler KeyStore OAuthPolicy BrowserSession AuthorizeRequest Mfa Delivery Config.
From S2P Require Import Listing KeyRotation Operator AuditOperations Samples SessionWitnesses.

(** ** Rotating the key encryption key *)

Section rotation.
#[local] Existing Instances sample_crypto sample_tokens sample_aes sample_base64 sample_totp.

Definition rotation_env : KeyEnv := mk_KeyEnv 70 (fun _ => "111111111111") "random" 2000.
Definition invitation_mail : EmailOutboxMessage :=
  mk_EmailOutboxMessage 30 1 "cy@acme.example" "Invitation" "Follow {{action_url}}" "invitation"
    (Some "/invite") (Some "kek:link") (Some "000000000000") "queued" 0 None None
    (Object [("kind", String_ "invitation"); ("account_token_id", String_ "uuid")]) 1000 1000 None None.
Definition rotation_database : Database :=
  on_email_outbox (fun _ => {[30%N := invitation_mail]})
    (on_signing_keys (fun _ => {["first" := stored_row "first"]}) mfa_database).
Definition old_kek : KeyEncryptionKey (AesGcm := sample_aes) := "kek".
Definition new_kek : KeyEncryptionKey (AesGcm := sample_aes) := "new".
Definition rotated := run (rotate_key_encryption rotation_env old_kek new_kek) rotation_database.

Lemma rotation_keys_keyed : signing_keys_keyed rotation_database.
Proof. intros k row H. cbn in H. apply lookup_singleton_Some in H as [<- <-]. reflexivity. Qed.
Lemma rotation_outbox_keyed : outbox_keyed rotation_database.
Proof. intros k m H. cbn in H. apply lookup_singleton_Some in H as [<- <-]. reflexivity. Qed.
Lemma rotation_single_key : single_active rotation_database.
Proof.
  intros k1 k2 r1 r2 H1 H2 _ _. cbn in H1, H2. apply lookup_singleton_Some in H1 as [<- _].
  by apply lookup_singleton_Some in H2 as [<- _].
Qed.
Lemma rotation_keeps_keys_and_links_witness :
  exists m', t_email_outbox (snd rotated) !! 30%N = Some m'
  /\ render_email m' (under_key new_kek mfa_state) = render_email invitation_mail mfa_state
  /\ m' <> invitation_mail.
Proof.
  destruct (rotation_keeps_keys_and_links rotation_env old_kek new_kek rotation_database (fst rotated) (snd rotated))
    as (_ & Hok & _);
    [exact sample_aes_round_trip|reflexivity|exact rotation_keys_keyed|exact rotation_outbox_keyed|
     exact rotation_single_key|apply surjective_pairing|].
  assert (exists report, fst rotated = Ok report) as [report Hr] by (eexists; vm_compute; reflexivity).
  destruct (proj2 (Hok report Hr) mfa_state eq_refl) as [_ Hm].
  destruct (Hm 30%N invitation_mail) as (m' & Hm' & Hrender); [reflexivity|].
  exists m'. split; [exact Hm'|]. split; [exact Hrender|]. intros ->.
  vm_compute in Hm'. discriminate Hm'.
Defined.

Lemma rotation_strands_authenticators_witness :
  fst (run (verify_mfa_code_against_credentials mfa_state (fun _ => 2000%Z) [sample_totp_factor]
        [sample_recovery_code] "secret") rotation_database) = Ok (Some Method_Totp)
  /\ fst (run (verify_mfa_code_against_credentials (under_key new_kek mfa_state) (fun _ => 2000%Z)
        [sample_totp_factor] [sample_recovery_code] "secret") (snd rotated))
     = Err (api_status 500 "MFA decryption failed").
Proof.
  split; [vm_compute; reflexivity|].
  assert (exists report, fst rotated = Ok report) as [report Hr] by (eexists; vm_compute; reflexivity).
  destruct (rotation_strands_authenticators rotation_env old_kek new_kek rotation_database report (snd rotated)
    mfa_state (fun _ => 2000%Z) sample_totp_factor [] [sample_recovery_code] "secret") as [_ H];
    [exact sample_aes_round_trip|reflexivity|exact rotation_keys_keyed|exact rotation_outbox_keyed|
     by rewrite <- Hr; apply surjective_pairing| |by rewrite H].
  exists (mk_EncryptedSecret "kek:secret" "000000000000"), "secret".
  split_and!; vm_compute; reflexivity.
Defined.
End rotation.

(** ** Breaking the glass *)

Section operator.
#[local] Existing Instances sample_crypto sample_tokens sample_aes sample_base64 sample_json
  sample_url sample_url_parts sample_host_text sample_key_bytes.
#[local] Instance sample_rsa : RsaKeys := {| rsa_generate_pem := None; jwk_from_pem _ _ := None |}.

Definition operator_environ : Environ := fun name =>
  if String.eqb name "CAIRN_BREAK_GLASS_CONFIRM" then Some "grant-admin-owner"
  else if String.eqb name "CAIRN_DEFAULT_ORG_SLUG" then Some "acme"
  else sample_environ name.
Definition operator_env : OperatorEnv := mk_OperatorEnv 3000 77 88 3000.
(** The only members are suspended. *)
Definition orphaned_database : Database :=
  on_users (fun _ => list_to_map [(2%N, sample_user 2 "ada@acme.example" UserStatus_Suspended);
                                  (3%N, sample_user 3 "bob@acme.example" UserStatus_Suspended)])
    sample_database.
Definition glass_args : list string := ["break-glass-owner"; " Bob@Acme.example "].

Lemma orphaned_wf : directory_wf orphaned_database.
Proof.
  split; cbn.
  - intros k u [[<- <-]|[_ H]]%lookup_insert_Some; [done|].
    apply lookup_insert_Some in H as [[<- <-]|[_ H]]; [done|]. by rewrite lookup_empty in H.
  - by intros k g [<- <-]%lookup_singleton_Some.
  - intros k m [[<- <-]|[_ H]]%lookup_insert_Some; [done|].
    apply lookup_insert_Some in H as [[<- <-]|[_ H]]; [done|]. by rewrite lookup_empty in H.
  - by intros k1 k2 g1 g2 [<- <-]%lookup_singleton_Some [<- <-]%lookup_singleton_Some.
Qed.
Lemma orphaned_members_wf : members_wf orphaned_database.
Proof.
  intros k m H. cbn in H. apply lookup_insert_Some in H as [[<- <-]|[_ H]]; [done|].
  apply lookup_insert_Some in H as [[<- <-]|[_ H]]; [done|]. by rewrite lookup_empty in H.
Qed.
Lemma break_glass_restores_administration_witness :
  let after := run (run_admin_command operator_environ operator_env glass_args) orphaned_database in
  (exists report, fst after = Ok report)
  /\ exists o, has_active_owner o ADMINISTRATORS_GROUP_SLUG (snd after).
Proof.
  intros after.
  destruct (break_glass_restores_administration operator_environ operator_env glass_args orphaned_database
    (fst after) (snd after) orphaned_wf orphaned_members_wf (surjective_pairing after)) as (_ & Hok & _).
  assert (exists report, fst after = Ok report) as [report Hr] by (eexists; vm_compute; reflexivity).
  split; [by exists report|].
  destruct (Hok report Hr) as (config & organization & u & address & _ & _ & _ & Hown & _).
  by exists (organization_id organization).
Defined.

(** ** Two services at once *)

Definition no_key_env : KeyEnv := mk_KeyEnv 71 (fun _ => "222222222222") "random" 2000.
Definition empty_database : Database :=
  mk_Database ∅ ∅ ∅ ∅ ∅ ∅ ∅ ∅ ∅ ∅ ∅ ∅ ∅ ∅ ∅ ∅ ∅ ∅ ∅.
(** Two services of a new deployment that look for the organization before
    either has created it each make up an identifier; the second insertion does
    nothing, and the second service serves an organization that does not exist. *)
Definition development_environ : Environ := fun name =>
  if String.eqb name "DATABASE_URL" then Some "postgres://db"
  else if String.eqb name "CAIRN_ISSUER" then Some "https://id.example"
  else if String.eqb name "CAIRN_PUBLIC_WEB_ORIGIN" then Some "https://web.example" else None.
Definition starting (new_id : Uuid) : Prog (result CommandError AppState) :=
  start_service development_environ no_key_env new_id 2000.
Lemma two_starts_disagree :
  let '(ended, db) := run_schedule [(0, Answered); (1, Answered); (0, Answered); (1, Answered)]%nat
    ([starting 100; starting 200], empty_database) in
  exists first second, ended = [Ret (Ok first); Ret (Ok second)]
    /\ is_Some (t_organizations db !! state_organization_id first)
    /\ t_organizations db !! state_organization_id second = None.
Proof.
  destruct (run_schedule _ _) as [ended db] eqn:E. vm_compute in E. injection E as <- <-.
  eexists _, _. split; [reflexivity|]. split; [by eexists|reflexivity].
Qed.
End operator.

(** ** The audit log *)

Section audit.
#[local] Existing Instances sample_crypto sample_tokens sample_aes sample_base64 sample_json
  sample_url sample_url_parts sample_host_text sample_key_bytes sample_uuids.
#[local] Instance no_times : Rfc3339Parse := {| rfc3339_parse _ := None |}.
#[local] Instance working_disk : Disk :=
  {| disk_creates _ := true; disk_writes _ _ := true; disk_syncs _ := true |}.

Definition logged (id organization : Uuid) (action : string) (day : Z) : AuditEvent :=
  mk_AuditEvent id organization ActorKind_System None action "audit" None None Null
    (duration_minutes (60 * 24 * day)).
(** Two expired events of the organization, a younger one, and one of another. *)
Definition logged_database : Database :=
  on_audit_events (fun _ => list_to_map [(41%N, logged 41 1 "first" 1); (42%N, logged 42 1 "second" 2);
    (43%N, logged 43 1 "third" 300); (44%N, logged 44 9 "foreign" 1)]) sample_database.
Definition purge_environ : Environ := fun name =>
  if String.eqb name "CAIRN_AUDIT_PURGE_BATCH_SIZE" then Some "1" else operator_environ name.
Definition purge_day : OffsetDateTime := duration_minutes (60 * 24 * 400).
Definition action_line (e : AuditEvent) : option string := Some (audit_action e).
Definition any_like (column pattern : string) : bool := true.

Lemma logged_keyed : audit_keyed logged_database.
Proof.
  intros k e H. cbn in H.
  repeat (apply lookup_insert_Some in H as [[<- <-]|[_ H]]; [done|]). by rewrite lookup_empty in H.
Qed.
Lemma purges_keep_the_retained_witness :
  let after := purge_at action_line any_like purge_environ [purge_day; purge_day] logged_database in
  t_audit_events after !! 44%N = Some (logged 44 9 "foreign" 1)
  /\ (forall k e, t_audit_events after !! k = Some e -> audit_organization_id e = 1%N ->
       (duration_minutes (60 * 24 * 35) <= audit_created_at e)%Z)
  /\ t_audit_events after !! 43%N = Some (logged 43 1 "third" 300).
Proof.
  intros after.
  assert (exists config, api_config_from_env purge_environ = Ok config
    /\ default_organization config logged_database = Some 1%N
    /\ audit_purge_batch_size (api_audit config) = 1%Z
    /\ audit_retention_days (api_audit config) = 365%Z) as (config & Hc & Ho & Hb & Hd)
    by (eexists; split_and!; vm_compute; reflexivity).
  destruct (purges_keep_the_retained action_line any_like purge_environ config Hc 1 [purge_day; purge_day]
    logged_database Ho logged_keyed) as (_ & _ & _ & Hkeep & Hdrain).
  rewrite Hb, Hd in *. split_and!.
  - destruct (Hkeep 44%N (logged 44 9 "foreign" 1)) as [H|[H _]]; [vm_compute; reflexivity|exact H|discriminate H].
  - intros k e He Heo. refine (Z.le_trans _ _ _ _ (Hdrain purge_day _ _ k e He Heo));
      [vm_compute; discriminate|repeat constructor; vm_compute; discriminate|].
    apply Nat.leb_le. vm_compute. reflexivity.
  - destruct (Hkeep 43%N (logged 43 1 "third" 300)) as [H|[_ (now & Hin & Hlt)]];
      [vm_compute; reflexivity|exact H|]. exfalso.
    repeat (apply elem_of_cons in Hin as [->|Hin]; [vm_compute in Hlt; discriminate Hlt|]).
    by apply elem_of_nil in Hin.
Defined.

Lemma exports_are_the_listing_witness :
  exists receipts files,
    export_all action_line any_like 1 10 2 default_audit_filter 0 ["a"; "b"; "c"; "d"; "e"] None ∅ logged_database
      = Some (receipts, files)
    /\ exported receipts files
       = "third" +:+ RequestContext.newline +:+ "second" +:+ RequestContext.newline
         +:+ "first" +:+ RequestContext.newline
    /\ files !! "b" = Some ("first" +:+ RequestContext.newline).
Proof.
  destruct (exports_are_the_listing working_disk action_line any_like 1 10 2 default_audit_filter 0
    logged_database logged_keyed) as (_ & _ & H); [vm_compute; split; discriminate|].
  destruct (H (fun _ => eq_refl) (fun _ _ => eq_refl) (fun _ => eq_refl)) with
    (paths := ["a"; "b"; "c"; "d"; "e"]) (files := (∅ : gmap string string))
    as (receipts & files & Hall & Hexp & _).
  - apply Forall_forall. intros e _. by eexists.
  - apply Nat.ltb_lt. vm_compute. reflexivity.
  - by apply (bool_decide_unpack (NoDup ["a"; "b"; "c"; "d"; "e"])).
  - apply Forall_forall. intros path _. apply lookup_empty.
  - exists receipts, files. split; [exact Hall|]. split; [rewrite Hexp; vm_compute; reflexivity|].
    vm_compute in Hall. injection Hall as _ <-. vm_compute. reflexivity.
Defined.

(** A prefix that was blank does not count as given: the flag may be repeated,
    where any other repetition is refused. *)
Lemma blank_prefix_may_repeat :
  is_Some (ok_of (audit_export_options ["log"; "--action"; " "; "--action"; "admin"] 10))
  /\ audit_export_options ["log"; "--action"; "user"; "--action"; "admin"] 10
     = Err (Command_InvalidInput "duplicate audit export --action").
Proof. split; [vm_compute; by eexists|vm_compute; reflexivity]. Qed.
End audit.
