(* ===== verification/EvidenceWitnesses.v ===== *)
(** * The theorems on the release evidence at concrete inputs

    A receipt of a purge that passes the check as an artifact, a document that
    does not, and the text of two failures. *)

From S2P Require Import Prelude RustStr Domain Authn Oidc Http Codec Store.
From S2P Require Import SessionStore Directory Lifecycle AuditStore Frames StatementFrames.
From S2P Require Import Handler KeyStore OAuthPolicy BrowserSession AuthorizeRequest Mfa Config Listing.
From S2P Require Import RequestContext KeyRotation Operator AuditOperations EvidenceRedaction EvidenceFields.
From S2P Require Import FileSystem Evidence Samples SessionWitnesses OperatorWitnesses.

Section evidence.
#[local] Existing Instances sample_crypto sample_aes sample_base64
  sample_url sample_url_parts sample_host_text sample_key_bytes.
(** Identifiers and instants are written in decimal. *)
#[local] Instance decimal_tokens : TokenCrates :=
  {| jwt_encode kid _ claims := None; uuid_to_string id := i64_to_string (Z.of_N id) |}.
#[local] Instance decimal_uuids : UuidCrate := {| Uuid_parse_str s := Z.to_N <$> parse_signed s |}.
#[local] Instance decimal_format : TimeFormat :=
  {| rfc3339_format at_ := if i64_range at_ then Some (i64_to_string at_) else None |}.
#[local] Instance decimal_parse : Rfc3339Parse := {| rfc3339_parse := parse_i64 |}.
#[local] Instance no_rsa : RsaKeys := {| rsa_generate_pem := None; jwk_from_pem _ _ := None |}.
#[local] Instance no_calendar : Calendar := {| calendar_instant _ _ _ _ _ _ := None |}.
#[local] Instance a_disk : Disk := {| disk_creates _ := true; disk_writes _ _ := true; disk_syncs _ := true |}.

Definition purge_receipt : AuditRetentionPurgeReport :=
  mk_AuditRetentionPurgeReport "ok" 1 365 (duration_minutes (60 * 24 * 35)) 1 1 purge_day.
Definition receipt_value : Value :=
  default Null (purge_report_json purge_receipt).
#[local] Instance one_document : SerdeJson :=
  {| serde_json_from_str s := if String.eqb s "receipt" then Some receipt_value else None |}.
Definition evidence_files : EvidenceFiles :=
  mk_EvidenceFiles (fun _ => Ok (Some (RegularFile, Some purge_day))) (fun _ => Ok "receipt").
Definition purge_spec : EvidenceSpec :=
  mk_EvidenceSpec "audit_retention_purge" "audit-retention-purge.json" "Audit operations" "cairn-api audit purge-expired"
    AuditRetentionPurge false true true false.
Definition one_validator (validator : EvidenceValidator) (value : Value) : Validation unit :=
  validate_audit_retention_purge value.
Notation checked := (check_artifact (fun _ => "") one_validator evidence_files purge_spec (purge_day + 5) 30).

Lemma passed_evidence_is_genuine_witness :
  exists report, checked = Ok report /\ artifact_status report = "passed" /\ ~ leaks receipt_value.
Proof.
  assert (exists report, checked = Ok report) as [report Hr] by (eexists; vm_compute; reflexivity).
  destruct (passed_evidence_is_genuine (fun _ => "") one_validator
    (fun _ value => proj1 (drill_validators_push value)) evidence_files purge_spec (purge_day + 5) 30 report Hr)
    as (_ & _ & Hpassed & _).
  assert (Hs : artifact_status report = "passed").
  { assert (result_fmap _ _ _ artifact_status checked = Ok "passed") as H by (vm_compute; reflexivity).
    rewrite Hr in H. by injection H. }
  exists report. split; [exact Hr|]. split; [exact Hs|].
  destruct (Hpassed Hs) as (modified_at & contents & value & found & _ & _ & Hc & Hv & _ & _ & Hl & _).
  injection Hc as <-. cbn in Hv. injection Hv as <-. by apply Hl.
Defined.

Lemma failures_hide_credentials_witness :
  sanitize_release_evidence_failure ("provider returned got " +:+ "BEARER " +:+ "first")
  = sanitize_release_evidence_failure ("provider returned got " +:+ "BEARER " +:+ "second").
Proof.
  refine (proj1 (failures_hide_credentials "provider returned got " "BEARER " "first" "second" _ _) _ _ _ _);
    try (vm_compute; reflexivity); discriminate.
Defined.
Lemma credentials_are_found_witness :
  leaks (String_ ("Authorization: " +:+ "Bearer" +:+ " " +:+ "s3cr3t" +:+ "; more"))
  /\ leaks (String_ ("Authorization: " +:+ "client_secret" +:+ "=" +:+ " " +:+ "s3cr3t" +:+ "; more")).
Proof.
  destruct (credentials_are_found "Authorization: " "Bearer" "client_secret" " " "s3cr3t" "; more") as [H1 H2].
  { split; vm_compute; reflexivity. }
  split; [apply H1|apply H2]; try (vm_compute; done). right. vm_compute. reflexivity.
Defined.

Definition evidence_environ : Environ := purge_environ.
Lemma printed_receipts_are_evidence_witness :
  exists report, fst (run (run_audit_command (DK := a_disk) action_line any_like evidence_environ purge_day
      ["purge-expired"] ∅) logged_database) = Ok (Ok (Printed_Purge report), ∅)
  /\ exists json, purge_report_json report = Some json
     /\ failures (validate_audit_retention_purge json no_findings).2 = [].
Proof.
  set (r := run _ logged_database).
  assert (exists report, fst r = Ok (Ok (Printed_Purge report), ∅)
    /\ exists json, purge_report_json report = Some json) as (report & Hr & json & Hj)
    by (eexists; split; [vm_compute; reflexivity|eexists; vm_compute; reflexivity]).
  exists report. split; [exact Hr|]. exists json. split; [exact Hj|].
  destruct printed_receipts_are_evidence as (Hpurge & _).
  { intros id. cbn. rewrite parse_signed_pretty. cbn. by rewrite N2Z.id. }
  { intros at_ text. cbn. destruct (i64_range at_) eqn:E; [|done]. intros [= <-]. by apply parse_i64_pretty. }
  apply (Hpurge action_line any_like evidence_environ purge_day [] ∅ logged_database report (snd r) json
    logged_keyed) in Hj; [apply Hj|].
  rewrite <- Hr. apply surjective_pairing.
Defined.
End evidence.
