(* ===== verification/ReportWitnesses.v ===== *)
(** * The release evidence at concrete inputs

    A small disk with a directory of evidence and a link to it: laid out,
    filled, and checked, also by the tools of the server.  Two lemmas
    show what gets past the checks: a README that was tampered with, and a
    directory that is a link. *)

From S2P Require Import Prelude RustStr Domain Authn Oidc Http Codec Store.
From S2P Require Import SessionStore Directory Lifecycle AuditStore Frames StatementFrames.
From S2P Require Import Handler KeyStore OAuthPolicy BrowserSession AuthorizeRequest Mfa Config Listing.
From S2P Require Import RequestContext KeyRotation Operator AuditOperations EvidenceRedaction EvidenceFields.
From S2P Require Import FileSystem Evidence EvidenceRegistry EvidenceReport EvidencePlan Mcp.

(** A disk that can be checked to be one. *)
Definition place_ok (fs : FileSystem) (place : Place) : bool :=
  match rev place with
  | [] => false
  | name :: front => is_name name && match node fs (rev front) with Some Folder => true | _ => false end
  end.
Definition disk_ok (fs : FileSystem) : bool :=
  forallb (fun entry => place_ok fs entry.1) (map_to_list (nodes fs))
  && match node fs (working_directory fs) with Some Folder => true | _ => false end.
Lemma disk_ok_wf fs : (forall names, arrange fs names ≡ₚ names) -> disk_ok fs = true -> fs_wf fs.
Proof.
  intros Ha [Hall Hw]%andb_true_iff. rewrite forallb_forall in Hall.
  assert (Hok : forall place n, nodes fs !! place = Some n -> place_ok fs place = true).
  { intros place n Hn. apply (Hall (place, n)), list_elem_of_In. by apply elem_of_map_to_list. }
  split.
  - intros at_ name n Hn%Hok. unfold place_ok in Hn. rewrite rev_unit in Hn. by apply andb_true_iff in Hn as [? _].
  - intros at_ name n Hn%Hok. unfold place_ok in Hn. rewrite rev_unit, rev_involutive in Hn.
    apply andb_true_iff in Hn as [_ ?]. by destruct (node fs at_) as [[]|].
  - done.
  - destruct (nodes fs !! []) as [n|] eqn:E; [|done]. by apply Hok in E.
  - by destruct (node fs _) as [[]|].
Qed.

Section reports.
(** Instants are written in decimal; the manifest is written as its date. *)
#[local] Instance decimal_format : TimeFormat :=
  {| rfc3339_format at_ := if i64_range at_ then Some (i64_to_string at_) else None |}.
#[local] Instance decimal_parse : Rfc3339Parse := {| rfc3339_parse := parse_i64 |}.
#[local] Instance no_calendar : Calendar := {| calendar_instant _ _ _ _ _ _ := None |}.
#[local] Instance dated_manifest : ManifestText :=
  {| manifest_to_string_pretty m :=
       text ← rfc3339_format (manifest_generated_at m); if utf8_valid text then Some text else None |}.
#[local] Instance dated_json : SerdeJson :=
  {| serde_json_from_str s :=
       if String.eqb s "{}" then Some (Object [])
       else at_ ← parse_i64 s; manifest_json (release_evidence_manifest at_) |}.
Definition srv : FileSystem :=
  mk_FileSystem {[ ["srv"] := Folder; ["srv"; "evidence"] := Folder; ["srv"; "there"] := Link "evidence" ]}
    (fun _ => false) id ["srv"] 40.
Definition a_day : Z := 24 * 60 * 60 * 1000000000.
Definition laid_out := init_release_evidence_directory (fun _ => "") srv "/srv/evidence" (100 * a_day) false (100 * a_day).
Definition filled : FileSystem :=
  foldr (fun spec fs => set_node fs ["srv"; "evidence"; spec_file_name spec] (File_ "{}" (Some (101 * a_day)%Z)))
    laid_out.2 EVIDENCE_SPECS.
Definition no_findings_at_all (validator : EvidenceValidator) (value : Value) : Validation unit := pass.
Notation checked fs := (check_release_evidence (fun _ => "") (fun _ => "") no_findings_at_all fs "there" (102 * a_day)%Z 30).

Lemma dated_instants_read_back : instants_read_back.
Proof. intros at_ text. cbn. destruct (i64_range at_) eqn:E; [|done]. intros [= <-]. by apply parse_i64_pretty. Qed.
Lemma dated_manifest_reads_back : manifest_reads_back.
Proof.
  intros generated_at text (t & Ht & H)%bind_Some. destruct (utf8_valid t) eqn:Hu; [|done]. injection H as <-.
  split; [done|]. pose proof (dated_instants_read_back _ _ Ht) as Hp. cbn in Hp. change (manifest_generated_at _) with generated_at in Ht, Hp.
  assert (exists v, manifest_json (release_evidence_manifest generated_at) = Some v) as [v Hv].
  { eexists. unfold manifest_json. change (manifest_generated_at _) with generated_at. by rewrite Ht. }
  exists v. split; [done|]. cbn [serde_json_from_str dated_json]. destruct (String.eqb_spec t "{}") as [->|_]; [done|].
  rewrite Hp. exact Hv.
Qed.
Lemma ready_directory_is_complete_witness :
  exists report, checked filled = Ok report /\ report_status report = "ready"
  /\ only_evidence filled ["srv"; "evidence"] EVIDENCE_SPECS.
Proof.
  assert (exists report, checked filled = Ok report) as [report Hr] by (eexists; vm_compute; reflexivity).
  exists report. split; [exact Hr|].
  destruct (ready_directory_is_complete (fun _ => "") (fun _ => "") no_findings_at_all
    (fun _ _ => pushes_ret tt) filled "there" (102 * a_day)%Z 30 report) as (place & Hplace & Hready & _).
  { apply disk_ok_wf; [done|]. vm_compute. reflexivity. }
  { exact Hr. }
  assert (place = ["srv"; "evidence"]) as ->.
  { assert (resolve filled true false "there" = Ok ["srv"; "evidence"]) as H by (vm_compute; reflexivity).
    rewrite H in Hplace. by injection Hplace. }
  assert (report_status report = "ready") as Hs.
  { assert (result_fmap _ _ _ report_status (checked filled) = Ok "ready") as H by (vm_compute; reflexivity).
    rewrite Hr in H. by injection H. }
  split; [exact Hs|]. by apply Hready in Hs as (_ & _ & ?).
Defined.

Lemma initialized_directory_is_current_witness :
  node laid_out.2 ["srv"; "there"] = Some (Link "evidence")
  /\ validate_release_evidence_scaffold (fun _ => "") laid_out.2 "/srv/evidence" (110 * a_day)%Z 30 = Ok [].
Proof.
  assert (exists report, laid_out.1 = Ok report) as [report Hr] by (eexists; vm_compute; reflexivity).
  destruct (initialized_directory_is_current (fun _ => "") srv "/srv/evidence" (100 * a_day)%Z false (100 * a_day)%Z
    laid_out.1 laid_out.2 dated_manifest_reads_back dated_instants_read_back (surjective_pairing _)) as [(_ & _ & _ & Hkept) Hnew].
  split.
  - assert (is_Some (node srv ["srv"; "there"])) as Hthere by (eexists; vm_compute; reflexivity).
    destruct (Hkept _ Hthere) as [E|(H & _)]; [rewrite E; vm_compute; reflexivity|discriminate H].
  - apply (Hnew report Hr). unfold fresh, a_day. lia.
Defined.

(** The README may say anything next to the guidance that is looked for. *)
Definition tampered_readme : string :=
  "Commit everything. Do not commit the evidence artifacts cairnid evidence check Do not add screenshots, raw provider exports".
Definition tampered : FileSystem :=
  set_node filled ["srv"; "evidence"; RELEASE_EVIDENCE_README_FILE] (File_ tampered_readme (Some (101 * a_day)%Z)).
Lemma tampered_readme_is_ready :
  tampered_readme <> release_evidence_readme (release_evidence_manifest (100 * a_day))
  /\ result_fmap _ _ _ report_status (checked tampered) = Ok "ready".
Proof. split; [vm_compute; discriminate|vm_compute; reflexivity]. Qed.

(** A server on the disk, asked for the evidence. *)
Definition tool_server : CairnIdMcpServer := mk_CairnIdMcpServer "/srv" "/srv".
Definition asked_for (dir : string) : JsonObject := [("evidence_dir", String_ dir); ("max_age_days", Null)].
Notation status_of fs dir := (evidence_status (fun _ => "") (fun _ => "") no_findings_at_all tool_server fs
  (asked_for dir) (102 * a_day)%Z).
Notation check_of fs dir := (evidence_check (fun _ => "") (fun _ => "") no_findings_at_all tool_server fs
  (asked_for dir) (102 * a_day)%Z).

Lemma evidence_requests_are_confined_witness :
  exists summary, check_of filled "evidence" = Some (Ok summary) /\ summary_status summary = "ready"
  /\ fixed_words summary (102 * a_day)%Z 30.
Proof.
  assert (exists summary, check_of filled "evidence" = Some (Ok summary)) as [summary Hc]
    by (eexists; vm_compute; reflexivity).
  exists summary. split; [exact Hc|].
  assert (Hserver : startup_evidence_root srv (Some "/srv") = Ok tool_server) by (vm_compute; reflexivity).
  destruct (evidence_requests_are_confined (fun _ => "") (fun _ => "") no_findings_at_all (fun _ _ => pushes_ret tt)
    srv filled (Some "/srv") tool_server (asked_for "evidence") (102 * a_day)%Z (check_of filled "evidence"))
    as [(error & _ & He)|(request & report & Hrequest & _ & H)].
  { apply disk_ok_wf; [done|]. vm_compute. reflexivity. }
  { apply disk_ok_wf; [done|]. vm_compute. reflexivity. }
  { exact Hserver. }
  { right. reflexivity. }
  { rewrite Hc in He. discriminate He. }
  assert (request = mk_EvidenceDirectoryRequest (Some "evidence") None) as ->.
  { injection Hrequest as <-. reflexivity. }
  assert (exists text, rfc3339_format (102 * a_day)%Z = Some text) as [text Ht] by (eexists; vm_compute; reflexivity).
  rewrite Ht in H. destruct H as (told & _ & [Htold|(error & Htold & _)] & Hwords & _); [|by rewrite Hc in Htold].
  rewrite Hc in Htold. injection Htold as <-. split; [|exact Hwords].
  assert (match check_of filled "evidence" with Some (Ok s) => summary_status s | _ => "" end = "ready") as Hready
    by (vm_compute; reflexivity).
  by rewrite Hc in Hready.
Defined.
(** Nothing but the scaffold: the status tells what is missing, the check fails. *)
Lemma check_is_strict_status_witness :
  exists summary error, status_of laid_out.2 "evidence" = Some (Ok summary)
  /\ check_of laid_out.2 "evidence" = Some (Err error) /\ error_summary error = Some summary
  /\ error_failure_code error = "missing_evidence".
Proof.
  assert (exists summary, status_of laid_out.2 "evidence" = Some (Ok summary)) as [summary Hs]
    by (eexists; vm_compute; reflexivity).
  pose proof (check_is_strict_status (fun _ => "") (fun _ => "") no_findings_at_all (fun _ _ => pushes_ret tt)
    tool_server laid_out.2 (asked_for "evidence") (102 * a_day)%Z _ Hs) as H. cbn beta iota in H.
  assert (match status_of laid_out.2 "evidence" with Some (Ok s) => String.eqb (summary_status s) "ready" | _ => true end
    = false) as Hready by (vm_compute; reflexivity).
  rewrite Hs in Hready. rewrite Hready in H. destruct H as (error & Hc & He & _). exists summary, error.
  split; [exact Hs|]. split; [exact Hc|]. split; [exact He|].
  assert (match check_of laid_out.2 "evidence" with Some (Err e) => error_failure_code e | _ => "" end
    = "missing_evidence") as Hcode by (vm_compute; reflexivity).
  by rewrite Hc in Hcode.
Defined.
(** A link to a directory is refused, unless a slash follows its name. *)
Lemma linked_directory_passes :
  resolve_evidence_dir_in_roots filled "/srv" "/srv" (Some "there") = Err SYMLINKED_EVIDENCE_DIR
  /\ resolve_evidence_dir_in_roots filled "/srv" "/srv" (Some "there/") = Ok "/srv/evidence".
Proof. split; vm_compute; reflexivity. Qed.
End reports.
