(* ===== verification/AdminWitnesses.v ===== *)
(** * The theorems on the administration at concrete inputs

    An owner of the administrators group who has just shown a second factor
    creates a group and a client and rotates the client's secret; the member
    of the sample organization may not. *)

From S2P Require Import Prelude RustStr Domain Authn Oidc Http Codec Store.
From S2P Require Import ClientStore SessionStore Directory Lifecycle AccountStore AuditStore.
From S2P Require Import Handler KeyStore OAuthPolicy RequestContext BrowserSession.
From S2P Require Import Mfa Login AccountRoutes Listing Frames StatementFrames AdminRoutes AdminClients.
From S2P Require Import Administration.
From S2P Require Import Samples MailWitnesses.

(** Every address is of one host. *)
Definition portal_url : UrlCrate := {|
  Url := string; Url_parse := Some; url_scheme _ := "https"; url_host _ := Some (Host_Domain "portal.example");
  url_username _ := ""; url_password _ := None; url_fragment _ := None; url_port _ := None;
  url_cannot_be_a_base _ := false;
|}.

Section administration.
#[local] Existing Instances sample_crypto sample_tokens sample_aes sample_http portal_url sample_uuids
  sample_argon2 sample_times.

Definition administrators : Group := mk_Group 4 1 "administrators" None "Administrators" sample_time.
Definition owner_session : SessionRow :=
  mk_SessionRow (mk_AuthSession 6 1 2 "urn:cairn:acr:password+totp" ["pwd"; "otp"; "mfa"]
    sample_time sample_later None) None None.
Definition admin_database : Database :=
  on_groups (fun _ => {[4%N := administrators]})
    (on_auth_sessions (fun _ => list_to_map [(6%N, owner_session); (16%N, sample_session 16 3)])
       sample_database).
Definition member_headers : HeaderMap (HttpCrates := sample_http) :=
  [("cookie", "cairn_csrf=" +:+ sample_csrf +:+ "; cairn_session=16"); ("x-cairn-csrf", sample_csrf)].
Definition sample_admin_env (id : Uuid) (secret : string) : AdminEnv :=
  mk_AdminEnv 2000 2000 2000 id (id + 1) secret "salt" (id + 2) 2000 sample_account_env.

Lemma administration_is_guarded_witness :
  let page := create_group_route mfa_state (sample_admin_env 90 "secret") in
  is_ok (fst (run (page browser_headers "staff" "Staff") admin_database)) = true
  /\ (exists actor, acting admin_database mfa_state browser_headers 2000 2000 actor)
  /\ is_ok (fst (run (page member_headers "staff" "Staff") admin_database)) = false.
Proof.
  intros page. assert (Hok : is_ok (fst (run (page browser_headers "staff" "Staff") admin_database)) = true)
    by (vm_compute; reflexivity).
  split; [exact Hok|]. split; [|vm_compute; reflexivity].
  exact (administration_is_guarded mfa_state browser_headers 2000 2000 92 _ _ _ _ _
    (route_create_group mfa_state browser_headers (sample_admin_env 90 "secret") "staff" "Staff")
    (surjective_pairing _) (or_intror Hok)).
Defined.

Lemma administration_is_recorded_witness :
  let r := run (create_group_route mfa_state (sample_admin_env 90 "secret") browser_headers "staff" "Staff")
             admin_database in
  exists event, t_audit_events (snd r) = {[92%N := event]} /\ audit_actor_id event = Some 2%N.
Proof.
  intros r.
  pose proof (administration_is_recorded mfa_state browser_headers 2000 2000 92 _ _ _ _ _
    (route_create_group mfa_state browser_headers (sample_admin_env 90 "secret") "staff" "Staff")
    (surjective_pairing r)) as H.
  assert (Hok : exists g, fst r = Ok g) by (eexists; vm_compute; reflexivity).
  destruct Hok as [g Hg]. rewrite Hg in H. destruct H as [H|(actor & [Hs _ _ _ _] & H)].
  - exfalso. apply (f_equal (fun db => size (t_audit_events db))) in H. vm_compute in H. discriminate.
  - destruct H as (event & _ & He & _ & _ & _ & Ha). exists event. split; [exact He|].
    assert (Hu : session_user_id actor = 2%N); [|by rewrite <- Hu].
    destruct Hs as (raw & id & Hraw & Hid & Hs). assert (raw = "6") as -> by (vm_compute in Hraw; congruence).
    vm_compute in Hid. injection Hid as <-. unfold usable_session in Hs.
    destruct Hs as (Hrow & _). vm_compute in Hrow. by injection Hrow as <-.
Defined.

(** A change that no event tells of: the statement that records the group is
    the one that fails, the group is there and the reply is an error. *)
Lemma group_without_event :
  let '(pool, after) :=
    run_schedule [(0, Answered); (0, Answered); (0, Answered); (0, Answered); (0, Failed)]
      ([create_group_route mfa_state (sample_admin_env 90 "secret") browser_headers "staff" "Staff"],
       admin_database) in
  pool = [fail api_database_error] /\ is_Some (t_groups after !! 90%N)
  /\ t_audit_events after = t_audit_events admin_database.
Proof. vm_compute. split; [reflexivity|]. split; [by eexists|reflexivity]. Qed.

Lemma admin_members_wf : members_wf admin_database.
Proof.
  intros k m Hk. cbn in Hk. apply lookup_insert_Some in Hk as [[<- <-]|[_ Hk]]; [by split|].
  apply lookup_insert_Some in Hk as [[<- <-]|[_ Hk]]; [by split|].
  by rewrite lookup_empty in Hk.
Qed.
Lemma administration_is_confined_witness :
  members_wf admin_database
  /\ stays_in 1 admin_database
       (run (create_group_route mfa_state (sample_admin_env 90 "secret") browser_headers "staff" "Staff")
          admin_database).2.
Proof.
  pose proof admin_members_wf as Hwf.
  split; [exact Hwf|].
  exact (proj2 (administration_is_confined mfa_state browser_headers 2000 2000 92 _ _ admin_database
    (route_create_group mfa_state browser_headers (sample_admin_env 90 "secret") "staff" "Staff") Hwf)).
Defined.

Definition sample_create_client : CreateClientRequest :=
  mk_CreateClientRequest "portal" "Portal" ["https://portal.example/cb"] [] ["openid"; "profile"] false None.
Definition portal_auth (secret : string) : OAuthClientAuth := mk_OAuthClientAuth (Some "portal") (Some secret).
Lemma client_secret_round_trip_witness :
  let created := run (create_client_route mfa_state (sample_admin_env 90 "one") browser_headers
                        sample_create_client) admin_database in
  let rotated := run (rotate_client_secret_route mfa_state (sample_admin_env 95 "two") browser_headers 90)
                   (snd created) in
  let authenticate secret := run (authenticated_client_from_request mfa_state (portal_auth secret)) in
  exists client rotated_client,
    authenticate "one" (snd created) = (Ok client, snd created)
    /\ authenticate "two" (snd rotated) = (Ok rotated_client, snd rotated)
    /\ authenticate "one" (snd rotated) <> (Ok rotated_client, snd rotated).
Proof.
  intros created rotated authenticate.
  assert (Hc : exists shown, fst created = Ok (shown, Some "one")) by (eexists; vm_compute; reflexivity).
  destruct Hc as [shown Hc].
  destruct (client_secret_round_trip mfa_state (sample_admin_env 90 "one") browser_headers sample_create_client
    admin_database shown (Some "one") (snd created))
    as (client & _ & _ & _ & Hid & _ & _ & _ & _ & _ & _ & _ & Hauth & Hrot);
    [by rewrite <- Hc, <- surjective_pairing|].
  assert (Hr : exists shown2, fst rotated = Ok (shown2, "two")) by (eexists; vm_compute; reflexivity).
  destruct Hr as [shown2 Hr].
  assert (Hrun : rotated = (Ok (shown2, "two"), snd rotated)) by (by rewrite <- Hr, <- surjective_pairing).
  exists client, (client_set_secret_hash (Some (hash_token "two")) client).
  split; [|split].
  - apply Hauth; [reflexivity|]. split; [by rewrite Hid|reflexivity].
  - apply (proj2 (Hrot _ _ _ _ _ _ (portal_auth "two") eq_refl Hrun)). split; [by cbn; rewrite Hid|reflexivity].
  - intros H. apply (proj2 (Hrot _ _ _ _ _ _ (portal_auth "one") eq_refl Hrun)) in H as [_ H]. discriminate H.
Defined.
End administration.
