(* ===== verification/ScimWitnesses.v ===== *)
(** * The theorems on provisioning at concrete inputs

    A provisioning client creates a user, suspends another and asks for more
    than it may have in the sample organization of the administration. *)

From S2P Require Import Prelude RustStr Domain Authn Oidc Http Codec Store.
From S2P Require Import SessionStore Directory Lifecycle AuditStore.
From S2P Require Import Handler KeyStore OAuthPolicy RequestContext BrowserSession.
From S2P Require Import Frames StatementFrames AdminRoutes ScimProtocol ScimQuery ScimInput.
From S2P Require Import ScimWellFormed ScimFilters ScimProjections ScimRoutes ScimListings ScimBulk ScimJobs.
From S2P Require Import Provisioning Samples AdminWitnesses.

Section provisioning.
(** Identifiers are written in decimal; a document is decoded by its name. *)
Definition decimal_tokens : TokenCrates := {|
  jwt_encode _ _ _ := None;
  uuid_to_string id := i64_to_string (Z.of_N id);
|}.
Definition grace_request : ScimUserRequest :=
  mk_ScimUserRequest [] "grace@acme.example" (Some "hr-7") None (Some "Grace") None [].
Definition member_of (value : Value) : list ScimGroupMemberRequest :=
  match value_get value "member" with
  | Some (String_ text) =>
      match Z.to_N <$> parse_i64 text with
      | Some id => [mk_ScimGroupMemberRequest id None None None]
      | None => []
      end
  | _ => []
  end.
Definition sample_serde : ScimSerde := {|
  strings_from_value _ := None; name_from_value _ := None; email_from_value _ := None;
  emails_from_value _ := None; member_from_value _ := None;
  user_request_from_value _ := Some grace_request;
  group_request_from_value v := Some (mk_ScimGroupRequest [] None (Some "Staff") (member_of v));
  patch_request_from_value _ := None;
|}.
#[local] Existing Instances sample_crypto decimal_tokens sample_aes sample_http sample_uuids
  sample_times sample_serde.

Definition user_bytes (body : string) : option ScimUserRequest := Some grace_request.
Definition no_bytes {A} (body : string) : option A := None.
Definition scim_headers (token : string) : HeaderMap (HttpCrates := sample_http) :=
  [("authorization", "Bearer " +:+ token); ("content-type", "application/scim+json")].
Definition sample_scim_env (id : Uuid) : ScimEnv := mk_ScimEnv id 2000 (id + 1) 2000.
Definition create_grace (token : string) : HandlerOf ScimError Reply :=
  scim_create_user Some user_bytes mfa_state (sample_scim_env 90) (scim_headers token) "{}".
Definition suspend (id : Uuid) : HandlerOf ScimError Reply :=
  scim_delete_user Some mfa_state (sample_scim_env 95) (scim_headers "scim-secret") id.

Lemma provisioning_is_guarded_witness :
  bearer_shown mfa_state (scim_headers "scim-secret")
  /\ is_ok (run (create_grace "scim-secret") admin_database).1 = true
  /\ is_ok (run (create_grace "other") admin_database).1 = false.
Proof.
  assert (Hok : is_ok (run (create_grace "scim-secret") admin_database).1 = true) by (vm_compute; reflexivity).
  split; [|split; [exact Hok|vm_compute; reflexivity]].
  exact (proj1 (provisioning_is_guarded Some elements no_bytes user_bytes no_bytes no_bytes no_bytes
    mfa_state (scim_headers "scim-secret") (create_grace "scim-secret") _ _ _
    (route_create_user _ _ _ _ _ _ _ mfa_state (scim_headers "scim-secret") (sample_scim_env 90) "{}")
    (surjective_pairing _) (or_intror Hok))).
Defined.

(** A user is created while another is suspended, and the connection is lost
    on the way. *)
Definition two_pages (id : Uuid) : list (Prog (Prelude.result ScimError Reply)) :=
  [create_grace "scim-secret"; suspend id].
Definition sample_schedule : list (nat * Fault) :=
  [(0, Answered); (1, Answered); (0, Answered); (0, Answered); (1, Lost); (0, Lost)].
Lemma two_pages_provision id :
  Forall (provisioning_page Some elements no_bytes user_bytes no_bytes no_bytes no_bytes mfa_state) (two_pages id).
Proof. repeat constructor; exists (scim_headers "scim-secret"); constructor. Qed.
Lemma provisioning_is_confined_witness :
  let s := run_schedule sample_schedule (two_pages 3, admin_database) in
  stays_in 1 admin_database s.2 /\ is_Some (t_users s.2 !! 90%N)
  /\ (user_status ∘ uwp_user <$> t_users s.2 !! 3%N) = Some UserStatus_Suspended.
Proof.
  intros s. split; [|split; [vm_compute; eexists; reflexivity|vm_compute; reflexivity]].
  exact (proj2 (provisioning_is_confined Some elements no_bytes user_bytes no_bytes no_bytes no_bytes
    mfa_state _ _ s.1 s.2 (two_pages_provision 3)
    (eq_ind s (rtc pool_step _) (run_schedule_steps sample_schedule _) _ (surjective_pairing s))
    admin_members_wf)).
Defined.
Lemma administrators_out_of_reach_witness :
  let s := run_schedule sample_schedule (two_pages 2, admin_database) in
  t_memberships s.2 !! (2%N, 4%N) = t_memberships admin_database !! (2%N, 4%N)
  /\ (user_status ∘ uwp_user <$> t_users s.2 !! 2%N) = Some UserStatus_Active.
Proof.
  intros s. split; [|vm_compute; reflexivity].
  refine (proj2 (proj1 (administrators_out_of_reach Some elements no_bytes user_bytes no_bytes no_bytes no_bytes
    mfa_state _ _ s.1 s.2 (two_pages_provision 2)
    (eq_ind s (rtc pool_step _) (run_schedule_steps sample_schedule _) _ (surjective_pairing s))
    _)) (2%N, 4%N) administrators _ _).
  - intros k m Hk. apply (admin_members_wf k m Hk).
  - reflexivity.
  - split; reflexivity.
Defined.

Lemma scim_listings_are_bounded_witness :
  exists reply,
    run (scim_list_users mfa_state (scim_headers "scim-secret") (Some "count=1&startIndex=2")) admin_database
      = (Ok reply, admin_database) /\ bounded_reply reply.
Proof.
  set (page := scim_list_users mfa_state (scim_headers "scim-secret") (Some "count=1&startIndex=2")).
  destruct (run page admin_database) as [r db'] eqn:E.
  assert (Hok : is_ok (run page admin_database).1 = true) by (vm_compute; reflexivity).
  destruct (scim_listings_are_bounded no_bytes mfa_state (scim_headers "scim-secret") page admin_database r db'
    (listing_users no_bytes mfa_state (scim_headers "scim-secret") (Some "count=1&startIndex=2")) E) as [Hdb Hr].
  rewrite E in Hok. destruct r as [reply|]; [|discriminate Hok].
  exists reply. split; [by rewrite Hdb|]. by apply Hr.
Defined.

(** A group whose member is created by the same request, an operation that
    refers to nothing, and two that refer to each other. *)
Definition bulk_operation (method id path : string) (data : option Value) : ScimBulkJobOperation :=
  mk_ScimBulkJobOperation method (Some id) (mk_ScimBulkOperationRequest method (Some id) path data).
Definition sample_job : list ScimBulkJobOperation :=
  [bulk_operation "POST" "g" "/Groups" (Some (Object [("member", String_ "bulkId:u")]));
   bulk_operation "POST" "u" "/Users" (Some (Object []));
   bulk_operation "DELETE" "d" "/Users/bulkId:nobody" None;
   bulk_operation "POST" "a" "/Groups" (Some (String_ "bulkId:b"));
   bulk_operation "POST" "b" "/Groups" (Some (String_ "bulkId:a"))].
Definition sample_dependencies : list (gset string) :=
  match collect_results (fun operation => scim_bulk_reference_dependencies (job_operation operation)) sample_job with
  | Ok dependencies => dependencies
  | Err _ => []
  end.
Definition bulk_envs (i : nat) : ScimEnv := sample_scim_env (100 + 10 * N.of_nat i).
Definition run_job (limit : option nat) : Prelude.result ScimError (list Value) * Database :=
  run (execute_scim_bulk_job elements mfa_state bulk_envs (scim_headers "scim-secret") sample_job limit)
    admin_database.
Definition statuses (responses : list Value) : list (option Value) :=
  List.map (fun response => value_get response "status") responses.

Lemma bulk_job_answers_every_operation_witness :
  exists responses db', run_job None = (Ok responses, db') /\ Forall2 answers sample_job responses
    /\ statuses responses = [Some (String_ "201"); Some (String_ "201"); Some (String_ "400");
                             Some (String_ "409"); Some (String_ "409")].
Proof.
  destruct (bulk_job_answers_every_operation elements mfa_state bulk_envs (scim_headers "scim-secret") sample_job
    sample_dependencies admin_database (fun s => reflexivity _)) as (responses & db' & Hrun & Hall);
    [vm_compute; reflexivity|].
  exists responses, db'. split; [exact Hrun|]. split; [exact Hall|].
  assert (H : (match (run_job None).1 with Ok l => statuses l | Err _ => [] end)
              = [Some (String_ "201"); Some (String_ "201"); Some (String_ "400");
                 Some (String_ "409"); Some (String_ "409")]) by (vm_compute; reflexivity).
  unfold run_job in H. rewrite Hrun in H. exact H.
Defined.
Lemma bulk_references_are_created_witness :
  exists outcomes,
    (run_job (Some 2)).1 = Ok (omap id (render_all sample_job outcomes))
    /\ references_created sample_job outcomes
    /\ (length (List.filter is_error outcomes) <= 2)%nat
    /\ t_memberships (run_job (Some 2)).2 !! (110%N, 100%N) <> None.
Proof.
  destruct (bulk_references_are_created elements mfa_state bulk_envs (scim_headers "scim-secret") sample_job
    sample_dependencies (Some 2) admin_database (run_job (Some 2)).1 (run_job (Some 2)).2
    (fun s => reflexivity _)) as (outcomes & Hr & _ & Hc & He).
  - intros k [= <-]. lia.
  - vm_compute. reflexivity.
  - apply surjective_pairing.
  - exists outcomes. split; [exact Hr|]. split; [exact Hc|]. split; [exact (He 2 eq_refl)|].
    vm_compute. discriminate.
Defined.

(** ** Inputs *)

Definition remove_member (filter : string) : ScimPatchRequest :=
  mk_ScimPatchRequest [SCIM_PATCH_OP_SCHEMA]
    [mk_ScimPatchOperation "remove" (Some ("members[value eq " +:+ quoted filter +:+ "]")) None].
Definition as_member (id : Uuid) : ScimGroupMember :=
  mk_ScimGroupMember 4 id "ada@acme.example" "Ada" MembershipRole_Member sample_time.
Lemma scim_inputs_are_typed_witness :
  (exists input, scim_user_input grace_request = Ok input /\ user_input_ok 320 input)
  /\ exists input,
    scim_patch_group_input administrators [as_member 2; as_member 3] (remove_member "3") = Ok input
    /\ group_input_member_user_ids input = [2%N] /\ group_input_ok input.
Proof.
  split.
  - assert (H : exists input, scim_user_input grace_request = Ok input) by (eexists; vm_compute; reflexivity).
    destruct H as [input H]. exists input. split; [exact H|].
    exact (proj1 (proj1 scim_inputs_are_typed grace_request input H)).
  - assert (H : exists input, scim_patch_group_input administrators [as_member 2; as_member 3] (remove_member "3")
                  = Ok input /\ group_input_member_user_ids input = [2%N])
      by (eexists; split; vm_compute; reflexivity).
    destruct H as (input & H & Hm). exists input. split; [exact H|]. split; [exact Hm|].
    refine (proj2 (proj2 (proj2 scim_inputs_are_typed)) administrators [as_member 2; as_member 3]
              (remove_member "3") input _ _ H).
    + intros t [=].
    + apply (bool_decide_unpack _). vm_compute. exact I.
Defined.
Lemma group_patch_refines_sets_witness :
  let state := mk_ScimGroupPatchState "Staff" None [2%N; 3%N] in
  NoDup [2%N; 3%N]
  /\ (let? state' := apply_scim_group_patch_path_value state (GroupPath_Members (Some 3%N) true) (String_ "9")
                       Op_Replace in Ok (member_set state')) = Ok ({[9%N; 2%N]} : gset Uuid).
Proof.
  intros state. assert (Hn : NoDup [2%N; 3%N]) by (apply (bool_decide_unpack _); vm_compute; exact I).
  split; [exact Hn|].
  refine (eq_trans (proj1 (group_patch_refines_sets Op_Replace (Some 3%N) true (String_ "9") state Hn)) _).
  vm_compute. reflexivity.
Defined.
Lemma scim_filter_round_trip_witness :
  let name := "Ada " +:+ quoted "and " +:+ quoted " and " in
  scim_group_filter (print_group_filter (mk_ScimGroupListFilter (Some name) None))
  = Ok (mk_ScimGroupListFilter (Some name) None).
Proof.
  intros name. apply (proj1 (proj2 (proj2 (proj2 scim_filter_round_trip)))); [|discriminate].
  split; intros t [= <-]. split; [discriminate|]. split; [vm_compute; reflexivity|].
  apply (bool_decide_unpack _). vm_compute. exact I.
Defined.
Lemma projection_spec_witness :
  let resource := Object [("schemas", Array []); ("id", String_ "2"); ("active", Bool true); ("name", Null)] in
  value_get (scim_apply_projection resource (Projection_Include [top_path "active"])) "name" = None
  /\ value_get (scim_apply_projection resource (Projection_Exclude [top_path "active"])) "name" = Some Null.
Proof.
  intros resource. apply (proj1 (proj2 (projection_spec resource [top_path "active"]))).
  - intros [H|H]; discriminate H.
  - intros (path & Hin & H). apply list_elem_of_singleton in Hin as ->. discriminate H.
Defined.
End provisioning.
